(* ===== verification/_CoqProject ===== *)
-Q . S2P
Prelude.v
UtilList.v
UtilScalar.v
RxReorder.v
RxTable.v
Amsdu.v
BridgeData.v
BridgeQueue.v
BridgeKeepalive.v
BridgePending.v
BridgeLifecycle.v
BridgeSwitch.v
CmdQueue.v
CmdInv.v
CmdSafe.v
CmdResp.v
CmdCancel.v
CmdRun.v
CmdFlow.v
ScanPlan.v
ScanQueue.v
MainProc.v
CmdStill.v
PowerSave.v
MainLoop.v
MainRun.v
WmmPrio.v
WmmTbl.v
WmmInv.v
WmmFlow.v
WmmRun.v
WmmPick.v
WmmCont.v
WmmMc.v
WmmSta.v
TxBa.v
SdioTx.v
SdioRx.v
SdioRxSafe.v
