(* ===== verification/Prelude.v ===== *)
(** * Verification of the wlan-driver-v2 Wi-Fi driver

    A library of models of the NXP Wi-Fi driver under src/ with the theorems that
    make the modelled parts correct.  This file is its root: the documentation of
    the whole, and what the components share (machine integers, list and counting
    lemmas, status values, the hint database [driver]).

    ** The program

    The driver has two layers.  mlan (src/mlan/) is the portable core: it turns
    requests into firmware commands, keeps the command queue, plans scans, queues
    and schedules transmit packets, and receives and reorders packets.  moal
    (src/mlinux/) is the Linux glue: network devices, interrupts and work queues,
    and in this fork an L2 bridge
    (moal_bridge.c) that joins the WLAN station to a peer Ethernet device under
    one MAC address.  mlan calls moal through callbacks; moal calls
    [mlan_main_process] and [mlan_rx_process], which serialise everything mlan
    does with the card.

    ** Files and what they model

    - UtilList, UtilScalar: src/mlan/mlan_util.h.  The intrusive lists on a heap
      (the queues of all other components are plain lists on the strength of
      [DList.list_ops_refine]), the access-controlled scalars, bitcount.
    - RxReorder: the per-packet half of src/mlan/mlan_11n_rxreorder.c, one
      block-ack stream.  RxTable: the table of streams of an interface and the
      messages that create and delete them.  RxTable calls RxReorder the way
      [mlan_11n_rxreorder_pkt] does.
    - Amsdu: src/mlan/mlan_11n_aggr.c, byte level.
    - WmmPrio: access categories, queue order and TID tables of
      src/mlan/mlan_wmm.c.  WmmTbl: its per-receiver lists and their counters with
      every operation on them; the two halves of a send are two operations, as the
      lock is free between them.  WmmInv: the invariant of lists and counters.
      WmmFlow: where every packet goes.  WmmRun: any interleaving of the
      operations, and what goes wrong where a caller's condition fails.  WmmPick:
      which interface, TID and list is served next, one client at a time
      ([mclient_tx_supported] off).  WmmCont, WmmMc, WmmSta: the same with many
      clients: the contention between the queues, the budgets of the clients and
      the choice of the next list, which falls back on WmmPick; the rates the
      budgets follow, with the query and its answer (mlan_cmdevt.c), and the
      shares of the queue.  TxBa: the block-ack streams for transmission
      (src/mlan/mlan_11n.c, mlan_11n.h), from the packet that asks for one to the
      answers of the firmware.
    - CmdQueue: the command nodes and queues of src/mlan/mlan_cmdevt.c, with the
      scan responses of mlan_scan.c and the error handler of mlan_sta_cmdresp.c.
      CmdInv: the invariant of the queue, where every node is and which requests
      are owed a completion.  CmdSafe, CmdResp, CmdCancel: every operation has a
      result, keeps the invariant and settles the account; response handlers are
      taken through the classes [CmdHandler] and [InitHandler], which the modelled
      handlers are instances of.  CmdRun: any sequence of operations from an
      allocated pool.  CmdFlow: functional theorems on single operations.
    - ScanPlan: [wlan_scan_channel_list] of src/mlan/mlan_scan.c and the blocked
      channels of mlan_cfp.c.  ScanQueue: ScanPlan and CmdQueue composed.
    - MainProc: the protocol of src/mlan/mlan_shim.c that admits one runner of the
      main and of the receive process, and the receive loop.  CmdStill: what the
      callers of the command queue leave alone.  PowerSave: the sleep handshake
      with an SDIO card, with its interrupts and timer.  MainLoop: the body of
      [mlan_main_process] in phases, with the contract of the handlers it calls as
      the class [MainHandlers].  MainRun: MainLoop in the protocol of MainProc.
    - SdioTx: the transmit side of src/mlan/mlan_sdio.c and mlan_sdio.h, between the
      packets the queues hand over and the bytes and addresses the card is given:
      write ports, multi-port aggregation with the bounce buffer and with
      scatter-gather, failing transfers, commands, the download interrupt.  SdioRx:
      the receive side, from the interrupt that reports ports to the packets,
      responses and events handed up.  SdioRxSafe: the same when the card answers
      anything, with every buffer accounted for.
    - BridgeData: the ingress paths and drain threads of src/mlinux/moal_bridge.c;
      BridgeQueue: its queues under concurrency; BridgeKeepalive: the keepalive
      timer against its producers; BridgePending: the deferred switch request and
      its work function; BridgeLifecycle: creation, destruction and the netdevice
      notifier with a ledger of every kernel resource; BridgeSwitch: ownership,
      suspend and resume, the runtime switch with its rollback, and the deferred
      work as a whole, on top of BridgePending and BridgeLifecycle.

    Definitions keep the names of the C functions and fields; PROJECT.json maps
    each to its lines.  Where a C function is one long body, its parts are
    definitions named after it.

    ** Conventions

    - A function that can read through NULL, leave an array, or loop returns
      [option]; [None] is that failure, and theorems show when it cannot occur.
    - Integers are [Z] with the wrap of their width written out ([u16], [s32]).
    - What the kernel, the firmware or the allocator decides (results of
      allocations, device states, the clock, events delivered while no lock is
      held) is an argument, so theorems hold for all of it.
    - Code that runs under one lock is one step; where the code releases the lock
      in between, or uses atomics, the model is a transition relation that
      interleaves the pieces ([pstep], [qstep], [ka_step], [MainProc.step]).  The
      functions that cancel commands are sequences of operations of their own, one
      for each stretch under the lock (the [..._locked] parts and the flushes);
      [wlan_exec_next_cmd], [wlan_process_cmdresp] and [wlan_cancel_pending_ioctl]
      drop the command lock too and are one step all the same (CmdQueue).  The
      main process is cut into fourteen phases, between which interrupts, timers
      and callers come in ([env_step]).
    - Loops over queues have the number of nodes (or of packets, bits, bytes) as
      fuel; [None] stands for a loop that would go on, and the safety theorems
      show that the fuel suffices.  The scheduler for many clients has two turns
      for each linked list and each refill it needs ([WmmMc.total_work]).
    - What the callers of an operation owe it is a predicate of its own ([op_ok],
      [op_pre], [ba_op_ok], [ad_ok], ...), and the theorem that uses it says so: where
      the code does not ensure it, a theorem shows what happens then.

    ** What the theorems show

    - Reordering: the per-packet function refines a reorder buffer as long as the
      window does not wrap over packets it holds ([rxreorder_entry_refines]), hands packets up in order and once
      ([rx_stream_in_order], [rxreorder_entry_conserves]), and every operation on
      the table keeps it well-formed ([table_op_safe]).
    - A-MSDU: what is aggregated is what is delivered ([amsdu_end_to_end]).
    - Transmit queues: the queue order is the sort by back-off and the TID tables
      follow it ([queue_priorities_order]); in the interleavings in which the packet
      in the air keeps its list the counters are the sums over the lists and no packet
      is lost ([queues_accounted]); the
      scheduler serves the first interface and the highest rank that may send
      ([pick_first]), finds something within two calls if there is something
      ([pick_within_two]), queueing keeps its hint good ([add_keeps_hint]), and the
      receivers of a TID take turns over the sends ([round_robin]).  With many
      clients a contention round keeps time exactly and pins who draws again, and
      what ([contention_round]); when every client has a budget to start with, the
      choice of the next list ends, with a list that has a packet and budgets left if
      there is one ([next_priolist_found], [next_ra_list_terminates]); rates are those
      of the standard within one percent, but for dual carrier modulation and more
      than two HT streams ([phy_rate_close]); answers and queries keep the
      budgets good ([rate_answer], [rate_request]), and the shares of the queue
      add up ([queue_shares]).
    - Transmit block-ack: streams are unique, and one that waits has a DELBA on its
      way or one that was refused a command node ([streams_accounted],
      [refused_delba_strands_streams]), the right one gives way
      ([lowest_stream_gives_way]), a refusal is final ([refused_not_retried]), and
      the parameter words say what was meant ([block_ack_words]).
    - Commands: every operation is total on reachable states
      ([queue_operations_total]), each accepted request is completed once or still
      referred to from one place ([requests_completed_once],
      [cancel_ioctl_completes], [cancel_all_completes_everything]), what is sent and
      when ([exec_next_outcome], [preasleep_resend]), and which handler, of which
      interface, a response is given to ([response_reaches_interface]).
    - Scans: the commands cover the free channels in order
      ([channel_list_reference], [channel_list_shape]) and are queued that way
      ([scan_queued_in_order]).
    - Main process: in every interleaving one runner, a queue in order, no command
      outstanding while the card sleeps, no phase stuck
      ([main_process_consistent]); no work left behind, unless an interrupt falls
      between a wake-up and its record ([main_process_leaves_idle],
      [wakeup_race_blocks]); a wake-up is supervised and a command that
      finds the card asleep is sent ([wakeup_stays_supervised],
      [sleeping_command_is_sent]); receive order ([rx_process_in_order],
      [rx_limit_bound]).
    - SDIO: the transfers carry the packets taken, each in one and in order, for the
      port whose turn it was, through addresses that name these ports, and the card
      receives those of the transfers that go through
      ([packets_reach_ports_in_order]); none waits without a port for the next
      ([aggregate_never_blocked]), and each is completed by whom it should be
      ([pending_completed_once]).  What the ports hold is handed up once and in order
      ([uploads_delivered_in_order], [spa_packets_delivered], [cmd_port_delivers]),
      and no answer of the card makes the driver leave a buffer or, but for one in a
      failing transfer, lose one ([upload_safe]).
    - Bridge: every ingress path queues, releases, hands up or counts a packet, one of
      these exactly ([ingress_safe]);
      queues stay within their cap ([queue_cap_holds]); the keepalive timer has one
      owner and is never stranded; a deferred request is neither stuck nor loses a
      readiness edge reported to it ([pending_never_stuck], [pending_no_lost_edge]); everything
      acquired is released on every path ([lifecycle_balanced],
      [init_failure_releases_all], [deinit_releases_held]); a switch binds the
      target in its slot, is undone to the old device and slot, or reports the loss ([switch_outcome]).

    Some theorems show where the code does not do what it means to
    ([deauth_during_send_underflows], [reassociation_strands_packets],
    [duplicate_aci_loses_tids], [next_ra_list_starves], [selected_not_asked],
    [rate_updates_stop], [failed_delba_reads_freed], [refused_delba_strands_streams],
    [dcm_ignored], [pause_during_send_drifts], [rxba_sync_wide_bitmap_loops], [sg_failure_reported_as_success],
    [lowered_limit_overruns_arrays], [postcopy_overruns_buffer], [spa_stale_buffer],
    [failed_aggregate_leaks], [short_header_wraps], [wakeup_race_blocks], [rx_limit_exceeded],
    [blocked_mixes_bands], [blocked_tail_fails], [full_list_overrun],
    [delba_threshold_truncated], [deaggregate_overread], ...);
    PROJECT.json lists them as findings.

    ** Not modelled

    - The encoders and response handlers of individual commands, join,
      regulatory tables, negotiation of the power-save mode, 11ac/11ax:
      field-by-field processing of information elements, whose contract towards
      the command queue is the class [CmdHandler].
    - Of the command queue: the host-sleep commands that live outside the pool,
      vdll images, freeing the pool at exit, dumps, logs.
    - Of the transmit queues: the WMM commands (ADDTS, DELTS, status, queue
      configuration) and, with many clients, the creation and deletion of station
      tables together with the RA lists that point to them.
    - Of the block-ack streams: the capability elements and ioctls of 802.11n; whether
      a command gets a node is an argument.
    - Of the main process: PCIe and USB cards, the firmware shutdown at its exit,
      the transmission of packets (a handler with a contract).
    - Of the scans: building the channel array from the request, the other TLVs
      and the scan table.
    - Of the bridge: [moal_bridge_apply_sched] and [stats_show] (calls of the
      scheduler, formatted counters), the fault injection for tests
      (BRIDGE_SWITCH_FAULT_INJECT), log output.
    - Of the SDIO bus: what [moal_write_data_sync] and [moal_read_data_sync] do with
      the bytes, whose results are arguments; allocating the aggregation buffers;
      reading the interrupt registers; firmware download; debug counters of failed
      receives.  On older cards the theorems on sending need a ring that ends after
      port 10 ([old_ring_end_leaves_address]); [upload_safe] is about newer cards
      with a bounce buffer, a receive work queue and memory for every packet.
    - PCIe and USB (register and ring access), Linux registration, cfg80211 and
      ioctl front ends, user-space utilities: glue around the modelled core. *)

From stdpp Require Export base tactics numbers list option strings gmap.
From Stdlib Require Export ZArith Lia Bool.
#[global] Open Scope Z_scope.

(** ** Status and error values *)

(** [mlan_status] of mlan_decl.h, the values the modelled code returns. *)
Inductive mlan_status :=
| MLAN_STATUS_FAILURE
| MLAN_STATUS_SUCCESS
| MLAN_STATUS_PENDING
| MLAN_STATUS_RESOURCE.

#[export] Instance mlan_status_eq_dec : EqDecision mlan_status.
Proof. solve_decision. Defined.

(** Linux errno values used by moal_bridge.c (functions return their negation). *)
Definition EIO : Z := 5.
Definition EAGAIN : Z := 11.
Definition ENOMEM : Z := 12.
Definition EBUSY : Z := 16.
Definition ENODEV : Z := 19.
Definition EINVAL : Z := 22.
Definition EOPNOTSUPP : Z := 95.
Definition ENETDOWN : Z := 100.
Definition ESHUTDOWN : Z := 108.
Definition ESTALE : Z := 116.
Definition ENOLINK : Z := 67.
Definition ECANCELED : Z := 125.
Definition ERESTARTSYS : Z := 512.

(** ** Machine integers *)

(** Value of [x] stored in an unsigned [w]-bit integer. *)
Definition u_wrap (w : Z) (x : Z) : Z := x mod 2 ^ w.
(** Value of [x] stored in a two's complement signed [w]-bit integer. *)
Definition s_wrap (w : Z) (x : Z) : Z := (x + 2 ^ (w - 1)) mod 2 ^ w - 2 ^ (w - 1).

Abbreviation u8 := (u_wrap 8).
Abbreviation u16 := (u_wrap 16).
Abbreviation u32 := (u_wrap 32).
Abbreviation u64 := (u_wrap 64).
Abbreviation s32 := (s_wrap 32).
Abbreviation s64 := (s_wrap 64).

Create HintDb driver.

Lemma u_wrap_small w x : 0 <= x < 2 ^ w -> u_wrap w x = x.
Proof. apply Z.mod_small. Qed.

Lemma u_wrap_range w x : 0 <= w -> 0 <= u_wrap w x < 2 ^ w.
Proof. intros. apply Z.mod_pos_bound. lia. Qed.

Lemma s_wrap_small w x : 0 < w -> - 2 ^ (w - 1) <= x < 2 ^ (w - 1) -> s_wrap w x = x.
Proof.
  intros Hw Hx. unfold s_wrap. rewrite Z.mod_small; [lia|].
  replace (2 ^ w) with (2 * 2 ^ (w - 1)); [lia|].
  rewrite <- Z.pow_succ_r by lia. f_equal; lia.
Qed.

#[export] Hint Resolve u_wrap_small u_wrap_range s_wrap_small : driver.

(** ** Lists *)

(** Filtering with a predicate every element satisfies. *)
Lemma filter_id {A} (P : A → Prop) `{∀ x, Decision (P x)} (l : list A) :
  Forall P l → filter P l = l.
Proof. induction 1; [done|]. by rewrite filter_cons_True, IHForall. Qed.

(** The sum of a weight over a list. *)
Fixpoint zsum {A} (f : A → Z) (l : list A) : Z :=
  match l with [] => 0 | x :: l => f x + zsum f l end.

Lemma zsum_app {A} (f : A → Z) (l1 l2 : list A) : zsum f (l1 ++ l2) = zsum f l1 + zsum f l2.
Proof. induction l1 as [|x l1 IH]; simpl; lia. Qed.
Lemma zsum_nonneg {A} (f : A → Z) (l : list A) : (∀ x, 0 <= f x) → 0 <= zsum f l.
Proof. intros H. induction l as [|x l IH]; simpl; [lia|]. specialize (H x). lia. Qed.
Lemma zsum_insert {A} (f : A → Z) (l : list A) i p q :
  l !! i = Some p → zsum f (<[i := q]> l) = zsum f l - f p + f q.
Proof.
  revert i; induction l as [|x l IH]; intros [|i]; simpl; intros; simplify_eq; [lia|].
  rewrite (IH i); [lia|done].
Qed.
Lemma zsum_zero {A} (f : A → Z) (l : list A) : Forall (λ x, f x = 0) l → zsum f l = 0.
Proof. induction 1; simpl; lia. Qed.

(** Updating one element of a list in which some element has a property. *)
Lemma Exists_insert_other {A} (Q : A → Prop) (l : list A) i p q :
  l !! i = Some p → ¬ Q p → Exists Q l → Exists Q (<[i := q]> l).
Proof.
  intros Hi Hp. rewrite !Exists_exists. intros (x & Hx & HQ).
  apply list_elem_of_lookup in Hx as [j Hj].
  exists x. split; [|done]. apply list_elem_of_lookup. exists j.
  rewrite list_lookup_insert_ne; [done|]. intros <-. congruence.
Qed.
Lemma Exists_insert_here {A} (Q : A → Prop) (l : list A) i p q :
  l !! i = Some p → Q q → Exists Q (<[i := q]> l).
Proof.
  intros Hi Hq. rewrite Exists_exists. exists q. split; [|done].
  apply list_elem_of_lookup. exists i. apply list_lookup_insert_eq.
  by apply lookup_lt_Some in Hi.
Qed.
#[export] Hint Resolve zsum_nonneg : driver.

(** How often an element occurs in a list. *)
Fixpoint occ {A} `{EqDecision A} (x : A) (l : list A) : Z :=
  match l with [] => 0 | y :: l => (if decide (y = x) then 1 else 0) + occ x l end.

Section occ.
Context {A : Type} `{EqDecision A}.
Implicit Types (x : A) (l : list A).

Lemma occ_app x l1 l2 : occ x (l1 ++ l2) = occ x l1 + occ x l2.
Proof. induction l1 as [|y l1 IH]; simpl; lia. Qed.
Lemma occ_nonneg x l : 0 <= occ x l.
Proof. induction l as [|y l IH]; simpl; [lia|]. case_decide; lia. Qed.
Lemma occ_elem x l : x ∈ l ↔ 0 < occ x l.
Proof.
  induction l as [|y l IH]; simpl; [rewrite elem_of_nil; split; [done|lia]|].
  pose proof (occ_nonneg x l). rewrite elem_of_cons, IH.
  case_decide as E; split; try lia; [by left|]. intros [->|?]; [done|lia].
Qed.
Lemma occ_filter_ne x y l : occ x (filter (λ z, z ≠ y) l) = if decide (x = y) then 0 else occ x l.
Proof.
  induction l as [|z l IH]; [by case_decide|].
  cbn [filter list_filter]. fold (filter (λ z, z ≠ y) l).
  destruct (decide (z ≠ y)) as [Ez|Ez]; cbn [occ]; etransitivity;
    try (apply IH || (apply (f_equal (Z.add _)); apply IH));
    repeat case_decide; subst; try lia; tauto.
Qed.
Lemma occ_NoDup l : (∀ x, x ∈ l → occ x l = 1) → NoDup l.
Proof.
  induction l as [|y l IH]; intros Hone; constructor.
  - intros Hy. specialize (Hone y (list_elem_of_here _ _)). simpl in Hone.
    rewrite decide_True in Hone by done. apply occ_elem in Hy. lia.
  - apply IH. intros x Hx. specialize (Hone x ltac:(by right)). simpl in Hone.
    pose proof (proj1 (occ_elem x l) Hx). case_decide; lia.
Qed.
Lemma occ_length l n : (∀ x, x ∈ l → occ x l = 1) → (∀ x, x ∈ l → x ∈ n) → (length l <= length n)%nat.
Proof. intros Hone Hin. apply submseteq_length. apply NoDup_submseteq; [by apply occ_NoDup|done]. Qed.
End occ.
#[export] Hint Resolve occ_nonneg : driver.
