(* ===== verification/UtilList.v ===== *)
(** * mlan_util.h: circular doubly linked lists

    [Module DList] models the intrusive list operations of src/mlan/mlan_util.h
    on an explicit heap of nodes: a node or list head is an address, the heap
    maps an address to its [pprev]/[pnext] pair, and an access through an
    address that is not allocated (MNULL included) has no result.  The theorems
    show that the pointer operations implement the operations of a mathematical
    list, and that any sequence of operations a client can issue behaves like the
    same sequence on the list. *)

From S2P Require Import Prelude.

Module DList.

(** An address; 0 is MNULL. *)
Abbreviation addr := Z.
Definition MNULL : addr := 0.

(** [struct _mlan_linked_list]; a list head has the same two first fields. *)
Record mlan_linked_list := mk_node { pprev : addr; pnext : addr }.

Abbreviation heap := (gmap Z mlan_linked_list).

(** Reads and field updates through a pointer; [None] is a wild access. *)
Definition get_next (h : heap) (a : addr) : option addr := pnext <$> h !! a.
Definition get_prev (h : heap) (a : addr) : option addr := pprev <$> h !! a.
Definition set_next (h : heap) (a v : addr) : option heap :=
  n ← h !! a; Some (<[a := mk_node (pprev n) v]> h).
Definition set_prev (h : heap) (a v : addr) : option heap :=
  n ← h !! a; Some (<[a := mk_node v (pnext n)]> h).

(** The lock callbacks: [moal_spin_lock]/[moal_spin_unlock] may be MNULL, and
    their calls are observable as a trace. *)
Inductive lock_ev := Lock | Unlock.
Definition spin (cb : bool) (e : lock_ev) : list lock_ev := if cb then [e] else [].

Definition util_init_list (h : heap) (phead : addr) : option heap :=
  h ← set_next h phead phead; set_prev h phead phead.

Definition util_peek_list_nl (h : heap) (phead : addr) : option addr :=
  n ← get_next h phead;
  Some (if decide (n = phead) then MNULL else n).

Definition util_peek_list (h : heap) (phead : addr) (lk ul : bool)
  : option (addr * list lock_ev) :=
  n ← util_peek_list_nl h phead;
  Some (n, spin lk Lock ++ spin ul Unlock).

Definition util_enqueue_list_tail_nl (h : heap) (phead pnode : addr) : option heap :=
  pold_last ← get_prev h phead;
  h ← set_prev h pnode pold_last;
  h ← set_next h pnode phead;
  h ← set_next h pold_last pnode;
  set_prev h phead pnode.

Definition util_enqueue_list_tail (h : heap) (phead pnode : addr) (lk ul : bool)
  : option (heap * list lock_ev) :=
  h ← util_enqueue_list_tail_nl h phead pnode;
  Some (h, spin lk Lock ++ spin ul Unlock).

Definition util_enqueue_list_head (h : heap) (phead pnode : addr) (lk ul : bool)
  : option (heap * list lock_ev) :=
  pold_first ← get_next h phead;
  h ← set_prev h pnode phead;
  h ← set_next h pnode pold_first;
  h ← set_prev h pold_first pnode;
  h ← set_next h phead pnode;
  Some (h, spin lk Lock ++ spin ul Unlock).

Definition util_is_node_itself (h : heap) (pnode : addr) : option bool :=
  n ← h !! pnode;
  Some (bool_decide (pprev n = pnode) && bool_decide (pnext n = pnode)).

Definition util_is_node_in_list (h : heap) (pnode : addr) : option bool :=
  n ← h !! pnode;
  self ← util_is_node_itself h pnode;
  Some (bool_decide (pprev n ≠ MNULL) && bool_decide (pnext n ≠ MNULL) && negb self).

Definition util_is_list_node (phead pnode : addr) : bool :=
  bool_decide (pnode ≠ MNULL) && bool_decide (phead ≠ pnode).

Definition util_unlink_list_nl (h : heap) (pnode : addr) : option heap :=
  pmy_prev ← get_prev h pnode;
  pmy_next ← get_next h pnode;
  h ← set_prev h pmy_next pmy_prev;
  h ← set_next h pmy_prev pmy_next;
  h ← set_prev h pnode MNULL;
  set_next h pnode MNULL.

Definition util_unlink_list_safe_nl (h : heap) (pnode : addr) : option heap :=
  inl ← util_is_node_in_list h pnode;
  if (inl : bool) then util_unlink_list_nl h pnode else Some h.

Definition util_unlink_list (h : heap) (phead pnode : addr) (lk ul : bool)
  : option (heap * list lock_ev) :=
  h ← util_unlink_list_nl h pnode;
  Some (h, spin lk Lock ++ spin ul Unlock).

(** The inner [util_unlink_list] is called with both callbacks MNULL. *)
Definition util_dequeue_list (h : heap) (phead : addr) (lk ul : bool)
  : option (addr * heap * list lock_ev) :=
  pnode ← get_next h phead;
  if decide (pnode ≠ MNULL ∧ pnode ≠ phead) then
    '(h, tr) ← util_unlink_list h phead pnode false false;
    Some (pnode, h, spin lk Lock ++ tr ++ spin ul Unlock)
  else Some (MNULL, h, spin lk Lock ++ spin ul Unlock).

(** ** Representation predicate *)

(** The pointer pair [a -> b]: [a]'s next is [b] and [b]'s previous is [a]. *)
Definition edge (h : heap) (a b : addr) : Prop :=
  get_next h a = Some b ∧ get_prev h b = Some a.

(** [links h p l q]: the nodes [l] are chained between [p] and [q]. *)
Fixpoint links (h : heap) (p : addr) (l : list addr) (q : addr) : Prop :=
  match l with
  | [] => edge h p q
  | x :: l => edge h p x ∧ links h x l q
  end.

(** A well-formed circular list headed at [hd] holding the nodes [l]. *)
Definition is_list (h : heap) (hd : addr) (l : list addr) : Prop :=
  NoDup (hd :: l) ∧ MNULL ∉ hd :: l ∧ links h hd l hd.

(** ** Client view: sequences of list operations *)

Inductive list_op :=
| OpTail (x : addr)    (** util_enqueue_list_tail *)
| OpHead (x : addr)    (** util_enqueue_list_head *)
| OpDequeue            (** util_dequeue_list *)
| OpUnlink (x : addr). (** util_unlink_list *)

(** One operation on the heap; the second component is the returned pointer. *)
Definition exec_op (h : heap) (hd : addr) (o : list_op) : option (heap * addr) :=
  match o with
  | OpTail x => '(h, _) ← util_enqueue_list_tail h hd x true true; Some (h, MNULL)
  | OpHead x => '(h, _) ← util_enqueue_list_head h hd x true true; Some (h, MNULL)
  | OpDequeue => '(x, h, _) ← util_dequeue_list h hd true true; Some (h, x)
  | OpUnlink x => '(h, _) ← util_unlink_list h hd x true true; Some (h, MNULL)
  end.

Fixpoint exec_ops (h : heap) (hd : addr) (os : list list_op) : option (heap * list addr) :=
  match os with
  | [] => Some (h, [])
  | o :: os => '(h, r) ← exec_op h hd o; '(h, rs) ← exec_ops h hd os; Some (h, r :: rs)
  end.

(** The same operation on a mathematical list; [None] when the client breaks
    the contract (enqueueing a queued node, unlinking a node not queued). *)
Definition spec_op (hd : addr) (l : list addr) (o : list_op) : option (list addr * addr) :=
  match o with
  | OpTail x => if decide (x ∉ hd :: l ∧ x ≠ MNULL) then Some (l ++ [x], MNULL) else None
  | OpHead x => if decide (x ∉ hd :: l ∧ x ≠ MNULL) then Some (x :: l, MNULL) else None
  | OpDequeue => Some (tail l, default MNULL (head l))
  | OpUnlink x => if decide (x ∈ l) then Some (filter (λ y, y ≠ x) l, MNULL) else None
  end.

Fixpoint spec_ops (hd : addr) (l : list addr) (os : list list_op) : option (list addr * list addr) :=
  match os with
  | [] => Some (l, [])
  | o :: os => '(l, r) ← spec_op hd l o; '(l, rs) ← spec_ops hd l os; Some (l, r :: rs)
  end.

(** The nodes an operation needs to be allocated. *)
Definition op_node (o : list_op) : list addr :=
  match o with OpTail x | OpHead x => [x] | _ => [] end.

(** ** Lemmas on the representation *)

Lemma set_next_Some h a v h' :
  set_next h a v = Some h' →
  (∀ b, get_next h' b = if decide (b = a) then Some v else get_next h b) ∧
  (∀ b, get_prev h' b = get_prev h b) ∧ (∀ b, b ≠ a → h' !! b = h !! b).
Proof.
  unfold set_next, get_next, get_prev. destruct (h !! a) as [n|] eqn:E; [|done].
  simpl. intros [= <-]. split_and!; intros b; try intros Hb; destruct (decide (b = a)) as [->|];
    by rewrite ?lookup_insert_eq, ?lookup_insert_ne, ?E by done.
Qed.

Lemma set_prev_Some h a v h' :
  set_prev h a v = Some h' →
  (∀ b, get_prev h' b = if decide (b = a) then Some v else get_prev h b) ∧
  (∀ b, get_next h' b = get_next h b) ∧ (∀ b, b ≠ a → h' !! b = h !! b).
Proof.
  unfold set_prev, get_next, get_prev. destruct (h !! a) as [n|] eqn:E; [|done].
  simpl. intros [= <-]. split_and!; intros b; try intros Hb; destruct (decide (b = a)) as [->|];
    by rewrite ?lookup_insert_eq, ?lookup_insert_ne, ?E by done.
Qed.

Lemma set_next_alloc h a v : is_Some (h !! a) →
  ∃ h', set_next h a v = Some h' ∧ ∀ b, is_Some (h !! b) → is_Some (h' !! b).
Proof.
  intros [n E]. unfold set_next. rewrite E. simpl. eexists; split; [done|].
  intros b Hb. destruct (decide (b = a)) as [->|]; by simplify_map_eq.
Qed.

Lemma set_prev_alloc h a v : is_Some (h !! a) →
  ∃ h', set_prev h a v = Some h' ∧ ∀ b, is_Some (h !! b) → is_Some (h' !! b).
Proof.
  intros [n E]. unfold set_prev. rewrite E. simpl. eexists; split; [done|].
  intros b Hb. destruct (decide (b = a)) as [->|]; by simplify_map_eq.
Qed.

Lemma get_next_alloc h a v : get_next h a = Some v → is_Some (h !! a).
Proof. unfold get_next. destruct (h !! a); [eauto|done]. Qed.
Lemma get_prev_alloc h a v : get_prev h a = Some v → is_Some (h !! a).
Proof. unfold get_prev. destruct (h !! a); [eauto|done]. Qed.
#[local] Hint Resolve get_next_alloc get_prev_alloc : driver.

Lemma links_app h p l1 x l2 q :
  links h p (l1 ++ x :: l2) q ↔ links h p l1 x ∧ links h x l2 q.
Proof. revert p. induction l1 as [|y l1 IH]; intros p; simpl; [done|]. rewrite IH. tauto. Qed.

(** Two heaps that agree on the outgoing pointers of [p :: l] and the incoming
    ones of [l ++ [q]] have the same chains. *)
Lemma links_frame h h' p l q :
  (∀ b, b ∈ p :: l → get_next h' b = get_next h b) →
  (∀ b, b ∈ l ++ [q] → get_prev h' b = get_prev h b) →
  links h p l q → links h' p l q.
Proof.
  revert p. induction l as [|x l IH]; intros p Hn Hp; simpl; unfold edge.
  - intros [??]. by rewrite Hn, Hp by set_solver.
  - intros [[??] ?]. rewrite Hn, Hp by set_solver. split; [done|].
    apply IH; [set_solver..|done].
Qed.

Lemma links_last h p l q : links h p l q →
  ∃ z, z ∈ p :: l ∧ edge h z q ∧ (l = [] → z = p) ∧ (∀ l' y, l = l' ++ [y] → z = y).
Proof.
  induction l as [|y l' _] using rev_ind.
  - intros H. exists p. split_and!; [set_solver|done|done|intros [|] ? ?; done].
  - rewrite links_app. intros [_ H]. exists y. split_and!; [set_solver|done|by destruct l'|].
    intros l0 y0 E. by apply app_inj_tail in E as [_ ->].
Qed.

Lemma links_alloc h p l q b : links h p l q → b ∈ p :: l ++ [q] → is_Some (h !! b).
Proof.
  revert p. induction l as [|x l IH]; intros p; simpl; unfold edge.
  - intros [??] Hb. assert (b = p ∨ b = q) as [->| ->] by set_solver; eauto with driver.
  - intros [[??] ?] Hb. destruct (decide (b = p)) as [->|]; [eauto with driver|].
    apply (IH x); [done|set_solver].
Qed.

(** Computes the pointer reads after a chain of [set_next]/[set_prev]. *)
Ltac heap_read :=
  repeat match goal with
  | H : ∀ b, get_next ?h b = _ |- context [get_next ?h _] => rewrite H
  | H : ∀ b, get_prev ?h b = _ |- context [get_prev ?h _] => rewrite H
  end; repeat case_decide; simplify_eq; try done; try (exfalso; set_solver).
(** Names the effect of each [set_next]/[set_prev] step in the context. *)
Ltac heap_facts :=
  repeat match goal with
  | H : set_next _ _ _ = Some _ |- _ =>
      let A := fresh "Nx" in let B := fresh "Pv" in let C := fresh "Fr" in
      apply set_next_Some in H as (A & B & C)
  | H : set_prev _ _ _ = Some _ |- _ =>
      let A := fresh "Pv" in let B := fresh "Nx" in let C := fresh "Fr" in
      apply set_prev_Some in H as (A & B & C)
  end.
(** Computes [h !! b] for an address [b] that no update step touched. *)
Ltac heap_frame :=
  repeat match goal with
  | H : ∀ b, b ≠ _ → ?h !! b = _ |- ?h !! _ = _ => rewrite H by set_solver; clear H
  end; done.
(** Executes the next allocation-checked field update of the goal. *)
Ltac heap_step :=
  match goal with
  | |- context [set_next ?h ?a ?v] =>
      let h' := fresh "h" in let E := fresh "E" in let D := fresh "D" in
      destruct (set_next_alloc h a v) as (h' & E & D); [auto 10|rewrite E; simpl]
  | |- context [set_prev ?h ?a ?v] =>
      let h' := fresh "h" in let E := fresh "E" in let D := fresh "D" in
      destruct (set_prev_alloc h a v) as (h' & E & D); [auto 10|rewrite E; simpl]
  end.

(** Splits a chain at its last node. *)
Lemma links_snoc h p l x q : links h p (l ++ [x]) q ↔ links h p l x ∧ edge h x q.
Proof. apply (links_app h p l x []). Qed.

Lemma is_list_alloc h hd l b : is_list h hd l → b ∈ hd :: l → is_Some (h !! b).
Proof. intros (_ & _ & Hl) Hb. eapply links_alloc; [exact Hl|set_solver]. Qed.

(** ** Refinement: the pointer operations implement list operations *)

Lemma init_refines h hd : hd ≠ MNULL → is_Some (h !! hd) →
  ∃ h', util_init_list h hd = Some h' ∧ is_list h' hd [].
Proof.
  intros H0 Ha. unfold util_init_list. heap_step. heap_step.
  eexists; split; [done|]. heap_facts.
  split_and!; [apply NoDup_singleton|set_solver|].
  split; heap_read.
Qed.

Lemma peek_refines h hd l : is_list h hd l →
  util_peek_list_nl h hd = Some (default MNULL (head l)).
Proof.
  intros (Hnd & _ & Hl). unfold util_peek_list_nl. destruct l as [|x l]; simpl in *.
  - destruct Hl as [-> _]. simpl. by case_decide.
  - destruct Hl as [[-> _] _]. simpl. apply NoDup_cons in Hnd as [Hx _].
    case_decide; [set_solver|done].
Qed.

Lemma enqueue_tail_refines h hd l x :
  is_list h hd l → x ∉ hd :: l → x ≠ MNULL → is_Some (h !! x) →
  ∃ h', util_enqueue_list_tail_nl h hd x = Some h' ∧ is_list h' hd (l ++ [x]) ∧
        (∀ b, b ∉ hd :: x :: l → h' !! b = h !! b).
Proof.
  intros Hil Hx H0 Ha. pose proof (is_list_alloc _ _ _ hd Hil) as Hhd.
  destruct Hil as (Hnd & Hn0 & Hl).
  assert (∃ z, get_prev h hd = Some z ∧ z ∈ hd :: l ∧
    ((l = [] ∧ z = hd) ∨ (∃ l', l = l' ++ [z] ∧ links h hd l' z))) as (z & Hz & Hzl & Hcase).
  { destruct l as [|z l' _] using rev_ind.
    - destruct Hl as [? ?]. exists hd. split_and!; [done|set_solver|by left].
    - apply links_snoc in Hl as [? [? ?]]. exists z. split_and!; [done|set_solver|right; eauto]. }
  assert (is_Some (h !! z)) as Hza.
  { destruct Hcase as [[_ ->]|(l' & -> & _)]; [apply Hhd; set_solver|].
    eapply links_alloc; [exact Hl|set_solver]. }
  assert (is_Some (h !! hd)) by (apply Hhd; set_solver).
  unfold util_enqueue_list_tail_nl. rewrite Hz. simpl.
  heap_step. heap_step. heap_step. heap_step. eexists; split; [done|]. heap_facts. split.
  - split_and!; [|set_solver|].
    { rewrite app_comm_cons. apply NoDup_app. split_and!; [done|set_solver|apply NoDup_singleton]. }
    apply links_snoc. split; [|split; heap_read].
    destruct Hcase as [[-> ->]|(l' & -> & Hl')]; [split; heap_read|].
    apply links_snoc. rewrite app_comm_cons in Hnd.
    apply NoDup_app in Hnd as (Hnd & Hzn & _). split; [|split; heap_read].
    apply NoDup_cons in Hnd as [Hhd' _].
    revert Hl'. apply links_frame; intros b Hb; heap_read.
  - intros b Hb. heap_frame.
Qed.

Lemma enqueue_head_refines h hd l x lk ul :
  is_list h hd l → x ∉ hd :: l → x ≠ MNULL → is_Some (h !! x) →
  ∃ h', util_enqueue_list_head h hd x lk ul = Some (h', spin lk Lock ++ spin ul Unlock) ∧
        is_list h' hd (x :: l) ∧ (∀ b, b ∉ hd :: x :: l → h' !! b = h !! b).
Proof.
  intros Hil Hx H0 Ha. pose proof (is_list_alloc _ _ _ hd Hil) as Hhd.
  destruct Hil as (Hnd & Hn0 & Hl).
  assert (∃ z, get_next h hd = Some z ∧ z ∈ hd :: l ∧
    ((l = [] ∧ z = hd) ∨ (∃ l', l = z :: l' ∧ links h z l' hd))) as (z & Hz & Hzl & Hcase).
  { destruct l as [|z l']; simpl in Hl; unfold edge in Hl.
    - exists hd. split_and!; [naive_solver|set_solver|by left].
    - exists z. split_and!; [naive_solver|set_solver|right; naive_solver]. }
  assert (is_Some (h !! z)) as Hza.
  { destruct Hcase as [[_ ->]|(l' & -> & _)]; [apply Hhd; set_solver|].
    eapply links_alloc; [exact Hl|set_solver]. }
  assert (is_Some (h !! hd)) by (apply Hhd; set_solver).
  unfold util_enqueue_list_head. rewrite Hz. simpl.
  heap_step. heap_step. heap_step. heap_step. eexists; split; [done|]. heap_facts. split.
  - split_and!; [|set_solver|].
    { apply NoDup_cons in Hnd as [??]. apply NoDup_cons. split; [set_solver|].
      apply NoDup_cons. split; [set_solver|done]. }
    split; [split; heap_read|].
    destruct Hcase as [[-> ->]|(l' & -> & Hl')]; [split; heap_read|].
    apply NoDup_cons in Hnd as [Hhd' Hnd]. apply NoDup_cons in Hnd as [Hzl' _].
    split; [split; heap_read|].
    revert Hl'. apply links_frame; intros b Hb; heap_read.
  - intros b Hb. heap_frame.
Qed.

Lemma unlink_refines h hd l1 x l2 :
  is_list h hd (l1 ++ x :: l2) →
  ∃ h', util_unlink_list_nl h x = Some h' ∧ is_list h' hd (l1 ++ l2) ∧
        h' !! x = Some (mk_node MNULL MNULL) ∧
        (∀ b, b ∉ hd :: l1 ++ x :: l2 → h' !! b = h !! b).
Proof.
  intros Hil. pose proof (is_list_alloc _ _ _ x Hil) as Hxa. destruct Hil as (Hnd & Hn0 & Hl).
  apply links_app in Hl as [Hl1 Hl2].
  assert (∃ p, get_prev h x = Some p ∧ get_next h p = Some x ∧ p ∈ hd :: l1 ∧
     ((l1 = [] ∧ p = hd) ∨ (∃ l', l1 = l' ++ [p] ∧ links h hd l' p)))
     as (p & Hp & Hp' & Hpl & Hpc).
  { destruct l1 as [|p l' _] using rev_ind.
    - destruct Hl1. exists hd. split_and!; [done|done|set_solver|by left].
    - apply links_snoc in Hl1 as [? [? ?]].
      exists p. split_and!; [done|done|set_solver|right; eauto]. }
  assert (∃ n, get_next h x = Some n ∧ get_prev h n = Some x ∧ n ∈ l2 ++ [hd] ∧
     ((l2 = [] ∧ n = hd) ∨ (∃ l', l2 = n :: l' ∧ links h n l' hd)))
     as (n & Hn & Hn' & Hnl & Hnc).
  { destruct l2 as [|n l']; simpl in Hl2; unfold edge in Hl2.
    - exists hd. split_and!; [naive_solver|naive_solver|set_solver|by left].
    - exists n. split_and!; [naive_solver|naive_solver|set_solver|right; naive_solver]. }
  assert (is_Some (h !! x)) by eauto with driver.
  assert (is_Some (h !! p)) by eauto with driver.
  assert (is_Some (h !! n)) by eauto with driver.
  assert (hd ∉ l1 ∧ hd ∉ l2 ∧ x ≠ hd ∧ x ∉ l1 ∧ x ∉ l2 ∧ NoDup l1 ∧ NoDup l2 ∧
          (∀ b, b ∈ l1 → b ∉ l2)) as (N1 & N2 & N3 & N4 & N5 & N6 & N7 & N8).
  { apply NoDup_cons in Hnd as [Hh Hnd]. apply NoDup_app in Hnd as (? & Hd & Hnd).
    apply NoDup_cons in Hnd as [??]. set_solver. }
  unfold util_unlink_list_nl. rewrite Hp, Hn. simpl.
  heap_step. heap_step. heap_step. heap_step. eexists; split; [done|].
  assert (h3 !! x = Some (mk_node MNULL MNULL)) as Hx3.
  { clear -E1 E2. unfold set_prev in E1. unfold set_next in E2.
    destruct (h1 !! x); simplify_eq/=. rewrite lookup_insert_eq in E2. simplify_eq/=.
    by rewrite lookup_insert_eq. }
  heap_facts. split_and!; [|done|].
  - split_and!; [|set_solver|].
    { apply NoDup_cons. split; [set_solver|]. apply NoDup_app. done. }
    assert (links h3 hd l1 n) as Hfst.
    { destruct Hpc as [[-> ->]|(l' & -> & Hl')].
      - destruct Hnc as [[-> ->]|(l'' & -> & _)]; split; heap_read.
      - apply links_snoc. apply NoDup_app in N6 as (? & ? & ?). split.
        + revert Hl'. apply links_frame; intros b Hb; heap_read;
          destruct Hnc as [[-> ->]|(l'' & -> & _)]; set_solver.
        + split; heap_read. }
    destruct Hnc as [[-> ->]|(l'' & -> & Hl'')]; [by rewrite app_nil_r|].
    apply links_app. split; [done|]. apply NoDup_cons in N7 as [??].
    revert Hl''. apply links_frame; intros b Hb; heap_read;
      destruct Hpc as [[-> ->]|(l' & -> & _)]; set_solver.
  - intros b Hb. heap_frame.
Qed.

Lemma dequeue_refines h hd l lk ul : is_list h hd l →
  ∃ h', util_dequeue_list h hd lk ul =
          Some (default MNULL (head l), h', spin lk Lock ++ spin ul Unlock) ∧
        is_list h' hd (tail l) ∧ (∀ b, b ∉ hd :: l → h' !! b = h !! b).
Proof.
  intros Hil. unfold util_dequeue_list. destruct l as [|x l].
  - assert (get_next h hd = Some hd) as -> by (destruct Hil as (_ & _ & [? _]); done). simpl.
    case_decide; [naive_solver|]. eauto.
  - assert (get_next h hd = Some x) as -> by (destruct Hil as (_ & _ & [[? _] _]); done). simpl.
    destruct (unlink_refines h hd [] x l Hil) as (h' & E & Hl & _ & Hf).
    destruct Hil as (Hnd & H0 & _). apply NoDup_cons in Hnd as [? _].
    rewrite decide_True by set_solver. unfold util_unlink_list. rewrite E. simpl. eauto.
Qed.

(** No operation frees a node. *)
Lemma exec_op_alloc h hd l o : is_list h hd l →
  (∀ x, x ∈ op_node o → is_Some (h !! x)) → ∀ l' r, spec_op hd l o = Some (l', r) →
  ∃ h', exec_op h hd o = Some (h', r) ∧ is_list h' hd l' ∧
        (∀ b, is_Some (h !! b) → is_Some (h' !! b)).
Proof.
  intros Hil Ha l' r Hs. pose proof (is_list_alloc _ _ _ hd Hil ltac:(set_solver)) as Hhd.
  assert (Hkeep : ∀ h' l', is_list h' hd l' → is_Some (h !! hd) →
    (∀ b, b ∈ hd :: l' ∨ h' !! b = h !! b ∨ is_Some (h' !! b)) →
    ∀ b, is_Some (h !! b) → is_Some (h' !! b)).
  { intros h' l0 Hl _ Hor b Hb. destruct (Hor b) as [Hin|[->|]]; [|done..].
    by eapply is_list_alloc. }
  destruct o as [x|x| |x]; simpl in *.
  - case_decide as Hx; simplify_eq. destruct Hx as [Hx H0].
    destruct (enqueue_tail_refines h hd l x Hil Hx H0 (Ha x ltac:(set_solver))) as (h' & E & Hl & Hf).
    unfold util_enqueue_list_tail. rewrite E. simpl. eexists; split_and!; [done|done|].
    eapply Hkeep; [exact Hl|done|]. intros b. destruct (decide (b ∈ hd :: x :: l)); [left; set_solver|eauto].
  - case_decide as Hx; simplify_eq. destruct Hx as [Hx H0].
    destruct (enqueue_head_refines h hd l x true true Hil Hx H0 (Ha x ltac:(set_solver))) as (h' & E & Hl & Hf).
    rewrite E. simpl. eexists; split_and!; [done|done|].
    eapply Hkeep; [exact Hl|done|]. intros b. destruct (decide (b ∈ hd :: x :: l)); [left; set_solver|eauto].
  - simplify_eq. destruct (dequeue_refines h hd l true true Hil) as (h' & E & Hl & Hf).
    rewrite E. simpl. eexists; split_and!; [done|done|].
    eapply Hkeep; [exact Hl|done|]. intros b. destruct (decide (b ∈ hd :: tail l)) as [|Hb]; [by left|].
    destruct l as [|x l]; [right; left; apply Hf; set_solver|].
    destruct (decide (b = x)) as [->|]; [|right; left; apply Hf; set_solver].
    right; right. destruct (unlink_refines h hd [] x l Hil) as (h2 & E2 & _ & Hx & _).
    unfold util_dequeue_list, util_unlink_list in E.
    assert (get_next h hd = Some x) as Ex by (destruct Hil as (_ & _ & [[? _] _]); done).
    rewrite Ex in E. simpl in E, E2. rewrite E2 in E. simpl in E.
    case_decide; simplify_eq; [rewrite Hx; eauto|]. eapply is_list_alloc; [exact Hil|set_solver].
  - case_decide as Hx; simplify_eq. apply list_elem_of_split in Hx as (l1 & l2 & ->).
    destruct (unlink_refines h hd l1 x l2 Hil) as (h' & E & Hl & Hx & Hf).
    unfold util_unlink_list. rewrite E. simpl. eexists; split_and!; [done| |].
    + destruct Hil as (Hnd & _). apply NoDup_cons in Hnd as [_ Hnd].
      apply NoDup_app in Hnd as (_ & Hd & Hnd). apply NoDup_cons in Hnd as [? _].
      rewrite filter_app, filter_cons_False by naive_solver.
      rewrite !filter_id; [done|..]; apply Forall_forall; set_solver.
    + eapply Hkeep; [exact Hl|done|]. intros b.
      destruct (decide (b = x)) as [->|]; [right; right; rewrite Hx; eauto|].
      destruct (decide (b ∈ hd :: l1 ++ l2)); [by left|right; left; apply Hf; set_solver].
Qed.

(** Whatever sequence of enqueue (tail or head), dequeue and unlink
    operations a client issues within the contract, the pointer code of
    mlan_util.h never follows a wild pointer, returns the nodes the same
    sequence returns on a mathematical list, and leaves a well-formed circular
    list holding exactly those nodes in that order. *)
Theorem list_ops_refine h hd l os l' rs :
  is_list h hd l →
  (∀ o x, o ∈ os → x ∈ op_node o → is_Some (h !! x)) →
  spec_ops hd l os = Some (l', rs) →
  ∃ h', exec_ops h hd os = Some (h', rs) ∧ is_list h' hd l'.
Proof.
  revert h l rs. induction os as [|o os IH]; intros h l rs Hil Ha Hs; simpl in *; simplify_eq; [eauto|].
  destruct (spec_op hd l o) as [[l1 r]|] eqn:E1; simplify_eq/=.
  destruct (spec_ops hd l1 os) as [[l2 rs']|] eqn:E2; simplify_eq/=.
  destruct (exec_op_alloc h hd l o Hil ltac:(set_solver) _ _ E1) as (h1 & -> & Hl1 & Hk). simpl.
  destruct (IH h1 l1 rs' Hl1 ltac:(set_solver) E2) as (h2 & -> & Hl2). eauto.
Qed.

Example list_ops_refine_witness :
  ∃ h', exec_ops {[100 := mk_node 100 100; 1 := mk_node 0 0; 2 := mk_node 0 0; 3 := mk_node 0 0]}
          100 [OpTail 1; OpTail 2; OpHead 3; OpUnlink 1; OpDequeue; OpDequeue; OpDequeue]
        = Some (h', [0; 0; 0; 0; 3; 2; 0]) ∧ is_list h' 100 [].
Proof.
  apply (list_ops_refine _ 100 []).
  - split_and!; [apply NoDup_singleton|set_solver|split; reflexivity].
  - intros o x Ho Hx. repeat (apply elem_of_cons in Ho as [->|Ho]; [set_unfold;
      repeat match goal with H : _ ∨ _ |- _ => destruct H | H : False |- _ => destruct H end;
      subst; try done; eexists; reflexivity|]). set_solver.
  - reflexivity.
Defined.

End DList.
