(* ===== verification/UtilScalar.v ===== *)
(** * mlan_util.h: access controlled scalars and numeric helpers

    [mlan_scalar] keeps a 32-bit signed value behind an optional lock; signed
    arithmetic wraps, as the kernel is built with -fno-strict-overflow.  The
    lock callbacks have no effect on the value and are left out.  [bitcount],
    [util_is_time_before] and [reflective_enum_lookup_name] are the remaining
    helpers of src/mlan/mlan_util.h. *)

From S2P Require Import Prelude.

Definition MLAN_SCALAR_FLAG_UNIQUE_LOCK : Z := 2 ^ 16.

(** [struct _mlan_scalar]; [plock] is the lock's address, 0 for none. *)
Record mlan_scalar := mk_scalar { value : Z; plock : Z; flags : Z }.

(** [new_lock] is the lock [moal_init_lock] creates. *)
Definition util_scalar_init (val plock_to_use new_lock : Z) : mlan_scalar :=
  if decide (plock_to_use ≠ 0)
  then mk_scalar val plock_to_use (Z.land 0 (Z.lnot MLAN_SCALAR_FLAG_UNIQUE_LOCK))
  else mk_scalar val new_lock (Z.lor 0 MLAN_SCALAR_FLAG_UNIQUE_LOCK).

(** The lock [util_scalar_free] frees, if any. *)
Definition util_scalar_free (s : mlan_scalar) : option Z :=
  if decide (Z.land (flags s) MLAN_SCALAR_FLAG_UNIQUE_LOCK ≠ 0) then Some (plock s) else None.

Definition util_scalar_read (s : mlan_scalar) : Z := value s.
Definition util_scalar_write (s : mlan_scalar) (val : Z) : mlan_scalar :=
  mk_scalar val (plock s) (flags s).
Definition util_scalar_increment (s : mlan_scalar) : mlan_scalar :=
  util_scalar_write s (s32 (value s + 1)).
Definition util_scalar_decrement (s : mlan_scalar) : mlan_scalar :=
  util_scalar_write s (s32 (value s - 1)).

Definition INT_MAX : Z := 2147483647.

(** Returns the new value and the scalar. *)
Definition util_scalar_offset (s : mlan_scalar) (offset : Z) : Z * mlan_scalar :=
  if value s <? s32 (INT_MAX - offset)
  then let newval := s32 (value s + offset) in (newval, util_scalar_write s newval)
  else (0, s).

Inductive MLAN_SCALAR_CONDITIONAL :=
| MLAN_SCALAR_COND_EQUAL
| MLAN_SCALAR_COND_NOT_EQUAL
| MLAN_SCALAR_COND_GREATER_THAN
| MLAN_SCALAR_COND_GREATER_OR_EQUAL
| MLAN_SCALAR_COND_LESS_THAN
| MLAN_SCALAR_COND_LESS_OR_EQUAL.

Definition util_scalar_conditional_write (s : mlan_scalar)
    (condition : MLAN_SCALAR_CONDITIONAL) (val_compare val_to_set : Z) : bool * mlan_scalar :=
  let update :=
    match condition with
    | MLAN_SCALAR_COND_EQUAL => value s =? val_compare
    | MLAN_SCALAR_COND_NOT_EQUAL => negb (value s =? val_compare)
    | MLAN_SCALAR_COND_GREATER_THAN => value s >? val_compare
    | MLAN_SCALAR_COND_GREATER_OR_EQUAL => value s >=? val_compare
    | MLAN_SCALAR_COND_LESS_THAN => value s <? val_compare
    | MLAN_SCALAR_COND_LESS_OR_EQUAL => value s <=? val_compare
    end in
  (update, if update then util_scalar_write s val_to_set else s).

Definition nibblebits : list Z := [0; 1; 1; 2; 1; 2; 2; 3; 1; 2; 2; 3; 2; 3; 3; 4].

(** The loop of [bitcount]; [None] when the fuel runs out. *)
Fixpoint bitcount_loop (fuel : nat) (num count : Z) : option Z :=
  if num =? 0 then Some count else
  match fuel with
  | O => None
  | S fuel =>
      nib ← nibblebits !! Z.to_nat (Z.land num 0x0f);
      bitcount_loop fuel (Z.shiftr num 4) (u32 (count + nib))
  end.

(** A [t_u32] has at most eight nibbles, so eight iterations are enough. *)
Definition bitcount (num : Z) : option Z := bitcount_loop 8 num 0.

(** An element of a [reflective_enum_element] table; the table ends with a
    MNULL name, whose absence is an out of bounds read ([None]). *)
Fixpoint reflective_enum_lookup_name (elements : list (Z * option string)) (id : Z)
  : option (option string) :=
  match elements with
  | [] => None
  | (eid, name) :: elements =>
      if bool_decide (name ≠ None) && negb (eid =? id)
      then reflective_enum_lookup_name elements id else Some name
  end.

Definition util_is_time_before (t1 t2 : Z) : bool :=
  let delta := s64 (u64 (t2 - t1)) in delta >? 0.

(** ** Bit counting *)

(** Reference definition: the number of set bits among the low [k]. *)
Fixpoint popcount (k : nat) (n : Z) : Z :=
  match k with O => 0 | S k => Z.b2z (Z.odd n) + popcount k (Z.div2 n) end.

Lemma popcount_bounds k n : 0 <= popcount k n <= Z.of_nat k.
Proof. revert n. induction k as [|k IH]; intros n; simpl; [lia|].
  specialize (IH (Z.div2 n)). destruct (Z.odd n); simpl; lia. Qed.

Lemma nibble_split n : 0 <= n →
  ∃ nib, nibblebits !! Z.to_nat (Z.land n 15) = Some nib ∧ 0 <= nib <= 4 ∧
         ∀ k, popcount (4 + k) n = nib + popcount k (Z.shiftr n 4).
Proof.
  intros Hn. exists (popcount 4 n). split_and!; [|apply (popcount_bounds 4)|apply (popcount_bounds 4)|].
  - change 15 with (Z.ones 4). rewrite Z.land_ones by lia.
    assert (popcount 4 n = popcount 4 (n mod 2 ^ 4)) as ->.
    { unfold popcount. rewrite <- !Z.bit0_odd, !Z.div2_spec, !Z.shiftr_spec by lia.
      rewrite !Z.mod_pow2_bits_low by lia. done. }
    pose proof (Z.mod_pos_bound n (2 ^ 4) ltac:(lia)) as Hb. remember (n mod 2 ^ 4) as m.
    assert (m = 0 ∨ m = 1 ∨ m = 2 ∨ m = 3 ∨ m = 4 ∨ m = 5 ∨ m = 6 ∨ m = 7 ∨ m = 8 ∨ m = 9
      ∨ m = 10 ∨ m = 11 ∨ m = 12 ∨ m = 13 ∨ m = 14 ∨ m = 15) as Hm by (change (2 ^ 4) with 16 in Hb; lia).
    clear Heqm Hb. destruct_or! Hm; subst m; reflexivity.
  - intros k. cbn [popcount Nat.add]. rewrite !Z.div2_spec, !Z.shiftr_shiftr by lia.
    change (1 + 1 + 1 + 1) with 4. lia.
Qed.

Lemma bitcount_loop_spec fuel num count :
  0 <= num < 16 ^ Z.of_nat fuel → 0 <= count → count + 4 * Z.of_nat fuel < 2 ^ 32 →
  bitcount_loop fuel num count = Some (count + popcount (4 * fuel) num).
Proof.
  revert num count. induction fuel as [|fuel IH]; intros num count Hn Hc Hb.
  - replace num with 0 by (simpl in Hn; lia). simpl. f_equal; lia.
  - unfold bitcount_loop; fold bitcount_loop. destruct (Z.eqb_spec num 0) as [->|Hnz].
    { f_equal. assert (∀ k, popcount k 0 = 0) as -> by (induction k; simpl; lia). lia. }
    destruct (nibble_split num ltac:(lia)) as (nib & E & Hnib & Hp).
    rewrite E. cbn [mbind option_bind]. rewrite u_wrap_small by lia.
    rewrite IH; [|rewrite Z.shiftr_div_pow2 by lia| |lia]; [|
      rewrite Nat2Z.inj_succ, Z.pow_succ_r in Hn by lia|lia].
    + replace (4 * S fuel)%nat with (4 + 4 * fuel)%nat by lia. rewrite Hp. f_equal; lia.
    + change (2 ^ 4) with 16. split; [apply Z.div_pos; lia|apply Z.div_lt_upper_bound; lia].
Qed.

(** [bitcount] terminates on every 32-bit value (eight iterations
    are enough), reads its nibble table in bounds, and returns the number of
    set bits. *)
Theorem bitcount_correct num : 0 <= num < 2 ^ 32 → bitcount num = Some (popcount 32 num).
Proof. intros H. unfold bitcount. rewrite bitcount_loop_spec; [done|simpl; lia..]. Qed.

Example bitcount_correct_witness : bitcount 0xF0F1 = Some 9.
Proof. apply (bitcount_correct 0xF0F1). lia. Defined.

(** ** Scalars *)

(** [util_scalar_offset] is documented to accept a negative offset,
    but on a non-negative scalar any negative offset is refused: INT_MAX -
    offset wraps below zero, so the function returns 0 and leaves the value. *)
Theorem scalar_offset_negative_refused s offset :
  0 <= value s <= INT_MAX → - 2 ^ 31 <= offset < 0 → util_scalar_offset s offset = (0, s).
Proof.
  unfold util_scalar_offset, INT_MAX, s_wrap. intros Hv Ho. change (32 - 1) with 31.
  replace (2147483647 - offset + 2 ^ 31) with ((- 1 - offset) + 1 * 2 ^ 32) by lia.
  rewrite Z_mod_plus_full, Z.mod_small by lia.
  destruct (Z.ltb_spec (value s) (-1 - offset - 2 ^ 31)); [lia|done].
Qed.

Example scalar_offset_negative_refused_witness :
  util_scalar_offset (mk_scalar 10 0 0) (-3) = (0, mk_scalar 10 0 0).
Proof. apply scalar_offset_negative_refused; vm_compute; split; congruence. Defined.

(** On non-negative offsets the guard is exact: the addition never overflows. *)
Lemma scalar_offset_nonneg s offset :
  - 2 ^ 31 <= value s <= INT_MAX → 0 <= offset <= INT_MAX →
  util_scalar_offset s offset =
    if value s + offset <? INT_MAX then (value s + offset, util_scalar_write s (value s + offset))
    else (0, s).
Proof.
  unfold util_scalar_offset, INT_MAX. intros Hv Ho.
  rewrite (s_wrap_small 32 (2147483647 - offset)) by lia.
  destruct (Z.ltb_spec (value s) (2147483647 - offset)), (Z.ltb_spec (value s + offset) 2147483647);
    try lia; [|done]. by rewrite s_wrap_small by lia.
Qed.

(** The clock comparison is exact while the two times are less than 2^63 apart. *)
Lemma time_before_spec t1 t2 :
  0 <= t1 < 2 ^ 64 → 0 <= t2 < 2 ^ 64 → - 2 ^ 63 < t2 - t1 < 2 ^ 63 →
  util_is_time_before t1 t2 = (t1 <? t2).
Proof.
  intros H1 H2 Hd. unfold util_is_time_before.
  assert (s64 (u64 (t2 - t1)) = t2 - t1) as ->.
  { unfold s_wrap, u_wrap. rewrite Zplus_mod_idemp_l. change (64 - 1) with 63.
    rewrite Z.mod_small; lia. }
  destruct (Z.ltb_spec t1 t2); apply Bool.eq_true_iff_eq; rewrite Z.gtb_lt; lia.
Qed.
