(* ===== verification/RxReorder.v ===== *)
(** * mlan_11n_rxreorder.c: the receive reorder window of one block-ack stream

    The operations on one [RxReorderTbl]: dispatching up to a new window start,
    scanning the in-order prefix, flushing, and the per-packet function
    [mlan_11n_rxreorder_pkt] below the table lookup, split in the phases its
    comments announce.  A packet handed upwards by [wlan_11n_dispatch_pkt] and
    the timer callbacks are the events a function emits, in order.  An access
    outside [rx_reorder_ptr] has no result. *)

From S2P Require Import Prelude.

(** ** Data *)

(** [1 << 12] and [1 << 11], as mlan_11n_rxreorder.h writes them. *)
Definition MAX_TID_VALUE : Z := Z.shiftl 2 11.
Definition TWOPOW11 : Z := Z.shiftl 2 10.
Definition DEFAULT_SEQ_NUM : Z := 0xffff.
Definition PKT_TYPE_AMSDU : Z := 0xE6.
Definition PKT_TYPE_BAR : Z := 0xE7.
Definition MAX_NUM_TID : Z := 8.

Inductive baStatus_e :=
| BA_STREAM_NOT_SETUP
| BA_STREAM_SETUP_INPROGRESS
| BA_STREAM_SETUP_SENT_ADDBA
| BA_STREAM_SETUP_COMPLETE
| BA_STREAM_SENT_DELBA.

#[export] Instance baStatus_e_eq_dec : EqDecision baStatus_e.
Proof. solve_decision. Defined.

Inductive mlan_wmm_ac_e := WMM_AC_BK | WMM_AC_BE | WMM_AC_VI | WMM_AC_VO.

#[export] Instance mlan_wmm_ac_e_eq_dec : EqDecision mlan_wmm_ac_e.
Proof. solve_decision. Defined.

Inductive bss_role_t := MLAN_BSS_ROLE_STA | MLAN_BSS_ROLE_UAP.

#[export] Instance bss_role_t_eq_dec : EqDecision bss_role_t.
Proof. solve_decision. Defined.

(** A received [mlan_buffer] with the fields of its RxPD the code reads. *)
Record mlan_buffer := mk_mbuf {
  buf_id : Z;
  rx_pkt_type : Z;
  rx_pkt_length : Z;
  rx_pkt_offset : Z;
  data_offset : Z;
  data_len : Z
}.

#[export] Instance mlan_buffer_eq_dec : EqDecision mlan_buffer.
Proof. solve_decision. Defined.

(** The [void *payload] argument: a buffer, or the sentinel pointer for a
    packet the firmware dropped. *)
Inductive payload :=
| RX_PKT_DROPPED_IN_FW
| Pkt (b : mlan_buffer).

#[export] Instance payload_eq_dec : EqDecision payload.
Proof. solve_decision. Defined.

(** [struct _RxReorderTbl], its timer context inlined. *)
Record RxReorderTbl := mk_rxtbl {
  tid : Z;
  ta : list Z;
  start_win : Z;
  last_seq : Z;
  win_size : Z;
  rx_reorder_ptr : list (option payload);
  timer : bool;
  timer_is_set : bool;
  ba_status : baStatus_e;
  amsdu : bool;
  force_no_drop : bool;
  check_start_win : bool;
  pkt_count : Z;
  flush_data : bool;
  bitmap : Z
}.

Definition set_tid (x : Z) (r : RxReorderTbl) : RxReorderTbl :=
  mk_rxtbl x (ta r) (start_win r) (last_seq r) (win_size r) (rx_reorder_ptr r) (timer r) (timer_is_set r) (ba_status r) (amsdu r) (force_no_drop r) (check_start_win r) (pkt_count r) (flush_data r) (bitmap r).
Definition set_ta (x : list Z) (r : RxReorderTbl) : RxReorderTbl :=
  mk_rxtbl (tid r) x (start_win r) (last_seq r) (win_size r) (rx_reorder_ptr r) (timer r) (timer_is_set r) (ba_status r) (amsdu r) (force_no_drop r) (check_start_win r) (pkt_count r) (flush_data r) (bitmap r).
Definition set_start_win (x : Z) (r : RxReorderTbl) : RxReorderTbl :=
  mk_rxtbl (tid r) (ta r) x (last_seq r) (win_size r) (rx_reorder_ptr r) (timer r) (timer_is_set r) (ba_status r) (amsdu r) (force_no_drop r) (check_start_win r) (pkt_count r) (flush_data r) (bitmap r).
Definition set_last_seq (x : Z) (r : RxReorderTbl) : RxReorderTbl :=
  mk_rxtbl (tid r) (ta r) (start_win r) x (win_size r) (rx_reorder_ptr r) (timer r) (timer_is_set r) (ba_status r) (amsdu r) (force_no_drop r) (check_start_win r) (pkt_count r) (flush_data r) (bitmap r).
Definition set_win_size (x : Z) (r : RxReorderTbl) : RxReorderTbl :=
  mk_rxtbl (tid r) (ta r) (start_win r) (last_seq r) x (rx_reorder_ptr r) (timer r) (timer_is_set r) (ba_status r) (amsdu r) (force_no_drop r) (check_start_win r) (pkt_count r) (flush_data r) (bitmap r).
Definition set_rx_reorder_ptr (x : list (option payload)) (r : RxReorderTbl) : RxReorderTbl :=
  mk_rxtbl (tid r) (ta r) (start_win r) (last_seq r) (win_size r) x (timer r) (timer_is_set r) (ba_status r) (amsdu r) (force_no_drop r) (check_start_win r) (pkt_count r) (flush_data r) (bitmap r).
Definition set_timer (x : bool) (r : RxReorderTbl) : RxReorderTbl :=
  mk_rxtbl (tid r) (ta r) (start_win r) (last_seq r) (win_size r) (rx_reorder_ptr r) x (timer_is_set r) (ba_status r) (amsdu r) (force_no_drop r) (check_start_win r) (pkt_count r) (flush_data r) (bitmap r).
Definition set_timer_is_set (x : bool) (r : RxReorderTbl) : RxReorderTbl :=
  mk_rxtbl (tid r) (ta r) (start_win r) (last_seq r) (win_size r) (rx_reorder_ptr r) (timer r) x (ba_status r) (amsdu r) (force_no_drop r) (check_start_win r) (pkt_count r) (flush_data r) (bitmap r).
Definition set_ba_status (x : baStatus_e) (r : RxReorderTbl) : RxReorderTbl :=
  mk_rxtbl (tid r) (ta r) (start_win r) (last_seq r) (win_size r) (rx_reorder_ptr r) (timer r) (timer_is_set r) x (amsdu r) (force_no_drop r) (check_start_win r) (pkt_count r) (flush_data r) (bitmap r).
Definition set_amsdu (x : bool) (r : RxReorderTbl) : RxReorderTbl :=
  mk_rxtbl (tid r) (ta r) (start_win r) (last_seq r) (win_size r) (rx_reorder_ptr r) (timer r) (timer_is_set r) (ba_status r) x (force_no_drop r) (check_start_win r) (pkt_count r) (flush_data r) (bitmap r).
Definition set_force_no_drop (x : bool) (r : RxReorderTbl) : RxReorderTbl :=
  mk_rxtbl (tid r) (ta r) (start_win r) (last_seq r) (win_size r) (rx_reorder_ptr r) (timer r) (timer_is_set r) (ba_status r) (amsdu r) x (check_start_win r) (pkt_count r) (flush_data r) (bitmap r).
Definition set_check_start_win (x : bool) (r : RxReorderTbl) : RxReorderTbl :=
  mk_rxtbl (tid r) (ta r) (start_win r) (last_seq r) (win_size r) (rx_reorder_ptr r) (timer r) (timer_is_set r) (ba_status r) (amsdu r) (force_no_drop r) x (pkt_count r) (flush_data r) (bitmap r).
Definition set_pkt_count (x : Z) (r : RxReorderTbl) : RxReorderTbl :=
  mk_rxtbl (tid r) (ta r) (start_win r) (last_seq r) (win_size r) (rx_reorder_ptr r) (timer r) (timer_is_set r) (ba_status r) (amsdu r) (force_no_drop r) (check_start_win r) x (flush_data r) (bitmap r).
Definition set_flush_data (x : bool) (r : RxReorderTbl) : RxReorderTbl :=
  mk_rxtbl (tid r) (ta r) (start_win r) (last_seq r) (win_size r) (rx_reorder_ptr r) (timer r) (timer_is_set r) (ba_status r) (amsdu r) (force_no_drop r) (check_start_win r) (pkt_count r) x (bitmap r).
Definition set_bitmap (x : Z) (r : RxReorderTbl) : RxReorderTbl :=
  mk_rxtbl (tid r) (ta r) (start_win r) (last_seq r) (win_size r) (rx_reorder_ptr r) (timer r) (timer_is_set r) (ba_status r) (amsdu r) (force_no_drop r) (check_start_win r) (pkt_count r) (flush_data r) x.

(** The adapter fields the window code reads. *)
Record reorder_cfg := mk_cfg {
  flush_time_ac_be_bk : Z;
  flush_time_ac_vi_vo : Z
}.

(** What a call does besides updating the entry. *)
Inductive rx_event :=
| Dispatch (p : payload)      (** wlan_11n_dispatch_pkt *)
| StopTimer                   (** moal_stop_timer *)
| StartTimer (ms : Z)         (** moal_start_timer *)
| FreeTimer                   (** moal_free_timer *)
| BlockRx (on : bool).        (** mlan_block_rx_process *)

(** ** Dispatching one packet *)

(** Where a dispatched packet goes. *)
Inductive rx_output :=
| Deaggregate (b : mlan_buffer)    (** wlan_11n_deaggregate_pkt *)
| ProcessUapRx (b : mlan_buffer)   (** wlan_process_uap_rx_packet *)
| ProcessStaRx (b : mlan_buffer).  (** wlan_process_rx_packet *)

Definition wlan_11n_dispatch_amsdu_pkt (b : mlan_buffer) : mlan_status * list rx_output :=
  if rx_pkt_type b =? PKT_TYPE_AMSDU
  then (MLAN_STATUS_SUCCESS,
        [Deaggregate (mk_mbuf (buf_id b) (rx_pkt_type b) (rx_pkt_length b) (rx_pkt_offset b)
                        (data_offset b + rx_pkt_offset b) (rx_pkt_length b))])
  else (MLAN_STATUS_FAILURE, []).

(** The status of the upper layers is not modelled: every caller in this file
    ignores it. *)
Definition wlan_11n_dispatch_pkt (role : bss_role_t) (p : payload) : list rx_output :=
  match p with
  | RX_PKT_DROPPED_IN_FW => []
  | Pkt b =>
      match role with
      | MLAN_BSS_ROLE_UAP =>
          match wlan_11n_dispatch_amsdu_pkt b with
          | (MLAN_STATUS_SUCCESS, out) => out
          | _ => [ProcessUapRx b]
          end
      | MLAN_BSS_ROLE_STA =>
          match wlan_11n_dispatch_amsdu_pkt b with
          | (MLAN_STATUS_SUCCESS, out) => out
          | _ => [ProcessStaRx b]
          end
      end
  end.

(** ** The reorder timer *)

Definition tos_to_ac : list mlan_wmm_ac_e :=
  [WMM_AC_BE; WMM_AC_BK; WMM_AC_BK; WMM_AC_BE; WMM_AC_VI; WMM_AC_VI; WMM_AC_VO; WMM_AC_VO].

(** [tos] is a [t_u32]: the caller's [int] converts. *)
Definition wlan_wmm_convert_tos_to_ac (tos : Z) : mlan_wmm_ac_e :=
  default WMM_AC_BE (tos_to_ac !! Z.to_nat (u32 tos)).

Definition mlan_11n_rxreorder_timer_restart (cfg : reorder_cfg) (e : RxReorderTbl)
  : RxReorderTbl * list rx_event :=
  let wmm_ac := wlan_wmm_convert_tos_to_ac (tid e) in
  let min_flush_time :=
    if decide (wmm_ac = WMM_AC_VI ∨ wmm_ac = WMM_AC_VO)
    then flush_time_ac_vi_vo cfg else flush_time_ac_be_bk cfg in
  (set_timer_is_set true e,
   (if timer_is_set e then [StopTimer] else []) ++ [StartTimer min_flush_time]).

(** ** Moving the window *)

(** [for (i = 0; i < n; ++i)]: take the packet out of slot [i], dispatch it. *)
Fixpoint dispatch_loop (ptr : list (option payload)) (i n : nat)
  : option (list (option payload) * list rx_event) :=
  match n with
  | O => Some (ptr, [])
  | S n =>
      rx_tmp_ptr ← ptr !! i;
      match rx_tmp_ptr with
      | Some p =>
          '(ptr, evs) ← dispatch_loop (<[i := None]> ptr) (S i) n;
          Some (ptr, Dispatch p :: evs)
      | None => dispatch_loop ptr (S i) n
      end
  end.

(** [for (i = 0; i < xchg; ++i) { ptr[i] = ptr[n + i]; ptr[n + i] = MNULL; }],
    from iteration [i] on, [k] iterations left. *)
Fixpoint xchg_loop (ptr : list (option payload)) (n i k : nat) : option (list (option payload)) :=
  match k with
  | O => Some ptr
  | S k =>
      v ← ptr !! (n + i)%nat;
      if decide (i < length ptr)%nat
      then xchg_loop (<[(n + i)%nat := None]> (<[i := v]> ptr)) n (S i) k
      else None
  end.

(** Clear the bits of the dispatched packets in the 64-bit bitmap. *)
Definition shift_bitmap (bm n : Z) : Z := if n <? 64 then Z.shiftr bm n else 0.

Definition wlan_11n_dispatch_pkt_until_start_win (e : RxReorderTbl) (new_start : Z)
  : option (RxReorderTbl * list rx_event) :=
  let no_pkt_to_send :=
    if new_start >? start_win e then Z.min (new_start - start_win e) (win_size e)
    else win_size e in
  '(ptr, evs) ← dispatch_loop (rx_reorder_ptr e) 0 (Z.to_nat no_pkt_to_send);
  let xchg := win_size e - no_pkt_to_send in
  ptr ← xchg_loop ptr (Z.to_nat no_pkt_to_send) 0 (Z.to_nat xchg);
  Some (set_start_win new_start
          (set_bitmap (shift_bitmap (bitmap e) no_pkt_to_send) (set_rx_reorder_ptr ptr e)), evs).

(** The loop of [wlan_11n_scan_and_dispatch], with the value of [i] it stops at. *)
Fixpoint scan_loop (ptr : list (option payload)) (i n : nat)
  : option (list (option payload) * list rx_event * nat) :=
  match n with
  | O => Some (ptr, [], i)
  | S n =>
      rx_tmp_ptr ← ptr !! i;
      match rx_tmp_ptr with
      | None => Some (ptr, [], i)
      | Some p =>
          '(ptr, evs, j) ← scan_loop (<[i := None]> ptr) (S i) n;
          Some (ptr, Dispatch p :: evs, j)
      end
  end.

Definition wlan_11n_scan_and_dispatch (e : RxReorderTbl) : option (RxReorderTbl * list rx_event) :=
  '(ptr, evs, i) ← scan_loop (rx_reorder_ptr e) 0 (Z.to_nat (win_size e));
  ptr ← (if decide (0 < i)%nat
         then xchg_loop ptr i 0 (Z.to_nat (win_size e - Z.of_nat i)) else Some ptr);
  Some (set_start_win (Z.land (start_win e + Z.of_nat i) (MAX_TID_VALUE - 1))
          (set_bitmap (shift_bitmap (bitmap e) (Z.of_nat i)) (set_rx_reorder_ptr ptr e)), evs).

(** [for (i = win_size - 1; i >= 0; --i)], [n] slots left. *)
Fixpoint find_last_loop (ptr : list (option payload)) (n : nat) : option Z :=
  match n with
  | O => Some (-1)
  | S i => v ← ptr !! i; if v is Some _ then Some (Z.of_nat i) else find_last_loop ptr i
  end.

Definition wlan_11n_find_last_seqnum (e : RxReorderTbl) : option Z :=
  find_last_loop (rx_reorder_ptr e) (Z.to_nat (win_size e)).

Definition wlan_start_flush_data (e : RxReorderTbl) : option (RxReorderTbl * list rx_event) :=
  startWin ← wlan_11n_find_last_seqnum e;
  if startWin >=? 0
  then wlan_11n_dispatch_pkt_until_start_win e
         (Z.land (start_win e + startWin + 1) (MAX_TID_VALUE - 1))
  else Some (e, []).

(** The timer callback; the adapter flag it also sets and the deferred-work
    event it raises belong to the caller. *)
Definition wlan_flush_data (e : RxReorderTbl) : RxReorderTbl :=
  set_timer_is_set false (set_flush_data true e).

(** ** One received packet *)

(** Pending flush, at the top of the else branch of [mlan_11n_rxreorder_pkt]. *)
Definition rxreorder_flush (e : RxReorderTbl) : option (RxReorderTbl * list rx_event) :=
  if flush_data e then wlan_start_flush_data (set_flush_data false e) else Some (e, []).

(** The correction of [start_win] from the last sequence number seen. *)
Definition rxreorder_fix_start_win (e : RxReorderTbl) (seq_num : Z) : RxReorderTbl :=
  if negb (seq_num =? start_win e) && negb (last_seq e =? DEFAULT_SEQ_NUM) then
    let end_win := Z.land (start_win e + win_size e - 1) (MAX_TID_VALUE - 1) in
    if ((end_win >? start_win e) && (last_seq e >=? start_win e) && (last_seq e <? end_win))
       || ((end_win <? start_win e) && ((last_seq e >=? start_win e) || (last_seq e <? end_win)))
    then set_start_win (last_seq e + 1) e
    else if (seq_num <? start_win e) && (seq_num >? last_seq e)
    then set_start_win (last_seq e + 1) e
    else e
  else e.

(** The [check_start_win] block: [inl] is an early return. *)
Definition rxreorder_check_start_win (e : RxReorderTbl) (seq_num pkt_type : Z) (p : payload)
  : (mlan_status * RxReorderTbl * list rx_event) + RxReorderTbl :=
  if check_start_win e then
    if seq_num =? start_win e then inr (set_check_start_win false e)
    else
      let e := set_pkt_count (u8 (pkt_count e + 1)) e in
      if pkt_count e <? Z.quot (win_size e) 2 then
        if last_seq e =? seq_num then inl (MLAN_STATUS_FAILURE, e, [])
        else inl (MLAN_STATUS_SUCCESS, set_last_seq seq_num e,
                  if negb (pkt_type =? PKT_TYPE_BAR) then [Dispatch p] else [])
      else inr (rxreorder_fix_start_win (set_check_start_win false e) seq_num)
  else inr e.

(** The [force_no_drop] block before the window is computed. *)
Definition rxreorder_no_drop (cfg : reorder_cfg) (e : RxReorderTbl) (seq_num pkt_type : Z)
  : option (RxReorderTbl * list rx_event) :=
  if force_no_drop e then
    '(e, evs) ← wlan_11n_dispatch_pkt_until_start_win e
                  (Z.land (start_win e + win_size e) (MAX_TID_VALUE - 1));
    let e := if negb (pkt_type =? PKT_TYPE_BAR) then set_start_win seq_num e else e in
    let '(e, evs') := mlan_11n_rxreorder_timer_restart cfg e in
    Some (e, evs ++ evs')
  else Some (e, []).

(** The test that drops a packet older than the window. *)
Definition rxreorder_is_old (start seq_num : Z) : bool :=
  if start + TWOPOW11 >? MAX_TID_VALUE - 1
  then (seq_num >=? Z.land (start + TWOPOW11) (MAX_TID_VALUE - 1)) && (seq_num <? start)
  else (seq_num <? start) || (seq_num >=? start + TWOPOW11).

(** The test that a packet lies beyond the window. *)
Definition rxreorder_beyond (start end_win seq_num : Z) : bool :=
  ((end_win <? start) && (seq_num <? start) && (seq_num >? end_win))
  || ((end_win >? start) && ((seq_num >? end_win) || (seq_num <? start))).

(** The new window start that makes [seq_num] the last of the window. *)
Definition rxreorder_new_start (seq_num win : Z) : Z :=
  if seq_num - win + 1 >=? 0 then seq_num - win + 1
  else MAX_TID_VALUE - (win - seq_num) + 1.

(** Storing the payload in its slot; [FAILURE] for a duplicate. *)
Definition rxreorder_store (e : RxReorderTbl) (start seq_num pkt_type : Z) (p : payload)
  : option (mlan_status * RxReorderTbl) :=
  if negb (pkt_type =? PKT_TYPE_BAR) then
    let idx := if seq_num >=? start then seq_num - start
               else seq_num + MAX_TID_VALUE - start in
    if idx <? 0 then None else
    old ← rx_reorder_ptr e !! Z.to_nat idx;
    if old is Some _ then Some (MLAN_STATUS_FAILURE, e)
    else Some (MLAN_STATUS_SUCCESS,
               set_bitmap (u64 (Z.lor (bitmap e) (u64 (Z.shiftl 1 idx))))
                 (set_rx_reorder_ptr (<[Z.to_nat idx := Some p]> (rx_reorder_ptr e)) e))
  else Some (MLAN_STATUS_SUCCESS, e).

(** From "WinStart = seq_num" to the scan, after the drop test. *)
Definition rxreorder_window (e : RxReorderTbl) (seq_num pkt_type : Z) (p : payload)
  : option (mlan_status * RxReorderTbl * list rx_event) :=
  let start := start_win e in
  let win := win_size e in
  let end_win := Z.land (start + win - 1) (MAX_TID_VALUE - 1) in
  let seq_num := if pkt_type =? PKT_TYPE_BAR
                 then u16 (Z.land (seq_num + win - 1) (MAX_TID_VALUE - 1)) else seq_num in
  '(e, start, evs) ←
    (if rxreorder_beyond start end_win seq_num
     then let start := rxreorder_new_start seq_num win in
          '(e, evs) ← wlan_11n_dispatch_pkt_until_start_win e start; Some (e, start, evs)
     else Some (e, start, []));
  '(ret, e) ← rxreorder_store e start seq_num pkt_type p;
  match ret with
  | MLAN_STATUS_SUCCESS =>
      '(e, evs') ← wlan_11n_scan_and_dispatch e; Some (MLAN_STATUS_SUCCESS, e, evs ++ evs')
  | _ => Some (ret, e, evs)
  end.

(** The [done:] label. *)
Definition rxreorder_done (cfg : reorder_cfg) (prev_start_win : Z) (e : RxReorderTbl)
  : RxReorderTbl * list rx_event :=
  if bitmap e =? 0 then
    if timer_is_set e then (set_timer_is_set false e, [StopTimer]) else (e, [])
  else if negb (timer_is_set e) || negb (prev_start_win =? start_win e)
  then mlan_11n_rxreorder_timer_restart cfg e else (e, []).

(** [mlan_11n_rxreorder_pkt] once the table entry is found with a window of
    more than one packet. *)
Definition rxreorder_entry (cfg : reorder_cfg) (e : RxReorderTbl) (seq_num pkt_type : Z) (p : payload)
  : option (mlan_status * RxReorderTbl * list rx_event) :=
  '(e, evs0) ← rxreorder_flush e;
  if (pkt_type =? PKT_TYPE_AMSDU) && negb (amsdu e)
  then Some (MLAN_STATUS_SUCCESS, e, evs0 ++ [Dispatch p]) else
  match rxreorder_check_start_win e seq_num pkt_type p with
  | inl (ret, e, evs) => Some (ret, e, evs0 ++ evs)
  | inr e =>
      '(e, evs1) ← rxreorder_no_drop cfg e seq_num pkt_type;
      let prev_start_win := start_win e in
      let no_drop := force_no_drop e in
      let e := if no_drop then set_force_no_drop false e else e in
      '(ret, e, evs2) ←
        (if negb no_drop && rxreorder_is_old prev_start_win seq_num
         then Some (MLAN_STATUS_FAILURE, e, [])
         else rxreorder_window e seq_num pkt_type p);
      let '(e, evs3) := rxreorder_done cfg prev_start_win e in
      Some (ret, e, evs0 ++ evs1 ++ evs2 ++ evs3)
  end.

(** ** Specification vocabulary *)

(** The payloads of a slot list, first slot first. *)
Definition somes (l : list (option payload)) : list payload := omap id l.

(** The payloads dispatched by a list of events. *)
Definition dispatched (evs : list rx_event) : list payload :=
  omap (λ ev, match ev with Dispatch p => Some p | _ => None end) evs.

(** The number of leading occupied slots. *)
Fixpoint prefix_len (l : list (option payload)) : nat :=
  match l with Some _ :: l => S (prefix_len l) | _ => O end.

(** Bit [i] of the bitmap is set exactly when slot [i] is occupied. *)
Definition bitmap_ok (bm : Z) (ptr : list (option payload)) : Prop :=
  0 <= bm < 2 ^ 64 ∧
  ∀ i : nat, Z.testbit bm (Z.of_nat i) = bool_decide (is_Some (mjoin (ptr !! i))).

(** Well-formed entries: a negotiated window of 2 to 64 packets (the bitmap is
    64 bits wide), a 12-bit start (4096 stands for 0 after the correction of
    [rxreorder_fix_start_win]), a bitmap that mirrors the slots, and nothing
    buffered before the first window check. *)
Record core (e : RxReorderTbl) : Prop := {
  wf_win : 2 <= win_size e <= 64;
  wf_len : length (rx_reorder_ptr e) = Z.to_nat (win_size e);
  wf_start : 0 <= start_win e <= 4096;
  wf_last : 0 <= last_seq e < 4096 ∨ last_seq e = DEFAULT_SEQ_NUM;
  wf_bitmap : bitmap_ok (bitmap e) (rx_reorder_ptr e);
  wf_fresh : check_start_win e = true → Forall (λ s, s = None) (rx_reorder_ptr e)
}.

(** Whenever something is buffered a flush is pending: the timer runs or has
    fired and asked for one. *)
Definition armed (e : RxReorderTbl) : Prop :=
  bitmap e ≠ 0 → timer_is_set e = true ∨ flush_data e = true.

Definition wf (e : RxReorderTbl) : Prop := core e ∧ armed e.

(** [n] slots dispatched, the window now starting at [ns]. *)
Definition shift_entry (n : nat) (ns : Z) (e : RxReorderTbl) : RxReorderTbl :=
  set_start_win ns
    (set_bitmap (shift_bitmap (bitmap e) (Z.of_nat n))
       (set_rx_reorder_ptr (drop n (rx_reorder_ptr e) ++ replicate n None) e)).

(** The number of slots [wlan_11n_dispatch_pkt_until_start_win] empties. *)
Definition until_count (e : RxReorderTbl) (ns : Z) : nat :=
  Z.to_nat (if ns >? start_win e then Z.min (ns - start_win e) (win_size e) else win_size e).

(** No flag is pending: the entry is in its normal receiving state. *)
Definition steady (e : RxReorderTbl) : Prop :=
  flush_data e = false ∧ check_start_win e = false ∧ force_no_drop e = false.

(** The payload a call accepts into the stream. *)
Definition accepted (ret : mlan_status) (pkt_type : Z) (p : payload) : list payload :=
  if decide (ret = MLAN_STATUS_SUCCESS ∧ pkt_type ≠ PKT_TYPE_BAR) then [p] else [].

(** ** List lemmas *)

Lemma somes_app l1 l2 : somes (l1 ++ l2) = somes l1 ++ somes l2.
Proof. apply omap_app. Qed.
Lemma somes_take_drop n l : somes (take n l) ++ somes (drop n l) = somes l.
Proof. by rewrite <- somes_app, take_drop. Qed.
Lemma somes_replicate n : somes (replicate n None) = [].
Proof. by induction n. Qed.
Lemma somes_none l : Forall (λ s, s = None) l → somes l = [].
Proof. induction 1 as [|x l -> _ IH]; done. Qed.
Lemma somes_shift n l : somes (drop n l ++ replicate n None) = somes (drop n l).
Proof. by rewrite somes_app, somes_replicate, app_nil_r. Qed.
Lemma dispatched_app a b : dispatched (a ++ b) = dispatched a ++ dispatched b.
Proof. apply omap_app. Qed.
Lemma dispatched_Dispatch l : dispatched (Dispatch <$> l) = l.
Proof. induction l as [|x l IH]; [done|]. simpl. by f_equal. Qed.

Lemma somes_insert (l : list (option payload)) i p :
  l !! i = Some None → somes (<[i := Some p]> l) ≡ₚ p :: somes l.
Proof.
  intros H. rewrite insert_take_drop by (by eapply lookup_lt_Some).
  rewrite <- (take_drop_middle l i None H) at 3. rewrite !somes_app. simpl.
  by rewrite Permutation_middle.
Qed.

Lemma prefix_len_le l : (prefix_len l <= length l)%nat.
Proof. induction l as [|[]]; simpl; lia. Qed.

Lemma mjoin_None {A} (o : option (option A)) : mjoin o = None ↔ o = None ∨ o = Some None.
Proof. destruct o as [[]|]; naive_solver. Qed.

(** The slot that moves to position [i] when [n] slots are dropped. *)
Lemma shifted_slot n (l : list (option payload)) i :
  mjoin ((drop n l ++ replicate n None) !! i) = mjoin (l !! (n + i)%nat).
Proof.
  destruct (decide (i < length (drop n l))%nat) as [Hi|Hi].
  - by rewrite lookup_app_l, lookup_drop by done.
  - rewrite lookup_app_r by lia. rewrite length_drop in Hi.
    rewrite (lookup_ge_None_2 l) by lia. apply mjoin_None.
    destruct (_ !! _) as [x|] eqn:E; [right|by left].
    apply lookup_replicate in E as [-> _]. done.
Qed.

(** ** The loops *)

Lemma dispatch_loop_spec n ptr i : (i + n <= length ptr)%nat →
  dispatch_loop ptr i n =
    Some (take i ptr ++ replicate n None ++ drop (i + n) ptr,
          Dispatch <$> somes (take n (drop i ptr))).
Proof.
  revert ptr i. induction n as [|n IH]; intros ptr i Hn.
  - simpl. by rewrite Nat.add_0_r, take_drop.
  - destruct (lookup_lt_is_Some_2 ptr i) as [v Hv]; [lia|]. simpl. rewrite Hv. simpl.
    assert (drop i ptr = v :: drop (S i) ptr) as Hd by (by rewrite (drop_S _ v)).
    assert (∀ q, length q = length ptr → take i q = take i ptr → q !! i = Some None →
      drop (S i) q = drop (S i) ptr →
      take (S i) q ++ replicate n None ++ drop (S i + n) q =
      take i ptr ++ None :: replicate n None ++ drop (i + S n) ptr) as Hq.
    { intros q Hl Ht Hqi Hdq. rewrite (take_S_r _ _ None) by done. rewrite Ht, <- app_assoc. simpl.
      do 3 f_equal. replace (i + S n)%nat with (S i + n)%nat by lia.
      assert (∀ l : list (option payload), drop (S i + n) l = drop n (drop (S i) l)) as Hdd
        by (intros; by rewrite drop_drop).
      by rewrite !Hdd, Hdq. }
    destruct v as [p|]; rewrite IH by (rewrite ?length_insert; lia); simpl; rewrite Hd; simpl.
    + do 2 f_equal.
      * apply Hq; [by rewrite length_insert|by rewrite take_insert_ge by lia| |].
        -- by rewrite list_lookup_insert_eq by lia.
        -- by rewrite drop_insert_lt by lia.
      * by rewrite drop_insert_lt by lia.
    + do 2 f_equal. by apply Hq.
Qed.

Lemma xchg_loop_lookup k ptr n i : (0 < n)%nat → (n + i + k = length ptr)%nat →
  ∃ ptr', xchg_loop ptr n i k = Some ptr' ∧ length ptr' = length ptr ∧
    ∀ j, (j < length ptr)%nat → ptr' !! j =
      if decide (j < i)%nat then ptr !! j
      else if decide (j < i + k)%nat then ptr !! (n + j)%nat
      else if decide (n + i <= j)%nat then Some None else ptr !! j.
Proof.
  intros Hn. revert ptr i. induction k as [|k IH]; intros ptr i Hl.
  - exists ptr. split_and!; [done..|]. intros j Hj. repeat case_decide; try done; lia.
  - destruct (lookup_lt_is_Some_2 ptr (n + i)) as [v Hv]; [lia|].
    simpl. rewrite Hv. simpl. rewrite decide_True by lia.
    destruct (IH (<[(n + i)%nat:=None]> (<[i:=v]> ptr)) (S i)) as (ptr' & -> & Hl' & Hlk);
      [rewrite !length_insert; lia|].
    exists ptr'. rewrite !length_insert in Hl', Hlk. split_and!; [done..|].
    intros j Hj. rewrite Hlk by done.
    repeat case_decide; try lia; rewrite ?(list_lookup_insert_ne _ (n + i)) by lia;
      rewrite ?list_lookup_insert_ne by lia; try done.
    + replace j with i by lia. by rewrite list_lookup_insert_eq by lia.
    + replace j with (n + i)%nat by lia. by rewrite list_lookup_insert_eq by (rewrite length_insert; lia).
Qed.

(** The rotation: with the first [n] slots already emptied it drops them and
    appends [n] empty ones. *)
Lemma xchg_loop_spec ptr n k :
  (0 < n)%nat → (n + k = length ptr)%nat → take n ptr = replicate n None →
  xchg_loop ptr n 0 k = Some (drop n ptr ++ replicate n None).
Proof.
  intros Hn Hl Hz. destruct (xchg_loop_lookup k ptr n 0 Hn ltac:(lia)) as (q & -> & Hq & Hlk).
  f_equal. apply list_eq_same_length with (length ptr);
    [by rewrite length_app, length_drop, length_replicate; lia|done|].
  intros j x y Hj Hx Hy. rewrite Hlk in Hx by lia.
  assert (Hjz : (j < n)%nat → ptr !! j = Some None).
  { intros. rewrite <- (lookup_take_lt ptr n j) by lia. rewrite Hz. by apply lookup_replicate_2. }
  destruct (decide (j < k)%nat).
  - rewrite lookup_app_l, lookup_drop in Hy by (rewrite length_drop; lia).
    rewrite decide_False, decide_True in Hx by lia. congruence.
  - rewrite lookup_app_r in Hy by (rewrite length_drop; lia).
    apply lookup_replicate in Hy as [-> _].
    rewrite decide_False, decide_False in Hx by lia. case_decide; [congruence|].
    rewrite Hjz in Hx by lia. congruence.
Qed.

Lemma scan_loop_spec n ptr i : (i + n <= length ptr)%nat →
  let k := prefix_len (take n (drop i ptr)) in
  scan_loop ptr i n =
    Some (take i ptr ++ replicate k None ++ drop (i + k) ptr,
          Dispatch <$> somes (take k (drop i ptr)), (i + k)%nat).
Proof.
  revert ptr i. induction n as [|n IH]; intros ptr i Hn; simpl.
  - by rewrite Nat.add_0_r, take_drop.
  - destruct (lookup_lt_is_Some_2 ptr i) as [v Hv]; [lia|]. rewrite Hv. simpl.
    assert (drop i ptr = v :: drop (S i) ptr) as Hd by (by rewrite (drop_S _ v)).
    rewrite Hd. destruct v as [p|]; simpl.
    + rewrite IH by (rewrite length_insert; lia). rewrite !drop_insert_lt by lia. simpl.
      set (k := prefix_len _). rewrite (take_S_r _ _ None) by (by rewrite list_lookup_insert_eq by lia).
      rewrite take_insert_ge by lia. rewrite <- app_assoc. simpl.
      replace (i + S k)%nat with (S i + k)%nat by lia. done.
    + by rewrite Nat.add_0_r, take_drop.
Qed.

Lemma find_last_loop_spec n ptr : (n <= length ptr)%nat →
  ∃ z, find_last_loop ptr n = Some z ∧ -1 <= z < Z.of_nat n ∧
       (∀ j : nat, z < Z.of_nat j → (j < n)%nat → ptr !! j = Some None) ∧
       (0 <= z → is_Some (mjoin (ptr !! Z.to_nat z))).
Proof.
  induction n as [|n IH]; intros Hn; [exists (-1); split_and!; [done|lia..]|].
  destruct (lookup_lt_is_Some_2 ptr n) as [v Hv]; [lia|]. simpl. rewrite Hv. simpl.
  destruct v as [p|].
  - exists (Z.of_nat n). split_and!; [done|lia|lia|lia|]. intros _. rewrite Nat2Z.id, Hv. eauto.
  - destruct (IH ltac:(lia)) as (z & -> & Hz & Hj & Hs). exists z. split_and!; [done|lia|lia| |done].
    intros j Hzj Hjn. destruct (decide (j = n)) as [->|]; [done|apply Hj; lia].
Qed.

(** ** The bitmap *)

Lemma land_tid x : Z.land x (MAX_TID_VALUE - 1) = x mod 4096.
Proof. change (MAX_TID_VALUE - 1) with (Z.ones 12). by rewrite Z.land_ones by lia. Qed.

Lemma u64_bits x : 0 <= x < 2 ^ 64 ↔ 0 <= x ∧ ∀ i, 64 <= i → Z.testbit x i = false.
Proof.
  split.
  - intros Hx. split; [lia|]. intros i Hi.
    destruct (decide (x = 0)) as [->|]; [apply Z.bits_0|].
    apply Z.bits_above_log2; [lia|]. apply Z.log2_lt_pow2; [lia|].
    eapply Z.lt_le_trans; [apply Hx|]. apply Z.pow_le_mono_r; lia.
  - intros [Hx Hb]. split; [done|]. destruct (decide (x = 0)) as [->|]; [lia|].
    apply Z.log2_lt_pow2; [lia|]. destruct (decide (64 <= Z.log2 x)); [|lia].
    specialize (Hb (Z.log2 x) ltac:(lia)). by rewrite Z.bit_log2 in Hb by lia.
Qed.

Lemma shift_bitmap_ok bm ptr n :
  bitmap_ok bm ptr → bitmap_ok (shift_bitmap bm (Z.of_nat n)) (drop n ptr ++ replicate n None).
Proof.
  intros [Hr Hb]. unfold shift_bitmap, bitmap_ok. destruct (Z.ltb_spec (Z.of_nat n) 64).
  - split.
    + rewrite Z.shiftr_div_pow2 by lia. split; [apply Z.div_pos; lia|].
      apply Z.le_lt_trans with bm; [apply Z.div_le_upper_bound; [lia|]|lia].
      assert (1 <= 2 ^ Z.of_nat n) by (apply (Z.pow_le_mono_r 2 0); lia). nia.
    + intros i. rewrite Z.shiftr_spec by lia. rewrite shifted_slot, <- Hb.
      f_equal. lia.
  - split; [lia|]. intros i. rewrite Z.bits_0, shifted_slot, <- Hb. symmetry.
    apply u64_bits; [done|lia].
Qed.

Lemma set_bit_ok bm ptr (i : nat) p :
  bitmap_ok bm ptr → (i < 64)%nat → (i < length ptr)%nat →
  bitmap_ok (u64 (Z.lor bm (u64 (Z.shiftl 1 (Z.of_nat i))))) (<[i := Some p]> ptr).
Proof.
  intros [Hr Hb] Hi Hl.
  assert (Hs : 0 <= Z.shiftl 1 (Z.of_nat i) < 2 ^ 64).
  { rewrite Z.shiftl_1_l. split; [lia|]. apply Z.pow_lt_mono_r; lia. }
  rewrite (u_wrap_small _ (Z.shiftl _ _)) by done.
  apply u64_bits in Hr as [Hr Hr']. pose proof Hs as Hs'. apply u64_bits in Hs' as [_ Hs'].
  assert (Hlor : 0 <= Z.lor bm (Z.shiftl 1 (Z.of_nat i)) < 2 ^ 64).
  { apply u64_bits. split; [apply Z.lor_nonneg; lia|]. intros j Hj.
    by rewrite Z.lor_spec, Hr', Hs' by done. }
  rewrite u_wrap_small by done. split; [done|]. intros j.
  rewrite Z.lor_spec, Hb, Z.shiftl_1_l, Z.pow2_bits_eqb by lia.
  destruct (decide (j = i)) as [->|Hj].
  - rewrite list_lookup_insert_eq by done. by rewrite Z.eqb_refl, orb_true_r.
  - rewrite list_lookup_insert_ne by done.
    destruct (Z.eqb_spec (Z.of_nat i) (Z.of_nat j)); [lia|]. by rewrite orb_false_r.
Qed.

Lemma bitmap_zero bm ptr : bitmap_ok bm ptr → (bm = 0 ↔ Forall (λ s, s = None) ptr).
Proof.
  intros [Hr Hb]. split.
  - intros ->. apply Forall_lookup. intros i x Hx. specialize (Hb i).
    rewrite Z.bits_0, Hx in Hb. destruct x; [done|done].
  - intros Hf. apply Z.bits_inj_0. intros j. destruct (decide (0 <= j)); [|by apply Z.testbit_neg_r; lia].
    replace j with (Z.of_nat (Z.to_nat j)) by lia. rewrite Hb.
    apply bool_decide_eq_false_2. destruct (ptr !! Z.to_nat j) eqn:E; simpl; [|by intros []].
    rewrite Forall_lookup in Hf. rewrite (Hf _ _ E). by intros [].
Qed.

Lemma all_none_shift n (l : list (option payload)) :
  Forall (λ s, s = None) l → Forall (λ s, s = None) (drop n l ++ replicate n None).
Proof. intros H. apply Forall_app. split; [by apply Forall_drop|by apply Forall_replicate]. Qed.

(** ** Window moves *)

Lemma until_count_bounds e ns : core e → (1 <= until_count e ns <= Z.to_nat (win_size e))%nat.
Proof. intros []. unfold until_count. destruct (Z.gtb_spec ns (start_win e)); lia. Qed.

Lemma dispatch_until_spec e ns : core e →
  wlan_11n_dispatch_pkt_until_start_win e ns =
    Some (shift_entry (until_count e ns) ns e,
          Dispatch <$> somes (take (until_count e ns) (rx_reorder_ptr e))).
Proof.
  intros Hc. pose proof (until_count_bounds e ns Hc) as Hn. pose proof (wf_len e Hc) as Hl.
  pose proof (wf_win e Hc) as Hw.
  unfold wlan_11n_dispatch_pkt_until_start_win. fold (until_count e ns).
  set (z := if ns >? start_win e then _ else _).
  assert (Z.of_nat (until_count e ns) = z) as Hz
    by (unfold until_count, z in *; destruct (Z.gtb_spec ns (start_win e)); lia).
  rewrite dispatch_loop_spec by lia. simpl.
  replace (Z.to_nat z) with (until_count e ns) by done.
  set (n := until_count e ns) in *.
  assert (length (replicate n (@None payload) ++ drop n (rx_reorder_ptr e)) = Z.to_nat (win_size e))
    as Hlen by (rewrite length_app, length_replicate, length_drop; lia).
  rewrite xchg_loop_spec; [|lia|lia|].
  - simpl. unfold shift_entry. rewrite Hz. rewrite drop_app_length' by (by rewrite length_replicate).
    by rewrite drop_0.
  - by rewrite take_app_length' by (by rewrite length_replicate).
Qed.

Lemma scan_spec e : core e →
  let k := prefix_len (rx_reorder_ptr e) in
  wlan_11n_scan_and_dispatch e =
    Some (shift_entry k ((start_win e + Z.of_nat k) mod 4096) e,
          Dispatch <$> somes (take k (rx_reorder_ptr e))).
Proof.
  intros Hc k. pose proof (wf_len e Hc) as Hl. pose proof (wf_win e Hc) as Hw.
  pose proof (prefix_len_le (rx_reorder_ptr e)) as Hk. fold k in Hk.
  unfold wlan_11n_scan_and_dispatch. rewrite scan_loop_spec by lia. simpl.
  rewrite drop_0, take_ge by lia. fold k. rewrite land_tid.
  assert (length (replicate k (@None payload) ++ drop k (rx_reorder_ptr e)) = Z.to_nat (win_size e))
    as Hlen by (rewrite length_app, length_replicate, length_drop; lia).
  case_decide as Hk0.
  - rewrite xchg_loop_spec; [|lia|lia|].
    + simpl. unfold shift_entry. by rewrite drop_app_length' by (by rewrite length_replicate).
    + by rewrite take_app_length' by (by rewrite length_replicate).
  - assert (k = 0)%nat as Hk' by lia. rewrite Hk' in *. simpl. unfold shift_entry. simpl.
    by rewrite app_nil_r.
Qed.

Lemma shift_entry_core n ns e :
  core e → 0 <= ns <= 4096 → (n <= Z.to_nat (win_size e))%nat → core (shift_entry n ns e).
Proof.
  intros Hc Hns Hn. destruct Hc. split; simpl; try done.
  - rewrite length_app, length_drop, length_replicate. lia.
  - by apply shift_bitmap_ok.
  - intros Hf. by apply all_none_shift, wf_fresh0.
Qed.

Lemma somes_shift_entry n ns e :
  somes (take n (rx_reorder_ptr e)) ++ somes (rx_reorder_ptr (shift_entry n ns e)) =
  somes (rx_reorder_ptr e).
Proof. simpl. rewrite somes_shift. apply somes_take_drop. Qed.

(** ** Sequence arithmetic: the code's case analyses are circular distances *)

Ltac mod_lia := Z.div_mod_to_equations; lia.

Lemma is_old_spec start seq : 0 <= start <= 4096 → 0 <= seq < 4096 →
  rxreorder_is_old start seq = (2048 <=? (seq - start) mod 4096).
Proof.
  intros Hs Hq. unfold rxreorder_is_old. rewrite land_tid. change MAX_TID_VALUE with 4096.
  change TWOPOW11 with 2048. apply Bool.eq_true_iff_eq.
  destruct (Z.gtb_spec (start + 2048) (4096 - 1)); rewrite ?andb_true_iff, ?orb_true_iff,
    ?Z.geb_le, ?Z.ltb_lt, ?Z.leb_le; mod_lia.
Qed.

Lemma beyond_spec start win seq : 2 <= win <= 64 → 0 <= start <= 4096 → 0 <= seq < 4096 →
  rxreorder_beyond start (Z.land (start + win - 1) (MAX_TID_VALUE - 1)) seq =
  (win <=? (seq - start) mod 4096).
Proof.
  intros Hw Hs Hq. unfold rxreorder_beyond. rewrite land_tid. apply Bool.eq_true_iff_eq.
  rewrite ?orb_true_iff, ?andb_true_iff, ?orb_true_iff, ?Z.gtb_lt, ?Z.ltb_lt, ?Z.leb_le. mod_lia.
Qed.

Lemma new_start_spec win seq : 2 <= win <= 64 → 0 <= seq < 4096 →
  rxreorder_new_start seq win = (seq - win + 1) mod 4096.
Proof.
  intros Hw Hq. unfold rxreorder_new_start. change MAX_TID_VALUE with 4096.
  destruct (Z.geb_spec (seq - win + 1) 0); mod_lia.
Qed.

Lemma slot_index_spec start seq : 0 <= start <= 4096 → 0 <= seq < 4096 →
  (if seq >=? start then seq - start else seq + MAX_TID_VALUE - start) = (seq - start) mod 4096.
Proof.
  intros Hs Hq. change MAX_TID_VALUE with 4096. destruct (Z.geb_spec seq start); mod_lia.
Qed.

(** ** Reference receive buffer (IEEE 802.11 block-ack reordering) *)

(** Hand up the in-order prefix of the slots and advance the base. *)
Definition ref_release (base : Z) (slots : list (option payload))
  : Z * list (option payload) * list payload :=
  let k := prefix_len slots in
  ((base + Z.of_nat k) mod 4096, drop k slots ++ replicate k None, somes (take k slots)).

(** Receive packet [p] with sequence number [seq] into a window of [win] slots
    based at [base]: the new base, the new slots and the payloads handed up. *)
Definition ref_receive (win base : Z) (slots : list (option payload)) (seq : Z) (p : payload)
  : mlan_status * Z * list (option payload) * list payload :=
  let off := (seq - base) mod 4096 in
  if 2048 <=? off then (MLAN_STATUS_FAILURE, base, slots, [])
  else if off <? win then
    match slots !! Z.to_nat off with
    | Some None =>
        let '(base, slots, out) := ref_release base (<[Z.to_nat off := Some p]> slots) in
        (MLAN_STATUS_SUCCESS, base, slots, out)
    | _ => (MLAN_STATUS_FAILURE, base, slots, [])
    end
  else
    let n := Z.to_nat (Z.min (off - win + 1) win) in
    let moved := drop n slots ++ replicate n None in
    let '(base', slots', out) :=
      ref_release ((seq - win + 1) mod 4096) (<[Z.to_nat (win - 1) := Some p]> moved) in
    (MLAN_STATUS_SUCCESS, base', slots', somes (take n slots) ++ out).

(** ** The window step *)

(** The entry after storing [p] at offset [idx]. *)
Definition store_entry (idx : Z) (p : payload) (e : RxReorderTbl) : RxReorderTbl :=
  set_bitmap (u64 (Z.lor (bitmap e) (u64 (Z.shiftl 1 idx))))
    (set_rx_reorder_ptr (<[Z.to_nat idx := Some p]> (rx_reorder_ptr e)) e).

Lemma store_entry_core idx p e :
  core e → 0 <= idx < win_size e → check_start_win e = false → core (store_entry idx p e).
Proof.
  intros Hc Hi Hf. destruct Hc. split; simpl; try done.
  - by rewrite length_insert.
  - replace idx with (Z.of_nat (Z.to_nat idx)) at 1 by lia. apply set_bit_ok; [done|lia..].
  - congruence.
Qed.

(** The entry the window step works on once the window covers [seq]. *)
Definition covering (e : RxReorderTbl) (seq : Z) : RxReorderTbl * list payload :=
  if win_size e <=? (seq - start_win e) mod 4096 then
    let ns := (seq - win_size e + 1) mod 4096 in
    (shift_entry (until_count e ns) ns e, somes (take (until_count e ns) (rx_reorder_ptr e)))
  else (e, []).

(** Handing up the in-order prefix. *)
Definition released (e : RxReorderTbl) : RxReorderTbl :=
  let k := prefix_len (rx_reorder_ptr e) in
  shift_entry k ((start_win e + Z.of_nat k) mod 4096) e.
Definition release_out (e : RxReorderTbl) : list payload :=
  somes (take (prefix_len (rx_reorder_ptr e)) (rx_reorder_ptr e)).

Lemma released_core e : core e → core (released e).
Proof.
  intros Hc. apply shift_entry_core; [done| |].
  - pose proof (Z.mod_pos_bound (start_win e + Z.of_nat (prefix_len (rx_reorder_ptr e))) 4096). lia.
  - pose proof (prefix_len_le (rx_reorder_ptr e)). pose proof (wf_len e Hc). lia.
Qed.

Lemma covering_core e seq : core e → core (covering e seq).1.
Proof.
  intros Hc. unfold covering. case_match; [|done]. simpl. apply shift_entry_core; [done| |].
  - pose proof (Z.mod_pos_bound (seq - win_size e + 1) 4096). lia.
  - apply until_count_bounds; done.
Qed.

(** After covering, [seq] is inside the window, and its slot is free when the
    window had to move. *)
Lemma covering_slot e seq : core e → 0 <= seq < 4096 →
  let e1 := (covering e seq).1 in
  0 <= (seq - start_win e1) mod 4096 < win_size e1 ∧
  (win_size e <= (seq - start_win e) mod 4096 →
   (seq - start_win e1) mod 4096 = win_size e - 1 ∧
   rx_reorder_ptr e1 !! Z.to_nat (win_size e - 1) = Some None).
Proof.
  intros Hc Hq. pose proof (wf_win e Hc). pose proof (wf_len e Hc) as Hl. unfold covering.
  destruct (Z.leb_spec (win_size e) ((seq - start_win e) mod 4096)); simpl; [|split; [mod_lia|lia]].
  split; [mod_lia|]. intros _. split; [mod_lia|].
  set (n := until_count e _). pose proof (until_count_bounds e ((seq - win_size e + 1) mod 4096) Hc).
  fold n in H1. rewrite lookup_app_r by (rewrite length_drop; lia).
  apply lookup_replicate_2. rewrite length_drop. lia.
Qed.

(** Exact result of the window step for a data packet. *)
Lemma window_data e seq pkt_type p :
  core e → check_start_win e = false → 0 <= seq < 4096 → pkt_type ≠ PKT_TYPE_BAR →
  let '(e1, out1) := covering e seq in
  let idx := (seq - start_win e1) mod 4096 in
  rxreorder_window e seq pkt_type p =
    if decide (rx_reorder_ptr e1 !! Z.to_nat idx = Some None) then
      let e2 := store_entry idx p e1 in
      Some (MLAN_STATUS_SUCCESS, released e2,
            (Dispatch <$> out1) ++ (Dispatch <$> release_out e2))
    else Some (MLAN_STATUS_FAILURE, e1, Dispatch <$> out1).
Proof.
  intros Hc Hfr Hq Hb. pose proof (wf_win e Hc) as Hw. pose proof (wf_start e Hc) as Hs.
  pose proof (covering_core e seq Hc) as Hc1. pose proof (covering_slot e seq Hc Hq) as [Hidx _].
  assert ((pkt_type =? PKT_TYPE_BAR) = false) as Hbar by (by apply Z.eqb_neq).
  unfold rxreorder_window. rewrite Hbar, beyond_spec by done.
  destruct (covering e seq) as [e1 out1] eqn:Ecov. simpl in Hc1, Hidx.
  assert ((if win_size e <=? (seq - start_win e) mod 4096
     then '(e0, evs) ← wlan_11n_dispatch_pkt_until_start_win e (rxreorder_new_start seq (win_size e));
          Some (e0, rxreorder_new_start seq (win_size e), evs)
     else Some (e, start_win e, [])) = Some (e1, start_win e1, Dispatch <$> out1)) as E.
  { unfold covering in Ecov. rewrite new_start_spec by done.
    destruct (win_size e <=? (seq - start_win e) mod 4096); simplify_eq; [|done].
    by rewrite dispatch_until_spec by done. }
  cbv zeta. rewrite E. simpl. unfold rxreorder_store. rewrite Hbar. simpl.
  pose proof (wf_start e1 Hc1). rewrite slot_index_spec by done.
  set (idx := (seq - start_win e1) mod 4096) in *. destruct (Z.ltb_spec idx 0); [lia|].
  destruct (lookup_lt_is_Some_2 (rx_reorder_ptr e1) (Z.to_nat idx)) as [v Hv].
  { rewrite (wf_len e1 Hc1). lia. }
  rewrite Hv. simpl. destruct v as [p'|].
  - rewrite decide_False by congruence. done.
  - rewrite decide_True by done. fold (store_entry idx p e1).
    cbn [mbind option_bind]. rewrite scan_spec; [done|].
    apply store_entry_core; [done|done|].
    unfold covering in Ecov. by case_match; simplify_eq.
Qed.

(** A BAR only moves the window. *)
Lemma window_bar e seq p :
  core e → 0 <= seq < 4096 →
  let '(e1, out1) := covering e ((seq + win_size e - 1) mod 4096) in
  rxreorder_window e seq PKT_TYPE_BAR p =
    Some (MLAN_STATUS_SUCCESS, released e1, (Dispatch <$> out1) ++ (Dispatch <$> release_out e1)).
Proof.
  intros Hc Hq. pose proof (wf_win e Hc) as Hw. pose proof (wf_start e Hc) as Hs.
  unfold rxreorder_window. rewrite Z.eqb_refl, (land_tid (seq + _ - 1)).
  set (seqb := (seq + win_size e - 1) mod 4096).
  assert (0 <= seqb < 4096) by (apply Z.mod_pos_bound; lia).
  rewrite u_wrap_small by lia. rewrite beyond_spec by done.
  pose proof (covering_core e seqb Hc) as Hc1. unfold covering in *.
  cbv zeta. rewrite new_start_spec by done.
  destruct (win_size e <=? (seqb - start_win e) mod 4096); simpl in Hc1.
  - rewrite dispatch_until_spec by done. cbn [mbind option_bind].
    unfold rxreorder_store. rewrite Z.eqb_refl. simpl. by rewrite scan_spec.
  - cbn [mbind option_bind]. unfold rxreorder_store. rewrite Z.eqb_refl. simpl. by rewrite scan_spec.
Qed.

(** ** Phases compose *)

(** From [e] to [e'] the events [evs] hand up what left the slots, and [acc]
    entered the stream. *)
Record moved (e e' : RxReorderTbl) (evs : list rx_event) (acc : list payload) : Prop := {
  mv_core : core e';
  mv_cons : dispatched evs ++ somes (rx_reorder_ptr e') ≡ₚ somes (rx_reorder_ptr e) ++ acc
}.

Lemma moved_trans e e1 e2 ev1 ev2 a1 a2 :
  moved e e1 ev1 a1 → moved e1 e2 ev2 a2 → moved e e2 (ev1 ++ ev2) (a1 ++ a2).
Proof.
  intros [C1 P1] [C2 P2]. split; [done|].
  rewrite dispatched_app, <- app_assoc, P2, app_assoc, P1, <- app_assoc. done.
Qed.

Lemma moved_refl e : core e → moved e e [] [].
Proof. intros. split; [done|]. by rewrite app_nil_r. Qed.

(** An update that leaves the fields [core] and the slots alone. *)
Lemma moved_same e e' evs : core e' → rx_reorder_ptr e' = rx_reorder_ptr e →
  dispatched evs = [] → moved e e' evs [].
Proof. intros C H D. split; [done|]. by rewrite D, H, app_nil_r. Qed.

Lemma shift_entry_moved n ns e :
  core e → 0 <= ns <= 4096 → (n <= Z.to_nat (win_size e))%nat →
  moved e (shift_entry n ns e) (Dispatch <$> somes (take n (rx_reorder_ptr e))) [].
Proof.
  intros. split; [by apply shift_entry_core|].
  by rewrite dispatched_Dispatch, somes_shift_entry, app_nil_r.
Qed.

Lemma mod_tid_range x : 0 <= x mod 4096 <= 4096.
Proof. pose proof (Z.mod_pos_bound x 4096). lia. Qed.

Lemma released_moved e : core e → moved e (released e) (Dispatch <$> release_out e) [].
Proof.
  intros Hc. apply shift_entry_moved; [done|apply mod_tid_range|].
  pose proof (prefix_len_le (rx_reorder_ptr e)). pose proof (wf_len e Hc). lia.
Qed.

Lemma covering_moved e seq :
  core e → moved e (covering e seq).1 (Dispatch <$> (covering e seq).2) [].
Proof.
  intros Hc. unfold covering. case_match; [|by apply moved_refl]. simpl.
  apply shift_entry_moved; [done|apply mod_tid_range|by apply until_count_bounds].
Qed.

Lemma store_moved idx p e :
  core e → 0 <= idx < win_size e → check_start_win e = false →
  rx_reorder_ptr e !! Z.to_nat idx = Some None → moved e (store_entry idx p e) [] [p].
Proof.
  intros. split; [by apply store_entry_core|]. simpl. rewrite somes_insert by done.
  by rewrite Permutation_app_comm.
Qed.

Lemma covering_flags e seq :
  check_start_win (covering e seq).1 = check_start_win e ∧
  win_size (covering e seq).1 = win_size e.
Proof. unfold covering. by case_match. Qed.

(** The window step always has a result and loses nothing. *)
Lemma window_moved e seq pkt_type p :
  core e → check_start_win e = false → 0 <= seq < 4096 →
  ∃ ret e' evs, rxreorder_window e seq pkt_type p = Some (ret, e', evs) ∧
    moved e e' evs (accepted ret pkt_type p).
Proof.
  intros Hc Hf Hq. destruct (decide (pkt_type = PKT_TYPE_BAR)) as [->|Hb].
  - pose proof (window_bar e seq p Hc Hq) as E.
    pose proof (covering_moved e ((seq + win_size e - 1) mod 4096) Hc) as M.
    destruct (covering _ _) as [e1 out1]. eexists _, _, _. split; [exact E|].
    unfold accepted. rewrite decide_False by naive_solver.
    exact (moved_trans _ _ _ _ _ _ _ M (released_moved e1 (mv_core _ _ _ _ M))).
  - pose proof (window_data e seq pkt_type p Hc Hf Hq Hb) as E.
    pose proof (covering_moved e seq Hc) as M. pose proof (covering_slot e seq Hc Hq) as [Hi _].
    pose proof (covering_flags e seq) as [Hf1 _]. rewrite Hf in Hf1.
    destruct (covering e seq) as [e1 out1]. simpl in *.
    case_decide as Hs; (eexists _, _, _; split; [exact E|]); unfold accepted.
    + rewrite decide_True by done. pose proof (mv_core _ _ _ _ M) as C1.
      pose proof (store_moved _ p e1 C1 Hi Hf1 Hs) as S.
      pose proof (released_moved _ (mv_core _ _ _ _ S)) as R.
      exact (moved_trans _ _ _ _ _ _ _ M (moved_trans _ _ _ _ _ _ _ S R)).
    + rewrite decide_False by naive_solver. done.
Qed.

(** ** Flushing *)

Lemma flush_spec e : core e →
  ∃ n ns, wlan_start_flush_data e =
      Some (if (n =? 0)%nat then e else shift_entry n ns e,
            Dispatch <$> somes (rx_reorder_ptr e)) ∧
    (n <= Z.to_nat (win_size e))%nat ∧ 0 <= ns <= 4096 ∧
    Forall (λ s, s = None) (drop n (rx_reorder_ptr e)).
Proof.
  intros Hc. pose proof (wf_len e Hc) as Hl. pose proof (wf_win e Hc) as Hw.
  pose proof (wf_start e Hc) as Hst.
  unfold wlan_start_flush_data, wlan_11n_find_last_seqnum.
  destruct (find_last_loop_spec (Z.to_nat (win_size e)) (rx_reorder_ptr e)) as (z & -> & Hz & Hj & Hs);
    [lia|]. simpl.
  assert (∀ n : nat, z < Z.of_nat n → Forall (λ s, s = None) (drop n (rx_reorder_ptr e))) as Hn.
  { intros n Hn. apply Forall_lookup. intros i x Hx. rewrite lookup_drop in Hx.
    pose proof (lookup_lt_Some _ _ _ Hx). rewrite Hj in Hx by lia. congruence. }
  destruct (Z.geb_spec z 0) as [Hz0|Hz0].
  - rewrite dispatch_until_spec, land_tid by done.
    set (ns := (start_win e + z + 1) mod 4096). pose proof (until_count_bounds e ns Hc) as Hu.
    exists (until_count e ns), ns. destruct (Nat.eqb_spec (until_count e ns) 0) as [?|_]; [lia|].
    assert (Forall (λ s, s = None) (drop (until_count e ns) (rx_reorder_ptr e))) as HF.
    { apply Hn. unfold until_count. destruct (Z.gtb_spec ns (start_win e)); [|lia].
      assert (ns - start_win e = z + 1) by (unfold ns in *; mod_lia). lia. }
    split_and!; [|lia|apply mod_tid_range|apply mod_tid_range|done].
    pose proof (somes_take_drop (until_count e ns) (rx_reorder_ptr e)) as Htd.
    rewrite (somes_none (drop _ _)), app_nil_r in Htd by done. by rewrite Htd.
  - exists 0%nat, 0. simpl. split_and!; [|lia..|by apply (Hn 0%nat); lia].
    by rewrite somes_none by (by apply (Hn 0%nat); lia).
Qed.

Lemma empty_bitmap e : core e → somes (rx_reorder_ptr e) = [] → bitmap e = 0.
Proof.
  intros Hc Hs. apply (bitmap_zero _ (rx_reorder_ptr e)); [apply Hc|].
  induction (rx_reorder_ptr e) as [|[p|] l IH]; [done|done|]. constructor; [done|by apply IH].
Qed.

Lemma flush_moved e : core e →
  ∃ e' evs, wlan_start_flush_data e = Some (e', evs) ∧ moved e e' evs [] ∧
    somes (rx_reorder_ptr e') = [] ∧ dispatched evs = somes (rx_reorder_ptr e) ∧
    flush_data e' = flush_data e ∧ check_start_win e' = check_start_win e.
Proof.
  intros Hc. destruct (flush_spec e Hc) as (n & ns & E & Hn & Hns & HF).
  eexists _, _. split; [exact E|]. rewrite dispatched_Dispatch.
  destruct (Nat.eqb_spec n 0) as [->|].
  - rewrite drop_0 in HF. assert (somes (rx_reorder_ptr e) = []) as Hz by by apply somes_none.
    split_and!; try done. rewrite Hz. by apply moved_refl.
  - assert (somes (rx_reorder_ptr (shift_entry n ns e)) = []) as Hz
      by (simpl; rewrite somes_shift; by apply somes_none).
    split_and!; try done. split; [by apply shift_entry_core|].
    by rewrite dispatched_Dispatch, Hz, !app_nil_r.
Qed.

Lemma set_flush_data_core b e : core e → core (set_flush_data b e).
Proof. by intros []. Qed.
Lemma set_force_no_drop_core b e : core e → core (set_force_no_drop b e).
Proof. by intros []. Qed.
Lemma set_timer_is_set_core b e : core e → core (set_timer_is_set b e).
Proof. by intros []. Qed.
Lemma set_start_win_core x e : 0 <= x <= 4096 → core e → core (set_start_win x e).
Proof. by intros ? []. Qed.
Lemma unset_check_core e : core e → core (set_check_start_win false e).
Proof. by intros []. Qed.
#[local] Hint Resolve set_flush_data_core set_force_no_drop_core set_timer_is_set_core
  set_start_win_core unset_check_core moved_refl : driver.

Lemma rxreorder_flush_moved e : wf e →
  ∃ e' evs, rxreorder_flush e = Some (e', evs) ∧ moved e e' evs [] ∧ armed e' ∧
    flush_data e' = false ∧ check_start_win e' = check_start_win e.
Proof.
  intros [Hc Ha]. unfold rxreorder_flush. destruct (flush_data e) eqn:Hf.
  - destruct (flush_moved (set_flush_data false e)) as (e' & evs & E & [C M] & Hz & Hd & Hfl & Hck);
      [auto with driver|].
    eexists _, _. split; [exact E|]. split_and!; [by split| |done|done].
    intros Hb. by rewrite (empty_bitmap e') in Hb.
  - eexists _, _. split_and!; [done|auto with driver..].
Qed.

(** ** The whole per-packet function *)

Lemma fix_start_win_core e seq : core e → check_start_win e = false →
  core (rxreorder_fix_start_win e seq) ∧
  rx_reorder_ptr (rxreorder_fix_start_win e seq) = rx_reorder_ptr e ∧
  check_start_win (rxreorder_fix_start_win e seq) = false.
Proof.
  intros Hc Hf. unfold rxreorder_fix_start_win.
  destruct (negb (seq =? start_win e) && negb (last_seq e =? DEFAULT_SEQ_NUM)) eqn:E; [|done].
  apply andb_true_iff in E as [_ E]. rewrite negb_true_iff, Z.eqb_neq in E.
  assert (0 <= last_seq e + 1 <= 4096) by (destruct (wf_last e Hc); [lia|done]).
  repeat case_match; split_and!; auto with driver.
Qed.

(** The counting phase either finishes the call without touching the slots or
    falls through with the phase over. *)
Lemma check_start_win_moved e seq pkt_type p : core e → 0 <= seq < 4096 →
  match rxreorder_check_start_win e seq pkt_type p with
  | inl (ret, e', evs) =>
      moved e e' evs (accepted ret pkt_type p) ∧ check_start_win e = true ∧ bitmap e' = bitmap e
  | inr e' => moved e e' [] [] ∧ check_start_win e' = false
  end.
Proof.
  intros Hc Hq. unfold rxreorder_check_start_win. destruct (check_start_win e) eqn:Hf.
  2: { auto with driver. }
  destruct (Z.eqb_spec seq (start_win e)).
  { split; [|done]. by apply moved_same; auto with driver. }
  set (e1 := set_pkt_count _ e). assert (core e1) as Hc1 by (by destruct Hc).
  destruct (_ <? _).
  - destruct (_ =? _); (split_and!; [|done..]).
    + by apply moved_same.
    + unfold accepted. destruct (Z.eqb_spec pkt_type PKT_TYPE_BAR); simpl.
      * rewrite decide_False by naive_solver. apply moved_same; [|done..].
        by destruct Hc; split; simpl; auto.
      * rewrite decide_True by done. split; simpl; [|by rewrite Permutation_app_comm].
        destruct Hc; split; simpl; auto.
  - destruct (fix_start_win_core (set_check_start_win false e1) seq) as (Hc2 & Hp & Hk);
      [auto with driver|done|]. split; [|done]. by apply moved_same.
Qed.

Lemma timer_restart_out cfg e :
  (mlan_11n_rxreorder_timer_restart cfg e).1 = set_timer_is_set true e ∧
  dispatched (mlan_11n_rxreorder_timer_restart cfg e).2 = [].
Proof. unfold mlan_11n_rxreorder_timer_restart. simpl. by destruct (timer_is_set e). Qed.

Lemma no_drop_moved cfg e seq pkt_type :
  core e → check_start_win e = false → 0 <= seq < 4096 →
  ∃ e' evs, rxreorder_no_drop cfg e seq pkt_type = Some (e', evs) ∧ moved e e' evs [] ∧
    check_start_win e' = false.
Proof.
  intros Hc Hf Hq. unfold rxreorder_no_drop. destruct (force_no_drop e).
  2: { eexists _, _. split_and!; [done|by apply moved_refl|done]. }
  rewrite dispatch_until_spec, land_tid by done. cbn [mbind option_bind].
  set (n := until_count e _). set (ns := (start_win e + win_size e) mod 4096).
  assert (moved e (shift_entry n ns e) (Dispatch <$> somes (take n (rx_reorder_ptr e))) []) as M
    by (apply shift_entry_moved; [done|apply mod_tid_range|by apply until_count_bounds]).
  set (e1 := shift_entry n ns e) in *.
  set (e2 := if negb (pkt_type =? PKT_TYPE_BAR) then _ else _).
  assert (moved e1 e2 [] [] ∧ check_start_win e2 = false) as [M2 F2].
  { pose proof (mv_core _ _ _ _ M). unfold e2. case_match; [|by auto with driver].
    split; [|done]. apply moved_same; [apply set_start_win_core; [lia|done]|done..]. }
  pose proof (timer_restart_out cfg e2) as [T1 T2].
  destruct (mlan_11n_rxreorder_timer_restart cfg e2) as [e3 ev3]. simpl in *. subst e3.
  eexists _, _. split_and!; [done| |done].
  apply (moved_trans e e1 _ _ _ [] []); [done|]. apply (moved_trans e1 e2 _ [] _ [] []); [done|].
  apply moved_same; [|done..]. pose proof (mv_core _ _ _ _ M2). auto with driver.
Qed.

Lemma done_moved cfg prev e : core e →
  let '(e', evs) := rxreorder_done cfg prev e in
  moved e e' evs [] ∧ armed e' ∧ start_win e' = start_win e ∧ rx_reorder_ptr e' = rx_reorder_ptr e ∧
  flush_data e' = flush_data e ∧ check_start_win e' = check_start_win e ∧
  force_no_drop e' = force_no_drop e ∧ win_size e' = win_size e ∧ amsdu e' = amsdu e.
Proof.
  intros Hc. unfold rxreorder_done. destruct (Z.eqb_spec (bitmap e) 0) as [Hb|Hb].
  - destruct (timer_is_set e); split_and!; try done; try (by apply moved_refl).
    + by apply moved_same; auto with driver.
    + by intros [].
    + by intros [].
  - destruct (negb (timer_is_set e) || negb (prev =? start_win e)) eqn:E.
    + pose proof (timer_restart_out cfg e) as [T1 T2].
      destruct (mlan_11n_rxreorder_timer_restart cfg e) as [e' evs]. simpl in *. subst e'.
      split_and!; try done; [by apply moved_same; auto with driver|]. intros _. by left.
    + apply orb_false_iff in E as [E _]. rewrite negb_false_iff in E.
      split_and!; try done; [by apply moved_refl|]. intros _. by left.
Qed.

(** Every call of the per-packet function on a well-formed entry has a result,
    keeps the entry well-formed and neither loses nor duplicates a packet. *)
Lemma rxreorder_entry_moved cfg e seq pkt_type p : wf e → 0 <= seq < 4096 →
  ∃ ret e' evs, rxreorder_entry cfg e seq pkt_type p = Some (ret, e', evs) ∧
    moved e e' evs (accepted ret pkt_type p) ∧ armed e'.
Proof.
  intros Hwf Hq. unfold rxreorder_entry.
  destruct (rxreorder_flush_moved e Hwf) as (e0 & ev0 & -> & M0 & A0 & F0 & K0). simpl.
  pose proof (mv_core _ _ _ _ M0) as C0.
  destruct ((pkt_type =? PKT_TYPE_AMSDU) && negb (amsdu e0)) eqn:Eam.
  { apply andb_true_iff in Eam as [Eam _]. apply Z.eqb_eq in Eam. subst pkt_type.
    eexists _, _, _. split; [done|]. split; [|done].
    apply (moved_trans e e0 e0 _ _ [] [p]); [done|]. split; [done|]. simpl.
    by rewrite Permutation_app_comm. }
  pose proof (check_start_win_moved e0 seq pkt_type p C0 Hq) as HC.
  destruct (rxreorder_check_start_win e0 seq pkt_type p) as [[[ret e1] ev1]|e1].
  { destruct HC as (M1 & Hck & Hb). eexists _, _, _. split; [done|]. split.
    - exact (moved_trans _ _ _ _ _ _ _ M0 M1).
    - intros Hne. destruct Hne. rewrite Hb. apply (bitmap_zero _ (rx_reorder_ptr e0)); by apply C0. }
  destruct HC as [M1 K1].
  destruct (no_drop_moved cfg e1 seq pkt_type (mv_core _ _ _ _ M1) K1 Hq) as (e2 & ev2 & -> & M2 & K2).
  simpl. set (e3 := if force_no_drop e2 then _ else _).
  assert (moved e2 e3 [] [] ∧ check_start_win e3 = false) as [M3 K3].
  { pose proof (mv_core _ _ _ _ M2). unfold e3. case_match; [|by auto with driver].
    split; [|done]. by apply moved_same; auto with driver. }
  pose proof (moved_trans _ _ _ _ _ _ _ M0 (moved_trans _ _ _ _ _ _ _ M1
    (moved_trans _ _ _ _ _ _ _ M2 M3))) as M. simpl in M.
  set (res := if negb (force_no_drop e2) && _ then _ else _).
  assert (∃ ret e4 ev4, res = Some (ret, e4, ev4) ∧ moved e3 e4 ev4 (accepted ret pkt_type p))
    as (ret & e4 & ev4 & -> & M4).
  { unfold res. case_match.
    - eexists _, _, _. split; [done|]. unfold accepted. rewrite decide_False by naive_solver.
      apply moved_refl. apply M3.
    - apply window_moved; [apply M3|done|done]. }
  simpl. pose proof (done_moved cfg (start_win e2) e4 (mv_core _ _ _ _ M4)) as HD.
  destruct (rxreorder_done cfg (start_win e2) e4) as [e5 ev5].
  destruct HD as (M5 & A5 & _). eexists _, _, _. split; [done|]. split; [|done].
  pose proof (moved_trans _ _ _ _ _ _ _ M (moved_trans _ _ _ _ _ _ _ M4 M5)) as [CR PR].
  split; [done|]. rewrite app_nil_r in PR. rewrite app_nil_r in PR. by rewrite <- !app_assoc in *.
Qed.

(** In the normal receiving state only the drop test, the window step and the
    [done:] label act. *)
Lemma entry_steady cfg e seq pkt_type p : steady e → (pkt_type = PKT_TYPE_AMSDU → amsdu e = true) →
  rxreorder_entry cfg e seq pkt_type p =
    ('(ret, e1, evs) ← (if rxreorder_is_old (start_win e) seq then Some (MLAN_STATUS_FAILURE, e, [])
                        else rxreorder_window e seq pkt_type p);
     let '(e2, evs') := rxreorder_done cfg (start_win e) e1 in Some (ret, e2, evs ++ evs')).
Proof.
  intros (Hf & Hk & Hn) Ha. unfold rxreorder_entry, rxreorder_flush. rewrite Hf. cbn [mbind option_bind].
  replace ((pkt_type =? PKT_TYPE_AMSDU) && negb (amsdu e)) with false.
  2: { destruct (Z.eqb_spec pkt_type PKT_TYPE_AMSDU); [by rewrite Ha|done]. }
  unfold rxreorder_check_start_win. rewrite Hk. unfold rxreorder_no_drop. rewrite Hn.
  cbn [mbind option_bind]. rewrite Hn. simpl. done.
Qed.

(** The window need not wrap around sequence number 0 to cover a packet at
    offset [off], or nothing is buffered past the slots that leave it. *)
Definition no_wrap (e : RxReorderTbl) (off : Z) : Prop :=
  start_win e + (off - win_size e + 1) < 4096 ∨
  Forall (λ s : option payload, s = None) (drop (Z.to_nat (off - win_size e + 1)) (rx_reorder_ptr e)).

Lemma none_replicate (l : list (option payload)) :
  Forall (λ s, s = None) l → l = replicate (length l) None.
Proof. induction 1 as [|x l -> _ IH]; [done|]. simpl. by rewrite <- IH. Qed.

Lemma drop_all_none n m (l : list (option payload)) : (n <= m)%nat → (m <= length l)%nat →
  Forall (λ s : option payload, s = None) (drop n l) →
  drop m l ++ replicate m None = drop n l ++ replicate n None ∧ somes (take m l) = somes (take n l).
Proof.
  intros Hnm Hm HF. assert (Forall (λ s, s = None) (drop m l)) as HF2.
  { replace m with (n + (m - n))%nat by lia. rewrite <- drop_drop. by apply Forall_drop. }
  split.
  - rewrite (none_replicate _ HF), (none_replicate _ HF2), <- !replicate_add, !length_drop.
    f_equal. lia.
  - pose proof (somes_take_drop n l) as H1. pose proof (somes_take_drop m l) as H2.
    rewrite (somes_none _ HF), app_nil_r in H1. rewrite (somes_none _ HF2), app_nil_r in H2. congruence.
Qed.

(** Covering moves the slots as the reference buffer does. *)
Lemma covering_ref e seq : core e → 0 <= seq < 4096 →
  let off := (seq - start_win e) mod 4096 in
  no_wrap e off → win_size e <= off →
  let n := Z.to_nat (Z.min (off - win_size e + 1) (win_size e)) in
  start_win (covering e seq).1 = (seq - win_size e + 1) mod 4096 ∧
  rx_reorder_ptr (covering e seq).1 = drop n (rx_reorder_ptr e) ++ replicate n None ∧
  (covering e seq).2 = somes (take n (rx_reorder_ptr e)).
Proof.
  intros Hc Hq off Hnw Hoff n. pose proof (wf_win e Hc) as Hw. pose proof (wf_len e Hc) as Hl.
  pose proof (wf_start e Hc) as Hs. unfold covering. fold off.
  destruct (Z.leb_spec (win_size e) off) as [_|?]; [|lia]. simpl. split; [done|].
  set (ns := (seq - win_size e + 1) mod 4096).
  destruct (decide (until_count e ns = n)) as [->|Hne]; [done|].
  assert (until_count e ns = Z.to_nat (win_size e) ∧ (Z.to_nat (off - win_size e + 1) <= Z.to_nat (win_size e))%nat
    ∧ n = Z.to_nat (off - win_size e + 1) ∧ 4096 <= start_win e + (off - win_size e + 1)) as (Hu & Hle & Hn & Hwrap).
  { subst off. unfold until_count, n, ns in *. destruct (Z.gtb_spec ((seq - win_size e + 1) mod 4096) (start_win e)).
    - destruct Hne. f_equal. f_equal. mod_lia.
    - split_and!; [done|lia|lia|]. mod_lia. }
  destruct Hnw as [Hnw|Hnw]; [lia|]. rewrite <- Hn in Hnw. rewrite Hu.
  apply drop_all_none; [lia|lia|done].
Qed.

Lemma released_ref e : core e →
  ref_release (start_win e) (rx_reorder_ptr e) =
    (start_win (released e), rx_reorder_ptr (released e), release_out e).
Proof. done. Qed.

(** The [done:] label only touches the timer. *)
Lemma done_quiet cfg prev e :
  let '(e', evs) := rxreorder_done cfg prev e in
  dispatched evs = [] ∧ start_win e' = start_win e ∧ rx_reorder_ptr e' = rx_reorder_ptr e ∧
  win_size e' = win_size e ∧ amsdu e' = amsdu e ∧ (steady e → steady e').
Proof.
  unfold rxreorder_done. destruct (bitmap e =? 0).
  - by destruct (timer_is_set e).
  - destruct (_ || _); [|done]. pose proof (timer_restart_out cfg e) as [T1 T2].
    destruct (mlan_11n_rxreorder_timer_restart cfg e). simpl in *. by subst.
Qed.

(** C4: In the normal receiving state the per-packet function of the driver implements
    the reference reorder buffer: same status, same new window base, same slots and
    the same packets handed up in the same order.  The normal state: the entry is in
    order ([core]), no flush, no forced acceptance and no check of the window start is
    due ([steady]); the packet is not a BAR, an A-MSDU only if that was negotiated;
    and covering the packet does not move the window base past sequence number 0
    with packets buffered behind the new base ([no_wrap]).  With such packets the
    code differs: [wrap_hands_up_out_of_order]. *)
Theorem rxreorder_entry_refines cfg e seq pkt_type p :
  core e → steady e → 0 <= seq < 4096 → pkt_type ≠ PKT_TYPE_BAR →
  (pkt_type = PKT_TYPE_AMSDU → amsdu e = true) →
  no_wrap e ((seq - start_win e) mod 4096) →
  ∃ ret e' evs, rxreorder_entry cfg e seq pkt_type p = Some (ret, e', evs) ∧
    ref_receive (win_size e) (start_win e) (rx_reorder_ptr e) seq p =
      (ret, start_win e', rx_reorder_ptr e', dispatched evs).
Proof.
  intros Hc Hst Hq Hb Ha Hnw. rewrite entry_steady by done. pose proof (wf_start e Hc) as Hs.
  rewrite is_old_spec by done. unfold ref_receive. set (off := (seq - start_win e) mod 4096) in *.
  destruct (Z.leb_spec 2048 off).
  { simpl. pose proof (done_quiet cfg (start_win e) e) as HD.
    destruct (rxreorder_done cfg (start_win e) e) as [e2 ev2].
    destruct HD as (D & S & P & _). eexists _, _, _. split; [done|]. simpl. by rewrite D, S, P. }
  pose proof (window_data e seq pkt_type p Hc (proj1 (proj2 Hst)) Hq Hb) as HW.
  pose proof (covering_slot e seq Hc Hq) as [_ Hslot].
  destruct (Z.ltb_spec off (win_size e)) as [Hlt|Hge].
  - unfold covering in HW. fold off in HW. destruct (Z.leb_spec (win_size e) off); [lia|].
    fold off in HW. rewrite HW. case_decide as Hd.
    + rewrite Hd. simpl. pose proof (done_quiet cfg (start_win e) (released (store_entry off p e))) as HD.
      destruct (rxreorder_done _ _ _) as [e2 ev2]. destruct HD as (D & S & P & _).
      eexists _, _, _. split; [done|]. rewrite S, P, !dispatched_app, D, dispatched_Dispatch. simpl.
      by rewrite app_nil_r.
    + simpl. pose proof (done_quiet cfg (start_win e) e) as HD.
      destruct (rxreorder_done _ _ _) as [e2 ev2]. destruct HD as (D & S & P & _).
      eexists _, _, _. split; [done|]. rewrite S, P, D.
      destruct (rx_reorder_ptr e !! Z.to_nat off) as [[]|] eqn:E; done.
  - pose proof (covering_ref e seq Hc Hq Hnw Hge) as (S1 & P1 & O1). fold off in P1, O1, Hslot.
    destruct (Hslot Hge) as [Hi Hfree].
    destruct (covering e seq) as [e1 out1]. simpl in *. rewrite Hi in HW. rewrite HW, decide_True by done.
    simpl. pose proof (done_quiet cfg (start_win e) (released (store_entry (win_size e - 1) p e1))) as HD.
    destruct (rxreorder_done _ _ _) as [e2 ev2]. destruct HD as (D & S & P & _).
    eexists _, _, _. split; [done|]. rewrite S, P, !dispatched_app, D, !dispatched_Dispatch.
    rewrite O1, app_nil_r. unfold released, release_out. simpl. by rewrite P1, S1.
Qed.

(** ** What no call changes *)

(** The identity and the size of an entry. *)
Definition same_stream (e e' : RxReorderTbl) : Prop :=
  ta e' = ta e ∧ tid e' = tid e ∧ win_size e' = win_size e.

#[export] Instance same_stream_preorder : PreOrder same_stream.
Proof.
  split; [by intros e|]. intros e1 e2 e3 (A & B & C) (A' & B' & C').
  unfold same_stream. split_and!; congruence.
Qed.

Lemma until_same e ns e' evs :
  wlan_11n_dispatch_pkt_until_start_win e ns = Some (e', evs) → same_stream e e'.
Proof.
  unfold wlan_11n_dispatch_pkt_until_start_win. intros ([ptr ev1] & H1 & H)%bind_Some.
  apply bind_Some in H as (q & H2 & H). by simplify_eq/=.
Qed.

Lemma scan_same e e' evs : wlan_11n_scan_and_dispatch e = Some (e', evs) → same_stream e e'.
Proof.
  unfold wlan_11n_scan_and_dispatch. intros ([[ptr ev1] i] & H1 & H)%bind_Some.
  apply bind_Some in H as (q & H2 & H). by simplify_eq/=.
Qed.

Lemma flush_same e e' evs : rxreorder_flush e = Some (e', evs) → same_stream e e'.
Proof.
  unfold rxreorder_flush. destruct (flush_data e); [|by intros; simplify_eq].
  unfold wlan_start_flush_data. intros (z & _ & H)%bind_Some.
  destruct (z >=? 0); [by apply until_same in H|by simplify_eq].
Qed.

Lemma no_drop_same cfg e seq pt e' evs :
  rxreorder_no_drop cfg e seq pt = Some (e', evs) → same_stream e e'.
Proof.
  unfold rxreorder_no_drop. destruct (force_no_drop e); [|by intros; simplify_eq].
  intros ([e1 ev1] & H1%until_same & H)%bind_Some. etrans; [exact H1|].
  unfold mlan_11n_rxreorder_timer_restart in H. by destruct (negb _); simplify_eq/=.
Qed.

Lemma store_same e st seq pt p ret e' :
  rxreorder_store e st seq pt p = Some (ret, e') → same_stream e e'.
Proof.
  unfold rxreorder_store. destruct (negb _); [|by intros; simplify_eq].
  destruct (_ <? 0); [done|]. intros (old & _ & H)%bind_Some. by destruct old; simplify_eq/=.
Qed.

Lemma window_same e seq pt p ret e' evs :
  rxreorder_window e seq pt p = Some (ret, e', evs) → same_stream e e'.
Proof.
  unfold rxreorder_window. intros ([[e1 st] ev1] & H1 & H)%bind_Some.
  assert (same_stream e e1) as S1.
  { destruct (rxreorder_beyond _ _ _); [|by simplify_eq].
    apply bind_Some in H1 as ([e2 ev2] & H2%until_same & H1). by simplify_eq. }
  apply bind_Some in H as ([r e2] & H2%store_same & H).
  destruct r; try (simplify_eq; by etrans).
  apply bind_Some in H as ([e3 ev3] & H3%scan_same & H). simplify_eq. etrans; [|exact H3]. by etrans.
Qed.

Lemma check_same e seq pt p :
  match rxreorder_check_start_win e seq pt p with
  | inl (_, e', _) => same_stream e e' | inr e' => same_stream e e' end.
Proof.
  unfold rxreorder_check_start_win, rxreorder_fix_start_win. by repeat (case_match; simplify_eq/=).
Qed.

Lemma entry_same cfg e seq pt p ret e' evs :
  rxreorder_entry cfg e seq pt p = Some (ret, e', evs) → same_stream e e'.
Proof.
  unfold rxreorder_entry. intros ([e0 ev0] & H0%flush_same & H)%bind_Some.
  etrans; [exact H0|]. destruct (_ && negb (amsdu e0)); [by simplify_eq|].
  pose proof (check_same e0 seq pt p) as HC.
  destruct (rxreorder_check_start_win e0 seq pt p) as [[[r e1] ev1]|e1]; [by simplify_eq|].
  etrans; [exact HC|]. apply bind_Some in H as ([e2 ev2] & H2%no_drop_same & H).
  etrans; [exact H2|]. set (e3 := if force_no_drop e2 then _ else _) in *.
  assert (same_stream e2 e3) as S3 by (unfold e3; by destruct (force_no_drop e2)).
  etrans; [exact S3|]. apply bind_Some in H as ([[r e4] ev4] & H4 & H).
  assert (same_stream e3 e4) as S4 by (destruct (_ && _); [by simplify_eq|by eapply window_same]).
  etrans; [exact S4|]. unfold rxreorder_done, mlan_11n_rxreorder_timer_restart in H.
  by repeat (case_match; simplify_eq/=).
Qed.

(** ** In-order delivery of a stream *)

(** The slots and the window start describe the stream [pk] from packet number
    [b] on: exactly the packets of [got] are buffered. *)
Definition tracks (pk : Z → payload) (got : gset Z) (b : Z) (e : RxReorderTbl) : Prop :=
  start_win e = b mod 4096 ∧
  ∀ i : nat, mjoin (rx_reorder_ptr e !! i) =
    if decide (b + Z.of_nat i ∈ got) then Some (pk (b + Z.of_nat i)) else None.

(** [b] is the first number from [b0] on that has not been received. *)
Definition first_missing (got : gset Z) (b0 b : Z) : Prop :=
  b0 <= b ∧ b ∉ got ∧ ∀ j, b0 <= j < b → j ∈ got.

(** A sender that keeps to its window: every packet is less than a window
    ahead of the first one missing at the receiver, or a repetition from the
    half of the sequence space behind it. *)
Fixpoint in_window (win b0 : Z) (got : gset Z) (seqs : list Z) : Prop :=
  match seqs with
  | [] => True
  | a :: seqs => (∀ b, first_missing got b0 b → b - 2048 <= a < b + win) ∧
                 in_window win b0 ({[a]} ∪ got) seqs
  end.

(** The arrival of the stream's packets numbered [seqs], in that order. *)
Fixpoint receive_stream (cfg : reorder_cfg) (e : RxReorderTbl) (pk : Z → payload) (pkt_type : Z)
    (seqs : list Z) : option (RxReorderTbl * list rx_event) :=
  match seqs with
  | [] => Some (e, [])
  | a :: seqs =>
      '(_, e, evs) ← rxreorder_entry cfg e (a mod 4096) pkt_type (pk a);
      '(e, evs') ← receive_stream cfg e pk pkt_type seqs;
      Some (e, evs ++ evs')
  end.

Lemma prefix_len_occupied l (i : nat) : (i < prefix_len l)%nat → is_Some (mjoin (l !! i)).
Proof.
  revert i. induction l as [|[p|] l IH]; simpl; intros i Hi; [lia| |lia].
  destruct i; simpl; [eauto|]. apply IH. lia.
Qed.

Lemma prefix_len_free l : mjoin (l !! prefix_len l) = None.
Proof. by induction l as [|[p|] l IH]. Qed.

Lemma release_tracks pk got b e : tracks pk got b e →
  let k := Z.of_nat (prefix_len (rx_reorder_ptr e)) in
  release_out e = pk <$> seqZ b k ∧ tracks pk got (b + k) (released e) ∧
  b + k ∉ got ∧ ∀ j, b <= j < b + k → j ∈ got.
Proof.
  intros [Hs Hp] k. split_and!.
  - unfold release_out, k. clear k Hs. revert b Hp.
    induction (rx_reorder_ptr e) as [|[p|] l IH]; intros b Hp; [done| |done].
    simpl prefix_len. rewrite Nat2Z.inj_succ, seqZ_cons by lia. simpl. f_equal.
    + specialize (Hp 0%nat). rewrite Z.add_0_r in Hp. simpl in Hp. by case_decide; simplify_eq.
    + change (omap id (take (prefix_len l) l)) with (somes (take (prefix_len l) l)).
      rewrite (IH (Z.succ b)); [by rewrite Z.pred_succ|]. intros i. specialize (Hp (S i)). simpl in Hp.
      by replace (Z.succ b + Z.of_nat i) with (b + Z.of_nat (S i)) by lia.
  - unfold released, tracks. simpl. fold k. split; [rewrite Hs; mod_lia|]. intros i.
    rewrite shifted_slot, Hp.
    by replace (b + Z.of_nat (prefix_len (rx_reorder_ptr e) + i)) with (b + k + Z.of_nat i) by lia.
  - pose proof (prefix_len_free (rx_reorder_ptr e)) as H. rewrite Hp in H. by case_decide.
  - intros j Hj. destruct (prefix_len_occupied (rx_reorder_ptr e) (Z.to_nat (j - b))) as [q Hq]; [lia|].
    rewrite Hp in Hq. replace (b + Z.of_nat (Z.to_nat (j - b))) with j in Hq by lia. by case_decide.
Qed.

(** The state between two packets of the stream. *)
Record stream_inv (pk : Z → payload) (win : Z) (am : bool) (got : gset Z) (b0 b : Z)
    (e : RxReorderTbl) : Prop := {
  si_core : core e;
  si_steady : steady e;
  si_win : win_size e = win;
  si_amsdu : amsdu e = am;
  si_tracks : tracks pk got b e;
  si_missing : first_missing got b0 b
}.

(** A result with a given entry is completed by the [done:] label. *)
Lemma done_stream cfg prev pk win am got b0 b e evs :
  stream_inv pk win am got b0 b e →
  let '(e', evs') := rxreorder_done cfg prev e in
  stream_inv pk win am got b0 b e' ∧ dispatched (evs ++ evs') = dispatched evs.
Proof.
  intros []. pose proof (done_quiet cfg prev e) as HD.
  pose proof (done_moved cfg prev e si_core0) as HM.
  destruct (rxreorder_done cfg prev e) as [e' evs']. destruct HD as (D & SW & P & W & AM & ST).
  destruct HM as ([C _] & _). split.
  - split; try done; try congruence; [by apply ST|]. unfold tracks. by rewrite SW, P.
  - by rewrite dispatched_app, D, app_nil_r.
Qed.

Lemma missing_known got b0 b a : first_missing got b0 b → a ≠ b → first_missing ({[a]} ∪ got) b0 b.
Proof. intros (H1 & H2 & H3) Ha. split_and!; [done|set_solver|set_solver]. Qed.

(** Storing packet [a] and handing up the prefix. *)
Lemma store_release_stream pk win am got b0 b a e :
  stream_inv pk win am got b0 b e → b <= a < b + win →
  rx_reorder_ptr e !! Z.to_nat (a - b) = Some None →
  let e1 := store_entry (a - b) (pk a) e in
  ∃ b', stream_inv pk win am ({[a]} ∪ got) b0 b' (released e1) ∧ b <= b' ∧
    release_out e1 = pk <$> seqZ b (b' - b).
Proof.
  intros [Hc Hst Hw Ham [Hs Ht] (M1 & M2 & M3)] Ha Hfree e1.
  assert (core e1) as C1 by (apply store_entry_core; [done|lia|apply Hst]).
  assert (tracks pk ({[a]} ∪ got) b e1) as T1.
  { split; [done|]. intros i. unfold e1. simpl. destruct (decide (i = Z.to_nat (a - b))) as [->|Hi].
    - rewrite list_lookup_insert_eq by (by eapply lookup_lt_Some). simpl.
      replace (b + Z.of_nat (Z.to_nat (a - b))) with a by lia. by rewrite decide_True by set_solver.
    - rewrite list_lookup_insert_ne, Ht by done. apply decide_ext. set_solver by lia. }
  destruct (release_tracks pk _ b e1 T1) as (R1 & R2 & R3 & R4).
  set (k := Z.of_nat (prefix_len (rx_reorder_ptr e1))) in *. exists (b + k). split_and!.
  - split; try done; [by apply released_core|]. split_and!; [lia|done|]. intros j Hj.
    destruct (decide (j < b)); [set_solver by lia|apply R4; lia].
  - lia.
  - by replace (b + k - b) with k by lia.
Qed.

Lemma receive_in_window cfg e pk win am got b0 b a pkt_type :
  stream_inv pk win am got b0 b e → pkt_type ≠ PKT_TYPE_BAR →
  (pkt_type = PKT_TYPE_AMSDU → am = true) → b - 2048 <= a < b + win →
  ∃ ret e' evs b', rxreorder_entry cfg e (a mod 4096) pkt_type (pk a) = Some (ret, e', evs) ∧
    stream_inv pk win am ({[a]} ∪ got) b0 b' e' ∧ b <= b' ∧ dispatched evs = pk <$> seqZ b (b' - b).
Proof.
  intros HI Hb Ham Hr. pose proof HI as [Hc Hst Hwe Hame [Hs Ht] Hm].
  pose proof (wf_win e Hc) as Hw. pose proof (wf_start e Hc) as Hss.
  assert (0 <= a mod 4096 < 4096) as Hq by (apply Z.mod_pos_bound; lia).
  rewrite entry_steady, is_old_spec by (try done; intros; rewrite Hame; auto).
  assert (∀ e1 b' evs ret, stream_inv pk win am ({[a]} ∪ got) b0 b' e1 → b <= b' →
    dispatched evs = pk <$> seqZ b (b' - b) → ∃ ret' e' evs' b',
    (let '(e2, evs2) := rxreorder_done cfg (start_win e) e1 in Some (ret : mlan_status, e2, evs ++ evs2))
      = Some (ret', e', evs') ∧ stream_inv pk win am ({[a]} ∪ got) b0 b' e' ∧ b <= b' ∧
      dispatched evs' = pk <$> seqZ b (b' - b)) as Hdone.
  { intros e1 b' evs ret H1 H2 H3. pose proof (done_stream cfg (start_win e) _ _ _ _ _ _ _ evs H1) as HD.
    destruct (rxreorder_done _ _ _). destruct HD as [HD1 HD2].
    eexists _, _, _, b'. split_and!; [done..|]. by rewrite HD2. }
  assert ((a < b ∨ a ∈ got) → stream_inv pk win am ({[a]} ∪ got) b0 b e) as Hsame.
  { intros H. split; try done.
    - split; [done|]. intros i. rewrite Ht. apply decide_ext. set_solver by lia.
    - apply missing_known; [done|]. intros ->. destruct H; [lia|]. by destruct Hm as (_ & ? & _). }
  assert (dispatched [] = pk <$> seqZ b (b - b)) as Hnil by (by rewrite Z.sub_diag).
  destruct (decide (a < b)).
  { destruct (Z.leb_spec 2048 ((a mod 4096 - start_win e) mod 4096)); [|mod_lia].
    apply (Hdone e b [] _); [auto|lia|done]. }
  assert ((a mod 4096 - start_win e) mod 4096 = a - b) as Hoff by mod_lia.
  rewrite Hoff. destruct (Z.leb_spec 2048 (a - b)); [lia|].
  pose proof (window_data e (a mod 4096) pkt_type (pk a) Hc (proj1 (proj2 Hst)) Hq Hb) as HW.
  unfold covering in HW. rewrite Hoff in HW. destruct (Z.leb_spec (win_size e) (a - b)); [lia|].
  rewrite Hoff in HW. rewrite HW. case_decide as Hd; simpl.
  - destruct (store_release_stream pk win am got b0 b a e HI ltac:(lia) Hd) as (b' & R1 & R2 & R3).
    apply (Hdone _ b' _ _ R1 R2). by rewrite dispatched_Dispatch, R3.
  - apply (Hdone e b [] _); [|lia|done]. apply Hsame. right. specialize (Ht (Z.to_nat (a - b))).
    replace (b + Z.of_nat (Z.to_nat (a - b))) with a in Ht by lia. case_decide as Hg; [done|].
    apply mjoin_None in Ht as [Ht|?]; [|done]. apply lookup_ge_None in Ht.
    rewrite (wf_len e Hc) in Ht. lia.
Qed.

(** ** Main results *)

Lemma bitmap_ok_empty n : bitmap_ok 0 (replicate n None).
Proof.
  split; [lia|]. intros i. rewrite Z.bits_0. symmetry. apply bool_decide_eq_false_2.
  destruct (replicate n None !! i) as [x|] eqn:E; [|by intros []].
  apply lookup_replicate in E as [-> _]. by intros [].
Qed.

(** An entry with nothing buffered is well-formed. *)
Lemma wf_empty e : 2 <= win_size e <= 64 → rx_reorder_ptr e = replicate (Z.to_nat (win_size e)) None →
  0 <= start_win e <= 4096 → 0 <= last_seq e < 4096 ∨ last_seq e = DEFAULT_SEQ_NUM → bitmap e = 0 →
  wf e.
Proof.
  intros Hw Hp Hs Hl Hb. split; [|by intros ?]. split; rewrite ?Hp, ?Hb; try done.
  - by rewrite length_replicate.
  - apply bitmap_ok_empty.
  - intros _. by apply Forall_replicate.
Qed.

(** Two entries for concrete runs: a fresh one, and one with packets 2 and 4
    of a window at 4093 buffered. *)
Definition demo_cfg : reorder_cfg := mk_cfg 100 50.
Definition demo_pkt (a : Z) : payload := Pkt (mk_mbuf a 2 100 20 0 120).
Definition demo_fresh : RxReorderTbl :=
  mk_rxtbl 5 [2; 0; 0; 0; 0; 1] 4093 DEFAULT_SEQ_NUM 4 (replicate 4 None) false false
    BA_STREAM_SETUP_COMPLETE true false false 0 false 0.
Definition demo_buffered : RxReorderTbl :=
  mk_rxtbl 5 [2; 0; 0; 0; 0; 1] 4090 DEFAULT_SEQ_NUM 4
    [None; Some (demo_pkt 4091); None; Some (demo_pkt 4093)] true true
    BA_STREAM_SETUP_COMPLETE true false false 0 false 10.

Lemma demo_fresh_wf : wf demo_fresh.
Proof. apply wf_empty; simpl; [lia|done|lia|by right|done]. Qed.

Lemma demo_buffered_wf : wf demo_buffered.
Proof.
  split; [|by intros _; left].
  split; simpl; [lia|done|lia|by right| |done]. split; [lia|].
  intros i. do 4 (destruct i as [|i]; [done|]).
  rewrite Z.bits_above_log2; [|lia|change (Z.log2 10) with 3; lia].
  symmetry. apply bool_decide_eq_false_2. by intros [].
Qed.

(** every call of the per-packet function on a well-formed entry, in any
    of its states and for any packet type, has a result (no access outside the
    slot array, every loop ends) and leaves the entry well-formed: the bitmap
    mirrors the slots, the window start stays a sequence number, and the timer
    is armed or a flush requested whenever something is buffered. *)
Theorem rxreorder_entry_wf cfg e seq pkt_type p :
  wf e → 0 <= seq < 4096 →
  ∃ ret e' evs, rxreorder_entry cfg e seq pkt_type p = Some (ret, e', evs) ∧ wf e'.
Proof.
  intros Hwf Hq. destruct (rxreorder_entry_moved cfg e seq pkt_type p Hwf Hq)
    as (ret & e' & evs & E & [C _] & A). by eexists _, _, _.
Qed.

Lemma rxreorder_entry_wf_witness :
  ∃ ret e' evs, rxreorder_entry demo_cfg demo_buffered 4092 2 (demo_pkt 4092) = Some (ret, e', evs) ∧
    wf e'.
Proof. apply (rxreorder_entry_wf demo_cfg demo_buffered); [exact demo_buffered_wf|lia]. Defined.

(** C38: no packet is lost or handed up twice: what a call hands up
    together with what stays buffered is exactly what was buffered plus the
    packet when it was accepted ([MLAN_STATUS_SUCCESS], not a BAR). *)
Theorem rxreorder_entry_conserves cfg e seq pkt_type p ret e' evs :
  wf e → 0 <= seq < 4096 → rxreorder_entry cfg e seq pkt_type p = Some (ret, e', evs) →
  dispatched evs ++ somes (rx_reorder_ptr e') ≡ₚ
  somes (rx_reorder_ptr e) ++ accepted ret pkt_type p.
Proof.
  intros Hwf Hq E. destruct (rxreorder_entry_moved cfg e seq pkt_type p Hwf Hq)
    as (ret' & e1 & evs' & E' & [_ M] & _). rewrite E in E'. by simplify_eq.
Qed.

Lemma rxreorder_entry_conserves_witness :
  ∃ e' evs, rxreorder_entry demo_cfg demo_buffered 4090 2 (demo_pkt 4090) =
      Some (MLAN_STATUS_SUCCESS, e', evs) ∧
    dispatched evs ++ somes (rx_reorder_ptr e') ≡ₚ
    [demo_pkt 4091; demo_pkt 4093] ++ [demo_pkt 4090].
Proof.
  eexists _, _. split; [vm_compute; reflexivity|].
  apply (rxreorder_entry_conserves demo_cfg demo_buffered 4090 2 (demo_pkt 4090) MLAN_STATUS_SUCCESS);
    [exact demo_buffered_wf|lia|vm_compute; reflexivity].
Defined.

Lemma rxreorder_entry_refines_witness :
  ∃ ret e' evs, rxreorder_entry demo_cfg demo_buffered 4095 2 (demo_pkt 4095) = Some (ret, e', evs) ∧
    ref_receive 4 4090 (rx_reorder_ptr demo_buffered) 4095 (demo_pkt 4095) =
      (ret, start_win e', rx_reorder_ptr e', dispatched evs).
Proof.
  apply (rxreorder_entry_refines demo_cfg demo_buffered 4095 2 (demo_pkt 4095));
    [exact (proj1 demo_buffered_wf)|done|lia|done|done|left; vm_compute; reflexivity].
Defined.

(** A steady entry. *)
Lemma rx_stream_steady cfg e pk pkt_type b0 seqs :
  core e → steady e → tracks pk ∅ b0 e → pkt_type ≠ PKT_TYPE_BAR →
  (pkt_type = PKT_TYPE_AMSDU → amsdu e = true) → in_window (win_size e) b0 ∅ seqs →
  ∃ e' evs b', receive_stream cfg e pk pkt_type seqs = Some (e', evs) ∧
    first_missing (list_to_set seqs) b0 b' ∧ dispatched evs = pk <$> seqZ b0 (b' - b0).
Proof.
  intros Hc Hst Ht Hb Ha Hin.
  assert (stream_inv pk (win_size e) (amsdu e) ∅ b0 b0 e) as HI
    by (split; try done; split_and!; [lia|set_solver|lia]).
  assert (∀ got b e1, stream_inv pk (win_size e) (amsdu e) got b0 b e1 →
    in_window (win_size e) b0 got seqs → ∃ e' evs b', receive_stream cfg e1 pk pkt_type seqs = Some (e', evs) ∧
    first_missing (list_to_set seqs ∪ got) b0 b' ∧ b <= b' ∧ dispatched evs = pk <$> seqZ b (b' - b)) as HG.
  2: { destruct (HG ∅ b0 e HI Hin) as (e' & evs & b' & E & M & _ & D).
       rewrite union_empty_r_L in M. by eexists _, _, _. }
  clear HI Hin Hc Hst Ht. induction seqs as [|a seqs IH]; intros got b e1 HI Hin; simpl.
  { eexists _, _, b. rewrite union_empty_l_L, Z.sub_diag. split_and!; [done|apply HI|lia|done]. }
  destruct Hin as [Hr Hin].
  destruct (receive_in_window cfg e1 pk _ _ got b0 b a pkt_type HI Hb Ha (Hr b (si_missing _ _ _ _ _ _ _ HI)))
    as (ret & e2 & evs & b2 & -> & HI2 & Hle & D). simpl.
  destruct (IH _ _ _ HI2 Hin) as (e3 & evs3 & b3 & -> & M3 & Hle3 & D3). simpl.
  eexists _, _, b3. split_and!; [done| |lia|].
  - by replace ({[a]} ∪ list_to_set seqs ∪ got) with (list_to_set seqs ∪ ({[a]} ∪ got)) by set_solver.
  - rewrite dispatched_app, D, D3, <- fmap_app. f_equal.
    replace (b3 - b) with ((b2 - b) + (b3 - b2)) by lia. rewrite seqZ_app by lia. do 2 f_equal. lia.
Qed.

Lemma first_missing_unique got b0 b b' : first_missing got b0 b → first_missing got b0 b' → b = b'.
Proof.
  intros (H1 & H2 & H3) (H1' & H2' & H3'). destruct (Z.lt_trichotomy b b') as [?|[?|?]]; [|done|].
  - destruct H2. apply H3'. lia.
  - destruct H2'. apply H3. lia.
Qed.

(** While the start of the window has not been seen, the packet it starts at is
    handled as by an entry that has seen it. *)
Lemma entry_opens cfg e pt p : flush_data e = false → (pt = PKT_TYPE_AMSDU → amsdu e = true) →
  rxreorder_entry cfg e (start_win e) pt p = rxreorder_entry cfg (set_check_start_win false e) (start_win e) pt p.
Proof.
  intros Hf Ha. unfold rxreorder_entry, rxreorder_flush. cbn [flush_data set_check_start_win]. rewrite Hf.
  cbn [mbind option_bind amsdu set_check_start_win].
  assert ((pt =? PKT_TYPE_AMSDU) && negb (amsdu e) = false) as ->.
  { destruct (Z.eqb_spec pt PKT_TYPE_AMSDU) as [E|]; [by rewrite Ha|done]. }
  unfold rxreorder_check_start_win at 1. destruct (check_start_win e) eqn:Hk.
  - rewrite Z.eqb_refl. done.
  - replace (set_check_start_win false e) with e; [|by destruct e; simpl in Hk; subst].
    unfold rxreorder_check_start_win. by rewrite Hk.
Qed.

(** C19: from an empty window, whatever the order in which the packets of a
    window-respecting sender arrive, and with any retransmissions, the stream is
    handed up in order, each packet once, with nothing that could be handed up held
    back: exactly the packets from the first to the first one still missing.  A new
    entry has not seen the start of its window ([check_start_win]): then the first
    packet to arrive is the one the window starts at (otherwise packets pass through
    as they come, [new_window_passes_through]).  No flush and no restored window
    ([force_no_drop]) is pending, the packets are no BARs, and A-MSDUs only if the
    stream was negotiated with them. *)
Theorem rx_stream_in_order cfg e pk pkt_type b0 seqs :
  core e → flush_data e = false → force_no_drop e = false →
  (check_start_win e = true → ∀ a, head seqs = Some a → a = b0) →
  tracks pk ∅ b0 e → pkt_type ≠ PKT_TYPE_BAR →
  (pkt_type = PKT_TYPE_AMSDU → amsdu e = true) → in_window (win_size e) b0 ∅ seqs →
  ∃ e' evs b', receive_stream cfg e pk pkt_type seqs = Some (e', evs) ∧
    first_missing (list_to_set seqs) b0 b' ∧ dispatched evs = pk <$> seqZ b0 (b' - b0).
Proof.
  intros Hc Hf Hn Hk Ht Hb Ha Hin. set (e0 := set_check_start_win false e).
  assert (∃ e' evs b', receive_stream cfg e0 pk pkt_type seqs = Some (e', evs) ∧
    first_missing (list_to_set seqs) b0 b' ∧ dispatched evs = pk <$> seqZ b0 (b' - b0)) as (e' & evs & b' & E & M).
  { apply rx_stream_steady; [by apply unset_check_core|by split_and!|exact Ht|done|done|done]. }
  destruct seqs as [|a seqs].
  { simpl in E. injection E as <- <-. by exists e, [], b'. }
  exists e', evs, b'. split; [|done]. rewrite <- E. cbn [receive_stream].
  destruct (check_start_win e) eqn:Hw.
  - specialize (Hk eq_refl a eq_refl) as ->. destruct Ht as [Hs _]. rewrite <- Hs.
    rewrite entry_opens by done. done.
  - unfold e0. replace (set_check_start_win false e) with e; [done|]. by destruct e; simpl in Hw; subst.
Qed.

(** A new entry; packets 4093, 4095, 4093 again, 4096 (sequence number 0) and 4094. *)
Definition demo_new : RxReorderTbl := set_check_start_win true demo_fresh.
Lemma demo_new_core : core demo_new.
Proof. destruct demo_fresh_wf as [[] _]. split; try done. intros _. repeat constructor. Qed.
Lemma rx_stream_in_order_witness :
  ∃ e' evs b', receive_stream demo_cfg demo_new demo_pkt 2 [4093; 4095; 4093; 4096; 4094] = Some (e', evs) ∧
    first_missing (list_to_set [4093; 4095; 4093; 4096; 4094]) 4093 b' ∧
    dispatched evs = demo_pkt <$> seqZ 4093 (b' - 4093).
Proof.
  apply (rx_stream_in_order demo_cfg demo_new demo_pkt 2 4093);
    [exact demo_new_core|done|done|by intros _ a [= <-]| |done|done|].
  - split; [done|]. intros i. rewrite decide_False by set_solver.
    do 4 (destruct i as [|i]; [done|]). done.
  - assert (∀ got b d, first_missing got 4093 d → first_missing got 4093 b → d = b) as U
      by (intros; by eapply first_missing_unique).
    assert (∀ a d (got : gset Z), first_missing got 4093 d → d - 2048 <= a < d + 4 →
      ∀ b, first_missing got 4093 b → b - 2048 <= a < b + 4) as H
      by (intros a d got Hd Ha b Hb'; by rewrite <- (U _ _ _ Hd Hb')).
    change (win_size demo_new) with 4.
    split; [apply (H _ 4093); [split_and!; [lia|set_solver|lia]|lia]|].
    do 3 (split; [apply (H _ 4094); [split_and!; [lia|set_solver|]|lia];
      intros j Hj; assert (j = 4093) as -> by lia; set_solver|]).
    split; [apply (H _ 4094); [split_and!; [lia|set_solver|]|lia]|done].
    intros j Hj. assert (j = 4093) as -> by lia. set_solver.
Defined.

(** A new window of 4 that starts at 4093, which a packet 4095 reaches first: with
    half a window of packets it would be opened there; the first one is handed up at
    once, ahead of 4093. *)
Example new_window_passes_through :
  ('(_, evs) ← receive_stream demo_cfg demo_new demo_pkt 2 [4095; 4093; 4094]; Some (dispatched evs)) =
  Some [demo_pkt 4095; demo_pkt 4093; demo_pkt 4094].
Proof. vm_compute. reflexivity. Qed.

(** the timer's flush hands up every buffered packet in slot order and
    leaves nothing behind, so that the next call finds no packet stranded. *)
Theorem flush_delivers_all e :
  wf e →
  ∃ e' evs, rxreorder_flush (wlan_flush_data e) = Some (e', evs) ∧ wf e' ∧
    dispatched evs = somes (rx_reorder_ptr e) ∧ somes (rx_reorder_ptr e') = [] ∧ bitmap e' = 0.
Proof.
  intros [Hc Ha]. unfold rxreorder_flush. simpl.
  destruct (flush_moved (set_flush_data false (wlan_flush_data e)))
    as (e' & evs & E & [C M] & Hz & Hd & _); [by destruct Hc|].
  pose proof (empty_bitmap e' C Hz) as Hb. eexists _, _. split; [exact E|]. split_and!; try done.
  split; [done|]. by intros ?.
Qed.

Lemma flush_delivers_all_witness :
  ∃ e' evs, rxreorder_flush (wlan_flush_data demo_buffered) = Some (e', evs) ∧ wf e' ∧
    dispatched evs = [demo_pkt 4091; demo_pkt 4093] ∧ somes (rx_reorder_ptr e') = [] ∧ bitmap e' = 0.
Proof. apply (flush_delivers_all demo_buffered). exact demo_buffered_wf. Defined.

(** When the window start wraps around sequence number 0 the whole
    window is handed up, also packets that belong behind the new start: with
    a window of 4 at 4095 holding packet 1, packet 3 makes it hand up packet 1,
    and packet 0, still inside the new window, is then handed up after it. *)
Example wrap_hands_up_out_of_order :
  let e := set_start_win 4095 (set_bitmap 4 (set_rx_reorder_ptr
             [None; None; Some (demo_pkt 1); None] demo_buffered)) in
  ('(ret1, e1, evs1) ← rxreorder_entry demo_cfg e 3 2 (demo_pkt 3);
   '(ret2, e2, evs2) ← rxreorder_entry demo_cfg e1 0 2 (demo_pkt 0);
   Some (ret1, start_win e1, ret2, dispatched evs1 ++ dispatched evs2)) =
  Some (MLAN_STATUS_SUCCESS, 0, MLAN_STATUS_SUCCESS, [demo_pkt 1; demo_pkt 0]).
Proof. vm_compute. reflexivity. Qed.
