(* ===== verification/RxTable.v ===== *)
(** * mlan_11n_rxreorder.c: the reorder table of a BSS and its messages

    The list of [RxReorderTbl] of one [mlan_private] and the functions that
    create, find, complete and delete entries: the ADDBA handshake, DELBA, the
    block-ack timeout, the RXBA_SYNC event, the clean-ups and the coexistence
    window update.  The pointer to an entry is its position in the table; the
    per-packet work on an entry is in RxReorder. *)

From S2P Require Import Prelude RxReorder.

(** ** Data *)

Definition BLOCKACKPARAM_TID_MASK : Z := 0x3C.
Definition BLOCKACKPARAM_TID_POS : Z := 2.
Definition BLOCKACKPARAM_WINSIZE_MASK : Z := 0xffc0.
Definition BLOCKACKPARAM_AMSDU_SUPP_MASK : Z := 0x1.
Definition BLOCKACKPARAM_WINSIZE_POS : Z := 6.
Definition DELBA_TID_POS : Z := 12.
Definition DELBA_INITIATOR_POS : Z := 11.
Definition REASON_CODE_STA_TIMEOUT : Z := 39.
Definition ADDBA_RSP_STATUS_DECLINED : Z := 37.
Definition ADDBA_RSP_STATUS_REJECT : Z := 1.
Definition ADDBA_RSP_STATUS_ACCEPT : Z := 0.
Definition BA_RESULT_SUCCESS : Z := 0.
Definition RX_LOW_THRESHOLD : Z := 128.
Definition TLV_TYPE_RXBA_SYNC : Z := 0x199.
Definition MIN_BA_SETUP_PACKET_REQIRED : Z := 1024.
Definition BA_SETUP_MAX_PACKET_THRESHOLD : Z := 16.

Inductive mlan_bss_mode := MLAN_BSS_MODE_INFRA | MLAN_BSS_MODE_IBSS | MLAN_BSS_MODE_AUTO.
#[export] Instance mlan_bss_mode_eq_dec : EqDecision mlan_bss_mode.
Proof. solve_decision. Defined.

Inductive mlan_bss_type :=
| MLAN_BSS_TYPE_STA | MLAN_BSS_TYPE_UAP | MLAN_BSS_TYPE_WIFIDIRECT | MLAN_BSS_TYPE_NAN
| MLAN_BSS_TYPE_OTHER.
#[export] Instance mlan_bss_type_eq_dec : EqDecision mlan_bss_type.
Proof. solve_decision. Defined.

Inductive delba_type := TYPE_DELBA_SENT | TYPE_DELBA_RECEIVE.
#[export] Instance delba_type_eq_dec : EqDecision delba_type.
Proof. solve_decision. Defined.

(** The receive sequence numbers of a station entry ([sta_node]). *)
Record sta_node := mk_sta { mac_addr : list Z; sta_rx_seq : list Z }.

(** [struct _TxBAStreamTbl]. *)
Record TxBAStreamTbl := mk_txba {
  tx_tid : Z; tx_ra : list Z; tx_ba_status : baStatus_e; tx_amsdu : bool
}.

(** The block-ack fields of [struct _raListTbl]. *)
Record raListTbl := mk_ralist {
  ra : list Z;
  packet_count : Z;
  ba_packet_threshold : Z;
  ra_ba_status : baStatus_e;
  del_ba_count : Z;
  amsdu_in_ampdu : bool
}.

(** The fields of [mlan_private] these functions use. *)
Record mlan_private := mk_priv {
  bss_role : bss_role_t;
  bss_mode : mlan_bss_mode;
  bss_type : mlan_bss_type;
  media_connected : bool;
  uap_bss_started : bool;
  rx_reorder_tbl_ptr : list RxReorderTbl;
  tx_ba_stream_tbl_ptr : list TxBAStreamTbl;
  tid_tbl_ptr : list (list raListTbl);
  rx_win_size : Z;
  rx_amsdu : bool;
  user_rxwinsize : Z;
  addba_reject : list Z;
  wps_session_enable : bool;
  rx_seq : list Z;
  sta_list : list sta_node;
  ac_down_graded_vals : list mlan_wmm_ac_e
}.

Definition set_rx_reorder_tbl_ptr (x : list RxReorderTbl) (r : mlan_private) : mlan_private :=
  mk_priv (bss_role r) (bss_mode r) (bss_type r) (media_connected r) (uap_bss_started r) x (tx_ba_stream_tbl_ptr r) (tid_tbl_ptr r) (rx_win_size r) (rx_amsdu r) (user_rxwinsize r) (addba_reject r) (wps_session_enable r) (rx_seq r) (sta_list r) (ac_down_graded_vals r).
Definition set_tx_ba_stream_tbl_ptr (x : list TxBAStreamTbl) (r : mlan_private) : mlan_private :=
  mk_priv (bss_role r) (bss_mode r) (bss_type r) (media_connected r) (uap_bss_started r) (rx_reorder_tbl_ptr r) x (tid_tbl_ptr r) (rx_win_size r) (rx_amsdu r) (user_rxwinsize r) (addba_reject r) (wps_session_enable r) (rx_seq r) (sta_list r) (ac_down_graded_vals r).
Definition set_tid_tbl_ptr (x : list (list raListTbl)) (r : mlan_private) : mlan_private :=
  mk_priv (bss_role r) (bss_mode r) (bss_type r) (media_connected r) (uap_bss_started r) (rx_reorder_tbl_ptr r) (tx_ba_stream_tbl_ptr r) x (rx_win_size r) (rx_amsdu r) (user_rxwinsize r) (addba_reject r) (wps_session_enable r) (rx_seq r) (sta_list r) (ac_down_graded_vals r).
Definition set_rx_win_size (x : Z) (r : mlan_private) : mlan_private :=
  mk_priv (bss_role r) (bss_mode r) (bss_type r) (media_connected r) (uap_bss_started r) (rx_reorder_tbl_ptr r) (tx_ba_stream_tbl_ptr r) (tid_tbl_ptr r) x (rx_amsdu r) (user_rxwinsize r) (addba_reject r) (wps_session_enable r) (rx_seq r) (sta_list r) (ac_down_graded_vals r).
Definition set_rx_amsdu (x : bool) (r : mlan_private) : mlan_private :=
  mk_priv (bss_role r) (bss_mode r) (bss_type r) (media_connected r) (uap_bss_started r) (rx_reorder_tbl_ptr r) (tx_ba_stream_tbl_ptr r) (tid_tbl_ptr r) (rx_win_size r) x (user_rxwinsize r) (addba_reject r) (wps_session_enable r) (rx_seq r) (sta_list r) (ac_down_graded_vals r).
Definition set_user_rxwinsize (x : Z) (r : mlan_private) : mlan_private :=
  mk_priv (bss_role r) (bss_mode r) (bss_type r) (media_connected r) (uap_bss_started r) (rx_reorder_tbl_ptr r) (tx_ba_stream_tbl_ptr r) (tid_tbl_ptr r) (rx_win_size r) (rx_amsdu r) x (addba_reject r) (wps_session_enable r) (rx_seq r) (sta_list r) (ac_down_graded_vals r).
Definition set_addba_reject (x : list Z) (r : mlan_private) : mlan_private :=
  mk_priv (bss_role r) (bss_mode r) (bss_type r) (media_connected r) (uap_bss_started r) (rx_reorder_tbl_ptr r) (tx_ba_stream_tbl_ptr r) (tid_tbl_ptr r) (rx_win_size r) (rx_amsdu r) (user_rxwinsize r) x (wps_session_enable r) (rx_seq r) (sta_list r) (ac_down_graded_vals r).
Definition set_rx_seq (x : list Z) (r : mlan_private) : mlan_private :=
  mk_priv (bss_role r) (bss_mode r) (bss_type r) (media_connected r) (uap_bss_started r) (rx_reorder_tbl_ptr r) (tx_ba_stream_tbl_ptr r) (tid_tbl_ptr r) (rx_win_size r) (rx_amsdu r) (user_rxwinsize r) (addba_reject r) (wps_session_enable r) x (sta_list r) (ac_down_graded_vals r).

(** The fields of [mlan_adapter] these functions read. *)
Record mlan_adapter := mk_adapter {
  adapter_cfg : reorder_cfg;
  scan_processing : bool;
  pending_bridge_pkts : Z;
  min_ba_threshold : Z;
  coex_rx_winsize : bool;
  coex_win_size : bool;
  coex_rx_win_size : Z
}.

(** Messages from the firmware, in host byte order. *)
Record HostCmd_DS_11N_ADDBA_REQ := mk_addba_req {
  req_peer_mac_addr : list Z;
  req_dialog_token : Z;
  req_block_ack_param_set : Z;
  req_block_ack_tmo : Z;
  req_ssn : Z
}.
Record HostCmd_DS_11N_ADDBA_RSP := mk_addba_rsp {
  rsp_peer_mac_addr : list Z;
  rsp_dialog_token : Z;
  rsp_status_code : Z;
  rsp_block_ack_param_set : Z;
  rsp_block_ack_tmo : Z;
  rsp_ssn : Z
}.
Record HostCmd_DS_11N_DELBA := mk_delba {
  del_peer_mac_addr : list Z;
  del_ba_param_set : Z;
  reason_code : Z
}.
Record HostCmd_DS_11N_BATIMEOUT := mk_batimeout {
  to_tid : Z; to_peer_mac_addr : list Z; origninator : Z
}.

(** What the functions ask of the rest of the driver. *)
Inductive tbl_event :=
| Entry (ev : rx_event)
| PrepareAddbaRsp (req : HostCmd_DS_11N_ADDBA_REQ)   (** wlan_prepare_cmd *)
| PrepareDelba (d : HostCmd_DS_11N_DELBA)            (** wlan_prepare_cmd *)
| SendDelba (del_tid : Z) (peer : list Z)            (** wlan_send_delba, not the initiator *)
| DeferHandling.                                     (** MLAN_EVENT_ID_DRV_DEFER_HANDLING *)

(** ** The receive table *)

Definition entry_key (e : RxReorderTbl) : list Z * Z := (ta e, tid e).

Definition wlan_11n_get_rxreorder_tbl (priv : mlan_private) (tid0 : Z) (ta0 : list Z) : option nat :=
  fst <$> list_find (λ e, ta e = ta0 ∧ tid e = tid0) (rx_reorder_tbl_ptr priv).

Definition wlan_get_station_entry (priv : mlan_private) (mac : list Z) : option sta_node :=
  snd <$> list_find (λ s, mac_addr s = mac) (sta_list priv).

Definition queuing_ra_based (priv : mlan_private) : bool :=
  negb (bool_decide (bss_mode priv = MLAN_BSS_MODE_INFRA) && bool_decide (bss_role priv = MLAN_BSS_ROLE_STA)).

Definition wlan_11n_delete_rxreorder_tbl_entry (priv : mlan_private) (i : nat)
  : option (mlan_private * list rx_event) :=
  match rx_reorder_tbl_ptr priv !! i with
  | None => Some (priv, [])
  | Some e =>
      '(e, evs) ← wlan_11n_dispatch_pkt_until_start_win e
                    (Z.land (start_win e + win_size e) (MAX_TID_VALUE - 1));
      let stop := if timer e then (if timer_is_set e then [StopTimer] else []) ++ [FreeTimer] else [] in
      Some (set_rx_reorder_tbl_ptr (delete i (rx_reorder_tbl_ptr priv)) priv,
            [BlockRx true] ++ evs ++ stop ++ [BlockRx false])
  end.

(** The sequence number the window check of a new entry starts from. *)
Definition initial_last_seq (priv : mlan_private) (ta0 : list Z) (tid0 : Z) : option Z :=
  if queuing_ra_based priv then
    if bool_decide (bss_role priv = MLAN_BSS_ROLE_UAP) then
      match wlan_get_station_entry priv ta0 with
      | Some sta => sta_rx_seq sta !! Z.to_nat tid0
      | None => Some 0
      end
    else Some 0
  else
    match wlan_get_station_entry priv ta0 with
    | Some sta => sta_rx_seq sta !! Z.to_nat tid0
    | None => rx_seq priv !! Z.to_nat tid0
    end.

(** [alloc_node] and [alloc_ptr] are the outcomes of the two allocations; the
    memory is zeroed, so the fields not assigned are 0. *)
Definition wlan_11n_create_rxreorder_tbl (priv : mlan_private) (ta0 : list Z) (tid0 win seq_num : Z)
    (alloc_node alloc_ptr : bool) : option (mlan_private * list rx_event) :=
  if (tid0 <? 0) || (tid0 >=? MAX_NUM_TID) then Some (priv, []) else
  '(priv, evs) ← match wlan_11n_get_rxreorder_tbl priv tid0 ta0 with
                 | Some i => wlan_11n_delete_rxreorder_tbl_entry priv i
                 | None => Some (priv, [])
                 end;
  if negb alloc_node || negb alloc_ptr then Some (priv, evs ++ [BlockRx true; BlockRx false]) else
  last ← initial_last_seq priv ta0 tid0;
  let new_node := mk_rxtbl tid0 ta0 seq_num last win (replicate (Z.to_nat win) None) true false
                    BA_STREAM_SETUP_INPROGRESS false false true 0 false 0 in
  Some (set_rx_reorder_tbl_ptr (rx_reorder_tbl_ptr priv ++ [new_node]) priv,
        evs ++ [BlockRx true; BlockRx false]).

(** The whole per-packet function. *)
Definition mlan_11n_rxreorder_pkt (cfg : reorder_cfg) (priv : mlan_private) (seq_num tid0 : Z)
    (ta0 : list Z) (pkt_type : Z) (p : payload)
  : option (mlan_status * mlan_private * list rx_event) :=
  let pass := Some (MLAN_STATUS_SUCCESS, priv,
                    if negb (pkt_type =? PKT_TYPE_BAR) then [Dispatch p] else []) in
  match wlan_11n_get_rxreorder_tbl priv tid0 ta0 with
  | None => pass
  | Some i =>
      e ← rx_reorder_tbl_ptr priv !! i;
      if win_size e <=? 1 then pass else
      '(ret, e, evs) ← rxreorder_entry cfg e seq_num pkt_type p;
      Some (ret, set_rx_reorder_tbl_ptr (<[i := e]> (rx_reorder_tbl_ptr priv)) priv, evs)
  end.

(** ** The ADDBA handshake *)

Definition param_tid (param_set : Z) : Z :=
  Z.shiftr (Z.land param_set BLOCKACKPARAM_TID_MASK) BLOCKACKPARAM_TID_POS.

Definition wlan_is_addba_reject (priv : mlan_private) (tid0 : Z) : option Z :=
  if tid0 >=? MAX_NUM_TID then Some ADDBA_RSP_STATUS_REJECT else addba_reject priv !! Z.to_nat tid0.

(** [prepare_ret] is the status of [wlan_prepare_cmd]. *)
Definition wlan_11n_add_bastream (ad : mlan_adapter) (priv : mlan_private)
    (req : HostCmd_DS_11N_ADDBA_REQ) (prepare_ret : mlan_status) : mlan_status * list tbl_event :=
  if scan_processing ad then (MLAN_STATUS_SUCCESS, []) else
  let tid0 := param_tid (req_block_ack_param_set req) in
  match wlan_11n_get_rxreorder_tbl priv tid0 (req_peer_mac_addr req) ≫=
        (λ i, rx_reorder_tbl_ptr priv !! i) with
  | Some e =>
      if negb (bool_decide (ba_status e = BA_STREAM_SETUP_COMPLETE)) then (MLAN_STATUS_SUCCESS, [])
      else (prepare_ret, [PrepareAddbaRsp req])
  | None => (prepare_ret, [PrepareAddbaRsp req])
  end.

(** The window size of the response. *)
Definition addba_win_size (param_set own : Z) : Z :=
  let win := Z.shiftr (Z.land param_set BLOCKACKPARAM_WINSIZE_MASK) BLOCKACKPARAM_WINSIZE_POS in
  if win =? 0 then own else Z.min win own.

(** The parameter set of the response. *)
Definition addba_rsp_param_set (param_set win : Z) (amsdu0 : bool) : Z :=
  let set := Z.land param_set (u16 (Z.lnot BLOCKACKPARAM_WINSIZE_MASK)) in
  let set := if amsdu0 then set else Z.land set (u16 (Z.lnot BLOCKACKPARAM_AMSDU_SUPP_MASK)) in
  u16 (Z.lor set (u32 (Z.shiftl win BLOCKACKPARAM_WINSIZE_POS))).

Definition wlan_cmd_11n_addba_rspgen (ad : mlan_adapter) (priv : mlan_private)
    (req : HostCmd_DS_11N_ADDBA_REQ) (alloc_node alloc_ptr : bool)
  : option (mlan_status * HostCmd_DS_11N_ADDBA_RSP * mlan_private * list rx_event) :=
  let set := req_block_ack_param_set req in
  let tid0 := param_tid set in
  reject ← wlan_is_addba_reject priv tid0;
  let status_code :=
    if negb (reject =? 0)
       || (bool_decide (bss_role priv = MLAN_BSS_ROLE_STA) && wps_session_enable priv)
       || (bool_decide (bss_role priv = MLAN_BSS_ROLE_UAP) && (pending_bridge_pkts ad >? RX_LOW_THRESHOLD))
    then ADDBA_RSP_STATUS_DECLINED else ADDBA_RSP_STATUS_ACCEPT in
  let win := addba_win_size set (rx_win_size priv) in
  let rsp := mk_addba_rsp (req_peer_mac_addr req) (req_dialog_token req) status_code
               (addba_rsp_param_set set win (rx_amsdu priv)) (req_block_ack_tmo req) (req_ssn req) in
  if status_code =? ADDBA_RSP_STATUS_ACCEPT then
    '(priv, evs) ← wlan_11n_create_rxreorder_tbl priv (req_peer_mac_addr req) tid0 win (req_ssn req)
                     alloc_node alloc_ptr;
    Some (MLAN_STATUS_SUCCESS, rsp, priv, evs)
  else Some (MLAN_STATUS_SUCCESS, rsp, priv, []).

Definition wlan_ret_11n_addba_resp (priv : mlan_private) (rsp : HostCmd_DS_11N_ADDBA_RSP)
  : option (mlan_status * mlan_private * list rx_event) :=
  let set := rsp_block_ack_param_set rsp in
  match wlan_11n_get_rxreorder_tbl priv (param_tid set) (rsp_peer_mac_addr rsp) with
  | None => Some (MLAN_STATUS_SUCCESS, priv, [])
  | Some i =>
      if rsp_status_code rsp =? BA_RESULT_SUCCESS then
        e ← rx_reorder_tbl_ptr priv !! i;
        let e := set_ba_status BA_STREAM_SETUP_COMPLETE e in
        let e := set_amsdu (negb (Z.land set BLOCKACKPARAM_AMSDU_SUPP_MASK =? 0) && rx_amsdu priv) e in
        Some (MLAN_STATUS_SUCCESS, set_rx_reorder_tbl_ptr (<[i := e]> (rx_reorder_tbl_ptr priv)) priv, [])
      else
        '(priv, evs) ← wlan_11n_delete_rxreorder_tbl_entry priv i;
        Some (MLAN_STATUS_SUCCESS, priv, evs)
  end.

(** ** DELBA *)

Definition wlan_11n_get_txbastream_tbl (priv : mlan_private) (tid0 : Z) (ra0 : list Z) : option nat :=
  fst <$> list_find (λ t, tx_ra t = ra0 ∧ tx_tid t = tid0) (tx_ba_stream_tbl_ptr priv).

(** The callers pass a pointer just found in the list, so that the test of
    [wlan_is_txbastreamptr_valid] is that the position exists. *)
Definition wlan_11n_delete_txbastream_tbl_entry (priv : mlan_private) (i : nat) : mlan_private :=
  set_tx_ba_stream_tbl_ptr (delete i (tx_ba_stream_tbl_ptr priv)) priv.

Definition ac_index (ac : mlan_wmm_ac_e) : nat :=
  match ac with WMM_AC_BK => 0 | WMM_AC_BE => 1 | WMM_AC_VI => 2 | WMM_AC_VO => 3 end%nat.

(** [ac_to_tid[ac][k]]. *)
Definition ac_to_tid (ac : mlan_wmm_ac_e) (k : Z) : Z :=
  match ac with
  | WMM_AC_BK => if k =? 0 then 1 else 2
  | WMM_AC_BE => if k =? 0 then 0 else 3
  | WMM_AC_VI => if k =? 0 then 4 else 5
  | WMM_AC_VO => if k =? 0 then 6 else 7
  end.

(** The argument is converted to [t_u32]. *)
Definition wlan_wmm_downgrade_tid (priv : mlan_private) (tid0 : Z) : option Z :=
  let t := u32 tid0 in
  ac_down ← ac_down_graded_vals priv !! ac_index (wlan_wmm_convert_tos_to_ac t);
  Some (if (t =? 1) || (t =? 2) then ac_to_tid ac_down ((t + 1) mod 2)
        else if t >=? MAX_NUM_TID then ac_to_tid ac_down 0
        else ac_to_tid ac_down (t mod 2)).

Definition wlan_get_wmm_tid_down (priv : mlan_private) (tid0 : Z) : option Z :=
  wlan_wmm_downgrade_tid priv tid0.

Definition wlan_wmm_get_ralist_node (priv : mlan_private) (tid0 : Z) (ra0 : list Z) : option (option nat) :=
  l ← tid_tbl_ptr priv !! Z.to_nat tid0;
  Some (fst <$> list_find (λ r, ra r = ra0) l).

(** [sec] and [usec] are the system time. *)
Definition wlan_get_random_ba_threshold (ad : mlan_adapter) (sec usec : Z) : Z :=
  let sec := u32 (Z.land sec 0xFFFF + Z.shiftr sec 16) in
  let usec := u32 (Z.land usec 0xFFFF + Z.shiftr usec 16) in
  u8 (u32 (u32 (u32 (Z.shiftl sec 16) + usec) mod BA_SETUP_MAX_PACKET_THRESHOLD + min_ba_threshold ad)).

(** The update of the RA list when its block-ack stream is torn down; the
    threshold is a [t_u8] field. *)
Definition delba_ralist (ad : mlan_adapter) (type : delba_type) (reason sec usec : Z) (r : raListTbl)
  : raListTbl :=
  mk_ralist (ra r) 0
    (u8 (MIN_BA_SETUP_PACKET_REQIRED + wlan_get_random_ba_threshold ad sec usec))
    BA_STREAM_NOT_SETUP
    (if bool_decide (type = TYPE_DELBA_RECEIVE)
     then (if reason =? REASON_CODE_STA_TIMEOUT then 0 else u8 (del_ba_count r + 1))
     else del_ba_count r)
    false.

Definition mlan_11n_delete_bastream_tbl (ad : mlan_adapter) (priv : mlan_private) (tid0 : Z)
    (peer_mac : list Z) (type : delba_type) (initiator : bool) (reason sec usec : Z)
  : option (mlan_private * list rx_event) :=
  let cleanup_rx_reorder_tbl :=
    if bool_decide (type = TYPE_DELBA_RECEIVE) then initiator else negb initiator in
  if cleanup_rx_reorder_tbl then
    match wlan_11n_get_rxreorder_tbl priv tid0 peer_mac with
    | None => Some (priv, [])
    | Some i => wlan_11n_delete_rxreorder_tbl_entry priv i
    end
  else
    match wlan_11n_get_txbastream_tbl priv tid0 peer_mac with
    | None => Some (priv, [])
    | Some i =>
        let priv := wlan_11n_delete_txbastream_tbl_entry priv i in
        tid_down ← wlan_get_wmm_tid_down priv tid0;
        ra_list ← wlan_wmm_get_ralist_node priv tid_down peer_mac;
        match ra_list with
        | None => Some (priv, [])
        | Some j => Some (set_tid_tbl_ptr
                      (alter (alter (delba_ralist ad type reason sec usec) j) (Z.to_nat tid_down)
                         (tid_tbl_ptr priv)) priv, [])
        end
    end.

Definition wlan_11n_ba_stream_timeout (priv : mlan_private) (event : HostCmd_DS_11N_BATIMEOUT)
  : list tbl_event :=
  if negb (origninator event =? 0)
     && negb (bool_decide (is_Some (wlan_11n_get_txbastream_tbl priv (to_tid event) (to_peer_mac_addr event))))
  then []
  else [PrepareDelba (mk_delba (to_peer_mac_addr event)
          (u16 (Z.lor (u16 (Z.shiftl (to_tid event) DELBA_TID_POS))
                      (Z.shiftl (origninator event) DELBA_INITIATOR_POS)))
          REASON_CODE_STA_TIMEOUT)].

Definition wlan_11n_delba (priv : mlan_private) (tid0 : Z) : list tbl_event :=
  match list_find (λ e, tid e = tid0) (rx_reorder_tbl_ptr priv) with
  | Some (_, e) => [SendDelba tid0 (ta e)]
  | None => []
  end.

(** ** Clean-up *)

(** [while ((del_tbl_ptr = util_peek_list(...)))]: delete the first entry,
    [fuel] entries at most. *)
Fixpoint cleanup_loop (fuel : nat) (priv : mlan_private) : option (mlan_private * list rx_event) :=
  match rx_reorder_tbl_ptr priv with
  | [] => Some (priv, [])
  | _ =>
      match fuel with
      | O => None
      | S fuel =>
          '(priv, evs) ← wlan_11n_delete_rxreorder_tbl_entry priv 0;
          '(priv, evs') ← cleanup_loop fuel priv;
          Some (priv, evs ++ evs')
      end
  end.

Definition wlan_11n_cleanup_reorder_tbl (fuel : nat) (priv : mlan_private)
  : option (mlan_private * list rx_event) :=
  '(priv, evs) ← cleanup_loop fuel priv;
  Some (set_rx_seq (replicate 8 0xffff) (set_rx_reorder_tbl_ptr [] priv), evs).

(** [for (i = i; i < MAX_NUM_TID; ++i)], [n] iterations left. *)
Fixpoint cleanup_sta_loop (priv : mlan_private) (ta0 : list Z) (i : Z) (n : nat)
  : option (mlan_private * list rx_event) :=
  match n with
  | O => Some (priv, [])
  | S n =>
      '(priv, evs) ← match wlan_11n_get_rxreorder_tbl priv i ta0 with
                     | Some j => wlan_11n_delete_rxreorder_tbl_entry priv j
                     | None => Some (priv, [])
                     end;
      '(priv, evs') ← cleanup_sta_loop priv ta0 (i + 1) n;
      Some (priv, evs ++ evs')
  end.

Definition wlan_cleanup_reorder_tbl (priv : mlan_private) (ta0 : list Z)
  : option (mlan_private * list rx_event) :=
  cleanup_sta_loop priv ta0 0 (Z.to_nat MAX_NUM_TID).

Definition wlan_set_rxreorder_tbl_no_drop_flag (priv : mlan_private) (flag : bool) : mlan_private :=
  set_rx_reorder_tbl_ptr (set_force_no_drop flag <$> rx_reorder_tbl_ptr priv) priv.

Definition wlan_update_rxreorder_tbl (privs : list (option mlan_private)) (flag : bool)
  : list (option mlan_private) :=
  option_map (λ priv, wlan_set_rxreorder_tbl_no_drop_flag priv flag) <$> privs.

(** The walk of [wlan_flush_priv_rxreorder_tbl]. *)
Fixpoint flush_entries (l : list RxReorderTbl) : option (list RxReorderTbl * list rx_event) :=
  match l with
  | [] => Some ([], [])
  | e :: l =>
      '(e, evs) ← rxreorder_flush e;
      '(l, evs') ← flush_entries l;
      Some (e :: l, evs ++ evs')
  end.

Definition wlan_flush_priv_rxreorder_tbl (priv : mlan_private)
  : option (mlan_private * list rx_event) :=
  '(l, evs) ← flush_entries (rx_reorder_tbl_ptr priv);
  Some (set_rx_reorder_tbl_ptr l priv, evs).

(** ** The RXBA_SYNC event *)

(** A run may also read outside the event buffer, or not end. *)
Inductive outcome (A : Type) :=
| Done (a : A)
| Fault
| OutOfFuel.
Arguments Done {A}. Arguments Fault {A}. Arguments OutOfFuel {A}.

Definition obind {A B} (m : outcome A) (f : A → outcome B) : outcome B :=
  match m with Done a => f a | Fault => Fault | OutOfFuel => OutOfFuel end.
Definition of_option {A} (o : option A) : outcome A :=
  match o with Some a => Done a | None => Fault end.

Definition get_u8 (buf : list Z) (off : nat) : outcome Z := of_option (buf !! off).
Definition get_le16 (buf : list Z) (off : nat) : outcome Z :=
  obind (get_u8 buf off) (λ lo, obind (get_u8 buf (S off)) (λ hi, Done (lo + 256 * hi))).

(** [for (j = 0; j < 8; j++)], [n] iterations left: one firmware-dropped
    packet for every bit set. *)
Fixpoint sync_bits (cfg : reorder_cfg) (priv : mlan_private) (tid0 : Z) (mac : list Z)
    (seq0 byte i j : Z) (n : nat) : option (mlan_private * list rx_event) :=
  match n with
  | O => Some (priv, [])
  | S n =>
      '(priv, evs) ←
        (if negb (Z.land byte (Z.shiftl 1 j) =? 0) then
           '(_, priv, evs) ← mlan_11n_rxreorder_pkt cfg priv
              (u16 (Z.land (seq0 + i * 8 + j) (MAX_TID_VALUE - 1))) tid0 mac 0 RX_PKT_DROPPED_IN_FW;
           Some (priv, evs)
         else Some (priv, []));
      '(priv, evs') ← sync_bits cfg priv tid0 mac seq0 byte i (j + 1) n;
      Some (priv, evs ++ evs')
  end.

(** [for (i = i; i < bitmap_len; i++)] with [i] a [t_u8] and [bitmap_len] a
    [t_u16]; [bits] is the offset of the bitmap in the event buffer. *)
Fixpoint sync_bytes (fuel : nat) (cfg : reorder_cfg) (priv : mlan_private) (buf : list Z) (bits : nat)
    (tid0 : Z) (mac : list Z) (seq0 bitmap_len i : Z) : outcome (mlan_private * list rx_event) :=
  if negb (i <? bitmap_len) then Done (priv, []) else
  match fuel with
  | O => OutOfFuel
  | S fuel =>
      obind (get_u8 buf (bits + Z.to_nat i)) (λ byte,
      obind (of_option (sync_bits cfg priv tid0 mac seq0 byte i 0 8)) (λ '(priv, evs),
      obind (sync_bytes fuel cfg priv buf bits tid0 mac seq0 bitmap_len (u8 (i + 1))) (λ '(priv, evs'),
      Done (priv, evs ++ evs'))))
  end.

(** The TLV loop at offset [off]; [left] is [tlv_buf_left] and [bfuel] the fuel
    of each bitmap loop.  The entry found is
    the same in the bitmap loop, which only updates it. *)
Fixpoint sync_tlvs (bfuel fuel : nat) (cfg : reorder_cfg) (priv : mlan_private) (buf : list Z) (off : nat)
    (left : Z) : outcome (mlan_private * list rx_event) :=
  if left <? 16 then Done (priv, []) else
  match fuel with
  | O => OutOfFuel
  | S fuel =>
      obind (get_le16 buf off) (λ tlv_type,
      obind (get_le16 buf (off + 2)) (λ tlv_len,
      if negb (tlv_type =? TLV_TYPE_RXBA_SYNC) then Done (priv, []) else
      obind (get_le16 buf (off + 12)) (λ seq_num,
      obind (get_le16 buf (off + 14)) (λ bitmap_len,
      obind (get_u8 buf (off + 10)) (λ tid0,
      let mac := take 6 (drop (off + 4) buf) in
      match wlan_11n_get_rxreorder_tbl priv tid0 mac ≫= (λ i, rx_reorder_tbl_ptr priv !! i) with
      | None => Done (priv, [])
      | Some e =>
          if force_no_drop e then Done (priv, []) else
          obind (sync_bytes bfuel cfg priv buf (off + 16) tid0 mac seq_num bitmap_len 0) (λ '(priv, evs),
          obind (sync_tlvs bfuel fuel cfg priv buf (off + 4 + Z.to_nat tlv_len) (left - (4 + tlv_len)))
            (λ '(priv, evs'), Done (priv, evs ++ evs')))
      end)))))
  end.

Definition wlan_11n_rxba_sync_event (bfuel fuel : nat) (cfg : reorder_cfg) (priv : mlan_private)
    (event_buf : list Z) (len : Z) : outcome (mlan_private * list rx_event) :=
  sync_tlvs bfuel fuel cfg priv event_buf 0 len.

(** ** Coexistence *)

Definition MLAN_STA_COEX_AMPDU_DEF_RXWINSIZE : Z := 16.
Definition MLAN_WFD_COEX_AMPDU_DEF_RXWINSIZE : Z := 16.
Definition MLAN_NAN_COEX_AMPDU_DEF_RXWINSIZE : Z := 16.
Definition MLAN_UAP_COEX_AMPDU_DEF_RXWINSIZE : Z := 16.

(** The new receive window of one BSS. *)
Definition coex_new_win (ad : mlan_adapter) (priv : mlan_private) (coex_flag : bool) : Z :=
  let win :=
    if coex_flag then
      let win := match bss_type priv with
                 | MLAN_BSS_TYPE_STA => MLAN_STA_COEX_AMPDU_DEF_RXWINSIZE
                 | MLAN_BSS_TYPE_WIFIDIRECT => MLAN_WFD_COEX_AMPDU_DEF_RXWINSIZE
                 | MLAN_BSS_TYPE_NAN => MLAN_NAN_COEX_AMPDU_DEF_RXWINSIZE
                 | MLAN_BSS_TYPE_UAP => MLAN_UAP_COEX_AMPDU_DEF_RXWINSIZE
                 | MLAN_BSS_TYPE_OTHER => rx_win_size priv
                 end in
      Z.min win (user_rxwinsize priv)
    else user_rxwinsize priv in
  if coex_win_size ad && negb (coex_rx_win_size ad =? 0) then coex_rx_win_size ad else win.

Definition update_ampdu_rxwinsize_priv (ad : mlan_adapter) (coex_flag : bool) (priv : mlan_private)
  : mlan_private * list tbl_event :=
  let win := coex_new_win ad priv coex_flag in
  (set_rx_win_size win priv,
   if negb (rx_win_size priv =? win) && media_connected priv
   then concat ((λ j, wlan_11n_delba priv (Z.of_nat j)) <$> seq 0 8) ++ [DeferHandling] else []).

Definition wlan_update_ampdu_rxwinsize (ad : mlan_adapter) (privs : list (option mlan_private))
    (coex_flag : bool) : list (option (mlan_private * list tbl_event)) :=
  if negb (coex_rx_winsize ad) then option_map (λ priv, (priv, [])) <$> privs
  else option_map (update_ampdu_rxwinsize_priv ad coex_flag) <$> privs.

(** Whether a BSS is active: connected, or a started access point. *)
Definition bss_active (priv : mlan_private) : bool :=
  match bss_role priv with
  | MLAN_BSS_ROLE_STA => media_connected priv
  | MLAN_BSS_ROLE_UAP => uap_bss_started priv
  end.

(** The counting loop, which stops at two. *)
Fixpoint coex_count (privs : list (option mlan_private)) (count : Z) : Z :=
  match privs with
  | [] => count
  | p :: privs =>
      let count := match p with Some priv => if bss_active priv then count + 1 else count | None => count end in
      if count >=? 2 then count else coex_count privs count
  end.

Definition wlan_coex_ampdu_rxwinsize (ad : mlan_adapter) (privs : list (option mlan_private))
  : list (option (mlan_private * list tbl_event)) :=
  wlan_update_ampdu_rxwinsize ad privs (coex_count privs 0 >=? 2).

(** ** Settings *)

(** The set branch of [wlan_11n_ioctl_addba_reject]: the loop that checks and
    stores, from element [i] on. *)
Fixpoint store_addba_reject (cfg cur : list Z) (i : nat) (n : nat) : option (mlan_status * list Z) :=
  match n with
  | O => Some (MLAN_STATUS_SUCCESS, cur)
  | S n =>
      v ← cfg !! i;
      if v >? ADDBA_RSP_STATUS_REJECT then Some (MLAN_STATUS_FAILURE, cur)
      else store_addba_reject cfg (<[i := v]> cur) (S i) n
  end.

Definition wlan_11n_ioctl_addba_reject_set (priv : mlan_private) (cfg : list Z)
  : option (mlan_status * mlan_private * list tbl_event) :=
  '(ret, cur) ← store_addba_reject cfg (addba_reject priv) 0 8;
  let priv := set_addba_reject cur priv in
  evs ← (if media_connected priv then
           l ← mapM (λ i, v ← cfg !! i;
                      Some (if v =? ADDBA_RSP_STATUS_REJECT then wlan_11n_delba priv (Z.of_nat i) else []))
                 (seq 0 8);
           Some (concat l ++ [DeferHandling])
         else Some []);
  Some (ret, priv, evs).

(** ** The table invariant *)

(** An entry without a reorder window: packets pass by it. *)
Record idle (e : RxReorderTbl) : Prop := {
  id_win : 0 <= win_size e <= 1;
  id_len : length (rx_reorder_ptr e) = Z.to_nat (win_size e);
  id_none : Forall (λ s : option payload, s = None) (rx_reorder_ptr e)
}.

Definition entry_ok (e : RxReorderTbl) : Prop := (wf e ∨ idle e) ∧ 0 <= tid e < MAX_NUM_TID.

Definition seq_ok (x : Z) : Prop := 0 <= x < 4096 ∨ x = DEFAULT_SEQ_NUM.
Definition seqs_ok (l : list Z) : Prop := length l = 8%nat ∧ Forall seq_ok l.

(** At most one entry per transmitter and TID, all of them well-formed, and the
    tables the code indexes by TID and access category have their size. *)
Record table_ok (priv : mlan_private) : Prop := {
  tk_keys : NoDup (entry_key <$> rx_reorder_tbl_ptr priv);
  tk_entries : Forall entry_ok (rx_reorder_tbl_ptr priv);
  tk_win : 0 <= rx_win_size priv <= 64;
  tk_user : 0 <= user_rxwinsize priv <= 64;
  tk_reject : length (addba_reject priv) = 8%nat;
  tk_seq : seqs_ok (rx_seq priv);
  tk_sta : Forall (λ s, seqs_ok (sta_rx_seq s)) (sta_list priv);
  tk_ac : length (ac_down_graded_vals priv) = 4%nat;
  tk_tid : length (tid_tbl_ptr priv) = 8%nat
}.

Lemma set_tbl_ok l priv :
  table_ok priv → NoDup (entry_key <$> l) → Forall entry_ok l →
  table_ok (set_rx_reorder_tbl_ptr l priv).
Proof. by intros []. Qed.

(** *** Lookup *)

Lemma get_rxreorder_Some priv t a i :
  wlan_11n_get_rxreorder_tbl priv t a = Some i →
  ∃ e, rx_reorder_tbl_ptr priv !! i = Some e ∧ ta e = a ∧ tid e = t.
Proof.
  unfold wlan_11n_get_rxreorder_tbl. rewrite fmap_Some. intros ([j e] & H & ->).
  apply list_find_Some in H as (H1 & [H2 H3] & _). eauto.
Qed.

Lemma get_rxreorder_None priv t a :
  wlan_11n_get_rxreorder_tbl priv t a = None → (a, t) ∉ entry_key <$> rx_reorder_tbl_ptr priv.
Proof.
  unfold wlan_11n_get_rxreorder_tbl. rewrite fmap_None, list_find_None, Forall_forall.
  intros H. rewrite list_elem_of_fmap. intros (e & He & Hin). apply (H e Hin).
  unfold entry_key in He. by simplify_eq.
Qed.

(** With unique keys the table is a finite map: an entry is found under its key
    and only there. *)
Lemma get_rxreorder_unique priv i e : table_ok priv → rx_reorder_tbl_ptr priv !! i = Some e →
  wlan_11n_get_rxreorder_tbl priv (tid e) (ta e) = Some i.
Proof.
  intros Hok He. destruct (wlan_11n_get_rxreorder_tbl priv (tid e) (ta e)) as [j|] eqn:E.
  - apply get_rxreorder_Some in E as (e' & He' & Ha & Ht). f_equal.
    eapply (NoDup_lookup _ j i (ta e, tid e) (tk_keys _ Hok)).
    + rewrite list_lookup_fmap, He'. simpl. unfold entry_key. by rewrite Ha, Ht.
    + by rewrite list_lookup_fmap, He.
  - apply get_rxreorder_None in E. destruct E.
    change (ta e, tid e) with (entry_key e). apply list_elem_of_fmap. exists e. split; [done|].
    by eapply list_elem_of_lookup_2.
Qed.

(** *** Deleting an entry *)

Lemma dispatch_all e : entry_ok e →
  ∃ e' evs, wlan_11n_dispatch_pkt_until_start_win e
      (Z.land (start_win e + win_size e) (MAX_TID_VALUE - 1)) = Some (e', evs) ∧
    dispatched evs = somes (rx_reorder_ptr e).
Proof.
  intros [[[Hc _]|Hi] _].
  - rewrite dispatch_until_spec by done. eexists _, _. split; [done|]. rewrite dispatched_Dispatch.
    rewrite take_ge; [done|]. rewrite (wf_len e Hc). pose proof (wf_win e Hc). pose proof (wf_start e Hc).
    rewrite land_tid. unfold until_count.
    destruct (Z.gtb_spec ((start_win e + win_size e) mod 4096) (start_win e)); [|lia].
    assert ((start_win e + win_size e) mod 4096 - start_win e = win_size e) by mod_lia. lia.
  - destruct Hi as [Hw Hl Hn]. unfold wlan_11n_dispatch_pkt_until_start_win.
    set (n := if _ >? _ then _ else _).
    assert (0 <= n <= win_size e) by (unfold n; destruct (Z.gtb_spec (Z.land (start_win e + win_size e) (MAX_TID_VALUE - 1)) (start_win e)); lia).
    destruct (rx_reorder_ptr e) as [|s [|]] eqn:Hp; simpl in Hl; try lia.
    + assert (n = 0) as -> by lia. replace (win_size e - 0) with 0 by lia. simpl. by eexists _, _.
    + inversion Hn; subst. assert (win_size e = 1) as Hw1 by lia. rewrite Hw1 in *.
      assert (n = 1 ∨ n = 0) as [-> | ->] by lia; simpl; by eexists _, _.
Qed.

Lemma fmap_delete {A B} (f : A → B) (l : list A) (i : nat) : f <$> delete i l = delete i (f <$> l).
Proof. revert i. induction l as [|x l IH]; intros [|i]; simpl; f_equal; auto. Qed.

Lemma NoDup_delete {A} (l : list A) (i : nat) : NoDup l → NoDup (delete i l).
Proof. intros H. eapply sublist_NoDup; [done|apply sublist_delete]. Qed.

Lemma delete_entry_spec priv i e : table_ok priv → rx_reorder_tbl_ptr priv !! i = Some e →
  ∃ evs, wlan_11n_delete_rxreorder_tbl_entry priv i =
      Some (set_rx_reorder_tbl_ptr (delete i (rx_reorder_tbl_ptr priv)) priv, evs) ∧
    dispatched evs = somes (rx_reorder_ptr e) ∧
    table_ok (set_rx_reorder_tbl_ptr (delete i (rx_reorder_tbl_ptr priv)) priv).
Proof.
  intros Hok He. unfold wlan_11n_delete_rxreorder_tbl_entry. rewrite He.
  destruct (dispatch_all e) as (e' & evs & -> & Hd).
  { eapply Forall_lookup_1; [apply (tk_entries _ Hok)|done]. }
  simpl. eexists. split; [done|]. split.
  - simpl. rewrite !dispatched_app. simpl. rewrite Hd.
    destruct (timer e'); [destruct (timer_is_set e')|]; simpl; by rewrite ?app_nil_r.
  - apply set_tbl_ok; [done| |by apply Forall_delete, tk_entries].
    rewrite fmap_delete. by apply NoDup_delete, tk_keys.
Qed.

Lemma delete_key_gone priv i e : table_ok priv → rx_reorder_tbl_ptr priv !! i = Some e →
  entry_key e ∉ entry_key <$> delete i (rx_reorder_tbl_ptr priv).
Proof.
  intros Hok He. pose proof (tk_keys _ Hok) as Hnd. rewrite fmap_delete.
  rewrite <- (take_drop_middle (entry_key <$> rx_reorder_tbl_ptr priv) i (entry_key e)) in Hnd
    by (by rewrite list_lookup_fmap, He).
  rewrite delete_take_drop. apply NoDup_app in Hnd as (_ & H1 & H2).
  apply NoDup_cons in H2 as [H2 _]. rewrite elem_of_app. intros [H|H]; [|done].
  apply (H1 _ H). left.
Qed.

(** *** Creating an entry *)

Lemma initial_last_seq_ok priv a t : table_ok priv → 0 <= t < MAX_NUM_TID →
  ∃ s, initial_last_seq priv a t = Some s ∧ seq_ok s.
Proof.
  intros Hok Ht. unfold MAX_NUM_TID in Ht.
  assert (∀ l, seqs_ok l → ∃ s, l !! Z.to_nat t = Some s ∧ seq_ok s) as HL.
  { intros l [Hl Hf]. destruct (lookup_lt_is_Some_2 l (Z.to_nat t)) as [s Hs]; [lia|].
    exists s. split; [done|]. by eapply Forall_lookup_1. }
  assert (∀ sta, wlan_get_station_entry priv a = Some sta → seqs_ok (sta_rx_seq sta)) as HS.
  { unfold wlan_get_station_entry. intros sta ([j s] & H & ->)%fmap_Some.
    apply list_find_Some in H as (H & _). by apply (Forall_lookup_1 _ _ _ _ (tk_sta _ Hok) H). }
  assert (seq_ok 0) by (left; lia).
  unfold initial_last_seq. destruct (queuing_ra_based priv).
  - case_bool_decide; [|eauto]. destruct (wlan_get_station_entry priv a) eqn:E; eauto.
  - destruct (wlan_get_station_entry priv a) eqn:E; [eauto|]. apply HL, Hok.
Qed.

(** The entry a successful creation appends. *)
Definition fresh_entry (a : list Z) (t win ssn last : Z) : RxReorderTbl :=
  mk_rxtbl t a ssn last win (replicate (Z.to_nat win) None) true false
    BA_STREAM_SETUP_INPROGRESS false false true 0 false 0.

Lemma fresh_entry_ok a t win ssn last :
  0 <= win <= 64 → 0 <= ssn < 4096 → seq_ok last → 0 <= t < MAX_NUM_TID →
  entry_ok (fresh_entry a t win ssn last).
Proof.
  intros Hw Hs Hl Ht. split; [|done]. destruct (decide (2 <= win)).
  - left. apply wf_empty; simpl; [lia|done|lia|done|done].
  - right. split; simpl; [lia|by rewrite length_replicate|by apply Forall_replicate].
Qed.

Lemma create_entry_spec priv a t win ssn alloc_node alloc_ptr :
  table_ok priv → 0 <= win <= 64 → 0 <= ssn < 4096 →
  ∃ priv' evs, wlan_11n_create_rxreorder_tbl priv a t win ssn alloc_node alloc_ptr = Some (priv', evs) ∧
    table_ok priv' ∧
    (0 <= t < MAX_NUM_TID → alloc_node = true → alloc_ptr = true →
     ∃ last i, rx_reorder_tbl_ptr priv' !! i = Some (fresh_entry a t win ssn last)).
Proof.
  intros Hok Hw Hs. unfold wlan_11n_create_rxreorder_tbl.
  destruct ((t <? 0) || (t >=? MAX_NUM_TID)) eqn:Ht.
  { eexists _, _. split_and!; [done..|]. intros Ht'. unfold MAX_NUM_TID in *. lia. }
  assert (0 <= t < MAX_NUM_TID) as Ht' by (unfold MAX_NUM_TID in *; lia).
  assert (∃ priv1 evs1, match wlan_11n_get_rxreorder_tbl priv t a with
     | Some i => wlan_11n_delete_rxreorder_tbl_entry priv i | None => Some (priv, []) end =
     Some (priv1, evs1) ∧ table_ok priv1 ∧ (a, t) ∉ entry_key <$> rx_reorder_tbl_ptr priv1)
    as (priv1 & evs1 & -> & Hok1 & Hnew).
  { destruct (wlan_11n_get_rxreorder_tbl priv t a) as [i|] eqn:E.
    - apply get_rxreorder_Some in E as (e & He & <- & <-).
      destruct (delete_entry_spec priv i e Hok He) as (evs & -> & _ & Hok').
      eexists _, _. split_and!; [done..|]. by apply (delete_key_gone priv i e).
    - apply get_rxreorder_None in E. eauto. }
  simpl. destruct (negb alloc_node || negb alloc_ptr) eqn:Ea.
  { eexists _, _. split_and!; [done..|]. intros _ -> ->. done. }
  destruct (initial_last_seq_ok priv1 a t Hok1 Ht') as (last & -> & Hl). simpl.
  eexists _, _. split; [done|]. fold (fresh_entry a t win ssn last). split.
  - apply set_tbl_ok; [done| |].
    + rewrite fmap_app. apply NoDup_app. split_and!; [apply Hok1| |apply NoDup_singleton].
      intros x Hx ->%list_elem_of_singleton. done.
    + apply Forall_app. split; [apply Hok1|]. constructor; [|done]. by apply fresh_entry_ok.
  - intros _ _ _. exists last, (length (rx_reorder_tbl_ptr priv1)). simpl.
    by rewrite lookup_app_r, Nat.sub_diag by done.
Qed.

(** *** A packet *)

Lemma insert_entry_ok priv i e e' :
  table_ok priv → rx_reorder_tbl_ptr priv !! i = Some e → entry_key e' = entry_key e →
  entry_ok e' → table_ok (set_rx_reorder_tbl_ptr (<[i := e']> (rx_reorder_tbl_ptr priv)) priv).
Proof.
  intros Hok He Hk He'. apply set_tbl_ok; [done| |].
  - rewrite list_fmap_insert, Hk, list_insert_id; [apply Hok|]. by rewrite list_lookup_fmap, He.
  - apply Forall_insert; [apply Hok|done].
Qed.

Lemma pkt_spec cfg priv seq t a pt p : table_ok priv → 0 <= seq < 4096 →
  ∃ ret priv' evs, mlan_11n_rxreorder_pkt cfg priv seq t a pt p = Some (ret, priv', evs) ∧
    table_ok priv' ∧ entry_key <$> rx_reorder_tbl_ptr priv' = entry_key <$> rx_reorder_tbl_ptr priv ∧
    ∀ j e, rx_reorder_tbl_ptr priv !! j = Some e → entry_key e ≠ (a, t) →
      rx_reorder_tbl_ptr priv' !! j = Some e.
Proof.
  intros Hok Hs. unfold mlan_11n_rxreorder_pkt.
  destruct (wlan_11n_get_rxreorder_tbl priv t a) as [i|] eqn:E; [|by eexists _, _, _].
  apply get_rxreorder_Some in E as (e & He & Ha & Ht). rewrite He. simpl.
  destruct (Z.leb_spec (win_size e) 1); [by eexists _, _, _|].
  pose proof (Forall_lookup_1 _ _ _ _ (tk_entries _ Hok) He) as [[Hwf|Hi] Htid].
  2: { destruct Hi. lia. }
  destruct (rxreorder_entry_moved cfg e seq pt p Hwf Hs) as (ret & e' & evs & Hr & [C _] & A).
  rewrite Hr. simpl. pose proof (entry_same _ _ _ _ _ _ _ _ Hr) as (S1 & S2 & S3).
  assert (entry_key e' = entry_key e) as Hk by (unfold entry_key; congruence).
  eexists _, _, _. split; [done|]. split_and!.
  - apply (insert_entry_ok _ i e); [done|done|done|]. split; [by left|by rewrite S2].
  - simpl. rewrite list_fmap_insert, Hk, list_insert_id; [done|]. by rewrite list_lookup_fmap, He.
  - intros j e2 Hj Hne. simpl. rewrite list_lookup_insert_ne; [done|]. intros ->.
    rewrite He in Hj. simplify_eq.
Qed.

(** *** The table operations as steps *)

(** An event the firmware lays out properly: every TLV the loop visits has its
    fixed part and its bitmap in the buffer, and a bitmap of at most 255 bytes. *)
Inductive sync_layout (buf : list Z) : nat → Z → Prop :=
| layout_end off left : left < 16 → sync_layout buf off left
| layout_tlv off left tlv_len bitmap_len :
    get_le16 buf (off + 2) = Done tlv_len → get_le16 buf (off + 14) = Done bitmap_len →
    0 <= tlv_len → bitmap_len <= 255 → (off + 16 + Z.to_nat bitmap_len <= length buf)%nat →
    sync_layout buf (off + 4 + Z.to_nat tlv_len) (left - (4 + tlv_len)) →
    sync_layout buf off left.

Inductive table_op :=
| OpRxPkt (seq t : Z) (a : list Z) (pt : Z) (p : payload)
| OpAddbaRspgen (req : HostCmd_DS_11N_ADDBA_REQ) (alloc_node alloc_ptr : bool)
| OpAddbaResp (rsp : HostCmd_DS_11N_ADDBA_RSP)
| OpDeleteBastream (t : Z) (mac : list Z) (type : delba_type) (initiator : bool) (reason sec usec : Z)
| OpTimer (i : nat)
| OpFlush
| OpNoDrop (flag : bool)
| OpCleanup
| OpCleanupSta (a : list Z)
| OpCoex (flag : bool)
| OpRxbaSync (event_buf : list Z) (len : Z).

(** Run one operation; [None] when it has no result. *)
Definition exec_table (ad : mlan_adapter) (priv : mlan_private) (op : table_op)
  : option (mlan_private * list rx_event) :=
  match op with
  | OpRxPkt seq t a pt p =>
      '(_, priv, evs) ← mlan_11n_rxreorder_pkt (adapter_cfg ad) priv seq t a pt p; Some (priv, evs)
  | OpAddbaRspgen req n q =>
      '(_, _, priv, evs) ← wlan_cmd_11n_addba_rspgen ad priv req n q; Some (priv, evs)
  | OpAddbaResp rsp => '(_, priv, evs) ← wlan_ret_11n_addba_resp priv rsp; Some (priv, evs)
  | OpDeleteBastream t mac ty init r s u => mlan_11n_delete_bastream_tbl ad priv t mac ty init r s u
  | OpTimer i => Some (set_rx_reorder_tbl_ptr (alter wlan_flush_data i (rx_reorder_tbl_ptr priv)) priv, [])
  | OpFlush => wlan_flush_priv_rxreorder_tbl priv
  | OpNoDrop flag => Some (wlan_set_rxreorder_tbl_no_drop_flag priv flag, [])
  | OpCleanup => wlan_11n_cleanup_reorder_tbl (length (rx_reorder_tbl_ptr priv)) priv
  | OpCleanupSta a => wlan_cleanup_reorder_tbl priv a
  | OpCoex flag => Some ((update_ampdu_rxwinsize_priv ad flag priv).1, [])
  | OpRxbaSync buf len =>
      match wlan_11n_rxba_sync_event 255 (Z.to_nat len) (adapter_cfg ad) priv buf len with
      | Done r => Some r | _ => None end
  end.

(** What the firmware guarantees of the numbers it passes and of its report of
    dropped packets, and that a window imposed by coexistence fits the bitmap. *)
Definition op_pre (ad : mlan_adapter) (op : table_op) : Prop :=
  match op with
  | OpRxPkt seq _ _ _ _ => 0 <= seq < 4096
  | OpAddbaRspgen req _ _ => 0 <= req_ssn req < 4096 ∧ 0 <= req_block_ack_param_set req < 65536
  | OpCoex _ => 0 <= coex_rx_win_size ad <= 64
  | OpRxbaSync buf len => sync_layout buf 0 len
  | _ => True
  end.

Lemma param_tid_range set : 0 <= param_tid set < 16.
Proof.
  unfold param_tid. change BLOCKACKPARAM_TID_MASK with (Z.shiftl (Z.ones 4) 2).
  change BLOCKACKPARAM_TID_POS with 2.
  rewrite Z.shiftr_land, Z.shiftr_shiftl_l, Z.sub_diag, Z.shiftl_0_r, Z.land_ones by lia.
  apply Z.mod_pos_bound. lia.
Qed.

Lemma addba_win_size_range set own : 0 <= set < 65536 → 0 <= own <= 64 →
  0 <= addba_win_size set own <= own ∧ (0 < own → 0 < addba_win_size set own).
Proof.
  intros Hs Ho. unfold addba_win_size.
  assert (0 <= Z.shiftr (Z.land set BLOCKACKPARAM_WINSIZE_MASK) BLOCKACKPARAM_WINSIZE_POS).
  { apply Z.shiftr_nonneg, Z.land_nonneg. left. lia. }
  destruct (Z.eqb_spec (Z.shiftr (Z.land set BLOCKACKPARAM_WINSIZE_MASK) BLOCKACKPARAM_WINSIZE_POS) 0); lia.
Qed.

Lemma is_addba_reject_Some priv t : table_ok priv → 0 <= t → is_Some (wlan_is_addba_reject priv t).
Proof.
  intros Hok Ht. unfold wlan_is_addba_reject. destruct (Z.geb_spec t MAX_NUM_TID); [eauto|].
  apply lookup_lt_is_Some_2. rewrite (tk_reject _ Hok). unfold MAX_NUM_TID in *. lia.
Qed.

Lemma rspgen_ok ad priv req n q : table_ok priv → op_pre ad (OpAddbaRspgen req n q) →
  ∃ rsp priv' evs, wlan_cmd_11n_addba_rspgen ad priv req n q = Some (MLAN_STATUS_SUCCESS, rsp, priv', evs)
    ∧ table_ok priv'.
Proof.
  intros Hok [Hs Hp]. unfold wlan_cmd_11n_addba_rspgen.
  pose proof (param_tid_range (req_block_ack_param_set req)) as Ht.
  destruct (is_addba_reject_Some priv (param_tid (req_block_ack_param_set req)) Hok) as [r ->]; [lia|].
  cbn [mbind option_bind]. set (sc := if _ || _ then _ else _).
  destruct (Z.eqb_spec sc ADDBA_RSP_STATUS_ACCEPT); [|by eexists _, _, _].
  pose proof (addba_win_size_range (req_block_ack_param_set req) (rx_win_size priv) Hp (tk_win _ Hok)) as [Hw _].
  pose proof (tk_win _ Hok).
  destruct (create_entry_spec priv (req_peer_mac_addr req) (param_tid (req_block_ack_param_set req))
    (addba_win_size (req_block_ack_param_set req) (rx_win_size priv)) (req_ssn req) n q Hok)
    as (priv' & evs & -> & Hok' & _); [lia|done|]. by eexists _, _, _.
Qed.

Lemma addba_resp_ok priv rsp : table_ok priv →
  ∃ priv' evs, wlan_ret_11n_addba_resp priv rsp = Some (MLAN_STATUS_SUCCESS, priv', evs) ∧ table_ok priv'.
Proof.
  intros Hok. unfold wlan_ret_11n_addba_resp.
  destruct (wlan_11n_get_rxreorder_tbl _ _ _) as [i|] eqn:E; [|by eexists _, _].
  apply get_rxreorder_Some in E as (e & He & _ & _). destruct (_ =? _).
  - rewrite He. simpl. eexists _, _. split; [done|].
    apply (insert_entry_ok _ i e); [done|done|done|].
    destruct (Forall_lookup_1 _ _ _ _ (tk_entries _ Hok) He) as [[[[] A]|[]] Ht].
    + split; [|done]. left. by split.
    + split; [|done]. by right.
  - destruct (delete_entry_spec priv i e Hok He) as (evs & -> & _ & Hok'). by eexists _, _.
Qed.

Lemma get_delete_ok priv t a : table_ok priv →
  ∃ priv' evs, match wlan_11n_get_rxreorder_tbl priv t a with
    | Some i => wlan_11n_delete_rxreorder_tbl_entry priv i | None => Some (priv, []) end = Some (priv', evs)
    ∧ table_ok priv'.
Proof.
  intros Hok. destruct (wlan_11n_get_rxreorder_tbl priv t a) as [i|] eqn:E; [|by eexists _, _].
  apply get_rxreorder_Some in E as (e & He & _ & _).
  destruct (delete_entry_spec priv i e Hok He) as (evs & -> & _ & Hok'). by eexists _, _.
Qed.

Lemma downgrade_range priv t : table_ok priv →
  ∃ d, wlan_get_wmm_tid_down priv t = Some d ∧ 0 <= d < 8.
Proof.
  intros Hok. unfold wlan_get_wmm_tid_down, wlan_wmm_downgrade_tid.
  destruct (lookup_lt_is_Some_2 (ac_down_graded_vals priv)
     (ac_index (wlan_wmm_convert_tos_to_ac (u32 t)))) as [ac ->].
  { rewrite (tk_ac _ Hok). destruct (wlan_wmm_convert_tos_to_ac _); simpl; lia. }
  simpl. eexists. split; [done|]. unfold ac_to_tid. repeat case_match; lia.
Qed.

Lemma delete_bastream_ok ad priv t mac ty init r s u : table_ok priv →
  ∃ priv' evs, mlan_11n_delete_bastream_tbl ad priv t mac ty init r s u = Some (priv', evs) ∧
    table_ok priv'.
Proof.
  intros Hok. unfold mlan_11n_delete_bastream_tbl. destruct (if bool_decide (ty = TYPE_DELBA_RECEIVE) then init else negb init).
  { by apply get_delete_ok. }
  destruct (wlan_11n_get_txbastream_tbl priv t mac) as [i|]; [|by eexists _, _].
  set (priv1 := wlan_11n_delete_txbastream_tbl_entry priv i).
  assert (table_ok priv1) as Hok1 by (by destruct Hok).
  destruct (downgrade_range priv1 t Hok1) as (d & -> & Hd). cbn [mbind option_bind].
  unfold wlan_wmm_get_ralist_node.
  destruct (lookup_lt_is_Some_2 (tid_tbl_ptr priv1) (Z.to_nat d)) as [l ->];
    [rewrite (tk_tid _ Hok1); lia|].
  simpl. destruct (list_find _ l); simpl; eexists _, _; (split; [done|]); [|done].
  destruct Hok1; split; simpl; try done. by rewrite length_alter.
Qed.

Lemma cleanup_loop_ok fuel priv : table_ok priv → (length (rx_reorder_tbl_ptr priv) <= fuel)%nat →
  ∃ evs, cleanup_loop fuel priv = Some (set_rx_reorder_tbl_ptr [] priv, evs) ∧
    dispatched evs = concat ((somes ∘ rx_reorder_ptr) <$> rx_reorder_tbl_ptr priv).
Proof.
  revert priv. induction fuel as [|fuel IH]; intros priv Hok Hf.
  - simpl. destruct (rx_reorder_tbl_ptr priv) eqn:E; [|simpl in Hf; lia]. exists [].
    split; [|done]. destruct priv. simpl in *. by subst.
  - simpl. destruct (rx_reorder_tbl_ptr priv) as [|e l] eqn:E.
    { exists []. split; [|done]. destruct priv. simpl in *. by subst. }
    destruct (delete_entry_spec priv 0 e Hok) as (evs & -> & Hd & Hok'); [by rewrite E|]. simpl.
    destruct (IH _ Hok') as (evs' & -> & Hd'); [simpl; rewrite E; simpl in *; lia|]. simpl.
    exists (evs ++ evs'). split; [done|]. rewrite dispatched_app, Hd, Hd'. simpl. by rewrite E.
Qed.

Lemma cleanup_sta_ok n i priv a : table_ok priv →
  ∃ priv' evs, cleanup_sta_loop priv a i n = Some (priv', evs) ∧ table_ok priv'.
Proof.
  revert i priv. induction n as [|n IH]; intros i priv Hok; simpl; [by eexists _, _|].
  destruct (get_delete_ok priv i a Hok) as (priv1 & evs & -> & Hok1). simpl.
  destruct (IH (i + 1) priv1 Hok1) as (priv2 & evs2 & -> & Hok2). by eexists _, _.
Qed.

Lemma rxreorder_flush_ok e : entry_ok e →
  ∃ e' evs, rxreorder_flush e = Some (e', evs) ∧ entry_ok e' ∧ entry_key e' = entry_key e ∧
    dispatched evs ++ somes (rx_reorder_ptr e') = somes (rx_reorder_ptr e).
Proof.
  intros [[Hwf|Hi] Ht].
  - destruct (rxreorder_flush_moved e Hwf) as (e' & evs & E & [C M] & A & _ & _).
    pose proof (flush_same _ _ _ E) as (S1 & S2 & _). eexists _, _. split; [done|].
    split_and!; [split; [left; by split|by rewrite S2]|unfold entry_key; congruence|].
    unfold rxreorder_flush in E. destruct (flush_data e); [|by simplify_eq].
    destruct (flush_moved (set_flush_data false e)) as (e2 & evs2 & E2 & _ & Hz & Hd & _).
    { by destruct Hwf as [[] _]. }
    rewrite E in E2. simplify_eq. by rewrite Hz, Hd, app_nil_r.
  - unfold rxreorder_flush. destruct (flush_data e).
    2: { eexists _, _. split_and!; try done. split; [by right|done]. }
    unfold wlan_start_flush_data, wlan_11n_find_last_seqnum. simpl.
    destruct (find_last_loop_spec (Z.to_nat (win_size e)) (rx_reorder_ptr e)) as (z & -> & Hz & _ & Hs).
    { rewrite (id_len _ Hi). done. }
    simpl. destruct (Z.geb_spec z 0) as [Hz0|_].
    + specialize (Hs Hz0). destruct (rx_reorder_ptr e !! Z.to_nat z) as [x|] eqn:Hx; [|by destruct Hs].
      rewrite (Forall_lookup_1 _ _ _ _ (id_none _ Hi) Hx) in Hs. by destruct Hs.
    + eexists _, _. split_and!; try done. split; [right; by destruct Hi|done].
Qed.

Lemma flush_entries_ok l : Forall entry_ok l →
  ∃ l' evs, flush_entries l = Some (l', evs) ∧ Forall entry_ok l' ∧
    entry_key <$> l' = entry_key <$> l.
Proof.
  induction 1 as [|e l He Hl IH]; simpl; [by eexists _, _|].
  destruct (rxreorder_flush_ok e He) as (e' & evs & -> & He' & Hk & _). simpl.
  destruct IH as (l' & evs' & -> & Hl' & Hk'). eexists _, _. split; [done|]. split; [by constructor|].
  by rewrite !fmap_cons, Hk, Hk'.
Qed.

Lemma fmap_entry_ok priv f : table_ok priv → (∀ e, entry_key (f e) = entry_key e) →
  (∀ e, entry_ok e → entry_ok (f e)) →
  table_ok (set_rx_reorder_tbl_ptr (f <$> rx_reorder_tbl_ptr priv) priv).
Proof.
  intros Hok Hk He. apply set_tbl_ok; [done| |].
  - rewrite <- list_fmap_compose. rewrite (list_fmap_ext _ entry_key) by (intros; apply Hk). apply Hok.
  - apply Forall_fmap. eapply Forall_impl; [apply Hok|]. apply He.
Qed.

Lemma alter_key f (i : nat) (l : list RxReorderTbl) : (∀ e, entry_key (f e) = entry_key e) →
  entry_key <$> alter f i l = entry_key <$> l.
Proof.
  intros H. revert i. induction l as [|e l IH]; intros [|i]; [done|done| |].
  - change (entry_key (f e) :: (entry_key <$> l) = entry_key e :: (entry_key <$> l)). by rewrite H.
  - change (entry_key e :: (entry_key <$> alter f i l) = entry_key e :: (entry_key <$> l)). by rewrite IH.
Qed.

(** ** Main results *)

Definition demo_ad : mlan_adapter := mk_adapter demo_cfg false 0 2 true false 0.
Definition demo_mac : list Z := [2; 0; 0; 0; 0; 1].
Definition demo_priv (l : list RxReorderTbl) : mlan_private :=
  mk_priv MLAN_BSS_ROLE_STA MLAN_BSS_MODE_INFRA MLAN_BSS_TYPE_STA true false l [] (replicate 8 []) 64 true 64
    (replicate 8 0) false (replicate 8 0xffff) [] [WMM_AC_BK; WMM_AC_BE; WMM_AC_VI; WMM_AC_VO].
Definition demo_table : list RxReorderTbl := [set_tid 3 demo_fresh; demo_buffered].

Lemma demo_priv_ok l : NoDup (entry_key <$> l) → Forall entry_ok l → table_ok (demo_priv l).
Proof.
  intros. split; simpl; try done; try lia. split; [done|]. repeat constructor; by right.
Qed.

Lemma demo_table_ok : table_ok (demo_priv demo_table).
Proof.
  apply demo_priv_ok.
  - simpl. apply NoDup_cons. split; [|apply NoDup_singleton]. rewrite list_elem_of_singleton. by intros [=].
  - apply Forall_cons. split; [split; [left|unfold MAX_NUM_TID; simpl; lia]|].
    { destruct demo_fresh_wf as [[] A]. by split. }
    apply Forall_singleton. split; [left; exact demo_buffered_wf|unfold MAX_NUM_TID; simpl; lia].
Qed.

(** A packet of one stream leaves every other stream's entry as it
    was, and the keys of the table, whatever the packet. *)
Theorem rxreorder_pkt_isolated cfg priv seq t a pt p ret priv' evs :
  table_ok priv → 0 <= seq < 4096 →
  mlan_11n_rxreorder_pkt cfg priv seq t a pt p = Some (ret, priv', evs) →
  entry_key <$> rx_reorder_tbl_ptr priv' = entry_key <$> rx_reorder_tbl_ptr priv ∧
  ∀ j e, rx_reorder_tbl_ptr priv !! j = Some e → entry_key e ≠ (a, t) →
    rx_reorder_tbl_ptr priv' !! j = Some e.
Proof.
  intros Hok Hs E. destruct (pkt_spec cfg priv seq t a pt p Hok Hs) as (r & p' & ev & E' & _ & H).
  rewrite E in E'. by simplify_eq.
Qed.

Lemma rxreorder_pkt_isolated_witness :
  ∃ ret priv' evs,
    mlan_11n_rxreorder_pkt demo_cfg (demo_priv demo_table) 4090 5 demo_mac 2 (demo_pkt 4090) = Some (ret, priv', evs) ∧
    rx_reorder_tbl_ptr priv' !! 0%nat = Some (set_tid 3 demo_fresh).
Proof.
  eexists _, _, _. split; [reflexivity|].
  eapply (rxreorder_pkt_isolated demo_cfg (demo_priv demo_table) 4090 5 demo_mac 2 (demo_pkt 4090));
    [exact demo_table_ok|lia|reflexivity|done|done].
Defined.

(** *** ADDBA *)

Lemma u_wrap_land w x : 0 <= w → u_wrap w x = Z.land x (Z.ones w).
Proof. intros. by rewrite Z.land_ones. Qed.

(** The response carries exactly the negotiated window. *)
Lemma rsp_window_field set win b : 0 <= win < 1024 →
  Z.shiftr (Z.land (addba_rsp_param_set set win b) BLOCKACKPARAM_WINSIZE_MASK) BLOCKACKPARAM_WINSIZE_POS = win.
Proof.
  intros Hw. unfold addba_rsp_param_set, BLOCKACKPARAM_WINSIZE_POS.
  rewrite (u_wrap_land 16 (Z.lor _ _)), (u_wrap_land 32) by lia.
  rewrite !Z.shiftr_land, Z.shiftr_lor, !Z.shiftr_land.
  assert (Z.shiftr (if b then Z.land set (u16 (Z.lnot BLOCKACKPARAM_WINSIZE_MASK))
     else Z.land (Z.land set (u16 (Z.lnot BLOCKACKPARAM_WINSIZE_MASK))) (u16 (Z.lnot BLOCKACKPARAM_AMSDU_SUPP_MASK))) 6 = 0) as ->.
  { destruct b; rewrite !Z.shiftr_land; change (Z.shiftr (u16 (Z.lnot BLOCKACKPARAM_WINSIZE_MASK)) 6) with 0;
      by rewrite Z.land_0_r, ?Z.land_0_l. }
  rewrite Z.lor_0_l, Z.shiftr_shiftl_l, Z.sub_diag, Z.shiftl_0_r by lia.
  change (Z.shiftr (Z.ones 32) 6) with (Z.ones 26). change (Z.shiftr (Z.ones 16) 6) with (Z.ones 10).
  change (Z.shiftr BLOCKACKPARAM_WINSIZE_MASK 6) with (Z.ones 10).
  rewrite !Z.land_ones by lia. by rewrite !(Z.mod_small win) by lia.
Qed.

(** The TID of the response is the TID of the request. *)
Lemma rsp_tid_field set win b : 0 <= win < 1024 → param_tid (addba_rsp_param_set set win b) = param_tid set.
Proof.
  intros Hw. unfold param_tid, addba_rsp_param_set. f_equal.
  rewrite !(u_wrap_land 16 (Z.lor _ _)), (u_wrap_land 32) by lia. change BLOCKACKPARAM_WINSIZE_POS with 6.
  apply Z.bits_inj'. intros n Hn. rewrite !Z.land_spec, Z.lor_spec, Z.land_spec.
  destruct (Z.testbit BLOCKACKPARAM_TID_MASK n) eqn:E; [|by rewrite !andb_false_r]. rewrite !andb_true_r.
  assert (2 <= n < 6).
  { change BLOCKACKPARAM_TID_MASK with (Z.shiftl (Z.ones 4) 2) in E. rewrite Z.shiftl_spec in E by lia.
    destruct (decide (2 <= n)); [|by rewrite Z.testbit_neg_r in E by lia].
    rewrite Z.testbit_ones in E by lia. apply andb_true_iff in E as [_ E%Z.ltb_lt]. lia. }
  rewrite Z.shiftl_spec_low by lia.
  assert (n = 2 ∨ n = 3 ∨ n = 4 ∨ n = 5) as Hn4 by lia.
  destruct b; rewrite !Z.land_spec; destruct_or! Hn4; subst n; simpl; by rewrite ?andb_true_r, ?orb_false_r.
Qed.

(** an accepted block-ack request answers with, and creates a fresh
    window of, the negotiated size: the peer's, or the own size when the peer
    leaves it open, never more than the own size and never 0; the created
    entry is the one found under the peer's key afterwards. *)
Theorem addba_accept_negotiates ad priv req :
  table_ok priv → 0 < rx_win_size priv → 0 <= req_ssn req < 4096 →
  0 <= req_block_ack_param_set req < 65536 →
  wlan_is_addba_reject priv (param_tid (req_block_ack_param_set req)) = Some 0 →
  wps_session_enable priv = false → pending_bridge_pkts ad <= RX_LOW_THRESHOLD →
  ∃ rsp priv' evs i last,
    wlan_cmd_11n_addba_rspgen ad priv req true true = Some (MLAN_STATUS_SUCCESS, rsp, priv', evs) ∧
    let t := param_tid (req_block_ack_param_set req) in
    let w := addba_win_size (req_block_ack_param_set req) (rx_win_size priv) in
    rsp_status_code rsp = ADDBA_RSP_STATUS_ACCEPT ∧
    Z.shiftr (Z.land (rsp_block_ack_param_set rsp) BLOCKACKPARAM_WINSIZE_MASK) BLOCKACKPARAM_WINSIZE_POS = w ∧
    param_tid (rsp_block_ack_param_set rsp) = t ∧ 0 < w <= rx_win_size priv ∧
    wlan_11n_get_rxreorder_tbl priv' t (req_peer_mac_addr req) = Some i ∧
    rx_reorder_tbl_ptr priv' !! i = Some (fresh_entry (req_peer_mac_addr req) t w (req_ssn req) last).
Proof.
  intros Hok Hown Hssn Hset Hrej Hwps Hpend. unfold wlan_cmd_11n_addba_rspgen. rewrite Hrej, Hwps.
  cbn [mbind option_bind]. rewrite Z.eqb_refl, andb_false_r. simpl.
  destruct (Z.gtb_spec (pending_bridge_pkts ad) RX_LOW_THRESHOLD); [lia|]. rewrite andb_false_r. simpl.
  set (t := param_tid _) in *. set (w := addba_win_size _ _).
  pose proof (addba_win_size_range (req_block_ack_param_set req) (rx_win_size priv) Hset (tk_win _ Hok)) as [Hw Hw0].
  fold w in Hw, Hw0. pose proof (tk_win _ Hok) as Hwin.
  assert (0 <= t < MAX_NUM_TID) as Ht.
  { pose proof (param_tid_range (req_block_ack_param_set req)) as Ht. fold t in Ht. split; [lia|].
    unfold wlan_is_addba_reject in Hrej. destruct (Z.geb_spec t MAX_NUM_TID); [by simplify_eq|lia]. }
  destruct (create_entry_spec priv (req_peer_mac_addr req) t w (req_ssn req) true true Hok)
    as (priv' & evs & -> & Hok' & Hnew); [lia|done|].
  destruct (Hnew Ht eq_refl eq_refl) as (last & i & Hi).
  eexists _, _, _, i, last. split; [done|]. simpl. split_and!; [done| | |auto|lia| |done].
  - apply rsp_window_field. lia.
  - apply rsp_tid_field. lia.
  - apply (get_rxreorder_unique priv' i _ Hok' Hi).
Qed.

(** TID 5, window 8, A-MSDU supported, dialog token 1, ssn 100. *)
Definition demo_req : HostCmd_DS_11N_ADDBA_REQ := mk_addba_req demo_mac 1 (1 + 2 + 4 * 5 + 64 * 8) 0 100.

Lemma addba_accept_negotiates_witness :
  ∃ rsp priv' evs i last,
    wlan_cmd_11n_addba_rspgen demo_ad (demo_priv demo_table) demo_req true true
      = Some (MLAN_STATUS_SUCCESS, rsp, priv', evs) ∧
    let t := param_tid (req_block_ack_param_set demo_req) in
    let w := addba_win_size (req_block_ack_param_set demo_req) 64 in
    rsp_status_code rsp = ADDBA_RSP_STATUS_ACCEPT ∧
    Z.shiftr (Z.land (rsp_block_ack_param_set rsp) BLOCKACKPARAM_WINSIZE_MASK) BLOCKACKPARAM_WINSIZE_POS = w ∧
    param_tid (rsp_block_ack_param_set rsp) = t ∧ 0 < w <= 64 ∧
    wlan_11n_get_rxreorder_tbl priv' t demo_mac = Some i ∧
    rx_reorder_tbl_ptr priv' !! i = Some (fresh_entry demo_mac t w 100 last).
Proof.
  apply (addba_accept_negotiates demo_ad (demo_priv demo_table) demo_req);
    [exact demo_table_ok|simpl; lia|simpl; lia|simpl; lia|reflexivity|reflexivity|].
  unfold RX_LOW_THRESHOLD. simpl. lia.
Defined.

(** A request whose TID is rejected or does not exist, that comes
    during a WPS session of a station, or while an access point has too many
    packets pending, is answered [DECLINED] and changes nothing. *)
Theorem addba_decline_unchanged ad priv req alloc_node alloc_ptr :
  table_ok priv →
  (wlan_is_addba_reject priv (param_tid (req_block_ack_param_set req)) ≠ Some 0 ∨
   (bss_role priv = MLAN_BSS_ROLE_STA ∧ wps_session_enable priv = true) ∨
   (bss_role priv = MLAN_BSS_ROLE_UAP ∧ RX_LOW_THRESHOLD < pending_bridge_pkts ad)) →
  ∃ rsp, wlan_cmd_11n_addba_rspgen ad priv req alloc_node alloc_ptr =
      Some (MLAN_STATUS_SUCCESS, rsp, priv, []) ∧
    rsp_status_code rsp = ADDBA_RSP_STATUS_DECLINED ∧ rsp_dialog_token rsp = req_dialog_token req ∧
    rsp_peer_mac_addr rsp = req_peer_mac_addr req.
Proof.
  intros Hok H. unfold wlan_cmd_11n_addba_rspgen.
  pose proof (param_tid_range (req_block_ack_param_set req)) as Ht.
  destruct (is_addba_reject_Some priv (param_tid (req_block_ack_param_set req)) Hok) as [r Hr]; [lia|].
  rewrite Hr in *. cbn [mbind option_bind]. set (c := _ || _).
  assert (c = true) as ->; [|by eexists].
  unfold c. destruct H as [H|[[Hs Hw]|[Hs Hp]]].
  - destruct (Z.eqb_spec r 0) as [->|]; [by destruct H|done].
  - rewrite Hw. rewrite bool_decide_eq_true_2 by done. by rewrite orb_true_r.
  - rewrite (bool_decide_eq_true_2 (bss_role priv = MLAN_BSS_ROLE_UAP)) by done.
    destruct (Z.gtb_spec (pending_bridge_pkts ad) RX_LOW_THRESHOLD); [by rewrite orb_true_r|lia].
Qed.

Lemma addba_decline_unchanged_witness :
  ∃ rsp, wlan_cmd_11n_addba_rspgen demo_ad (demo_priv demo_table)
      (mk_addba_req demo_mac 1 (4 * 9 + 64 * 8) 0 100) true true =
      Some (MLAN_STATUS_SUCCESS, rsp, demo_priv demo_table, []) ∧
    rsp_status_code rsp = ADDBA_RSP_STATUS_DECLINED ∧ rsp_dialog_token rsp = 1 ∧
    rsp_peer_mac_addr rsp = demo_mac.
Proof.
  apply (addba_decline_unchanged demo_ad (demo_priv demo_table) (mk_addba_req demo_mac 1 (4 * 9 + 64 * 8) 0 100));
    [exact demo_table_ok|left; by vm_compute].
Defined.

(** tearing the table down ends, hands up every packet still
    buffered, entry by entry in slot order, and leaves the table empty. *)
Theorem cleanup_delivers_all priv :
  table_ok priv →
  ∃ evs, wlan_11n_cleanup_reorder_tbl (length (rx_reorder_tbl_ptr priv)) priv =
      Some (set_rx_seq (replicate 8 0xffff) (set_rx_reorder_tbl_ptr [] priv), evs) ∧
    dispatched evs = concat ((somes ∘ rx_reorder_ptr) <$> rx_reorder_tbl_ptr priv).
Proof.
  intros Hok. unfold wlan_11n_cleanup_reorder_tbl.
  destruct (cleanup_loop_ok (length (rx_reorder_tbl_ptr priv)) priv Hok) as (evs & -> & Hd); [lia|].
  by eexists.
Qed.

Lemma cleanup_delivers_all_witness :
  ∃ evs, wlan_11n_cleanup_reorder_tbl 2 (demo_priv demo_table) = Some (demo_priv [], evs) ∧
    dispatched evs = [demo_pkt 4091; demo_pkt 4093].
Proof. apply (cleanup_delivers_all (demo_priv demo_table)). exact demo_table_ok. Defined.

(** *** RXBA_SYNC *)

Lemma sync_bits_ok cfg t mac seq0 byte i n : ∀ j priv, table_ok priv →
  ∃ priv' evs, sync_bits cfg priv t mac seq0 byte i j n = Some (priv', evs) ∧ table_ok priv'.
Proof.
  induction n as [|n IH]; intros j priv Hok; simpl; [by eexists _, _|].
  assert (∃ priv1 evs, (if negb (Z.land byte (Z.shiftl 1 j) =? 0)
     then '(_, priv0, evs) ← mlan_11n_rxreorder_pkt cfg priv
            (u16 (Z.land (seq0 + i * 8 + j) (MAX_TID_VALUE - 1))) t mac 0 RX_PKT_DROPPED_IN_FW;
          Some (priv0, evs) else Some (priv, [])) = Some (priv1, evs) ∧ table_ok priv1)
    as (priv1 & evs1 & -> & Hok1).
  { destruct (negb _); [|by eexists _, _]. rewrite land_tid.
    pose proof (Z.mod_pos_bound (seq0 + i * 8 + j) 4096).
    destruct (pkt_spec cfg priv (u16 ((seq0 + i * 8 + j) mod 4096)) t mac 0 RX_PKT_DROPPED_IN_FW Hok)
      as (? & ? & ? & -> & ? & _); [rewrite u_wrap_small; lia|]. by eexists _, _. }
  simpl. destruct (IH (j + 1) priv1 Hok1) as (priv2 & evs2 & -> & Hok2). by eexists _, _.
Qed.

Lemma sync_bytes_ok cfg t mac seq0 blen buf bits fuel : ∀ i priv, table_ok priv → 0 <= i → blen <= 255 →
  (bits + Z.to_nat blen <= length buf)%nat → blen - i <= Z.of_nat fuel →
  ∃ priv' evs, sync_bytes fuel cfg priv buf bits t mac seq0 blen i = Done (priv', evs) ∧ table_ok priv'.
Proof.
  induction fuel as [|fuel IH]; intros i priv Hok Hi Hb Hl Hf; cbn [sync_bytes].
  - destruct (Z.ltb_spec i blen); [lia|]. by eexists _, _.
  - destruct (Z.ltb_spec i blen); cbn [negb]; [|by eexists _, _]. unfold get_u8.
    destruct (lookup_lt_is_Some_2 buf (bits + Z.to_nat i)) as [byte ->]; [lia|]. cbn [of_option obind].
    destruct (sync_bits_ok cfg t mac seq0 byte i 8 0 priv Hok) as (priv1 & evs1 & -> & Hok1). cbn [of_option obind].
    rewrite u_wrap_small by lia.
    destruct (IH (i + 1) priv1 Hok1) as (priv2 & evs2 & -> & Hok2); [lia..|]. simpl. by eexists _, _.
Qed.

(** With a bitmap length of 256 or more the [t_u8] index never reaches it. *)
Lemma sync_bytes_loops cfg t mac seq0 blen buf bits fuel : ∀ i priv, table_ok priv →
  0 <= i < 256 → 256 <= blen → (bits + 256 <= length buf)%nat →
  sync_bytes fuel cfg priv buf bits t mac seq0 blen i = OutOfFuel.
Proof.
  induction fuel as [|fuel IH]; intros i priv Hok Hi Hb Hl; cbn [sync_bytes].
  - destruct (Z.ltb_spec i blen); [done|lia].
  - destruct (Z.ltb_spec i blen); [|lia]. cbn [negb]. unfold get_u8.
    destruct (lookup_lt_is_Some_2 buf (bits + Z.to_nat i)) as [byte ->]; [lia|]. cbn [of_option obind].
    destruct (sync_bits_ok cfg t mac seq0 byte i 8 0 priv Hok) as (priv1 & evs1 & -> & Hok1). cbn [of_option obind].
    rewrite IH; [done|done| |done|done]. apply (u_wrap_range 8). lia.
Qed.

Lemma get_le16_Done buf off : (off + 2 <= length buf)%nat → ∃ v, get_le16 buf off = Done v.
Proof.
  intros H. unfold get_le16, get_u8.
  destruct (lookup_lt_is_Some_2 buf off) as [a ->]; [lia|].
  destruct (lookup_lt_is_Some_2 buf (S off)) as [b ->]; [lia|]. by eexists.
Qed.

(** the firmware's report of dropped packets is processed completely
    when its TLVs lie in the event buffer and their bitmaps have at most 255
    bytes: both loops end, no byte outside the buffer is read, and the table
    stays well-formed; 255 iterations and one TLV per 4 bytes are enough. *)
Theorem rxba_sync_terminates cfg buf len : ∀ bfuel fuel off priv,
  table_ok priv → sync_layout buf off len → (255 <= bfuel)%nat → len <= 4 * Z.of_nat fuel + 15 →
  ∃ priv' evs, sync_tlvs bfuel fuel cfg priv buf off len = Done (priv', evs) ∧ table_ok priv'.
Proof.
  intros bfuel fuel off priv Hok HL Hbf Hf. revert fuel priv Hok Hf.
  induction HL as [off left H|off left tlv_len bitmap_len H1 H2 H3 H4 H5 _ IH]; intros fuel priv Hok Hf.
  { destruct fuel; simpl; (destruct (Z.ltb_spec left 16); [|lia]); by eexists _, _. }
  destruct fuel as [|fuel]; simpl; (destruct (Z.ltb_spec left 16); [by eexists _, _|]); [lia|].
  destruct (get_le16_Done buf off) as [ty ->]; [lia|]. rewrite H1. simpl.
  destruct (negb _); [by eexists _, _|].
  destruct (get_le16_Done buf (off + 12)) as [sq ->]; [lia|]. rewrite H2. simpl. unfold get_u8.
  destruct (lookup_lt_is_Some_2 buf (off + 10)) as [t ->]; [lia|]. simpl.
  destruct (wlan_11n_get_rxreorder_tbl priv t (take 6 (drop (off + 4) buf)) ≫= _) as [e|];
    [|by eexists _, _]. destruct (force_no_drop e); [by eexists _, _|].
  destruct (sync_bytes_ok cfg t (take 6 (drop (off + 4) buf)) sq bitmap_len buf (off + 16) bfuel 0 priv Hok)
    as (priv1 & evs1 & -> & Hok1); [lia..|]. simpl.
  destruct (IH fuel priv1 Hok1) as (priv2 & evs2 & -> & Hok2); [lia|]. simpl. by eexists _, _.
Qed.

(** TID 5 of the demo station, sequence number 4091, one bitmap byte 0x05. *)
Definition demo_sync : list Z :=
  [0x99; 0x01; 13; 0] ++ demo_mac ++ [5; 0; 0xfb; 0x0f; 1; 0; 0x05].

Lemma rxba_sync_terminates_witness :
  ∃ priv' evs, sync_tlvs 255 1 demo_cfg (demo_priv demo_table) demo_sync 0 17 = Done (priv', evs) ∧
    table_ok priv'.
Proof.
  apply (rxba_sync_terminates demo_cfg demo_sync 17); [exact demo_table_ok| |lia|lia].
  apply (layout_tlv demo_sync 0 17 13 1); [reflexivity|reflexivity|lia|lia|vm_compute; lia|].
  apply layout_end. lia.
Defined.

(** C10: from a well-formed table every operation on it (a packet, the ADDBA
    handshake, DELBA, the timer, a flush, the resume flag, the clean-ups, the
    coexistence window change and the report of packets dropped by the firmware) has
    a result and leaves a well-formed table: one entry per transmitter and TID, every
    entry well-formed.  The sequence numbers and parameters come from the firmware in
    their width, a window imposed by coexistence is at most 64, and a report lies in
    its buffer with bitmaps of at most 255 bytes ([op_pre]); with a longer bitmap the
    loop does not end ([rxba_sync_wide_bitmap_loops]). *)
Theorem table_op_safe ad priv op :
  table_ok priv → op_pre ad op →
  ∃ priv' evs, exec_table ad priv op = Some (priv', evs) ∧ table_ok priv'.
Proof.
  intros Hok Hp. destruct op; simpl in *.
  - destruct (pkt_spec (adapter_cfg ad) priv seq t a pt p Hok Hp) as (? & ? & ? & -> & ? & _). by eexists _, _.
  - destruct (rspgen_ok ad priv req alloc_node alloc_ptr Hok Hp) as (? & ? & ? & -> & ?). by eexists _, _.
  - destruct (addba_resp_ok priv rsp Hok) as (? & ? & -> & ?). by eexists _, _.
  - by apply delete_bastream_ok.
  - eexists _, _. split; [done|]. apply set_tbl_ok; [done| |].
    + rewrite alter_key by done. apply Hok.
    + apply Forall_alter; [apply Hok|]. intros e _ [[[[] A]|[]] Ht]; (split; [|done]).
      * left. split; [done|]. by right.
      * by right.
  - unfold wlan_flush_priv_rxreorder_tbl.
    destruct (flush_entries_ok _ (tk_entries _ Hok)) as (l & evs & -> & Hl & Hk).
    eexists _, _. split; [done|]. apply set_tbl_ok; [done| |done]. rewrite Hk. apply Hok.
  - eexists _, _. split; [done|]. apply fmap_entry_ok; [done|done|].
    intros e [[[[] A]|[]] Ht]; (split; [|done]); [left; by split|by right].
  - unfold wlan_11n_cleanup_reorder_tbl.
    destruct (cleanup_loop_ok (length (rx_reorder_tbl_ptr priv)) priv Hok) as (evs & -> & _); [lia|].
    eexists _, _. split; [done|]. destruct Hok; split; simpl; try done.
    + by apply NoDup_nil.
    + split; [done|]. repeat constructor; by right.
  - unfold wlan_cleanup_reorder_tbl. apply cleanup_sta_ok. done.
  - eexists _, _. split; [done|]. unfold update_ampdu_rxwinsize_priv, coex_new_win. simpl.
    destruct Hok; split; simpl; try done. repeat case_match; unfold MLAN_STA_COEX_AMPDU_DEF_RXWINSIZE,
      MLAN_WFD_COEX_AMPDU_DEF_RXWINSIZE, MLAN_NAN_COEX_AMPDU_DEF_RXWINSIZE,
      MLAN_UAP_COEX_AMPDU_DEF_RXWINSIZE; lia.
  - unfold wlan_11n_rxba_sync_event.
    destruct (rxba_sync_terminates (adapter_cfg ad) event_buf len 255 (Z.to_nat len) 0 priv Hok Hp) as (? & ? & -> & ?);
      [lia..|]. by eexists _, _.
Qed.

Lemma table_op_safe_witness :
  ∃ priv' evs, exec_table demo_ad (demo_priv demo_table) (OpDeleteBastream 5 demo_mac TYPE_DELBA_RECEIVE true 1 7 9)
      = Some (priv', evs) ∧ table_ok priv'.
Proof. apply (table_op_safe demo_ad); [exact demo_table_ok|done]. Defined.

(** A report whose bitmap has 256 bytes or more never finishes: the
    loop index is a [t_u8] and the length a [t_u16], so that no amount of
    iterations is enough. *)
Theorem rxba_sync_wide_bitmap_loops cfg priv buf t i e bfuel fuel len blen :
  table_ok priv → 16 <= len → get_le16 buf 0 = Done TLV_TYPE_RXBA_SYNC →
  get_le16 buf 14 = Done blen → 256 <= blen → (272 <= length buf)%nat →
  buf !! 10%nat = Some t → wlan_11n_get_rxreorder_tbl priv t (take 6 (drop 4 buf)) = Some i →
  rx_reorder_tbl_ptr priv !! i = Some e → force_no_drop e = false →
  wlan_11n_rxba_sync_event bfuel (S fuel) cfg priv buf len = OutOfFuel.
Proof.
  intros Hok Hl Hty Hbl Hb Hlen Ht Hg He Hnd. unfold wlan_11n_rxba_sync_event. simpl.
  destruct (Z.ltb_spec len 16); [lia|]. rewrite Hty.
  destruct (get_le16_Done buf 2) as [tl ->]; [lia|]. simpl.
  destruct (get_le16_Done buf 12) as [sq ->]; [lia|]. rewrite Hbl. simpl. unfold get_u8. rewrite Ht. simpl.
  rewrite Hg. simpl. rewrite He, Hnd. by rewrite sync_bytes_loops by (done || lia).
Qed.

Definition demo_wide_sync : list Z :=
  [0x99; 0x01; 12; 1] ++ demo_mac ++ [5; 0; 0xfb; 0x0f; 0; 1] ++ replicate 256 0.

Lemma rxba_sync_wide_bitmap_loops_witness :
  wlan_11n_rxba_sync_event 1000 1 demo_cfg (demo_priv demo_table) demo_wide_sync 272 = OutOfFuel.
Proof.
  apply (rxba_sync_wide_bitmap_loops demo_cfg (demo_priv demo_table) demo_wide_sync 5 1 demo_buffered 1000 0 272 256);
    [exact demo_table_ok|lia|reflexivity|reflexivity|lia|vm_compute; lia|reflexivity|reflexivity|reflexivity|reflexivity].
Defined.

(** *** DELBA *)

(** The DELBA a block-ack timeout asks for names the stream of the
    event: TID and initiator read back from its parameter set. *)
Theorem ba_timeout_delba_fields priv event d :
  0 <= to_tid event < 16 → 0 <= origninator event <= 1 →
  wlan_11n_ba_stream_timeout priv event = [PrepareDelba d] →
  del_peer_mac_addr d = to_peer_mac_addr event ∧
  Z.shiftr (del_ba_param_set d) DELBA_TID_POS = to_tid event ∧
  Z.land (Z.shiftr (del_ba_param_set d) DELBA_INITIATOR_POS) 1 = origninator event ∧
  reason_code d = REASON_CODE_STA_TIMEOUT.
Proof.
  intros Ht Ho. unfold wlan_11n_ba_stream_timeout. destruct (_ && _); [done|]. intros [= <-]. simpl.
  destruct event as [t mac o]. simpl in *.
  assert (t = 0 ∨ t = 1 ∨ t = 2 ∨ t = 3 ∨ t = 4 ∨ t = 5 ∨ t = 6 ∨ t = 7 ∨ t = 8 ∨ t = 9 ∨ t = 10 ∨
    t = 11 ∨ t = 12 ∨ t = 13 ∨ t = 14 ∨ t = 15) as Hc by lia.
  assert (o = 0 ∨ o = 1) as Hd by lia.
  destruct_or! Hc; destruct_or! Hd; by subst.
Qed.

Lemma ba_timeout_delba_fields_witness :
  ∃ d, wlan_11n_ba_stream_timeout (demo_priv demo_table) (mk_batimeout 6 demo_mac 0) = [PrepareDelba d] ∧
    Z.shiftr (del_ba_param_set d) DELBA_TID_POS = 6.
Proof.
  eexists. split; [reflexivity|].
  eapply (ba_timeout_delba_fields (demo_priv demo_table) (mk_batimeout 6 demo_mac 0)); [simpl; lia|simpl; lia|reflexivity].
Defined.

(** After a DELBA the threshold of the next block-ack setup is only
    the random value (at most 15 above the adapter's minimum): the 1024
    packets that the code adds do not fit its [t_u8] field. *)
Theorem delba_threshold_truncated ad type reason sec usec r :
  ba_packet_threshold (delba_ralist ad type reason sec usec r) = wlan_get_random_ba_threshold ad sec usec.
Proof.
  simpl. unfold MIN_BA_SETUP_PACKET_REQIRED.
  pose proof (u_wrap_range 8 (u32 (u32 (u32 (Z.shiftl (u32 (Z.land sec 65535 + Z.shiftr sec 16)) 16) +
     u32 (Z.land usec 65535 + Z.shiftr usec 16)) mod BA_SETUP_MAX_PACKET_THRESHOLD + min_ba_threshold ad))) as H.
  fold (wlan_get_random_ba_threshold ad sec usec) in H.
  set (x := wlan_get_random_ba_threshold ad sec usec) in *.
  assert (0 <= x < 256) by (apply H; lia). unfold u_wrap.
  replace (1024 + x) with (x + 4 * 2 ^ 8) by lia. rewrite Z.mod_add by lia. by apply Z.mod_small.
Qed.
