(* ===== verification/Amsdu.v ===== *)
(** * mlan_11n_aggr.c: A-MSDU aggregation and deaggregation

    The byte-level work on a buffer: forming the subframes of an A-MSDU from
    the packets of an RA list, and cutting a received A-MSDU into Ethernet
    frames.  Buffers are byte lists; a read or a write outside one has no
    result.  The packet descriptor in front of the A-MSDU is a record next to
    the bytes. *)

From S2P Require Import Prelude RxReorder RxTable.

(** ** Byte access *)

Definition read_at (buf : list Z) (off n : nat) : option (list Z) :=
  if decide (off + n <= length buf)%nat then Some (take n (drop off buf)) else None.

Definition write_at (buf : list Z) (off : nat) (bs : list Z) : option (list Z) :=
  if decide (off + length bs <= length buf)%nat
  then Some (take off buf ++ bs ++ drop (off + length bs) buf) else None.

(** [mlan_htons] of a value stored in a [t_u16], as the two bytes in memory. *)
Definition be16 (x : Z) : list Z := [u16 x / 256; u16 x mod 256].
(** [mlan_ntohs] of a [t_u16] in memory. *)
Definition of_be16 (bs : list Z) : Z :=
  match bs with [hi; lo] => 256 * hi + lo | _ => 0 end.

Definition MLAN_MAC_ADDR_LENGTH : nat := 6.
Definition LLC_SNAP_LEN : Z := 8.
Definition ETH_HDR_LEN : Z := 14.   (** sizeof(Eth803Hdr_t) *)
Definition MLAN_RX_DATA_BUF_SIZE : Z := 4096.
Definition MLAN_BUF_FLAG_REQUEUED_PKT : Z := Z.shiftl 1 0.
Definition MLAN_BUF_FLAG_TDLS : Z := Z.shiftl 1 8.
Definition MLAN_BUF_FLAG_TCP_ACK : Z := Z.shiftl 1 9.
Definition MLAN_BUF_FLAG_EASYMESH : Z := Z.shiftl 1 16.
Definition MRVDRV_TxPD_FLAGS_TDLS_PACKET : Z := Z.shiftl 1 4.
Definition MRVDRV_TxPD_FLAGS_EASYMESH : Z := Z.shiftl 1 7.

(** DSAP, SSAP, control and the OUI of RFC 1042. *)
Definition rfc1042_eth_hdr : list Z := [0xaa; 0xaa; 0x03; 0; 0; 0].

(** [x & 3 ? 4 - (x & 3) : 0]. *)
Definition amsdu_pad (x : Z) : Z := if negb (Z.land x 3 =? 0) then 4 - Z.land x 3 else 0.

Definition flag_set (flags bit : Z) : bool := negb (Z.land flags bit =? 0).

(** ** Forming an A-MSDU *)

(** The subframe of packet [data], written at [off] of [amsdu_buf]: the new
    buffer, the size with padding, and the padding. *)
Definition wlan_11n_form_amsdu_pkt (amsdu_buf : list Z) (off : nat) (data : list Z)
  : option (list Z * Z * Z) :=
  let pkt_len := Z.of_nat (length data) in
  addrs ← read_at data 0 12;
  buf ← write_at amsdu_buf off addrs;
  snap_type ← read_at data 12 2;
  buf ← write_at buf (off + 12) (be16 (pkt_len + LLC_SNAP_LEN - (2 * 6 + 2)));
  buf ← write_at buf (off + 14) (rfc1042_eth_hdr ++ snap_type);
  body ← read_at data 14 (length data - 14);
  buf ← write_at buf (off + 22) body;
  let pad := amsdu_pad (pkt_len + LLC_SNAP_LEN) in
  Some (buf, pkt_len + LLC_SNAP_LEN + pad, pad).

(** The fields of [TxPD] the aggregation sets; the rest is zeroed. *)
Record TxPD := mk_txpd {
  pd_priority : Z; pd_tx_pkt_type : Z; pd_tx_pkt_offset : Z; pd_tx_pkt_length : Z;
  pd_flags : Z; pd_tx_control : Z; pd_ra_mac : list Z
}.

(** A packet to transmit. *)
Record tx_mbuf := mk_txmbuf {
  tx_bytes : list Z;      (** pbuf + data_offset, data_len bytes *)
  tx_priority : Z;
  tx_flags : Z;
  tx_mac : list Z
}.

(** The TxPD is zeroed first, so [tx_control] always becomes [pkt_tx_ctrl]. *)
Definition wlan_11n_form_amsdu_txpd (txpd_size pkt_tx_ctrl : Z) (mbuf : tx_mbuf) : TxPD :=
  let flags := if flag_set (tx_flags mbuf) MLAN_BUF_FLAG_TDLS then MRVDRV_TxPD_FLAGS_TDLS_PACKET else 0 in
  let easy := flag_set (tx_flags mbuf) MLAN_BUF_FLAG_EASYMESH in
  mk_txpd (u8 (tx_priority mbuf)) PKT_TYPE_AMSDU txpd_size 0
    (if easy then Z.lor flags MRVDRV_TxPD_FLAGS_EASYMESH else flags) pkt_tx_ctrl
    (if easy then tx_mac mbuf else [0; 0; 0; 0; 0; 0]).

(** The queue and the counters of an RA list and its BSS. *)
Record tx_queue := mk_txq {
  buf_head : list tx_mbuf;
  total_pkts : Z;               (** t_u16 *)
  pkts_queued : Z;              (** wmm.pkts_queued[ptrindex] *)
  tx_pkts_queued : Z;           (** wmm.tx_pkts_queued *)
  packets_out : Z;              (** wmm.packets_out[ptrindex] *)
  msdu_in_tx_amsdu_cnt : Z;
  amsdu_tx_cnt : Z
}.

Definition q_pop (q : tx_queue) : tx_queue :=
  mk_txq (tail (buf_head q)) (u16 (total_pkts q - 1)) (pkts_queued q - 1) (tx_pkts_queued q - 1)
    (packets_out q) (msdu_in_tx_amsdu_cnt q) (amsdu_tx_cnt q).
Definition q_count_msdu (q : tx_queue) : tx_queue :=
  mk_txq (buf_head q) (total_pkts q) (pkts_queued q) (tx_pkts_queued q)
    (packets_out q) (msdu_in_tx_amsdu_cnt q + 1) (amsdu_tx_cnt q).
Definition q_push_head (m : tx_mbuf) (q : tx_queue) : tx_queue :=
  mk_txq (m :: buf_head q) (u16 (total_pkts q + 1)) (pkts_queued q + 1) (tx_pkts_queued q + 1)
    (packets_out q) (msdu_in_tx_amsdu_cnt q) (amsdu_tx_cnt q).
Definition q_packet_out (q : tx_queue) : tx_queue :=
  mk_txq (buf_head q) (total_pkts q) (pkts_queued q) (tx_pkts_queued q)
    (packets_out q + 1) (msdu_in_tx_amsdu_cnt q) (amsdu_tx_cnt q).
Definition q_count_amsdu (q : tx_queue) : tx_queue :=
  mk_txq (buf_head q) (total_pkts q) (pkts_queued q) (tx_pkts_queued q)
    (packets_out q) (msdu_in_tx_amsdu_cnt q) (amsdu_tx_cnt q + 1).

(** What the aggregation reads of its surroundings and is told by them. *)
Record aggr_env := mk_aenv {
  headroom : Z;
  max_amsdu_size : Z;           (** MIN(max_amsdu, tx_buf_size) *)
  tx_buf_size : Z;
  txpd_size : Z;                (** Tx_PD_SIZEOF *)
  pkt_tx_ctrl : Z;
  alloc_buf : option (list Z);  (** the bytes of the new buffer, headroom included *)
  ralist_valid : nat → bool;    (** wlan_is_ralist_valid after packet n, and last *)
  send_status : mlan_status     (** ops.host_to_card *)
}.

Inductive aggr_event :=
| CompleteTx (m : tx_mbuf) (ret : mlan_status)   (** wlan_write_data_complete of a packet *)
| CompleteAmsdu (ret : mlan_status)              (** of the aggregate *)
| HostToCard (pd : TxPD) (bytes : list Z) (next_pkt_len : Z).

(** The outcome of the packet loop. *)
Inductive loop_result :=
| Broken (q : tx_queue) (evs : list aggr_event)             (** the RA list went away *)
| Filled (q : tx_queue) (buf : list Z) (pkt_size pad : Z) (evs : list aggr_event).

(** The while loop: take packets while they fit, at most [fuel] of them; [n]
    packets were taken before. *)
Fixpoint aggregate_loop (fuel : nat) (env : aggr_env) (q : tx_queue) (buf : list Z) (pkt_size pad : Z)
    (n : nat) : option loop_result :=
  match buf_head q with
  | [] => Some (Filled q buf pkt_size pad [])
  | m :: _ =>
      if pkt_size + (Z.of_nat (length (tx_bytes m)) + LLC_SNAP_LEN) + headroom env <=? max_amsdu_size env then
        match fuel with
        | O => None
        | S fuel =>
            let q := q_pop q in
            '(buf, size, pad) ← wlan_11n_form_amsdu_pkt buf (Z.to_nat (headroom env + pkt_size)) (tx_bytes m);
            let ev := CompleteTx m MLAN_STATUS_SUCCESS in
            if ralist_valid env n then
              r ← aggregate_loop fuel env (q_count_msdu q) buf (pkt_size + size) pad (S n);
              Some (match r with
                    | Broken q evs => Broken q (ev :: evs)
                    | Filled q buf s p evs => Filled q buf s p (ev :: evs)
                    end)
            else Some (Broken q [ev])
        end
      else Some (Filled q buf pkt_size pad [])
  end.

(** The value of [MLAN_STATUS_FAILURE] and [INT_MAX]. *)
Definition FAILURE_INT : Z := -1.
Definition INT_MAX : Z := 2 ^ 31 - 1.

(** From "Last AMSDU packet does not need padding" on; the last test of
    [wlan_is_ralist_valid] is number [last] of the environment.  The flags of a
    requeued aggregate are the three copied from the first packet. *)
Definition aggregate_finish (env : aggr_env) (pd : TxPD) (first : tx_mbuf) (q : tx_queue)
    (buf : list Z) (pkt_size pad : Z) (last : nat) : option (Z * tx_queue * list aggr_event) :=
  let pkt_size := pkt_size - pad in
  bytes ← read_at buf (Z.to_nat (headroom env + txpd_size env)) (Z.to_nat (pkt_size - txpd_size env));
  whole ← read_at buf 0 (Z.to_nat (pkt_size + headroom env));
  let pd := mk_txpd (pd_priority pd) (pd_tx_pkt_type pd) (pd_tx_pkt_offset pd)
              (u16 (pkt_size - txpd_size env)) (pd_flags pd) (pd_tx_control pd) (pd_ra_mac pd) in
  let next_pkt_len := match buf_head q with
                      | m :: _ => Z.of_nat (length (tx_bytes m)) + txpd_size env | [] => 0 end in
  let sent := HostToCard pd bytes next_pkt_len in
  let size := Z.min (pkt_size + headroom env) INT_MAX in
  let pushed q := if ralist_valid env last then q_packet_out q else q in
  match send_status env with
  | MLAN_STATUS_RESOURCE =>
      if ralist_valid env last then
        let aggr := mk_txmbuf whole (tx_priority first)
                      (Z.lor (Z.land (tx_flags first)
                                (Z.lor MLAN_BUF_FLAG_TDLS (Z.lor MLAN_BUF_FLAG_TCP_ACK MLAN_BUF_FLAG_EASYMESH)))
                             MLAN_BUF_FLAG_REQUEUED_PKT) (tx_mac first) in
        Some (size, q_count_amsdu (q_push_head aggr q), [sent])
      else Some (FAILURE_INT, q, [sent; CompleteAmsdu MLAN_STATUS_FAILURE])
  | MLAN_STATUS_FAILURE => Some (size, q, [sent; CompleteAmsdu MLAN_STATUS_FAILURE])
  | MLAN_STATUS_SUCCESS =>
      Some (size, q_count_amsdu (pushed q), [sent; CompleteAmsdu MLAN_STATUS_SUCCESS])
  | MLAN_STATUS_PENDING => Some (size, q_count_amsdu (pushed q), [sent])
  end.

(** The whole function for a non-negative [ptrindex] (the PCIe scatter-gather
    variant of one card type apart). *)
Definition wlan_11n_aggregate_pkt (env : aggr_env) (q : tx_queue) (ptrindex : Z)
  : option (Z * tx_queue * list aggr_event) :=
  if ptrindex <? 0 then Some (FAILURE_INT, q, []) else
  match buf_head q with
  | [] => Some (Z.min (0 + headroom env) INT_MAX, q, [])
  | first :: _ =>
      match alloc_buf env with
      | None => Some (FAILURE_INT, q, [])
      | Some buf =>
          let pd := wlan_11n_form_amsdu_txpd (txpd_size env) (pkt_tx_ctrl env) first in
          r ← aggregate_loop (length (buf_head q)) env (q_count_msdu q) buf (txpd_size env) 0 0;
          match r with
          | Broken q evs => Some (FAILURE_INT, q, evs)
          | Filled q' buf pkt_size pad evs =>
              '(ret, q', evs') ← aggregate_finish env pd first q' buf pkt_size pad (length (buf_head q));
              Some (ret, q', evs ++ evs')
          end
      end
  end.

(** ** Deaggregation *)

(** The station list and the mode decide what happens to a frame. *)
Record rx_env := mk_renv {
  r_priv : mlan_private;
  ewpa_enabled : bool;
  has_pdesc : bool;                     (** pmbuf->pdesc and moal_recv_amsdu_packet *)
  recv_amsdu_status : mlan_status;
  alloc_frame : nat → bool;             (** allocation of the n-th frame *)
  recv_status : list Z → mlan_status    (** wlan_uap_recv_packet, moal_recv_packet or the command *)
}.

Inductive deaggr_event :=
| UapRecv (frame : list Z)
| EapolCmd (frame : list Z)
| TdlsAction (frame : list Z)
| RecvPacket (frame : list Z)
| RecvComplete (frame : list Z) (ret : mlan_status)
| RecvAmsdu.

Definition wlan_uap_check_forward (priv : mlan_private) (dest : list Z) : bool :=
  match dest with
  | d0 :: _ => if negb (Z.land d0 1 =? 0) then true
               else bool_decide (is_Some (wlan_get_station_entry priv dest))
  | [] => false
  end.

(** [pos] is [data]; the loop state is that of the code, [fuel] bounds it. *)
Fixpoint get_num_aggrpkts_loop (fuel : nat) (priv : mlan_private) (buf : list Z) (pos : nat)
    (total_pkt_len pkt_count : Z) (forward : bool) : option (Z * bool) :=
  if negb (ETH_HDR_LEN <=? total_pkt_len) then Some (pkt_count, forward) else
  match fuel with
  | O => None
  | S fuel =>
      dest ← read_at buf pos 6;
      let forward := if bool_decide (bss_role priv = MLAN_BSS_ROLE_UAP) && wlan_uap_check_forward priv dest
                     then true else forward in
      len ← read_at buf (pos + 12) 2;
      let pkt_len := of_be16 len in
      if pkt_len >? total_pkt_len then Some (pkt_count, forward) else
      let pad := amsdu_pad (pkt_len + ETH_HDR_LEN) in
      get_num_aggrpkts_loop fuel priv buf (pos + Z.to_nat (pkt_len + pad + ETH_HDR_LEN))
        (total_pkt_len - (pkt_len + pad + ETH_HDR_LEN)) (pkt_count + 1) forward
  end.

Definition wlan_11n_get_num_aggrpkts (fuel : nat) (priv : mlan_private) (buf : list Z) (total_pkt_len : Z)
  : option (Z * bool) :=
  get_num_aggrpkts_loop fuel priv buf 0 total_pkt_len 0 false.

(** The delivery of one frame: status and events. *)
Definition deaggr_deliver (env : rx_env) (frame : list Z) : mlan_status * list deaggr_event :=
  let ret := recv_status env frame in
  let complete := match ret with
                  | MLAN_STATUS_FAILURE | MLAN_STATUS_SUCCESS => [RecvComplete frame ret]
                  | _ => [] end in
  if bool_decide (bss_role (r_priv env) = MLAN_BSS_ROLE_UAP) then (ret, UapRecv frame :: complete)
  else if ewpa_enabled env && bool_decide (take 2 (drop 12 frame) = [0x88; 0x8e]) then (ret, [EapolCmd frame])
  else (ret, (if bool_decide (take 2 (drop 12 frame) = [0x89; 0x0d]) then [TdlsAction frame] else [])
             ++ RecvPacket frame :: complete).

(** The while loop of [wlan_11n_deaggregate_pkt]; the code edits the buffer in
    place. *)
Fixpoint deaggregate_loop (fuel : nat) (env : rx_env) (buf : list Z) (pos : nat) (total_pkt_len : Z)
    (n : nat) (ret : mlan_status) : option (mlan_status * list deaggr_event) :=
  if negb (ETH_HDR_LEN <=? total_pkt_len) then Some (ret, []) else
  match fuel with
  | O => None
  | S fuel =>
      len ← read_at buf (pos + 12) 2;
      let pkt_len := of_be16 len in
      if pkt_len >? total_pkt_len then Some (MLAN_STATUS_FAILURE, []) else
      let pad := amsdu_pad (pkt_len + ETH_HDR_LEN) in
      let total_pkt_len := total_pkt_len - (pkt_len + pad + ETH_HDR_LEN) in
      llc ← read_at buf (pos + 14) 6;
      '(buf, pos, pkt_len) ←
        (if bool_decide (llc = rfc1042_eth_hdr) then
           addrs ← read_at buf pos 12;
           buf ← write_at buf (pos + 8) addrs;
           Some (buf, (pos + 8)%nat, u16 (pkt_len + (ETH_HDR_LEN - LLC_SNAP_LEN)))
         else
           buf ← write_at buf (pos + 12) [0; 0];
           Some (buf, pos, u16 (pkt_len + ETH_HDR_LEN)));
      if negb (alloc_frame env n) then Some (MLAN_STATUS_FAILURE, []) else
      frame ← read_at buf pos (Z.to_nat pkt_len);
      let '(ret, evs) := deaggr_deliver env frame in
      '(ret, evs') ← deaggregate_loop fuel env buf (pos + Z.to_nat (pkt_len + pad)) total_pkt_len (S n) ret;
      Some (ret, evs ++ evs')
  end.

(** The whole function on the bytes of the received buffer: status, use count
    of the parent buffer, and events. *)
Definition wlan_11n_deaggregate_pkt (fuel : nat) (env : rx_env) (buf : list Z)
  : option (mlan_status * Z * list deaggr_event) :=
  let total_pkt_len := Z.of_nat (length buf) in
  if total_pkt_len >? MLAN_RX_DATA_BUF_SIZE then Some (MLAN_STATUS_FAILURE, 0, []) else
  '(num, forward) ← wlan_11n_get_num_aggrpkts fuel (r_priv env) buf total_pkt_len;
  if has_pdesc env && negb forward then Some (recv_amsdu_status env, num, [RecvAmsdu]) else
  '(ret, evs) ← deaggregate_loop fuel env buf 0 total_pkt_len 0 MLAN_STATUS_FAILURE;
  Some (ret, num, evs).

(** ** The A-MSDU format *)

(** The subframe of an Ethernet frame: addresses, length, LLC/SNAP header, then
    the frame from its type field on. *)
Definition subframe (f : list Z) : list Z :=
  take 12 f ++ be16 (Z.of_nat (length f) - 6) ++ rfc1042_eth_hdr ++ drop 12 f.

Definition pad_len (f : list Z) : nat := Z.to_nat (amsdu_pad (Z.of_nat (length f) + 8)).

(** [b] is an A-MSDU of the frames [fs]: every subframe but the last padded to
    a multiple of four bytes, with any padding. *)
Inductive encodes : list (list Z) → list Z → Prop :=
| encodes_one f : encodes [f] (subframe f)
| encodes_cons f p fs b : length p = pad_len f → encodes fs b →
    encodes (f :: fs) (subframe f ++ p ++ b).

(** An Ethernet frame that fits the receive buffer. *)
Definition frame_ok (f : list Z) : Prop := (14 <= length f <= 4096)%nat.

Definition delivered (evs : list deaggr_event) : list (list Z) :=
  omap (λ ev, match ev with UapRecv f | EapolCmd f | RecvPacket f => Some f | _ => None end) evs.

(** ** Lemmas *)

Lemma amsdu_pad_range x : 0 <= amsdu_pad x <= 3.
Proof.
  unfold amsdu_pad. assert (Z.land x 3 = x mod 4) as -> by (change 3 with (Z.ones 2); by rewrite Z.land_ones by lia).
  pose proof (Z.mod_pos_bound x 4 ltac:(lia)). destruct (Z.eqb_spec (x mod 4) 0); simpl; lia.
Qed.

Lemma of_be16_be16 x : 0 <= x < 65536 → of_be16 (be16 x) = x.
Proof. intros H. unfold be16, of_be16. rewrite u_wrap_small by (simpl; lia). mod_lia. Qed.

Lemma subframe_length f : (14 <= length f)%nat → length (subframe f) = (length f + 8)%nat.
Proof. intros H. unfold subframe, be16, rfc1042_eth_hdr. rewrite !length_app, length_take, length_drop. simpl length. lia. Qed.

(** A read and a write relative to a known suffix. *)
Lemma read_at_drop buf p k n d : (p <= length buf)%nat →
  drop p buf = d → (k + n <= length d)%nat → read_at buf (p + k) n = Some (take n (drop k d)).
Proof.
  intros Hp <- H. rewrite length_drop in H. unfold read_at.
  rewrite decide_True by lia. by rewrite drop_drop.
Qed.

Lemma write_at_drop buf p k bs d : (p <= length buf)%nat →
  drop p buf = d → (k + length bs <= length d)%nat →
  ∃ buf', write_at buf (p + k) bs = Some buf' ∧ length buf' = length buf ∧
    take (p + k) buf' = take (p + k) buf ∧
    drop p buf' = take k d ++ bs ++ drop (k + length bs) d ∧
    drop (p + k) buf' = bs ++ drop (k + length bs) d.
Proof.
  intros Hp <- H. rewrite length_drop in H. unfold write_at. rewrite decide_True by lia.
  eexists. split; [done|]. rewrite drop_drop. replace (p + (k + length bs))%nat with (p + k + length bs)%nat by lia.
  split_and!.
  - rewrite !length_app, length_take, length_drop. lia.
  - rewrite take_app_length'; [done|]. rewrite length_take. lia.
  - rewrite drop_app_le by (rewrite length_take; lia). f_equal. by rewrite take_drop_commute.
  - rewrite drop_app_length' by (rewrite length_take; lia). done.
Qed.

(** Every A-MSDU starts with the subframe of its first frame. *)
Lemma encodes_head fs b : encodes fs b →
  ∃ f fs' rest, fs = f :: fs' ∧ b = subframe f ++ rest ∧
    ((fs' = [] ∧ rest = []) ∨ ∃ p b', rest = p ++ b' ∧ length p = pad_len f ∧ encodes fs' b').
Proof.
  destruct 1 as [f|f p fs b Hp H].
  - exists f, [], []. rewrite app_nil_r. auto.
  - exists f, fs, (p ++ b). split_and!; [done..|]. right. eauto.
Qed.

Lemma encodes_length fs b : encodes fs b → Forall frame_ok fs →
  (22 <= length b)%nat ∧ (length fs * 14 <= length b)%nat.
Proof.
  induction 1 as [f|f p fs b Hp H IH]; intros Hf; inversion Hf as [|? ? [Hlo Hhi] Hfs]; subst.
  - rewrite subframe_length by lia. simpl. lia.
  - rewrite !length_app, subframe_length by lia. destruct (IH Hfs). simpl. lia.
Qed.

(** Reading the header of a subframe at the start of the suffix. *)
Lemma subframe_reads f rest : frame_ok f →
  take 2 (drop 12 (subframe f ++ rest)) = be16 (Z.of_nat (length f) - 6) ∧
  take 6 (drop 14 (subframe f ++ rest)) = rfc1042_eth_hdr ∧
  take 12 (subframe f ++ rest) = take 12 f ∧
  take 6 (subframe f ++ rest) = take 6 f ∧
  drop 20 (subframe f ++ rest) = drop 12 f ++ rest.
Proof.
  intros [Hl _]. unfold subframe. rewrite <- !app_assoc.
  assert (length (take 12 f) = 12%nat) as H12 by (rewrite length_take; lia).
  assert (∀ k (l : list Z), drop (12 + k) (take 12 f ++ l) = drop k l) as Hd.
  { intros k l. rewrite drop_app_ge by lia. f_equal. lia. }
  split_and!.
  - rewrite (Hd 0%nat). done.
  - rewrite (Hd 2%nat). done.
  - rewrite take_app_length' by done. done.
  - rewrite take_app_le by lia. rewrite take_take. by replace (6 `min` 12)%nat with 6%nat by lia.
  - rewrite (Hd 8%nat). done.
Qed.

Lemma frame_len_field f : frame_ok f → of_be16 (be16 (Z.of_nat (length f) - 6)) = Z.of_nat (length f) - 6.
Proof. intros [H1 H2]. apply of_be16_be16. lia. Qed.

Lemma delivered_app a b : delivered (a ++ b) = delivered a ++ delivered b.
Proof. apply omap_app. Qed.

Lemma delivered_deliver env f : delivered (deaggr_deliver env f).2 = [f].
Proof.
  unfold deaggr_deliver. repeat case_match; done.
Qed.

Lemma deliver_status env f : (deaggr_deliver env f).1 = recv_status env f.
Proof. unfold deaggr_deliver. by repeat case_match. Qed.

(** One iteration of the loop consumes the first subframe and its padding. *)
Lemma deaggregate_step fuel env buf pos f rest n ret total :
  frame_ok f → alloc_frame env n = true → (pos <= length buf)%nat → drop pos buf = subframe f ++ rest →
  Z.of_nat (length f) + 8 <= total →
  ∃ buf', length buf' = length buf ∧
    drop (pos + (length f + 8) + pad_len f) buf' = drop (pad_len f) rest ∧
    deaggregate_loop (S fuel) env buf pos total n ret =
      ('(ret, evs') ← deaggregate_loop fuel env buf' (pos + (length f + 8) + pad_len f)
          (total - (Z.of_nat (length f) + 8 + Z.of_nat (pad_len f))) (S n) (recv_status env f);
       Some (ret, (deaggr_deliver env f).2 ++ evs')).
Proof.
  intros Hf Ha Hp Hd Ht. pose proof Hf as [Hlo Hhi].
  destruct (subframe_reads f rest Hf) as (R1 & R2 & R3 & _ & R5).
  assert (length (subframe f ++ rest) = (length f + 8 + length rest)%nat) as Hl
    by (rewrite length_app, subframe_length by lia; lia).
  cbn [deaggregate_loop]. unfold ETH_HDR_LEN at 1. destruct (Z.leb_spec 14 total); [|lia]. cbn [negb].
  rewrite (read_at_drop buf pos 12 2 _ Hp Hd), R1 by lia. cbn [mbind option_bind].
  rewrite frame_len_field by done. destruct (Z.gtb_spec (Z.of_nat (length f) - 6) total); [lia|].
  rewrite (read_at_drop buf pos 14 6 _ Hp Hd), R2 by lia. cbn [mbind option_bind].
  rewrite bool_decide_eq_true_2 by done.
  pose proof (read_at_drop buf pos 0 12 _ Hp Hd ltac:(lia)) as Hr. rewrite Nat.add_0_r, drop_0, R3 in Hr.
  rewrite Hr. cbn [mbind option_bind].
  destruct (write_at_drop buf pos 8 (take 12 f) _ Hp Hd) as (buf' & -> & Hlb & _ & _ & Hdw);
    [rewrite length_take; lia|].
  rewrite length_take, Nat.min_l in Hdw by lia. change (8 + 12)%nat with 20%nat in Hdw.
  rewrite R5, app_assoc, take_drop in Hdw. cbn [mbind option_bind].
  rewrite Ha. cbn [negb]. unfold ETH_HDR_LEN, LLC_SNAP_LEN.
  replace (Z.of_nat (length f) - 6 + (14 - 8)) with (Z.of_nat (length f)) by lia.
  rewrite u_wrap_small by (simpl; lia). rewrite Nat2Z.id.
  replace (Z.of_nat (length f) - 6 + 14) with (Z.of_nat (length f) + 8) by lia.
  pose proof (amsdu_pad_range (Z.of_nat (length f) + 8)) as Hpad.
  assert (amsdu_pad (Z.of_nat (length f) + 8) = Z.of_nat (pad_len f)) as Hpe by (unfold pad_len; lia).
  rewrite Hpe in *.
  assert (pos + 8 <= length buf')%nat.
  { assert (length (drop pos buf) = length (subframe f ++ rest)) as Hx by (by rewrite Hd).
    rewrite length_drop in Hx. lia. }
  pose proof (read_at_drop buf' (pos + 8) 0 (length f) _ H1 Hdw) as Hr2.
  rewrite Nat.add_0_r, drop_0, take_app_length in Hr2. rewrite Hr2 by (rewrite length_app; lia).
  cbn [mbind option_bind]. exists buf'. split; [done|].
  replace (Z.to_nat (Z.of_nat (length f) + Z.of_nat (pad_len f))) with (length f + pad_len f)%nat by lia.
  replace (pos + 8 + (length f + pad_len f))%nat with (pos + (length f + 8) + pad_len f)%nat by lia.
  split.
  - replace (pos + (length f + 8) + pad_len f)%nat with (pos + 8 + (length f + pad_len f))%nat by lia.
    rewrite <- drop_drop, Hdw. rewrite <- drop_drop, drop_app_length. done.
  - pose proof (deliver_status env f). destruct (deaggr_deliver env f) as [r ev]. simpl in *. subst r.
    do 2 f_equal. lia.
Qed.

(** The loop on a well-formed A-MSDU delivers its frames in order. *)
Lemma deaggregate_loop_encodes fs b : encodes fs b → Forall frame_ok fs →
  ∀ fuel env buf pos n ret, (∀ k, alloc_frame env k = true) → (pos <= length buf)%nat →
  drop pos buf = b → (length fs <= fuel)%nat →
  ∃ ret' evs, deaggregate_loop fuel env buf pos (Z.of_nat (length b)) n ret = Some (ret', evs) ∧
    delivered evs = fs.
Proof.
  intros He. induction He as [f|f p fs b Hp He IH]; intros Hfs fuel env buf pos n ret Ha Hpos Hd Hfuel;
    inversion Hfs as [|? ? Hf Hfs']; subst; destruct fuel as [|fuel]; simpl in Hfuel; try lia.
  - assert (length (subframe f) = (length f + 8)%nat) as Hl by (apply subframe_length; apply Hf).
    destruct (deaggregate_step fuel env buf pos f [] n ret (Z.of_nat (length (subframe f))) Hf (Ha n) Hpos)
      as (buf' & _ & _ & ->); [by rewrite app_nil_r|lia|].
    assert (∀ k t m r, t < 14 → deaggregate_loop fuel env buf' k t m r = Some (r, [])) as Hend.
    { intros k t m r Hk. destruct fuel; simpl; unfold ETH_HDR_LEN; destruct (Z.leb_spec 14 t); (lia || done). }
    rewrite Hend by lia. simpl. eexists _, _. split; [done|]. by rewrite app_nil_r, delivered_deliver.
  - assert (length (subframe f) = (length f + 8)%nat) as Hl by (apply subframe_length; apply Hf).
    destruct (deaggregate_step fuel env buf pos f (p ++ b) n ret
      (Z.of_nat (length (subframe f ++ p ++ b))) Hf (Ha n) Hpos Hd)
      as (buf' & Hlb & Hd' & ->); [rewrite !length_app; lia|].
    rewrite drop_app_length' in Hd' by done.
    assert (length (drop pos buf) = length (subframe f ++ p ++ b)) as Hx by (by rewrite Hd).
    rewrite length_drop, !length_app in Hx.
    replace (Z.of_nat (length (subframe f ++ p ++ b)) - (Z.of_nat (length f) + 8 + Z.of_nat (pad_len f)))
      with (Z.of_nat (length b)) by (rewrite !length_app; lia).
    destruct (IH Hfs' fuel env buf' (pos + (length f + 8) + pad_len f)%nat (S n) (recv_status env f) Ha)
      as (ret' & evs & -> & Hev); [lia|done|lia|].
    simpl. eexists _, _. split; [done|]. by rewrite delivered_app, delivered_deliver, Hev.
Qed.

Lemma num_aggrpkts_step fuel priv buf pos f rest total cnt fw : frame_ok f →
  (pos <= length buf)%nat → drop pos buf = subframe f ++ rest → Z.of_nat (length f) + 8 <= total →
  ∃ fw', get_num_aggrpkts_loop (S fuel) priv buf pos total cnt fw =
    get_num_aggrpkts_loop fuel priv buf (pos + (length f + 8) + pad_len f)
      (total - (Z.of_nat (length f) + 8 + Z.of_nat (pad_len f))) (cnt + 1) fw'.
Proof.
  intros Hf Hp Hd Ht. pose proof Hf as [Hlo Hhi].
  destruct (subframe_reads f rest Hf) as (R1 & _ & _ & R4 & _).
  assert (length (subframe f ++ rest) = (length f + 8 + length rest)%nat) as Hl
    by (rewrite length_app, subframe_length by lia; lia).
  cbn [get_num_aggrpkts_loop]. unfold ETH_HDR_LEN at 1. destruct (Z.leb_spec 14 total); [|lia]. cbn [negb].
  pose proof (read_at_drop buf pos 0 6 _ Hp Hd ltac:(lia)) as Hr. rewrite Nat.add_0_r, drop_0, R4 in Hr.
  rewrite Hr. cbn [mbind option_bind].
  rewrite (read_at_drop buf pos 12 2 _ Hp Hd), R1 by lia. cbn [mbind option_bind].
  rewrite frame_len_field by done. destruct (Z.gtb_spec (Z.of_nat (length f) - 6) total); [lia|].
  unfold ETH_HDR_LEN. replace (Z.of_nat (length f) - 6 + 14) with (Z.of_nat (length f) + 8) by lia.
  pose proof (amsdu_pad_range (Z.of_nat (length f) + 8)).
  assert (amsdu_pad (Z.of_nat (length f) + 8) = Z.of_nat (pad_len f)) as -> by (unfold pad_len; lia).
  eexists. f_equal; lia.
Qed.

Lemma num_aggrpkts_encodes fs b : encodes fs b → Forall frame_ok fs →
  ∀ fuel priv buf pos cnt fw, (pos <= length buf)%nat → drop pos buf = b → (length fs <= fuel)%nat →
  ∃ fw', get_num_aggrpkts_loop fuel priv buf pos (Z.of_nat (length b)) cnt fw =
    Some (cnt + Z.of_nat (length fs), fw').
Proof.
  intros He. induction He as [f|f p fs b Hp He IH]; intros Hfs fuel priv buf pos cnt fw Hpos Hd Hfuel;
    inversion Hfs as [|? ? Hf Hfs']; subst; destruct fuel as [|fuel]; simpl in Hfuel; try lia.
  - assert (length (subframe f) = (length f + 8)%nat) as Hl by (apply subframe_length; apply Hf).
    destruct (num_aggrpkts_step fuel priv buf pos f [] (Z.of_nat (length (subframe f))) cnt fw Hf Hpos)
      as (fw' & ->); [by rewrite app_nil_r|lia|].
    exists fw'. assert (∀ k t c w, t < 14 → get_num_aggrpkts_loop fuel priv buf k t c w = Some (c, w)) as Hend.
    { intros k t c w Hk. destruct fuel; simpl; unfold ETH_HDR_LEN; destruct (Z.leb_spec 14 t); (lia || done). }
    rewrite Hend by lia. simpl. do 2 f_equal.
  - assert (length (subframe f) = (length f + 8)%nat) as Hl by (apply subframe_length; apply Hf).
    destruct (num_aggrpkts_step fuel priv buf pos f (p ++ b) (Z.of_nat (length (subframe f ++ p ++ b))) cnt fw Hf Hpos Hd)
      as (fw' & ->); [rewrite !length_app; lia|].
    assert (length (drop pos buf) = length (subframe f ++ p ++ b)) as Hx by (by rewrite Hd).
    rewrite length_drop, !length_app in Hx.
    replace (Z.of_nat (length (subframe f ++ p ++ b)) - (Z.of_nat (length f) + 8 + Z.of_nat (pad_len f)))
      with (Z.of_nat (length b)) by (rewrite !length_app; lia).
    destruct (IH Hfs' fuel priv buf (pos + (length f + 8) + pad_len f)%nat (cnt + 1) fw') as (fw2 & ->); [lia| |lia|].
    + rewrite <- (drop_drop _ (pad_len f)), <- (drop_drop _ (length f + 8)), Hd.
      rewrite (drop_app_length' (subframe f)) by lia. by rewrite drop_app_length' by done.
    + exists fw2. simpl length. do 2 f_equal. lia.
Qed.

(** ** The aggregation loop *)

Lemma write_at_Some buf off bs : (off + length bs <= length buf)%nat →
  write_at buf off bs = Some (take off buf ++ bs ++ drop (off + length bs) buf).
Proof. intros. unfold write_at. by rewrite decide_True. Qed.

(** Two adjacent writes are one. *)
Lemma write_at_seq {B} buf off off' a b (k : list Z → option B) :
  off' = (off + length a)%nat → (off + length a + length b <= length buf)%nat →
  (buf1 ← write_at buf off a; buf2 ← write_at buf1 off' b; k buf2) = (buf2 ← write_at buf off (a ++ b); k buf2).
Proof.
  intros -> H. rewrite (write_at_Some buf off (a ++ b)) by (rewrite length_app; lia).
  rewrite write_at_Some by lia. cbn [mbind option_bind].
  assert (length (take off buf) = off) as Ht by (rewrite length_take; lia).
  rewrite write_at_Some by (rewrite !length_app, length_drop; lia). cbn [mbind option_bind]. f_equal.
  rewrite (app_assoc (take off buf) a), take_app_length' by (rewrite length_app; lia).
  rewrite drop_app_ge by (rewrite length_app; lia). rewrite drop_drop, length_app, Ht.
  rewrite <- !app_assoc, length_app. do 4 f_equal. lia.
Qed.

(** Forming a subframe writes exactly the subframe bytes. *)
Lemma form_amsdu_pkt_spec buf off f : frame_ok f → (off + (length f + 8) <= length buf)%nat →
  wlan_11n_form_amsdu_pkt buf off f =
    Some (take off buf ++ subframe f ++ drop (off + (length f + 8)) buf,
          Z.of_nat (length f) + 8 + Z.of_nat (pad_len f), Z.of_nat (pad_len f)).
Proof.
  intros [Hlo Hhi] Hb. unfold wlan_11n_form_amsdu_pkt.
  assert (∀ k n, (k + n <= length f)%nat → read_at f k n = Some (take n (drop k f))) as Hr
    by (intros k n H; apply (read_at_drop f 0 k n f); [lia|done|done]).
  rewrite (Hr 0%nat 12%nat), (Hr 12%nat 2%nat), (Hr 14%nat) by lia. cbn [mbind option_bind].
  rewrite drop_0. assert (length (take 12 f) = 12%nat) as H12 by (rewrite length_take; lia).
  unfold LLC_SNAP_LEN. replace (Z.of_nat (length f) + 8 - (2 * 6 + 2)) with (Z.of_nat (length f) - 6) by lia.
  set (L := be16 _). assert (length L = 2%nat) as HL by done.
  set (S := rfc1042_eth_hdr ++ _).
  assert (length S = 8%nat) as HS by (unfold S; rewrite length_app, length_take, length_drop; simpl length; lia).
  set (B := take (length f - 14) (drop 14 f)).
  assert (length B = (length f - 14)%nat) as HB by (unfold B; rewrite length_take, length_drop; lia).
  rewrite write_at_seq by lia. rewrite write_at_seq by (rewrite ?length_app; lia).
  rewrite write_at_seq by (rewrite ?length_app; lia).
  assert ((((take 12 f ++ L) ++ S) ++ B) = subframe f) as ->.
  { unfold subframe, S, B. rewrite <- !app_assoc. do 3 f_equal.
    rewrite (take_ge (drop 14 f)) by (rewrite length_drop; lia).
    rewrite <- (take_drop 2 (drop 12 f)) at 2. by rewrite drop_drop. }
  rewrite write_at_Some by (rewrite subframe_length; lia). cbn [mbind option_bind].
  rewrite subframe_length by lia.
  pose proof (amsdu_pad_range (Z.of_nat (length f) + 8)).
  assert (amsdu_pad (Z.of_nat (length f) + 8) = Z.of_nat (pad_len f)) as -> by (unfold pad_len; lia). done.
Qed.

(** The packets the loop takes: the longest prefix that fits. *)
Fixpoint fits (env : aggr_env) (size : Z) (l : list tx_mbuf) : list tx_mbuf :=
  match l with
  | [] => []
  | m :: l =>
      if size + (Z.of_nat (length (tx_bytes m)) + LLC_SNAP_LEN) + headroom env <=? max_amsdu_size env
      then m :: fits env (size + (Z.of_nat (length (tx_bytes m)) + 8 + Z.of_nat (pad_len (tx_bytes m)))) l
      else []
  end.

(** The queue after [k] packets were taken. *)
Definition q_taken (k : nat) (q : tx_queue) : tx_queue := Nat.iter k (q_count_msdu ∘ q_pop) q.

#[local] Arguments q_taken : simpl never.

Lemma take_take_le (l : list Z) n m : (m <= n)%nat → take m (take n l) = take m l.
Proof. intros. rewrite take_take. f_equal. lia. Qed.

Lemma q_taken_S k q : q_taken (S k) q = q_taken k (q_count_msdu (q_pop q)).
Proof. unfold q_taken. rewrite Nat.iter_succ_r. done. Qed.

Lemma aggregate_loop_spec fuel env : ∀ q buf size pad n,
  Forall (frame_ok ∘ tx_bytes) (buf_head q) → (∀ k, ralist_valid env k = true) →
  0 <= headroom env → 0 <= size → max_amsdu_size env <= Z.of_nat (length buf) →
  (length (buf_head q) <= fuel)%nat →
  let taken := fits env size (buf_head q) in
  ∃ buf' size' pad',
    aggregate_loop fuel env q buf size pad n =
      Some (Filled (q_taken (length taken) q) buf' size' pad' ((λ m, CompleteTx m MLAN_STATUS_SUCCESS) <$> taken)) ∧
    length buf' = length buf ∧
    take (Z.to_nat (headroom env + size)) buf' = take (Z.to_nat (headroom env + size)) buf ∧
    ((taken = [] ∧ size' = size ∧ pad' = pad) ∨
     (encodes (tx_bytes <$> taken)
        (take (Z.to_nat (size' - pad' - size)) (drop (Z.to_nat (headroom env + size)) buf')) ∧
      size + 22 <= size' - pad' ∧ size' - pad' + headroom env <= max_amsdu_size env)).
Proof.
  induction fuel as [|fuel IH]; intros q buf size pad n Hf Hv Hh Hs Hb Hfu; simpl.
  { destruct (buf_head q) eqn:E; [|simpl in Hfu; lia]. simpl. exists buf, size, pad. by auto 10. }
  destruct (buf_head q) as [|m l] eqn:E; simpl.
  { exists buf, size, pad. by auto 10. }
  inversion Hf as [|? ? Hm Hl]; subst. simpl in Hm.
  destruct (Z.leb_spec (size + (Z.of_nat (length (tx_bytes m)) + LLC_SNAP_LEN) + headroom env) (max_amsdu_size env)) as [Hfit|_].
  2: { simpl. exists buf, size, pad. by auto 10. }
  unfold LLC_SNAP_LEN in Hfit. set (f := tx_bytes m) in *. set (off := Z.to_nat (headroom env + size)).
  rewrite form_amsdu_pkt_spec by (done || lia). cbn [mbind option_bind]. rewrite Hv.
  set (buf1 := take off buf ++ subframe f ++ drop (off + (length f + 8)) buf).
  assert (length (subframe f) = (length f + 8)%nat) as Hlf by (apply subframe_length; apply Hm).
  assert (length buf1 = length buf) as Hl1
    by (unfold buf1; rewrite !length_app, length_take, length_drop; lia).
  set (size1 := size + (Z.of_nat (length f) + 8 + Z.of_nat (pad_len f))).
  destruct (IH (q_count_msdu (q_pop q)) buf1 size1 (Z.of_nat (pad_len f)) (S n))
    as (buf' & size' & pad' & HL & Hlb & Htk & Hres);
    [simpl; by rewrite E|done|done|lia|lia|simpl; rewrite E; simpl in *; lia|].
  assert (buf_head (q_count_msdu (q_pop q)) = l) as Ehd by (simpl; by rewrite E).
  rewrite Ehd in HL, Hres. rewrite HL. simpl. rewrite q_taken_S.
  exists buf', size', pad'. split; [done|]. split; [lia|].
  set (off1 := Z.to_nat (headroom env + size1)) in *.
  assert (off1 = off + (length f + 8) + pad_len f)%nat as Hoff1 by lia.
  (* the bytes written by this iteration survive the rest of the loop *)
  assert (take (length f + 8) (drop off buf') = subframe f ∧ take off buf' = take off buf) as [Hsub Hpre].
  { assert (take (off + (length f + 8)) buf' = take (off + (length f + 8)) buf1) as Ht.
    { rewrite <- (take_take_le buf' off1), Htk by lia. apply take_take_le. lia. }
    assert (length (take off buf) = off) as Hto by (rewrite length_take; lia).
    split.
    - rewrite take_drop_commute, Ht, <- take_drop_commute. unfold buf1.
      rewrite drop_app_length' by done. by rewrite take_app_length' by done.
    - rewrite <- (take_take_le buf' (off + (length f + 8)) off), Ht by lia. rewrite take_take_le by lia.
      unfold buf1. by rewrite take_app_length'. }
  split; [done|]. right.
  assert (∀ e, (length f + 8 <= e)%nat → take e (drop off buf') =
    subframe f ++ take (e - (length f + 8)) (drop (off + (length f + 8)) buf')) as Hcut.
  { intros e He. rewrite <- (take_drop (length f + 8) (drop off buf')) at 1. rewrite Hsub, drop_drop.
    rewrite take_app_ge by lia. by rewrite Hlf. }
  destruct Hres as [(Hnil & -> & ->)|(Henc & Hge & Hmax)].
  - rewrite Hnil. simpl. split; [|unfold size1; destruct Hm; lia].
    replace (Z.to_nat (size1 - Z.of_nat (pad_len f) - size)) with (length f + 8)%nat by lia.
    rewrite Hsub. constructor.
  - split; [|unfold size1 in *; lia].
    rewrite Hcut by (unfold size1 in *; lia).
    replace (Z.to_nat (size' - pad' - size) - (length f + 8))%nat with (pad_len f + Z.to_nat (size' - pad' - size1))%nat
      by (unfold size1 in *; lia).
    rewrite <- take_take_drop, drop_drop, <- Hoff1.
    apply encodes_cons; [|done]. rewrite length_take, length_drop. unfold size1 in *. lia.
Qed.

(** ** Main results *)

Lemma deaggregate_frames env fs b :
  encodes fs b → Forall frame_ok fs → Z.of_nat (length b) <= MLAN_RX_DATA_BUF_SIZE →
  (∀ k, alloc_frame env k = true) → has_pdesc env = false →
  ∃ ret evs, wlan_11n_deaggregate_pkt (length fs) env b = Some (ret, Z.of_nat (length fs), evs) ∧
    delivered evs = fs.
Proof.
  intros He Hf Hl Ha Hd. unfold wlan_11n_deaggregate_pkt, wlan_11n_get_num_aggrpkts.
  destruct (Z.gtb_spec (Z.of_nat (length b)) MLAN_RX_DATA_BUF_SIZE); [lia|].
  destruct (num_aggrpkts_encodes fs b He Hf (length fs) (r_priv env) b 0 0 false) as (fw & ->);
    [lia|by rewrite drop_0|done|]. cbn [mbind option_bind]. rewrite Hd. simpl.
  destruct (deaggregate_loop_encodes fs b He Hf (length fs) env b 0 0 MLAN_STATUS_FAILURE Ha)
    as (ret & evs & -> & Hev); [lia|by rewrite drop_0|done|]. simpl. eauto.
Qed.

Lemma aggregate_sent env q ptrindex buf m l :
  0 <= ptrindex → buf_head q = m :: l → Forall (frame_ok ∘ tx_bytes) (m :: l) →
  alloc_buf env = Some buf → max_amsdu_size env <= Z.of_nat (length buf) →
  0 <= headroom env → 0 <= txpd_size env → max_amsdu_size env < 65536 → (∀ k, ralist_valid env k = true) →
  txpd_size env + (Z.of_nat (length (tx_bytes m)) + LLC_SNAP_LEN) + headroom env <= max_amsdu_size env →
  let taken := fits env (txpd_size env) (m :: l) in
  ∃ ret q' pd bytes next tail,
    wlan_11n_aggregate_pkt env q ptrindex =
      Some (ret, q', ((λ x, CompleteTx x MLAN_STATUS_SUCCESS) <$> taken) ++ HostToCard pd bytes next :: tail) ∧
    encodes (tx_bytes <$> taken) bytes ∧ pd_tx_pkt_length pd = Z.of_nat (length bytes) ∧
    txpd_size env + Z.of_nat (length bytes) + headroom env <= max_amsdu_size env ∧
    (send_status env ≠ MLAN_STATUS_RESOURCE → buf_head q' = drop (length taken) (m :: l)).
Proof.
  intros Hp Hq Hf Ha Hb Hh Ht Hmax Hv Hfit taken. unfold wlan_11n_aggregate_pkt.
  destruct (Z.ltb_spec ptrindex 0); [lia|]. rewrite Hq, Ha.
  destruct (aggregate_loop_spec (length (m :: l)) env (q_count_msdu q) buf (txpd_size env) 0 0)
    as (buf' & size' & pad' & HL & Hlb & _ & Hres); [simpl; by rewrite Hq|done|done|done|done|simpl; by rewrite Hq|].
  change (buf_head (q_count_msdu q)) with (buf_head q) in HL, Hres. rewrite Hq in HL, Hres.
  fold taken in HL, Hres. rewrite HL. cbn [mbind option_bind].
  destruct Hres as [(Hnil & _)|(Henc & Hge & Hle)].
  { exfalso. unfold taken in Hnil. simpl in Hnil. destruct (Z.leb_spec (txpd_size env +
      (Z.of_nat (length (tx_bytes m)) + LLC_SNAP_LEN) + headroom env) (max_amsdu_size env)); [done|lia]. }
  unfold aggregate_finish. unfold read_at.
  rewrite decide_True by lia. cbn [mbind option_bind]. rewrite decide_True by lia. cbn [mbind option_bind].
  set (bytes := take _ (drop (Z.to_nat (headroom env + txpd_size env)) buf')) in *.
  assert (Z.of_nat (length bytes) = size' - pad' - txpd_size env) as Hlen.
  { unfold bytes. rewrite length_take, length_drop. lia. }
  assert (∀ k q0, buf_head (q_taken k q0) = drop k (buf_head q0)) as Hqt.
  { induction k as [|k IH]; intros q0; [by rewrite drop_0|]. rewrite q_taken_S, IH. simpl.
    by destruct (buf_head q0); simpl; rewrite ?drop_nil. }
  rewrite Hv. simpl. destruct (send_status env) eqn:Es; simpl; rewrite ?Hv;
    (eexists _, _, _, _, _, _; split; [done|]; simpl; split; [exact Henc|]; split;
      [rewrite u_wrap_small; simpl; lia|split; [lia|]]; intros Hr; simpl;
      try (by destruct Hr); by rewrite Hqt, <- Hq).
Qed.

(** deaggregating any A-MSDU of Ethernet frames that fits the receive
    buffer hands up exactly these frames, in order and byte for byte, and sets
    the use count of the buffer to their number. *)
Theorem deaggregate_encodes env fs b :
  encodes fs b → Forall frame_ok fs → Z.of_nat (length b) <= MLAN_RX_DATA_BUF_SIZE →
  (∀ k, alloc_frame env k = true) → has_pdesc env = false →
  ∃ ret evs, wlan_11n_deaggregate_pkt (length fs) env b = Some (ret, Z.of_nat (length fs), evs) ∧
    delivered evs = fs.
Proof. apply deaggregate_frames. Qed.

Definition demo_frame (n : nat) (x : Z) : list Z :=
  [2; 0; 0; 0; 0; 9; 2; 0; 0; 0; 0; 1; 8; 0] ++ replicate n x.
Definition demo_renv : rx_env :=
  mk_renv (demo_priv []) false false MLAN_STATUS_PENDING (λ _, true) (λ _, MLAN_STATUS_PENDING).
Definition demo_aenv : aggr_env :=
  mk_aenv 4 2048 2048 24 0 (Some (replicate 2048 0xee)) (λ _, true) MLAN_STATUS_PENDING.
Definition demo_queue : tx_queue :=
  mk_txq [mk_txmbuf (demo_frame 3 7) 0 0 []; mk_txmbuf (demo_frame 10 8) 0 0 []] 2 2 2 0 0 0.

Lemma demo_frame_ok n x : (n <= 4082)%nat → frame_ok (demo_frame n x).
Proof. intros. unfold frame_ok, demo_frame. rewrite length_app, length_replicate. simpl length. lia. Qed.

Lemma deaggregate_encodes_witness :
  ∃ ret evs, wlan_11n_deaggregate_pkt 2 demo_renv (subframe (demo_frame 3 7) ++ [1; 2; 3] ++ subframe (demo_frame 10 8))
      = Some (ret, 2, evs) ∧ delivered evs = [demo_frame 3 7; demo_frame 10 8].
Proof.
  apply (deaggregate_encodes demo_renv [demo_frame 3 7; demo_frame 10 8]);
    [|repeat (constructor; [apply demo_frame_ok; lia|]); constructor|vm_compute; discriminate|done|done].
  apply encodes_cons; [reflexivity|apply encodes_one].
Defined.

(** when the first packet fits, aggregation takes the longest prefix of
    the queue that fits, never writes outside its buffer, completes every
    packet taken, and hands the card an A-MSDU of exactly these packets whose
    length is the one in the descriptor and within the A-MSDU limit. *)
Theorem aggregate_sends_prefix env q ptrindex buf m l :
  0 <= ptrindex → buf_head q = m :: l → Forall (frame_ok ∘ tx_bytes) (m :: l) →
  alloc_buf env = Some buf → max_amsdu_size env <= Z.of_nat (length buf) →
  0 <= headroom env → 0 <= txpd_size env → max_amsdu_size env < 65536 → (∀ k, ralist_valid env k = true) →
  txpd_size env + (Z.of_nat (length (tx_bytes m)) + LLC_SNAP_LEN) + headroom env <= max_amsdu_size env →
  let taken := fits env (txpd_size env) (m :: l) in
  ∃ ret q' pd bytes next tail,
    wlan_11n_aggregate_pkt env q ptrindex =
      Some (ret, q', ((λ x, CompleteTx x MLAN_STATUS_SUCCESS) <$> taken) ++ HostToCard pd bytes next :: tail) ∧
    encodes (tx_bytes <$> taken) bytes ∧ pd_tx_pkt_length pd = Z.of_nat (length bytes) ∧
    txpd_size env + Z.of_nat (length bytes) + headroom env <= max_amsdu_size env ∧
    (send_status env ≠ MLAN_STATUS_RESOURCE → buf_head q' = drop (length taken) (m :: l)).
Proof. apply aggregate_sent. Qed.

Lemma aggregate_sends_prefix_witness :
  ∃ ret q' pd bytes next tail,
    wlan_11n_aggregate_pkt demo_aenv demo_queue 0 =
      Some (ret, q', ((λ x, CompleteTx x MLAN_STATUS_SUCCESS) <$> buf_head demo_queue) ++
                     HostToCard pd bytes next :: tail) ∧
    encodes [demo_frame 3 7; demo_frame 10 8] bytes ∧ pd_tx_pkt_length pd = Z.of_nat (length bytes) ∧
    24 + Z.of_nat (length bytes) + 4 <= 2048 ∧
    (send_status demo_aenv ≠ MLAN_STATUS_RESOURCE → buf_head q' = []).
Proof.
  apply (aggregate_sends_prefix demo_aenv demo_queue 0 (replicate 2048 0xee) (mk_txmbuf (demo_frame 3 7) 0 0 [])
    [mk_txmbuf (demo_frame 10 8) 0 0 []]); try done; try lia.
  repeat (constructor; [apply demo_frame_ok; lia|]); constructor.
Defined.

(** C20: what one side aggregates the other side recovers: the A-MSDU that
    aggregation hands to the card, received and deaggregated, gives the
    packets taken from the queue, in order and byte for byte. *)
Theorem amsdu_end_to_end env renv q ptrindex buf m l :
  0 <= ptrindex → buf_head q = m :: l → Forall (frame_ok ∘ tx_bytes) (m :: l) →
  alloc_buf env = Some buf → max_amsdu_size env <= Z.of_nat (length buf) →
  0 <= headroom env → 0 <= txpd_size env → max_amsdu_size env <= MLAN_RX_DATA_BUF_SIZE →
  (∀ k, ralist_valid env k = true) →
  txpd_size env + (Z.of_nat (length (tx_bytes m)) + LLC_SNAP_LEN) + headroom env <= max_amsdu_size env →
  (∀ k, alloc_frame renv k = true) → has_pdesc renv = false →
  let taken := fits env (txpd_size env) (m :: l) in
  ∃ ret q' evs pd bytes next ret' num evs',
    wlan_11n_aggregate_pkt env q ptrindex = Some (ret, q', evs) ∧ HostToCard pd bytes next ∈ evs ∧
    wlan_11n_deaggregate_pkt (length taken) renv bytes = Some (ret', num, evs') ∧
    num = Z.of_nat (length taken) ∧ delivered evs' = tx_bytes <$> taken.
Proof.
  intros Hp Hq Hf Ha Hb Hh Ht Hmax Hv Hfit Hal Hd taken. unfold MLAN_RX_DATA_BUF_SIZE in Hmax.
  destruct (aggregate_sent env q ptrindex buf m l Hp Hq Hf Ha Hb Hh Ht) as
    (ret & q' & pd & bytes & next & tail & E & Henc & _ & Hlen & _); [lia|done|done|]. fold taken in E, Henc.
  assert (Forall frame_ok (tx_bytes <$> taken)) as Hok.
  { unfold taken. clear -Hf. generalize (txpd_size env) as s. induction Hf as [|x l' Hx Hl IH]; intros s; simpl; [by constructor|].
    destruct (_ <=? _); [|by constructor]. constructor; [done|apply IH]. }
  destruct (deaggregate_frames renv (tx_bytes <$> taken) bytes Henc Hok) as (ret' & evs' & E' & Hd');
    [unfold MLAN_RX_DATA_BUF_SIZE; lia|done|done|]. rewrite length_fmap in E'.
  eexists _, _, _, pd, bytes, next, ret', _, evs'. split; [exact E|]. split; [set_solver|].
  split; [exact E'|]. done.
Qed.

Lemma amsdu_end_to_end_witness :
  ∃ ret q' evs pd bytes next ret' num evs',
    wlan_11n_aggregate_pkt demo_aenv demo_queue 0 = Some (ret, q', evs) ∧ HostToCard pd bytes next ∈ evs ∧
    wlan_11n_deaggregate_pkt 2 demo_renv bytes = Some (ret', num, evs') ∧
    num = 2 ∧ delivered evs' = [demo_frame 3 7; demo_frame 10 8].
Proof.
  apply (amsdu_end_to_end demo_aenv demo_renv demo_queue 0 (replicate 2048 0xee) (mk_txmbuf (demo_frame 3 7) 0 0 [])
    [mk_txmbuf (demo_frame 10 8) 0 0 []]); try done; try lia.
  repeat (constructor; [apply demo_frame_ok; lia|]); constructor.
Defined.

(** Counting the subframes of any received buffer ends within one
    iteration per 14 bytes and reads no byte outside it, whatever the lengths
    in it say. *)
Theorem num_aggrpkts_safe priv buf :
  Forall (λ x, 0 <= x < 256) buf →
  ∃ num fw, wlan_11n_get_num_aggrpkts (S (length buf / 14)) priv buf (Z.of_nat (length buf)) = Some (num, fw) ∧
    0 <= num <= Z.of_nat (length buf) / 14 + 1.
Proof.
  intros Hb. unfold wlan_11n_get_num_aggrpkts.
  assert (∀ fuel pos total cnt fw, total = Z.of_nat (length buf) - Z.of_nat pos → total < 14 * Z.of_nat fuel →
    0 <= cnt → ∃ num fw', get_num_aggrpkts_loop fuel priv buf pos total cnt fw = Some (num, fw') ∧
      0 <= num <= cnt + Z.of_nat fuel) as H.
  { induction fuel as [|fuel IH]; intros pos total cnt fw Ht Hf Hc; cbn [get_num_aggrpkts_loop]; unfold ETH_HDR_LEN;
      (destruct (Z.leb_spec 14 total); cbn [negb]; [|eexists _, _; split; [done|lia]]); [lia|].
    unfold read_at. rewrite !decide_True by lia. cbn [mbind option_bind].
    set (len := of_be16 _). assert (0 <= len) as Hlen.
    { unfold len, of_be16. repeat case_match; try lia.
      assert (Forall (λ x, 0 <= x < 256) (take 2 (drop (pos + 12) buf))) as Hx by (by apply Forall_take, Forall_drop).
      match goal with E : take 2 _ = [?a; ?b] |- _ => rewrite E in Hx end. rewrite !Forall_cons in Hx. lia. }
    destruct (Z.gtb_spec len total); [eexists _, _; split; [done|lia]|].
    pose proof (amsdu_pad_range (len + 14)).
    destruct (IH (pos + Z.to_nat (len + amsdu_pad (len + 14) + 14))%nat
      (total - (len + amsdu_pad (len + 14) + 14)) (cnt + 1)
      (if bool_decide (bss_role priv = MLAN_BSS_ROLE_UAP) && wlan_uap_check_forward priv (take 6 (drop pos buf))
       then true else fw)) as (num & fw' & E & Hn); [lia|lia|lia|].
    eexists _, _. split; [exact E|lia]. }
  destruct (H (S (length buf / 14)) 0%nat (Z.of_nat (length buf)) 0 false) as (num & fw & E & Hn); [lia| |lia|].
  - pose proof (Nat.div_mod_eq (length buf) 14). pose proof (Nat.mod_upper_bound (length buf) 14). lia.
  - eexists _, _. split; [exact E|]. rewrite Nat2Z.inj_succ, Nat2Z.inj_div in Hn. lia.
Qed.

Lemma num_aggrpkts_safe_witness :
  ∃ num fw, wlan_11n_get_num_aggrpkts 2 (demo_priv []) (demo_frame 6 255) 20 = Some (num, fw) ∧ 0 <= num <= 20 / 14 + 1.
Proof. apply (num_aggrpkts_safe (demo_priv []) (demo_frame 6 255)). repeat (constructor; [lia|]). constructor. Defined.

(** The length test of the deaggregation loop leaves the 14 bytes
    of the subframe header out: a 20-byte buffer whose subframe claims 20
    bytes passes the test and is counted, and its frame is then read beyond
    the end of the buffer, however many iterations are allowed. *)
Theorem deaggregate_overread fuel env :
  alloc_frame env 0%nat = true → has_pdesc env = false →
  let buf := replicate 12 0 ++ [0; 20] ++ replicate 6 0 in
  (∃ fw, wlan_11n_get_num_aggrpkts 2 (r_priv env) buf 20 = Some (1, fw)) ∧
  deaggregate_loop (S fuel) env buf 0 20 0 MLAN_STATUS_FAILURE = None.
Proof.
  intros Ha Hd buf. split.
  - unfold wlan_11n_get_num_aggrpkts, buf. simpl. by destruct (_ && _); eexists.
  - unfold buf. simpl. by rewrite Ha.
Qed.

Lemma deaggregate_overread_witness :
  let buf := replicate 12 0 ++ [0; 20] ++ replicate 6 0 in
  (∃ fw, wlan_11n_get_num_aggrpkts 2 (demo_priv []) buf 20 = Some (1, fw)) ∧
  deaggregate_loop 5 demo_renv buf 0 20 0 MLAN_STATUS_FAILURE = None.
Proof. apply (deaggregate_overread 4 demo_renv); reflexivity. Defined.
