(* ===== verification/BridgeData.v ===== *)
(** * moal_bridge.c: the data path of the L2 bridge

    The three ingress paths (WLAN receive fast path, peer rx_handler, peer
    packet_type fallback), the local hairpin of the WLAN transmit path, the two
    drain threads and the address notifier.  A function takes the state of the
    bridge and what the kernel tells it during the call (device states,
    allocation outcomes, the clock) and returns its verdict, the new state and
    what it did with the socket buffers.  A read outside the packet data has no
    result. *)

From S2P Require Import Prelude.

(** ** Socket buffers and devices *)

Definition ETH_HLEN : Z := 14.
Definition VLAN_HLEN : Z := 4.
Definition VLAN_ETH_HLEN : Z := 18.
Definition ETH_P_IP : Z := 0x0800.
Definition ETH_P_ARP : Z := 0x0806.
Definition ETH_P_8021Q : Z := 0x8100.
Definition ETH_P_PAE : Z := 0x888E.
Definition ARPHRD_ETHER : Z := 1.
Definition ARPOP_REQUEST : Z := 1.
Definition ARPOP_REPLY : Z := 2.
Definition SIZEOF_ARPHDR : Z := 8.
Definition SIZEOF_IPHDR : Z := 20.
Definition MOAL_BR_W2P_QUEUE_MAX : Z := 512.
Definition MOAL_BR_P2W_QUEUE_MAX : Z := 512.

Inductive pkt_type_t := PACKET_HOST | PACKET_BROADCAST | PACKET_MULTICAST | PACKET_OTHERHOST.
#[export] Instance pkt_type_t_eq_dec : EqDecision pkt_type_t.
Proof. solve_decision. Defined.

Inductive dev_id := WlanDev | PeerDev | OtherDev.
#[export] Instance dev_id_eq_dec : EqDecision dev_id.
Proof. solve_decision. Defined.

(** The part of [struct sk_buff] the bridge reads and writes. *)
Record sk_buff := mk_skb {
  skb_id : Z;
  skb_data : list Z;          (** the bytes from skb->data on, skb->len of them *)
  mac_hdr : list Z;           (** eth_hdr(skb) *)
  protocol : Z;               (** skb->protocol *)
  vlan_protocol : Z;          (** vlan_get_protocol(skb) *)
  pkt_type : pkt_type_t;
  skb_dev : dev_id;
  skb_headroom : Z;
  can_pull : bool;            (** the head can be made linear *)
  enq_ts : Z
}.

Definition set_pkt_type (x : pkt_type_t) (s : sk_buff) : sk_buff :=
  mk_skb (skb_id s) (skb_data s) (mac_hdr s) (protocol s) (vlan_protocol s) x (skb_dev s)
    (skb_headroom s) (can_pull s) (enq_ts s).
Definition set_skb_dev (x : dev_id) (s : sk_buff) : sk_buff :=
  mk_skb (skb_id s) (skb_data s) (mac_hdr s) (protocol s) (vlan_protocol s) (pkt_type s) x
    (skb_headroom s) (can_pull s) (enq_ts s).
Definition set_enq_ts (x : Z) (s : sk_buff) : sk_buff :=
  mk_skb (skb_id s) (skb_data s) (mac_hdr s) (protocol s) (vlan_protocol s) (pkt_type s) (skb_dev s)
    (skb_headroom s) (can_pull s) x.
Definition set_skb_data (x : list Z) (s : sk_buff) : sk_buff :=
  mk_skb (skb_id s) x (mac_hdr s) (protocol s) (vlan_protocol s) (pkt_type s) (skb_dev s)
    (skb_headroom s) (can_pull s) (enq_ts s).
Definition set_headroom (x : Z) (s : sk_buff) : sk_buff :=
  mk_skb (skb_id s) (skb_data s) (mac_hdr s) (protocol s) (vlan_protocol s) (pkt_type s) (skb_dev s)
    x (can_pull s) (enq_ts s).

(** The kernel's [pskb_may_pull]: the packet is long enough and its head could
    be made linear. *)
Definition pskb_may_pull (s : sk_buff) (len : Z) : bool :=
  (len <=? Z.of_nat (length (skb_data s))) && can_pull s.

(** [skb_push]: the link-layer header, still in front of the data, becomes part
    of it; pushing without headroom is fatal in the kernel. *)
Definition skb_push_eth (s : sk_buff) : option sk_buff :=
  if skb_headroom s <? ETH_HLEN then None
  else Some (set_headroom (skb_headroom s - ETH_HLEN) (set_skb_data (mac_hdr s ++ skb_data s) s)).

(** A big-endian number of [n] bytes at [off]. *)
Fixpoint be_bytes (l : list Z) : Z :=
  match l with [] => 0 | b :: l => b * 256 ^ Z.of_nat (length l) + be_bytes l end.
Definition be_at (data : list Z) (off n : Z) : option Z :=
  if off + n <=? Z.of_nat (length data)
  then Some (be_bytes (take (Z.to_nat n) (drop (Z.to_nat off) data))) else None.

Record net_device := mk_dev {
  dev_running : bool; dev_carrier : bool; dev_registered : bool
}.

Definition moal_bridge_dev_ready (dev : option net_device) : bool :=
  match dev with
  | None => false
  | Some d => if negb (dev_running d) || negb (dev_carrier d) then false else dev_registered d
  end.

Definition is_multicast_ether_addr (mac : list Z) : bool :=
  match mac with b :: _ => negb (Z.land b 1 =? 0) | [] => false end.
Definition is_broadcast_ether_addr (mac : list Z) : bool :=
  bool_decide (mac = [255; 255; 255; 255; 255; 255]).

Definition moal_bridge_is_link_local (dst : list Z) : bool :=
  match dst with
  | [a; b; c; d; e; f] =>
      (a =? 0x01) && (b =? 0x80) && (c =? 0xc2) && (d =? 0) && (e =? 0) && (Z.land f 0xf0 =? 0)
  | _ => false
  end.

(** ** The state of the bridge *)

(** [struct moal_bridge_stats]. *)
Record moal_bridge_stats := mk_stats {
  fwd_packets : Z; fwd_bytes : Z; dropped : Z; errors : Z; oom_drops : Z;
  dwell_cnt : Z; dwell_sum_us : Z; dwell_max_us : Z
}.
Definition add_dropped (st : moal_bridge_stats) : moal_bridge_stats :=
  mk_stats (fwd_packets st) (fwd_bytes st) (dropped st + 1) (errors st) (oom_drops st)
    (dwell_cnt st) (dwell_sum_us st) (dwell_max_us st).
Definition add_oom (st : moal_bridge_stats) : moal_bridge_stats :=
  mk_stats (fwd_packets st) (fwd_bytes st) (dropped st) (errors st) (oom_drops st + 1)
    (dwell_cnt st) (dwell_sum_us st) (dwell_max_us st).
Definition add_error (st : moal_bridge_stats) : moal_bridge_stats :=
  mk_stats (fwd_packets st) (fwd_bytes st) (dropped st) (errors st + 1) (oom_drops st)
    (dwell_cnt st) (dwell_sum_us st) (dwell_max_us st).
Definition add_fwd (len : Z) (st : moal_bridge_stats) : moal_bridge_stats :=
  mk_stats (fwd_packets st + 1) (fwd_bytes st + len) (dropped st) (errors st) (oom_drops st)
    (dwell_cnt st) (dwell_sum_us st) (dwell_max_us st).

(** One direction: its queue, the cap counter and the statistics. *)
Record direction := mk_dir { queue : list sk_buff; qlen : Z; stats : moal_bridge_stats }.
Definition upd_stats (f : moal_bridge_stats → moal_bridge_stats) (d : direction) : direction :=
  mk_dir (queue d) (qlen d) (f (stats d)).
Definition add_qlen (n : Z) (d : direction) : direction := mk_dir (queue d) (qlen d + n) (stats d).
Definition push_tail (s : sk_buff) (d : direction) : direction :=
  mk_dir (queue d ++ [s]) (qlen d) (stats d).

(** The fields of [struct moal_bridge] the data path uses. *)
Record moal_bridge := mk_bridge {
  active : bool;
  peer_mac : list Z;
  wlan_ipv4 : Z;
  peer_ipv4 : Z;
  w2p : direction;
  p2w : direction;
  hairpin_tx_fwd : Z;
  hairpin_arp_tee : Z;
  hairpin_arp_inject : Z;
  hairpin_seal_warned : bool;
  peer_released : bool;
  keepalive_ms : Z;
  keepalive_idle_ms : Z;
  ka_last_fwd : Z;
  ka_armed : bool;
  ka_timer_starts : Z      (** calls of hrtimer_start *)
}.

Definition upd_w2p (f : direction → direction) (b : moal_bridge) : moal_bridge :=
  mk_bridge (active b) (peer_mac b) (wlan_ipv4 b) (peer_ipv4 b) (f (w2p b)) (p2w b) (hairpin_tx_fwd b)
    (hairpin_arp_tee b) (hairpin_arp_inject b) (hairpin_seal_warned b) (peer_released b)
    (keepalive_ms b) (keepalive_idle_ms b) (ka_last_fwd b) (ka_armed b) (ka_timer_starts b).
Definition upd_p2w (f : direction → direction) (b : moal_bridge) : moal_bridge :=
  mk_bridge (active b) (peer_mac b) (wlan_ipv4 b) (peer_ipv4 b) (w2p b) (f (p2w b)) (hairpin_tx_fwd b)
    (hairpin_arp_tee b) (hairpin_arp_inject b) (hairpin_seal_warned b) (peer_released b)
    (keepalive_ms b) (keepalive_idle_ms b) (ka_last_fwd b) (ka_armed b) (ka_timer_starts b).
Definition add_hairpin (tx tee inj : Z) (b : moal_bridge) : moal_bridge :=
  mk_bridge (active b) (peer_mac b) (wlan_ipv4 b) (peer_ipv4 b) (w2p b) (p2w b) (hairpin_tx_fwd b + tx)
    (hairpin_arp_tee b + tee) (hairpin_arp_inject b + inj) (hairpin_seal_warned b) (peer_released b)
    (keepalive_ms b) (keepalive_idle_ms b) (ka_last_fwd b) (ka_armed b) (ka_timer_starts b).
Definition set_seal_warned (b : moal_bridge) : moal_bridge :=
  mk_bridge (active b) (peer_mac b) (wlan_ipv4 b) (peer_ipv4 b) (w2p b) (p2w b) (hairpin_tx_fwd b)
    (hairpin_arp_tee b) (hairpin_arp_inject b) true (peer_released b)
    (keepalive_ms b) (keepalive_idle_ms b) (ka_last_fwd b) (ka_armed b) (ka_timer_starts b).
Definition set_ka (last : Z) (armed : bool) (starts : Z) (b : moal_bridge) : moal_bridge :=
  mk_bridge (active b) (peer_mac b) (wlan_ipv4 b) (peer_ipv4 b) (w2p b) (p2w b) (hairpin_tx_fwd b)
    (hairpin_arp_tee b) (hairpin_arp_inject b) (hairpin_seal_warned b) (peer_released b)
    (keepalive_ms b) (keepalive_idle_ms b) last armed starts.
Definition set_ips (w p : Z) (b : moal_bridge) : moal_bridge :=
  mk_bridge (active b) (peer_mac b) w p (w2p b) (p2w b) (hairpin_tx_fwd b)
    (hairpin_arp_tee b) (hairpin_arp_inject b) (hairpin_seal_warned b) (peer_released b)
    (keepalive_ms b) (keepalive_idle_ms b) (ka_last_fwd b) (ka_armed b) (ka_timer_starts b).
Definition set_active (a : bool) (b : moal_bridge) : moal_bridge :=
  mk_bridge a (peer_mac b) (wlan_ipv4 b) (peer_ipv4 b) (w2p b) (p2w b) (hairpin_tx_fwd b)
    (hairpin_arp_tee b) (hairpin_arp_inject b) (hairpin_seal_warned b) (peer_released b)
    (keepalive_ms b) (keepalive_idle_ms b) (ka_last_fwd b) (ka_armed b) (ka_timer_starts b).

(** What the kernel and the module parameters tell a call. *)
Record br_env := mk_benv {
  media_connected : bool;
  wlan_dev : option net_device;
  peer_dev : option net_device;
  wlan_dev_addr : list Z;
  peer_dev_addr : list Z;
  clone_ok : bool;                   (** skb_clone, skb_copy, skb_share_check *)
  realloc_ok : bool;                 (** skb_realloc_headroom *)
  bridge_consume_link_local : bool;
  bridge_local_hairpin : bool;
  arp_ignore_unset : bool;           (** in_dev && !IN_DEV_ARP_IGNORE(in_dev) *)
  bridge_debug : bool;
  ktime : Z
}.

Inductive br_event :=
| Free (id : Z)                      (** kfree_skb, dev_kfree_skb_any *)
| FreeCopy (id : Z)                  (** of a clone or copy of that packet *)
| Wake                               (** wake_up of the drain thread *)
| NetifRx (s : sk_buff)              (** injected into the stack on its device *)
| WarnSeal
| Xmit (s : sk_buff).                (** dev_queue_xmit *)

(** ** Helpers *)

Definition moal_bridge_stamp_enq (env : br_env) (s : sk_buff) : sk_buff :=
  set_enq_ts (if bridge_debug env then ktime env else 0) s.

(** [inl]: no buffer (the old one is freed either way when it had too little
    headroom); [inr]: a buffer with enough headroom. *)
Definition moal_bridge_ensure_headroom (env : br_env) (s : sk_buff) : option sk_buff :=
  if skb_headroom s >=? ETH_HLEN then Some s
  else if realloc_ok env then Some (set_headroom ETH_HLEN s) else None.

(** Arm the adaptive keepalive on forwarded traffic. *)
Definition moal_bridge_ka_kick (env : br_env) (b : moal_bridge) : moal_bridge :=
  if (keepalive_ms b <=? 0) || (keepalive_idle_ms b <=? 0) then b
  else
    let b := set_ka (ktime env) (ka_armed b) (ka_timer_starts b) b in
    if negb (ka_armed b) then set_ka (ka_last_fwd b) true (ka_timer_starts b + 1) b else b.

Definition owned_ip (b : moal_bridge) (ip : Z) : bool :=
  (negb (wlan_ipv4 b =? 0) && (ip =? wlan_ipv4 b)) || (negb (peer_ipv4 b =? 0) && (ip =? peer_ipv4 b)).

(** Whether an ARP packet asks for, or answers to, an address of the box. *)
Definition moal_bridge_arp_is_for_self (b : moal_bridge) (s : sk_buff) (l3_off : Z) : option bool :=
  if negb (pskb_may_pull s (l3_off + SIZEOF_ARPHDR + 20)) then Some false else
  ar_hrd ← be_at (skb_data s) l3_off 2;
  ar_pro ← be_at (skb_data s) (l3_off + 2) 2;
  ar_hln ← be_at (skb_data s) (l3_off + 4) 1;
  ar_pln ← be_at (skb_data s) (l3_off + 5) 1;
  if negb (ar_hrd =? ARPHRD_ETHER) || negb (ar_pro =? ETH_P_IP) || negb (ar_hln =? 6) || negb (ar_pln =? 4)
  then Some false else
  target_ip ← be_at (skb_data s) (l3_off + SIZEOF_ARPHDR + 16) 4;
  Some (owned_ip b target_ip).

(** [arp->ar_op]. *)
Definition arp_op (s : sk_buff) (l3_off : Z) : option Z := be_at (skb_data s) (l3_off + 6) 2.

(** [atomic_inc_return(qlen) > MAX], undone and counted when it is. *)
Definition reserve (max : Z) (d : direction) : bool * direction :=
  let d := add_qlen 1 d in
  if qlen d >? max then (false, upd_stats add_dropped (add_qlen (-1) d)) else (true, d).

(** ** WLAN → peer: the receive fast path *)

Inductive verdict := Continue | Consumed.   (** the return values 0 and 1 *)
#[export] Instance verdict_eq_dec : EqDecision verdict.
Proof. solve_decision. Defined.

(** The protocol and the offset of the network header; [None] inside when the
    tag cannot be read and the packet goes to the stack. *)
Definition rx_fast_proto (s : sk_buff) : option (option (Z * Z)) :=
  proto ← be_at (skb_data s) 12 2;
  if proto =? ETH_P_8021Q then
    if negb (pskb_may_pull s VLAN_ETH_HLEN) then Some None
    else inner ← be_at (skb_data s) (ETH_HLEN + 2) 2; Some (Some (inner, VLAN_ETH_HLEN))
  else Some (Some (proto, ETH_HLEN)).

(** The destination of a unicast IPv4 packet: for the box itself, for another
    host with the WLAN address known (to be consumed), or undecided. *)
Inductive ip_class := SelfIp | ForeignIp | UnknownIp.

Definition rx_fast_ip_class (b : moal_bridge) (s : sk_buff) (proto l3_off : Z) (dest : list Z)
  : option ip_class :=
  if (proto =? ETH_P_IP) && negb (is_multicast_ether_addr dest)
     && (negb (wlan_ipv4 b =? 0) || negb (peer_ipv4 b =? 0))
     && pskb_may_pull s (l3_off + SIZEOF_IPHDR)
  then
    daddr ← be_at (skb_data s) (l3_off + 16) 4;
    Some (if owned_ip b daddr then SelfIp else if negb (wlan_ipv4 b =? 0) then ForeignIp else UnknownIp)
  else Some UnknownIp.

(** Consume the original: queue it for the peer or drop it. *)
Definition rx_fast_consume (env : br_env) (b : moal_bridge) (s : sk_buff)
  : verdict * moal_bridge * list br_event :=
  if negb (moal_bridge_dev_ready (peer_dev env)) then
    (Consumed, upd_w2p (upd_stats add_dropped) b, [Free (skb_id s)])
  else
    match reserve MOAL_BR_W2P_QUEUE_MAX (w2p b) with
    | (false, d) => (Consumed, upd_w2p (λ _, d) b, [Free (skb_id s)])
    | (true, d) =>
        let s := moal_bridge_stamp_enq env (set_skb_dev PeerDev s) in
        (Consumed, moal_bridge_ka_kick env (upd_w2p (λ _, push_tail s d) b), [Wake])
    end.

(** Queue a clone for the peer and leave the original to the stack. *)
Definition rx_fast_clone (env : br_env) (b : moal_bridge) (s : sk_buff)
  : verdict * moal_bridge * list br_event :=
  if negb (moal_bridge_dev_ready (peer_dev env)) then
    (Continue, upd_w2p (upd_stats add_dropped) b, [])
  else if clone_ok env then
    match reserve MOAL_BR_W2P_QUEUE_MAX (w2p b) with
    | (false, d) => (Continue, upd_w2p (λ _, d) b, [FreeCopy (skb_id s)])
    | (true, d) =>
        let s := moal_bridge_stamp_enq env (set_skb_dev PeerDev s) in
        (Continue, moal_bridge_ka_kick env (upd_w2p (λ _, push_tail s d) b), [Wake])
    end
  else (Continue, upd_w2p (upd_stats add_oom) b, []).

Definition moal_bridge_rx_fast (env : br_env) (b : moal_bridge) (s : sk_buff)
  : option (verdict * moal_bridge * list br_event) :=
  if negb (active b) then Some (Continue, b, []) else
  if negb (media_connected env) then Some (Continue, b, []) else
  parsed ← rx_fast_proto s;
  match parsed with
  | None => Some (Continue, b, [])
  | Some (proto, l3_off) =>
      let dest := take 6 (skb_data s) in
      if proto =? ETH_P_PAE then Some (Continue, b, [])
      else if moal_bridge_is_link_local dest then
        let b := upd_w2p (upd_stats add_dropped) b in
        if bridge_consume_link_local env then Some (Consumed, b, [Free (skb_id s)])
        else Some (Continue, b, [])
      else
        self_arp ← (if proto =? ETH_P_ARP then moal_bridge_arp_is_for_self b s l3_off else Some false);
        if (self_arp : bool) then Some (Continue, b, []) else
        class ← rx_fast_ip_class b s proto l3_off dest;
        match class with
        | SelfIp => Some (Continue, b, [])
        | ForeignIp => Some (rx_fast_consume env b s)
        | UnknownIp => Some (rx_fast_clone env b s)
        end
  end.

(** ** WLAN transmit: the local hairpin *)

(** The tee of a broadcast ARP: a copy with the peer's source address. *)
Definition tx_hairpin_tee (env : br_env) (b : moal_bridge) (s : sk_buff)
  : verdict * moal_bridge * list br_event :=
  let warn := arp_ignore_unset env && negb (hairpin_seal_warned b) in
  let b := if warn then set_seal_warned b else b in
  let evs := if warn then [WarnSeal] else [] in
  if negb (clone_ok env) then (Continue, upd_w2p (upd_stats add_oom) b, evs) else
  match reserve MOAL_BR_W2P_QUEUE_MAX (w2p b) with
  | (false, d) => (Continue, upd_w2p (λ _, d) b, evs ++ [FreeCopy (skb_id s)])
  | (true, d) =>
      let copy := set_skb_data (take 6 (skb_data s) ++ peer_dev_addr env ++ drop 12 (skb_data s)) s in
      let copy := moal_bridge_stamp_enq env (set_skb_dev PeerDev copy) in
      (Continue, add_hairpin 0 1 0 (upd_w2p (λ _, push_tail copy d) b), evs ++ [Wake])
  end.

Definition moal_bridge_tx_hairpin (env : br_env) (b : moal_bridge) (s : sk_buff)
  : option (verdict * moal_bridge * list br_event) :=
  if negb (pskb_may_pull s ETH_HLEN) then Some (Continue, b, []) else
  let dest := take 6 (skb_data s) in
  if negb (is_multicast_ether_addr dest) then
    if negb (bool_decide (dest = wlan_dev_addr env)) then Some (Continue, b, [])
    else if negb (moal_bridge_dev_ready (peer_dev env)) then
      Some (Consumed, upd_w2p (upd_stats add_dropped) b, [Free (skb_id s)])
    else
      match reserve MOAL_BR_W2P_QUEUE_MAX (w2p b) with
      | (false, d) => Some (Consumed, upd_w2p (λ _, d) b, [Free (skb_id s)])
      | (true, d) =>
          let s := moal_bridge_stamp_enq env (set_skb_dev PeerDev s) in
          Some (Consumed, add_hairpin 1 0 0 (upd_w2p (λ _, push_tail s d) b), [Wake])
      end
  else
    h_proto ← be_at (skb_data s) 12 2;
    if (h_proto =? ETH_P_ARP) && is_broadcast_ether_addr dest && moal_bridge_dev_ready (peer_dev env)
    then Some (tx_hairpin_tee env b s)
    else Some (Continue, b, []).

(** ** Peer → WLAN: the rx_handler *)

Inductive rx_handler_result := RX_HANDLER_PASS | RX_HANDLER_CONSUMED.
#[export] Instance rx_handler_result_eq_dec : EqDecision rx_handler_result.
Proof. solve_decision. Defined.

(** [PACKET_OTHERHOST] becomes [PACKET_HOST]. *)
Definition fix_otherhost (s : sk_buff) : sk_buff :=
  if bool_decide (pkt_type s = PACKET_OTHERHOST) then set_pkt_type PACKET_HOST s else s.

(** The offset of the network header behind an in-band tag. *)
Definition l3_offset (s : sk_buff) : Z := if protocol s =? ETH_P_8021Q then VLAN_HLEN else 0.

(** A buffer for the p2w queue, after the reservation: headroom, device, header. *)
Definition p2w_prepare (env : br_env) (s : sk_buff) : option (option sk_buff) :=
  match moal_bridge_ensure_headroom env s with
  | None => Some None
  | Some s => s ← skb_push_eth (set_skb_dev WlanDev s); Some (Some (moal_bridge_stamp_enq env s))
  end.

(** How an ARP packet for an address of the box is handled. *)
Inductive arp_action := ArpPass | ArpInject | ArpForward.

Definition peer_arp_action (env : br_env) (b : moal_bridge) (s : sk_buff) : option arp_action :=
  if vlan_protocol s =? ETH_P_ARP then
    self ← moal_bridge_arp_is_for_self b s (l3_offset s);
    if (self : bool) then
      op ← arp_op s (l3_offset s);
      Some (if op =? ARPOP_REQUEST then ArpPass
            else if bridge_local_hairpin env && (protocol s =? ETH_P_ARP) && (op =? ARPOP_REPLY)
            then ArpInject else ArpForward)
    else Some ArpForward
  else Some ArpForward.

(** A unicast IPv4 packet to an address of the box. *)
Definition peer_self_ip (b : moal_bridge) (s : sk_buff) (h_dest : list Z) : option bool :=
  if negb (is_multicast_ether_addr h_dest) && (vlan_protocol s =? ETH_P_IP)
     && (negb (wlan_ipv4 b =? 0) || negb (peer_ipv4 b =? 0))
     && pskb_may_pull s (l3_offset s + SIZEOF_IPHDR)
  then daddr ← be_at (skb_data s) (l3_offset s + 16) 4; Some (owned_ip b daddr)
  else Some false.

(** The forwarding of a unicast packet: the original is consumed. *)
Definition peer_forward_unicast (env : br_env) (b : moal_bridge) (s : sk_buff)
  : option (rx_handler_result * sk_buff * moal_bridge * list br_event) :=
  if negb (moal_bridge_dev_ready (wlan_dev env)) then
    Some (RX_HANDLER_CONSUMED, s, upd_p2w (upd_stats add_dropped) b, [Free (skb_id s)])
  else
    match reserve MOAL_BR_P2W_QUEUE_MAX (p2w b) with
    | (false, d) => Some (RX_HANDLER_CONSUMED, s, upd_p2w (λ _, d) b, [Free (skb_id s)])
    | (true, d) =>
        prepared ← p2w_prepare env s;
        match prepared with
        | None => Some (RX_HANDLER_CONSUMED, s, upd_p2w (λ _, upd_stats add_oom (add_qlen (-1) d)) b,
                        [Free (skb_id s)])
        | Some s' => Some (RX_HANDLER_CONSUMED, s, moal_bridge_ka_kick env (upd_p2w (λ _, push_tail s' d) b),
                           [Wake])
        end
    end.

(** The forwarding of a group packet: a clone is queued. *)
Definition peer_forward_group (env : br_env) (b : moal_bridge) (s : sk_buff)
  : option (rx_handler_result * sk_buff * moal_bridge * list br_event) :=
  if negb (moal_bridge_dev_ready (wlan_dev env)) then
    Some (RX_HANDLER_PASS, s, upd_p2w (upd_stats add_dropped) b, [])
  else if clone_ok env then
    match reserve MOAL_BR_P2W_QUEUE_MAX (p2w b) with
    | (false, d) => Some (RX_HANDLER_PASS, s, upd_p2w (λ _, d) b, [FreeCopy (skb_id s)])
    | (true, d) =>
        prepared ← p2w_prepare env s;
        match prepared with
        | None => Some (RX_HANDLER_PASS, s, upd_p2w (λ _, upd_stats add_oom (add_qlen (-1) d)) b,
                        [FreeCopy (skb_id s)])
        | Some s' => Some (RX_HANDLER_PASS, s, moal_bridge_ka_kick env (upd_p2w (λ _, push_tail s' d) b),
                           [Wake])
        end
    end
  else Some (RX_HANDLER_PASS, s, upd_p2w (upd_stats add_oom) b, []).

(** The whole handler: result, the packet as the stack sees it after [PASS],
    the new state and the events. *)
Definition moal_bridge_peer_rx_handler (env : br_env) (b : moal_bridge) (s : sk_buff)
  : option (rx_handler_result * sk_buff * moal_bridge * list br_event) :=
  let pass s b := Some (RX_HANDLER_PASS, s, b, []) in
  if negb (active b) then pass s b else
  let h_dest := take 6 (mac_hdr s) in
  if vlan_protocol s =? ETH_P_PAE then pass s b
  else if moal_bridge_is_link_local h_dest then pass s (upd_p2w (upd_stats add_dropped) b)
  else if negb (is_multicast_ether_addr h_dest) && bool_decide (h_dest = peer_mac b) then pass s b
  else
    action ← peer_arp_action env b s;
    match action with
    | ArpPass => pass (fix_otherhost s) b
    | ArpInject =>
        let s' := set_pkt_type PACKET_HOST (set_skb_dev WlanDev s) in
        Some (RX_HANDLER_CONSUMED, s', add_hairpin 0 0 1 b, [NetifRx s'])
    | ArpForward =>
        self ← peer_self_ip b s h_dest;
        if (self : bool) then pass (fix_otherhost s) b
        else if negb (media_connected env) then
          pass (if bool_decide (pkt_type s = PACKET_OTHERHOST) && bool_decide (h_dest = wlan_dev_addr env)
                then set_pkt_type PACKET_HOST s else s) b
        else if negb (is_multicast_ether_addr h_dest) then peer_forward_unicast env b s
        else peer_forward_group env b s
    end.

(** ** Peer → WLAN: the packet_type fallback

    The handler owns the buffer it gets; the stack has another one. *)

Definition pt_forward (env : br_env) (b : moal_bridge) (s : sk_buff)
  : option (moal_bridge * list br_event) :=
  if negb (media_connected env) then Some (b, [Free (skb_id s)])
  else if negb (moal_bridge_dev_ready (wlan_dev env)) then
    Some (upd_p2w (upd_stats add_dropped) b, [Free (skb_id s)])
  else
    match reserve MOAL_BR_P2W_QUEUE_MAX (p2w b) with
    | (false, d) => Some (upd_p2w (λ _, d) b, [Free (skb_id s)])
    | (true, d) =>
        prepared ← p2w_prepare env s;
        match prepared with
        | None => Some (upd_p2w (λ _, upd_stats add_oom (add_qlen (-1) d)) b, [Free (skb_id s)])
        | Some s' => Some (moal_bridge_ka_kick env (upd_p2w (λ _, push_tail s' d) b), [Wake])
        end
    end.

(** An ARP request for the box that the stack answers; a reply to the box that comes
    in with the cloned MAC and is injected on the WLAN device. *)
Definition pt_suppress (b : moal_bridge) (s : sk_buff) : option bool :=
  if negb (bool_decide (pkt_type s = PACKET_OTHERHOST)) && (vlan_protocol s =? ETH_P_ARP) then
    self ← moal_bridge_arp_is_for_self b s (l3_offset s);
    if (self : bool) then op ← arp_op s (l3_offset s); Some (op =? ARPOP_REQUEST) else Some false
  else Some false.
Definition pt_inject (env : br_env) (b : moal_bridge) (s : sk_buff) : option bool :=
  if bridge_local_hairpin env && bool_decide (pkt_type s = PACKET_OTHERHOST) && (protocol s =? ETH_P_ARP) then
    self ← moal_bridge_arp_is_for_self b s 0;
    if (self : bool) then op ← arp_op s 0; Some (op =? ARPOP_REPLY) else Some false
  else Some false.

(** [on_peer] is [dev == br->peer_dev].  [skb_share_check] drops the reference
    to the shared buffer when its clone fails. *)
Definition moal_bridge_peer_pt_func (env : br_env) (b : moal_bridge) (s : sk_buff) (on_peer : bool)
  : option (moal_bridge * list br_event) :=
  let drop b := Some (b, [Free (skb_id s)]) in
  if negb (active b) || negb on_peer then drop b
  else if protocol s =? ETH_P_PAE then drop b
  else if negb (media_connected env) && negb (vlan_protocol s =? ETH_P_ARP) then drop b
  else if negb (clone_ok env) then drop (upd_p2w (upd_stats add_oom) b)
  else
    suppress ← pt_suppress b s;
    if (suppress : bool) then drop b else
    inject ← pt_inject env b s;
    if (inject : bool) then
      let s' := set_pkt_type PACKET_HOST (set_skb_dev WlanDev s) in
      Some (add_hairpin 0 0 1 b, [NetifRx s'])
    else pt_forward env b s.

(** ** The drain threads *)

Definition moal_bridge_account_dwell (env : br_env) (ts : Z) (st : moal_bridge_stats) : moal_bridge_stats :=
  if ts =? 0 then st
  else
    let us := Z.max 0 (ktime env - ts) in
    mk_stats (fwd_packets st) (fwd_bytes st) (dropped st) (errors st) (oom_drops st)
      (dwell_cnt st + 1) (dwell_sum_us st + us) (Z.max (dwell_max_us st) us).

(** One packet of the drain loop: [xmit_ok] is the outcome of its transmission,
    [ready] the state of the egress device. *)
Definition drain_one (env : br_env) (released act ready xmit_ok : bool) (d : direction)
  : direction * list br_event :=
  match queue d with
  | [] => (d, [])
  | s :: q =>
      let d := mk_dir q (qlen d - 1) (stats d) in
      if released || negb act || negb ready then (upd_stats add_dropped d, [Free (skb_id s)])
      else
        let st := moal_bridge_account_dwell env (enq_ts s) (stats d) in
        let st := if xmit_ok then add_fwd (Z.of_nat (length (skb_data s))) st else add_error st in
        (mk_dir (queue d) (qlen d) st, [Xmit s])
  end.

(** One wake-up of [moal_bridge_w2p_thread_fn]: drain the queue; [ok n] is the
    outcome of the n-th transmission. *)
Fixpoint w2p_drain (fuel : nat) (env : br_env) (ok : nat → bool) (b : moal_bridge) (n : nat)
  : option (moal_bridge * list br_event) :=
  match queue (w2p b) with
  | [] => Some (b, [])
  | _ =>
      match fuel with
      | O => None
      | S fuel =>
          let '(d, evs) := drain_one env (peer_released b) (active b)
                             (moal_bridge_dev_ready (peer_dev env)) (ok n) (w2p b) in
          '(b, evs') ← w2p_drain fuel env ok (upd_w2p (λ _, d) b) (S n);
          Some (b, evs ++ evs')
      end
  end.

Fixpoint p2w_drain (fuel : nat) (env : br_env) (ok : nat → bool) (b : moal_bridge) (n : nat)
  : option (moal_bridge * list br_event) :=
  match queue (p2w b) with
  | [] => Some (b, [])
  | _ =>
      match fuel with
      | O => None
      | S fuel =>
          let '(d, evs) := drain_one env (peer_released b) (active b)
                             (moal_bridge_dev_ready (wlan_dev env)) (ok n) (p2w b) in
          '(b, evs') ← p2w_drain fuel env ok (upd_p2w (λ _, d) b) (S n);
          Some (b, evs ++ evs')
      end
  end.

(** ** The address notifier *)

Inductive netdev_ev := NETDEV_UP | NETDEV_DOWN | NETDEV_CHANGE | NETDEV_OTHER.
#[export] Instance netdev_ev_eq_dec : EqDecision netdev_ev.
Proof. solve_decision. Defined.

(** [remaining] is the first address left on the device, 0 when there is none
    ([moal_bridge_get_ipv4]). *)
Definition moal_bridge_inetaddr_event (b : moal_bridge) (event : netdev_ev) (dev : dev_id)
    (ifa_local remaining : Z) : moal_bridge :=
  match dev with
  | OtherDev => b
  | _ =>
      match match event with NETDEV_UP => Some ifa_local | NETDEV_DOWN => Some remaining | _ => None end with
      | None => b
      | Some new_ip =>
          match dev with
          | WlanDev => set_ips new_ip (peer_ipv4 b) b
          | _ => set_ips (wlan_ipv4 b) new_ip b
          end
      end
  end.

(** ** Specification vocabulary *)

(** Between two calls the cap counter is the length of the queue, at most the
    cap. *)
Definition dir_ok (d : direction) : Prop := qlen d = Z.of_nat (length (queue d)) ∧ qlen d <= 512.

(** What one packet can do to a direction. *)
Inductive dir_eff : direction → direction → Prop :=
| eff_none d : dir_eff d d
| eff_drop d : dir_eff d (upd_stats add_dropped d)
| eff_oom d : dir_eff d (upd_stats add_oom d)
| eff_push d s : qlen d < 512 → dir_eff d (push_tail s (add_qlen 1 d)).

(** The packets a direction has taken in, wherever they are now. *)
Definition accounted (d : direction) : Z :=
  Z.of_nat (length (queue d)) + fwd_packets (stats d) + dropped (stats d) + errors (stats d) + oom_drops (stats d).



(** *** Packets that are none of the bridge's business *)


(** *** What becomes of the others *)

Definition counted (d d' : direction) : Prop := d' = upd_stats add_dropped d ∨ d' = upd_stats add_oom d.
Definition untouched (b b' : moal_bridge) : Prop := w2p b' = w2p b ∧ p2w b' = p2w b.



(** ** Lemmas *)

Lemma reserve_spec max d :
  reserve max d = if max <=? qlen d then (false, upd_stats add_dropped d) else (true, add_qlen 1 d).
Proof.
  unfold reserve, add_qlen. destruct d as [q n st]. simpl.
  destruct (Z.gtb_spec (n + 1) max), (Z.leb_spec max n); try lia; [|done].
  unfold upd_stats, add_qlen. simpl. do 2 f_equal. lia.
Qed.

Lemma be_at_Some data off n : 0 <= off → 0 <= n → off + n <= Z.of_nat (length data) →
  ∃ v, be_at data off n = Some v.
Proof. intros. unfold be_at. destruct (Z.leb_spec (off + n) (Z.of_nat (length data))); [eauto|lia]. Qed.

Lemma may_pull_len s n : pskb_may_pull s n = true → n <= Z.of_nat (length (skb_data s)).
Proof. unfold pskb_may_pull. intros [H%Z.leb_le _]%andb_true_iff. done. Qed.

Lemma arp_is_for_self_Some b s off : 0 <= off →
  ∃ r, moal_bridge_arp_is_for_self b s off = Some r ∧
    (r = true → ∃ op, arp_op s off = Some op).
Proof.
  intros Ho. unfold moal_bridge_arp_is_for_self, arp_op, SIZEOF_ARPHDR.
  destruct (pskb_may_pull s (off + 8 + 20)) eqn:E; simpl; [|by eexists].
  apply may_pull_len in E.
  destruct (be_at_Some (skb_data s) off 2) as [v1 ->]; [lia..|]. simpl.
  destruct (be_at_Some (skb_data s) (off + 2) 2) as [v2 ->]; [lia..|]. simpl.
  destruct (be_at_Some (skb_data s) (off + 4) 1) as [v3 ->]; [lia..|]. simpl.
  destruct (be_at_Some (skb_data s) (off + 5) 1) as [v4 ->]; [lia..|]. simpl.
  destruct (be_at_Some (skb_data s) (off + 6) 2) as [v6 ->]; [lia..|].
  destruct (_ || _); [by eexists|].
  destruct (be_at_Some (skb_data s) (off + 8 + 16) 4) as [v5 ->]; [lia..|]. simpl. eauto.
Qed.

Lemma l3_offset_nonneg s : 0 <= l3_offset s.
Proof. unfold l3_offset, VLAN_HLEN. destruct (_ =? _); lia. Qed.

Lemma peer_arp_action_Some env b s : is_Some (peer_arp_action env b s).
Proof.
  unfold peer_arp_action. destruct (_ =? _); [|eauto].
  destruct (arp_is_for_self_Some b s (l3_offset s) (l3_offset_nonneg s)) as ([] & -> & H); simpl; [|eauto].
  destruct (H eq_refl) as [op ->]. simpl. eauto.
Qed.

Lemma peer_self_ip_Some b s dest : is_Some (peer_self_ip b s dest).
Proof.
  unfold peer_self_ip. destruct (_ && _) eqn:E; [|eauto].
  apply andb_true_iff in E as [_ E%may_pull_len]. pose proof (l3_offset_nonneg s). unfold SIZEOF_IPHDR in E.
  destruct (be_at_Some (skb_data s) (l3_offset s + 16) 4) as [v ->]; [lia..|]. simpl. eauto.
Qed.

(** Preparing a buffer never pushes without headroom. *)
Lemma p2w_prepare_Some env s :
  p2w_prepare env s = Some None ∨
  ∃ s', p2w_prepare env s = Some (Some s') ∧ skb_data s' = mac_hdr s ++ skb_data s ∧ skb_dev s' = WlanDev ∧
    skb_id s' = skb_id s.
Proof.
  unfold p2w_prepare, moal_bridge_ensure_headroom, skb_push_eth.
  destruct (Z.geb_spec (skb_headroom s) ETH_HLEN) as [H|H].
  - right. simpl. destruct (Z.ltb_spec (skb_headroom s) ETH_HLEN); [lia|]. simpl. eauto.
  - destruct (realloc_ok env); [|by left]. right. simpl. eauto.
Qed.

Lemma ka_kick_dirs env b :
  w2p (moal_bridge_ka_kick env b) = w2p b ∧ p2w (moal_bridge_ka_kick env b) = p2w b ∧
  active (moal_bridge_ka_kick env b) = active b.
Proof. unfold moal_bridge_ka_kick. by repeat case_match. Qed.

Lemma rx_fast_proto_Some s : (14 <= length (skb_data s))%nat →
  ∃ r, rx_fast_proto s = Some r ∧ ∀ p o, r = Some (p, o) → 0 <= o ∧ o <= Z.of_nat (length (skb_data s)).
Proof.
  intros H. unfold rx_fast_proto, ETH_HLEN, VLAN_ETH_HLEN.
  destruct (be_at_Some (skb_data s) 12 2) as [v ->]; [lia..|]. simpl.
  destruct (_ =? _).
  - destruct (pskb_may_pull s 18) eqn:E; simpl; [|eexists; split; [done|by intros]].
    apply may_pull_len in E. destruct (be_at_Some (skb_data s) (14 + 2) 2) as [w ->]; [lia..|]. simpl.
    eexists. split; [done|]. intros ? ? [= <- <-]. lia.
  - eexists. split; [done|]. intros ? ? [= <- <-]. lia.
Qed.

Lemma rx_fast_ip_class_Some b s proto off dest : 0 <= off → is_Some (rx_fast_ip_class b s proto off dest).
Proof.
  intros Ho. unfold rx_fast_ip_class. destruct (_ && _) eqn:E; [|eauto].
  apply andb_true_iff in E as [_ E%may_pull_len]. unfold SIZEOF_IPHDR in E.
  destruct (be_at_Some (skb_data s) (off + 16) 4) as [v ->]; [lia..|]. simpl. eauto.
Qed.

(** A reservation, then either a push or the drop it already counted. *)
Lemma rx_fast_consume_eff env b s :
  let '(v, b', evs) := rx_fast_consume env b s in
  v = Consumed ∧ p2w b' = p2w b ∧ active b' = active b ∧
  ((w2p b' = upd_stats add_dropped (w2p b) ∧ evs = [Free (skb_id s)]) ∨
   (qlen (w2p b) < 512 ∧ evs = [Wake] ∧ ∃ s', skb_data s' = skb_data s ∧ skb_dev s' = PeerDev ∧
      skb_id s' = skb_id s ∧ w2p b' = push_tail s' (add_qlen 1 (w2p b)))).
Proof.
  unfold rx_fast_consume. destruct (negb _); [by split_and!; [done..|left]|]. rewrite reserve_spec.
  destruct (Z.leb_spec MOAL_BR_W2P_QUEUE_MAX (qlen (w2p b))) as [H|H]; [by split_and!; [done..|left]|].
  pose proof (ka_kick_dirs env (upd_w2p (λ _, push_tail (moal_bridge_stamp_enq env (set_skb_dev PeerDev s))
    (add_qlen 1 (w2p b))) b)) as (Hw & Hp & Ha). rewrite Hw, Hp, Ha. split_and!; [done..|]. right.
  split; [exact H|]. split; [done|]. eexists. split_and!; [..|reflexivity]; done.
Qed.

Lemma rx_fast_clone_eff env b s :
  let '(v, b', evs) := rx_fast_clone env b s in
  v = Continue ∧ p2w b' = p2w b ∧ active b' = active b ∧
  ((w2p b' = upd_stats add_dropped (w2p b) ∧ (evs = [] ∨ evs = [FreeCopy (skb_id s)])) ∨
   (w2p b' = upd_stats add_oom (w2p b) ∧ evs = []) ∨
   (qlen (w2p b) < 512 ∧ evs = [Wake] ∧ ∃ s', skb_data s' = skb_data s ∧ skb_dev s' = PeerDev ∧
      skb_id s' = skb_id s ∧ w2p b' = push_tail s' (add_qlen 1 (w2p b)))).
Proof.
  unfold rx_fast_clone. destruct (negb _); [by split_and!; [done..|left; auto]|].
  destruct (clone_ok env); [|by split_and!; [done..|right; left]].
  rewrite reserve_spec. destruct (Z.leb_spec MOAL_BR_W2P_QUEUE_MAX (qlen (w2p b))) as [H|H];
    [by split_and!; [done..|left; auto]|].
  pose proof (ka_kick_dirs env (upd_w2p (λ _, push_tail (moal_bridge_stamp_enq env (set_skb_dev PeerDev s))
    (add_qlen 1 (w2p b))) b)) as (Hw & Hp & Ha). rewrite Hw, Hp, Ha. split_and!; [done..|]. right. right.
  split; [exact H|]. split; [done|]. eexists. split_and!; [..|reflexivity]; done.
Qed.

(** The effect of a call on both directions. *)
Definition w2p_eff (b b' : moal_bridge) : Prop := dir_eff (w2p b) (w2p b') ∧ p2w b' = p2w b.
Definition p2w_eff (b b' : moal_bridge) : Prop := dir_eff (p2w b) (p2w b') ∧ w2p b' = w2p b.

#[local] Hint Constructors dir_eff : driver.

Lemma rx_fast_consume_w2p env b s : w2p_eff b (rx_fast_consume env b s).1.2.
Proof.
  pose proof (rx_fast_consume_eff env b s) as H. destruct (rx_fast_consume env b s) as [[v b'] evs].
  destruct H as (_ & Hp & _ & [[Hw _]|(Hq & _ & s' & _ & _ & _ & Hw)]); (split; [simpl; rewrite Hw|done]);
    auto with driver.
Qed.

Lemma rx_fast_clone_w2p env b s : w2p_eff b (rx_fast_clone env b s).1.2.
Proof.
  pose proof (rx_fast_clone_eff env b s) as H. destruct (rx_fast_clone env b s) as [[v b'] evs].
  destruct H as (_ & Hp & _ & [[Hw _]|[[Hw _]|(Hq & _ & s' & _ & _ & _ & Hw)]]); (split; [simpl; rewrite Hw|done]);
    auto with driver.
Qed.

Lemma rx_fast_total env b s : (14 <= length (skb_data s))%nat →
  ∃ v b' evs, moal_bridge_rx_fast env b s = Some (v, b', evs) ∧ w2p_eff b b'.
Proof.
  intros Hl. unfold moal_bridge_rx_fast. assert (w2p_eff b b) as Hid by (split; auto with driver).
  destruct (negb (active b)); [eauto 10|]. destruct (negb (media_connected env)); [eauto 10|].
  destruct (rx_fast_proto_Some s Hl) as ([[proto off]|] & -> & Ho); simpl; [|eauto 10].
  destruct (Ho _ _ eq_refl) as [Ho' _]. destruct (proto =? ETH_P_PAE); [eauto 10|].
  destruct (moal_bridge_is_link_local _).
  { destruct (bridge_consume_link_local env); eexists _, _, _; (split; [done|]); split; simpl; auto with driver. }
  assert (∃ r, (if proto =? ETH_P_ARP then moal_bridge_arp_is_for_self b s off else Some false) = Some r) as [r ->].
  { destruct (_ =? _); [|eauto]. destruct (arp_is_for_self_Some b s off Ho') as (r & -> & _). eauto. }
  simpl. destruct r; [eauto 10|].
  destruct (rx_fast_ip_class_Some b s proto off (take 6 (skb_data s)) Ho') as [c ->]. simpl.
  destruct c; [eauto 10| |].
  - pose proof (rx_fast_consume_w2p env b s). destruct (rx_fast_consume env b s) as [[v b'] evs]. eauto 10.
  - pose proof (rx_fast_clone_w2p env b s). destruct (rx_fast_clone env b s) as [[v b'] evs]. eauto 10.
Qed.

Lemma tx_hairpin_tee_eff env b s :
  let '(v, b', evs) := tx_hairpin_tee env b s in v = Continue ∧ w2p_eff b b' ∧ Free (skb_id s) ∉ evs.
Proof.
  unfold tx_hairpin_tee. destruct (arp_ignore_unset env && negb (hairpin_seal_warned b)); simpl;
    (destruct (clone_ok env); simpl; [|split_and!; [done|split; simpl; auto with driver|set_solver]]);
    rewrite reserve_spec; simpl;
    (destruct (Z.leb_spec MOAL_BR_W2P_QUEUE_MAX (qlen (w2p b))); simpl;
      split_and!; [done|split; simpl; auto with driver|set_solver| done|split; simpl; auto with driver|set_solver]).
Qed.

Lemma tx_hairpin_total env b s :
  ∃ v b' evs, moal_bridge_tx_hairpin env b s = Some (v, b', evs) ∧ w2p_eff b b' ∧
    (v = Continue → Free (skb_id s) ∉ evs).
Proof.
  assert (w2p_eff b b) as Hid by (split; auto with driver).
  unfold moal_bridge_tx_hairpin, ETH_HLEN. destruct (pskb_may_pull s 14) eqn:Hpl; simpl.
  2: { eexists _, _, _. split_and!; [done..|set_solver]. }
  apply may_pull_len in Hpl. destruct (negb (is_multicast_ether_addr _)).
  - destruct (negb (bool_decide _)); [eexists _, _, _; split_and!; [done..|set_solver]|].
    destruct (negb _); [eexists _, _, _; split_and!; [done|split; simpl; auto with driver|done]|].
    rewrite reserve_spec. destruct (Z.leb_spec MOAL_BR_W2P_QUEUE_MAX (qlen (w2p b)));
      (eexists _, _, _; split_and!; [done|split; simpl; auto with driver|done]).
  - destruct (be_at_Some (skb_data s) 12 2) as [v ->]; [lia..|]. simpl. destruct (_ && _).
    + pose proof (tx_hairpin_tee_eff env b s). destruct (tx_hairpin_tee env b s) as [[v' b'] evs].
      naive_solver.
    + eexists _, _, _. split_and!; [done..|set_solver].
Qed.

Lemma upd_p2w_eff b f : dir_eff (p2w b) (f (p2w b)) → p2w_eff b (upd_p2w f b).
Proof. by split. Qed.

Lemma unreserve_oom d : upd_stats add_oom (add_qlen (-1) (add_qlen 1 d)) = upd_stats add_oom d.
Proof. destruct d. unfold upd_stats, add_qlen. simpl. f_equal. lia. Qed.

Lemma kick_p2w_push env b s' : qlen (p2w b) < 512 →
  p2w_eff b (moal_bridge_ka_kick env (upd_p2w (λ _, push_tail s' (add_qlen 1 (p2w b))) b)).
Proof.
  intros H. pose proof (ka_kick_dirs env (upd_p2w (λ _, push_tail s' (add_qlen 1 (p2w b))) b)) as (Hw & Hp & _).
  split; [rewrite Hp|rewrite Hw]; simpl; auto with driver.
Qed.

(** Forwarding a unicast packet consumes it: queued with its link-layer header
    back in front, or freed. *)
Lemma forward_unicast_eff env b s :
  ∃ b' evs, peer_forward_unicast env b s = Some (RX_HANDLER_CONSUMED, s, b', evs) ∧ p2w_eff b b' ∧
    (evs = [Free (skb_id s)] ∨
     evs = [Wake] ∧ ∃ s', skb_data s' = mac_hdr s ++ skb_data s ∧ skb_dev s' = WlanDev ∧ skb_id s' = skb_id s ∧
       p2w b' = push_tail s' (add_qlen 1 (p2w b))).
Proof.
  unfold peer_forward_unicast. destruct (negb _).
  { eexists _, _. split; [done|]. split; [apply upd_p2w_eff; auto with driver|by left]. }
  rewrite reserve_spec. destruct (Z.leb_spec MOAL_BR_P2W_QUEUE_MAX (qlen (p2w b))) as [H|H].
  { eexists _, _. split; [done|]. split; [apply upd_p2w_eff; auto with driver|by left]. }
  destruct (p2w_prepare_Some env s) as [-> |(s' & -> & Hd & Hv & Hi)]; simpl.
  - eexists _, _. split; [done|]. split; [|by left]. apply upd_p2w_eff. rewrite unreserve_oom. auto with driver.
  - eexists _, _. split; [done|]. split; [by apply kick_p2w_push|]. right. split; [done|].
    exists s'. split_and!; try done. by destruct (ka_kick_dirs env (upd_p2w (λ _, push_tail s' (add_qlen 1 (p2w b))) b)) as (_ & -> & _).
Qed.

Lemma forward_group_eff env b s :
  ∃ b' evs, peer_forward_group env b s = Some (RX_HANDLER_PASS, s, b', evs) ∧ p2w_eff b b' ∧
    Free (skb_id s) ∉ evs.
Proof.
  unfold peer_forward_group. destruct (negb _).
  { eexists _, _. split_and!; [done|apply upd_p2w_eff; auto with driver|set_solver]. }
  destruct (clone_ok env).
  2: { eexists _, _. split_and!; [done|apply upd_p2w_eff; auto with driver|set_solver]. }
  rewrite reserve_spec. destruct (Z.leb_spec MOAL_BR_P2W_QUEUE_MAX (qlen (p2w b))) as [H|H].
  { eexists _, _. split_and!; [done|apply upd_p2w_eff; auto with driver|set_solver]. }
  destruct (p2w_prepare_Some env s) as [-> |(s' & -> & _)]; simpl.
  - eexists _, _. split_and!; [done| |set_solver]. apply upd_p2w_eff. rewrite unreserve_oom. auto with driver.
  - eexists _, _. split_and!; [done|by apply kick_p2w_push|set_solver].
Qed.

(** The handler always has a result; what it returns [CONSUMED] is queued,
    injected or freed, what it returns [PASS] is never freed. *)
Lemma rx_handler_total env b s :
  ∃ r s' b' evs, moal_bridge_peer_rx_handler env b s = Some (r, s', b', evs) ∧ p2w_eff b b' ∧
    (r = RX_HANDLER_PASS → Free (skb_id s) ∉ evs ∧ ∀ x, NetifRx x ∉ evs) ∧
    (r = RX_HANDLER_CONSUMED → evs = [Free (skb_id s)] ∨ (∃ x, evs = [NetifRx x] ∧ skb_id x = skb_id s) ∨
       (evs = [Wake] ∧ ∃ s', skb_id s' = skb_id s ∧ p2w b' = push_tail s' (add_qlen 1 (p2w b)))).
Proof.
  assert (p2w_eff b b) as Hid by (split; auto with driver).
  assert (∀ (s0 : sk_buff) b0, p2w_eff b b0 → ∃ r s' b' evs,
    Some (RX_HANDLER_PASS, s0, b0, @nil br_event) = Some (r, s', b', evs) ∧ p2w_eff b b' ∧
    (r = RX_HANDLER_PASS → Free (skb_id s) ∉ evs ∧ ∀ x, NetifRx x ∉ evs) ∧
    (r = RX_HANDLER_CONSUMED → evs = [Free (skb_id s)] ∨ (∃ x, evs = [NetifRx x] ∧ skb_id x = skb_id s) ∨
       (evs = [Wake] ∧ ∃ s', skb_id s' = skb_id s ∧ p2w b' = push_tail s' (add_qlen 1 (p2w b))))) as Hpass.
  { intros s0 b0 H0. eexists _, _, _, []. split; [done|]. split; [done|]. split; [|done]. set_solver. }
  unfold moal_bridge_peer_rx_handler.
  destruct (negb (active b)); [by apply Hpass|]. destruct (_ =? ETH_P_PAE); [by apply Hpass|].
  destruct (moal_bridge_is_link_local _); [apply Hpass, upd_p2w_eff; auto with driver|].
  destruct (negb (is_multicast_ether_addr (take 6 (mac_hdr s))) && _); [by apply Hpass|].
  destruct (peer_arp_action_Some env b s) as [act ->]. simpl. destruct act; [by apply Hpass| |].
  { eexists _, _, _, _. split; [done|]. split; [by split; simpl; auto with driver|].
    split; [done|]. intros _. right. left. by eexists. }
  destruct (peer_self_ip_Some b s (take 6 (mac_hdr s))) as [self ->]. simpl.
  destruct self; [by apply Hpass|]. destruct (negb (media_connected env)); [by apply Hpass|].
  destruct (negb _).
  - destruct (forward_unicast_eff env b s) as (b' & evs & -> & He & Hv). eexists _, _, _, _.
    split; [done|]. split; [done|]. split; [done|]. intros _.
    destruct Hv as [-> |(-> & s' & _ & _ & Hi & Hp)]; [by left|]. right. right. eauto.
  - destruct (forward_group_eff env b s) as (b' & evs & E & He & Hf). rewrite E. eexists _, _, _, _.
    split; [done|]. split; [done|]. split; [|done]. intros _. split; [done|].
    unfold peer_forward_group in E. intros x. repeat (case_match; simplify_eq/=); try set_solver.
    all: destruct (p2w_prepare env s) as [[]|]; simplify_eq/=; set_solver.
Qed.

Lemma pt_forward_eff env b s :
  ∃ b' evs, pt_forward env b s = Some (b', evs) ∧ p2w_eff b b'.
Proof.
  assert (p2w_eff b b) as Hid by (split; auto with driver).
  unfold pt_forward. destruct (negb (media_connected env)); [eauto 10|].
  destruct (negb _); [eexists _, _; split; [done|apply upd_p2w_eff; auto with driver]|].
  rewrite reserve_spec. destruct (Z.leb_spec MOAL_BR_P2W_QUEUE_MAX (qlen (p2w b))) as [H|H].
  { eexists _, _. split; [done|apply upd_p2w_eff; auto with driver]. }
  destruct (p2w_prepare_Some env s) as [-> |(s' & -> & _)]; simpl; eexists _, _; (split; [done|]).
  - apply upd_p2w_eff. rewrite unreserve_oom. auto with driver.
  - by apply kick_p2w_push.
Qed.

Lemma arp_then_Some b s off (f : Z → bool) : 0 <= off → ∃ r, (self ← moal_bridge_arp_is_for_self b s off;
    if (self : bool) then op ← arp_op s off; Some (f op) else Some false) = Some r.
Proof.
  intros Ho. destruct (arp_is_for_self_Some b s off Ho) as ([] & -> & H); simpl; [|eauto].
  destruct (H eq_refl) as [op ->]. simpl. eauto.
Qed.
Lemma pt_suppress_Some b s : ∃ r, pt_suppress b s = Some r.
Proof. unfold pt_suppress. destruct (_ && _); [apply (arp_then_Some _ _ _ (λ op, op =? ARPOP_REQUEST)), l3_offset_nonneg|eauto]. Qed.
Lemma pt_inject_Some env b s : ∃ r, pt_inject env b s = Some r.
Proof. unfold pt_inject. destruct (_ && _); [by apply (arp_then_Some _ _ _ (λ op, op =? ARPOP_REPLY))|eauto]. Qed.

Lemma pt_func_total env b s on_peer :
  ∃ b' evs, moal_bridge_peer_pt_func env b s on_peer = Some (b', evs) ∧ p2w_eff b b'.
Proof.
  assert (p2w_eff b b) as Hid by (split; auto with driver).
  unfold moal_bridge_peer_pt_func. destruct (_ || _); [eauto 10|]. destruct (_ =? ETH_P_PAE); [eauto 10|].
  destruct (negb (media_connected env) && negb (vlan_protocol s =? ETH_P_ARP)); [eauto 10|].
  destruct (negb (clone_ok env)); [eexists _, _; split; [done|apply upd_p2w_eff; auto with driver]|].
  destruct (pt_suppress_Some b s) as [r ->]. simpl. destruct r; [eauto 10|].
  destruct (pt_inject_Some env b s) as [r ->].
  simpl. destruct r; [|apply pt_forward_eff]. eexists _, _. split; [done|]. by split; simpl; auto with driver.
Qed.

(** *** The fate of a packet *)

Lemma untouched_refl b : untouched b b.
Proof. by split. Qed.
Lemma counted_drop d : counted d (upd_stats add_dropped d).
Proof. by left. Qed.
Lemma counted_oom d : counted d (upd_stats add_oom d).
Proof. by right. Qed.
#[local] Hint Resolve untouched_refl counted_drop counted_oom : driver.











(** ** Main results *)

Definition demo_stats : moal_bridge_stats := mk_stats 0 0 0 0 0 0 0 0.
Definition demo_wlan_mac : list Z := [2; 0; 0; 0; 0; 7].
(** A bridge with WLAN address 10.0.0.5 and peer address 10.0.0.6. *)
Definition demo_bridge : moal_bridge :=
  mk_bridge true [2; 0; 0; 0; 0; 8] 0x0a000005 0x0a000006 (mk_dir [] 0 demo_stats) (mk_dir [] 0 demo_stats)
    0 0 0 false false 10 1000 0 false 0.
Definition demo_env : br_env :=
  mk_benv true (Some (mk_dev true true true)) (Some (mk_dev true true true)) demo_wlan_mac [2; 0; 0; 0; 0; 8]
    true true false true false false 77.
(** The IPv4 header of a packet to 10.0.0.[x]. *)
Definition demo_ip (x : Z) : list Z := replicate 16 0 ++ [10; 0; 0; x].
Definition demo_eth (proto : list Z) : list Z := demo_wlan_mac ++ [2; 0; 0; 0; 0; 9] ++ proto.
(** As the WLAN side and as the peer side receive it. *)
Definition demo_wlan_skb (x : Z) : sk_buff :=
  mk_skb 1 (demo_eth [8; 0] ++ demo_ip x) [] ETH_P_IP ETH_P_IP PACKET_OTHERHOST WlanDev 0 true 0.
Definition demo_peer_skb (x : Z) : sk_buff :=
  mk_skb 2 (demo_ip x) (demo_eth [8; 0]) ETH_P_IP ETH_P_IP PACKET_OTHERHOST PeerDev 16 true 0.




(** what must not leave the WLAN side is not forwarded by the fast
    path: EAPOL (also behind a VLAN tag), link-local group frames, ARP for an
    address of the box and unicast IPv4 to an address of the box leave the
    queue alone; all but the link-local frames, which are counted and may be
    discarded, go to the stack. *)
Theorem rx_fast_keeps_local env b s proto off :
  (14 <= length (skb_data s))%nat → rx_fast_proto s = Some (Some (proto, off)) →
  let dest := take 6 (skb_data s) in
  (proto = ETH_P_PAE ∨ moal_bridge_is_link_local dest = true ∨
   (proto = ETH_P_ARP ∧ moal_bridge_arp_is_for_self b s off = Some true) ∨
   rx_fast_ip_class b s proto off dest = Some SelfIp) →
  ∃ v b' evs, moal_bridge_rx_fast env b s = Some (v, b', evs) ∧ queue (w2p b') = queue (w2p b) ∧
    (moal_bridge_is_link_local dest = false ∨ bridge_consume_link_local env = false →
     v = Continue ∧ Free (skb_id s) ∉ evs).
Proof.
  intros Hl Hpr dest H. destruct (rx_fast_proto_Some s Hl) as (r & Er & Ho). rewrite Hpr in Er.
  injection Er as <-. destruct (Ho _ _ eq_refl) as [Ho' _].
  unfold moal_bridge_rx_fast. rewrite Hpr. simpl. fold dest.
  assert (∀ b0, queue (w2p b0) = queue (w2p b) → ∃ v b' evs, Some (Continue, b0, @nil br_event) = Some (v, b', evs) ∧
    queue (w2p b') = queue (w2p b) ∧ (moal_bridge_is_link_local dest = false ∨ bridge_consume_link_local env = false →
     v = Continue ∧ Free (skb_id s) ∉ evs)) as Hc.
  { intros b0 H0. eexists _, _, _. split; [done|]. split; [done|]. set_solver. }
  destruct (negb (active b)); [by apply Hc|]. destruct (negb (media_connected env)); [by apply Hc|].
  destruct (Z.eqb_spec proto ETH_P_PAE) as [|Hne]; [by apply Hc|].
  destruct (moal_bridge_is_link_local dest) eqn:Ell.
  { destruct (bridge_consume_link_local env); [|by apply Hc]. eexists _, _, _. split; [done|]. split; [done|].
    by intros [|]. }
  destruct H as [?|[?|[[-> Ha]|Hi]]]; [done|done| |].
  - rewrite Ha. simpl. by apply Hc.
  - destruct (Z.eqb_spec proto ETH_P_ARP) as [->|].
    + unfold rx_fast_ip_class in Hi. simpl in Hi. done.
    + simpl. rewrite Hi. simpl. by apply Hc.
Qed.

Lemma rx_fast_keeps_local_witness :
  ∃ v b' evs, moal_bridge_rx_fast demo_env demo_bridge (demo_wlan_skb 6) = Some (v, b', evs) ∧
    queue (w2p b') = [] ∧
    (moal_bridge_is_link_local demo_wlan_mac = false ∨ bridge_consume_link_local demo_env = false →
     v = Continue ∧ Free 1 ∉ evs).
Proof.
  apply (rx_fast_keeps_local demo_env demo_bridge (demo_wlan_skb 6) ETH_P_IP 14);
    [vm_compute; lia|reflexivity|right; right; right; reflexivity].
Defined.

(** with the link up and the WLAN address known, unicast IPv4 for
    another host is taken off the WLAN side exactly once: queued, byte for
    byte, for the peer, or, when the peer is not usable or the queue is full,
    counted as dropped and freed; the stack never sees it. *)
Theorem rx_fast_forwards_foreign env b s proto off :
  (14 <= length (skb_data s))%nat → active b = true → media_connected env = true →
  rx_fast_proto s = Some (Some (proto, off)) →
  moal_bridge_is_link_local (take 6 (skb_data s)) = false →
  rx_fast_ip_class b s proto off (take 6 (skb_data s)) = Some ForeignIp →
  ∃ b' evs, moal_bridge_rx_fast env b s = Some (Consumed, b', evs) ∧
    ((moal_bridge_dev_ready (peer_dev env) = true ∧ qlen (w2p b) < 512 ∧ evs = [Wake] ∧
      ∃ s', skb_data s' = skb_data s ∧ skb_dev s' = PeerDev ∧ queue (w2p b') = queue (w2p b) ++ [s'] ∧
        qlen (w2p b') = qlen (w2p b) + 1) ∨
     ((moal_bridge_dev_ready (peer_dev env) = false ∨ 512 <= qlen (w2p b)) ∧ evs = [Free (skb_id s)] ∧
      w2p b' = upd_stats add_dropped (w2p b))).
Proof.
  intros Hl Ha Hm Hpr Hll Hi. assert (proto = ETH_P_IP) as ->.
  { unfold rx_fast_ip_class in Hi. destruct (Z.eqb_spec proto ETH_P_IP); [done|]. simpl in Hi. done. }
  unfold moal_bridge_rx_fast. rewrite Ha, Hm, Hpr. simpl. rewrite Hll, Hi. simpl.
  unfold rx_fast_consume. destruct (moal_bridge_dev_ready (peer_dev env)); simpl.
  2: { eexists _, _. split; [done|]. right. auto. }
  rewrite reserve_spec. unfold MOAL_BR_W2P_QUEUE_MAX. destruct (Z.leb_spec 512 (qlen (w2p b))).
  - eexists _, _. split; [done|]. right. auto.
  - eexists _, _. split; [done|]. left. split; [done|]. split; [done|]. split; [done|].
    set (s' := moal_bridge_stamp_enq env (set_skb_dev PeerDev s)). exists s'.
    destruct (ka_kick_dirs env (upd_w2p (λ _, push_tail s' (add_qlen 1 (w2p b))) b)) as (-> & _). done.
Qed.

Lemma rx_fast_forwards_foreign_witness :
  ∃ b' evs, moal_bridge_rx_fast demo_env demo_bridge (demo_wlan_skb 9) = Some (Consumed, b', evs) ∧
    ((moal_bridge_dev_ready (peer_dev demo_env) = true ∧ qlen (w2p demo_bridge) < 512 ∧ evs = [Wake] ∧
      ∃ s', skb_data s' = skb_data (demo_wlan_skb 9) ∧ skb_dev s' = PeerDev ∧
        queue (w2p b') = queue (w2p demo_bridge) ++ [s'] ∧ qlen (w2p b') = qlen (w2p demo_bridge) + 1) ∨
     ((moal_bridge_dev_ready (peer_dev demo_env) = false ∨ 512 <= qlen (w2p demo_bridge)) ∧
      evs = [Free (skb_id (demo_wlan_skb 9))] ∧ w2p b' = upd_stats add_dropped (w2p demo_bridge))).
Proof.
  apply (rx_fast_forwards_foreign demo_env demo_bridge (demo_wlan_skb 9) ETH_P_IP 14);
    [vm_compute; lia|reflexivity|reflexivity|reflexivity|reflexivity|reflexivity].
Defined.

(** the rx_handler never frees or injects a packet it passes to the
    stack, and a packet it reports consumed is in exactly one place: freed,
    injected on the WLAN device, or at the end of the queue. *)
Theorem rx_handler_ownership env b s r s' b' evs :
  moal_bridge_peer_rx_handler env b s = Some (r, s', b', evs) →
  (r = RX_HANDLER_PASS → Free (skb_id s) ∉ evs ∧ ∀ x, NetifRx x ∉ evs) ∧
  (r = RX_HANDLER_CONSUMED → evs = [Free (skb_id s)] ∨ (∃ x, evs = [NetifRx x] ∧ skb_id x = skb_id s) ∨
     (evs = [Wake] ∧ ∃ x, skb_id x = skb_id s ∧ p2w b' = push_tail x (add_qlen 1 (p2w b)))).
Proof.
  intros E. destruct (rx_handler_total env b s) as (r1 & s1 & b1 & ev1 & E1 & _ & H1 & H2).
  rewrite E in E1. by simplify_eq.
Qed.

Lemma rx_handler_ownership_witness :
  ∃ s' b' evs, moal_bridge_peer_rx_handler demo_env demo_bridge (demo_peer_skb 9) =
      Some (RX_HANDLER_CONSUMED, s', b', evs) ∧
    (evs = [Free 2] ∨ (∃ x, evs = [NetifRx x] ∧ skb_id x = 2) ∨
     (evs = [Wake] ∧ ∃ x, skb_id x = 2 ∧ p2w b' = push_tail x (add_qlen 1 (p2w demo_bridge)))).
Proof.
  eexists _, _, _. split; [reflexivity|].
  eapply (rx_handler_ownership demo_env demo_bridge (demo_peer_skb 9) RX_HANDLER_CONSUMED); reflexivity.
Defined.

(** what must not go on the air is not forwarded by the rx_handler:
    EAPOL, link-local group frames, unicast to the peer's own MAC, ARP
    requests for an address of the box, unicast IPv4 to an address of the box,
    and everything while the WLAN side is not connected. *)
Theorem rx_handler_keeps_local env b s :
  let h_dest := take 6 (mac_hdr s) in
  (vlan_protocol s = ETH_P_PAE ∨ moal_bridge_is_link_local h_dest = true ∨
   (is_multicast_ether_addr h_dest = false ∧ h_dest = peer_mac b) ∨
   peer_arp_action env b s = Some ArpPass ∨ peer_self_ip b s h_dest = Some true ∨
   media_connected env = false) →
  ∃ r s' b' evs, moal_bridge_peer_rx_handler env b s = Some (r, s', b', evs) ∧
    queue (p2w b') = queue (p2w b) ∧ queue (w2p b') = queue (w2p b) ∧ Free (skb_id s) ∉ evs ∧
    (peer_arp_action env b s ≠ Some ArpInject → r = RX_HANDLER_PASS).
Proof.
  intros h_dest H. unfold moal_bridge_peer_rx_handler. fold h_dest.
  assert (∀ (s0 : sk_buff) b0, queue (p2w b0) = queue (p2w b) → queue (w2p b0) = queue (w2p b) →
    ∃ r s' b' evs, Some (RX_HANDLER_PASS, s0, b0, @nil br_event) = Some (r, s', b', evs) ∧
    queue (p2w b') = queue (p2w b) ∧ queue (w2p b') = queue (w2p b) ∧ Free (skb_id s) ∉ evs ∧
    (peer_arp_action env b s ≠ Some ArpInject → r = RX_HANDLER_PASS)) as Hc.
  { intros s0 b0 H0 H1. eexists _, _, _, _. split; [done|]. split_and!; [done..|set_solver|done]. }
  destruct (negb (active b)); [by apply Hc|].
  destruct (Z.eqb_spec (vlan_protocol s) ETH_P_PAE); [by apply Hc|].
  destruct (moal_bridge_is_link_local h_dest); [by apply Hc|].
  destruct (negb (is_multicast_ether_addr h_dest) && bool_decide (h_dest = peer_mac b)) eqn:Em; [by apply Hc|].
  destruct (peer_arp_action_Some env b s) as [act Hact]. rewrite Hact in *. simpl.
  destruct act; [by apply Hc| |].
  { eexists _, _, _, _. split; [done|]. split_and!; [done..|set_solver|done]. }
  destruct (peer_self_ip_Some b s h_dest) as [self Hself]. rewrite Hself in *. simpl.
  destruct self; [by apply Hc|]. destruct (media_connected env) eqn:Emc; simpl; [|by apply Hc].
  exfalso. destruct H as [?|[?|[[Hu Hd]|[?|[?|?]]]]]; try done.
  rewrite Hu in Em. simpl in Em. rewrite bool_decide_eq_true_2 in Em by done. done.
Qed.

(** A peer packet for the WLAN address of the box, sent to the cloned MAC. *)
Lemma rx_handler_keeps_local_witness :
  ∃ r s' b' evs, moal_bridge_peer_rx_handler demo_env demo_bridge (demo_peer_skb 5) = Some (r, s', b', evs) ∧
    queue (p2w b') = [] ∧ queue (w2p b') = [] ∧ Free 2 ∉ evs ∧
    (peer_arp_action demo_env demo_bridge (demo_peer_skb 5) ≠ Some ArpInject → r = RX_HANDLER_PASS).
Proof.
  apply (rx_handler_keeps_local demo_env demo_bridge (demo_peer_skb 5)). right. right. right. right. left. reflexivity.
Defined.

(** a unicast frame sent to the cloned MAC is never lost for the
    box: unicast IPv4 to an address of the box, and with the WLAN side down
    any such frame, reaches the stack as [PACKET_HOST], not as the
    [PACKET_OTHERHOST] the stack would discard. *)
Theorem rx_handler_local_delivery env b s :
  active b = true → vlan_protocol s ≠ ETH_P_PAE → vlan_protocol s ≠ ETH_P_ARP →
  let h_dest := take 6 (mac_hdr s) in
  moal_bridge_is_link_local h_dest = false → is_multicast_ether_addr h_dest = false → h_dest ≠ peer_mac b →
  (peer_self_ip b s h_dest = Some true ∨ (media_connected env = false ∧ h_dest = wlan_dev_addr env)) →
  ∃ s' b' evs, moal_bridge_peer_rx_handler env b s = Some (RX_HANDLER_PASS, s', b', evs) ∧
    pkt_type s' ≠ PACKET_OTHERHOST ∧ skb_data s' = skb_data s.
Proof.
  intros Ha Hp Harp h_dest Hll Hmc Hpm H. unfold moal_bridge_peer_rx_handler. fold h_dest. rewrite Ha. simpl.
  destruct (Z.eqb_spec (vlan_protocol s) ETH_P_PAE); [done|]. rewrite Hll, Hmc. simpl.
  rewrite bool_decide_eq_false_2 by done. unfold peer_arp_action.
  destruct (Z.eqb_spec (vlan_protocol s) ETH_P_ARP); [done|]. simpl.
  assert (pkt_type (fix_otherhost s) ≠ PACKET_OTHERHOST ∧ skb_data (fix_otherhost s) = skb_data s) as [F1 F2].
  { unfold fix_otherhost. by case_bool_decide. }
  destruct (peer_self_ip_Some b s h_dest) as [self Hself]. rewrite Hself in *. simpl.
  destruct self; [by eexists _, _, _|]. destruct H as [?|[Hm Hw]]; [done|]. rewrite Hm. simpl.
  rewrite (bool_decide_eq_true_2 (h_dest = _)) by done. rewrite andb_true_r.
  eexists _, _, _. split; [done|]. by case_bool_decide.
Qed.

Lemma rx_handler_local_delivery_witness :
  ∃ s' b' evs, moal_bridge_peer_rx_handler demo_env demo_bridge (demo_peer_skb 5) =
      Some (RX_HANDLER_PASS, s', b', evs) ∧
    pkt_type s' ≠ PACKET_OTHERHOST ∧ skb_data s' = demo_ip 5.
Proof.
  apply (rx_handler_local_delivery demo_env demo_bridge (demo_peer_skb 5));
    try reflexivity; try discriminate. left. reflexivity.
Defined.

(** The drain of a direction, independent of which one it is. *)
Lemma drain_one_spec env released act ready ok d s q : queue d = s :: q →
  let '(d', evs) := drain_one env released act ready ok d in
  queue d' = q ∧ qlen d' = qlen d - 1 ∧ accounted d' = accounted d ∧
  evs = [if released || negb act || negb ready then Free (skb_id s) else Xmit s].
Proof.
  intros E. unfold drain_one. rewrite E. unfold accounted. rewrite E. simpl length.
  destruct (released || negb act || negb ready); simpl; [split_and!; [done..|lia|done]|].
  unfold moal_bridge_account_dwell. destruct (enq_ts s =? 0), ok; simpl; split_and!; try done; lia.
Qed.

(** a wake-up of the WLAN-to-peer thread empties its queue in as many
    steps as it holds packets, in queue order: every packet is transmitted, or
    freed and counted when the peer is released or not usable or the bridge is
    inactive, and each is accounted for exactly once. *)
Theorem w2p_drain_complete env ok b n :
  dir_ok (w2p b) →
  ∃ b' evs, w2p_drain (length (queue (w2p b))) env ok b n = Some (b', evs) ∧
    queue (w2p b') = [] ∧ qlen (w2p b') = 0 ∧ accounted (w2p b') = accounted (w2p b) ∧ p2w b' = p2w b ∧
    evs = (λ s, if peer_released b || negb (active b) || negb (moal_bridge_dev_ready (peer_dev env))
                then Free (skb_id s) else Xmit s) <$> queue (w2p b).
Proof.
  remember (queue (w2p b)) as q eqn:Hq. revert b n Hq.
  induction q as [|s q IH]; intros b n Hq [Hn Hc]; rewrite <- Hq in Hn; simpl; rewrite <- Hq.
  { eexists _, _. split; [done|]. simpl in Hn. done. }
  pose proof (drain_one_spec env (peer_released b) (active b) (moal_bridge_dev_ready (peer_dev env)) (ok n)
    (w2p b) s q (eq_sym Hq)) as HD.
  destruct (drain_one _ _ _ _ _ (w2p b)) as [d evs]. destruct HD as (Q & L & A & ->).
  destruct (IH (upd_w2p (λ _, d) b) (S n)) as (b' & evs' & -> & Q' & L' & A' & P' & E').
  - simpl. by rewrite Q.
  - split; simpl; [rewrite L, Hn, Q; simpl length; lia|lia].
  - simpl. eexists _, _. split; [done|]. split_and!; [done..|by rewrite A', <- A|done|]. by rewrite E'.
Qed.

Definition demo_loaded : moal_bridge :=
  upd_w2p (λ d, push_tail (demo_wlan_skb 9) (add_qlen 1 d)) demo_bridge.

Lemma w2p_drain_complete_witness :
  ∃ b' evs, w2p_drain 1 demo_env (λ _, true) demo_loaded 0 = Some (b', evs) ∧
    queue (w2p b') = [] ∧ qlen (w2p b') = 0 ∧ accounted (w2p b') = accounted (w2p demo_loaded) ∧
    p2w b' = p2w demo_loaded ∧ evs = [Xmit (demo_wlan_skb 9)].
Proof. apply (w2p_drain_complete demo_env (λ _, true) demo_loaded 0). by split. Defined.
