(* ===== verification/BridgeQueue.v ===== *)
(** * moal_bridge.c: the packet queues under concurrency

    Several receive contexts enqueue into a direction's queue while its drain
    thread and a NETDEV_DOWN purge dequeue.  [qstep] interleaves their shared
    accesses: the reservation by atomic_inc_return, its undoing, skb_queue_tail,
    wake_up, the thread's wait_event, skb_dequeue and atomic_dec. *)

From S2P Require Import Prelude.

Definition QUEUE_MAX : Z := 512.

(** Producers of packet [id]: [moal_bridge_rx_fast] and the peer's handlers. *)
Inductive producer :=
| PReserve (id : Z)      (** before atomic_inc_return *)
| PUndo (id : Z)         (** over the cap, or no headroom: before atomic_dec *)
| PReserved (id : Z)     (** reserved, before skb_queue_tail *)
| PWake                  (** queued, before wake_up *)
| PDone.
#[export] Instance producer_eq_dec : EqDecision producer.
Proof. solve_decision. Defined.

(** The drain thread: around wait_event, then its inner loop. *)
Inductive drainer :=
| TIdle                  (** before it joins the wait queue *)
| TCheck                 (** on the wait queue, before testing the condition *)
| TAsleep
| TDequeue
| TTaken (id : Z).       (** dequeued, before atomic_dec *)

(** The purge of NETDEV_DOWN. *)
Inductive purger := GDequeue | GTaken (id : Z) | GDone.
#[export] Instance purger_eq_dec : EqDecision purger.
Proof. solve_decision. Defined.

Record qstate := mk_qstate {
  q_len : Z;                    (** the atomic counter *)
  q_list : list Z;              (** the sk_buff list *)
  producers : list producer;
  thread : drainer;
  woken : bool;                 (** a wake_up reached the waiting thread *)
  purgers : list purger;
  accepted : list Z;            (** history: packets in the order they were queued *)
  taken : list Z                (** history: packets in the order they were dequeued *)
}.

Definition set_thread (t : drainer) (wk : bool) (s : qstate) : qstate :=
  mk_qstate (q_len s) (q_list s) (producers s) t wk (purgers s) (accepted s) (taken s).
Definition set_producer (i : nat) (p : producer) (n : Z) (s : qstate) : qstate :=
  mk_qstate (q_len s + n) (q_list s) (<[i := p]> (producers s)) (thread s) (woken s) (purgers s)
    (accepted s) (taken s).
Definition set_purger (i : nat) (g : purger) (n : Z) (s : qstate) : qstate :=
  mk_qstate (q_len s + n) (q_list s) (producers s) (thread s) (woken s) (<[i := g]> (purgers s))
    (accepted s) (taken s).
Definition q_tail (id : Z) (s : qstate) : qstate :=
  mk_qstate (q_len s) (q_list s ++ [id]) (producers s) (thread s) (woken s) (purgers s)
    (accepted s ++ [id]) (taken s).
Definition q_head (id : Z) (rest : list Z) (s : qstate) : qstate :=
  mk_qstate (q_len s) rest (producers s) (thread s) (woken s) (purgers s) (accepted s) (taken s ++ [id]).

(** A producer's next access; [room] is whether the packet has its headroom. *)
Definition enqueue_step (room : bool) (i : nat) (p : producer) (s : qstate) : qstate :=
  match p with
  | PReserve id =>
      if q_len s + 1 >? QUEUE_MAX then set_producer i (PUndo id) 1 s else set_producer i (PReserved id) 1 s
  | PUndo id => set_producer i PDone (-1) s
  | PReserved id => if room then set_producer i PWake 0 (q_tail id s) else set_producer i (PUndo id) 0 s
  | PWake => set_producer i PDone 0 (set_thread (thread s) true s)
  | PDone => s
  end.

(** The thread's next access. *)
Definition drain_step (s : qstate) : qstate :=
  match thread s with
  | TIdle => set_thread TCheck false s
  | TCheck => match q_list s with [] => set_thread TAsleep (woken s) s | _ => set_thread TDequeue (woken s) s end
  | TAsleep => if woken s then set_thread TIdle false s else s
  | TDequeue =>
      match q_list s with
      | [] => set_thread TIdle (woken s) s
      | id :: rest => set_thread (TTaken id) (woken s) (q_head id rest s)
      end
  | TTaken _ =>
      mk_qstate (q_len s - 1) (q_list s) (producers s) TDequeue (woken s) (purgers s) (accepted s) (taken s)
  end.

Definition purge_step (i : nat) (g : purger) (s : qstate) : qstate :=
  match g with
  | GDequeue =>
      match q_list s with
      | [] => set_purger i GDone 0 s
      | id :: rest => set_purger i (GTaken id) 0 (q_head id rest s)
      end
  | GTaken _ => set_purger i GDequeue (-1) s
  | GDone => s
  end.

Inductive qstep (s : qstate) : qstate → Prop :=
| qs_arrive id : qstep s (mk_qstate (q_len s) (q_list s) (producers s ++ [PReserve id]) (thread s) (woken s)
    (purgers s) (accepted s) (taken s))
| qs_down : qstep s (mk_qstate (q_len s) (q_list s) (producers s) (thread s) (woken s)
    (purgers s ++ [GDequeue]) (accepted s) (taken s))
| qs_produce room i p : producers s !! i = Some p → qstep s (enqueue_step room i p s)
| qs_drain : qstep s (drain_step s)
| qs_purge i g : purgers s !! i = Some g → qstep s (purge_step i g s).

Definition q_initial : qstate := mk_qstate 0 [] [] TIdle false [] [] [].
Definition q_reachable : qstate → Prop := rtc qstep q_initial.

(** ** The invariant *)

(** What the counter counts besides the packets on the queue; an undo in
    progress is the only thing it may count beyond the cap. *)
Definition counted (p : producer) : Z := match p with PUndo _ | PReserved _ => 1 | _ => 0 end.
Definition reserved (p : producer) : Z := match p with PReserved _ => 1 | _ => 0 end.
Definition purging (g : purger) : Z := match g with GTaken _ => 1 | _ => 0 end.
Definition draining (t : drainer) : Z := match t with TTaken _ => 1 | _ => 0 end.

Record qinv (s : qstate) : Prop := {
  qi_count : q_len s = Z.of_nat (length (q_list s)) + zsum counted (producers s) +
             draining (thread s) + zsum purging (purgers s);
  qi_cap : Z.of_nat (length (q_list s)) + zsum reserved (producers s) + draining (thread s) +
           zsum purging (purgers s) <= QUEUE_MAX;
  qi_fifo : accepted s = taken s ++ q_list s;
  qi_wake : thread s = TAsleep → woken s = false → q_list s ≠ [] → Exists (eq PWake) (producers s)
}.

Lemma counted_reserved l : zsum reserved l <= zsum counted l.
Proof. induction l as [|p l IH]; simpl; [lia|]. destruct p; simpl; lia. Qed.
Lemma purging_nonneg l : 0 <= zsum purging l.
Proof. apply zsum_nonneg. by intros []. Qed.
Lemma reserved_nonneg l : 0 <= zsum reserved l.
Proof. apply zsum_nonneg. by intros []. Qed.
Lemma draining_nonneg t : 0 <= draining t.
Proof. by destruct t. Qed.

Lemma produce_inv s room i p : qinv s → producers s !! i = Some p → qinv (enqueue_step room i p s).
Proof.
  intros [Hc Hcap Hf Hw] Hi.
  pose proof (λ q, zsum_insert counted _ i p q Hi) as Hcnt.
  pose proof (λ q, zsum_insert reserved _ i p q Hi) as Hres.
  pose proof (counted_reserved (producers s)).
  assert (Hk : ∀ q, p ≠ PWake → thread s = TAsleep → woken s = false → q_list s ≠ [] →
    Exists (eq PWake) (<[i := q]> (producers s))).
  { intros q Hp H1 H2 H3. apply Exists_insert_other with p; [done|congruence|by apply Hw]. }
  destruct p; simpl; [| | | |by constructor].
  - destruct (Z.gtb_spec (q_len s + 1) QUEUE_MAX); (constructor; simpl; [| |done|by apply Hk]);
      rewrite ?Hcnt, ?Hres; simpl; lia.
  - constructor; simpl; [| |done|by apply Hk]; rewrite ?Hcnt, ?Hres; simpl; lia.
  - destruct room; (constructor; simpl).
    + rewrite Hcnt, length_app. simpl. lia.
    + rewrite Hres, length_app. simpl. lia.
    + by rewrite Hf, app_assoc.
    + intros _ _ _. by apply Exists_insert_here with (PReserved id).
    + rewrite Hcnt. simpl. lia.
    + rewrite Hres. simpl. lia.
    + done.
    + by apply Hk.
  - constructor; simpl; [| |done|done]; rewrite ?Hcnt, ?Hres; simpl; lia.
Qed.

Lemma drain_inv s : qinv s → qinv (drain_step s).
Proof.
  intros [Hc Hcap Hf Hw]. unfold drain_step. destruct (thread s) eqn:Et; simpl in *.
  - by constructor.
  - destruct (q_list s) eqn:Eq; constructor; simpl; rewrite ?Eq; try done; by rewrite Eq in *.
  - destruct (woken s) eqn:Ewk; constructor; rewrite ?Et, ?Ewk; done.
  - destruct (q_list s) as [|id rest] eqn:Eq; constructor; simpl in *; try done; rewrite ?Eq; simpl; try lia;
      try done. by rewrite Hf, <- app_assoc.
  - constructor; simpl; try done; lia.
Qed.

Lemma purge_inv s i g : qinv s → purgers s !! i = Some g → qinv (purge_step i g s).
Proof.
  intros [Hc Hcap Hf Hw] Hi. pose proof (λ q, zsum_insert purging _ i g q Hi) as Hp.
  destruct g; simpl; [| |by constructor].
  - destruct (q_list s) as [|id rest] eqn:Eq; constructor; simpl in *; rewrite ?Eq, ?Hp; simpl; try lia; try done.
    + by rewrite Hf, <- app_assoc.
    + intros H1 H2 _. by apply Hw.
  - constructor; simpl; rewrite ?Hp; simpl; try done; lia.
Qed.

Lemma qstep_inv s s' : qinv s → qstep s s' → qinv s'.
Proof.
  intros I Hs. assert (I' := I). destruct I as [Hc Hcap Hf Hw]. destruct Hs.
  - constructor; simpl; rewrite ?zsum_app; simpl; try lia; [done|].
    intros H1 H2 H3. apply Exists_app. left. by apply Hw.
  - constructor; simpl; rewrite ?zsum_app; simpl; try lia; done.
  - by apply produce_inv.
  - by apply drain_inv.
  - by apply purge_inv.
Qed.

Lemma q_reachable_inv s : q_reachable s → qinv s.
Proof.
  unfold q_reachable. assert (qinv q_initial) as I by (constructor; simpl; done || (unfold QUEUE_MAX; lia)).
  intros H. revert I. induction H; [done|]. intros I. by apply IHrtc, (qstep_inv x).
Qed.

(** ** Properties *)

(** in every interleaving of producers, the drain thread and purges the
    queue never exceeds its cap, even though the counter itself may overshoot
    while refused producers undo their reservation; and when nobody is between
    two accesses the counter equals the length, so no path leaks a slot. *)
Theorem queue_cap_holds (s : qstate) :
  q_reachable s →
  Z.of_nat (length (q_list s)) <= QUEUE_MAX ∧
  (Forall (λ p, counted p = 0) (producers s) → Forall (λ g, purging g = 0) (purgers s) →
   draining (thread s) = 0 → q_len s = Z.of_nat (length (q_list s))).
Proof.
  intros [Hc Hcap _ _]%q_reachable_inv. split.
  - pose proof (reserved_nonneg (producers s)). pose proof (purging_nonneg (purgers s)).
    pose proof (draining_nonneg (thread s)). lia.
  - intros H1 H2 H3. rewrite Hc, (zsum_zero _ _ H1), (zsum_zero _ _ H2), H3. lia.
Qed.

(** packets leave in the order they were queued, each exactly once, and
    none is stranded: when the drain thread sleeps without a pending wake-up and
    no producer is about to wake it, the queue is empty. *)
Theorem queue_fifo_no_lost_wakeup (s : qstate) :
  q_reachable s →
  accepted s = taken s ++ q_list s ∧
  (thread s = TAsleep → woken s = false → ¬ Exists (eq PWake) (producers s) → q_list s = []).
Proof.
  intros [_ _ Hf Hw]%q_reachable_inv. split; [done|]. intros H1 H2 H3.
  destruct (q_list s); [done|]. exfalso. by apply H3, Hw.
Qed.

(** ** A concrete run *)

(** One packet arrives while the thread sleeps; the thread is woken and takes it. *)
Definition demo_sleeping : qstate := drain_step (drain_step q_initial).
Definition demo_queued : qstate :=
  enqueue_step true 0 (PReserved 7) (enqueue_step true 0 (PReserve 7)
    (mk_qstate 0 [] [PReserve 7] TAsleep false [] [] [])).

Lemma demo_queued_reachable : q_reachable demo_queued.
Proof.
  unfold q_reachable.
  eapply rtc_l; [apply qs_drain|]. eapply rtc_l; [apply qs_drain|]. eapply rtc_l; [apply (qs_arrive _ 7)|].
  eapply rtc_l; [by apply (qs_produce _ true 0 (PReserve 7))|].
  eapply rtc_l; [by apply (qs_produce _ true 0 (PReserved 7))|]. apply rtc_refl.
Qed.

Lemma queue_cap_holds_witness :
  Z.of_nat (length (q_list demo_queued)) <= QUEUE_MAX ∧
  (Forall (λ p, counted p = 0) (producers demo_queued) → Forall (λ g, purging g = 0) (purgers demo_queued) →
   draining (thread demo_queued) = 0 → q_len demo_queued = Z.of_nat (length (q_list demo_queued))).
Proof. apply queue_cap_holds, demo_queued_reachable. Defined.

Lemma queue_fifo_no_lost_wakeup_witness :
  accepted demo_queued = taken demo_queued ++ q_list demo_queued ∧
  (thread demo_queued = TAsleep → woken demo_queued = false → ¬ Exists (eq PWake) (producers demo_queued) →
   q_list demo_queued = []).
Proof. apply queue_fifo_no_lost_wakeup, demo_queued_reachable. Defined.
