(* ===== verification/BridgeKeepalive.v ===== *)
(** * moal_bridge.c: the adaptive keepalive timer

    The timer callback [moal_bridge_keepalive], the producers' [moal_bridge_ka_kick]
    and the timer part of init and deinit run concurrently.  Each is a small
    machine that makes one shared access per step; [ka_step] interleaves them
    with the clock and with the kernel's hrtimer (a timer fires only when it is
    enqueued and its callback is not running, and a callback that returns
    HRTIMER_RESTART is enqueued again unless someone has enqueued it). *)

From S2P Require Import Prelude.

(** ** The machines *)

Definition NSEC_PER_MSEC : Z := 1000000.

(** The effective policy of the instance. *)
Record ka_params := mk_ka_params { keepalive_ms : Z; keepalive_idle_ms : Z }.

(** Control points of the callback; the two idle measurements load
    [ka_last_fwd] first and the clock second. *)
Inductive cb_pc :=
| CbIdle
| CbEnter
| CbPolicy
| CbClock1 (last : Z)
| CbClear
| CbLoad2
| CbClock2 (last : Z)
| CbCas
| CbReturn (restart : bool).

(** Control points of a producer in [moal_bridge_ka_kick]. *)
Inductive kick_pc :=
| KEnter
| KStamp (t : Z)
| KRead
| KCas
| KStart
| KDone.
#[export] Instance kick_pc_eq_dec : EqDecision kick_pc.
Proof. solve_decision. Defined.

(** How far the teardown of the instance has come. *)
Inductive ka_phase := KaRunning | KaCancelled | KaDrained | KaCleared | KaStopped.
#[export] Instance ka_phase_eq_dec : EqDecision ka_phase.
Proof. solve_decision. Defined.

Record ka := mk_ka {
  now : Z;               (** ktime_get(), in ns *)
  ka_last_fwd : Z;
  ka_armed : bool;
  enqueued : bool;       (** the hrtimer is on its queue *)
  expires : Z;           (** its expiry *)
  callback : cb_pc;
  kicks : list kick_pc;  (** the producers that have entered ka_kick *)
  br_active : bool;
  main_work : Z;         (** times main_work was queued *)
  phase : ka_phase;
  stamped : bool         (** history: some producer stored a timestamp *)
}.

Definition set_callback (x : cb_pc) (s : ka) : ka :=
  mk_ka (now s) (ka_last_fwd s) (ka_armed s) (enqueued s) (expires s) x (kicks s) (br_active s)
    (main_work s) (phase s) (stamped s).
Definition set_armed (x : bool) (s : ka) : ka :=
  mk_ka (now s) (ka_last_fwd s) x (enqueued s) (expires s) (callback s) (kicks s) (br_active s)
    (main_work s) (phase s) (stamped s).
Definition set_timer (q : bool) (x : Z) (s : ka) : ka :=
  mk_ka (now s) (ka_last_fwd s) (ka_armed s) q x (callback s) (kicks s) (br_active s)
    (main_work s) (phase s) (stamped s).
Definition set_kicks (x : list kick_pc) (s : ka) : ka :=
  mk_ka (now s) (ka_last_fwd s) (ka_armed s) (enqueued s) (expires s) (callback s) x (br_active s)
    (main_work s) (phase s) (stamped s).
Definition set_last_fwd (x : Z) (s : ka) : ka :=
  mk_ka (now s) x (ka_armed s) (enqueued s) (expires s) (callback s) (kicks s) (br_active s)
    (main_work s) (phase s) true.
Definition set_now (x : Z) (s : ka) : ka :=
  mk_ka x (ka_last_fwd s) (ka_armed s) (enqueued s) (expires s) (callback s) (kicks s) (br_active s)
    (main_work s) (phase s) (stamped s).
Definition set_br_active (x : bool) (s : ka) : ka :=
  mk_ka (now s) (ka_last_fwd s) (ka_armed s) (enqueued s) (expires s) (callback s) (kicks s) x
    (main_work s) (phase s) (stamped s).
Definition set_phase (x : ka_phase) (s : ka) : ka :=
  mk_ka (now s) (ka_last_fwd s) (ka_armed s) (enqueued s) (expires s) (callback s) (kicks s)
    (br_active s) (main_work s) x (stamped s).
Definition add_main_work (s : ka) : ka :=
  mk_ka (now s) (ka_last_fwd s) (ka_armed s) (enqueued s) (expires s) (callback s) (kicks s)
    (br_active s) (main_work s + 1) (phase s) (stamped s).

Definition ka_interval (P : ka_params) : Z := u64 (keepalive_ms P) * NSEC_PER_MSEC.
Definition ktime_to_us (t : Z) : Z := Z.quot t 1000.
Definition cutoff_us (P : ka_params) : Z := keepalive_idle_ms P * 1000.

(** [hrtimer_forward_now]: the expiry moves past the current time by whole intervals. *)
Definition hrtimer_forward_now (interval : Z) (s : ka) : ka :=
  if now s <? expires s then s
  else set_timer (enqueued s)
         (expires s + interval * ((now s - expires s) / interval + 1)) s.

(** One step of the callback; [CbReturn] is the kernel's handling of its result. *)
Definition moal_bridge_keepalive (P : ka_params) (s : ka) : ka :=
  match callback s with
  | CbIdle => s
  | CbEnter => set_callback CbPolicy (if br_active s then add_main_work s else s)
  | CbPolicy =>
      if keepalive_ms P <=? 0 then set_callback (CbReturn false) s
      else if keepalive_idle_ms P >? 0 then set_callback (CbClock1 (ka_last_fwd s)) s
      else set_callback (CbReturn true) (hrtimer_forward_now (ka_interval P) s)
  | CbClock1 last =>
      if ktime_to_us (now s - last) >=? cutoff_us P then set_callback CbClear s
      else set_callback (CbReturn true) (hrtimer_forward_now (ka_interval P) s)
  | CbClear => set_callback CbLoad2 (set_armed false s)
  | CbLoad2 => set_callback (CbClock2 (ka_last_fwd s)) s
  | CbClock2 last =>
      if ktime_to_us (now s - last) <? cutoff_us P then set_callback CbCas s
      else set_callback (CbReturn false) s
  | CbCas =>
      if negb (ka_armed s)
      then set_callback (CbReturn true) (hrtimer_forward_now (ka_interval P) (set_armed true s))
      else set_callback (CbReturn false) s
  | CbReturn restart =>
      set_callback CbIdle
        (if restart && negb (enqueued s) then set_timer true (expires s) s else s)
  end.

(** One step of producer [i], at control point [pc]. *)
Definition moal_bridge_ka_kick (P : ka_params) (i : nat) (pc : kick_pc) (s : ka) : ka :=
  let goto pc s := set_kicks (<[i := pc]> (kicks s)) s in
  match pc with
  | KEnter =>
      if (keepalive_ms P <=? 0) || (keepalive_idle_ms P <=? 0) then goto KDone s
      else goto (KStamp (now s)) s
  | KStamp t => goto KRead (set_last_fwd t s)
  | KRead => if negb (ka_armed s) then goto KCas s else goto KDone s
  | KCas => if negb (ka_armed s) then goto KStart (set_armed true s) else goto KDone s
  | KStart => goto KDone (set_timer true (now s + ka_interval P) s)
  | KDone => s
  end.

(** The timer part of [__moal_bridge_init_locked]. *)
Definition keepalive_init (P : ka_params) (t : Z) : ka :=
  let s := mk_ka t t false false t CbIdle [] false 0 KaRunning false in
  if keepalive_ms P >? 0 then
    if keepalive_idle_ms P >? 0 then s
    else set_timer true (now s + ka_interval P) (set_armed true s)
  else s.

Definition kicks_done (s : ka) : Prop := Forall (eq KDone) (kicks s).

(** The interleavings: [step_cancel], [step_drain], [step_clear] and
    [step_stop] are the keepalive parts of [__moal_bridge_deinit_locked] in its
    order; hrtimer_cancel waits for a running callback, and the drain for the
    producers that are inside, after which none enters. *)
Inductive ka_step (P : ka_params) (s : ka) : ka → Prop :=
| step_tick d : 0 <= d → ka_step P s (set_now (now s + d) s)
| step_active b : ka_step P s (set_br_active b s)
| step_enter : phase s = KaRunning ∨ phase s = KaCancelled →
    ka_step P s (set_kicks (kicks s ++ [KEnter]) s)
| step_kick i pc : kicks s !! i = Some pc → ka_step P s (moal_bridge_ka_kick P i pc s)
| step_fire : enqueued s = true → callback s = CbIdle → expires s <= now s →
    ka_step P s (set_callback CbEnter (set_timer false (expires s) s))
| step_callback : callback s ≠ CbIdle → ka_step P s (moal_bridge_keepalive P s)
| step_cancel : phase s = KaRunning → callback s = CbIdle →
    ka_step P s (set_phase KaCancelled (set_timer false (expires s) s))
| step_drain : phase s = KaCancelled → kicks_done s → ka_step P s (set_phase KaDrained s)
| step_clear : phase s = KaDrained → ka_step P s (set_phase KaCleared (set_armed false s))
| step_stop : phase s = KaCleared → callback s = CbIdle →
    ka_step P s (set_phase KaStopped (set_timer false (expires s) s)).

Inductive ka_reachable (P : ka_params) (t : Z) : ka → Prop :=
| ka_reach_init : ka_reachable P t (keepalive_init P t)
| ka_reach_step s s' : ka_reachable P t s → ka_step P s s' → ka_reachable P t s'.

(** An executable scheduler, for concrete runs: what each step is, when enabled. *)
Inductive ka_choice := DoTick (d : Z) | DoEnter | DoKick (i : nat) | DoFire | DoCallback.
Definition ka_do (P : ka_params) (c : ka_choice) (s : ka) : option ka :=
  match c with
  | DoTick d => if 0 <=? d then Some (set_now (now s + d) s) else None
  | DoEnter =>
      if bool_decide (phase s = KaRunning) then Some (set_kicks (kicks s ++ [KEnter]) s) else None
  | DoKick i => pc ← kicks s !! i; Some (moal_bridge_ka_kick P i pc s)
  | DoFire =>
      match callback s with
      | CbIdle => if enqueued s && (expires s <=? now s)
                  then Some (set_callback CbEnter (set_timer false (expires s) s)) else None
      | _ => None
      end
  | DoCallback => match callback s with CbIdle => None | _ => Some (moal_bridge_keepalive P s) end
  end.
Fixpoint ka_run (P : ka_params) (cs : list ka_choice) (s : ka) : option ka :=
  match cs with [] => Some s | c :: cs => s' ← ka_do P c s; ka_run P cs s' end.

(** ** Who owns the next start of the timer *)

(** The callback will return RESTART or has not yet given up the timer. *)
Definition cb_owns (c : cb_pc) : bool :=
  match c with
  | CbEnter | CbPolicy | CbClock1 _ | CbClear => true
  | CbReturn r => r
  | _ => false
  end.
Definition won (pc : kick_pc) : Z := Z.b2z (bool_decide (pc = KStart)).
Definition sum_won (l : list kick_pc) : Z := zsum won l.

Definition owners (s : ka) : Z :=
  Z.b2z (enqueued s) + Z.b2z (cb_owns (callback s)) + sum_won (kicks s).

(** A producer has stored its timestamp and not yet settled who arms. *)
Definition settling (s : ka) : Prop := Exists (λ pc, pc = KRead ∨ pc = KCas) (kicks s).
Definition adaptive (P : ka_params) : Prop := 0 < keepalive_ms P ∧ 0 < keepalive_idle_ms P.
(** The link has been idle for the cutoff. *)
Definition idle_enough (P : ka_params) (s : ka) : Prop :=
  cutoff_us P <= ktime_to_us (now s - ka_last_fwd s).

Lemma won_nonneg pc : 0 <= won pc <= 1.
Proof. unfold won. case_bool_decide; simpl; lia. Qed.
Lemma sum_won_nonneg l : 0 <= sum_won l.
Proof. apply zsum_nonneg. intros pc. pose proof (won_nonneg pc). lia. Qed.
Lemma sum_won_app l1 l2 : sum_won (l1 ++ l2) = sum_won l1 + sum_won l2.
Proof. apply zsum_app. Qed.
Lemma sum_won_insert l i p q :
  l !! i = Some p → sum_won (<[i := q]> l) = sum_won l - won p + won q.
Proof. apply zsum_insert. Qed.
Lemma sum_won_done l : Forall (eq KDone) l → sum_won l = 0.
Proof. intros H. apply zsum_zero. induction H as [|? l <- _ IH]; by constructor. Qed.
#[export] Hint Resolve won_nonneg sum_won_nonneg : driver.

(** ** The invariants *)

Record ka_inv (P : ka_params) (s : ka) : Prop := {
  inv_token : phase s = KaRunning → Z.b2z (ka_armed s) = owners s;
  inv_expiry : expires s <= now s + ka_interval P;
  inv_stop : phase s = KaRunning → adaptive P → ka_armed s = false → stamped s = true →
    settling s ∨ idle_enough P s ∨ callback s = CbLoad2 ∨
    callback s = CbClock2 (ka_last_fwd s) ∨ callback s = CbCas;
  inv_drained : phase s ≠ KaRunning → phase s ≠ KaCancelled → kicks_done s;
  inv_stopped : phase s = KaStopped → enqueued s = false ∧ callback s = CbIdle
}.

Lemma ka_interval_nonneg P : 0 <= ka_interval P.
Proof. unfold ka_interval, NSEC_PER_MSEC. pose proof (u_wrap_range 64 (keepalive_ms P)). lia. Qed.
#[export] Hint Resolve ka_interval_nonneg : driver.

(** Forwarding touches only the expiry, which ends at most one interval ahead. *)
Lemma forward_now_spec i s :
  ∃ e, hrtimer_forward_now i s = set_timer (enqueued s) e s ∧
       (0 <= i → expires s <= now s + i → e <= now s + i).
Proof.
  unfold hrtimer_forward_now. case_match.
  - exists (expires s). split; [by destruct s|done].
  - eexists. split; [done|]. intros Hi _. apply Z.ltb_ge in H.
    destruct (decide (i = 0)) as [->|]; [lia|].
    pose proof (Z.mul_div_le (now s - expires s) i ltac:(lia)). lia.
Qed.

(** Forwarding past the clock: the next expiry lies strictly ahead. *)
Lemma forward_now_ahead i s : 0 < i → now s < expires (hrtimer_forward_now i s).
Proof.
  unfold hrtimer_forward_now. intros Hi. case_match; [lia|]. simpl.
  pose proof (Z.mul_succ_div_gt (now s - expires s) i Hi). lia.
Qed.

Lemma owners_bound s : 0 <= Z.b2z (enqueued s) /\ 0 <= Z.b2z (cb_owns (callback s)) /\
  0 <= sum_won (kicks s).
Proof. pose proof (sum_won_nonneg (kicks s)). repeat case_match; unfold Z.b2z; repeat case_match; lia. Qed.

Lemma idle_enough_later P s d : 0 <= d → idle_enough P s → idle_enough P (set_now (now s + d) s).
Proof.
  unfold idle_enough, ktime_to_us. simpl. intros Hd ?.
  pose proof (Z.quot_le_mono (now s - ka_last_fwd s) (now s + d - ka_last_fwd s) 1000).
  lia.
Qed.

Ltac ka_split I := destruct I as [Itok Iexp Istop Idr Isto].

(** A step of the callback that keeps its claim to the timer, and neither starts
    nor ends a disarm attempt. *)
Lemma callback_move P s e c :
  ka_inv P s → phase s ≠ KaStopped → cb_owns c = true → cb_owns (callback s) = true →
  e <= now s + ka_interval P → ka_inv P (set_callback c (set_timer (enqueued s) e s)).
Proof.
  intros I Hns Hc Hcb He. ka_split I.
  constructor; simpl; try done; unfold owners; simpl.
  - intros Hp. rewrite (Itok Hp). unfold owners. by rewrite Hc, Hcb.
  - intros Hp Ha Har Hst. destruct (Istop Hp Ha Har Hst) as [?|[?|[E|[E|E]]]];
      [by left|by right; left|by rewrite E in Hcb..].
Qed.

Lemma set_timer_same s : set_timer (enqueued s) (expires s) s = s.
Proof. by destruct s. Qed.

(** The callback's own steps preserve the invariant. *)
Lemma callback_preserves P s :
  0 < keepalive_ms P → ka_inv P s → callback s ≠ CbIdle → ka_inv P (moal_bridge_keepalive P s).
Proof.
  intros Hms I Hcb. assert (I' := I). ka_split I. unfold owners in *.
  pose proof (sum_won_nonneg (kicks s)). pose proof (ka_interval_nonneg P) as Hi0.
  assert (Hns : phase s ≠ KaStopped) by (intros E; destruct (Isto E); congruence).
  assert (Hmove : ∀ c, cb_owns c = true → cb_owns (callback s) = true → ka_inv P (set_callback c s)).
  { intros c Hc1 Hc2. rewrite <- (set_timer_same s). by apply callback_move. }
  assert (Hfwd : cb_owns (callback s) = true →
    ka_inv P (set_callback (CbReturn true) (hrtimer_forward_now (ka_interval P) s))).
  { intros Hc. destruct (forward_now_spec (ka_interval P) s) as (e & -> & He).
    apply callback_move; auto. }
  unfold moal_bridge_keepalive. destruct (callback s) eqn:Ec; [done|..].
  - destruct (br_active s); [|by apply Hmove].
    specialize (Hmove CbPolicy eq_refl eq_refl). destruct Hmove. by constructor.
  - destruct (keepalive_ms P <=? 0) eqn:E; [lia|].
    destruct (keepalive_idle_ms P >? 0); [by apply Hmove|by apply Hfwd].
  - case_match; [by apply Hmove|by apply Hfwd].
  - constructor; simpl; try done; unfold owners; simpl; [|by auto].
    intros Hp. specialize (Itok Hp). simpl in *.
    destruct (ka_armed s), (enqueued s); simpl in *; lia.
  - constructor; simpl; try done. by auto 8.
  - destruct (_ <? _) eqn:E; constructor; simpl; try done; [by auto 8|].
    intros Hp Ha Har Hst. destruct (Istop Hp Ha Har Hst) as [?|[?|[?|[Hl|?]]]]; try done; auto.
    simplify_eq. right; left. by apply Z.ltb_ge in E.
  - destruct (ka_armed s) eqn:Ear; simpl.
    { constructor; simpl; rewrite ?Ear; done. }
    destruct (forward_now_spec (ka_interval P) (set_armed true s)) as (e & -> & He).
    constructor; simpl in *; try done; [|by auto].
    unfold owners; simpl. intros Hp. specialize (Itok Hp). simpl in *. lia.
  - assert (Hst : ∀ P' : Prop, phase s = KaRunning → adaptive P → ka_armed s = false →
      stamped s = true → settling s ∨ idle_enough P s ∨ P').
    { intros P' Hp Ha Har Hst. destruct (Istop Hp Ha Har Hst) as [?|[?|[?|[?|?]]]]; auto; done. }
    destruct restart; simpl; [destruct (enqueued s) eqn:Eq; simpl|];
      (constructor; simpl; [|done|intros; by apply Hst|done|done]);
      unfold owners; simpl; rewrite ?Eq; intros Hp; specialize (Itok Hp); simpl in *;
      destruct (ka_armed s); simpl in *; lia.
Qed.

(** A producer's step preserves the invariant. *)
Lemma kick_preserves P s i pc :
  ka_inv P s → kicks s !! i = Some pc → ka_inv P (moal_bridge_ka_kick P i pc s).
Proof.
  intros I Hi. assert (I' := I). ka_split I. unfold owners in *.
  pose proof (ka_interval_nonneg P) as Hi0.
  pose proof (λ q, sum_won_insert (kicks s) i pc q Hi) as Hsum.
  assert (Hdr : ∀ q, pc ≠ KDone → phase s ≠ KaRunning → phase s ≠ KaCancelled →
    Forall (eq KDone) (<[i := q]> (kicks s))).
  { intros q Hne H1 H2. specialize (Idr H1 H2). unfold kicks_done in Idr.
    rewrite Forall_lookup in Idr. specialize (Idr _ _ Hi). congruence. }
  assert (Hset : ∀ q, ¬ (pc = KRead ∨ pc = KCas) → settling s →
    Exists (λ pc, pc = KRead ∨ pc = KCas) (<[i := q]> (kicks s))).
  { intros q Hne. by apply Exists_insert_other with (1 := Hi). }
  assert (Hnst : pc ≠ KDone → phase s ≠ KaStopped).
  { intros Hne E. rewrite E in *. specialize (Hdr KEnter Hne ltac:(done) ltac:(done)).
    rewrite Forall_lookup in Hdr. specialize (Hdr i KEnter).
    rewrite list_lookup_insert_eq in Hdr by by apply lookup_lt_Some in Hi. naive_solver. }
  destruct pc; simpl; unfold won in Hsum; simpl in Hsum; [..|done].
  - assert (Hgo : ∀ q, q = KDone ∨ q = KStamp (now s) → ka_inv P (set_kicks (<[i:=q]> (kicks s)) s)).
    { intros q Hq. constructor; simpl; [|done| |intros; by apply Hdr|intros E; by destruct (Hnst ltac:(done) E)].
      - unfold owners; simpl. intros Hp. rewrite Hsum, (Itok Hp). destruct Hq; subst; simpl; lia.
      - intros. destruct Istop as [?|?]; auto. left. apply Hset; [naive_solver|done]. }
    case_match; apply Hgo; auto.
  - constructor; simpl; [|done| |intros; by apply Hdr|intros E; by destruct (Hnst ltac:(done) E)].
    + unfold owners; simpl. intros Hp. rewrite Hsum, (Itok Hp). simpl. lia.
    + intros. left. apply Exists_insert_here with (1 := Hi). by left.
  - destruct (ka_armed s) eqn:Ea; simpl; (constructor; simpl; [|done| |intros; by apply Hdr|intros E; by destruct (Hnst ltac:(done) E)]).
    1,3: unfold owners; simpl; intros Hp; specialize (Itok Hp); rewrite Hsum, ?Ea; simpl in *; lia.
    + congruence.
    + intros. left. apply Exists_insert_here with (1 := Hi). by right.
  - destruct (ka_armed s) eqn:Ea; simpl; (constructor; simpl; [|done| |intros; by apply Hdr|intros E; by destruct (Hnst ltac:(done) E)]).
    1,3: unfold owners; simpl; intros Hp; specialize (Itok Hp); rewrite Hsum, ?Ea; simpl in *; lia.
    all: congruence.
  - assert (Hw : 1 <= sum_won (kicks s)).
    { specialize (Hsum KDone). pose proof (sum_won_nonneg (<[i:=KDone]> (kicks s))).
      unfold won in Hsum; simpl in Hsum. lia. }
    constructor; simpl; [|lia| |intros; by apply Hdr|].
    + unfold owners; simpl. intros Hp. specialize (Itok Hp). rewrite Hsum.
      unfold won; simpl. destruct (ka_armed s), (enqueued s), (cb_owns (callback s)); simpl in *; lia.
    + intros Hp Ha Har Hst. specialize (Itok Hp). rewrite Har in Itok.
      destruct (enqueued s), (cb_owns (callback s)); simpl in *; lia.
    + intros E. destruct (Hnst ltac:(done) E).
Qed.

Lemma keepalive_init_inv P t : 0 < keepalive_ms P → ka_inv P (keepalive_init P t).
Proof.
  intros Hms. pose proof (ka_interval_nonneg P) as Hi0. unfold keepalive_init.
  destruct (keepalive_ms P >? 0) eqn:E; [|lia].
  destruct (keepalive_idle_ms P >? 0); (constructor; simpl; try done; lia).
Qed.

Lemma kicks_done_lookup s i pc : kicks_done s → kicks s !! i = Some pc → pc = KDone.
Proof. unfold kicks_done. rewrite Forall_lookup. intros H Hi. by rewrite (H _ _ Hi). Qed.

Lemma step_preserves P s s' : 0 < keepalive_ms P → ka_inv P s → ka_step P s s' → ka_inv P s'.
Proof.
  intros Hms I Hs. assert (I' := I). ka_split I.
  destruct Hs as [d Hd|b|Hp|i pc Hi|He Hcb Hx|Hcb|Hp Hcb|Hp Hk|Hp|Hp Hcb].
  - constructor; simpl; try done; [lia|]. intros Hp Ha Har Hst.
    destruct (Istop Hp Ha Har Hst) as [?|[?|?]]; auto. right; left. by apply idle_enough_later.
  - by constructor.
  - constructor; simpl; [|done| |destruct Hp; congruence|destruct Hp; congruence].
    + intros Hr. rewrite (Itok Hr). unfold owners; simpl. rewrite sum_won_app. change (sum_won [KEnter]) with 0. lia.
    + intros Hr Ha Har Hst. destruct (Istop Hr Ha Har Hst) as [?|?]; auto.
      left. apply Exists_app. by left.
  - by apply kick_preserves.
  - constructor; simpl; [|done| |done|].
    + intros Hr. specialize (Itok Hr). unfold owners in *; simpl. rewrite He, Hcb in Itok.
      simpl in Itok. lia.
    + intros Hr Ha Har Hst. destruct (Istop Hr Ha Har Hst) as [?|[?|[?|[?|?]]]]; auto; congruence.
    + intros E. destruct (Isto E). congruence.
  - by apply callback_preserves.
  - by constructor.
  - by constructor.
  - constructor; simpl; try done. by intros _ _; apply Idr; rewrite Hp.
  - constructor; simpl; try done. by intros _ _; apply Idr; rewrite Hp.
Qed.

Lemma reachable_inv P t s : 0 < keepalive_ms P → ka_reachable P t s → ka_inv P s.
Proof. induction 2; [by apply keepalive_init_inv|eauto using step_preserves]. Qed.

(** A run of the scheduler is a path of the relation. *)
Lemma ka_run_reachable P t cs s s' :
  ka_reachable P t s → ka_run P cs s = Some s' → ka_reachable P t s'.
Proof.
  revert s; induction cs as [|c cs IH]; intros s Hr; cbn [ka_run]; [by intros [= <-]|].
  intros (s1 & Hdo & Hrun)%bind_Some. apply (IH s1); [|done]. apply ka_reach_step with s; [done|].
  destruct c; cbn [ka_do] in Hdo.
  - case_match eqn:E; simplify_eq. constructor. lia.
  - case_bool_decide; simplify_eq. constructor. by left.
  - apply bind_Some in Hdo as (pc & Hpc & [= <-]). by constructor.
  - case_match eqn:Ec; simplify_eq. case_match eqn:Ee; simplify_eq.
    apply andb_true_iff in Ee as [? ?]. constructor; [done..|lia].
  - case_match eqn:Ec; simplify_eq; constructor; congruence.
Qed.

(** ** The free-running mode *)

(** Producers that did not enter the adaptive protocol, a callback that does
    not measure idleness, and an armed timer. *)
Definition legacy_inv (s : ka) : Prop :=
  (phase s = KaRunning ∨ phase s = KaCancelled → ka_armed s = true) ∧
  Forall (λ pc, pc = KEnter ∨ pc = KDone) (kicks s) ∧
  (callback s = CbIdle ∨ callback s = CbEnter ∨ callback s = CbPolicy ∨ callback s = CbReturn true).

Lemma legacy_callback P s :
  0 < keepalive_ms P → keepalive_idle_ms P <= 0 → legacy_inv s → legacy_inv (moal_bridge_keepalive P s).
Proof.
  intros Hms Hid (Ha & Hk & Hc). unfold moal_bridge_keepalive.
  assert ((keepalive_idle_ms P >? 0) = false) as -> by lia.
  assert ((keepalive_ms P <=? 0) = false) as -> by lia.
  destruct (forward_now_spec (ka_interval P) s) as (e & -> & _).
  destruct Hc as [Hc|[Hc|[Hc|Hc]]]; rewrite Hc; simpl.
  - split_and!; auto.
  - destruct (br_active s); split_and!; simpl; auto.
  - split_and!; simpl; auto.
  - destruct (enqueued s); split_and!; simpl; auto.
Qed.

Lemma legacy_kick P s i pc :
  keepalive_idle_ms P <= 0 → legacy_inv s → kicks s !! i = Some pc →
  legacy_inv (moal_bridge_ka_kick P i pc s).
Proof.
  intros Hid (Ha & Hk & Hc) Hi. destruct (proj1 (Forall_lookup _ _) Hk _ _ Hi) as [-> | ->]; simpl.
  - rewrite (proj2 (Z.leb_le (keepalive_idle_ms P) 0)), orb_true_r by done.
    split_and!; simpl; [done| |done]. apply Forall_insert; [done|by right].
  - done.
Qed.

Lemma legacy_step P s s' :
  0 < keepalive_ms P → keepalive_idle_ms P <= 0 → legacy_inv s → ka_step P s s' → legacy_inv s'.
Proof.
  intros Hms Hid I Hs. assert (I' := I). destruct I as (Ha & Hk & Hc).
  destruct Hs as [d Hd|b|Hp|i pc Hi|He Hcb Hx|Hcb|Hp Hcb|Hp Hks|Hp|Hp Hcb].
  4: by apply legacy_kick.
  5: by apply legacy_callback.
  all: split_and!; simpl; auto; try (intros [? | ?]; congruence).
  apply Forall_app; split; [done|]. constructor; [by left|done].
Qed.

Lemma legacy_armed P t s :
  0 < keepalive_ms P → keepalive_idle_ms P <= 0 → ka_reachable P t s → phase s = KaRunning →
  ka_armed s = true.
Proof.
  intros Hms Hid Hr Hp. assert (legacy_inv s) as (Ha & _); [|by auto].
  clear Hp. induction Hr as [|s s' Hr IH Hs]; [|by apply (legacy_step P s)].
  unfold keepalive_init. assert ((keepalive_ms P >? 0) = true) as -> by lia.
  assert ((keepalive_idle_ms P >? 0) = false) as -> by lia.
  split_and!; simpl; auto.
Qed.

(** ** Properties *)

(** C35: in every interleaving of the timer callback, any number of
    producers and the clock, [ka_armed] is set exactly when one party owns the
    next start of the timer: the timer is queued, or the running callback will
    return RESTART, or one producer has won the exchange and is about to call
    hrtimer_start, never two of them; and the timer is never set further ahead
    than one interval. *)
Theorem keepalive_single_owner (P : ka_params) (t : Z) (s : ka) :
  0 < keepalive_ms P → ka_reachable P t s → phase s = KaRunning →
  owners s = Z.b2z (ka_armed s) ∧ expires s <= now s + ka_interval P.
Proof. intros Hms Hr Hp. destruct (reachable_inv P t s Hms Hr) as [Itok ?]. split; [|done]. by rewrite Itok. Qed.

(** the timer is never stranded.  When no producer is inside ka_kick
    and no callback is running, the adaptive timer is either queued to fire
    within one interval or the link has been idle for the configured cutoff
    (or nothing was ever forwarded); the free-running timer is always queued. *)
Theorem keepalive_never_stranded (P : ka_params) (t : Z) (s : ka) :
  0 < keepalive_ms P → ka_reachable P t s → phase s = KaRunning →
  kicks_done s → callback s = CbIdle →
  (enqueued s = true ∧ ka_armed s = true ∧ expires s <= now s + ka_interval P) ∨
  (0 < keepalive_idle_ms P ∧ enqueued s = false ∧ ka_armed s = false ∧
   (stamped s = true → keepalive_idle_ms P * 1000 <= ktime_to_us (now s - ka_last_fwd s))).
Proof.
  intros Hms Hr Hp Hk Hcb.
  assert (Hleg : keepalive_idle_ms P <= 0 → ka_armed s = true).
  { intros Hid. eapply legacy_armed; eauto. }
  destruct (reachable_inv P t s Hms Hr) as [Itok Hexp Istop _ _].
  specialize (Itok Hp). unfold owners in Itok. rewrite Hcb, (sum_won_done _ Hk) in Itok.
  destruct (ka_armed s) eqn:Ea, (enqueued s) eqn:Ee; simpl in Itok; try (exfalso; lia); [by left|right].
  assert (0 < keepalive_idle_ms P) by (destruct (decide (keepalive_idle_ms P <= 0)); [naive_solver|lia]).
  split_and!; try done. intros Hst.
  destruct (Istop Hp ltac:(done) eq_refl Hst) as [Hse|[?|[?|[?|?]]]]; try congruence; [|done].
  unfold settling, kicks_done in *. rewrite Exists_exists in Hse. rewrite Forall_forall in Hk.
  destruct Hse as (x & Hx & Hor). specialize (Hk _ Hx). naive_solver.
Qed.

(** the teardown order of deinit (cancel, drain the producers, clear
    [ka_armed], cancel again) is final: once it is through, the timer is not
    queued, no callback or producer is inside, and whatever happens later the
    timer never runs again and main_work is never queued by it. *)
Theorem keepalive_teardown_final (P : ka_params) (t : Z) (s s' : ka) :
  0 < keepalive_ms P → ka_reachable P t s → phase s = KaStopped → rtc (ka_step P) s s' →
  phase s' = KaStopped ∧ enqueued s' = false ∧ callback s' = CbIdle ∧ kicks_done s' ∧
  main_work s' = main_work s.
Proof.
  intros Hms Hr Hp Hsteps.
  assert (Hst : ∀ s, ka_reachable P t s → phase s = KaStopped →
    enqueued s = false ∧ callback s = CbIdle ∧ kicks_done s).
  { intros s0 Hr0 Hp0. destruct (reachable_inv P t s0 Hms Hr0) as [_ _ _ Hd Hs].
    destruct (Hs Hp0). split_and!; auto. apply Hd; congruence. }
  induction Hsteps as [s|s s1 s' Hs _ IH]; [by destruct (Hst s) as (? & ? & ?)|].
  destruct (Hst s Hr Hp) as (He & Hc & Hk).
  assert (Hr1 : ka_reachable P t s1) by by apply ka_reach_step with s.
  assert (phase s1 = KaStopped ∧ main_work s1 = main_work s) as [Hp1 Hm1].
  { destruct Hs as [d Hd|b|[?|?]|i pc Hi|He' Hcb Hx|Hcb|Hp' Hcb|Hp' Hks|Hp'|Hp' Hcb];
      try done; try congruence.
    by rewrite (kicks_done_lookup s i pc Hk Hi). }
  destruct (IH Hr1 Hp1) as (? & ? & ? & ? & ->). by rewrite Hm1.
Qed.

(** What the callback has left to do, as a number of its own steps. *)
Definition cb_rank (c : cb_pc) : nat :=
  match c with
  | CbIdle => 0 | CbReturn _ => 1 | CbCas => 2 | CbClock2 _ => 3 | CbLoad2 => 4
  | CbClear => 5 | CbClock1 _ => 6 | CbPolicy => 7 | CbEnter => 8
  end.

Lemma cb_rank_step P s :
  callback s ≠ CbIdle →
  (cb_rank (callback (moal_bridge_keepalive P s)) < cb_rank (callback s))%nat.
Proof.
  unfold moal_bridge_keepalive. intros Hc. destruct (callback s); [done|..];
    repeat case_match; simpl; lia.
Qed.

(** Hrtimer_cancel waits only finitely long: from any control point the
    callback returns within eight of its own steps, whatever the state. *)
Theorem keepalive_callback_returns (P : ka_params) (s : ka) :
  ∃ n, (n <= 8)%nat ∧ callback (Nat.iter n (moal_bridge_keepalive P) s) = CbIdle.
Proof.
  assert (H : ∀ k s, (cb_rank (callback s) <= k)%nat →
    ∃ n, (n <= k)%nat ∧ callback (Nat.iter n (moal_bridge_keepalive P) s) = CbIdle).
  { induction k as [|k IH]; intros s0 Hk.
    - exists 0%nat. split; [done|]. simpl. destruct (callback s0); simpl in Hk; by try lia.
    - destruct (decide (cb_rank (callback s0) = 0%nat)) as [E|E].
      + exists 0%nat. split; [lia|]. simpl. by destruct (callback s0).
      + destruct (IH (moal_bridge_keepalive P s0)) as (n & Hn & Hc).
        { pose proof (cb_rank_step P s0 ltac:(by intros F; rewrite F in E)). lia. }
        exists (S n). split; [lia|]. by rewrite Nat.iter_succ_r. }
  apply H. destruct (callback s); simpl; lia.
Qed.

(** ** Concrete runs *)

(** An interval of 10 ms and a cutoff of 100 ms. *)
Definition demo_params : ka_params := mk_ka_params 10 100.
(** A packet arms the timer, which fires 200 ms later and finds the link idle. *)
Definition demo_idle : list ka_choice :=
  [DoTick 5; DoEnter; DoKick 0; DoKick 0; DoKick 0; DoKick 0; DoKick 0; DoTick 200000000; DoFire;
   DoCallback; DoCallback; DoCallback; DoCallback; DoCallback; DoCallback; DoCallback].
(** The same, but a second packet arrives right after the timer cleared ka_armed:
    its producer wins the exchange, the callback loses it. *)
Definition demo_race : list ka_choice :=
  take 13 demo_idle ++ [DoEnter; DoKick 1; DoKick 1; DoKick 1; DoKick 1; DoCallback; DoCallback; DoCallback].
Definition demo_state (cs : list ka_choice) : ka :=
  default (keepalive_init demo_params 0) (ka_run demo_params cs (keepalive_init demo_params 0)).

Example demo_idle_disarms : ka_armed (demo_state demo_idle) = false ∧ enqueued (demo_state demo_idle) = false.
Proof. by vm_compute. Qed.
Example demo_race_owner :
  kicks (demo_state demo_race) !! 1%nat = Some KStart ∧ callback (demo_state demo_race) = CbReturn false.
Proof. by vm_compute. Qed.

Lemma keepalive_single_owner_witness :
  owners (demo_state demo_race) = Z.b2z (ka_armed (demo_state demo_race)) ∧
  expires (demo_state demo_race) <= now (demo_state demo_race) + ka_interval demo_params.
Proof.
  apply (keepalive_single_owner demo_params 0); [done| |by vm_compute].
  apply (ka_run_reachable _ _ demo_race (keepalive_init demo_params 0)); [constructor|by vm_compute].
Defined.

Lemma keepalive_never_stranded_witness :
  (enqueued (demo_state demo_idle) = true ∧ ka_armed (demo_state demo_idle) = true ∧
   expires (demo_state demo_idle) <= now (demo_state demo_idle) + ka_interval demo_params) ∨
  (0 < keepalive_idle_ms demo_params ∧ enqueued (demo_state demo_idle) = false ∧
   ka_armed (demo_state demo_idle) = false ∧
   (stamped (demo_state demo_idle) = true →
    keepalive_idle_ms demo_params * 1000 <=
    ktime_to_us (now (demo_state demo_idle) - ka_last_fwd (demo_state demo_idle)))).
Proof.
  apply (keepalive_never_stranded demo_params 0); [done| |by vm_compute| |by vm_compute].
  - apply (ka_run_reachable _ _ demo_idle (keepalive_init demo_params 0)); [constructor|by vm_compute].
  - apply (bool_decide_unpack (Forall (eq KDone) (kicks (demo_state demo_idle)))). by vm_compute.
Defined.

(** The state after the teardown of an instance that never forwarded. *)
Definition demo_stopped : ka :=
  mk_ka 0 0 false false 0 CbIdle [] false 0 KaStopped false.

Lemma keepalive_teardown_final_witness :
  phase (set_now 7 demo_stopped) = KaStopped ∧ enqueued (set_now 7 demo_stopped) = false ∧
  callback (set_now 7 demo_stopped) = CbIdle ∧ kicks_done (set_now 7 demo_stopped) ∧
  main_work (set_now 7 demo_stopped) = main_work demo_stopped.
Proof.
  apply (keepalive_teardown_final demo_params 0 demo_stopped); [done| |done|].
  - eapply ka_reach_step; [|apply (step_stop _ (mk_ka 0 0 false false 0 CbIdle [] false 0 KaCleared false)); done].
    eapply ka_reach_step; [|apply (step_clear _ (mk_ka 0 0 false false 0 CbIdle [] false 0 KaDrained false)); done].
    eapply ka_reach_step; [|apply (step_drain _ (mk_ka 0 0 false false 0 CbIdle [] false 0 KaCancelled false)); [done|constructor]].
    eapply ka_reach_step; [constructor|]. by apply (step_cancel _ (keepalive_init demo_params 0)).
  - apply rtc_once. exact (step_tick demo_params demo_stopped 7 ltac:(lia)).
Defined.
