(* ===== verification/BridgePending.v ===== *)
(** * moal_bridge.c: the deferred switch request

    A runtime switch whose target is not ready is retained as a pending request
    and retried by a work item when the target comes up.  Every operation below
    is one critical section of [bridge_pending_lock] (or a sequence of them where
    the code releases the lock in between); [pstep] interleaves them with the
    work function, which is split at the same places. *)

From S2P Require Import Prelude.

(** ** Data *)

Inductive moal_bridge_pending_state :=
| MOAL_BR_PENDING_NONE
| MOAL_BR_PENDING_WAITING
| MOAL_BR_PENDING_SWITCHING.
#[export] Instance pending_state_eq_dec : EqDecision moal_bridge_pending_state.
Proof. solve_decision. Defined.

(** [bridge_pending] and the globals its lock protects. *)
Record pending := mk_pending {
  p_ifname : string;
  generation : Z;                     (** unsigned long *)
  pstate : moal_bridge_pending_state;
  events_enabled : bool;
  event_during_switch : bool;
  nb_registered : bool;
  work_scheduled : bool               (** bridge_pending_work is queued *)
}.

Definition pending_initial : pending :=
  mk_pending EmptyString 0 MOAL_BR_PENDING_NONE false false false false.

Definition IFNAMSIZ : nat := 16.
(** [strncpy] into a name buffer, with the last byte forced to NUL. *)
Definition copy_name (s : string) : string := String.substring 0 (IFNAMSIZ - 1) s.

Definition schedule_work (p : pending) : pending :=
  mk_pending (p_ifname p) (generation p) (pstate p) (events_enabled p) (event_during_switch p)
    (nb_registered p) true.
Definition set_pstate (st : moal_bridge_pending_state) (p : pending) : pending :=
  mk_pending (p_ifname p) (generation p) st (events_enabled p) (event_during_switch p)
    (nb_registered p) (work_scheduled p).
Definition set_event_during_switch (b : bool) (p : pending) : pending :=
  mk_pending (p_ifname p) (generation p) (pstate p) (events_enabled p) b
    (nb_registered p) (work_scheduled p).
(** Drop the request: no name, a new generation, no remembered event. *)
Definition drop_request (p : pending) : pending :=
  mk_pending EmptyString (u64 (generation p + 1)) MOAL_BR_PENDING_NONE (events_enabled p) false
    (nb_registered p) (work_scheduled p).

(** ** Operations *)

(** The result 0 means that admission is disabled. *)
Definition moal_bridge_pending_set (name : string) (p : pending) : Z * pending :=
  if events_enabled p then
    let g := u64 (generation p + 1) in
    (g, mk_pending (copy_name name) g MOAL_BR_PENDING_WAITING (events_enabled p) false
          (nb_registered p) true)
  else (0, p).

Definition moal_bridge_pending_matches (name : string) (g : Z) (p : pending) : bool :=
  bool_decide (pstate p ≠ MOAL_BR_PENDING_NONE) && (generation p =? g) && String.eqb (p_ifname p) name.

Definition moal_bridge_pending_clear_if (name : string) (g : Z) (p : pending) : bool * pending :=
  if bool_decide (pstate p ≠ MOAL_BR_PENDING_NONE) && String.eqb (p_ifname p) name && (generation p =? g)
  then (true, drop_request p) else (false, p).

Definition moal_bridge_pending_begin_attempt (name : string) (g : Z) (p : pending) : bool * pending :=
  if bool_decide (pstate p = MOAL_BR_PENDING_WAITING) && (generation p =? g) && String.eqb (p_ifname p) name
  then (true, set_event_during_switch false (set_pstate MOAL_BR_PENDING_SWITCHING p)) else (false, p).

Definition moal_bridge_pending_restore_waiting (deferred : Z) (name : string) (g : Z) (p : pending) :
    bool * pending :=
  if bool_decide (pstate p = MOAL_BR_PENDING_SWITCHING) && (generation p =? g) && String.eqb (p_ifname p) name
  then
    let p1 := set_pstate MOAL_BR_PENDING_WAITING p in
    let p2 := if event_during_switch p1 && events_enabled p1 && (deferred =? 1)
              then schedule_work p1 else p1 in
    (true, set_event_during_switch false p2)
  else (false, p).

Definition moal_bridge_pending_snapshot (p : pending) : string * Z * moal_bridge_pending_state :=
  (copy_name (p_ifname p), generation p, pstate p).

Definition moal_bridge_pending_state_name (st : moal_bridge_pending_state) : string :=
  match st with
  | MOAL_BR_PENDING_WAITING => "waiting"
  | MOAL_BR_PENDING_SWITCHING => "switching"
  | MOAL_BR_PENDING_NONE => "none"
  end.

Definition moal_bridge_pending_kick (deferred : Z) (p : pending) : pending :=
  if events_enabled p && (deferred =? 1) && bool_decide (pstate p = MOAL_BR_PENDING_WAITING)
  then schedule_work p else p.

(** The netdevice events the bridge reacts to. *)
Inductive netdev_event :=
| NETDEV_UP | NETDEV_DOWN | NETDEV_CHANGE | NETDEV_CHANGENAME | NETDEV_UNREGISTER | NETDEV_OTHER.
#[export] Instance netdev_event_eq_dec : EqDecision netdev_event.
Proof. solve_decision. Defined.

Definition is_identity_event (ev : netdev_event) : bool :=
  bool_decide (ev = NETDEV_CHANGENAME ∨ ev = NETDEV_UNREGISTER).
Definition is_readiness_event (ev : netdev_event) : bool :=
  bool_decide (ev = NETDEV_UP ∨ ev = NETDEV_CHANGE).

(** The first critical section of the identity path: the request to cancel. *)
Definition identity_snapshot (deferred : Z) (p : pending) :
    option (string * Z * moal_bridge_pending_state) :=
  if negb (events_enabled p) || negb (deferred =? 1) then None
  else Some (copy_name (p_ifname p), generation p, pstate p).

(** The decision in between; [resolves] is [__dev_get_by_name] in init_net. *)
Definition identity_cancels (ev : netdev_event) (dev_name : string) (resolves : string → bool)
    (snap : string * Z * moal_bridge_pending_state) : bool :=
  let '(name, g, st) := snap in
  negb (bool_decide (st = MOAL_BR_PENDING_NONE)
        || (bool_decide (ev = NETDEV_UNREGISTER) && negb (String.eqb name dev_name))
        || (bool_decide (ev = NETDEV_CHANGENAME) && resolves name)).

(** The readiness path. *)
Definition readiness_event (deferred : Z) (ev : netdev_event) (dev_name : string) (published : bool)
    (p : pending) : pending :=
  if negb (events_enabled p) || negb (deferred =? 1) then p
  else if negb (is_readiness_event ev) || bool_decide (pstate p = MOAL_BR_PENDING_NONE)
          || negb (String.eqb (p_ifname p) dev_name) then p
  else if negb published then p
  else match pstate p with
       | MOAL_BR_PENDING_WAITING => schedule_work p
       | MOAL_BR_PENDING_SWITCHING => set_event_during_switch true p
       | MOAL_BR_PENDING_NONE => p
       end.

(** [dev] is the device of the event, with its name and whether it lives in
    init_net. *)
Definition moal_bridge_pending_schedule_event (deferred : Z) (ev : netdev_event)
    (dev : option (string * bool)) (published : bool) (resolves : string → bool) (p : pending) : pending :=
  match dev with
  | None => p
  | Some (dev_name, in_init_net) =>
      if negb in_init_net then p
      else if is_identity_event ev then
        match identity_snapshot deferred p with
        | None => p
        | Some snap =>
            if identity_cancels ev dev_name resolves snap
            then (moal_bridge_pending_clear_if snap.1.1 snap.1.2 p).2 else p
        end
      else readiness_event deferred ev dev_name published p
  end.

(** The module-lifetime notifier. *)
Definition moal_bridge_pending_netdev_event (deferred : Z) (ev : netdev_event)
    (dev : option (string * bool)) (resolves : string → bool) (p : pending) : pending :=
  if is_identity_event ev then moal_bridge_pending_schedule_event deferred ev dev true resolves p else p.

Definition moal_bridge_pending_cancel_all (p : pending) : pending :=
  if bool_decide (pstate p ≠ MOAL_BR_PENDING_NONE) then drop_request p else p.

(** [netdevs]: for each BSS slot below MIN(priv_num, MLAN_MAX_BSS_NUM) the name of
    its netdev, if any. *)
Fixpoint invalidate_loop (netdevs : list (option string)) (name : string) (g : Z) (p : pending) : pending :=
  match netdevs with
  | [] => p
  | nd :: netdevs =>
      match nd with
      | Some n => if String.eqb n name then (moal_bridge_pending_clear_if name g p).2
                  else invalidate_loop netdevs name g p
      | None => invalidate_loop netdevs name g p
      end
  end.
Definition moal_bridge_pending_invalidate_handle (netdevs : list (option string)) (p : pending) : pending :=
  let '(name, g, st) := moal_bridge_pending_snapshot p in
  if bool_decide (st ≠ MOAL_BR_PENDING_NONE) then invalidate_loop netdevs name g p else p.

(** [register_err]: register_netdevice_notifier failed. *)
Definition moal_bridge_pending_start (register_err : bool) (p : pending) : pending :=
  if register_err then p
  else mk_pending (p_ifname p) (generation p) (pstate p) true (event_during_switch p) true (work_scheduled p).

(** The three stages of the cleanup: close admission, unregister, drain. *)
Definition cleanup_disable (p : pending) : pending :=
  mk_pending EmptyString (u64 (generation p + 1)) MOAL_BR_PENDING_NONE false false
    (nb_registered p) (work_scheduled p).
Definition cleanup_unregister (p : pending) : pending :=
  mk_pending (p_ifname p) (generation p) (pstate p) (events_enabled p) (event_during_switch p)
    false (work_scheduled p).
Definition cleanup_drain (p : pending) : pending :=
  mk_pending (p_ifname p) (generation p) (pstate p) (events_enabled p) (event_during_switch p)
    (nb_registered p) false.
Definition moal_bridge_pending_cleanup (p : pending) : pending :=
  cleanup_drain (cleanup_unregister (cleanup_disable p)).

(** [scnprintf] into a buffer of [len] bytes: the text it leaves there. *)
Definition scnprintf (len : nat) (text : string) : string := String.substring 0 (len - 1) text.
Definition newline : string := String (Ascii.ascii_of_nat 10) EmptyString.

Definition moal_bridge_get_pending_iface (len : nat) (p : pending) : Z + string :=
  if bool_decide (len = 0%nat) then inl (- EINVAL)
  else let '(name, _, st) := moal_bridge_pending_snapshot p in
       inr (scnprintf len (if bool_decide (st = MOAL_BR_PENDING_NONE) then newline
                           else String.append name newline)).

(** ** The work function *)

(** What the work function does with the request when the attempt returned [ret]
    and the request is still being switched. *)
Inductive work_verdict := WorkClear | WorkRestore.
Definition attempt_verdict (ret : Z) : work_verdict :=
  if ret =? 0 then WorkClear
  else if existsb (Z.eqb ret) [- ENETDOWN; - ENOLINK; - EBUSY; - EAGAIN; - ERESTARTSYS] then WorkRestore
  else if existsb (Z.eqb ret) [- ESTALE; - EINVAL; - EOPNOTSUPP; - EIO] then WorkClear
  else WorkRestore.

(** Its control points, with the name and generation it works for. *)
Inductive worker :=
| WIdle
| WStarted
| WBegin (name : string) (g : Z)
| WAttempt (name : string) (g : Z)
| WReturned (name : string) (g ret : Z)
| WRecheck (name : string) (g ret : Z)
| WFinish (name : string) (g : Z) (v : work_verdict).

(** One critical section of [moal_bridge_pending_work_fn]; the attempt itself is
    the environment's. *)
Definition moal_bridge_pending_work_fn (deferred : Z) (w : worker) (p : pending) : worker * pending :=
  match w with
  | WIdle | WAttempt _ _ => (w, p)
  | WStarted =>
      let '(name, g, st) := moal_bridge_pending_snapshot p in
      if bool_decide (st ≠ MOAL_BR_PENDING_WAITING) then (WIdle, p) else (WBegin name g, p)
  | WBegin name g =>
      let '(ok, p') := moal_bridge_pending_begin_attempt name g p in
      (if (ok : bool) then WAttempt name g else WIdle, p')
  | WReturned name g ret =>
      if negb (moal_bridge_pending_matches name g p) then (WIdle, p)
      else if ret =? 0 then (WFinish name g WorkClear, p)
      else (WRecheck name g ret, p)
  | WRecheck name g ret =>
      let '(name', g', st') := moal_bridge_pending_snapshot p in
      if (g' =? g) && String.eqb name' name && bool_decide (st' = MOAL_BR_PENDING_WAITING)
      then (WIdle, p) else (WFinish name g (attempt_verdict ret), p)
  | WFinish name g WorkClear => (WIdle, (moal_bridge_pending_clear_if name g p).2)
  | WFinish name g WorkRestore => (WIdle, (moal_bridge_pending_restore_waiting deferred name g p).2)
  end.

(** ** The interleavings *)

(** Module life: before pending_start, running, and the stages of the cleanup. *)
Inductive life := LInit | LRun | LDisabled | LUnregistered | LDrained.
#[export] Instance life_eq_dec : EqDecision life.
Proof. solve_decision. Defined.

(** [edge] and [count] are history: the request was made, or its target came up,
    after the last attempt began; and how often the request changed. *)
Record psys := mk_psys {
  sys : pending; work : worker; stage : life; edge : bool; count : Z
}.

(** A replaced or dropped request: the history variables follow the generation. *)
Definition upd (p : pending) (fresh : bool) (s : psys) : psys :=
  if generation p =? generation (sys s) then mk_psys p (work s) (stage s) (edge s) (count s)
  else mk_psys p (work s) (stage s) fresh (count s + 1).

(** The target of the request came up: a device of its name, as the notifier of a
    published bridge instance reports it, whatever the code makes of the report. *)
Definition target_up (ev : netdev_event) (name : string) (published : bool) (p : pending) : bool :=
  published && bool_decide ((ev = NETDEV_UP ∨ ev = NETDEV_CHANGE) ∧ pstate p ≠ MOAL_BR_PENDING_NONE ∧ p_ifname p = name).

(** The steps of the other contexts: requests from user space, notifiers, the
    owner's lifecycle, and the three parts of a work function run. *)
Inductive pstep (deferred : Z) (s : psys) : psys → Prop :=
| ps_set name :
    pstep deferred s (upd (moal_bridge_pending_set name (sys s)).2 true s)
| ps_clear name g :
    pstep deferred s (upd (moal_bridge_pending_clear_if name g (sys s)).2 false s)
| ps_cancel : pstep deferred s (upd (moal_bridge_pending_cancel_all (sys s)) false s)
| ps_kick :
    pstep deferred s (mk_psys (moal_bridge_pending_kick deferred (sys s)) (work s) (stage s) (edge s) (count s))
| ps_ready ev name published :
    pstep deferred s (mk_psys (readiness_event deferred ev name published (sys s)) (work s) (stage s)
      (edge s || target_up ev name published (sys s)) (count s))
| ps_start err : stage s = LInit →
    pstep deferred s (mk_psys (moal_bridge_pending_start err (sys s)) (work s) LRun (edge s) (count s))
| ps_disable : stage s = LInit ∨ stage s = LRun →
    pstep deferred s (mk_psys (cleanup_disable (sys s)) (work s) LDisabled false (count s + 1))
| ps_unregister : stage s = LDisabled →
    pstep deferred s (mk_psys (cleanup_unregister (sys s)) (work s) LUnregistered (edge s) (count s))
| ps_drain : stage s = LUnregistered → work s = WIdle →
    pstep deferred s (mk_psys (cleanup_drain (sys s)) (work s) LDrained (edge s) (count s))
| ps_run : work s = WIdle → work_scheduled (sys s) = true →
    pstep deferred s (mk_psys (cleanup_drain (sys s)) WStarted (stage s) (edge s) (count s))
| ps_begin name g : work s = WBegin name g →
    pstep deferred s (mk_psys (moal_bridge_pending_work_fn deferred (WBegin name g) (sys s)).2
      (moal_bridge_pending_work_fn deferred (WBegin name g) (sys s)).1 (stage s)
      (edge s && negb (moal_bridge_pending_begin_attempt name g (sys s)).1) (count s))
| ps_rollback name g : work s = WAttempt name g →
    pstep deferred s (mk_psys (moal_bridge_pending_restore_waiting deferred name g (sys s)).2 (work s)
      (stage s) (edge s) (count s))
| ps_return name g ret : work s = WAttempt name g →
    pstep deferred s (mk_psys (sys s) (WReturned name g ret) (stage s) (edge s) (count s))
| ps_work : (∀ name g, work s ≠ WBegin name g) →
    pstep deferred s (let '(w, p) := moal_bridge_pending_work_fn deferred (work s) (sys s) in
      upd p false (mk_psys (sys s) w (stage s) (edge s) (count s))).

Definition psys_initial : psys := mk_psys pending_initial WIdle LInit false 0.
Definition preachable (deferred : Z) : psys → Prop := rtc (pstep deferred) psys_initial.

(** The (name, generation) the worker may be switching. *)
Definition attempting (w : worker) : option (string * Z) :=
  match w with
  | WAttempt n g | WReturned n g _ | WRecheck n g _ | WFinish n g _ => Some (n, g)
  | _ => None
  end.

Record pinv (deferred : Z) (s : psys) : Prop := {
  pi_switching : pstate (sys s) = MOAL_BR_PENDING_SWITCHING →
    attempting (work s) = Some (p_ifname (sys s), generation (sys s));
  pi_covered : pstate (sys s) ≠ MOAL_BR_PENDING_NONE →
    events_enabled (sys s) = true;
  pi_enabled : events_enabled (sys s) = true →
    nb_registered (sys s) = true ∧ stage s = LRun;
  pi_edge : edge s = true → deferred = 1 →
    match pstate (sys s) with
    | MOAL_BR_PENDING_NONE => False
    | MOAL_BR_PENDING_WAITING =>
        work_scheduled (sys s) = true ∨ work s = WStarted ∨
        work s = WBegin (p_ifname (sys s)) (generation (sys s))
    | MOAL_BR_PENDING_SWITCHING => event_during_switch (sys s) = true
    end;
  pi_name : copy_name (p_ifname (sys s)) = p_ifname (sys s);
  pi_count : generation (sys s) = u64 (count s) ∧ 0 <= count s;
  pi_drained : stage s = LDrained → work_scheduled (sys s) = false ∧ work s = WIdle
}.

(** ** The invariant *)

Lemma substring_0_idem n s : String.substring 0 n (String.substring 0 n s) = String.substring 0 n s.
Proof. revert s; induction n as [|n IH]; intros [|c s]; simpl; [done..|]. by rewrite IH. Qed.
Lemma copy_name_idem s : copy_name (copy_name s) = copy_name s.
Proof. apply substring_0_idem. Qed.
Lemma copy_name_empty : copy_name EmptyString = EmptyString.
Proof. done. Qed.
Lemma u64_succ_ne g : u64 (g + 1) ≠ u64 g.
Proof. unfold u_wrap. pose proof (Z.mod_pos_bound g (2 ^ 64)). intros E.
  assert ((g + 1 - g) mod 2 ^ 64 = 0) as F by (rewrite Zminus_mod, E, Z.sub_diag; done).
  replace (g + 1 - g) with 1 in F by lia. done.
Qed.
Lemma u64_succ_u64 g : u64 (u64 g + 1) = u64 (g + 1).
Proof. unfold u_wrap. by rewrite Zplus_mod_idemp_l. Qed.
#[export] Hint Rewrite copy_name_idem copy_name_empty u64_succ_u64 : driver.

(** What each critical section can do to the request. *)
Lemma clear_if_spec name g p b p' :
  moal_bridge_pending_clear_if name g p = (b, p') →
  (b = true ∧ p' = drop_request p ∧ pstate p ≠ MOAL_BR_PENDING_NONE ∧ p_ifname p = name ∧ generation p = g)
  ∨ (b = false ∧ p' = p ∧ (pstate p = MOAL_BR_PENDING_NONE ∨ p_ifname p ≠ name ∨ generation p ≠ g)).
Proof.
  unfold moal_bridge_pending_clear_if. case_match eqn:E; intros [= <- <-].
  - apply andb_true_iff in E as [[? ?%String.eqb_eq]%andb_true_iff ?%Z.eqb_eq].
    case_bool_decide; [|done]. by left.
  - right. split_and!; [done..|].
    apply andb_false_iff in E as [[E|E]%andb_false_iff|E].
    + case_bool_decide; [done|]. left. by destruct (pstate p); naive_solver.
    + right; left. by apply String.eqb_neq.
    + right; right. by apply Z.eqb_neq.
Qed.

Lemma begin_attempt_spec name g p b p' :
  moal_bridge_pending_begin_attempt name g p = (b, p') →
  (b = true ∧ p' = set_event_during_switch false (set_pstate MOAL_BR_PENDING_SWITCHING p) ∧
   pstate p = MOAL_BR_PENDING_WAITING ∧ generation p = g ∧ p_ifname p = name)
  ∨ (b = false ∧ p' = p ∧ (pstate p ≠ MOAL_BR_PENDING_WAITING ∨ generation p ≠ g ∨ p_ifname p ≠ name)).
Proof.
  unfold moal_bridge_pending_begin_attempt. case_match eqn:E; intros [= <- <-].
  - apply andb_true_iff in E as [[? ?%Z.eqb_eq]%andb_true_iff ?%String.eqb_eq].
    case_bool_decide; [|done]. by left.
  - right. split_and!; [done..|].
    apply andb_false_iff in E as [[E|E]%andb_false_iff|E].
    + case_bool_decide; [done|]. by left.
    + right; left. by apply Z.eqb_neq.
    + right; right. by apply String.eqb_neq.
Qed.

Lemma restore_waiting_spec d name g p b p' :
  moal_bridge_pending_restore_waiting d name g p = (b, p') →
  (b = true ∧ pstate p = MOAL_BR_PENDING_SWITCHING ∧ generation p = g ∧ p_ifname p = name ∧
   p' = mk_pending (p_ifname p) (generation p) MOAL_BR_PENDING_WAITING (events_enabled p) false
          (nb_registered p)
          (work_scheduled p || event_during_switch p && events_enabled p && (d =? 1)))
  ∨ (b = false ∧ p' = p ∧ (pstate p ≠ MOAL_BR_PENDING_SWITCHING ∨ generation p ≠ g ∨ p_ifname p ≠ name)).
Proof.
  unfold moal_bridge_pending_restore_waiting. case_match eqn:E; intros [= <- <-].
  - apply andb_true_iff in E as [[? ?%Z.eqb_eq]%andb_true_iff ?%String.eqb_eq].
    case_bool_decide; [|done]. left. split_and!; try done. simpl.
    destruct (_ && (d =? 1)); simpl; unfold set_event_during_switch; simpl; f_equal.
    + by rewrite orb_true_r.
    + by rewrite orb_false_r.
  - right. split_and!; [done..|].
    apply andb_false_iff in E as [[E|E]%andb_false_iff|E].
    + case_bool_decide; [done|]. by left.
    + right; left. by apply Z.eqb_neq.
    + right; right. by apply String.eqb_neq.
Qed.

Lemma matches_spec name g p :
  moal_bridge_pending_matches name g p = true ↔
  pstate p ≠ MOAL_BR_PENDING_NONE ∧ generation p = g ∧ p_ifname p = name.
Proof.
  unfold moal_bridge_pending_matches.
  rewrite !andb_true_iff, bool_decide_eq_true, Z.eqb_eq, String.eqb_eq. tauto.
Qed.

(** Dropping the request keeps the invariant, for any worker that held no
    other promise about it. *)
Lemma drop_inv d s w :
  pinv d s → (stage s = LDrained → w = WIdle) →
  pinv d (mk_psys (drop_request (sys s)) w (stage s) false (count s + 1)).
Proof.
  intros [Hsw Hcov Hen Hed Hn [Hc Hc0] Hdr] Hw.
  constructor; simpl; try done; [|naive_solver].
  rewrite Hc, u64_succ_u64. split; [done|lia].
Qed.

Lemma upd_same p fresh s : generation p = generation (sys s) →
  upd p fresh s = mk_psys p (work s) (stage s) (edge s) (count s).
Proof. intros E. unfold upd. by rewrite (proj2 (Z.eqb_eq _ _) E). Qed.
Lemma upd_id fresh s : upd (sys s) fresh s = s.
Proof. rewrite upd_same by done. by destruct s. Qed.
Lemma upd_new p fresh s n : generation (sys s) = u64 n → generation p = u64 (n + 1) →
  upd p fresh s = mk_psys p (work s) (stage s) fresh (count s + 1).
Proof.
  intros E1 E2. unfold upd. rewrite E1, E2.
  destruct (Z.eqb_spec (u64 (n + 1)) (u64 n)) as [E|]; [|done]. by apply u64_succ_ne in E.
Qed.

Lemma drop_upd d s name g :
  pinv d s → pinv d (upd (moal_bridge_pending_clear_if name g (sys s)).2 false s).
Proof.
  intros I. destruct (moal_bridge_pending_clear_if name g (sys s)) as [b p'] eqn:E; simpl.
  destruct (clear_if_spec _ _ _ _ _ E) as [(-> & -> & _)|(-> & -> & _)]; [|by rewrite upd_id].
  assert (I' := I). destruct I as [_ _ _ _ _ [Hc _] Hdr].
  rewrite (upd_new _ _ _ (count s) Hc); [|simpl; by rewrite Hc, u64_succ_u64].
  apply drop_inv; [done|naive_solver].
Qed.

Lemma cancel_upd d s : pinv d s → pinv d (upd (moal_bridge_pending_cancel_all (sys s)) false s).
Proof.
  intros I. unfold moal_bridge_pending_cancel_all. case_bool_decide; [|by rewrite upd_id].
  assert (I' := I). destruct I as [_ _ _ _ _ [Hc _] Hdr].
  rewrite (upd_new _ _ _ (count s) Hc); [|simpl; by rewrite Hc, u64_succ_u64].
  apply drop_inv; [done|naive_solver].
Qed.

Lemma set_upd d s name : pinv d s → pinv d (upd (moal_bridge_pending_set name (sys s)).2 true s).
Proof.
  intros I. unfold moal_bridge_pending_set. destruct (events_enabled (sys s)) eqn:Een; [|by simpl; rewrite upd_id].
  destruct I as [Hsw Hcov Hen Hed Hn [Hc Hc0] Hdr].
  rewrite (upd_new _ _ _ (count s) Hc); [|simpl; by rewrite Hc, u64_succ_u64].
  destruct (Hen Een) as [Hnb Hst].
  constructor; simpl; try done; [by auto|apply copy_name_idem| |congruence].
  rewrite Hc, u64_succ_u64. split; [done|lia].
Qed.

(** Asking for the work to run keeps everything but the drained state. *)
Lemma schedule_inv d s e :
  pinv d s → stage s ≠ LDrained → (e = true → edge s = true ∨ pstate (sys s) = MOAL_BR_PENDING_WAITING) →
  pinv d (mk_psys (schedule_work (sys s)) (work s) (stage s) e (count s)).
Proof.
  intros [Hsw Hcov Hen Hed Hn Hc Hdr] Hs He. constructor; simpl; try done.
  intros Hee Hd. destruct (pstate (sys s)) eqn:Ep; [|by left|].
  - destruct (He Hee) as [H|H]; [by apply Hed in H|congruence].
  - destruct (He Hee) as [H|H]; [by apply Hed in H|congruence].
Qed.

Lemma kick_inv d s : pinv d s →
  pinv d (mk_psys (moal_bridge_pending_kick d (sys s)) (work s) (stage s) (edge s) (count s)).
Proof.
  intros I. unfold moal_bridge_pending_kick. case_match eqn:E; [|by destruct s].
  apply andb_true_iff in E as [[Een _]%andb_true_iff _].
  apply schedule_inv; [done| |by left]. destruct (pi_enabled _ _ I Een) as [_ ->]. done.
Qed.

Lemma ready_inv d s ev name published : pinv d s →
  pinv d (mk_psys (readiness_event d ev name published (sys s)) (work s) (stage s)
            (edge s || target_up ev name published (sys s)) (count s)).
Proof.
  intros I. unfold target_up. destruct published; cbn [andb].
  2: { rewrite orb_false_r. assert (readiness_event d ev name false (sys s) = sys s) as ->; [|by destruct s].
       unfold readiness_event. by repeat case_match. }
  case_bool_decide as Hup.
  2: { rewrite orb_false_r. assert (readiness_event d ev name true (sys s) = sys s) as ->; [|by destruct s].
       unfold readiness_event. destruct (negb (events_enabled _) || _); [done|].
       destruct (negb (is_readiness_event ev)) eqn:E1; [done|]. cbn [orb]. case_bool_decide as E2; [done|]. cbn [orb].
       destruct (String.eqb (p_ifname (sys s)) name) eqn:E3; [|done]. destruct Hup.
       apply negb_false_iff, bool_decide_eq_true in E1. apply String.eqb_eq in E3. done. }
  destruct Hup as (Hev & Hst & Hname). rewrite orb_true_r. pose proof (pi_covered _ _ I Hst) as Een.
  unfold readiness_event. rewrite Een. cbn [negb orb]. destruct (Z.eqb_spec d 1) as [Hd|Hd]; cbn [negb].
  2: { destruct I as [Hsw Hcov Hen Hed Hn Hc Hdr]. by constructor. }
  unfold is_readiness_event. rewrite (bool_decide_eq_true_2 (ev = _ ∨ _)), (bool_decide_eq_false_2 (pstate _ = _)) by done.
  rewrite (proj2 (String.eqb_eq _ _) Hname). cbn [negb orb]. destruct (pi_enabled _ _ I Een) as [Hnb Hstg].
  destruct (pstate (sys s)) eqn:Ep; [done| |].
  - apply schedule_inv; [done|by rewrite Hstg|by right].
  - destruct I as [Hsw Hcov Hen Hed Hn Hc Hdr]. constructor; simpl; try done; auto.
    by rewrite Ep.
Qed.

Lemma stage_inv d s s' : pinv d s →
  (∃ err, stage s = LInit ∧ s' = mk_psys (moal_bridge_pending_start err (sys s)) (work s) LRun (edge s) (count s)) ∨
  ((stage s = LInit ∨ stage s = LRun) ∧ s' = mk_psys (cleanup_disable (sys s)) (work s) LDisabled false (count s + 1)) ∨
  (stage s = LDisabled ∧ s' = mk_psys (cleanup_unregister (sys s)) (work s) LUnregistered (edge s) (count s)) ∨
  (stage s = LUnregistered ∧ work s = WIdle ∧
   s' = mk_psys (cleanup_drain (sys s)) (work s) LDrained (edge s) (count s)) →
  pinv d s'.
Proof.
  intros [Hsw Hcov Hen Hed Hn [Hc Hc0] Hdr] Hs.
  assert (Hoff : stage s ≠ LRun → events_enabled (sys s) = false).
  { intros Hs'. destruct (events_enabled (sys s)); [by destruct (Hen eq_refl)|done]. }
  assert (Hnone : stage s ≠ LRun → pstate (sys s) = MOAL_BR_PENDING_NONE).
  { intros Hs'. specialize (Hoff Hs'). rewrite Hoff in Hcov.
    destruct (pstate (sys s)); [done|by discriminate Hcov..]. }
  destruct Hs as [(err & Hst & ->)|[(Hst & ->)|[(Hst & ->)|(Hst & Hw & ->)]]].
  - destruct err; simpl.
    + constructor; simpl; try done. rewrite Hoff by (by rewrite Hst). done.
    + constructor; simpl; try done.
  - constructor; simpl; try done. rewrite Hc, u64_succ_u64. split; [done|lia].
  - constructor; simpl; try done. rewrite Hoff by (by rewrite Hst). done.
  - rewrite Hnone, Hoff in * by by rewrite Hst. constructor; simpl; try done.
    + by rewrite Hnone by by rewrite Hst.
    + by rewrite Hnone by by rewrite Hst.
    + by rewrite Hoff by by rewrite Hst.
    + intros He Hd. by specialize (Hed He Hd).
Qed.

(** Moving the worker on without touching the request. *)
Lemma move_worker d s w :
  pinv d s → stage s ≠ LDrained →
  (pstate (sys s) = MOAL_BR_PENDING_SWITCHING →
   attempting w = Some (p_ifname (sys s), generation (sys s))) →
  (edge s = true → d = 1 → pstate (sys s) = MOAL_BR_PENDING_WAITING →
   work_scheduled (sys s) = true ∨ w = WStarted ∨ w = WBegin (p_ifname (sys s)) (generation (sys s))) →
  pinv d (mk_psys (sys s) w (stage s) (edge s) (count s)).
Proof.
  intros [Hsw Hcov Hen Hed Hn Hc Hdr] Hs Hw Hwe. constructor; simpl; try done.
  intros He Hd. specialize (Hed He Hd). specialize (Hwe He Hd). destruct (pstate (sys s)); auto.
Qed.

Lemma run_inv d s : pinv d s → work s = WIdle → work_scheduled (sys s) = true →
  pinv d (mk_psys (cleanup_drain (sys s)) WStarted (stage s) (edge s) (count s)).
Proof.
  intros [Hsw Hcov Hen Hed Hn Hc Hdr] Hw Hsc. constructor; simpl; try done.
  - intros E. specialize (Hsw E). by rewrite Hw in Hsw.
  - intros He Hd. specialize (Hed He Hd). destruct (pstate (sys s)); auto.
  - intros E. destruct (Hdr E). congruence.
Qed.

Lemma begin_inv d s name g : pinv d s → work s = WBegin name g →
  pinv d (mk_psys (moal_bridge_pending_work_fn d (WBegin name g) (sys s)).2
      (moal_bridge_pending_work_fn d (WBegin name g) (sys s)).1 (stage s)
      (edge s && negb (moal_bridge_pending_begin_attempt name g (sys s)).1) (count s)).
Proof.
  intros I Hw. cbn [moal_bridge_pending_work_fn].
  assert (Hs : stage s ≠ LDrained) by (intros E; destruct (pi_drained _ _ I E); congruence).
  destruct (moal_bridge_pending_begin_attempt name g (sys s)) as [b p'] eqn:E; simpl.
  destruct (begin_attempt_spec _ _ _ _ _ E) as [(-> & -> & Hp & Hg & Hn)|(-> & -> & Hno)]; simpl.
  - rewrite andb_false_r. destruct I as [Hsw Hcov Hen Hed Hnm Hc Hdr].
    constructor; simpl; try done; [by rewrite Hg, Hn|]. intros _. apply Hcov. by rewrite Hp.
  - rewrite andb_true_r. apply move_worker; [done..| |].
    + intros Hp. pose proof (pi_switching _ _ I Hp) as Ha. by rewrite Hw in Ha.
    + intros He Hd Hp. pose proof (pi_edge _ _ I He Hd) as Hed. rewrite Hp, Hw in Hed.
      destruct Hed as [?|[?|[= -> ->]]]; [by left|done|]. naive_solver.
Qed.

Lemma restore_inv d s name g w :
  pinv d s → stage s ≠ LDrained → attempting (work s) = Some (name, g) →
  w = work s ∨ w = WIdle →
  pinv d (mk_psys (moal_bridge_pending_restore_waiting d name g (sys s)).2 w (stage s) (edge s) (count s)).
Proof.
  intros I Hs Ha Hw. assert (I' := I). destruct I as [Hsw Hcov Hen Hed Hn Hc Hdr].
  destruct (moal_bridge_pending_restore_waiting d name g (sys s)) as [b p'] eqn:E; simpl.
  destruct (restore_waiting_spec _ _ _ _ _ _ E) as [(-> & Hp & Hg & Hnm & ->)|(-> & -> & Hno)].
  - constructor; simpl; try done.
    + intros _. apply Hcov. by rewrite Hp.
    + intros He ->. specialize (Hed He eq_refl). rewrite Hp in Hed. rewrite Hed. left.
      rewrite Hcov by by rewrite Hp. simpl. by rewrite orb_true_r.
  - apply move_worker; [done..| |].
    + intros Hp. specialize (Hsw Hp). rewrite Ha in Hsw. naive_solver.
    + intros He Hd Hp. specialize (Hed He Hd). rewrite Hp in Hed.
      destruct Hed as [?|[Hx|Hx]]; [by left|by rewrite Hx in Ha..].
Qed.

Lemma pending_work_inv d s : pinv d s → (∀ name g, work s ≠ WBegin name g) →
  pinv d (let '(w, p) := moal_bridge_pending_work_fn d (work s) (sys s) in
      upd p false (mk_psys (sys s) w (stage s) (edge s) (count s))).
Proof.
  intros I Hnb. assert (I' := I). destruct I as [Hsw Hcov Hen Hed Hn [Hc Hc0] Hdr].
  assert (Hs : work s ≠ WIdle → stage s ≠ LDrained) by (intros Hw E; by destruct (Hdr E)).
  assert (Hid : ∀ w, upd (sys s) false (mk_psys (sys s) w (stage s) (edge s) (count s)) =
                     mk_psys (sys s) w (stage s) (edge s) (count s)) by (intros; by rewrite upd_same).
  destruct (work s) as [| |name g|name g|name g ret|name g ret|name g v] eqn:Ew;
    cbn [moal_bridge_pending_work_fn].
  - rewrite Hid. rewrite <- Ew. by destruct s.
  - unfold moal_bridge_pending_snapshot. rewrite Hn. case_bool_decide as Hp; rewrite Hid.
    + apply move_worker; [done|by apply Hs| |done].
      intros E. by specialize (Hsw E).
    + assert (pstate (sys s) = MOAL_BR_PENDING_WAITING) as Hw.
      { destruct (pstate (sys s)); [by destruct Hp|done|by destruct Hp]. }
      apply move_worker; [done|by apply Hs|by rewrite Hw|by auto].
  - by destruct (Hnb name g).
  - rewrite Hid. rewrite <- Ew. by destruct s.
  - assert (Hmv : ∀ w, (attempting w = Some (name, g) ∨ moal_bridge_pending_matches name g (sys s) = false) →
      pinv d (mk_psys (sys s) w (stage s) (edge s) (count s))).
    { intros w Hw. apply move_worker; [done|by apply Hs| |].
      - intros Hp. specialize (Hsw Hp). simpl in Hsw. simplify_eq. destruct Hw as [?|Hm]; [done|].
        exfalso. apply not_true_iff_false in Hm. apply Hm, matches_spec. by rewrite Hp.
      - intros He Hd Hp. specialize (Hed He Hd). rewrite Hp in Hed.
        destruct Hed as [?|[?|?]]; [by left|done..]. }
    destruct (moal_bridge_pending_matches name g (sys s)) eqn:Em; cbn [negb].
    + destruct (ret =? 0); rewrite Hid; apply Hmv; by left.
    + rewrite Hid. apply Hmv. by right.
  - assert (Hmv : ∀ w, attempting w = Some (name, g) ∨ pstate (sys s) = MOAL_BR_PENDING_WAITING →
      pinv d (mk_psys (sys s) w (stage s) (edge s) (count s))).
    { intros w Hw. apply move_worker; [done|by apply Hs| |].
      - intros Hp. specialize (Hsw Hp). simpl in Hsw. simplify_eq. destruct Hw; [done|congruence].
      - intros He Hd Hp. specialize (Hed He Hd). rewrite Hp in Hed.
        destruct Hed as [?|[?|?]]; [by left|done..]. }
    unfold moal_bridge_pending_snapshot. destruct (_ && bool_decide _) eqn:E; rewrite Hid; apply Hmv.
    + apply andb_true_iff in E as [_ E%bool_decide_eq_true]. by right.
    + by left.
  - destruct v.
    + destruct (moal_bridge_pending_clear_if name g (sys s)) as [b p'] eqn:E; cbn [snd].
      destruct (clear_if_spec _ _ _ _ _ E) as [(-> & -> & _)|(-> & -> & Hno)].
      * rewrite (upd_new _ _ (mk_psys (sys s) WIdle (stage s) (edge s) (count s)) (count s) Hc);
          [|simpl; by rewrite Hc, u64_succ_u64].
        by apply (drop_inv d s WIdle).
      * rewrite Hid. apply move_worker; [done|by apply Hs| |].
        -- intros Hp. specialize (Hsw Hp). simpl in Hsw. injection Hsw as -> ->. rewrite Hp in Hno. by destruct Hno as [?|[?|?]].
        -- intros He Hd Hp. specialize (Hed He Hd). rewrite Hp in Hed.
           destruct Hed as [?|[?|?]]; [by left|done..].
    + assert (Hg : generation (moal_bridge_pending_restore_waiting d name g (sys s)).2 = generation (sys s)).
      { destruct (moal_bridge_pending_restore_waiting d name g (sys s)) as [b p'] eqn:E; cbn [snd].
        by destruct (restore_waiting_spec _ _ _ _ _ _ E) as [(_ & _ & _ & _ & ->)|(_ & -> & _)]. }
      rewrite upd_same by done. cbn [sys work stage edge count].
      apply restore_inv; [done|by apply Hs|by rewrite Ew|by right].
Qed.

Lemma pstep_inv d s s' : pinv d s → pstep d s s' → pinv d s'.
Proof.
  intros I Hs. destruct Hs.
  - by apply set_upd.
  - by apply drop_upd.
  - by apply cancel_upd.
  - by apply kick_inv.
  - by apply ready_inv.
  - apply (stage_inv d s); [done|]. left; eauto.
  - apply (stage_inv d s); [done|]. auto.
  - apply (stage_inv d s); [done|]. auto.
  - apply (stage_inv d s); [done|]. auto 6.
  - by apply run_inv.
  - by apply begin_inv.
  - apply restore_inv; [done| |by rewrite H|by left].
    intros E. destruct (pi_drained _ _ I E). congruence.
  - apply move_worker; [done| | |].
    + intros E. destruct (pi_drained _ _ I E). congruence.
    + intros Hp. pose proof (pi_switching _ _ I Hp) as Ha. by rewrite H in Ha.
    + intros He Hd Hp. pose proof (pi_edge _ _ I He Hd) as Hed. rewrite Hp, H in Hed.
      destruct Hed as [?|[?|?]]; [by left|done..].
  - by apply pending_work_inv.
Qed.

Lemma psteps_inv d s s' : pinv d s → rtc (pstep d) s s' → pinv d s'.
Proof. induction 2; eauto using pstep_inv. Qed.

Lemma initial_inv d : pinv d psys_initial.
Proof. constructor; simpl; done. Qed.

Lemma preachable_inv d s : preachable d s → pinv d s.
Proof. apply psteps_inv, initial_inv. Qed.

(** ** Generations *)

(** A step leaves the request alone or moves to the next generation. *)
Definition same_request (p p' : pending) : Prop :=
  p_ifname p' = p_ifname p ∧ generation p' = generation p.

Lemma upd_count s p fresh :
  generation (sys s) = u64 (count s) →
  same_request (sys s) p ∨ generation p = u64 (generation (sys s) + 1) →
  (count (upd p fresh s) = count s ∧ same_request (sys s) (sys (upd p fresh s))) ∨
  count (upd p fresh s) = count s + 1.
Proof.
  intros Hc [Hs|Hs].
  - left. rewrite upd_same by apply Hs. by split.
  - right. by rewrite (upd_new _ _ _ (count s) Hc) by by rewrite Hs, Hc, u64_succ_u64.
Qed.

Lemma clear_count name g p :
  same_request p (moal_bridge_pending_clear_if name g p).2 ∨
  generation (moal_bridge_pending_clear_if name g p).2 = u64 (generation p + 1).
Proof.
  destruct (moal_bridge_pending_clear_if name g p) as [b p'] eqn:E; simpl.
  destruct (clear_if_spec _ _ _ _ _ E) as [(_ & -> & _)|(_ & -> & _)]; [by right|by left].
Qed.

Lemma restore_count d name g p : same_request p (moal_bridge_pending_restore_waiting d name g p).2.
Proof.
  destruct (moal_bridge_pending_restore_waiting d name g p) as [b p'] eqn:E; simpl.
  by destruct (restore_waiting_spec _ _ _ _ _ _ E) as [(_ & _ & _ & _ & ->)|(_ & -> & _)].
Qed.

Lemma work_count d w p :
  same_request p (moal_bridge_pending_work_fn d w p).2 ∨
  generation (moal_bridge_pending_work_fn d w p).2 = u64 (generation p + 1).
Proof.
  destruct w as [| |name g|name g|name g ret|name g ret|name g []]; cbn [moal_bridge_pending_work_fn];
    unfold moal_bridge_pending_snapshot; try (by left).
  - case_match; by left.
  - left. destruct (moal_bridge_pending_begin_attempt name g p) as [b p'] eqn:E; simpl.
    by destruct (begin_attempt_spec _ _ _ _ _ E) as [(_ & -> & _)|(_ & -> & _)].
  - repeat case_match; by left.
  - case_match; by left.
  - apply clear_count.
  - left. apply restore_count.
Qed.

Lemma pstep_count d s s' : pinv d s → pstep d s s' →
  (count s' = count s ∧ same_request (sys s) (sys s')) ∨ count s' = count s + 1.
Proof.
  intros I Hs. destruct (pi_count _ _ I) as [Hc _].
  assert (Hrefl : same_request (sys s) (sys s)) by done.
  destruct Hs; simpl.
  - apply upd_count; [done|]. unfold moal_bridge_pending_set. case_match; [by right|by left].
  - apply upd_count; [done|apply clear_count].
  - apply upd_count; [done|]. unfold moal_bridge_pending_cancel_all. case_match; [by right|by left].
  - left. split; [done|]. unfold moal_bridge_pending_kick. by case_match.
  - left. split; [done|]. unfold readiness_event. repeat case_match; done.
  - left. split; [done|]. by destruct err.
  - by right.
  - by left.
  - by left.
  - by left.
  - left. split; [done|]. cbn [moal_bridge_pending_work_fn].
    destruct (moal_bridge_pending_begin_attempt name g (sys s)) as [b p'] eqn:E; simpl.
    by destruct (begin_attempt_spec _ _ _ _ _ E) as [(_ & -> & _)|(_ & -> & _)].
  - left. split; [done|apply restore_count].
  - by left.
  - pose proof (work_count d (work s) (sys s)) as Hw.
    destruct (moal_bridge_pending_work_fn d (work s) (sys s)) as [w p]; cbn [snd] in Hw.
    by apply (upd_count (mk_psys (sys s) w (stage s) (edge s) (count s))).
Qed.

Lemma psteps_count d s s' : pinv d s → rtc (pstep d) s s' →
  (count s' = count s ∧ same_request (sys s) (sys s')) ∨ count s < count s'.
Proof.
  intros I Hs. revert I. induction Hs as [s|s s1 s' Hs1 Hs IH]; intros I; [by left|].
  specialize (IH (pstep_inv _ _ _ I Hs1)). unfold same_request in *.
  destruct (pstep_count _ _ _ I Hs1) as [(H1 & H2 & H3)|H1], IH as [(H4 & H5 & H6)|H4];
    [|right; lia..]. left. split; [lia|]. split; congruence.
Qed.

(** ** Properties *)

(** no request is ever stuck in SWITCHING: in every interleaving a
    request is in that state only while the work function is inside an attempt
    for exactly its name and generation, so when the work function is idle the
    request is absent or waiting. *)
Theorem pending_never_stuck (deferred : Z) (s : psys) :
  preachable deferred s →
  (pstate (sys s) = MOAL_BR_PENDING_SWITCHING →
   attempting (work s) = Some (p_ifname (sys s), generation (sys s))) ∧
  (work s = WIdle → pstate (sys s) ≠ MOAL_BR_PENDING_SWITCHING).
Proof.
  intros I%preachable_inv. split; [apply (pi_switching _ _ I)|].
  intros Hw E. pose proof (pi_switching _ _ I E) as Ha. by rewrite Hw in Ha.
Qed.

(** C13: no readiness edge that reaches the bridge is lost.  If, after the last attempt
    for the request began, the request was made, or its target came up (a device of
    its name, in a report of the notifier of a published instance; between two
    instances, and while one is set up, nobody listens, and what happens then is not
    counted), then once the work function is idle the request is waiting and the work is
    queued again, wherever between the critical sections the event arrived.  (With
    [bridge_runtime_deferred] 1, which admits deferred requests.) *)
Theorem pending_no_lost_edge (s : psys) :
  preachable 1 s → edge s = true → work s = WIdle →
  pstate (sys s) = MOAL_BR_PENDING_WAITING ∧ work_scheduled (sys s) = true.
Proof.
  intros I%preachable_inv He Hw. pose proof (pi_edge _ _ I He eq_refl) as Hed.
  pose proof (pi_switching _ _ I) as Hsw. rewrite Hw in Hed, Hsw.
  destruct (pstate (sys s)); [done| |by specialize (Hsw eq_refl)].
  split; [done|]. by destruct Hed as [?|[?|?]].
Qed.

(** A request exists only while admission is open and the notifier
    that cancels it on a rename or unregister of its target is registered. *)
Theorem pending_request_covered (deferred : Z) (s : psys) :
  preachable deferred s → pstate (sys s) ≠ MOAL_BR_PENDING_NONE →
  events_enabled (sys s) = true ∧ nb_registered (sys s) = true ∧ stage s = LRun.
Proof. intros I%preachable_inv Hp. pose proof (pi_covered _ _ I Hp) as He. split; [done|]. by apply (pi_enabled _ _ I). Qed.

(** the cleanup is terminal: after it there is no request, the work
    is neither queued nor running, and no later event or call changes that. *)
Theorem pending_cleanup_terminal (deferred : Z) (s s' : psys) :
  preachable deferred s → stage s = LDrained → rtc (pstep deferred) s s' →
  pstate (sys s') = MOAL_BR_PENDING_NONE ∧ events_enabled (sys s') = false ∧
  work_scheduled (sys s') = false ∧ work s' = WIdle.
Proof.
  intros I%preachable_inv Hst Hs.
  assert (Hst' : stage s' = LDrained).
  { revert I Hst. induction Hs as [s|s s1 s' Hs1 Hs IH]; intros I Hst; [done|].
    apply IH; [by apply pstep_inv with s|].
    destruct (pi_drained _ _ I Hst) as [Hsc Hw].
    destruct Hs1; simpl; try done; try (unfold upd; case_match; done); try congruence.
    - destruct H; congruence.
    - rewrite Hw. cbn [moal_bridge_pending_work_fn]. by rewrite upd_same by done. }
  pose proof (psteps_inv _ _ _ I Hs) as I'. destruct (pi_drained _ _ I' Hst') as [Hsc Hw].
  assert (events_enabled (sys s') = false) as He.
  { destruct (events_enabled (sys s')) eqn:E; [|done]. destruct (pi_enabled _ _ I' E). congruence. }
  split_and!; try done. destruct (decide (pstate (sys s') = MOAL_BR_PENDING_NONE)) as [|Hne]; [done|].
  apply (pi_covered _ _ I') in Hne. congruence.
Qed.

(** a generation read earlier matches later only if the request is
    still the same one: nothing replaced, cancelled or completed it in between
    (as long as fewer than 2^64 changes happened), so a stale attempt or
    cancellation cannot touch a newer request, even one with the same name. *)
Theorem pending_stale_generation (deferred : Z) (s s' : psys) (name : string) :
  preachable deferred s → rtc (pstep deferred) s s' → count s' < count s + 2 ^ 64 →
  moal_bridge_pending_matches name (generation (sys s)) (sys s') = true →
  count s' = count s ∧ p_ifname (sys s') = p_ifname (sys s).
Proof.
  intros I%preachable_inv Hs Hlt (_ & Hg & _)%matches_spec.
  destruct (psteps_count _ _ _ I Hs) as [(Hc & Hn & _)|Hc]; [done|exfalso].
  destruct (pi_count _ _ I) as [H1 _], (pi_count _ _ (psteps_inv _ _ _ I Hs)) as [H2 _].
  rewrite H1, H2 in Hg. unfold u_wrap in Hg.
  assert ((count s' - count s) mod 2 ^ 64 = 0) as F by (rewrite Zminus_mod, Hg, Z.sub_diag; done).
  rewrite Z.mod_small in F; lia.
Qed.

(** with a request for [name] and deferral on, the identity path
    cancels it (a new generation, no name) exactly when the target itself is
    unregistered, or some device of init_net is renamed and the name no longer
    resolves there; other devices, other namespaces and unrelated renames leave
    everything as it was, and an identity event never starts the work. *)
Theorem pending_identity_cancel (ev : netdev_event) (dev_name : string) (in_init published : bool)
    (resolves : string → bool) (p : pending) :
  events_enabled p = true → pstate p ≠ MOAL_BR_PENDING_NONE → copy_name (p_ifname p) = p_ifname p →
  ev = NETDEV_CHANGENAME ∨ ev = NETDEV_UNREGISTER →
  moal_bridge_pending_schedule_event 1 ev (Some (dev_name, in_init)) published resolves p =
  if in_init && (if bool_decide (ev = NETDEV_UNREGISTER) then String.eqb (p_ifname p) dev_name
                 else negb (resolves (p_ifname p)))
  then drop_request p else p.
Proof.
  intros Hen Hst Hn Hev. unfold moal_bridge_pending_schedule_event.
  destruct in_init; simpl; [|done].
  unfold is_identity_event. rewrite bool_decide_true by done.
  unfold identity_snapshot. rewrite Hen, Hn. simpl.
  rewrite (bool_decide_false (pstate p = _)) by done. simpl.
  assert (Hclear : (moal_bridge_pending_clear_if (p_ifname p) (generation p) p).2 = drop_request p).
  { unfold moal_bridge_pending_clear_if.
    rewrite bool_decide_true by done. by rewrite String.eqb_refl, Z.eqb_refl. }
  rewrite Hclear. destruct Hev as [-> | ->].
  - rewrite (bool_decide_false (NETDEV_CHANGENAME = NETDEV_UNREGISTER)) by done.
    rewrite bool_decide_true by done. done.
  - rewrite (bool_decide_true (NETDEV_UNREGISTER = NETDEV_UNREGISTER)) by done.
    rewrite bool_decide_false by done. simpl. rewrite orb_false_r, negb_involutive. done.
Qed.

(** The work function run to its end after the attempt returned. *)
Definition work_finish (deferred : Z) (name : string) (g ret : Z) (p : pending) : worker * pending :=
  Nat.iter 3 (λ wp : worker * pending, moal_bridge_pending_work_fn deferred wp.1 wp.2)
    (WReturned name g ret, p).

(** how an attempt ends.  A request that was replaced or cancelled
    meanwhile is not touched.  One that is still being switched is dropped when
    the switch succeeded or failed for good (ESTALE, EINVAL, EOPNOTSUPP, EIO) and
    goes back to waiting, its remembered event turned into a new run, for every
    other error; one that the rollback already returned to waiting stays. *)
Theorem attempt_outcome (name : string) (g ret : Z) (p : pending) :
  copy_name (p_ifname p) = p_ifname p →
  work_finish 1 name g ret p =
  (WIdle,
   if negb (moal_bridge_pending_matches name g p) then p
   else match pstate p with
        | MOAL_BR_PENDING_SWITCHING =>
            if (ret =? 0) || existsb (Z.eqb ret) [- ESTALE; - EINVAL; - EOPNOTSUPP; - EIO]
            then drop_request p
            else mk_pending (p_ifname p) (generation p) MOAL_BR_PENDING_WAITING (events_enabled p) false
                   (nb_registered p) (work_scheduled p || event_during_switch p && events_enabled p)
        | _ => if ret =? 0 then drop_request p else p
        end).
Proof.
  intros Hn. unfold work_finish. cbn [Nat.iter nat_rect fst snd moal_bridge_pending_work_fn].
  destruct (moal_bridge_pending_matches name g p) eqn:Em; cbn [negb];
    [|by cbn [fst snd moal_bridge_pending_work_fn]].
  assert (Em' := Em). apply matches_spec in Em as (Hst & Hg & Hname).
  assert (Hclear : (moal_bridge_pending_clear_if name g p).2 = drop_request p).
  { unfold moal_bridge_pending_clear_if.
    by rewrite bool_decide_true, Hname, Hg, String.eqb_refl, Z.eqb_refl. }
  destruct (Z.eqb_spec ret 0) as [->|Hr]; cbn [fst snd moal_bridge_pending_work_fn].
  { rewrite Hclear. by destruct (pstate p). }
  unfold moal_bridge_pending_snapshot. rewrite Hn, Hg, Hname, Z.eqb_refl, String.eqb_refl.
  destruct (pstate p) eqn:Ep; [done|by rewrite bool_decide_true by done|].
  rewrite bool_decide_false by done. cbn [andb fst snd].
  assert (Hrest : (moal_bridge_pending_restore_waiting 1 name g p).2 =
    mk_pending name g MOAL_BR_PENDING_WAITING (events_enabled p) false
      (nb_registered p) (work_scheduled p || event_during_switch p && events_enabled p)).
  { destruct (moal_bridge_pending_restore_waiting 1 name g p) as [b p'] eqn:E; cbn [snd].
    destruct (restore_waiting_spec _ _ _ _ _ _ E) as [(_ & _ & _ & _ & ->)|(_ & _ & [?|[?|?]])]; try done.
    by rewrite Hname, Hg, andb_true_r. }
  unfold attempt_verdict. rewrite (proj2 (Z.eqb_neq ret 0)) by done. cbn [orb].
  destruct (existsb (Z.eqb ret) [- ENETDOWN; _; _; _; _]) eqn:E1.
  - destruct (existsb (Z.eqb ret) [- ESTALE; _; _; _]) eqn:E2; cbn [moal_bridge_pending_work_fn].
    + exfalso. clear -E1 E2. simpl in *. unfold ENETDOWN, ENOLINK, EBUSY, EAGAIN, ERESTARTSYS,
        ESTALE, EINVAL, EOPNOTSUPP, EIO in *. lia.
    + by rewrite Hrest.
  - destruct (existsb (Z.eqb ret) [- ESTALE; _; _; _]); cbn [moal_bridge_pending_work_fn];
      [by rewrite Hclear|by rewrite Hrest].
Qed.

(** ** Concrete runs *)

(** An executable scheduler for some of the steps. *)
Inductive pchoice :=
| PStart | PSet (name : string) | PReady (ev : netdev_event) (name : string)
| PRun | PWork | PReturn (ret : Z) | PDisable | PUnregister | PDrain.
Definition pdo (d : Z) (c : pchoice) (s : psys) : option psys :=
  match c with
  | PStart => if bool_decide (stage s = LInit)
              then Some (mk_psys (moal_bridge_pending_start false (sys s)) (work s) LRun (edge s) (count s)) else None
  | PSet name => Some (upd (moal_bridge_pending_set name (sys s)).2 true s)
  | PReady ev name =>
      Some (mk_psys (readiness_event d ev name true (sys s)) (work s) (stage s)
              (edge s || target_up ev name true (sys s)) (count s))
  | PRun =>
      match work s with
      | WIdle => if work_scheduled (sys s)
                 then Some (mk_psys (cleanup_drain (sys s)) WStarted (stage s) (edge s) (count s)) else None
      | _ => None
      end
  | PWork =>
      match work s with
      | WBegin name g =>
          Some (mk_psys (moal_bridge_pending_work_fn d (WBegin name g) (sys s)).2
                  (moal_bridge_pending_work_fn d (WBegin name g) (sys s)).1 (stage s)
                  (edge s && negb (moal_bridge_pending_begin_attempt name g (sys s)).1) (count s))
      | w => Some (let '(w', p) := moal_bridge_pending_work_fn d w (sys s) in
                   upd p false (mk_psys (sys s) w' (stage s) (edge s) (count s)))
      end
  | PReturn ret =>
      match work s with
      | WAttempt name g => Some (mk_psys (sys s) (WReturned name g ret) (stage s) (edge s) (count s))
      | _ => None
      end
  | PDisable => if bool_decide (stage s = LRun)
                then Some (mk_psys (cleanup_disable (sys s)) (work s) LDisabled false (count s + 1)) else None
  | PUnregister => if bool_decide (stage s = LDisabled)
                   then Some (mk_psys (cleanup_unregister (sys s)) (work s) LUnregistered (edge s) (count s)) else None
  | PDrain =>
      match work s with
      | WIdle => if bool_decide (stage s = LUnregistered)
                 then Some (mk_psys (cleanup_drain (sys s)) (work s) LDrained (edge s) (count s)) else None
      | _ => None
      end
  end.
Fixpoint prun (d : Z) (cs : list pchoice) (s : psys) : option psys :=
  match cs with [] => Some s | c :: cs => s' ← pdo d c s; prun d cs s' end.

Lemma pdo_step d c s s' : pdo d c s = Some s' → pstep d s s'.
Proof.
  destruct c; cbn [pdo]; intros H.
  - case_bool_decide; simplify_eq. by constructor.
  - simplify_eq. constructor.
  - simplify_eq. constructor.
  - destruct (work s) eqn:Ew; try done. case_match; simplify_eq. by constructor.
  - destruct (work s) eqn:Ew; simplify_eq;
      try (rewrite <- Ew; apply ps_work; intros; rewrite Ew; done). by constructor.
  - destruct (work s) eqn:Ew; simplify_eq. by constructor.
  - case_bool_decide; simplify_eq. constructor. by right.
  - case_bool_decide; simplify_eq. by constructor.
  - destruct (work s) eqn:Ew; try done. case_bool_decide; simplify_eq. rewrite <- Ew. by constructor.
Qed.

Lemma prun_steps d cs s s' : prun d cs s = Some s' → rtc (pstep d) s s'.
Proof.
  revert s; induction cs as [|c cs IH]; intros s; cbn [prun]; [by intros [= <-]|].
  intros (s1 & H1 & H2)%bind_Some. apply rtc_l with s1; [by apply pdo_step with c|by apply IH].
Qed.

Definition pend_state (cs : list pchoice) : psys := default psys_initial (prun 1 cs psys_initial).
Definition demo_wait : list pchoice := [PStart; PSet "mlan1"].
(** The attempt for mlan1 is running, and mlan1 comes up meanwhile. *)
Definition demo_attempt : list pchoice :=
  demo_wait ++ [PRun; PWork; PWork; PReady NETDEV_UP "mlan1"].
(** The attempt then reports the link as down. *)
Definition demo_retry : list pchoice := demo_attempt ++ [PReturn (- ENETDOWN); PWork; PWork; PWork].
Definition demo_gone : list pchoice := demo_retry ++ [PDisable; PUnregister; PDrain].

Lemma demo_reach cs :
  match prun 1 cs psys_initial with Some _ => true | None => false end = true →
  preachable 1 (pend_state cs).
Proof.
  unfold pend_state. destruct (prun 1 cs psys_initial) as [s|] eqn:H; [|done].
  intros _. by apply prun_steps with cs.
Qed.

Lemma pending_never_stuck_witness :
  (pstate (sys (pend_state demo_attempt)) = MOAL_BR_PENDING_SWITCHING →
   attempting (work (pend_state demo_attempt)) =
   Some (p_ifname (sys (pend_state demo_attempt)), generation (sys (pend_state demo_attempt)))) ∧
  (work (pend_state demo_attempt) = WIdle → pstate (sys (pend_state demo_attempt)) ≠ MOAL_BR_PENDING_SWITCHING).
Proof.
  apply (pending_never_stuck 1).
  apply demo_reach. by vm_compute.
Defined.

Lemma pending_no_lost_edge_witness :
  edge (pend_state demo_retry) = true ∧
  pstate (sys (pend_state demo_retry)) = MOAL_BR_PENDING_WAITING ∧
  work_scheduled (sys (pend_state demo_retry)) = true.
Proof.
  split; [by vm_compute|]. apply pending_no_lost_edge; [|by vm_compute..].
  apply demo_reach. by vm_compute.
Defined.

Lemma pending_request_covered_witness :
  events_enabled (sys (pend_state demo_wait)) = true ∧ nb_registered (sys (pend_state demo_wait)) = true ∧
  stage (pend_state demo_wait) = LRun.
Proof.
  apply (pending_request_covered 1); [|by vm_compute].
  apply demo_reach. by vm_compute.
Defined.

Lemma pending_cleanup_terminal_witness :
  let s' := upd (moal_bridge_pending_set "mlan0" (sys (pend_state demo_gone))).2 true (pend_state demo_gone) in
  pstate (sys s') = MOAL_BR_PENDING_NONE ∧ events_enabled (sys s') = false ∧
  work_scheduled (sys s') = false ∧ work s' = WIdle.
Proof.
  apply (pending_cleanup_terminal 1 (pend_state demo_gone)).
  - apply demo_reach. by vm_compute.
  - by vm_compute.
  - apply rtc_once, ps_set.
Defined.

Lemma pending_stale_generation_witness :
  count (pend_state demo_attempt) = count (pend_state demo_wait) ∧
  p_ifname (sys (pend_state demo_attempt)) = p_ifname (sys (pend_state demo_wait)).
Proof.
  apply (pending_stale_generation 1 (pend_state demo_wait) (pend_state demo_attempt) "mlan1").
  - apply demo_reach. by vm_compute.
  - apply (prun_steps 1 [PRun; PWork; PWork; PReady NETDEV_UP "mlan1"]). by vm_compute.
  - by vm_compute.
  - by vm_compute.
Defined.

Lemma pending_identity_cancel_witness :
  let p := sys (pend_state demo_wait) in
  moal_bridge_pending_schedule_event 1 NETDEV_UNREGISTER (Some ("mlan1"%string, true)) true (λ _, true) p =
  if true && (if bool_decide (NETDEV_UNREGISTER = NETDEV_UNREGISTER) then String.eqb (p_ifname p) "mlan1"
              else negb true)
  then drop_request p else p.
Proof.
  intros p. apply (pending_identity_cancel NETDEV_UNREGISTER "mlan1" true true (λ _, true) p);
    [by vm_compute..|by right].
Defined.

Lemma attempt_outcome_witness :
  pstate (work_finish 1 "mlan1" 1 (- ESTALE) (sys (pend_state demo_attempt))).2 = MOAL_BR_PENDING_NONE.
Proof.
  rewrite (attempt_outcome "mlan1" 1 (- ESTALE) (sys (pend_state demo_attempt))); by vm_compute.
Defined.
