(* ===== verification/BridgeLifecycle.v ===== *)
(** * moal_bridge.c: the lifecycle of the bridge instance

    Creation and destruction of the bridge, its netdevice notifier and the
    deferred release of the peer, with everything the instance acquires from the
    kernel: references, promiscuity, capture hooks, notifiers, threads, memory,
    the timer, queued packets.  What is held is counted per resource in a ledger,
    so that an error path that forgets or repeats a release shows up as a wrong
    count.  What the kernel may do meanwhile is an argument: allocation and
    registration results, and the events it delivers at each point where the
    code holds no lock that excludes them. *)

From S2P Require Import Prelude BridgePending.

(** ** Resources *)

(** What the instance can hold, per device where it is about a device. *)
Inductive res :=
| RRef (d : Z)        (** dev_hold / dev_put *)
| RPromisc (d : Z)    (** dev_set_promiscuity *)
| RRxHandler (d : Z)  (** netdev_rx_handler_register *)
| RPack (d : Z)       (** dev_add_pack *)
| RNetdevNb           (** register_netdevice_notifier *)
| RInetNb             (** register_inetaddr_notifier *)
| RThread             (** kthread_run / kthread_stop *)
| RAlloc              (** kzalloc / kfree *)
| RTimer              (** an enqueued hrtimer *)
| RSkb.               (** packets on the bridge's queues *)
#[export] Instance res_eq_dec : EqDecision res.
Proof. solve_decision. Defined.

Definition dl (r r' : res) : Z := if decide (r = r') then 1 else 0.

(** ** Devices, interfaces, the bridge *)

Definition MLAN_MAX_BSS_NUM : Z := 16.

(** The part of [struct net_device] the lifecycle reads; a pointer is its key. *)
Record netdev := mk_netdev {
  nd_name : string;
  nd_init_net : bool;     (** dev_net(dev) == &init_net *)
  nd_registered : bool;   (** reg_state == NETREG_REGISTERED *)
  nd_present : bool;      (** netif_device_present *)
  nd_running : bool;      (** netif_running *)
  nd_carrier : bool;      (** netif_carrier_ok *)
  nd_rx_other : bool;     (** another module's rx_handler is installed *)
  nd_ipv4 : Z             (** its first IPv4 address, or 0 *)
}.
Definition dead_dev : netdev := mk_netdev EmptyString false false false false false false 0.

Record moal_private := mk_priv { pr_netdev : option Z; media_connected : bool; bss_sta : bool }.

(** [struct moal_bridge]: the fields of the lifecycle; the two queues by their
    length and their cap counter. *)
Record moal_bridge_inst := mk_inst {
  peer_dev : Z;
  wlan_dev : Z;
  wlan_priv : Z;
  br_handle : Z;
  br_active : bool;
  published : bool;
  peer_released : bool;
  release_work : bool;
  use_packet_type : bool;
  wlan_name : string;
  peer_name : string;
  wlan_ipv4 : Z;
  peer_ipv4 : Z;
  w2p_queue : Z;
  w2p_qlen : Z;
  w2p_thread : bool;
  p2w_queue : Z;
  p2w_qlen : Z;
  p2w_thread : bool;
  ka_armed : bool;
  timer : bool;
  keepalive_ms : Z;
  keepalive_idle_ms : Z
}.
Definition set_br_active (x : bool) (r : moal_bridge_inst) : moal_bridge_inst :=
    mk_inst (peer_dev r) (wlan_dev r) (wlan_priv r) (br_handle r) x (published r) (peer_released
    r) (release_work r) (use_packet_type r) (wlan_name r) (peer_name r) (wlan_ipv4 r) (peer_ipv4
    r) (w2p_queue r) (w2p_qlen r) (w2p_thread r) (p2w_queue r) (p2w_qlen r) (p2w_thread r)
    (ka_armed r) (timer r) (keepalive_ms r) (keepalive_idle_ms r).
Definition set_published (x : bool) (r : moal_bridge_inst) : moal_bridge_inst :=
    mk_inst (peer_dev r) (wlan_dev r) (wlan_priv r) (br_handle r) (br_active r) x (peer_released
    r) (release_work r) (use_packet_type r) (wlan_name r) (peer_name r) (wlan_ipv4 r) (peer_ipv4
    r) (w2p_queue r) (w2p_qlen r) (w2p_thread r) (p2w_queue r) (p2w_qlen r) (p2w_thread r)
    (ka_armed r) (timer r) (keepalive_ms r) (keepalive_idle_ms r).
Definition set_peer_released (x : bool) (r : moal_bridge_inst) : moal_bridge_inst :=
    mk_inst (peer_dev r) (wlan_dev r) (wlan_priv r) (br_handle r) (br_active r) (published r) x
    (release_work r) (use_packet_type r) (wlan_name r) (peer_name r) (wlan_ipv4 r) (peer_ipv4 r)
    (w2p_queue r) (w2p_qlen r) (w2p_thread r) (p2w_queue r) (p2w_qlen r) (p2w_thread r)
    (ka_armed r) (timer r) (keepalive_ms r) (keepalive_idle_ms r).
Definition set_release_work (x : bool) (r : moal_bridge_inst) : moal_bridge_inst :=
    mk_inst (peer_dev r) (wlan_dev r) (wlan_priv r) (br_handle r) (br_active r) (published r)
    (peer_released r) x (use_packet_type r) (wlan_name r) (peer_name r) (wlan_ipv4 r) (peer_ipv4
    r) (w2p_queue r) (w2p_qlen r) (w2p_thread r) (p2w_queue r) (p2w_qlen r) (p2w_thread r)
    (ka_armed r) (timer r) (keepalive_ms r) (keepalive_idle_ms r).
Definition set_use_packet_type (x : bool) (r : moal_bridge_inst) : moal_bridge_inst :=
    mk_inst (peer_dev r) (wlan_dev r) (wlan_priv r) (br_handle r) (br_active r) (published r)
    (peer_released r) (release_work r) x (wlan_name r) (peer_name r) (wlan_ipv4 r) (peer_ipv4 r)
    (w2p_queue r) (w2p_qlen r) (w2p_thread r) (p2w_queue r) (p2w_qlen r) (p2w_thread r)
    (ka_armed r) (timer r) (keepalive_ms r) (keepalive_idle_ms r).
Definition set_wlan_name (x : string) (r : moal_bridge_inst) : moal_bridge_inst :=
    mk_inst (peer_dev r) (wlan_dev r) (wlan_priv r) (br_handle r) (br_active r) (published r)
    (peer_released r) (release_work r) (use_packet_type r) x (peer_name r) (wlan_ipv4 r)
    (peer_ipv4 r) (w2p_queue r) (w2p_qlen r) (w2p_thread r) (p2w_queue r) (p2w_qlen r)
    (p2w_thread r) (ka_armed r) (timer r) (keepalive_ms r) (keepalive_idle_ms r).
Definition set_peer_name (x : string) (r : moal_bridge_inst) : moal_bridge_inst :=
    mk_inst (peer_dev r) (wlan_dev r) (wlan_priv r) (br_handle r) (br_active r) (published r)
    (peer_released r) (release_work r) (use_packet_type r) (wlan_name r) x (wlan_ipv4 r)
    (peer_ipv4 r) (w2p_queue r) (w2p_qlen r) (w2p_thread r) (p2w_queue r) (p2w_qlen r)
    (p2w_thread r) (ka_armed r) (timer r) (keepalive_ms r) (keepalive_idle_ms r).
Definition set_w2p_thread (x : bool) (r : moal_bridge_inst) : moal_bridge_inst :=
    mk_inst (peer_dev r) (wlan_dev r) (wlan_priv r) (br_handle r) (br_active r) (published r)
    (peer_released r) (release_work r) (use_packet_type r) (wlan_name r) (peer_name r)
    (wlan_ipv4 r) (peer_ipv4 r) (w2p_queue r) (w2p_qlen r) x (p2w_queue r) (p2w_qlen r)
    (p2w_thread r) (ka_armed r) (timer r) (keepalive_ms r) (keepalive_idle_ms r).
Definition set_p2w_thread (x : bool) (r : moal_bridge_inst) : moal_bridge_inst :=
    mk_inst (peer_dev r) (wlan_dev r) (wlan_priv r) (br_handle r) (br_active r) (published r)
    (peer_released r) (release_work r) (use_packet_type r) (wlan_name r) (peer_name r)
    (wlan_ipv4 r) (peer_ipv4 r) (w2p_queue r) (w2p_qlen r) (w2p_thread r) (p2w_queue r)
    (p2w_qlen r) x (ka_armed r) (timer r) (keepalive_ms r) (keepalive_idle_ms r).
Definition set_ka_armed (x : bool) (r : moal_bridge_inst) : moal_bridge_inst :=
    mk_inst (peer_dev r) (wlan_dev r) (wlan_priv r) (br_handle r) (br_active r) (published r)
    (peer_released r) (release_work r) (use_packet_type r) (wlan_name r) (peer_name r)
    (wlan_ipv4 r) (peer_ipv4 r) (w2p_queue r) (w2p_qlen r) (w2p_thread r) (p2w_queue r)
    (p2w_qlen r) (p2w_thread r) x (timer r) (keepalive_ms r) (keepalive_idle_ms r).
Definition set_timer (x : bool) (r : moal_bridge_inst) : moal_bridge_inst :=
    mk_inst (peer_dev r) (wlan_dev r) (wlan_priv r) (br_handle r) (br_active r) (published r)
    (peer_released r) (release_work r) (use_packet_type r) (wlan_name r) (peer_name r)
    (wlan_ipv4 r) (peer_ipv4 r) (w2p_queue r) (w2p_qlen r) (w2p_thread r) (p2w_queue r)
    (p2w_qlen r) (p2w_thread r) (ka_armed r) x (keepalive_ms r) (keepalive_idle_ms r).
(** Both queues emptied, each packet with its decrement of the counter. *)
Definition empty_queues (b : moal_bridge_inst) : moal_bridge_inst :=
  mk_inst (peer_dev b) (wlan_dev b) (wlan_priv b) (br_handle b) (br_active b) (published b)
    (peer_released b) (release_work b) (use_packet_type b) (wlan_name b) (peer_name b) (wlan_ipv4 b)
    (peer_ipv4 b) 0 (w2p_qlen b - w2p_queue b) (w2p_thread b) 0 (p2w_qlen b - p2w_queue b)
    (p2w_thread b) (ka_armed b) (timer b) (keepalive_ms b) (keepalive_idle_ms b).
Definition add_traffic (n m : Z) (b : moal_bridge_inst) : moal_bridge_inst :=
  mk_inst (peer_dev b) (wlan_dev b) (wlan_priv b) (br_handle b) (br_active b) (published b)
    (peer_released b) (release_work b) (use_packet_type b) (wlan_name b) (peer_name b) (wlan_ipv4 b)
    (peer_ipv4 b) (w2p_queue b + n) (w2p_qlen b + n) (w2p_thread b) (p2w_queue b + m) (p2w_qlen b + m)
    (p2w_thread b) (ka_armed b) (timer b) (keepalive_ms b) (keepalive_idle_ms b).
Definition set_ipv4 (wlan peer : Z) (b : moal_bridge_inst) : moal_bridge_inst :=
  mk_inst (peer_dev b) (wlan_dev b) (wlan_priv b) (br_handle b) (br_active b) (published b)
    (peer_released b) (release_work b) (use_packet_type b) (wlan_name b) (peer_name b) wlan
    peer (w2p_queue b) (w2p_qlen b) (w2p_thread b) (p2w_queue b) (p2w_qlen b)
    (p2w_thread b) (ka_armed b) (timer b) (keepalive_ms b) (keepalive_idle_ms b).

(** The part of [moal_handle] the lifecycle reads; [h_priv] is handle->priv[] by
    pointer. *)
Record moal_handle := mk_handle {
  h_priv : list (option Z);
  priv_num : Z;
  h_bridge : option moal_bridge_inst;
  effective_idx : Z;
  param_keepalive_ms : Z;
  param_keepalive_idle_ms : Z;
  surprise_removed : bool;
  fw_reseting : bool;
  fw_reload : bool;
  driver_status : bool;
  hw_ready : bool;
  pref_mac : option Z
}.
Definition set_h_bridge (x : option moal_bridge_inst) (r : moal_handle) : moal_handle :=
    mk_handle (h_priv r) (priv_num r) x (effective_idx r) (param_keepalive_ms r)
    (param_keepalive_idle_ms r) (surprise_removed r) (fw_reseting r) (fw_reload r)
    (driver_status r) (hw_ready r) (pref_mac r).
Definition set_effective_idx (x : Z) (r : moal_handle) : moal_handle :=
    mk_handle (h_priv r) (priv_num r) (h_bridge r) x (param_keepalive_ms r)
    (param_keepalive_idle_ms r) (surprise_removed r) (fw_reseting r) (fw_reload r)
    (driver_status r) (hw_ready r) (pref_mac r).

(** [struct moal_bridge_suspended_owner] while [valid]. *)
Record moal_bridge_suspended_owner := mk_suspended {
  s_handle : Z; s_peer_dev : Z; s_wlan_bss_idx : Z; s_keepalive_ms : Z; s_keepalive_idle_ms : Z
}.

Record switch_counters := mk_counters { switch_ok : Z; switch_fail : Z; rollback_ok : Z; rollback_fail : Z }.

(** Everything the lifecycle shares: the kernel's devices, the driver's handles
    and the module's globals. *)
Record world := mk_world {
  devs : gmap Z netdev;
  privs : gmap Z moal_private;
  handles : gmap Z moal_handle;
  m_handle : list (option Z);
  led : res → Z;
  guard : bool;
  owner : option Z;
  suspended : option moal_bridge_suspended_owner;
  kobj : bool;
  sysfs_br : option Z;
  pend : pending;
  counters : switch_counters;
  deferred : Z;
  runtime_switch : Z;
  control_ready : bool
}.
Definition set_devs (x : gmap Z netdev) (r : world) : world :=
    mk_world x (privs r) (handles r) (m_handle r) (led r) (guard r) (owner r) (suspended r)
    (kobj r) (sysfs_br r) (pend r) (counters r) (deferred r) (runtime_switch r) (control_ready
    r).
Definition set_privs (x : gmap Z moal_private) (r : world) : world :=
    mk_world (devs r) x (handles r) (m_handle r) (led r) (guard r) (owner r) (suspended r) (kobj
    r) (sysfs_br r) (pend r) (counters r) (deferred r) (runtime_switch r) (control_ready r).
Definition set_handles (x : gmap Z moal_handle) (r : world) : world :=
    mk_world (devs r) (privs r) x (m_handle r) (led r) (guard r) (owner r) (suspended r) (kobj
    r) (sysfs_br r) (pend r) (counters r) (deferred r) (runtime_switch r) (control_ready r).
Definition set_led (x : res → Z) (r : world) : world :=
    mk_world (devs r) (privs r) (handles r) (m_handle r) x (guard r) (owner r) (suspended r)
    (kobj r) (sysfs_br r) (pend r) (counters r) (deferred r) (runtime_switch r) (control_ready
    r).
Definition set_guard (x : bool) (r : world) : world :=
    mk_world (devs r) (privs r) (handles r) (m_handle r) (led r) x (owner r) (suspended r) (kobj
    r) (sysfs_br r) (pend r) (counters r) (deferred r) (runtime_switch r) (control_ready r).
Definition set_owner (x : option Z) (r : world) : world :=
    mk_world (devs r) (privs r) (handles r) (m_handle r) (led r) (guard r) x (suspended r) (kobj
    r) (sysfs_br r) (pend r) (counters r) (deferred r) (runtime_switch r) (control_ready r).
Definition set_suspended (x : option moal_bridge_suspended_owner) (r : world) : world :=
    mk_world (devs r) (privs r) (handles r) (m_handle r) (led r) (guard r) (owner r) x (kobj r)
    (sysfs_br r) (pend r) (counters r) (deferred r) (runtime_switch r) (control_ready r).
Definition set_kobj (x : bool) (r : world) : world :=
    mk_world (devs r) (privs r) (handles r) (m_handle r) (led r) (guard r) (owner r) (suspended
    r) x (sysfs_br r) (pend r) (counters r) (deferred r) (runtime_switch r) (control_ready r).
Definition set_sysfs_br (x : option Z) (r : world) : world :=
    mk_world (devs r) (privs r) (handles r) (m_handle r) (led r) (guard r) (owner r) (suspended
    r) (kobj r) x (pend r) (counters r) (deferred r) (runtime_switch r) (control_ready r).
Definition set_pend (x : pending) (r : world) : world :=
    mk_world (devs r) (privs r) (handles r) (m_handle r) (led r) (guard r) (owner r) (suspended
    r) (kobj r) (sysfs_br r) x (counters r) (deferred r) (runtime_switch r) (control_ready r).
Definition set_counters (x : switch_counters) (r : world) : world :=
    mk_world (devs r) (privs r) (handles r) (m_handle r) (led r) (guard r) (owner r) (suspended
    r) (kobj r) (sysfs_br r) (pend r) x (deferred r) (runtime_switch r) (control_ready r).

(** Acquire ([n] = 1) or release ([n] = -1). *)
Definition bump (r : res) (n : Z) (w : world) : world :=
  set_led (λ r', led w r' + n * dl r r') w.

Definition dev_at (w : world) (d : Z) : netdev := default dead_dev (devs w !! d).
Definition priv_at (w : world) (p : Z) : moal_private := default (mk_priv None false false) (privs w !! p).

Definition dev_ready (w : world) (d : Z) : bool :=
  let dv := dev_at w d in
  if negb (nd_running dv) || negb (nd_carrier dv) then false else nd_registered dv.

(** [dev_get_by_name] in init_net, and its reference-free variant. *)
Definition dev_named (w : world) (name : string) : option Z :=
  fst <$> find (λ kv : Z * netdev, String.eqb (nd_name kv.2) name && nd_init_net kv.2 && nd_registered kv.2)
               (map_to_list (devs w)).

(** ** The notifier and the deferred release *)

(** A step works on the world and on an instance, which need not be published. *)
Abbreviation inst_step := (world * moal_bridge_inst → world * moal_bridge_inst).

(** Purge both queues. *)
Definition drain_queues : inst_step := λ '(w, b),
  (bump RSkb (- (w2p_queue b + p2w_queue b)) w, empty_queues b).

(** Undo the capture of the peer's traffic and its promiscuity (under RTNL). *)
Definition release_capture (b : moal_bridge_inst) (w : world) : world :=
  bump (RPromisc (peer_dev b)) (-1)
    (if use_packet_type b then bump (RPack (peer_dev b)) (-1) w
     else bump (RRxHandler (peer_dev b)) (-1) w).

(** The readiness part of the deferred request sees the event first. *)
Definition forward_readiness (ev : netdev_event) (d : Z) (b : moal_bridge_inst) (w : world) : world :=
  if is_readiness_event ev then
    set_pend (moal_bridge_pending_schedule_event (deferred w) ev
                (Some (nd_name (dev_at w d), nd_init_net (dev_at w d))) (published b)
                (λ n, bool_decide (is_Some (dev_named w n))) (pend w)) w
  else w.

Definition netdev_changename (d : Z) : inst_step := λ '(w, b),
  if bool_decide (d = peer_dev b) && peer_released b then (w, b)
  else if bool_decide (d = wlan_dev b)
       then (w, set_wlan_name (copy_name (nd_name (dev_at w d))) b)
       else (w, set_peer_name (copy_name (nd_name (dev_at w d))) b).

Definition netdev_down (d : Z) : inst_step := λ '(w, b),
  if bool_decide (d = peer_dev b) && peer_released b then (w, b)
  else drain_queues (w, set_br_active false b).

Definition netdev_up (d : Z) : inst_step := λ '(w, b),
  if peer_released b then (w, b)
  else
    let b1 := set_ipv4 (nd_ipv4 (dev_at w (wlan_dev b))) (nd_ipv4 (dev_at w (peer_dev b))) b in
    (w, set_br_active (published b1 && dev_ready w (peer_dev b1) && dev_ready w (wlan_dev b1) &&
                       media_connected (priv_at w (wlan_priv b1))) b1).

Definition netdev_unregister (d : Z) : inst_step := λ '(w, b),
  let b1 := set_br_active false b in
  if negb (bool_decide (d = peer_dev b1)) then (w, b1)
  else if peer_released b1 then (w, b1)
  else (release_capture b1 w, set_release_work true (set_peer_released true b1)).

Definition moal_bridge_netdev_event (ev : netdev_event) (d : Z) : inst_step := λ '(w, b),
  let w1 := forward_readiness ev d b w in
  if bool_decide (d ≠ peer_dev b) && bool_decide (d ≠ wlan_dev b) then (w1, b)
  else match ev with
       | NETDEV_CHANGENAME => netdev_changename d (w1, b)
       | NETDEV_DOWN => netdev_down d (w1, b)
       | NETDEV_UP | NETDEV_CHANGE => netdev_up d (w1, b)
       | NETDEV_UNREGISTER => netdev_unregister d (w1, b)
       | NETDEV_OTHER => (w1, b)
       end.

(** kthread_stop on the threads that exist. *)
Definition stop_threads : inst_step := λ '(w, b),
  (bump RThread (- (Z.b2z (w2p_thread b) + Z.b2z (p2w_thread b))) w,
   set_p2w_thread false (set_w2p_thread false b)).

Definition moal_bridge_peer_release_work : inst_step := λ '(w, b),
  let '(w1, b1) := drain_queues (stop_threads (w, b)) in
  (bump (RRef (peer_dev b1)) (-1) w1, b1).

(** The work item, if it is queued: run by the workqueue or by flush_work. *)
Definition flush_release_work : inst_step := λ '(w, b),
  if release_work b then moal_bridge_peer_release_work (w, set_release_work false b) else (w, b).

(** ** What the kernel and the data path do meanwhile *)

Inductive kev :=
| KStatus (ev : netdev_event) (d : Z) (dv : netdev)  (** device [d] becomes [dv], event [ev] follows *)
| KReplay (ev : netdev_event) (d : Z)    (** replayed to one notifier at its (un)registration *)
| KMedia (p : Z) (connected : bool)      (** association comes or goes *)
| KTraffic (n m : Z)                     (** packets queued (or, negative, sent) by the data path *)
| KRelease                               (** the workqueue runs peer_release_work *)
| KArm.                                  (** a forwarded packet arms the keepalive timer *)

Definition traffic_delta (queued n : Z) : Z := Z.max n (- queued).

(** The kernel changes a device and runs the module-lifetime notifier. *)
Definition kernel_status (ev : netdev_event) (d : Z) (dv : netdev) (w : world) : world :=
  let w := set_devs (<[d := dv]> (devs w)) w in
  set_pend (moal_bridge_pending_netdev_event (deferred w) ev
              (Some (nd_name (dev_at w d), nd_init_net (dev_at w d)))
              (λ n, bool_decide (is_Some (dev_named w n))) (pend w)) w.
Definition kernel_media (p : Z) (c : bool) (w : world) : world :=
  set_privs (alter (λ pr, mk_priv (pr_netdev pr) c (bss_sta pr)) p (privs w)) w.

(** An event and an instance whose notifier is registered. *)
Definition kev_inst (e : kev) : inst_step := λ '(w, b),
  match e with
  | KStatus ev d dv => moal_bridge_netdev_event ev d (kernel_status ev d dv w, b)
  | KReplay ev d => moal_bridge_netdev_event ev d (w, b)
  | KMedia p c => (kernel_media p c w, b)
  | KTraffic n m =>
      if br_active b then
        let n' := traffic_delta (w2p_queue b) n in let m' := traffic_delta (p2w_queue b) m in
        (bump RSkb (n' + m') w, add_traffic n' m' b)
      else (w, b)
  | KRelease => flush_release_work (w, b)
  | KArm => if published b && negb (timer b)
            then (bump RTimer 1 w, set_timer true (set_ka_armed true b)) else (w, b)
  end.
Definition kevs_inst (es : list kev) (wb : world * moal_bridge_inst) : world * moal_bridge_inst :=
  foldl (λ wb e, kev_inst e wb) wb es.

(** An event in a world where handle [h], if any, has the live instance. *)
Definition world_event (h : option Z) (e : kev) (w : world) : world :=
  match h with
  | Some h =>
      match handles w !! h ≫= h_bridge with
      | Some b => let '(w, b) := kev_inst e (w, b) in
                  set_handles (alter (set_h_bridge (Some b)) h (handles w)) w
      | None => match e with KStatus ev d dv => kernel_status ev d dv w | KMedia p c => kernel_media p c w | _ => w end
      end
  | None => match e with KStatus ev d dv => kernel_status ev d dv w | KMedia p c => kernel_media p c w | _ => w end
  end.
Definition world_events (h : option Z) (es : list kev) (w : world) : world :=
  foldl (λ w e, world_event h e w) w es.

(** ** Initialisation *)

(** The kernel's answers during [__moal_bridge_init_locked], in order. *)
Record init_env := mk_init_env {
  ie_kzalloc : bool;              (** the allocation succeeds *)
  ie_w2p_err : Z; ie_p2w_err : Z; (** kthread_run: 0 or a negative errno *)
  ie_rx_err : Z;                  (** netdev_rx_handler_register when nobody else has one *)
  ie_nb_events : list kev; ie_nb_err : Z;      (** register_netdevice_notifier *)
  ie_inet_events : list kev; ie_inet_err : Z;  (** register_inetaddr_notifier *)
  ie_final_events : list kev;     (** until RTNL is taken for the final check *)
  ie_unreg_events : list kev;     (** while the notifier is being unregistered *)
  ie_sysfs_err : Z
}.

(** The wlan interface of BSS [idx], with its netdev. *)
Definition init_wlan (hd : moal_handle) (idx : Z) (w : world) : option (Z * Z) :=
  p ← (if (idx <? 0) || (idx >=? MLAN_MAX_BSS_NUM) then None else mjoin (h_priv hd !! Z.to_nat idx));
  d ← pr_netdev (priv_at w p);
  Some (p, d).
(** The peer: the pinned device if it is still registered, else by name. *)
Definition init_peer (peer_nm : string) (peer_identity : option Z) (w : world) : option Z :=
  match peer_identity with
  | Some d => if nd_registered (dev_at w d) then Some d else None
  | None => dev_named w peer_nm
  end.

(** Guard, wlan interface, peer reference, context, threads (steps 0 to 4). *)
Definition init_open (h : Z) (hd : moal_handle) (peer_nm : string) (peer_identity : option Z)
    (idx ka_ms ka_idle_ms : Z) (e : init_env) (w : world) : (Z + moal_bridge_inst) * world :=
  if guard w then (inl (- EBUSY), w)
  else
    let w := set_guard true w in
    match init_wlan hd idx w with
    | None => (inl (- ENODEV), set_guard false w)
    | Some (p, wdev) =>
        match init_peer peer_nm peer_identity w with
        | None => (inl (- ENODEV), set_guard false w)
        | Some d =>
            let w := bump (RRef d) 1 w in
            if negb (ie_kzalloc e) then (inl (- ENOMEM), set_guard false (bump (RRef d) (-1) w))
            else
              let w := bump RAlloc 1 w in
              if ie_w2p_err e <? 0
              then (inl (ie_w2p_err e), set_guard false (bump RAlloc (-1) (bump (RRef d) (-1) w)))
              else
                let w := bump RThread 1 w in
                if ie_p2w_err e <? 0
                then (inl (ie_p2w_err e),
                      set_guard false (bump RAlloc (-1) (bump (RRef d) (-1) (bump RThread (-1) w))))
                else
                  let w := bump RThread 1 w in
                  (inr (mk_inst d wdev p h false false false false false EmptyString EmptyString 0 0
                          0 0 true 0 0 true false false ka_ms ka_idle_ms), w)
        end
    end.

(** Promiscuity and the capture hook, with the packet_type fallback (step 5). *)
Definition init_capture (e : init_env) : inst_step := λ '(w, b),
  let w := bump (RPromisc (peer_dev b)) 1 w in
  let err := if nd_rx_other (dev_at w (peer_dev b)) || negb (led w (RRxHandler (peer_dev b)) =? 0)
             then - EBUSY else ie_rx_err e in
  if err =? 0 then (bump (RRxHandler (peer_dev b)) 1 w, b)
  else (bump (RPack (peer_dev b)) 1 w, set_use_packet_type true b).

(** How far the registration came, which is where the unwinding starts. *)
Inductive unwind := err_inet_notifier | err_netdev_notifier | err_capture.

(** The notifiers and the final identity check (step 6). *)
Definition init_notify (e : init_env) (wb : world * moal_bridge_inst) :
    option (unwind * Z) * (world * moal_bridge_inst) :=
  let '(w, b) := kevs_inst (ie_nb_events e) wb in
  if negb (ie_nb_err e =? 0) then (Some (err_capture, ie_nb_err e), (w, b))
  else
    let '(w, b) := kevs_inst (ie_inet_events e) (bump RNetdevNb 1 w, b) in
    if negb (ie_inet_err e =? 0) then (Some (err_netdev_notifier, ie_inet_err e), (w, b))
    else
      let '(w, b) := kevs_inst (ie_final_events e) (bump RInetNb 1 w, b) in
      let pd := dev_at w (peer_dev b) in let wd := dev_at w (wlan_dev b) in
      if peer_released b || negb (nd_registered pd) || negb (nd_registered wd)
         || negb (nd_present pd) || negb (nd_present wd)
      then (Some (err_inet_notifier, if peer_released b then - ENODEV else - ENETDOWN), (w, b))
      else (None, (w, b)).

(** The free-running timer is started here; the adaptive one by traffic. *)
Definition init_keepalive : inst_step := λ '(w, b),
  if keepalive_ms b >? 0 then
    if keepalive_idle_ms b >? 0 then (w, b)
    else (bump RTimer 1 w, set_timer true (set_ka_armed true b))
  else (w, b).

Definition moal_bridge_sysfs_init (h : option Z) (err : Z) (w : world) : Z * world :=
  if negb (kobj w) && negb (err =? 0) then (err, w)
  else (0, set_sysfs_br h (set_kobj true w)).

(** Store the instance in its handle. *)
Definition store_bridge (h : Z) (ob : option moal_bridge_inst) (w : world) : world :=
  set_handles (alter (set_h_bridge ob) h (handles w)) w.
Definition store_idx (h idx : Z) (w : world) : world :=
  set_handles (alter (set_effective_idx idx) h (handles w)) w.

(** The names and addresses the instance starts with (under RTNL). *)
Definition init_snapshot (w : world) (b : moal_bridge_inst) : moal_bridge_inst :=
  set_ipv4 (nd_ipv4 (dev_at w (wlan_dev b))) (nd_ipv4 (dev_at w (peer_dev b)))
    (set_peer_name (copy_name (nd_name (dev_at w (peer_dev b))))
       (set_wlan_name (copy_name (nd_name (dev_at w (wlan_dev b)))) b)).
(** Publication and the first activation. *)
Definition init_activate (w : world) (b : moal_bridge_inst) : moal_bridge_inst :=
  set_br_active (dev_ready w (peer_dev b) && dev_ready w (wlan_dev b) &&
                 media_connected (priv_at w (wlan_priv b)) && nd_running (dev_at w (peer_dev b)))
    (set_published true b).

(** Snapshot, timer, publication and first activation (steps 7 and 8). *)
Definition init_publish (h idx : Z) (e : init_env) (wb : world * moal_bridge_inst) : world :=
  let '(w, b) := wb in
  let '(w, b) := init_keepalive (w, init_snapshot w b) in
  (moal_bridge_sysfs_init (Some h) (ie_sysfs_err e)
     (store_idx h idx (store_bridge h (Some (init_activate w b)) w))).2.

(** The last label of the unwinding. *)
Definition unwind_capture (wb : world * moal_bridge_inst) : world :=
  let '(w, b) := wb in
  let b := set_br_active false b in
  let w := if peer_released b then w else release_capture b w in
  let '(w, b) := stop_threads (flush_release_work (w, b)) in
  let '(w, b) := drain_queues (w, b) in
  let w := if peer_released b then w else bump (RRef (peer_dev b)) (-1) w in
  set_guard false (bump RAlloc (-1) w).
(** The unwinding: each label falls through to the next. *)
Definition init_unwind (u : unwind) (e : init_env) (wb : world * moal_bridge_inst) : world :=
  let '(w, b) := wb in
  let unregister '(w, b) :=
    let '(w, b) := kevs_inst (ie_unreg_events e) (w, set_br_active false b) in
    (bump RNetdevNb (-1) w, b) in
  unwind_capture
    match u with
    | err_inet_notifier => unregister (bump RInetNb (-1) w, b)
    | err_netdev_notifier => unregister (w, b)
    | err_capture => (w, b)
    end.

Definition moal_bridge_init_locked (h : Z) (peer_nm : string) (peer_identity : option Z)
    (idx ka_ms ka_idle_ms : Z) (e : init_env) (w : world) : Z * world :=
  match handles w !! h with
  | None => (- EINVAL, w)
  | Some hd =>
      match init_open h hd peer_nm peer_identity idx ka_ms ka_idle_ms e w with
      | (inl err, w) => (err, w)
      | (inr b, w) =>
          match init_notify e (init_capture e (w, b)) with
          | (Some (u, err), wb) => (err, init_unwind u e wb)
          | (None, wb) => (0, init_publish h idx e wb)
          end
      end
  end.

(** ** Teardown *)

(** What happens during [__moal_bridge_deinit_locked]: events before the netdev
    notifier is unregistered, the notifications its removal replays, and a
    producer that re-arms the timer between the two cancels. *)
Record deinit_env := mk_deinit_env {
  de_events : list kev; de_replay : list kev; de_rearm : bool
}.

Definition hrtimer_cancel : inst_step := λ '(w, b),
  (bump RTimer (- Z.b2z (timer b)) w, set_timer false b).
Definition moal_bridge_sysfs_deinit (w : world) : world := set_sysfs_br None w.

(** Steps 1 to 4: stop forwarding, drop the notifiers, release the capture. *)
Definition deinit_quiesce (e : deinit_env) (wb : world * moal_bridge_inst) : world * moal_bridge_inst :=
  let '(w, b) := wb in
  let '(w, b) := hrtimer_cancel (moal_bridge_sysfs_deinit w, set_published false (set_br_active false b)) in
  let '(w, b) := kevs_inst (de_events e) (w, b) in
  let '(w, b) := kevs_inst (de_replay e) (bump RInetNb (-1) w, b) in
  let '(w, b) := flush_release_work (bump RNetdevNb (-1) w, b) in
  (if peer_released b then w else release_capture b w, b).

(** Steps 5b to 9: the final timer cancel, threads, queues, peer, memory, guard. *)
Definition deinit_free (e : deinit_env) (wb : world * moal_bridge_inst) : world :=
  let '(w, b) := wb in
  let '(w, b) := if de_rearm e && negb (timer b) then (bump RTimer 1 w, set_timer true b) else (w, b) in
  let '(w, b) := hrtimer_cancel (w, set_ka_armed false b) in
  let '(w, b) := drain_queues (stop_threads (w, b)) in
  let w := if peer_released b then w else bump (RRef (peer_dev b)) (-1) w in
  set_guard false (bump RAlloc (-1) w).

Definition moal_bridge_deinit_locked (h : Z) (e : deinit_env) (w : world) : world :=
  match handles w !! h ≫= h_bridge with
  | None => w
  | Some b =>
      let '(w, b) := deinit_quiesce e (w, b) in
      deinit_free e (store_idx h (-1) (store_bridge h None w), b)
  end.

(** ** What an instance holds *)

(** The holdings of an instance with both notifiers registered. *)
Definition held (b : moal_bridge_inst) (r : res) : Z :=
  dl RAlloc r + dl RNetdevNb r + dl RInetNb r +
  (Z.b2z (w2p_thread b) + Z.b2z (p2w_thread b)) * dl RThread r +
  Z.b2z (timer b) * dl RTimer r + (w2p_queue b + p2w_queue b) * dl RSkb r +
  (if peer_released b then 0
   else dl (RPromisc (peer_dev b)) r +
        (if use_packet_type b then dl (RPack (peer_dev b)) r else dl (RRxHandler (peer_dev b)) r)) +
  (if peer_released b && negb (release_work b) then 0 else dl (RRef (peer_dev b)) r).

(** The work item exists only for a released peer, and the cap counters agree
    with the queues. *)
Definition inst_wf (b : moal_bridge_inst) : Prop :=
  (release_work b = true → peer_released b = true) ∧
  w2p_qlen b = w2p_queue b ∧ p2w_qlen b = p2w_queue b ∧ 0 <= w2p_queue b ∧ 0 <= p2w_queue b.

(** What no event changes. *)
Definition same_inst (b b' : moal_bridge_inst) : Prop :=
  peer_dev b' = peer_dev b ∧ wlan_dev b' = wlan_dev b ∧ wlan_priv b' = wlan_priv b ∧
  br_handle b' = br_handle b ∧ published b' = published b ∧ use_packet_type b' = use_packet_type b ∧
  keepalive_ms b' = keepalive_ms b ∧ keepalive_idle_ms b' = keepalive_idle_ms b.
Definition same_world (w w' : world) : Prop :=
  guard w' = guard w ∧ owner w' = owner w ∧ handles w' = handles w ∧ m_handle w' = m_handle w ∧
  suspended w' = suspended w ∧ kobj w' = kobj w ∧ sysfs_br w' = sysfs_br w ∧
  counters w' = counters w ∧ deferred w' = deferred w ∧ runtime_switch w' = runtime_switch w ∧
  control_ready w' = control_ready w ∧ (pr_netdev <$> privs w') = (pr_netdev <$> privs w).

#[export] Instance same_inst_preorder : PreOrder same_inst.
Proof. unfold same_inst. split; [done|]. intros ???; naive_solver congruence. Qed.
#[export] Instance same_world_preorder : PreOrder same_world.
Proof. unfold same_world. split; [done|]. intros ??? H1 H2. destruct_and!. split_and!; congruence. Qed.

(** A step that neither gains nor loses anything the instance does not account for. *)
Definition balanced (wb wb' : world * moal_bridge_inst) : Prop :=
  inst_wf wb.2 → inst_wf wb'.2 ∧ same_inst wb.2 wb'.2 ∧ same_world wb.1 wb'.1 ∧
  ∀ r, led wb'.1 r - held wb'.2 r = led wb.1 r - held wb.2 r.

#[export] Instance balanced_preorder : PreOrder balanced.
Proof.
  split.
  - intros [w b] Hwf. split_and!; done.
  - intros wb1 wb2 wb3 H12 H23 Hwf.
    destruct (H12 Hwf) as (Hwf2 & Hi2 & Hw2 & Hl2). destruct (H23 Hwf2) as (Hwf3 & Hi3 & Hw3 & Hl3).
    split_and!; [done|by transitivity wb2.2|by transitivity wb2.1|].
    intros r. by rewrite Hl3, Hl2.
Qed.

Ltac balance :=
  intros (Hwork & Hq1 & Hq2 & Hq3 & Hq4); simpl in *;
  split_and!; simpl; [by repeat split; simpl; auto; lia| done | done |
    let r := fresh "r" in intros r; unfold held; simpl; lia].

Lemma drain_queues_balanced w b : balanced (w, b) (drain_queues (w, b)).
Proof. balance. Qed.
Lemma stop_threads_balanced w b : balanced (w, b) (stop_threads (w, b)).
Proof. balance. Qed.
Lemma set_br_active_balanced w b x : balanced (w, b) (w, set_br_active x b).
Proof. balance. Qed.
Lemma hrtimer_cancel_balanced w b : balanced (w, b) (hrtimer_cancel (w, b)).
Proof. balance. Qed.

Lemma flush_release_balanced w b : balanced (w, b) (flush_release_work (w, b)).
Proof.
  unfold flush_release_work. destruct (release_work b) eqn:E; [|done].
  intros (Hwork & Hq1 & Hq2 & Hq3 & Hq4); simpl in *. specialize (Hwork E).
  split_and!; [by repeat split; simpl; auto; lia|done|done|].
  intros r. unfold held; simpl. rewrite Hwork, E. simpl. lia.
Qed.

Lemma unregister_balanced w b d : balanced (w, b) (netdev_unregister d (w, b)).
Proof.
  unfold netdev_unregister. case_bool_decide as Hd; simpl; [|apply set_br_active_balanced].
  simpl in Hd. destruct (peer_released b) eqn:E; [apply set_br_active_balanced|].
  intros (Hwork & Hq1 & Hq2 & Hq3 & Hq4); simpl in *.
  assert (release_work b = false) as Hr by (destruct (release_work b); naive_solver).
  split_and!; simpl; [by repeat split; simpl; auto; lia|done|by unfold release_capture; case_match|].
  intros r. unfold held, release_capture; simpl. rewrite E, Hr. simpl.
  destruct (use_packet_type b); simpl; lia.
Qed.

Lemma forward_readiness_balanced ev d w b : balanced (w, b) (forward_readiness ev d b w, b).
Proof. unfold forward_readiness. case_match; balance. Qed.

Lemma netdev_event_balanced ev d w b : balanced (w, b) (moal_bridge_netdev_event ev d (w, b)).
Proof.
  unfold moal_bridge_netdev_event. pose proof (forward_readiness_balanced ev d w b) as Hf.
  set (w1 := forward_readiness ev d b w) in *. case_match; [done|].
  transitivity (w1, b); [done|]. clear Hf. destruct ev.
  - unfold netdev_up. destruct (peer_released b); [done|balance].
  - unfold netdev_down. case_match; [done|].
    transitivity (w1, set_br_active false b); [apply set_br_active_balanced|apply drain_queues_balanced].
  - unfold netdev_up. destruct (peer_released b); [done|balance].
  - unfold netdev_changename. case_match; [done|]. case_match; balance.
  - apply unregister_balanced.
  - done.
Qed.

(** An update that keeps a field keeps the map of that field. *)
Lemma fmap_alter_same {A B} (f : A → B) (g : A → A) (k : Z) (m : gmap Z A) :
  (∀ x, f (g x) = f x) → f <$> alter g k m = f <$> m.
Proof.
  intros H. apply map_eq. intros q. rewrite !lookup_fmap.
  destruct (decide (k = q)) as [->|]; [rewrite lookup_alter_eq|by rewrite lookup_alter_ne].
  destruct (m !! q) as [x|]; [|done]. simpl. by rewrite H.
Qed.
Lemma media_netdevs p c w : pr_netdev <$> privs (kernel_media p c w) = pr_netdev <$> privs w.
Proof. by apply fmap_alter_same. Qed.

Lemma kev_balanced e w b : balanced (w, b) (kev_inst e (w, b)).
Proof.
  destruct e as [ev d dv|ev d|p c|n m| |]; simpl.
  - transitivity (kernel_status ev d dv w, b); [balance|apply netdev_event_balanced].
  - apply netdev_event_balanced.
  - intros Hwf. do 2 (split; [done|]). split; [|done].
    do 11 (split; [done|]). apply media_netdevs.
  - case_match; [|done]. unfold traffic_delta. balance.
  - apply flush_release_balanced.
  - destruct (published b), (timer b) eqn:E; simpl; try done.
    intros (Hwork & Hq1 & Hq2 & Hq3 & Hq4); simpl in *.
    split_and!; [by repeat split; simpl; auto; lia|done|done|].
    intros r. unfold held; simpl. rewrite E. simpl. lia.
Qed.

Lemma kevs_balanced es w b : balanced (w, b) (kevs_inst es (w, b)).
Proof.
  revert w b; induction es as [|e es IH]; intros w b; [done|].
  transitivity (kev_inst e (w, b)); [apply kev_balanced|].
  change (balanced (kev_inst e (w, b)) (kevs_inst es (kev_inst e (w, b)))).
  destruct (kev_inst e (w, b)) as [w1 b1]. exact (IH w1 b1).
Qed.
#[export] Hint Resolve drain_queues_balanced stop_threads_balanced flush_release_balanced
  netdev_event_balanced kev_balanced kevs_balanced : driver.

(** ** Teardown releases what is held *)

Lemma flush_release_idle w b :
  inst_wf b → release_work (flush_release_work (w, b)).2 = false ∧
  peer_released (flush_release_work (w, b)).2 = peer_released b.
Proof. intros _. unfold flush_release_work. destruct (release_work b) eqn:E; simpl; done. Qed.

(** What is left once the notifiers and the capture are gone. *)
Definition remaining (b : moal_bridge_inst) (r : res) : Z :=
  dl RAlloc r + (Z.b2z (w2p_thread b) + Z.b2z (p2w_thread b)) * dl RThread r +
  Z.b2z (timer b) * dl RTimer r + (w2p_queue b + p2w_queue b) * dl RSkb r +
  (if peer_released b then 0 else dl (RRef (peer_dev b)) r).

(** Once the release work has run, giving up the capture leaves [remaining]. *)
Lemma release_capture_rest w b r :
  release_work b = false →
  led (if peer_released b then w else release_capture b w) r - remaining b r =
  led w r - held b r + dl RNetdevNb r + dl RInetNb r.
Proof.
  intros Hr. unfold remaining, held, release_capture. rewrite Hr.
  destruct (peer_released b), (use_packet_type b); simpl; lia.
Qed.

Lemma capture_same_world w b : same_world w (if peer_released b then w else release_capture b w).
Proof. unfold release_capture. repeat case_match; done. Qed.

Lemma deinit_quiesce_spec e w b w' b' :
  inst_wf b → deinit_quiesce e (w, b) = (w', b') →
  inst_wf b' ∧ peer_dev b' = peer_dev b ∧ same_world (moal_bridge_sysfs_deinit w) w' ∧
  ∀ r, led w' r - remaining b' r = led w r - held b r.
Proof.
  intros Hwf. unfold deinit_quiesce.
  set (b0 := set_published false (set_br_active false b)).
  assert (Hwf0 : inst_wf b0) by exact Hwf.
  destruct (hrtimer_cancel (moal_bridge_sysfs_deinit w, b0)) as [w1 b1] eqn:E1.
  pose proof (hrtimer_cancel_balanced (moal_bridge_sysfs_deinit w) b0 Hwf0) as H1. rewrite E1 in H1.
  destruct H1 as (Hwf1 & Hi1 & Hw1 & Hl1). simpl in Hwf1, Hi1, Hw1, Hl1.
  destruct (kevs_inst (de_events e) (w1, b1)) as [w2 b2] eqn:E2.
  pose proof (kevs_balanced (de_events e) w1 b1 Hwf1) as H2. rewrite E2 in H2.
  destruct H2 as (Hwf2 & Hi2 & Hw2 & Hl2). simpl in Hwf2, Hi2, Hw2, Hl2.
  destruct (kevs_inst (de_replay e) (bump RInetNb (-1) w2, b2)) as [w3 b3] eqn:E3.
  pose proof (kevs_balanced (de_replay e) (bump RInetNb (-1) w2) b2 Hwf2) as H3. rewrite E3 in H3.
  destruct H3 as (Hwf3 & Hi3 & Hw3 & Hl3). simpl in Hwf3, Hi3, Hw3, Hl3.
  destruct (flush_release_work (bump RNetdevNb (-1) w3, b3)) as [w4 b4] eqn:E4.
  pose proof (flush_release_balanced (bump RNetdevNb (-1) w3) b3 Hwf3) as H4.
  pose proof (flush_release_idle (bump RNetdevNb (-1) w3) b3 Hwf3) as [Hr4 _].
  rewrite E4 in H4, Hr4. destruct H4 as (Hwf4 & Hi4 & Hw4 & Hl4). simpl in Hwf4, Hi4, Hw4, Hl4, Hr4.
  intros [= <- <-]. split_and!.
  - done.
  - etransitivity; [apply Hi4|]. etransitivity; [apply Hi3|]. etransitivity; [apply Hi2|]. apply Hi1.
  - transitivity w1; [done|]. transitivity w2; [done|]. transitivity w3; [done|].
    transitivity w4; [done|apply capture_same_world].
  - intros r. rewrite (release_capture_rest w4 b4 r Hr4).
    specialize (Hl1 r). specialize (Hl2 r). specialize (Hl3 r). specialize (Hl4 r).
    change (held b0 r) with (held b r) in Hl1. lia.
Qed.

Lemma deinit_free_spec e w b :
  (∀ r, led (deinit_free e (w, b)) r = led w r - remaining b r) ∧
  same_world (set_guard false w) (deinit_free e (w, b)).
Proof.
  unfold deinit_free, remaining.
  destruct (de_rearm e), (timer b) eqn:Et, (peer_released b) eqn:Ep; simpl; rewrite ?Et, ?Ep;
    (split; [intros r; simpl; lia|done]).
Qed.

Lemma deinit_locked_spec h hd b e w :
  handles w !! h = Some hd → h_bridge hd = Some b → inst_wf b →
  (∀ r, led (moal_bridge_deinit_locked h e w) r = led w r - held b r) ∧
  same_world (set_guard false (moal_bridge_sysfs_deinit (store_idx h (-1) (store_bridge h None w))))
    (moal_bridge_deinit_locked h e w).
Proof.
  intros Hh Hb Hwf. unfold moal_bridge_deinit_locked. rewrite Hh. cbn [mbind option_bind]. rewrite Hb.
  destruct (deinit_quiesce e (w, b)) as [w' b'] eqn:E.
  destruct (deinit_quiesce_spec _ _ _ _ _ Hwf E) as (Hwf' & Hp & Hw & Hl).
  destruct (deinit_free_spec e (store_idx h (-1) (store_bridge h None w')) b') as [Hf Hs].
  cbn beta iota. split.
  - intros r. rewrite Hf. simpl. specialize (Hl r). lia.
  - etransitivity; [|exact Hs]. unfold same_world in *; simpl in *. destruct_and!.
    split_and!; try done. by f_equal; f_equal.
Qed.

(** ** A failed initialisation leaves nothing behind *)

Definition missing (u : unwind) (r : res) : Z :=
  match u with
  | err_capture => dl RNetdevNb r + dl RInetNb r
  | err_netdev_notifier => dl RInetNb r
  | err_inet_notifier => 0
  end.

Lemma unwind_capture_spec w b :
  inst_wf b → timer b = false →
  (∀ r, led (unwind_capture (w, b)) r = led w r - held b r + dl RNetdevNb r + dl RInetNb r) ∧
  same_world (set_guard false w) (unwind_capture (w, b)).
Proof.
  intros (Hwork & _) Ht. unfold unwind_capture, flush_release_work, release_capture, held. rewrite Ht.
  assert (Hrel : release_work b = true → peer_released b = true) by done. clear Hwork.
  destruct (peer_released b) eqn:Ep, (release_work b) eqn:Er; try (by specialize (Hrel eq_refl));
    clear Hrel; destruct (use_packet_type b) eqn:Eu;
    repeat (simpl; rewrite ?Ep, ?Er, ?Eu); (split; [intros r; simpl; lia|done]).
Qed.

(** Until it is published an instance neither forwards nor arms its timer. *)
Definition quiet (b : moal_bridge_inst) : Prop :=
  published b = false ∧ br_active b = false ∧ timer b = false ∧ ka_armed b = false.

Lemma kev_quiet e w b : quiet b → quiet (kev_inst e (w, b)).2.
Proof.
  intros (Hp & Ha & Ht & Hk). destruct e as [ev d dv|ev d|p c|n m| |]; simpl; try done.
  1,2: unfold moal_bridge_netdev_event; case_match; [done|]; destruct ev; simpl; try done;
    unfold netdev_up, netdev_down, netdev_changename, netdev_unregister;
    repeat case_match; simpl; try done; split_and!; simpl; try done; by rewrite Hp.
  - by rewrite Ha.
  - unfold flush_release_work. case_match; [|done]. by split_and!.
  - by rewrite Hp.
Qed.
Lemma kevs_quiet es w b : quiet b → quiet (kevs_inst es (w, b)).2.
Proof.
  revert w b; induction es as [|e es IH]; intros w b Hq; [done|].
  change (quiet (kevs_inst es (kev_inst e (w, b))).2). pose proof (kev_quiet e w b Hq) as H1.
  destruct (kev_inst e (w, b)) as [w1 b1]. exact (IH w1 b1 H1).
Qed.

Lemma init_unwind_spec u e w b :
  inst_wf b → quiet b →
  (∀ r, led (init_unwind u e (w, b)) r = led w r - held b r + missing u r) ∧
  same_world (set_guard false w) (init_unwind u e (w, b)).
Proof.
  intros Hwf Hq. unfold init_unwind.
  assert (Hun : ∀ w0, ∃ w1 b1,
    (let '(w, b) := kevs_inst (ie_unreg_events e) (w0, set_br_active false b) in
     (bump RNetdevNb (-1) w, b)) = (w1, b1) ∧ inst_wf b1 ∧ quiet b1 ∧ same_world w0 w1 ∧
    ∀ r, led w1 r - held b1 r = led w0 r - held b r - dl RNetdevNb r).
  { intros w0. assert (Hq' : quiet (set_br_active false b)) by (destruct Hq as (? & ? & ? & ?); by split_and!).
    destruct (kevs_inst (ie_unreg_events e) (w0, set_br_active false b)) as [w1 b1] eqn:E.
    pose proof (kevs_quiet (ie_unreg_events e) w0 _ Hq') as Hq1. rewrite E in Hq1.
    destruct (kevs_balanced (ie_unreg_events e) w0 (set_br_active false b) Hwf) as (H1 & _ & H3 & H4).
    rewrite E in H1, H3, H4. simpl in H1, H3, H4.
    eexists _, _. split_and!; [done..|]. intros r. simpl. specialize (H4 r).
    change (held (set_br_active false b) r) with (held b r) in H4. lia. }
  destruct u; simpl.
  - destruct (Hun (bump RInetNb (-1) w)) as (w1 & b1 & Heq & Hwf1 & (_ & _ & Ht1 & _) & Hw1 & Hl1).
    rewrite Heq. destruct (unwind_capture_spec w1 b1 Hwf1 Ht1) as [Hl Hw]. split.
    + intros r. rewrite Hl. specialize (Hl1 r). simpl in Hl1. lia.
    + unfold same_world in *; simpl in *; destruct_and!; split_and!; congruence.
  - destruct (Hun w) as (w1 & b1 & Heq & Hwf1 & (_ & _ & Ht1 & _) & Hw1 & Hl1).
    rewrite Heq. destruct (unwind_capture_spec w1 b1 Hwf1 Ht1) as [Hl Hw]. split.
    + intros r. rewrite Hl. specialize (Hl1 r). lia.
    + unfold same_world in *; simpl in *; destruct_and!; split_and!; congruence.
  - destruct Hq as (_ & _ & Ht & _). destruct (unwind_capture_spec w b Hwf Ht) as [Hl Hw].
    split; [|done]. intros r. rewrite Hl. simpl. lia.
Qed.

(** The opening stage: an error leaves the ledger and the guard as they were. *)
Lemma init_open_spec h hd nm pid idx ms idle e w x w' :
  init_open h hd nm pid idx ms idle e w = (x, w') →
  match x with
  | inl err => err ≠ 0 ∧ same_world w w' ∧ (∀ r, led w' r = led w r) ∧ devs w' = devs w ∧ pend w' = pend w
  | inr b =>
      guard w = false ∧ same_world (set_guard true w) w' ∧ inst_wf b ∧ quiet b ∧ br_handle b = h ∧
      peer_released b = false ∧ use_packet_type b = false ∧ devs w' = devs w ∧ privs w' = privs w ∧
      pend w' = pend w ∧ keepalive_ms b = ms ∧ keepalive_idle_ms b = idle ∧
      (0 <= idx < MLAN_MAX_BSS_NUM ∧ h_priv hd !! Z.to_nat idx = Some (Some (wlan_priv b)) ∧
       pr_netdev (priv_at w (wlan_priv b)) = Some (wlan_dev b)) ∧
      (match pid with Some d => peer_dev b = d | None => dev_named w nm = Some (peer_dev b) end) ∧
      ∀ r, led w' r = led w r + held b r - dl RNetdevNb r - dl RInetNb r -
                      dl (RPromisc (peer_dev b)) r - dl (RRxHandler (peer_dev b)) r
  end.
Proof.
  unfold init_open. destruct (guard w) eqn:Eg; [by intros [= <- <-]|].
  assert (Hg : same_world w (set_guard false (set_guard true w))) by by split_and!.
  destruct (init_wlan hd idx (set_guard true w)) as [[p wdev]|] eqn:Ep; [|by intros [= <- <-]].
  destruct (init_peer nm pid (set_guard true w)) as [d|] eqn:Ed; [|by intros [= <- <-]].
  destruct (ie_kzalloc e); simpl.
  2: { intros [= <- <-]. split_and!; try done. intros r. simpl. lia. }
  destruct (Z.ltb_spec (ie_w2p_err e) 0).
  { intros [= <- <-]. split_and!; try done; [lia|]. intros r. simpl. lia. }
  destruct (Z.ltb_spec (ie_p2w_err e) 0).
  { intros [= <- <-]. split_and!; try done; [lia|]. intros r. simpl. lia. }
  intros [= <- <-]. apply bind_Some in Ep as (p0 & Hp0 & Ep).
  apply bind_Some in Ep as (d0 & Hd0 & [= -> ->]).
  assert (0 <= idx < MLAN_MAX_BSS_NUM ∧ h_priv hd !! Z.to_nat idx = Some (Some p)) as [Hidx Hpr].
  { destruct ((idx <? 0) || (idx >=? MLAN_MAX_BSS_NUM)) eqn:Ei; [done|].
    apply orb_false_iff in Ei as [? ?]. split; [lia|].
    by destruct (h_priv hd !! Z.to_nat idx) as [[q|]|] eqn:Eq; simpl in Hp0; simplify_eq. }
  split_and!; simpl; try done.
  - by repeat split; simpl; auto; lia.
  - lia.
  - unfold init_peer in Ed. destruct pid; [by case_match; simplify_eq|done].
  - intros r. unfold held. simpl. lia.
Qed.

Lemma init_capture_spec e w b w' b' :
  inst_wf b → quiet b → peer_released b = false → use_packet_type b = false →
  init_capture e (w, b) = (w', b') →
  inst_wf b' ∧ quiet b' ∧ same_world w w' ∧ devs w' = devs w ∧ pend w' = pend w ∧
  (b' = b ∨ b' = set_use_packet_type true b) ∧
  ∀ r, led w' r - held b' r =
       led w r - held b r + dl (RPromisc (peer_dev b)) r + dl (RRxHandler (peer_dev b)) r.
Proof.
  intros Hwf Hq Hp Hu. unfold init_capture. case_match; intros [= <- <-].
  - split_and!; try done; [by left|]. intros r. simpl. lia.
  - split_and!; try done; [by right|]. intros r. unfold held. simpl. rewrite Hp, Hu. lia.
Qed.

(** The registration stage: where it stopped tells what is missing. *)
Lemma init_notify_spec e w b res w' b' :
  inst_wf b → quiet b → init_notify e (w, b) = (res, (w', b')) →
  inst_wf b' ∧ quiet b' ∧ same_world w w' ∧ same_inst b b' ∧
  match res with
  | Some (u, err) =>
      err ≠ 0 ∧ ∀ r, led w' r - held b' r + missing u r =
                     led w r - held b r + dl RNetdevNb r + dl RInetNb r
  | None =>
      peer_released b' = false ∧ nd_registered (dev_at w' (peer_dev b')) = true ∧
      nd_registered (dev_at w' (wlan_dev b')) = true ∧ nd_present (dev_at w' (peer_dev b')) = true ∧
      nd_present (dev_at w' (wlan_dev b')) = true ∧
      ∀ r, led w' r - held b' r = led w r - held b r + dl RNetdevNb r + dl RInetNb r
  end.
Proof.
  intros Hwf Hq. unfold init_notify.
  pose proof (kevs_quiet (ie_nb_events e) w b Hq) as Hq1.
  pose proof (kevs_balanced (ie_nb_events e) w b Hwf) as (Hwf1 & Hi1 & Hw1 & Hl1).
  destruct (kevs_inst (ie_nb_events e) (w, b)) as [w1 b1]. simpl in Hq1, Hwf1, Hi1, Hw1, Hl1.
  destruct (ie_nb_err e =? 0) eqn:E1; simpl; cycle 1.
  { intros [= <- <- <-]. split_and!; try done; [lia|]. intros r. specialize (Hl1 r). simpl. lia. }
  pose proof (kevs_quiet (ie_inet_events e) (bump RNetdevNb 1 w1) b1 Hq1) as Hq2.
  pose proof (kevs_balanced (ie_inet_events e) (bump RNetdevNb 1 w1) b1 Hwf1) as (Hwf2 & Hi2 & Hw2 & Hl2).
  destruct (kevs_inst (ie_inet_events e) (bump RNetdevNb 1 w1, b1)) as [w2 b2].
  simpl in Hq2, Hwf2, Hi2, Hw2, Hl2.
  assert (Hi12 : same_inst b b2) by by transitivity b1.
  assert (Hw12 : same_world w w2) by (transitivity w1; done).
  destruct (ie_inet_err e =? 0) eqn:E2; simpl; cycle 1.
  { intros [= <- <- <-]. split_and!; try done; [lia|].
    intros r. specialize (Hl1 r). specialize (Hl2 r). simpl in *. lia. }
  pose proof (kevs_quiet (ie_final_events e) (bump RInetNb 1 w2) b2 Hq2) as Hq3.
  pose proof (kevs_balanced (ie_final_events e) (bump RInetNb 1 w2) b2 Hwf2) as (Hwf3 & Hi3 & Hw3 & Hl3).
  destruct (kevs_inst (ie_final_events e) (bump RInetNb 1 w2, b2)) as [w3 b3].
  simpl in Hq3, Hwf3, Hi3, Hw3, Hl3.
  assert (Hi13 : same_inst b b3) by by transitivity b2.
  assert (Hw13 : same_world w w3) by (transitivity w2; done).
  assert (Hl : ∀ r, led w3 r - held b3 r = led w r - held b r + dl RNetdevNb r + dl RInetNb r).
  { intros r. specialize (Hl1 r). specialize (Hl2 r). specialize (Hl3 r). lia. }
  destruct (_ || negb (nd_present (dev_at w3 (wlan_dev b3)))) eqn:E3; intros [= <- <- <-].
  - split_and!; try done; [by case_match|]. intros r. specialize (Hl r). simpl. lia.
  - apply orb_false_iff in E3 as [E3 ?%negb_false_iff].
    apply orb_false_iff in E3 as [E3 ?%negb_false_iff].
    apply orb_false_iff in E3 as [E3 ?%negb_false_iff].
    apply orb_false_iff in E3 as [E3 ?%negb_false_iff].
    by split_and!.
Qed.

(** What a freshly published instance looks like. *)
Definition published_inst (w : world) (b : moal_bridge_inst) : Prop :=
  inst_wf b ∧ published b = true ∧ peer_released b = false ∧
  wlan_name b = copy_name (nd_name (dev_at w (wlan_dev b))) ∧
  peer_name b = copy_name (nd_name (dev_at w (peer_dev b))) ∧
  br_active b = dev_ready w (peer_dev b) && dev_ready w (wlan_dev b) &&
                media_connected (priv_at w (wlan_priv b)) ∧
  timer b = (keepalive_ms b >? 0) && negb (keepalive_idle_ms b >? 0) ∧
  ka_armed b = timer b.

(** The devices, the pending request and the globals publication does not touch. *)
Definition publish_frame (w w' : world) : Prop :=
  devs w' = devs w ∧ privs w' = privs w ∧ guard w' = guard w ∧ owner w' = owner w ∧
  m_handle w' = m_handle w ∧ suspended w' = suspended w ∧ counters w' = counters w ∧
  deferred w' = deferred w ∧ runtime_switch w' = runtime_switch w ∧
  control_ready w' = control_ready w ∧ pend w' = pend w.

Lemma init_keepalive_spec w b w' b' :
  inst_wf b → quiet b → init_keepalive (w, b) = (w', b') →
  same_inst b b' ∧ inst_wf b' ∧ same_world w w' ∧ devs w' = devs w ∧ privs w' = privs w ∧ pend w' = pend w ∧
  peer_released b' = peer_released b ∧ wlan_name b' = wlan_name b ∧ peer_name b' = peer_name b ∧
  timer b' = (keepalive_ms b >? 0) && negb (keepalive_idle_ms b >? 0) ∧ ka_armed b' = timer b' ∧
  ∀ r, led w' r - held b' r = led w r - held b r.
Proof.
  intros Hwf (Hp & Ha & Ht & Hk). unfold init_keepalive.
  destruct (keepalive_ms b >? 0); [destruct (keepalive_idle_ms b >? 0)|];
    intros [= <- <-]; split_and!; simpl; try done; try congruence.
  intros r. unfold held. simpl. rewrite Ht. simpl. lia.
Qed.

Lemma activate_active w b :
  br_active (init_activate w b) =
  dev_ready w (peer_dev b) && dev_ready w (wlan_dev b) && media_connected (priv_at w (wlan_priv b)).
Proof.
  unfold init_activate, dev_ready. simpl.
  destruct (nd_running (dev_at w (peer_dev b))); simpl; [by rewrite andb_true_r|done].
Qed.

Lemma init_publish_spec h idx e w b w' :
  inst_wf b → quiet b → peer_released b = false → init_publish h idx e (w, b) = w' →
  ∃ b',
    published_inst w' b' ∧ publish_frame w w' ∧
    peer_dev b' = peer_dev b ∧ wlan_dev b' = wlan_dev b ∧ wlan_priv b' = wlan_priv b ∧
    br_handle b' = br_handle b ∧ keepalive_ms b' = keepalive_ms b ∧
    keepalive_idle_ms b' = keepalive_idle_ms b ∧
    handles w' = handles (store_idx h idx (store_bridge h (Some b') w)) ∧
    (sysfs_br w' = Some h ∨ sysfs_br w' = sysfs_br w) ∧
    ∀ r, led w' r - held b' r = led w r - held b r.
Proof.
  intros Hwf Hq Hrel <-. unfold init_publish.
  destruct (init_keepalive (w, init_snapshot w b)) as [w1 b1] eqn:E.
  destruct (init_keepalive_spec w (init_snapshot w b) w1 b1 Hwf Hq E)
    as (Hi & Hwf1 & Hw & Hd & Hpr & Hpe & Hr1 & Hn1 & Hn2 & Ht & Hka & Hl).
  exists (init_activate w1 b1). unfold same_inst in Hi; simpl in Hi.
  destruct Hi as (I1 & I2 & I3 & I4 & I5 & I6 & I7 & I8). simpl in Hr1, Hn1, Hn2, Ht.
  assert (Hfin : ∀ w', (devs w' = devs w1 → privs w' = privs w1 → published_inst w' (init_activate w1 b1))).
  { intros w' Hd' Hp'. unfold published_inst. rewrite activate_active.
    unfold dev_ready, dev_at, priv_at. rewrite Hd', Hp'.
    split_and!; simpl; try done; rewrite ?Hr1, ?Hn1, ?Hn2, ?Hka, ?Ht, ?I1, ?I2, ?I7, ?I8, ?Hd; done. }
  unfold same_world in Hw. unfold moal_bridge_sysfs_init. destruct_and!.
  simpl. destruct (negb (kobj w1) && negb (ie_sysfs_err e =? 0)); simpl; (split; [by apply Hfin|]); (split; [unfold publish_frame; simpl; split_and!; congruence|]);
    (split_and!; [done..| | |intros r; apply Hl]);
    try (unfold store_idx, store_bridge; simpl; congruence); [by right|by left].
Qed.

(** ** Initialisation as a whole *)

(** On success: the instance is stored in its handle and holds what the ledger
    gained. *)
Definition init_done (h idx ms idle : Z) (pid : option Z) (w w' : world) (b : moal_bridge_inst) : Prop :=
  published_inst w' b ∧ br_handle b = h ∧ keepalive_ms b = ms ∧ keepalive_idle_ms b = idle ∧
  guard w = false ∧ guard w' = true ∧
  handles w' = handles (store_idx h idx (store_bridge h (Some b) w)) ∧
  owner w' = owner w ∧ suspended w' = suspended w ∧ m_handle w' = m_handle w ∧
  counters w' = counters w ∧ deferred w' = deferred w ∧ runtime_switch w' = runtime_switch w ∧
  control_ready w' = control_ready w ∧
  (sysfs_br w' = Some h ∨ sysfs_br w' = sysfs_br w) ∧
  (∃ hd, handles w !! h = Some hd ∧ 0 <= idx < MLAN_MAX_BSS_NUM ∧
         h_priv hd !! Z.to_nat idx = Some (Some (wlan_priv b)) ∧
         pr_netdev (priv_at w (wlan_priv b)) = Some (wlan_dev b)) ∧
  (∀ d, pid = Some d → peer_dev b = d) ∧
  nd_registered (dev_at w' (peer_dev b)) = true ∧ nd_registered (dev_at w' (wlan_dev b)) = true ∧
  pr_netdev <$> privs w' = pr_netdev <$> privs w ∧
  ∀ r, led w' r = led w r + held b r.

Lemma init_locked_spec h nm pid idx ms idle e w ret w' :
  moal_bridge_init_locked h nm pid idx ms idle e w = (ret, w') →
  (ret ≠ 0 ∧ same_world w w' ∧ (∀ r, led w' r = led w r)) ∨
  (ret = 0 ∧ ∃ b, init_done h idx ms idle pid w w' b).
Proof.
  unfold moal_bridge_init_locked. destruct (handles w !! h) as [hd|] eqn:Eh; [|by intros [= <- <-]; left].
  destruct (init_open h hd nm pid idx ms idle e w) as [[err|b] w1] eqn:E1.
  { intros [= <- <-]. left. apply init_open_spec in E1 as (? & ? & ? & _). done. }
  apply init_open_spec in E1 as
    (Hg & Hw1 & Hwf & Hq & Hbh & Hrel & Hu & Hd1 & Hp1 & _ & Hms & Hid & (Hidx & Hpr & Hnd) & Hpid & Hl1).
  destruct (init_capture e (w1, b)) as [w2 b2] eqn:E2.
  destruct (init_capture_spec e w1 b w2 b2 Hwf Hq Hrel Hu E2) as (Hwf2 & Hq2 & Hw2 & Hd2 & _ & Hb2 & Hl2).
  assert (Hsb : peer_dev b2 = peer_dev b ∧ wlan_dev b2 = wlan_dev b ∧ wlan_priv b2 = wlan_priv b ∧
    br_handle b2 = br_handle b ∧ keepalive_ms b2 = keepalive_ms b ∧
    keepalive_idle_ms b2 = keepalive_idle_ms b) by (destruct Hb2; subst b2; done).
  destruct (init_notify e (w2, b2)) as [res [w3 b3]] eqn:E3.
  destruct (init_notify_spec e w2 b2 res w3 b3 Hwf2 Hq2 E3) as (Hwf3 & Hq3 & Hw3 & Hi3 & Hres).
  assert (Hw13 : same_world (set_guard true w) w3) by (transitivity w1; [done|]; by transitivity w2).
  destruct res as [[u err]|]; intros Heq.
  - injection Heq as <- <-. left. destruct Hres as (Herr & Hl3). destruct (init_unwind_spec u e w3 b3 Hwf3 Hq3) as [Hl Hw].
    split_and!; [done| |].
    + unfold same_world in Hw, Hw13 |- *. simpl in *. destruct_and!. split_and!; congruence.
    + intros r. rewrite Hl. specialize (Hl1 r). specialize (Hl2 r). specialize (Hl3 r). lia.
  - right. assert (E4 : init_publish h idx e (w3, b3) = w') by (by apply (f_equal snd) in Heq).
    split; [by apply (f_equal fst) in Heq|]. clear Heq. destruct Hres as (Hrel3 & Hr1 & Hr2 & _ & _ & Hl3).
    destruct (init_publish_spec h idx e w3 b3 w' Hwf3 Hq3 Hrel3 E4) as
      (b' & Hpub & Hfr & B1 & B2 & B3 & B4 & B5 & B6 & Hh & Hs & Hl).
    unfold same_inst in Hi3. unfold publish_frame in Hfr. unfold same_world in Hw13. simpl in Hw13.
    clear E4. exists b'. unfold init_done.
    destruct_and! Hsb. destruct_and! Hi3. destruct_and! Hfr. destruct_and! Hw13.
    refine (conj Hpub _). split_and!; try congruence.
    + rewrite Hh. unfold store_idx, store_bridge. simpl. congruence.
    + exists hd. split_and!; try congruence; [lia|lia].
    + intros d ->. congruence.
    + unfold dev_at in *. congruence.
    + unfold dev_at in *. congruence.
    + intros r. specialize (Hl r). specialize (Hl1 r). specialize (Hl2 r). specialize (Hl3 r).
      lia.
Qed.

(** ** Properties of creation and teardown *)

(** C16: an initialisation that fails, at whatever point and whatever the
    kernel reported or delivered meanwhile (the peer's unregistration during the
    registration of the notifiers included), leaves every resource count, the
    single-instance guard, the handles, the owner and the statistics node as
    they were. *)
Theorem init_failure_releases_all (h : Z) (nm : string) (pid : option Z) (idx ms idle : Z) (e : init_env)
    (w w' : world) (ret : Z) :
  moal_bridge_init_locked h nm pid idx ms idle e w = (ret, w') → ret ≠ 0 →
  (∀ r, led w' r = led w r) ∧ guard w' = guard w ∧ handles w' = handles w ∧ owner w' = owner w ∧
  suspended w' = suspended w ∧ sysfs_br w' = sysfs_br w.
Proof.
  intros Hi Hr. destruct (init_locked_spec _ _ _ _ _ _ _ _ _ _ Hi) as [(_ & Hw & Hl)|(? & _)]; [|done].
  unfold same_world in Hw. destruct_and! Hw. by split_and!.
Qed.

(** a successful initialisation found the guard free and publishes one
    instance: it sits on the selected BSS's netdev and, when the caller pinned a
    peer, on exactly that device; both are registered; it holds one allocation,
    two threads, both notifiers, one reference, promiscuity and one capture hook
    on the peer (and the timer only in free-running mode); and it forwards
    exactly when both ends are up and the station is associated. *)
Theorem init_success_publishes (h : Z) (nm : string) (pid : option Z) (idx ms idle : Z) (e : init_env)
    (w w' : world) :
  moal_bridge_init_locked h nm pid idx ms idle e w = (0, w') →
  ∃ b hd, guard w = false ∧ guard w' = true ∧
    handles w !! h = Some hd ∧ h_priv hd !! Z.to_nat idx = Some (Some (wlan_priv b)) ∧
    pr_netdev (priv_at w (wlan_priv b)) = Some (wlan_dev b) ∧
    handles w' !! h = Some (set_effective_idx idx (set_h_bridge (Some b) hd)) ∧
    published b = true ∧ peer_released b = false ∧ (∀ d, pid = Some d → peer_dev b = d) ∧
    nd_registered (dev_at w' (peer_dev b)) = true ∧ nd_registered (dev_at w' (wlan_dev b)) = true ∧
    br_active b = dev_ready w' (peer_dev b) && dev_ready w' (wlan_dev b) &&
                  media_connected (priv_at w' (wlan_priv b)) ∧
    timer b = (ms >? 0) && negb (idle >? 0) ∧
    ∀ r, led w' r = led w r + held b r.
Proof.
  intros Hi. destruct (init_locked_spec _ _ _ _ _ _ _ _ _ _ Hi) as [(? & _)|(_ & b & Hd)]; [done|].
  destruct Hd as (Hpub & _ & Hms & Hid & Hg & Hg' & Hh & _ & _ & _ & _ & _ & _ & _ & _ &
    (hd & Hhd & _ & Hp & Hn) & Hpid & Hr1 & Hr2 & _ & Hl).
  destruct Hpub as (_ & Hp1 & Hp2 & _ & _ & Hact & Ht & _).
  exists b, hd. split_and!; try done; [|by rewrite Ht, Hms, Hid].
  rewrite Hh. unfold store_idx, store_bridge. simpl. by rewrite !lookup_alter_eq, Hhd.
Qed.

(** tearing down a published instance gives back exactly what it
    holds, whatever the kernel delivers before and during the removal of its
    notifiers (the replayed unregistration of the peer included) and even if a
    producer re-arms the timer in between; the handle has no instance then, the
    guard is free and the statistics node points to none. *)
Theorem deinit_releases_held (h : Z) (hd : moal_handle) (b : moal_bridge_inst) (e : deinit_env) (w : world) :
  handles w !! h = Some hd → h_bridge hd = Some b → inst_wf b →
  (∀ r, led (moal_bridge_deinit_locked h e w) r = led w r - held b r) ∧
  guard (moal_bridge_deinit_locked h e w) = false ∧
  sysfs_br (moal_bridge_deinit_locked h e w) = None ∧
  (handles (moal_bridge_deinit_locked h e w) !! h ≫= h_bridge) = None.
Proof.
  intros Hh Hb Hwf. destruct (deinit_locked_spec h hd b e w Hh Hb Hwf) as [Hl Hw].
  unfold same_world in Hw. cbn [guard set_guard owner handles m_handle suspended kobj sysfs_br counters
    deferred runtime_switch control_ready moal_bridge_sysfs_deinit set_sysfs_br] in Hw. destruct_and! Hw.
  split_and!; [done..|].
  replace (handles (moal_bridge_deinit_locked h e w)) with (handles (store_idx h (-1) (store_bridge h None w))).
  unfold store_idx, store_bridge. simpl. by rewrite !lookup_alter_eq, Hh.
Qed.

(** ** A concrete world *)

(** An adapter with two stations mlan0 (device 1) and mlan1 (device 3), and a
    wired peer eth0 (device 2). *)
Definition demo_dev (name : string) : netdev := mk_netdev name true true true true true false 0.
Definition demo_world : world :=
  mk_world (<[1 := demo_dev "mlan0"]> (<[2 := demo_dev "eth0"]> (<[3 := demo_dev "mlan1"]> ∅)))
    (<[11 := mk_priv (Some 1) true true]> (<[13 := mk_priv (Some 3) true true]> ∅))
    (<[100 := mk_handle [Some 11; Some 13] 2 None (-1) 10 100 false false false false true None]> ∅)
    [Some 100] (λ _, 0) false None None false None
    (moal_bridge_pending_start false pending_initial) (mk_counters 0 0 0 0) 1 1 true.
Definition demo_init_env : init_env := mk_init_env true 0 0 0 [] 0 [] 0 [] [] 0.
(** The peer is unregistered while the inet notifier is being registered. *)
Definition demo_bad_env : init_env :=
  mk_init_env true 0 0 (- EBUSY) [] 0
    [KStatus NETDEV_UNREGISTER 2 (mk_netdev "eth0" true false false false false false 0)] 0 [KRelease] [] 0.
(** The removal of the notifier replays the unregistration of every device. *)
Definition demo_deinit_env : deinit_env :=
  mk_deinit_env [KStatus NETDEV_CHANGENAME 2 (demo_dev "lan0")]
    [KReplay NETDEV_DOWN 1; KReplay NETDEV_UNREGISTER 1; KReplay NETDEV_DOWN 2; KReplay NETDEV_UNREGISTER 2] true.

Definition demo_init (e : init_env) : Z * world :=
  moal_bridge_init_locked 100 "eth0" None 0 10 100 e demo_world.

Example demo_bad_fails : (demo_init demo_bad_env).1 = - ENODEV.
Proof. by vm_compute. Qed.

Example demo_succeeds : (demo_init demo_init_env).1 = 0.
Proof. by vm_compute. Qed.

Lemma demo_bad_eq : demo_init demo_bad_env = (- ENODEV, (demo_init demo_bad_env).2).
Proof. rewrite (surjective_pairing (demo_init demo_bad_env)) at 1. by rewrite demo_bad_fails. Qed.
Lemma demo_eq : demo_init demo_init_env = (0, (demo_init demo_init_env).2).
Proof. rewrite (surjective_pairing (demo_init demo_init_env)) at 1. by rewrite demo_succeeds. Qed.

Lemma init_failure_releases_all_witness :
  let w' := (demo_init demo_bad_env).2 in
  (∀ r, led w' r = led demo_world r) ∧ guard w' = guard demo_world ∧ handles w' = handles demo_world ∧
  owner w' = owner demo_world ∧ suspended w' = suspended demo_world ∧ sysfs_br w' = sysfs_br demo_world.
Proof.
  apply (init_failure_releases_all 100 "eth0" None 0 10 100 demo_bad_env demo_world _ (- ENODEV)); [|done].
  exact demo_bad_eq.
Defined.

Lemma init_success_publishes_witness :
  let w' := (demo_init demo_init_env).2 in
  ∃ b hd, guard demo_world = false ∧ guard w' = true ∧
    handles demo_world !! 100 = Some hd ∧ h_priv hd !! Z.to_nat 0 = Some (Some (wlan_priv b)) ∧
    pr_netdev (priv_at demo_world (wlan_priv b)) = Some (wlan_dev b) ∧
    handles w' !! 100 = Some (set_effective_idx 0 (set_h_bridge (Some b) hd)) ∧
    published b = true ∧ peer_released b = false ∧ (∀ d, None = Some d → peer_dev b = d) ∧
    nd_registered (dev_at w' (peer_dev b)) = true ∧ nd_registered (dev_at w' (wlan_dev b)) = true ∧
    br_active b = dev_ready w' (peer_dev b) && dev_ready w' (wlan_dev b) &&
                  media_connected (priv_at w' (wlan_priv b)) ∧
    timer b = (10 >? 0) && negb (100 >? 0) ∧
    ∀ r, led w' r = led demo_world r + held b r.
Proof.
  apply (init_success_publishes 100 "eth0" None 0 10 100 demo_init_env demo_world).
  exact demo_eq.
Defined.

Definition demo_bound : moal_bridge_inst :=
  default (mk_inst 0 0 0 0 false false false false false "" "" 0 0 0 0 false 0 0 false false false 0 0)
    (handles (demo_init demo_init_env).2 !! 100 ≫= h_bridge).

Lemma deinit_releases_held_witness :
  let w := (demo_init demo_init_env).2 in
  (∀ r, led (moal_bridge_deinit_locked 100 demo_deinit_env w) r = led w r - held demo_bound r) ∧
  guard (moal_bridge_deinit_locked 100 demo_deinit_env w) = false ∧
  sysfs_br (moal_bridge_deinit_locked 100 demo_deinit_env w) = None ∧
  (handles (moal_bridge_deinit_locked 100 demo_deinit_env w) !! 100 ≫= h_bridge) = None.
Proof.
  apply (deinit_releases_held 100
    (default (mk_handle [] 0 None 0 0 0 false false false false false None) (handles (demo_init demo_init_env).2 !! 100))
    demo_bound demo_deinit_env); [by vm_compute..|].
  split; [by vm_compute|]. by vm_compute.
Defined.
