(* ===== verification/BridgeSwitch.v ===== *)
(** * moal_bridge.c: owning, suspending and switching the bridge

    The public operations: load-time init and deinit, the suspension of the owner
    across a reset, removal of a handle, the runtime switch of the wlan interface
    with its rollback, and the work function of a deferred switch.  All of them
    run under the lifecycle mutex, so each is one function on the world; the
    events the kernel delivers while they hold no RTNL are arguments. *)

From S2P Require Import Prelude BridgePending BridgeLifecycle.

(** ** Targets *)

Record moal_bridge_target := mk_target { t_handle : Z; t_priv : option Z; t_dev : option Z; t_idx : Z }.

Definition dev_at' (w : world) (d : option Z) : netdev := match d with Some d => dev_at w d | None => dead_dev end.

Definition moal_bridge_target_link_status (w : world) (t : moal_bridge_target) : Z :=
  let dv := dev_at' w (t_dev t) in
  if negb (nd_running dv) then - ENETDOWN
  else if negb (from_option (λ p, media_connected (priv_at w p)) false (t_priv t)) then - ENOLINK
  else if negb (nd_carrier dv) then - ENETDOWN
  else 0.

(** The driver is removing, resetting or reloading the adapter. *)
Definition handle_busy (hd : moal_handle) : bool :=
  surprise_removed hd || fw_reseting hd || fw_reload hd || driver_status hd || negb (hw_ready hd).

(** What [find_target] decides about an interface with the requested name. *)
Definition accept_target (w : world) (h : Z) (hd : moal_handle) (j : Z) (p d : Z) : Z + moal_bridge_target :=
  if negb (bss_sta (priv_at w p)) then inl (- EINVAL)
  else if handle_busy hd then inl (- EBUSY)
  else if negb (nd_registered (dev_at w d)) || negb (nd_present (dev_at w d)) then inl (- ENETDOWN)
  else if bool_decide (h_priv hd !! Z.to_nat j = Some (Some p))
       then inr (mk_target h (Some p) (Some d) j)
       else inl (- ENODEV).

Fixpoint find_in_handle (w : world) (name : string) (h : Z) (hd : moal_handle) (j : Z)
    (privs : list (option Z)) : option (Z + moal_bridge_target) :=
  match privs with
  | [] => None
  | op :: privs =>
      match op ≫= (λ p, d ← pr_netdev (priv_at w p); Some (p, d)) with
      | Some (p, d) =>
          if String.eqb (nd_name (dev_at w d)) name then Some (accept_target w h hd j p d)
          else find_in_handle w name h hd (j + 1) privs
      | None => find_in_handle w name h hd (j + 1) privs
      end
  end.

Fixpoint find_in_handles (w : world) (name : string) (hs : list (option Z)) : Z + moal_bridge_target :=
  match hs with
  | [] => inl (- ENODEV)
  | oh :: hs =>
      match oh ≫= (λ h, hd ← handles w !! h; Some (h, hd)) with
      | None => find_in_handles w name hs
      | Some (h, hd) =>
          match find_in_handle w name h hd 0
                  (take (Z.to_nat (Z.min (priv_num hd) MLAN_MAX_BSS_NUM)) (h_priv hd)) with
          | Some r => r
          | None => find_in_handles w name hs
          end
      end
  end.

Definition moal_bridge_find_target (w : world) (name : string) : Z + moal_bridge_target :=
  if String.eqb name EmptyString then inl (- EINVAL) else find_in_handles w name (m_handle w).

(** ** Init, deinit, statistics node *)

Definition moal_bridge_init (h : Z) (nm : string) (idx : Z) (e : init_env) (w : world) : Z * world :=
  match handles w !! h with
  | None => (- EINVAL, w)
  | Some hd =>
      let '(ret, w) := moal_bridge_init_locked h nm None idx (param_keepalive_ms hd)
                         (param_keepalive_idle_ms hd) e w in
      if ret =? 0
      then (ret, set_pend (moal_bridge_pending_kick (deferred w) (pend w)) (set_owner (Some h) w))
      else (ret, w)
  end.

Definition moal_bridge_deinit (h : Z) (e : deinit_env) (w : world) : world :=
  if bool_decide (owner w = Some h)
  then set_owner None (moal_bridge_deinit_locked h e w) else w.

Definition moal_bridge_stats_init (err : Z) (w : world) : Z * world := moal_bridge_sysfs_init None err w.
Definition moal_bridge_stats_cleanup (w : world) : world := set_kobj false (set_sysfs_br None w).

Definition owner_bridge (w : world) : option moal_bridge_inst :=
  h ← owner w; hd ← handles w !! h; h_bridge hd.

Definition moal_bridge_get_iface (len : nat) (w : world) : Z + string :=
  if bool_decide (len = 0%nat) then inl (- EINVAL)
  else inr (scnprintf len (match owner_bridge w with
                           | None => String.append "none" newline
                           | Some b => String.append (copy_name (wlan_name b)) newline
                           end)).

(** ** Suspension of the owner *)

Definition moal_bridge_handles_related (w : world) (l r : Z) : bool :=
  bool_decide (l = r) ||
  bool_decide ((handles w !! l ≫= pref_mac) = Some r) || bool_decide ((handles w !! r ≫= pref_mac) = Some l).

(** The handle is the one the caller expects, or its companion where allowed. *)
Definition expected_ok (w : world) (h : Z) (expected : option Z) (allow_companion : bool) : bool :=
  match expected with
  | None => true
  | Some x => if allow_companion then moal_bridge_handles_related w h x else bool_decide (h = x)
  end.

Definition moal_bridge_suspend_owner (expected : option Z) (allow_companion : bool) (e : deinit_env)
    (w : world) : Z * world :=
  match suspended w with
  | Some s =>
      if allow_companion && from_option (moal_bridge_handles_related w (s_handle s)) false expected
      then (0, w) else (- EBUSY, w)
  | None =>
      match owner w, owner_bridge w with
      | Some h, Some b =>
          if negb (expected_ok w h expected allow_companion) then (0, w)
          else if peer_released b || negb (nd_registered (dev_at w (peer_dev b))) then (- ENODEV, w)
          else
            let s := mk_suspended h (peer_dev b) (from_option effective_idx (-1) (handles w !! h))
                       (keepalive_ms b) (keepalive_idle_ms b) in
            let w := set_suspended (Some s) (bump (RRef (peer_dev b)) 1 w) in
            (0, set_owner None (moal_bridge_deinit_locked h e w))
      | _, _ => (0, w)
      end
  end.

Definition moal_bridge_resume_owner (expected : option Z) (allow_companion : bool) (e : init_env)
    (w : world) : Z * world :=
  match suspended w with
  | None => (0, w)
  | Some s =>
      if negb (expected_ok w (s_handle s) expected allow_companion) then (- EBUSY, w)
      else
        let w := set_suspended None w in
        let nm := copy_name (nd_name (dev_at w (s_peer_dev s))) in
        let '(ret, w) := moal_bridge_init_locked (s_handle s) nm (Some (s_peer_dev s)) (s_wlan_bss_idx s)
                           (s_keepalive_ms s) (s_keepalive_idle_ms s) e w in
        let w := if ret =? 0
                 then set_pend (moal_bridge_pending_kick (deferred w) (pend w)) (set_owner (Some (s_handle s)) w)
                 else set_pend (moal_bridge_pending_cancel_all (pend w)) w in
        (ret, bump (RRef (s_peer_dev s)) (-1) w)
  end.

Definition moal_bridge_discard_suspended_owner (expected : option Z) (allow_companion : bool) (w : world) : world :=
  match suspended w with
  | None => w
  | Some s =>
      if negb (expected_ok w (s_handle s) expected allow_companion) then w
      else set_suspended None (bump (RRef (s_peer_dev s)) (-1)
             (set_pend (moal_bridge_pending_cancel_all (pend w)) w))
  end.

(** The netdev names of a handle's interfaces, as pending_invalidate walks them. *)
Definition handle_netdevs (w : world) (hd : moal_handle) : list (option string) :=
  (λ op : option Z, p ← op; d ← pr_netdev (priv_at w p); Some (nd_name (dev_at w d))) <$>
  take (Z.to_nat (Z.min (priv_num hd) MLAN_MAX_BSS_NUM)) (h_priv hd).

Definition pending_invalidate_handle (h : Z) (w : world) : world :=
  match handles w !! h with
  | None => w
  | Some hd => set_pend (moal_bridge_pending_invalidate_handle (handle_netdevs w hd) (pend w)) w
  end.

Definition moal_bridge_forget_handle (h : Z) (e : deinit_env) (w : world) : world :=
  match handles w !! h with
  | None => w
  | Some _ =>
      let w := pending_invalidate_handle h w in
      let lost := bool_decide (owner w = Some h) || bool_decide (s_handle <$> suspended w = Some h) in
      let w := if lost then set_pend (moal_bridge_pending_cancel_all (pend w)) w else w in
      let w := if bool_decide (owner w = Some h) then set_owner None (moal_bridge_deinit_locked h e w) else w in
      match suspended w with
      | Some s => if bool_decide (s_handle s = h)
                  then set_suspended None (bump (RRef (s_peer_dev s)) (-1) w) else w
      | None => w
      end
  end.

(** ** The runtime switch *)

Definition moal_bridge_validate_binding_locked (w : world) (t : moal_bridge_target) (peer : Z) : Z :=
  match handles w !! t_handle t, t_priv t, t_dev t with
  | Some hd, Some p, Some d =>
      if handle_busy hd then - EBUSY
      else if (t_idx t <? 0) || (t_idx t >=? MLAN_MAX_BSS_NUM)
              || negb (bool_decide (pr_netdev (priv_at w p) = Some d))
              || negb (bool_decide (h_priv hd !! Z.to_nat (t_idx t) = Some (Some p))) then - ENODEV
      else match owner w, h_bridge hd with
           | None, Some b =>
               if negb (bool_decide (wlan_dev b = d)) || negb (bool_decide (peer_dev b = peer)) || peer_released b
               then - EBUSY
               else if negb (nd_registered (dev_at w d)) || negb (nd_present (dev_at w d)) then - ENETDOWN
               else if negb (moal_bridge_target_link_status w t =? 0) then moal_bridge_target_link_status w t
               else if negb (nd_registered (dev_at w peer)) || negb (nd_present (dev_at w peer))
                       || negb (dev_ready w peer) then - ENETDOWN
               else if negb (published b) || negb (br_active b) then - EBUSY
               else 0
           | _, _ => - EBUSY
           end
  | _, _, _ => - ENODEV
  end.

Record moal_bridge_switch_snapshot := mk_snapshot {
  old_owner : Z; old_bss_index : Z; snap_peer : string; snap_peer_dev : Z;
  snap_keepalive_ms : Z; snap_keepalive_idle_ms : Z
}.

(** Around the creation of one binding: what the kernel does before it, during
    it, between it and its validation, and during its teardown if that fails. *)
Record bind_env := mk_bind_env {
  be_gap : list kev; be_init : init_env; be_events : list kev; be_deinit : deinit_env
}.
(** Around the transaction: the semaphore, the second look at the readiness of
    the module, the events before and between the checks, and both bindings. *)
Record switch_env := mk_switch_env {
  se_sem_err : bool; se_ready2 : bool; se_events1 : list kev; se_events2 : list kev;
  se_deinit : deinit_env; se_target : bind_env; se_rollback : bind_env
}.

(** The outcome of the checks: a result, or a transaction to run with the peer
    pinned and the request that was pending. *)
Inductive switch_plan :=
| SwitchDone (ret : Z)
| SwitchGo (old : moal_bridge_switch_snapshot) (t : moal_bridge_target)
    (pending_seen : string * Z * moal_bridge_pending_state).

(** A target that is not ready: defer the request or report the error. *)
Definition switch_defer (name : string) (same_target allow_defer : bool) (ret : Z) (w : world) : Z * world :=
  if ((ret =? - ENETDOWN) || (ret =? - ENOLINK)) && negb same_target && allow_defer && (deferred w =? 1)
  then let '(g, p) := moal_bridge_pending_set name (pend w) in
       (if g =? 0 then - ESHUTDOWN else 0, set_pend p w)
  else (ret, w).

(** From the target's resolution to the transaction, under RTNL. *)
Definition switch_resolve (name : string) (allow_defer : bool) (g h : Z) (b : moal_bridge_inst)
    (snap : string * Z * moal_bridge_pending_state) (w : world) : switch_plan * world :=
  let same_target := String.eqb (nd_name (dev_at w (wlan_dev b))) name in
  let '(cleared, p) := if same_target && (g =? 0) && bool_decide (snap.2 ≠ MOAL_BR_PENDING_NONE)
                       then moal_bridge_pending_clear_if snap.1.1 snap.1.2 (pend w) else (false, pend w) in
  if (cleared : bool) then (SwitchDone 0, set_pend p w)
  else
    match moal_bridge_find_target w name with
    | inl ret =>
        (SwitchDone (if negb (g =? 0) && ((ret =? - ENODEV) || (ret =? - EINVAL) || (ret =? - ENETDOWN))
                     then - ESTALE else ret), w)
    | inr t =>
        if same_target && (negb (t_handle t =? h) || negb (bool_decide (t_dev t = Some (wlan_dev b))))
        then (SwitchDone (if negb (g =? 0) then - ESTALE else - ENODEV), w)
        else
          let ret := moal_bridge_target_link_status w t in
          if peer_released b || negb (br_active b) || negb (nd_registered (dev_at w (peer_dev b)))
             || negb (nd_present (dev_at w (peer_dev b))) || negb (dev_ready w (peer_dev b))
          then (SwitchDone (if negb (ret =? 0) then ret
                            else if peer_released b then (if negb (g =? 0) then - EAGAIN else - ENODEV)
                            else - ENETDOWN), w)
          else
            let w := bump (RRef (peer_dev b)) 1 w in
            if negb (ret =? 0) then
              let '(ret, w) := switch_defer name same_target allow_defer ret w in
              (SwitchDone ret, bump (RRef (peer_dev b)) (-1) w)
            else if same_target then (SwitchDone 0, bump (RRef (peer_dev b)) (-1) w)
            else (SwitchGo (mk_snapshot h (from_option effective_idx (-1) (handles w !! h))
                              (copy_name (peer_name b)) (peer_dev b) (keepalive_ms b) (keepalive_idle_ms b))
                    t snap, w)
    end.

(** The checks before anything is torn down; [g] is the generation the work
    function acts for, 0 for a request from user space. *)
Definition switch_prepare (name : string) (allow_defer : bool) (g : Z) (e : switch_env) (w : world) :
    switch_plan * world :=
  if String.eqb name EmptyString then (SwitchDone (- EINVAL), w)
  else if negb (control_ready w) then (SwitchDone (- EAGAIN), w)
  else if negb (runtime_switch w =? 1) then (SwitchDone (- EOPNOTSUPP), w)
  else if se_sem_err e then (SwitchDone (- ERESTARTSYS), w)
  else if negb (se_ready2 e) then (SwitchDone (- ESHUTDOWN), w)
  else if negb (g =? 0) && negb (moal_bridge_pending_matches name g (pend w)) then (SwitchDone (- ECANCELED), w)
  else
    let w := world_events (owner w) (se_events1 e) w in
    match owner_bridge w with
    | None => (SwitchDone (if negb (g =? 0) then - EAGAIN else - ENODEV), w)
    | Some _ =>
        let snap := moal_bridge_pending_snapshot (pend w) in
        let w := world_events (owner w) (se_events2 e) w in
        if negb (g =? 0) && negb (moal_bridge_pending_matches name g (pend w)) then (SwitchDone (- ECANCELED), w)
        else match owner w, owner_bridge w with
             | Some h, Some b => switch_resolve name allow_defer g h b snap w
             | _, _ => (SwitchDone (- ENODEV), w)
             end
    end.

Definition add_ok (w : world) : world :=
  let c := counters w in
  set_counters (mk_counters (switch_ok c + 1) (switch_fail c) (rollback_ok c) (rollback_fail c)) w.
Definition add_fail (restored : bool) (w : world) : world :=
  let c := counters w in
  set_counters (mk_counters (switch_ok c) (switch_fail c + 1)
                  (rollback_ok c + Z.b2z restored) (rollback_fail c + Z.b2z (negb restored))) w.

(** Create an instance on [t] and validate it; an instance that fails the
    validation is torn down again. *)
Definition switch_bind (t : moal_bridge_target) (old : moal_bridge_switch_snapshot) (e : bind_env)
    (w : world) : Z * world :=
  let w := world_events None (be_gap e) w in
  let '(ret, w) := moal_bridge_init_locked (t_handle t) (snap_peer old) (Some (snap_peer_dev old)) (t_idx t)
                     (snap_keepalive_ms old) (snap_keepalive_idle_ms old) (be_init e) w in
  if negb (ret =? 0) then (ret, w)
  else
    let w := world_events (Some (t_handle t)) (be_events e) w in
    let ret := moal_bridge_validate_binding_locked w t (snap_peer_dev old) in
    if negb (ret =? 0) then (ret, moal_bridge_deinit_locked (t_handle t) (be_deinit e) w) else (0, w).

(** The binding the rollback restores: its interface is looked up again. *)
Definition rollback_target (old : moal_bridge_switch_snapshot) (w : world) : moal_bridge_target :=
  let p := if (0 <=? old_bss_index old) && (old_bss_index old <? MLAN_MAX_BSS_NUM)
           then hd ← handles w !! old_owner old; mjoin (h_priv hd !! Z.to_nat (old_bss_index old))
           else None in
  mk_target (old_owner old) p (p ≫= (λ p, pr_netdev (priv_at w p))) (old_bss_index old).

Definition switch_rollback (name : string) (g target_ret : Z) (old : moal_bridge_switch_snapshot)
    (e : switch_env) (w : world) : Z * world :=
  let '(rb, w) := switch_bind (rollback_target old w) old (se_rollback e) w in
  if rb =? 0 then
    let w := set_owner (Some (old_owner old)) w in
    let p := if negb (g =? 0) then (moal_bridge_pending_restore_waiting (deferred w) name g (pend w)).2
             else moal_bridge_pending_kick (deferred w) (pend w) in
    (target_ret, add_fail true (set_pend p w))
  else
    (- EIO, add_fail false (set_pend (moal_bridge_pending_cancel_all (pend w)) (set_owner None w))).

Definition moal_bridge_switch_iface_request (name : string) (allow_defer : bool) (g : Z) (e : switch_env)
    (w : world) : Z * world :=
  match switch_prepare name allow_defer g e w with
  | (SwitchDone ret, w) => (ret, w)
  | (SwitchGo old t (pname, pg, pst), w) =>
      let w := set_owner None (moal_bridge_deinit_locked (old_owner old) (se_deinit e) w) in
      let '(ret, w) := switch_bind t old (se_target e) w in
      let '(ret, w) :=
        if ret =? 0 then
          let w := add_ok (set_owner (Some (t_handle t)) w) in
          (0, if (g =? 0) && bool_decide (pst ≠ MOAL_BR_PENDING_NONE)
              then set_pend (moal_bridge_pending_clear_if pname pg (pend w)).2 w else w)
        else switch_rollback name g ret old e w in
      (ret, bump (RRef (snap_peer_dev old)) (-1) w)
  end.

Definition moal_bridge_switch_iface (name : string) (e : switch_env) (w : world) : Z * world :=
  moal_bridge_switch_iface_request name true 0 e w.

(** The work function, if queued: its critical sections with events in between. *)
Definition run_pending_work (evs1 evs2 : list kev) (e : switch_env) (w : world) : world :=
  if work_scheduled (pend w) then
    let w := set_pend (cleanup_drain (pend w)) w in
    match moal_bridge_pending_work_fn (deferred w) WStarted (pend w) with
    | (WBegin name g, _) =>
        let w := world_events (owner w) evs1 w in
        match moal_bridge_pending_work_fn (deferred w) (WBegin name g) (pend w) with
        | (WAttempt _ _, p) =>
            let '(ret, w) := moal_bridge_switch_iface_request name false g e (set_pend p w) in
            let w := world_events (owner w) evs2 w in
            set_pend (work_finish (deferred w) name g ret (pend w)).2 w
        | (_, p) => set_pend p w
        end
    | _ => w
    end
  else w.

(** ** The invariant of the lifecycle *)

Definition plus (L : res → Z) (r : res) : res → Z := λ r', L r' + dl r r'.

(** The instance is bound to the interface in the slot its handle records. *)
Definition in_slot (w : world) (hd : moal_handle) (b : moal_bridge_inst) : Prop :=
  h_priv hd !! Z.to_nat (effective_idx hd) = Some (Some (wlan_priv b)) ∧
  pr_netdev (priv_at w (wlan_priv b)) = Some (wlan_dev b).

(** The instance of handle [bound] and the suspended peer are all that is held
    beyond [L]; no other handle has an instance; the statistics node points to no
    other; the instance is bound to the interface in its slot. *)
Record lc_inv (L : res → Z) (bound : option Z) (w : world) : Prop := {
  li_bound : match bound with
             | Some h => ∃ hd b, handles w !! h = Some hd ∧ h_bridge hd = Some b ∧ inst_wf b ∧
                 published b = true ∧ br_handle b = h ∧ guard w = true ∧
                 ∀ r, led w r = L r + held b r + from_option (λ s, dl (RRef (s_peer_dev s)) r) 0 (suspended w)
             | None => guard w = false ∧
                 ∀ r, led w r = L r + from_option (λ s, dl (RRef (s_peer_dev s)) r) 0 (suspended w)
             end;
  li_others : ∀ h hd, handles w !! h = Some hd → bound ≠ Some h → h_bridge hd = None;
  li_sysfs : ∀ h, sysfs_br w = Some h → bound = Some h;
  li_slot : ∀ h hd b, bound = Some h → handles w !! h = Some hd → h_bridge hd = Some b → in_slot w hd b
}.

Lemma netdev_eq w w' p :
  pr_netdev <$> privs w' = pr_netdev <$> privs w → pr_netdev (priv_at w' p) = pr_netdev (priv_at w p).
Proof.
  intros H. apply (f_equal (lookup p)) in H. rewrite !lookup_fmap in H. unfold priv_at.
  destruct (privs w' !! p), (privs w !! p); simpl in *; congruence.
Qed.
Lemma in_slot_eq w w' hd b :
  pr_netdev <$> privs w' = pr_netdev <$> privs w → in_slot w hd b → in_slot w' hd b.
Proof. intros H [H1 H2]. split; [done|]. by rewrite (netdev_eq w). Qed.

(** Updates the invariant does not look at. *)
Lemma lc_inv_frame L bound w w' :
  lc_inv L bound w → guard w' = guard w → handles w' = handles w → suspended w' = suspended w →
  sysfs_br w' = sysfs_br w → pr_netdev <$> privs w' = pr_netdev <$> privs w →
  (∀ r, led w' r = led w r) → lc_inv L bound w'.
Proof.
  intros [Hb Ho Hs Hsl] Hg Hh Hsu Hsy Hpr Hl. constructor; rewrite ?Hg, ?Hh, ?Hsu, ?Hsy; try done.
  2: { intros h hd b E Hhd Hbr. by eapply in_slot_eq, Hsl. }
  destruct bound as [h|].
  - destruct Hb as (hd & b & ? & ? & ? & ? & ? & ? & Hled). exists hd, b. split_and!; try done.
    intros r. by rewrite Hl, Hled.
  - destruct Hb as [? Hled]. split; [done|]. intros r. by rewrite Hl, Hled.
Qed.

Lemma lc_inv_ext L L' bound w : (∀ r, L r = L' r) → lc_inv L bound w → lc_inv L' bound w.
Proof.
  intros HL [Hb Ho Hs]. constructor; try done. destruct bound as [h|].
  - destruct Hb as (hd & b & ? & ? & ? & ? & ? & ? & Hled). exists hd, b. split_and!; try done.
    intros r. by rewrite Hled, HL.
  - destruct Hb as [? Hled]. split; [done|]. intros r. by rewrite Hled, HL.
Qed.

(** A reference taken or dropped outside the instance moves the baseline. *)
Lemma lc_inv_bump L bound w r n :
  lc_inv L bound w → lc_inv (λ r', L r' + n * dl r r') bound (bump r n w).
Proof.
  intros [Hb Ho Hs]. constructor; try done. destruct bound as [h|].
  - destruct Hb as (hd & b & ? & ? & ? & ? & ? & ? & Hled). exists hd, b. split_and!; try done.
    intros r'. simpl. rewrite Hled. lia.
  - destruct Hb as [? Hled]. split; [done|]. intros r'. simpl. rewrite Hled. lia.
Qed.

Lemma lc_inv_suspend L bound w s :
  lc_inv (plus L (RRef (s_peer_dev s))) bound w → suspended w = None →
  lc_inv L bound (set_suspended (Some s) w).
Proof.
  intros [Hb Ho Hs] Hn. constructor; try done. simpl. destruct bound as [h|].
  - destruct Hb as (hd & b & ? & ? & ? & ? & ? & ? & Hled). exists hd, b. split_and!; try done.
    intros r. rewrite Hled, Hn. unfold plus. simpl. lia.
  - destruct Hb as [? Hled]. split; [done|]. intros r. rewrite Hled, Hn. unfold plus. simpl. lia.
Qed.

Lemma lc_inv_unsuspend L bound w s :
  lc_inv L bound w → suspended w = Some s →
  lc_inv (plus L (RRef (s_peer_dev s))) bound (set_suspended None w).
Proof.
  intros [Hb Ho Hs] Hn. constructor; try done. simpl. destruct bound as [h|].
  - destruct Hb as (hd & b & ? & ? & ? & ? & ? & ? & Hled). exists hd, b. split_and!; try done.
    intros r. rewrite Hled, Hn. unfold plus. simpl. lia.
  - destruct Hb as [? Hled]. split; [done|]. intros r. rewrite Hled, Hn. unfold plus. simpl. lia.
Qed.

Lemma lookup_store h h' idx ob w :
  handles (store_idx h idx (store_bridge h ob w)) !! h' =
  (if decide (h = h') then λ hd, set_effective_idx idx (set_h_bridge ob hd) else id) <$> handles w !! h'.
Proof.
  unfold store_idx, store_bridge. simpl. case_decide as E.
  - subst h'. rewrite !lookup_alter_eq. by destruct (handles w !! h).
  - rewrite !lookup_alter_ne by done. by destruct (handles w !! h').
Qed.

Lemma world_event_inv L bound e w : lc_inv L bound w → lc_inv L bound (world_event bound e w).
Proof.
  intros I. assert (Hk : lc_inv L bound
    match e with KStatus ev d dv => kernel_status ev d dv w | KMedia p c => kernel_media p c w | _ => w end).
  { apply (lc_inv_frame L bound w); [done|..]; destruct e; try done. apply media_netdevs. }
  unfold world_event. destruct bound as [h|]; [|done].
  destruct I as [(hd & b & Hh & Hb & Hwf & Hp & Hbh & Hg & Hl) Ho Hs Hsl].
  rewrite Hh. cbn [mbind option_bind]. rewrite Hb.
  destruct (kev_inst e (w, b)) as [w' b'] eqn:E.
  pose proof (kev_balanced e w b Hwf) as (Hwf' & Hi & Hw & Hl'). rewrite E in Hwf', Hi, Hw, Hl'.
  simpl in Hwf', Hi, Hw, Hl'. unfold same_world in Hw. unfold same_inst in Hi. destruct_and!.
  constructor; simpl.
  - exists (set_h_bridge (Some b') hd), b'. split_and!; try done; try congruence.
    + rewrite lookup_alter_eq. replace (handles w') with (handles w). by rewrite Hh.
    + intros r. specialize (Hl' r). rewrite Hl in Hl'. replace (suspended w') with (suspended w). lia.
  - intros h' hd' Hh' Hne. rewrite lookup_alter_ne in Hh' by congruence.
    apply (Ho h'); [congruence|done].
  - intros h' Hh'. apply Hs. congruence.
  - intros h' hd' b'' [= <-]. replace (handles w') with (handles w).
    rewrite lookup_alter_eq, Hh. simpl. intros [= <-]. simpl. intros [= <-].
    destruct (Hsl h hd b eq_refl Hh Hb) as [Hpb Hnb]. split; simpl.
    + by replace (wlan_priv b') with (wlan_priv b).
    + change (pr_netdev (priv_at w' (wlan_priv b')) = Some (wlan_dev b')).
      rewrite (netdev_eq w) by done. congruence.
Qed.

Lemma world_events_inv L bound es w : lc_inv L bound w → lc_inv L bound (world_events bound es w).
Proof.
  revert w; induction es as [|e es IH]; intros w I; [done|]. by apply IH, world_event_inv.
Qed.

Lemma deinit_inv L h e w : lc_inv L (Some h) w → lc_inv L None (moal_bridge_deinit_locked h e w).
Proof.
  intros [(hd & b & Hh & Hb & Hwf & Hp & Hbh & Hg & Hl) Ho Hs].
  destruct (deinit_locked_spec h hd b e w Hh Hb Hwf) as [Hl' Hw].
  unfold same_world in Hw. cbn [guard set_guard owner handles m_handle suspended kobj sysfs_br counters
    deferred runtime_switch control_ready moal_bridge_sysfs_deinit set_sysfs_br] in Hw. destruct_and! Hw.
  constructor.
  - split; [done|]. intros r. rewrite Hl', Hl.
    replace (suspended (moal_bridge_deinit_locked h e w)) with (suspended w). lia.
  - intros h' hd' Hh' _.
    replace (handles (moal_bridge_deinit_locked h e w)) with (handles (store_idx h (-1) (store_bridge h None w)))
      in Hh'.
    rewrite lookup_store in Hh'. case_decide as E.
    + subst h'. rewrite Hh in Hh'. simpl in Hh'. by simplify_eq.
    + apply (Ho h'); [|congruence]. by destruct (handles w !! h'); simplify_eq/=.
  - intros h'. replace (sysfs_br (moal_bridge_deinit_locked h e w)) with (@None Z). done.
  - done.
Qed.

Lemma init_inv L bound h nm pid idx ms idle e w ret w' :
  lc_inv L bound w → moal_bridge_init_locked h nm pid idx ms idle e w = (ret, w') →
  (ret ≠ 0 ∧ lc_inv L bound w' ∧ same_world w w') ∨
  (ret = 0 ∧ bound = None ∧ lc_inv L (Some h) w').
Proof.
  intros I Hi. destruct (init_locked_spec _ _ _ _ _ _ _ _ _ _ Hi) as [(Hr & Hw & Hl)|(-> & b & Hd)].
  - left. split_and!; [done| |done]. unfold same_world in Hw. destruct_and! Hw.
    by apply (lc_inv_frame L bound w).
  - right. destruct Hd as (Hpub & Hbh & _ & _ & Hg & Hg' & Hh & Hrest).
    destruct Hpub as (Hwf & Hp & _).
    destruct Hrest as (_ & Hsu & _ & _ & _ & _ & _ & Hsys & (hd & Hhd & _ & Hpb & Hnb) & _ & _ & _ & Hpr & Hl).
    assert (bound = None) as ->.
    { destruct bound as [h0|]; [|done]. destruct (li_bound _ _ _ I) as (? & ? & ? & ? & ? & ? & ? & ? & _).
      congruence. }
    destruct I as [[_ Hled] Ho Hs]. split_and!; [done..|]. constructor.
    + exists (set_effective_idx idx (set_h_bridge (Some b) hd)), b. rewrite Hh, lookup_store, decide_True, Hhd by done.
      split_and!; try done. intros r. rewrite Hl, Hled, Hsu. lia.
    + intros h' hd' Hh' Hne. rewrite Hh, lookup_store, decide_False in Hh' by congruence.
      apply (Ho h'); [|done]. by destruct (handles w !! h'); simplify_eq/=.
    + intros h' Hh'. destruct Hsys as [E|E]; [congruence|]. rewrite E in Hh'. by apply Hs in Hh'.
    + intros h' hd' b' [= <-]. rewrite Hh, lookup_store, decide_True, Hhd by done. intros [= <-] [= <-].
      split; [done|]. by rewrite (netdev_eq w).
Qed.

(** A binding is created and kept, or nothing of it remains. *)
Lemma bind_inv L t old e w ret w' :
  lc_inv L None w → switch_bind t old e w = (ret, w') →
  (ret ≠ 0 ∧ lc_inv L None w') ∨ (ret = 0 ∧ lc_inv L (Some (t_handle t)) w').
Proof.
  intros I. unfold switch_bind.
  destruct (moal_bridge_init_locked _ _ _ _ _ _ _ _) as [r1 w1] eqn:E1.
  apply (world_events_inv L None (be_gap e)) in I.
  destruct (init_inv _ _ _ _ _ _ _ _ _ _ _ _ I E1) as [(Hr & I1 & _)|(-> & _ & I1)].
  - rewrite (proj2 (Z.eqb_neq r1 0)) by done. simpl. intros [= <- <-]. by left.
  - simpl. apply (world_events_inv L (Some (t_handle t)) (be_events e)) in I1.
    destruct (Z.eqb_spec (moal_bridge_validate_binding_locked
      (world_events (Some (t_handle t)) (be_events e) w1) t (snap_peer_dev old)) 0) as [E|E]; simpl;
      intros [= <- <-]; [by right|left]. split; [done|by apply deinit_inv].
Qed.

Definition lc_state (L : res → Z) (w : world) : Prop := lc_inv L (owner w) w.

Lemma lc_state_pend L w p : lc_state L w → lc_state L (set_pend p w).
Proof. intros I. by apply (lc_inv_frame L (owner w) w). Qed.

Lemma rollback_inv L name g tr old e w ret w' :
  lc_inv L None w → switch_rollback name g tr old e w = (ret, w') → lc_state L w'.
Proof.
  intros I. unfold switch_rollback.
  destruct (switch_bind _ _ _ _) as [rb w1] eqn:E1.
  destruct (bind_inv _ _ _ _ _ _ _ I E1) as [(Hr & I1)|(-> & I1)].
  - rewrite (proj2 (Z.eqb_neq rb 0)) by done. intros [= <- <-]. by apply (lc_inv_frame L None w1).
  - simpl. intros [= <- <-]. by apply (lc_inv_frame L (Some (old_owner old)) w1).
Qed.

Lemma world_event_owner bound e w : owner (world_event bound e w) = owner w.
Proof.
  assert (Hk : owner match e with KStatus ev d dv => kernel_status ev d dv w
                     | KMedia p c => kernel_media p c w | _ => w end = owner w) by by destruct e.
  unfold world_event. destruct bound as [h|]; [|done].
  destruct (handles w !! h ≫= h_bridge) as [b|]; [|done].
  assert (Hw : ∀ wb, owner (kev_inst e wb).1 = owner wb.1).
  { intros [w0 b0]. destruct e; simpl; unfold moal_bridge_netdev_event, forward_readiness, netdev_up,
      netdev_down, netdev_changename, netdev_unregister, release_capture, flush_release_work;
      repeat (case_match; simpl); done. }
  specialize (Hw (w, b)). destruct (kev_inst e (w, b)). exact Hw.
Qed.
Lemma world_events_owner bound es w : owner (world_events bound es w) = owner w.
Proof.
  revert w; induction es as [|e es IH]; intros w; [done|].
  transitivity (owner (world_event bound e w)); [exact (IH (world_event bound e w))|apply world_event_owner].
Qed.
Lemma lc_state_events L es w : lc_state L w → lc_state L (world_events (owner w) es w).
Proof. intros I. unfold lc_state. rewrite world_events_owner. by apply world_events_inv. Qed.

(** Taking and dropping a reference around an update of the request. *)
Lemma lc_state_held L w d p :
  lc_state L w → lc_state L (bump (RRef d) (-1) (set_pend p (bump (RRef d) 1 w))).
Proof. intros I. apply (lc_inv_frame L (owner w) w); try done. intros r. simpl. lia. Qed.

Lemma defer_pend name same allow ret w ret' w' :
  switch_defer name same allow ret w = (ret', w') → ∃ p, w' = set_pend p w.
Proof.
  unfold switch_defer. case_match.
  - destruct (moal_bridge_pending_set name (pend w)) as [g p]. intros [= <- <-]. by exists p.
  - intros [= <- <-]. exists (pend w). by destruct w.
Qed.

Lemma resolve_inv L name allow g h b snap w plan w' :
  lc_state L w → owner w = Some h →
  switch_resolve name allow g h b snap w = (plan, w') →
  match plan with
  | SwitchDone _ => lc_state L w'
  | SwitchGo old t snap' =>
      lc_inv (plus L (RRef (snap_peer_dev old))) (Some h) w' ∧ old_owner old = h ∧ snap_peer_dev old = peer_dev b ∧
      snap' = snap ∧ String.eqb (nd_name (dev_at w (wlan_dev b))) name = false ∧
      moal_bridge_find_target w name = inr t ∧
      old_bss_index old = from_option effective_idx (-1) (handles w !! h) ∧ w' = bump (RRef (peer_dev b)) 1 w
  end.
Proof.
  intros I Ho. unfold switch_resolve.
  destruct (if _ && _ then _ else (false, pend w)) as [cleared p].
  destruct cleared; [intros [= <- <-]; by apply lc_state_pend|].
  destruct (moal_bridge_find_target w name) as [ret|t]; [by intros [= <- <-]|].
  destruct (String.eqb (nd_name (dev_at w (wlan_dev b))) name) eqn:Es; simpl.
  - destruct (negb (t_handle t =? h) || _); [by intros [= <- <-]|].
    destruct (_ || negb (dev_ready w (peer_dev b))); [by intros [= <- <-]|].
    destruct (negb (moal_bridge_target_link_status w t =? 0)).
    + destruct (switch_defer name true allow _ _) as [ret w1] eqn:Ed.
      apply defer_pend in Ed as [p' ->]. intros [= <- <-]. by apply lc_state_held.
    + intros [= <- <-]. apply (lc_inv_frame L (owner w) w); try done. intros r. simpl. lia.
  - destruct (_ || negb (dev_ready w (peer_dev b))); [by intros [= <- <-]|].
    destruct (negb (moal_bridge_target_link_status w t =? 0)).
    + destruct (switch_defer name false allow _ _) as [ret w1] eqn:Ed.
      apply defer_pend in Ed as [p' ->]. intros [= <- <-]. by apply lc_state_held.
    + intros [= <- <-]. split_and!; try done. unfold lc_state in I. rewrite Ho in I.
      apply (lc_inv_bump _ _ _ (RRef (peer_dev b)) 1) in I. revert I. apply lc_inv_ext.
      intros r. unfold plus. simpl. lia.
Qed.

Lemma prepare_inv L name allow g e w plan w' :
  lc_state L w → switch_prepare name allow g e w = (plan, w') →
  match plan with
  | SwitchDone _ => lc_state L w'
  | SwitchGo old t snap =>
      lc_inv (plus L (RRef (snap_peer_dev old))) (Some (old_owner old)) w' ∧ owner w' = Some (old_owner old)
  end.
Proof.
  intros I. unfold switch_prepare.
  destruct (String.eqb name EmptyString); [by intros [= <- <-]|].
  destruct (negb (control_ready w)); [by intros [= <- <-]|].
  destruct (negb (runtime_switch w =? 1)); [by intros [= <- <-]|].
  destruct (se_sem_err e); [by intros [= <- <-]|].
  destruct (negb (se_ready2 e)); [by intros [= <- <-]|].
  destruct (negb (g =? 0) && negb (moal_bridge_pending_matches name g (pend w))); [by intros [= <- <-]|].
  apply (lc_state_events _ (se_events1 e)) in I. set (w1 := world_events (owner w) (se_events1 e) w) in *.
  destruct (owner_bridge w1); [|by intros [= <- <-]].
  apply (lc_state_events _ (se_events2 e)) in I. set (w2 := world_events (owner w1) (se_events2 e) w1) in *.
  destruct (negb (g =? 0) && negb (moal_bridge_pending_matches name g (pend w2))); [by intros [= <- <-]|].
  destruct (owner w2) as [h|] eqn:Ho; [|by intros [= <- <-]].
  destruct (owner_bridge w2) as [b|]; [|by intros [= <- <-]].
  intros Hr. pose proof (resolve_inv _ _ _ _ _ _ _ _ _ _ I Ho Hr) as Hp.
  destruct plan; [done|]. destruct Hp as (I' & <- & _ & _ & _ & _ & _ & ->). done.
Qed.

Lemma switch_inv L name allow g e w ret w' :
  lc_state L w → moal_bridge_switch_iface_request name allow g e w = (ret, w') → lc_state L w'.
Proof.
  intros I. unfold moal_bridge_switch_iface_request.
  destruct (switch_prepare name allow g e w) as [plan w1] eqn:Ep.
  pose proof (prepare_inv _ _ _ _ _ _ _ _ I Ep) as Hp.
  destruct plan as [r|old t [[pn pg] pst]]; [by intros [= <- <-]|].
  destruct Hp as [I1 Ho]. apply (deinit_inv _ _ (se_deinit e)) in I1.
  assert (I2 : lc_inv (plus L (RRef (snap_peer_dev old))) None
                 (set_owner None (moal_bridge_deinit_locked (old_owner old) (se_deinit e) w1)))
    by (by apply (lc_inv_frame _ _ _ _ I1)).
  clear I1. set (w2 := set_owner None _) in *. clearbody w2.
  assert (Hput : ∀ w3, lc_state (plus L (RRef (snap_peer_dev old))) w3 →
    lc_state L (bump (RRef (snap_peer_dev old)) (-1) w3)).
  { intros w3 I3. apply (lc_inv_bump _ _ _ (RRef (snap_peer_dev old)) (-1)) in I3. revert I3.
    apply lc_inv_ext. intros r. unfold plus. lia. }
  destruct (switch_bind t old (se_target e) w2) as [r3 w3] eqn:Eb.
  destruct (bind_inv _ _ _ _ _ _ _ I2 Eb) as [(Hr & I3)|(-> & I3)].
  - rewrite (proj2 (Z.eqb_neq r3 0)) by done.
    destruct (switch_rollback name g r3 old e w3) as [r4 w4] eqn:Er. intros [= <- <-].
    apply Hput. by apply (rollback_inv _ _ _ _ _ _ _ _ _ I3 Er).
  - simpl. intros [= <- <-]. apply Hput.
    destruct ((g =? 0) && bool_decide (pst ≠ MOAL_BR_PENDING_NONE));
      by apply (lc_inv_frame _ (Some (t_handle t)) w3).
Qed.

Lemma init_op_inv L h nm idx e w ret w' :
  lc_state L w → moal_bridge_init h nm idx e w = (ret, w') → lc_state L w'.
Proof.
  intros I. unfold moal_bridge_init. destruct (handles w !! h) as [hd|]; [|by intros [= <- <-]].
  destruct (moal_bridge_init_locked _ _ _ _ _ _ _ _) as [r w1] eqn:E.
  destruct (init_inv _ _ _ _ _ _ _ _ _ _ _ _ I E) as [(Hr & I1 & Hw)|(-> & Hn & I1)].
  - rewrite (proj2 (Z.eqb_neq r 0)) by done. intros [= <- <-]. unfold lc_state.
    replace (owner w1) with (owner w); [done|]. by unfold same_world in Hw; destruct_and! Hw.
  - simpl. intros [= <- <-]. by apply (lc_inv_frame L (Some h) w1).
Qed.

Lemma deinit_op_inv L h e w : lc_state L w → lc_state L (moal_bridge_deinit h e w).
Proof.
  intros I. unfold moal_bridge_deinit. case_bool_decide as Ho; [|done].
  unfold lc_state in I. rewrite Ho in I. apply (deinit_inv _ _ e) in I.
  by apply (lc_inv_frame L None (moal_bridge_deinit_locked h e w)).
Qed.

Lemma suspend_inv L x c e w ret w' :
  lc_state L w → moal_bridge_suspend_owner x c e w = (ret, w') → lc_state L w'.
Proof.
  intros I. unfold moal_bridge_suspend_owner. destruct (suspended w) eqn:Es.
  { case_match; by intros [= <- <-]. }
  destruct (owner w) as [h|] eqn:Ho; [|by intros [= <- <-]].
  destruct (owner_bridge w) as [b|]; [|by intros [= <- <-]].
  destruct (negb (expected_ok w h x c)); [by intros [= <- <-]|].
  destruct (peer_released b || _); [by intros [= <- <-]|].
  set (s := mk_suspended h (peer_dev b) _ _ _). intros [= <- <-].
  unfold lc_state in I. rewrite Ho in I. apply (lc_inv_bump _ _ _ (RRef (peer_dev b)) 1) in I.
  assert (I' : lc_inv L (Some h) (set_suspended (Some s) (bump (RRef (peer_dev b)) 1 w))).
  { apply lc_inv_suspend; [|done]. revert I. apply lc_inv_ext. intros r. unfold plus. simpl. lia. }
  apply (deinit_inv _ _ e) in I'. by apply (lc_inv_frame L None _ _ I').
Qed.

Lemma resume_inv L x c e w ret w' :
  lc_state L w → moal_bridge_resume_owner x c e w = (ret, w') → lc_state L w'.
Proof.
  intros I. unfold moal_bridge_resume_owner. destruct (suspended w) as [s|] eqn:Es; [|by intros [= <- <-]].
  destruct (negb (expected_ok w (s_handle s) x c)); [by intros [= <- <-]|].
  apply (lc_inv_unsuspend _ _ _ s) in I; [|done].
  assert (Hput : ∀ w3, lc_state (plus L (RRef (s_peer_dev s))) w3 →
    lc_state L (bump (RRef (s_peer_dev s)) (-1) w3)).
  { intros w3 I3. apply (lc_inv_bump _ _ _ (RRef (s_peer_dev s)) (-1)) in I3. revert I3.
    apply lc_inv_ext. intros r. unfold plus. lia. }
  destruct (moal_bridge_init_locked _ _ _ _ _ _ _ _) as [r w1] eqn:E.
  destruct (init_inv _ _ _ _ _ _ _ _ _ _ _ _ I E) as [(Hr & I1 & Hw)|(-> & Hn & I1)].
  - rewrite (proj2 (Z.eqb_neq r 0)) by done. intros [= <- <-]. apply Hput, lc_state_pend.
    unfold lc_state. replace (owner w1) with (owner w); [done|].
    by unfold same_world in Hw; destruct_and! Hw.
  - simpl. intros [= <- <-]. apply Hput. by apply (lc_inv_frame _ (Some (s_handle s)) w1).
Qed.

(** Dropping the saved identity with its reference. *)
Lemma drop_suspended_inv L bound w s p :
  lc_inv L bound w → suspended w = Some s →
  lc_inv L bound (set_suspended None (bump (RRef (s_peer_dev s)) (-1) (set_pend p w))).
Proof.
  intros I Hs. apply (lc_inv_unsuspend _ _ _ s) in I; [|done].
  apply (lc_inv_bump _ _ _ (RRef (s_peer_dev s)) (-1)) in I.
  apply (lc_inv_ext _ L) in I; [|intros r; unfold plus; lia].
  by apply (lc_inv_frame L bound _ _ I).
Qed.

Lemma discard_inv L x c w : lc_state L w → lc_state L (moal_bridge_discard_suspended_owner x c w).
Proof.
  intros I. unfold moal_bridge_discard_suspended_owner. destruct (suspended w) as [s|] eqn:Es; [|done].
  destruct (negb (expected_ok w (s_handle s) x c)); [done|]. by apply drop_suspended_inv.
Qed.

Lemma invalidate_inv L h w : lc_state L w → lc_state L (pending_invalidate_handle h w).
Proof. intros I. unfold pending_invalidate_handle. case_match; [by apply lc_state_pend|done]. Qed.

Lemma forget_inv L h e w : lc_state L w → lc_state L (moal_bridge_forget_handle h e w).
Proof.
  intros I. unfold moal_bridge_forget_handle. destruct (handles w !! h); [|done].
  apply (invalidate_inv L h) in I. set (w1 := pending_invalidate_handle h w) in *. clearbody w1.
  set (lost := bool_decide (owner w1 = Some h) || _). clearbody lost.
  set (w2 := if lost then _ else w1).
  assert (I2 : lc_state L w2) by (subst w2; destruct lost; [by apply lc_state_pend|done]).
  clearbody w2. clear I.
  set (w3 := if bool_decide (owner w2 = Some h) then _ else w2).
  assert (I3 : lc_state L w3) by exact (deinit_op_inv L h e w2 I2).
  clearbody w3. destruct (suspended w3) as [s|] eqn:Es; [|done]. case_bool_decide; [|done].
  pose proof (drop_suspended_inv L _ w3 s (pend w3) I3 Es) as I4.
  by apply (lc_inv_frame L (owner w3) _ _ I4).
Qed.

Lemma work_inv L evs1 evs2 e w : lc_state L w → lc_state L (run_pending_work evs1 evs2 e w).
Proof.
  intros I. unfold run_pending_work. destruct (work_scheduled (pend w)); [|done].
  apply (lc_state_pend _ _ (cleanup_drain (pend w))) in I.
  set (w1 := set_pend (cleanup_drain (pend w)) w) in *. clearbody w1.
  destruct (moal_bridge_pending_work_fn (deferred w1) WStarted (pend w1)) as [[| |name g| | | |] p1]; try done.
  apply (lc_state_events _ evs1) in I. set (w2 := world_events (owner w1) evs1 w1) in *. clearbody w2.
  destruct (moal_bridge_pending_work_fn (deferred w2) (WBegin name g) (pend w2)) as [[| | |name' g'| | |] p2];
    try by apply lc_state_pend.
  apply (lc_state_pend _ _ p2) in I.
  destruct (moal_bridge_switch_iface_request name false g e (set_pend p2 w2)) as [ret w3] eqn:Es.
  apply (switch_inv _ _ _ _ _ _ _ _ I) in Es.
  by apply lc_state_pend, lc_state_events.
Qed.

(** ** Operation sequences *)

Inductive lc_op :=
| OpInit (h : Z) (nm : string) (idx : Z) (e : init_env)
| OpDeinit (h : Z) (e : deinit_env)
| OpSuspend (x : option Z) (companion : bool) (e : deinit_env)
| OpResume (x : option Z) (companion : bool) (e : init_env)
| OpDiscard (x : option Z) (companion : bool)
| OpForget (h : Z) (e : deinit_env)
| OpInvalidate (h : Z)
| OpCancelAll
| OpSwitch (name : string) (e : switch_env)
| OpWork (evs1 evs2 : list kev) (e : switch_env)
| OpEvent (e : kev)
| OpStatsInit (err : Z)
| OpStatsCleanup
| OpPendingStart (err : bool)
| OpPendingCleanup.

Definition lc_step (w : world) (op : lc_op) : world :=
  match op with
  | OpInit h nm idx e => (moal_bridge_init h nm idx e w).2
  | OpDeinit h e => moal_bridge_deinit h e w
  | OpSuspend x c e => (moal_bridge_suspend_owner x c e w).2
  | OpResume x c e => (moal_bridge_resume_owner x c e w).2
  | OpDiscard x c => moal_bridge_discard_suspended_owner x c w
  | OpForget h e => moal_bridge_forget_handle h e w
  | OpInvalidate h => pending_invalidate_handle h w
  | OpCancelAll => set_pend (moal_bridge_pending_cancel_all (pend w)) w
  | OpSwitch name e => (moal_bridge_switch_iface name e w).2
  | OpWork evs1 evs2 e => run_pending_work evs1 evs2 e w
  | OpEvent e => world_event (owner w) e w
  | OpStatsInit err => (moal_bridge_stats_init err w).2
  | OpStatsCleanup => moal_bridge_stats_cleanup w
  | OpPendingStart err => set_pend (moal_bridge_pending_start err (pend w)) w
  | OpPendingCleanup => set_pend (moal_bridge_pending_cleanup (pend w)) w
  end.

Lemma lc_step_inv L w op : lc_state L w → lc_state L (lc_step w op).
Proof.
  intros I. destruct op as [h nm idx e|h e|x c e|x c e|x c|h e|h| |name e|evs1 evs2 e|e|err| |err|]; simpl.
  - destruct (moal_bridge_init h nm idx e w) as [r w'] eqn:E. exact (init_op_inv _ _ _ _ _ _ _ _ I E).
  - by apply deinit_op_inv.
  - destruct (moal_bridge_suspend_owner x c e w) as [r w'] eqn:E. exact (suspend_inv _ _ _ _ _ _ _ I E).
  - destruct (moal_bridge_resume_owner x c e w) as [r w'] eqn:E. exact (resume_inv _ _ _ _ _ _ _ I E).
  - by apply discard_inv.
  - by apply forget_inv.
  - by apply invalidate_inv.
  - by apply lc_state_pend.
  - destruct (moal_bridge_switch_iface name e w) as [r w'] eqn:E. exact (switch_inv _ _ _ _ _ _ _ _ I E).
  - by apply work_inv.
  - exact (lc_state_events L [e] w I).
  - unfold moal_bridge_stats_init, moal_bridge_sysfs_init. case_match; [done|]. simpl.
    destruct I as [Hb Ho Hs]. by constructor.
  - destruct I as [Hb Ho Hs]. by constructor.
  - by apply lc_state_pend.
  - by apply lc_state_pend.
Qed.

Lemma lc_run_inv L ops w : lc_state L w → lc_state L (foldl lc_step w ops).
Proof. revert w; induction ops as [|op ops IH]; intros w I; [done|]. by apply IH, lc_step_inv. Qed.

(** ** Properties *)

(** Nothing bound, suspended or published. *)
Definition lc_initial (w : world) : Prop :=
  owner w = None ∧ suspended w = None ∧ guard w = false ∧ sysfs_br w = None ∧
  ∀ h hd, handles w !! h = Some hd → h_bridge hd = None.

(** C1: over any sequence of lifecycle operations and kernel events,
    failures, rollbacks and resets included, the single-instance guard is set
    exactly while a handle owns the bridge, only that handle has an instance, the
    statistics node never points to a destroyed one, and whenever no bridge is
    owned or suspended every resource count is back at its initial value. *)
Theorem lifecycle_balanced (w0 : world) (ops : list lc_op) :
  lc_initial w0 →
  let w := foldl lc_step w0 ops in
  (guard w = true ↔ ∃ h, owner w = Some h) ∧
  (∀ h hd, handles w !! h = Some hd → is_Some (h_bridge hd) → owner w = Some h) ∧
  (∀ h, owner w = Some h → is_Some (handles w !! h ≫= h_bridge)) ∧
  (∀ h, sysfs_br w = Some h → owner w = Some h) ∧
  (owner w = None → suspended w = None → ∀ r, led w r = led w0 r).
Proof.
  intros (Ho & Hs & Hg & Hsy & Hh) w.
  assert (I : lc_state (led w0) w).
  { apply lc_run_inv. unfold lc_state. rewrite Ho. constructor; [|intros h hd ? _; by apply (Hh h)|congruence|done].
    split; [done|]. intros r. rewrite Hs. simpl. lia. }
  clearbody w. destruct I as [Hb Hot Hsys _]. split_and!; [| | |done|].
  - destruct (owner w) as [h|]; [|destruct Hb as [-> _]; naive_solver].
    destruct Hb as (hd & b & _ & _ & _ & _ & _ & -> & _). split; [by exists h|done].
  - intros h hd Hhd [b Hbr]. destruct (decide (owner w = Some h)) as [|Hne]; [done|].
    specialize (Hot h hd Hhd Hne). congruence.
  - intros h E. rewrite E in Hb. destruct Hb as (hd & b & -> & Hbr & _). simpl. by rewrite Hbr.
  - intros E Es r. rewrite E, Es in Hb. destruct Hb as [_ Hl]. rewrite Hl. simpl. lia.
Qed.

(** *** Target resolution *)

(** What a target is: a registered, present STA interface of that name on a
    working adapter, in the slot the target names. *)
Definition good_target (w : world) (name : string) (t : moal_bridge_target) : Prop :=
  ∃ hd p d, handles w !! t_handle t = Some hd ∧ t_priv t = Some p ∧ t_dev t = Some d ∧
    pr_netdev (priv_at w p) = Some d ∧ nd_name (dev_at w d) = name ∧ bss_sta (priv_at w p) = true ∧
    handle_busy hd = false ∧ nd_registered (dev_at w d) = true ∧ nd_present (dev_at w d) = true ∧
    h_priv hd !! Z.to_nat (t_idx t) = Some (Some p).

Lemma find_in_handle_good w name h hd j l t :
  handles w !! h = Some hd → 0 <= j → find_in_handle w name h hd j l = Some (inr t) →
  good_target w name t ∧ t_handle t = h ∧ j <= t_idx t < j + Z.of_nat (length l).
Proof.
  intros Hh. revert j. induction l as [|op l IH]; intros j Hj; cbn [find_in_handle]; [done|].
  assert (Hrec : find_in_handle w name h hd (j + 1) l = Some (inr t) →
    good_target w name t ∧ t_handle t = h ∧ j <= t_idx t < j + Z.of_nat (length (op :: l))).
  { intros H. destruct (IH (j + 1) ltac:(lia) H) as (? & ? & ?). split_and!; try done; simpl; lia. }
  destruct (op ≫= _) as [[p d]|] eqn:Eo; [|done].
  apply bind_Some in Eo as (p' & _ & Eo). apply bind_Some in Eo as (d' & Hd & [= -> ->]).
  destruct (String.eqb_spec (nd_name (dev_at w d)) name) as [Hn|]; [|done].
  unfold accept_target. destruct (bss_sta (priv_at w p)) eqn:E1; [|done].
  destruct (handle_busy hd) eqn:E2; [done|]. cbn [negb].
  destruct (negb (nd_registered (dev_at w d)) || negb (nd_present (dev_at w d))) eqn:E3; [done|].
  apply orb_false_iff in E3 as [E3%negb_false_iff E4%negb_false_iff].
  case_bool_decide as Hslot; [|done]. intros [= <-]. split_and!; simpl; [|done|lia|lia].
  exists hd, p, d. by split_and!.
Qed.

(** the interface a switch resolves its name to is registered, present
    and carries that name, is a station on an adapter that is neither being
    removed, reset nor reloaded, and sits in the BSS slot the target names, which
    is below both limits. *)
Theorem find_target_sound (w : world) (name : string) (t : moal_bridge_target) :
  moal_bridge_find_target w name = inr t →
  name ≠ EmptyString ∧ Some (t_handle t) ∈ m_handle w ∧ good_target w name t ∧
  0 <= t_idx t < MLAN_MAX_BSS_NUM.
Proof.
  unfold moal_bridge_find_target. destruct (String.eqb_spec name EmptyString); [done|].
  intros H. split; [done|]. revert H. induction (m_handle w) as [|oh hs IH]; cbn [find_in_handles]; [done|].
  assert (Hrec : find_in_handles w name hs = inr t → Some (t_handle t) ∈ oh :: hs ∧ good_target w name t ∧
    0 <= t_idx t < MLAN_MAX_BSS_NUM).
  { intros H. destruct (IH H) as (? & ? & ?). split_and!; try done; try lia. by right. }
  destruct (oh ≫= _) as [[h hd]|] eqn:Eo; [|done].
  apply bind_Some in Eo as (h' & -> & Eo). apply bind_Some in Eo as (hd' & Hh & [= -> ->]).
  destruct (find_in_handle w name h hd 0 _) as [r|] eqn:Ef; [|done]. intros ->.
  destruct (find_in_handle_good _ _ _ _ 0 _ _ Hh (Z.le_refl 0) Ef) as (Hg & <- & Hlo & Hhi).
  rewrite length_take in Hhi. unfold MLAN_MAX_BSS_NUM in *. split_and!; [by left|done|done|lia].
Qed.

Lemma world_event_none e w : same_world w (world_event None e w).
Proof. destruct e; try done. do 11 (split; [done|]). apply media_netdevs. Qed.
Lemma world_events_none es w : same_world w (world_events None es w).
Proof.
  revert w; induction es as [|e es IH]; intros w; [done|].
  transitivity (world_event None e w); [apply world_event_none|exact (IH (world_event None e w))].
Qed.

(** *** The slots of the handles *)

(** The interfaces of the handles and their network devices. *)
Definition same_ifaces (w w' : world) : Prop :=
  h_priv <$> handles w' = h_priv <$> handles w ∧ pr_netdev <$> privs w' = pr_netdev <$> privs w.
#[export] Instance same_ifaces_preorder : PreOrder same_ifaces.
Proof. unfold same_ifaces. split; [done|]. intros ???[][]. split; congruence. Qed.

Lemma same_world_ifaces w w' : same_world w w' → same_ifaces w w'.
Proof. unfold same_world. intros H. destruct_and! H. split; congruence. Qed.
Lemma store_ifaces h idx ob w : same_ifaces w (store_idx h idx (store_bridge h ob w)).
Proof. split; [|done]. simpl. by rewrite !fmap_alter_same. Qed.

Lemma same_ifaces_slot w w' h hd hd' : same_ifaces w w' → handles w !! h = Some hd → handles w' !! h = Some hd' →
  h_priv hd' = h_priv hd.
Proof.
  intros [H _] H1 H2. apply (f_equal (lookup h)) in H. rewrite !lookup_fmap, H1, H2 in H. by injection H.
Qed.

Lemma event_slots L bound e w : lc_inv L bound w →
  same_ifaces w (world_event bound e w) ∧ effective_idx <$> handles (world_event bound e w) = effective_idx <$> handles w.
Proof.
  intros I. destruct bound as [h|].
  2: { pose proof (world_event_none e w) as H. split; [by apply same_world_ifaces|].
       unfold same_world in H. destruct_and! H. congruence. }
  destruct (li_bound _ _ _ I) as (hd & b & Hh & Hb & Hwf & _).
  unfold world_event. rewrite Hh. cbn [mbind option_bind]. rewrite Hb.
  pose proof (kev_balanced e w b Hwf) as (_ & _ & Hw & _).
  destruct (kev_inst e (w, b)) as [w2 b2]. cbn [fst] in Hw. unfold same_world in Hw. destruct_and! Hw.
  split; [split|]; simpl; rewrite ?fmap_alter_same by done; congruence.
Qed.
Lemma events_slots L bound es w : lc_inv L bound w →
  same_ifaces w (world_events bound es w) ∧
  effective_idx <$> handles (world_events bound es w) = effective_idx <$> handles w.
Proof.
  revert w; induction es as [|e es IH]; intros w I; [done|].
  destruct (event_slots L bound e w I) as [H1 H2]. destruct (IH _ (world_event_inv L bound e w I)) as [H3 H4].
  split; [by transitivity (world_event bound e w)|]. by rewrite <- H2.
Qed.

Lemma deinit_ifaces L h e w : lc_inv L (Some h) w → same_ifaces w (moal_bridge_deinit_locked h e w).
Proof.
  intros I. destruct (li_bound _ _ _ I) as (hd & b & Hh & Hb & Hwf & _).
  destruct (deinit_locked_spec h hd b e w Hh Hb Hwf) as [_ Hw].
  etransitivity; [apply (store_ifaces h (-1) None)|exact (same_world_ifaces _ _ Hw)].
Qed.
Lemma init_ifaces h nm pid idx ms idle e w ret w' :
  moal_bridge_init_locked h nm pid idx ms idle e w = (ret, w') → same_ifaces w w'.
Proof.
  intros Hi. destruct (init_locked_spec _ _ _ _ _ _ _ _ _ _ Hi) as [(_ & Hw & _)|(_ & b & Hd)].
  - by apply same_world_ifaces.
  - destruct Hd as (_ & _ & _ & _ & _ & _ & Hh & _ & _ & _ & _ & _ & _ & _ & _ & _ & _ & _ & _ & Hpr & _).
    split; [|done]. rewrite Hh. apply (store_ifaces h idx (Some b) w).
Qed.
Lemma init_idx h nm pid idx ms idle e w w' hd :
  moal_bridge_init_locked h nm pid idx ms idle e w = (0, w') → handles w' !! h = Some hd → effective_idx hd = idx.
Proof.
  intros Hi. destruct (init_locked_spec _ _ _ _ _ _ _ _ _ _ Hi) as [(? & _)|(_ & b & Hd)]; [done|].
  destruct Hd as (_ & _ & _ & _ & _ & _ & -> & _ & _ & _ & _ & _ & _ & _ & _ & (hd0 & Hhd & _) & _).
  rewrite lookup_store, decide_True, Hhd by done. by intros [= <-].
Qed.

(** *** The outcome of a switch *)

Lemma world_event_counters bound e w : counters (world_event bound e w) = counters w.
Proof.
  assert (Hk : counters match e with KStatus ev d dv => kernel_status ev d dv w
                     | KMedia p c => kernel_media p c w | _ => w end = counters w) by by destruct e.
  unfold world_event. destruct bound as [h|]; [|done].
  destruct (handles w !! h ≫= h_bridge) as [b|]; [|done].
  assert (Hw : ∀ wb, counters (kev_inst e wb).1 = counters wb.1).
  { intros [w0 b0]. destruct e; simpl; unfold moal_bridge_netdev_event, forward_readiness, netdev_up,
      netdev_down, netdev_changename, netdev_unregister, release_capture, flush_release_work;
      repeat (case_match; simpl); done. }
  specialize (Hw (w, b)). destruct (kev_inst e (w, b)). exact Hw.
Qed.
Lemma world_events_counters bound es w : counters (world_events bound es w) = counters w.
Proof.
  revert w; induction es as [|e es IH]; intros w; [done|].
  transitivity (counters (world_event bound e w)); [exact (IH (world_event bound e w))|apply world_event_counters].
Qed.

Lemma deinit_keeps L h e w : lc_inv L (Some h) w →
  counters (moal_bridge_deinit_locked h e w) = counters w ∧
  owner (moal_bridge_deinit_locked h e w) = owner w.
Proof.
  intros [(hd & b & Hh & Hb & Hwf & _) _ _].
  destruct (deinit_locked_spec h hd b e w Hh Hb Hwf) as [_ (_ & Ho & _ & _ & _ & _ & _ & Hc & _)].
  split; [exact Hc|exact Ho].
Qed.

Lemma init_keeps h nm pid idx ms idle e w ret w' :
  moal_bridge_init_locked h nm pid idx ms idle e w = (ret, w') → counters w' = counters w ∧ owner w' = owner w.
Proof.
  intros Hi. destruct (init_locked_spec _ _ _ _ _ _ _ _ _ _ Hi) as [(_ & Hw & _)|(_ & b & Hd)].
  - unfold same_world in Hw. by destruct_and! Hw.
  - by destruct Hd as (_ & _ & _ & _ & _ & _ & _ & Ho & _ & _ & Hc & _).
Qed.

(** The instance of handle [h] is published and forwards between the interface in
    slot [idx] of that handle, whose network device is [d], and the device [peer]. *)
Definition bound_to (w : world) (h idx d peer : Z) : Prop :=
  ∃ hd b, handles w !! h = Some hd ∧ h_bridge hd = Some b ∧ effective_idx hd = idx ∧
    h_priv hd !! Z.to_nat idx = Some (Some (wlan_priv b)) ∧ pr_netdev (priv_at w (wlan_priv b)) = Some d ∧
    wlan_dev b = d ∧ peer_dev b = peer ∧
    published b = true ∧ br_active b = true ∧ peer_released b = false.

Lemma validate_bound L w t peer :
  lc_inv L (Some (t_handle t)) w → (effective_idx <$> handles w !! t_handle t) = Some (t_idx t) →
  moal_bridge_validate_binding_locked w t peer = 0 →
  ∃ d, t_dev t = Some d ∧ bound_to w (t_handle t) (t_idx t) d peer.
Proof.
  intros I Hidx. unfold moal_bridge_validate_binding_locked.
  destruct (handles w !! t_handle t) as [hd|] eqn:Eh; [|done].
  destruct (t_priv t) as [p|]; [|done]. destruct (t_dev t) as [d|]; [|done].
  destruct (handle_busy hd); [done|].
  destruct (_ || negb (bool_decide (h_priv hd !! Z.to_nat (t_idx t) = Some (Some p)))); [done|].
  destruct (owner w); [done|]. destruct (h_bridge hd) as [b|] eqn:Eb; [|done].
  destruct (_ || peer_released b) eqn:E1; [done|].
  destruct (negb (nd_registered (dev_at w d)) || _); [done|].
  destruct (Z.eqb_spec (moal_bridge_target_link_status w t) 0); simpl; [|done].
  destruct (_ || negb (dev_ready w peer)); [done|].
  destruct (negb (published b) || negb (br_active b)) eqn:E2; [done|]. intros _.
  apply orb_false_iff in E1 as [E1 Hr]. apply orb_false_iff in E1 as [Ed E1].
  apply negb_false_iff, bool_decide_eq_true in E1. apply negb_false_iff, bool_decide_eq_true in Ed.
  apply orb_false_iff in E2 as [?%negb_false_iff ?%negb_false_iff]. injection Hidx as Hidx.
  destruct (li_slot _ _ _ I _ hd b eq_refl Eh Eb) as [Hp Hn]. rewrite Hidx in Hp. subst d.
  exists (wlan_dev b). split; [done|]. exists hd, b. by split_and!.
Qed.

Lemma bind_outcome L t old e w ret w' :
  lc_inv L None w → switch_bind t old e w = (ret, w') →
  counters w' = counters w ∧ owner w' = owner w ∧ same_ifaces w w' ∧
  (ret = 0 → ∃ d, t_dev t = Some d ∧ bound_to w' (t_handle t) (t_idx t) d (snap_peer_dev old)).
Proof.
  intros I. unfold switch_bind. destruct (events_slots L None (be_gap e) w I) as [Hi0 _].
  destruct (moal_bridge_init_locked _ _ _ _ _ _ _ _) as [r1 w1] eqn:E1.
  apply (world_events_inv L None (be_gap e)) in I.
  destruct (init_keeps _ _ _ _ _ _ _ _ _ _ E1) as [Hc1 Ho1]. pose proof (init_ifaces _ _ _ _ _ _ _ _ _ _ E1) as Hi1.
  rewrite world_events_counters in Hc1. rewrite world_events_owner in Ho1.
  destruct (init_inv _ _ _ _ _ _ _ _ _ _ _ _ I E1) as [(Hr & _)|(-> & _ & I1)].
  - rewrite (proj2 (Z.eqb_neq r1 0)) by done. simpl. intros [= <- <-].
    split_and!; [done..|by etransitivity|done].
  - simpl. destruct (events_slots L (Some (t_handle t)) (be_events e) w1 I1) as [Hi2 Hx2].
    apply (world_events_inv L (Some (t_handle t)) (be_events e)) in I1.
    set (w2 := world_events (Some (t_handle t)) (be_events e) w1) in *.
    assert (Hc2 : counters w2 = counters w) by (unfold w2; by rewrite world_events_counters).
    assert (Ho2 : owner w2 = owner w) by (unfold w2; by rewrite world_events_owner).
    assert (Hx : effective_idx <$> handles w2 !! t_handle t = Some (t_idx t)).
    { destruct (li_bound _ _ _ I1) as (hd2 & _ & Hh2 & _). apply (f_equal (lookup (t_handle t))) in Hx2.
      rewrite !lookup_fmap, Hh2 in Hx2. destruct (handles w1 !! t_handle t) as [hd1|] eqn:Eh1; [|done].
      rewrite Hh2. simpl in *. rewrite <- (init_idx _ _ _ _ _ _ _ _ _ _ E1 Eh1). done. }
    assert (Hi : same_ifaces w w2) by (do 2 (etransitivity; [eassumption|]); done).
    clearbody w2. clear Hx2.
    destruct (Z.eqb_spec (moal_bridge_validate_binding_locked w2 t (snap_peer_dev old)) 0) as [E|E]; simpl;
      intros [= <- <-].
    + split_and!; [done..|]. intros _. by eapply validate_bound.
    + destruct (deinit_keeps _ _ (be_deinit e) _ I1) as [-> ->]. split_and!; [done..| |done].
      etransitivity; [exact Hi|by eapply deinit_ifaces].
Qed.

(** Every place where the switch changes the request leaves the rest alone. *)
Lemma resolve_done name allow g h b snap w ret w' :
  switch_resolve name allow g h b snap w = (SwitchDone ret, w') →
  counters w' = counters w ∧ owner w' = owner w ∧ handles w' = handles w.
Proof.
  unfold switch_resolve.
  destruct (if _ && _ then _ else (false, pend w)) as [cleared p].
  destruct cleared; [by intros [= <- <-]|].
  destruct (moal_bridge_find_target w name) as [r|t]; [by intros [= <- <-]|].
  destruct (String.eqb (nd_name (dev_at w (wlan_dev b))) name && _); [by intros [= <- <-]|].
  destruct (_ || negb (dev_ready w (peer_dev b))); [by intros [= <- <-]|].
  destruct (negb (moal_bridge_target_link_status w t =? 0)).
  - destruct (switch_defer _ _ _ _ _) as [r w1] eqn:Ed.
    apply defer_pend in Ed as [p' ->]. by intros [= <- <-].
  - case_match; by intros [= <- <-].
Qed.

(** Events change neither whose instance it is nor its devices. *)
Lemma world_events_bridge L h es w b' :
  lc_inv L (Some h) w → handles (world_events (Some h) es w) !! h ≫= h_bridge = Some b' →
  ∃ b, handles w !! h ≫= h_bridge = Some b ∧ same_inst b b'.
Proof.
  revert w. induction es as [|e es IH]; intros w I Hb'; [by exists b'|].
  change (handles (world_events (Some h) es (world_event (Some h) e w)) !! h ≫= h_bridge = Some b') in Hb'.
  destruct (IH _ (world_event_inv _ _ e _ I) Hb') as (b1 & Hb1 & Hs1).
  destruct (li_bound _ _ _ I) as (hd & b & Hh & Hb & Hwf & _).
  exists b. rewrite Hh. split; [done|]. transitivity b1; [|done].
  unfold world_event in Hb1. rewrite Hh in Hb1. cbn [mbind option_bind] in Hb1. rewrite Hb in Hb1.
  pose proof (kev_balanced e w b Hwf) as (_ & Hi & Hw & _).
  destruct (kev_inst e (w, b)) as [w2 b2]. cbn [fst snd] in Hi, Hw.
  destruct Hw as (_ & _ & Hhs & _). cbn [handles set_handles] in Hb1.
  rewrite lookup_alter_eq, Hhs, Hh in Hb1. simpl in Hb1. by simplify_eq.
Qed.

Lemma owner_bridge_eq w h : owner w = Some h → owner_bridge w = handles w !! h ≫= h_bridge.
Proof. intros Ho. unfold owner_bridge. rewrite Ho. done. Qed.

Lemma owner_events_bridge L es w h b' :
  lc_state L w → owner w = Some h → owner_bridge (world_events (owner w) es w) = Some b' →
  ∃ b, owner_bridge w = Some b ∧ same_inst b b'.
Proof.
  intros I Ho Hb'. rewrite (owner_bridge_eq w h Ho).
  rewrite (owner_bridge_eq _ h) in Hb' by by rewrite world_events_owner. unfold lc_state in I.
  rewrite Ho in I, Hb'. by apply (world_events_bridge L h es).
Qed.

(** What the checks leave of the world: only the events that came meanwhile. *)
Lemma prepare_outcome L name allow g e w plan w' :
  lc_state L w → switch_prepare name allow g e w = (plan, w') →
  counters w' = counters w ∧ owner w' = owner w ∧
  (∃ es, handles w' = handles (world_events (owner w) es w)) ∧
  match plan with
  | SwitchDone _ => True
  | SwitchGo old t _ =>
      owner w = Some (old_owner old) ∧ same_ifaces w w' ∧
      moal_bridge_find_target (world_events (owner w) (se_events1 e ++ se_events2 e) w) name = inr t ∧
      ∃ hd b, handles w !! old_owner old = Some hd ∧ h_bridge hd = Some b ∧
        snap_peer_dev old = peer_dev b ∧ old_bss_index old = effective_idx hd
  end.
Proof.
  intros I. unfold switch_prepare.
  assert (Hq : ∃ es, handles w = handles (world_events (owner w) es w)) by by exists [].
  destruct (String.eqb name EmptyString); [by intros [= <- <-]|].
  destruct (negb (control_ready w)); [by intros [= <- <-]|].
  destruct (negb (runtime_switch w =? 1)); [by intros [= <- <-]|].
  destruct (se_sem_err e); [by intros [= <- <-]|].
  destruct (negb (se_ready2 e)); [by intros [= <- <-]|].
  destruct (negb (g =? 0) && negb (moal_bridge_pending_matches name g (pend w))); [by intros [= <- <-]|].
  clear Hq. set (w1 := world_events (owner w) (se_events1 e) w).
  assert (Ho1 : owner w1 = owner w) by apply world_events_owner.
  assert (Hc1 : counters w1 = counters w) by apply world_events_counters.
  destruct (owner_bridge w1) eqn:Eb1; [|intros [= <- <-]; split_and!; [done..|by exists (se_events1 e)|done]].
  assert (E2 : world_events (owner w1) (se_events2 e) w1 =
    world_events (owner w) (se_events1 e ++ se_events2 e) w) by (unfold world_events; by rewrite foldl_app, Ho1).
  rewrite E2. clear Ho1 Hc1 Eb1 E2. clearbody w1. set (es := se_events1 e ++ se_events2 e).
  pose proof (lc_state_events _ es _ I) as I2. pose proof (events_slots L (owner w) es w I) as [Hi Hx].
  pose proof (λ h b', owner_events_bridge L es w h b' I) as Hb2.
  assert (Ho2 : owner (world_events (owner w) es w) = owner w) by apply world_events_owner.
  assert (Hc2 : counters (world_events (owner w) es w) = counters w) by apply world_events_counters.
  set (w2 := world_events (owner w) es w) in *.
  assert (Hes : ∃ es, handles w2 = handles (world_events (owner w) es w)) by by exists es.
  destruct (negb (g =? 0) && negb (moal_bridge_pending_matches name g (pend w2))); [by intros [= <- <-]|].
  destruct (owner w2) as [h|] eqn:Ho; [|intros [= <- <-]; split_and!; [congruence..|done|done]].
  destruct (owner_bridge w2) as [b|] eqn:Eb; [|intros [= <- <-]; split_and!; [congruence..|done|done]].
  intros Hr. destruct plan as [ret|old t s'].
  - destruct (resolve_done _ _ _ _ _ _ _ _ _ Hr) as (-> & -> & ->). split_and!; [congruence..|done|done].
  - destruct (resolve_inv _ _ _ _ _ _ _ _ _ _ I2 Ho Hr) as (_ & Hold & Hpe & _ & _ & Hft & Hidx & ->).
    destruct (Hb2 h b) as (b1 & Hb1 & Hs1); [congruence|done|].
    rewrite (owner_bridge_eq w h) in Hb1 by congruence. apply bind_Some in Hb1 as (hd & Hhd & Hhb).
    split; [done|]. split; [exact (eq_trans Ho Ho2)|]. split; [done|]. split; [congruence|]. do 2 (split; [done|]).
    exists hd, b1. rewrite Hold. split_and!; [done|done|rewrite Hpe; apply Hs1|].
    rewrite Hidx. apply (f_equal (lookup h)) in Hx. rewrite !lookup_fmap, Hhd in Hx. revert Hx.
    destruct (handles w2 !! h); simpl; [by intros [= ->]|done].
Qed.

(** Whatever came meanwhile, the instance of the owner is the same. *)
Lemma owner_events_keep L es w w' b : lc_state L w → owner w' = owner w →
  handles w' = handles (world_events (owner w) es w) → owner_bridge w = Some b →
  ∃ b', owner_bridge w' = Some b' ∧ same_inst b b'.
Proof.
  intros I Ho Hh Hb. unfold owner_bridge in Hb. apply bind_Some in Hb as (h & Hoh & Hb).
  pose proof (lc_state_events _ es _ I) as I2. unfold lc_state in I2. rewrite world_events_owner in I2.
  rewrite Hoh in I2, Hh. destruct (li_bound _ _ _ I2) as (hd & b' & Hhd & Hb' & _).
  assert (Hob : handles (world_events (Some h) es w) !! h ≫= h_bridge = Some b') by by rewrite Hhd.
  unfold lc_state in I. rewrite Hoh in I.
  destruct (world_events_bridge L h es w b' I Hob) as (b0 & Hb0 & Hs).
  exists b'. split.
  - rewrite (owner_bridge_eq w' h) by congruence. by rewrite Hh.
  - destruct (handles w !! h); [|done]. simpl in *. by simplify_eq.
Qed.

Lemma cancel_all_none p : pstate (moal_bridge_pending_cancel_all p) = MOAL_BR_PENDING_NONE.
Proof.
  unfold moal_bridge_pending_cancel_all. case_bool_decide as Hp; [done|].
  destruct (pstate p); [done|by destruct Hp..].
Qed.

(** The rollback aims at the slot of the old owner, so at the device it had. *)
Lemma rollback_target_dev L w w3 old hd b d :
  lc_state L w → owner w = Some (old_owner old) → handles w !! old_owner old = Some hd → h_bridge hd = Some b →
  old_bss_index old = effective_idx hd → same_ifaces w w3 → t_dev (rollback_target old w3) = Some d → d = wlan_dev b.
Proof.
  intros I Ho Hh Hb Hidx Hi. unfold lc_state in I. rewrite Ho in I.
  destruct (li_slot _ _ _ I _ hd b eq_refl Hh Hb) as [Hp Hn]. unfold rollback_target. simpl. case_match; [|done].
  destruct (handles w3 !! old_owner old) as [hd3|] eqn:E3; [|done]. cbn [mbind option_bind].
  rewrite (same_ifaces_slot _ _ _ _ _ Hi Hh E3), Hidx, Hp. simpl.
  rewrite (netdev_eq w) by apply Hi. congruence.
Qed.

(** C2: a switch request has one of four outcomes, told apart by the
    counters.  Nothing was torn down: the same owner keeps the same instance.  The
    switch succeeded: the target is a station interface that carried the requested
    name when it was looked up (after the events that came before), its handle owns
    the bridge, and the instance forwards between that interface, in its slot, and
    the same peer device.  It failed and was rolled back: the error is reported and
    the old handle owns an instance that forwards between the wlan device it had
    before, in its old slot, and that peer.  Or the rollback failed too: -EIO,
    nobody owns the bridge and no deferred request remains. *)
Theorem switch_outcome (L : res → Z) (name : string) (allow : bool) (g : Z) (e : switch_env)
    (w w' : world) (ret : Z) :
  lc_state L w → moal_bridge_switch_iface_request name allow g e w = (ret, w') →
  let c := counters w in
  (counters w' = c ∧ owner w' = owner w ∧
   ∀ b, owner_bridge w = Some b → ∃ b', owner_bridge w' = Some b' ∧ same_inst b b') ∨
  ∃ h hd b, owner w = Some h ∧ handles w !! h = Some hd ∧ h_bridge hd = Some b ∧
    ((counters w' = mk_counters (switch_ok c + 1) (switch_fail c) (rollback_ok c) (rollback_fail c) ∧
      ret = 0 ∧ ∃ t d, good_target (world_events (owner w) (se_events1 e ++ se_events2 e) w) name t ∧
        t_dev t = Some d ∧ owner w' = Some (t_handle t) ∧ bound_to w' (t_handle t) (t_idx t) d (peer_dev b)) ∨
     (counters w' = mk_counters (switch_ok c) (switch_fail c + 1) (rollback_ok c + 1) (rollback_fail c) ∧
      ret ≠ 0 ∧ owner w' = owner w ∧ bound_to w' h (effective_idx hd) (wlan_dev b) (peer_dev b)) ∨
     (counters w' = mk_counters (switch_ok c) (switch_fail c + 1) (rollback_ok c) (rollback_fail c + 1) ∧
      ret = - EIO ∧ owner w' = None ∧ pstate (pend w') = MOAL_BR_PENDING_NONE)).
Proof.
  intros I. unfold moal_bridge_switch_iface_request.
  destruct (switch_prepare name allow g e w) as [plan w1] eqn:Ep.
  destruct (prepare_outcome _ _ _ _ _ _ _ _ I Ep) as (Hc & Ho & (es & Hes) & Hp).
  pose proof (prepare_inv _ _ _ _ _ _ _ _ I Ep) as Hpi.
  destruct plan as [r|old t [[pn pg] pst]].
  { intros [= <- <-]. left. do 2 (split; [done|]). intros b. by apply (owner_events_keep L es). }
  destruct Hp as (Hold & Hif & Hft & hd & b & Hhd & Hb & Hpeer & Hidx), Hpi as [I1 _].
  apply find_target_sound in Hft as (_ & _ & Hgood & _).
  destruct (deinit_keeps _ _ (se_deinit e) _ I1) as [Hc2 _].
  pose proof (deinit_ifaces _ _ (se_deinit e) _ I1) as Hif2.
  apply (deinit_inv _ _ (se_deinit e)) in I1.
  assert (I2 : lc_inv (plus L (RRef (snap_peer_dev old))) None
                 (set_owner None (moal_bridge_deinit_locked (old_owner old) (se_deinit e) w1)))
    by (by apply (lc_inv_frame _ _ _ _ I1)).
  assert (Hc3 : counters (set_owner None (moal_bridge_deinit_locked (old_owner old) (se_deinit e) w1)) = counters w)
    by (transitivity (counters w1); done).
  assert (Hif3 : same_ifaces w (set_owner None (moal_bridge_deinit_locked (old_owner old) (se_deinit e) w1)))
    by (transitivity w1; done).
  set (w2 := set_owner None _) in *. clearbody w2. clear I1 Hc2 Ep Hes Hif Hif2.
  destruct (switch_bind t old (se_target e) w2) as [r3 w3] eqn:Eb.
  destruct (bind_outcome _ _ _ _ _ _ _ I2 Eb) as (Hc4 & _ & Hif4 & Hb4). rewrite Hc3 in Hc4.
  intros Hret. right. exists (old_owner old), hd, b. split_and!; [done..|].
  destruct (Z.eqb_spec r3 0) as [->|Hr3].
  - left. destruct (Hb4 eq_refl) as (d & Hd & Hbd). rewrite Hpeer in *.
    injection Hret as <- <-. rewrite <- Hc4.
    destruct ((g =? 0) && bool_decide (pst ≠ MOAL_BR_PENDING_NONE)); split_and!; try done;
      by (exists t, d; split_and!; [done|done|done|exact Hbd]).
  - right. destruct (bind_inv _ _ _ _ _ _ _ I2 Eb) as [(_ & I3)|(? & _)]; [|done].
    unfold switch_rollback in Hret.
    destruct (switch_bind (rollback_target old w3) old (se_rollback e) w3) as [rb w4] eqn:Er.
    destruct (bind_outcome _ _ _ _ _ _ _ I3 Er) as (Hc5 & _ & _ & Hb5). rewrite Hc4 in Hc5.
    destruct (Z.eqb_spec rb 0) as [->|Hrb]; injection Hret as <- <-.
    + left. destruct (Hb5 eq_refl) as (d & Hd & Hbd).
      apply (rollback_target_dev L w w3 old hd b d) in Hd as ->; [|done..|by transitivity w2].
      rewrite <- Hpeer, <- Hidx. split_and!; [|done| |exact Hbd].
      * simpl. rewrite Hc5. by rewrite Z.add_0_r.
      * simpl. done.
    + right. split_and!; try done.
      * simpl. rewrite Hc5. by rewrite Z.add_0_r.
      * simpl. apply cancel_all_none.
Qed.

(** *** Suspension *)

(** What a suspension that took the bridge saved. *)
Lemma suspend_saves x c de h hd b w w1 :
  suspended w = None → owner w = Some h → handles w !! h = Some hd → h_bridge hd = Some b → inst_wf b →
  moal_bridge_suspend_owner x c de w = (0, w1) → owner w1 = None →
  suspended w1 = Some (mk_suspended h (peer_dev b) (effective_idx hd) (keepalive_ms b) (keepalive_idle_ms b)) ∧
  handles w1 !! h = Some (set_effective_idx (-1) (set_h_bridge None hd)).
Proof.
  intros Hs Ho Hh Hb Hwf. unfold moal_bridge_suspend_owner.
  rewrite Hs, Ho, (owner_bridge_eq w h Ho), Hh. cbn [mbind option_bind from_option]. rewrite Hb.
  destruct (negb (expected_ok w h x c)); [intros [= <-]; congruence|].
  destruct (peer_released b || negb (nd_registered (dev_at w (peer_dev b)))); [done|].
  set (s := mk_suspended h (peer_dev b) (effective_idx hd) (keepalive_ms b) (keepalive_idle_ms b)).
  set (w0 := set_suspended (Some s) (bump (RRef (peer_dev b)) 1 w)).
  destruct (deinit_locked_spec h hd b de w0 Hh Hb Hwf) as [_ (_ & _ & Hhs & _ & Hsu & _)].
  intros [= <-] _. split; [exact Hsu|].
  change (handles (moal_bridge_deinit_locked h de w0) !! h = Some (set_effective_idx (-1) (set_h_bridge None hd))).
  rewrite Hhs. change (handles (store_idx h (-1) (store_bridge h None w0)) !! h =
    Some (set_effective_idx (-1) (set_h_bridge None hd))).
  rewrite lookup_store, decide_True by done.
  change (handles w0) with (handles w). by rewrite Hh.
Qed.

(** a suspension followed by a successful resumption gives the bridge
    back to the same handle, on the same BSS slot, the very same peer device
    (also if it was renamed meanwhile) and the keepalive policy the suspended
    instance was running with, whatever the configured one is. *)
Theorem suspend_resume_same_binding (L : res → Z) (x y : option Z) (c c' : bool) (de : deinit_env)
    (ie : init_env) (es : list kev) (h : Z) (hd : moal_handle) (b : moal_bridge_inst) (w w1 w' : world) :
  lc_state L w → suspended w = None → owner w = Some h → handles w !! h = Some hd → h_bridge hd = Some b →
  moal_bridge_suspend_owner x c de w = (0, w1) → owner w1 = None →
  moal_bridge_resume_owner y c' ie (world_events None es w1) = (0, w') →
  owner w' = Some h ∧ suspended w' = None ∧
  ∃ b', owner_bridge w' = Some b' ∧ peer_dev b' = peer_dev b ∧
    h_priv hd !! Z.to_nat (effective_idx hd) = Some (Some (wlan_priv b')) ∧
    keepalive_ms b' = keepalive_ms b ∧ keepalive_idle_ms b' = keepalive_idle_ms b.
Proof.
  intros I Hs Ho Hh Hb Hsus Ho1.
  assert (Hwf : inst_wf b).
  { unfold lc_state in I. rewrite Ho in I. destruct (li_bound _ _ _ I) as (hd' & b' & ? & ? & ? & _). congruence. }
  destruct (suspend_saves _ _ _ _ _ _ _ _ Hs Ho Hh Hb Hwf Hsus Ho1) as [Hs1 Hh1].
  destruct (world_events_none es w1) as (_ & Hwo & Hwh & _ & Hws & _).
  set (w2 := world_events None es w1) in *. clearbody w2.
  unfold moal_bridge_resume_owner. rewrite Hws, Hs1. cbn [s_handle s_peer_dev s_wlan_bss_idx s_keepalive_ms s_keepalive_idle_ms].
  destruct (negb (expected_ok w2 h y c')); [done|].
  destruct (moal_bridge_init_locked _ _ _ _ _ _ _ _) as [r w3] eqn:E.
  destruct (init_locked_spec _ _ _ _ _ _ _ _ _ _ E) as [(Hr & _)|(-> & b' & Hd)].
  { rewrite (proj2 (Z.eqb_neq r 0)) by done. by intros [= ? <-]. }
  cbn [Z.eqb]. intros [= <-].
  destruct Hd as (_ & _ & Hms & Hid & _ & _ & Hhs & _ & Hsu & _ & _ & _ & _ & _ & _ &
    (hd2 & Hhd2 & _ & Hp & _) & Hpid & _).
  cbn [handles set_suspended] in Hhd2. rewrite Hwh, Hh1 in Hhd2. simplify_eq.
  split_and!; [done|done|]. exists b'. split_and!; [|by apply Hpid|exact Hp|done|done].
  rewrite (owner_bridge_eq _ h) by done.
  change (handles w3 !! h ≫= h_bridge = Some b'). rewrite Hhs.
  rewrite lookup_store, decide_True by done.
  change (handles (set_suspended None w2)) with (handles w2). by rewrite Hwh, Hh1.
Qed.

(** *** Removal of a handle *)

(** after a handle is forgotten it neither owns the bridge nor is the
    saved owner, and it has no instance; whoever else owns the bridge keeps it,
    and another handle's saved identity is kept. *)
Theorem forget_handle_drops (L : res → Z) (h : Z) (e : deinit_env) (w : world) :
  lc_state L w → is_Some (handles w !! h) →
  let w' := moal_bridge_forget_handle h e w in
  owner w' ≠ Some h ∧ s_handle <$> suspended w' ≠ Some h ∧ (handles w' !! h ≫= h_bridge) = None ∧
  (owner w ≠ Some h → owner w' = owner w) ∧
  (s_handle <$> suspended w ≠ Some h → suspended w' = suspended w).
Proof.
  intros I [hd Hh] w'. pose proof (forget_inv L h e w I) as I'. fold w' in I'.
  assert (H : owner w' ≠ Some h ∧ s_handle <$> suspended w' ≠ Some h ∧
    (owner w ≠ Some h → owner w' = owner w) ∧
    (s_handle <$> suspended w ≠ Some h → suspended w' = suspended w)).
  { clear I'. unfold w', moal_bridge_forget_handle. rewrite Hh. clear w'.
    assert (I1 : lc_state L (pending_invalidate_handle h w)) by by apply invalidate_inv.
    assert (Ho1 : owner (pending_invalidate_handle h w) = owner w) by (unfold pending_invalidate_handle; by case_match).
    assert (Hs1 : suspended (pending_invalidate_handle h w) = suspended w)
      by (unfold pending_invalidate_handle; by case_match).
    rewrite <- Ho1, <- Hs1. set (w1 := pending_invalidate_handle h w) in *. clearbody w1. clear I Ho1 Hs1.
    set (lost := bool_decide (owner w1 = Some h) || _). clearbody lost.
    set (w2 := if lost then _ else w1).
    assert (I2 : lc_state L w2) by (subst w2; destruct lost; [by apply lc_state_pend|done]).
    assert (Ho2 : owner w2 = owner w1) by by destruct lost.
    assert (Hs2 : suspended w2 = suspended w1) by by destruct lost.
    clearbody w2. rewrite <- Ho2, <- Hs2. clear I1 Ho2 Hs2.
    set (w3 := if bool_decide (owner w2 = Some h) then _ else w2).
    assert (H3 : owner w3 ≠ Some h ∧ (owner w2 ≠ Some h → owner w3 = owner w2) ∧ suspended w3 = suspended w2).
    { subst w3. case_bool_decide as Ho; [|done]. split_and!; [done|done|].
      unfold lc_state in I2. rewrite Ho in I2. destruct (li_bound _ _ _ I2) as (hd2 & b2 & Hh2 & Hb2 & Hwf2 & _).
      destruct (deinit_locked_spec h hd2 b2 e w2 Hh2 Hb2 Hwf2) as [_ (_ & _ & _ & _ & Hsu & _)]. exact Hsu. }
    clearbody w3. destruct H3 as (Hne & Hkeep & Hs3). rewrite <- Hs3.
    destruct (suspended w3) as [s|] eqn:Es; [|rewrite Es; by split_and!].
    case_bool_decide as Hsh; simpl; [|rewrite Es; split_and!; [done|by intros [= ?]|done|done]].
    split_and!; [done|done|done|]. intros Hc. by rewrite Hsh in Hc. }
  destruct H as (H1 & H2 & H3 & H4). split_and!; [done..| |done|done].
  destruct (handles w' !! h) as [hd'|] eqn:E; [|done]. exact (li_others _ _ _ I' h hd' E H1).
Qed.

(** *** The deferred attempt as a whole *)

Section pend_preserved.
(** A property of the request that netdevice events preserve. *)
Context (P : pending → Prop)
  (Hev : ∀ d ev dev pub rs p, P p → P (moal_bridge_pending_schedule_event d ev dev pub rs p)).

Lemma status_pend ev d dv w : P (pend w) → P (pend (kernel_status ev d dv w)).
Proof.
  intros Hp. unfold kernel_status. cbn [pend set_pend set_devs deferred].
  unfold moal_bridge_pending_netdev_event. destruct (is_identity_event ev); [by apply Hev|done].
Qed.

Lemma netdev_pend ev d w b : P (pend w) → P (pend (moal_bridge_netdev_event ev d (w, b)).1).
Proof.
  intros Hp. unfold moal_bridge_netdev_event.
  assert (Hf : P (pend (forward_readiness ev d b w))).
  { unfold forward_readiness. case_match; [by apply Hev|done]. }
  set (w1 := forward_readiness ev d b w) in *. clearbody w1.
  case_match; [done|]. destruct ev; simpl; try done;
    unfold netdev_up, netdev_down, netdev_changename, netdev_unregister, release_capture;
    repeat (case_match; simpl); done.
Qed.

Lemma kev_pend e w b : P (pend w) → P (pend (kev_inst e (w, b)).1).
Proof.
  intros Hp. destruct e as [ev d dv|ev d|p c|n m| |]; simpl.
  - by apply netdev_pend, status_pend.
  - by apply netdev_pend.
  - done.
  - by case_match.
  - unfold flush_release_work. by case_match.
  - by case_match.
Qed.
Lemma kevs_pend es w b : P (pend w) → P (pend (kevs_inst es (w, b)).1).
Proof.
  revert w b; induction es as [|e es IH]; intros w b Hp; [done|].
  change (P (pend (kevs_inst es (kev_inst e (w, b))).1)). pose proof (kev_pend e w b Hp) as H1.
  destruct (kev_inst e (w, b)) as [w1 b1]. exact (IH w1 b1 H1).
Qed.

Lemma world_event_pend bound e w : P (pend w) → P (pend (world_event bound e w)).
Proof.
  intros Hp. assert (Hk : P (pend match e with KStatus ev d dv => kernel_status ev d dv w
    | KMedia p c => kernel_media p c w | _ => w end)) by (destruct e; try done; by apply status_pend).
  unfold world_event. destruct bound as [h|]; [|done].
  destruct (handles w !! h ≫= h_bridge) as [b|]; [|done].
  pose proof (kev_pend e w b Hp) as H1. by destruct (kev_inst e (w, b)).
Qed.
Lemma world_events_pend bound es w : P (pend w) → P (pend (world_events bound es w)).
Proof.
  revert w; induction es as [|e es IH]; intros w Hp; [done|].
  exact (IH _ (world_event_pend bound e w Hp)).
Qed.

Lemma unwind_capture_pend wb : pend (unwind_capture wb) = pend wb.1.
Proof.
  destruct wb as [w b]. unfold unwind_capture, flush_release_work, release_capture.
  destruct (peer_released b) eqn:E1, (use_packet_type b) eqn:E2, (release_work b) eqn:E3;
    repeat (simpl; rewrite ?E1, ?E2, ?E3); done.
Qed.

Lemma init_pend h nm pid idx ms idle e w : P (pend w) →
  P (pend (moal_bridge_init_locked h nm pid idx ms idle e w).2).
Proof.
  intros Hp. unfold moal_bridge_init_locked. destruct (handles w !! h) as [hd|]; [|done].
  destruct (init_open h hd nm pid idx ms idle e w) as [[err|b] w1] eqn:E1.
  { cbn [snd]. by apply init_open_spec in E1 as (_ & _ & _ & _ & ->). }
  apply init_open_spec in E1 as (_ & _ & Hwf & Hq & _ & Hrel & Hu & _ & _ & Hpe & _).
  rewrite <- Hpe in Hp. destruct (init_capture e (w1, b)) as [w2 b2] eqn:E2.
  destruct (init_capture_spec e w1 b w2 b2 Hwf Hq Hrel Hu E2) as (Hwf2 & Hq2 & _ & _ & Hpe2 & _).
  rewrite <- Hpe2 in Hp. unfold init_notify.
  assert (H3 := kevs_pend (ie_nb_events e) w2 b2 Hp).
  destruct (kevs_inst (ie_nb_events e) (w2, b2)) as [w3 b3].
  destruct (negb (ie_nb_err e =? 0)); [cbn [snd]; by rewrite unwind_capture_pend|].
  assert (H4 := kevs_pend (ie_inet_events e) (bump RNetdevNb 1 w3) b3 H3).
  destruct (kevs_inst (ie_inet_events e) (bump RNetdevNb 1 w3, b3)) as [w4 b4].
  destruct (negb (ie_inet_err e =? 0)).
  { cbn [snd init_unwind]. rewrite unwind_capture_pend.
    assert (H5 := kevs_pend (ie_unreg_events e) w4 (set_br_active false b4) H4).
    by destruct (kevs_inst (ie_unreg_events e) (w4, set_br_active false b4)). }
  assert (H5 := kevs_pend (ie_final_events e) (bump RInetNb 1 w4) b4 H4).
  destruct (kevs_inst (ie_final_events e) (bump RInetNb 1 w4, b4)) as [w5 b5].
  destruct (_ || negb (nd_present (dev_at w5 (wlan_dev b5)))).
  - cbn [snd init_unwind]. rewrite unwind_capture_pend.
    assert (H6 := kevs_pend (ie_unreg_events e) (bump RInetNb (-1) w5) (set_br_active false b5) H5).
    by destruct (kevs_inst (ie_unreg_events e) (bump RInetNb (-1) w5, set_br_active false b5)).
  - cbn [snd]. unfold init_publish, init_keepalive, moal_bridge_sysfs_init.
    repeat (case_match; simpl); by simplify_eq/=.
Qed.

Lemma deinit_pend h e w : P (pend w) → P (pend (moal_bridge_deinit_locked h e w)).
Proof.
  intros Hp. unfold moal_bridge_deinit_locked. destruct (handles w !! h ≫= h_bridge) as [b|]; [|done].
  unfold deinit_quiesce, hrtimer_cancel.
  set (w0 := bump RTimer _ (moal_bridge_sysfs_deinit w)). set (b0 := set_timer false _).
  assert (H1 := kevs_pend (de_events e) w0 b0 Hp).
  destruct (kevs_inst (de_events e) (w0, b0)) as [w1 b1].
  assert (H2 := kevs_pend (de_replay e) (bump RInetNb (-1) w1) b1 H1).
  destruct (kevs_inst (de_replay e) (bump RInetNb (-1) w1, b1)) as [w2 b2].
  cbn [fst] in H2. unfold flush_release_work, deinit_free, release_capture, hrtimer_cancel.
  repeat (case_match; simpl); by simplify_eq/=.
Qed.
End pend_preserved.

(** A request that is being switched is the given one. *)
Definition only_switching (name : string) (g : Z) (p : pending) : Prop :=
  pstate p = MOAL_BR_PENDING_SWITCHING → p_ifname p = name ∧ generation p = g.

Lemma only_switching_clear name g n k p :
  only_switching name g p → only_switching name g (moal_bridge_pending_clear_if n k p).2.
Proof.
  intros H. destruct (moal_bridge_pending_clear_if n k p) as [c p'] eqn:E.
  by destruct (clear_if_spec _ _ _ _ _ E) as [(_ & -> & _)|(_ & -> & _)].
Qed.
Lemma only_switching_event name g d ev dev pub rs p :
  only_switching name g p → only_switching name g (moal_bridge_pending_schedule_event d ev dev pub rs p).
Proof.
  intros H. unfold moal_bridge_pending_schedule_event, readiness_event, identity_snapshot.
  repeat (case_match; try done); try by apply only_switching_clear.
  all: unfold only_switching in *; simpl in *; naive_solver.
Qed.
Lemma only_switching_kick name g d p :
  only_switching name g p → only_switching name g (moal_bridge_pending_kick d p).
Proof. unfold moal_bridge_pending_kick. intros H. by case_match. Qed.
Lemma only_switching_cancel name g p :
  only_switching name g p → only_switching name g (moal_bridge_pending_cancel_all p).
Proof. unfold moal_bridge_pending_cancel_all. intros H. by case_match. Qed.
Lemma only_switching_restore name g d n k p :
  only_switching name g p → only_switching name g (moal_bridge_pending_restore_waiting d n k p).2.
Proof.
  intros H. destruct (moal_bridge_pending_restore_waiting d n k p) as [c p'] eqn:E.
  by destruct (restore_waiting_spec _ _ _ _ _ _ E) as [(_ & _ & _ & _ & ->)|(_ & -> & _)].
Qed.
Lemma only_switching_defer name g n same allow ret w r w' :
  only_switching name g (pend w) → switch_defer n same allow ret w = (r, w') → only_switching name g (pend w').
Proof.
  unfold switch_defer, moal_bridge_pending_set. intros H.
  repeat case_match; intros [= <- <-]; simplify_eq/=; done.
Qed.

Lemma bind_pend name g t old e w ret w' :
  only_switching name g (pend w) → switch_bind t old e w = (ret, w') → only_switching name g (pend w').
Proof.
  intros H. unfold switch_bind. set (Hev := only_switching_event name g).
  apply (world_events_pend _ Hev None (be_gap e)) in H.
  apply (init_pend _ Hev (t_handle t) (snap_peer old) (Some (snap_peer_dev old)) (t_idx t)
    (snap_keepalive_ms old) (snap_keepalive_idle_ms old) (be_init e)) in H.
  destruct (moal_bridge_init_locked _ _ _ _ _ _ _ _) as [r1 w1]. cbn [snd] in H.
  destruct (negb (r1 =? 0)); [by intros [= <- <-]|].
  apply (world_events_pend _ Hev (Some (t_handle t)) (be_events e)) in H.
  destruct (negb (moal_bridge_validate_binding_locked _ t (snap_peer_dev old) =? 0)); intros Heq.
  - apply (f_equal snd) in Heq. cbn [snd] in Heq. subst w'. by apply (deinit_pend _ Hev).
  - apply (f_equal snd) in Heq. cbn [snd] in Heq. by subst w'.
Qed.

Lemma resolve_pend name g n allow k h b snap w plan w' :
  only_switching name g (pend w) → switch_resolve n allow k h b snap w = (plan, w') →
  only_switching name g (pend w').
Proof.
  intros H. unfold switch_resolve.
  destruct (if String.eqb (nd_name (dev_at w (wlan_dev b))) n && _ && _ then _ else (false, pend w))
    as [cleared p] eqn:E.
  assert (Hp : only_switching name g p).
  { revert E. case_match; intros E; [|by injection E as <- <-].
    pose proof (only_switching_clear name g snap.1.1 snap.1.2 _ H) as Hc. by rewrite E in Hc. }
  clear E. destruct cleared; [intros Heq; by apply (f_equal snd) in Heq; simplify_eq/=|].
  destruct (moal_bridge_find_target w n) as [r|t]; [intros Heq; by apply (f_equal snd) in Heq; simplify_eq/=|].
  destruct (String.eqb (nd_name (dev_at w (wlan_dev b))) n && (negb (t_handle t =? h) || _)); [intros Heq; by apply (f_equal snd) in Heq; simplify_eq/=|].
  destruct (_ || negb (dev_ready w (peer_dev b))); [intros Heq; by apply (f_equal snd) in Heq; simplify_eq/=|].
  destruct (negb (moal_bridge_target_link_status w t =? 0)).
  - destruct (switch_defer _ _ _ _ _) as [r w1] eqn:Ed. intros Heq. apply (only_switching_defer name g) in Ed; [|done].
    by apply (f_equal snd) in Heq; simplify_eq/=.
  - case_match; intros Heq; by apply (f_equal snd) in Heq; simplify_eq/=.
Qed.

Lemma prepare_pend name g n allow k e w plan w' :
  only_switching name g (pend w) → switch_prepare n allow k e w = (plan, w') → only_switching name g (pend w').
Proof.
  intros H. unfold switch_prepare. set (Hev := only_switching_event name g).
  destruct (String.eqb n EmptyString); [by intros [= <- <-]|].
  destruct (negb (control_ready w)); [by intros [= <- <-]|].
  destruct (negb (runtime_switch w =? 1)); [by intros [= <- <-]|].
  destruct (se_sem_err e); [by intros [= <- <-]|].
  destruct (negb (se_ready2 e)); [by intros [= <- <-]|].
  destruct (negb (k =? 0) && negb (moal_bridge_pending_matches n k (pend w))); [by intros [= <- <-]|].
  apply (world_events_pend _ Hev (owner w) (se_events1 e)) in H.
  set (w1 := world_events (owner w) (se_events1 e) w) in *. clearbody w1.
  destruct (owner_bridge w1); [|by intros [= <- <-]].
  apply (world_events_pend _ Hev (owner w1) (se_events2 e)) in H.
  set (w2 := world_events (owner w1) (se_events2 e) w1) in *. clearbody w2.
  destruct (negb (k =? 0) && negb (moal_bridge_pending_matches n k (pend w2))); [by intros [= <- <-]|].
  destruct (owner w2) as [h|]; [|by intros [= <- <-]].
  destruct (owner_bridge w2) as [b|]; [|by intros [= <- <-]].
  by apply resolve_pend.
Qed.

Lemma rollback_pend name g n k tr old e w ret w' :
  only_switching name g (pend w) → switch_rollback n k tr old e w = (ret, w') → only_switching name g (pend w').
Proof.
  intros H. unfold switch_rollback.
  destruct (switch_bind _ _ _ _) as [rb w1] eqn:E1. apply (bind_pend _ _ _ _ _ _ _ _ H) in E1.
  destruct (rb =? 0); intros Heq; apply (f_equal snd) in Heq; cbn [snd] in Heq; subst w'; simpl.
  - case_match; [by apply only_switching_restore|by apply only_switching_kick].
  - by apply only_switching_cancel.
Qed.

(** The attempt keeps the request: if it is still being switched afterwards, it
    is the one the attempt was made for. *)
Lemma request_pend name g n allow k e w ret w' :
  only_switching name g (pend w) → moal_bridge_switch_iface_request n allow k e w = (ret, w') →
  only_switching name g (pend w').
Proof.
  intros H. unfold moal_bridge_switch_iface_request.
  destruct (switch_prepare n allow k e w) as [plan w1] eqn:Ep. apply (prepare_pend _ _ _ _ _ _ _ _ _ H) in Ep.
  destruct plan as [r|old t [[pn pg] pst]]; [by intros [= <- <-]|].
  apply (deinit_pend _ (only_switching_event name g) (old_owner old) (se_deinit e)) in Ep.
  destruct (switch_bind t old (se_target e) _) as [r3 w3] eqn:Eb.
  apply (bind_pend name g) in Eb; [|exact Ep].
  destruct (r3 =? 0).
  - intros Heq. apply (f_equal snd) in Heq. cbn [snd] in Heq. subst w'.
    case_match; simpl; [by apply only_switching_clear|done].
  - destruct (switch_rollback n k r3 old e w3) as [r4 w4] eqn:Er. intros [= <- <-].
    simpl. by apply (rollback_pend _ _ _ _ _ _ _ _ _ _ Eb) in Er.
Qed.

(** The end of the work function never leaves its request in SWITCHING. *)
Lemma work_finish_settles d name g ret p :
  copy_name name = name → only_switching name g p →
  pstate (work_finish d name g ret p).2 ≠ MOAL_BR_PENDING_SWITCHING.
Proof.
  intros Hn H. unfold work_finish. cbn [Nat.iter nat_rect fst snd moal_bridge_pending_work_fn].
  destruct (moal_bridge_pending_matches name g p) eqn:Em; cbn [negb].
  2: { cbn [fst snd moal_bridge_pending_work_fn]. intros Hs. destruct (H Hs) as [Hi Hg].
       apply not_true_iff_false in Em. apply Em, matches_spec. by rewrite Hs. }
  apply matches_spec in Em as (Hne & Hg & Hi).
  assert (Hclear : pstate (moal_bridge_pending_clear_if name g p).2 = MOAL_BR_PENDING_NONE).
  { destruct (moal_bridge_pending_clear_if name g p) as [c p'] eqn:E.
    destruct (clear_if_spec _ _ _ _ _ E) as [(_ & -> & _)|(_ & _ & Hno)]; [done|]. by destruct Hno as [?|[?|?]]. }
  assert (Hrest : pstate (moal_bridge_pending_restore_waiting d name g p).2 ≠ MOAL_BR_PENDING_SWITCHING).
  { destruct (moal_bridge_pending_restore_waiting d name g p) as [c p'] eqn:E.
    destruct (restore_waiting_spec _ _ _ _ _ _ E) as [(_ & _ & _ & _ & ->)|(_ & -> & Hno)]; [done|].
    by destruct Hno as [?|[?|?]]. }
  destruct (ret =? 0); cbn [fst snd moal_bridge_pending_work_fn]; [by rewrite Hclear|].
  unfold moal_bridge_pending_snapshot. rewrite Hi, Hn, Hg, Z.eqb_refl, String.eqb_refl. cbn [andb].
  case_bool_decide as Hw; cbn [fst snd moal_bridge_pending_work_fn]; [by rewrite Hw|].
  destruct (attempt_verdict ret); cbn [fst snd]; [by rewrite Hclear|done].
Qed.

(** one full run of the work function, with the switch transaction, its
    rollback and any netdevice events in between, never leaves a request in
    SWITCHING: whatever the switch returned, the request is gone or waiting. *)
Theorem pending_work_settles (evs1 evs2 : list kev) (e : switch_env) (w : world) :
  pstate (pend w) ≠ MOAL_BR_PENDING_SWITCHING →
  pstate (pend (run_pending_work evs1 evs2 e w)) ≠ MOAL_BR_PENDING_SWITCHING.
Proof.
  intros Hns. unfold run_pending_work. destruct (work_scheduled (pend w)); [|done].
  set (w1 := set_pend (cleanup_drain (pend w)) w).
  assert (Hns1 : pstate (pend w1) ≠ MOAL_BR_PENDING_SWITCHING) by done. clearbody w1. clear Hns.
  cbn [moal_bridge_pending_work_fn]. unfold moal_bridge_pending_snapshot.
  destruct (bool_decide (pstate (pend w1) ≠ MOAL_BR_PENDING_WAITING)); [done|].
  set (name := copy_name (p_ifname (pend w1))). set (g := generation (pend w1)).
  assert (Hev : ∀ d ev dev pub rs p, pstate p ≠ MOAL_BR_PENDING_SWITCHING →
    pstate (moal_bridge_pending_schedule_event d ev dev pub rs p) ≠ MOAL_BR_PENDING_SWITCHING).
  { intros d ev dev pub rs p Hp Hs.
    pose proof (only_switching_event "a" 0 d ev dev pub rs p ltac:(by intros ?)) as Ha.
    pose proof (only_switching_event "b" 0 d ev dev pub rs p ltac:(by intros ?)) as Hb.
    destruct (Ha Hs) as [Ha' _], (Hb Hs) as [Hb' _]. congruence. }
  pose proof (world_events_pend _ Hev (owner w1) evs1 w1 Hns1) as Hns2. cbn beta in Hns2.
  set (w2 := world_events (owner w1) evs1 w1) in *. clearbody w2.
  destruct (moal_bridge_pending_begin_attempt name g (pend w2)) as [ok p] eqn:Eb.
  assert (Hn : copy_name name = name) by apply copy_name_idem. clearbody name g.
  destruct (begin_attempt_spec _ _ _ _ _ Eb) as [(-> & -> & _ & Hg & Hi)|(-> & -> & _)]; [|done].
  set (p1 := set_event_during_switch false (set_pstate MOAL_BR_PENDING_SWITCHING (pend w2))).
  assert (H1 : only_switching name g (pend (set_pend p1 w2))) by by intros _.
  destruct (moal_bridge_switch_iface_request name false g e (set_pend p1 w2)) as [ret w3] eqn:Es.
  apply (request_pend _ _ _ _ _ _ _ _ _ H1) in Es.
  apply (world_events_pend _ (only_switching_event name g) (owner w3) evs2) in Es.
  by apply work_finish_settles.
Qed.

(** ** Concrete runs *)

Definition demo_bind_env : bind_env := mk_bind_env [] demo_init_env [] demo_deinit_env.
(** The threads of the new instance cannot be created. *)
Definition demo_fail_bind : bind_env :=
  mk_bind_env [] (mk_init_env true (- ENOMEM) 0 0 [] 0 [] 0 [] [] 0) [] demo_deinit_env.
Definition demo_switch_env (t r : bind_env) : switch_env :=
  mk_switch_env false true [] [] demo_deinit_env t r.

(** The bridge runs on mlan0; the switch to mlan1 succeeds, or fails and is
    rolled back, or fails for good. *)
Definition demo_owned : world := lc_step demo_world (OpInit 100 "eth0" 0 demo_init_env).
Definition demo_switch (e : switch_env) : Z * world := moal_bridge_switch_iface_request "mlan1" true 0 e demo_owned.

Example demo_switch_ok :
  let '(ret, w) := demo_switch (demo_switch_env demo_bind_env demo_bind_env) in
  ret = 0 ∧ (wlan_dev <$> owner_bridge w) = Some 3 ∧ switch_ok (counters w) = 1.
Proof. by vm_compute. Qed.
Example demo_switch_rollback :
  let '(ret, w) := demo_switch (demo_switch_env demo_fail_bind demo_bind_env) in
  ret = - ENOMEM ∧ (wlan_dev <$> owner_bridge w) = Some 1 ∧ rollback_ok (counters w) = 1.
Proof. by vm_compute. Qed.
Example demo_switch_lost :
  let '(ret, w) := demo_switch (demo_switch_env demo_fail_bind demo_fail_bind) in
  ret = - EIO ∧ owner w = None ∧ rollback_fail (counters w) = 1 ∧ led w (RRef 2) = 0 ∧ guard w = false.
Proof. by vm_compute. Qed.

Lemma demo_world_initial : lc_initial demo_world.
Proof.
  split_and!; try done. intros h hd Hh. unfold demo_world in Hh. cbn [handles] in Hh.
  apply lookup_insert_Some in Hh as [[_ <-]|[_ Hh]]; [done|]. by rewrite lookup_empty in Hh.
Qed.
Lemma demo_world_state : lc_state (λ _, 0) demo_world.
Proof.
  destruct demo_world_initial as (Ho & Hs & Hg & Hsy & Hh). unfold lc_state. rewrite Ho.
  constructor; [|intros h hd ? _; by apply (Hh h)|congruence|done]. by split.
Qed.
Lemma demo_owned_state : lc_state (λ _, 0) demo_owned.
Proof. apply lc_step_inv, demo_world_state. Qed.

Lemma lifecycle_balanced_witness :
  let w := foldl lc_step demo_world
             [OpInit 100 "eth0" 0 demo_init_env; OpSwitch "mlan1" (demo_switch_env demo_fail_bind demo_fail_bind)] in
  (guard w = true ↔ ∃ h, owner w = Some h) ∧
  (∀ h hd, handles w !! h = Some hd → is_Some (h_bridge hd) → owner w = Some h) ∧
  (∀ h, owner w = Some h → is_Some (handles w !! h ≫= h_bridge)) ∧
  (∀ h, sysfs_br w = Some h → owner w = Some h) ∧
  (owner w = None → suspended w = None → ∀ r, led w r = led demo_world r).
Proof. exact (lifecycle_balanced demo_world _ demo_world_initial). Defined.

Lemma switch_outcome_witness :
  let e := demo_switch_env demo_fail_bind demo_bind_env in
  let c := counters demo_owned in
  let w' := (demo_switch e).2 in
  (counters w' = c ∧ owner w' = owner demo_owned ∧
   ∀ b, owner_bridge demo_owned = Some b → ∃ b', owner_bridge w' = Some b' ∧ same_inst b b') ∨
  ∃ h hd b, owner demo_owned = Some h ∧ handles demo_owned !! h = Some hd ∧ h_bridge hd = Some b ∧
    ((counters w' = mk_counters (switch_ok c + 1) (switch_fail c) (rollback_ok c) (rollback_fail c) ∧
      (demo_switch e).1 = 0 ∧
      ∃ t d, good_target (world_events (owner demo_owned) (se_events1 e ++ se_events2 e) demo_owned) "mlan1" t ∧
        t_dev t = Some d ∧ owner w' = Some (t_handle t) ∧ bound_to w' (t_handle t) (t_idx t) d (peer_dev b)) ∨
     (counters w' = mk_counters (switch_ok c) (switch_fail c + 1) (rollback_ok c + 1) (rollback_fail c) ∧
      (demo_switch e).1 ≠ 0 ∧ owner w' = owner demo_owned ∧
      bound_to w' h (effective_idx hd) (wlan_dev b) (peer_dev b)) ∨
     (counters w' = mk_counters (switch_ok c) (switch_fail c + 1) (rollback_ok c) (rollback_fail c + 1) ∧
      (demo_switch e).1 = - EIO ∧ owner w' = None ∧ pstate (pend w') = MOAL_BR_PENDING_NONE)).
Proof.
  intros e c w'. apply (switch_outcome (λ _, 0) "mlan1" true 0 e demo_owned w' (demo_switch e).1);
    [apply demo_owned_state|]. exact (surjective_pairing (demo_switch e)).
Defined.

Lemma find_target_sound_witness :
  "mlan1"%string ≠ EmptyString ∧ Some 100 ∈ m_handle demo_world ∧
  good_target demo_world "mlan1" (mk_target 100 (Some 13) (Some 3) 1) ∧ 0 <= 1 < MLAN_MAX_BSS_NUM.
Proof. apply (find_target_sound demo_world "mlan1" (mk_target 100 (Some 13) (Some 3) 1)). by vm_compute. Defined.

Lemma forget_handle_drops_witness :
  let w' := moal_bridge_forget_handle 100 demo_deinit_env demo_owned in
  owner w' ≠ Some 100 ∧ s_handle <$> suspended w' ≠ Some 100 ∧ (handles w' !! 100 ≫= h_bridge) = None ∧
  (owner demo_owned ≠ Some 100 → owner w' = owner demo_owned) ∧
  (s_handle <$> suspended demo_owned ≠ Some 100 → suspended w' = suspended demo_owned).
Proof.
  apply (forget_handle_drops (λ _, 0) 100 demo_deinit_env demo_owned); [apply demo_owned_state|].
  apply (bool_decide_unpack (is_Some (handles demo_owned !! 100))). by vm_compute.
Defined.

(** A request for mlan1 that is waiting with its work queued. *)
Definition demo_pending : world :=
  set_pend (moal_bridge_pending_set "mlan1" (pend demo_owned)).2 demo_owned.

Lemma pending_work_settles_witness :
  pstate (pend (run_pending_work [] [] (demo_switch_env demo_fail_bind demo_bind_env) demo_pending))
  ≠ MOAL_BR_PENDING_SWITCHING.
Proof. apply pending_work_settles. by vm_compute. Defined.

(** A suspension, the rename of the peer, and the resumption. *)
Definition demo_suspend : Z * world := moal_bridge_suspend_owner None false demo_deinit_env demo_owned.
Definition demo_rename : list kev := [KStatus NETDEV_CHANGENAME 2 (demo_dev "lan0")].
Definition demo_resume : Z * world :=
  moal_bridge_resume_owner None false demo_init_env (world_events None demo_rename demo_suspend.2).
Definition demo_handle : moal_handle :=
  default (mk_handle [] 0 None 0 0 0 false false false false false None) (handles demo_owned !! 100).

Lemma pair_of {A} (x : Z * A) (r : Z) : x.1 = r → x = (r, x.2).
Proof. destruct x. simpl. by intros ->. Qed.
Lemma demo_suspend_eq : demo_suspend = (0, demo_suspend.2).
Proof. apply pair_of. by vm_compute. Qed.
Lemma demo_resume_eq : demo_resume = (0, demo_resume.2).
Proof. apply pair_of. by vm_compute. Qed.

Lemma suspend_resume_same_binding_witness :
  owner demo_resume.2 = Some 100 ∧ suspended demo_resume.2 = None ∧
  ∃ b', owner_bridge demo_resume.2 = Some b' ∧ peer_dev b' = peer_dev demo_bound ∧
    h_priv demo_handle !! Z.to_nat (effective_idx demo_handle) = Some (Some (wlan_priv b')) ∧
    keepalive_ms b' = keepalive_ms demo_bound ∧ keepalive_idle_ms b' = keepalive_idle_ms demo_bound.
Proof.
  apply (suspend_resume_same_binding (λ _, 0) None None false false demo_deinit_env demo_init_env demo_rename
    100 demo_handle demo_bound demo_owned demo_suspend.2 demo_resume.2);
    [apply demo_owned_state|by vm_compute..|exact demo_suspend_eq|by vm_compute|exact demo_resume_eq].
Defined.
