(* ===== verification/CmdQueue.v ===== *)
(** * CmdQueue: the firmware command queue of mlan

    The command nodes of src/mlan/mlan_cmdevt.c and the queues they travel
    through: a node is taken from [cmd_free_q] by [wlan_prepare_cmd], waits in
    [cmd_pending_q], [scan_pending_q] or [ext_cmd_pending_q], is the current
    command ([curr_cmd]) from the download until its response, time-out or
    cancellation, and goes back to [cmd_free_q], where the ioctl request attached
    to it is completed.

    A node is its index in the pool [cmd_pool]; a queue is the list of its nodes
    (the list operations of mlan_util.h implement lists, see [UtilList]).
    Operations return [option]: [None] is a NULL pointer or out-of-range access.
    Everything between the take and the release of the command lock is one step; so
    are, although the lock is dropped inside them, the functions of the main process
    ([wlan_exec_next_cmd] and [wlan_process_cmdresp], which use the command outstanding
    without it) and [wlan_cancel_pending_ioctl].  The other functions that cancel are
    the composition of their parts, and [CmdRun] takes the parts as operations, too.  The
    command encoders ([ops.prepare_cmd]) and the response handlers
    ([ops.process_cmdresp]) are called through function pointers and are
    arguments here; [CmdHandler] in [CmdResp] is what the queue relies on of the
    latter, with the scan handlers and the error handler as instances.  Time stamps, dumps and
    log output are left out. *)

From S2P Require Import Prelude.

(** ** Data *)

(** *** Command identifiers (mlan_hostcmd_ids.h) and constants *)

Definition HostCmd_CMD_FUNC_INIT : Z := 0x00a9.
Definition HostCmd_CMD_CFG_DATA : Z := 0x008f.
Definition HostCmd_CMD_REGION_POWER_CFG : Z := 0x0249.
Definition HostCmd_CMD_CHANNEL_TRPC_CONFIG : Z := 0x00fb.
Definition HostCmd_CMD_FUNC_SHUTDOWN : Z := 0x00aa.
Definition HostCmd_CMD_802_11_ASSOCIATE : Z := 0x0012.
Definition HostCmd_CMD_802_11_DEAUTHENTICATE : Z := 0x0024.
Definition HostCmd_CMD_802_11_DISASSOCIATE : Z := 0x0026.
Definition HostCmd_CMD_11N_ADDBA_REQ : Z := 0x00ce.
Definition HostCmd_CMD_11N_ADDBA_RSP : Z := 0x00cf.
Definition HostCmd_CMD_11N_DELBA : Z := 0x00d0.
Definition HostCmd_CMD_802_11_REMAIN_ON_CHANNEL : Z := 0x010d.
Definition HostCmd_CMD_TDLS_CONFIG : Z := 0x0100.
Definition HostCmd_CMD_TDLS_OPERATION : Z := 0x0122.
Definition HostCmd_CMD_SOFT_RESET : Z := 0x00d5.
Definition HostCmd_CMD_APCMD_SYS_RESET : Z := 0x00af.
Definition HostCmd_CMD_APCMD_BSS_START : Z := 0x00b1.
Definition HostCmd_CMD_APCMD_BSS_STOP : Z := 0x00b2.
Definition HostCmd_CMD_APCMD_STA_DEAUTH : Z := 0x00b5.
Definition HostCmd_CMD_802_11_BG_SCAN_CONFIG : Z := 0x006b.
Definition HostCmd_CMD_APCMD_ACS_SCAN : Z := 0x0224.
Definition HostCmd_CMD_802_11_SCAN : Z := 0x0006.
Definition HostCmd_CMD_802_11_SCAN_EXT : Z := 0x0107.
Definition HostCmd_CMD_SUPPLICANT_PMK : Z := 0x00c4.
Definition HostCmd_CMD_SUPPLICANT_PROFILE : Z := 0x00c5.
Definition HostCmd_CMD_FW_DUMP_EVENT : Z := 0x0125.
Definition HostCmd_CMD_802_11_HS_CFG_ENH : Z := 0x00e5.
Definition HostCmd_CMD_802_11_PS_MODE_ENH : Z := 0x00e4.
Definition HostCmd_CMD_PCIE_HOST_BUF_DETAILS : Z := 0x00fa.
Definition HostCmd_CMD_GET_HW_SPEC : Z := 0x0003.
Definition HostCmd_CMD_CHAN_REGION_CFG : Z := 0x0242.

Definition HostCmd_RET_BIT : Z := 0x8000.
Definition HostCmd_CMD_ID_MASK : Z := 0x0fff.
Definition HostCmd_ACT_GEN_SET : Z := 1.
Definition HostCmd_RESULT_OK : Z := 0.
Definition HostCmd_RESULT_PRE_ASLEEP : Z := 7.
Definition MRVDRV_NUM_OF_CMD_BUFFER : nat := 40.
Definition DBG_CMD_NUM : Z := 10.
Definition DIS_AUTO_PS : Z := 0xfe.
Definition HOST_SLEEP_CFG_CANCEL : Z := 0xffffffff.
Definition CMD_F_HOSTCMD : Z := Z.shiftl 1 0.
Definition CMD_F_CANCELED : Z := Z.shiftl 1 1.
Definition CMD_F_SCAN : Z := Z.shiftl 1 2.
Definition EXT_SCAN_DEFAULT : Z := 0.
Definition EXT_SCAN_ENHANCE : Z := 1.
Definition EXT_SCAN_CANCEL : Z := 2.
Definition SCAN_STATE_SCAN_START : Z := Z.shiftl 1 0.
Definition SCAN_STATE_EXT_SCAN : Z := Z.shiftl 1 1.
Definition SCAN_STATE_EXT_SCAN_ENH : Z := Z.shiftl 1 2.
Definition SCAN_STATE_EXT_SCAN_CANCEL : Z := Z.shiftl 1 3.
Definition SCAN_STATE_EXT_SCAN_STATUS : Z := Z.shiftl 1 9.
Definition SCAN_STATE_SCAN_COMPLETE : Z := Z.shiftl 1 10.
Definition MLAN_IOCTL_SCAN : Z := 0x00010000.
Definition MLAN_ERROR_NO_ERROR : Z := 0.
Definition MLAN_ERROR_FW_NOT_READY : Z := 1.
Definition MLAN_ERROR_FW_CMDRESP : Z := 3.
Definition MLAN_ERROR_CMD_TIMEOUT : Z := 0x80000005.
Definition MLAN_ERROR_CMD_DNLD_FAIL : Z := 0x80000006.
Definition MLAN_ERROR_CMD_CANCEL : Z := 0x80000007.
Definition MLAN_ERROR_CMD_RESP_FAIL : Z := 0x80000008.
Definition MLAN_ERROR_NO_MEM : Z := 0x8000000f.

Inductive PS_STATE := PS_STATE_AWAKE | PS_STATE_PRE_SLEEP | PS_STATE_SLEEP_CFM | PS_STATE_SLEEP.
Inductive WLAN_HARDWARE_STATUS :=
| WlanHardwareStatusReady | WlanHardwareStatusGetHwSpec | WlanHardwareStatusGetHwSpecdone
| WlanHardwareStatusInitializing | WlanHardwareStatusInitdone | WlanHardwareStatusReset
| WlanHardwareStatusClosing | WlanHardwareStatusNotReady.

#[export] Instance PS_STATE_eq_dec : EqDecision PS_STATE.
Proof. solve_decision. Defined.
#[export] Instance WLAN_HARDWARE_STATUS_eq_dec : EqDecision WLAN_HARDWARE_STATUS.
Proof. solve_decision. Defined.

(** *** Commands, nodes and the adapter *)

(** The fields of [HostCmd_DS_COMMAND] the queue reads and writes; [param0] is
    the first 32-bit word of the parameters, which holds the action of most
    commands, [psmode_enh.action] and [ext_scan.ext_scan_type].  Response buffers
    have the same layout. *)
Record cmd_body := mk_body {
  command : Z; size : Z; cseq : Z; result : Z; param0 : Z
}.

(** [psmode_enh.action], and the byte [ext_scan.ext_scan_type]. *)
Definition body_action (b : cmd_body) : Z := u16 (param0 b).
Definition body_ext_scan_type (b : cmd_body) : Z := u8 (param0 b).

(** The [mlan_buffer] that carries a command. *)
Record cmd_buf := mk_buf {
  body : cmd_body;
  data_offset : Z;
  data_len : Z
}.
Definition set_body (x : cmd_body) (r : cmd_buf) : cmd_buf :=
  mk_buf x (data_offset r) (data_len r).
Definition set_data_offset (x : Z) (r : cmd_buf) : cmd_buf :=
  mk_buf (body r) x (data_len r).
Definition set_data_len (x : Z) (r : cmd_buf) : cmd_buf :=
  mk_buf (body r) (data_offset r) x.

(** [cmd_ctrl_node]; [n_priv] is the index of the interface in [pmadapter->priv],
    [pioctl_buf] names the ioctl request. *)
Record cmd_ctrl_node := mk_node {
  n_priv : nat;
  cmd_no : Z;
  cmd_flag : Z;
  cmdbuf : option cmd_buf;
  respbuf : option cmd_body;
  pdata_buf : option nat;
  pioctl_buf : option nat
}.
Definition set_n_priv (x : nat) (r : cmd_ctrl_node) : cmd_ctrl_node :=
  mk_node x (cmd_no r) (cmd_flag r) (cmdbuf r) (respbuf r) (pdata_buf r) (pioctl_buf r).
Definition set_cmd_no (x : Z) (r : cmd_ctrl_node) : cmd_ctrl_node :=
  mk_node (n_priv r) x (cmd_flag r) (cmdbuf r) (respbuf r) (pdata_buf r) (pioctl_buf r).
Definition set_cmd_flag (x : Z) (r : cmd_ctrl_node) : cmd_ctrl_node :=
  mk_node (n_priv r) (cmd_no r) x (cmdbuf r) (respbuf r) (pdata_buf r) (pioctl_buf r).
Definition set_cmdbuf (x : option cmd_buf) (r : cmd_ctrl_node) : cmd_ctrl_node :=
  mk_node (n_priv r) (cmd_no r) (cmd_flag r) x (respbuf r) (pdata_buf r) (pioctl_buf r).
Definition set_respbuf (x : option cmd_body) (r : cmd_ctrl_node) : cmd_ctrl_node :=
  mk_node (n_priv r) (cmd_no r) (cmd_flag r) (cmdbuf r) x (pdata_buf r) (pioctl_buf r).
Definition set_pdata_buf (x : option nat) (r : cmd_ctrl_node) : cmd_ctrl_node :=
  mk_node (n_priv r) (cmd_no r) (cmd_flag r) (cmdbuf r) (respbuf r) x (pioctl_buf r).
Definition set_pioctl_buf (x : option nat) (r : cmd_ctrl_node) : cmd_ctrl_node :=
  mk_node (n_priv r) (cmd_no r) (cmd_flag r) (cmdbuf r) (respbuf r) (pdata_buf r) x.

(** [mlan_ioctl_req]. *)
Record mlan_ioctl_req := mk_ioctl { req_id : Z; io_bss_index : nat; status_code : Z }.
Definition set_status_code (x : Z) (r : mlan_ioctl_req) : mlan_ioctl_req :=
  mk_ioctl (req_id r) (io_bss_index r) x.

(** The fields of [mlan_private] the queue reads. *)
Record mlan_private := mk_priv {
  bss_index : nat; bss_num : Z; bss_type : Z; infra : bool; media_connected : bool;
  bss_virtual : bool; bss_dfs : bool
}.

(** What the queue asks of the moal and bus layers. *)
Inductive cmd_event :=
| IoctlComplete (r : nat) (st : mlan_status) (code : Z)  (** moal_ioctl_complete *)
| StartTimer (ms : Z) | StopTimer                        (** pmlan_cmd_timer *)
| ToCard (i : nat) (cmd seq len : Z)                     (** ops.host_to_card *)
| RespComplete                                           (** ops.cmdrsp_complete *)
| RecvEvent (id : Z)                                     (** wlan_recv_event *)
| CleanTxRx                                              (** wlan_clean_txrx *)
| InitFwComplete.                                        (** wlan_init_fw_complete *)

Definition MLAN_EVENT_ID_DRV_DEFER_HANDLING : Z := 0x80000002.
Definition MLAN_EVENT_ID_DRV_SCAN_REPORT : Z := 0x80000009.
Definition MLAN_EVENT_ID_DRV_DBG_DUMP : Z := 0x80000012.
Definition MLAN_EVENT_ID_DRV_RGPWR_KEY_MISMATCH : Z := 0x80000037.
Definition MLAN_EVENT_ID_DRV_HS_ACTIVATED : Z := 0x80000003.
Definition MLAN_EVENT_ID_DRV_HS_DEACTIVATED : Z := 0x80000004.

(** The part of [mlan_adapter] the queue uses, and the record of its calls. *)
Record mlan_adapter := mk_adapter {
  usb : bool;
  intf_header_len : Z;
  privs : list (option mlan_private);
  nodes : list cmd_ctrl_node;
  cmd_free_q : list nat;
  cmd_pending_q : list nat;
  scan_pending_q : list nat;
  ext_cmd_pending_q : list nat;
  curr_cmd : option nat;
  ioctls : gmap nat mlan_ioctl_req;
  pscan_ioctl_req : option nat;
  pwarm_reset_ioctl_req : option nat;
  scan_processing : bool;
  ext_scan_type : Z;
  ext_scan : bool;
  ext_scan_enh : bool;
  ext_scan_timeout : bool;
  scan_state : Z;
  ps_state : PS_STATE;
  hw_status : WLAN_HARDWARE_STATUS;
  surprise_removed : bool;
  cmd_timer_is_set : bool;
  cmd_resp_received : bool;
  num_cmd_timeout : Z;
  num_no_cmd_node : Z;
  num_cmd_host_to_card_failure : Z;
  seq_num : Z;
  last_cmd_index : Z;
  last_init_cmd : Z;
  hs_activated : bool;
  is_hs_configured : bool;
  hs_conditions : Z;
  evs : list cmd_event
}.
Definition set_usb (x : bool) (r : mlan_adapter) : mlan_adapter :=
  mk_adapter x (intf_header_len r) (privs r) (nodes r) (cmd_free_q r) (cmd_pending_q r) (scan_pending_q r) (ext_cmd_pending_q r) (curr_cmd r) (ioctls r) (pscan_ioctl_req r) (pwarm_reset_ioctl_req r) (scan_processing r) (ext_scan_type r) (ext_scan r) (ext_scan_enh r) (ext_scan_timeout r) (scan_state r) (ps_state r) (hw_status r) (surprise_removed r) (cmd_timer_is_set r) (cmd_resp_received r) (num_cmd_timeout r) (num_no_cmd_node r) (num_cmd_host_to_card_failure r) (seq_num r) (last_cmd_index r) (last_init_cmd r) (hs_activated r) (is_hs_configured r) (hs_conditions r) (evs r).
Definition set_intf_header_len (x : Z) (r : mlan_adapter) : mlan_adapter :=
  mk_adapter (usb r) x (privs r) (nodes r) (cmd_free_q r) (cmd_pending_q r) (scan_pending_q r) (ext_cmd_pending_q r) (curr_cmd r) (ioctls r) (pscan_ioctl_req r) (pwarm_reset_ioctl_req r) (scan_processing r) (ext_scan_type r) (ext_scan r) (ext_scan_enh r) (ext_scan_timeout r) (scan_state r) (ps_state r) (hw_status r) (surprise_removed r) (cmd_timer_is_set r) (cmd_resp_received r) (num_cmd_timeout r) (num_no_cmd_node r) (num_cmd_host_to_card_failure r) (seq_num r) (last_cmd_index r) (last_init_cmd r) (hs_activated r) (is_hs_configured r) (hs_conditions r) (evs r).
Definition set_privs (x : list (option mlan_private)) (r : mlan_adapter) : mlan_adapter :=
  mk_adapter (usb r) (intf_header_len r) x (nodes r) (cmd_free_q r) (cmd_pending_q r) (scan_pending_q r) (ext_cmd_pending_q r) (curr_cmd r) (ioctls r) (pscan_ioctl_req r) (pwarm_reset_ioctl_req r) (scan_processing r) (ext_scan_type r) (ext_scan r) (ext_scan_enh r) (ext_scan_timeout r) (scan_state r) (ps_state r) (hw_status r) (surprise_removed r) (cmd_timer_is_set r) (cmd_resp_received r) (num_cmd_timeout r) (num_no_cmd_node r) (num_cmd_host_to_card_failure r) (seq_num r) (last_cmd_index r) (last_init_cmd r) (hs_activated r) (is_hs_configured r) (hs_conditions r) (evs r).
Definition set_nodes (x : list cmd_ctrl_node) (r : mlan_adapter) : mlan_adapter :=
  mk_adapter (usb r) (intf_header_len r) (privs r) x (cmd_free_q r) (cmd_pending_q r) (scan_pending_q r) (ext_cmd_pending_q r) (curr_cmd r) (ioctls r) (pscan_ioctl_req r) (pwarm_reset_ioctl_req r) (scan_processing r) (ext_scan_type r) (ext_scan r) (ext_scan_enh r) (ext_scan_timeout r) (scan_state r) (ps_state r) (hw_status r) (surprise_removed r) (cmd_timer_is_set r) (cmd_resp_received r) (num_cmd_timeout r) (num_no_cmd_node r) (num_cmd_host_to_card_failure r) (seq_num r) (last_cmd_index r) (last_init_cmd r) (hs_activated r) (is_hs_configured r) (hs_conditions r) (evs r).
Definition set_cmd_free_q (x : list nat) (r : mlan_adapter) : mlan_adapter :=
  mk_adapter (usb r) (intf_header_len r) (privs r) (nodes r) x (cmd_pending_q r) (scan_pending_q r) (ext_cmd_pending_q r) (curr_cmd r) (ioctls r) (pscan_ioctl_req r) (pwarm_reset_ioctl_req r) (scan_processing r) (ext_scan_type r) (ext_scan r) (ext_scan_enh r) (ext_scan_timeout r) (scan_state r) (ps_state r) (hw_status r) (surprise_removed r) (cmd_timer_is_set r) (cmd_resp_received r) (num_cmd_timeout r) (num_no_cmd_node r) (num_cmd_host_to_card_failure r) (seq_num r) (last_cmd_index r) (last_init_cmd r) (hs_activated r) (is_hs_configured r) (hs_conditions r) (evs r).
Definition set_cmd_pending_q (x : list nat) (r : mlan_adapter) : mlan_adapter :=
  mk_adapter (usb r) (intf_header_len r) (privs r) (nodes r) (cmd_free_q r) x (scan_pending_q r) (ext_cmd_pending_q r) (curr_cmd r) (ioctls r) (pscan_ioctl_req r) (pwarm_reset_ioctl_req r) (scan_processing r) (ext_scan_type r) (ext_scan r) (ext_scan_enh r) (ext_scan_timeout r) (scan_state r) (ps_state r) (hw_status r) (surprise_removed r) (cmd_timer_is_set r) (cmd_resp_received r) (num_cmd_timeout r) (num_no_cmd_node r) (num_cmd_host_to_card_failure r) (seq_num r) (last_cmd_index r) (last_init_cmd r) (hs_activated r) (is_hs_configured r) (hs_conditions r) (evs r).
Definition set_scan_pending_q (x : list nat) (r : mlan_adapter) : mlan_adapter :=
  mk_adapter (usb r) (intf_header_len r) (privs r) (nodes r) (cmd_free_q r) (cmd_pending_q r) x (ext_cmd_pending_q r) (curr_cmd r) (ioctls r) (pscan_ioctl_req r) (pwarm_reset_ioctl_req r) (scan_processing r) (ext_scan_type r) (ext_scan r) (ext_scan_enh r) (ext_scan_timeout r) (scan_state r) (ps_state r) (hw_status r) (surprise_removed r) (cmd_timer_is_set r) (cmd_resp_received r) (num_cmd_timeout r) (num_no_cmd_node r) (num_cmd_host_to_card_failure r) (seq_num r) (last_cmd_index r) (last_init_cmd r) (hs_activated r) (is_hs_configured r) (hs_conditions r) (evs r).
Definition set_ext_cmd_pending_q (x : list nat) (r : mlan_adapter) : mlan_adapter :=
  mk_adapter (usb r) (intf_header_len r) (privs r) (nodes r) (cmd_free_q r) (cmd_pending_q r) (scan_pending_q r) x (curr_cmd r) (ioctls r) (pscan_ioctl_req r) (pwarm_reset_ioctl_req r) (scan_processing r) (ext_scan_type r) (ext_scan r) (ext_scan_enh r) (ext_scan_timeout r) (scan_state r) (ps_state r) (hw_status r) (surprise_removed r) (cmd_timer_is_set r) (cmd_resp_received r) (num_cmd_timeout r) (num_no_cmd_node r) (num_cmd_host_to_card_failure r) (seq_num r) (last_cmd_index r) (last_init_cmd r) (hs_activated r) (is_hs_configured r) (hs_conditions r) (evs r).
Definition set_curr_cmd (x : option nat) (r : mlan_adapter) : mlan_adapter :=
  mk_adapter (usb r) (intf_header_len r) (privs r) (nodes r) (cmd_free_q r) (cmd_pending_q r) (scan_pending_q r) (ext_cmd_pending_q r) x (ioctls r) (pscan_ioctl_req r) (pwarm_reset_ioctl_req r) (scan_processing r) (ext_scan_type r) (ext_scan r) (ext_scan_enh r) (ext_scan_timeout r) (scan_state r) (ps_state r) (hw_status r) (surprise_removed r) (cmd_timer_is_set r) (cmd_resp_received r) (num_cmd_timeout r) (num_no_cmd_node r) (num_cmd_host_to_card_failure r) (seq_num r) (last_cmd_index r) (last_init_cmd r) (hs_activated r) (is_hs_configured r) (hs_conditions r) (evs r).
Definition set_ioctls (x : gmap nat mlan_ioctl_req) (r : mlan_adapter) : mlan_adapter :=
  mk_adapter (usb r) (intf_header_len r) (privs r) (nodes r) (cmd_free_q r) (cmd_pending_q r) (scan_pending_q r) (ext_cmd_pending_q r) (curr_cmd r) x (pscan_ioctl_req r) (pwarm_reset_ioctl_req r) (scan_processing r) (ext_scan_type r) (ext_scan r) (ext_scan_enh r) (ext_scan_timeout r) (scan_state r) (ps_state r) (hw_status r) (surprise_removed r) (cmd_timer_is_set r) (cmd_resp_received r) (num_cmd_timeout r) (num_no_cmd_node r) (num_cmd_host_to_card_failure r) (seq_num r) (last_cmd_index r) (last_init_cmd r) (hs_activated r) (is_hs_configured r) (hs_conditions r) (evs r).
Definition set_pscan_ioctl_req (x : option nat) (r : mlan_adapter) : mlan_adapter :=
  mk_adapter (usb r) (intf_header_len r) (privs r) (nodes r) (cmd_free_q r) (cmd_pending_q r) (scan_pending_q r) (ext_cmd_pending_q r) (curr_cmd r) (ioctls r) x (pwarm_reset_ioctl_req r) (scan_processing r) (ext_scan_type r) (ext_scan r) (ext_scan_enh r) (ext_scan_timeout r) (scan_state r) (ps_state r) (hw_status r) (surprise_removed r) (cmd_timer_is_set r) (cmd_resp_received r) (num_cmd_timeout r) (num_no_cmd_node r) (num_cmd_host_to_card_failure r) (seq_num r) (last_cmd_index r) (last_init_cmd r) (hs_activated r) (is_hs_configured r) (hs_conditions r) (evs r).
Definition set_pwarm_reset_ioctl_req (x : option nat) (r : mlan_adapter) : mlan_adapter :=
  mk_adapter (usb r) (intf_header_len r) (privs r) (nodes r) (cmd_free_q r) (cmd_pending_q r) (scan_pending_q r) (ext_cmd_pending_q r) (curr_cmd r) (ioctls r) (pscan_ioctl_req r) x (scan_processing r) (ext_scan_type r) (ext_scan r) (ext_scan_enh r) (ext_scan_timeout r) (scan_state r) (ps_state r) (hw_status r) (surprise_removed r) (cmd_timer_is_set r) (cmd_resp_received r) (num_cmd_timeout r) (num_no_cmd_node r) (num_cmd_host_to_card_failure r) (seq_num r) (last_cmd_index r) (last_init_cmd r) (hs_activated r) (is_hs_configured r) (hs_conditions r) (evs r).
Definition set_scan_processing (x : bool) (r : mlan_adapter) : mlan_adapter :=
  mk_adapter (usb r) (intf_header_len r) (privs r) (nodes r) (cmd_free_q r) (cmd_pending_q r) (scan_pending_q r) (ext_cmd_pending_q r) (curr_cmd r) (ioctls r) (pscan_ioctl_req r) (pwarm_reset_ioctl_req r) x (ext_scan_type r) (ext_scan r) (ext_scan_enh r) (ext_scan_timeout r) (scan_state r) (ps_state r) (hw_status r) (surprise_removed r) (cmd_timer_is_set r) (cmd_resp_received r) (num_cmd_timeout r) (num_no_cmd_node r) (num_cmd_host_to_card_failure r) (seq_num r) (last_cmd_index r) (last_init_cmd r) (hs_activated r) (is_hs_configured r) (hs_conditions r) (evs r).
Definition set_ext_scan_type (x : Z) (r : mlan_adapter) : mlan_adapter :=
  mk_adapter (usb r) (intf_header_len r) (privs r) (nodes r) (cmd_free_q r) (cmd_pending_q r) (scan_pending_q r) (ext_cmd_pending_q r) (curr_cmd r) (ioctls r) (pscan_ioctl_req r) (pwarm_reset_ioctl_req r) (scan_processing r) x (ext_scan r) (ext_scan_enh r) (ext_scan_timeout r) (scan_state r) (ps_state r) (hw_status r) (surprise_removed r) (cmd_timer_is_set r) (cmd_resp_received r) (num_cmd_timeout r) (num_no_cmd_node r) (num_cmd_host_to_card_failure r) (seq_num r) (last_cmd_index r) (last_init_cmd r) (hs_activated r) (is_hs_configured r) (hs_conditions r) (evs r).
Definition set_ext_scan (x : bool) (r : mlan_adapter) : mlan_adapter :=
  mk_adapter (usb r) (intf_header_len r) (privs r) (nodes r) (cmd_free_q r) (cmd_pending_q r) (scan_pending_q r) (ext_cmd_pending_q r) (curr_cmd r) (ioctls r) (pscan_ioctl_req r) (pwarm_reset_ioctl_req r) (scan_processing r) (ext_scan_type r) x (ext_scan_enh r) (ext_scan_timeout r) (scan_state r) (ps_state r) (hw_status r) (surprise_removed r) (cmd_timer_is_set r) (cmd_resp_received r) (num_cmd_timeout r) (num_no_cmd_node r) (num_cmd_host_to_card_failure r) (seq_num r) (last_cmd_index r) (last_init_cmd r) (hs_activated r) (is_hs_configured r) (hs_conditions r) (evs r).
Definition set_ext_scan_enh (x : bool) (r : mlan_adapter) : mlan_adapter :=
  mk_adapter (usb r) (intf_header_len r) (privs r) (nodes r) (cmd_free_q r) (cmd_pending_q r) (scan_pending_q r) (ext_cmd_pending_q r) (curr_cmd r) (ioctls r) (pscan_ioctl_req r) (pwarm_reset_ioctl_req r) (scan_processing r) (ext_scan_type r) (ext_scan r) x (ext_scan_timeout r) (scan_state r) (ps_state r) (hw_status r) (surprise_removed r) (cmd_timer_is_set r) (cmd_resp_received r) (num_cmd_timeout r) (num_no_cmd_node r) (num_cmd_host_to_card_failure r) (seq_num r) (last_cmd_index r) (last_init_cmd r) (hs_activated r) (is_hs_configured r) (hs_conditions r) (evs r).
Definition set_ext_scan_timeout (x : bool) (r : mlan_adapter) : mlan_adapter :=
  mk_adapter (usb r) (intf_header_len r) (privs r) (nodes r) (cmd_free_q r) (cmd_pending_q r) (scan_pending_q r) (ext_cmd_pending_q r) (curr_cmd r) (ioctls r) (pscan_ioctl_req r) (pwarm_reset_ioctl_req r) (scan_processing r) (ext_scan_type r) (ext_scan r) (ext_scan_enh r) x (scan_state r) (ps_state r) (hw_status r) (surprise_removed r) (cmd_timer_is_set r) (cmd_resp_received r) (num_cmd_timeout r) (num_no_cmd_node r) (num_cmd_host_to_card_failure r) (seq_num r) (last_cmd_index r) (last_init_cmd r) (hs_activated r) (is_hs_configured r) (hs_conditions r) (evs r).
Definition set_scan_state (x : Z) (r : mlan_adapter) : mlan_adapter :=
  mk_adapter (usb r) (intf_header_len r) (privs r) (nodes r) (cmd_free_q r) (cmd_pending_q r) (scan_pending_q r) (ext_cmd_pending_q r) (curr_cmd r) (ioctls r) (pscan_ioctl_req r) (pwarm_reset_ioctl_req r) (scan_processing r) (ext_scan_type r) (ext_scan r) (ext_scan_enh r) (ext_scan_timeout r) x (ps_state r) (hw_status r) (surprise_removed r) (cmd_timer_is_set r) (cmd_resp_received r) (num_cmd_timeout r) (num_no_cmd_node r) (num_cmd_host_to_card_failure r) (seq_num r) (last_cmd_index r) (last_init_cmd r) (hs_activated r) (is_hs_configured r) (hs_conditions r) (evs r).
Definition set_ps_state (x : PS_STATE) (r : mlan_adapter) : mlan_adapter :=
  mk_adapter (usb r) (intf_header_len r) (privs r) (nodes r) (cmd_free_q r) (cmd_pending_q r) (scan_pending_q r) (ext_cmd_pending_q r) (curr_cmd r) (ioctls r) (pscan_ioctl_req r) (pwarm_reset_ioctl_req r) (scan_processing r) (ext_scan_type r) (ext_scan r) (ext_scan_enh r) (ext_scan_timeout r) (scan_state r) x (hw_status r) (surprise_removed r) (cmd_timer_is_set r) (cmd_resp_received r) (num_cmd_timeout r) (num_no_cmd_node r) (num_cmd_host_to_card_failure r) (seq_num r) (last_cmd_index r) (last_init_cmd r) (hs_activated r) (is_hs_configured r) (hs_conditions r) (evs r).
Definition set_hw_status (x : WLAN_HARDWARE_STATUS) (r : mlan_adapter) : mlan_adapter :=
  mk_adapter (usb r) (intf_header_len r) (privs r) (nodes r) (cmd_free_q r) (cmd_pending_q r) (scan_pending_q r) (ext_cmd_pending_q r) (curr_cmd r) (ioctls r) (pscan_ioctl_req r) (pwarm_reset_ioctl_req r) (scan_processing r) (ext_scan_type r) (ext_scan r) (ext_scan_enh r) (ext_scan_timeout r) (scan_state r) (ps_state r) x (surprise_removed r) (cmd_timer_is_set r) (cmd_resp_received r) (num_cmd_timeout r) (num_no_cmd_node r) (num_cmd_host_to_card_failure r) (seq_num r) (last_cmd_index r) (last_init_cmd r) (hs_activated r) (is_hs_configured r) (hs_conditions r) (evs r).
Definition set_surprise_removed (x : bool) (r : mlan_adapter) : mlan_adapter :=
  mk_adapter (usb r) (intf_header_len r) (privs r) (nodes r) (cmd_free_q r) (cmd_pending_q r) (scan_pending_q r) (ext_cmd_pending_q r) (curr_cmd r) (ioctls r) (pscan_ioctl_req r) (pwarm_reset_ioctl_req r) (scan_processing r) (ext_scan_type r) (ext_scan r) (ext_scan_enh r) (ext_scan_timeout r) (scan_state r) (ps_state r) (hw_status r) x (cmd_timer_is_set r) (cmd_resp_received r) (num_cmd_timeout r) (num_no_cmd_node r) (num_cmd_host_to_card_failure r) (seq_num r) (last_cmd_index r) (last_init_cmd r) (hs_activated r) (is_hs_configured r) (hs_conditions r) (evs r).
Definition set_cmd_timer_is_set (x : bool) (r : mlan_adapter) : mlan_adapter :=
  mk_adapter (usb r) (intf_header_len r) (privs r) (nodes r) (cmd_free_q r) (cmd_pending_q r) (scan_pending_q r) (ext_cmd_pending_q r) (curr_cmd r) (ioctls r) (pscan_ioctl_req r) (pwarm_reset_ioctl_req r) (scan_processing r) (ext_scan_type r) (ext_scan r) (ext_scan_enh r) (ext_scan_timeout r) (scan_state r) (ps_state r) (hw_status r) (surprise_removed r) x (cmd_resp_received r) (num_cmd_timeout r) (num_no_cmd_node r) (num_cmd_host_to_card_failure r) (seq_num r) (last_cmd_index r) (last_init_cmd r) (hs_activated r) (is_hs_configured r) (hs_conditions r) (evs r).
Definition set_cmd_resp_received (x : bool) (r : mlan_adapter) : mlan_adapter :=
  mk_adapter (usb r) (intf_header_len r) (privs r) (nodes r) (cmd_free_q r) (cmd_pending_q r) (scan_pending_q r) (ext_cmd_pending_q r) (curr_cmd r) (ioctls r) (pscan_ioctl_req r) (pwarm_reset_ioctl_req r) (scan_processing r) (ext_scan_type r) (ext_scan r) (ext_scan_enh r) (ext_scan_timeout r) (scan_state r) (ps_state r) (hw_status r) (surprise_removed r) (cmd_timer_is_set r) x (num_cmd_timeout r) (num_no_cmd_node r) (num_cmd_host_to_card_failure r) (seq_num r) (last_cmd_index r) (last_init_cmd r) (hs_activated r) (is_hs_configured r) (hs_conditions r) (evs r).
Definition set_num_cmd_timeout (x : Z) (r : mlan_adapter) : mlan_adapter :=
  mk_adapter (usb r) (intf_header_len r) (privs r) (nodes r) (cmd_free_q r) (cmd_pending_q r) (scan_pending_q r) (ext_cmd_pending_q r) (curr_cmd r) (ioctls r) (pscan_ioctl_req r) (pwarm_reset_ioctl_req r) (scan_processing r) (ext_scan_type r) (ext_scan r) (ext_scan_enh r) (ext_scan_timeout r) (scan_state r) (ps_state r) (hw_status r) (surprise_removed r) (cmd_timer_is_set r) (cmd_resp_received r) x (num_no_cmd_node r) (num_cmd_host_to_card_failure r) (seq_num r) (last_cmd_index r) (last_init_cmd r) (hs_activated r) (is_hs_configured r) (hs_conditions r) (evs r).
Definition set_num_no_cmd_node (x : Z) (r : mlan_adapter) : mlan_adapter :=
  mk_adapter (usb r) (intf_header_len r) (privs r) (nodes r) (cmd_free_q r) (cmd_pending_q r) (scan_pending_q r) (ext_cmd_pending_q r) (curr_cmd r) (ioctls r) (pscan_ioctl_req r) (pwarm_reset_ioctl_req r) (scan_processing r) (ext_scan_type r) (ext_scan r) (ext_scan_enh r) (ext_scan_timeout r) (scan_state r) (ps_state r) (hw_status r) (surprise_removed r) (cmd_timer_is_set r) (cmd_resp_received r) (num_cmd_timeout r) x (num_cmd_host_to_card_failure r) (seq_num r) (last_cmd_index r) (last_init_cmd r) (hs_activated r) (is_hs_configured r) (hs_conditions r) (evs r).
Definition set_num_cmd_host_to_card_failure (x : Z) (r : mlan_adapter) : mlan_adapter :=
  mk_adapter (usb r) (intf_header_len r) (privs r) (nodes r) (cmd_free_q r) (cmd_pending_q r) (scan_pending_q r) (ext_cmd_pending_q r) (curr_cmd r) (ioctls r) (pscan_ioctl_req r) (pwarm_reset_ioctl_req r) (scan_processing r) (ext_scan_type r) (ext_scan r) (ext_scan_enh r) (ext_scan_timeout r) (scan_state r) (ps_state r) (hw_status r) (surprise_removed r) (cmd_timer_is_set r) (cmd_resp_received r) (num_cmd_timeout r) (num_no_cmd_node r) x (seq_num r) (last_cmd_index r) (last_init_cmd r) (hs_activated r) (is_hs_configured r) (hs_conditions r) (evs r).
Definition set_seq_num (x : Z) (r : mlan_adapter) : mlan_adapter :=
  mk_adapter (usb r) (intf_header_len r) (privs r) (nodes r) (cmd_free_q r) (cmd_pending_q r) (scan_pending_q r) (ext_cmd_pending_q r) (curr_cmd r) (ioctls r) (pscan_ioctl_req r) (pwarm_reset_ioctl_req r) (scan_processing r) (ext_scan_type r) (ext_scan r) (ext_scan_enh r) (ext_scan_timeout r) (scan_state r) (ps_state r) (hw_status r) (surprise_removed r) (cmd_timer_is_set r) (cmd_resp_received r) (num_cmd_timeout r) (num_no_cmd_node r) (num_cmd_host_to_card_failure r) x (last_cmd_index r) (last_init_cmd r) (hs_activated r) (is_hs_configured r) (hs_conditions r) (evs r).
Definition set_last_cmd_index (x : Z) (r : mlan_adapter) : mlan_adapter :=
  mk_adapter (usb r) (intf_header_len r) (privs r) (nodes r) (cmd_free_q r) (cmd_pending_q r) (scan_pending_q r) (ext_cmd_pending_q r) (curr_cmd r) (ioctls r) (pscan_ioctl_req r) (pwarm_reset_ioctl_req r) (scan_processing r) (ext_scan_type r) (ext_scan r) (ext_scan_enh r) (ext_scan_timeout r) (scan_state r) (ps_state r) (hw_status r) (surprise_removed r) (cmd_timer_is_set r) (cmd_resp_received r) (num_cmd_timeout r) (num_no_cmd_node r) (num_cmd_host_to_card_failure r) (seq_num r) x (last_init_cmd r) (hs_activated r) (is_hs_configured r) (hs_conditions r) (evs r).
Definition set_last_init_cmd (x : Z) (r : mlan_adapter) : mlan_adapter :=
  mk_adapter (usb r) (intf_header_len r) (privs r) (nodes r) (cmd_free_q r) (cmd_pending_q r) (scan_pending_q r) (ext_cmd_pending_q r) (curr_cmd r) (ioctls r) (pscan_ioctl_req r) (pwarm_reset_ioctl_req r) (scan_processing r) (ext_scan_type r) (ext_scan r) (ext_scan_enh r) (ext_scan_timeout r) (scan_state r) (ps_state r) (hw_status r) (surprise_removed r) (cmd_timer_is_set r) (cmd_resp_received r) (num_cmd_timeout r) (num_no_cmd_node r) (num_cmd_host_to_card_failure r) (seq_num r) (last_cmd_index r) x (hs_activated r) (is_hs_configured r) (hs_conditions r) (evs r).
Definition set_hs_activated (x : bool) (r : mlan_adapter) : mlan_adapter :=
  mk_adapter (usb r) (intf_header_len r) (privs r) (nodes r) (cmd_free_q r) (cmd_pending_q r) (scan_pending_q r) (ext_cmd_pending_q r) (curr_cmd r) (ioctls r) (pscan_ioctl_req r) (pwarm_reset_ioctl_req r) (scan_processing r) (ext_scan_type r) (ext_scan r) (ext_scan_enh r) (ext_scan_timeout r) (scan_state r) (ps_state r) (hw_status r) (surprise_removed r) (cmd_timer_is_set r) (cmd_resp_received r) (num_cmd_timeout r) (num_no_cmd_node r) (num_cmd_host_to_card_failure r) (seq_num r) (last_cmd_index r) (last_init_cmd r) x (is_hs_configured r) (hs_conditions r) (evs r).
Definition set_is_hs_configured (x : bool) (r : mlan_adapter) : mlan_adapter :=
  mk_adapter (usb r) (intf_header_len r) (privs r) (nodes r) (cmd_free_q r) (cmd_pending_q r) (scan_pending_q r) (ext_cmd_pending_q r) (curr_cmd r) (ioctls r) (pscan_ioctl_req r) (pwarm_reset_ioctl_req r) (scan_processing r) (ext_scan_type r) (ext_scan r) (ext_scan_enh r) (ext_scan_timeout r) (scan_state r) (ps_state r) (hw_status r) (surprise_removed r) (cmd_timer_is_set r) (cmd_resp_received r) (num_cmd_timeout r) (num_no_cmd_node r) (num_cmd_host_to_card_failure r) (seq_num r) (last_cmd_index r) (last_init_cmd r) (hs_activated r) x (hs_conditions r) (evs r).
Definition set_hs_conditions (x : Z) (r : mlan_adapter) : mlan_adapter :=
  mk_adapter (usb r) (intf_header_len r) (privs r) (nodes r) (cmd_free_q r) (cmd_pending_q r) (scan_pending_q r) (ext_cmd_pending_q r) (curr_cmd r) (ioctls r) (pscan_ioctl_req r) (pwarm_reset_ioctl_req r) (scan_processing r) (ext_scan_type r) (ext_scan r) (ext_scan_enh r) (ext_scan_timeout r) (scan_state r) (ps_state r) (hw_status r) (surprise_removed r) (cmd_timer_is_set r) (cmd_resp_received r) (num_cmd_timeout r) (num_no_cmd_node r) (num_cmd_host_to_card_failure r) (seq_num r) (last_cmd_index r) (last_init_cmd r) (hs_activated r) (is_hs_configured r) x (evs r).
Definition set_evs (x : list cmd_event) (r : mlan_adapter) : mlan_adapter :=
  mk_adapter (usb r) (intf_header_len r) (privs r) (nodes r) (cmd_free_q r) (cmd_pending_q r) (scan_pending_q r) (ext_cmd_pending_q r) (curr_cmd r) (ioctls r) (pscan_ioctl_req r) (pwarm_reset_ioctl_req r) (scan_processing r) (ext_scan_type r) (ext_scan r) (ext_scan_enh r) (ext_scan_timeout r) (scan_state r) (ps_state r) (hw_status r) (surprise_removed r) (cmd_timer_is_set r) (cmd_resp_received r) (num_cmd_timeout r) (num_no_cmd_node r) (num_cmd_host_to_card_failure r) (seq_num r) (last_cmd_index r) (last_init_cmd r) (hs_activated r) (is_hs_configured r) (hs_conditions r) x.

(** ** Access helpers *)

Definition log (e : cmd_event) (a : mlan_adapter) : mlan_adapter := set_evs (evs a ++ [e]) a.
Definition upd_node (f : cmd_ctrl_node → cmd_ctrl_node) (i : nat) (a : mlan_adapter) : mlan_adapter :=
  set_nodes (alter f i (nodes a)) a.

(** [(HostCmd_DS_COMMAND * )(node->cmdbuf->pbuf + node->cmdbuf->data_offset)]. *)
Definition node_cmd (a : mlan_adapter) (i : nat) : option cmd_body :=
  n ← nodes a !! i; b ← cmdbuf n; Some (body b).

(** Writing [status_code] through a request pointer; [None] when the request is
    gone. *)
Definition write_status (r : nat) (code : Z) (a : mlan_adapter) : option mlan_adapter :=
  q ← ioctls a !! r; Some (set_ioctls (<[r := set_status_code code q]> (ioctls a)) a).
Definition write_status_opt (r : option nat) (code : Z) (a : mlan_adapter) : option mlan_adapter :=
  match r with Some r => write_status r code a | None => Some a end.

(** [moal_ioctl_complete]: the request is handed back and, from the point of
    view of mlan, gone (moal frees it, or wakes the requester that owns it). *)
Definition moal_ioctl_complete (r : nat) (st : mlan_status) (a : mlan_adapter) : option mlan_adapter :=
  q ← ioctls a !! r;
  Some (log (IoctlComplete r st (status_code q)) (set_ioctls (delete r (ioctls a)) a)).

(** [wlan_get_priv(pmadapter, MLAN_BSS_ROLE_ANY)] and [wlan_get_priv_by_id]. *)
Definition wlan_get_priv (a : mlan_adapter) : option mlan_private :=
  '(_, p) ← list_find is_Some (privs a); p.
Definition wlan_get_priv_by_id (a : mlan_adapter) (num typ : Z) : option mlan_private :=
  '(_, p) ← list_find (λ p, Is_true match p with
                            | Some p => (bss_num p =? num) && (bss_type p =? typ)
                            | None => false
                            end) (privs a); p.
Definition priv_at (a : mlan_adapter) (k : nat) : option mlan_private := mjoin (privs a !! k).

(** [wlan_recv_event], which does nothing without an interface. *)
Definition wlan_recv_event (p : option mlan_private) (id : Z) (a : mlan_adapter) : mlan_adapter :=
  match p with Some _ => log (RecvEvent id) a | None => a end.

Definition wlan_host_sleep_activated_event (p : option mlan_private) (activated : bool)
    (a : mlan_adapter) : mlan_adapter :=
  match p with
  | None => a
  | Some _ =>
      if activated then
        if is_hs_configured a
        then wlan_recv_event p MLAN_EVENT_ID_DRV_HS_ACTIVATED (set_hs_activated true a) else a
      else wlan_recv_event p MLAN_EVENT_ID_DRV_HS_DEACTIVATED (set_hs_activated false a)
  end.

(** ** Nodes and queues *)

(** [wlan_init_cmd_node]; [buf] tells whether a buffer could be allocated (USB;
    the other buses use the buffer of the node's pool entry).  The buffer is
    zeroed, its offset leaves room for the bus header. *)
Definition MLAN_TYPE_LEN : Z := 4.
Definition zero_body : cmd_body := mk_body 0 0 0 0 0.
Definition wlan_init_cmd_node (priv : nat) (i : nat) (no : Z) (io data : option nat) (buf : bool)
    (a : mlan_adapter) : mlan_adapter :=
  upd_node (λ n,
    set_n_priv priv (set_cmd_no no (set_pioctl_buf io (set_pdata_buf data
      (set_cmdbuf (if usb a && negb buf then None
                   else Some (mk_buf zero_body (if usb a then MLAN_TYPE_LEN else intf_header_len a) 0)) n))))) i a.

Definition wlan_get_cmd_node (a : mlan_adapter) : option nat * mlan_adapter :=
  match cmd_free_q a with
  | i :: q => (Some i, set_cmd_free_q q a)
  | [] => (None, a)
  end.

Definition wlan_clean_cmd_node (i : nat) (a : mlan_adapter) : option mlan_adapter :=
  n ← nodes a !! i;
  let a := upd_node (λ n, set_cmd_no 0 (set_cmd_flag 0 (set_pioctl_buf None (set_pdata_buf None n)))) i a in
  let a := if usb a then upd_node (set_cmdbuf None) i a else a in
  Some (if respbuf n is Some _ then upd_node (set_respbuf None) i (log RespComplete a) else a).

(** [wlan_insert_cmd_to_free_q] completes the attached request with the status
    its code says and puts the clean node at the end of the free queue. *)
Definition wlan_insert_cmd_to_free_q (o : option nat) (a : mlan_adapter) : option mlan_adapter :=
  match o with
  | None => Some a
  | Some i =>
      n ← nodes a !! i;
      a ← match pioctl_buf n with
          | None => Some a
          | Some r =>
              q ← ioctls a !! r;
              moal_ioctl_complete r
                (if negb (status_code q =? MLAN_ERROR_NO_ERROR) then MLAN_STATUS_FAILURE
                 else MLAN_STATUS_SUCCESS) a
          end;
      a ← wlan_clean_cmd_node i a;
      Some (set_cmd_free_q (cmd_free_q a ++ [i]) a)
  end.

(** A command that leaves power save goes to the head of the queue. *)
Definition wlan_insert_cmd_to_pending_q (o : option nat) (add_tail : bool) (a : mlan_adapter)
    : option mlan_adapter :=
  match o with
  | None => Some a
  | Some i =>
      pcmd ← node_cmd a i;
      let add_tail :=
        if (command pcmd =? HostCmd_CMD_802_11_PS_MODE_ENH) && (body_action pcmd =? DIS_AUTO_PS)
           && negb (bool_decide (ps_state a = PS_STATE_AWAKE))
        then false else add_tail in
      Some (set_cmd_pending_q (if add_tail then cmd_pending_q a ++ [i] else i :: cmd_pending_q a) a)
  end.

Definition wlan_queue_scan_cmd (i : nat) (a : mlan_adapter) : mlan_adapter :=
  set_scan_pending_q (scan_pending_q a ++ [i])
    (upd_node (λ n, set_cmd_flag (Z.lor (cmd_flag n) CMD_F_SCAN) n) i a).

Definition wlan_queue_cmd_to_ext_cmd_pending_queue (i : nat) (a : mlan_adapter) : mlan_adapter :=
  set_ext_cmd_pending_q (ext_cmd_pending_q a ++ [i]) a.

Definition wlan_is_cmd_allowed_during_scan (cmd_id : Z) : bool :=
  negb (existsb (Z.eqb cmd_id)
    [HostCmd_CMD_FUNC_INIT; HostCmd_CMD_CFG_DATA; HostCmd_CMD_REGION_POWER_CFG;
     HostCmd_CMD_CHANNEL_TRPC_CONFIG; HostCmd_CMD_FUNC_SHUTDOWN; HostCmd_CMD_802_11_ASSOCIATE;
     HostCmd_CMD_802_11_DEAUTHENTICATE; HostCmd_CMD_802_11_DISASSOCIATE; HostCmd_CMD_11N_ADDBA_REQ;
     HostCmd_CMD_11N_ADDBA_RSP; HostCmd_CMD_11N_DELBA; HostCmd_CMD_802_11_REMAIN_ON_CHANNEL;
     HostCmd_CMD_TDLS_CONFIG; HostCmd_CMD_TDLS_OPERATION; HostCmd_CMD_SOFT_RESET;
     HostCmd_CMD_APCMD_SYS_RESET; HostCmd_CMD_APCMD_BSS_START; HostCmd_CMD_APCMD_BSS_STOP;
     HostCmd_CMD_APCMD_STA_DEAUTH; HostCmd_CMD_802_11_BG_SCAN_CONFIG; HostCmd_CMD_APCMD_ACS_SCAN]).

Definition wlan_queue_cmd (i : nat) (no : Z) (a : mlan_adapter) : option mlan_adapter :=
  if scan_processing a && (ext_scan_type a =? EXT_SCAN_ENHANCE) && negb (wlan_is_cmd_allowed_during_scan no)
  then Some (wlan_queue_cmd_to_ext_cmd_pending_queue i a)
  else wlan_insert_cmd_to_pending_q (Some i) true a.

(** The loops below take the head of a queue until it is empty.  A queue holds
    pool nodes only, so the pool size bounds the number of rounds; [None] would
    be a loop that goes on. *)
Fixpoint move_loop (fuel : nat) (a : mlan_adapter) : option mlan_adapter :=
  match ext_cmd_pending_q a with
  | [] => Some a
  | i :: q =>
      match fuel with
      | O => None
      | S fuel =>
          a ← wlan_insert_cmd_to_pending_q (Some i) true (set_ext_cmd_pending_q q a); move_loop fuel a
      end
  end.
Definition wlan_move_cmd_to_cmd_pending_q (a : mlan_adapter) : option mlan_adapter :=
  move_loop (length (nodes a)) a.

(** Complete the request attached to node [i] as cancelled and detach it. *)
Definition complete_cancel (r : nat) (a : mlan_adapter) : option mlan_adapter :=
  a ← write_status r MLAN_ERROR_CMD_CANCEL a; moal_ioctl_complete r MLAN_STATUS_FAILURE a.

Fixpoint flush_ext_loop (fuel : nat) (a : mlan_adapter) : option mlan_adapter :=
  match ext_cmd_pending_q a with
  | [] => Some a
  | i :: q =>
      match fuel with
      | O => None
      | S fuel =>
          let a := set_ext_cmd_pending_q q a in
          _ ← node_cmd a i;
          n ← nodes a !! i;
          a ← match pioctl_buf n with
              | Some r => complete_cancel r (upd_node (set_pioctl_buf None) i a)
              | None => Some a
              end;
          a ← wlan_insert_cmd_to_free_q (Some i) a;
          flush_ext_loop fuel a
      end
  end.
Definition wlan_flush_ext_cmd_pending_queue (a : mlan_adapter) : option mlan_adapter :=
  flush_ext_loop (length (nodes a)) a.

Fixpoint flush_scan_loop (fuel : nat) (a : mlan_adapter) : option mlan_adapter :=
  match scan_pending_q a with
  | [] => Some a
  | i :: q =>
      match fuel with
      | O => None
      | S fuel =>
          let a := set_scan_pending_q q a in
          pcmd ← node_cmd a i;
          n ← nodes a !! i;
          a ← match pioctl_buf n with
              | Some r =>
                  if negb (command pcmd =? HostCmd_CMD_802_11_SCAN)
                     && negb (command pcmd =? HostCmd_CMD_802_11_SCAN_EXT)
                  then complete_cancel r (upd_node (set_pioctl_buf None) i a) else Some a
              | None => Some a
              end;
          a ← wlan_insert_cmd_to_free_q (Some i) a;
          flush_scan_loop fuel a
      end
  end.
Definition wlan_flush_scan_queue (a : mlan_adapter) : option mlan_adapter :=
  a ← flush_scan_loop (length (nodes a)) a; Some (set_scan_processing false a).

(** *** Searching the pending queue *)

Definition node_is (P : cmd_ctrl_node → bool) (a : mlan_adapter) (i : nat) : bool :=
  match nodes a !! i with Some n => P n | None => false end.
Definition pending_find (P : cmd_ctrl_node → bool) (a : mlan_adapter) : option nat :=
  snd <$> list_find (λ i, Is_true (node_is P a i)) (cmd_pending_q a).

Definition is_scan_node (n : cmd_ctrl_node) : bool := negb (Z.land (cmd_flag n) CMD_F_SCAN =? 0).
Definition has_ioctl (r : nat) (n : cmd_ctrl_node) : bool := bool_decide (pioctl_buf n = Some r).
Definition has_bss_ioctl (a : mlan_adapter) (bss : nat) (n : cmd_ctrl_node) : bool :=
  match pioctl_buf n with
  | Some r => match ioctls a !! r with Some q => bool_decide (io_bss_index q = bss) | None => false end
  | None => false
  end.

Definition wlan_get_pending_scan_cmd (a : mlan_adapter) : option nat := pending_find is_scan_node a.
Definition wlan_get_pending_ioctl_cmd (a : mlan_adapter) (r : nat) : option nat :=
  pending_find (has_ioctl r) a.
Definition wlan_get_bss_pending_ioctl_cmd (a : mlan_adapter) (bss : nat) : option nat :=
  pending_find (has_bss_ioctl a bss) a.

(** [util_unlink_list] on the pending queue. *)
Definition unlink_pending (i : nat) (a : mlan_adapter) : mlan_adapter :=
  set_cmd_pending_q (filter (λ j, j ≠ i) (cmd_pending_q a)) a.

(** ** Preparing a command *)

Definition wlan_is_cancel_scan_cmd (b : cmd_body) : bool := body_ext_scan_type b =? EXT_SCAN_CANCEL.

(** What the caller hands to [wlan_prepare_cmd]: the encoder of the interface
    ([enc], [None] when it fails) for a numbered command, or the bytes of a host
    command ([cmd_no] 0). *)
Inductive cmd_source :=
| Encoded (cmd_no : Z) (enc : option cmd_body)
| HostCommand (bytes : cmd_body).

Definition source_no (c : cmd_source) : Z := match c with Encoded no _ => no | HostCommand _ => 0 end.
(** [cmd_no] after [wlan_cmd_host_cmd]. *)
Definition prepared_no (c : cmd_source) : Z :=
  match c with Encoded no _ => no | HostCommand b => command b end.
Definition prepare_body (c : cmd_source) : option cmd_body :=
  match c with Encoded _ enc => enc | HostCommand b => Some b end.

Definition fail_prepare (io : option nat) (code : Z) (a : mlan_adapter) : option (mlan_status * mlan_adapter) :=
  a ← write_status_opt io code a; Some (MLAN_STATUS_FAILURE, a).

(** The queue a prepared command goes to. *)
Definition queue_prepared (i : nat) (no action : Z) (b : cmd_body) (a : mlan_adapter) : option mlan_adapter :=
  if (no =? HostCmd_CMD_802_11_SCAN) || (no =? HostCmd_CMD_802_11_SCAN_EXT) then
    if (no =? HostCmd_CMD_802_11_SCAN_EXT) && ext_scan a && ext_scan_enh a
       && (ext_scan_type a =? EXT_SCAN_ENHANCE) && wlan_is_cancel_scan_cmd b
    then wlan_insert_cmd_to_pending_q (Some i) false a
    else Some (wlan_queue_scan_cmd i a)
  else if (no =? HostCmd_CMD_802_11_HS_CFG_ENH) && (action =? HostCmd_ACT_GEN_SET)
          && (hs_conditions a =? HOST_SLEEP_CFG_CANCEL)
  then wlan_insert_cmd_to_pending_q (Some i) false a
  else wlan_queue_cmd i no a.

(** [wlan_dump_info(REASON_CODE_NO_CMD_NODE)]. *)
Definition no_cmd_node (a : mlan_adapter) : mlan_adapter :=
  let a := set_num_no_cmd_node (u16 (num_no_cmd_node a + 1)) a in
  if num_no_cmd_node a >=? 5 then wlan_recv_event (wlan_get_priv a) MLAN_EVENT_ID_DRV_DBG_DUMP a else a.

(** [wlan_prepare_cmd] for interface [priv]; [buf] is the outcome of the buffer
    allocation of a USB card. *)
Definition wlan_prepare_cmd (priv : nat) (c : cmd_source) (action : Z) (io data : option nat) (buf : bool)
    (a : mlan_adapter) : option (mlan_status * mlan_adapter) :=
  if surprise_removed a then fail_prepare io MLAN_ERROR_FW_NOT_READY a
  else if bool_decide (hw_status a = WlanHardwareStatusReset)
          && negb (source_no c =? HostCmd_CMD_FUNC_INIT)
          && negb (source_no c =? HostCmd_CMD_PCIE_HOST_BUF_DETAILS)
  then fail_prepare io MLAN_ERROR_FW_NOT_READY a
  else
    match wlan_get_cmd_node a with
    | (None, a) => fail_prepare io MLAN_ERROR_NO_MEM (no_cmd_node a)
    | (Some i, a) =>
        let a := wlan_init_cmd_node priv i (source_no c) io data buf (set_num_no_cmd_node 0 a) in
        n ← nodes a !! i;
        match cmdbuf n with
        | None => fail_prepare io MLAN_ERROR_NO_MEM a
        | Some cb =>
            let a := if source_no c =? 0
                     then upd_node (λ n, set_cmd_flag (Z.lor (cmd_flag n) CMD_F_HOSTCMD) n) i a else a in
            match prepare_body c with
            | None =>
                let a := upd_node (set_pioctl_buf None) i a in
                a ← write_status_opt io MLAN_ERROR_CMD_DNLD_FAIL a;
                a ← wlan_insert_cmd_to_free_q (Some i) a;
                Some (MLAN_STATUS_FAILURE, a)
            | Some b =>
                let a := upd_node (set_cmdbuf (Some (set_body b cb))) i a in
                a ← queue_prepared i (prepared_no c) action b a;
                Some (MLAN_STATUS_SUCCESS, a)
            end
        end
    end.

(** [wlan_cmd_802_11_scan_ext] without a scan configuration: the command that
    cancels an enhanced scan. *)
Definition cancel_scan_cmd (a : mlan_adapter) : cmd_source :=
  Encoded HostCmd_CMD_802_11_SCAN_EXT
    (if ext_scan_enh a then Some (mk_body HostCmd_CMD_802_11_SCAN_EXT 12 0 0 EXT_SCAN_CANCEL) else None).

(** ** Downloading a command *)

Definition wlan_get_cmd_timeout (cmd_id : Z) : Z :=
  if (cmd_id =? HostCmd_CMD_802_11_SCAN) || (cmd_id =? HostCmd_CMD_802_11_SCAN_EXT) then 20000 else 5000.

Definition wlan_get_ext_scan_state (b : cmd_body) : Z :=
  if body_ext_scan_type b =? EXT_SCAN_ENHANCE then SCAN_STATE_EXT_SCAN_ENH
  else if body_ext_scan_type b =? EXT_SCAN_CANCEL then SCAN_STATE_EXT_SCAN_CANCEL
  else SCAN_STATE_EXT_SCAN.

(** [HostCmd_SET_SEQ_NO_BSS_INFO], [HostCmd_GET_BSS_NO] and [HostCmd_GET_BSS_TYPE]. *)
Definition HostCmd_SET_SEQ_NO_BSS_INFO (seq num typ : Z) : Z :=
  Z.lor (Z.lor (Z.land seq 0x00ff) (Z.shiftl (Z.land num 0x000f) 8)) (Z.shiftl (Z.land typ 0x000f) 12).
Definition HostCmd_GET_SEQ_NO (seq : Z) : Z := Z.land seq 0x00ff.
Definition HostCmd_GET_BSS_NO (seq : Z) : Z := Z.shiftr (Z.land seq 0x0f00) 8.
Definition HostCmd_GET_BSS_TYPE (seq : Z) : Z := Z.shiftr (Z.land seq 0xf000) 12.

(** The debug log of the last commands: advanced by a download, put back by a
    failed one. *)
Definition dbg_advance (a : mlan_adapter) : mlan_adapter :=
  set_last_cmd_index ((last_cmd_index a + 1) mod DBG_CMD_NUM) a.
Definition dbg_retract (a : mlan_adapter) : mlan_adapter :=
  set_last_cmd_index (if last_cmd_index a =? 0 then DBG_CMD_NUM - 1 else last_cmd_index a - 1) a.

(** Put the current command back to the free queue. *)
Definition free_curr (a : mlan_adapter) : option mlan_adapter :=
  a ← wlan_insert_cmd_to_free_q (curr_cmd a) a; Some (set_curr_cmd None a).

(** The bus header is added in front of the command. *)
Definition add_header (len : Z) (cb : cmd_buf) : cmd_buf :=
  mk_buf (body cb) (data_offset cb - len) (data_len cb + len).
Definition remove_header (len : Z) (cb : cmd_buf) : cmd_buf :=
  mk_buf (body cb) (data_offset cb + len) (data_len cb - len).
Definition header_len (a : mlan_adapter) : Z := if usb a then MLAN_TYPE_LEN else intf_header_len a.

(** What happens after [ops.host_to_card] returned [h2c]. *)
Definition dnld_finish (i : nat) (code : Z) (h2c : mlan_status) (a : mlan_adapter)
    : option (mlan_status * mlan_adapter) :=
  let a := if usb a && bool_decide (h2c = MLAN_STATUS_PENDING)
           then upd_node (set_cmdbuf None) i a else a in
  n ← nodes a !! i;
  if bool_decide (h2c = MLAN_STATUS_FAILURE) then
    a ← write_status_opt (pioctl_buf n) MLAN_ERROR_CMD_DNLD_FAIL a;
    a ← free_curr a;
    Some (MLAN_STATUS_FAILURE,
          set_num_cmd_host_to_card_failure (num_cmd_host_to_card_failure a + 1) (dbg_retract a))
  else
    let code' := Z.land code HostCmd_CMD_ID_MASK in
    if (code' =? HostCmd_CMD_FW_DUMP_EVENT) || (code' =? HostCmd_CMD_SOFT_RESET) then
      a ← match pioctl_buf n with Some _ => free_curr a | None => Some a end;
      Some (h2c, a)
    else
      Some (MLAN_STATUS_SUCCESS,
            set_cmd_timer_is_set true (log (StartTimer (wlan_get_cmd_timeout code)) a)).

(** [wlan_dnld_cmd_to_fw] of node [i], which is in no queue. *)
Definition wlan_dnld_cmd_to_fw (i : nat) (h2c : mlan_status) (a : mlan_adapter)
    : option (mlan_status * mlan_adapter) :=
  n ← nodes a !! i;
  cb ← cmdbuf n;
  let pcmd := body cb in
  if size pcmd =? 0 then
    a ← write_status_opt (pioctl_buf n) MLAN_ERROR_CMD_DNLD_FAIL a;
    a ← wlan_insert_cmd_to_free_q (Some i) a;
    Some (MLAN_STATUS_FAILURE, a)
  else
    p ← priv_at a (n_priv n);
    let seq := u16 (seq_num a + 1) in
    let code := command pcmd in
    let b := mk_body code (size pcmd) (HostCmd_SET_SEQ_NO_BSS_INFO seq (bss_num p) (bss_type p))
               (result pcmd) (param0 pcmd) in
    let a := upd_node (λ n, set_cmd_no code
               (set_cmdbuf (Some (mk_buf b (data_offset cb) (size pcmd))) n)) i (set_seq_num seq a) in
    let a := dbg_advance (set_curr_cmd (Some i) a) in
    if usb a && (data_offset cb <? MLAN_TYPE_LEN) then
      a ← write_status_opt (pioctl_buf n) MLAN_ERROR_CMD_DNLD_FAIL a;
      a ← wlan_insert_cmd_to_free_q (Some i) a;
      Some (MLAN_STATUS_FAILURE, dbg_retract (set_curr_cmd None a))
    else
      let a := if code =? HostCmd_CMD_802_11_SCAN_EXT
               then set_scan_state (Z.lor (scan_state a) (wlan_get_ext_scan_state b)) a else a in
      let a := if infra p && media_connected p
                  && ((code =? HostCmd_CMD_802_11_DEAUTHENTICATE) || (code =? HostCmd_CMD_802_11_DISASSOCIATE))
               then log CleanTxRx a else a in
      let cb := add_header (header_len a) (mk_buf b (data_offset cb) (size pcmd)) in
      let a := log (ToCard i code (cseq b) (data_len cb)) (upd_node (set_cmdbuf (Some cb)) i a) in
      dnld_finish i code h2c a.

(** What [wlan_exec_next_cmd] reads through its pointer [pcmd] into the buffer of node
    [i] once the download is over: the command in the buffer, which is the node's for
    good except on USB.  There the buffer is freed with the node when the download
    fails, and the bus has it when the download is pending: the read is of memory the
    queue has given away, taken to hold still the command [b] seen before. *)
Definition pcmd_after (i : nat) (b : cmd_body) (a : mlan_adapter) : cmd_body := default b (node_cmd a i).

(** [wlan_exec_next_cmd]: send the head of the pending queue. *)
Definition wlan_exec_next_cmd (h2c : mlan_status) (a : mlan_adapter) : option (mlan_status * mlan_adapter) :=
  if curr_cmd a is Some _ then Some (MLAN_STATUS_FAILURE, a) else
  match cmd_pending_q a with
  | [] => Some (MLAN_STATUS_SUCCESS, a)
  | i :: q =>
      pcmd ← node_cmd a i;
      if negb (bool_decide (ps_state a = PS_STATE_AWAKE)) then Some (MLAN_STATUS_SUCCESS, a)
      else
        '(ret, a) ← wlan_dnld_cmd_to_fw i h2c (set_cmd_pending_q q a);
        Some (ret,
              if bool_decide (is_Some (wlan_get_priv a))
                 && negb (command (pcmd_after i pcmd a) =? HostCmd_CMD_802_11_HS_CFG_ENH) && hs_activated a
              then wlan_host_sleep_activated_event (wlan_get_priv a) false (set_is_hs_configured false a)
              else a)
  end.

(** ** Responses *)

(** A command response arrives: the bus layer attaches it to the current
    command; without one it is copied aside and dropped. *)
Definition recv_cmd_resp (r : cmd_body) (a : mlan_adapter) : mlan_adapter :=
  match curr_cmd a with
  | None => a
  | Some i => set_cmd_resp_received true (upd_node (set_respbuf (Some r)) i a)
  end.

(** [wlan_handle_cmd_error_in_pre_aleep] (not USB): the firmware refused the
    command because it is about to sleep, so it is queued again, first. *)
Definition wlan_handle_cmd_error_in_pre_aleep (a : mlan_adapter) : option mlan_adapter :=
  match curr_cmd a with
  | None => Some a
  | Some i =>
      let a := set_curr_cmd None a in
      n ← nodes a !! i;
      cb ← cmdbuf n;
      let a := if usb a then a
               else upd_node (set_cmdbuf (Some (remove_header (intf_header_len a) cb))) i a in
      let a := if respbuf n is Some _ then upd_node (set_respbuf None) i (log RespComplete a) else a in
      wlan_insert_cmd_to_pending_q (Some i) false a
  end.

(** A response handler: [ops.process_cmdresp] of the interface, called with the
    command number, the response and the attached request. *)
Definition handler := mlan_private → Z → cmd_body → option nat → mlan_adapter → option (mlan_status * mlan_adapter).
(** [ops.init_cmd] of the next interface. *)
Definition init_handler := mlan_private → mlan_adapter → option (mlan_status * mlan_adapter).

Definition initializing (a : mlan_adapter) : bool :=
  bool_decide (hw_status a = WlanHardwareStatusInitializing) || bool_decide (hw_status a = WlanHardwareStatusGetHwSpec).

(** The current command is finished with status [ret]. *)
Definition finish_curr (ret : mlan_status) (a : mlan_adapter) : option mlan_adapter :=
  match curr_cmd a with
  | None => Some a
  | Some i =>
      let a := set_curr_cmd None a in
      n ← nodes a !! i;
      a ← match pioctl_buf n with
          | None => Some a
          | Some r =>
              match ret with
              | MLAN_STATUS_SUCCESS => write_status r MLAN_ERROR_NO_ERROR a
              | MLAN_STATUS_FAILURE =>
                  q ← ioctls a !! r;
                  if status_code q =? 0 then write_status r MLAN_ERROR_CMD_RESP_FAIL a else Some a
              | _ => Some a
              end
          end;
      wlan_insert_cmd_to_free_q (Some i) a
  end.

(** The next interface to initialise after [p]: the first later one that is
    neither virtual nor a DFS interface. *)
Definition next_init_priv (p : mlan_private) (a : mlan_adapter) : option mlan_private :=
  '(_, q) ← list_find (λ q, Is_true match q with
                        | Some q => negb (bss_virtual q) && negb (bss_dfs q)
                        | None => false
                        end) (drop (S (bss_index p)) (privs a)); q.

(** The end of [wlan_process_cmdresp]: the progress of the initialisation. *)
Definition init_progress (h : init_handler) (p : mlan_private) (no : Z) (ret : mlan_status)
    (a : mlan_adapter) : option (mlan_status * mlan_adapter) :=
  if bool_decide (hw_status a = WlanHardwareStatusInitializing) && (last_init_cmd a =? no) then
    match next_init_priv p a with
    | None =>
        match pwarm_reset_ioctl_req a with
        | Some r =>
            a ← moal_ioctl_complete r MLAN_STATUS_SUCCESS (set_hw_status WlanHardwareStatusReady a);
            Some (ret, set_pwarm_reset_ioctl_req None a)
        | None => Some (ret, set_hw_status WlanHardwareStatusInitdone a)
        end
    | Some q => h q a
    end
  else if bool_decide (hw_status a = WlanHardwareStatusGetHwSpec) && (no =? HostCmd_CMD_GET_HW_SPEC)
  then Some (ret, set_hw_status WlanHardwareStatusGetHwSpecdone a)
  else Some (ret, a).

(** Calling the handler of the response: a host command only has its flag
    cleared, except that a host-sleep configuration is acted upon. *)
Definition call_handler (h hs : handler) (p : mlan_private) (no : Z) (r : cmd_body) (io : option nat)
    (i : nat) (a : mlan_adapter) : option (mlan_status * mlan_adapter) :=
  n ← nodes a !! i;
  if negb (Z.land (cmd_flag n) CMD_F_HOSTCMD =? 0) then
    let a := upd_node (λ n, set_cmd_flag (Z.land (cmd_flag n) (Z.lnot CMD_F_HOSTCMD)) n) i a in
    if (result r =? HostCmd_RESULT_OK) && (no =? HostCmd_CMD_802_11_HS_CFG_ENH) then hs p no r io a
    else Some (MLAN_STATUS_SUCCESS, a)
  else h p no r io a.

(** From the BSS lookup on; [i] is the current command, [r] its response. *)
Definition process_matched (h hs : handler) (ih : init_handler) (i : nat) (r : cmd_body)
    (io : option nat) (a : mlan_adapter) : option (mlan_status * mlan_adapter) :=
  let no := Z.land (command r) HostCmd_CMD_ID_MASK in
  let p := match wlan_get_priv_by_id a (HostCmd_GET_BSS_NO (cseq r)) (HostCmd_GET_BSS_TYPE (cseq r)) with
           | Some p => Some p | None => wlan_get_priv a
           end in
  match p with
  | None => Some (MLAN_STATUS_FAILURE, a)
  | Some p =>
      if Z.land (command r) HostCmd_RET_BIT =? 0 then
        a ← write_status_opt io MLAN_ERROR_FW_CMDRESP a;
        a ← free_curr a; Some (MLAN_STATUS_FAILURE, a)
      else
        let a := if result r =? 8
                 then wlan_recv_event (Some p) MLAN_EVENT_ID_DRV_RGPWR_KEY_MISMATCH a else a in
        if negb (usb a) && (result r =? HostCmd_RESULT_PRE_ASLEEP) then
          a ← wlan_handle_cmd_error_in_pre_aleep a; Some (MLAN_STATUS_FAILURE, a)
        else
          let r := mk_body no (size r) (cseq r) (result r) (param0 r) in
          '(ret, a) ← call_handler h hs p no r io i a;
          if initializing a && bool_decide (ret = MLAN_STATUS_FAILURE)
          then Some (ret, log InitFwComplete a)
          else a ← finish_curr ret a; init_progress ih p no ret a
  end.

(** [wlan_process_cmdresp]. *)
Definition wlan_process_cmdresp (h hs : handler) (ih : init_handler) (a : mlan_adapter)
    : option (mlan_status * mlan_adapter) :=
  if negb (num_cmd_timeout a =? 0) then Some (MLAN_STATUS_FAILURE, a) else
  match curr_cmd a with
  | None => Some (MLAN_STATUS_FAILURE, a)
  | Some i =>
      n ← nodes a !! i;
      match respbuf n with
      | None => a ← write_status_opt (pioctl_buf n) MLAN_ERROR_CMD_RESP_FAIL a; Some (MLAN_STATUS_FAILURE, a)
      | Some r =>
          if negb (cmd_no n =? Z.land (command r) HostCmd_CMD_ID_MASK) then Some (MLAN_STATUS_FAILURE, a)
          else
            let a := if cmd_timer_is_set a then set_cmd_timer_is_set false (log StopTimer a) else a in
            if negb (Z.land (cmd_flag n) CMD_F_CANCELED =? 0) then
              let a := set_curr_cmd None a in
              a ← write_status_opt (pioctl_buf n) MLAN_ERROR_CMD_CANCEL a;
              a ← wlan_insert_cmd_to_free_q (Some i) a; Some (MLAN_STATUS_FAILURE, a)
            else process_matched h hs ih i r (pioctl_buf n) a
      end
  end.

(** ** Time-out and cancellation *)

Definition wlan_cmd_timeout_func (a : mlan_adapter) : option mlan_adapter :=
  let a := set_cmd_timer_is_set false a in
  match curr_cmd a with
  | None =>
      Some (if ext_scan a && ext_scan_enh a && scan_processing a then set_ext_scan_timeout true a else a)
  | Some i =>
      let a := set_num_cmd_timeout (u32 (num_cmd_timeout a + 1)) a in
      n ← nodes a !! i;
      a ← write_status_opt (pioctl_buf n) MLAN_ERROR_CMD_TIMEOUT a;
      if initializing a then Some (log InitFwComplete a)
      else Some (wlan_recv_event
                   (match priv_at a (n_priv n) with Some p => Some p | None => wlan_get_priv a end)
                   MLAN_EVENT_ID_DRV_DBG_DUMP a)
  end.

(** Complete the pending scan request as cancelled; the interface it was for. *)
Definition cancel_pscan (a : mlan_adapter) : option (option nat * mlan_adapter) :=
  match pscan_ioctl_req a with
  | None => Some (None, a)
  | Some r =>
      q ← ioctls a !! r;
      a ← complete_cancel r (set_pscan_ioctl_req None a);
      Some (Some (io_bss_index q), a)
  end.

(** Mark the current command cancelled and detach its request. *)
Definition cancel_curr (i : nat) (a : mlan_adapter) : mlan_adapter :=
  upd_node (λ n, set_cmd_flag (Z.lor (cmd_flag n) CMD_F_CANCELED) (set_pioctl_buf None n)) i a.

(** Unlink and free the nodes of the pending queue that [find] returns, after
    [detach]. *)
Fixpoint cancel_loop (find : mlan_adapter → option nat)
    (detach : nat → mlan_adapter → option mlan_adapter) (fuel : nat) (a : mlan_adapter) : option mlan_adapter :=
  match find a with
  | None => Some a
  | Some i =>
      match fuel with
      | O => None
      | S fuel =>
          a ← detach i (unlink_pending i a);
          a ← wlan_insert_cmd_to_free_q (Some i) a;
          cancel_loop find detach fuel a
      end
  end.

(** Detach the request of node [i] and complete it as cancelled. *)
Definition detach_complete (i : nat) (a : mlan_adapter) : option mlan_adapter :=
  n ← nodes a !! i;
  match pioctl_buf n with
  | Some r => complete_cancel r (upd_node (set_pioctl_buf None) i a)
  | None => Some a
  end.
Definition detach_silent (i : nat) (a : mlan_adapter) : option mlan_adapter :=
  Some (upd_node (set_pioctl_buf None) i a).

Definition enhanced_scan (a : mlan_adapter) : bool := scan_processing a && (ext_scan_type a =? EXT_SCAN_ENHANCE).

(** Ask the firmware to end an enhanced scan on interface [bss], if there is
    one. *)
Definition send_cancel_scan (bss : option nat) (io : option nat) (buf : bool) (a : mlan_adapter)
    : option (mlan_status * option mlan_private * mlan_adapter) :=
  match bss ≫= priv_at a with
  | None => Some (MLAN_STATUS_FAILURE, None, a)
  | Some p =>
      '(ret, a) ← wlan_prepare_cmd (bss_index p) (cancel_scan_cmd a) HostCmd_ACT_GEN_SET io None buf a;
      Some (ret, Some p, a)
  end.

(** Look at the request attached to the current command: when it satisfies [P],
    complete it as cancelled and mark the command.  The second component is the
    request's identifier then. *)
Definition cancel_curr_if (P : mlan_ioctl_req → bool) (a : mlan_adapter) : option (option Z * mlan_adapter) :=
  match curr_cmd a with
  | None => Some (None, a)
  | Some i =>
      n ← nodes a !! i;
      match pioctl_buf n with
      | None => Some (None, a)
      | Some r =>
          q ← ioctls a !! r;
          if P q then a ← complete_cancel r (cancel_curr i a); Some (Some (req_id q), a)
          else Some (None, a)
      end
  end.

(** The functions below hold the command lock over their first part (the [_locked]
    one) and work without it, or take it again for one queue, afterwards. *)
Definition cancel_scan_locked (a : mlan_adapter) : option (option nat * mlan_adapter) :=
  '(bss, a) ← cancel_pscan a;
  '(_, a) ← cancel_curr_if (λ q, req_id q =? MLAN_IOCTL_SCAN) a;
  a ← cancel_loop wlan_get_pending_scan_cmd (λ _, Some) (length (nodes a)) a;
  Some (bss, a).
Definition wlan_cancel_pending_scan_cmd (io : option nat) (buf : bool) (a : mlan_adapter)
    : option (mlan_status * mlan_adapter) :=
  '(bss, a) ← cancel_scan_locked a;
  '(status, a) ←
    (if enhanced_scan a then
       '(ret, p, a) ← send_cancel_scan bss io buf a;
       Some (if bool_decide (ret = MLAN_STATUS_SUCCESS)
             then (MLAN_STATUS_PENDING, wlan_recv_event p MLAN_EVENT_ID_DRV_DEFER_HANDLING a)
             else (MLAN_STATUS_SUCCESS, a))
     else Some (MLAN_STATUS_SUCCESS, a));
  a ← wlan_flush_scan_queue a;
  Some (status, a).

(** The current command when everything is cancelled: its request is completed
    and, with [flag], its node freed without waiting for the response. *)
Definition cancel_all_curr (flag : bool) (a : mlan_adapter) : option mlan_adapter :=
  match curr_cmd a with
  | None => Some a
  | Some i =>
      a ← detach_complete i a;
      if flag then wlan_insert_cmd_to_free_q (Some i) (set_curr_cmd None a) else Some a
  end.

Definition pending_head (a : mlan_adapter) : option nat := head (cmd_pending_q a).

Definition cancel_all_locked (flag : bool) (a : mlan_adapter) : option mlan_adapter :=
  '(_, a) ← cancel_pscan a;
  a ← cancel_all_curr flag a;
  let a := if cmd_timer_is_set a then set_cmd_timer_is_set false (log StopTimer a) else a in
  cancel_loop pending_head detach_complete (length (nodes a)) a.
Definition wlan_cancel_all_pending_cmd (flag : bool) (a : mlan_adapter) : option mlan_adapter :=
  a ← cancel_all_locked flag a;
  a ← wlan_flush_scan_queue a;
  wlan_flush_ext_cmd_pending_queue a.

(** Every pending command of interface [bss] is cancelled; the first component
    tells whether one of them was a scan request. *)
Fixpoint cancel_bss_loop (bss : nat) (flash : bool) (fuel : nat) (a : mlan_adapter)
    : option (bool * mlan_adapter) :=
  match wlan_get_bss_pending_ioctl_cmd a bss with
  | None => Some (flash, a)
  | Some i =>
      match fuel with
      | O => None
      | S fuel =>
          n ← nodes a !! i;
          r ← pioctl_buf n;
          q ← ioctls a !! r;
          a ← detach_complete i (unlink_pending i a);
          a ← wlan_insert_cmd_to_free_q (Some i) a;
          cancel_bss_loop bss (flash || (req_id q =? MLAN_IOCTL_SCAN)) fuel a
      end
  end.

(** The pending scan request, when it is of interface [bss]. *)
Definition cancel_pscan_of (bss : nat) (a : mlan_adapter) : option (option nat * mlan_adapter) :=
  match pscan_ioctl_req a with
  | None => Some (None, a)
  | Some r =>
      q ← ioctls a !! r;
      if bool_decide (io_bss_index q = bss) then cancel_pscan a else Some (None, a)
  end.

Definition cancel_bss_locked (bss : nat) (a : mlan_adapter) : option (option nat * bool * mlan_adapter) :=
  '(pbss, a) ← cancel_pscan_of bss a;
  '(id, a) ← cancel_curr_if (λ q, bool_decide (io_bss_index q = bss)) a;
  let flash := bool_decide (is_Some pbss) || bool_decide (id = Some MLAN_IOCTL_SCAN) in
  '(flash, a) ← cancel_bss_loop bss flash (length (nodes a)) a;
  Some (pbss, flash, a).
Definition wlan_cancel_bss_pending_cmd (bss : nat) (buf : bool) (a : mlan_adapter) : option mlan_adapter :=
  '(pbss, flash, a) ← cancel_bss_locked bss a;
  if (flash : bool) then
    a ← (if enhanced_scan a then
           '(_, p, a) ← send_cancel_scan pbss None buf a;
           Some (wlan_recv_event p MLAN_EVENT_ID_DRV_DEFER_HANDLING a)
         else Some a);
    wlan_flush_scan_queue a
  else Some a.

(** Whether a pending command refers to the request, and the request detached
    from all of them. *)
Definition wlan_cancel_pending_ioctl (r : nat) (buf : bool) (a : mlan_adapter) : option mlan_adapter :=
  q ← ioctls a !! r;
  let in_scan := bool_decide (pscan_ioctl_req a = Some r) in
  let a := if in_scan then set_pscan_ioctl_req None a else a in
  let in_curr := match curr_cmd a with Some i => node_is (has_ioctl r) a i | None => false end in
  let a := match curr_cmd a with Some i => if in_curr then cancel_curr i a else a | None => a end in
  let in_pending := bool_decide (is_Some (wlan_get_pending_ioctl_cmd a r)) in
  a ← cancel_loop (λ a, wlan_get_pending_ioctl_cmd a r) detach_silent (length (nodes a)) a;
  a ← (if req_id q =? MLAN_IOCTL_SCAN then
         a ← (if enhanced_scan a then
                '(_, p, a) ← send_cancel_scan (if in_scan then Some (io_bss_index q) else None) None buf a;
                Some (wlan_recv_event p MLAN_EVENT_ID_DRV_DEFER_HANDLING a)
              else Some a);
         wlan_flush_scan_queue a
       else Some a);
  if in_scan || in_curr || in_pending then complete_cancel r a else Some a.

(** ** Scan commands *)

(** The end of [wlan_scan_networks]: the first scan command becomes pending and
    the request waits for the last one. *)
Definition scan_start (r : option nat) (a : mlan_adapter) : option mlan_adapter :=
  match scan_pending_q a with
  | [] => Some a
  | i :: q =>
      wlan_insert_cmd_to_pending_q (Some i) true
        (set_scan_state SCAN_STATE_SCAN_START (set_scan_processing true
          (set_pscan_ioctl_req r (set_scan_pending_q q a))))
  end.

(** What [wlan_scan_channel_list] prepares: its scan commands, whether it got
    through the channel list, and the outcome of the buffer allocations on USB. *)
Record scan_plan := mk_plan { plan_cmds : list cmd_source; plan_ok : bool; plan_buf : bool }.

(** The commands are prepared in order until one fails. *)
Fixpoint prepare_scans (priv : nat) (l : list cmd_source) (buf : bool) (a : mlan_adapter)
    : option (mlan_status * mlan_adapter) :=
  match l with
  | [] => Some (MLAN_STATUS_SUCCESS, a)
  | c :: l =>
      '(ret, a) ← wlan_prepare_cmd priv c HostCmd_ACT_GEN_SET None None buf a;
      if bool_decide (ret = MLAN_STATUS_SUCCESS) then prepare_scans priv l buf a
      else Some (MLAN_STATUS_FAILURE, a)
  end.

(** The queue's part of [wlan_scan_networks] for request [r]. *)
Definition wlan_scan_networks (priv : nat) (pl : scan_plan) (r : option nat) (a : mlan_adapter)
    : option (mlan_status * mlan_adapter) :=
  '(ret, a) ← prepare_scans priv (plan_cmds pl) (plan_buf pl) a;
  if bool_decide (ret = MLAN_STATUS_SUCCESS) && plan_ok pl
  then a ← scan_start r a; Some (MLAN_STATUS_SUCCESS, a)
  else Some (MLAN_STATUS_FAILURE, a).

(** [wlan_active_scan_req_for_passive_chan] for the pending scan request; [active]
    is the plan of a scan of the passive channels on which a network was seen, if
    there are such.  Tells whether the scan goes on. *)
Definition wlan_active_scan_req_for_passive_chan (active : option scan_plan) (p : mlan_private)
    (a : mlan_adapter) : option (bool * mlan_adapter) :=
  match active, pscan_ioctl_req a with
  | Some pl, Some r =>
      '(ret, a) ← wlan_scan_networks (bss_index p) pl (Some r) a;
      Some (bool_decide (ret = MLAN_STATUS_SUCCESS), a)
  | _, _ => Some (false, a)
  end.

(** The pending scan request completes with the given outcome. *)
Definition complete_pscan (st : mlan_status) (code : Z) (a : mlan_adapter) : option mlan_adapter :=
  let a := set_scan_processing false a in
  match pscan_ioctl_req a with
  | None => Some a
  | Some r => a ← write_status r code (set_pscan_ioctl_req None a); moal_ioctl_complete r st a
  end.

Definition scan_report (p : mlan_private) (a : mlan_adapter) : mlan_adapter :=
  wlan_recv_event (Some p) MLAN_EVENT_ID_DRV_SCAN_REPORT a.
Definition scan_state_add (bit : Z) (a : mlan_adapter) : mlan_adapter :=
  set_scan_state (Z.lor (scan_state a) bit) a.

(** The next scan command becomes pending. *)
Definition scan_next (a : mlan_adapter) : option mlan_adapter :=
  match scan_pending_q a with
  | [] => Some a
  | i :: q => wlan_insert_cmd_to_pending_q (Some i) true (set_scan_pending_q q a)
  end.

(** [wlan_ret_802_11_scan]; [perr] is the error code when reading the results
    fails. *)
Definition wlan_ret_802_11_scan (perr : option Z) (active : option scan_plan) (p : mlan_private) (a : mlan_adapter)
    : option (mlan_status * mlan_adapter) :=
  match perr with
  | Some code =>
    a ← wlan_flush_scan_queue a;
    a ← complete_pscan MLAN_STATUS_FAILURE code a; Some (MLAN_STATUS_FAILURE, a)
  | None =>
    match scan_pending_q a with
    | [] =>
        '(again, a) ← wlan_active_scan_req_for_passive_chan active p a;
        if (again : bool) then Some (MLAN_STATUS_SUCCESS, a)
        else a ← complete_pscan MLAN_STATUS_SUCCESS MLAN_ERROR_NO_ERROR a;
             Some (MLAN_STATUS_SUCCESS, scan_report p a)
    | _ =>
        if negb (bool_decide (hw_status a = WlanHardwareStatusReady)) then
          a ← wlan_flush_scan_queue a;
          a ← complete_pscan MLAN_STATUS_FAILURE MLAN_ERROR_FW_NOT_READY a; Some (MLAN_STATUS_FAILURE, a)
        else a ← scan_next a; Some (MLAN_STATUS_SUCCESS, a)
    end
  end.

(** [wlan_ret_802_11_scan_ext]. *)
Definition wlan_ret_802_11_scan_ext (r : cmd_body) (io : option nat) (a : mlan_adapter)
    : option (mlan_status * mlan_adapter) :=
  let a := scan_state_add (wlan_get_ext_scan_state r) a in
  if body_ext_scan_type r =? EXT_SCAN_CANCEL then
    let a := set_ext_scan_type EXT_SCAN_DEFAULT (scan_state_add SCAN_STATE_SCAN_COMPLETE (set_scan_processing false a)) in
    match io with
    | None => Some (MLAN_STATUS_SUCCESS, a)
    | Some r => a ← write_status r 0 a; a ← moal_ioctl_complete r MLAN_STATUS_SUCCESS a; Some (MLAN_STATUS_SUCCESS, a)
    end
  else if body_ext_scan_type r =? EXT_SCAN_ENHANCE then
    Some (MLAN_STATUS_SUCCESS, set_cmd_timer_is_set true (log (StartTimer 20000) a))
  else Some (MLAN_STATUS_SUCCESS, a).

(** The end of [wlan_handle_event_ext_scan_status]: the firmware reports the end
    of an extended scan with [status]. *)
Definition ext_scan_status (status : Z) (active : option scan_plan) (p : mlan_private) (a : mlan_adapter)
    : option mlan_adapter :=
  let a := scan_state_add SCAN_STATE_EXT_SCAN_STATUS a in
  match scan_pending_q a with
  | _ :: _ =>
      if negb (bool_decide (hw_status a = WlanHardwareStatusReady)) then
        a ← wlan_flush_scan_queue a;
        complete_pscan MLAN_STATUS_FAILURE MLAN_ERROR_FW_NOT_READY (scan_state_add SCAN_STATE_SCAN_COMPLETE a)
      else scan_next a
  | [] =>
      let a := if negb (bool_decide (is_Some (curr_cmd a))) && cmd_timer_is_set a
               then set_cmd_timer_is_set false (log StopTimer a) else a in
      '(again, a) ← wlan_active_scan_req_for_passive_chan active p a;
      if (again : bool) then Some a
      else
        a ← complete_pscan MLAN_STATUS_SUCCESS MLAN_ERROR_NO_ERROR (scan_state_add SCAN_STATE_SCAN_COMPLETE a);
        a ← wlan_move_cmd_to_cmd_pending_q a;
        Some (if status =? 0 then scan_report p a else a)
  end.

(** [wlan_process_cmdresp_error] of a station, as far as the queue is concerned:
    a failed scan ends the scan, and whatever the command its node is freed. *)
Definition wlan_process_cmdresp_error (p : mlan_private) (no : Z) (r : cmd_body) (io : option nat)
    (a : mlan_adapter) : option (mlan_status * mlan_adapter) :=
  a ← write_status_opt io MLAN_ERROR_FW_CMDRESP a;
  a ← (if (command r =? HostCmd_CMD_802_11_SCAN) || (command r =? HostCmd_CMD_802_11_SCAN_EXT) then
         a ← wlan_flush_scan_queue a;
         a ← complete_pscan MLAN_STATUS_SUCCESS MLAN_ERROR_NO_ERROR a;
         Some (scan_report p a)
       else Some a);
  a ← free_curr a;
  Some (if (no =? HostCmd_CMD_CHAN_REGION_CFG) || (no =? HostCmd_CMD_REGION_POWER_CFG)
        then MLAN_STATUS_SUCCESS else MLAN_STATUS_FAILURE, a).

(** [wlan_ops_sta_process_cmdresp]: an error result, a scan response, or any
    other command, whose own handler is [other].  The request of a scan command
    is detached: it was completed by the scan. *)
Definition detach_curr (a : mlan_adapter) : option mlan_adapter :=
  i ← curr_cmd a; _ ← nodes a !! i; Some (upd_node (set_pioctl_buf None) i a).
Definition wlan_ops_sta_process_cmdresp (perr : option Z) (active : option scan_plan) (other : handler) : handler :=
  λ p no r io a,
  if negb (result r =? HostCmd_RESULT_OK) then wlan_process_cmdresp_error p no r io a
  else if no =? HostCmd_CMD_802_11_SCAN then
    '(ret, a) ← wlan_ret_802_11_scan perr active p a; a ← detach_curr a; Some (ret, a)
  else if no =? HostCmd_CMD_802_11_SCAN_EXT then
    '(ret, a) ← wlan_ret_802_11_scan_ext r io a; a ← detach_curr a; Some (ret, a)
  else other p no r io a.

(** ** Allocation of the pool *)

Definition empty_node : cmd_ctrl_node := mk_node 0 0 0 None None None None.

(** [wlan_alloc_cmd_buffer] with zeroed nodes; [ok] is the outcome of the
    allocations. *)
Fixpoint alloc_loop (n i : nat) (a : mlan_adapter) : option mlan_adapter :=
  match n with
  | O => Some a
  | S n => a ← wlan_insert_cmd_to_free_q (Some i) a; alloc_loop n (S i) a
  end.
Definition wlan_alloc_cmd_buffer (ok : bool) (a : mlan_adapter) : option (mlan_status * mlan_adapter) :=
  if negb ok then Some (MLAN_STATUS_FAILURE, a)
  else
    a ← alloc_loop MRVDRV_NUM_OF_CMD_BUFFER 0 (set_nodes (replicate MRVDRV_NUM_OF_CMD_BUFFER empty_node) a);
    Some (MLAN_STATUS_SUCCESS, a).

(** The adapter before the pool is allocated. *)
Definition fresh_adapter (u : bool) (hdr : Z) (ps : list (option mlan_private)) : mlan_adapter :=
  mk_adapter u hdr ps [] [] [] [] [] None ∅ None None false EXT_SCAN_DEFAULT false false false 0
    PS_STATE_AWAKE WlanHardwareStatusReady false false false 0 0 0 0 0 0 false false 0 [].
