(* ===== verification/CmdInv.v ===== *)
(** * CmdInv: the invariant of the command queue

    Where every command node is, which ioctl requests are outstanding, and what
    holds of the nodes of each queue; the primitive steps of [CmdQueue] (freeing a
    node, queueing it, completing a request) as equations between states, with
    the lemmas that they keep the invariant and the account of the requests. *)

From S2P Require Import Prelude CmdQueue.

(** ** The invariant *)

Definition opt_list {A} (o : option A) : list A := match o with Some x => [x] | None => [] end.

(** How often node [i] occurs in the hands of the running operation ([H]), in
    the queues and as the current command. *)
Definition place (i : nat) (H : list nat) (a : mlan_adapter) : Z :=
  occ i H + occ i (cmd_free_q a) + occ i (cmd_pending_q a) + occ i (scan_pending_q a)
  + occ i (ext_cmd_pending_q a) + occ i (opt_list (curr_cmd a)).

(** How many places refer to request [r]: nodes, the pending scan, the pending
    warm reset. *)
Definition owes (r : nat) (o : option nat) : Z := if decide (o = Some r) then 1 else 0.
Definition owed (r : nat) (a : mlan_adapter) : Z :=
  zsum (λ n, owes r (pioctl_buf n)) (nodes a) + owes r (pscan_ioctl_req a) + owes r (pwarm_reset_ioctl_req a).

(** How often request [r] was completed. *)
Definition completes (r : nat) (e : cmd_event) : Z :=
  match e with IoctlComplete r' _ _ => if decide (r' = r) then 1 else 0 | _ => 0 end.
Definition completed (r : nat) (a : mlan_adapter) : Z := zsum (completes r) (evs a).

(** The account of request [r]: outstanding or completed. *)
Definition acct (r : nat) (a : mlan_adapter) : Z := owed r a + completed r a.

(** A node at rest in the free queue. *)
Definition clean_node (n : cmd_ctrl_node) : Prop :=
  pioctl_buf n = None ∧ respbuf n = None ∧ cmd_flag n = 0.

(** A node whose command waits: it has a buffer with room for the bus header, an
    interface, no response and is not cancelled. *)
Definition waiting_node (a : mlan_adapter) (n : cmd_ctrl_node) : Prop :=
  (∃ cb, cmdbuf n = Some cb ∧ data_offset cb = header_len a) ∧
  is_Some (priv_at a (n_priv n)) ∧ respbuf n = None ∧ Z.land (cmd_flag n) CMD_F_CANCELED = 0.

(** The current command: sent, so without the room for the header; on USB the
    buffer is gone when the bus took it. *)
Definition current_node (a : mlan_adapter) (n : cmd_ctrl_node) : Prop :=
  is_Some (priv_at a (n_priv n)) ∧
  (usb a = false → ∃ cb, cmdbuf n = Some cb ∧ data_offset cb = 0).

Definition node_at (a : mlan_adapter) (P : cmd_ctrl_node → Prop) (i : nat) : Prop :=
  ∃ n, nodes a !! i = Some n ∧ P n.

Definition inv (H : list nat) (a : mlan_adapter) : Prop :=
  (∀ i, place i H a = if decide (i < length (nodes a))%nat then 1 else 0) ∧
  (∀ r, owed r a <= 1 ∧ (owed r a = 1 → is_Some (ioctls a !! r))) ∧
  (∀ i, i ∈ cmd_free_q a → node_at a clean_node i) ∧
  (∀ i, i ∈ cmd_pending_q a ++ scan_pending_q a ++ ext_cmd_pending_q a → node_at a (waiting_node a) i) ∧
  (∀ i, curr_cmd a = Some i → node_at a (current_node a) i) ∧
  (∀ k p, priv_at a k = Some p → bss_index p = k).

(** ** Primitive steps as equations *)

Lemma alter_Some {A} (f : A → A) i (l : list A) x : l !! i = Some x → alter f i l = <[i := f x]> l.
Proof.
  intros Hx. apply list_eq. intros j. destruct (decide (j = i)) as [->|Hj].
  - rewrite list_lookup_alter_eq, list_lookup_insert_eq by eauto using lookup_lt_Some. by rewrite Hx.
  - by rewrite list_lookup_alter_ne, list_lookup_insert_ne by done.
Qed.

Lemma upd_node_Some f i n a :
  nodes a !! i = Some n → upd_node f i a = set_nodes (<[i := f n]> (nodes a)) a.
Proof. intros Hn. unfold upd_node. by rewrite (alter_Some _ _ _ _ Hn). Qed.

(** A node whose memory is [n'] now. *)
Definition put_node (i : nat) (n' : cmd_ctrl_node) (a : mlan_adapter) : mlan_adapter :=
  set_nodes (<[i := n']> (nodes a)) a.

Lemma put_node_lookup i n n' a : nodes a !! i = Some n → nodes (put_node i n' a) !! i = Some n'.
Proof. intros. apply list_lookup_insert_eq. by eapply lookup_lt_Some. Qed.
Lemma put_node_ne i j n' a : i ≠ j → nodes (put_node i n' a) !! j = nodes a !! j.
Proof. apply list_lookup_insert_ne. Qed.
Lemma put_node_put i n n' a : put_node i n (put_node i n' a) = put_node i n a.
Proof. unfold put_node. cbn. by rewrite list_insert_insert_eq. Qed.
Lemma upd_put f i n n' a : nodes a !! i = Some n' → upd_node f i (put_node i n a) = put_node i (f n) a.
Proof.
  intros Hn. rewrite (upd_node_Some _ _ n) by eauto using put_node_lookup.
  apply put_node_put.
Qed.

(** A completed request is gone. *)
Definition complete (r : nat) (st : mlan_status) (code : Z) (a : mlan_adapter) : mlan_adapter :=
  log (IoctlComplete r st code) (set_ioctls (delete r (ioctls a)) a).

Lemma complete_cancel_eq r a : is_Some (ioctls a !! r) →
  complete_cancel r a = Some (complete r MLAN_STATUS_FAILURE MLAN_ERROR_CMD_CANCEL a).
Proof.
  intros [q Hq]. unfold complete_cancel, write_status, moal_ioctl_complete. rewrite Hq. cbn.
  rewrite lookup_insert_eq. cbn. unfold complete. cbn. by rewrite delete_insert_eq.
Qed.

(** The status with which a freed node completes its request. *)
Definition free_status (q : mlan_ioctl_req) : mlan_status :=
  if negb (status_code q =? MLAN_ERROR_NO_ERROR) then MLAN_STATUS_FAILURE else MLAN_STATUS_SUCCESS.

Definition cleaned (a : mlan_adapter) (n : cmd_ctrl_node) : cmd_ctrl_node :=
  mk_node (n_priv n) 0 0 (if usb a then None else cmdbuf n) None None None.

Definition complete_attached (n : cmd_ctrl_node) (a : mlan_adapter) : mlan_adapter :=
  match pioctl_buf n with
  | Some r => match ioctls a !! r with Some q => complete r (free_status q) (status_code q) a | None => a end
  | None => a
  end.
Definition log_resp (n : cmd_ctrl_node) (a : mlan_adapter) : mlan_adapter :=
  if respbuf n is Some _ then log RespComplete a else a.

(** The state after node [i], whose memory was [n], is put in the free queue. *)
Definition freed (i : nat) (n : cmd_ctrl_node) (a : mlan_adapter) : mlan_adapter :=
  set_cmd_free_q (cmd_free_q a ++ [i]) (put_node i (cleaned a n) (log_resp n (complete_attached n a))).

Lemma clean_eq i n a : nodes a !! i = Some n →
  wlan_clean_cmd_node i a = Some (put_node i (cleaned a n) (log_resp n a)).
Proof.
  intros Hn. unfold wlan_clean_cmd_node. rewrite Hn. cbn [mbind option_bind]. f_equal.
  rewrite (upd_node_Some _ _ _ _ Hn). fold (put_node i (set_cmd_no 0 (set_cmd_flag 0
    (set_pioctl_buf None (set_pdata_buf None n)))) a).
  change (usb (put_node _ _ a)) with (usb a). unfold log_resp, cleaned.
  assert (Hl : ∀ m, upd_node (set_respbuf None) i (log RespComplete (put_node i m a)) =
                    put_node i (set_respbuf None m) (log RespComplete a)).
  { intros m. change (log RespComplete (put_node i m a)) with (put_node i m (log RespComplete a)).
    by rewrite (upd_put _ _ _ n). }
  destruct (usb a); rewrite ?(upd_put _ _ _ _ _ Hn); destruct (respbuf n) eqn:Er; rewrite ?Hl; try done;
    unfold set_cmdbuf, set_cmd_no, set_cmd_flag, set_pioctl_buf, set_pdata_buf, set_respbuf; cbn;
    rewrite ?Er; done.
Qed.

Lemma complete_attached_fields n a :
  nodes (complete_attached n a) = nodes a ∧ usb (complete_attached n a) = usb a ∧
  cmd_free_q (complete_attached n a) = cmd_free_q a.
Proof. unfold complete_attached. repeat case_match; done. Qed.

Lemma free_eq i n a : nodes a !! i = Some n → (∀ r, pioctl_buf n = Some r → is_Some (ioctls a !! r)) →
  wlan_insert_cmd_to_free_q (Some i) a = Some (freed i n a).
Proof.
  intros Hn Hr. unfold wlan_insert_cmd_to_free_q. rewrite Hn. cbn [mbind option_bind].
  assert (Hc : match pioctl_buf n with
          | None => Some a
          | Some r => q ← ioctls a !! r; moal_ioctl_complete r (free_status q) a
          end = Some (complete_attached n a)).
  { unfold complete_attached. destruct (pioctl_buf n) as [r|]; [|done].
    destruct (Hr r eq_refl) as [q Hq]. rewrite Hq. cbn. unfold moal_ioctl_complete. by rewrite Hq. }
  unfold free_status in Hc. rewrite Hc. cbn [mbind option_bind].
  destruct (complete_attached_fields n a) as (Hb1 & Hb2 & Hb3).
  rewrite (clean_eq i n) by (by rewrite Hb1). cbn [mbind option_bind]. unfold freed. f_equal.
  assert (Hx : ∀ m, cmd_free_q (put_node i m (log_resp n (complete_attached n a))) = cmd_free_q a).
  { intros m. rewrite <- Hb3. unfold log_resp. destruct (respbuf n); reflexivity. }
  unfold cleaned. by rewrite Hb2, Hx.
Qed.

(** ** What the primitive steps do to the invariant *)

Definition same_memory (a a' : mlan_adapter) : Prop :=
  nodes a' = nodes a ∧ ioctls a' = ioctls a ∧ pscan_ioctl_req a' = pscan_ioctl_req a ∧
  pwarm_reset_ioctl_req a' = pwarm_reset_ioctl_req a ∧ usb a' = usb a ∧
  intf_header_len a' = intf_header_len a ∧ privs a' = privs a.

Definition waiting (a : mlan_adapter) : list nat := cmd_pending_q a ++ scan_pending_q a ++ ext_cmd_pending_q a.

(** Nodes only change places. *)
Lemma inv_requeue H H' a a' : inv H a → same_memory a a' →
  (∀ j, place j H' a' = place j H a) →
  (∀ i, i ∈ cmd_free_q a' → i ∈ cmd_free_q a ∨ node_at a clean_node i) →
  (∀ i, i ∈ waiting a' → i ∈ waiting a ∨ node_at a (waiting_node a) i) →
  (∀ i, curr_cmd a' = Some i → curr_cmd a = Some i ∨ node_at a (current_node a) i) →
  inv H' a'.
Proof.
  intros (I1 & I2 & I3 & I4 & I5 & I6) (E1 & E2 & E3 & E4 & E5 & E6 & E7) Hp Hf Hw Hc.
  assert (Hpriv : ∀ k, priv_at a' k = priv_at a k) by (intros; unfold priv_at; by rewrite E7).
  assert (Hat : ∀ (P Q : cmd_ctrl_node → Prop) i, (∀ n, P n → Q n) → node_at a P i → node_at a' Q i).
  { intros P Q i HPQ (n & Hn & HP). exists n. rewrite E1. eauto. }
  assert (Hwait : ∀ n, waiting_node a n → waiting_node a' n).
  { intros n. unfold waiting_node, header_len. by rewrite E5, E6, Hpriv. }
  assert (Hcur : ∀ n, current_node a n → current_node a' n).
  { intros n. unfold current_node. by rewrite E5, Hpriv. }
  unfold inv, owed. rewrite E1, E2, E3, E4. split_and!; try done.
  - intros i. rewrite Hp. apply I1.
  - intros i Hi. apply (Hat clean_node); [done|]. destruct (Hf i Hi); eauto.
  - intros i Hi. apply (Hat (waiting_node a)); [done|]. destruct (Hw i Hi); eauto.
  - intros i Hi. apply (Hat (current_node a)); [done|]. destruct (Hc i Hi); eauto.
  - intros k p. rewrite Hpriv. apply I6.
Qed.

(** The hands of an operation and the queues are disjoint. *)
Lemma inv_held i H a : inv (i :: H) a →
  (i < length (nodes a))%nat ∧ i ∉ H ∧ i ∉ cmd_free_q a ∧ i ∉ waiting a ∧ curr_cmd a ≠ Some i.
Proof.
  intros (I1 & _). specialize (I1 i). unfold place in I1. cbn [occ] in I1. rewrite decide_True in I1 by done.
  pose proof (occ_nonneg i H). pose proof (occ_nonneg i (cmd_free_q a)).
  pose proof (occ_nonneg i (cmd_pending_q a)). pose proof (occ_nonneg i (scan_pending_q a)).
  pose proof (occ_nonneg i (ext_cmd_pending_q a)). pose proof (occ_nonneg i (opt_list (curr_cmd a))).
  unfold waiting. rewrite !elem_of_app, !occ_elem. case_decide; [|lia]. split_and!; try lia.
  intros E. rewrite E in *. cbn in *. rewrite decide_True in * by done. lia.
Qed.

Lemma inv_held_node i H a : inv (i :: H) a → ∃ n, nodes a !! i = Some n.
Proof. intros I. destruct (inv_held _ _ _ I) as (Hl & _). by apply lookup_lt_is_Some. Qed.

Lemma owes_cases r o : (owes r o = 1 ∧ o = Some r) ∨ (owes r o = 0 ∧ o ≠ Some r).
Proof. unfold owes. case_decide; auto. Qed.
Lemma owes_nonneg r o : 0 <= owes r o.
Proof. destruct (owes_cases r o); lia. Qed.
Lemma owed_nonneg r a : 0 <= owed r a.
Proof.
  unfold owed. pose proof (zsum_nonneg (λ n, owes r (pioctl_buf n)) (nodes a) (λ n, owes_nonneg r _)).
  pose proof (owes_nonneg r (pscan_ioctl_req a)). pose proof (owes_nonneg r (pwarm_reset_ioctl_req a)). lia.
Qed.
#[export] Hint Resolve owes_nonneg owed_nonneg : driver.

Lemma owed_put r i n n' a : nodes a !! i = Some n →
  owed r (put_node i n' a) = owed r a - owes r (pioctl_buf n) + owes r (pioctl_buf n').
Proof.
  intros Hn. unfold owed, put_node. cbn. rewrite (zsum_insert _ _ _ n) by done. lia.
Qed.

Lemma acct_put r i n n' a : nodes a !! i = Some n →
  acct r (put_node i n' a) = acct r a - owes r (pioctl_buf n) + owes r (pioctl_buf n').
Proof. intros Hn. unfold acct. rewrite (owed_put _ _ _ _ _ Hn). unfold completed. cbn. lia. Qed.

Lemma acct_log r e a : acct r (log e a) = acct r a + completes r e.
Proof. unfold acct, completed, log. cbn. rewrite zsum_app. cbn. unfold owed. cbn. lia. Qed.

(** A node's memory changes: the new contents must suit the place of the node,
    and a new request must be live and referred to by nothing else. *)
Lemma inv_put_gen H i n n' a : inv H a → nodes a !! i = Some n →
  (i ∈ cmd_free_q a → clean_node n') → (i ∈ waiting a → waiting_node a n') →
  (curr_cmd a = Some i → current_node a n') →
  (∀ r, pioctl_buf n' = Some r → pioctl_buf n = Some r ∨ (owed r a = 0 ∧ is_Some (ioctls a !! r))) →
  inv H (put_node i n' a).
Proof.
  intros (I1 & I2 & I3 & I4 & I5 & I6) Hn Hf Hw Hc Hr.
  assert (Hat : ∀ (P : cmd_ctrl_node → Prop) j, (j = i → P n') → node_at a P j → node_at (put_node i n' a) P j).
  { intros P j Hj (m & Hm & HP). destruct (decide (j = i)) as [->|Hne].
    - exists n'. split; [by apply (put_node_lookup i n)|auto].
    - exists m. by rewrite put_node_ne. }
  unfold inv. split_and!; try done.
  - intros j. cbn. rewrite length_insert. apply I1.
  - intros r. rewrite (owed_put _ _ _ _ _ Hn). destruct (I2 r) as [Ho Hl].
    pose proof (owed_nonneg r a). pose proof (owes_nonneg r (pioctl_buf n)).
    destruct (owes_cases r (pioctl_buf n')) as [[-> E]|[-> _]]; cbn.
    + destruct (Hr r E) as [E'|[E' ?]]; [|split; [lia|done]].
      unfold owes. rewrite E', decide_True by done. split; [lia|]. intros. apply Hl. lia.
    + split; [lia|]. intros. apply Hl. lia.
  - intros j Hj. apply (Hat clean_node); [by intros ->; auto|by apply I3].
  - intros j Hj. apply (Hat (waiting_node a)); [by intros ->; auto|by apply I4].
  - intros j Hj. apply (Hat (current_node a)); [by intros ->; auto|by apply I5].
Qed.

(** A node in an operation's hands is private memory. *)
Lemma inv_put H i n n' a : inv (i :: H) a → nodes a !! i = Some n →
  (∀ r, pioctl_buf n' = Some r → pioctl_buf n = Some r ∨ (owed r a = 0 ∧ is_Some (ioctls a !! r))) →
  inv (i :: H) (put_node i n' a).
Proof.
  intros I Hn Hr. destruct (inv_held _ _ _ I) as (_ & _ & Hf & Hw & Hc). by apply (inv_put_gen _ _ n).
Qed.

(** Completing a request nothing refers to any more. *)
Lemma inv_complete H r st code a : inv H a → owed r a = 0 → inv H (complete r st code a).
Proof.
  intros (I1 & I2 & I3 & I4 & I5 & I6) Hr. unfold inv. split_and!; try done.
  intros r'. destruct (I2 r') as [Ho Hl]. split; [done|]. intros E. cbn.
  rewrite lookup_delete_ne; [by apply Hl|]. intros <-. change (owed r a = 1) in E. lia.
Qed.
Lemma acct_complete r' r st code a : acct r' (complete r st code a) = acct r' a + (if decide (r = r') then 1 else 0).
Proof.
  unfold complete. rewrite acct_log. reflexivity.
Qed.
Lemma inv_log H e a : inv H a → inv H (log e a).
Proof. done. Qed.

Lemma owed_ge r a i n : nodes a !! i = Some n → pioctl_buf n = Some r → 1 <= owed r a.
Proof.
  intros Hn Hr. pose proof (owed_put r i n (set_pioctl_buf None n) a Hn) as E.
  pose proof (owed_nonneg r (put_node i (set_pioctl_buf None n) a)). cbn in E.
  unfold owes in E. rewrite Hr, decide_True, decide_False in E by done. lia.
Qed.

Lemma inv_live H i n r a : inv H a → nodes a !! i = Some n → pioctl_buf n = Some r →
  owed r a = 1 ∧ is_Some (ioctls a !! r).
Proof.
  intros (_ & I2 & _) Hn Hr. pose proof (owed_ge _ _ _ _ Hn Hr). destruct (I2 r) as [? Hl].
  split; [lia|]. apply Hl. lia.
Qed.

Definition detached (n : cmd_ctrl_node) : cmd_ctrl_node := set_pioctl_buf None n.

Lemma owed_detached r i n a : nodes a !! i = Some n →
  owed r (put_node i (detached n) a) = owed r a - owes r (pioctl_buf n).
Proof.
  intros Hn. rewrite (owed_put _ _ _ _ _ Hn). change (owes r (pioctl_buf (detached n))) with 0. lia.
Qed.

(** Nothing refers to a request once its node is detached. *)
Lemma owed_detached_self H r i n a : inv H a → nodes a !! i = Some n → pioctl_buf n = Some r →
  owed r (put_node i (detached n) a) = 0.
Proof.
  intros I Hn Hr. rewrite (owed_detached _ _ _ _ Hn), Hr. destruct (inv_live _ _ _ _ _ I Hn Hr) as [-> _].
  unfold owes. by rewrite decide_True.
Qed.

(** Completing and freeing, before the node is put back in the queue. *)
Definition freed_memory (i : nat) (n : cmd_ctrl_node) (a : mlan_adapter) : mlan_adapter :=
  put_node i (cleaned a n) (log_resp n (complete_attached n a)).

Lemma log_resp_inv H n a : inv H a → inv H (log_resp n a).
Proof. intros. unfold log_resp. by destruct (respbuf n). Qed.

Lemma freed_memory_inv H i n a : inv (i :: H) a → nodes a !! i = Some n → inv (i :: H) (freed_memory i n a).
Proof.
  intros I Hn. unfold freed_memory, complete_attached. destruct (pioctl_buf n) as [r|] eqn:Er.
  - destruct (inv_live _ _ _ _ _ I Hn Er) as [_ [q Hq]]. rewrite Hq.
    pose proof (owed_detached_self _ _ _ _ _ I Hn Er) as Ho.
    assert (I2 : inv (i :: H) (put_node i (detached n) a)) by (apply inv_put with n; [done|done|done]).
    apply inv_complete with (r := r) (st := free_status q) (code := status_code q) in I2; [|done].
    apply (log_resp_inv _ n) in I2.
    apply inv_put with (n := detached n) (n' := cleaned a n) in I2; [| |done].
    + revert I2. unfold log_resp. destruct (respbuf n); intros I2.
      * change (put_node i ?m (log ?e (complete ?r ?s ?c (put_node i ?m' a))))
          with (log e (complete r s c (put_node i m (put_node i m' a)))) in I2.
        by rewrite put_node_put in I2.
      * change (put_node i ?m (complete ?r ?s ?c (put_node i ?m' a)))
          with (complete r s c (put_node i m (put_node i m' a))) in I2.
        by rewrite put_node_put in I2.
    + unfold log_resp. destruct (respbuf n); by apply (put_node_lookup i n).
  - apply inv_put with n; [by apply log_resp_inv|by unfold log_resp; destruct (respbuf n)|done].
Qed.

Lemma freed_nodes_ne i j n a : i ≠ j → nodes (freed i n a) !! j = nodes a !! j.
Proof.
  intros Hij. unfold freed. change (nodes (set_cmd_free_q _ ?b)) with (nodes b).
  rewrite put_node_ne by done. unfold log_resp.
  destruct (complete_attached_fields n a) as (E & _). destruct (respbuf n); cbn; by rewrite E.
Qed.

(** Fields freeing a node leaves alone. *)
Lemma freed_fields i n a :
  cmd_free_q (freed i n a) = cmd_free_q a ++ [i] ∧ cmd_pending_q (freed i n a) = cmd_pending_q a ∧
  scan_pending_q (freed i n a) = scan_pending_q a ∧ ext_cmd_pending_q (freed i n a) = ext_cmd_pending_q a ∧
  curr_cmd (freed i n a) = curr_cmd a ∧ pscan_ioctl_req (freed i n a) = pscan_ioctl_req a ∧
  length (nodes (freed i n a)) = length (nodes a).
Proof.
  unfold freed, put_node, log_resp, complete_attached. cbn.
  rewrite length_insert. destruct (respbuf n), (pioctl_buf n) as [r|]; try done;
    destruct (ioctls a !! r); done.
Qed.

Lemma freed_inv H i n a : inv (i :: H) a → nodes a !! i = Some n → inv H (freed i n a).
Proof.
  intros I Hn. pose proof (freed_memory_inv _ _ _ _ I Hn) as I2.
  destruct (freed_fields i n a) as (E1 & _).
  assert (Eq : cmd_free_q (freed_memory i n a) = cmd_free_q a).
  { unfold freed_memory, log_resp, complete_attached. destruct (respbuf n), (pioctl_buf n) as [r|]; try done;
      destruct (ioctls a !! r); done. }
  apply (inv_requeue (i :: H) H (freed_memory i n a)); try done.
  - intros j. unfold place. rewrite E1, occ_app, Eq. cbn [occ].
    change (cmd_pending_q (freed i n a)) with (cmd_pending_q (freed_memory i n a)).
    change (scan_pending_q (freed i n a)) with (scan_pending_q (freed_memory i n a)).
    change (ext_cmd_pending_q (freed i n a)) with (ext_cmd_pending_q (freed_memory i n a)).
    change (curr_cmd (freed i n a)) with (curr_cmd (freed_memory i n a)). lia.
  - intros j Hj. rewrite E1 in Hj. apply elem_of_app in Hj as [Hj|Hj%list_elem_of_singleton].
    + left. by rewrite Eq.
    + right. subst j. exists (cleaned a n). split; [|done]. unfold freed_memory.
      apply (put_node_lookup i n). unfold log_resp.
      destruct (complete_attached_fields n a) as (E & _). destruct (respbuf n); cbn; by rewrite E.
  - by left.
  - by left.
Qed.

(** Freeing settles the account: what was attached is completed. *)
Lemma freed_acct H r i n a : inv H a → nodes a !! i = Some n → acct r (freed i n a) = acct r a.
Proof.
  intros I Hn. change (acct r (freed i n a)) with (acct r (freed_memory i n a)). unfold freed_memory.
  destruct (complete_attached_fields n a) as (E & _).
  assert (Hn' : nodes (log_resp n (complete_attached n a)) !! i = Some n).
  { unfold log_resp. destruct (respbuf n); cbn; by rewrite E. }
  rewrite (acct_put _ _ _ _ _ Hn').
  assert (Hlog : ∀ b, acct r (log_resp n b) = acct r b).
  { intros b. unfold log_resp. destruct (respbuf n); [|done]. rewrite acct_log. cbn. lia. }
  rewrite Hlog. unfold complete_attached. destruct (pioctl_buf n) as [r'|] eqn:Er; [|cbn; lia].
  destruct (inv_live _ _ _ _ _ I Hn Er) as [_ [q ->]]. rewrite acct_complete. unfold owes. cbn.
  repeat case_decide; simplify_eq; lia.
Qed.

(** ** Moving nodes *)

Ltac requeue := apply (inv_requeue _ _ _ _ ltac:(eassumption)); [done| |try by left|try by left|try by left].

Lemma inv_set_pending H H' q a : inv H a →
  (∀ j, occ j H' + occ j q = occ j H + occ j (cmd_pending_q a)) →
  (∀ j, j ∈ q → j ∈ waiting a ∨ node_at a (waiting_node a) j) → inv H' (set_cmd_pending_q q a).
Proof.
  intros I Hq Hw. apply (inv_requeue _ _ _ _ I); try done; try by left.
  - intros j. unfold place. cbn. specialize (Hq j). lia.
  - intros j. unfold waiting in *. cbn. rewrite !elem_of_app. intros [Hj|Hj].
    + destruct (Hw j Hj) as [Hj'|]; [|by right]. left. by rewrite !elem_of_app in Hj'.
    + left. by right.
Qed.
Lemma inv_set_scan H H' q a : inv H a →
  (∀ j, occ j H' + occ j q = occ j H + occ j (scan_pending_q a)) →
  (∀ j, j ∈ q → j ∈ waiting a ∨ node_at a (waiting_node a) j) → inv H' (set_scan_pending_q q a).
Proof.
  intros I Hq Hw. apply (inv_requeue _ _ _ _ I); try done; try by left.
  - intros j. unfold place. cbn. specialize (Hq j). lia.
  - intros j. unfold waiting in *. cbn. rewrite !elem_of_app. intros [Hj|[Hj|Hj]]; try by eauto.
    destruct (Hw j Hj) as [Hj'|]; [|by right]. left. by rewrite !elem_of_app in Hj'.
Qed.
Lemma inv_set_ext H H' q a : inv H a →
  (∀ j, occ j H' + occ j q = occ j H + occ j (ext_cmd_pending_q a)) →
  (∀ j, j ∈ q → j ∈ waiting a ∨ node_at a (waiting_node a) j) → inv H' (set_ext_cmd_pending_q q a).
Proof.
  intros I Hq Hw. apply (inv_requeue _ _ _ _ I); try done; try by left.
  - intros j. unfold place. cbn. specialize (Hq j). lia.
  - intros j. unfold waiting in *. cbn. rewrite !elem_of_app. intros [Hj|[Hj|Hj]]; try by eauto.
    destruct (Hw j Hj) as [Hj'|]; [|by right]. left. by rewrite !elem_of_app in Hj'.
Qed.
Lemma inv_set_curr H H' o a : inv H a →
  (∀ j, occ j H' + occ j (opt_list o) = occ j H + occ j (opt_list (curr_cmd a))) →
  (∀ j, o = Some j → curr_cmd a = Some j ∨ node_at a (current_node a) j) → inv H' (set_curr_cmd o a).
Proof.
  intros I Hq Hw. apply (inv_requeue _ _ _ _ I); try done; try by left.
  intros j. unfold place. cbn. specialize (Hq j). lia.
Qed.

(** The current command leaves its place. *)
Lemma inv_take_curr H i a : inv H a → curr_cmd a = Some i → inv (i :: H) (set_curr_cmd None a).
Proof. intros I Hc. apply (inv_set_curr H); [done|intros j; rewrite Hc; cbn; lia|done]. Qed.

(** A waiting node keeps its description while its queue changes. *)
Lemma waiting_at H i a : inv H a → i ∈ waiting a → node_at a (waiting_node a) i.
Proof. intros (_ & _ & _ & I4 & _) Hi. by apply I4. Qed.

(** Queueing a node that is in hand. *)
Lemma pending_eq i t a : node_at a (waiting_node a) i →
  ∃ q, wlan_insert_cmd_to_pending_q (Some i) t a = Some (set_cmd_pending_q q a) ∧
       (q = cmd_pending_q a ++ [i] ∨ q = i :: cmd_pending_q a).
Proof.
  intros (n & Hn & (cb & Hcb & _) & _). unfold wlan_insert_cmd_to_pending_q, node_cmd.
  rewrite Hn. cbn [mbind option_bind]. rewrite Hcb. cbn [mbind option_bind].
  match goal with |- context [if ?c then cmd_pending_q a ++ _ else _] => destruct c end; eauto.
Qed.

Lemma pending_inv H i q a : inv (i :: H) a → node_at a (waiting_node a) i →
  q = cmd_pending_q a ++ [i] ∨ q = i :: cmd_pending_q a → inv H (set_cmd_pending_q q a).
Proof.
  intros I Hi Hq. apply (inv_set_pending (i :: H)); [done| |].
  - intros j. destruct Hq as [-> | ->]; rewrite ?occ_app; cbn [occ]; lia.
  - intros j Hj. assert (j = i ∨ j ∈ cmd_pending_q a) as [->|Hj'].
    { destruct Hq as [-> | ->]; [apply elem_of_app in Hj as [?|?%list_elem_of_singleton]|
        apply elem_of_cons in Hj as [?|?]]; auto. }
    + by right.
    + left. unfold waiting. rewrite elem_of_app. by left.
Qed.

(** The result of an operation: it has one, which keeps the invariant and the
    accounts. *)
Definition done_ok (H : list nat) (a : mlan_adapter) (m : option mlan_adapter) (Q : mlan_adapter → Prop) : Prop :=
  ∃ a', m = Some a' ∧ inv H a' ∧ (∀ r, acct r a' = acct r a) ∧ Q a'.

(** What the operations on queues leave alone. *)
Definition frame (a a' : mlan_adapter) : Prop :=
  usb a' = usb a ∧ intf_header_len a' = intf_header_len a ∧ privs a' = privs a ∧
  length (nodes a') = length (nodes a) ∧ curr_cmd a' = curr_cmd a ∧ pscan_ioctl_req a' = pscan_ioctl_req a ∧
  hw_status a' = hw_status a ∧ cmd_timer_is_set a' = cmd_timer_is_set a ∧
  (∀ i, curr_cmd a = Some i → nodes a' !! i = nodes a !! i).

Lemma frame_refl a : frame a a.
Proof. by unfold frame. Qed.
Lemma frame_trans a b c : frame a b → frame b c → frame a c.
Proof.
  intros (A1 & A2 & A3 & A4 & A5 & A6 & A7 & A8 & A9) (B1 & B2 & B3 & B4 & B5 & B6 & B7 & B8 & B9).
  unfold frame. rewrite B1, B2, B3, B4, B5, B6, B7, B8. split_and!; try done.
  intros i Hi. rewrite B9; [by apply A9|congruence].
Qed.
#[export] Hint Resolve frame_refl : driver.

Lemma freed_frame H i n a : inv (i :: H) a → frame a (freed i n a).
Proof.
  intros I. destruct (inv_held _ _ _ I) as (_ & _ & _ & _ & Hc). destruct (freed_fields i n a) as (_ & _ & _ & _ & E5 & E6 & E7).
  unfold frame. rewrite E5, E6, E7. split_and!; try done;
    try (unfold freed, log_resp, complete_attached; cbn; destruct (respbuf n), (pioctl_buf n) as [r|]; try done;
         destruct (ioctls a !! r); done).
  intros j Hj. apply freed_nodes_ne. congruence.
Qed.

(** Freeing a node in hand. *)
Lemma free_ok H i a : inv (i :: H) a →
  ∃ n, nodes a !! i = Some n ∧ wlan_insert_cmd_to_free_q (Some i) a = Some (freed i n a) ∧
       inv H (freed i n a) ∧ (∀ r, acct r (freed i n a) = acct r a) ∧ frame a (freed i n a).
Proof.
  intros I. destruct (inv_held_node _ _ _ I) as [n Hn]. exists n. split; [done|]. split; [|split_and!].
  - apply free_eq; [done|]. intros r Hr. by destruct (inv_live _ _ _ _ _ I Hn Hr).
  - by apply freed_inv.
  - intros r. by eapply freed_acct.
  - by eapply freed_frame.
Qed.

(** ** Cancelling an attached request *)

Definition cancelled (i : nat) (n : cmd_ctrl_node) (a : mlan_adapter) : mlan_adapter :=
  match pioctl_buf n with
  | Some r => complete r MLAN_STATUS_FAILURE MLAN_ERROR_CMD_CANCEL (put_node i (detached n) a)
  | None => a
  end.

Lemma inv_detach H i n a : inv H a → nodes a !! i = Some n → inv H (put_node i (detached n) a).
Proof.
  intros I Hn. apply (inv_put_gen _ _ n); [done|done| | | |done].
  - intros Hi. destruct I as (_ & _ & I3 & _). destruct (I3 i Hi) as (m & Hm & ? & ? & ?).
    rewrite Hn in Hm. by injection Hm as <-.
  - intros Hi. destruct (waiting_at _ _ _ I Hi) as (m & Hm & Hw). rewrite Hn in Hm. by injection Hm as <-.
  - intros Hi. destruct I as (_ & _ & _ & _ & I5 & _). destruct (I5 i Hi) as (m & Hm & Hw).
    rewrite Hn in Hm. by injection Hm as <-.
Qed.

Lemma cancelled_inv H i n a : inv H a → nodes a !! i = Some n → inv H (cancelled i n a).
Proof.
  intros I Hn. unfold cancelled. destruct (pioctl_buf n) as [r|] eqn:Er; [|done].
  apply inv_complete; [by apply inv_detach|]. by eapply owed_detached_self.
Qed.

Lemma cancelled_acct H r i n a : inv H a → nodes a !! i = Some n → acct r (cancelled i n a) = acct r a.
Proof.
  intros I Hn. unfold cancelled. destruct (pioctl_buf n) as [r'|] eqn:Er; [|done].
  rewrite acct_complete, (acct_put _ _ _ _ _ Hn), Er. change (owes r (pioctl_buf (detached n))) with 0.
  unfold owes. repeat case_decide; simplify_eq; lia.
Qed.

Lemma detach_eq H i n a : inv H a → nodes a !! i = Some n →
  match pioctl_buf n with
  | Some r => complete_cancel r (upd_node (set_pioctl_buf None) i a)
  | None => Some a
  end = Some (cancelled i n a).
Proof.
  intros I Hn. unfold cancelled. destruct (pioctl_buf n) as [r|] eqn:Er; [|done].
  rewrite (upd_node_Some _ _ _ _ Hn). fold (detached n). fold (put_node i (detached n) a).
  apply complete_cancel_eq. by destruct (inv_live _ _ _ _ _ I Hn Er).
Qed.
Lemma detach_complete_eq H i n a : inv H a → nodes a !! i = Some n → detach_complete i a = Some (cancelled i n a).
Proof.
  intros I Hn. unfold detach_complete. rewrite Hn. cbn [mbind option_bind]. by eapply detach_eq.
Qed.

Lemma cancelled_lookup i n a : nodes a !! i = Some n → nodes (cancelled i n a) !! i = Some (detached n).
Proof.
  intros Hn. unfold cancelled. destruct (pioctl_buf n) eqn:E; [by apply (put_node_lookup i n)|].
  rewrite Hn. destruct n; cbn in *. by subst.
Qed.
Lemma cancelled_ne i j n a : i ≠ j → nodes (cancelled i n a) !! j = nodes a !! j.
Proof. intros. unfold cancelled. destruct (pioctl_buf n); [by apply put_node_ne|done]. Qed.

(** The queues, and what else cancelling leaves alone. *)
Definition queues (a : mlan_adapter) : list (list nat) :=
  [cmd_free_q a; cmd_pending_q a; scan_pending_q a; ext_cmd_pending_q a].
Lemma cancelled_queues i n a : queues (cancelled i n a) = queues a.
Proof. unfold cancelled. by destruct (pioctl_buf n). Qed.
Lemma cancelled_frame i n a : curr_cmd a ≠ Some i → frame a (cancelled i n a).
Proof.
  intros Hc. unfold frame. split_and!; try (unfold cancelled; destruct (pioctl_buf n); cbn; rewrite ?length_insert; done).
  intros j Hj. apply cancelled_ne. congruence.
Qed.
