(* ===== verification/CmdSafe.v ===== *)
(** * CmdSafe: preparing, queueing and downloading commands is safe

    On a state that satisfies the invariant of [CmdInv] an operation of [CmdQueue]
    has a result (no NULL pointer, no request that was already completed, no loop
    without end), keeps the invariant and settles the account of the ioctl
    requests.  This file has the queue operations, the preparation of a command
    and its download; [CmdResp] has the responses, [CmdCancel] the cancellations. *)

From S2P Require Import Prelude CmdQueue CmdInv.

(** ** Taking a node from a queue *)

Lemma take_scan H i q a : inv H a → scan_pending_q a = i :: q →
  inv (i :: H) (set_scan_pending_q q a) ∧ node_at a (waiting_node a) i.
Proof.
  intros I E. split.
  - apply (inv_set_scan H); [done| |].
    + intros j. rewrite E. cbn. lia.
    + intros j Hj. left. unfold waiting. rewrite E, !elem_of_app, elem_of_cons. auto.
  - eapply waiting_at; [done|]. unfold waiting. rewrite E, !elem_of_app, elem_of_cons. auto.
Qed.
Lemma take_ext H i q a : inv H a → ext_cmd_pending_q a = i :: q →
  inv (i :: H) (set_ext_cmd_pending_q q a) ∧ node_at a (waiting_node a) i.
Proof.
  intros I E. split.
  - apply (inv_set_ext H); [done| |].
    + intros j. rewrite E. cbn. lia.
    + intros j Hj. left. unfold waiting. rewrite E, !elem_of_app, elem_of_cons. auto.
  - eapply waiting_at; [done|]. unfold waiting. rewrite E, !elem_of_app, elem_of_cons. auto.
Qed.
Lemma take_pending H i q a : inv H a → cmd_pending_q a = i :: q →
  inv (i :: H) (set_cmd_pending_q q a) ∧ node_at a (waiting_node a) i.
Proof.
  intros I E. split.
  - apply (inv_set_pending H); [done| |].
    + intros j. rewrite E. cbn. lia.
    + intros j Hj. left. unfold waiting. rewrite E, !elem_of_app, elem_of_cons. auto.
  - eapply waiting_at; [done|]. unfold waiting. rewrite E, !elem_of_app, elem_of_cons. auto.
Qed.

Lemma node_cmd_at i a : node_at a (waiting_node a) i → ∃ b, node_cmd a i = Some b.
Proof.
  intros (n & Hn & (cb & Hcb & _) & _). exists (body cb). unfold node_cmd. rewrite Hn. cbn [mbind option_bind].
  by rewrite Hcb.
Qed.

(** The pool bounds every queue. *)
Lemma queue_bound H a q : inv H a → (∀ i, occ i q <= place i H a) → (length q <= length (nodes a))%nat.
Proof.
  intros (I1 & _) Hq. rewrite <- (length_seq (length (nodes a)) 0).
  assert (Hr : ∀ i, i ∈ q → occ i q = 1 ∧ (i < length (nodes a))%nat).
  { intros i Hi. apply occ_elem in Hi. specialize (Hq i). rewrite I1 in Hq. case_decide; lia. }
  apply occ_length; [intros i Hi; by apply Hr|]. intros i Hi. apply elem_of_seq. destruct (Hr i Hi). lia.
Qed.
Lemma place_parts i H a :
  0 <= occ i H ∧ 0 <= occ i (cmd_free_q a) ∧ 0 <= occ i (cmd_pending_q a) ∧ 0 <= occ i (scan_pending_q a) ∧
  0 <= occ i (ext_cmd_pending_q a) ∧ 0 <= occ i (opt_list (curr_cmd a)).
Proof. repeat split; apply occ_nonneg. Qed.
Ltac bound := eapply queue_bound; [eassumption|]; intros ?i; unfold place;
  match goal with |- context [occ ?i ?H + occ ?i (cmd_free_q ?a)] => pose proof (place_parts i H a); lia end.

(** *** Cancel and free a node in hand *)

Lemma cancel_free_ok H i n a : inv (i :: H) a → nodes a !! i = Some n →
  ∃ a', wlan_insert_cmd_to_free_q (Some i) (cancelled i n a) = Some a' ∧ inv H a' ∧
        (∀ r, acct r a' = acct r a) ∧ frame a a' ∧
        cmd_pending_q a' = cmd_pending_q a ∧ scan_pending_q a' = scan_pending_q a ∧
        ext_cmd_pending_q a' = ext_cmd_pending_q a.
Proof.
  intros I Hn. pose proof (cancelled_inv _ _ _ _ I Hn) as I2.
  destruct (free_ok _ _ _ I2) as (m & Hm & E & I3 & A & F). exists (freed i m (cancelled i n a)).
  destruct (freed_fields i m (cancelled i n a)) as (_ & E2 & E3 & E4 & _).
  pose proof (cancelled_queues i n a) as Q. injection Q as _ Q2 Q3 Q4.
  split_and!; try done; try congruence.
  - intros r. rewrite A. by eapply cancelled_acct.
  - eapply frame_trans; [|exact F]. apply cancelled_frame. by destruct (inv_held _ _ _ I) as (_ & _ & _ & _ & ?).
Qed.

Lemma plain_free_ok H i a : inv (i :: H) a →
  ∃ a', wlan_insert_cmd_to_free_q (Some i) a = Some a' ∧ inv H a' ∧
        (∀ r, acct r a' = acct r a) ∧ frame a a' ∧
        cmd_pending_q a' = cmd_pending_q a ∧ scan_pending_q a' = scan_pending_q a ∧
        ext_cmd_pending_q a' = ext_cmd_pending_q a.
Proof.
  intros I. destruct (free_ok _ _ _ I) as (m & Hm & E & I3 & A & F).
  destruct (freed_fields i m a) as (_ & E2 & E3 & E4 & _). exists (freed i m a). by split_and!.
Qed.

(** ** Flushing *)

Lemma flush_scan_loop_ok H fuel a : inv H a → (length (scan_pending_q a) <= fuel)%nat →
  ∃ a', flush_scan_loop fuel a = Some a' ∧ inv H a' ∧ (∀ r, acct r a' = acct r a) ∧ frame a a' ∧
        scan_pending_q a' = [] ∧ cmd_pending_q a' = cmd_pending_q a ∧ ext_cmd_pending_q a' = ext_cmd_pending_q a.
Proof.
  revert a. induction fuel as [|fuel IH]; intros a I Hl; cbn [flush_scan_loop];
    destruct (scan_pending_q a) as [|i q] eqn:E; try (cbn in Hl; lia);
    try (by (exists a; split_and!; auto with driver)).
  destruct (take_scan _ _ _ _ I E) as [I1 Hw]. set (a1 := set_scan_pending_q q a) in *.
  destruct (node_cmd_at i a1 Hw) as [b Hb]. rewrite Hb. cbn [mbind option_bind].
  destruct (inv_held_node _ _ _ I1) as [n Hn]. rewrite Hn. cbn [mbind option_bind].
  assert (Hstep : ∃ a2, (a0 ← match pioctl_buf n with
      | Some r => if negb (command b =? HostCmd_CMD_802_11_SCAN) && negb (command b =? HostCmd_CMD_802_11_SCAN_EXT)
                  then complete_cancel r (upd_node (set_pioctl_buf None) i a1) else Some a1
      | None => Some a1
      end; wlan_insert_cmd_to_free_q (Some i) a0) = Some a2 ∧ inv H a2 ∧ (∀ r, acct r a2 = acct r a) ∧
      frame a1 a2 ∧ cmd_pending_q a2 = cmd_pending_q a ∧ scan_pending_q a2 = q ∧
      ext_cmd_pending_q a2 = ext_cmd_pending_q a).
  { destruct (negb _ && negb _).
    - rewrite (detach_eq _ _ _ _ I1 Hn). exact (cancel_free_ok _ _ _ _ I1 Hn).
    - destruct (pioctl_buf n); cbn [mbind option_bind]; exact (plain_free_ok _ _ _ I1). }
  destruct Hstep as (a2 & E2 & I2 & A2 & F2 & Q1 & Q2 & Q3).
  destruct (IH a2 I2) as (a3 & E3 & I3 & A3 & F3 & S3 & P3 & X3).
  { rewrite Q2. cbn in Hl. lia. }
  exists a3. split_and!; try done; try (etransitivity; eassumption).
  - destruct (match pioctl_buf n with Some _ => _ | None => _ end) as [a0|]; [|done].
    cbn [mbind option_bind] in *. by rewrite E2.
  - intros r. by rewrite A3.
  - eapply frame_trans; [|exact F3]. eapply frame_trans; [|exact F2]. done.
Qed.

Lemma flush_scan_ok H a : inv H a →
  ∃ a', wlan_flush_scan_queue a = Some a' ∧ inv H a' ∧ (∀ r, acct r a' = acct r a) ∧ frame a a' ∧
        scan_pending_q a' = [] ∧ cmd_pending_q a' = cmd_pending_q a ∧ ext_cmd_pending_q a' = ext_cmd_pending_q a ∧
        scan_processing a' = false.
Proof.
  intros I. destruct (flush_scan_loop_ok H (length (nodes a)) a I) as (b & E & I2 & A & F & S & P & X); [bound|].
  exists (set_scan_processing false b). unfold wlan_flush_scan_queue. rewrite E. by split_and!.
Qed.

Lemma flush_ext_loop_ok H fuel a : inv H a → (length (ext_cmd_pending_q a) <= fuel)%nat →
  ∃ a', flush_ext_loop fuel a = Some a' ∧ inv H a' ∧ (∀ r, acct r a' = acct r a) ∧ frame a a' ∧
        ext_cmd_pending_q a' = [] ∧ cmd_pending_q a' = cmd_pending_q a ∧ scan_pending_q a' = scan_pending_q a.
Proof.
  revert a. induction fuel as [|fuel IH]; intros a I Hl; cbn [flush_ext_loop];
    destruct (ext_cmd_pending_q a) as [|i q] eqn:E; try (cbn in Hl; lia);
    try (by (exists a; split_and!; auto with driver)).
  destruct (take_ext _ _ _ _ I E) as [I1 Hw]. set (a1 := set_ext_cmd_pending_q q a) in *.
  destruct (node_cmd_at i a1 Hw) as [b Hb]. rewrite Hb. cbn [mbind option_bind].
  destruct (inv_held_node _ _ _ I1) as [n Hn]. rewrite Hn. cbn [mbind option_bind].
  rewrite (detach_eq _ _ _ _ I1 Hn). cbn [mbind option_bind].
  destruct (cancel_free_ok _ _ _ _ I1 Hn) as (a2 & E2 & I2 & A2 & F2 & Q1 & Q2 & Q3). rewrite E2. cbn [mbind option_bind].
  destruct (IH a2 I2) as (a3 & E3 & I3 & A3 & F3 & S3 & P3 & X3).
  { rewrite Q3. cbn in *. lia. }
  exists a3. split_and!; try done; try (etransitivity; eassumption).
  - intros r. rewrite A3. apply A2.
  - eapply frame_trans; [|exact F3]. eapply frame_trans; [|exact F2]. done.
Qed.

Lemma flush_ext_ok H a : inv H a →
  ∃ a', wlan_flush_ext_cmd_pending_queue a = Some a' ∧ inv H a' ∧ (∀ r, acct r a' = acct r a) ∧ frame a a' ∧
        ext_cmd_pending_q a' = [] ∧ cmd_pending_q a' = cmd_pending_q a ∧ scan_pending_q a' = scan_pending_q a.
Proof. intros I. apply flush_ext_loop_ok; [done|]. bound. Qed.

(** Moving the commands held back during an extended scan. *)
Lemma move_loop_ok H fuel a : inv H a → (length (ext_cmd_pending_q a) <= fuel)%nat →
  ∃ a', move_loop fuel a = Some a' ∧ inv H a' ∧ (∀ r, acct r a' = acct r a) ∧ frame a a' ∧
        ext_cmd_pending_q a' = [] ∧ scan_pending_q a' = scan_pending_q a.
Proof.
  revert a. induction fuel as [|fuel IH]; intros a I Hl; cbn [move_loop];
    destruct (ext_cmd_pending_q a) as [|i q] eqn:E; try (cbn in Hl; lia);
    try (by (exists a; split_and!; auto with driver)).
  destruct (take_ext _ _ _ _ I E) as [I1 Hw]. set (a1 := set_ext_cmd_pending_q q a) in *.
  destruct (pending_eq i true a1 Hw) as (p & Ep & Hp). rewrite Ep. cbn [mbind option_bind].
  pose proof (pending_inv _ _ _ _ I1 Hw Hp) as I2.
  destruct (IH _ I2) as (a3 & E3 & I3 & A3 & F3 & S3 & P3); [cbn in *; lia|].
  exists a3. split_and!; try done.
Qed.
Lemma move_ok H a : inv H a →
  ∃ a', wlan_move_cmd_to_cmd_pending_q a = Some a' ∧ inv H a' ∧ (∀ r, acct r a' = acct r a) ∧ frame a a' ∧
        ext_cmd_pending_q a' = [] ∧ scan_pending_q a' = scan_pending_q a.
Proof. intros I. apply move_loop_ok; [done|]. bound. Qed.

(** ** Cancelling pending commands *)

Lemma take_unlink H i a : inv H a → i ∈ cmd_pending_q a →
  inv (i :: H) (unlink_pending i a) ∧ node_at a (waiting_node a) i.
Proof.
  intros I Hi. assert (Hw : i ∈ waiting a) by (unfold waiting; rewrite elem_of_app; by left).
  split; [|by eapply waiting_at].
  apply (inv_set_pending H); [done| |].
  - intros j. etransitivity; [apply f_equal; apply occ_filter_ne|]. cbn [occ].
    destruct (decide (j = i)) as [->|Hj]; [|rewrite decide_False by done; lia].
    rewrite decide_True by done. destruct I as (I1 & _). specialize (I1 i).
    pose proof (place_parts i H a). apply occ_elem in Hi. unfold place in I1.
    case_decide; lia.
  - intros j Hj. apply list_elem_of_filter in Hj as [_ Hj]. left. unfold waiting. rewrite elem_of_app. by left.
Qed.

Lemma unlink_length i a : i ∈ cmd_pending_q a →
  (length (cmd_pending_q (unlink_pending i a)) < length (cmd_pending_q a))%nat.
Proof. intros Hi. cbn. eapply length_filter_lt; [exact Hi|]. by intros []. Qed.

Lemma pending_find_elem P a i : pending_find P a = Some i →
  i ∈ cmd_pending_q a ∧ ∃ n, nodes a !! i = Some n ∧ P n = true.
Proof.
  unfold pending_find. destruct (list_find _ _) as [[k j]|] eqn:E; [|done]. cbn. intros [= ->].
  apply list_find_Some in E as (E & HP & _). split; [by eapply list_elem_of_lookup_2|].
  unfold node_is in HP. destruct (nodes a !! i) as [n|]; [|done]. exists n. split; [done|]. by apply Is_true_true.
Qed.
Lemma pending_find_None P a i n : pending_find P a = None → i ∈ cmd_pending_q a → nodes a !! i = Some n →
  P n = false.
Proof.
  unfold pending_find. destruct (list_find _ _) as [[k j]|] eqn:E; [done|]. intros _ Hi Hn.
  apply list_find_None in E. rewrite Forall_forall in E. specialize (E i Hi). cbn in E.
  unfold node_is in E. rewrite Hn in E. by destruct (P n).
Qed.

Section cancel_loop.
Context (H : list nat) (find : mlan_adapter → option nat) (detach : nat → mlan_adapter → option mlan_adapter)
  (T : mlan_adapter → mlan_adapter → Prop) (T_refl : ∀ a, T a a)
  (T_trans : ∀ a b c, T a b → T b c → T a c)
  (Hfind : ∀ a i, find a = Some i → i ∈ cmd_pending_q a)
  (Hstep : ∀ a i, inv H a → find a = Some i →
     ∃ a', (a1 ← detach i (unlink_pending i a); wlan_insert_cmd_to_free_q (Some i) a1) = Some a' ∧
           inv H a' ∧ T a a' ∧ frame a a' ∧ cmd_pending_q a' = cmd_pending_q (unlink_pending i a) ∧
           scan_pending_q a' = scan_pending_q a ∧ ext_cmd_pending_q a' = ext_cmd_pending_q a).

Lemma cancel_loop_fuel fuel a : inv H a → (length (cmd_pending_q a) <= fuel)%nat →
  ∃ a', cancel_loop find detach fuel a = Some a' ∧ inv H a' ∧ T a a' ∧ frame a a' ∧ find a' = None ∧
        scan_pending_q a' = scan_pending_q a ∧ ext_cmd_pending_q a' = ext_cmd_pending_q a.
Proof.
  revert a. induction fuel as [|fuel IH]; intros a I Hl; cbn [cancel_loop];
    destruct (find a) as [i|] eqn:E; try (by exists a; split_and!; auto with driver).
  - apply Hfind, unlink_length in E. lia.
  - destruct (Hstep a i I E) as (a2 & E2 & I2 & T2 & F2 & Q1 & Q2 & Q3).
    destruct (IH a2 I2) as (a3 & E3 & I3 & T3 & F3 & N3 & S3 & X3).
    { rewrite Q1. apply Hfind, unlink_length in E. lia. }
    exists a3. split_and!; try done; eauto using frame_trans; try congruence.
    destruct (detach i (unlink_pending i a)) as [b|]; [|done]. cbn [mbind option_bind] in *. by rewrite E2.
Qed.

Lemma cancel_loop_ok a : inv H a →
  ∃ a', cancel_loop find detach (length (nodes a)) a = Some a' ∧ inv H a' ∧ T a a' ∧ frame a a' ∧
        find a' = None ∧ scan_pending_q a' = scan_pending_q a ∧ ext_cmd_pending_q a' = ext_cmd_pending_q a.
Proof. intros I. apply cancel_loop_fuel; [done|]. bound. Qed.
End cancel_loop.

Definition kept (a a' : mlan_adapter) : Prop := ∀ r, acct r a' = acct r a.
Lemma kept_refl a : kept a a.
Proof. done. Qed.
Lemma kept_trans a b c : kept a b → kept b c → kept a c.
Proof. intros E1 E2 r. by rewrite E2. Qed.
#[export] Hint Resolve kept_refl : driver.

(** The three ways a pending command is cancelled: with its request completed as
    cancelled, without touching the request, and with the request left to its
    caller. *)
Lemma step_complete H a i : inv H a → i ∈ cmd_pending_q a →
  ∃ a', (a1 ← detach_complete i (unlink_pending i a); wlan_insert_cmd_to_free_q (Some i) a1) = Some a' ∧
        inv H a' ∧ kept a a' ∧ frame a a' ∧ cmd_pending_q a' = cmd_pending_q (unlink_pending i a) ∧
        scan_pending_q a' = scan_pending_q a ∧ ext_cmd_pending_q a' = ext_cmd_pending_q a.
Proof.
  intros I Hi. destruct (take_unlink _ _ _ I Hi) as [I1 _].
  destruct (inv_held_node _ _ _ I1) as [n Hn]. rewrite (detach_complete_eq _ _ _ _ I1 Hn). cbn [mbind option_bind].
  exact (cancel_free_ok _ _ _ _ I1 Hn).
Qed.
Lemma step_plain H a i : inv H a → i ∈ cmd_pending_q a →
  ∃ a', (a1 ← Some (unlink_pending i a); wlan_insert_cmd_to_free_q (Some i) a1) = Some a' ∧
        inv H a' ∧ kept a a' ∧ frame a a' ∧ cmd_pending_q a' = cmd_pending_q (unlink_pending i a) ∧
        scan_pending_q a' = scan_pending_q a ∧ ext_cmd_pending_q a' = ext_cmd_pending_q a.
Proof.
  intros I Hi. destruct (take_unlink _ _ _ I Hi) as [I1 _]. exact (plain_free_ok _ _ _ I1).
Qed.

Lemma cancel_scans_ok H a : inv H a →
  ∃ a', cancel_loop wlan_get_pending_scan_cmd (λ _, Some) (length (nodes a)) a = Some a' ∧ inv H a' ∧ kept a a' ∧
        frame a a' ∧ wlan_get_pending_scan_cmd a' = None ∧ scan_pending_q a' = scan_pending_q a ∧
        ext_cmd_pending_q a' = ext_cmd_pending_q a.
Proof.
  intros I. apply cancel_loop_ok; [apply kept_refl|exact kept_trans| | |done].
  - intros b i E. by apply pending_find_elem in E as [? _].
  - intros b i Ib E. apply step_plain; [done|]. by apply pending_find_elem in E as [? _].
Qed.

Lemma cancel_pending_ok H a : inv H a →
  ∃ a', cancel_loop pending_head detach_complete (length (nodes a)) a = Some a' ∧ inv H a' ∧ kept a a' ∧
        frame a a' ∧ cmd_pending_q a' = [] ∧ scan_pending_q a' = scan_pending_q a ∧
        ext_cmd_pending_q a' = ext_cmd_pending_q a.
Proof.
  intros I. assert (Hh : ∀ b i, pending_head b = Some i → i ∈ cmd_pending_q b).
  { intros b i E. by apply head_Some_elem_of. }
  destruct (cancel_loop_ok H pending_head detach_complete kept kept_refl kept_trans Hh
    (λ b i Ib E, step_complete H b i Ib (Hh b i E)) a I) as (a' & E & I' & K & F & N & S & X).
  exists a'. split_and!; try done. unfold pending_head in N. by destruct (cmd_pending_q a').
Qed.

(** ** Request pointers outside the nodes *)

Lemma write_status_ok H r code a : inv H a → is_Some (ioctls a !! r) →
  ∃ a', write_status r code a = Some a' ∧ inv H a' ∧ kept a a' ∧ frame a a' ∧ queues a' = queues a ∧
        nodes a' = nodes a ∧ (∀ s, is_Some (ioctls a' !! s) ↔ is_Some (ioctls a !! s)).
Proof.
  intros I [q Hq]. unfold write_status. rewrite Hq. cbn [mbind option_bind].
  eexists. split; [done|]. split_and!; try done.
  - destruct I as (I1 & I2 & I3 & I4 & I5 & I6). unfold inv. split_and!; try done.
    intros s. destruct (I2 s) as [Ho Hl]. split; [done|]. intros E. cbn.
    destruct (decide (r = s)) as [->|]; [by rewrite lookup_insert_eq|]. rewrite lookup_insert_ne by done. by apply Hl.
  - intros s. cbn. destruct (decide (r = s)) as [->|]; [by rewrite lookup_insert_eq, Hq|].
    by rewrite lookup_insert_ne.
Qed.

Lemma write_status_opt_ok H o code a : inv H a → (∀ r, o = Some r → is_Some (ioctls a !! r)) →
  ∃ a', write_status_opt o code a = Some a' ∧ inv H a' ∧ kept a a' ∧ frame a a' ∧ queues a' = queues a ∧
        nodes a' = nodes a ∧ (∀ s, is_Some (ioctls a' !! s) ↔ is_Some (ioctls a !! s)).
Proof.
  intros I Ho. destruct o as [r|]; [by apply write_status_ok; auto|]. exists a. by split_and!; auto with driver.
Qed.

(** The pending scan request is taken out. *)
Definition drop_pscan (a : mlan_adapter) : mlan_adapter := set_pscan_ioctl_req None a.
Lemma owed_drop_pscan r a : owed r (drop_pscan a) = owed r a - owes r (pscan_ioctl_req a).
Proof. unfold owed, drop_pscan. cbn. change (owes r None) with 0. lia. Qed.
Lemma acct_drop_pscan r a : acct r (drop_pscan a) = acct r a - owes r (pscan_ioctl_req a).
Proof. unfold acct. rewrite owed_drop_pscan. unfold completed. cbn. lia. Qed.
Lemma drop_pscan_inv H a : inv H a → inv H (drop_pscan a).
Proof.
  intros (I1 & I2 & I3 & I4 & I5 & I6). unfold inv. split_and!; try done.
  intros r. rewrite owed_drop_pscan. destruct (I2 r) as [Ho Hl].
  pose proof (owes_nonneg r (pscan_ioctl_req a)). split; [lia|]. intros. apply Hl. lia.
Qed.
Lemma pscan_live H r a : inv H a → pscan_ioctl_req a = Some r →
  owed r a = 1 ∧ is_Some (ioctls a !! r) ∧ owed r (drop_pscan a) = 0.
Proof.
  intros (_ & I2 & _) Hr. rewrite owed_drop_pscan, Hr. unfold owes at 1. rewrite decide_True by done.
  destruct (I2 r) as [Ho Hl]. pose proof (owed_nonneg r (drop_pscan a)) as Hn.
  rewrite owed_drop_pscan, Hr in Hn. unfold owes in Hn. rewrite decide_True in Hn by done.
  split_and!; try lia. apply Hl. lia.
Qed.

(** Frame without the pending scan request. *)
Definition frame_scan (a a' : mlan_adapter) : Prop :=
  usb a' = usb a ∧ intf_header_len a' = intf_header_len a ∧ privs a' = privs a ∧
  length (nodes a') = length (nodes a) ∧ curr_cmd a' = curr_cmd a ∧
  hw_status a' = hw_status a ∧ (∀ i, curr_cmd a = Some i → nodes a' !! i = nodes a !! i).
Lemma frame_frame_scan a a' : frame a a' → frame_scan a a'.
Proof. intros (A1 & A2 & A3 & A4 & A5 & A6 & A7 & A8 & A9). by unfold frame_scan. Qed.
Lemma frame_scan_refl a : frame_scan a a.
Proof. by unfold frame_scan. Qed.
Lemma frame_scan_trans a b c : frame_scan a b → frame_scan b c → frame_scan a c.
Proof.
  intros (A1 & A2 & A3 & A4 & A5 & A6 & A7) (B1 & B2 & B3 & B4 & B5 & B6 & B7).
  unfold frame_scan. rewrite B1, B2, B3, B4, B5, B6. split_and!; try done.
  intros i Hi. rewrite B7; [by apply A7|congruence].
Qed.
#[export] Hint Resolve frame_frame_scan frame_scan_refl : driver.

Lemma cancel_pscan_ok H a : inv H a →
  ∃ o a', cancel_pscan a = Some (o, a') ∧ inv H a' ∧ kept a a' ∧ frame_scan a a' ∧ queues a' = queues a ∧
          nodes a' = nodes a ∧ pscan_ioctl_req a' = None ∧ pwarm_reset_ioctl_req a' = pwarm_reset_ioctl_req a.
Proof.
  intros I. unfold cancel_pscan. destruct (pscan_ioctl_req a) as [r|] eqn:Er.
  - destruct (pscan_live _ _ _ I Er) as (_ & [q Hq] & Ho). rewrite Hq. cbn [mbind option_bind].
    fold (drop_pscan a). rewrite complete_cancel_eq by (by exists q). cbn [mbind option_bind].
    do 2 eexists. split; [done|]. split_and!; try done.
    + apply inv_complete; [by apply drop_pscan_inv|done].
    + intros s. rewrite acct_complete, acct_drop_pscan, Er. unfold owes.
      repeat case_decide; simplify_eq; lia.
  - do 2 eexists. split; [done|]. by split_and!; auto with driver.
Qed.

(** The pending scan completes. *)
Lemma complete_pscan_ok H st code a : inv H a →
  ∃ a', complete_pscan st code a = Some a' ∧ inv H a' ∧ kept a a' ∧ frame_scan a a' ∧ queues a' = queues a ∧
        nodes a' = nodes a ∧ pscan_ioctl_req a' = None.
Proof.
  intros I. unfold complete_pscan. cbn [pscan_ioctl_req set_scan_processing].
  set (b := set_scan_processing false a). destruct (pscan_ioctl_req a) as [r|] eqn:Er.
  - destruct (pscan_live H r b I Er) as (_ & [q Hq] & Ho). fold (drop_pscan b).
    unfold write_status. change (ioctls (drop_pscan b)) with (ioctls b). rewrite Hq. cbn [mbind option_bind].
    unfold moal_ioctl_complete. cbn [ioctls set_ioctls]. rewrite lookup_insert_eq. cbn [mbind option_bind].
    eexists. split; [done|].
    change (ioctls (set_ioctls ?x ?y)) with x. rewrite delete_insert_eq.
    assert (I2 : inv H (complete r st code (drop_pscan b))).
    { apply inv_complete; [by apply drop_pscan_inv|done]. }
    split_and!; try done.
    intros s. change (acct s (complete r st code (drop_pscan b)) = acct s a).
    rewrite acct_complete, acct_drop_pscan. change (acct s b) with (acct s a).
    change (pscan_ioctl_req b) with (pscan_ioctl_req a). rewrite Er. unfold owes.
    repeat case_decide; simplify_eq; lia.
  - eexists. split; [done|]. by split_and!.
Qed.

(** ** Preparing *)

Lemma scan_flag_keeps f : Z.land (Z.lor f CMD_F_SCAN) CMD_F_CANCELED = Z.land f CMD_F_CANCELED.
Proof. rewrite Z.land_lor_distr_l. change (Z.land CMD_F_SCAN CMD_F_CANCELED) with 0. apply Z.lor_0_r. Qed.

Lemma insert_pending_ok H i t a : inv (i :: H) a → node_at a (waiting_node a) i →
  ∃ a', wlan_insert_cmd_to_pending_q (Some i) t a = Some a' ∧ inv H a' ∧ kept a a' ∧ frame a a' ∧
        scan_pending_q a' = scan_pending_q a ∧ ext_cmd_pending_q a' = ext_cmd_pending_q a.
Proof.
  intros I Hw. destruct (pending_eq i t a Hw) as (q & E & Hq). exists (set_cmd_pending_q q a).
  split_and!; try done. by eapply pending_inv.
Qed.

Lemma queue_scan_ok H i a : inv (i :: H) a → node_at a (waiting_node a) i →
  inv H (wlan_queue_scan_cmd i a) ∧ kept a (wlan_queue_scan_cmd i a) ∧ frame a (wlan_queue_scan_cmd i a).
Proof.
  intros I (n & Hn & Hw). destruct (inv_held _ _ _ I) as (_ & _ & _ & _ & Hc).
  unfold wlan_queue_scan_cmd. rewrite (upd_node_Some _ _ _ _ Hn).
  set (n' := set_cmd_flag (Z.lor (cmd_flag n) CMD_F_SCAN) n). fold (put_node i n' a).
  assert (I2 : inv (i :: H) (put_node i n' a)) by (apply inv_put with n; auto).
  split_and!.
  - apply (inv_set_scan (i :: H)); [done| |].
    + intros j. rewrite occ_app. cbn. lia.
    + intros j [Hj|Hj%list_elem_of_singleton]%elem_of_app.
      * left. unfold waiting. rewrite !elem_of_app. auto.
      * right. subst j. exists n'. split; [by apply (put_node_lookup i n)|].
        destruct Hw as (Hb & Hp & Hr & Hf). split_and!; try done. cbn. by rewrite scan_flag_keeps.
  - intros r. change (acct r (put_node i n' a) = acct r a). rewrite (acct_put _ _ _ _ _ Hn). cbn. lia.
  - unfold frame. split_and!; try done; [by cbn; rewrite length_insert|].
    intros j Hj. apply put_node_ne. congruence.
Qed.

Lemma queue_prepared_ok H i no act b a : inv (i :: H) a → node_at a (waiting_node a) i →
  ∃ a', queue_prepared i no act b a = Some a' ∧ inv H a' ∧ kept a a' ∧ frame a a'.
Proof.
  intros I Hw. unfold queue_prepared, wlan_queue_cmd.
  assert (Hp : ∀ t, ∃ a', wlan_insert_cmd_to_pending_q (Some i) t a = Some a' ∧ inv H a' ∧ kept a a' ∧ frame a a').
  { intros t. destruct (insert_pending_ok H i t a I Hw) as (a' & ? & ? & ? & ? & _). by exists a'. }
  destruct (_ || _); [destruct (_ && _)|destruct (_ && (hs_conditions a =? _)); [|destruct (_ && _)]]; try apply Hp.
  - eexists. split; [done|]. by apply queue_scan_ok.
  - eexists. split; [done|]. unfold wlan_queue_cmd_to_ext_cmd_pending_queue. split_and!; try done.
    apply (inv_set_ext (i :: H)); [done| |].
    + intros j. rewrite occ_app. cbn. lia.
    + intros j [Hj|Hj%list_elem_of_singleton]%elem_of_app.
      * left. unfold waiting. rewrite !elem_of_app. auto.
      * right. by subst j.
Qed.

(** A node from the free queue. *)
Lemma get_node_ok H a i a1 : inv H a → wlan_get_cmd_node a = (Some i, a1) →
  inv (i :: H) a1 ∧ node_at a1 clean_node i ∧ frame a a1 ∧ kept a a1 ∧ ioctls a1 = ioctls a ∧
  privs a1 = privs a ∧ usb a1 = usb a.
Proof.
  intros I. unfold wlan_get_cmd_node. destruct (cmd_free_q a) as [|j q] eqn:E; [done|]. intros [= -> <-].
  assert (I2 : inv (i :: H) (set_cmd_free_q q a)).
  { apply (inv_requeue H (i :: H) a); try done; try by left.
    - intros j. unfold place. cbn. rewrite E. cbn. lia.
    - intros j Hj. left. rewrite E, elem_of_cons. by right. }
  split_and!; try done. destruct I as (_ & _ & I3 & _). apply I3. rewrite E, elem_of_cons. by left.
Qed.

(** The outcome of a preparation. *)
Definition prepare_result (io : option nat) (ret : mlan_status) (a a' : mlan_adapter) : Prop :=
  (ret = MLAN_STATUS_SUCCESS ∧ ∀ r, acct r a' = acct r a + owes r io) ∨ (ret = MLAN_STATUS_FAILURE ∧ kept a a').

Definition fresh_request (io : option nat) (a : mlan_adapter) : Prop :=
  ∀ r, io = Some r → is_Some (ioctls a !! r) ∧ owed r a = 0.

Lemma fail_prepare_ok H io code a b : inv H a → (∀ r, io = Some r → is_Some (ioctls a !! r)) →
  frame b a → kept b a →
  ∃ ret a', fail_prepare io code a = Some (ret, a') ∧ inv H a' ∧ frame b a' ∧ prepare_result io ret b a'.
Proof.
  intros I Hio Fb Kb. unfold fail_prepare.
  destruct (write_status_opt_ok H io code a I Hio) as (a' & -> & I' & K & F & _). cbn [mbind option_bind].
  do 2 eexists. split; [done|]. split_and!; eauto using frame_trans. right. eauto using kept_trans.
Qed.

(** The node as initialised by [wlan_init_cmd_node], with a buffer. *)
Definition fresh_node (a : mlan_adapter) (priv : nat) (no flag : Z) (io data : option nat) (b : cmd_body)
    (resp : option cmd_body) : cmd_ctrl_node :=
  mk_node priv no flag (Some (mk_buf b (header_len a) 0)) resp data io.

Lemma init_node_eq priv i no io data buf n a : nodes a !! i = Some n → (usb a = true → buf = true) →
  wlan_init_cmd_node priv i no io data buf a =
  put_node i (fresh_node a priv no (cmd_flag n) io data zero_body (respbuf n)) a.
Proof.
  intros Hn Hu. unfold wlan_init_cmd_node. rewrite (upd_node_Some _ _ _ _ Hn). unfold put_node. do 2 f_equal.
  unfold fresh_node, header_len. destruct (usb a); [rewrite Hu by done|]; done.
Qed.

Definition source_flag (c : cmd_source) : Z := if source_no c =? 0 then CMD_F_HOSTCMD else 0.

(** The preparation proper, from the initialised node on. *)
Definition prepare_tail (i : nat) (c : cmd_source) (action : Z) (io : option nat) (a : mlan_adapter)
    : option (mlan_status * mlan_adapter) :=
  n ← nodes a !! i;
  match cmdbuf n with
  | None => fail_prepare io MLAN_ERROR_NO_MEM a
  | Some cb =>
      let a := if source_no c =? 0
               then upd_node (λ n, set_cmd_flag (Z.lor (cmd_flag n) CMD_F_HOSTCMD) n) i a else a in
      match prepare_body c with
      | None =>
          let a := upd_node (set_pioctl_buf None) i a in
          a ← write_status_opt io MLAN_ERROR_CMD_DNLD_FAIL a;
          a ← wlan_insert_cmd_to_free_q (Some i) a;
          Some (MLAN_STATUS_FAILURE, a)
      | Some b =>
          let a := upd_node (set_cmdbuf (Some (set_body b cb))) i a in
          a ← queue_prepared i (prepared_no c) action b a;
          Some (MLAN_STATUS_SUCCESS, a)
      end
  end.

Lemma prepare_tail_ok H i priv c action io data n a : inv (i :: H) a → nodes a !! i = Some n →
  is_Some (priv_at a priv) → fresh_request io a → pioctl_buf n = None →
  ∃ ret a', prepare_tail i c action io (put_node i (fresh_node a priv (source_no c) 0 io data zero_body None) a)
            = Some (ret, a') ∧ inv H a' ∧ frame a a' ∧ prepare_result io ret a a'.
Proof.
  intros I Hn Hp Hio Hnone. destruct (inv_held _ _ _ I) as (_ & _ & _ & _ & Hc).
  set (f := λ io b, fresh_node a priv (source_no c) (source_flag c) io data b None).
  assert (Hf : ∀ m, frame a (put_node i m a)).
  { intros m. unfold frame. split_and!; try done; [by cbn; rewrite length_insert|].
    intros j Hj. apply put_node_ne. congruence. }
  unfold prepare_tail. rewrite (put_node_lookup i n) by done. cbn [mbind option_bind cmdbuf fresh_node].
  assert (E : (if source_no c =? 0
               then upd_node (λ n0, set_cmd_flag (Z.lor (cmd_flag n0) CMD_F_HOSTCMD) n0) i
                      (put_node i (fresh_node a priv (source_no c) 0 io data zero_body None) a)
               else put_node i (fresh_node a priv (source_no c) 0 io data zero_body None) a)
              = put_node i (f io zero_body) a).
  { unfold f, source_flag. destruct (source_no c =? 0); [|done]. by rewrite (upd_put _ _ _ n). }
  rewrite E. clear E. destruct (prepare_body c) as [b|].
  - rewrite (upd_put _ _ _ n) by done. change (set_cmdbuf _ (f io zero_body)) with (f io b).
    assert (I2 : inv (i :: H) (put_node i (f io b) a)).
    { apply inv_put with n; [done|done|]. intros r Hr. right. destruct (Hio r Hr). done. }
    destruct (queue_prepared_ok H i (prepared_no c) action b _ I2) as (a' & -> & I' & K & F).
    { exists (f io b). split; [by apply (put_node_lookup i n)|]. split_and!; try done; [eexists; split; done|].
      cbn. unfold source_flag. by destruct (source_no c =? 0). }
    cbn [mbind option_bind]. do 2 eexists. split; [done|]. split_and!; eauto using frame_trans.
    left. split; [done|]. intros r. rewrite K, (acct_put _ _ _ _ _ Hn), Hnone. change (owes r None) with 0.
    change (pioctl_buf (f io b)) with io. lia.
  - rewrite (upd_put _ _ _ n) by done. change (set_pioctl_buf None (f io zero_body)) with (f None zero_body).
    assert (I2 : inv (i :: H) (put_node i (f None zero_body) a)) by (apply inv_put with n; done).
    destruct (write_status_opt_ok _ io MLAN_ERROR_CMD_DNLD_FAIL _ I2) as (a2 & -> & I3 & K & F & _).
    { intros r Hr. by destruct (Hio r Hr). }
    cbn [mbind option_bind]. destruct (plain_free_ok _ _ _ I3) as (a3 & -> & I4 & K4 & F4 & _).
    cbn [mbind option_bind]. do 2 eexists. split; [done|]. split_and!; eauto using frame_trans.
    right. split; [done|]. intros r. rewrite K4, K, (acct_put _ _ _ _ _ Hn), Hnone. cbn. lia.
Qed.

Lemma wlan_prepare_cmd_ok H priv c action io data buf a : inv H a → is_Some (priv_at a priv) →
  (usb a = true → buf = true) → fresh_request io a →
  ∃ ret a', wlan_prepare_cmd priv c action io data buf a = Some (ret, a') ∧ inv H a' ∧ frame a a' ∧
            prepare_result io ret a a'.
Proof.
  intros I Hp Hu Hio. unfold wlan_prepare_cmd.
  assert (Hlive : ∀ r, io = Some r → is_Some (ioctls a !! r)) by (intros r Hr; by destruct (Hio r Hr)).
  destruct (surprise_removed a); [by apply (fail_prepare_ok H); auto with driver|].
  destruct (_ && _); [by apply (fail_prepare_ok H); auto with driver|].
  destruct (wlan_get_cmd_node a) as [[i|] a1] eqn:E.
  - destruct (get_node_ok _ _ _ _ I E) as (I1 & (n & Hn & Hc1 & Hc2 & Hc3) & F & K & Ei & Ep & Eu).
    set (a2 := set_num_no_cmd_node 0 a1). change (inv (i :: H) a2) in I1. change (nodes a2 !! i = Some n) in Hn.
    rewrite (init_node_eq _ _ _ _ _ _ n) by (done || by change (usb a2) with (usb a1); rewrite Eu).
    rewrite Hc2, Hc3. destruct (prepare_tail_ok H i priv c action io data n a2) as (ret & a' & E' & I' & F' & R);
      [done|done| | |done|].
    + unfold priv_at. change (privs a2) with (privs a1). by rewrite Ep.
    + intros r Hr. change (ioctls a2) with (ioctls a1). rewrite Ei. destruct (Hio r Hr) as [? Ho].
      split; [done|]. specialize (K r). unfold acct in K.
      assert (completed r a1 = completed r a) as Ec; [|change (owed r a2) with (owed r a1); lia].
      unfold wlan_get_cmd_node in E. destruct (cmd_free_q a); [done|]. by injection E as <- <-.
    + exists ret, a'. unfold prepare_tail in E'. split; [exact E'|]. split_and!; [done|by eapply frame_trans|].
      destruct R as [[-> R]|[-> R]]; [left|right]; (split; [done|]); intros r; rewrite R; [|by apply K].
      change (acct r a2) with (acct r a1). by rewrite K.
  - assert (a1 = a) as -> by (unfold wlan_get_cmd_node in E; destruct (cmd_free_q a); [by injection E|done]).
    unfold no_cmd_node. apply (fail_prepare_ok H).
    + destruct (_ >=? 5); [|done]. unfold wlan_recv_event. by destruct (wlan_get_priv _).
    + intros r Hr. destruct (_ >=? 5); [|by apply Hlive]. unfold wlan_recv_event. destruct (wlan_get_priv _); by apply Hlive.
    + destruct (_ >=? 5); [|done]. unfold wlan_recv_event. by destruct (wlan_get_priv _).
    + intros r. destruct (_ >=? 5); [|done]. unfold wlan_recv_event. destruct (wlan_get_priv _); [|done].
      rewrite acct_log. cbn. change (acct r (set_num_no_cmd_node _ a)) with (acct r a). lia.
Qed.

(** ** Downloading *)

(** What a download or a response may change besides the queues. *)
Definition env_same (a a' : mlan_adapter) : Prop :=
  usb a' = usb a ∧ intf_header_len a' = intf_header_len a ∧ privs a' = privs a ∧
  length (nodes a') = length (nodes a).
Lemma env_refl a : env_same a a.
Proof. by unfold env_same. Qed.
Lemma env_trans a b c : env_same a b → env_same b c → env_same a c.
Proof. intros (A1 & A2 & A3 & A4) (B1 & B2 & B3 & B4). unfold env_same. by rewrite B1, B2, B3, B4. Qed.
Lemma frame_env a a' : frame a a' → env_same a a'.
Proof. intros (A1 & A2 & A3 & A4 & _). by unfold env_same. Qed.
Lemma frame_scan_env a a' : frame_scan a a' → env_same a a'.
Proof. intros (A1 & A2 & A3 & A4 & _). by unfold env_same. Qed.
#[export] Hint Resolve env_refl frame_env frame_scan_env : driver.

(** The current command goes back to the free queue. *)
Lemma free_curr_ok H a : inv H a →
  ∃ a', free_curr a = Some a' ∧ inv H a' ∧ kept a a' ∧ env_same a a' ∧ curr_cmd a' = None ∧
        tl (queues a') = tl (queues a) ∧ hw_status a' = hw_status a.
Proof.
  intros I. unfold free_curr. destruct (curr_cmd a) as [i|] eqn:Ec.
  - pose proof (inv_take_curr _ _ _ I Ec) as I1. destruct (free_ok _ _ _ I1) as (n & Hn & E & I2 & K & F).
    exists (freed i n (set_curr_cmd None a)). change (nodes a !! i = Some n) in Hn.
    rewrite (free_eq i n a Hn); [|intros r Hr; by destruct (inv_live _ _ _ _ _ I Hn Hr)].
    cbn [mbind option_bind]. destruct (freed_fields i n (set_curr_cmd None a)) as (_ & E2 & E3 & E4 & E5 & _).
    destruct F as (F1 & F2 & F3 & F4 & _ & _ & F7 & _).
    split_and!; try done.
    + f_equal. unfold freed, complete_attached, log_resp. cbn.
      destruct (respbuf n), (pioctl_buf n) as [r|]; try done; by destruct (ioctls a !! r).
    + unfold queues. cbn [tl]. by rewrite E2, E3, E4.
  - exists a. cbn [mbind option_bind wlan_insert_cmd_to_free_q]. rewrite <- Ec. split_and!; try done.
    f_equal. by destruct a.
Qed.

(** The node while its command is being sent. *)
Definition sent_node (a : mlan_adapter) (n : cmd_ctrl_node) (b : cmd_body) (cb : option cmd_buf) : cmd_ctrl_node :=
  set_cmd_no (command b) (set_cmdbuf cb n).

Lemma sent_inv H i n b cb a : inv (i :: H) a → curr_cmd a = None → nodes a !! i = Some n → waiting_node a n →
  (usb a = false → ∃ c, cb = Some c ∧ data_offset c = 0) →
  inv H (set_curr_cmd (Some i) (put_node i (sent_node a n b cb) a)) ∧
  (∀ r, acct r (set_curr_cmd (Some i) (put_node i (sent_node a n b cb) a)) = acct r a).
Proof.
  intros I Hc Hn (_ & Hp & _) Hcb. split.
  - apply (inv_set_curr (i :: H)).
    + apply inv_put with n; auto.
    + intros j. cbn. rewrite Hc. cbn. lia.
    + intros j [= <-]. right. exists (sent_node a n b cb). split; [by apply (put_node_lookup i n)|]. by split.
  - intros r. change (acct r (put_node i (sent_node a n b cb) a) = acct r a).
    rewrite (acct_put _ _ _ _ _ Hn). cbn. lia.
Qed.

Lemma dnld_finish_ok H i code h2c a : inv H a → curr_cmd a = Some i →
  ∃ ret a', dnld_finish i code h2c a = Some (ret, a') ∧ inv H a' ∧ kept a a' ∧ env_same a a'.
Proof.
  intros I Hc. pose proof I as (_ & _ & _ & _ & I5 & _). destruct (I5 i Hc) as (n & Hn & Hp & Hcb).
  unfold dnld_finish.
  set (a1 := if usb a && bool_decide (h2c = MLAN_STATUS_PENDING) then upd_node (set_cmdbuf None) i a else a).
  assert (H1 : ∃ n1, nodes a1 !! i = Some n1 ∧ pioctl_buf n1 = pioctl_buf n ∧ inv H a1 ∧ kept a a1 ∧
                     env_same a a1 ∧ curr_cmd a1 = Some i ∧ ioctls a1 = ioctls a).
  { unfold a1. destruct (usb a) eqn:Eu; [destruct (bool_decide _)|]; cbn [andb].
    - rewrite (upd_node_Some _ _ _ _ Hn). fold (put_node i (set_cmdbuf None n) a).
      exists (set_cmdbuf None n). split_and!; try done.
      + by apply (put_node_lookup i n).
      + pose proof I as (I1 & _ & I3 & _). apply (inv_put_gen _ _ n); [done|done| | | |by left].
        * intros Hi. destruct (I3 i Hi) as (m & Hm & ? & ? & ?). rewrite Hn in Hm. by injection Hm as <-.
        * intros Hi. exfalso. specialize (I1 i). unfold place in I1. rewrite Hc in I1. cbn in I1.
          rewrite decide_True in I1 by done. unfold waiting in Hi. rewrite !elem_of_app, !occ_elem in Hi.
          pose proof (place_parts i H a). case_decide; lia.
        * intros _. split; [done|]. change (usb a = false → ∃ c, None = Some c ∧ data_offset c = 0). by rewrite Eu.
      + intros r. rewrite (acct_put _ _ _ _ _ Hn). cbn. lia.
      + unfold env_same. cbn. by rewrite length_insert.
    - by exists n; split_and!; auto with driver.
    - by exists n; split_and!; auto with driver. }
  clearbody a1. destruct H1 as (n1 & Hn1 & Ep & I1 & K1 & F1 & Hc1 & Ei). rewrite Hn1. cbn [mbind option_bind].
  assert (Hlive : ∀ r, pioctl_buf n1 = Some r → is_Some (ioctls a1 !! r)).
  { intros r Hr. by destruct (inv_live _ _ _ _ _ I1 Hn1 Hr). }
  destruct (bool_decide _).
  - destruct (write_status_opt_ok H (pioctl_buf n1) MLAN_ERROR_CMD_DNLD_FAIL a1 I1 Hlive) as (a2 & -> & I2 & K2 & F2 & _).
    cbn [mbind option_bind]. destruct (free_curr_ok H a2 I2) as (a3 & -> & I3 & K3 & F3 & _). cbn [mbind option_bind].
    do 2 eexists. split; [done|]. split_and!; [done| |eauto using env_trans with driver].
    intros r. change (acct r a3 = acct r a). by rewrite K3, K2, K1.
  - destruct (_ || _).
    + destruct (pioctl_buf n1).
      * destruct (free_curr_ok H a1 I1) as (a3 & -> & I3 & K3 & F3 & _). cbn [mbind option_bind].
        do 2 eexists. split; [done|]. split_and!; eauto using env_trans, kept_trans.
      * do 2 eexists. split; [done|]. done.
    + do 2 eexists. split; [done|]. split_and!; [done| |done].
      intros r. change (acct r (log (StartTimer (wlan_get_cmd_timeout code)) a1) = acct r a). rewrite acct_log, K1. cbn. lia.
Qed.

(** What sending a command leaves alone besides [env_same]. *)
Definition rest_same (a a' : mlan_adapter) : Prop :=
  ps_state a' = ps_state a ∧ num_cmd_timeout a' = num_cmd_timeout a ∧ ioctls a' = ioctls a ∧
  pscan_ioctl_req a' = pscan_ioctl_req a ∧ pwarm_reset_ioctl_req a' = pwarm_reset_ioctl_req a ∧
  hw_status a' = hw_status a ∧ cmd_free_q a' = cmd_free_q a ∧ surprise_removed a' = surprise_removed a.

(** The state in which the command is handed to the bus. *)
Lemma dnld_sent_eq i n cb p h2c a : nodes a !! i = Some n → cmdbuf n = Some cb → size (body cb) ≠ 0 →
  priv_at a (n_priv n) = Some p → data_offset cb = header_len a →
  ∃ b a3, (command b = command (body cb) ∧ size b = size (body cb) ∧ param0 b = param0 (body cb) ∧
           cseq b = HostCmd_SET_SEQ_NO_BSS_INFO (u16 (seq_num a + 1)) (bss_num p) (bss_type p) ∧
           result b = result (body cb)) ∧
    wlan_dnld_cmd_to_fw i h2c a = dnld_finish i (command (body cb)) h2c a3 ∧
    (∀ H, inv H (set_curr_cmd (Some i) (put_node i (sent_node a n b
             (Some (add_header (header_len a) (mk_buf b (data_offset cb) (size (body cb)))))) a)) → inv H a3) ∧
    (∀ r, acct r a3 = acct r (put_node i (sent_node a n b
             (Some (add_header (header_len a) (mk_buf b (data_offset cb) (size (body cb)))))) a)) ∧
    env_same a a3 ∧ curr_cmd a3 = Some i ∧
    (∃ l, (l = [] ∨ l = [CleanTxRx]) ∧
       evs a3 = evs a ++ l ++ [ToCard i (command b) (cseq b) (size (body cb) + header_len a)]) ∧
    tl (queues a3) = tl (queues a) ∧ rest_same a a3 ∧
    nodes a3 = <[i := sent_node a n b
             (Some (add_header (header_len a) (mk_buf b (data_offset cb) (size (body cb)))))]> (nodes a).
Proof.
  intros Hn Hcb Hs Hp Ho. unfold wlan_dnld_cmd_to_fw. rewrite Hn. cbn [mbind option_bind]. rewrite Hcb.
  cbn [mbind option_bind]. rewrite (proj2 (Z.eqb_neq _ _) Hs), Hp. cbn [mbind option_bind].
  set (b := mk_body (command (body cb)) (size (body cb)) _ (result (body cb)) (param0 (body cb))).
  exists b. rewrite (upd_node_Some _ _ n) by done. fold (put_node i
    (set_cmd_no (command (body cb)) (set_cmdbuf (Some (mk_buf b (data_offset cb) (size (body cb)))) n))
    (set_seq_num (u16 (seq_num a + 1)) a)).
  set (a1 := dbg_advance _). change (usb a1) with (usb a).
  rewrite Ho. assert (E : usb a && (header_len a <? MLAN_TYPE_LEN) = false).
  { unfold header_len. destruct (usb a); [apply Z.ltb_irrefl|done]. }
  rewrite E. clear E.
  set (a2 := if command (body cb) =? HostCmd_CMD_802_11_SCAN_EXT then _ else a1).
  assert (E2 : ∃ st, a2 = set_scan_state st a1).
  { unfold a2. destruct (_ =? _); [by eexists|]. exists (scan_state a1). by destruct a. }
  clearbody a2. destruct E2 as [st ->].
  set (a3 := if infra p && media_connected p && _ then _ else _).
  assert (E3 : a3 = set_scan_state st a1 ∨ a3 = log CleanTxRx (set_scan_state st a1)) by (unfold a3; case_match; auto).
  clearbody a3. change (header_len a3) with (if usb a3 then MLAN_TYPE_LEN else intf_header_len a3).
  assert (Hn1 : nodes (set_scan_state st a1) !! i = Some (set_cmd_no (command (body cb))
    (set_cmdbuf (Some (mk_buf b (header_len a) (size (body cb)))) n))).
  { rewrite <- Ho. by apply (put_node_lookup i n (set_cmd_no _ (set_cmdbuf _ n)) (set_seq_num _ a)). }
  assert (Hput : ∀ c, upd_node (set_cmdbuf c) i (set_scan_state st a1) =
    set_scan_state st (dbg_advance (set_curr_cmd (Some i) (put_node i (sent_node a n b c) (set_seq_num (u16 (seq_num a + 1)) a))))).
  { intros c. rewrite (upd_node_Some _ _ _ _ Hn1). unfold a1, put_node. cbn. by rewrite list_insert_insert_eq. }
  destruct E3 as [-> | ->].
  - change (usb (set_scan_state st a1)) with (usb a).
    change (intf_header_len (set_scan_state st a1)) with (intf_header_len a). fold (header_len a).
    rewrite Hput. eexists. split; [done|]. split; [done|].
    split_and!; try done.
    + intros r. rewrite acct_log. cbn. rewrite Z.add_0_r. done.
    + unfold env_same. cbn. by rewrite length_insert.
    + exists []. auto.
  - change (usb (log CleanTxRx (set_scan_state st a1))) with (usb a).
    change (intf_header_len (log CleanTxRx (set_scan_state st a1))) with (intf_header_len a). fold (header_len a).
    change (upd_node ?f i (log CleanTxRx ?x)) with (log CleanTxRx (upd_node f i x)).
    rewrite Hput. eexists. split; [done|]. split; [done|].
    split_and!; try done.
    + intros r. rewrite !acct_log. cbn. rewrite !Z.add_0_r. done.
    + unfold env_same. cbn. by rewrite length_insert.
    + exists [CleanTxRx]. cbn. rewrite <- app_assoc. auto.
Qed.

Lemma wlan_dnld_cmd_to_fw_ok H i h2c a : inv (i :: H) a → curr_cmd a = None → node_at a (waiting_node a) i →
  ∃ ret a', wlan_dnld_cmd_to_fw i h2c a = Some (ret, a') ∧ inv H a' ∧ kept a a' ∧ env_same a a'.
Proof.
  intros I Hc (n & Hn & Hw). pose proof Hw as ((cb & Hcb & Ho) & [p Hp] & _).
  destruct (decide (size (body cb) = 0)) as [Hs|Hs].
  - unfold wlan_dnld_cmd_to_fw. rewrite Hn. cbn [mbind option_bind]. rewrite Hcb. cbn [mbind option_bind].
    rewrite Hs. cbn [Z.eqb].
    destruct (write_status_opt_ok _ (pioctl_buf n) MLAN_ERROR_CMD_DNLD_FAIL a I) as (a2 & -> & I2 & K2 & F2 & _).
    { intros r Hr. by destruct (inv_live _ _ _ _ _ I Hn Hr). }
    cbn [mbind option_bind]. destruct (plain_free_ok _ _ _ I2) as (a3 & -> & I3 & K3 & F3 & _).
    cbn [mbind option_bind]. do 2 eexists. split; [done|].
    split_and!; eauto using kept_trans, env_trans with driver.
  - destruct (dnld_sent_eq i n cb p h2c a Hn Hcb Hs Hp Ho) as (b & a3 & _ & -> & Hi & Hk & He & Hc3 & _).
    destruct (sent_inv H i n b (Some (add_header (header_len a) (mk_buf b (data_offset cb) (size (body cb))))) a
      I Hc Hn Hw) as [Is Ks].
    { intros _. eexists. split; [done|]. cbn. lia. }
    destruct (dnld_finish_ok H i (command (body cb)) h2c a3 (Hi H Is) Hc3) as (ret & a' & -> & I' & K' & E').
    do 2 eexists. split; [done|]. split_and!; [done| |by eapply env_trans].
    intros r. rewrite K', Hk. apply Ks.
Qed.

Lemma hs_event_ok H o act a : inv H a → inv H (wlan_host_sleep_activated_event o act a) ∧
  kept a (wlan_host_sleep_activated_event o act a) ∧ env_same a (wlan_host_sleep_activated_event o act a).
Proof.
  intros I. unfold wlan_host_sleep_activated_event, wlan_recv_event. destruct o; [|by auto with driver].
  destruct act; [destruct (is_hs_configured a); [|by auto with driver]|];
    (split; [done|]; split; [|done]); intros r; rewrite acct_log; cbn; by rewrite Z.add_0_r.
Qed.

Lemma wlan_exec_next_cmd_ok H h2c a : inv H a →
  ∃ ret a', wlan_exec_next_cmd h2c a = Some (ret, a') ∧ inv H a' ∧ kept a a' ∧ env_same a a'.
Proof.
  intros I. unfold wlan_exec_next_cmd. destruct (curr_cmd a) eqn:Hc; [by do 2 eexists; split_and!; auto with driver|].
  destruct (cmd_pending_q a) as [|i q] eqn:Eq; [by do 2 eexists; split_and!; auto with driver|].
  destruct (take_pending _ _ _ _ I Eq) as [I1 Hw]. destruct (node_cmd_at _ _ Hw) as [b ->]. cbn [mbind option_bind].
  destruct (negb _); [by do 2 eexists; split_and!; auto with driver|].
  destruct (wlan_dnld_cmd_to_fw_ok H i h2c (set_cmd_pending_q q a) I1 Hc Hw) as (ret & a' & -> & I' & K' & E').
  cbn [mbind option_bind]. do 2 eexists. split; [done|]. destruct (_ && _); [|done].
  destruct (hs_event_ok H (wlan_get_priv a') false (set_is_hs_configured false a') I') as (I2 & K2 & E2).
  split_and!; [done| |by eapply env_trans]. intros r. rewrite K2. exact (K' r).
Qed.
