(* ===== verification/CmdResp.v ===== *)
(** * CmdResp: processing command responses is safe

    The lemmas of [CmdSafe] for the responses: the contract [CmdHandler] of a
    response handler with its instances (among them the dispatch of a station,
    with the scan responses and the error handler), and [wlan_process_cmdresp]
    for any handler that keeps the contract. *)

From S2P Require Import Prelude CmdQueue CmdInv CmdSafe.

(** ** Responses *)

(** Changing the current command's memory. *)
Lemma inv_put_curr H i n n' a : inv H a → curr_cmd a = Some i → nodes a !! i = Some n → current_node a n' →
  (∀ r, pioctl_buf n' = Some r → pioctl_buf n = Some r) → inv H (put_node i n' a).
Proof.
  intros I Hc Hn Hn' Hr. pose proof I as (I1 & _ & I3 & _).
  assert (Hnot : i ∉ cmd_free_q a ∧ i ∉ waiting a).
  { specialize (I1 i). unfold place in I1. rewrite Hc in I1. cbn in I1. rewrite decide_True in I1 by done.
    unfold waiting. rewrite !elem_of_app, !occ_elem. pose proof (place_parts i H a). case_decide; lia. }
  destruct Hnot. apply (inv_put_gen _ _ n); [done|done|done|done|done|]. intros r ?. left. auto.
Qed.

Lemma recv_cmd_resp_ok H r a : inv H a →
  inv H (recv_cmd_resp r a) ∧ kept a (recv_cmd_resp r a) ∧ env_same a (recv_cmd_resp r a).
Proof.
  intros I. unfold recv_cmd_resp. destruct (curr_cmd a) as [i|] eqn:Hc; [|by auto with driver].
  pose proof I as (_ & _ & _ & _ & I5 & _). destruct (I5 i Hc) as (n & Hn & Hcur).
  rewrite (upd_node_Some _ _ _ _ Hn). fold (put_node i (set_respbuf (Some r) n) a).
  assert (I2 : inv H (put_node i (set_respbuf (Some r) n) a)) by (by apply (inv_put_curr _ _ n)).
  split_and!; [done| |by unfold env_same; cbn; rewrite length_insert].
  intros s. change (acct s (put_node i (set_respbuf (Some r) n) a) = acct s a). rewrite (acct_put _ _ _ _ _ Hn). cbn. lia.
Qed.

(** The refused command is queued again. *)
Definition requeued_node (a : mlan_adapter) (n : cmd_ctrl_node) (cb : cmd_buf) : cmd_ctrl_node :=
  set_respbuf None (set_cmdbuf (Some (remove_header (intf_header_len a) cb)) n).

Lemma pre_asleep_eq i n cb a : curr_cmd a = Some i → nodes a !! i = Some n → cmdbuf n = Some cb → usb a = false →
  wlan_handle_cmd_error_in_pre_aleep a =
  wlan_insert_cmd_to_pending_q (Some i) false
    (put_node i (requeued_node a n cb) (set_curr_cmd None (log_resp n a))).
Proof.
  intros Hc Hn Hcb Hu. unfold wlan_handle_cmd_error_in_pre_aleep. rewrite Hc.
  change (nodes (set_curr_cmd None a)) with (nodes a). rewrite Hn. cbn [mbind option_bind]. rewrite Hcb.
  cbn [mbind option_bind]. change (usb (set_curr_cmd None a)) with (usb a). rewrite Hu.
  rewrite (upd_node_Some (set_cmdbuf _) i n (set_curr_cmd None a) Hn).
  change (intf_header_len (set_curr_cmd None a)) with (intf_header_len a).
  fold (put_node i (set_cmdbuf (Some (remove_header (intf_header_len a) cb)) n) (set_curr_cmd None a)).
  unfold log_resp, requeued_node. destruct (respbuf n) eqn:Er; f_equal.
  - change (log RespComplete (put_node i ?m (set_curr_cmd None a)))
      with (put_node i m (set_curr_cmd None (log RespComplete a))).
    by rewrite (upd_put _ _ _ n).
  - unfold put_node. do 2 f_equal. unfold set_respbuf, set_cmdbuf. cbn. by rewrite Er.
Qed.

Lemma pre_asleep_ok H a : inv H a → usb a = false →
  (∀ i n, curr_cmd a = Some i → nodes a !! i = Some n → Z.land (cmd_flag n) CMD_F_CANCELED = 0) →
  ∃ a', wlan_handle_cmd_error_in_pre_aleep a = Some a' ∧ inv H a' ∧ kept a a' ∧ env_same a a'.
Proof.
  intros I Hu Hf. destruct (curr_cmd a) as [i|] eqn:Hc.
  2:{ exists a. unfold wlan_handle_cmd_error_in_pre_aleep. rewrite Hc. by auto with driver. }
  pose proof I as (_ & _ & _ & _ & I5 & _). destruct (I5 i Hc) as (n & Hn & Hp & Hcb).
  destruct (Hcb Hu) as (cb & Ecb & Ho). rewrite (pre_asleep_eq i n cb a Hc Hn Ecb Hu).
  set (a1 := set_curr_cmd None (log_resp n a)).
  assert (I1 : inv (i :: H) a1).
  { unfold a1. apply inv_take_curr; [by apply log_resp_inv|]. unfold log_resp. by destruct (respbuf n). }
  assert (Hn1 : nodes a1 !! i = Some n) by (unfold a1, log_resp; by destruct (respbuf n)).
  assert (Hh : header_len (put_node i (requeued_node a n cb) a1) = intf_header_len a ∧
               privs (put_node i (requeued_node a n cb) a1) = privs a ∧ env_same a a1 ∧ kept a a1).
  { unfold a1, log_resp, header_len. destruct (respbuf n); cbn; rewrite Hu; split_and!; try done.
    intros r. change (acct r (log RespComplete a) = acct r a). rewrite acct_log. cbn. lia. }
  destruct Hh as (Hh & Hpr & He & Hk).
  destruct (insert_pending_ok H i false (put_node i (requeued_node a n cb) a1)) as (a' & -> & I' & K' & F' & _).
  { apply inv_put with n; auto. }
  { exists (requeued_node a n cb). split; [by apply (put_node_lookup i n)|]. split_and!; try done.
    - eexists. split; [done|]. rewrite Hh. cbn. lia.
    - unfold priv_at. rewrite Hpr. exact Hp.
    - cbn. by eapply Hf. }
  exists a'. split_and!; try done.
  - intros r. rewrite K', (acct_put _ _ _ _ _ Hn1), Hk. cbn. lia.
  - eapply env_trans; [exact He|]. eapply env_trans; [|by apply frame_env].
    unfold env_same. cbn. by rewrite length_insert.
Qed.

(** *** The contract of a response handler *)

(** A handler is called for the current command with the request attached to it.
    It may do anything with the queues that keeps the invariant and the account:
    free the command, queue others, complete requests that are attached
    somewhere. *)
Class CmdHandler (h : handler) (pre : Z → cmd_body → option nat → Prop) := {
  handler_ok p no r i n a :
    inv [] a → priv_at a (bss_index p) = Some p → curr_cmd a = Some i → nodes a !! i = Some n →
    pre no r (pioctl_buf n) →
    ∃ ret a', h p no r (pioctl_buf n) a = Some (ret, a') ∧ inv [] a' ∧ kept a a' ∧ env_same a a'
}.
Class InitHandler (h : init_handler) := {
  init_handler_ok p a : inv [] a → priv_at a (bss_index p) = Some p →
    ∃ ret a', h p a = Some (ret, a') ∧ inv [] a' ∧ kept a a' ∧ env_same a a'
}.

(** The simplest handler: nothing but a result. *)
Definition plain_handler (ret : mlan_status) : handler := λ _ _ _ _ a, Some (ret, a).
#[export] Instance plain_handler_ok ret pre : CmdHandler (plain_handler ret) pre.
Proof. constructor. intros p no r i n a I _ _ _ _. exists ret, a. by split_and!; auto with driver. Qed.
Definition plain_init (ret : mlan_status) : init_handler := λ _ a, Some (ret, a).
#[export] Instance plain_init_ok ret : InitHandler (plain_init ret).
Proof. constructor. intros p a I _. exists ret, a. by split_and!; auto with driver. Qed.

(** A handler that prepares another command, as many do. *)
Definition preparing_handler (c : cmd_source) : handler :=
  λ p _ _ _ a, wlan_prepare_cmd (bss_index p) c HostCmd_ACT_GEN_SET None None true a.
#[export] Instance preparing_handler_ok c pre : CmdHandler (preparing_handler c) pre.
Proof.
  constructor. intros p no r i n a I Hp _ _ _. unfold preparing_handler.
  destruct (wlan_prepare_cmd_ok [] (bss_index p) c HostCmd_ACT_GEN_SET None None true a I) as (ret & a' & -> & I' & F & R);
    [by rewrite Hp|done..|].
  exists ret, a'. split_and!; auto with driver. intros s. destruct R as [[_ R]|[_ R]]; rewrite R; [|done].
  change (owes s None) with 0. lia.
Qed.

(** ** The end of a command *)

Lemma finish_curr_ok H ret a : inv H a →
  ∃ a', finish_curr ret a = Some a' ∧ inv H a' ∧ kept a a' ∧ env_same a a' ∧ curr_cmd a' = None.
Proof.
  intros I. unfold finish_curr. destruct (curr_cmd a) as [i|] eqn:Hc; [|by exists a; split_and!; auto with driver].
  pose proof (inv_take_curr _ _ _ I Hc) as I1. destruct (inv_held_node _ _ _ I1) as [n Hn]. rewrite Hn.
  cbn [mbind option_bind]. set (a1 := set_curr_cmd None a) in *.
  assert (Hw : ∃ a2, match pioctl_buf n with
    | None => Some a1
    | Some r => match ret with
                | MLAN_STATUS_SUCCESS => write_status r MLAN_ERROR_NO_ERROR a1
                | MLAN_STATUS_FAILURE => q ← ioctls a1 !! r;
                    if status_code q =? 0 then write_status r MLAN_ERROR_CMD_RESP_FAIL a1 else Some a1
                | _ => Some a1
                end
    end = Some a2 ∧ inv (i :: H) a2 ∧ kept a1 a2 ∧ frame a1 a2).
  { destruct (pioctl_buf n) as [r|] eqn:Er; [|by exists a1; auto with driver].
    destruct (inv_live _ _ _ _ _ I1 Hn Er) as [_ Hl].
    assert (Hws : ∀ code, ∃ a2, write_status r code a1 = Some a2 ∧ inv (i :: H) a2 ∧ kept a1 a2 ∧ frame a1 a2).
    { intros code. destruct (write_status_ok (i :: H) r code a1 I1 Hl) as (a2 & ? & ? & ? & ? & _). by exists a2. }
    destruct ret; try apply Hws; try (by exists a1; auto with driver).
    destruct Hl as [q Hq]. rewrite Hq. cbn [mbind option_bind].
    destruct (status_code q =? 0); [apply Hws|by exists a1; auto with driver]. }
  destruct Hw as (a2 & -> & I2 & K2 & F2). cbn [mbind option_bind].
  destruct (plain_free_ok _ _ _ I2) as (a3 & -> & I3 & K3 & F3 & _). exists a3.
  split_and!; try done.
  - intros r. rewrite K3, K2. done.
  - apply (env_trans _ a1); [done|]. eauto using env_trans with driver.
  - destruct F3 as (_ & _ & _ & _ & -> & _). by destruct F2 as (_ & _ & _ & _ & -> & _).
Qed.

(** The pending warm-reset request completes. *)
Lemma warm_reset_ok H r st a : inv H a → pwarm_reset_ioctl_req a = Some r →
  ∃ a', moal_ioctl_complete r st a = Some a' ∧ inv H (set_pwarm_reset_ioctl_req None a') ∧
        kept a (set_pwarm_reset_ioctl_req None a') ∧ env_same a a'.
Proof.
  intros I Hr. assert (Ho : ∀ s, owed s (set_pwarm_reset_ioctl_req None a) = owed s a - owes s (Some r)).
  { intros s. rewrite <- Hr. unfold owed. cbn. change (owes s None) with 0. lia. }
  assert (Hself : owes r (Some r) = 1) by (unfold owes; by rewrite decide_True).
  pose proof I as (I1 & I2 & I3 & I4 & I5 & I6).
  assert (I' : inv H (set_pwarm_reset_ioctl_req None a)).
  { unfold inv. split_and!; try done. intros s. rewrite Ho. destruct (I2 s) as [Hs Hl].
    pose proof (owes_nonneg s (Some r)). split; [lia|]. intros. apply Hl. lia. }
  destruct (I2 r) as [Hs Hl]. pose proof (owed_nonneg r (set_pwarm_reset_ioctl_req None a)) as Hn. rewrite Ho in Hn.
  destruct Hl as [q Hq]; [lia|]. unfold moal_ioctl_complete. rewrite Hq. cbn [mbind option_bind].
  eexists. split; [done|]. split_and!; try done.
  - apply (inv_complete _ r st (status_code q)) in I'; [done|]. rewrite Ho. lia.
  - intros s. change (acct s (complete r st (status_code q) (set_pwarm_reset_ioctl_req None a)) = acct s a).
    rewrite acct_complete. unfold acct. rewrite Ho. change (completed s (set_pwarm_reset_ioctl_req None a)) with (completed s a).
    unfold owes. repeat case_decide; simplify_eq; lia.
Qed.

(** The interfaces the lookups find are interfaces of the adapter. *)
Lemma priv_found H a k p : inv H a → privs a !! k = Some (Some p) → priv_at a (bss_index p) = Some p.
Proof.
  intros (_ & _ & _ & _ & _ & I6) Hk. assert (Ha : priv_at a k = Some p) by (unfold priv_at; by rewrite Hk).
  by rewrite (I6 k p Ha).
Qed.
Lemma wlan_get_priv_at H a p : inv H a → wlan_get_priv a = Some p → priv_at a (bss_index p) = Some p.
Proof.
  intros I. unfold wlan_get_priv. destruct (list_find _ _) as [[k o]|] eqn:E; [|done]. cbn. intros ->.
  apply list_find_Some in E as (E & _). by eapply priv_found.
Qed.
Lemma wlan_get_priv_by_id_at H a num typ p : inv H a → wlan_get_priv_by_id a num typ = Some p →
  priv_at a (bss_index p) = Some p.
Proof.
  intros I. unfold wlan_get_priv_by_id. destruct (list_find _ _) as [[k o]|] eqn:E; [|done]. cbn. intros ->.
  apply list_find_Some in E as (E & _). by eapply priv_found.
Qed.
Lemma next_init_priv_at H a p q : inv H a → next_init_priv p a = Some q → priv_at a (bss_index q) = Some q.
Proof.
  intros I. unfold next_init_priv. destruct (list_find _ _) as [[k o]|] eqn:E; [|done]. cbn. intros ->.
  apply list_find_Some in E as (E & _). rewrite lookup_drop in E. by eapply priv_found.
Qed.

Lemma init_progress_ok ih `{!InitHandler ih} p no ret a : inv [] a →
  ∃ ret' a', init_progress ih p no ret a = Some (ret', a') ∧ inv [] a' ∧ kept a a' ∧ env_same a a'.
Proof.
  intros I. unfold init_progress. destruct (_ && _).
  - destruct (next_init_priv p a) as [q|] eqn:Eq; [apply init_handler_ok; [done|by eapply next_init_priv_at]|].
    destruct (pwarm_reset_ioctl_req a) as [r|] eqn:Er; [|by do 2 eexists; split_and!; auto with driver].
    destruct (warm_reset_ok [] r MLAN_STATUS_SUCCESS (set_hw_status WlanHardwareStatusReady a) I Er)
      as (a' & -> & I' & K' & E'). cbn [mbind option_bind]. do 2 eexists. split; [done|]. done.
  - destruct (_ && _); by do 2 eexists; split_and!; auto with driver.
Qed.

(** ** Scan responses *)

Lemma scan_next_ok H a : inv H a →
  ∃ a', scan_next a = Some a' ∧ inv H a' ∧ kept a a' ∧ frame a a'.
Proof.
  intros I. unfold scan_next. destruct (scan_pending_q a) as [|i q] eqn:E; [by exists a; auto with driver|].
  destruct (take_scan _ _ _ _ I E) as [I1 Hw].
  destruct (insert_pending_ok H i true (set_scan_pending_q q a) I1 Hw) as (a' & -> & I' & K & F & _).
  by exists a'.
Qed.

Lemma flush_complete_ok H st code a : inv H a →
  ∃ a1 a', wlan_flush_scan_queue a = Some a1 ∧ complete_pscan st code a1 = Some a' ∧ inv H a' ∧ kept a a' ∧
           frame_scan a a' ∧ scan_pending_q a' = [] ∧ pscan_ioctl_req a' = None.
Proof.
  intros I. destruct (flush_scan_ok H a I) as (a1 & E1 & I1 & K1 & F1 & S1 & _).
  destruct (complete_pscan_ok H st code a1 I1) as (a2 & E2 & I2 & K2 & F2 & Q2 & _ & P2). exists a1, a2.
  split_and!; try done; eauto using kept_trans, frame_scan_trans with driver.
  injection Q2 as _ _ -> _. done.
Qed.

Lemma scan_report_ok H p a : inv H a → inv H (scan_report p a) ∧ kept a (scan_report p a) ∧ frame a (scan_report p a).
Proof.
  intros I. unfold scan_report, wlan_recv_event. split; [done|]. split; [|done].
  intros r. rewrite acct_log. cbn. by rewrite Z.add_0_r.
Qed.

(** Preparing the commands of a scan. *)
Lemma prepare_scans_ok H priv l buf a : inv H a → is_Some (priv_at a priv) → (usb a = true → buf = true) →
  ∃ ret a', prepare_scans priv l buf a = Some (ret, a') ∧ inv H a' ∧ kept a a' ∧ frame a a'.
Proof.
  revert a. induction l as [|c l IH]; intros a I Hp Hu; cbn [prepare_scans]; [by do 2 eexists; split_and!; auto with driver|].
  destruct (wlan_prepare_cmd_ok H priv c HostCmd_ACT_GEN_SET None None buf a I Hp Hu) as (ret & a1 & -> & I1 & F1 & R); [done|].
  cbn [mbind option_bind].
  assert (K1 : kept a a1).
  { intros s. destruct R as [[_ R]|[_ R]]; rewrite R; [|done]. change (owes s None) with 0. lia. }
  case_bool_decide; [|by do 2 eexists].
  pose proof F1 as (Eu & _ & Ep & _). destruct (IH a1 I1) as (ret2 & a2 & -> & I2 & K2 & F2).
  { unfold priv_at. by rewrite Ep. }
  { by rewrite Eu. }
  do 2 eexists. split; [done|]. split_and!; eauto using kept_trans, frame_trans.
Qed.

(** The pending scan request is replaced. *)
Definition put_pscan (r : option nat) (a : mlan_adapter) : mlan_adapter := set_pscan_ioctl_req r a.
Lemma put_pscan_ok H r a : inv H a →
  (∀ s, r = Some s → is_Some (ioctls a !! s) ∧ owed s (drop_pscan a) = 0) →
  inv H (put_pscan r a) ∧ (∀ s, acct s (put_pscan r a) = acct s a - owes s (pscan_ioctl_req a) + owes s r).
Proof.
  intros I Hr.
  assert (Ho : ∀ s, owed s (put_pscan r a) = owed s (drop_pscan a) + owes s r).
  { intros s. unfold owed, put_pscan, drop_pscan. cbn. change (owes s None) with 0. lia. }
  split.
  - pose proof (drop_pscan_inv H a I) as (I1 & I2 & I3 & I4 & I5 & I6). unfold inv. split_and!; try done.
    intros s. rewrite Ho. destruct (I2 s) as [Hs Hl]. destruct (owes_cases s r) as [[-> E]|[-> E]].
    + destruct (Hr s E) as [L Z]. split; [lia|done].
    + rewrite Z.add_0_r. done.
  - intros s. unfold acct. rewrite Ho, owed_drop_pscan. change (completed s (put_pscan r a)) with (completed s a). lia.
Qed.

(** A scan starts: its first command becomes pending and request [r] waits. *)
Lemma scan_start_ok H r a : inv H a →
  (∀ s, r = Some s → is_Some (ioctls a !! s) ∧ owed s (drop_pscan a) = 0) →
  ∃ a', scan_start r a = Some a' ∧ inv H a' ∧ frame_scan a a' ∧
        (∀ s, acct s a' = acct s a - match scan_pending_q a with [] => 0 | _ => owes s (pscan_ioctl_req a) - owes s r end).
Proof.
  intros I Hr. unfold scan_start. destruct (scan_pending_q a) as [|i q] eqn:E.
  { exists a. split_and!; auto with driver. intros s. lia. }
  destruct (take_scan _ _ _ _ I E) as [I1 Hw]. set (a1 := set_scan_pending_q q a) in *.
  destruct (put_pscan_ok (i :: H) r a1 I1 Hr) as [I2 A2].
  set (a2 := set_scan_state SCAN_STATE_SCAN_START (set_scan_processing true (put_pscan r a1))).
  destruct (insert_pending_ok H i true a2 I2 Hw) as (a3 & E3 & I3 & K3 & F3 & _). exists a3.
  split; [exact E3|]. split_and!; try done.
  - apply (frame_scan_trans _ a2); [done|auto with driver].
  - intros s. rewrite K3. change (acct s a2) with (acct s (put_pscan r a1)). rewrite A2.
    change (acct s a1) with (acct s a). change (pscan_ioctl_req a1) with (pscan_ioctl_req a). lia.
Qed.

(** Whether [pl] can be prepared: on USB its buffers are allocated. *)
Definition plan_good (active : option scan_plan) : Prop := ∀ pl, active = Some pl → plan_buf pl = true.

Lemma active_scan_ok H active p a : inv H a → plan_good active → priv_at a (bss_index p) = Some p →
  ∃ b a', wlan_active_scan_req_for_passive_chan active p a = Some (b, a') ∧ inv H a' ∧ kept a a' ∧ frame_scan a a'.
Proof.
  intros I Hg Hp. unfold wlan_active_scan_req_for_passive_chan.
  destruct active as [pl|]; [|by do 2 eexists; split_and!; auto with driver].
  destruct (pscan_ioctl_req a) as [r|] eqn:Er; [|by do 2 eexists; split_and!; auto with driver].
  unfold wlan_scan_networks.
  destruct (prepare_scans_ok H (bss_index p) (plan_cmds pl) (plan_buf pl) a I) as (ret & a1 & -> & I1 & K1 & F1);
    [by rewrite Hp|by rewrite (Hg pl)|]. cbn [mbind option_bind].
  destruct (_ && _); cbn [mbind option_bind].
  2:{ do 2 eexists. split; [done|]. auto with driver. }
  pose proof F1 as (_ & _ & _ & _ & _ & Ep & _). rewrite Er in Ep.
  destruct (pscan_live _ _ _ I1 Ep) as (_ & L1 & Z1).
  destruct (scan_start_ok H (Some r) a1 I1) as (a2 & -> & I2 & F2 & A2); [by intros s [= <-]|].
  cbn [mbind option_bind]. do 2 eexists. split; [done|]. split_and!; eauto using frame_scan_trans with driver.
  intros s. rewrite A2, K1, Ep. destruct (scan_pending_q a1); lia.
Qed.

Lemma wlan_ret_802_11_scan_ok H perr active p a : inv H a → plan_good active → priv_at a (bss_index p) = Some p →
  ∃ ret a', wlan_ret_802_11_scan perr active p a = Some (ret, a') ∧ inv H a' ∧ kept a a' ∧ frame_scan a a'.
Proof.
  intros I Hg Hp. unfold wlan_ret_802_11_scan. destruct perr as [code|].
  { destruct (flush_complete_ok H MLAN_STATUS_FAILURE code a I) as (a1 & a2 & -> & E2 & I2 & K2 & F2 & _).
    cbn [mbind option_bind]. rewrite E2. cbn [mbind option_bind]. by do 2 eexists. }
  destruct (scan_pending_q a) as [|i q] eqn:E.
  - destruct (active_scan_ok H active p a I Hg Hp) as (again & a1 & -> & I1 & K1 & F1). cbn [mbind option_bind].
    destruct again; [by do 2 eexists|].
    destruct (complete_pscan_ok H MLAN_STATUS_SUCCESS MLAN_ERROR_NO_ERROR a1 I1) as (a2 & -> & I2 & K2 & F2 & _).
    cbn [mbind option_bind]. destruct (scan_report_ok H p a2 I2) as (I3 & K3 & F3).
    do 2 eexists. split; [done|]. split_and!; [done|eauto using kept_trans|].
    apply (frame_scan_trans _ a1); [done|]. eauto using frame_scan_trans with driver.
  - destruct (negb _).
    + destruct (flush_complete_ok H MLAN_STATUS_FAILURE MLAN_ERROR_FW_NOT_READY a I) as (a1 & a2 & -> & E2 & I2 & K2 & F2 & _).
      cbn [mbind option_bind]. rewrite E2. cbn [mbind option_bind]. by do 2 eexists.
    + destruct (scan_next_ok H a I) as (a2 & -> & I2 & K2 & F2). cbn [mbind option_bind].
      do 2 eexists. split; [done|]. auto with driver.
Qed.

Lemma wlan_process_cmdresp_error_ok p no r io a : inv [] a → (∀ s, io = Some s → is_Some (ioctls a !! s)) →
  ∃ ret a', wlan_process_cmdresp_error p no r io a = Some (ret, a') ∧ inv [] a' ∧ kept a a' ∧ env_same a a'.
Proof.
  intros I Hio. unfold wlan_process_cmdresp_error.
  destruct (write_status_opt_ok [] io MLAN_ERROR_FW_CMDRESP a I Hio) as (a1 & -> & I1 & K1 & F1 & _).
  cbn [mbind option_bind].
  assert (Hs : ∃ a2, (if (command r =? HostCmd_CMD_802_11_SCAN) || (command r =? HostCmd_CMD_802_11_SCAN_EXT) then
         a ← wlan_flush_scan_queue a1;
         a ← complete_pscan MLAN_STATUS_SUCCESS MLAN_ERROR_NO_ERROR a;
         Some (scan_report p a)
       else Some a1) = Some a2 ∧ inv [] a2 ∧ kept a1 a2 ∧ env_same a1 a2).
  { destruct (_ || _); [|by exists a1; auto with driver].
    destruct (flush_complete_ok [] MLAN_STATUS_SUCCESS MLAN_ERROR_NO_ERROR a1 I1) as (b & c & -> & E2 & I2 & K2 & F2 & _).
    cbn [mbind option_bind]. rewrite E2. cbn [mbind option_bind].
    destruct (scan_report_ok [] p c I2) as (I3 & K3 & F3). eexists. split; [done|].
    split_and!; eauto using kept_trans, env_trans with driver. }
  destruct Hs as (a2 & -> & I2 & K2 & F2). cbn [mbind option_bind].
  destruct (free_curr_ok [] a2 I2) as (a3 & -> & I3 & K3 & F3 & _). cbn [mbind option_bind].
  do 2 eexists. split; [done|]. split_and!; eauto using kept_trans, env_trans with driver.
Qed.

(** What the firmware's answer to a scan command says of the request attached to
    it: scan commands carry none, except the cancellation of an extended scan,
    whose answer says so. *)
Definition scan_echo (no : Z) (r : cmd_body) (io : option nat) : Prop :=
  (no = HostCmd_CMD_802_11_SCAN → io = None) ∧
  (no = HostCmd_CMD_802_11_SCAN_EXT → io = None ∨ body_ext_scan_type r = EXT_SCAN_CANCEL).

(** Detaching a current command that carries no request changes nothing. *)
Lemma detach_curr_ok H i n a : inv H a → curr_cmd a = Some i → nodes a !! i = Some n → pioctl_buf n = None →
  detach_curr a = Some (put_node i (detached n) a) ∧ inv H (put_node i (detached n) a) ∧
  kept a (put_node i (detached n) a) ∧ env_same a (put_node i (detached n) a).
Proof.
  intros I Hc Hn Hio. unfold detach_curr. rewrite Hc. cbn [mbind option_bind]. rewrite Hn. cbn [mbind option_bind].
  rewrite (upd_node_Some _ _ _ _ Hn). split_and!; [done|by eapply inv_detach| |].
  - intros r. rewrite (acct_put _ _ _ _ _ Hn), Hio. cbn. lia.
  - unfold env_same. cbn. by rewrite length_insert.
Qed.

Lemma scan_ext_ok r i n a : inv [] a → curr_cmd a = Some i → nodes a !! i = Some n →
  (pioctl_buf n = None ∨ body_ext_scan_type r = EXT_SCAN_CANCEL) →
  ∃ ret a1 a', wlan_ret_802_11_scan_ext r (pioctl_buf n) a = Some (ret, a1) ∧ detach_curr a1 = Some a' ∧
               inv [] a' ∧ kept a a' ∧ env_same a a'.
Proof.
  intros I Hc Hn Hecho. unfold wlan_ret_802_11_scan_ext.
  assert (Hplain : ∀ a1, pioctl_buf n = None → inv [] a1 → kept a a1 → env_same a a1 → curr_cmd a1 = Some i →
    nodes a1 !! i = Some n → ∃ a', detach_curr a1 = Some a' ∧ inv [] a' ∧ kept a a' ∧ env_same a a').
  { intros a1 Hio I1 K1 E1 Hc1 Hn1. destruct (detach_curr_ok [] i n a1 I1 Hc1 Hn1 Hio) as (-> & I2 & K2 & E2).
    eexists. split; [done|]. eauto using kept_trans, env_trans. }
  destruct (body_ext_scan_type r =? EXT_SCAN_CANCEL) eqn:Et.
  - set (b := set_ext_scan_type _ _). destruct (pioctl_buf n) as [q|] eqn:Er.
    + destruct (inv_live _ _ _ _ _ I Hn Er) as [_ [x Hx]]. unfold write_status.
      change (ioctls b) with (ioctls a). rewrite Hx. cbn [mbind option_bind].
      unfold moal_ioctl_complete. cbn [ioctls set_ioctls]. rewrite lookup_insert_eq. cbn [mbind option_bind].
      do 3 eexists. split; [reflexivity|]. split.
      { unfold detach_curr. change (curr_cmd (log ?e (set_ioctls ?x (set_ioctls ?y b)))) with (curr_cmd a).
        rewrite Hc. cbn [mbind option_bind]. change (nodes (log ?e (set_ioctls ?x (set_ioctls ?y b)))) with (nodes a).
        rewrite Hn. reflexivity. }
      change (ioctls (set_ioctls ?x ?y)) with x. rewrite delete_insert_eq.
      rewrite (upd_node_Some _ _ n) by done.
      change (set_nodes _ _) with (complete q MLAN_STATUS_SUCCESS 0 (put_node i (detached n) b)).
      change (nodes b !! i = Some n) in Hn. change (inv [] b) in I.
      split_and!.
      * apply inv_complete; [by eapply inv_detach|]. by eapply owed_detached_self.
      * intros s. rewrite acct_complete, (acct_put _ _ _ _ _ Hn), Er. change (owes s (pioctl_buf (detached n))) with 0.
        change (acct s b) with (acct s a). unfold owes. repeat case_decide; simplify_eq; lia.
      * unfold env_same. cbn. by rewrite length_insert.
    + destruct (Hplain b) as (a' & E & ?); try done. by do 3 eexists.
  - destruct Hecho as [Hio|Hx]; [|by rewrite Hx in Et].
    destruct (body_ext_scan_type r =? EXT_SCAN_ENHANCE).
    + match goal with |- ∃ _ _ _, Some (_, ?b) = _ ∧ _ => destruct (Hplain b Hio) as (a' & E & ?); try done end.
      { intros s. change (acct s (log (StartTimer 20000) a) = acct s a). rewrite acct_log. cbn. lia. }
      by do 3 eexists.
    + match goal with |- ∃ _ _ _, Some (_, ?b) = _ ∧ _ => destruct (Hplain b Hio) as (a' & E & ?); try done end.
      by do 3 eexists.
Qed.

#[export] Instance wlan_ops_sta_process_cmdresp_ok perr active other pre `{!CmdHandler other pre} :
  plan_good active →
  CmdHandler (wlan_ops_sta_process_cmdresp perr active other) (λ no r io, scan_echo no r io ∧ pre no r io).
Proof.
  intros Hg. constructor. intros p no r i n a I Hp Hc Hn [[He1 He2] Hpre]. unfold wlan_ops_sta_process_cmdresp.
  assert (Hio : ∀ s, pioctl_buf n = Some s → is_Some (ioctls a !! s)).
  { intros s Hs. by destruct (inv_live _ _ _ _ _ I Hn Hs). }
  destruct (negb _); [by apply wlan_process_cmdresp_error_ok|].
  destruct (no =? HostCmd_CMD_802_11_SCAN) eqn:E1.
  - apply Z.eqb_eq in E1. destruct (wlan_ret_802_11_scan_ok [] perr active p a I Hg Hp) as (ret & a1 & -> & I1 & K1 & F1).
    cbn [mbind option_bind]. pose proof F1 as (_ & _ & _ & _ & Hc1 & _ & Hn1). rewrite Hc in Hc1. specialize (Hn1 i Hc).
    rewrite Hn in Hn1. destruct (detach_curr_ok [] i n a1 I1 Hc1 Hn1 (He1 E1)) as (-> & I2 & K2 & F2).
    cbn [mbind option_bind]. do 2 eexists. split; [done|]. split_and!; eauto using kept_trans, env_trans with driver.
  - destruct (no =? HostCmd_CMD_802_11_SCAN_EXT) eqn:E2; [|by eapply handler_ok].
    apply Z.eqb_eq in E2. destruct (scan_ext_ok r i n a I Hc Hn (He2 E2)) as (ret & a1 & a' & -> & E & R).
    cbn [mbind option_bind]. rewrite E. cbn [mbind option_bind]. by do 2 eexists.
Qed.

(** ** [wlan_process_cmdresp] *)

Lemma call_handler_ok h hs pre `{!CmdHandler h pre} `{!CmdHandler hs pre} p no r i n a :
  inv [] a → priv_at a (bss_index p) = Some p → curr_cmd a = Some i → nodes a !! i = Some n → pre no r (pioctl_buf n) →
  ∃ ret a', call_handler h hs p no r (pioctl_buf n) i a = Some (ret, a') ∧ inv [] a' ∧ kept a a' ∧ env_same a a'.
Proof.
  intros I Hp Hc Hn Hpre. unfold call_handler. rewrite Hn. cbn [mbind option_bind].
  destruct (negb _); [|by eapply handler_ok].
  rewrite (upd_node_Some _ _ _ _ Hn). set (n' := set_cmd_flag _ n). fold (put_node i n' a).
  assert (I2 : inv [] (put_node i n' a)).
  { apply (inv_put_curr _ _ n); try done. pose proof I as (_ & _ & _ & _ & I5 & _).
    destruct (I5 i Hc) as (m & Hm & Hcur). rewrite Hn in Hm. by injection Hm as <-. }
  assert (K2 : kept a (put_node i n' a)) by (intros s; rewrite (acct_put _ _ _ _ _ Hn); cbn; lia).
  assert (E2 : env_same a (put_node i n' a)) by (unfold env_same; cbn; by rewrite length_insert).
  destruct (_ && _).
  - destruct (handler_ok (h := hs) p no r i n' (put_node i n' a)) as (ret & a' & E & I' & K' & E');
      [done|done|done|by apply (put_node_lookup i n)|done|].
    exists ret, a'. split_and!; eauto using kept_trans, env_trans.
  - do 2 eexists. split; [done|]. done.
Qed.

Lemma process_matched_ok h hs ih pre `{!CmdHandler h pre} `{!CmdHandler hs pre} `{!InitHandler ih} i n r a :
  inv [] a → curr_cmd a = Some i → nodes a !! i = Some n → Z.land (cmd_flag n) CMD_F_CANCELED = 0 →
  (∀ r', param0 r' = param0 r → result r' = result r →
     pre (Z.land (command r) HostCmd_CMD_ID_MASK) r' (pioctl_buf n)) →
  ∃ ret a', process_matched h hs ih i r (pioctl_buf n) a = Some (ret, a') ∧ inv [] a' ∧ kept a a' ∧ env_same a a'.
Proof.
  intros I Hc Hn Hcan Hpre. unfold process_matched. set (o := match wlan_get_priv_by_id _ _ _ with Some p => _ | None => _ end).
  assert (Ho : ∀ p, o = Some p → priv_at a (bss_index p) = Some p).
  { intros p. unfold o. destruct (wlan_get_priv_by_id a _ _) eqn:E.
    - intros [= <-]. by eapply wlan_get_priv_by_id_at.
    - by eapply wlan_get_priv_at. }
  destruct o as [p|]; [|by do 2 eexists; split_and!; auto with driver]. specialize (Ho p eq_refl).
  assert (Hio : ∀ s, pioctl_buf n = Some s → is_Some (ioctls a !! s)).
  { intros s Hs. by destruct (inv_live _ _ _ _ _ I Hn Hs). }
  destruct (_ =? 0).
  { destruct (write_status_opt_ok [] (pioctl_buf n) MLAN_ERROR_FW_CMDRESP a I Hio) as (a1 & -> & I1 & K1 & F1 & _).
    cbn [mbind option_bind]. destruct (free_curr_ok [] a1 I1) as (a2 & -> & I2 & K2 & F2 & _). cbn [mbind option_bind].
    do 2 eexists. split; [done|]. split_and!; eauto using kept_trans, env_trans with driver. }
  set (b := if result r =? 8 then _ else a).
  assert (Hb : b = a ∨ b = log (RecvEvent MLAN_EVENT_ID_DRV_RGPWR_KEY_MISMATCH) a) by (unfold b; case_match; auto).
  assert (Ib : inv [] b ∧ kept a b ∧ env_same a b ∧ curr_cmd b = Some i ∧ nodes b !! i = Some n ∧
               priv_at b (bss_index p) = Some p).
  { destruct Hb as [-> | ->]; [by auto with driver|]. split_and!; try done. intros s. rewrite acct_log. cbn. lia. }
  clearbody b. destruct Ib as (Ib & Kb & Eb & Hcb & Hnb & Hpb).
  destruct (usb b) eqn:Eu; cbn [negb andb]; [|destruct (result r =? _)].
  2:{ destruct (pre_asleep_ok [] b Ib Eu) as (a' & -> & I' & K' & E').
      { intros j m Hj Hm. rewrite Hcb in Hj. injection Hj as <-. rewrite Hnb in Hm. by injection Hm as <-. }
      cbn [mbind option_bind]. do 2 eexists. split; [done|]. eauto using kept_trans, env_trans. }
  all: (destruct (call_handler_ok h hs pre p (Z.land (command r) HostCmd_CMD_ID_MASK)
          (mk_body (Z.land (command r) HostCmd_CMD_ID_MASK) (size r) (cseq r) (result r) (param0 r)) i n b)
          as (ret & a2 & -> & I2 & K2 & E2); [done|done|done|done|by apply Hpre|]).
  all: cbn [mbind option_bind]; destruct (initializing a2 && _).
  1,3: (do 2 eexists; split; [done|]; split_and!; [done| |by eapply env_trans]; intros s; rewrite acct_log, K2, Kb; cbn; lia).
  all: destruct (finish_curr_ok [] ret a2 I2) as (a3 & -> & I3 & K3 & E3 & _); cbn [mbind option_bind];
    destruct (init_progress_ok ih p (Z.land (command r) HostCmd_CMD_ID_MASK) ret a3 I3) as (ret' & a4 & -> & I4 & K4 & E4);
    do 2 eexists; (split; [done|]); split_and!; eauto using kept_trans, env_trans.
Qed.

Lemma wlan_process_cmdresp_ok h hs ih pre `{!CmdHandler h pre} `{!CmdHandler hs pre} `{!InitHandler ih} a :
  inv [] a →
  (∀ i n r r', curr_cmd a = Some i → nodes a !! i = Some n → respbuf n = Some r →
     param0 r' = param0 r → result r' = result r → pre (Z.land (command r) HostCmd_CMD_ID_MASK) r' (pioctl_buf n)) →
  ∃ ret a', wlan_process_cmdresp h hs ih a = Some (ret, a') ∧ inv [] a' ∧ kept a a' ∧ env_same a a'.
Proof.
  intros I Hpre. unfold wlan_process_cmdresp.
  destruct (negb _); [by do 2 eexists; split_and!; auto with driver|].
  destruct (curr_cmd a) as [i|] eqn:Hc; [|by do 2 eexists; split_and!; auto with driver].
  pose proof I as (_ & _ & _ & _ & I5 & _). destruct (I5 i Hc) as (n & Hn & Hcur). rewrite Hn. cbn [mbind option_bind].
  assert (Hio : ∀ s, pioctl_buf n = Some s → is_Some (ioctls a !! s)).
  { intros s Hs. by destruct (inv_live _ _ _ _ _ I Hn Hs). }
  destruct (respbuf n) as [r|] eqn:Er.
  2:{ destruct (write_status_opt_ok [] (pioctl_buf n) MLAN_ERROR_CMD_RESP_FAIL a I Hio) as (a1 & -> & I1 & K1 & F1 & _).
      cbn [mbind option_bind]. do 2 eexists. split; [done|]. auto with driver. }
  destruct (negb _); [by do 2 eexists; split_and!; auto with driver|].
  set (b := if cmd_timer_is_set a then _ else a).
  assert (Hb : inv [] b ∧ kept a b ∧ env_same a b ∧ curr_cmd b = Some i ∧ nodes b !! i = Some n ∧ ioctls b = ioctls a).
  { unfold b. destruct (cmd_timer_is_set a); [|by auto with driver]. split_and!; try done.
    intros s. change (acct s (log StopTimer a) = acct s a). rewrite acct_log. cbn. lia. }
  clearbody b. destruct Hb as (Ib & Kb & Eb & Hcb & Hnb & Hib).
  destruct (negb (Z.land _ CMD_F_CANCELED =? 0)) eqn:Ecan.
  - pose proof (inv_take_curr _ _ _ Ib Hcb) as I1.
    destruct (write_status_opt_ok [i] (pioctl_buf n) MLAN_ERROR_CMD_CANCEL (set_curr_cmd None b) I1) as (a2 & -> & I2 & K2 & F2 & _).
    { intros s Hs. change (is_Some (ioctls b !! s)). rewrite Hib. auto. }
    cbn [mbind option_bind]. destruct (plain_free_ok _ _ _ I2) as (a3 & -> & I3 & K3 & F3 & _). cbn [mbind option_bind].
    do 2 eexists. split; [done|]. split_and!; [done| |].
    + intros s. rewrite K3, K2. exact (Kb s).
    + eapply env_trans; [exact Eb|]. apply (env_trans _ (set_curr_cmd None b)); [done|]. eauto using env_trans with driver.
  - apply negb_false_iff, Z.eqb_eq in Ecan.
    destruct (process_matched_ok h hs ih pre i n r b Ib Hcb Hnb Ecan) as (ret & a' & E & I' & K' & E').
    { intros r' Hp Hr. by eapply Hpre. }
    exists ret, a'. split_and!; eauto using kept_trans, env_trans.
Qed.
