(* ===== verification/CmdCancel.v ===== *)
(** * CmdCancel: time-outs and cancellations are safe

    The lemmas of [CmdSafe] for the command time-out and the cancellation of scan
    commands, of the commands of an interface, of one request, of everything.
    Requests in the hands of the caller of an operation are not completed behind
    its back ([caller_kept]). *)

From S2P Require Import Prelude CmdQueue CmdInv CmdSafe CmdResp.

(** ** Time-out, cancellation, scan events *)

Lemma recv_event_ok H o id a : inv H a →
  inv H (wlan_recv_event o id a) ∧ kept a (wlan_recv_event o id a) ∧ frame a (wlan_recv_event o id a).
Proof.
  intros I. unfold wlan_recv_event. destruct o; [|by auto with driver]. split; [done|]. split; [|done].
  intros r. rewrite acct_log. cbn. by rewrite Z.add_0_r.
Qed.

Lemma wlan_cmd_timeout_func_ok H a : inv H a →
  ∃ a', wlan_cmd_timeout_func a = Some a' ∧ inv H a' ∧ kept a a' ∧ env_same a a'.
Proof.
  intros I. unfold wlan_cmd_timeout_func. cbn [curr_cmd set_cmd_timer_is_set].
  destruct (curr_cmd a) as [i|] eqn:Hc.
  - set (b := set_num_cmd_timeout _ _). pose proof I as (_ & _ & _ & _ & I5 & _).
    destruct (I5 i Hc) as (n & Hn & _). change (nodes b) with (nodes a). rewrite Hn. cbn [mbind option_bind].
    destruct (write_status_opt_ok H (pioctl_buf n) MLAN_ERROR_CMD_TIMEOUT b I) as (a1 & -> & I1 & K1 & F1 & _).
    { intros s Hs. by destruct (inv_live _ _ _ _ _ I Hn Hs). }
    cbn [mbind option_bind]. assert (E1 : env_same a a1) by (apply (env_trans _ b); [done|by apply frame_env]).
    destruct (initializing a1).
    + eexists. split; [done|]. split_and!; try done. intros s. rewrite acct_log, K1. cbn. rewrite Z.add_0_r. done.
    + match goal with |- context [wlan_recv_event ?o ?id a1] => destruct (recv_event_ok H o id a1 I1) as (I2 & K2 & F2) end.
      eexists. split; [done|]. split_and!; [done| |eauto using env_trans with driver]. intros s. rewrite K2. apply K1.
  - eexists. split; [done|]. by destruct (_ && _).
Qed.

(** Cancelling the current command. *)
Lemma cancel_curr_if_ok H P a : inv H a →
  ∃ o a', cancel_curr_if P a = Some (o, a') ∧ inv H a' ∧ kept a a' ∧ env_same a a' ∧ queues a' = queues a ∧
          curr_cmd a' = curr_cmd a ∧ pscan_ioctl_req a' = pscan_ioctl_req a ∧
          (∀ i n', curr_cmd a = Some i → nodes a' !! i = Some n' →
             ∀ r q, pioctl_buf n' = Some r → ioctls a' !! r = Some q → P q = false).
Proof.
  intros I. unfold cancel_curr_if. destruct (curr_cmd a) as [i|] eqn:Hc.
  2:{ do 2 eexists. split; [done|]. by split_and!; auto with driver. }
  pose proof I as (_ & _ & _ & _ & I5 & _). destruct (I5 i Hc) as (n & Hn & Hcur). rewrite Hn. cbn [mbind option_bind].
  destruct (pioctl_buf n) as [r|] eqn:Er.
  2:{ do 2 eexists. split; [done|]. split_and!; auto with driver. intros j n' [= <-] Hn'. rewrite Hn in Hn'.
      injection Hn' as <-. congruence. }
  destruct (inv_live _ _ _ _ _ I Hn Er) as [_ [q Hq]]. rewrite Hq. cbn [mbind option_bind].
  destruct (P q) eqn:EP.
  - set (n' := set_cmd_flag (Z.lor (cmd_flag n) CMD_F_CANCELED) (detached n)).
    assert (Ec : cancel_curr i a = put_node i n' a) by (unfold cancel_curr; by rewrite (upd_node_Some _ _ _ _ Hn)).
    rewrite Ec, complete_cancel_eq by (by exists q). cbn [mbind option_bind]. do 2 eexists. split; [done|].
    assert (I2 : inv H (put_node i n' a)) by (by apply (inv_put_curr _ _ n)).
    split_and!; try done.
    + apply inv_complete; [done|]. rewrite (owed_put _ _ _ _ _ Hn), Er. destruct (inv_live _ _ _ _ _ I Hn Er) as [-> _].
      unfold owes. cbn. by rewrite decide_True.
    + intros s. rewrite acct_complete, (acct_put _ _ _ _ _ Hn), Er. change (owes s (pioctl_buf n')) with 0.
      unfold owes. repeat case_decide; simplify_eq; lia.
    + unfold env_same. cbn. by rewrite length_insert.
    + intros j m [= <-] Hm. cbn in Hm. rewrite list_lookup_insert_eq in Hm by (by eapply lookup_lt_Some).
      injection Hm as <-. done.
  - do 2 eexists. split; [done|]. split_and!; auto with driver. intros j m [= <-] Hm s x Hs Hx.
    rewrite Hn in Hm. injection Hm as <-. rewrite Er in Hs. injection Hs as <-. congruence.
Qed.

(** Asking the firmware to end an enhanced scan. *)
Lemma send_cancel_scan_ok H bss io buf a : inv H a → (usb a = true → buf = true) → fresh_request io a →
  ∃ ret p a', send_cancel_scan bss io buf a = Some (ret, p, a') ∧ inv H a' ∧ frame a a' ∧ prepare_result io ret a a'.
Proof.
  intros I Hu Hio. unfold send_cancel_scan. destruct (bss ≫= priv_at a) as [p|] eqn:Ep.
  - destruct bss as [k|]; [|done]. cbn in Ep. pose proof I as (_ & _ & _ & _ & _ & I6).
    rewrite (I6 k p Ep).
    destruct (wlan_prepare_cmd_ok H k (cancel_scan_cmd a) HostCmd_ACT_GEN_SET io None buf a I) as (ret & a' & -> & I' & F & R);
      [by rewrite Ep|done|done|].
    cbn [mbind option_bind]. by do 3 eexists.
  - do 3 eexists. split; [done|]. split_and!; auto with driver. right. by auto with driver.
Qed.

(** Requests in the hands of a caller, alive and attached to nothing, stay that
    way. *)
Definition caller_kept (a a' : mlan_adapter) : Prop :=
  ∀ r, is_Some (ioctls a !! r) → owed r a = 0 → is_Some (ioctls a' !! r) ∧ owed r a' = 0.
Lemma caller_refl a : caller_kept a a.
Proof. done. Qed.
Lemma caller_trans a b c : caller_kept a b → caller_kept b c → caller_kept a c.
Proof. intros E1 E2 r Hl Ho. destruct (E1 r Hl Ho). by apply E2. Qed.
#[export] Hint Resolve caller_refl : driver.

(** Neither the live requests nor the completions change. *)
Definition quiet (a a' : mlan_adapter) : Prop := ioctls a' = ioctls a ∧ ∀ r, completed r a' = completed r a.
Lemma quiet_refl a : quiet a a.
Proof. done. Qed.
Lemma quiet_trans a b c : quiet a b → quiet b c → quiet a c.
Proof. intros [A1 A2] [B1 B2]. split; [congruence|]. intros r. by rewrite B2. Qed.
#[export] Hint Resolve quiet_refl : driver.

Lemma quiet_caller a a' : quiet a a' → kept a a' → caller_kept a a'.
Proof.
  intros [Ei Ec] K r Hl Ho. rewrite Ei. split; [done|]. specialize (K r). unfold acct in K.
  rewrite Ec in K. lia.
Qed.
Lemma quiet_log e a : (∀ r, completes r e = 0) → quiet a (log e a).
Proof. intros He. split; [done|]. intros r. unfold completed, log. cbn. rewrite zsum_app. cbn. rewrite He. lia. Qed.
Lemma quiet_event o id a : quiet a (wlan_recv_event o id a).
Proof. unfold wlan_recv_event. destruct o; [by apply quiet_log|done]. Qed.

Lemma quiet_free i n a : nodes a !! i = Some n → pioctl_buf n = None →
  ∃ a', wlan_insert_cmd_to_free_q (Some i) a = Some a' ∧ quiet a a'.
Proof.
  intros Hn Hp. rewrite (free_eq i n) by (done || by rewrite Hp). eexists. split; [done|].
  unfold freed, complete_attached. rewrite Hp. unfold log_resp. destruct (respbuf n); [|done].
  change (quiet a (log RespComplete a)). by apply quiet_log.
Qed.

Lemma upd_node_lookup f i n a : nodes a !! i = Some n → nodes (upd_node f i a) !! i = Some (f n).
Proof. intros Hn. unfold upd_node. cbn. rewrite list_lookup_alter_eq. by rewrite Hn. Qed.

Lemma quiet_pending i t a a' : wlan_insert_cmd_to_pending_q (Some i) t a = Some a' → quiet a a'.
Proof.
  unfold wlan_insert_cmd_to_pending_q. destruct (node_cmd a i); [|done]. cbn [mbind option_bind].
  intros E. by injection E as <-.
Qed.

Lemma quiet_queue_prepared i no act b a a' : queue_prepared i no act b a = Some a' → quiet a a'.
Proof.
  unfold queue_prepared, wlan_queue_cmd.
  destruct (_ || _); [destruct (_ && _)|destruct (_ && (hs_conditions a =? _)); [|destruct (_ && _)]];
    try apply quiet_pending; intros E; by injection E as <-.
Qed.

Lemma quiet_prepare priv c act data buf a ret a' :
  wlan_prepare_cmd priv c act None data buf a = Some (ret, a') → quiet a a'.
Proof.
  assert (Hfail : ∀ code b, fail_prepare None code b = Some (ret, a') → a' = b).
  { intros code b E. unfold fail_prepare in E. cbn in E. by injection E as _ <-. }
  unfold wlan_prepare_cmd. destruct (surprise_removed a); [intros E; apply Hfail in E as ->; done|].
  destruct (_ && _); [intros E; apply Hfail in E as ->; done|].
  unfold wlan_get_cmd_node. destruct (cmd_free_q a) as [|i q].
  { intros E. apply Hfail in E as ->. unfold no_cmd_node. destruct (_ >=? 5); [|done].
    exact (quiet_event _ _ (set_num_no_cmd_node _ a)). }
  set (b := wlan_init_cmd_node _ _ _ _ _ _ _). assert (Hb : quiet a b) by done. revert Hb. clearbody b. intros Hb.
  destruct (nodes b !! i) as [n|] eqn:Hn; [|done]. cbn [mbind option_bind].
  destruct (cmdbuf n) as [cb|]; [|intros E; apply Hfail in E as ->; done].
  set (c1 := if source_no c =? 0 then _ else b).
  assert (Hc : quiet a c1 ∧ ∃ m, nodes c1 !! i = Some m).
  { unfold c1. destruct (_ =? 0); [|by eauto]. split; [done|]. eexists. by apply upd_node_lookup. }
  clearbody c1. destruct Hc as (Hc & m & Hm). destruct (prepare_body c) as [x|].
  - destruct (queue_prepared _ _ _ _ _) as [d|] eqn:E; [|done]. cbn [mbind option_bind].
    intros E2. injection E2 as _ <-. apply (quiet_trans _ _ _ Hc). by apply quiet_queue_prepared in E.
  - cbn [write_status_opt mbind option_bind].
    destruct (quiet_free i (set_pioctl_buf None m) (upd_node (set_pioctl_buf None) i c1)) as (d & -> & Hd);
      [by apply upd_node_lookup|done|].
    cbn [mbind option_bind]. intros E2. injection E2 as _ <-. by apply (quiet_trans _ _ _ Hc).
Qed.

Lemma complete_caller r st code a b : owed r a = 1 → (∀ s, owed s b <= owed s a) → ioctls b = ioctls a →
  caller_kept a (complete r st code b).
Proof.
  intros Hr Hle Hi s Hl Ho. pose proof (Hle s). pose proof (owed_nonneg s b). split.
  - cbn. rewrite Hi, lookup_delete_ne; [done|]. intros ->. lia.
  - change (owed s b = 0). lia.
Qed.

Lemma cancel_pscan_caller H a : inv H a → ∀ o a', cancel_pscan a = Some (o, a') → caller_kept a a'.
Proof.
  intros I o a'. unfold cancel_pscan. destruct (pscan_ioctl_req a) as [r|] eqn:Er.
  - destruct (pscan_live _ _ _ I Er) as (Ho & [q Hq] & _). rewrite Hq. cbn [mbind option_bind].
    fold (drop_pscan a). rewrite complete_cancel_eq by (by exists q). cbn [mbind option_bind].
    intros E. apply (f_equal (fmap snd)) in E. cbn in E. injection E as <-.
    apply complete_caller; [done| |done]. intros s. rewrite owed_drop_pscan. pose proof (owes_nonneg s (pscan_ioctl_req a)). lia.
  - intros E. apply (f_equal (fmap snd)) in E. cbn in E. by injection E as <-.
Qed.

Lemma cancel_curr_if_caller H P a : inv H a → ∀ o a', cancel_curr_if P a = Some (o, a') → caller_kept a a'.
Proof.
  intros I o a'. unfold cancel_curr_if.
  assert (Hsame : ∀ x, Some (x, a) = Some (o, a') → caller_kept a a').
  { intros x E. apply (f_equal (fmap snd)) in E. cbn in E. by injection E as <-. }
  destruct (curr_cmd a) as [i|] eqn:Hc; [|apply Hsame].
  destruct (nodes a !! i) as [n|] eqn:Hn; [|done]. cbn [mbind option_bind].
  destruct (pioctl_buf n) as [r|] eqn:Er; [|apply Hsame].
  destruct (inv_live _ _ _ _ _ I Hn Er) as [Ho [q Hq]]. rewrite Hq. cbn [mbind option_bind].
  destruct (P q); [|apply Hsame]. unfold cancel_curr. rewrite (upd_node_Some _ _ _ _ Hn).
  rewrite complete_cancel_eq by (by exists q). cbn [mbind option_bind].
  intros E. apply (f_equal (fmap snd)) in E. cbn in E. injection E as <-.
  apply complete_caller; [done| |done]. intros s.
  etransitivity; [apply Z.eq_le_incl, (owed_put s i n _ a Hn)|]. cbn. change (owes s None) with 0. pose proof (owes_nonneg s (pioctl_buf n)). lia.
Qed.

Lemma freed_caller H i n a : inv H a → nodes a !! i = Some n → caller_kept a (freed i n a).
Proof.
  intros I Hn s Hl Ho. assert (Hne : pioctl_buf n ≠ Some s).
  { intros E. pose proof (owed_ge _ _ _ _ Hn E). lia. }
  assert (Ho' : owed s (put_node i (cleaned a n) a) = 0).
  { rewrite (owed_put _ _ _ _ _ Hn). change (owes s (pioctl_buf (cleaned a n))) with 0.
    destruct (owes_cases s (pioctl_buf n)) as [[_ E]|[-> _]]; [done|lia]. }
  unfold freed, complete_attached, log_resp. destruct (pioctl_buf n) as [r|].
  - destruct (ioctls a !! r) as [q|]; destruct (respbuf n); (split; [cbn|exact Ho']); try done;
      (rewrite lookup_delete_ne; [done|congruence]).
  - destruct (respbuf n); (split; [done|exact Ho']).
Qed.

Lemma cancel_scans_caller H a : inv H a →
  ∃ a', cancel_loop wlan_get_pending_scan_cmd (λ _, Some) (length (nodes a)) a = Some a' ∧ caller_kept a a'.
Proof.
  intros I. destruct (cancel_loop_ok H wlan_get_pending_scan_cmd (λ _, Some) caller_kept caller_refl caller_trans)
    with (a := a) as (a' & E & _ & K & _); [| |done|by exists a'].
  - intros b i E. by apply pending_find_elem in E as [? _].
  - intros b i Ib E. apply pending_find_elem in E as [Hi _]. destruct (take_unlink _ _ _ Ib Hi) as [I1 _].
    destruct (free_ok _ _ _ I1) as (n & Hn & E & I2 & A & F). exists (freed i n (unlink_pending i b)).
    destruct (freed_fields i n (unlink_pending i b)) as (_ & E2 & E3 & E4 & _). split_and!; try done.
    exact (freed_caller _ _ _ _ I1 Hn).
Qed.

Definition cancel_result (io : option nat) (ret : mlan_status) (a a' : mlan_adapter) : Prop :=
  (ret = MLAN_STATUS_PENDING ∧ ∀ r, acct r a' = acct r a + owes r io) ∨ (ret = MLAN_STATUS_SUCCESS ∧ kept a a').

Lemma cancel_scan_locked_ok H a : inv H a →
  ∃ o a', cancel_scan_locked a = Some (o, a') ∧ inv H a' ∧ kept a a' ∧ env_same a a' ∧ caller_kept a a' ∧ pscan_ioctl_req a' = None.
Proof.
  intros I. unfold cancel_scan_locked.
  destruct (cancel_pscan_ok H a I) as (o & a1 & E1 & I1 & K1 & F1 & _ & _ & P1 & _).
  pose proof (cancel_pscan_caller H a I o a1 E1) as C1. rewrite E1. cbn [mbind option_bind].
  destruct (cancel_curr_if_ok H (λ q, req_id q =? MLAN_IOCTL_SCAN) a1 I1) as (o2 & a2 & E2 & I2 & K2 & F2 & _ & _ & P2 & _).
  pose proof (cancel_curr_if_caller H _ a1 I1 o2 a2 E2) as C2. rewrite E2. cbn [mbind option_bind].
  destruct (cancel_scans_ok H a2 I2) as (a3 & E3 & I3 & K3 & F3 & _).
  destruct (cancel_scans_caller H a2 I2) as (a3' & E3' & C3). rewrite E3 in E3'. injection E3' as <-.
  rewrite E3. cbn [mbind option_bind]. do 2 eexists. split; [done|].
  split_and!; eauto 6 using kept_trans, env_trans, caller_trans with driver.
  destruct F3 as (_ & _ & _ & _ & _ & -> & _). by rewrite P2.
Qed.

Lemma wlan_cancel_pending_scan_cmd_ok H io buf a : inv H a → (usb a = true → buf = true) → fresh_request io a →
  ∃ ret a', wlan_cancel_pending_scan_cmd io buf a = Some (ret, a') ∧ inv H a' ∧ env_same a a' ∧
            cancel_result io ret a a' ∧ scan_pending_q a' = [] ∧ pscan_ioctl_req a' = None ∧ scan_processing a' = false.
Proof.
  intros I Hu Hio. unfold wlan_cancel_pending_scan_cmd.
  destruct (cancel_scan_locked_ok H a I) as (o & a3 & -> & I3 & K3 & Henv & C3 & P3). cbn [mbind option_bind].
  assert (Hio3 : fresh_request io a3).
  { intros r Hr. destruct (Hio r Hr) as [Hl Ho]. by destruct (C3 r Hl Ho). }
  assert (Hs : ∃ status a4, (if enhanced_scan a3 then
       '(ret, p, a) ← send_cancel_scan o io buf a3;
       Some (if bool_decide (ret = MLAN_STATUS_SUCCESS)
             then (MLAN_STATUS_PENDING, wlan_recv_event p MLAN_EVENT_ID_DRV_DEFER_HANDLING a)
             else (MLAN_STATUS_SUCCESS, a))
     else Some (MLAN_STATUS_SUCCESS, a3)) = Some (status, a4) ∧ inv H a4 ∧ frame a3 a4 ∧ cancel_result io status a3 a4).
  { destruct (enhanced_scan a3).
    2:{ do 2 eexists. split; [done|]. split_and!; auto with driver. right. auto with driver. }
    destruct (send_cancel_scan_ok H o io buf a3 I3) as (ret & p & a4 & -> & I4 & F4 & R4); [|done|].
    { destruct Henv as (-> & _). done. }
    cbn [mbind option_bind]. destruct R4 as [[-> R4]|[-> R4]].
    - rewrite bool_decide_eq_true_2 by done.
      destruct (recv_event_ok H p MLAN_EVENT_ID_DRV_DEFER_HANDLING a4 I4) as (I5 & K5 & F5).
      do 2 eexists. split; [done|]. split_and!; eauto using frame_trans. left. split; [done|]. intros r. by rewrite K5, R4.
    - rewrite bool_decide_eq_false_2 by done. do 2 eexists. split; [done|]. split_and!; [done|done|]. by right. }
  destruct Hs as (status & a4 & -> & I4 & F4 & R4). cbn [mbind option_bind].
  destruct (flush_scan_ok H a4 I4) as (a5 & -> & I5 & K5 & F5 & S5 & _ & _ & Sp5). cbn [mbind option_bind].
  do 2 eexists. split; [done|]. split_and!; try done; eauto using env_trans with driver.
  - destruct R4 as [[-> R4]|[-> R4]]; [left|right]; (split; [done|]); intros r; rewrite K5, R4, K3; done.
  - destruct F5 as (_ & _ & _ & _ & _ & -> & _). by destruct F4 as (_ & _ & _ & _ & _ & -> & _).
Qed.

Lemma cancel_all_curr_ok H flag a : inv H a →
  ∃ a', cancel_all_curr flag a = Some a' ∧ inv H a' ∧ kept a a' ∧ env_same a a' ∧
        tl (queues a') = tl (queues a) ∧ pscan_ioctl_req a' = pscan_ioctl_req a ∧
        curr_cmd a' = (if flag then None else curr_cmd a) ∧
        (∀ i n, curr_cmd a' = Some i → nodes a' !! i = Some n → pioctl_buf n = None).
Proof.
  intros I. unfold cancel_all_curr. destruct (curr_cmd a) as [i|] eqn:Hc.
  2:{ exists a. split_and!; auto with driver; rewrite Hc; [by destruct flag|done]. }
  pose proof I as (_ & _ & _ & _ & I5 & _). destruct (I5 i Hc) as (n & Hn & _).
  rewrite (detach_complete_eq _ _ _ _ I Hn). cbn [mbind option_bind].
  pose proof (cancelled_inv _ _ _ _ I Hn) as I1. pose proof (λ r, cancelled_acct _ r _ _ _ I Hn) as K1.
  assert (E1 : env_same a (cancelled i n a) ∧ curr_cmd (cancelled i n a) = curr_cmd a ∧
               pscan_ioctl_req (cancelled i n a) = pscan_ioctl_req a).
  { unfold cancelled. destruct (pioctl_buf n); [|by auto with driver]. split_and!; try done. unfold env_same. cbn.
    by rewrite length_insert. }
  destruct E1 as (E1 & E2 & E3). destruct flag.
  - assert (I2 : inv (i :: H) (set_curr_cmd None (cancelled i n a))) by (apply inv_take_curr; congruence).
    destruct (plain_free_ok _ _ _ I2) as (a3 & -> & I3 & K3 & F3 & Q3). exists a3.
    split_and!; try done.
    + intros r. rewrite K3. exact (K1 r).
    + eapply env_trans; [exact E1|]. apply (env_trans _ (set_curr_cmd None (cancelled i n a))); [done|by apply frame_env].
    + destruct Q3 as (Q31 & Q32 & Q33). pose proof (cancelled_queues i n a) as Q. injection Q as _ Q1 Q2 Q4.
      unfold queues. cbn [tl]. rewrite Q31, Q32, Q33. cbn. by rewrite Q1, Q2, Q4.
    + destruct F3 as (_ & _ & _ & _ & _ & -> & _). done.
    + by destruct F3 as (_ & _ & _ & _ & -> & _).
    + destruct F3 as (_ & _ & _ & _ & -> & _). done.
  - exists (cancelled i n a). split_and!; try done.
    + by rewrite (cancelled_queues i n a).
    + congruence.
    + intros j m Hj Hm. rewrite E2, Hc in Hj. injection Hj as <-. rewrite (cancelled_lookup _ _ _ Hn) in Hm.
      by injection Hm as <-.
Qed.

Lemma stop_timer_ok H a : let b := if cmd_timer_is_set a then set_cmd_timer_is_set false (log StopTimer a) else a in
  inv H a → inv H b ∧ kept a b ∧ env_same a b ∧ queues b = queues a ∧ curr_cmd b = curr_cmd a ∧
  nodes b = nodes a ∧ pscan_ioctl_req b = pscan_ioctl_req a ∧ cmd_timer_is_set b = false.
Proof.
  intros b I. unfold b. destruct (cmd_timer_is_set a) eqn:Et; [|by split_and!; auto with driver].
  split_and!; try done. intros s. change (acct s (log StopTimer a) = acct s a). rewrite acct_log. cbn. lia.
Qed.

Lemma cancel_all_locked_ok H flag a : inv H a →
  ∃ a', cancel_all_locked flag a = Some a' ∧ inv H a' ∧ kept a a' ∧ env_same a a' ∧
        cmd_pending_q a' = [] ∧ pscan_ioctl_req a' = None ∧ curr_cmd a' = (if flag then None else curr_cmd a) ∧
        cmd_timer_is_set a' = false ∧
        (∀ i n, curr_cmd a' = Some i → nodes a' !! i = Some n → pioctl_buf n = None).
Proof.
  intros I. unfold cancel_all_locked.
  destruct (cancel_pscan_ok H a I) as (o & a1 & -> & I1 & K1 & F1 & _ & _ & P1 & _). cbn [mbind option_bind].
  destruct (cancel_all_curr_ok H flag a1 I1) as (a2 & -> & I2 & K2 & E2 & _ & P2 & C2 & N2). cbn [mbind option_bind].
  destruct (stop_timer_ok H a2 I2) as (I3 & K3 & E3 & _ & C3 & N3 & P3 & T3).
  set (a3 := if cmd_timer_is_set a2 then _ else a2) in *. clearbody a3.
  destruct (cancel_pending_ok H a3 I3) as (a4 & -> & I4 & K4 & F4 & Q4 & _). exists a4.
  pose proof F4 as (_ & _ & _ & _ & C & P & _ & T & N). split_and!; try done.
  - eauto 8 using kept_trans.
  - apply (env_trans _ a3); [eauto using env_trans with driver|]. by apply frame_env.
  - congruence.
  - rewrite C, C3, C2. by destruct F1 as (_ & _ & _ & _ & -> & _).
  - congruence.
  - intros i n Hi Hn. rewrite C in Hi. rewrite (N i Hi), N3 in Hn. eapply N2; [|exact Hn]. congruence.
Qed.

(** Everything is cancelled: no command waits, and none carries a request. *)
Lemma wlan_cancel_all_pending_cmd_ok H flag a : inv H a →
  ∃ a', wlan_cancel_all_pending_cmd flag a = Some a' ∧ inv H a' ∧ kept a a' ∧ env_same a a' ∧
        waiting a' = [] ∧ pscan_ioctl_req a' = None ∧ curr_cmd a' = (if flag then None else curr_cmd a) ∧
        cmd_timer_is_set a' = false ∧
        (∀ i n, curr_cmd a' = Some i → nodes a' !! i = Some n → pioctl_buf n = None).
Proof.
  intros I. unfold wlan_cancel_all_pending_cmd.
  destruct (cancel_all_locked_ok H flag a I) as (a4 & -> & I4 & K4 & E4 & Q4 & P4 & C4 & T4 & N4). cbn [mbind option_bind].
  destruct (flush_scan_ok H a4 I4) as (a5 & -> & I5 & K5 & F5 & S5 & Q5 & _). cbn [mbind option_bind].
  destruct (flush_ext_ok H a5 I5) as (a6 & -> & I6 & K6 & F6 & X6 & Q6 & S6). exists a6.
  pose proof (frame_trans _ _ _ F5 F6) as (_ & _ & _ & _ & C & P & _ & T & N).
  split_and!; try done.
  - eauto using kept_trans.
  - apply (env_trans _ a4); [done|]. apply frame_env. by eapply frame_trans.
  - unfold waiting. by rewrite X6, Q6, S6, Q5, Q4, S5.
  - congruence.
  - congruence.
  - congruence.
  - intros i n Hi Hn. rewrite C in Hi. rewrite (N i Hi) in Hn. by eapply N4.
Qed.

(** ** Cancelling the commands of an interface *)

Lemma bss_loop_ok H bss fl fuel a : inv H a → (length (cmd_pending_q a) <= fuel)%nat →
  ∃ fl' a', cancel_bss_loop bss fl fuel a = Some (fl', a') ∧ inv H a' ∧ kept a a' ∧ frame a a' ∧
            wlan_get_bss_pending_ioctl_cmd a' bss = None.
Proof.
  revert fl a. induction fuel as [|fuel IH]; intros fl a I Hl; cbn [cancel_bss_loop];
    destruct (wlan_get_bss_pending_ioctl_cmd a bss) as [i|] eqn:E;
    try (by do 2 eexists; split_and!; auto with driver); pose proof (pending_find_elem _ _ _ E) as [Hi (n & Hn & HP)].
  - exfalso. pose proof (unlink_length _ _ Hi). lia.
  - rewrite Hn. cbn [mbind option_bind]. unfold has_bss_ioctl in HP.
    destruct (pioctl_buf n) as [r|] eqn:Er; [|done]. cbn [mbind option_bind].
    destruct (ioctls a !! r) as [q|] eqn:Hq; [|done]. cbn [mbind option_bind].
    destruct (step_complete H a i I Hi) as (a2 & E2 & I2 & K2 & F2 & Q2 & _).
    destruct (detach_complete i (unlink_pending i a)) as [a1|]; [|done]. cbn [mbind option_bind] in *.
    rewrite E2. cbn [mbind option_bind].
    destruct (IH (fl || (req_id q =? MLAN_IOCTL_SCAN)) a2 I2) as (fl' & a3 & -> & I3 & K3 & F3 & N3).
    { rewrite Q2. pose proof (unlink_length _ _ Hi). lia. }
    do 2 eexists. split; [done|]. split_and!; eauto using kept_trans, frame_trans.
Qed.

Lemma cancel_pscan_of_ok H bss a : inv H a →
  ∃ o a', cancel_pscan_of bss a = Some (o, a') ∧ inv H a' ∧ kept a a' ∧ env_same a a'.
Proof.
  intros I. unfold cancel_pscan_of. destruct (pscan_ioctl_req a) as [r|] eqn:Er.
  2:{ do 2 eexists. split; [done|]. auto with driver. }
  destruct (pscan_live _ _ _ I Er) as (_ & [q Hq] & _). rewrite Hq. cbn [mbind option_bind].
  case_bool_decide; [|do 2 eexists; split; [done|]; auto with driver].
  destruct (cancel_pscan_ok H a I) as (o & a1 & -> & I1 & K1 & F1 & _). do 2 eexists. split; [done|]. auto with driver.
Qed.

(** Ending a scan without a request of its own. *)
Lemma end_scan_ok H bss buf a : inv H a → (usb a = true → buf = true) →
  ∃ a', (a ← (if enhanced_scan a then
           '(_, p, a) ← send_cancel_scan bss None buf a;
           Some (wlan_recv_event p MLAN_EVENT_ID_DRV_DEFER_HANDLING a)
         else Some a);
         wlan_flush_scan_queue a) = Some a' ∧ inv H a' ∧ kept a a' ∧ frame a a' ∧ scan_pending_q a' = [] ∧
        scan_processing a' = false.
Proof.
  intros I Hu.
  assert (Hs : ∃ a1, (if enhanced_scan a then
           '(_, p, a) ← send_cancel_scan bss None buf a;
           Some (wlan_recv_event p MLAN_EVENT_ID_DRV_DEFER_HANDLING a)
         else Some a) = Some a1 ∧ inv H a1 ∧ kept a a1 ∧ frame a a1).
  { destruct (enhanced_scan a); [|by eauto with driver].
    destruct (send_cancel_scan_ok H bss None buf a I Hu) as (ret & p & a4 & -> & I4 & F4 & R4); [done|].
    cbn [mbind option_bind]. destruct (recv_event_ok H p MLAN_EVENT_ID_DRV_DEFER_HANDLING a4 I4) as (I5 & K5 & F5).
    eexists. split; [done|]. split_and!; eauto using frame_trans. intros r. rewrite K5.
    destruct R4 as [[_ R4]|[_ R4]]; rewrite R4; [|done]. change (owes r None) with 0. lia. }
  destruct Hs as (a1 & -> & I1 & K1 & F1). cbn [mbind option_bind].
  destruct (flush_scan_ok H a1 I1) as (a2 & E2 & I2 & K2 & F2 & S2 & _ & _ & P2). exists a2.
  split_and!; eauto using kept_trans, frame_trans.
Qed.

Lemma cancel_bss_locked_ok H bss a : inv H a →
  ∃ o fl a', cancel_bss_locked bss a = Some (o, fl, a') ∧ inv H a' ∧ kept a a' ∧ env_same a a'.
Proof.
  intros I. unfold cancel_bss_locked.
  destruct (cancel_pscan_of_ok H bss a I) as (o & a1 & -> & I1 & K1 & E1). cbn [mbind option_bind].
  destruct (cancel_curr_if_ok H (λ q, bool_decide (io_bss_index q = bss)) a1 I1) as (o2 & a2 & -> & I2 & K2 & E2 & _).
  cbn [mbind option_bind].
  destruct (bss_loop_ok H bss (bool_decide (is_Some o) || bool_decide (o2 = Some MLAN_IOCTL_SCAN)) (length (nodes a2)) a2 I2)
    as (fl & a3 & -> & I3 & K3 & F3 & _); [bound|]. cbn [mbind option_bind].
  do 3 eexists. split; [done|]. split_and!; eauto using kept_trans, env_trans with driver.
Qed.

Lemma wlan_cancel_bss_pending_cmd_ok H bss buf a : inv H a → (usb a = true → buf = true) →
  ∃ a', wlan_cancel_bss_pending_cmd bss buf a = Some a' ∧ inv H a' ∧ kept a a' ∧ env_same a a'.
Proof.
  intros I Hu. unfold wlan_cancel_bss_pending_cmd.
  destruct (cancel_bss_locked_ok H bss a I) as (o & fl & a3 & -> & I3 & K3 & E3). cbn [mbind option_bind].
  destruct fl; [|exists a3; split_and!; eauto using kept_trans].
  destruct (end_scan_ok H o buf a3 I3) as (a4 & E4 & I4 & K4 & F4 & _).
  { destruct E3 as (-> & _). done. }
  exists a4. split; [exact E4|]. split_and!; eauto 6 using kept_trans, env_trans with driver.
Qed.

(** Flushing completes the requests of nodes only. *)
Lemma cancelled_caller H i n a : inv H a → nodes a !! i = Some n → caller_kept a (cancelled i n a).
Proof.
  intros I Hn. unfold cancelled. destruct (pioctl_buf n) as [r|] eqn:Er; [|done].
  apply complete_caller; [by destruct (inv_live _ _ _ _ _ I Hn Er)| |done].
  intros s. rewrite (owed_detached _ _ _ _ Hn). pose proof (owes_nonneg s (pioctl_buf n)). lia.
Qed.
Lemma plain_free_caller H i a a' : inv (i :: H) a → wlan_insert_cmd_to_free_q (Some i) a = Some a' → caller_kept a a'.
Proof.
  intros I. destruct (free_ok _ _ _ I) as (n & Hn & -> & _). intros [= <-]. by eapply freed_caller.
Qed.
Lemma cancel_free_caller H i n a a' : inv (i :: H) a → nodes a !! i = Some n →
  wlan_insert_cmd_to_free_q (Some i) (cancelled i n a) = Some a' → caller_kept a a'.
Proof.
  intros I Hn E. apply (caller_trans _ (cancelled i n a)); [by eapply cancelled_caller|].
  eapply plain_free_caller; [|exact E]. by apply cancelled_inv.
Qed.

Lemma flush_scan_caller H a a' : inv H a → wlan_flush_scan_queue a = Some a' → caller_kept a a'.
Proof.
  intros I. unfold wlan_flush_scan_queue.
  assert (Hl : ∀ fuel a b, inv H a → flush_scan_loop fuel a = Some b → caller_kept a b).
  { clear a a' I. induction fuel as [|fuel IH]; intros a b I; cbn [flush_scan_loop];
      destruct (scan_pending_q a) as [|i q] eqn:E; try (by intros [= <-]); try done.
    destruct (take_scan _ _ _ _ I E) as [I1 Hw]. set (a1 := set_scan_pending_q q a) in *.
    destruct (node_cmd_at i a1 Hw) as [c Hc]. rewrite Hc. cbn [mbind option_bind].
    destruct (inv_held_node _ _ _ I1) as [n Hn]. rewrite Hn. cbn [mbind option_bind].
    assert (Hx : ∀ (t : bool), match pioctl_buf n with
        | Some r => if t then complete_cancel r (upd_node (set_pioctl_buf None) i a1) else Some a1
        | None => Some a1 end = Some (if t then cancelled i n a1 else a1)).
    { intros []; [by eapply detach_eq|by destruct (pioctl_buf n)]. }
    rewrite Hx. cbn [mbind option_bind].
    assert (Hs : ∀ (t : bool), ∃ a2, wlan_insert_cmd_to_free_q (Some i) (if t then cancelled i n a1 else a1) = Some a2 ∧
                  inv H a2 ∧ caller_kept a1 a2).
    { intros [].
      - destruct (cancel_free_ok _ _ _ _ I1 Hn) as (a2 & E2 & I2 & _). exists a2. split_and!; [done|done|].
        by eapply cancel_free_caller.
      - destruct (plain_free_ok _ _ _ I1) as (a2 & E2 & I2 & _). exists a2. split_and!; [done|done|].
        by eapply plain_free_caller. }
    match goal with |- context [if ?t then cancelled i n a1 else a1] => destruct (Hs t) as (a2 & -> & I2 & C2) end.
    cbn [mbind option_bind]. intros E2. apply (caller_trans a a2); [exact C2|by apply (IH a2)]. }
  destruct (flush_scan_loop _ a) as [b|] eqn:E; [|done]. cbn [mbind option_bind]. intros [= <-].
  exact (Hl _ _ _ I E).
Qed.

Lemma end_scan_caller H bss buf a a' : inv H a → (usb a = true → buf = true) →
  (a ← (if enhanced_scan a then
           '(_, p, a) ← send_cancel_scan bss None buf a;
           Some (wlan_recv_event p MLAN_EVENT_ID_DRV_DEFER_HANDLING a)
         else Some a);
   wlan_flush_scan_queue a) = Some a' → caller_kept a a'.
Proof.
  intros I Hu. destruct (enhanced_scan a); [|cbn [mbind option_bind]; by eapply flush_scan_caller].
  destruct (send_cancel_scan_ok H bss None buf a I Hu) as (ret & p & b & E & Ib & _ & R); [done|].
  rewrite E. cbn [mbind option_bind].
  assert (Kb : kept a b).
  { intros s. destruct R as [[_ R]|[_ R]]; rewrite R; [|done]. change (owes s None) with 0. lia. }
  assert (Qb : quiet a b).
  { unfold send_cancel_scan in E. destruct (bss ≫= priv_at a) as [pp|]; [|by injection E as _ _ <-].
    destruct (wlan_prepare_cmd _ _ _ _ _ _ a) as [[x y]|] eqn:Ep; [|done]. cbn [mbind option_bind] in E.
    injection E as _ _ <-. by eapply quiet_prepare. }
  destruct (recv_event_ok H p MLAN_EVENT_ID_DRV_DEFER_HANDLING b Ib) as (Ic & Kc & _).
  intros E2. apply (caller_trans _ (wlan_recv_event p MLAN_EVENT_ID_DRV_DEFER_HANDLING b)).
  - apply quiet_caller; [apply (quiet_trans _ _ _ Qb); apply quiet_event|by eapply kept_trans].
  - by eapply flush_scan_caller.
Qed.

(** ** Cancelling one request *)

(** Request [r] leaves a place that referred to it ([x]), without being
    completed. *)
Definition released (x : bool) (r : nat) (H : list nat) (a a' : mlan_adapter) : Prop :=
  inv H a' ∧ env_same a a' ∧ is_Some (ioctls a' !! r) ∧
  ∀ s, completed s a' = completed s a ∧ owed s a' = owed s a - (if x then owes s (Some r) else 0).

Lemma owes_self r : owes r (Some r) = 1.
Proof. unfold owes. by rewrite decide_True. Qed.

Lemma released_trans x y r H a b c : owed r a <= 1 → released x r H a b → released y r H b c →
  released (x || y) r H a c ∧ (x || y = true → owed r c = 0).
Proof.
  intros Ho (I1 & E1 & L1 & A1) (I2 & E2 & L2 & A2).
  destruct (A1 r) as [_ B1], (A2 r) as [_ B2]. pose proof (owed_nonneg r c). pose proof (owed_nonneg r b).
  rewrite owes_self in *. split; [split_and!; [done|by eapply env_trans|done|]|].
  - intros s. destruct (A1 s) as [Ec1 Eo1], (A2 s) as [Ec2 Eo2]. split; [congruence|].
    rewrite Eo2, Eo1. destruct x, y; cbn in *; lia.
  - intros E. destruct x, y; cbn in *; try done; lia.
Qed.

Lemma release_scan_ok r H a : inv H a → is_Some (ioctls a !! r) →
  released (bool_decide (pscan_ioctl_req a = Some r)) r H a
    (if bool_decide (pscan_ioctl_req a = Some r) then set_pscan_ioctl_req None a else a).
Proof.
  intros I Hl. case_bool_decide as E; [|by split_and!; auto with driver; intros; split; lia].
  split_and!; try done; [by apply drop_pscan_inv|]. intros s. split; [done|].
  rewrite <- E. apply owed_drop_pscan.
Qed.

(** Whether the current command carries [r]. *)
Definition in_curr (r : nat) (a : mlan_adapter) : bool :=
  match curr_cmd a with Some i => node_is (has_ioctl r) a i | None => false end.

Lemma release_curr_ok r H a : inv H a → is_Some (ioctls a !! r) →
  released (in_curr r a) r H a
    (match curr_cmd a with Some i => if in_curr r a then cancel_curr i a else a | None => a end).
Proof.
  intros I Hl. unfold in_curr.
  assert (Hsame : released false r H a a) by (split_and!; auto with driver; intros; split; lia).
  destruct (curr_cmd a) as [i|] eqn:Hc; [|done].
  pose proof I as (_ & _ & _ & _ & I5 & _). destruct (I5 i Hc) as (n & Hn & Hcur).
  unfold node_is. rewrite Hn. unfold has_ioctl. case_bool_decide as Er; [|done].
  set (n' := set_cmd_flag (Z.lor (cmd_flag n) CMD_F_CANCELED) (detached n)).
  assert (Ec : cancel_curr i a = put_node i n' a) by (unfold cancel_curr; by rewrite (upd_node_Some _ _ _ _ Hn)).
  rewrite Ec. split_and!; try done; [by apply (inv_put_curr _ _ n)|by unfold env_same; cbn; rewrite length_insert|].
  intros s. split; [done|]. rewrite (owed_put _ _ _ _ _ Hn), Er. change (owes s (pioctl_buf n')) with 0. lia.
Qed.

Lemma cancel_loop_stop find detach fuel a : find a = None → cancel_loop find detach fuel a = Some a.
Proof. intros E. destruct fuel; cbn [cancel_loop]; by rewrite E. Qed.

Lemma pending_find_is_None P a : (∀ i n, i ∈ cmd_pending_q a → nodes a !! i = Some n → P n = false) →
  pending_find P a = None.
Proof.
  intros HP. destruct (pending_find P a) as [i|] eqn:E; [|done].
  apply pending_find_elem in E as [Hi (n & Hn & E)]. by rewrite (HP i n Hi Hn) in E.
Qed.

Lemma release_pending_ok r H a : inv H a → is_Some (ioctls a !! r) →
  ∃ a', cancel_loop (λ a, wlan_get_pending_ioctl_cmd a r) detach_silent (length (nodes a)) a = Some a' ∧
        released (bool_decide (is_Some (wlan_get_pending_ioctl_cmd a r))) r H a a'.
Proof.
  intros I Hl. destruct (wlan_get_pending_ioctl_cmd a r) as [i|] eqn:E.
  2:{ exists a. rewrite bool_decide_eq_false_2 by by intros []. split; [by apply cancel_loop_stop|].
      split_and!; auto with driver. intros; split; lia. }
  rewrite bool_decide_eq_true_2 by done.
  pose proof (pending_find_elem _ _ _ E) as [Hi (n & Hn & HP)]. apply bool_decide_eq_true in HP.
  destruct (length (nodes a)) as [|f] eqn:El; [apply lookup_lt_Some in Hn; lia|].
  cbn [cancel_loop]. rewrite E. unfold detach_silent. cbn [mbind option_bind].
  destruct (take_unlink _ _ _ I Hi) as [I1 _]. set (a1 := unlink_pending i a) in *.
  change (nodes a1 !! i = Some n) in Hn. rewrite (upd_node_Some _ _ _ _ Hn).
  fold (detached n) (put_node i (detached n) a1).
  pose proof (inv_detach _ _ _ _ I1 Hn) as I2. pose proof (put_node_lookup i n (detached n) a1 Hn) as Hn2.
  destruct (quiet_free i (detached n) _ Hn2 eq_refl) as (a2 & E2 & Ei & Ec).
  destruct (plain_free_ok _ _ _ I2) as (a2' & E2' & I3 & K3 & F3 & _). rewrite E2 in E2'. injection E2' as <-.
  rewrite E2. cbn [mbind option_bind].
  assert (Hs : ∀ s, completed s a2 = completed s a ∧ owed s a2 = owed s a - owes s (Some r)).
  { intros s. specialize (Ec s). specialize (K3 s). unfold acct in K3.
    change (completed s (put_node i (detached n) a1)) with (completed s a) in *.
    rewrite (owed_detached _ _ _ _ Hn), HP in K3. change (owed s a1) with (owed s a) in K3. split; lia. }
  exists a2. split.
  - apply cancel_loop_stop. apply pending_find_is_None. intros j m _ Hm. apply bool_decide_eq_false.
    intros Em. pose proof (owed_ge _ _ _ _ Hm Em). destruct (Hs r) as [_ Ho]. rewrite owes_self in Ho.
    destruct I as (_ & I2' & _). destruct (I2' r). lia.
  - split_and!; [done| |by rewrite Ei|exact Hs].
    eapply env_trans; [|by apply frame_env]. unfold env_same. cbn. by rewrite length_insert.
Qed.

(** Whether a cancellation finds request [r]: as the pending scan, attached to the
    current command or to a pending one. *)
Definition cancellable (r : nat) (a : mlan_adapter) : bool :=
  bool_decide (pscan_ioctl_req a = Some r) || in_curr r a ||
  bool_decide (is_Some (wlan_get_pending_ioctl_cmd a r)).

(** Cancelling request [r]: it is completed, once, if the queue refers to it from
    one of those places, and nothing refers to it any more. *)
Lemma wlan_cancel_pending_ioctl_ok H r buf a : inv H a → is_Some (ioctls a !! r) → (usb a = true → buf = true) →
  ∃ a', wlan_cancel_pending_ioctl r buf a = Some a' ∧ inv H a' ∧ kept a a' ∧ env_same a a' ∧
        (cancellable r a = true → owed r a' = 0 ∧ ioctls a' !! r = None).
Proof.
  intros I Hl Hu. pose proof I as (_ & I2 & _). destruct (I2 r) as [Ho _]. destruct Hl as [q Hq].
  unfold wlan_cancel_pending_ioctl. rewrite Hq. cbn [mbind option_bind].
  set (x1 := bool_decide (pscan_ioctl_req a = Some r)).
  pose proof (release_scan_ok r H a I ltac:(by exists q)) as R1. fold x1 in R1.
  set (a1 := if x1 then set_pscan_ioctl_req None a else a) in *.
  assert (Hn1 : nodes a1 = nodes a ∧ curr_cmd a1 = curr_cmd a ∧ cmd_pending_q a1 = cmd_pending_q a)
    by (unfold a1; by destruct x1).
  destruct Hn1 as (Hn1 & Hc1 & Hq1). clearbody a1.
  assert (Ec : in_curr r a1 = in_curr r a) by (unfold in_curr, node_is; by rewrite Hc1, Hn1).
  change (match curr_cmd a1 with Some i => node_is (has_ioctl r) a1 i | None => false end) with (in_curr r a1).
  pose proof (release_curr_ok r H a1 ltac:(by destruct R1) ltac:(by destruct R1 as (_ & _ & ? & _))) as R2.
  set (a2 := match curr_cmd a1 with Some i => if in_curr r a1 then cancel_curr i a1 else a1 | None => a1 end) in *.
  destruct (released_trans _ _ _ _ _ _ _ Ho R1 R2) as [R12 Z12].
  pose proof R12 as (Ia2 & E2 & L2 & A2).
  destruct (release_pending_ok r H a2 Ia2 L2) as (a3 & -> & R3).
  set (x3 := bool_decide (is_Some (wlan_get_pending_ioctl_cmd a2 r))) in *.
  destruct (released_trans _ _ _ _ _ _ _ Ho R12 R3) as [R123 Z123]. cbn [mbind option_bind].
  assert (Hfound : cancellable r a = true → x1 || in_curr r a1 || x3 = true).
  { unfold cancellable. fold x1. rewrite <- Ec. destruct x1; [done|]. cbn [orb].
    destruct (in_curr r a1) eqn:Ei; [done|]. cbn [orb]. intros E. unfold x3. rewrite <- E. f_equal.
    assert (Ea : a2 = a1) by (unfold a2; destruct (curr_cmd a1); done). rewrite Ea.
    unfold wlan_get_pending_ioctl_cmd, pending_find, node_is. by rewrite Hq1, Hn1. }
  set (x := x1 || in_curr r a1 || x3) in *. destruct R123 as (I3 & E3 & L3 & A3).
  assert (Hm : ∃ a4, (if req_id q =? MLAN_IOCTL_SCAN then
         a ← (if enhanced_scan a3 then
                '(_, p, a) ← send_cancel_scan (if x1 then Some (io_bss_index q) else None) None buf a3;
                Some (wlan_recv_event p MLAN_EVENT_ID_DRV_DEFER_HANDLING a)
              else Some a3);
         wlan_flush_scan_queue a
       else Some a3) = Some a4 ∧ inv H a4 ∧ kept a3 a4 ∧ env_same a3 a4 ∧ caller_kept a3 a4).
  { destruct (req_id q =? MLAN_IOCTL_SCAN); [|exists a3; by auto 6 with driver].
    assert (Hu3 : usb a3 = true → buf = true) by (destruct E3 as (-> & _); done).
    destruct (end_scan_ok H (if x1 then Some (io_bss_index q) else None) buf a3 I3 Hu3) as (a4 & E4 & I4 & K4 & F4 & _).
    exists a4. split; [exact E4|]. split_and!; auto with driver. by eapply end_scan_caller. }
  destruct Hm as (a4 & -> & I4 & K4 & E4 & C4). cbn [mbind option_bind].
  destruct x eqn:Ex.
  - destruct (C4 r L3 (Z123 eq_refl)) as [L4 O4]. rewrite complete_cancel_eq by done.
    eexists. split; [done|]. split_and!; [by apply inv_complete| |by eapply env_trans|].
    + intros s. rewrite acct_complete, K4. unfold acct. destruct (A3 s) as [-> ->]. unfold owes.
      repeat case_decide; simplify_eq; lia.
    + intros _. split; [exact O4|]. cbn. by rewrite lookup_delete_eq.
  - exists a4. split_and!; [done|done| |by eapply env_trans|].
    + intros s. rewrite K4. unfold acct. destruct (A3 s) as [-> ->]. lia.
    + intros Hf. by apply Hfound in Hf.
Qed.
