(* ===== verification/CmdRun.v ===== *)
(** * CmdRun: the command queue in operation

    The allocation of the pool, the end of an extended scan, the start of a scan;
    and the composition: any sequence of operations from an allocated pool, with
    the account of every request accepted along the way. *)

From S2P Require Import Prelude CmdQueue CmdInv CmdSafe CmdResp CmdCancel.

(** ** Scans *)

Lemma prepare_scans_quiet priv l buf a ret a' : prepare_scans priv l buf a = Some (ret, a') → quiet a a'.
Proof.
  revert a. induction l as [|c l IH]; intros a; cbn [prepare_scans]; [by intros [= _ <-]|].
  destruct (wlan_prepare_cmd _ _ _ _ _ _ a) as [[r b]|] eqn:E; [|done]. cbn [mbind option_bind].
  apply quiet_prepare in E. case_bool_decide; [|by intros [= _ <-]].
  intros E2. apply (quiet_trans _ _ _ E). by apply IH.
Qed.

(** A scan for request [r] that no other scan is waiting for. *)
Lemma wlan_scan_networks_ok priv pl r a : inv [] a → is_Some (priv_at a priv) → plan_good (Some pl) →
  fresh_request r a → pscan_ioctl_req a = None →
  ∃ ret a', wlan_scan_networks priv pl r a = Some (ret, a') ∧ inv [] a' ∧ frame_scan a a' ∧
    ((pscan_ioctl_req a' = r ∧ ret = MLAN_STATUS_SUCCESS ∧ ∀ s, acct s a' = acct s a + owes s r) ∨
     (pscan_ioctl_req a' = None ∧ kept a a')).
Proof.
  intros I Hp Hg Hr Hn. unfold wlan_scan_networks.
  destruct (prepare_scans_ok [] priv (plan_cmds pl) (plan_buf pl) a I Hp) as (ret & a1 & E1 & I1 & K1 & F1);
    [by rewrite (Hg pl)|]. rewrite E1. apply prepare_scans_quiet in E1. cbn [mbind option_bind].
  pose proof F1 as (_ & _ & _ & _ & _ & Ep & _). rewrite Hn in Ep.
  destruct (_ && _).
  2:{ do 2 eexists. split; [done|]. split_and!; auto with driver. }
  assert (Hr1 : ∀ s, r = Some s → is_Some (ioctls a1 !! s) ∧ owed s (drop_pscan a1) = 0).
  { intros s Es. destruct (Hr s Es) as [L Z]. destruct (quiet_caller _ _ E1 K1 s L Z) as [L1 Z1].
    split; [done|]. rewrite owed_drop_pscan, Ep, Z1. done. }
  destruct (scan_start_ok [] r a1 I1 Hr1) as (a2 & E2 & I2 & F2 & A2). rewrite E2. cbn [mbind option_bind].
  do 2 eexists. split; [done|]. split_and!; eauto using frame_scan_trans with driver.
  unfold scan_start in E2. rewrite Ep in A2. destruct (scan_pending_q a1) as [|i q].
  - injection E2 as <-. right. split; [done|]. intros s. by rewrite K1.
  - left. split; [|split; [done|]].
    + unfold wlan_insert_cmd_to_pending_q in E2. destruct (node_cmd _ i); [|done]. cbn [mbind option_bind] in E2.
      by injection E2 as <-.
    + intros s. rewrite A2, K1. change (owes s None) with 0. lia.
Qed.

Lemma ext_scan_status_ok status active p a : inv [] a → plan_good active → priv_at a (bss_index p) = Some p →
  ∃ a', ext_scan_status status active p a = Some a' ∧ inv [] a' ∧ kept a a' ∧ env_same a a'.
Proof.
  intros I Hg Hp. unfold ext_scan_status. set (b := scan_state_add _ a).
  change (inv [] b) in I. change (priv_at b (bss_index p) = Some p) in Hp.
  assert (Kb : kept a b ∧ env_same a b) by done. destruct Kb as [Kb Eb]. clearbody b.
  destruct (scan_pending_q b) as [|i q] eqn:E.
  - set (c := if _ && _ then _ else b).
    assert (Hc : inv [] c ∧ kept b c ∧ env_same b c ∧ privs c = privs b).
    { unfold c. destruct (_ && _); [|by auto with driver]. split_and!; try done.
      intros s. change (acct s (log StopTimer b) = acct s b). rewrite acct_log. cbn. lia. }
    clearbody c. destruct Hc as (Ic & Kc & Ec & Pc).
    destruct (active_scan_ok [] active p c Ic Hg) as (again & a1 & -> & I1 & K1 & F1); [unfold priv_at; by rewrite Pc|].
    cbn [mbind option_bind]. destruct again.
    { exists a1. split_and!; eauto using kept_trans, env_trans with driver. }
    destruct (complete_pscan_ok [] MLAN_STATUS_SUCCESS MLAN_ERROR_NO_ERROR
      (scan_state_add SCAN_STATE_SCAN_COMPLETE a1) I1) as (a2 & -> & I2 & K2 & F2 & _). cbn [mbind option_bind].
    destruct (move_ok [] a2 I2) as (a3 & -> & I3 & K3 & F3 & _). cbn [mbind option_bind].
    assert (K : kept a a3) by (intros s; rewrite K3, K2; change (acct s a1 = acct s a); by rewrite K1, Kc).
    assert (Ee : env_same a a3).
    { eapply env_trans; [exact Eb|]. eapply env_trans; [exact Ec|]. eapply env_trans; [by apply frame_scan_env|].
      eapply env_trans; [|by apply frame_env]. exact (frame_scan_env _ _ F2). }
    eexists. split; [done|]. destruct (status =? 0); [|done].
    destruct (scan_report_ok [] p a3 I3) as (I4 & K4 & F4). split_and!; eauto using kept_trans, env_trans with driver.
  - destruct (negb _).
    + destruct (flush_scan_ok [] b I) as (a1 & -> & I1 & K1 & F1 & _). cbn [mbind option_bind].
      destruct (complete_pscan_ok [] MLAN_STATUS_FAILURE MLAN_ERROR_FW_NOT_READY
        (scan_state_add SCAN_STATE_SCAN_COMPLETE a1) I1) as (a2 & -> & I2 & K2 & F2 & _).
      exists a2. split_and!; [done|done| |].
      * intros s. rewrite K2. change (acct s a1 = acct s a). by rewrite K1, Kb.
      * eapply env_trans; [exact Eb|]. eapply env_trans; [by apply frame_env|]. exact (frame_scan_env _ _ F2).
    + destruct (scan_next_ok [] b I) as (a2 & -> & I2 & K2 & F2). exists a2.
      split_and!; eauto using kept_trans, env_trans with driver.
Qed.

(** ** The pool *)

Lemma nodes_replicate n i : (i < n)%nat → replicate n empty_node !! i = Some empty_node.
Proof. apply lookup_replicate_2. Qed.

Lemma alloc_loop_eq n i a : (i + n <= length (nodes a))%nat →
  (∀ j, (j < length (nodes a))%nat → nodes a !! j = Some empty_node) →
  alloc_loop n i a = Some (set_cmd_free_q (cmd_free_q a ++ seq i n) a).
Proof.
  revert i a. induction n as [|n IH]; intros i a Hl Ha; cbn [alloc_loop seq].
  - rewrite app_nil_r. by destruct a.
  - assert (Hi : nodes a !! i = Some empty_node) by (apply Ha; lia).
    rewrite (free_eq i empty_node) by done. cbn [mbind option_bind].
    assert (E : freed i empty_node a = set_cmd_free_q (cmd_free_q a ++ [i]) a).
    { unfold freed, put_node, cleaned. cbn. rewrite list_insert_id by (by destruct (usb a)). by destruct a. }
    rewrite E, IH; [|cbn; lia|exact Ha]. cbn. by rewrite <- app_assoc.
Qed.

Lemma zsum_replicate {A} (f : A → Z) n x : f x = 0 → zsum f (replicate n x) = 0.
Proof. intros. induction n; cbn; lia. Qed.
Lemma occ_seq i n k : occ i (seq k n) = if decide (k <= i < k + n)%nat then 1 else 0.
Proof.
  revert k. induction n as [|n IH]; intros k; cbn [seq occ]; [by rewrite decide_False by lia|].
  rewrite IH. repeat case_decide; try lia.
Qed.

(** Allocation leaves a well-formed queue: every node is free. *)
Lemma wlan_alloc_cmd_buffer_ok u hdr ps io : (∀ k p, mjoin (ps !! k) = Some p → bss_index p = k) →
  ∃ a', wlan_alloc_cmd_buffer true (set_ioctls io (fresh_adapter u hdr ps)) = Some (MLAN_STATUS_SUCCESS, a') ∧
        inv [] a' ∧ cmd_free_q a' = seq 0 MRVDRV_NUM_OF_CMD_BUFFER ∧ waiting a' = [] ∧ curr_cmd a' = None ∧
        evs a' = [] ∧ pscan_ioctl_req a' = None ∧ (∀ r, acct r a' = 0) ∧ usb a' = u ∧ privs a' = ps ∧ ioctls a' = io ∧
        pwarm_reset_ioctl_req a' = None.
Proof.
  intros Hps. unfold wlan_alloc_cmd_buffer. cbn [negb].
  rewrite (alloc_loop_eq MRVDRV_NUM_OF_CMD_BUFFER 0); cycle 1.
  { done. }
  { intros j Hj. by apply nodes_replicate. }
  cbn [mbind option_bind].
  change (cmd_free_q _ ++ seq 0 MRVDRV_NUM_OF_CMD_BUFFER) with (seq 0 MRVDRV_NUM_OF_CMD_BUFFER).
  eexists. split; [done|].
  assert (Hz : ∀ r, owed r (set_cmd_free_q (seq 0 MRVDRV_NUM_OF_CMD_BUFFER)
     (set_nodes (replicate MRVDRV_NUM_OF_CMD_BUFFER empty_node) (set_ioctls io (fresh_adapter u hdr ps)))) = 0).
  { intros r. unfold owed. cbn [nodes set_cmd_free_q set_nodes]. rewrite zsum_replicate by done. done. }
  split; [|split_and!; try done; intros r; exact (eq_trans (f_equal2 Z.add (Hz r) eq_refl) eq_refl)].
  unfold inv. split_and!; try done.
  - intros i. unfold place. cbn [cmd_free_q set_cmd_free_q set_nodes cmd_pending_q scan_pending_q ext_cmd_pending_q
      curr_cmd fresh_adapter set_ioctls occ opt_list nodes app]. rewrite occ_seq, length_replicate.
    repeat case_decide; lia.
  - intros i Hi. exists empty_node. split; [|done]. apply nodes_replicate. cbn [cmd_free_q set_cmd_free_q] in Hi.
    apply elem_of_seq in Hi. lia.
  - intros i Hi. cbn in Hi. by apply elem_of_nil in Hi.
Qed.

(** ** Operations and runs *)

(** What can happen to the queue: a caller prepares a command or starts a scan
    for a request, the main process sends the next command, processes a response
    or the end of a scan, the timer fires, something is cancelled; moal hands in
    a request ([OpSubmit]) or takes one back that was not accepted ([OpReturn]);
    the power, hardware and card states change.  The parts of the functions that
    cancel, between which the command lock is free, are operations as well, so a run
    may interrupt those functions there. *)
Inductive cmd_op :=
| OpPrepare (priv : nat) (c : cmd_source) (action : Z) (io data : option nat) (buf : bool)
| OpScan (priv : nat) (pl : scan_plan) (r : option nat)
| OpWarmReset (r : nat)
| OpExec (h2c : mlan_status)
| OpResp (r : cmd_body)
| OpProcess (h hs : handler) (ih : init_handler)
| OpScanStatus (status : Z) (active : option scan_plan) (p : mlan_private)
| OpTimeout
| OpCancelScan (io : option nat) (buf : bool)
| OpCancelAll (flag : bool)
| OpCancelBss (bss : nat) (buf : bool)
| OpCancelIoctl (r : nat) (buf : bool)
| OpScanLocked | OpAllLocked (flag : bool) | OpBssLocked (bss : nat) | OpFlushScan | OpFlushExt
| OpSubmit (r : nat) (q : mlan_ioctl_req)
| OpReturn (r : nat)
| OpPower (s : PS_STATE)
| OpHardware (s : WLAN_HARDWARE_STATUS)
| OpRemove.

Definition no_requests (m : option mlan_adapter) : option (list nat * mlan_adapter) := a ← m; Some ([], a).
Definition no_requests' (m : option (mlan_status * mlan_adapter)) : option (list nat * mlan_adapter) :=
  '(_, a) ← m; Some ([], a).

(** One operation: the requests it accepted, and the state after it.  An accepted
    request is pending for moal: it waits for [moal_ioctl_complete]. *)
Definition run_op (op : cmd_op) (a : mlan_adapter) : option (list nat * mlan_adapter) :=
  match op with
  | OpPrepare priv c action io data buf =>
      '(ret, a) ← wlan_prepare_cmd priv c action io data buf a;
      Some (if bool_decide (ret = MLAN_STATUS_SUCCESS) then opt_list io else [], a)
  | OpScan priv pl r =>
      '(_, a) ← wlan_scan_networks priv pl r a;
      Some (if bool_decide (pscan_ioctl_req a = r) then opt_list r else [], a)
  | OpWarmReset r => Some ([r], set_pwarm_reset_ioctl_req (Some r) a)
  | OpExec h2c => no_requests' (wlan_exec_next_cmd h2c a)
  | OpResp r => Some ([], recv_cmd_resp r a)
  | OpProcess h hs ih => no_requests' (wlan_process_cmdresp h hs ih a)
  | OpScanStatus status active p => no_requests (ext_scan_status status active p a)
  | OpTimeout => no_requests (wlan_cmd_timeout_func a)
  | OpCancelScan io buf =>
      '(ret, a) ← wlan_cancel_pending_scan_cmd io buf a;
      Some (if bool_decide (ret = MLAN_STATUS_PENDING) then opt_list io else [], a)
  | OpCancelAll flag => no_requests (wlan_cancel_all_pending_cmd flag a)
  | OpCancelBss bss buf => no_requests (wlan_cancel_bss_pending_cmd bss buf a)
  | OpCancelIoctl r buf => no_requests (wlan_cancel_pending_ioctl r buf a)
  | OpScanLocked => no_requests (snd <$> cancel_scan_locked a)
  | OpAllLocked flag => no_requests (cancel_all_locked flag a)
  | OpBssLocked bss => no_requests (snd <$> cancel_bss_locked bss a)
  | OpFlushScan => no_requests (wlan_flush_scan_queue a)
  | OpFlushExt => no_requests (wlan_flush_ext_cmd_pending_queue a)
  | OpSubmit r q => Some ([], set_ioctls (<[r := q]> (ioctls a)) a)
  | OpReturn r => Some ([], set_ioctls (delete r (ioctls a)) a)
  | OpPower s => Some ([], set_ps_state s a)
  | OpHardware s => Some ([], set_hw_status s a)
  | OpRemove => Some ([], set_surprise_removed true a)
  end.

(** What the queue relies on: interfaces exist, a request handed in is alive and
    not already pending, USB buffers can be allocated, handlers keep their
    contract, and one scan request waits at a time. *)
Definition op_ok (op : cmd_op) (a : mlan_adapter) : Prop :=
  match op with
  | OpPrepare priv _ _ io _ buf =>
      is_Some (priv_at a priv) ∧ (usb a = true → buf = true) ∧ fresh_request io a
  | OpScan priv pl r =>
      is_Some (priv_at a priv) ∧ plan_buf pl = true ∧ fresh_request r a ∧ pscan_ioctl_req a = None
  | OpWarmReset r => fresh_request (Some r) a ∧ pwarm_reset_ioctl_req a = None
  | OpProcess h hs ih =>
      ∃ pre, CmdHandler h pre ∧ CmdHandler hs pre ∧ InitHandler ih ∧
        ∀ i n r r', curr_cmd a = Some i → nodes a !! i = Some n → respbuf n = Some r →
          param0 r' = param0 r → result r' = result r →
          pre (Z.land (command r) HostCmd_CMD_ID_MASK) r' (pioctl_buf n)
  | OpScanStatus _ active p => plan_good active ∧ priv_at a (bss_index p) = Some p
  | OpCancelScan io buf => (usb a = true → buf = true) ∧ fresh_request io a
  | OpCancelBss _ buf => usb a = true → buf = true
  | OpCancelIoctl r buf => is_Some (ioctls a !! r) ∧ (usb a = true → buf = true)
  | OpSubmit r _ => ioctls a !! r = None
  | OpReturn r => owed r a = 0
  | _ => True
  end.

(** An operation is safe: it has a result, and what it accepts is accounted for. *)
Definition op_safe (op : cmd_op) (a : mlan_adapter) : Prop :=
  ∃ l a', run_op op a = Some (l, a') ∧ inv [] a' ∧ length (nodes a') = length (nodes a) ∧
    ∀ r, acct r a' = acct r a + occ r l.

Lemma safe_quietly op a m : run_op op a = no_requests m →
  (∃ a', m = Some a' ∧ inv [] a' ∧ kept a a' ∧ env_same a a') → op_safe op a.
Proof.
  intros E (a' & -> & I & K & (_ & _ & _ & L)). exists [], a'. rewrite E. split; [done|]. split; [done|]. split; [done|].
  intros r. rewrite K. cbn. lia.
Qed.
Lemma safe_quietly' op a m : run_op op a = no_requests' m →
  (∃ ret a', m = Some (ret, a') ∧ inv [] a' ∧ kept a a' ∧ env_same a a') → op_safe op a.
Proof.
  intros E (ret & a' & -> & I & K & (_ & _ & _ & L)). exists [], a'. rewrite E. split; [done|]. split; [done|]. split; [done|].
  intros r. rewrite K. cbn. lia.
Qed.

Lemma occ_opt_list r (o : option nat) : occ r (opt_list o) = owes r o.
Proof.
  unfold owes. destruct o as [s|]; cbn; [|by rewrite decide_False]. repeat case_decide; simplify_eq; lia.
Qed.

(** Operations that change neither nodes nor places. *)
Lemma inv_ioctls H m a : inv H a → (∀ r, owed r a = 1 → is_Some (m !! r)) → inv H (set_ioctls m a).
Proof.
  intros (I1 & I2 & I3 & I4 & I5 & I6) Hm. unfold inv. split_and!; try done.
  intros r. destruct (I2 r) as [Ho _]. split; [done|]. apply Hm.
Qed.

Lemma submit_safe r q a : inv [] a → ioctls a !! r = None → op_safe (OpSubmit r q) a.
Proof.
  intros I Hr. do 2 eexists. split; [done|]. split; [|split; [done|]; intros s; change (acct s a = acct s a + 0); lia].
  apply inv_ioctls; [done|]. intros s Hs. destruct I as (_ & I2 & _). destruct (I2 s) as [_ Hl].
  destruct (decide (r = s)) as [->|]; [by rewrite lookup_insert_eq|]. rewrite lookup_insert_ne by done. auto.
Qed.
Lemma return_safe r a : inv [] a → owed r a = 0 → op_safe (OpReturn r) a.
Proof.
  intros I Hr. do 2 eexists. split; [done|]. split; [|split; [done|]; intros s; change (acct s a = acct s a + 0); lia].
  apply inv_ioctls; [done|]. intros s Hs. destruct I as (_ & I2 & _). destruct (I2 s) as [_ Hl].
  rewrite lookup_delete_ne; [auto|]. intros ->. lia.
Qed.
Lemma warm_reset_safe r a : inv [] a → fresh_request (Some r) a → pwarm_reset_ioctl_req a = None →
  op_safe (OpWarmReset r) a.
Proof.
  intros (I1 & I2 & I3 & I4 & I5 & I6) Hf Hn. destruct (Hf r eq_refl) as [L Z].
  assert (Ho : ∀ s, owed s (set_pwarm_reset_ioctl_req (Some r) a) = owed s a + owes s (Some r)).
  { intros s. unfold owed. cbn. rewrite Hn. change (owes s None) with 0. lia. }
  do 2 eexists. split; [done|]. split.
  - unfold inv. split_and!; try done. intros s. rewrite Ho. destruct (I2 s) as [Hs Hl].
    destruct (owes_cases s (Some r)) as [[-> E]|[-> E]].
    + injection E as ->. split; [lia|done].
    + rewrite Z.add_0_r. done.
  - split; [done|]. intros s. unfold acct. rewrite Ho. change [r] with (opt_list (Some r)). rewrite occ_opt_list.
    change (completed s (set_pwarm_reset_ioctl_req (Some r) a)) with (completed s a). lia.
Qed.

Lemma prepare_safe priv c action io data buf a : inv [] a → op_ok (OpPrepare priv c action io data buf) a →
  op_safe (OpPrepare priv c action io data buf) a.
Proof.
  intros I (Hp & Hu & Hf). unfold op_safe, run_op.
  destruct (wlan_prepare_cmd_ok [] priv c action io data buf a I Hp Hu Hf) as (ret & a' & -> & I' & F & R).
  cbn [mbind option_bind]. do 2 eexists. split; [done|]. split; [done|]. split; [by apply F|]. intros r.
  destruct R as [[-> R]|[-> R]]; rewrite R; [|rewrite bool_decide_eq_false_2 by done; cbn; lia].
  rewrite bool_decide_eq_true_2 by done. rewrite occ_opt_list. lia.
Qed.
Lemma cancel_scan_safe io buf a : inv [] a → op_ok (OpCancelScan io buf) a → op_safe (OpCancelScan io buf) a.
Proof.
  intros I (Hu & Hf). unfold op_safe, run_op.
  destruct (wlan_cancel_pending_scan_cmd_ok [] io buf a I Hu Hf) as (ret & a' & -> & I' & F & R & _).
  cbn [mbind option_bind]. do 2 eexists. split; [done|]. split; [done|]. split; [by apply F|]. intros r.
  destruct R as [[-> R]|[-> R]]; rewrite R; [|rewrite bool_decide_eq_false_2 by done; cbn; lia].
  rewrite bool_decide_eq_true_2 by done. rewrite occ_opt_list. lia.
Qed.
Lemma scan_safe priv pl r a : inv [] a → op_ok (OpScan priv pl r) a → op_safe (OpScan priv pl r) a.
Proof.
  intros I (Hp & Hg & Hf & Hn). unfold op_safe, run_op.
  destruct (wlan_scan_networks_ok priv pl r a I Hp) as (ret & a' & -> & I' & F & R); [by intros ? [= <-]|done|done|].
  cbn [mbind option_bind]. do 2 eexists. split; [done|]. split; [done|]. split; [by apply F|]. intros s.
  destruct R as [(E & _ & R)|[E R]]; rewrite E, R.
  - rewrite bool_decide_eq_true_2 by done. rewrite occ_opt_list. lia.
  - case_bool_decide as Er; [|cbn; lia]. rewrite <- Er. cbn. lia.
Qed.

Lemma recv_resp_safe r a : inv [] a → op_safe (OpResp r) a.
Proof.
  intros I. destruct (recv_cmd_resp_ok [] r a I) as (I' & K & E). do 2 eexists. split; [done|]. split; [done|].
  split; [by apply E|]. intros s. rewrite K. cbn. lia.
Qed.

(** Every operation is safe where its callers keep their part. *)
Lemma run_op_safe op a : inv [] a → op_ok op a → op_safe op a.
Proof.
  intros I Ok. destruct op; cbn [op_ok] in Ok.
  - by apply prepare_safe.
  - by apply scan_safe.
  - destruct Ok. by apply warm_reset_safe.
  - eapply safe_quietly'; [done|]. by apply wlan_exec_next_cmd_ok.
  - by apply recv_resp_safe.
  - destruct Ok as (pre & C1 & C2 & C3 & Hpre). eapply safe_quietly'; [done|]. by apply (wlan_process_cmdresp_ok _ _ _ pre).
  - destruct Ok. eapply safe_quietly; [done|]. by apply ext_scan_status_ok.
  - eapply safe_quietly; [done|]. by apply wlan_cmd_timeout_func_ok.
  - by apply cancel_scan_safe.
  - eapply safe_quietly; [done|]. destruct (wlan_cancel_all_pending_cmd_ok [] flag a I) as (a' & ? & ? & ? & ? & _).
    by exists a'.
  - eapply safe_quietly; [done|]. by apply wlan_cancel_bss_pending_cmd_ok.
  - destruct Ok as [L Hu]. eapply safe_quietly; [done|].
    destruct (wlan_cancel_pending_ioctl_ok [] r buf a I L Hu) as (a' & ? & ? & ? & ? & _). by exists a'.
  - eapply safe_quietly; [done|]. destruct (cancel_scan_locked_ok [] a I) as (o & a' & -> & ? & ? & ? & _). by exists a'.
  - eapply safe_quietly; [done|]. destruct (cancel_all_locked_ok [] flag a I) as (a' & -> & ? & ? & ? & _). by exists a'.
  - eapply safe_quietly; [done|]. destruct (cancel_bss_locked_ok [] bss a I) as (o & fl & a' & -> & ? & ? & ?). by exists a'.
  - eapply safe_quietly; [done|]. destruct (flush_scan_ok [] a I) as (a' & -> & ? & ? & ? & _). exists a'. auto with driver.
  - eapply safe_quietly; [done|]. destruct (flush_ext_ok [] a I) as (a' & -> & ? & ? & ? & _). exists a'. auto with driver.
  - by apply submit_safe.
  - by apply return_safe.
  - do 2 eexists. split; [done|]. split; [done|]. split; [done|]. intros r. change (acct r a = acct r a + 0). lia.
  - do 2 eexists. split; [done|]. split; [done|]. split; [done|]. intros r. change (acct r a = acct r a + 0). lia.
  - do 2 eexists. split; [done|]. split; [done|]. split; [done|]. intros r. change (acct r a = acct r a + 0). lia.
Qed.

(** A run from [a]: the requests accepted so far and the present state. *)
Inductive cmd_run (a : mlan_adapter) : list nat → mlan_adapter → Prop :=
| run_nil : cmd_run a [] a
| run_step l b op l' c : cmd_run a l b → op_ok op b → run_op op b = Some (l', c) → cmd_run a (l ++ l') c.

Lemma cmd_run_inv a l b : inv [] a → cmd_run a l b →
  inv [] b ∧ length (nodes b) = length (nodes a) ∧ ∀ r, acct r b = acct r a + occ r l.
Proof.
  intros I R. induction R as [|l b op l' c R (Ib & Lb & Ab) Ok E].
  { split; [done|]. split; [done|]. intros r. cbn. lia. }
  destruct (run_op_safe op b Ib Ok) as (m & d & E' & Ic & Lc & Ac). rewrite E in E'. injection E' as <- <-.
  split; [done|]. split; [congruence|]. intros r. rewrite Ac, Ab, occ_app. lia.
Qed.

(** The pool as the driver allocates it. *)
Definition allocated (a : mlan_adapter) : Prop :=
  ∃ u hdr ps io, (∀ k p, mjoin (ps !! k) = Some p → bss_index p = k) ∧
    wlan_alloc_cmd_buffer true (set_ioctls io (fresh_adapter u hdr ps)) = Some (MLAN_STATUS_SUCCESS, a).

Lemma allocated_inv a : allocated a → inv [] a ∧ (∀ r, acct r a = 0) ∧ length (nodes a) = MRVDRV_NUM_OF_CMD_BUFFER.
Proof.
  intros (u & hdr & ps & io & Hps & E).
  destruct (wlan_alloc_cmd_buffer_ok u hdr ps io Hps) as (b & E' & I & Hf & _ & _ & _ & _ & A & _).
  rewrite E in E'. injection E' as <-. split; [done|]. split; [done|].
  unfold wlan_alloc_cmd_buffer in E. cbn [negb] in E.
  rewrite (alloc_loop_eq MRVDRV_NUM_OF_CMD_BUFFER 0) in E; [|done|intros j Hj; by apply nodes_replicate].
  by injection E as <-.
Qed.

(** With no command waiting every node is free but for that of the command
    outstanding; if that one has no request left, nothing but a warm reset is owed. *)
Lemma settled_place a i : inv [] a → waiting a = [] → (i < length (nodes a))%nat → occ i (cmd_free_q a ++ opt_list (curr_cmd a)) = 1.
Proof.
  intros (I1 & _) Hw Hi. specialize (I1 i). rewrite decide_True in I1 by done. unfold place in I1.
  apply app_eq_nil in Hw as [Hw1 [Hw2 Hw3]%app_eq_nil]. rewrite Hw1, Hw2, Hw3 in I1. rewrite occ_app. cbn in I1. lia.
Qed.
Lemma owed_settled a r : inv [] a → waiting a = [] → pscan_ioctl_req a = None →
  (∀ i n, curr_cmd a = Some i → nodes a !! i = Some n → pioctl_buf n = None) → owed r a = owes r (pwarm_reset_ioctl_req a).
Proof.
  intros I Hw Hp Hc. unfold owed. rewrite Hp. change (owes r None) with 0.
  rewrite (zsum_zero _ (nodes a)); [lia|]. apply Forall_lookup. intros i n Hn.
  assert (Hi : i ∈ cmd_free_q a ++ opt_list (curr_cmd a)).
  { apply occ_elem. rewrite settled_place by (done || by eapply lookup_lt_Some). lia. }
  assert (pioctl_buf n = None) as ->; [|done]. apply elem_of_app in Hi as [Hi|Hi].
  - destruct I as (_ & _ & I3 & _). destruct (I3 i Hi) as (m & Hm & E & _). rewrite Hn in Hm. by injection Hm as <-.
  - apply (Hc i n); [|done]. destruct (curr_cmd a); cbn in Hi; [|by apply elem_of_nil in Hi]. apply list_elem_of_singleton in Hi. by subst.
Qed.
Lemma settled_perm a : inv [] a → waiting a = [] → cmd_free_q a ++ opt_list (curr_cmd a) ≡ₚ seq 0 (length (nodes a)).
Proof.
  intros I Hw.
  assert (∀ i, i ∈ cmd_free_q a ++ opt_list (curr_cmd a) → (i < length (nodes a))%nat) as Hlt.
  { intros i Hi. destruct (decide (i < length (nodes a))%nat) as [|Hge]; [done|]. apply occ_elem in Hi. rewrite occ_app in Hi.
    pose proof I as (I1 & _). specialize (I1 i). rewrite decide_False in I1 by done.
    pose proof (place_parts i [] a). unfold place in I1. lia. }
  apply NoDup_Permutation; [|apply NoDup_seq|].
  - apply occ_NoDup. intros i Hi. apply settled_place; auto.
  - intros i. rewrite elem_of_seq. split; [intros Hi%Hlt; lia|].
    intros Hi. apply occ_elem. rewrite settled_place by (done || lia). lia.
Qed.

(** ** The theorems *)

(** C5: From an allocated pool, whatever happened before, every operation of the
    command queue whose caller keeps its part ([op_ok]) ends with a result: it follows
    no NULL pointer, touches no completed request and its loops stop.  Afterwards
    each of the 40 command nodes is again in exactly one place, and every waiting
    command has a buffer with room for the bus header and an interface.  The part of
    the callers: a command is prepared for an interface that exists, and the buffer it
    needs on USB can be allocated (where it cannot, the node is lost); a request
    handed in is alive and nowhere pending; a scan starts while no scan request waits
    (a second one would be forgotten), a warm reset while none does; the response
    handlers keep the contract [CmdHandler]; a request is submitted under a fresh
    name and taken back only if nothing refers to it.  The operations happen one after
    the other; those that cancel may be interrupted where they drop the command lock
    (their parts are operations), while [wlan_exec_next_cmd], [wlan_process_cmdresp]
    and [wlan_cancel_pending_ioctl] are one step. *)
Theorem queue_operations_total a0 l a op : allocated a0 → cmd_run a0 l a → op_ok op a →
  ∃ l' a', run_op op a = Some (l', a') ∧
    (∀ i, (i < MRVDRV_NUM_OF_CMD_BUFFER)%nat → place i [] a' = 1) ∧
    (∀ i, i ∈ waiting a' → node_at a' (waiting_node a') i).
Proof.
  intros Ha R Ok. destruct (allocated_inv a0 Ha) as (I0 & _ & L0). destruct (cmd_run_inv a0 l a I0 R) as (I & L & _).
  destruct (run_op_safe op a I Ok) as (l' & a' & E & I' & L' & _). exists l', a'.
  split; [done|]. split; [|intros i Hi; by eapply waiting_at].
  intros i Hi. destruct I' as (I1 & _). rewrite I1, L', L, L0, decide_True by done. done.
Qed.

(** C3: Along any run from an allocated pool in which the callers keep their part
    ([op_ok]: see [queue_operations_total]; among it that no scan is started for a
    request while another scan request waits, that a request handed in is not pending
    already, and that the response handlers, which are parameters, keep their
    contract), a request that was accepted (the caller
    was told it is pending) is completed at most once for each time it was
    accepted: at every moment the acceptances are the completions plus the one
    place, if any, that still refers to the request, and a request that is referred
    to has not been completed.  (The operations are those of [cmd_op], the parts between
    which a cancelling function drops the lock included; sending a command and
    processing a response are one step each.) *)
Theorem requests_completed_once a0 l a r : allocated a0 → cmd_run a0 l a →
  completed r a + owed r a = occ r l ∧ 0 <= owed r a <= 1 ∧ (owed r a = 1 → is_Some (ioctls a !! r)).
Proof.
  intros Ha R. destruct (allocated_inv a0 Ha) as (I0 & A0 & _). destruct (cmd_run_inv a0 l a I0 R) as (I & _ & A).
  specialize (A r). rewrite A0 in A. unfold acct in A. pose proof (owed_nonneg r a).
  destruct I as (_ & I2 & _). destruct (I2 r). split_and!; [lia|lia|lia|done].
Qed.

(** C12: Cancelling everything settles every account, whichever way it is asked for:
    after [wlan_cancel_all_pending_cmd] no command waits, the timer is off, and each
    request accepted before has been completed as often as it was accepted, except a
    warm reset that is under way.  With [flag] set no command is outstanding and the
    whole pool is free; without, as [mlan_ioctl] calls it, a command outstanding stays
    so, without request and without timer, and the rest of the pool is free.  (The
    function runs here without another in between where it drops the lock; what holds
    when one does is [queue_operations_total] and [requests_completed_once].) *)
Theorem cancel_all_completes_everything flag a0 l a : allocated a0 → cmd_run a0 l a →
  ∃ a', wlan_cancel_all_pending_cmd flag a = Some a' ∧
    waiting a' = [] ∧ cmd_timer_is_set a' = false ∧ curr_cmd a' = (if flag then None else curr_cmd a) ∧
    cmd_free_q a' ++ opt_list (curr_cmd a') ≡ₚ seq 0 MRVDRV_NUM_OF_CMD_BUFFER ∧
    (∀ r, pwarm_reset_ioctl_req a' ≠ Some r → completed r a' = occ r l) ∧
    (∀ i n, curr_cmd a' = Some i → nodes a' !! i = Some n → pioctl_buf n = None).
Proof.
  intros Ha R. destruct (allocated_inv a0 Ha) as (I0 & A0 & L0). destruct (cmd_run_inv a0 l a I0 R) as (I & L & A).
  destruct (wlan_cancel_all_pending_cmd_ok [] flag a I) as (a' & E & I' & K & (_ & _ & _ & L') & Hw & Hp & Hc & Ht & Hn).
  exists a'. split_and!; try done.
  - etransitivity; [by apply settled_perm|]. by rewrite L', L, L0.
  - intros r Hr. pose proof (owed_settled a' r I' Hw Hp Hn) as Ho. unfold owes in Ho. rewrite decide_False in Ho by done.
    specialize (K r). specialize (A r). rewrite A0 in A. unfold acct in *. lia.
Qed.
