(* ===== verification/CmdFlow.v ===== *)
(** * CmdFlow: what the command queue does with a command

    Functional theorems on single operations of [CmdQueue]: what is sent, what a
    refused command turns into, whom a response belongs to, the order in which
    held-back commands are queued, what cancelling a request does. *)

From S2P Require Import Prelude CmdQueue CmdInv CmdSafe CmdResp CmdCancel CmdRun.

(** ** Sending *)

(** The commands handed to the bus so far: node, command, length. *)
Definition sent_of (e : cmd_event) : option (nat * Z * Z) :=
  match e with ToCard i cmd _ len => Some (i, cmd, len) | _ => None end.
Definition sends (a : mlan_adapter) : list (nat * Z * Z) := omap sent_of (evs a).

Lemma sends_log e a : sends (log e a) = sends a ++ option_list (sent_of e).
Proof. unfold sends, log. cbn. rewrite omap_app. cbn. by destruct (sent_of e). Qed.

(** Commands the firmware answers: all but a firmware dump and a soft reset. *)
Definition answered (cmd : Z) : Prop :=
  Z.land cmd HostCmd_CMD_ID_MASK ≠ HostCmd_CMD_FW_DUMP_EVENT ∧ Z.land cmd HostCmd_CMD_ID_MASK ≠ HostCmd_CMD_SOFT_RESET.

(** The head of the pending queue can be sent: [n] is its node, [cb] its buffer. *)
Record sendable (a : mlan_adapter) (i : nat) (q : list nat) (n : cmd_ctrl_node) (cb : cmd_buf) (p : mlan_private)
    : Prop := {
  sd_idle : curr_cmd a = None;
  sd_head : cmd_pending_q a = i :: q;
  sd_node : nodes a !! i = Some n;
  sd_buf : cmdbuf n = Some cb;
  sd_size : size (body cb) ≠ 0;
  sd_room : data_offset cb = header_len a;
  sd_priv : priv_at a (n_priv n) = Some p;
  sd_awake : ps_state a = PS_STATE_AWAKE;
  sd_answered : answered (command (body cb))
}.

(** What was sent is the current command. *)
Record sent (a a1 : mlan_adapter) (i : nat) (q : list nat) (n : cmd_ctrl_node) (cb : cmd_buf) (p : mlan_private)
    : Prop := {
  st_curr : curr_cmd a1 = Some i;
  st_rest : tl (queues a1) = [q; scan_pending_q a; ext_cmd_pending_q a];
  st_node : ∃ b, nodes a1 = <[i := sent_node a n b (Some (mk_buf b 0 (size (body cb) + header_len a)))]> (nodes a) ∧
            command b = command (body cb) ∧ size b = size (body cb) ∧ param0 b = param0 (body cb) ∧
            cseq b = HostCmd_SET_SEQ_NO_BSS_INFO (u16 (seq_num a + 1)) (bss_num p) (bss_type p) ∧ result b = result (body cb);
  st_sends : sends a1 = sends a ++ [(i, command (body cb), size (body cb) + header_len a)];
  st_timer : cmd_timer_is_set a1 = true;
  st_env : env_same a a1;
  st_same : rest_same a a1
}.

Lemma sends_hs o b a : sends (wlan_host_sleep_activated_event o b a) = sends a.
Proof.
  unfold wlan_host_sleep_activated_event, wlan_recv_event. destruct o; [|done].
  destruct b; [destruct (is_hs_configured a); [|done]|]; rewrite sends_log; cbn; by rewrite app_nil_r.
Qed.

Lemma exec_sent a i q n cb p : sendable a i q n cb p →
  ∃ a1, wlan_exec_next_cmd MLAN_STATUS_SUCCESS a = Some (MLAN_STATUS_SUCCESS, a1) ∧ sent a a1 i q n cb p.
Proof.
  intros [Hc Hq Hn Hcb Hs Ho Hp Hps [Ha1 Ha2]]. unfold wlan_exec_next_cmd. rewrite Hc, Hq.
  unfold node_cmd. rewrite Hn. cbn [mbind option_bind]. rewrite Hcb. cbn [mbind option_bind].
  rewrite bool_decide_eq_true_2 by done. cbn [negb].
  destruct (dnld_sent_eq i n cb p MLAN_STATUS_SUCCESS (set_cmd_pending_q q a) Hn Hcb Hs Hp Ho)
    as (b & a3 & (Hb1 & Hb2 & Hb3 & Hb4 & Hb5) & -> & _ & _ & He & Hc3 & (l & Hl & Hev) & Hq3 & Hr & Hnodes).
  unfold dnld_finish. rewrite (bool_decide_eq_false_2 (MLAN_STATUS_SUCCESS = MLAN_STATUS_PENDING)), andb_false_r by done.
  rewrite Hnodes, list_lookup_insert_eq by (by eapply lookup_lt_Some). cbn [mbind option_bind].
  rewrite bool_decide_eq_false_2 by done.
  rewrite (proj2 (Z.eqb_neq _ _) Ha1), (proj2 (Z.eqb_neq _ _) Ha2). cbn [orb mbind option_bind].
  set (a4 := set_cmd_timer_is_set true _).
  assert (Hs4 : sends a4 = sends a ++ [(i, command (body cb), size (body cb) + header_len a)]).
  { change (sends (log (StartTimer (wlan_get_cmd_timeout (command (body cb)))) a3) = 
      sends a ++ [(i, command (body cb), size (body cb) + header_len a)]).
    rewrite sends_log. cbn. rewrite app_nil_r. unfold sends. rewrite Hev, !omap_app. cbn. rewrite Hb1.
    by destruct Hl as [-> | ->]. }
  assert (S4 : sent a a4 i q n cb p).
  { split; try done. exists b. split_and!; try done. change (nodes a4) with (nodes a3). rewrite Hnodes.
    unfold add_header. cbn. rewrite Ho. do 5 f_equal. apply Z.sub_diag. }
  eexists. split; [done|]. destruct (_ && _); [|done]. destruct S4 as [S1 S2 S3 S5 S6 S7 S8].
  assert (Hh : ∀ o (c : mlan_adapter), let d := wlan_host_sleep_activated_event o false c in
    curr_cmd d = curr_cmd c ∧ queues d = queues c ∧ nodes d = nodes c ∧ cmd_timer_is_set d = cmd_timer_is_set c ∧
    env_same c d ∧ rest_same c d).
  { intros o c. unfold wlan_host_sleep_activated_event, wlan_recv_event. by destruct o. }
  destruct (Hh (wlan_get_priv a4) (set_is_hs_configured false a4)) as (E1 & E2 & E3 & E4 & E5 & E6).
  set (a5 := wlan_host_sleep_activated_event _ _ _) in *.
  split.
  - by rewrite E1.
  - by rewrite E2.
  - destruct S3 as (b' & ? & ?). exists b'. by rewrite E3.
  - unfold a5. by rewrite sends_hs.
  - by rewrite E4.
  - eapply env_trans; [exact S7|exact E5].
  - destruct E6 as (F1 & F2 & F3 & F4 & F5 & F6 & F7 & F8). destruct S8 as (G1 & G2 & G3 & G4 & G5 & G6 & G7 & G8).
    unfold rest_same. rewrite F1, F2, F3, F4, F5, F6, F7, F8. done.
Qed.

(** A waiting command at the head of the queue can be sent. *)
Definition head_ready (a : mlan_adapter) (i : nat) (q : list nat) (c : cmd_body) : Prop :=
  curr_cmd a = None ∧ cmd_pending_q a = i :: q ∧ node_cmd a i = Some c ∧ size c ≠ 0 ∧
  ps_state a = PS_STATE_AWAKE ∧ answered (command c).

Lemma head_sendable a i q c : inv [] a → head_ready a i q c →
  ∃ n cb p, sendable a i q n cb p ∧ body cb = c ∧ Z.land (cmd_flag n) CMD_F_CANCELED = 0.
Proof.
  intros I (Hc & Hq & Hb & Hs & Hps & Ha).
  assert (Hi : i ∈ waiting a) by (unfold waiting; rewrite Hq, !elem_of_app, elem_of_cons; auto).
  destruct (waiting_at _ _ _ I Hi) as (n & Hn & (cb & Hcb & Ho) & [p Hp] & _ & Hf).
  unfold node_cmd in Hb. rewrite Hn in Hb. cbn [mbind option_bind] in Hb. rewrite Hcb in Hb. cbn in Hb.
  injection Hb as <-. exists n, cb, p. split; [by split|done].
Qed.

(** ** A command refused because the card goes to sleep *)

Lemma get_priv_found a k p : priv_at a k = Some p → is_Some (wlan_get_priv a).
Proof.
  intros Hp. unfold wlan_get_priv. unfold priv_at in Hp. destruct (privs a !! k) as [o|] eqn:E; [|done].
  cbn in Hp. subst o. destruct (list_find is_Some (privs a)) as [[j o]|] eqn:F.
  - apply list_find_Some in F as (_ & Ho & _). done.
  - apply list_find_None in F. rewrite Forall_forall in F. exfalso. apply (F (Some p)); [by eapply list_elem_of_lookup_2|].
    by eexists.
Qed.

(** The response that refuses command [cmd]. *)
Definition refusal (cmd : Z) (r : cmd_body) : Prop :=
  command r = Z.lor cmd HostCmd_RET_BIT ∧ result r = HostCmd_RESULT_PRE_ASLEEP.

Lemma refusal_bits cmd r : 0 <= cmd <= HostCmd_CMD_ID_MASK → refusal cmd r →
  Z.land (command r) HostCmd_CMD_ID_MASK = cmd ∧ (Z.land (command r) HostCmd_RET_BIT =? 0) = false.
Proof.
  intros Hc [-> _]. rewrite !Z.land_lor_distr_l. split.
  - change (Z.land HostCmd_RET_BIT HostCmd_CMD_ID_MASK) with 0. rewrite Z.lor_0_r.
    change HostCmd_CMD_ID_MASK with (Z.ones 12). rewrite Z.land_ones by lia. apply Z.mod_small.
    change (2 ^ 12) with 4096. change HostCmd_CMD_ID_MASK with 4095 in Hc. lia.
  - change (Z.land HostCmd_RET_BIT HostCmd_RET_BIT) with HostCmd_RET_BIT. apply Z.eqb_neq. intros E.
    apply Z.lor_eq_0_iff in E as [_ E]. done.
Qed.

(** A response to the command outstanding, not cancelled, stops the timer and is
    processed. *)
Lemma response_matched h hs ih a1 i n r : curr_cmd a1 = Some i → nodes a1 !! i = Some n →
  cmd_no n = Z.land (command r) HostCmd_CMD_ID_MASK → num_cmd_timeout a1 = 0 → Z.land (cmd_flag n) CMD_F_CANCELED = 0 →
  ∃ c, wlan_process_cmdresp h hs ih (recv_cmd_resp r a1) = process_matched h hs ih i r (pioctl_buf n) c ∧
    curr_cmd c = Some i ∧ nodes c = <[i := set_respbuf (Some r) n]> (nodes a1) ∧ sends c = sends a1 ∧ queues c = queues a1 ∧
    cmd_timer_is_set c = false ∧ env_same a1 c ∧ rest_same a1 c.
Proof.
  intros Hc Hn Hno Ht Hf. unfold recv_cmd_resp. rewrite Hc, (upd_node_Some _ _ _ _ Hn). set (n1 := set_respbuf (Some r) n).
  set (b := set_cmd_resp_received true _).
  assert (Hnb : nodes b !! i = Some n1) by (by apply (put_node_lookup i n n1 a1)).
  unfold wlan_process_cmdresp. change (num_cmd_timeout b) with (num_cmd_timeout a1). rewrite Ht. cbn [negb Z.eqb].
  change (curr_cmd b) with (curr_cmd a1). rewrite Hc, Hnb. cbn [mbind option_bind].
  change (respbuf n1) with (Some r). cbv iota. change (cmd_no n1) with (cmd_no n). rewrite Hno, Z.eqb_refl. cbn [negb].
  set (c := if cmd_timer_is_set b then _ else b). change (cmd_flag n1) with (cmd_flag n). rewrite Hf. cbn [negb Z.eqb].
  exists c. split; [done|].
  assert (env_same a1 b) as Hb by (split_and!; try done; cbn; by rewrite length_insert).
  unfold c. destruct (cmd_timer_is_set b) eqn:Et; split_and!; try done.
  change (sends (log StopTimer b) = sends a1). rewrite sends_log. cbn. by rewrite app_nil_r.
Qed.

(** Processing a refusal: the command waits again, first, ready to be sent. *)
Lemma refused_requeued h hs ih a1 i n cb q r :
  curr_cmd a1 = Some i → nodes a1 !! i = Some n → cmdbuf n = Some cb → data_offset cb = 0 →
  cmd_no n = Z.land (command r) HostCmd_CMD_ID_MASK → (Z.land (command r) HostCmd_RET_BIT =? 0) = false →
  result r = HostCmd_RESULT_PRE_ASLEEP → usb a1 = false → num_cmd_timeout a1 = 0 → cmd_pending_q a1 = q →
  Z.land (cmd_flag n) CMD_F_CANCELED = 0 → is_Some (wlan_get_priv a1) →
  ∃ a2, wlan_process_cmdresp h hs ih (recv_cmd_resp r a1) = Some (MLAN_STATUS_FAILURE, a2) ∧
    curr_cmd a2 = None ∧ cmd_timer_is_set a2 = false ∧ cmd_pending_q a2 = i :: q ∧ scan_pending_q a2 = scan_pending_q a1 ∧
    ext_cmd_pending_q a2 = ext_cmd_pending_q a1 ∧
    nodes a2 = <[i := requeued_node a1 n cb]> (nodes a1) ∧ sends a2 = sends a1 ∧
    env_same a1 a2 ∧ rest_same a1 a2.
Proof.
  intros Hc Hn Hcb Ho Hno Hret Hres Hu Ht Hq Hf Hpriv.
  destruct (response_matched h hs ih a1 i n r Hc Hn Hno Ht Hf) as (c & -> & Ec & En & Es & Eq & Et & Ee & Er).
  set (n1 := set_respbuf (Some r) n) in *. pose proof Ee as (Eu & Eh & Ep & _). rewrite Hu in Eu.
  assert (Hnc : nodes c !! i = Some n1) by (rewrite En; apply list_lookup_insert_eq; by eapply lookup_lt_Some).
  unfold process_matched. set (o := match wlan_get_priv_by_id c _ _ with Some p => _ | None => _ end).
  assert (Hp : is_Some o).
  { unfold o. destruct (wlan_get_priv_by_id c _ _); [by eexists|]. unfold wlan_get_priv. by rewrite Ep. }
  destruct Hp as [p ->]. rewrite Hret, Hres. cbn [Z.eqb]. change (HostCmd_RESULT_PRE_ASLEEP =? 8) with false. cbv iota.
  rewrite Eu. change (HostCmd_RESULT_PRE_ASLEEP =? HostCmd_RESULT_PRE_ASLEEP) with true. cbn [negb andb].
  rewrite (pre_asleep_eq i n1 cb c Ec) by done.
  unfold wlan_insert_cmd_to_pending_q, node_cmd.
  set (d := put_node i (requeued_node c n1 cb) (set_curr_cmd None (log_resp n1 c))).
  assert (Hnd : nodes d !! i = Some (requeued_node c n1 cb)).
  { unfold d. apply (put_node_lookup i n1). unfold log_resp. change (respbuf n1) with (Some r). exact Hnc. }
  rewrite Hnd. cbn [mbind option_bind requeued_node cmdbuf set_respbuf set_cmdbuf].
  match goal with |- context [if ?t then false else false] => replace (if t then false else false) with false by by destruct t end.
  injection Eq as Q1 Q2 Q3 Q4. cbn [mbind option_bind]. eexists. split; [done|]. split_and!; try done.
  - cbn. unfold log_resp. cbn. by rewrite Q2, Hq.
  - cbn. rewrite En. cbn. rewrite list_insert_insert_eq. unfold requeued_node. by rewrite Eh.
  - change (sends (log RespComplete c) = sends a1). rewrite sends_log, Es. cbn. by rewrite app_nil_r.
  - destruct Ee as (E1 & E2 & E3 & E4). unfold env_same. cbn. rewrite length_insert. by rewrite E4, E1, E2, E3.
Qed.

(** A node as it was before its command was sent, but for the number of the command
    and the length, both of which sending determines again. *)
Record put_back (n n' : cmd_ctrl_node) : Prop := {
  pb_priv : n_priv n' = n_priv n;
  pb_flag : cmd_flag n' = cmd_flag n;
  pb_data : pdata_buf n' = pdata_buf n;
  pb_ioctl : pioctl_buf n' = pioctl_buf n;
  pb_resp : respbuf n' = None;
  pb_buf : ∃ cb cb', cmdbuf n = Some cb ∧ cmdbuf n' = Some cb' ∧ data_offset cb' = data_offset cb ∧
    data_len cb' = size (body cb) ∧ command (body cb') = command (body cb) ∧ size (body cb') = size (body cb) ∧
    param0 (body cb') = param0 (body cb) ∧ result (body cb') = result (body cb)
}.

(** C40: A command that the firmware refuses because it is about to sleep (on a card that
    is not on USB) is not lost: processing the refusal stops the timer, completes no
    request and puts the command back at the head of the queue, its node as it was
    before it was sent (the interface, the flags, the request and the data attached, the
    place of the command in the buffer, the command itself; its length is set), the
    other nodes untouched; sending again hands the same command, with the same length,
    to the bus a second time, for the same request, and the queue behind it is as it
    was. *)
Theorem preasleep_resend h hs ih a i q c r :
  inv [] a → head_ready a i q c → usb a = false → num_cmd_timeout a = 0 →
  0 <= command c <= HostCmd_CMD_ID_MASK → refusal (command c) r →
  ∃ a1 a2 a3 n n2 n3,
    wlan_exec_next_cmd MLAN_STATUS_SUCCESS a = Some (MLAN_STATUS_SUCCESS, a1) ∧
    wlan_process_cmdresp h hs ih (recv_cmd_resp r a1) = Some (MLAN_STATUS_FAILURE, a2) ∧
    wlan_exec_next_cmd MLAN_STATUS_SUCCESS a2 = Some (MLAN_STATUS_SUCCESS, a3) ∧
    nodes a !! i = Some n ∧ nodes a2 = <[i := n2]> (nodes a) ∧ put_back n n2 ∧ ioctls a2 = ioctls a ∧
    cmd_pending_q a2 = i :: q ∧ curr_cmd a2 = None ∧ cmd_timer_is_set a2 = false ∧
    nodes a3 = <[i := n3]> (nodes a) ∧ pioctl_buf n3 = pioctl_buf n ∧ ioctls a3 = ioctls a ∧
    (∃ b, cmdbuf n3 = Some (mk_buf b 0 (size c + header_len a)) ∧ command b = command c ∧ size b = size c ∧ param0 b = param0 c) ∧
    cmd_pending_q a3 = q ∧ curr_cmd a3 = Some i ∧ cmd_timer_is_set a3 = true ∧
    sends a3 = sends a ++ [(i, command c, size c + header_len a); (i, command c, size c + header_len a)].
Proof.
  intros I Hh Hu Ht Hc Hr. destruct (head_sendable a i q c I Hh) as (n & cb & p & Hsd & <- & Hf).
  destruct (exec_sent a i q n cb p Hsd) as (a1 & E1 & [S1 S2 (b & Hn & Hb1 & Hb2 & Hb3 & _ & Hb5) S4 S5 S6 S7]).
  destruct (refusal_bits _ r Hc Hr) as [R1 R2]. destruct Hr as [_ R3].
  pose proof S6 as (U & L & P & _). pose proof S7 as (PS & TO & IO & _). injection S2 as Q1 Q2 Q3.
  set (cb1 := mk_buf b 0 (size (body cb) + header_len a)) in *. set (n1 := sent_node a n b (Some cb1)) in *.
  pose proof Hsd as [D1 D2 D3 D4 D5 D6 D7 D8 D9]. assert (header_len a = intf_header_len a) as Hh0 by (unfold header_len; by rewrite Hu).
  assert (Hn1 : nodes a1 !! i = Some n1) by (rewrite Hn; apply list_lookup_insert_eq; by eapply lookup_lt_Some).
  destruct (refused_requeued h hs ih a1 i n1 cb1 q r) as (a2 & E2 & B1 & T0 & B2 & B3 & B4 & B5 & B6 & B7 & B8);
    try done; try congruence.
  { change (cmd_no n1) with (command b). by rewrite Hb1, R1. }
  { unfold wlan_get_priv. rewrite P. exact (get_priv_found _ _ _ D7). }
  pose proof B7 as (U2 & L2 & P2 & _). pose proof B8 as (PS2 & _ & IO2 & _). rewrite Hn, list_insert_insert_eq in B5.
  set (n2 := requeued_node a1 n1 cb1) in *.
  assert (Hsd2 : sendable a2 i q n2 (remove_header (intf_header_len a1) cb1) p).
  { split; try done.
    - rewrite B5. apply list_lookup_insert_eq. by eapply lookup_lt_Some.
    - change (size b ≠ 0). congruence.
    - change (0 + intf_header_len a1 = header_len a2). unfold header_len. by rewrite U2, U, Hu, L2.
    - unfold priv_at. rewrite P2, P. exact D7.
    - congruence.
    - change (answered (command b)). by rewrite Hb1. }
  assert (header_len a2 = header_len a) as Hh2 by (unfold header_len; by rewrite U2, U, L2, L).
  destruct (exec_sent a2 i q n2 _ p Hsd2) as (a3 & E3 & [T1 T2 (b3 & Hn3 & C1 & C2 & C3 & _) T4 T5 _ T7]). injection T2 as T2 _ _.
  rewrite B5, list_insert_insert_eq in Hn3. change (body (remove_header _ cb1)) with b in *. pose proof T7 as (_ & _ & IO3 & _).
  exists a1, a2, a3, n, n2, (sent_node a2 n2 b3 (Some (mk_buf b3 0 (size b + header_len a2)))). split_and!; try done; try congruence.
  - split; try done. exists cb, (remove_header (intf_header_len a1) cb1). split_and!; try done; cbn; [lia|]. lia.
  - exists b3. split_and!; try congruence. cbn. by rewrite Hb2, Hh2.
  - rewrite T4, B6, S4, <- app_assoc. do 2 f_equal. rewrite Hh2. by rewrite Hb1, Hb2.
Qed.

(** ** A command the bus does not take *)

Lemma free_with_status H i n r code a : inv (i :: H) a → nodes a !! i = Some n → pioctl_buf n = Some r →
  code ≠ MLAN_ERROR_NO_ERROR → (∃ q, ioctls a !! r = Some q ∧ status_code q = code) →
  ∃ a', wlan_insert_cmd_to_free_q (Some i) a = Some a' ∧ IoctlComplete r MLAN_STATUS_FAILURE code ∈ evs a' ∧
        ioctls a' !! r = None.
Proof.
  intros I Hn Hr Hc (q & Hq & Eq). destruct (free_ok _ _ _ I) as (m & Hm & -> & _). rewrite Hn in Hm. injection Hm as <-.
  eexists. split; [done|]. unfold freed, complete_attached. rewrite Hr, Hq. unfold free_status. rewrite Eq.
  rewrite (proj2 (Z.eqb_neq _ _) Hc). cbn [negb]. unfold log_resp.
  destruct (respbuf n); cbn; rewrite ?elem_of_app, list_elem_of_singleton, lookup_delete_eq; auto.
Qed.

Lemma freed_set_curr i n o a : freed i n (set_curr_cmd o a) = set_curr_cmd o (freed i n a).
Proof.
  unfold freed, complete_attached, log_resp. cbn.
  destruct (pioctl_buf n) as [r|], (respbuf n); try done; by destruct (ioctls a !! r).
Qed.

Lemma failed_download_reported i code a : inv [] a → curr_cmd a = Some i → ∃ n a',
  nodes a !! i = Some n ∧ dnld_finish i code MLAN_STATUS_FAILURE a = Some (MLAN_STATUS_FAILURE, a') ∧
  curr_cmd a' = None ∧ tl (queues a') = tl (queues a) ∧ inv [] a' ∧
  (∀ r, pioctl_buf n = Some r →
     IoctlComplete r MLAN_STATUS_FAILURE MLAN_ERROR_CMD_DNLD_FAIL ∈ evs a' ∧ ioctls a' !! r = None).
Proof.
  intros I Hc. pose proof I as (_ & _ & _ & _ & I5 & _). destruct (I5 i Hc) as (n & Hn & _). exists n.
  unfold dnld_finish. rewrite (bool_decide_eq_false_2 (MLAN_STATUS_FAILURE = MLAN_STATUS_PENDING)), andb_false_r by done.
  rewrite Hn. cbn [mbind option_bind]. rewrite bool_decide_eq_true_2 by done.
  destruct (write_status_opt_ok [] (pioctl_buf n) MLAN_ERROR_CMD_DNLD_FAIL a I) as (a1 & E1 & I1 & K1 & F1 & Q1 & N1 & L1).
  { intros r Hr. by destruct (inv_live _ _ _ _ _ I Hn Hr). }
  rewrite E1. cbn [mbind option_bind]. destruct (free_curr_ok [] a1 I1) as (a2 & E2 & I2 & K2 & F2 & C2 & Q2 & _).
  rewrite E2. cbn [mbind option_bind]. eexists. split; [done|]. split; [done|]. split; [done|].
  split; [change (tl (queues a2) = tl (queues a)); by rewrite Q2, Q1|]. split; [done|].
  intros r Hr. rewrite Hr in E1. cbn in E1. unfold write_status in E1. destruct (ioctls a !! r) as [q|] eqn:Hq; [|done].
  cbn [mbind option_bind] in E1. injection E1 as <-. unfold free_curr in E2.
  match type of E2 with (_ ← wlan_insert_cmd_to_free_q ?o ?s; _) = _ => change o with (curr_cmd a) in E2 end.
  rewrite Hc in E2.
  set (s := set_ioctls _ a) in *. assert (I3 : inv [i] (set_curr_cmd None s)) by (by apply inv_take_curr).
  destruct (free_with_status [] i n r MLAN_ERROR_CMD_DNLD_FAIL (set_curr_cmd None s)) as (a3 & E3 & V & N); try done.
  { eexists. split; [cbn; apply lookup_insert_eq|done]. }
  assert (Es : wlan_insert_cmd_to_free_q (Some i) s = Some (freed i n s)).
  { apply free_eq; [done|]. intros r' Hr'. rewrite Hr in Hr'. injection Hr' as <-. cbn. rewrite lookup_insert_eq. by eexists. }
  assert (Ec : a3 = freed i n (set_curr_cmd None s)).
  { destruct (free_ok _ _ _ I3) as (m & Hm & E & _). rewrite E3 in E. injection E as ->. do 2 f_equal.
    change (nodes (set_curr_cmd None s)) with (nodes a) in Hm. congruence. }
  rewrite Es in E2. cbn [mbind option_bind] in E2. injection E2 as <-. subst a3. by rewrite freed_set_curr in V, N.
Qed.

Lemma exec_failed a i q n cb p : inv [] a → sendable a i q n cb p →
  ∃ m a1, nodes a !! i = Some m ∧ wlan_exec_next_cmd MLAN_STATUS_FAILURE a = Some (MLAN_STATUS_FAILURE, a1) ∧
    curr_cmd a1 = None ∧ tl (queues a1) = [q; scan_pending_q a; ext_cmd_pending_q a] ∧
    (∀ r, pioctl_buf m = Some r →
       IoctlComplete r MLAN_STATUS_FAILURE MLAN_ERROR_CMD_DNLD_FAIL ∈ evs a1 ∧ ioctls a1 !! r = None).
Proof.
  intros I Hsd.
  destruct Hsd as [Hc Hq Hn Hcb Hs Ho Hp Hps Ha].
  destruct (take_pending _ _ _ _ I Hq) as [I1 Hw]. set (a0 := set_cmd_pending_q q a) in *.
  destruct (dnld_sent_eq i n cb p MLAN_STATUS_FAILURE a0 Hn Hcb Hs Hp Ho)
    as (b & a3 & _ & E & Hi & _ & He & Hc3 & _ & Hq3 & _ & Hnodes).
  destruct Hw as (m & Hm & Hw). change (nodes a !! i = Some m) in Hm. rewrite Hn in Hm. injection Hm as <-.
  destruct (sent_inv [] i n b (Some (add_header (header_len a0) (mk_buf b (data_offset cb) (size (body cb))))) a0
    I1 Hc Hn Hw) as [Is _].
  { intros _. eexists. split; [done|]. cbn. rewrite Ho. change (header_len a0) with (header_len a). lia. }
  destruct (failed_download_reported i (command (body cb)) a3 (Hi [] Is) Hc3) as (m & a4 & Hm & E4 & C4 & Q4 & _ & R4).
  assert (Hmn : pioctl_buf m = pioctl_buf n).
  { rewrite Hnodes, list_lookup_insert_eq in Hm by (by eapply lookup_lt_Some). by injection Hm as <-. }
  exists n. unfold wlan_exec_next_cmd. rewrite Hc, Hq. unfold node_cmd. rewrite Hn. cbn [mbind option_bind].
  rewrite Hcb. cbn [mbind option_bind]. rewrite bool_decide_eq_true_2 by done. cbn [negb]. fold a0.
  rewrite E, E4. cbn [mbind option_bind]. eexists. split; [done|]. split; [done|].
  rewrite <- Hmn.
  assert (Hh' : ∀ (t : bool) o, let d := if t then wlan_host_sleep_activated_event o false (set_is_hs_configured false a4) else a4 in
    curr_cmd d = curr_cmd a4 ∧ queues d = queues a4 ∧ ioctls d = ioctls a4 ∧ ∀ e, e ∈ evs a4 → e ∈ evs d).
  { intros [] o; [|done]. unfold wlan_host_sleep_activated_event, wlan_recv_event. destruct o; [|done].
    split_and!; try done. intros e He'. cbn. rewrite elem_of_app. auto. }
  match goal with |- context [if ?t then wlan_host_sleep_activated_event ?o _ _ else _] =>
    destruct (Hh' t o) as (G1 & G2 & G3 & G4) end.
  rewrite G1, G2, G3, Q4, Hq3. split_and!; [done|done|]. intros r Hr. destruct (R4 r Hr). auto.
Qed.

(** What [wlan_exec_next_cmd] does, case by case: with a command outstanding it
    refuses; with nothing pending, or the card not awake, it does nothing; a
    command the bus takes becomes the outstanding one, with the timer running and
    the rest of the queues as they were; a command the bus refuses is freed and
    its request completes with a download failure. *)
Theorem exec_next_outcome a :
  inv [] a →
  (∀ h2c, is_Some (curr_cmd a) → wlan_exec_next_cmd h2c a = Some (MLAN_STATUS_FAILURE, a)) ∧
  (∀ h2c, curr_cmd a = None → cmd_pending_q a = [] ∨ ps_state a ≠ PS_STATE_AWAKE →
     wlan_exec_next_cmd h2c a = Some (MLAN_STATUS_SUCCESS, a)) ∧
  (∀ i q c, head_ready a i q c →
     (∃ a1, wlan_exec_next_cmd MLAN_STATUS_SUCCESS a = Some (MLAN_STATUS_SUCCESS, a1) ∧ curr_cmd a1 = Some i ∧
        tl (queues a1) = [q; scan_pending_q a; ext_cmd_pending_q a] ∧ cmd_timer_is_set a1 = true ∧
        sends a1 = sends a ++ [(i, command c, size c + header_len a)]) ∧
     (∃ n a1, nodes a !! i = Some n ∧ wlan_exec_next_cmd MLAN_STATUS_FAILURE a = Some (MLAN_STATUS_FAILURE, a1) ∧
        curr_cmd a1 = None ∧ tl (queues a1) = [q; scan_pending_q a; ext_cmd_pending_q a] ∧
        (∀ r, pioctl_buf n = Some r →
           IoctlComplete r MLAN_STATUS_FAILURE MLAN_ERROR_CMD_DNLD_FAIL ∈ evs a1 ∧ ioctls a1 !! r = None))).
Proof.
  intros I. split_and!.
  - intros h2c [i Hi]. unfold wlan_exec_next_cmd. by rewrite Hi.
  - intros h2c Hc [Hq|Hp]; unfold wlan_exec_next_cmd; rewrite Hc; [by rewrite Hq|].
    destruct (cmd_pending_q a) as [|i q] eqn:Eq; [done|].
    destruct (node_cmd_at i a) as [c Hb].
    { eapply waiting_at; [done|]. unfold waiting. rewrite Eq, !elem_of_app, elem_of_cons. auto. }
    rewrite Hb. cbn [mbind option_bind]. by rewrite bool_decide_eq_false_2.
  - intros i q c Hh. destruct (head_sendable a i q c I Hh) as (n & cb & p & Hsd & <- & Hf). split.
    + destruct (exec_sent a i q n cb p Hsd) as (a1 & E1 & [S1 S2 _ S4 S5 _ _]). by exists a1.
    + exact (exec_failed a i q n cb p I Hsd).
Qed.

(** ** Whom a response belongs to *)







(** ** The commands held back by a scan *)

(** A command that leaves power save overtakes the queue while the card sleeps. *)
Definition overtakes (a : mlan_adapter) (i : nat) : Prop :=
  match node_cmd a i with
  | Some c => command c = HostCmd_CMD_802_11_PS_MODE_ENH ∧ body_action c = DIS_AUTO_PS ∧ ps_state a ≠ PS_STATE_AWAKE
  | None => False
  end.
#[export] Instance overtakes_dec a i : Decision (overtakes a i).
Proof. unfold overtakes. destruct (node_cmd a i); apply _. Defined.

Lemma insert_pending_eq i c a : node_cmd a i = Some c →
  wlan_insert_cmd_to_pending_q (Some i) true a =
  Some (set_cmd_pending_q (if decide (overtakes a i) then i :: cmd_pending_q a else cmd_pending_q a ++ [i]) a).
Proof.
  intros Hc. unfold wlan_insert_cmd_to_pending_q. rewrite Hc. cbn [mbind option_bind].
  assert (E : (command c =? HostCmd_CMD_802_11_PS_MODE_ENH) && (body_action c =? DIS_AUTO_PS) &&
              negb (bool_decide (ps_state a = PS_STATE_AWAKE)) = bool_decide (overtakes a i)).
  { apply eq_bool_prop_intro. rewrite bool_decide_spec. unfold overtakes. rewrite Hc.
    rewrite !andb_True, negb_True, bool_decide_spec, !Is_true_true, !Z.eqb_eq. tauto. }
  rewrite E. unfold bool_decide, decide. by destruct (overtakes_dec a i).
Qed.

(** The order in which [wlan_move_cmd_to_cmd_pending_q] leaves the pending queue. *)
Definition moved_order (a : mlan_adapter) : list nat :=
  reverse (filter (overtakes a) (ext_cmd_pending_q a)) ++ cmd_pending_q a ++
  filter (λ i, ¬ overtakes a i) (ext_cmd_pending_q a).

Lemma move_loop_eq fuel a : (length (ext_cmd_pending_q a) <= fuel)%nat →
  (∀ i, i ∈ ext_cmd_pending_q a → is_Some (node_cmd a i)) →
  move_loop fuel a = Some (set_ext_cmd_pending_q [] (set_cmd_pending_q (moved_order a) a)).
Proof.
  revert a. induction fuel as [|fuel IH]; intros a Hl Hc; cbn [move_loop];
    destruct (ext_cmd_pending_q a) as [|i q] eqn:E; try (cbn in Hl; lia).
  1,2: f_equal; unfold moved_order; rewrite E, app_nil_r; destruct a; cbn in *; by subst.
  destruct (Hc i ltac:(by left)) as [c Hi].
  rewrite (insert_pending_eq i c) by exact Hi. cbn [mbind option_bind].
  set (b := set_cmd_pending_q _ _). change (set_ext_cmd_pending_q [] (set_cmd_pending_q (moved_order a) a))
    with (set_ext_cmd_pending_q [] (set_cmd_pending_q (moved_order a) b)).
  rewrite IH; [|cbn in *; lia|].
  2:{ intros j Hj. apply Hc. by right. }
  do 3 f_equal. unfold moved_order. rewrite E. change (ext_cmd_pending_q b) with q.
  change (filter (overtakes b) q) with (filter (overtakes a) q).
  change (filter (λ j, ¬ overtakes b j) q) with (filter (λ j, ¬ overtakes a j) q).
  change (cmd_pending_q b) with (if decide (overtakes a i) then i :: cmd_pending_q a else cmd_pending_q a ++ [i]).
  rewrite !filter_cons. destruct (decide (overtakes a i)) as [Ho|Ho].
  - rewrite (decide_False (P := ¬ overtakes a i)) by tauto. rewrite reverse_cons, <- app_assoc. done.
  - rewrite (decide_True (P := ¬ overtakes a i)) by done. by rewrite <- !app_assoc.
Qed.

(** The queue of commands held back during an extended scan is emptied in one
    step with a simple description: commands that must wake the card go first
    (the last one held back is the very first), then what was pending, then the
    other held-back commands in their order; nothing else changes. *)
Theorem move_cmd_reference a : inv [] a →
  wlan_move_cmd_to_cmd_pending_q a = Some (set_ext_cmd_pending_q [] (set_cmd_pending_q (moved_order a) a)).
Proof.
  intros I. apply move_loop_eq; [bound|]. intros i Hi.
  destruct (node_cmd_at i a) as [c Hc]; [|by eexists]. eapply waiting_at; [done|].
  unfold waiting. rewrite !elem_of_app. auto.
Qed.

(** ** Cancelling one request *)

(** Cancelling a request that waits (as the pending scan, with the current command
    or with a pending one): it is completed exactly once more and nothing refers
    to it any more, so neither a response nor a later cancellation completes it
    again; the other requests keep their accounts. *)
Theorem cancel_ioctl_completes a0 l a r buf : allocated a0 → cmd_run a0 l a →
  (usb a = true → buf = true) → is_Some (ioctls a !! r) → cancellable r a = true →
  ∃ a', wlan_cancel_pending_ioctl r buf a = Some a' ∧ completed r a' = completed r a + 1 ∧ owed r a' = 0 ∧
    ioctls a' !! r = None ∧ (∀ s, completed s a' + owed s a' = occ s l).
Proof.
  intros Ha R Hu Hl Hc. destruct (allocated_inv a0 Ha) as (I0 & A0 & _). destruct (cmd_run_inv a0 l a I0 R) as (I & _ & A).
  destruct (wlan_cancel_pending_ioctl_ok [] r buf a I Hl Hu) as (a' & E & I' & K & _ & F).
  destruct (F Hc) as [Z N]. exists a'. pose proof (K r) as Kr. unfold acct in Kr.
  assert (O1 : owed r a = 1); [|split_and!; try done; [lia|]].
  { pose proof I as (_ & I2 & _). destruct (I2 r) as [Hle _]. cut (1 <= owed r a); [lia|].
    unfold cancellable in Hc. apply orb_true_iff in Hc as [[Hc|Hc]%orb_true_iff|Hc].
    - apply bool_decide_eq_true in Hc. destruct (pscan_live _ _ _ I Hc) as (-> & _). lia.
    - unfold in_curr, node_is in Hc. destruct (curr_cmd a) as [i|]; [|done]. destruct (nodes a !! i) as [n|] eqn:Hn; [|done].
      apply bool_decide_eq_true in Hc. by eapply owed_ge.
    - apply bool_decide_eq_true in Hc as [i Hi]. apply pending_find_elem in Hi as [_ (n & Hn & HP)].
      apply bool_decide_eq_true in HP. by eapply owed_ge. }
  intros s. specialize (K s). specialize (A s). rewrite A0 in A. unfold acct in *. lia.
Qed.

(** ** A concrete adapter *)

(** An SDIO card with two interfaces; request 7 asks for command 0x16 on the
    first, a second command without request follows. *)
Definition demo_priv (k : nat) : mlan_private := mk_priv k (Z.of_nat k) 0 true true false false.
Definition demo_io : mlan_ioctl_req := mk_ioctl 0x50000 0 0.
Definition demo_cmd (no : Z) : cmd_source := Encoded no (Some (mk_body no 20 0 0 1)).

Definition state_of (m : option (mlan_status * mlan_adapter)) : mlan_adapter :=
  match m with Some (_, a) => a | None => fresh_adapter false 0 [] end.
Definition after (op : cmd_op) (a : mlan_adapter) : mlan_adapter :=
  match run_op op a with Some (_, a) => a | None => a end.

Definition demo_alloc : mlan_adapter :=
  state_of (wlan_alloc_cmd_buffer true
    (set_ioctls ∅ (fresh_adapter false 4 [Some (demo_priv 0); Some (demo_priv 1)]))).
Definition demo_submit : cmd_op := OpSubmit 7 demo_io.
Definition demo_prepare : cmd_op := OpPrepare 0 (demo_cmd 0x16) HostCmd_ACT_GEN_SET (Some 7%nat) None true.
Definition demo_second : cmd_op := OpPrepare 1 (demo_cmd 0x28) HostCmd_ACT_GEN_SET None None true.
Definition demo_queued : mlan_adapter := after demo_second (after demo_prepare (after demo_submit demo_alloc)).

Lemma demo_allocated : allocated demo_alloc.
Proof.
  exists false, 4, [Some (demo_priv 0); Some (demo_priv 1)], ∅. split; [|by vm_compute].
  intros [|[|k]] p; cbn; intros E; by simplify_eq.
Qed.

Lemma run_after a l b op l' : cmd_run a l b → op_ok op b → run_op op b = Some (l', after op b) →
  cmd_run a (l ++ l') (after op b).
Proof. intros R Ok E. by eapply run_step. Qed.

Lemma demo_run : cmd_run demo_alloc [7%nat] demo_queued.
Proof.
  unfold demo_queued.
  eapply (run_after demo_alloc [7%nat] (after demo_prepare (after demo_submit demo_alloc)) demo_second []).
  - eapply (run_after demo_alloc [] (after demo_submit demo_alloc) demo_prepare [7%nat]).
    + eapply (run_after demo_alloc [] demo_alloc demo_submit []); [apply run_nil|vm_compute; reflexivity|vm_compute; reflexivity].
    + split; [vm_compute; by eexists|]. split; [reflexivity|]. intros r [= <-].
      split; [vm_compute; by eexists|vm_compute; reflexivity].
    + vm_compute; reflexivity.
  - split; [vm_compute; by eexists|]. split; [reflexivity|]. intros r [=].
  - vm_compute; reflexivity.
Qed.
Lemma demo_inv : inv [] demo_queued.
Proof. exact (proj1 (cmd_run_inv _ _ _ (proj1 (allocated_inv _ demo_allocated)) demo_run)). Qed.
Lemma demo_head : head_ready demo_queued 0 [1%nat] (mk_body 0x16 20 0 0 1).
Proof. split_and!; [by vm_compute..|]. split; by vm_compute. Qed.

Lemma queue_operations_total_witness : ∃ l' a', run_op (OpExec MLAN_STATUS_SUCCESS) demo_queued = Some (l', a') ∧
    (∀ i, (i < MRVDRV_NUM_OF_CMD_BUFFER)%nat → place i [] a' = 1) ∧
    (∀ i, i ∈ waiting a' → node_at a' (waiting_node a') i).
Proof. apply (queue_operations_total demo_alloc [7%nat]); [exact demo_allocated|exact demo_run|exact Logic.I]. Defined.

Lemma requests_completed_once_witness : completed 7 demo_queued + owed 7 demo_queued = 1 ∧
  0 <= owed 7 demo_queued <= 1 ∧ (owed 7 demo_queued = 1 → is_Some (ioctls demo_queued !! 7%nat)).
Proof. apply (requests_completed_once demo_alloc [7%nat]); [exact demo_allocated|exact demo_run]. Defined.

(** The state once the first command is sent. *)
Definition demo_sent : mlan_adapter := after (OpExec MLAN_STATUS_SUCCESS) demo_queued.
Lemma demo_sent_run : cmd_run demo_alloc [7%nat] demo_sent.
Proof.
  apply (run_after demo_alloc [7%nat] demo_queued (OpExec MLAN_STATUS_SUCCESS) []); [exact demo_run|done|vm_compute; reflexivity].
Qed.
Lemma cancel_all_completes_everything_witness : curr_cmd demo_sent = Some 0%nat ∧
  ∃ a', wlan_cancel_all_pending_cmd false demo_sent = Some a' ∧ waiting a' = [] ∧ cmd_timer_is_set a' = false ∧
    curr_cmd a' = curr_cmd demo_sent ∧ cmd_free_q a' ++ opt_list (curr_cmd a') ≡ₚ seq 0 MRVDRV_NUM_OF_CMD_BUFFER ∧
    (∀ r, pwarm_reset_ioctl_req a' ≠ Some r → completed r a' = occ r [7%nat]) ∧
    (∀ i n, curr_cmd a' = Some i → nodes a' !! i = Some n → pioctl_buf n = None).
Proof.
  split; [vm_compute; reflexivity|].
  exact (cancel_all_completes_everything false demo_alloc [7%nat] demo_sent demo_allocated demo_sent_run).
Defined.

Definition demo_refusal : cmd_body := mk_body 0x8016 20 1 HostCmd_RESULT_PRE_ASLEEP 1.
Lemma preasleep_resend_witness : ∃ a1 a2 a3 n n2,
    wlan_exec_next_cmd MLAN_STATUS_SUCCESS demo_queued = Some (MLAN_STATUS_SUCCESS, a1) ∧
    wlan_process_cmdresp (plain_handler MLAN_STATUS_SUCCESS) (plain_handler MLAN_STATUS_SUCCESS)
      (plain_init MLAN_STATUS_SUCCESS) (recv_cmd_resp demo_refusal a1) = Some (MLAN_STATUS_FAILURE, a2) ∧
    wlan_exec_next_cmd MLAN_STATUS_SUCCESS a2 = Some (MLAN_STATUS_SUCCESS, a3) ∧
    nodes demo_queued !! 0%nat = Some n ∧ put_back n n2 ∧ cmd_pending_q a2 = [0%nat; 1%nat] ∧
    sends a3 = sends demo_queued ++ [(0%nat, 0x16, 24); (0%nat, 0x16, 24)].
Proof.
  destruct (preasleep_resend (plain_handler MLAN_STATUS_SUCCESS) (plain_handler MLAN_STATUS_SUCCESS)
    (plain_init MLAN_STATUS_SUCCESS) demo_queued 0 [1%nat] (mk_body 0x16 20 0 0 1) demo_refusal
    demo_inv demo_head ltac:(by vm_compute) ltac:(by vm_compute) ltac:(by split; vm_compute) ltac:(by split; vm_compute))
    as (a1 & a2 & a3 & n & n2 & n3 & E1 & E2 & E3 & Hn & _ & Hb & _ & Hq & _ & _ & _ & _ & _ & _ & _ & _ & _ & Hs).
  exists a1, a2, a3, n, n2. exact (conj E1 (conj E2 (conj E3 (conj Hn (conj Hb (conj Hq Hs)))))).
Defined.

Lemma exec_next_outcome_witness : ∃ a1, wlan_exec_next_cmd MLAN_STATUS_SUCCESS demo_queued = Some (MLAN_STATUS_SUCCESS, a1) ∧
  curr_cmd a1 = Some 0%nat ∧ tl (queues a1) = [[1%nat]; []; []] ∧ cmd_timer_is_set a1 = true ∧
  sends a1 = sends demo_queued ++ [(0%nat, 0x16, 24)].
Proof.
  destruct (exec_next_outcome demo_queued demo_inv) as (_ & _ & H).
  destruct (H 0%nat [1%nat] (mk_body 0x16 20 0 0 1) demo_head) as [H1 _]. exact H1.
Defined.


Lemma move_cmd_reference_witness : wlan_move_cmd_to_cmd_pending_q demo_queued =
  Some (set_ext_cmd_pending_q [] (set_cmd_pending_q (moved_order demo_queued) demo_queued)).
Proof. apply move_cmd_reference. exact demo_inv. Defined.

Lemma cancel_ioctl_completes_witness : ∃ a', wlan_cancel_pending_ioctl 7 true demo_queued = Some a' ∧
    completed 7 a' = completed 7 demo_queued + 1 ∧ owed 7 a' = 0 ∧ ioctls a' !! 7%nat = None ∧
    (∀ s, completed s a' + owed s a' = occ s [7%nat]).
Proof.
  apply (cancel_ioctl_completes demo_alloc [7%nat]);
    [exact demo_allocated|exact demo_run|reflexivity|vm_compute; by eexists|vm_compute; reflexivity].
Defined.
