(* ===== verification/ScanPlan.v ===== *)
(** * ScanPlan: splitting a channel list into scan commands

    [wlan_scan_channel_list] of src/mlan/mlan_scan.c: the channels to scan, an
    array that ends with channel number 0, are cut into the channel lists of
    several scan commands, blocked channels left out.  The commands go to
    [CmdQueue] as a [scan_plan].

    Reading past the end of the array is [None].  So is the one path whose
    memory contents the source leaves undefined: for channel 14 in Japan the
    channel TLV is moved, which overwrites the channels already in it (that takes
    a blocked channel right before channel 14). *)

From S2P Require Import Prelude CmdQueue CmdInv CmdSafe CmdResp.

(** ** Data *)

Definition BAND_2GHZ : Z := 0.
Definition BAND_5GHZ : Z := 1.
Definition BAND_G : Z := 2.
Definition BAND_A : Z := 4.
Definition COUNTRY_CODE_JP_40 : Z := 0x40.
Definition COUNTRY_CODE_JP_FF : Z := 0xff.
Definition NXP_CHANNEL_DISABLED : Z := Z.shiftl 1 7.
Definition MRVDRV_MAX_TOTAL_SCAN_TIME : Z := 10000 * 2 - 1000.
Definition MRVDRV_MAX_CHANNELS_PER_SCAN : Z := 38.
Definition MRVDRV_MAX_CHANNELS_PER_SPECIFIC_SCAN : Z := 4.
Definition MRVDRV_CHANNELS_PER_SCAN_CMD : Z := 4.
Definition WLAN_USER_SCAN_CHAN_MAX : nat := 50.
Definition MLAN_ERROR_CMD_SCAN_FAIL : Z := 0x8000000a.

Record ChanScanParamSet_t := mk_chan {
  chanBand : Z; chan_number : Z; passive_scan : bool; first_chan : bool;
  min_scan_time : Z; max_scan_time : Z
}.
Definition set_first_chan (x : bool) (c : ChanScanParamSet_t) : ChanScanParamSet_t :=
  mk_chan (chanBand c) (chan_number c) (passive_scan c) x (min_scan_time c) (max_scan_time c).

Record chan_freq_power_t := mk_cfp { channel : Z; cfp_flags : Z; blacklist : bool }.
Record region_chan_t := mk_region { band : Z; num_cfp : nat; pcfp : option (list chan_freq_power_t) }.
(** The regulatory part of the adapter. *)
Record regulatory := mk_reg { region_code : Z; region_channel : list region_chan_t }.

Definition radio_type_to_band (radio_type : Z) : Z := if radio_type =? BAND_5GHZ then BAND_A else BAND_G.

(** ** Blocked channels *)

(** The entry of [chan] in the first region table of [b]. *)
Definition find_cfp (rg : regulatory) (b chan : Z) : option chan_freq_power_t :=
  '(_, r) ← list_find (λ r, Is_true (negb (Z.land (band r) b =? 0))) (region_channel rg);
  t ← pcfp r;
  '(_, c) ← list_find (λ c, channel c = chan) (take (num_cfp r) t);
  Some c.
Definition wlan_is_chan_disabled (rg : regulatory) (b chan : Z) : bool :=
  match find_cfp rg b chan with
  | Some c => negb (Z.land (cfp_flags c) NXP_CHANNEL_DISABLED =? 0)
  | None => false
  end.
Definition wlan_is_chan_blacklisted (rg : regulatory) (b chan : Z) : bool :=
  match find_cfp rg b chan with Some c => blacklist c | None => false end.
Definition blocked (rg : regulatory) (c : ChanScanParamSet_t) : bool :=
  wlan_is_chan_blacklisted rg (radio_type_to_band (chanBand c)) (chan_number c)
  || wlan_is_chan_disabled rg (radio_type_to_band (chanBand c)) (chan_number c).

(** ** One scan command *)

Definition in_japan (rg : regulatory) : bool :=
  (region_code rg =? COUNTRY_CODE_JP_40) || (region_code rg =? COUNTRY_CODE_JP_FF).
(** Channels 1, 6 and 11, which get commands of their own. *)
Definition is_social (c : ChanScanParamSet_t) : bool :=
  (chan_number c =? 1) || (chan_number c =? 6) || (chan_number c =? 11).
Definition is_japan_14 (rg : regulatory) (c : ChanScanParamSet_t) : bool := in_japan rg && (chan_number c =? 14).

(** [done_early] after channel [c], when [nx] is the next one of the array. *)
Definition done_early (rg : regulatory) (a : mlan_adapter) (filtered : bool) (c nx : ChanScanParamSet_t) : bool :=
  let d := (negb filtered && is_social c) || is_japan_14 rg c || (negb filtered && is_social nx) || is_japan_14 rg nx in
  let d := if ext_scan a && ext_scan_enh a && (ext_scan_type a =? EXT_SCAN_ENHANCE) then false else d in
  d || negb (chanBand nx =? chanBand c).

(** The channels of a command, their total scan time, and the array that is left;
    or an error code. *)
Inductive chunk_result :=
| Chunk (cs : list ChanScanParamSet_t) (time : Z) (rest : list ChanScanParamSet_t)
| ChunkError (code : Z).

Definition chunk_add (c : ChanScanParamSet_t) (r : chunk_result) : chunk_result :=
  match r with Chunk cs t l => Chunk (c :: cs) (max_scan_time c + t) l | ChunkError e => ChunkError e end.

(** The inner loop.  [max] is the number of channels the command still has room
    for; [fresh] that it has none yet; [first] that no command has; [mem] the
    outcome of the allocation for channel 14 in Japan. *)
Fixpoint fill_chunk (rg : regulatory) (a : mlan_adapter) (filtered mem : bool) (max : nat)
    (fresh first dn : bool) (l : list ChanScanParamSet_t) : option chunk_result :=
  match max with
  | O => Some (Chunk [] 0 l)
  | S max' =>
      match l with
      | [] => None
      | c :: l' =>
          if (chan_number c =? 0) || dn then Some (Chunk [] 0 l)
          else if blocked rg c then fill_chunk rg a filtered mem max fresh first dn l'
          else
            let c := if first then set_first_chan true c else c in
            let move := is_japan_14 rg c && negb (ext_scan_type a =? EXT_SCAN_ENHANCE) in
            if move && negb mem then Some (ChunkError MLAN_ERROR_NO_MEM)
            else if move && negb fresh then None
            else
              match l' with
              | [] => None
              | nx :: _ =>
                  chunk_add c <$>
                    fill_chunk rg a filtered mem max' false false (done_early rg a filtered c nx) l'
              end
      end
  end.

(** ** The list of commands *)

(** The outer loop: the channel lists of the commands, and the error that ended
    it, or 0. *)
Fixpoint scan_chunks (rg : regulatory) (a : mlan_adapter) (filtered mem : bool) (max : nat) (fuel : nat)
    (first : bool) (l : list ChanScanParamSet_t) : option (list (list ChanScanParamSet_t) * Z) :=
  match l with
  | [] => None
  | c :: _ =>
      if chan_number c =? 0 then Some ([], MLAN_ERROR_NO_ERROR)
      else
        match fuel with
        | O => None
        | S fuel =>
            r ← fill_chunk rg a filtered mem max true first false l;
            match r with
            | ChunkError e => Some ([], e)
            | Chunk cs time rest =>
                if (time =? 0) || (time >? MRVDRV_MAX_TOTAL_SCAN_TIME) then Some ([], MLAN_ERROR_CMD_SCAN_FAIL)
                else
                  '(css, e) ← scan_chunks rg a filtered mem max fuel (first && bool_decide (cs = [])) rest;
                  Some (cs :: css, e)
            end
        end
  end.

(** [wlan_scan_channel_list] up to the preparation of the commands: the array is
    cut into channel lists. *)
Definition wlan_scan_channel_list (rg : regulatory) (a : mlan_adapter) (filtered mem : bool) (max : nat)
    (l : list ChanScanParamSet_t) : option (list (list ChanScanParamSet_t) * Z) :=
  match l with
  | [] => None
  | c :: _ =>
      if chan_number c =? 0 then Some ([], MLAN_ERROR_CMD_SCAN_FAIL)
      else scan_chunks rg a filtered mem max (length l) true l
  end.

(** The scan command for a channel list.  [tlvs] is the length of the other TLVs of
    the command, which depends on its channels: for channel 14 of Japan the rates are
    cut to those of 11b, and the HE capabilities are those of the band of the last
    channel.  [head] is the first word of the parameters of a plain scan command. *)
Definition scan_size (tlvs : list ChanScanParamSet_t → Z) (cs : list ChanScanParamSet_t) : Z :=
  tlvs cs + 4 + 7 * Z.of_nat (length cs).
Definition scan_command (a : mlan_adapter) (tlvs : list ChanScanParamSet_t → Z) (head : Z) (cs : list ChanScanParamSet_t) : cmd_source :=
  if ext_scan a then
    Encoded HostCmd_CMD_802_11_SCAN_EXT
      (Some (mk_body HostCmd_CMD_802_11_SCAN_EXT (u16 (4 + scan_size tlvs cs + 8)) 0 0
               (if ext_scan_enh a && (ext_scan_type a =? EXT_SCAN_ENHANCE) then EXT_SCAN_ENHANCE else EXT_SCAN_DEFAULT)))
  else
    Encoded HostCmd_CMD_802_11_SCAN
      (Some (mk_body HostCmd_CMD_802_11_SCAN (u16 (7 + scan_size tlvs cs + 8)) 0 0 head)).

(** The plan handed to the command queue. *)
Definition plan_of (a : mlan_adapter) (tlvs : list ChanScanParamSet_t → Z) (head : Z) (buf : bool) (r : list (list ChanScanParamSet_t) * Z) : scan_plan :=
  mk_plan (scan_command a tlvs head <$> fst r) (snd r =? MLAN_ERROR_NO_ERROR) buf.

(** ** What a command contains *)

(** The channels of the array, up to the terminator. *)
Fixpoint used (l : list ChanScanParamSet_t) : list ChanScanParamSet_t :=
  match l with [] => [] | c :: l => if chan_number c =? 0 then [] else c :: used l end.
Definition free_chans (rg : regulatory) (l : list ChanScanParamSet_t) : list ChanScanParamSet_t :=
  filter (λ c, blocked rg c = false) l.
(** The first channel of the scan is marked. *)
Definition mark (first : bool) (l : list ChanScanParamSet_t) : list ChanScanParamSet_t :=
  match l with [] => [] | c :: l => (if first then set_first_chan true c else c) :: l end.
Definition total_time (l : list ChanScanParamSet_t) : Z := zsum max_scan_time l.
Definition terminated (l : list ChanScanParamSet_t) : Prop := Exists (λ c, chan_number c = 0) l.

Lemma mark_false l : mark false l = l.
Proof. by destruct l. Qed.
Lemma total_time_mark f l : total_time (mark f l) = total_time l.
Proof. destruct l as [|c l]; [done|]. by destruct f. Qed.
Lemma length_mark f l : length (mark f l) = length l.
Proof. by destruct l. Qed.
Lemma free_cons_blocked rg c l : blocked rg c = true → free_chans rg (c :: l) = free_chans rg l.
Proof. intros E. unfold free_chans. rewrite filter_cons_False; [done|]. by rewrite E. Qed.
Lemma free_cons rg c l : blocked rg c = false → free_chans rg (c :: l) = c :: free_chans rg l.
Proof. intros E. unfold free_chans. by rewrite filter_cons_True. Qed.

(** A command takes the unblocked channels of a prefix of the array. *)
Lemma fill_chunk_spec rg a fl mem max fresh first dn l cs t rest :
  fill_chunk rg a fl mem max fresh first dn l = Some (Chunk cs t rest) →
  ∃ p, l = p ++ rest ∧ Forall (λ c, chan_number c ≠ 0) p ∧ cs = mark first (free_chans rg p) ∧
       (length cs <= max)%nat ∧ t = total_time cs ∧ (dn = true → p = []) ∧
       (dn = false → (0 < max)%nat → (∃ c l', l = c :: l' ∧ chan_number c ≠ 0) → p ≠ []).
Proof.
  revert max fresh first dn cs t rest.
  induction l as [|c l IH]; intros max fresh first dn cs t rest E; destruct max as [|max]; cbn in E; try done.
  - injection E as <- <- <-. exists []. split_and!; try done. lia.
  - injection E as <- <- <-. exists []. split_and!; try done. lia.
  - destruct (_ || dn) eqn:Ec.
    { injection E as <- <- <-. exists []. split_and!; try done; [cbn; lia|].
      intros -> _ (c' & l' & [= <- <-] & Hc). rewrite orb_false_r in Ec. by apply Z.eqb_eq in Ec. }
    apply orb_false_iff in Ec as [Ec Ed]. subst dn. apply Z.eqb_neq in Ec.
    destruct (blocked rg c) eqn:Eb.
    { destruct (IH (S max) fresh first false cs t rest E) as (p & -> & Hp & -> & Hl & -> & _ & _).
      exists (c :: p). rewrite free_cons_blocked by done. split_and!; try done. by constructor. }
    set (c' := if first then set_first_chan true c else c) in *.
    destruct (_ && negb mem); [done|]. destruct (_ && negb fresh); [done|].
    destruct l as [|nx l]; [done|]. destruct (fill_chunk _ _ _ _ max _ _ _ (nx :: l)) as [r|] eqn:Er; [|done].
    cbn in E. injection E as E. destruct r as [cs' t' l'|]; [|done]. cbn in E. injection E as <- <- <-.
    destruct (IH _ _ _ _ _ _ _ Er) as (p & -> & Hp & -> & Hl & -> & _ & _).
    exists (c :: p). rewrite free_cons by done. rewrite mark_false in *. cbn [mark]. split_and!; try done.
    + by constructor.
    + cbn. lia.
Qed.

(** What a planned command looks like. *)
Definition good_chunk (max : nat) (cs : list ChanScanParamSet_t) : Prop :=
  cs ≠ [] ∧ (length cs <= max)%nat ∧ 0 < total_time cs <= MRVDRV_MAX_TOTAL_SCAN_TIME.

Lemma used_app_nonzero p l : Forall (λ c, chan_number c ≠ 0) p → used (p ++ l) = p ++ used l.
Proof.
  induction 1 as [|c p Hc Hp IH]; [done|]. cbn. by rewrite (proj2 (Z.eqb_neq _ _) Hc), IH.
Qed.
Lemma free_app rg l1 l2 : free_chans rg (l1 ++ l2) = free_chans rg l1 ++ free_chans rg l2.
Proof. apply filter_app. Qed.
Lemma mark_app f l1 l2 : l1 ≠ [] → mark f (l1 ++ l2) = mark f l1 ++ l2.
Proof. by destruct l1. Qed.

(** Scan times are unsigned. *)
Definition valid_times (l : list ChanScanParamSet_t) : Prop := Forall (λ c, 0 <= max_scan_time c) l.

Lemma total_time_nonneg l : valid_times l → 0 <= total_time l.
Proof. induction 1; cbn; [done|]. unfold total_time in *. lia. Qed.
Lemma valid_free rg l : valid_times l → valid_times (free_chans rg l).
Proof. intros H. unfold free_chans, valid_times in *. rewrite !Forall_forall in *. intros c [_ Hc]%list_elem_of_filter. auto. Qed.

Lemma fill_chunk_error rg a fl mem max fresh first dn l e :
  fill_chunk rg a fl mem max fresh first dn l = Some (ChunkError e) → e = MLAN_ERROR_NO_MEM.
Proof.
  revert max fresh first dn. induction l as [|c l IH]; intros max fresh first dn E; destruct max as [|max]; cbn in E; try done.
  destruct (_ || dn); [done|]. destruct (blocked rg c); [by eapply IH|].
  destruct (_ && negb mem); [by injection E as <-|]. destruct (_ && negb fresh); [done|].
  destruct l as [|nx l]; [done|]. destruct (fill_chunk _ _ _ _ max _ _ _ (nx :: l)) as [r|] eqn:Er; [|done].
  cbn in E. injection E as E. destruct r; [done|]. cbn in E. injection E as <-. by eapply IH.
Qed.

Lemma valid_app l1 l2 : valid_times (l1 ++ l2) ↔ valid_times l1 ∧ valid_times l2.
Proof. apply Forall_app. Qed.

Lemma scan_chunks_good rg a fl mem max fuel first l css e : valid_times l →
  scan_chunks rg a fl mem max fuel first l = Some (css, e) →
  Forall (good_chunk max) css ∧ concat css `prefix_of` mark first (free_chans rg (used l)) ∧
  (e = MLAN_ERROR_NO_ERROR → concat css = mark first (free_chans rg (used l))).
Proof.
  revert first l css e. induction fuel as [|fuel IH]; intros first l css e Hv E; cbn [scan_chunks] in E;
    destruct l as [|c l]; try done; destruct (chan_number c =? 0) eqn:Ec; try done.
  1,2: injection E as <- <-; cbn [used]; rewrite Ec; split_and!; try done; apply prefix_nil.
  destruct (fill_chunk rg a fl mem max true first false (c :: l)) as [r|] eqn:Er; [|done]. cbn [mbind option_bind] in E.
  destruct r as [cs t rest|code].
  2:{ injection E as <- <-. rewrite (fill_chunk_error _ _ _ _ _ _ _ _ _ _ Er). split_and!; try done. apply prefix_nil. }
  destruct (fill_chunk_spec _ _ _ _ _ _ _ _ _ _ _ _ Er) as (p & El & Hp & Hcs & Hl & Ht & _).
  rewrite El in Hv |- *.
  destruct ((t =? 0) || (t >? MRVDRV_MAX_TOTAL_SCAN_TIME)) eqn:Et.
  { injection E as <- <-. split_and!; try done. apply prefix_nil. }
  apply orb_false_iff in Et as [Et1%Z.eqb_neq Et2]. rewrite Z.gtb_ltb in Et2. apply Z.ltb_ge in Et2.
  destruct (scan_chunks _ _ _ _ _ fuel _ rest) as [[css' e']|] eqn:E2; [|done]. cbn [mbind option_bind] in E.
  injection E as <- <-. apply valid_app in Hv as [Hv1 Hv2].
  destruct (IH _ _ _ _ Hv2 E2) as (IH1 & IH2 & IH3).
  assert (Hne : cs ≠ []) by (intros ->; by cbn in Ht).
  assert (Hf : first && bool_decide (cs = []) = false) by (rewrite bool_decide_eq_false_2 by done; apply andb_false_r).
  rewrite Hf, mark_false in *. rewrite used_app_nonzero, free_app by done.
  assert (Hfp : free_chans rg p ≠ []) by (intros E3; apply Hne; by rewrite Hcs, E3).
  rewrite mark_app, <- Hcs by done. cbn [concat]. split_and!.
  - constructor; [|done]. split_and!; [done|done| |by rewrite <- Ht].
    pose proof (total_time_nonneg _ (valid_free rg p Hv1)) as Hn. rewrite <- (total_time_mark first), <- Hcs, <- Ht in Hn. lia.
  - by apply prefix_app.
  - intros He. by rewrite IH3.
Qed.

(** ** The channel list is cut to the end *)

(** Channel 14 of Japan, which moves the channel TLV. *)
Definition moves (rg : regulatory) (a : mlan_adapter) (c : ChanScanParamSet_t) : bool :=
  is_japan_14 rg c && negb (ext_scan_type a =? EXT_SCAN_ENHANCE).
(** No channel TLV is moved under channels: outside Japan, in an enhanced scan,
    or when no channel is blocked. *)
Definition no_clobber (rg : regulatory) (a : mlan_adapter) (l : list ChanScanParamSet_t) : Prop :=
  (∀ c, moves rg a c = false) ∨ Forall (λ c, blocked rg c = false) l.

Lemma done_early_moves rg a fl c nx : moves rg a nx = true → done_early rg a fl c nx = true.
Proof.
  unfold moves, done_early. intros [-> Ht%negb_true_iff]%andb_true_iff. rewrite Ht, andb_false_r, orb_true_r. done.
Qed.
Lemma no_clobber_app rg a p l : no_clobber rg a (p ++ l) → no_clobber rg a l.
Proof. intros [|[_ ?]%Forall_app]; [by left|by right]. Qed.

Lemma fill_chunk_total rg a fl mem max fresh first dn l : terminated l → no_clobber rg a l →
  (fresh = true ∨ dn = true ∨ ∃ c l', l = c :: l' ∧ moves rg a c = false) →
  is_Some (fill_chunk rg a fl mem max fresh first dn l).
Proof.
  revert max fresh first dn. induction l as [|c l IH]; intros max fresh first dn Ht Hn Hf; [by apply Exists_nil in Ht|].
  destruct max as [|max]; cbn; [by eexists|].
  destruct (chan_number c =? 0) eqn:Ec; [by eexists|]. destruct dn; [by eexists|]. cbn [orb].
  assert (Htl : terminated l) by (apply Exists_cons in Ht as [E|]; [by rewrite E in Ec|done]).
  assert (Hnl : no_clobber rg a l) by (by apply (no_clobber_app _ _ [c])).
  destruct (blocked rg c) eqn:Eb.
  { destruct Hn as [Hn|Hn]; [|apply Forall_cons in Hn as [Hn _]; congruence].
    apply IH; [done|by left|]. right. right. destruct l as [|d l]; [by apply Exists_nil in Htl|]. eauto. }
  match goal with |- context [is_japan_14 rg ?x && _] => replace (is_japan_14 rg x) with (is_japan_14 rg c) by by destruct first end.
  fold (moves rg a c). destruct (moves rg a c && negb mem); [by eexists|].
  assert (E : moves rg a c && negb fresh = false).
  { destruct Hf as [->|[?|(c' & l' & [= <- <-] & ->)]]; [by rewrite andb_false_r|done|done]. }
  rewrite E. destruct l as [|nx l]; [by apply Exists_nil in Htl|]. apply fmap_is_Some, IH; [done|done|].
  right. destruct (moves rg a nx) eqn:Em; [left; apply done_early_moves; by destruct first|right; eauto].
Qed.

Lemma terminated_app p l : terminated (p ++ l) → Forall (λ c, chan_number c ≠ 0) p → terminated l.
Proof.
  intros [Hp|]%Exists_app Hz; [|done]. exfalso. apply Exists_exists in Hp as (c & Hc & E).
  rewrite Forall_forall in Hz. by apply (Hz c).
Qed.

Lemma scan_chunks_total rg a fl mem max fuel first l : (0 < max)%nat → (length l <= fuel)%nat → terminated l →
  no_clobber rg a l → is_Some (scan_chunks rg a fl mem max fuel first l).
Proof.
  intros Hm. revert first l. induction fuel as [|fuel IH]; intros first l Hl Ht Hn; cbn [scan_chunks];
    destruct l as [|c l]; try by apply Exists_nil in Ht.
  { cbn in Hl. lia. }
  destruct (chan_number c =? 0) eqn:Ec; [by eexists|]. apply Z.eqb_neq in Ec.
  destruct (fill_chunk_total rg a fl mem max true first false (c :: l)) as [r Er]; [done|done|by left|].
  rewrite Er. cbn [mbind option_bind]. destruct r as [cs t rest|]; [|by eexists].
  destruct (_ || _); [by eexists|].
  destruct (fill_chunk_spec _ _ _ _ _ _ _ _ _ _ _ _ Er) as (p & El & Hp & _ & _ & _ & _ & Hne).
  specialize (Hne eq_refl Hm ltac:(eauto)). rewrite El in *.
  destruct (IH (first && bool_decide (cs = [])) rest) as [[css e] ->]; [| | |by eexists].
  - rewrite length_app in Hl. destruct p; [done|]. cbn in Hl. lia.
  - by eapply terminated_app.
  - by eapply no_clobber_app.
Qed.

(** ** When the whole list is accepted *)

(** Scan times that keep every command within the limit. *)
Definition short_times (max : nat) (l : list ChanScanParamSet_t) : Prop :=
  Forall (λ c, 0 < max_scan_time c ∧ Z.of_nat max * max_scan_time c <= MRVDRV_MAX_TOTAL_SCAN_TIME) l.

Lemma short_total max l k : short_times max l → (length l <= k)%nat → (k <= max)%nat →
  Z.of_nat max * total_time l <= Z.of_nat k * MRVDRV_MAX_TOTAL_SCAN_TIME ∧ (l ≠ [] → 0 < total_time l).
Proof.
  intros Hs. revert k. induction Hs as [|c l [H1 H2] Hs IH]; intros k Hk Hm.
  { unfold total_time. cbn. split; [unfold MRVDRV_MAX_TOTAL_SCAN_TIME; lia|done]. }
  destruct k as [|k]; [cbn in Hk; lia|]. cbn in Hk. destruct (IH k ltac:(lia) ltac:(lia)) as [IH1 IH2].
  change (total_time (c :: l)) with (max_scan_time c + total_time l).
  rewrite Nat2Z.inj_succ, Z.mul_succ_l, Z.mul_add_distr_l. split; [lia|]. intros _.
  destruct l; [unfold total_time; cbn; lia|]. specialize (IH2 ltac:(done)). lia.
Qed.

(** A command without channels means that no unblocked channel is left. *)
Lemma fill_chunk_empty rg a fl mem max fresh first l t rest : (0 < max)%nat →
  fill_chunk rg a fl mem max fresh first false l = Some (Chunk [] t rest) → free_chans rg (used l) = [].
Proof.
  revert first. induction l as [|c l IH]; intros first Hm E; destruct max as [|max]; cbn in E; try lia; try done.
  cbn [used]. destruct (chan_number c =? 0); [done|]. cbn [orb] in E.
  destruct (blocked rg c) eqn:Eb; [rewrite free_cons_blocked by done; by eapply IH|].
  destruct (_ && negb mem); [done|]. destruct (_ && negb fresh); [done|]. destruct l as [|nx l]; [done|].
  destruct (fill_chunk _ _ _ _ max _ _ _ (nx :: l)) as [r|]; [|done]. cbn in E. injection E as E. by destruct r.
Qed.

(** The last channel is not blocked. *)
Definition ends_open (rg : regulatory) (l : list ChanScanParamSet_t) : Prop :=
  ∀ c, last l = Some c → blocked rg c = false.

Lemma ends_open_free rg l : ends_open rg l → free_chans rg l = [] → l = [].
Proof.
  intros Ho Hf. destruct l as [|c l] using rev_ind; [done|]. rewrite free_app, free_cons in Hf; [by destruct (free_chans rg l)|].
  apply Ho. apply last_snoc.
Qed.
Lemma ends_open_app rg p l : ends_open rg (p ++ l) → ends_open rg l.
Proof. intros Ho c Hc. apply Ho. by rewrite last_app, Hc. Qed.

Lemma fill_chunk_mem rg a fl max fresh first dn l e : fill_chunk rg a fl true max fresh first dn l ≠ Some (ChunkError e).
Proof.
  revert max fresh first dn. induction l as [|c l IH]; intros max fresh first dn; destruct max as [|max]; cbn; try done.
  destruct (_ || dn); [done|]. destruct (blocked rg c); [apply IH|]. rewrite andb_false_r.
  destruct (_ && negb fresh); [done|]. destruct l as [|nx l]; [done|]. intros E.
  destruct (fill_chunk _ _ _ _ max _ _ _ (nx :: l)) as [r|] eqn:Er; [|done]. cbn in E. injection E as E.
  destruct r; [done|]. cbn in E. injection E as ->. by apply (IH _ _ _ _ Er).
Qed.

Lemma scan_chunks_complete rg a fl max fuel first l css e : (0 < max)%nat → short_times max l →
  ends_open rg (used l) → scan_chunks rg a fl true max fuel first l = Some (css, e) → e = MLAN_ERROR_NO_ERROR.
Proof.
  intros Hm. revert first l css e. induction fuel as [|fuel IH]; intros first l css e Hs Ho E; cbn [scan_chunks] in E;
    destruct l as [|c l]; try done; destruct (chan_number c =? 0) eqn:Ec; try done; try by injection E as _ <-.
  destruct (fill_chunk rg a fl true max true first false (c :: l)) as [r|] eqn:Er; [|done]. cbn [mbind option_bind] in E.
  destruct r as [cs t rest|code]; [|by apply fill_chunk_mem in Er].
  destruct (fill_chunk_spec _ _ _ _ _ _ _ _ _ _ _ _ Er) as (p & El & Hp & Hcs & Hl & Ht & _).
  assert (Hne : cs ≠ []).
  { intros ->. pose proof (fill_chunk_empty _ _ _ _ _ _ _ _ _ _ Hm Er) as Hf. apply (ends_open_free _ _ Ho) in Hf.
    cbn [used] in Hf. by rewrite Ec in Hf. }
  rewrite El in Hs, Ho. rewrite used_app_nonzero in Ho by done. apply Forall_app in Hs as [Hs1 Hs2].
  assert (Hst : short_times max (free_chans rg p)).
  { unfold short_times, free_chans in *. rewrite !Forall_forall in *. intros d [_ Hd]%list_elem_of_filter. auto. }
  assert (Hlen : (length (free_chans rg p) <= max)%nat) by (rewrite Hcs, length_mark in Hl; done).
  destruct (short_total max _ max Hst Hlen (le_n _)) as [T1 T2].
  rewrite <- (total_time_mark first), <- Hcs, <- Ht in T1, T2.
  specialize (T2 ltac:(intros E3; apply Hne; by rewrite Hcs, E3)).
  assert (T3 : t <= MRVDRV_MAX_TOTAL_SCAN_TIME) by nia.
  rewrite (proj2 (Z.eqb_neq t 0)), Z.gtb_ltb, (proj2 (Z.ltb_ge _ _) T3) in E by lia. cbn [orb] in E.
  destruct (scan_chunks _ _ _ _ _ fuel _ rest) as [[css' e']|] eqn:E2; [|done]. cbn [mbind option_bind] in E.
  injection E as _ <-. eapply IH; [exact Hs2| |exact E2]. by eapply ends_open_app.
Qed.

(** ** Bands and social channels *)

Definition one_band (cs : list ChanScanParamSet_t) : Prop := ∃ b, Forall (λ c, chanBand c = b) cs.
(** Channels 1, 6 and 11 have a command of their own. *)
Definition social_alone (cs : list ChanScanParamSet_t) : Prop := ∀ c, c ∈ cs → is_social c = true → length cs = 1%nat.

Lemma done_early_band rg a fl c nx : done_early rg a fl c nx = false → chanBand nx = chanBand c.
Proof. unfold done_early. intros [_ E]%orb_false_iff. by apply negb_false_iff, Z.eqb_eq in E. Qed.
Definition enhanced (a : mlan_adapter) : bool := ext_scan a && ext_scan_enh a && (ext_scan_type a =? EXT_SCAN_ENHANCE).
Lemma done_early_social rg a c nx : enhanced a = false → done_early rg a false c nx = false →
  is_social c = false ∧ is_social nx = false.
Proof.
  unfold done_early, enhanced. intros ->. intros [[[[E1 E2]%orb_false_iff E3]%orb_false_iff E4]%orb_false_iff _]%orb_false_iff.
  done.
Qed.

(** One step of the inner loop on an unblocked channel. *)
Lemma fill_cons rg a fl mem max fresh first c l cs t rest : blocked rg c = false →
  fill_chunk rg a fl mem (S max) fresh first false (c :: l) = Some (Chunk cs t rest) → chan_number c ≠ 0 →
  ∃ nx l' cs' t', l = nx :: l' ∧ cs = (if first then set_first_chan true c else c) :: cs' ∧
    fill_chunk rg a fl mem max false false (done_early rg a fl c nx) l = Some (Chunk cs' t' rest).
Proof.
  intros Hb E Hc. cbn in E. rewrite (proj2 (Z.eqb_neq _ _) Hc), Hb in E. cbn [orb] in E.
  destruct (_ && negb mem); [done|]. destruct (_ && negb fresh); [done|]. destruct l as [|nx l]; [done|].
  destruct (fill_chunk _ _ _ _ max _ _ _ (nx :: l)) as [r|] eqn:Er; [|done]. cbn in E. injection E as E.
  destruct r as [cs' t' rest'|]; [|done]. cbn in E. injection E as <- <- <-.
  exists nx, l, cs', t'. split_and!; [done|done|]. rewrite <- Er. by destruct first.
Qed.

Lemma fill_stop rg a fl mem max fresh first l cs t rest :
  fill_chunk rg a fl mem max fresh first true l = Some (Chunk cs t rest) → cs = [].
Proof.
  intros E. destruct (fill_chunk_spec _ _ _ _ _ _ _ _ _ _ _ _ E) as (p & _ & _ & -> & _ & _ & Hp & _). by rewrite Hp.
Qed.
Lemma fill_end rg a fl mem max fresh first dn c l cs t rest : chan_number c = 0 →
  fill_chunk rg a fl mem max fresh first dn (c :: l) = Some (Chunk cs t rest) → cs = [].
Proof. intros Hc E. destruct max; cbn in E; rewrite ?Hc in E; cbn in E; by injection E as <-. Qed.

Lemma fill_one_band rg a fl mem b max fresh first dn l cs t rest : Forall (λ c, blocked rg c = false) l →
  (∀ c l', l = c :: l' → dn = false → chanBand c = b) →
  fill_chunk rg a fl mem max fresh first dn l = Some (Chunk cs t rest) → Forall (λ c, chanBand c = b) cs.
Proof.
  revert max fresh first dn cs t rest. induction l as [|c l IH]; intros max fresh first dn cs t rest Hu Hb E.
  { destruct max; cbn in E; [by injection E as <-|done]. }
  destruct max as [|max]; [cbn in E; by injection E as <-|]. destruct dn; [by rewrite (fill_stop _ _ _ _ _ _ _ _ _ _ _ E)|].
  destruct (decide (chan_number c = 0)) as [Hz|Hz]; [by rewrite (fill_end _ _ _ _ _ _ _ _ _ _ _ _ _ Hz E)|].
  apply Forall_cons in Hu as [Hu Hl].
  destruct (fill_cons _ _ _ _ _ _ _ _ _ _ _ _ Hu E Hz) as (nx & l' & cs' & t' & -> & -> & E').
  assert (Hcb : chanBand c = b) by (by eapply Hb). constructor; [by destruct first|].
  eapply IH; [done| |exact E']. intros d l2 [= <- <-] Hd. by rewrite (done_early_band _ _ _ _ _ Hd).
Qed.

Lemma fill_not_social rg a mem max first dn l cs t rest : enhanced a = false → Forall (λ c, blocked rg c = false) l →
  (dn = false → ∀ c l', l = c :: l' → is_social c = false) →
  fill_chunk rg a false mem max false first dn l = Some (Chunk cs t rest) → Forall (λ c, is_social c = false) cs.
Proof.
  intros He. revert max first dn cs t rest. induction l as [|c l IH]; intros max first dn cs t rest Hu Hb E.
  { destruct max; cbn in E; [by injection E as <-|done]. }
  destruct max as [|max]; [cbn in E; by injection E as <-|]. destruct dn; [by rewrite (fill_stop _ _ _ _ _ _ _ _ _ _ _ E)|].
  destruct (decide (chan_number c = 0)) as [Hz|Hz]; [by rewrite (fill_end _ _ _ _ _ _ _ _ _ _ _ _ _ Hz E)|].
  apply Forall_cons in Hu as [Hu Hl].
  destruct (fill_cons _ _ _ _ _ _ _ _ _ _ _ _ Hu E Hz) as (nx & l' & cs' & t' & -> & -> & E').
  constructor; [destruct first; exact (Hb eq_refl c _ eq_refl)|].
  eapply IH; [done| |exact E']. intros Hd d l2 [= <- <-]. by destruct (done_early_social _ _ _ _ He Hd).
Qed.

Lemma social_nil : social_alone [].
Proof. intros c Hc. by apply elem_of_nil in Hc. Qed.

Lemma fill_social_alone rg a mem max first l cs t rest : enhanced a = false → Forall (λ c, blocked rg c = false) l →
  fill_chunk rg a false mem max true first false l = Some (Chunk cs t rest) → social_alone cs.
Proof.
  intros He Hu E. destruct l as [|c l]; [destruct max; cbn in E; [injection E as <- _ _; apply social_nil|done]|].
  destruct max as [|max]; [cbn in E; injection E as <- _ _; apply social_nil|].
  destruct (decide (chan_number c = 0)) as [Hz|Hz]; [rewrite (fill_end _ _ _ _ _ _ _ _ _ _ _ _ _ Hz E); apply social_nil|].
  apply Forall_cons in Hu as [Hu Hl].
  destruct (fill_cons _ _ _ _ _ _ _ _ _ _ _ _ Hu E Hz) as (nx & l' & cs' & t' & -> & -> & E').
  intros d Hd Hs. destruct (done_early rg a false c nx) eqn:Ed; [by rewrite (fill_stop _ _ _ _ _ _ _ _ _ _ _ E')|].
  destruct (done_early_social _ _ _ _ He Ed) as [Hc Hnx]. exfalso.
  pose proof (fill_not_social _ _ _ _ _ _ _ _ _ _ He Hl (λ _ x y H, eq_ind nx (λ z, is_social z = false) Hnx x (f_equal (default nx ∘ head) H)) E') as Hns.
  apply elem_of_cons in Hd as [->|Hd]; [destruct first; change (is_social c = true) in Hs; congruence|].
  rewrite Forall_forall in Hns. by rewrite (Hns d Hd) in Hs.
Qed.

Lemma scan_chunks_shape rg a fl mem max fuel first l css e : Forall (λ c, blocked rg c = false) l →
  scan_chunks rg a fl mem max fuel first l = Some (css, e) →
  Forall one_band css ∧ (fl = false → enhanced a = false → Forall social_alone css).
Proof.
  revert first l css e. induction fuel as [|fuel IH]; intros first l css e Hu E; cbn [scan_chunks] in E;
    destruct l as [|c l]; try done; destruct (chan_number c =? 0); try done; try by (injection E as <- _; split).
  destruct (fill_chunk rg a fl mem max true first false (c :: l)) as [r|] eqn:Er; [|done]. cbn [mbind option_bind] in E.
  destruct r as [cs t rest|]; [|by (injection E as <- _; split)]. destruct (_ || _); [by (injection E as <- _; split)|].
  destruct (scan_chunks _ _ _ _ _ fuel _ rest) as [[css' e']|] eqn:E2; [|done]. cbn [mbind option_bind] in E.
  injection E as <- _. destruct (fill_chunk_spec _ _ _ _ _ _ _ _ _ _ _ _ Er) as (p & El & _).
  destruct (IH _ _ _ _ ltac:(rewrite El in Hu; by apply Forall_app in Hu as [_ ?]) E2) as [IH1 IH2]. split.
  - constructor; [|done]. exists (chanBand c). eapply fill_one_band; [exact Hu| |exact Er]. by intros ? ? [= <- <-].
  - intros -> He. constructor; [by eapply fill_social_alone|auto].
Qed.

(** ** The theorems *)

(** C39: The channel list is cut without loss, for an array that has a terminator (a full
    one has none, and is read past its end: [full_list_overrun]), with room for a
    channel per command, scan times that are not negative, and where channel 14 of Japan
    cannot move the channel TLV under channels already in it (outside Japan, in an
    enhanced scan, or with no channel blocked: [no_clobber]): the loops stop,
    every command gets at least one and at most [max] channels with a total time
    within the limit, and the channel lists, put one after the other, are the
    reference: the unblocked channels of the array in their order, the first one
    marked.  When the loop ends with an error, they are a first part of it; it does
    not when the scan times fit, memory is there and the last channel is not blocked. *)
Theorem channel_list_reference rg a fl mem max l :
  (0 < max)%nat → terminated l → no_clobber rg a l → valid_times l → used l ≠ [] →
  ∃ css e, wlan_scan_channel_list rg a fl mem max l = Some (css, e) ∧ Forall (good_chunk max) css ∧
    concat css `prefix_of` mark true (free_chans rg (used l)) ∧
    (e = MLAN_ERROR_NO_ERROR → concat css = mark true (free_chans rg (used l))) ∧
    (mem = true → short_times max l → ends_open rg (used l) → e = MLAN_ERROR_NO_ERROR).
Proof.
  intros Hm Ht Hn Hv Hu. unfold wlan_scan_channel_list. destruct l as [|c l]; [done|]. cbn [used] in Hu.
  destruct (chan_number c =? 0) eqn:Ec; [done|]. set (l0 := c :: l) in *.
  destruct (scan_chunks_total rg a fl mem max (length l0) true l0 Hm (le_n _) Ht Hn) as [[css e] E].
  exists css, e. destruct (scan_chunks_good _ _ _ _ _ _ _ _ _ _ Hv E) as (G1 & G2 & G3). split_and!; try done.
  intros -> Hs Ho. by apply (scan_chunks_complete _ _ _ _ _ _ _ _ _ Hm Hs Ho E).
Qed.

(** With no channel blocked every command stays within one band, and in an
    unfiltered scan that is not enhanced the channels 1, 6 and 11 are scanned by
    commands of their own. *)
Theorem channel_list_shape rg a fl mem max l css e : Forall (λ c, blocked rg c = false) l →
  wlan_scan_channel_list rg a fl mem max l = Some (css, e) →
  Forall one_band css ∧ (fl = false → enhanced a = false → Forall social_alone css).
Proof.
  intros Hu. unfold wlan_scan_channel_list. destruct l as [|c l]; [done|].
  destruct (chan_number c =? 0); [intros [= <- _]; by split|]. by apply scan_chunks_shape.
Qed.

(** ** Examples *)

Definition demo_chan (b no : Z) : ChanScanParamSet_t := mk_chan b no false false 100 100.
Definition demo_end : ChanScanParamSet_t := mk_chan 0 0 false false 0 0.
(** Channel 12 is disabled, channel 149 blacklisted. *)
Definition demo_reg : regulatory :=
  mk_reg 0x10 [mk_region 2 3 (Some [mk_cfp 1 0 false; mk_cfp 12 0x80 false; mk_cfp 14 0 false]);
               mk_region 4 2 (Some [mk_cfp 36 0 false; mk_cfp 149 0 true])].
Definition demo_scan_adapter : mlan_adapter := fresh_adapter false 4 [].
Definition demo_channels : list ChanScanParamSet_t :=
  [demo_chan 0 1; demo_chan 0 12; demo_chan 0 5; demo_chan 1 36; demo_chan 1 40; demo_end].

Lemma demo_plan : wlan_scan_channel_list demo_reg demo_scan_adapter false true 4 demo_channels =
  Some ([[set_first_chan true (demo_chan 0 1)]; [demo_chan 0 5]; [demo_chan 1 36; demo_chan 1 40]], 0).
Proof. reflexivity. Qed.

(** A blocked channel between two bands: the command mixes the bands. *)
Lemma blocked_mixes_bands : wlan_scan_channel_list demo_reg demo_scan_adapter false true 4
    [demo_chan 0 5; demo_chan 0 12; demo_chan 1 36; demo_end] =
  Some ([[set_first_chan true (demo_chan 0 5); demo_chan 1 36]], 0).
Proof. reflexivity. Qed.
(** Blocked channels after a complete command: the whole scan fails, with its
    first commands already queued. *)
Lemma blocked_tail_fails : wlan_scan_channel_list demo_reg demo_scan_adapter false true 4
    [demo_chan 0 1; demo_chan 1 149; demo_end] =
  Some ([[set_first_chan true (demo_chan 0 1)]], MLAN_ERROR_CMD_SCAN_FAIL).
Proof. reflexivity. Qed.
(** An array that is full, without a terminator, is read past its end. *)
Lemma full_list_overrun : wlan_scan_channel_list demo_reg demo_scan_adapter false true 4
    (replicate WLAN_USER_SCAN_CHAN_MAX (demo_chan 0 5)) = None.
Proof. reflexivity. Qed.

Lemma channel_list_reference_witness : ∃ css e,
    wlan_scan_channel_list demo_reg demo_scan_adapter false true 4 demo_channels = Some (css, e) ∧
    Forall (good_chunk 4) css ∧ concat css `prefix_of` mark true (free_chans demo_reg (used demo_channels)) ∧
    (e = MLAN_ERROR_NO_ERROR → concat css = mark true (free_chans demo_reg (used demo_channels))) ∧
    (true = true → short_times 4 demo_channels → ends_open demo_reg (used demo_channels) → e = MLAN_ERROR_NO_ERROR).
Proof.
  apply channel_list_reference; [lia|do 5 right; by left| |by repeat constructor|done].
  left. intros c. by unfold moves, is_japan_14.
Defined.

Definition demo_open : list ChanScanParamSet_t := [demo_chan 0 1; demo_chan 0 5; demo_chan 1 36; demo_end].
Lemma channel_list_shape_witness :
  Forall one_band [[set_first_chan true (demo_chan 0 1)]; [demo_chan 0 5]; [demo_chan 1 36]] ∧
  (false = false → enhanced demo_scan_adapter = false →
   Forall social_alone [[set_first_chan true (demo_chan 0 1)]; [demo_chan 0 5]; [demo_chan 1 36]]).
Proof.
  apply (channel_list_shape demo_reg demo_scan_adapter false true 4 demo_open _ 0); [by repeat constructor|reflexivity].
Defined.
