(* ===== verification/ScanQueue.v ===== *)
(** * ScanQueue: from a channel list to the command queue

    The composition of [ScanPlan] and [CmdQueue]: starting a scan puts its
    commands into the queues, the first one ready to be sent and the others in
    order behind it. *)

From S2P Require Import Prelude CmdQueue CmdInv CmdSafe CmdResp CmdCancel CmdRun CmdFlow ScanPlan.

(** ** Preparing one scan command *)

Definition scan_node (a : mlan_adapter) (priv : nat) (no : Z) (b : cmd_body) : cmd_ctrl_node :=
  fresh_node a priv no CMD_F_SCAN None None b None.

(** A scan command that is not a cancellation. *)
Definition scan_cmd (c : cmd_source) (no : Z) (b : cmd_body) : Prop :=
  c = Encoded no (Some b) ∧
  (no = HostCmd_CMD_802_11_SCAN ∨ no = HostCmd_CMD_802_11_SCAN_EXT ∧ body_ext_scan_type b ≠ EXT_SCAN_CANCEL).

(** The card can take commands. *)
Definition ready (a : mlan_adapter) (buf : bool) : Prop :=
  surprise_removed a = false ∧ hw_status a = WlanHardwareStatusReady ∧ (usb a = true → buf = true).

Lemma prepare_scan_eq priv c no b buf n i q a : cmd_free_q a = i :: q → nodes a !! i = Some n → clean_node n →
  ready a buf → scan_cmd c no b →
  wlan_prepare_cmd priv c HostCmd_ACT_GEN_SET None None buf a =
  Some (MLAN_STATUS_SUCCESS, set_scan_pending_q (scan_pending_q a ++ [i])
          (put_node i (scan_node a priv no b) (set_num_no_cmd_node 0 (set_cmd_free_q q a)))).
Proof.
  intros Hq Hn (C1 & C2 & C3) (R1 & R2 & R3) (-> & Hno). unfold wlan_prepare_cmd. rewrite R1, R2.
  cbn [bool_decide negb andb source_no]. unfold wlan_get_cmd_node. rewrite Hq.
  set (a1 := set_num_no_cmd_node 0 (set_cmd_free_q q a)).
  assert (Hn1 : nodes a1 !! i = Some n) by done.
  rewrite (init_node_eq _ _ _ _ _ _ n) by done. rewrite C2, C3.
  rewrite (put_node_lookup i n) by done. cbn [mbind option_bind cmdbuf fresh_node prepare_body].
  assert (H0 : (no =? 0) = false) by (by destruct Hno as [->|[-> _]]).
  rewrite H0, (upd_put _ _ _ n) by done. unfold queue_prepared. cbn [prepared_no].
  assert (H1 : (no =? HostCmd_CMD_802_11_SCAN) || (no =? HostCmd_CMD_802_11_SCAN_EXT) = true)
    by (by destruct Hno as [->|[-> _]]).
  rewrite H1.
  assert (H2 : (no =? HostCmd_CMD_802_11_SCAN_EXT) && wlan_is_cancel_scan_cmd b = false).
  { destruct Hno as [->|[-> Hb]]; [done|]. unfold wlan_is_cancel_scan_cmd. by rewrite (proj2 (Z.eqb_neq _ _) Hb). }
  match goal with |- context [if ?t then wlan_insert_cmd_to_pending_q _ false _ else _] => assert (Ht : t = false) end.
  { destruct (no =? HostCmd_CMD_802_11_SCAN_EXT); [|done]. cbn [andb] in H2. rewrite H2. apply andb_false_r. }
  rewrite Ht. cbn [mbind option_bind]. unfold wlan_queue_scan_cmd. by rewrite (upd_put _ _ _ n).
Qed.

(** ** Preparing all of them *)

Definition scan_cmds (l : list cmd_source) (bs : list cmd_body) : Prop :=
  Forall2 (λ c b, ∃ no, scan_cmd c no b) l bs.

Lemma node_cmd_nodes a a' i : nodes a' !! i = nodes a !! i → node_cmd a' i = node_cmd a i.
Proof. intros E. unfold node_cmd. by rewrite E. Qed.

(** What preparing scan commands leaves alone. *)
Definition scan_frame (a a' : mlan_adapter) : Prop :=
  cmd_pending_q a' = cmd_pending_q a ∧ ext_cmd_pending_q a' = ext_cmd_pending_q a ∧ curr_cmd a' = curr_cmd a ∧
  pscan_ioctl_req a' = pscan_ioctl_req a ∧ ps_state a' = ps_state a ∧ privs a' = privs a ∧
  ext_scan a' = ext_scan a ∧ ext_scan_enh a' = ext_scan_enh a ∧ ext_scan_type a' = ext_scan_type a.

Lemma prepare_scans_eq priv l bs buf a : inv [] a → is_Some (priv_at a priv) → ready a buf → scan_cmds l bs →
  (length l <= length (cmd_free_q a))%nat →
  ∃ a', prepare_scans priv l buf a = Some (MLAN_STATUS_SUCCESS, a') ∧ inv [] a' ∧ scan_frame a a' ∧
    scan_pending_q a' = scan_pending_q a ++ take (length l) (cmd_free_q a) ∧
    cmd_free_q a' = drop (length l) (cmd_free_q a) ∧
    Forall2 (λ i b, node_cmd a' i = Some b) (take (length l) (cmd_free_q a)) bs ∧
    (∀ i, i ∉ cmd_free_q a → nodes a' !! i = nodes a !! i).
Proof.
  intros I Hp Hr Hl. revert a I Hp Hr. induction Hl as [|c b l bs (no & Hc) Hl IH]; intros a I Hp Hr Hlen.
  { exists a. cbn. rewrite app_nil_r. by split_and!. }
  cbn [length] in Hlen. destruct (cmd_free_q a) as [|i q] eqn:Hq; [cbn in Hlen; lia|]. cbn [length] in Hlen.
  pose proof I as (_ & _ & I3 & _). destruct (I3 i) as (n & Hn & Hclean); [rewrite Hq; by left|].
  cbn [prepare_scans]. pose proof (prepare_scan_eq priv c no b buf n i q a Hq Hn Hclean Hr Hc) as E.
  set (a1 := set_scan_pending_q _ _) in E.
  destruct (wlan_prepare_cmd_ok [] priv c HostCmd_ACT_GEN_SET None None buf a I Hp) as (ret & a1' & E' & I1 & _);
    [by apply Hr|done|]. rewrite E in E'. injection E' as <- <-. fold a1 in I1.
  rewrite E. cbn [mbind option_bind]. rewrite bool_decide_eq_true_2 by done.
  destruct (IH a1 I1 Hp Hr ltac:(cbn; lia)) as (a' & -> & I' & F & Es & Ef & Hb & Hrest).
  change (cmd_free_q a1) with q in *. exists a'. split; [done|]. split; [done|]. split; [done|].
  cbn [length take drop]. split; [rewrite Es; cbn; by rewrite <- app_assoc|]. split; [done|].
  assert (Hni : i ∉ q).
  { pose proof I1 as (J1 & _). specialize (J1 i). unfold place in J1. cbn [cmd_free_q scan_pending_q a1 set_scan_pending_q
      put_node set_nodes set_num_no_cmd_node set_cmd_free_q] in J1.
    rewrite occ_app in J1. cbn [occ] in J1. rewrite (decide_True (P := i = i)) in J1 by done.
    pose proof (place_parts i [] a1) as (? & ? & ? & ? & ? & ?). pose proof (occ_nonneg i (scan_pending_q a)).
    intros Hi%occ_elem. change (cmd_free_q a1) with q in *.
    change (cmd_pending_q a1) with (cmd_pending_q a) in *. change (ext_cmd_pending_q a1) with (ext_cmd_pending_q a) in *.
    change (curr_cmd a1) with (curr_cmd a) in *. case_decide; lia. }
  split.
  - constructor; [|done]. rewrite (node_cmd_nodes a1 a') by (by apply Hrest).
    unfold node_cmd. change (nodes a1) with (nodes (put_node i (scan_node a priv no b) a)).
    by rewrite (put_node_lookup i n).
  - intros j Hj. rewrite Hrest by (intros Hj'; apply Hj; by right). 
    apply (put_node_ne i j (scan_node a priv no b) a). intros ->. apply Hj. by left.
Qed.

(** ** Starting a scan *)

(** The commands of a plan made from channel lists. *)
Lemma plan_scan_cmds a tlvs head css : ∃ bs,
  scan_cmds (scan_command a tlvs head <$> css) bs ∧ length bs = length css ∧
  ∀ k cs, css !! k = Some cs → ∃ no b, bs !! k = Some b ∧ scan_command a tlvs head cs = Encoded no (Some b) ∧
    command b = no ∧ no ≠ HostCmd_CMD_802_11_PS_MODE_ENH.
Proof.
  induction css as [|cs css (bs & H1 & H2 & H3)]; [exists []; split; [constructor|by split]|].
  assert (Hc : ∃ no b, scan_command a tlvs head cs = Encoded no (Some b) ∧ scan_cmd (scan_command a tlvs head cs) no b ∧
                       command b = no ∧ no ≠ HostCmd_CMD_802_11_PS_MODE_ENH).
  { unfold scan_command. destruct (ext_scan a); do 2 eexists; (split; [done|]); (split; [|done]); (split; [done|]);
      [right; split; [done|]|by left].
    unfold body_ext_scan_type. cbn. by destruct (ext_scan_enh a && _). }
  destruct Hc as (no & b & E & Hc & Hb & Hne). exists (b :: bs). split_and!.
  - constructor; [by exists no|done].
  - cbn. by rewrite H2.
  - intros [|k] cs' Hk; cbn in Hk; [injection Hk as <-; by exists no, b|by apply H3].
Qed.

(** A scan without error has a command. *)
Lemma channel_list_nonempty rg a fl mem max l css :
  wlan_scan_channel_list rg a fl mem max l = Some (css, MLAN_ERROR_NO_ERROR) → css ≠ [].
Proof.
  unfold wlan_scan_channel_list. destruct l as [|c l]; [done|]. destruct (chan_number c =? 0) eqn:Ec; [done|].
  cbn [length scan_chunks]. rewrite Ec. destruct (fill_chunk _ _ _ _ _ _ _ _ _) as [r|] eqn:Er; [|done].
  cbn [mbind option_bind]. destruct r as [cs t rest|e].
  - destruct (_ || _); [done|]. destruct (scan_chunks _ _ _ _ _ _ _ rest) as [[css' e']|]; [|done].
    cbn [mbind option_bind]. by intros [= <- _].
  - intros [= _ ->]. by apply fill_chunk_error in Er.
Qed.

(** C18: A scan is queued completely and in order: with the card ready, no other scan
    under way and enough free command nodes, the scan of a channel list cut into
    [css] succeeds; its first command is at the end of the pending queue, the
    others wait in the scan queue, and command by command they are the scan
    commands of the channel lists; the request waits for the end of the scan. *)
Theorem scan_queued_in_order a priv buf tlvs hd rg fl mem max l css r :
  inv [] a → is_Some (priv_at a priv) → ready a buf → scan_pending_q a = [] →
  wlan_scan_channel_list rg a fl mem max l = Some (css, MLAN_ERROR_NO_ERROR) →
  (length css <= length (cmd_free_q a))%nat →
  ∃ a' i q, wlan_scan_networks priv (plan_of a tlvs hd buf (css, MLAN_ERROR_NO_ERROR)) r a = Some (MLAN_STATUS_SUCCESS, a') ∧
    cmd_pending_q a' = cmd_pending_q a ++ [i] ∧ scan_pending_q a' = q ∧
    Forall2 (λ j cs, ∃ no b, node_cmd a' j = Some b ∧ scan_command a tlvs hd cs = Encoded no (Some b)) (i :: q) css ∧
    pscan_ioctl_req a' = r ∧ scan_processing a' = true.
Proof.
  intros I Hp Hr Hs Hne%channel_list_nonempty Hlen. unfold wlan_scan_networks, plan_of. cbn [fst snd plan_cmds plan_ok plan_buf].
  destruct (plan_scan_cmds a tlvs hd css) as (bs & Hbs & Lbs & Hk).
  destruct (prepare_scans_eq priv _ bs buf a I Hp Hr Hbs) as (a1 & -> & I1 & F & Es & _ & Hb & _); [by rewrite length_fmap|].
  rewrite length_fmap in Es, Hb. rewrite Hs in Es. cbn [app] in Es.
  cbn [mbind option_bind]. rewrite bool_decide_eq_true_2 by done. cbn [andb Z.eqb].
  set (ids := take (length css) (cmd_free_q a)) in *.
  assert (Lids : length ids = length css) by (unfold ids; rewrite length_take; lia).
  assert (H2 : Forall2 (λ j cs, ∃ no b, node_cmd a1 j = Some b ∧ scan_command a tlvs hd cs = Encoded no (Some b) ∧
                          command b = no ∧ no ≠ HostCmd_CMD_802_11_PS_MODE_ENH) ids css).
  { apply Forall2_same_length_lookup_2; [done|]. intros k j cs Hj Hcs. destruct (Hk k cs Hcs) as (no & b & Hbk & E & Hc & Hps).
    exists no, b. split_and!; try done. exact (Forall2_lookup_lr _ _ _ _ _ _ Hb Hj Hbk). }
  destruct css as [|cs css]; [done|]. destruct ids as [|i q]; [done|].
  unfold scan_start. rewrite Es. apply Forall2_cons in H2 as [(no & b & Hi & E & Hc & Hps) H2].
  unfold wlan_insert_cmd_to_pending_q.
  match goal with |- context [node_cmd ?s i] => change (node_cmd s i) with (node_cmd a1 i) end.
  rewrite Hi. cbn [mbind option_bind]. rewrite Hc, (proj2 (Z.eqb_neq _ _) Hps). cbn [andb].
  destruct F as (F1 & _). eexists _, i, q. split; [reflexivity|]. cbn. rewrite F1. split_and!; try done.
  constructor; [by exists no, b|]. eapply Forall2_impl; [exact H2|]. intros j d (no' & b' & ? & ? & _). by exists no', b'.
Qed.

(** Six bytes fewer for the commands of the first band. *)
Definition demo_tlvs (cs : list ChanScanParamSet_t) : Z := match cs with c :: _ => if chanBand c =? 0 then 24 else 30 | [] => 30 end.
Lemma scan_queued_in_order_witness : ∃ a' i q,
    wlan_scan_networks 0 (plan_of demo_alloc demo_tlvs 0 true
      ([[set_first_chan true (demo_chan 0 1)]; [demo_chan 0 5]; [demo_chan 1 36; demo_chan 1 40]], MLAN_ERROR_NO_ERROR))
      None demo_alloc = Some (MLAN_STATUS_SUCCESS, a') ∧
    cmd_pending_q a' = cmd_pending_q demo_alloc ++ [i] ∧ scan_pending_q a' = q ∧
    Forall2 (λ j cs, ∃ no b, node_cmd a' j = Some b ∧ scan_command demo_alloc demo_tlvs 0 cs = Encoded no (Some b)) (i :: q)
      [[set_first_chan true (demo_chan 0 1)]; [demo_chan 0 5]; [demo_chan 1 36; demo_chan 1 40]] ∧
    pscan_ioctl_req a' = None ∧ scan_processing a' = true.
Proof.
  apply (scan_queued_in_order demo_alloc 0 true demo_tlvs 0 demo_reg false true 4 demo_channels).
  - exact (proj1 (allocated_inv _ demo_allocated)).
  - vm_compute. by eexists.
  - split_and!; vm_compute; done.
  - vm_compute. reflexivity.
  - vm_compute. reflexivity.
  - vm_compute. lia.
Defined.
