(* ===== verification/MainProc.v ===== *)
(** * MainProc: who runs the main process and the receive process

    [mlan_main_process] and [mlan_rx_process] (src/mlan/mlan_shim.c) are called
    from interrupts, work queues, NAPI and ioctls at once.  Both admit one runner
    with the same protocol of three flags under a spin lock: a call that finds a
    runner leaves a mark, and the runner does not leave while there is a mark.

    The protocol is a transition system over any number of threads, with the work
    to be done as a parameter; the receive process is an instance here, the main
    process is one in [MainRun], and the bounded receive loop of NAPI is a function
    of its own.  Everything done under the lock is one step.

    Not modelled: the packet handler itself ([ops.handle_rx_packet]; the reorder
    window it leads to is RxReorder), the resume of a paused main process by the
    receive process, and the debugging drop point of the receive loop. *)

From S2P Require Import Prelude.

(** ** The flags *)

(** [mlan_processing], [more_task_flag] and [main_lock_flag]; or
    [mlan_rx_processing], [more_rx_task_flag] and [rx_lock_flag]. *)
Record flags := mk_flags { processing : bool; more : bool; locked : bool }.

(** The entry of [mlan_main_process] and [mlan_rx_process]: whether the caller
    runs. *)
Definition enter (f : flags) : bool * flags :=
  if processing f || locked f then (false, mk_flags (processing f) true (locked f))
  else (true, mk_flags true (more f) (locked f)).
(** Their end: whether to start again. *)
Definition leave (f : flags) : bool * flags :=
  if more f then (true, mk_flags (processing f) false (locked f))
  else (false, mk_flags false (more f) (locked f)).
(** [mlan_queue_main_work], [mlan_queue_rx_work] and
    [mlan_is_main_process_running]: leave a mark, or tell that the work must be
    scheduled. *)
Definition queue_work (f : flags) : bool * flags :=
  if processing f then (false, mk_flags (processing f) true (locked f)) else (true, f).
(** [mlan_block_main_process], [mlan_block_rx_process]: whether to wait for the
    runner. *)
Definition block (b : bool) (f : flags) : bool * flags :=
  (b && processing f, mk_flags (processing f) (more f) b).

(** ** The protocol *)

(** Where a thread is: about to call the process (its work is posted), in the
    body, or about to take the lock at the end. *)
Inductive pc := Calling | Running | Leaving.

Section runner.
(** The work: [post w w'] adds some, [body l w fin w'] is a step of the loop with
    the lock flag [l], which ends with [fin]; [quiescent] that none is left. *)
Context {W : Type} (post : W → W → Prop) (body : bool → W → bool → W → Prop) (quiescent : W → Prop).

(** Work comes with a call of the process, with its deferral, or, when it leaves
    nothing to do that was not there before, without either. *)
Record sys := mk_sys { fl : flags; pcs : gmap nat pc; work : W; was_locked : bool }.

Inductive step : sys → sys → Prop :=
| step_post s t w : pcs s !! t = None → post (work s) w →
    step s (mk_sys (fl s) (<[t := Calling]> (pcs s)) w (was_locked s))
| step_defer s t w : pcs s !! t = None → post (work s) w →
    step s (mk_sys (snd (queue_work (fl s)))
              (if fst (queue_work (fl s)) then <[t := Calling]> (pcs s) else pcs s) w (was_locked s))
| step_enter s t : pcs s !! t = Some Calling →
    step s (mk_sys (snd (enter (fl s)))
              (if fst (enter (fl s)) then <[t := Running]> (pcs s) else delete t (pcs s)) (work s) (was_locked s))
| step_body s t fin w : pcs s !! t = Some Running → body (locked (fl s)) (work s) fin w →
    step s (mk_sys (fl s) (<[t := if fin then Leaving else Running]> (pcs s)) w (was_locked s))
| step_leave s t : pcs s !! t = Some Leaving →
    step s (mk_sys (snd (leave (fl s)))
              (if fst (leave (fl s)) then <[t := Running]> (pcs s) else delete t (pcs s)) (work s) (was_locked s))
| step_silent s w : post (work s) w → (quiescent (work s) → quiescent w) →
    step s (mk_sys (fl s) (pcs s) w (was_locked s))
| step_block s b : step s (mk_sys (snd (block b (fl s))) (pcs s) (work s) (was_locked s || b)).

(** Nobody runs, nothing is marked. *)
Definition initial (w : W) : sys := mk_sys (mk_flags false false false) ∅ w false.
Definition reachable (w : W) (s : sys) : Prop := rtc step (initial w) s.

(** The threads in the body or at its end. *)
Definition inside (m : gmap nat pc) (t : nat) : Prop := m !! t = Some Running ∨ m !! t = Some Leaving.

(** At most one thread is inside, and the flag says whether there is one. *)
Definition exclusive (s : sys) : Prop :=
  ∃ o : option nat, processing (fl s) = bool_decide (is_Some o) ∧ ∀ t, inside (pcs s) t ↔ o = Some t.

Lemma inside_insert_out m t u : ¬ inside m t → inside (<[t := Calling]> m) u ↔ inside m u.
Proof.
  intros Ht. unfold inside. destruct (decide (u = t)) as [->|]; simplify_map_eq; [|done].
  split; [by intros [?|?]|]. intros H. by destruct Ht.
Qed.
Lemma inside_insert m t p u : p ≠ Calling → inside (<[t := p]> m) u ↔ u = t ∨ inside m u.
Proof.
  intros Hp. unfold inside. destruct (decide (u = t)) as [->|Hne].
  - rewrite lookup_insert_eq. split; [auto|]. intros _. destruct p; auto; done.
  - rewrite lookup_insert_ne by done. split; [auto|]. intros [->|?]; done.
Qed.
Lemma inside_delete m t u : inside (delete t m) u ↔ u ≠ t ∧ inside m u.
Proof.
  unfold inside. destruct (decide (u = t)) as [->|Hne].
  - rewrite lookup_delete_eq. split; [by intros [?|?]|by intros [? _]].
  - rewrite lookup_delete_ne by done. tauto.
Qed.
Lemma calling_not_inside m t : m !! t = Some Calling → ¬ inside m t.
Proof. intros E [E'|E']; congruence. Qed.

Lemma exclusive_step s s' : exclusive s → step s s' → exclusive s'.
Proof.
  intros (o & Eo & Ho) S. destruct S as [s t w Ht Hw|s t w Ht Hw|s t Ht|s t fin w Ht Hw|s t Ht|s w Hw Hq|s b]; unfold exclusive; cbn.
  - exists o. split; [done|]. intros u. rewrite inside_insert_out; [done|]. intros [?|?]; congruence.
  - unfold queue_work. destruct (processing (fl s)) eqn:Ep; cbn; [by exists o|]. exists o. rewrite Ep. split; [done|].
    intros u. rewrite inside_insert_out; [done|]. intros [?|?]; congruence.
  - pose proof (calling_not_inside _ _ Ht) as Hn. unfold enter. destruct (processing (fl s)) eqn:Ep; cbn.
    + exists o. split; [congruence|]. intros u. rewrite inside_delete, Ho. split; [tauto|]. intros E. split; [|done].
      intros ->. apply Hn. by apply Ho.
    + destruct (locked (fl s)); cbn.
      * exists o. split; [congruence|]. intros u. rewrite inside_delete, Ho. split; [tauto|]. intros E. split; [|done].
        intros ->. apply Hn. by apply Ho.
      * exists (Some t). split; [done|]. intros u. rewrite inside_insert, Ho by done.
        destruct o; [done|]. split; [intros [->|?]; done|]. intros [= ->]. by left.
  - assert (Hi : o = Some t) by (apply Ho; by left). exists o. split; [done|]. intros u.
    rewrite inside_insert, Ho by by destruct fin. split; [|auto]. intros [->|?]; done.
  - assert (Hi : o = Some t) by (apply Ho; by right). unfold leave. destruct (more (fl s)); cbn.
    + exists o. split; [done|]. intros u. rewrite inside_insert, Ho by done. split; [|auto]. intros [->|?]; done.
    + exists None. split; [done|]. intros u. rewrite inside_delete, Ho, Hi. split; [|done]. intros [H [= ->]]. done.
  - by exists o.
  - by exists o.
Qed.

Lemma reachable_exclusive w s : reachable w s → exclusive s.
Proof.
  intros R. unfold reachable in R. remember (initial w) as s0 eqn:E0.
  assert (H0 : exclusive s0).
  { subst s0. exists None. split; [done|]. intros t. unfold inside. cbn. rewrite lookup_empty. split; [by intros [?|?]|done]. }
  clear E0. induction R as [|s1 s2 s3 S R IH]; [done|]. apply IH. by eapply exclusive_step.
Qed.

(** *** No work is left behind *)

Context (body_quiescent : ∀ w w', body false w true w' → quiescent w').

(** As long as nobody blocks the process: a mark means there is a runner, and
    unfinished work is marked, about to be announced, or before a runner that has
    not looked at all of it. *)
Definition attended (s : sys) : Prop :=
  was_locked s = false → locked (fl s) = false ∧ (more (fl s) = true → processing (fl s) = true) ∧
  (quiescent (work s) ∨ more (fl s) = true ∨ ∃ t, pcs s !! t = Some Calling ∨ pcs s !! t = Some Running).

Lemma attended_step s s' : exclusive s → attended s → step s s' → attended s'.
Proof.
  intros (o & Eo & Ho) A S. unfold attended in *.
  destruct S as [s t w Ht Hw|s t w Ht Hw|s t Ht|s t fin w Ht Hw|s t Ht|s w Hw Hq|s b]; cbn; intros Hl.
  - destruct (A Hl) as (A1 & A2 & A3). split_and!; [done|done|]. right. right. exists t. left. by simplify_map_eq.
  - destruct (A Hl) as (A1 & A2 & A3). unfold queue_work. destruct (processing (fl s)) eqn:Ep; cbn; [auto|].
    split_and!; [done|by rewrite Ep|]. right. right. exists t. left. by simplify_map_eq.
  - destruct (A Hl) as (A1 & A2 & A3). unfold enter. rewrite A1. destruct (processing (fl s)) eqn:Ep; cbn; [auto|].
    split_and!; [done|done|]. right. right. exists t. right. by simplify_map_eq.
  - destruct (A Hl) as (A1 & A2 & A3). split_and!; [done|done|]. destruct fin.
    + left. apply (body_quiescent (work s)). by rewrite <- A1.
    + right. right. exists t. right. by simplify_map_eq.
  - destruct (A Hl) as (A1 & A2 & A3). unfold leave. destruct (more (fl s)) eqn:Em; cbn.
    + split_and!; [done|done|]. right. right. exists t. right. by simplify_map_eq.
    + split_and!; [done|done|]. destruct A3 as [?|[?|(u & [Hu|Hu])]]; [by left|done| |].
      * right. right. exists u. left. rewrite lookup_delete_ne; [done|]. intros ->. congruence.
      * exfalso. assert (o = Some u) by (apply Ho; by left). assert (o = Some t) by (apply Ho; by right). congruence.
  - destruct (A Hl) as (A1 & A2 & [A3|A3]); auto.
  - apply orb_false_iff in Hl as [Hl ->]. destruct (A Hl) as (A1 & A2 & A3). auto.
Qed.

Lemma reachable_attended w s : quiescent w → reachable w s → attended s.
Proof.
  intros Hq R. cut (exclusive s ∧ attended s); [by intros [_ ?]|].
  assert (H0 : exclusive (initial w) ∧ attended (initial w)).
  { split; [apply (reachable_exclusive w); apply rtc_refl|]. intros _. cbn. auto. }
  revert H0. unfold reachable in R. induction R as [|s1 s2 s3 S R IH]; [done|]. intros [E A]. apply IH.
  split; [by eapply exclusive_step|by eapply attended_step].
Qed.

(** An invariant of the work that the steps keep holds throughout. *)
Lemma reachable_work (J : W → Prop) w s : J w → (∀ v v', J v → post v v' → J v') →
  (∀ l v fin v', J v → body l v fin v' → J v') → reachable w s → J (work s).
Proof.
  intros Hw Hp Hb R. assert (H0 : J (work (initial w))) by done. revert H0. unfold reachable in R.
  induction R as [|s1 s2 s3 S R IH]; [done|]. intros Hj. apply IH.
  destruct S; cbn in *; eauto.
Qed.
End runner.

Arguments mk_sys {W} _ _ _ _.
Arguments fl {W} _.
Arguments pcs {W} _.
Arguments work {W} _.
Arguments was_locked {W} _.

(** ** The main process *)

(** [mlan_main_process] has at most one runner at any time, however many threads
    call it, queue it or block it, whatever its body does; [mlan_processing] is
    set exactly while there is one. *)
Lemma one_runner {W : Type} (post : W → W → Prop) (body : bool → W → bool → W → Prop) (quiescent : W → Prop) w0 s t1 t2 :
  reachable post body quiescent w0 s → inside (pcs s) t1 → inside (pcs s) t2 → t1 = t2 ∧ processing (fl s) = true.
Proof.
  intros R H1 H2. destruct (reachable_exclusive _ _ _ _ _ R) as (o & Eo & Ho). apply Ho in H1. apply Ho in H2.
  subst o. rewrite Eo. split; [congruence|done].
Qed.

(** When every thread has left, nobody runs. *)
Lemma left_not_processing {W : Type} (post : W → W → Prop) body quiescent w0 s :
  reachable post body quiescent w0 s → pcs s = ∅ → processing (fl s) = false.
Proof.
  intros R Hp. destruct (reachable_exclusive _ _ _ _ _ R) as (o & Eo & Ho). rewrite Eo.
  destruct o as [t|]; [|done]. destruct (proj2 (Ho t) eq_refl) as [E|E]; by rewrite Hp in E.
Qed.

(** No work is missed: if the loop ends only when none is left, then, while nobody
    blocks the process, once every thread has left there is no work, no mark is
    left and the next call runs - whatever was posted while it ran, by callers
    that were turned away too. *)
Lemma nothing_missed {W : Type} (post : W → W → Prop) (body : bool → W → bool → W → Prop)
    (quiescent : W → Prop) w0 s :
  (∀ w w', body false w true w' → quiescent w') → quiescent w0 →
  reachable post body quiescent w0 s → was_locked s = false → pcs s = ∅ →
  quiescent (work s) ∧ more (fl s) = false ∧ fst (enter (fl s)) = true.
Proof.
  intros Hq Hw R Hl Hp. destruct (reachable_attended post body quiescent Hq w0 s Hw R Hl) as (A1 & A2 & A3).
  pose proof (left_not_processing _ _ _ _ _ R Hp) as Epr.
  assert (Em : more (fl s) = false) by (destruct (more (fl s)); [|done]; by rewrite A2 in Epr).
  split_and!; [|done|unfold enter; by rewrite Epr, A1].
  destruct A3 as [?|[E|(t & [E|E])]]; [done|congruence|by rewrite Hp in E..].
Qed.

(** ** The receive process *)

(** The receive queue, and the packets that came and that were handled so far. *)
Record rx_work := mk_rx { rx_data_queue : list nat; rx_arrived : list nat; rx_handled : list nat }.
Definition rx_post (w w' : rx_work) : Prop :=
  ∃ p, w' = mk_rx (rx_data_queue w ++ [p]) (rx_arrived w ++ [p]) (rx_handled w).
(** One turn of the loop of [mlan_rx_process] without a limit: the first packet is
    handled; the loop ends with the queue empty or [rx_lock_flag] set. *)
Definition rx_turn (l : bool) (w : rx_work) : bool * rx_work :=
  match rx_data_queue w with
  | [] => (true, w)
  | p :: q => (l, mk_rx q (rx_arrived w) (rx_handled w ++ [p]))
  end.
Definition rx_body (l : bool) (w : rx_work) (fin : bool) (w' : rx_work) : Prop := rx_turn l w = (fin, w').

Definition rx_quiescent (w : rx_work) : Prop := rx_data_queue w = [].
Definition rx_reachable (s : sys) : Prop := reachable rx_post rx_body rx_quiescent (mk_rx [] [] []) s.

Lemma rx_body_ends w w' : rx_body false w true w' → rx_quiescent w'.
Proof. unfold rx_quiescent, rx_body, rx_turn. intros E. destruct (rx_data_queue w) as [|p q] eqn:Eq; [by injection E as <-|done]. Qed.

(** Received packets are handled once each and in the order they came, whichever
    threads run the receive process and even when it is blocked in between; when
    every thread has left and nobody blocked it, all of them are handled. *)
Theorem rx_process_in_order s : rx_reachable s →
  rx_handled (work s) ++ rx_data_queue (work s) = rx_arrived (work s) ∧
  (was_locked s = false → pcs s = ∅ → rx_handled (work s) = rx_arrived (work s)).
Proof.
  intros R. set (J := λ w, rx_handled w ++ rx_data_queue w = rx_arrived w).
  assert (HJ : J (work s)).
  { apply (reachable_work rx_post rx_body rx_quiescent J (mk_rx [] [] [])); [done| | |done].
    - intros v v' Hv [p ->]. unfold J in *. cbn. by rewrite app_assoc, Hv.
    - intros l v fin v' Hv E. unfold rx_body, rx_turn, J in *. destruct (rx_data_queue v) as [|p q] eqn:Eq.
      + injection E as <- <-. by rewrite Eq.
      + injection E as <- <-. cbn. by rewrite <- app_assoc. }
  split; [done|]. intros Hl Hp. unfold J in HJ.
  destruct (nothing_missed rx_post rx_body rx_quiescent (mk_rx [] [] []) s rx_body_ends eq_refl R Hl Hp) as (E & _).
  unfold rx_quiescent in E. by rewrite E, app_nil_r in HJ.
Qed.

(** ** The bounded receive loop *)

(** The loop with a limit, as NAPI calls it: the packets handled so far are
    counted in [rx_num], an unsigned byte. *)
Fixpoint rx_loop (limit rx_num : Z) (q : list nat) : Z * list nat :=
  match q with
  | [] => (rx_num, [])
  | p :: q =>
      let n := u8 (rx_num + 1) in
      if negb (limit =? 0) && (n >=? limit) then (n, q) else rx_loop limit n q
  end.
(** [mlan_rx_process]: each element of [marks] is a mark found at the end, which
    starts the loop again on the packets that came meanwhile. *)
Fixpoint rx_process (limit rx_num : Z) (marks : list (list nat)) (q : list nat) : Z * list nat :=
  let '(n, q) := rx_loop limit rx_num q in
  match marks with
  | [] => (n, q)
  | new :: marks => rx_process limit n marks (q ++ new)
  end.

Lemma rx_loop_bound limit rx_num q : 0 < limit <= 255 → 0 <= rx_num < 255 →
  rx_num <= fst (rx_loop limit rx_num q) <= Z.max limit (rx_num + 1) ∧
  rx_num + Z.of_nat (length q) = fst (rx_loop limit rx_num q) + Z.of_nat (length (snd (rx_loop limit rx_num q))).
Proof.
  revert rx_num. induction q as [|p q IH]; intros n Hl Hn; cbn [rx_loop length]; [cbn; lia|].
  rewrite (proj2 (Z.eqb_neq limit 0)) by lia. cbn [negb andb]. rewrite (u_wrap_small 8) by (change (2 ^ 8) with 256; lia).
  destruct (n + 1 >=? limit) eqn:E; cbn [fst snd]; [lia|]. rewrite Z.geb_leb in E. apply Z.leb_gt in E.
  destruct (IH (n + 1) Hl ltac:(lia)). lia.
Qed.

Lemma rx_process_bound limit marks : 0 < limit → ∀ n k q, 0 <= n → n + 1 <= limit + k → 0 <= k →
  limit + k + Z.of_nat (length marks) <= 255 →
  0 <= fst (rx_process limit n marks q) <= limit + k + Z.of_nat (length marks) ∧
  n + Z.of_nat (length (q ++ concat marks)) =
    fst (rx_process limit n marks q) + Z.of_nat (length (snd (rx_process limit n marks q))).
Proof.
  intros Hl. induction marks as [|new marks IH]; intros n k q Hn Hk Hk0 Hb; cbn [rx_process concat];
    destruct (rx_loop_bound limit n q ltac:(lia) ltac:(lia)) as [B1 B2];
    destruct (rx_loop limit n q) as [n' q']; cbn [fst snd] in *.
  - rewrite app_nil_r. cbn [length] in *. lia.
  - cbn [length] in *. destruct (IH n' (k + 1) (q' ++ new) ltac:(lia) ltac:(lia) ltac:(lia) ltac:(lia)) as [C1 C2].
    rewrite !length_app in *. lia.
Qed.

(** The bound on the packets one call of [mlan_rx_process] hands up: the limit of
    the caller plus one for each mark found at the end (so the limit holds when no
    mark is left meanwhile); no packet is lost. *)
Theorem rx_limit_bound limit marks q : 0 < limit → limit + Z.of_nat (length marks) <= 255 →
  0 <= fst (rx_process limit 0 marks q) <= limit + Z.of_nat (length marks) ∧
  Z.of_nat (length (q ++ concat marks)) =
    fst (rx_process limit 0 marks q) + Z.of_nat (length (snd (rx_process limit 0 marks q))).
Proof.
  intros Hl Hb. destruct (rx_process_bound limit marks Hl 0 0 q ltac:(lia) ltac:(lia) ltac:(lia) ltac:(lia)). lia.
Qed.

(** The bound is reached: a limit of 2 with one mark hands up 3 packets. *)
Lemma rx_limit_exceeded : rx_process 2 0 [[8%nat]] [1%nat; 2%nat; 3%nat; 4%nat] = (3, [4%nat; 8%nat]).
Proof. reflexivity. Qed.

(** ** Witnesses *)

Definition demo_rx : sys := mk_sys (mk_flags false false false) ∅ (mk_rx [] [5%nat] [5%nat]) false.
Lemma demo_rx_run : rx_reachable demo_rx.
Proof.
  unfold rx_reachable, reachable. eapply rtc_l; [apply (step_post _ _ _ _ 0%nat (mk_rx [5%nat] [5%nat] [])); [done|by exists 5%nat]|].
  eapply rtc_l; [apply (step_enter _ _ _ _ 0%nat); done|]. cbn.
  eapply rtc_l; [apply (step_body _ _ _ _ 0%nat false (mk_rx [] [5%nat] [5%nat])); [by simplify_map_eq|reflexivity]|]. cbn.
  eapply rtc_l; [apply (step_body _ _ _ _ 0%nat true (mk_rx [] [5%nat] [5%nat])); [by simplify_map_eq|reflexivity]|]. cbn.
  eapply rtc_l; [apply (step_leave _ _ _ _ 0%nat); by simplify_map_eq|]. cbn.
  match goal with |- rtc _ (mk_sys _ ?m _ _) _ => assert (E : m = ∅) by (vm_compute; reflexivity) end.
  rewrite E. apply rtc_refl.
Qed.
Lemma rx_process_in_order_witness :
  rx_handled (work demo_rx) ++ rx_data_queue (work demo_rx) = rx_arrived (work demo_rx) ∧
  (was_locked demo_rx = false → pcs demo_rx = ∅ → rx_handled (work demo_rx) = rx_arrived (work demo_rx)).
Proof. exact (rx_process_in_order demo_rx demo_rx_run). Defined.

Lemma rx_limit_bound_witness :
  0 <= fst (rx_process 2 0 [[8%nat]] [1%nat; 2%nat; 3%nat; 4%nat]) <= 2 + Z.of_nat (length [[8%nat]]) ∧
  Z.of_nat (length ([1%nat; 2%nat; 3%nat; 4%nat] ++ concat [[8%nat]])) =
    fst (rx_process 2 0 [[8%nat]] [1%nat; 2%nat; 3%nat; 4%nat]) +
    Z.of_nat (length (snd (rx_process 2 0 [[8%nat]] [1%nat; 2%nat; 3%nat; 4%nat]))).
Proof. apply rx_limit_bound; [lia|cbn; lia]. Defined.
