(* ===== verification/CmdStill.v ===== *)
(** * CmdStill: what the callers of the command queue leave to the main process

    Of the operations of [CmdQueue] only the download makes a command the current
    one, and none touches [ps_state]: preparing, cancelling, timing out and
    handling a response keep the power state, and leave no current command where
    there was none.  [MainLoop] relies on it when callers run beside the main
    process. *)

From S2P Require Import Prelude CmdQueue CmdInv CmdResp CmdRun.

(** The power state is kept, and no command becomes the current one. *)
Definition still (a a' : mlan_adapter) : Prop :=
  ps_state a' = ps_state a ∧ usb a' = usb a ∧ (curr_cmd a = None → curr_cmd a' = None).

Lemma still_refl a : still a a.
Proof. done. Qed.
Lemma still_trans a b c : still a b → still b c → still a c.
Proof. intros (A1 & A2 & A3) (B1 & B2 & B3). split; [congruence|]. split; [congruence|auto]. Qed.

(** Results that carry a state. *)
Class Stateful (R : Type) := state_in : R → mlan_adapter.
#[export] Instance adapter_stateful : Stateful mlan_adapter := id.
#[export] Instance pair_stateful {A} : Stateful (A * mlan_adapter) := snd.

Definition keeps {R} `{Stateful R} (a : mlan_adapter) (m : option R) : Prop :=
  ∀ x, m = Some x → still a (state_in x).

Section keeps.
Context {R S : Type} `{Stateful R} `{Stateful S}.

Lemma keeps_none a : keeps a (@None R).
Proof. by intros x. Qed.
Lemma keeps_some a (x : R) : still a (state_in x) → keeps a (Some x).
Proof. intros Hs y. intros [= <-]. done. Qed.
Lemma keeps_bind a (m : option S) (k : S → option R) :
  keeps a m → (∀ x, still a (state_in x) → keeps a (k x)) → keeps a (m ≫= k).
Proof. intros Hm Hk y E. destruct m as [x|]; [|done]. eapply Hk; [by apply Hm|done]. Qed.
Lemma keeps_skip {T} a (m : option T) (k : T → option R) : (∀ x, keeps a (k x)) → keeps a (m ≫= k).
Proof. intros Hk y E. destruct m as [x|]; [|done]. by apply (Hk x). Qed.
Lemma keeps_trans a b (m : option R) : still a b → keeps b m → keeps a m.
Proof. intros Hs Hm x E. eapply still_trans; [done|by apply Hm]. Qed.
End keeps.

Create HintDb still.
#[export] Hint Resolve still_refl keeps_none keeps_some : still.

(** The state before is [b] now, which still is as [a]. *)
Ltac still_here := by (split_and!; (assumption || reflexivity || auto || congruence)).
Ltac from b := apply (keeps_trans _ b); [|].

Lemma still_log e a : still a (log e a).
Proof. done. Qed.
Lemma still_event p id a : still a (wlan_recv_event p id a).
Proof. by destruct p. Qed.

Lemma keeps_write r code a : keeps a (write_status r code a).
Proof. apply keeps_skip. intros q. by apply keeps_some. Qed.
Lemma keeps_write_opt r code a : keeps a (write_status_opt r code a).
Proof. destruct r; [apply keeps_write|by apply keeps_some]. Qed.
Lemma keeps_complete r st a : keeps a (moal_ioctl_complete r st a).
Proof. apply keeps_skip. intros q. by apply keeps_some. Qed.
Lemma keeps_clean i a : keeps a (wlan_clean_cmd_node i a).
Proof. apply keeps_skip. intros n. apply keeps_some. repeat case_match; split_and!; done. Qed.
#[export] Hint Resolve still_log still_event keeps_write keeps_write_opt keeps_complete keeps_clean : still.

(** After one operation that keeps the state, the rest continues from there. *)
Ltac next := apply keeps_bind; [auto with still|]; intros ?b ?Hb; cbn [state_in adapter_stateful id] in *;
  match goal with Hb : still _ ?b |- _ => apply (keeps_trans _ b); [exact Hb|] end.

Lemma keeps_free o a : keeps a (wlan_insert_cmd_to_free_q o a).
Proof.
  destruct o as [i|]; [|by apply keeps_some]. apply keeps_skip. intros n.
  apply keeps_bind; [|].
  { destruct (pioctl_buf n); [|by apply keeps_some]. apply keeps_skip. intros q. apply keeps_complete. }
  intros b Hb. apply (keeps_trans _ b); [exact Hb|]. next. by apply keeps_some.
Qed.
Lemma keeps_pending o t a : keeps a (wlan_insert_cmd_to_pending_q o t a).
Proof. destruct o; [|by apply keeps_some]. apply keeps_skip. intros b. by apply keeps_some. Qed.
#[export] Hint Resolve keeps_free keeps_pending : still.

Lemma keeps_complete_cancel r a : keeps a (complete_cancel r a).
Proof. unfold complete_cancel. next. apply keeps_complete. Qed.
#[export] Hint Resolve keeps_complete_cancel : still.

(** ** Loops *)

Lemma keeps_flush_ext n a : keeps a (flush_ext_loop n a).
Proof.
  revert a. induction n as [|n IH]; intros a; cbn [flush_ext_loop]; destruct (ext_cmd_pending_q a); auto with still.
  apply keeps_skip. intros _. apply keeps_skip. intros m. apply keeps_bind.
  { by destruct (pioctl_buf m); [apply (keeps_trans _ (upd_node (set_pioctl_buf None) n0 (set_ext_cmd_pending_q l a)))|apply keeps_some]; auto with still. }
  intros b Hb. apply (keeps_trans _ b); [exact Hb|]. next. apply IH.
Qed.
Lemma keeps_flush_scan_loop n a : keeps a (flush_scan_loop n a).
Proof.
  revert a. induction n as [|n IH]; intros a; cbn [flush_scan_loop]; destruct (scan_pending_q a); auto with still.
  apply keeps_skip. intros c. apply keeps_skip. intros m. apply keeps_bind.
  { destruct (pioctl_buf m); [|by apply keeps_some]. destruct (_ && _); [|by apply keeps_some].
    apply (keeps_trans _ (upd_node (set_pioctl_buf None) n0 (set_scan_pending_q l a))); auto with still. done. }
  intros b Hb. apply (keeps_trans _ b); [exact Hb|]. next. apply IH.
Qed.
Lemma keeps_flush_scan a : keeps a (wlan_flush_scan_queue a).
Proof. unfold wlan_flush_scan_queue. apply keeps_bind; [apply keeps_flush_scan_loop|]. intros b Hb. by apply keeps_some. Qed.
Lemma keeps_flush a : keeps a (wlan_flush_ext_cmd_pending_queue a).
Proof. apply keeps_flush_ext. Qed.
Lemma keeps_cancel_loop find detach n a : (∀ i b, keeps b (detach i b)) → keeps a (cancel_loop find detach n a).
Proof.
  intros Hd. revert a. induction n as [|n IH]; intros a; cbn [cancel_loop]; destruct (find a); auto with still.
  apply keeps_bind; [apply (keeps_trans _ (unlink_pending n0 a)); [done|apply Hd]|].
  intros b Hb. apply (keeps_trans _ b); [exact Hb|]. next. apply IH.
Qed.
Lemma keeps_detach_complete i a : keeps a (detach_complete i a).
Proof.
  apply keeps_skip. intros n. destruct (pioctl_buf n); [|by apply keeps_some].
  apply (keeps_trans _ (upd_node (set_pioctl_buf None) i a)); [done|]. apply keeps_complete_cancel.
Qed.
#[export] Hint Resolve keeps_flush_scan keeps_flush keeps_detach_complete : still.

(** ** Operations *)

Lemma keeps_fail io code a : keeps a (fail_prepare io code a).
Proof. unfold fail_prepare. next. by apply keeps_some. Qed.
Lemma keeps_queue_prepared i no act b a : keeps a (queue_prepared i no act b a).
Proof.
  unfold queue_prepared, wlan_queue_cmd. repeat case_match; auto with still; by apply keeps_some.
Qed.
#[export] Hint Resolve keeps_fail keeps_queue_prepared : still.

Lemma still_no_cmd_node a : still a (no_cmd_node a).
Proof. unfold no_cmd_node. case_match; [|done]. apply (still_trans _ (set_num_no_cmd_node (u16 (num_no_cmd_node a + 1)) a)); auto with still. done. Qed.

Lemma keeps_prepare priv c act io data buf a : keeps a (wlan_prepare_cmd priv c act io data buf a).
Proof.
  unfold wlan_prepare_cmd. destruct (surprise_removed a); auto with still. destruct (_ && _); auto with still.
  unfold wlan_get_cmd_node. destruct (cmd_free_q a) as [|i q].
  { apply (keeps_trans _ (no_cmd_node a)); [apply still_no_cmd_node|apply keeps_fail]. }
  match goal with |- context [nodes ?x !! i] => apply (keeps_trans _ x); [done|generalize x; clear a; intros a] end.
  apply keeps_skip. intros n. destruct (cmdbuf n) as [cb|]; auto with still.
  match goal with |- context [match prepare_body c with Some _ => _ | None => ?m end] =>
    match m with context [upd_node (set_pioctl_buf None) i ?x] =>
      apply (keeps_trans _ x); [by destruct (_ =? _)|generalize x; clear a; intros a] end end.
  destruct (prepare_body c) as [b|].
  - apply (keeps_trans _ (upd_node (set_cmdbuf (Some (set_body b cb))) i a)); [done|]. next. by apply keeps_some.
  - apply (keeps_trans _ (upd_node (set_pioctl_buf None) i a)); [done|]. next. next. by apply keeps_some.
Qed.
#[export] Hint Resolve keeps_prepare : still.

Lemma keeps_prepare_scans priv l buf a : keeps a (prepare_scans priv l buf a).
Proof.
  revert a. induction l as [|c l IH]; intros a; cbn [prepare_scans]; [by apply keeps_some|].
  apply keeps_bind; [auto with still|]. intros [ret b] Hb. apply (keeps_trans _ b); [exact Hb|].
  case_match; [apply IH|by apply keeps_some].
Qed.
Lemma keeps_scan priv pl r a : keeps a (wlan_scan_networks priv pl r a).
Proof.
  unfold wlan_scan_networks. apply keeps_bind; [apply keeps_prepare_scans|]. intros [ret b] Hb.
  apply (keeps_trans _ b); [exact Hb|]. case_match; [|by apply keeps_some].
  apply keeps_bind; [|by intros c Hc; apply keeps_some].
  unfold scan_start. destruct (scan_pending_q b) as [|i q]; [by apply keeps_some|].
  match goal with |- keeps _ (wlan_insert_cmd_to_pending_q _ _ ?x) => by apply (keeps_trans _ x); [|apply keeps_pending] end.
Qed.

Lemma keeps_timeout a : keeps a (wlan_cmd_timeout_func a).
Proof.
  unfold wlan_cmd_timeout_func. apply (keeps_trans _ (set_cmd_timer_is_set false a)); [done|].
  generalize (set_cmd_timer_is_set false a). clear a. intros a. destruct (curr_cmd a) as [i|].
  - apply (keeps_trans _ (set_num_cmd_timeout (u32 (num_cmd_timeout a + 1)) a)); [done|].
    apply keeps_skip. intros n. next. case_match; apply keeps_some; [done|apply still_event].
  - case_match; by apply keeps_some.
Qed.

Lemma keeps_cancel_pscan a : keeps a (cancel_pscan a).
Proof.
  unfold cancel_pscan. destruct (pscan_ioctl_req a) as [r|]; [|by apply keeps_some]. apply keeps_skip. intros q.
  apply (keeps_trans _ (set_pscan_ioctl_req None a)); [done|]. next. by apply keeps_some.
Qed.
Lemma keeps_cancel_curr_if P a : keeps a (cancel_curr_if P a).
Proof.
  unfold cancel_curr_if. destruct (curr_cmd a); [|by apply keeps_some]. apply keeps_skip. intros n0.
  destruct (pioctl_buf n0); [|by apply keeps_some]. apply keeps_skip. intros q. case_match; [|by apply keeps_some].
  apply (keeps_trans _ (cancel_curr n a)); [done|]. next. by apply keeps_some.
Qed.
Lemma keeps_send_cancel bss io buf a : keeps a (send_cancel_scan bss io buf a).
Proof.
  unfold send_cancel_scan. destruct (bss ≫= priv_at a); [|by apply keeps_some].
  apply keeps_bind; [apply keeps_prepare|]. intros [ret b] Hb. by apply keeps_some.
Qed.
#[export] Hint Resolve keeps_cancel_pscan keeps_cancel_curr_if keeps_send_cancel : still.

(** The result with more components than the state. *)
Ltac next_pair := apply keeps_bind; [auto with still|]; intros [? ?b] ?Hb; cbn [state_in pair_stateful snd] in *;
  match goal with Hb : still _ ?b |- _ => apply (keeps_trans _ b); [exact Hb|] end.

Lemma keeps_scan_locked a : keeps a (cancel_scan_locked a).
Proof.
  unfold cancel_scan_locked. next_pair. next_pair.
  apply keeps_bind; [by apply keeps_cancel_loop; intros i b'; apply keeps_some|]. intros c Hc. by apply keeps_some.
Qed.
#[export] Hint Resolve keeps_scan_locked : still.
Lemma keeps_cancel_scan io buf a : keeps a (wlan_cancel_pending_scan_cmd io buf a).
Proof.
  unfold wlan_cancel_pending_scan_cmd. next_pair. apply keeps_bind.
  { case_match; [|by apply keeps_some]. apply keeps_bind; [apply keeps_send_cancel|].
    intros [[ret p] d] Hd. apply (keeps_trans _ d); [exact Hd|]. apply keeps_some. case_match; [apply still_event|done]. }
  intros [st d] Hd. apply (keeps_trans _ d); [exact Hd|]. next. by apply keeps_some.
Qed.

Lemma keeps_all_locked flag a : keeps a (cancel_all_locked flag a).
Proof.
  unfold cancel_all_locked. next_pair. apply keeps_bind.
  { unfold cancel_all_curr. destruct (curr_cmd b); [|by apply keeps_some]. next. destruct flag; [|by apply keeps_some].
    apply (keeps_trans _ (set_curr_cmd None b0)); [done|]. apply keeps_free. }
  intros c Hc. apply (keeps_trans _ c); [exact Hc|].
  match goal with |- context [cancel_loop pending_head detach_complete _ ?x] => apply (keeps_trans _ x);
    [by case_match|generalize x; intros d] end.
  apply keeps_cancel_loop; auto with still.
Qed.
#[export] Hint Resolve keeps_all_locked : still.
Lemma keeps_cancel_all flag a : keeps a (wlan_cancel_all_pending_cmd flag a).
Proof. unfold wlan_cancel_all_pending_cmd. next. next. apply keeps_flush. Qed.

Lemma keeps_cancel_bss_loop bss flash n a : keeps a (cancel_bss_loop bss flash n a).
Proof.
  revert flash a. induction n as [|n IH]; intros flash a; cbn [cancel_bss_loop];
    destruct (wlan_get_bss_pending_ioctl_cmd a bss); try (by apply keeps_some); auto with still.
  apply keeps_skip. intros m. apply keeps_skip. intros r. apply keeps_skip. intros q.
  apply keeps_bind; [apply (keeps_trans _ (unlink_pending n0 a)); [done|apply keeps_detach_complete]|].
  intros b Hb. apply (keeps_trans _ b); [exact Hb|]. next. apply IH.
Qed.
Lemma keeps_bss_locked bss a : keeps a (cancel_bss_locked bss a).
Proof.
  unfold cancel_bss_locked. apply keeps_bind.
  { unfold cancel_pscan_of. destruct (pscan_ioctl_req a); [|by apply keeps_some]. apply keeps_skip. intros q.
    case_match; [auto with still|by apply keeps_some]. }
  intros [o b] Hb. apply (keeps_trans _ b); [exact Hb|]. next_pair.
  apply keeps_bind; [apply keeps_cancel_bss_loop|]. intros [fl c] Hc. by apply keeps_some.
Qed.
#[export] Hint Resolve keeps_bss_locked : still.
Lemma keeps_cancel_bss bss buf a : keeps a (wlan_cancel_bss_pending_cmd bss buf a).
Proof.
  unfold wlan_cancel_bss_pending_cmd. apply keeps_bind; [auto with still|]. intros [[o fl] c] Hc.
  apply (keeps_trans _ c); [exact Hc|].
  destruct fl; [|by apply keeps_some]. apply keeps_bind.
  { case_match; [|by apply keeps_some]. apply keeps_bind; [apply keeps_send_cancel|].
    intros [[ret p] d] Hd. apply (keeps_trans _ d); [exact Hd|]. apply keeps_some, still_event. }
  intros d Hd. apply (keeps_trans _ d); [exact Hd|]. apply keeps_flush_scan.
Qed.

Lemma keeps_cancel_ioctl r buf a : keeps a (wlan_cancel_pending_ioctl r buf a).
Proof.
  unfold wlan_cancel_pending_ioctl. apply keeps_skip. intros q.
  match goal with |- context [cancel_loop _ _ _ ?x] => apply (keeps_trans _ x);
    [by repeat case_match|generalize x; intros b] end.
  apply keeps_bind; [by apply keeps_cancel_loop; intros i c; apply keeps_some|]. intros c Hc.
  apply (keeps_trans _ c); [exact Hc|]. apply keeps_bind.
  { case_match; [|by apply keeps_some]. apply keeps_bind.
    { case_match; [|by apply keeps_some]. apply keeps_bind; [apply keeps_send_cancel|].
      intros [[ret p] d] Hd. apply (keeps_trans _ d); [exact Hd|]. apply keeps_some, still_event. }
    intros d Hd. apply (keeps_trans _ d); [exact Hd|]. apply keeps_flush_scan. }
  intros d Hd. apply (keeps_trans _ d); [exact Hd|]. case_match; [apply keeps_complete_cancel|by apply keeps_some].
Qed.

(** The operations of the callers, as against the ones of the main process. *)
Definition caller_op (op : cmd_op) : bool :=
  match op with
  | OpExec _ | OpResp _ | OpProcess _ _ _ | OpScanStatus _ _ _ | OpPower _ | OpHardware _ => false
  | _ => true
  end.

Lemma caller_op_still op a l a' : caller_op op = true → run_op op a = Some (l, a') → still a a'.
Proof.
  intros Hop E. cut (keeps a (run_op op a)); [intros K; exact (K _ E)|].
  destruct op; try done; unfold run_op, no_requests;
    try match goal with |- context [snd <$> ?m] =>
      apply keeps_bind; [|by intros ? ?; apply keeps_some]; apply keeps_bind; [auto with still|by intros ? ?; apply keeps_some] end;
    try (apply keeps_bind; [auto using keeps_scan, keeps_timeout, keeps_cancel_scan, keeps_cancel_all, keeps_cancel_bss,
      keeps_cancel_ioctl with still|by intros [??] ?; apply keeps_some || by intros ? ?; apply keeps_some]);
    by apply keeps_some.
Qed.

(** ** Downloads and responses *)

(** A download changes the current command; the power state it keeps. *)
Lemma keeps_free_curr a : keeps a (free_curr a).
Proof. unfold free_curr. next. by apply keeps_some. Qed.
#[export] Hint Resolve keeps_free_curr : still.

Lemma keeps_dnld_finish i code h2c a : keeps a (dnld_finish i code h2c a).
Proof.
  unfold dnld_finish. match goal with |- context [nodes ?x !! i] => apply (keeps_trans _ x);
    [by case_match|generalize x; clear a; intros a] end.
  apply keeps_skip. intros n. case_match.
  - next. next. by apply keeps_some.
  - case_match; [|by apply keeps_some]. apply keeps_bind; [|by intros b Hb; apply keeps_some].
    destruct (pioctl_buf n); [apply keeps_free_curr|by apply keeps_some].
Qed.

Lemma keeps_dnld i h2c a : keeps (set_curr_cmd (Some i) a) (wlan_dnld_cmd_to_fw i h2c a).
Proof.
  assert (Hs : ∀ b, ps_state b = ps_state a → usb b = usb a → still (set_curr_cmd (Some i) a) b).
  { intros b E1 E2. by split_and!. }
  unfold wlan_dnld_cmd_to_fw. apply keeps_skip. intros n. apply keeps_skip. intros cb. case_match.
  { apply (keeps_trans _ a); [by apply Hs|]. next. next. by apply keeps_some. }
  apply keeps_skip. intros p.
  match goal with |- context [dbg_advance ?x] => set (b := dbg_advance x) end.
  assert (Hb : ps_state b = ps_state a ∧ usb b = usb a) by done. clearbody b. case_match.
  { apply (keeps_trans _ b); [by apply Hs; apply Hb|]. next. next. by apply keeps_some. }
  match goal with |- keeps _ (dnld_finish _ _ _ ?x) => apply (keeps_trans _ x); [|apply keeps_dnld_finish] end.
  apply Hs; repeat case_match; apply Hb.
Qed.

Lemma still_hs_event p act a : still a (wlan_host_sleep_activated_event p act a).
Proof. unfold wlan_host_sleep_activated_event. repeat case_match; done || apply still_event. Qed.

Lemma exec_next_ps h2c a ret a' : wlan_exec_next_cmd h2c a = Some (ret, a') → ps_state a' = ps_state a ∧ usb a' = usb a.
Proof.
  unfold wlan_exec_next_cmd. destruct (curr_cmd a); [by intros [= _ <-]|].
  destruct (cmd_pending_q a) as [|i q]; [by intros [= _ <-]|]. destruct (node_cmd a i); [|done].
  cbn [mbind option_bind]. destruct (negb _); [by intros [= _ <-]|].
  destruct (wlan_dnld_cmd_to_fw _ _ _) as [[r b]|] eqn:E; [|done]. cbn [mbind option_bind].
  destruct (keeps_dnld _ _ _ _ E) as (P & U & _). cbn in P, U. intros [= _ <-]. case_match; [|done].
  destruct (still_hs_event (wlan_get_priv b) false (set_is_hs_configured false b)) as (P2 & U2 & _).
  cbn in P2, U2. by rewrite P2, U2.
Qed.

(** Handlers of responses that keep the power state. *)
Class StillHandler (h : handler) := still_handler p no r io a : keeps a (h p no r io a).
Class StillInit (ih : init_handler) := still_init p a : keeps a (ih p a).

Section process.
Context (h hs : handler) (ih : init_handler) `{!StillHandler h} `{!StillHandler hs} `{!StillInit ih}.

Lemma keeps_finish ret a : keeps a (finish_curr ret a).
Proof.
  unfold finish_curr. destruct (curr_cmd a); [|by apply keeps_some].
  apply (keeps_trans _ (set_curr_cmd None a)); [done|]. apply keeps_skip. intros m. apply keeps_bind.
  { destruct (pioctl_buf m); [|by apply keeps_some]. destruct ret; try (by apply keeps_some); auto with still.
    apply keeps_skip. intros q. case_match; [auto with still|by apply keeps_some]. }
  intros b Hb. apply (keeps_trans _ b); [exact Hb|]. apply keeps_free.
Qed.

Lemma keeps_init_progress p no ret a : keeps a (init_progress ih p no ret a).
Proof.
  unfold init_progress. case_match; [|by case_match; apply keeps_some].
  destruct (next_init_priv p a); [apply still_init|].
  destruct (pwarm_reset_ioctl_req a); [|by apply keeps_some].
  apply (keeps_trans _ (set_hw_status WlanHardwareStatusReady a)); [done|]. next. by apply keeps_some.
Qed.

Lemma keeps_pre_asleep i a : curr_cmd a = Some i → keeps a (wlan_handle_cmd_error_in_pre_aleep a).
Proof.
  intros Ec. unfold wlan_handle_cmd_error_in_pre_aleep. rewrite Ec.
  assert (Hs : ∀ b, ps_state b = ps_state a → usb b = usb a → still a b) by (intros b E1 E2; split_and!; congruence).
  apply keeps_skip. intros n. apply keeps_skip. intros cb.
  match goal with |- keeps _ (wlan_insert_cmd_to_pending_q _ _ ?x) => apply (keeps_trans _ x); [|apply keeps_pending] end.
  apply Hs; repeat case_match; done.
Qed.

Lemma keeps_matched i r io a : curr_cmd a = Some i → keeps a (process_matched h hs ih i r io a).
Proof.
  intros Ec. unfold process_matched.
  match goal with |- keeps _ (match ?o with Some _ => _ | None => _ end) => destruct o as [p|] end; [|by apply keeps_some].
  case_match; [next; next; by apply keeps_some|].
  match goal with |- context [if negb (usb ?x) && _ then _ else _] => assert (Hx : still a x ∧ curr_cmd x = Some i);
    [case_match; (split; [by auto with still|done])|apply (keeps_trans _ x); [apply Hx|destruct Hx as [_ Hx]; revert Hx; generalize x; intros b Hb]] end.
  case_match; [apply keeps_bind; [by eapply keeps_pre_asleep|by intros c Hc; apply keeps_some]|].
  apply keeps_bind.
  { unfold call_handler. apply keeps_skip. intros n. case_match; [|apply still_handler].
    match goal with |- context [hs _ _ _ _ ?x] => apply (keeps_trans _ x); [done|] end.
    case_match; [apply still_handler|by apply keeps_some]. }
  intros [ret c] Hc. apply (keeps_trans _ c); [exact Hc|]. case_match; [by apply keeps_some|].
  apply keeps_bind; [apply keeps_finish|]. intros d Hd. apply (keeps_trans _ d); [exact Hd|]. apply keeps_init_progress.
Qed.

Lemma keeps_process_cmdresp a : keeps a (wlan_process_cmdresp h hs ih a).
Proof.
  unfold wlan_process_cmdresp. case_match; [by apply keeps_some|].
  destruct (curr_cmd a) as [i|] eqn:Ec; [|by apply keeps_some]. apply keeps_skip. intros n.
  destruct (respbuf n); [|next; by apply keeps_some]. case_match; [by apply keeps_some|].
  match goal with |- context [process_matched _ _ _ _ _ _ ?x] => assert (Hx : still a x ∧ curr_cmd x = Some i);
    [case_match; (split; [by auto with still|done])|apply (keeps_trans _ x); [apply Hx|destruct Hx as [_ Hx]; revert Hx; generalize x; intros b Hb]] end.
  case_match; [|by apply keeps_matched].
  apply (keeps_trans _ (set_curr_cmd None b)); [by split_and!|]. next. next. by apply keeps_some.
Qed.
End process.

(** ** The handlers of a station *)

#[export] Instance plain_still ret : StillHandler (plain_handler ret).
Proof. intros p no r io a. by apply keeps_some. Qed.
#[export] Instance plain_init_still ret : StillInit (plain_init ret).
Proof. intros p a. by apply keeps_some. Qed.

Lemma keeps_complete_pscan st code a : keeps a (complete_pscan st code a).
Proof.
  unfold complete_pscan. apply (keeps_trans _ (set_scan_processing false a)); [done|].
  generalize (set_scan_processing false a). intros b. destruct (pscan_ioctl_req b); [|by apply keeps_some].
  apply (keeps_trans _ (set_pscan_ioctl_req None b)); [done|]. next. auto with still.
Qed.
Lemma keeps_scan_next a : keeps a (scan_next a).
Proof.
  unfold scan_next. destruct (scan_pending_q a) as [|i q]; [by apply keeps_some|].
  by apply (keeps_trans _ (set_scan_pending_q q a)); [|apply keeps_pending].
Qed.
Lemma keeps_active active p a : keeps a (wlan_active_scan_req_for_passive_chan active p a).
Proof.
  unfold wlan_active_scan_req_for_passive_chan. destruct active, (pscan_ioctl_req a); try by apply keeps_some.
  apply keeps_bind; [apply keeps_scan|]. intros [ret b] Hb. by apply keeps_some.
Qed.
#[export] Hint Resolve keeps_complete_pscan keeps_scan_next keeps_active : still.

Lemma keeps_ret_scan perr active p a : keeps a (wlan_ret_802_11_scan perr active p a).
Proof.
  unfold wlan_ret_802_11_scan. destruct perr; [next; next; by apply keeps_some|]. destruct (scan_pending_q a).
  - next_pair. case_match; [by apply keeps_some|]. next. apply keeps_some, still_event.
  - case_match; [next; next; by apply keeps_some|next; by apply keeps_some].
Qed.
Lemma keeps_ret_scan_ext r io a : keeps a (wlan_ret_802_11_scan_ext r io a).
Proof.
  unfold wlan_ret_802_11_scan_ext. apply (keeps_trans _ (scan_state_add (wlan_get_ext_scan_state r) a)); [done|].
  generalize (scan_state_add (wlan_get_ext_scan_state r) a). clear a. intros a. case_match.
  - match goal with |- context [match io with Some _ => _ | None => Some (_, ?x) end] => apply (keeps_trans _ x); [done|generalize x] end.
    intros b. destruct io; [next; next; by apply keeps_some|by apply keeps_some].
  - case_match; by apply keeps_some.
Qed.
Lemma keeps_resp_error p no r io a : keeps a (wlan_process_cmdresp_error p no r io a).
Proof.
  unfold wlan_process_cmdresp_error. next. apply keeps_bind.
  { case_match; [next; next; apply keeps_some, still_event|by apply keeps_some]. }
  intros c Hc. apply (keeps_trans _ c); [exact Hc|]. next. by apply keeps_some.
Qed.
Lemma keeps_detach_curr a : keeps a (detach_curr a).
Proof. apply keeps_skip. intros i. apply keeps_skip. intros n. by apply keeps_some. Qed.

(** The response handler of a station, whatever its handlers of other commands
    are, as long as these keep the power state too. *)
#[export] Instance sta_still perr active other : StillHandler other →
  StillHandler (wlan_ops_sta_process_cmdresp perr active other).
Proof.
  intros Ho p no r io a. unfold wlan_ops_sta_process_cmdresp. case_match; [apply keeps_resp_error|]. case_match.
  - apply keeps_bind; [apply keeps_ret_scan|]. intros [ret b] Hb. apply (keeps_trans _ b); [exact Hb|].
    apply keeps_bind; [apply keeps_detach_curr|]. intros c Hc. by apply keeps_some.
  - case_match; [|apply Ho]. apply keeps_bind; [apply keeps_ret_scan_ext|]. intros [ret b] Hb.
    apply (keeps_trans _ b); [exact Hb|]. apply keeps_bind; [apply keeps_detach_curr|]. intros c Hc. by apply keeps_some.
Qed.

Lemma keeps_move a : keeps a (wlan_move_cmd_to_cmd_pending_q a).
Proof.
  unfold wlan_move_cmd_to_cmd_pending_q. generalize (length (nodes a)). intros n. revert a.
  induction n as [|n IH]; intros a; cbn [move_loop]; destruct (ext_cmd_pending_q a) as [|i q]; auto with still; try by apply keeps_some.
  apply keeps_bind; [by apply (keeps_trans _ (set_ext_cmd_pending_q q a)); [|apply keeps_pending]|].
  intros b Hb. apply (keeps_trans _ b); [exact Hb|]. apply IH.
Qed.
Lemma keeps_scan_status status active p a : keeps a (ext_scan_status status active p a).
Proof.
  unfold ext_scan_status. apply (keeps_trans _ (scan_state_add SCAN_STATE_EXT_SCAN_STATUS a)); [done|].
  generalize (scan_state_add SCAN_STATE_EXT_SCAN_STATUS a). clear a. intros a. destruct (scan_pending_q a).
  - match goal with |- context [wlan_active_scan_req_for_passive_chan _ _ ?x] => apply (keeps_trans _ x);
      [by case_match|generalize x; clear a; intros a] end.
    next_pair. case_match; [by apply keeps_some|].
    match goal with |- context [complete_pscan _ _ ?x] => apply (keeps_trans _ x); [done|generalize x; intros c] end.
    next. apply keeps_bind; [apply keeps_move|]. intros d Hd. apply keeps_some. by case_match.
  - case_match; [|auto with still]. next.
    match goal with |- context [complete_pscan _ _ ?x] => by apply (keeps_trans _ x); [|apply keeps_complete_pscan] end.
Qed.
