(* ===== verification/PowerSave.v ===== *)
(** * PowerSave: the sleep handshake with the card

    Between the firmware's request to sleep and its waking up again the driver
    goes through [ps_state] (src/mlan/mlan_cmdevt.c, mlan_sta_event.c,
    mlan_uap_cmdevent.c, mlan_misc.c and the SDIO bus driver mlan_sdio.c): the
    sleep event makes it PRE_SLEEP, the sleep confirmation SLEEP_CFM or SLEEP, the
    confirmation's response SLEEP, an interrupt or the awake event AWAKE.  The
    state here is what the main process and these handlers share, with the command
    queue of [CmdQueue] in it; the loop that calls them is [MainLoop].

    The card is an SDIO card in the new mode.  What the card, the bus and the
    allocator answer is an argument.  Left out: log output, counters, the contents
    of data packets. *)

From S2P Require Import Prelude CmdQueue.

(** ** Data *)

Definition DN_LD_CMD_PORT_HOST_INT_STATUS : Z := 0x80.
Definition UP_LD_CMD_PORT_HOST_INT_STATUS : Z := 0x40.
Definition DN_LD_HOST_INT_STATUS : Z := 0x2.
Definition UP_LD_HOST_INT_STATUS : Z := 0x1.
Definition HIGH_RX_PENDING : Z := 1000.
Definition LOW_RX_PENDING : Z := 800.

(** An event of the firmware: the power-save events, as the handler of a station
    ([sta]) or of an access point takes them, and all others.  [uapsd] tells
    whether an awake event finds the PPS/UAPSD mode to be switched on. *)
Inductive fw_event :=
| EVENT_PS_SLEEP
| EVENT_PS_AWAKE (sta uapsd : bool)
| EVENT_OTHER (cause : Z).

Inductive tdls := TDLS_OTHER | TDLS_SWITCHING_CHANNEL | TDLS_IN_OFF_CHANNEL.
#[export] Instance tdls_eq_dec : EqDecision tdls.
Proof. solve_decision. Defined.

(** What the main process does with the card besides commands: it confirms sleep,
    wakes the card, sends a data packet of one of the two lists or a null packet,
    asks for a dump. *)
Inductive action :=
| ActSleepConfirm (ps : PS_STATE) (idle : bool)
| ActWakeup
| ActData (ps : PS_STATE)
| ActNull (ps : PS_STATE)
| ActDump.

(** The part of [mlan_adapter] the main process works on; [ad] is the part of the
    command queue.  [sta_role] is the role of the first interface, [resp_ctrl]
    whether the sleep confirmation asks for a response, [sleep_period] whether one
    is set, [hs_gap_ff] that the host-sleep gap is 0xff, [pending_block] that a
    VDLL block waits, [vdll_len] that a VDLL image is loaded; the transmit lists
    are their lengths. *)
Record main_state := mk_main {
  ad : mlan_adapter;
  ireg : Z;
  data_received : bool;
  event_received : bool;
  event_cause : option fw_event;
  pm_wakeup_flag : bool;
  pm_wakeup_timeout : Z;
  pm_wakeup_card_req : bool;
  pm_wakeup_fw_try : bool;
  wakeup_fw_timer_is_set : bool;
  cmd_sent : bool;
  data_sent : bool;
  pending_block : bool;
  vdll_len : bool;
  tx_lock_flag : bool;
  pps_uapsd_mode : bool;
  gen_null_pkt : bool;
  delay_null_pkt : bool;
  keep_wakeup : bool;
  resp_ctrl : bool;
  sleep_period : bool;
  sta_role : bool;
  hs_gap_ff : bool;
  pending_ioctl : bool;
  pending_disconnect : bool;
  rx_pkts_queued : Z;
  delay_task_flag : bool;
  tdls_status : tdls;
  radar_blocked : bool;
  bypass_tx : nat;
  wmm_tx : nat;
  acts : list action
}.
Definition set_ad (x : mlan_adapter) (r : main_state) : main_state :=
  mk_main x (ireg r) (data_received r) (event_received r) (event_cause r) (pm_wakeup_flag r) (pm_wakeup_timeout r) (pm_wakeup_card_req r) (pm_wakeup_fw_try r) (wakeup_fw_timer_is_set r) (cmd_sent r) (data_sent r) (pending_block r) (vdll_len r) (tx_lock_flag r) (pps_uapsd_mode r) (gen_null_pkt r) (delay_null_pkt r) (keep_wakeup r) (resp_ctrl r) (sleep_period r) (sta_role r) (hs_gap_ff r) (pending_ioctl r) (pending_disconnect r) (rx_pkts_queued r) (delay_task_flag r) (tdls_status r) (radar_blocked r) (bypass_tx r) (wmm_tx r) (acts r).
Definition set_ireg (x : Z) (r : main_state) : main_state :=
  mk_main (ad r) x (data_received r) (event_received r) (event_cause r) (pm_wakeup_flag r) (pm_wakeup_timeout r) (pm_wakeup_card_req r) (pm_wakeup_fw_try r) (wakeup_fw_timer_is_set r) (cmd_sent r) (data_sent r) (pending_block r) (vdll_len r) (tx_lock_flag r) (pps_uapsd_mode r) (gen_null_pkt r) (delay_null_pkt r) (keep_wakeup r) (resp_ctrl r) (sleep_period r) (sta_role r) (hs_gap_ff r) (pending_ioctl r) (pending_disconnect r) (rx_pkts_queued r) (delay_task_flag r) (tdls_status r) (radar_blocked r) (bypass_tx r) (wmm_tx r) (acts r).
Definition set_data_received (x : bool) (r : main_state) : main_state :=
  mk_main (ad r) (ireg r) x (event_received r) (event_cause r) (pm_wakeup_flag r) (pm_wakeup_timeout r) (pm_wakeup_card_req r) (pm_wakeup_fw_try r) (wakeup_fw_timer_is_set r) (cmd_sent r) (data_sent r) (pending_block r) (vdll_len r) (tx_lock_flag r) (pps_uapsd_mode r) (gen_null_pkt r) (delay_null_pkt r) (keep_wakeup r) (resp_ctrl r) (sleep_period r) (sta_role r) (hs_gap_ff r) (pending_ioctl r) (pending_disconnect r) (rx_pkts_queued r) (delay_task_flag r) (tdls_status r) (radar_blocked r) (bypass_tx r) (wmm_tx r) (acts r).
Definition set_event_received (x : bool) (r : main_state) : main_state :=
  mk_main (ad r) (ireg r) (data_received r) x (event_cause r) (pm_wakeup_flag r) (pm_wakeup_timeout r) (pm_wakeup_card_req r) (pm_wakeup_fw_try r) (wakeup_fw_timer_is_set r) (cmd_sent r) (data_sent r) (pending_block r) (vdll_len r) (tx_lock_flag r) (pps_uapsd_mode r) (gen_null_pkt r) (delay_null_pkt r) (keep_wakeup r) (resp_ctrl r) (sleep_period r) (sta_role r) (hs_gap_ff r) (pending_ioctl r) (pending_disconnect r) (rx_pkts_queued r) (delay_task_flag r) (tdls_status r) (radar_blocked r) (bypass_tx r) (wmm_tx r) (acts r).
Definition set_event_cause (x : option fw_event) (r : main_state) : main_state :=
  mk_main (ad r) (ireg r) (data_received r) (event_received r) x (pm_wakeup_flag r) (pm_wakeup_timeout r) (pm_wakeup_card_req r) (pm_wakeup_fw_try r) (wakeup_fw_timer_is_set r) (cmd_sent r) (data_sent r) (pending_block r) (vdll_len r) (tx_lock_flag r) (pps_uapsd_mode r) (gen_null_pkt r) (delay_null_pkt r) (keep_wakeup r) (resp_ctrl r) (sleep_period r) (sta_role r) (hs_gap_ff r) (pending_ioctl r) (pending_disconnect r) (rx_pkts_queued r) (delay_task_flag r) (tdls_status r) (radar_blocked r) (bypass_tx r) (wmm_tx r) (acts r).
Definition set_pm_wakeup_flag (x : bool) (r : main_state) : main_state :=
  mk_main (ad r) (ireg r) (data_received r) (event_received r) (event_cause r) x (pm_wakeup_timeout r) (pm_wakeup_card_req r) (pm_wakeup_fw_try r) (wakeup_fw_timer_is_set r) (cmd_sent r) (data_sent r) (pending_block r) (vdll_len r) (tx_lock_flag r) (pps_uapsd_mode r) (gen_null_pkt r) (delay_null_pkt r) (keep_wakeup r) (resp_ctrl r) (sleep_period r) (sta_role r) (hs_gap_ff r) (pending_ioctl r) (pending_disconnect r) (rx_pkts_queued r) (delay_task_flag r) (tdls_status r) (radar_blocked r) (bypass_tx r) (wmm_tx r) (acts r).
Definition set_pm_wakeup_timeout (x : Z) (r : main_state) : main_state :=
  mk_main (ad r) (ireg r) (data_received r) (event_received r) (event_cause r) (pm_wakeup_flag r) x (pm_wakeup_card_req r) (pm_wakeup_fw_try r) (wakeup_fw_timer_is_set r) (cmd_sent r) (data_sent r) (pending_block r) (vdll_len r) (tx_lock_flag r) (pps_uapsd_mode r) (gen_null_pkt r) (delay_null_pkt r) (keep_wakeup r) (resp_ctrl r) (sleep_period r) (sta_role r) (hs_gap_ff r) (pending_ioctl r) (pending_disconnect r) (rx_pkts_queued r) (delay_task_flag r) (tdls_status r) (radar_blocked r) (bypass_tx r) (wmm_tx r) (acts r).
Definition set_pm_wakeup_card_req (x : bool) (r : main_state) : main_state :=
  mk_main (ad r) (ireg r) (data_received r) (event_received r) (event_cause r) (pm_wakeup_flag r) (pm_wakeup_timeout r) x (pm_wakeup_fw_try r) (wakeup_fw_timer_is_set r) (cmd_sent r) (data_sent r) (pending_block r) (vdll_len r) (tx_lock_flag r) (pps_uapsd_mode r) (gen_null_pkt r) (delay_null_pkt r) (keep_wakeup r) (resp_ctrl r) (sleep_period r) (sta_role r) (hs_gap_ff r) (pending_ioctl r) (pending_disconnect r) (rx_pkts_queued r) (delay_task_flag r) (tdls_status r) (radar_blocked r) (bypass_tx r) (wmm_tx r) (acts r).
Definition set_pm_wakeup_fw_try (x : bool) (r : main_state) : main_state :=
  mk_main (ad r) (ireg r) (data_received r) (event_received r) (event_cause r) (pm_wakeup_flag r) (pm_wakeup_timeout r) (pm_wakeup_card_req r) x (wakeup_fw_timer_is_set r) (cmd_sent r) (data_sent r) (pending_block r) (vdll_len r) (tx_lock_flag r) (pps_uapsd_mode r) (gen_null_pkt r) (delay_null_pkt r) (keep_wakeup r) (resp_ctrl r) (sleep_period r) (sta_role r) (hs_gap_ff r) (pending_ioctl r) (pending_disconnect r) (rx_pkts_queued r) (delay_task_flag r) (tdls_status r) (radar_blocked r) (bypass_tx r) (wmm_tx r) (acts r).
Definition set_wakeup_fw_timer_is_set (x : bool) (r : main_state) : main_state :=
  mk_main (ad r) (ireg r) (data_received r) (event_received r) (event_cause r) (pm_wakeup_flag r) (pm_wakeup_timeout r) (pm_wakeup_card_req r) (pm_wakeup_fw_try r) x (cmd_sent r) (data_sent r) (pending_block r) (vdll_len r) (tx_lock_flag r) (pps_uapsd_mode r) (gen_null_pkt r) (delay_null_pkt r) (keep_wakeup r) (resp_ctrl r) (sleep_period r) (sta_role r) (hs_gap_ff r) (pending_ioctl r) (pending_disconnect r) (rx_pkts_queued r) (delay_task_flag r) (tdls_status r) (radar_blocked r) (bypass_tx r) (wmm_tx r) (acts r).
Definition set_cmd_sent (x : bool) (r : main_state) : main_state :=
  mk_main (ad r) (ireg r) (data_received r) (event_received r) (event_cause r) (pm_wakeup_flag r) (pm_wakeup_timeout r) (pm_wakeup_card_req r) (pm_wakeup_fw_try r) (wakeup_fw_timer_is_set r) x (data_sent r) (pending_block r) (vdll_len r) (tx_lock_flag r) (pps_uapsd_mode r) (gen_null_pkt r) (delay_null_pkt r) (keep_wakeup r) (resp_ctrl r) (sleep_period r) (sta_role r) (hs_gap_ff r) (pending_ioctl r) (pending_disconnect r) (rx_pkts_queued r) (delay_task_flag r) (tdls_status r) (radar_blocked r) (bypass_tx r) (wmm_tx r) (acts r).
Definition set_data_sent (x : bool) (r : main_state) : main_state :=
  mk_main (ad r) (ireg r) (data_received r) (event_received r) (event_cause r) (pm_wakeup_flag r) (pm_wakeup_timeout r) (pm_wakeup_card_req r) (pm_wakeup_fw_try r) (wakeup_fw_timer_is_set r) (cmd_sent r) x (pending_block r) (vdll_len r) (tx_lock_flag r) (pps_uapsd_mode r) (gen_null_pkt r) (delay_null_pkt r) (keep_wakeup r) (resp_ctrl r) (sleep_period r) (sta_role r) (hs_gap_ff r) (pending_ioctl r) (pending_disconnect r) (rx_pkts_queued r) (delay_task_flag r) (tdls_status r) (radar_blocked r) (bypass_tx r) (wmm_tx r) (acts r).
Definition set_pending_block (x : bool) (r : main_state) : main_state :=
  mk_main (ad r) (ireg r) (data_received r) (event_received r) (event_cause r) (pm_wakeup_flag r) (pm_wakeup_timeout r) (pm_wakeup_card_req r) (pm_wakeup_fw_try r) (wakeup_fw_timer_is_set r) (cmd_sent r) (data_sent r) x (vdll_len r) (tx_lock_flag r) (pps_uapsd_mode r) (gen_null_pkt r) (delay_null_pkt r) (keep_wakeup r) (resp_ctrl r) (sleep_period r) (sta_role r) (hs_gap_ff r) (pending_ioctl r) (pending_disconnect r) (rx_pkts_queued r) (delay_task_flag r) (tdls_status r) (radar_blocked r) (bypass_tx r) (wmm_tx r) (acts r).
Definition set_vdll_len (x : bool) (r : main_state) : main_state :=
  mk_main (ad r) (ireg r) (data_received r) (event_received r) (event_cause r) (pm_wakeup_flag r) (pm_wakeup_timeout r) (pm_wakeup_card_req r) (pm_wakeup_fw_try r) (wakeup_fw_timer_is_set r) (cmd_sent r) (data_sent r) (pending_block r) x (tx_lock_flag r) (pps_uapsd_mode r) (gen_null_pkt r) (delay_null_pkt r) (keep_wakeup r) (resp_ctrl r) (sleep_period r) (sta_role r) (hs_gap_ff r) (pending_ioctl r) (pending_disconnect r) (rx_pkts_queued r) (delay_task_flag r) (tdls_status r) (radar_blocked r) (bypass_tx r) (wmm_tx r) (acts r).
Definition set_tx_lock_flag (x : bool) (r : main_state) : main_state :=
  mk_main (ad r) (ireg r) (data_received r) (event_received r) (event_cause r) (pm_wakeup_flag r) (pm_wakeup_timeout r) (pm_wakeup_card_req r) (pm_wakeup_fw_try r) (wakeup_fw_timer_is_set r) (cmd_sent r) (data_sent r) (pending_block r) (vdll_len r) x (pps_uapsd_mode r) (gen_null_pkt r) (delay_null_pkt r) (keep_wakeup r) (resp_ctrl r) (sleep_period r) (sta_role r) (hs_gap_ff r) (pending_ioctl r) (pending_disconnect r) (rx_pkts_queued r) (delay_task_flag r) (tdls_status r) (radar_blocked r) (bypass_tx r) (wmm_tx r) (acts r).
Definition set_pps_uapsd_mode (x : bool) (r : main_state) : main_state :=
  mk_main (ad r) (ireg r) (data_received r) (event_received r) (event_cause r) (pm_wakeup_flag r) (pm_wakeup_timeout r) (pm_wakeup_card_req r) (pm_wakeup_fw_try r) (wakeup_fw_timer_is_set r) (cmd_sent r) (data_sent r) (pending_block r) (vdll_len r) (tx_lock_flag r) x (gen_null_pkt r) (delay_null_pkt r) (keep_wakeup r) (resp_ctrl r) (sleep_period r) (sta_role r) (hs_gap_ff r) (pending_ioctl r) (pending_disconnect r) (rx_pkts_queued r) (delay_task_flag r) (tdls_status r) (radar_blocked r) (bypass_tx r) (wmm_tx r) (acts r).
Definition set_gen_null_pkt (x : bool) (r : main_state) : main_state :=
  mk_main (ad r) (ireg r) (data_received r) (event_received r) (event_cause r) (pm_wakeup_flag r) (pm_wakeup_timeout r) (pm_wakeup_card_req r) (pm_wakeup_fw_try r) (wakeup_fw_timer_is_set r) (cmd_sent r) (data_sent r) (pending_block r) (vdll_len r) (tx_lock_flag r) (pps_uapsd_mode r) x (delay_null_pkt r) (keep_wakeup r) (resp_ctrl r) (sleep_period r) (sta_role r) (hs_gap_ff r) (pending_ioctl r) (pending_disconnect r) (rx_pkts_queued r) (delay_task_flag r) (tdls_status r) (radar_blocked r) (bypass_tx r) (wmm_tx r) (acts r).
Definition set_delay_null_pkt (x : bool) (r : main_state) : main_state :=
  mk_main (ad r) (ireg r) (data_received r) (event_received r) (event_cause r) (pm_wakeup_flag r) (pm_wakeup_timeout r) (pm_wakeup_card_req r) (pm_wakeup_fw_try r) (wakeup_fw_timer_is_set r) (cmd_sent r) (data_sent r) (pending_block r) (vdll_len r) (tx_lock_flag r) (pps_uapsd_mode r) (gen_null_pkt r) x (keep_wakeup r) (resp_ctrl r) (sleep_period r) (sta_role r) (hs_gap_ff r) (pending_ioctl r) (pending_disconnect r) (rx_pkts_queued r) (delay_task_flag r) (tdls_status r) (radar_blocked r) (bypass_tx r) (wmm_tx r) (acts r).
Definition set_keep_wakeup (x : bool) (r : main_state) : main_state :=
  mk_main (ad r) (ireg r) (data_received r) (event_received r) (event_cause r) (pm_wakeup_flag r) (pm_wakeup_timeout r) (pm_wakeup_card_req r) (pm_wakeup_fw_try r) (wakeup_fw_timer_is_set r) (cmd_sent r) (data_sent r) (pending_block r) (vdll_len r) (tx_lock_flag r) (pps_uapsd_mode r) (gen_null_pkt r) (delay_null_pkt r) x (resp_ctrl r) (sleep_period r) (sta_role r) (hs_gap_ff r) (pending_ioctl r) (pending_disconnect r) (rx_pkts_queued r) (delay_task_flag r) (tdls_status r) (radar_blocked r) (bypass_tx r) (wmm_tx r) (acts r).
Definition set_resp_ctrl (x : bool) (r : main_state) : main_state :=
  mk_main (ad r) (ireg r) (data_received r) (event_received r) (event_cause r) (pm_wakeup_flag r) (pm_wakeup_timeout r) (pm_wakeup_card_req r) (pm_wakeup_fw_try r) (wakeup_fw_timer_is_set r) (cmd_sent r) (data_sent r) (pending_block r) (vdll_len r) (tx_lock_flag r) (pps_uapsd_mode r) (gen_null_pkt r) (delay_null_pkt r) (keep_wakeup r) x (sleep_period r) (sta_role r) (hs_gap_ff r) (pending_ioctl r) (pending_disconnect r) (rx_pkts_queued r) (delay_task_flag r) (tdls_status r) (radar_blocked r) (bypass_tx r) (wmm_tx r) (acts r).
Definition set_sleep_period (x : bool) (r : main_state) : main_state :=
  mk_main (ad r) (ireg r) (data_received r) (event_received r) (event_cause r) (pm_wakeup_flag r) (pm_wakeup_timeout r) (pm_wakeup_card_req r) (pm_wakeup_fw_try r) (wakeup_fw_timer_is_set r) (cmd_sent r) (data_sent r) (pending_block r) (vdll_len r) (tx_lock_flag r) (pps_uapsd_mode r) (gen_null_pkt r) (delay_null_pkt r) (keep_wakeup r) (resp_ctrl r) x (sta_role r) (hs_gap_ff r) (pending_ioctl r) (pending_disconnect r) (rx_pkts_queued r) (delay_task_flag r) (tdls_status r) (radar_blocked r) (bypass_tx r) (wmm_tx r) (acts r).
Definition set_sta_role (x : bool) (r : main_state) : main_state :=
  mk_main (ad r) (ireg r) (data_received r) (event_received r) (event_cause r) (pm_wakeup_flag r) (pm_wakeup_timeout r) (pm_wakeup_card_req r) (pm_wakeup_fw_try r) (wakeup_fw_timer_is_set r) (cmd_sent r) (data_sent r) (pending_block r) (vdll_len r) (tx_lock_flag r) (pps_uapsd_mode r) (gen_null_pkt r) (delay_null_pkt r) (keep_wakeup r) (resp_ctrl r) (sleep_period r) x (hs_gap_ff r) (pending_ioctl r) (pending_disconnect r) (rx_pkts_queued r) (delay_task_flag r) (tdls_status r) (radar_blocked r) (bypass_tx r) (wmm_tx r) (acts r).
Definition set_hs_gap_ff (x : bool) (r : main_state) : main_state :=
  mk_main (ad r) (ireg r) (data_received r) (event_received r) (event_cause r) (pm_wakeup_flag r) (pm_wakeup_timeout r) (pm_wakeup_card_req r) (pm_wakeup_fw_try r) (wakeup_fw_timer_is_set r) (cmd_sent r) (data_sent r) (pending_block r) (vdll_len r) (tx_lock_flag r) (pps_uapsd_mode r) (gen_null_pkt r) (delay_null_pkt r) (keep_wakeup r) (resp_ctrl r) (sleep_period r) (sta_role r) x (pending_ioctl r) (pending_disconnect r) (rx_pkts_queued r) (delay_task_flag r) (tdls_status r) (radar_blocked r) (bypass_tx r) (wmm_tx r) (acts r).
Definition set_pending_ioctl (x : bool) (r : main_state) : main_state :=
  mk_main (ad r) (ireg r) (data_received r) (event_received r) (event_cause r) (pm_wakeup_flag r) (pm_wakeup_timeout r) (pm_wakeup_card_req r) (pm_wakeup_fw_try r) (wakeup_fw_timer_is_set r) (cmd_sent r) (data_sent r) (pending_block r) (vdll_len r) (tx_lock_flag r) (pps_uapsd_mode r) (gen_null_pkt r) (delay_null_pkt r) (keep_wakeup r) (resp_ctrl r) (sleep_period r) (sta_role r) (hs_gap_ff r) x (pending_disconnect r) (rx_pkts_queued r) (delay_task_flag r) (tdls_status r) (radar_blocked r) (bypass_tx r) (wmm_tx r) (acts r).
Definition set_pending_disconnect (x : bool) (r : main_state) : main_state :=
  mk_main (ad r) (ireg r) (data_received r) (event_received r) (event_cause r) (pm_wakeup_flag r) (pm_wakeup_timeout r) (pm_wakeup_card_req r) (pm_wakeup_fw_try r) (wakeup_fw_timer_is_set r) (cmd_sent r) (data_sent r) (pending_block r) (vdll_len r) (tx_lock_flag r) (pps_uapsd_mode r) (gen_null_pkt r) (delay_null_pkt r) (keep_wakeup r) (resp_ctrl r) (sleep_period r) (sta_role r) (hs_gap_ff r) (pending_ioctl r) x (rx_pkts_queued r) (delay_task_flag r) (tdls_status r) (radar_blocked r) (bypass_tx r) (wmm_tx r) (acts r).
Definition set_rx_pkts_queued (x : Z) (r : main_state) : main_state :=
  mk_main (ad r) (ireg r) (data_received r) (event_received r) (event_cause r) (pm_wakeup_flag r) (pm_wakeup_timeout r) (pm_wakeup_card_req r) (pm_wakeup_fw_try r) (wakeup_fw_timer_is_set r) (cmd_sent r) (data_sent r) (pending_block r) (vdll_len r) (tx_lock_flag r) (pps_uapsd_mode r) (gen_null_pkt r) (delay_null_pkt r) (keep_wakeup r) (resp_ctrl r) (sleep_period r) (sta_role r) (hs_gap_ff r) (pending_ioctl r) (pending_disconnect r) x (delay_task_flag r) (tdls_status r) (radar_blocked r) (bypass_tx r) (wmm_tx r) (acts r).
Definition set_delay_task_flag (x : bool) (r : main_state) : main_state :=
  mk_main (ad r) (ireg r) (data_received r) (event_received r) (event_cause r) (pm_wakeup_flag r) (pm_wakeup_timeout r) (pm_wakeup_card_req r) (pm_wakeup_fw_try r) (wakeup_fw_timer_is_set r) (cmd_sent r) (data_sent r) (pending_block r) (vdll_len r) (tx_lock_flag r) (pps_uapsd_mode r) (gen_null_pkt r) (delay_null_pkt r) (keep_wakeup r) (resp_ctrl r) (sleep_period r) (sta_role r) (hs_gap_ff r) (pending_ioctl r) (pending_disconnect r) (rx_pkts_queued r) x (tdls_status r) (radar_blocked r) (bypass_tx r) (wmm_tx r) (acts r).
Definition set_tdls_status (x : tdls) (r : main_state) : main_state :=
  mk_main (ad r) (ireg r) (data_received r) (event_received r) (event_cause r) (pm_wakeup_flag r) (pm_wakeup_timeout r) (pm_wakeup_card_req r) (pm_wakeup_fw_try r) (wakeup_fw_timer_is_set r) (cmd_sent r) (data_sent r) (pending_block r) (vdll_len r) (tx_lock_flag r) (pps_uapsd_mode r) (gen_null_pkt r) (delay_null_pkt r) (keep_wakeup r) (resp_ctrl r) (sleep_period r) (sta_role r) (hs_gap_ff r) (pending_ioctl r) (pending_disconnect r) (rx_pkts_queued r) (delay_task_flag r) x (radar_blocked r) (bypass_tx r) (wmm_tx r) (acts r).
Definition set_radar_blocked (x : bool) (r : main_state) : main_state :=
  mk_main (ad r) (ireg r) (data_received r) (event_received r) (event_cause r) (pm_wakeup_flag r) (pm_wakeup_timeout r) (pm_wakeup_card_req r) (pm_wakeup_fw_try r) (wakeup_fw_timer_is_set r) (cmd_sent r) (data_sent r) (pending_block r) (vdll_len r) (tx_lock_flag r) (pps_uapsd_mode r) (gen_null_pkt r) (delay_null_pkt r) (keep_wakeup r) (resp_ctrl r) (sleep_period r) (sta_role r) (hs_gap_ff r) (pending_ioctl r) (pending_disconnect r) (rx_pkts_queued r) (delay_task_flag r) (tdls_status r) x (bypass_tx r) (wmm_tx r) (acts r).
Definition set_bypass_tx (x : nat) (r : main_state) : main_state :=
  mk_main (ad r) (ireg r) (data_received r) (event_received r) (event_cause r) (pm_wakeup_flag r) (pm_wakeup_timeout r) (pm_wakeup_card_req r) (pm_wakeup_fw_try r) (wakeup_fw_timer_is_set r) (cmd_sent r) (data_sent r) (pending_block r) (vdll_len r) (tx_lock_flag r) (pps_uapsd_mode r) (gen_null_pkt r) (delay_null_pkt r) (keep_wakeup r) (resp_ctrl r) (sleep_period r) (sta_role r) (hs_gap_ff r) (pending_ioctl r) (pending_disconnect r) (rx_pkts_queued r) (delay_task_flag r) (tdls_status r) (radar_blocked r) x (wmm_tx r) (acts r).
Definition set_wmm_tx (x : nat) (r : main_state) : main_state :=
  mk_main (ad r) (ireg r) (data_received r) (event_received r) (event_cause r) (pm_wakeup_flag r) (pm_wakeup_timeout r) (pm_wakeup_card_req r) (pm_wakeup_fw_try r) (wakeup_fw_timer_is_set r) (cmd_sent r) (data_sent r) (pending_block r) (vdll_len r) (tx_lock_flag r) (pps_uapsd_mode r) (gen_null_pkt r) (delay_null_pkt r) (keep_wakeup r) (resp_ctrl r) (sleep_period r) (sta_role r) (hs_gap_ff r) (pending_ioctl r) (pending_disconnect r) (rx_pkts_queued r) (delay_task_flag r) (tdls_status r) (radar_blocked r) (bypass_tx r) x (acts r).
Definition set_acts (x : list action) (r : main_state) : main_state :=
  mk_main (ad r) (ireg r) (data_received r) (event_received r) (event_cause r) (pm_wakeup_flag r) (pm_wakeup_timeout r) (pm_wakeup_card_req r) (pm_wakeup_fw_try r) (wakeup_fw_timer_is_set r) (cmd_sent r) (data_sent r) (pending_block r) (vdll_len r) (tx_lock_flag r) (pps_uapsd_mode r) (gen_null_pkt r) (delay_null_pkt r) (keep_wakeup r) (resp_ctrl r) (sleep_period r) (sta_role r) (hs_gap_ff r) (pending_ioctl r) (pending_disconnect r) (rx_pkts_queued r) (delay_task_flag r) (tdls_status r) (radar_blocked r) (bypass_tx r) (wmm_tx r) x.

(** ** Helpers *)

Definition on_ad (f : mlan_adapter → mlan_adapter) (s : main_state) : main_state := set_ad (f (ad s)) s.
Definition ps (s : main_state) : PS_STATE := ps_state (ad s).
Definition put_ps (x : PS_STATE) (s : main_state) : main_state := on_ad (set_ps_state x) s.
Definition act (x : action) (s : main_state) : main_state := set_acts (acts s ++ [x]) s.

Definition wlan_is_cmd_pending (s : main_state) : bool := negb (bool_decide (cmd_pending_q (ad s) = [])).
Definition wlan_bypass_tx_list_empty (s : main_state) : bool := (bypass_tx s =? 0)%nat.
Definition wlan_wmm_lists_empty (s : main_state) : bool := (wmm_tx s =? 0)%nat.
Definition IS_CARD_RX_RCVD (s : main_state) : bool :=
  cmd_resp_received (ad s) || event_received s || data_received s.
Definition wlan_is_tdls_link_chan_switching (t : tdls) : bool := bool_decide (t = TDLS_SWITCHING_CHANNEL).
Definition wlan_is_send_cmd_allowed (t : tdls) : bool :=
  match t with TDLS_SWITCHING_CHANNEL | TDLS_IN_OFF_CHANNEL => false | TDLS_OTHER => true end.

(** ** Waking the card *)

(** [wlan_pm_sdio_wakeup_card]; the write to the card has no other effect here. *)
Definition wakeup_card (timeout : bool) (s : main_state) : main_state :=
  act ActWakeup (if timeout then set_wakeup_fw_timer_is_set true s else s).

(** [mlan_pm_wakeup_card]. *)
Definition mlan_pm_wakeup_card (keep : bool) (s : main_state) : main_state :=
  set_keep_wakeup keep (if keep then wakeup_card false s else s).

(** The timer started by [wakeup_card] fires. *)
Definition wlan_wakeup_card_timeout_func (s : main_state) : main_state :=
  set_wakeup_fw_timer_is_set false
    (if bool_decide (ps s = PS_STATE_AWAKE) then s
     else
       let s := set_pm_wakeup_flag true (set_pm_wakeup_timeout (u8 (pm_wakeup_timeout s + 1)) s) in
       on_ad (wlan_recv_event (wlan_get_priv (ad s)) MLAN_EVENT_ID_DRV_DEFER_HANDLING) s).

(** The interrupt handler, [sdio_ireg] being the status it reads. *)
Definition wlan_sdio_interrupt (sdio_ireg : Z) (s : main_state) : main_state :=
  if sdio_ireg =? 0 then s
  else
    let s := set_ireg (Z.lor (ireg s) sdio_ireg) (set_pm_wakeup_timeout 0 s) in
    if negb (pps_uapsd_mode s) && bool_decide (ps s = PS_STATE_SLEEP)
    then set_pm_wakeup_card_req false (put_ps PS_STATE_AWAKE (set_pm_wakeup_fw_try false s)) else s.

(** What the recovery finds: the firmware status cannot be read, the card has no
    such registers, the firmware is stuck, it is active (with the interrupt status
    read then), it is awake without heart beats, or it sleeps. *)
Inductive fw_health := FwUnreadable | FwNoRegisters | FwStuck | FwActive (sdio_ireg : Z) | FwNoHeartbeat | FwAsleep.

Definition wlan_pm_sdio_wakeup_timeout_recovery (h : fw_health) (s : main_state) : mlan_status * main_state :=
  match h with
  | FwUnreadable | FwNoRegisters | FwAsleep => (MLAN_STATUS_FAILURE, s)
  | FwStuck | FwNoHeartbeat => (MLAN_STATUS_FAILURE, set_pm_wakeup_timeout 0xff s)
  | FwActive bits =>
      let s := wlan_sdio_interrupt bits s in
      (MLAN_STATUS_SUCCESS,
       set_pm_wakeup_card_req false (put_ps PS_STATE_AWAKE
         (set_pm_wakeup_fw_try false (set_pm_wakeup_timeout 0 s))))
  end.

(** ** Going to sleep *)

(** [wlan_sdio_host_to_card] with a command. *)
Definition host_to_card_cmd (h2c : mlan_status) (s : main_state) : main_state :=
  set_cmd_sent (negb (bool_decide (h2c = MLAN_STATUS_FAILURE))) s.

Definition wlan_dnld_sleep_confirm_cmd (h2c : mlan_status) (s : main_state) : main_state :=
  match wlan_get_priv (ad s) with
  | None => s
  | Some p =>
      let idle := negb (cmd_sent s) && bool_decide (curr_cmd (ad s) = None) in
      let s := act (ActSleepConfirm (ps s) idle) (on_ad (λ a, set_seq_num (u16 (seq_num a + 1)) a) s) in
      let s :=
        if sta_role s then
          let s := put_ps (if resp_ctrl s then PS_STATE_SLEEP_CFM else PS_STATE_SLEEP) s in
          if negb (resp_ctrl s) && is_hs_configured (ad s) && negb (sleep_period s)
          then on_ad (wlan_host_sleep_activated_event (Some p) true) (set_pm_wakeup_card_req true s) else s
        else put_ps PS_STATE_SLEEP_CFM s in
      host_to_card_cmd h2c s
  end.

(** [wlan_check_ps_cond] (an SDIO card has neither pending transmit nor receive
    descriptors). *)
Definition wlan_check_ps_cond (h2c : mlan_status) (s : main_state) : main_state :=
  if negb (cmd_sent s) && bool_decide (curr_cmd (ad s) = None) && negb (keep_wakeup s)
     && bool_decide (event_cause s = None) && negb (IS_CARD_RX_RCVD s)
  then wlan_dnld_sleep_confirm_cmd h2c s else s.

(** The response to the sleep confirmation. *)
Definition wlan_process_sleep_confirm_resp (r : cmd_body) (s : main_state) : main_state :=
  if negb (Z.land (command r) HostCmd_CMD_ID_MASK =? HostCmd_CMD_802_11_PS_MODE_ENH) then s
  else if negb (result r =? 0) then put_ps PS_STATE_AWAKE (set_pm_wakeup_card_req false s)
  else
    let s := set_pm_wakeup_card_req true s in
    let s := if is_hs_configured (ad s)
             then on_ad (wlan_host_sleep_activated_event (wlan_get_priv (ad s)) true) s else s in
    put_ps PS_STATE_SLEEP s.

(** ** Null packets and the power-save events *)

(** [wlan_send_null_packet]: [o] is [None] when it is not handed to the bus for a
    reason other than [data_sent], otherwise what the bus returns and leaves in
    [data_sent]. *)
Definition wlan_send_null_packet (o : option (mlan_status * bool)) (s : main_state) : mlan_status * main_state :=
  if data_sent s then (MLAN_STATUS_FAILURE, s)
  else
    match o with
    | None => (MLAN_STATUS_FAILURE, s)
    | Some (r, ds) =>
        let s := set_data_sent ds (act (ActNull (ps s)) s) in
        (r, match r with
            | MLAN_STATUS_SUCCESS | MLAN_STATUS_PENDING => set_tx_lock_flag true s
            | _ => s
            end)
    end.

Definition wlan_check_last_packet_indication (s : main_state) : bool * main_state :=
  if negb (sleep_period s) then (false, s)
  else if wlan_bypass_tx_list_empty s && wlan_wmm_lists_empty s
          && negb (cmd_sent s) && bool_decide (curr_cmd (ad s) = None) && negb (wlan_is_cmd_pending s)
  then (true, set_delay_null_pkt false s) else (false, set_delay_null_pkt true s).

(** The sleep event, the same for both roles. *)
Definition event_ps_sleep (h2c : mlan_status) (s : main_state) : main_state :=
  if bool_decide (ps s = PS_STATE_SLEEP_CFM) then s
  else wlan_check_ps_cond h2c (put_ps PS_STATE_PRE_SLEEP s).

(** The driver is awake again. *)
Definition now_awake (s : main_state) : main_state :=
  set_pm_wakeup_fw_try false (set_pm_wakeup_card_req false (put_ps PS_STATE_AWAKE s)).

(** The awake event of a station; the driver stays as it is when a null packet
    goes out in its place. *)
Definition event_ps_awake_sta (uapsd : bool) (null : option (mlan_status * bool)) (s : main_state) : main_state :=
  let s := if negb (pps_uapsd_mode s) && uapsd && sleep_period s then set_pps_uapsd_mode true s else s in
  if bool_decide (ps s = PS_STATE_SLEEP_CFM) then s
  else
    let s := set_tx_lock_flag false s in
    if pps_uapsd_mode s && gen_null_pkt s then
      let '(last, s) := wlan_check_last_packet_indication s in
      if last && negb (data_sent s) then
        let '(r, s) := wlan_send_null_packet null s in
        if bool_decide (r = MLAN_STATUS_SUCCESS) then s else now_awake s
      else now_awake s
    else now_awake s.
Definition event_ps_awake_uap (s : main_state) : main_state :=
  if bool_decide (ps s = PS_STATE_SLEEP_CFM) then s else now_awake s.

(** ** Interrupts *)

(** What the card hands up on the command port; [UploadOther] is a type that is
    none of the others. *)
Inductive upload := UploadCmd (r : cmd_body) | UploadEvent (e : fw_event) | UploadData | UploadOther.

(** [wlan_decode_rx_packet] of a command response, an event, a data packet (which
    waits for the receive process, [rx_work_flag] being set). *)
Definition decode_cmd (r : cmd_body) (s : main_state) : main_state :=
  let s := if cmd_sent s && negb (vdll_len s) then set_cmd_sent false s else s in
  match curr_cmd (ad s) with
  | None => if bool_decide (ps s = PS_STATE_SLEEP_CFM) then wlan_process_sleep_confirm_resp r s else s
  | Some _ => on_ad (recv_cmd_resp r) s
  end.
Definition decode_event (e : fw_event) (s : main_state) : main_state :=
  set_event_received true (set_event_cause (Some e) s).
Definition decode_data (s : main_state) : main_state :=
  set_data_received true (set_rx_pkts_queued (rx_pkts_queued s + 1) s).
Definition decode_upload (u : upload) (s : main_state) : main_state :=
  match u with UploadCmd r => decode_cmd r s | UploadEvent e => decode_event e s | UploadData => decode_data s | UploadOther => s end.

(** A response to the sleep confirmation came in: data received with it must not
    wake the driver again. *)
Definition just_asleep (before : PS_STATE) (s : main_state) : main_state :=
  if bool_decide (before = PS_STATE_SLEEP_CFM) && bool_decide (ps s = PS_STATE_SLEEP)
  then set_data_received false s else s.

(** The interrupt status has bit [b]. *)
Definition has_bit (b bits : Z) : bool := negb (Z.land bits b =? 0).

(** [wlan_process_int_status]: [up] is the upload of the command port, [None]
    when reading it fails; [wr_free] that the next data port is free; [pkts] the
    data packets received and [rx_ok] that receiving them ended without error. *)
Record int_answer := mk_int { up : option upload; wr_free : bool; pkts : nat; rx_ok : bool }.
Definition wlan_process_int_status (x : int_answer) (s : main_state) : main_state :=
  let before := ps s in
  let bits := ireg s in
  let s := set_ireg 0 s in
  if bits =? 0 then s
  else
    let s := if has_bit DN_LD_CMD_PORT_HOST_INT_STATUS bits then set_cmd_sent false s else s in
    match (if has_bit UP_LD_CMD_PORT_HOST_INT_STATUS bits then up x else Some UploadOther) with
    | None => s
    | Some u =>
        let s := if has_bit UP_LD_CMD_PORT_HOST_INT_STATUS bits then just_asleep before (decode_upload u s) else s in
        let s := if has_bit DN_LD_HOST_INT_STATUS bits && wr_free x then set_data_sent false s else s in
        if has_bit UP_LD_HOST_INT_STATUS bits then
          let s := Nat.iter (pkts x) decode_data s in
          if rx_ok x then just_asleep before s else s
        else s
    end.

(** Waking through the host-sleep configuration. *)
Definition wlan_process_hs_config (s : main_state) : main_state :=
  if hs_gap_ff s then wakeup_card true s else s.
