(* ===== verification/MainLoop.v ===== *)
(** * MainLoop: the main process

    The body of [mlan_main_process] (src/mlan/mlan_shim.c) for an SDIO card: a
    pass takes in interrupts, wakes the card when it sleeps and there is
    something to send, processes a command response and an event, confirms sleep,
    sends the next command and data, and starts again until nothing is left to do.

    A pass is cut into phases; between two of them other threads, interrupts and
    timers may change the state ([env_step]), and the phases are the body of the
    protocol of [MainProc].  The transmission of packets, the handlers of events
    other than the power-save events and the completion of the initialisation are
    handlers given to the loop; [MainHandlers] is what it asks of them. *)

From S2P Require Import Prelude CmdQueue CmdInv CmdSafe CmdResp CmdCancel CmdRun CmdFlow CmdStill PowerSave MainProc.

(** ** The loop *)

Record handlers := mk_handlers {
  h_pending_ioctl : main_state → option main_state;  (** wlan_process_pending_ioctl *)
  h_reset_connect : main_state → option main_state;  (** wlan_reset_connect_state *)
  h_event : Z → main_state → option main_state;      (** ops.process_event, other events *)
  h_bypass : main_state → option main_state;         (** wlan_process_bypass_tx *)
  h_wmm : main_state → option main_state;            (** wlan_wmm_process_tx *)
  h_resp : handler; h_hs : handler; h_init : init_handler;
  h_init_complete : main_state → option main_state;  (** wlan_init_fw_complete *)
  h_hw_spec_complete : main_state → option main_state  (** wlan_get_hw_spec_complete *)
}.

(** What the card and the bus answer in a pass. *)
Record answers := mk_answers {
  a_int : int_answer; a_health : fw_health; a_confirm : mlan_status; a_cmd : mlan_status;
  a_vdll : bool; a_null : option (mlan_status * bool)
}.

(** Where the pass is: before the phase of that name, or between waking the card
    and recording it. *)
Inductive point :=
| PStart | PInt | PTimeout | PWakeup | PWindow | PGate | PResp | PEvent | PConfirm | PVdll | PCmd | PBypass | PWmm | PNull.
#[export] Instance point_eq_dec : EqDecision point.
Proof. solve_decision. Defined.
(** Why the loop ended. *)
Inductive stop := StopNotReady | StopPaused | StopIdle | StopFailed | StopNull.
Inductive flow := Goto (p : point) (s : main_state) | Stop (v : stop) (s : main_state).

Section loop.
Context (H : handlers) (A : answers).

Definition if_flag (b : bool) (f : main_state → option main_state) (s : main_state) : option main_state :=
  if b then f s else Some s.

Definition phase_start (s : main_state) : option flow :=
  if bool_decide (hw_status (ad s) = WlanHardwareStatusClosing) || bool_decide (hw_status (ad s) = WlanHardwareStatusNotReady)
  then Some (Stop StopNotReady s)
  else
    s ← if_flag (pending_ioctl s) (λ s, set_pending_ioctl false <$> h_pending_ioctl H s) s;
    s ← if_flag (pending_disconnect s) (λ s, set_pending_disconnect false <$> h_reset_connect H s) s;
    Some (Goto PInt s).

Definition phase_int (s : main_state) : flow :=
  if rx_pkts_queued s >? HIGH_RX_PENDING then Stop StopPaused (set_delay_task_flag true s)
  else if ireg s =? 0 then Goto PTimeout s
  else
    let s := if hs_activated (ad s) then wlan_process_hs_config s else s in
    Goto PTimeout (wlan_process_int_status (a_int A) s).

(** The wake-up timer has fired. *)
Definition phase_timeout (s : main_state) : flow :=
  if bool_decide (ps s = PS_STATE_SLEEP) && pm_wakeup_flag s then
    let s := set_pm_wakeup_flag false s in
    let '(ret, s) := if pm_wakeup_timeout s =? 2 then wlan_pm_sdio_wakeup_timeout_recovery (a_health A) s
                     else (MLAN_STATUS_FAILURE, s) in
    if bool_decide (ret = MLAN_STATUS_SUCCESS) then Goto PStart s
    else if pm_wakeup_timeout s >? 2
    then Goto PWakeup (act ActDump (on_ad (wlan_recv_event (wlan_get_priv (ad s)) MLAN_EVENT_ID_DRV_DBG_DUMP) s))
    else Goto PWindow (wakeup_card true s)
  else Goto PWakeup s.

(** Something to send while the card sleeps. *)
Definition to_send (s : main_state) : bool :=
  wlan_is_cmd_pending s || negb (wlan_bypass_tx_list_empty s) || negb (wlan_wmm_lists_empty s).
Definition phase_wakeup (s : main_state) : flow :=
  if bool_decide (ps s = PS_STATE_SLEEP) && (pm_wakeup_card_req s && negb (pm_wakeup_fw_try s)) && to_send s
  then Goto PWindow (wakeup_card true s) else Goto PGate s.
Definition phase_window (s : main_state) : flow := Goto PStart (set_pm_wakeup_fw_try true s).

Definition hs_deactivate (s : main_state) : main_state :=
  on_ad (λ a, wlan_host_sleep_activated_event (wlan_get_priv a) false (set_is_hs_configured false a)) s.
Definition hs_deactivate_if (s : main_state) : main_state := if hs_activated (ad s) then hs_deactivate s else s.

(** Confirm a sleep request received before. *)
Definition confirm_sleep (s : main_state) : main_state :=
  if bool_decide (ps s = PS_STATE_PRE_SLEEP) && negb (cmd_sent s) && bool_decide (curr_cmd (ad s) = None)
     && negb (pending_block s)
  then wlan_check_ps_cond (a_confirm A) s else s.

(** No data can be sent, no command can be sent. *)
Definition no_data (s : main_state) : bool :=
  data_sent s || wlan_is_tdls_link_chan_switching (tdls_status s)
  || (wlan_bypass_tx_list_empty s && wlan_wmm_lists_empty s) || radar_blocked s.
Definition no_cmd (s : main_state) : bool :=
  cmd_sent s || negb (bool_decide (curr_cmd (ad s) = None)) || negb (wlan_is_send_cmd_allowed (tdls_status s))
  || negb (wlan_is_cmd_pending s).

Definition received (s : main_state) : bool := IS_CARD_RX_RCVD s || (negb (cmd_sent s) && pending_block s).

Definition phase_gate (s : main_state) : flow :=
  if received s then
    let s := set_pm_wakeup_fw_try false (hs_deactivate_if (set_data_received false s)) in
    let s := if bool_decide (ps s = PS_STATE_SLEEP) then put_ps PS_STATE_AWAKE s else s in
    Goto PResp (if wakeup_fw_timer_is_set s then set_wakeup_fw_timer_is_set false s else s)
  else if pm_wakeup_fw_try s then Stop StopIdle s
  else
    let s := confirm_sleep s in
    if negb (bool_decide (ps s = PS_STATE_AWAKE)) || tx_lock_flag s then Stop StopIdle s
    else if no_data s && no_cmd s then Stop StopIdle s
    else Goto PResp s.

Definition phase_resp (s : main_state) : option flow :=
  if cmd_resp_received (ad s) then
    '(_, a) ← wlan_process_cmdresp (h_resp H) (h_hs H) (h_init H) (set_cmd_resp_received false (ad s));
    let s := set_ad a s in
    if bool_decide (hw_status a = WlanHardwareStatusInitdone)
    then Goto PEvent <$> h_init_complete H (on_ad (set_hw_status WlanHardwareStatusReady) s)
    else if bool_decide (hw_status a = WlanHardwareStatusGetHwSpecdone)
    then Goto PEvent <$> h_hw_spec_complete H (on_ad (set_hw_status WlanHardwareStatusInitializing) s)
    else Some (Goto PEvent s)
  else Some (Goto PEvent s).

(** [wlan_process_event]: the handler of the role, then the event is done. *)
Definition wlan_process_event (s : main_state) : option main_state :=
  match wlan_get_priv (ad s), event_cause s with
  | Some _, Some e =>
      set_event_cause None <$>
        match e with
        | EVENT_PS_SLEEP => Some (event_ps_sleep (a_confirm A) s)
        | EVENT_PS_AWAKE true uapsd => Some (event_ps_awake_sta uapsd (a_null A) s)
        | EVENT_PS_AWAKE false _ => Some (event_ps_awake_uap s)
        | EVENT_OTHER cause => h_event H cause s
        end
  | _, _ => Some (set_event_cause None s)
  end.
Definition phase_event (s : main_state) : option flow :=
  Goto PConfirm <$> if_flag (event_received s) (λ s, wlan_process_event (set_event_received false s)) s.

Definition phase_confirm (s : main_state) : flow :=
  let s := confirm_sleep s in
  if negb (bool_decide (ps s = PS_STATE_AWAKE)) || tx_lock_flag s then Goto PStart s else Goto PVdll s.

(** A VDLL block that waits goes out; [a_vdll] tells whether it reached the bus. *)
Definition phase_vdll (s : main_state) : flow :=
  Goto PCmd (if negb (cmd_sent s) && pending_block s
             then set_pending_block false (if a_vdll A then set_cmd_sent true s else s) else s).

(** [wlan_exec_next_cmd] with the effect of the bus on [cmd_sent], where a command
    was handed to it. *)
Definition exec_next (s : main_state) : option (mlan_status * main_state) :=
  '(ret, a) ← wlan_exec_next_cmd (a_cmd A) (ad s);
  Some (ret, if bool_decide (sends a = sends (ad s)) then set_ad a s
             else host_to_card_cmd (a_cmd A) (set_ad a s)).
Definition phase_cmd (s : main_state) : option flow :=
  if negb (cmd_sent s) && bool_decide (curr_cmd (ad s) = None) && wlan_is_send_cmd_allowed (tdls_status s) then
    '(ret, s) ← exec_next s;
    Some (if bool_decide (ret = MLAN_STATUS_FAILURE) then Stop StopFailed s else Goto PBypass s)
  else Some (Goto PBypass s).

Definition data_open (s : main_state) : bool :=
  negb (data_sent s) && negb (radar_blocked s) && negb (wlan_is_tdls_link_chan_switching (tdls_status s)).
Definition phase_bypass (s : main_state) : option flow :=
  Goto PWmm <$> if_flag (data_open s && negb (wlan_bypass_tx_list_empty s)) (λ s, hs_deactivate_if <$> h_bypass H s) s.
Definition phase_wmm (s : main_state) : option flow :=
  Goto PNull <$> if_flag (data_open s && negb (wlan_wmm_lists_empty s)) (λ s, hs_deactivate_if <$> h_wmm H s) s.

(** The null packet that was held back. *)
Definition phase_null (s : main_state) : flow :=
  if delay_null_pkt s && negb (cmd_sent s) && bool_decide (curr_cmd (ad s) = None) && negb (wlan_is_cmd_pending s)
     && wlan_bypass_tx_list_empty s && wlan_wmm_lists_empty s
  then
    let '(r, s) := wlan_send_null_packet (a_null A) s in
    Stop StopNull (if bool_decide (r = MLAN_STATUS_SUCCESS) then set_delay_null_pkt false s else s)
  else Goto PStart s.

Definition phase (p : point) (s : main_state) : option flow :=
  match p with
  | PStart => phase_start s | PInt => Some (phase_int s) | PTimeout => Some (phase_timeout s)
  | PWakeup => Some (phase_wakeup s) | PWindow => Some (phase_window s) | PGate => Some (phase_gate s)
  | PResp => phase_resp s | PEvent => phase_event s | PConfirm => Some (phase_confirm s)
  | PVdll => Some (phase_vdll s) | PCmd => phase_cmd s | PBypass => phase_bypass s | PWmm => phase_wmm s
  | PNull => Some (phase_null s)
  end.
End loop.

(** ** What happens beside the loop *)

(** Interrupts ([irq] tells whether they can come), timers, callers of the
    command queue, packets to send, the receive process, ioctls. *)
Inductive env_step (irq : bool) (s : main_state) : main_state → Prop :=
| env_interrupt bits : irq = true → env_step irq s (wlan_sdio_interrupt bits s)
| env_wakeup_timer : wakeup_fw_timer_is_set s = true → env_step irq s (wlan_wakeup_card_timeout_func s)
| env_queue op l a : caller_op op = true → op_ok op (ad s) → run_op op (ad s) = Some (l, a) → env_step irq s (set_ad a s)
| env_bypass : env_step irq s (set_bypass_tx (S (bypass_tx s)) s)
| env_wmm : env_step irq s (set_wmm_tx (S (wmm_tx s)) s)
| env_rx : 0 < rx_pkts_queued s → env_step irq s (set_rx_pkts_queued (rx_pkts_queued s - 1) s)
| env_resume : rx_pkts_queued s < LOW_RX_PENDING → env_step irq s (set_delay_task_flag false s)
| env_keep keep : env_step irq s (mlan_pm_wakeup_card keep s)
| env_ioctl : env_step irq s (set_pending_ioctl true s)
| env_disconnect : env_step irq s (set_pending_disconnect true s).

(** ** The invariant *)

Definition asleep (x : PS_STATE) : Prop := x = PS_STATE_SLEEP_CFM ∨ x = PS_STATE_SLEEP.

(** Sleep is confirmed only on request and with no command under way; data goes
    out only while the card is awake. *)
Definition good_act (x : action) : Prop :=
  match x with
  | ActSleepConfirm p idle => p = PS_STATE_PRE_SLEEP ∧ idle = true
  | ActData p => p = PS_STATE_AWAKE
  | _ => True
  end.

(** The command queue is in order, no command is outstanding while the card
    sleeps, and everything sent so far was sent in the right state. *)
Definition pinv (s : main_state) : Prop :=
  inv [] (ad s) ∧ usb (ad s) = false ∧ (asleep (ps s) → curr_cmd (ad s) = None) ∧ Forall good_act (acts s).

(** The card is being waked: a timer runs for it, has fired, or a dump was asked
    for. *)
Definition waking (s : main_state) : Prop :=
  wakeup_fw_timer_is_set s = true ∨ pm_wakeup_flag s = true ∨ ActDump ∈ acts s.
Definition wake_ok (s : main_state) : Prop := pm_wakeup_fw_try s = true → ps s = PS_STATE_SLEEP ∧ waking s.

(** What holds at the points of a pass: behind the gate no wake-up is under way,
    and from the download on the card is awake. *)
Definition behind_gate (p : point) : bool :=
  match p with PResp | PEvent | PConfirm | PVdll | PCmd | PBypass | PWmm | PNull => true | _ => false end.
Definition sending (p : point) : bool :=
  match p with PVdll | PCmd | PBypass | PWmm | PNull => true | _ => false end.
Definition at_point (p : point) (s : main_state) : Prop :=
  (behind_gate p = true → pm_wakeup_fw_try s = false) ∧ (sending p = true → ps s = PS_STATE_AWAKE).
Definition wake_at (p : point) (s : main_state) : Prop :=
  wake_ok s ∧ (p = PWindow → ps s = PS_STATE_SLEEP ∧ waking s).

Definition loop_inv (quiet : bool) (p : point) (s : main_state) : Prop :=
  pinv s ∧ at_point p s ∧ (quiet = true → wake_at p s).

(** What handlers leave alone. *)
Record calm (s s' : main_state) : Prop := mk_calm {
  calm_ps : ps s' = ps s;
  calm_try : pm_wakeup_fw_try s' = pm_wakeup_fw_try s;
  calm_timer : wakeup_fw_timer_is_set s' = wakeup_fw_timer_is_set s;
  calm_flag : pm_wakeup_flag s' = pm_wakeup_flag s;
  calm_acts x : x ∈ acts s → x ∈ acts s'
}.

(** The contract of the handlers. *)
Definition calm_handler (P : main_state → Prop) (f : main_state → option main_state) : Prop :=
  ∀ s, pinv s → P s → ∃ s', f s = Some s' ∧ pinv s' ∧ calm s s'.
Class MainHandlers (H : handlers) := {
  pending_ioctl_ok : calm_handler (λ _, True) (h_pending_ioctl H);
  reset_connect_ok : calm_handler (λ _, True) (h_reset_connect H);
  event_ok cause : calm_handler (λ _, True) (h_event H cause);
  bypass_ok : calm_handler (λ s, ps s = PS_STATE_AWAKE) (h_bypass H);
  wmm_ok : calm_handler (λ s, ps s = PS_STATE_AWAKE) (h_wmm H);
  init_complete_ok : calm_handler (λ _, True) (h_init_complete H);
  hw_spec_complete_ok : calm_handler (λ _, True) (h_hw_spec_complete H);
  resp_ok a : inv [] a → op_ok (OpProcess (h_resp H) (h_hs H) (h_init H)) a;
  resp_still :: StillHandler (h_resp H);
  hs_still :: StillHandler (h_hs H);
  init_still :: StillInit (h_init H)
}.

(** ** Steps that keep the invariant *)

Lemma calm_refl s : calm s s.
Proof. by constructor. Qed.
Lemma calm_trans s t u : calm s t → calm t u → calm s u.
Proof. intros [A1 A2 A3 A4 A5] [B1 B2 B3 B4 B5]. constructor; try congruence. auto. Qed.
Lemma calm_waking s s' : calm s s' → waking s → waking s'.
Proof. intros [A1 A2 A3 A4 A5]. unfold waking. rewrite A3, A4. intros [?|[?|?]]; auto. Qed.
Lemma calm_wake_ok s s' : calm s s' → wake_ok s → wake_ok s'.
Proof.
  intros C W. pose proof C as [A1 A2 _ _ _]. unfold wake_ok. rewrite A2, A1. intros Ht. destruct (W Ht).
  split; [done|by eapply calm_waking].
Qed.
Lemma calm_at p s s' : calm s s' → at_point p s → at_point p s'.
Proof. intros [A1 A2 _ _ _] [B1 B2]. unfold at_point. by rewrite A1, A2. Qed.
Lemma calm_wake_at p s s' : calm s s' → wake_at p s → wake_at p s'.
Proof.
  intros C [W1 W2]. split; [by eapply calm_wake_ok|]. intros Hp. destruct (W2 Hp). rewrite (calm_ps _ _ C).
  split; [done|by eapply calm_waking].
Qed.
Lemma calm_loop_inv quiet p s s' : calm s s' → pinv s' → loop_inv quiet p s → loop_inv quiet p s'.
Proof. intros C P (_ & A & W). split; [done|]. split; [by eapply calm_at|]. intros Hq. by eapply calm_wake_at; [|apply W]. Qed.

(** An operation on the queue that keeps the power state. *)
Lemma still_pinv s a : pinv s → inv [] a → still (ad s) a → pinv (set_ad a s).
Proof.
  intros (I & U & C & G) Ia (P & U' & C'). split; [done|]. split; [cbn; congruence|]. split; [|done].
  unfold ps in *. cbn. rewrite P. auto.
Qed.
Lemma still_calm s a : still (ad s) a → calm s (set_ad a s).
Proof. intros (P & _). by constructor. Qed.

(** The current command is kept from sleeping: what one changes of the power
    state must leave none behind a sleeping card. *)
Lemma pinv_put x s : pinv s → (asleep x → curr_cmd (ad s) = None) → pinv (put_ps x s).
Proof. intros (I & U & _ & G) Hc. by split_and!. Qed.
Lemma pinv_act x s : good_act x → pinv s → pinv (act x s).
Proof. intros Hx (I & U & C & G). split; [done|]. split; [done|]. split; [done|]. apply Forall_app. auto. Qed.
Lemma pinv_idle s : pinv s → asleep (ps s) → curr_cmd (ad s) = None.
Proof. intros (_ & _ & C & _). exact C. Qed.
Lemma pinv_inv s : pinv s → inv [] (ad s).
Proof. by intros [? _]. Qed.

Lemma act_calm x s : calm s (act x s).
Proof. constructor; try done. intros y Hy. apply elem_of_app. by left. Qed.

(** A step that keeps the invariant and what handlers leave alone. *)
Definition gentle (f : main_state → main_state) : Prop := ∀ s, pinv s → pinv (f s) ∧ calm s (f s).

Lemma gentle_event id : gentle (λ s, on_ad (wlan_recv_event (wlan_get_priv (ad s)) id) s).
Proof.
  intros s P. destruct (recv_event_ok [] (wlan_get_priv (ad s)) id (ad s) (pinv_inv _ P)) as (I & _).
  split; [apply still_pinv|apply still_calm]; auto with still.
Qed.
Lemma gentle_hs o b s : pinv s → pinv (on_ad (wlan_host_sleep_activated_event o b) s) ∧ calm s (on_ad (wlan_host_sleep_activated_event o b) s).
Proof.
  intros P. destruct (hs_event_ok [] o b (ad s) (pinv_inv _ P)) as (I & _).
  split; [apply still_pinv|apply still_calm]; auto using still_hs_event.
Qed.
Lemma gentle_deactivate : gentle hs_deactivate_if.
Proof.
  intros s P. unfold hs_deactivate_if. destruct (hs_activated (ad s)); [|by split; [|apply calm_refl]].
  destruct (gentle_hs (wlan_get_priv (ad s)) false (on_ad (set_is_hs_configured false) s)) as [P' C']; [done|].
  split; [exact P'|]. by eapply calm_trans; [|exact C'].
Qed.
Lemma gentle_data : gentle decode_data.
Proof. intros s P. by split; [|constructor]. Qed.
Lemma gentle_iter n f : gentle f → gentle (Nat.iter n f).
Proof.
  intros Hf s P. induction n as [|n [IH1 IH2]]; [by split; [|apply calm_refl]|]. cbn.
  destruct (Hf _ IH1). split; [done|by eapply calm_trans].
Qed.
Lemma gentle_just b : gentle (just_asleep b).
Proof. intros s P. unfold just_asleep. case_match; by split; [|constructor]. Qed.

(** ** What runs beside the loop *)

Lemma interrupt_keeps bits s : pinv s → pinv (wlan_sdio_interrupt bits s) ∧ (wake_ok s → wake_ok (wlan_sdio_interrupt bits s)).
Proof.
  intros P. unfold wlan_sdio_interrupt. destruct (bits =? 0); [done|]. cbn [ps ad set_ireg set_pm_wakeup_timeout].
  destruct (_ && _); [|done]. split; [|by intros _].
  by apply (pinv_put PS_STATE_AWAKE (set_pm_wakeup_fw_try false (set_ireg (Z.lor (ireg s) bits) (set_pm_wakeup_timeout 0 s)))); [|intros [?|?]].
Qed.
Lemma interrupt_at p bits s : at_point p s → at_point p (wlan_sdio_interrupt bits s).
Proof.
  intros [A1 A2]. unfold wlan_sdio_interrupt. destruct (bits =? 0); [done|]. case_match; [|done].
  split; [done|]. by intros _.
Qed.

Lemma timer_keeps q p s : loop_inv q p s → loop_inv q p (wlan_wakeup_card_timeout_func s).
Proof.
  intros (P & A & W). unfold wlan_wakeup_card_timeout_func. case_bool_decide as Ha.
  - split; [done|]. split; [done|]. intros Hq. destruct (W Hq) as [W1 W2]. split.
    + intros Ht. destruct (W1 Ht). unfold ps in *. congruence.
    + intros Hp. destruct (W2 Hp). unfold ps in *. congruence.
  - set (s1 := set_pm_wakeup_flag true _). destruct (gentle_event MLAN_EVENT_ID_DRV_DEFER_HANDLING s1 P) as [P' C'].
    destruct A as [A1 A2]. pose proof C' as [C1 C2 C3 C4 C5]. split; [exact P'|]. split; [split; [exact A1|]|].
    + intros Hs. by destruct Ha; apply A2.
    + intros Hq. destruct (W Hq) as [W1 W2].
      set (s2 := on_ad _ s1) in *. assert (Hf : waking (set_wakeup_fw_timer_is_set false s2)) by (right; left; done).
      assert (E : ps s2 = ps s) by exact C1.
      split; [intros Ht|intros Hp]; (split; [change (ps s2 = PS_STATE_SLEEP); rewrite E|exact Hf]); [by apply W1|by apply W2].
Qed.

Lemma env_keeps q irq p s s' : (q = true → p = PWindow → irq = false) → env_step irq s s' → loop_inv q p s → loop_inv q p s'.
Proof.
  intros Hq E L. pose proof L as (P & A & W).
  destruct E as [bits Hi|Hs|op l a Hop Hok E| | | | |keep| |]; try (apply (calm_loop_inv q p s); [by constructor|done|done]).
  - destruct (interrupt_keeps bits s P) as [P' W']. split; [done|]. split; [by apply interrupt_at|]. intros Eq.
    destruct (W Eq) as [W1 W2]. split; [auto|]. intros ->. by rewrite Hq in Hi.
  - by apply timer_keeps.
  - pose proof (caller_op_still _ _ _ _ Hop E) as S. destruct (run_op_safe op (ad s) (pinv_inv _ P) Hok) as (l' & a' & E' & I' & _).
    rewrite E in E'. injection E' as <- <-. apply (calm_loop_inv q p s); [by apply still_calm|by apply still_pinv|done].
  - apply (calm_loop_inv q p s); [|by destruct keep; [apply pinv_act|]|done]. destruct keep; [|by constructor].
    apply (calm_trans _ (wakeup_card false s)); [apply act_calm|by constructor].
Qed.

(** ** The phases *)

(** Before the gate nothing more is asked of a state than the wake-up; behind it
    the wake-up is over. *)
Lemma loop_before q p s : behind_gate p = false → p ≠ PWindow → pinv s → (q = true → wake_ok s) → loop_inv q p s.
Proof. intros Hb Hp P W. split; [done|]. split; [by split; [rewrite Hb|destruct p]|]. intros Hq. by split; [apply W|]. Qed.
Lemma loop_behind q p s : behind_gate p = true → pinv s → pm_wakeup_fw_try s = false → (sending p = true → ps s = PS_STATE_AWAKE) →
  loop_inv q p s.
Proof.
  intros Hb P Ht Hs. split; [done|]. split; [done|]. intros _. split; [unfold wake_ok; by rewrite Ht|]. by intros ->.
Qed.
Lemma loop_wake q p s : loop_inv q p s → q = true → wake_ok s.
Proof. by intros (_ & _ & W) Hq; apply W. Qed.
Lemma loop_try q p s : loop_inv q p s → behind_gate p = true → pm_wakeup_fw_try s = false.
Proof. intros (_ & [A _] & _). exact A. Qed.

Definition flow_inv (q : bool) (f : flow) : Prop :=
  match f with Goto p s => loop_inv q p s | Stop _ s => loop_inv q PStart s end.

Lemma flow_start q p s : loop_inv q p s → loop_inv q PStart s.
Proof. intros (P & A & W). apply loop_before; [done..|]. intros Hq. by apply W. Qed.

Section phases.
Context (H : handlers) `{!MainHandlers H} (A : answers).

Lemma if_flag_ok b (P : main_state → Prop) f s : calm_handler P f → pinv s → P s →
  ∃ s', if_flag b f s = Some s' ∧ pinv s' ∧ calm s s'.
Proof. intros Hf Ps HP. destruct b; [by apply Hf|]. exists s. by split_and!; [| |apply calm_refl]. Qed.

Lemma start_ok q s : loop_inv q PStart s → ∃ f, phase_start H s = Some f ∧ flow_inv q f.
Proof.
  intros L. pose proof L as (P & _ & W). unfold phase_start. destruct (_ || _); [by eexists|].
  assert (Hr : ∀ f (g : main_state → main_state), calm_handler (λ _, True) f → (∀ t, pinv t → pinv (g t) ∧ calm t (g t)) →
    calm_handler (λ _, True) (λ t, g <$> f t)).
  { intros f g Hf Hg t Pt _. destruct (Hf t Pt I) as (t1 & -> & P1 & C1). destruct (Hg t1 P1).
    eexists. split; [done|]. split; [done|by eapply calm_trans]. }
  destruct (if_flag_ok (pending_ioctl s) (λ _, True) (λ t, set_pending_ioctl false <$> h_pending_ioctl H t) s) as (s1 & E1 & P1 & C1);
    [apply Hr; [apply pending_ioctl_ok|by intros t Pt; split; [|constructor]]|done|done|].
  destruct (if_flag_ok (pending_disconnect s1) (λ _, True) (λ t, set_pending_disconnect false <$> h_reset_connect H t) s1) as (s2 & E2 & P2 & C2);
    [apply Hr; [apply reset_connect_ok|by intros t Pt; split; [|constructor]]|done|done|].
  rewrite E1. cbn [mbind option_bind]. rewrite E2. cbn [mbind option_bind]. eexists. split; [done|].
  apply loop_before; [done..|]. intros Hq. apply (calm_wake_ok s); [by apply (calm_trans _ s1)|by apply W].
Qed.

(** A response that the card sends to a sleep confirmation: nobody wakes it. *)
Lemma sleep_confirm_keeps r s : pinv s → ps s = PS_STATE_SLEEP_CFM →
  pinv (wlan_process_sleep_confirm_resp r s) ∧ (wake_ok s → wake_ok (wlan_process_sleep_confirm_resp r s)).
Proof.
  intros P Hps. assert (Ht : wake_ok s → pm_wakeup_fw_try s = false).
  { intros W. destruct (pm_wakeup_fw_try s) eqn:E; [|done]. destruct (W E). congruence. }
  assert (Hw : ∀ t, pm_wakeup_fw_try t = pm_wakeup_fw_try s → wake_ok s → wake_ok t).
  { intros t E W. intros Et. rewrite E, Ht in Et; done. }
  assert (Hc : curr_cmd (ad s) = None) by (apply pinv_idle; [done|by left]).
  unfold wlan_process_sleep_confirm_resp. destruct (negb (_ =? HostCmd_CMD_802_11_PS_MODE_ENH)); [done|].
  destruct (negb _). { split; [by apply pinv_put|by apply Hw]. }
  case_match; [|split; [by apply pinv_put|by apply Hw]].
  destruct (gentle_hs (wlan_get_priv (ad (set_pm_wakeup_card_req true s))) true (set_pm_wakeup_card_req true s)) as [P' C']; [done|].
  split; [|apply Hw; exact (calm_try _ _ C')]. apply pinv_put; [exact P'|]. intros _.
  apply (pinv_idle _ P'). left. by rewrite (calm_ps _ _ C').
Qed.

Definition mild (f : main_state → main_state) : Prop := ∀ s, pinv s → pinv (f s) ∧ (wake_ok s → wake_ok (f s)).
Lemma gentle_mild f : gentle f → mild f.
Proof. intros Hf s P. destruct (Hf s P) as [P' C']. split; [done|]. by apply calm_wake_ok. Qed.
Lemma mild_comp f g : mild f → mild g → mild (λ s, g (f s)).
Proof. intros Hf Hg s P. destruct (Hf s P) as [P1 W1]. destruct (Hg _ P1). auto. Qed.
Lemma mild_if (b : main_state → bool) f : mild f → mild (λ s, if b s then f s else s).
Proof. intros Hf s P. destruct (b s); auto. Qed.

Lemma decode_cmd_mild r : mild (decode_cmd r).
Proof.
  intros s P. unfold decode_cmd. set (s1 := if _ && _ then _ else s).
  assert (H1 : pinv s1 ∧ (wake_ok s → wake_ok s1)) by (unfold s1; by destruct (_ && _)). destruct H1 as [P1 W1].
  clearbody s1. destruct (curr_cmd (ad s1)) as [i|] eqn:Ec.
  - destruct (recv_cmd_resp_ok [] r (ad s1) (pinv_inv _ P1)) as (I2 & _).
    assert (S : still (ad s1) (recv_cmd_resp r (ad s1))) by (unfold recv_cmd_resp; rewrite Ec; split_and!; try done; congruence).
    split; [by apply still_pinv|]. intros W. eapply calm_wake_ok; [by apply still_calm|auto].
  - case_bool_decide as Hp; [|by auto]. destruct (sleep_confirm_keeps r s1 P1 Hp). auto.
Qed.
Lemma upload_mild u : mild (decode_upload u).
Proof. destruct u; [apply decode_cmd_mild|by intros s P|apply gentle_mild, gentle_data|by intros s P]. Qed.

Lemma int_status_mild x : mild (wlan_process_int_status x).
Proof.
  intros s P. unfold wlan_process_int_status. destruct (ireg s =? 0); [done|].
  set (b := ps s). generalize (ireg s). intros bits.
  set (s1 := if has_bit DN_LD_CMD_PORT_HOST_INT_STATUS bits then _ else _).
  assert (H1 : pinv s1 ∧ (wake_ok s → wake_ok s1)) by (unfold s1; by case_match). destruct H1 as [P1 W1]. clearbody s1.
  destruct (if has_bit UP_LD_CMD_PORT_HOST_INT_STATUS bits then up x else Some UploadOther) as [u|]; [|by auto].
  set (s2 := if has_bit UP_LD_CMD_PORT_HOST_INT_STATUS bits then _ else s1).
  assert (H2 : pinv s2 ∧ (wake_ok s1 → wake_ok s2)).
  { unfold s2. case_match; [|done]. by apply (mild_comp _ _ (upload_mild u) (gentle_mild _ (gentle_just b))). }
  destruct H2 as [P2 W2]. clearbody s2.
  set (s3 := if has_bit DN_LD_HOST_INT_STATUS bits && _ then _ else s2).
  assert (H3 : pinv s3 ∧ (wake_ok s2 → wake_ok s3)) by (unfold s3; by case_match). destruct H3 as [P3 W3]. clearbody s3.
  assert (W : wake_ok s → wake_ok s3) by auto.
  destruct (has_bit UP_LD_HOST_INT_STATUS bits); [|by auto].
  destruct (gentle_mild _ (gentle_iter (pkts x) _ gentle_data) s3 P3) as [P4 W4].
  destruct (rx_ok x); [|by auto]. destruct (gentle_mild _ (gentle_just b) _ P4). auto.
Qed.

Lemma wake_timer s : pinv s → pinv (wakeup_card true s) ∧ waking (wakeup_card true s) ∧ ps (wakeup_card true s) = ps s ∧
  pm_wakeup_fw_try (wakeup_card true s) = pm_wakeup_fw_try s.
Proof. intros P. split; [by apply pinv_act|]. split; [by left|done]. Qed.

Lemma int_ok q s : loop_inv q PInt s → flow_inv q (phase_int A s).
Proof.
  intros (P & _ & W). unfold phase_int. destruct (_ >? _); [apply loop_before; try done; intros Hq; by apply W|].
  destruct (ireg s =? 0); [apply loop_before; try done; intros Hq; by apply W|].
  set (s1 := if hs_activated (ad s) then _ else s).
  assert (H1 : pinv s1 ∧ (wake_ok s → wake_ok s1)).
  { unfold s1, wlan_process_hs_config. destruct (hs_activated _); [|done]. destruct (hs_gap_ff s); [|done].
    destruct (wake_timer s P) as (P' & W' & E & Et). split; [done|]. intros Wk Ht. rewrite E. split; [by apply Wk|done]. }
  destruct H1 as [P1 W1]. clearbody s1. destruct (int_status_mild (a_int A) s1 P1) as [P2 W2].
  apply loop_before; [done..|]. intros Hq. apply W2, W1. by apply W.
Qed.

Lemma timeout_ok q s : loop_inv q PTimeout s → flow_inv q (phase_timeout A s).
Proof.
  intros (P & _ & W). unfold phase_timeout. destruct (bool_decide _ && _) eqn:Eb; [|apply loop_before; try done; intros Hq; by apply W].
  apply andb_true_iff in Eb as [Hps%bool_decide_eq_true Hf]. set (s0 := set_pm_wakeup_flag false s).
  assert (P0 : pinv s0) by done. assert (E0 : ps s0 = PS_STATE_SLEEP) by done.
  assert (T0 : pm_wakeup_fw_try s0 = pm_wakeup_fw_try s) by done.
  assert (D0 : ∀ x, x ∈ acts s → x ∈ acts s0) by done. clearbody s0.
  assert (Hr : ∃ r s1, (if pm_wakeup_timeout s0 =? 2 then wlan_pm_sdio_wakeup_timeout_recovery (a_health A) s0
                        else (MLAN_STATUS_FAILURE, s0)) = (r, s1) ∧ pinv s1 ∧
    if bool_decide (r = MLAN_STATUS_SUCCESS) then pm_wakeup_fw_try s1 = false else ps s1 = PS_STATE_SLEEP).
  { destruct (pm_wakeup_timeout s0 =? 2); [|by do 2 eexists]. unfold wlan_pm_sdio_wakeup_timeout_recovery.
    destruct (a_health A) as [| | |bits| |]; try by do 2 eexists.
    do 2 eexists. split; [done|]. split; [|done]. destruct (interrupt_keeps bits s0 P0) as [P1 _].
    by apply (pinv_put PS_STATE_AWAKE (set_pm_wakeup_fw_try false (set_pm_wakeup_timeout 0 (wlan_sdio_interrupt bits s0)))); [|intros [?|?]]. }
  destruct Hr as (r & s1 & -> & P1 & Hr). case_bool_decide.
  - apply loop_before; [done..|]. intros _. unfold wake_ok. by rewrite Hr.
  - destruct (_ >? 2).
    + destruct (gentle_event MLAN_EVENT_ID_DRV_DBG_DUMP s1 P1) as [P2 C2].
      apply loop_before; [done|done|by apply pinv_act|]. intros _ _. split; [change (ps (on_ad (wlan_recv_event (wlan_get_priv (ad s1)) MLAN_EVENT_ID_DRV_DBG_DUMP) s1) = PS_STATE_SLEEP); by rewrite (calm_ps _ _ C2)|].
      right; right. apply elem_of_app. right. by left.
    + destruct (wake_timer s1 P1) as (P' & W' & E & Et). split; [done|]. split; [done|]. intros _. split; [|done].
      intros _. by rewrite E.
Qed.

Lemma wakeup_ok q s : loop_inv q PWakeup s → flow_inv q (phase_wakeup s).
Proof.
  intros (P & _ & W). unfold phase_wakeup. destruct (_ && _ && _) eqn:Eb; [|apply loop_before; try done; intros Hq; by apply W].
  apply andb_true_iff in Eb as [[Hps%bool_decide_eq_true Hf]%andb_true_iff _].
  destruct (wake_timer s P) as (P' & W' & E & Et). split; [done|]. split; [done|]. intros _. split; [|by rewrite E].
  intros _. by rewrite E.
Qed.
Lemma window_ok q s : loop_inv q PWindow s → flow_inv q (phase_window s).
Proof.
  intros (P & _ & W). apply loop_before; [done..|]. intros Hq _. by apply W.
Qed.

(** Confirming sleep. *)
Lemma dnld_confirm_keeps h2c s : pinv s → ps s = PS_STATE_PRE_SLEEP → cmd_sent s = false → curr_cmd (ad s) = None →
  pinv (wlan_dnld_sleep_confirm_cmd h2c s) ∧ pm_wakeup_fw_try (wlan_dnld_sleep_confirm_cmd h2c s) = pm_wakeup_fw_try s.
Proof.
  intros P Hps Hs Hc. unfold wlan_dnld_sleep_confirm_cmd. destruct (wlan_get_priv (ad s)) as [p|]; [|done].
  set (s0 := on_ad (λ a, set_seq_num (u16 (seq_num a + 1)) a) s).
  set (s1 := act (ActSleepConfirm _ _) s0).
  assert (P1 : pinv s1).
  { apply pinv_act; [|done]. rewrite Hs, bool_decide_eq_true_2 by done. done. }
  assert (C1 : curr_cmd (ad s1) = None) by done.
  assert (F1 : pm_wakeup_fw_try s1 = pm_wakeup_fw_try s) by done.
  clearbody s1. clear s0. destruct (sta_role s1); [|by split; [apply pinv_put|done]].
  set (x := if resp_ctrl s1 then _ else _). case_match; [|by split; [apply pinv_put|done]].
  destruct (gentle_hs (Some p) true (set_pm_wakeup_card_req true (put_ps x s1))) as [P2 C2]; [by apply pinv_put|].
  split; [exact P2|]. exact (eq_trans (calm_try _ _ C2) F1).
Qed.
Lemma check_ps_keeps h2c s : pinv s → ps s = PS_STATE_PRE_SLEEP →
  pinv (wlan_check_ps_cond h2c s) ∧ pm_wakeup_fw_try (wlan_check_ps_cond h2c s) = pm_wakeup_fw_try s.
Proof.
  intros P Hps. unfold wlan_check_ps_cond. destruct (_ && _ && _ && _ && _) eqn:E; [|done].
  apply andb_true_iff in E as [[[[Hs Hc%bool_decide_eq_true]%andb_true_iff _]%andb_true_iff _]%andb_true_iff _].
  apply dnld_confirm_keeps; [done|done| |done]. by apply negb_true_iff.
Qed.
Lemma confirm_keeps s : pinv s → pinv (confirm_sleep A s) ∧ pm_wakeup_fw_try (confirm_sleep A s) = pm_wakeup_fw_try s.
Proof.
  intros P. unfold confirm_sleep. destruct (_ && _ && _ && _) eqn:E; [|done].
  apply andb_true_iff in E as [[[Hp%bool_decide_eq_true _]%andb_true_iff _]%andb_true_iff _]. by apply check_ps_keeps.
Qed.

(** It receives nothing. *)
Definition rx_flags (s : main_state) : bool * bool * bool * bool :=
  (cmd_resp_received (ad s), event_received s, data_received s, pending_block s).
Lemma hs_rx o b s : rx_flags (on_ad (wlan_host_sleep_activated_event o b) s) = rx_flags s.
Proof. unfold rx_flags, wlan_host_sleep_activated_event, wlan_recv_event. cbn. by repeat case_match. Qed.
Lemma check_ps_rx h2c s : rx_flags (wlan_check_ps_cond h2c s) = rx_flags s.
Proof.
  unfold wlan_check_ps_cond. case_match; [|done]. unfold wlan_dnld_sleep_confirm_cmd.
  destruct (wlan_get_priv (ad s)) as [p|]; [|done]. set (s1 := act _ _). change (rx_flags s) with (rx_flags s1). clearbody s1.
  destruct (sta_role s1); [|done]. set (x := put_ps _ s1). change (rx_flags s1) with (rx_flags x). clearbody x.
  case_match; [|done]. exact (hs_rx (Some p) true (set_pm_wakeup_card_req true x)).
Qed.
Lemma confirm_received s : received (confirm_sleep A s) = received s.
Proof.
  unfold confirm_sleep. destruct (_ && _ && _ && _) eqn:E; [|done]. apply andb_true_iff in E as [_ Hb%negb_true_iff].
  pose proof (check_ps_rx (a_confirm A) s) as R. unfold rx_flags in R. injection R as R1 R2 R3 R4.
  unfold received, IS_CARD_RX_RCVD. rewrite R1, R2, R3, R4, Hb. by rewrite !andb_false_r.
Qed.

(** Where the loop leaves for want of work: nothing is received, and the card is
    being waked, is not awake, is held by a null packet, or neither data nor a
    command can go out. *)
Definition idle (s : main_state) : Prop :=
  received s = false ∧
  (pm_wakeup_fw_try s = true ∨ ps s ≠ PS_STATE_AWAKE ∨ tx_lock_flag s = true ∨ (no_data s = true ∧ no_cmd s = true)).
Definition flow_idle (f : flow) : Prop := match f with Stop StopIdle s => idle s | _ => True end.

Lemma gate_ok q s : loop_inv q PGate s → flow_inv q (phase_gate A s).
Proof.
  intros L. pose proof L as (P & _ & W). unfold phase_gate. destruct (received s) eqn:Er.
  - destruct (gentle_deactivate (set_data_received false s) P) as [P1 C1].
    set (s1 := set_pm_wakeup_fw_try false (hs_deactivate_if _)). assert (P1' : pinv s1) by exact P1.
    assert (T1 : pm_wakeup_fw_try s1 = false) by done. clearbody s1.
    set (s2 := if bool_decide (ps s1 = PS_STATE_SLEEP) then _ else s1).
    assert (H2 : pinv s2 ∧ pm_wakeup_fw_try s2 = false).
    { unfold s2. case_bool_decide; [|done]. split; [|done]. by apply pinv_put; [|intros [?|?]]. }
    destruct H2 as [P2 T2]. clearbody s2. apply loop_behind; [done|by case_match|by case_match|done].
  - destruct (pm_wakeup_fw_try s) eqn:Et; [by apply (flow_start q PGate)|].
    destruct (confirm_keeps s P) as (P1 & T1). rewrite Et in T1. revert P1 T1.
    generalize (confirm_sleep A s). intros s1 P1 T1. destruct (_ || _).
    { apply loop_before; [done..|]. intros _. unfold wake_ok. by rewrite T1. }
    destruct (_ && _); [|by apply loop_behind]. apply loop_before; [done..|]. intros _. unfold wake_ok. by rewrite T1.
Qed.
Lemma gate_idle s : flow_idle (phase_gate A s).
Proof.
  unfold phase_gate. destruct (received s) eqn:Er; [done|].
  destruct (pm_wakeup_fw_try s) eqn:Et; [by split; [|left]|].
  pose proof (confirm_received s) as R. rewrite Er in R. revert R. generalize (confirm_sleep A s). intros s1 R.
  destruct (negb _ || _) eqn:E1.
  - split; [done|]. right. apply orb_true_iff in E1 as [E1|E1]; [left|auto].
    by apply negb_true_iff, bool_decide_eq_false in E1.
  - destruct (_ && _) eqn:E2; [|done]. split; [done|]. apply andb_true_iff in E2. auto.
Qed.

Lemma process_cmdresp_keeps s : pinv s → ∃ ret a', wlan_process_cmdresp (h_resp H) (h_hs H) (h_init H) (set_cmd_resp_received false (ad s)) = Some (ret, a') ∧
  pinv (set_ad a' s) ∧ calm s (set_ad a' s).
Proof.
  intros P. set (a := set_cmd_resp_received false (ad s)). assert (I : inv [] a) by exact (pinv_inv _ P).
  destruct (run_op_safe _ a I (resp_ok a I)) as (l & a' & E & I' & _). cbn [run_op] in E.
  unfold no_requests in E. destruct (wlan_process_cmdresp _ _ _ a) as [[ret b]|] eqn:Eb; [|done].
  cbn in E. injection E as _ ->. exists ret, a'. split; [done|].
  assert (S : still (ad s) a') by (apply (still_trans _ a); [done|]; exact (keeps_process_cmdresp _ _ _ a _ Eb)).
  split; [by apply still_pinv|by apply still_calm].
Qed.

Lemma resp_phase_ok q s : loop_inv q PResp s → ∃ f, phase_resp H s = Some f ∧ flow_inv q f.
Proof.
  intros L. pose proof (loop_try _ _ _ L eq_refl) as Ht. destruct L as (P & _ & _). unfold phase_resp.
  assert (Hd : ∀ t, pinv t → calm s t → flow_inv q (Goto PEvent t)).
  { intros t Pt Ct. apply loop_behind; [done|done| |done]. by rewrite (calm_try _ _ Ct). }
  destruct (cmd_resp_received (ad s)); [|eexists; split; [done|]; by apply Hd; [|apply calm_refl]].
  destruct (process_cmdresp_keeps s P) as (ret & a' & -> & P1 & C1). cbn [mbind option_bind].
  assert (Hh : ∀ f hw, calm_handler (λ _, True) f →
    ∃ g, (Goto PEvent <$> f (on_ad (set_hw_status hw) (set_ad a' s))) = Some g ∧ flow_inv q g).
  { intros f hw Hf. destruct (Hf (on_ad (set_hw_status hw) (set_ad a' s)) P1 I) as (t & -> & Pt & Ct).
    eexists. split; [done|]. apply Hd; [done|]. apply (calm_trans _ (set_ad a' s)); [done|].
    apply (calm_trans _ (on_ad (set_hw_status hw) (set_ad a' s))); [by constructor|done]. }
  case_bool_decide; [apply Hh, init_complete_ok|]. case_bool_decide; [apply Hh, hw_spec_complete_ok|].
  eexists. split; [done|]. by apply Hd.
Qed.

(** The events. *)
Lemma null_keeps o s : pinv s → pinv (snd (wlan_send_null_packet o s)) ∧
  pm_wakeup_fw_try (snd (wlan_send_null_packet o s)) = pm_wakeup_fw_try s ∧ ps (snd (wlan_send_null_packet o s)) = ps s.
Proof.
  intros P. unfold wlan_send_null_packet. destruct (data_sent s); [done|]. destruct o as [[r ds]|]; [|done]. cbn.
  assert (pinv (act (ActNull (ps s)) s)) by by apply pinv_act. by destruct r.
Qed.
Lemma now_awake_keeps s : pinv s → pinv (now_awake s) ∧ pm_wakeup_fw_try (now_awake s) = false.
Proof. intros P. split; [|done]. by apply (pinv_put PS_STATE_AWAKE s); [|intros [?|?]]. Qed.

Lemma event_awake_keeps uapsd o s : pinv s → pm_wakeup_fw_try s = false →
  pinv (event_ps_awake_sta uapsd o s) ∧ pm_wakeup_fw_try (event_ps_awake_sta uapsd o s) = false.
Proof.
  intros P Ht. unfold event_ps_awake_sta. set (s1 := if _ && _ && _ then _ else s).
  assert (H1 : pinv s1 ∧ pm_wakeup_fw_try s1 = false) by (unfold s1; by case_match). destruct H1 as [P1 T1]. clearbody s1.
  case_bool_decide; [done|]. set (s2 := set_tx_lock_flag false s1).
  assert (P2 : pinv s2) by exact P1. assert (T2 : pm_wakeup_fw_try s2 = false) by exact T1. clearbody s2.
  destruct (_ && _); [|by apply now_awake_keeps].
  destruct (wlan_check_last_packet_indication s2) as [b s3] eqn:E3.
  assert (H3 : pinv s3 ∧ pm_wakeup_fw_try s3 = false).
  { unfold wlan_check_last_packet_indication in E3. repeat case_match; injection E3 as <- <-; done. }
  destruct H3 as [P3 T3]. destruct (_ && _); [|by apply now_awake_keeps].
  destruct (null_keeps o s3 P3) as (P4 & T4 & _). destruct (wlan_send_null_packet o s3) as [r s4]. cbn in *.
  case_bool_decide; [|by apply now_awake_keeps]. split; [done|congruence].
Qed.
Lemma event_sleep_keeps h2c s : pinv s → pm_wakeup_fw_try s = false →
  pinv (event_ps_sleep h2c s) ∧ pm_wakeup_fw_try (event_ps_sleep h2c s) = false.
Proof.
  intros P Ht. unfold event_ps_sleep. case_bool_decide; [done|].
  destruct (check_ps_keeps h2c (put_ps PS_STATE_PRE_SLEEP s)) as (P1 & T1); [|done|].
  { apply pinv_put; [done|]. by intros [?|?]. }
  split; [done|]. exact (eq_trans T1 Ht).
Qed.

Lemma process_event_keeps s : pinv s → pm_wakeup_fw_try s = false →
  ∃ s', wlan_process_event H A s = Some s' ∧ pinv s' ∧ pm_wakeup_fw_try s' = false.
Proof.
  intros P Ht. unfold wlan_process_event. destruct (wlan_get_priv (ad s)) as [p|]; [|by eexists].
  destruct (event_cause s) as [e|]; [|by eexists].
  assert (Hd : ∀ t, pinv t ∧ pm_wakeup_fw_try t = false → ∃ s', set_event_cause None <$> Some t = Some s' ∧ pinv s' ∧ pm_wakeup_fw_try s' = false).
  { intros t [Pt Tt]. by eexists. }
  destruct e as [|[|] uapsd|cause]; [apply Hd, event_sleep_keeps|apply Hd, event_awake_keeps|apply Hd|]; try done.
  - unfold event_ps_awake_uap. case_bool_decide; [done|by apply now_awake_keeps].
  - destruct (event_ok cause s P I) as (t & -> & Pt & Ct). apply Hd. split; [done|]. by rewrite (calm_try _ _ Ct).
Qed.
Lemma event_phase_ok q s : loop_inv q PEvent s → ∃ f, phase_event H A s = Some f ∧ flow_inv q f.
Proof.
  intros L. pose proof (loop_try _ _ _ L eq_refl) as Ht. destruct L as (P & _ & _). unfold phase_event, if_flag.
  destruct (event_received s); [|eexists; split; [done|]; by apply loop_behind].
  destruct (process_event_keeps (set_event_received false s) P Ht) as (t & -> & Pt & Tt).
  eexists. split; [done|]. by apply loop_behind.
Qed.

Lemma confirm_ok q s : loop_inv q PConfirm s → flow_inv q (phase_confirm A s).
Proof.
  intros L. pose proof (loop_try _ _ _ L eq_refl) as Ht. destruct L as (P & _ & _). unfold phase_confirm.
  destruct (confirm_keeps s P) as (P1 & T1). rewrite Ht in T1. revert P1 T1. generalize (confirm_sleep A s). intros s1 P1 T1.
  destruct (negb _ || _) eqn:E.
  - apply loop_before; [done..|]. intros _. unfold wake_ok. by rewrite T1.
  - apply orb_false_iff in E as [E%negb_false_iff%bool_decide_eq_true _]. by apply loop_behind.
Qed.

(** Behind the confirmation the card is awake, and stays so. *)
Lemma sending_intro q p s s' : loop_inv q p s → sending p = true → pinv s' →
  pm_wakeup_fw_try s' = pm_wakeup_fw_try s → ps s' = ps s →
  (∀ p', behind_gate p' = true → loop_inv q p' s') ∧ loop_inv q PStart s'.
Proof.
  intros L Hs P' Et Ep. destruct L as (_ & [A1 A2] & _). rewrite A1 in Et by by destruct p. rewrite (A2 Hs) in Ep.
  split; [intros p' Hp'; by apply loop_behind|]. apply loop_before; [done..|]. intros _. unfold wake_ok. by rewrite Et.
Qed.

Lemma vdll_ok q s : loop_inv q PVdll s → flow_inv q (phase_vdll A s).
Proof.
  intros L. unfold phase_vdll. apply (sending_intro q PVdll s); [done|done|..].
  all: destruct L as (P & _); repeat case_match; done.
Qed.

Lemma cmd_phase_ok q s : loop_inv q PCmd s → ∃ f, phase_cmd A s = Some f ∧ flow_inv q f.
Proof.
  intros L. unfold phase_cmd. destruct (_ && _); [|eexists; split; [done|]; by apply (sending_intro q PCmd s); [| |apply L|..]].
  pose proof L as (P & [_ Hps] & _). unfold exec_next.
  destruct (wlan_exec_next_cmd_ok [] (a_cmd A) (ad s) (pinv_inv _ P)) as (ret & a' & E & I' & _).
  rewrite E. cbn [mbind option_bind]. destruct (exec_next_ps _ _ _ _ E) as [Ep Eu].
  assert (P' : pinv (set_ad a' s)).
  { split; [done|]. split; [cbn; rewrite Eu; apply P|]. split; [|apply P]. unfold asleep, ps. cbn. rewrite Ep.
    specialize (Hps eq_refl). unfold ps in Hps. rewrite Hps. by intros [?|?]. }
  set (s' := if bool_decide (sends a' = _) then _ else _).
  assert (H' : pinv s' ∧ pm_wakeup_fw_try s' = pm_wakeup_fw_try s ∧ ps s' = ps s) by (unfold s'; by case_match).
  destruct H' as (P2 & T2 & E2). clearbody s'.
  destruct (sending_intro q PCmd s s' L eq_refl P2 T2 E2) as [G1 G2].
  case_bool_decide; eexists; (split; [done|]); [exact G2|by apply G1].
Qed.

Lemma data_keeps q p p' s b f : loop_inv q p s → sending p = true → behind_gate p' = true →
  calm_handler (λ s, ps s = PS_STATE_AWAKE) f →
  ∃ g, (Goto p' <$> if_flag b (λ s, hs_deactivate_if <$> f s) s) = Some g ∧ flow_inv q g.
Proof.
  intros L Hs Hp' Hf. pose proof L as (P & [_ A2] & _).
  assert (Hd : ∀ t, pinv t → calm s t → flow_inv q (Goto p' t)).
  { intros t Pt Ct. by apply (sending_intro q p s t L Hs Pt (calm_try _ _ Ct) (calm_ps _ _ Ct)). }
  destruct b; cbn; [|eexists; split; [done|]; by apply Hd; [|apply calm_refl]].
  destruct (Hf s P (A2 Hs)) as (t & -> & Pt & Ct). eexists. split; [done|]. destruct (gentle_deactivate t Pt).
  apply Hd; [done|by eapply calm_trans].
Qed.

Lemma null_phase_ok q s : loop_inv q PNull s → flow_inv q (phase_null A s).
Proof.
  intros L. unfold phase_null. destruct (_ && _); [|by apply (flow_start q PNull)].
  destruct (null_keeps (a_null A) s (proj1 L)) as (P' & T' & E'). destruct (wlan_send_null_packet (a_null A) s) as [r t].
  cbn in *. assert (F : loop_inv q PStart t) by by apply (sending_intro q PNull s). by case_bool_decide.
Qed.

(** Every phase runs to its end and keeps the invariant. *)
Lemma phase_ok q p s : loop_inv q p s → ∃ f, phase H A p s = Some f ∧ flow_inv q f.
Proof.
  intros L. destruct p; cbn [phase];
    eauto using start_ok, int_ok, timeout_ok, wakeup_ok, window_ok, gate_ok, resp_phase_ok, event_phase_ok, confirm_ok,
      vdll_ok, cmd_phase_ok, null_phase_ok.
  - by eapply data_keeps; [| | |apply bypass_ok].
  - by eapply data_keeps; [| | |apply wmm_ok].
Qed.
End phases.

(** Only the gate leaves for want of work. *)
Lemma phase_idle H A p s f : phase H A p s = Some f → flow_idle f.
Proof.
  assert (Hi : ∀ p' (m : option main_state) f, (Goto p' <$> m) = Some f → flow_idle f).
  { intros p' m g E. destruct m; [|done]. by injection E as <-. }
  destruct p; cbn [phase].
  - unfold phase_start. destruct (_ || _); [by intros [= <-]|].
    destruct (if_flag _ _ s) as [s1|]; [|done]. cbn [mbind option_bind]. destruct (if_flag _ _ s1); [|done]. by intros [= <-].
  - intros [= <-]. unfold phase_int. by repeat case_match.
  - intros [= <-]. unfold phase_timeout. by repeat case_match.
  - intros [= <-]. unfold phase_wakeup. by case_match.
  - by intros [= <-].
  - intros [= <-]. apply gate_idle.
  - unfold phase_resp. destruct (cmd_resp_received _); [|by intros [= <-]].
    destruct (wlan_process_cmdresp _ _ _ _) as [[ret a]|]; [|done]. cbn [mbind option_bind]. repeat case_match; [apply Hi..|]. by intros [= <-].
  - apply Hi.
  - intros [= <-]. unfold phase_confirm. by case_match.
  - by intros [= <-].
  - unfold phase_cmd. destruct (_ && _); [|by intros [= <-]].
    destruct (exec_next A s) as [[ret t]|]; [|done]. cbn [mbind option_bind]. intros [= <-]. by case_match.
  - apply Hi.
  - apply Hi.
  - intros [= <-]. unfold phase_null. by repeat case_match.
Qed.
