(* ===== verification/MainRun.v ===== *)
(** * MainRun: the main process run by many threads

    The loop of [MainLoop] as the body of the protocol of [MainProc]: any number of
    threads call the main process, interrupts, timers and callers of the command
    queue come in between two phases, and the pass goes on.  In every state that
    can be reached the queue is in order, no command is outstanding while the card
    sleeps, and no phase gets stuck; when all threads have left there is nothing
    the driver could do with an awake card; a command that finds the card asleep is sent after it
    woke up.  The last part is the one interleaving in which it is not: an
    interrupt between the wake-up and its record. *)

From S2P Require Import Prelude CmdQueue CmdInv CmdSafe CmdResp CmdRun CmdFlow CmdStill PowerSave MainProc MainLoop.

(** ** The loop in the protocol *)

(** Where the pass is, the state, and how the last pass ended. *)
Record main_work := mk_work { pt : point; st : main_state; verdict : option stop }.

(** With [quiet], no interrupt falls between waking the card and recording it. *)
Definition main_post (quiet : bool) (w w' : main_work) : Prop :=
  ∃ irq s, (quiet = true → pt w = PWindow → irq = false) ∧ env_step irq (st w) s ∧ w' = mk_work (pt w) s (verdict w).

Inductive main_body (H : handlers) (l : bool) (w : main_work) : bool → main_work → Prop :=
| body_goto A p s : phase H A (pt w) (st w) = Some (Goto p s) → main_body H l w false (mk_work p s (verdict w))
| body_stop A v s : phase H A (pt w) (st w) = Some (Stop v s) → main_body H l w true (mk_work PStart s (Some v)).

(** A pass that ended for want of work left none. *)
Definition main_quiescent (w : main_work) : Prop := verdict w = Some StopIdle → idle (st w).

Definition main_reachable (H : handlers) (quiet : bool) (s0 : main_state) : sys → Prop :=
  reachable (main_post quiet) (main_body H) main_quiescent (mk_work PStart s0 None).

(** The driver before its first pass: a queue in order, a card that is awake. *)
Definition fresh_main (s : main_state) : Prop :=
  inv [] (ad s) ∧ usb (ad s) = false ∧ ps s = PS_STATE_AWAKE ∧ pm_wakeup_fw_try s = false ∧ acts s = [].

Lemma fresh_loop q s : fresh_main s → loop_inv q PStart s.
Proof.
  intros (I & U & Ep & Et & Ea). apply loop_before; [done|done| |intros _; unfold wake_ok; by rewrite Et].
  split; [done|]. split; [done|]. rewrite Ep, Ea. split; [|done]. by intros [?|?].
Qed.

Lemma main_reachable_inv H `{!MainHandlers H} q s0 s : fresh_main s0 → main_reachable H q s0 s →
  loop_inv q (pt (work s)) (st (work s)).
Proof.
  intros F R. apply (reachable_work (main_post q) (main_body H) main_quiescent (λ w, loop_inv q (pt w) (st w)) (mk_work PStart s0 None));
    [by apply fresh_loop| | |done].
  - intros w w' L (irq & t & Hq & E & ->). cbn. by apply (env_keeps q irq _ (st w)).
  - intros l w fin w' L B. destruct B as [A p t E|A v t E]; destruct (phase_ok H A q _ _ L) as (f & E' & Fi);
      rewrite E in E'; injection E' as <-; exact Fi.
Qed.

Lemma main_body_ends H w w' : main_body H false w true w' → main_quiescent w'.
Proof. intros B. inversion B as [|A v s E Ev Ew]. intros [= ->]. exact (phase_idle H A (pt w) (st w) _ E). Qed.

(** ** Theorems *)

(** C8: Whatever interrupts, timers and callers do between the phases of the main
    process, its state stays consistent: the command queue is in order, no command
    is outstanding while the card sleeps or was told it may, sleep was confirmed
    only on the firmware's request with no command under way, data was sent only
    while the card is awake; the next phase runs to its end, whatever the card
    answers; and at most one of the threads that call it is in it. *)
Theorem main_process_consistent H `{!MainHandlers H} s0 s : fresh_main s0 → main_reachable H false s0 s →
  let m := st (work s) in
  inv [] (ad m) ∧ (ps m = PS_STATE_SLEEP ∨ ps m = PS_STATE_SLEEP_CFM → curr_cmd (ad m) = None) ∧
  Forall good_act (acts m) ∧ (∀ A, is_Some (phase H A (pt (work s)) m)) ∧
  ∀ t1 t2, inside (pcs s) t1 → inside (pcs s) t2 → t1 = t2.
Proof.
  intros F R. pose proof (main_reachable_inv H false s0 s F R) as L. cbn. pose proof L as ((I & U & C & G) & _).
  split; [done|]. split; [|split; [done|]].
  - intros Ha. apply C. unfold asleep. tauto.
  - split; [intros A; destruct (phase_ok H A _ _ _ L) as (f & -> & _); by eexists|].
    intros t1 t2 H1 H2. by apply (one_runner _ _ _ _ _ _ _ R H1 H2).
Qed.

(** C21: The main process leaves no work: once every thread has left, nobody having
    blocked the process on the way ([was_locked]), no mark is left and the next call
    runs; and if the last pass ended for want of work, nothing that was received is
    unprocessed, and either the card is not awake, the sending of data is locked, or
    neither data nor a command can be sent.  This is so as long as no interrupt
    falls between waking the card and recording that ([quiet]); with such an
    interrupt there is one more case, a wake-up that is recorded still, in which an
    awake card is left with work ([wakeup_race_blocks]). *)
Theorem main_process_leaves_idle H `{!MainHandlers H} quiet s0 s :
  fresh_main s0 → main_reachable H quiet s0 s → was_locked s = false → pcs s = ∅ →
  let m := st (work s) in
  more (fl s) = false ∧ fst (enter (fl s)) = true ∧
  (verdict (work s) = Some StopIdle →
    received m = false ∧
    (ps m ≠ PS_STATE_AWAKE ∨ tx_lock_flag m = true ∨ (no_data m = true ∧ no_cmd m = true) ∨
     quiet = false ∧ pm_wakeup_fw_try m = true)).
Proof.
  intros F R Hl Hp m.
  destruct (nothing_missed (main_post quiet) (main_body H) main_quiescent (mk_work PStart s0 None) s (main_body_ends H)) as (Q & E1 & E2);
    [done..|].
  split; [done|]. split; [done|]. intros Ev. destruct (Q Ev) as [Er Ei]. split; [done|].
  destruct Ei as [Et|[?|[?|?]]]; [|tauto..]. destruct quiet; [|tauto].
  left. destruct (loop_wake _ _ _ (main_reachable_inv H true s0 s F R) eq_refl Et) as [E _]. unfold m. by rewrite E.
Qed.

(** C27: A wake-up is never forgotten as long as no interrupt falls between waking the
    card and recording that: whenever a wake-up is recorded, the card does sleep,
    and the wake-up timer runs, has fired and waits to be handled, or a dump of the
    card was asked for. *)
Theorem wakeup_stays_supervised H `{!MainHandlers H} s0 s : fresh_main s0 → main_reachable H true s0 s →
  pm_wakeup_fw_try (st (work s)) = true →
  ps (st (work s)) = PS_STATE_SLEEP ∧
  (wakeup_fw_timer_is_set (st (work s)) = true ∨ pm_wakeup_flag (st (work s)) = true ∨ ActDump ∈ acts (st (work s))).
Proof.
  intros F R Ht. exact (loop_wake _ _ _ (main_reachable_inv H true s0 s F R) eq_refl Ht).
Qed.

(** ** A command that finds the card asleep *)

(** The phases of a pass with nothing in between. *)
Definition pass_step (H : handlers) (A : answers) (x y : point * main_state) : Prop :=
  phase H A (fst x) (snd x) = Some (Goto (fst y) (snd y)).
Definition passes (H : handlers) (A : answers) : relation (point * main_state) := rtc (pass_step H A).

(** The driver runs, and besides commands there is nothing to do. *)
Record running (s : main_state) : Prop := {
  run_hw : hw_status (ad s) ≠ WlanHardwareStatusClosing ∧ hw_status (ad s) ≠ WlanHardwareStatusNotReady;
  run_ioctl : pending_ioctl s = false ∧ pending_disconnect s = false;
  run_rx : rx_pkts_queued s <= HIGH_RX_PENDING ∧ received s = false ∧ event_received s = false ∧
           cmd_resp_received (ad s) = false;
  run_tx : tx_lock_flag s = false ∧ wlan_is_send_cmd_allowed (tdls_status s) = true ∧ pending_block s = false;
  run_hs : hs_activated (ad s) = false
}.

Section asleep.
Context (H : handlers) (A : answers).

Lemma passes_l p s p' s' z : phase H A p s = Some (Goto p' s') → passes H A (p', s') z → passes H A (p, s) z.
Proof. intros E P. by eapply rtc_l; [|exact P]. Qed.

Lemma step_start s : running s → phase H A PStart s = Some (Goto PInt s).
Proof.
  intros [[H1 H2] [H3 H4] _ _ _]. cbn [phase]. unfold phase_start. rewrite !bool_decide_eq_false_2 by done. cbn [orb].
  rewrite H3. cbn [if_flag mbind option_bind]. by rewrite H4.
Qed.
Lemma step_no_int s : running s → ireg s = 0 → phase H A PInt s = Some (Goto PTimeout s).
Proof.
  intros [_ _ (H1 & _) _ _] Hi. cbn [phase]. unfold phase_int. rewrite Z.gtb_ltb, (proj2 (Z.ltb_ge _ _) H1). by rewrite Hi.
Qed.
Lemma step_no_timeout s : ps s ≠ PS_STATE_SLEEP ∨ pm_wakeup_flag s = false → phase H A PTimeout s = Some (Goto PWakeup s).
Proof.
  intros Hn. cbn [phase]. unfold phase_timeout. destruct Hn as [Hn|Hn]; [by rewrite bool_decide_eq_false_2|].
  by rewrite Hn, andb_false_r.
Qed.

(** An interrupt that only tells that the card takes commands or data. *)
Lemma step_ready_int bits s : running s → ps s = PS_STATE_AWAKE → ireg s = bits → bits ≠ 0 →
  has_bit UP_LD_CMD_PORT_HOST_INT_STATUS bits = false → has_bit UP_LD_HOST_INT_STATUS bits = false →
  ∃ c d, phase H A PInt s = Some (Goto PTimeout (set_data_sent d (set_cmd_sent (negb c && cmd_sent s) (set_ireg 0 s)))).
Proof.
  intros [_ _ (H1 & _) _ Hh] Hp Hi Hb U1 U2. cbn [phase]. unfold phase_int. rewrite Z.gtb_ltb, (proj2 (Z.ltb_ge _ _) H1).
  rewrite Hi, (proj2 (Z.eqb_neq _ _) Hb), Hh. unfold wlan_process_int_status. rewrite Hi, (proj2 (Z.eqb_neq _ _) Hb), U1, U2.
  exists (has_bit DN_LD_CMD_PORT_HOST_INT_STATUS bits).
  exists (negb (has_bit DN_LD_HOST_INT_STATUS bits && wr_free (a_int A)) && data_sent s).
  do 2 f_equal. destruct s; cbn. by destruct (has_bit DN_LD_CMD_PORT_HOST_INT_STATUS bits), (has_bit DN_LD_HOST_INT_STATUS bits && wr_free (a_int A)).
Qed.

(** From the time-out check to the download with the card awake and a command. *)
Lemma awake_to_cmd s : running s → ps s = PS_STATE_AWAKE → pm_wakeup_fw_try s = false → cmd_sent s = false →
  curr_cmd (ad s) = None → wlan_is_cmd_pending s = true → passes H A (PTimeout, s) (PCmd, s).
Proof.
  intros [R1 R2 (R3 & R4 & R5 & R6) (R7 & R8 & R9) R10] Hp Ht Hs Hc Hq.
  assert (Ek : confirm_sleep A s = s) by (unfold confirm_sleep; by rewrite Hp).
  eapply passes_l; [apply step_no_timeout; left; by rewrite Hp|].
  eapply passes_l with (p' := PGate) (s' := s). { cbn [phase]. unfold phase_wakeup. by rewrite Hp. }
  eapply passes_l with (p' := PResp) (s' := s).
  { cbn [phase]. unfold phase_gate. rewrite R4, Ht, Ek, Hp, R7. cbn [negb orb].
    rewrite bool_decide_eq_true_2 by done. cbn [negb orb]. unfold no_cmd. rewrite Hs, Hc, R8, Hq, bool_decide_eq_true_2 by done.
    by rewrite andb_false_r. }
  eapply passes_l with (p' := PEvent) (s' := s). { cbn [phase]. unfold phase_resp. by rewrite R6. }
  eapply passes_l with (p' := PConfirm) (s' := s). { cbn [phase]. unfold phase_event. by rewrite R5. }
  eapply passes_l with (p' := PVdll) (s' := s). { cbn [phase]. unfold phase_confirm. by rewrite Ek, Hp, R7. }
  eapply passes_l with (p' := PCmd) (s' := s); [|apply rtc_refl]. cbn [phase]. unfold phase_vdll. by rewrite R9, andb_false_r.
Qed.

(** The pass that finds a command and a card asleep. *)
Lemma asleep_to_window s : running s → ireg s = 0 → ps s = PS_STATE_SLEEP → pm_wakeup_flag s = false →
  pm_wakeup_card_req s = true → pm_wakeup_fw_try s = false → wlan_is_cmd_pending s = true →
  passes H A (PStart, s) (PWindow, wakeup_card true s).
Proof.
  intros R Hi Hp Hf Hr Ht Hq. eapply passes_l; [by apply step_start|]. eapply passes_l; [by apply step_no_int|].
  eapply passes_l; [apply step_no_timeout; by right|].
  eapply passes_l with (p' := PWindow); [|apply rtc_refl].
  cbn [phase]. unfold phase_wakeup, to_send. by rewrite Hp, Hr, Ht, Hq.
Qed.
(** A pass while a wake-up is recorded. *)
Lemma trying_stops s : running s → ps s = PS_STATE_AWAKE ∨ pm_wakeup_flag s = false → pm_wakeup_fw_try s = true →
  passes H A (PTimeout, s) (PGate, s) ∧ phase H A PGate s = Some (Stop StopIdle s).
Proof.
  intros R Hf Ht. split.
  - eapply passes_l; [apply step_no_timeout; destruct Hf as [Hf|]; [left; by rewrite Hf|by right]|].
    eapply passes_l with (p' := PGate); [|apply rtc_refl].
    cbn [phase]. unfold phase_wakeup. by rewrite Ht, andb_false_r, andb_false_r.
  - cbn [phase]. unfold phase_gate. destruct R as [_ _ (_ & -> & _) _ _]. by rewrite Ht.
Qed.
Lemma start_to_timeout s z : running s → ireg s = 0 → passes H A (PTimeout, s) z → passes H A (PStart, s) z.
Proof. intros R Hi P. eapply passes_l; [by apply step_start|]. by eapply passes_l; [apply step_no_int|]. Qed.

Lemma cmd_sends s i q c : inv [] (ad s) → head_ready (ad s) i q c → running s → cmd_sent s = false →
  a_cmd A = MLAN_STATUS_SUCCESS →
  ∃ s', phase H A PCmd s = Some (Goto PBypass s') ∧ cmd_sent s' = true ∧ curr_cmd (ad s') = Some i ∧
    cmd_pending_q (ad s') = q ∧ sends (ad s') = sends (ad s) ++ [(i, command c, size c + header_len (ad s))].
Proof.
  intros I Hh [_ _ _ (_ & R8 & _) _] Hs Ha. pose proof Hh as (Hc & _).
  destruct (head_sendable _ _ _ _ I Hh) as (n & cb & p & Sd & <- & _).
  destruct (exec_sent _ _ _ _ _ _ Sd) as (a1 & E & St). cbn [phase]. unfold phase_cmd, exec_next.
  rewrite Hs, R8, Ha, E, bool_decide_eq_true_2 by done. cbn [negb andb mbind option_bind].
  destruct St as [S1 S2 _ S4 _ _ _].
  assert (Hl : sends a1 ≠ sends (ad s)).
  { rewrite S4. intros E'. apply (f_equal length) in E'. rewrite length_app in E'. cbn in E'. lia. }
  rewrite (bool_decide_eq_false_2 (sends a1 = _)) by done. rewrite bool_decide_eq_false_2 by done.
  eexists. split; [done|]. cbn. split_and!; [done|done| |done]. by injection S2.
Qed.
End asleep.

(** The card's interrupt finds the driver believing that it sleeps. *)
Lemma interrupt_wakes bits s : ps s = PS_STATE_SLEEP → pps_uapsd_mode s = false → bits ≠ 0 → ireg s = 0 →
  wlan_sdio_interrupt bits s =
    set_pm_wakeup_card_req false (put_ps PS_STATE_AWAKE (set_pm_wakeup_fw_try false (set_ireg bits (set_pm_wakeup_timeout 0 s)))).
Proof.
  intros Hp Hu Hb Hi. unfold wlan_sdio_interrupt. rewrite (proj2 (Z.eqb_neq _ _) Hb), Hi, Z.lor_0_l.
  change (pps_uapsd_mode (set_ireg bits (set_pm_wakeup_timeout 0 s))) with (pps_uapsd_mode s).
  change (ps (set_ireg bits (set_pm_wakeup_timeout 0 s))) with (ps s). by rewrite Hu, Hp.
Qed.
Lemma pending_head s i q c : head_ready (set_ps_state PS_STATE_AWAKE (ad s)) i q c → wlan_is_cmd_pending s = true.
Proof. intros (_ & Hq & _). change (cmd_pending_q (ad s) = i :: q) in Hq. unfold wlan_is_cmd_pending. by rewrite Hq. Qed.
Lemma running_ready s c d : running s → running (set_data_sent d (set_cmd_sent c (set_ireg 0 s))).
Proof.
  intros [? ? (? & Rr & ? & ?) (? & ? & Rb) ?]. apply orb_false_iff in Rr as [Rr _].
  constructor; try done. split; [done|]. split; [|done]. apply orb_false_iff. split; [exact Rr|].
  apply andb_false_iff. right. exact Rb.
Qed.

(** C17: A command that finds the card asleep is sent. The pass that finds it wakes the
    card, records that and leaves, with the wake-up timer running; after the
    interrupt of the card that it takes commands again, the next pass hands the
    command to the bus. *)
Theorem sleeping_command_is_sent H A A' bits s i q c :
  running s → inv [] (ad s) → ps s = PS_STATE_SLEEP → head_ready (set_ps_state PS_STATE_AWAKE (ad s)) i q c →
  ireg s = 0 → pm_wakeup_flag s = false → pm_wakeup_card_req s = true → pm_wakeup_fw_try s = false →
  cmd_sent s = false → pps_uapsd_mode s = false →
  bits ≠ 0 → has_bit UP_LD_CMD_PORT_HOST_INT_STATUS bits = false → has_bit UP_LD_HOST_INT_STATUS bits = false →
  a_cmd A' = MLAN_STATUS_SUCCESS →
  ∃ s1 s2,
    passes H A (PStart, s) (PGate, s1) ∧ phase H A PGate s1 = Some (Stop StopIdle s1) ∧
    ad s1 = ad s ∧ acts s1 = acts s ++ [ActWakeup] ∧ wakeup_fw_timer_is_set s1 = true ∧ pm_wakeup_fw_try s1 = true ∧
    passes H A' (PStart, wlan_sdio_interrupt bits s1) (PBypass, s2) ∧
    cmd_sent s2 = true ∧ curr_cmd (ad s2) = Some i ∧ cmd_pending_q (ad s2) = q ∧
    sends (ad s2) = sends (ad s) ++ [(i, command c, size c + header_len (ad s))].
Proof.
  intros R I Hp Hh Hi Hf Hr Ht Hs Hu Hb U1 U2 Ha. set (s1 := set_pm_wakeup_fw_try true (wakeup_card true s)).
  pose proof (pending_head _ _ _ _ Hh) as Hq.
  assert (R1 : running s1) by (destruct R; by constructor).
  destruct (trying_stops H A s1 R1 (or_intror Hf) eq_refl) as [G1 G2]. exists s1.
  pose proof (interrupt_wakes bits s1 Hp Hu Hb Hi) as Et. set (t := wlan_sdio_interrupt bits s1) in *.
  assert (Rt : running t) by (rewrite Et; destruct R1; by constructor).
  destruct (step_ready_int H A' bits t Rt) as (cc & d & Ei); [by rewrite Et|by rewrite Et|done..|].
  pose proof (running_ready t (negb cc && cmd_sent t) d Rt) as Ru. set (u := set_data_sent d _) in *.
  assert (Hcs : cmd_sent u = false) by (unfold u; rewrite Et; cbn; by rewrite Hs, andb_false_r).
  assert (Ea : ad u = set_ps_state PS_STATE_AWAKE (ad s)) by (unfold u; by rewrite Et).
  destruct (cmd_sends H A' u i q c) as (s2 & Ec & C1 & C2 & C3 & C4); [by rewrite Ea|by rewrite Ea|done|done|done|].
  exists s2. split_and!; try done.
  - unfold passes. transitivity (PWindow, wakeup_card true s); [by apply asleep_to_window|].
    by eapply passes_l with (p' := PStart) (s' := s1); [|apply start_to_timeout].
  - eapply passes_l; [by apply step_start|]. eapply passes_l; [exact Ei|].
    unfold passes. transitivity (PCmd, u); [apply awake_to_cmd; try done|by apply rtc_once].
    all: unfold u; rewrite Et; try done. destruct Hh as (Hc & _). exact Hc.
  - rewrite C4, Ea. done.
Qed.

(** ** An interrupt between the wake-up and its record *)

(** When the card's interrupt falls between waking the card and recording that, the
    driver records a wake-up of a card that is awake: every later pass leaves at
    once although the command could be sent, and the wake-up timer, which finds
    the card awake, changes nothing about it. *)
Theorem wakeup_race_blocks H A A' A'' bits s i q c :
  running s → ps s = PS_STATE_SLEEP → head_ready (set_ps_state PS_STATE_AWAKE (ad s)) i q c →
  ireg s = 0 → pm_wakeup_flag s = false → pm_wakeup_card_req s = true → pm_wakeup_fw_try s = false →
  cmd_sent s = false → pps_uapsd_mode s = false →
  bits ≠ 0 → has_bit UP_LD_CMD_PORT_HOST_INT_STATUS bits = false → has_bit UP_LD_HOST_INT_STATUS bits = false →
  ∃ s1 v,
    passes H A (PStart, s) (PWindow, s1) ∧
    passes H A' (PWindow, wlan_sdio_interrupt bits s1) (PGate, v) ∧ phase H A' PGate v = Some (Stop StopIdle v) ∧
    ps v = PS_STATE_AWAKE ∧ pm_wakeup_fw_try v = true ∧ cmd_sent v = false ∧ head_ready (ad v) i q c ∧
    let v' := wlan_wakeup_card_timeout_func v in
    passes H A'' (PStart, v') (PGate, v') ∧ phase H A'' PGate v' = Some (Stop StopIdle v').
Proof.
  intros R Hp Hh Hi Hf Hr Ht Hs Hu Hb U1 U2. set (s1 := wakeup_card true s).
  pose proof (interrupt_wakes bits s1 Hp Hu Hb Hi) as Et. set (t := wlan_sdio_interrupt bits s1) in *.
  set (w := set_pm_wakeup_fw_try true t).
  assert (Rw : running w) by (unfold w; rewrite Et; destruct R; by constructor).
  destruct (step_ready_int H A' bits w Rw) as (cc & d & Ei); [by unfold w; rewrite Et|by unfold w; rewrite Et|done..|].
  pose proof (running_ready w (negb cc && cmd_sent w) d Rw) as Rv. set (v := set_data_sent d _) in *.
  assert (Ev : cmd_sent v = false ∧ ad v = set_ps_state PS_STATE_AWAKE (ad s)).
  { unfold v, w. rewrite Et. split; [cbn; by rewrite Hs, andb_false_r|done]. }
  destruct Ev as [E1 E2]. assert (Pv : ps v = PS_STATE_AWAKE) by (unfold ps; by rewrite E2).
  destruct (trying_stops H A' v Rv (or_introl Pv) eq_refl) as [G1 G2].
  assert (Ev' : wlan_wakeup_card_timeout_func v = set_wakeup_fw_timer_is_set false v).
  { unfold wlan_wakeup_card_timeout_func. by rewrite Pv. }
  assert (Rv' : running (set_wakeup_fw_timer_is_set false v)) by (destruct Rv; by constructor).
  destruct (trying_stops H A'' _ Rv' (or_introl Pv) eq_refl) as [F1 F2].
  exists s1, v. split; [apply asleep_to_window; try done; by eapply pending_head|].
  split; [eapply passes_l with (p' := PStart) (s' := w); [done|]; eapply passes_l; [by apply step_start|]; by eapply passes_l|].
  do 4 (split; [done|]). split; [by rewrite E2|]. cbv zeta. rewrite Ev'. split; [by apply start_to_timeout|done].
Qed.

(** ** Witnesses *)

(** Handlers that do the least: data handlers send a packet. *)
Definition demo_send (drop : main_state → main_state) (s : main_state) : option main_state :=
  Some (act (ActData (ps s)) (set_data_sent true (drop s))).
Definition demo_handlers : handlers :=
  mk_handlers Some Some (λ _, Some)
    (demo_send (λ s, set_bypass_tx (pred (bypass_tx s)) s)) (demo_send (λ s, set_wmm_tx (pred (wmm_tx s)) s))
    (plain_handler MLAN_STATUS_SUCCESS) (plain_handler MLAN_STATUS_SUCCESS) (plain_init MLAN_STATUS_SUCCESS) Some Some.

Lemma demo_send_calm drop : (∀ s, pinv s → pinv (drop s) ∧ calm s (drop s)) → calm_handler (λ s, ps s = PS_STATE_AWAKE) (demo_send drop).
Proof.
  intros Hd s P Hp. destruct (Hd s P) as [P1 C1]. eexists. split; [done|].
  split; [apply pinv_act; [exact Hp|exact P1]|]. apply (calm_trans _ (drop s)); [done|].
  apply (calm_trans _ (set_data_sent true (drop s))); [by constructor|apply act_calm].
Qed.
#[export] Instance demo_handlers_ok : MainHandlers demo_handlers.
Proof.
  assert (Hs : calm_handler (λ _, True) Some) by (intros s P _; exists s; split_and!; [done|done|apply calm_refl]).
  constructor; try done; cbn [h_bypass h_wmm h_resp h_hs h_init demo_handlers]; try apply _.
  - apply demo_send_calm. intros s P. by split; [|constructor].
  - apply demo_send_calm. intros s P. by split; [|constructor].
  - intros a Ia. exists (λ _ _ _, True). split_and!; try apply _. done.
Qed.

(** Two commands wait, the card is awake. *)
Definition demo_state (sleeping card_req : bool) : main_state :=
  mk_main (set_ps_state (if sleeping then PS_STATE_SLEEP else PS_STATE_AWAKE) demo_queued)
    0 false false None false 0 card_req false false false false false false false false false false
    false true false true false false false 0 false TDLS_OTHER false 0 0 [].
Lemma demo_fresh : fresh_main (demo_state false false).
Proof. split; [exact demo_inv|]. split; [by vm_compute|done]. Qed.

(** The answers of a pass in which the card hands up [u]. *)
Definition demo_answers (u : upload) : answers :=
  mk_answers (mk_int (Some u) true 0 true) FwAsleep MLAN_STATUS_SUCCESS MLAN_STATUS_SUCCESS true None.

(** One thread runs the phases; interrupts come in between, their main-process
    call being deferred to it. *)
Definition run_phase (A : answers) (w : main_work) : option (bool * main_work) :=
  match phase demo_handlers A (pt w) (st w) with
  | Some (Goto p s) => Some (false, mk_work p s (verdict w))
  | Some (Stop v s) => Some (true, mk_work PStart s (Some v))
  | None => None
  end.
Lemma run_phase_body A l w fin w' : run_phase A w = Some (fin, w') → main_body demo_handlers l w fin w'.
Proof.
  unfold run_phase. destruct (phase _ A (pt w) (st w)) as [[p s|v s]|] eqn:E; [| |done]; intros [= <- <-].
  - by eapply body_goto.
  - by eapply body_stop.
Qed.

Fixpoint script (l : list (answers + Z)) (x : bool * main_work) : option (bool * main_work) :=
  match l with
  | [] => Some x
  | inl A :: l =>
      match run_phase A (snd x) with
      | Some (false, w) => script l (fst x, w)
      | Some (true, w) => if fst x then script l (false, w) else None
      | None => None
      end
  | inr bits :: l =>
      if bool_decide (pt (snd x) = PWindow) then None
      else script l (true, mk_work (pt (snd x)) (wlan_sdio_interrupt bits (st (snd x))) (verdict (snd x)))
  end.
Definition in_body (x : bool * main_work) : sys :=
  mk_sys (mk_flags true (fst x) false) (<[0%nat := Running]> ∅) (snd x) false.

Lemma script_reachable q s0 l x y : main_reachable demo_handlers q s0 (in_body x) → script l x = Some y →
  main_reachable demo_handlers q s0 (in_body y).
Proof.
  revert x. induction l as [|[A|bits] l IH]; intros [m w] R; cbn [script fst snd].
  - by intros [= <-].
  - destruct (run_phase A w) as [[[|] w']|] eqn:E; [| |done].
    + destruct m; [|done]. apply IH. eapply rtc_r; [eapply rtc_r; [exact R|]|].
      * apply (step_body _ _ _ _ 0%nat true w'); [by simplify_map_eq|]. by apply (run_phase_body A).
      * cbn. rewrite insert_insert_eq.
        match goal with |- step _ _ _ ?s _ => pose proof (step_leave (main_post q) (main_body demo_handlers) main_quiescent s 0%nat) as L end.
        cbn in L. rewrite insert_insert_eq in L. apply L. by simplify_map_eq.
    + apply IH. eapply rtc_r; [exact R|].
      match goal with |- step _ _ _ ?s _ => pose proof (step_body (main_post q) (main_body demo_handlers) main_quiescent s 0%nat false w') as L end.
      cbn in L. rewrite insert_insert_eq in L. apply L; [by simplify_map_eq|by apply (run_phase_body A)].
  - case_bool_decide; [done|]. apply IH. eapply rtc_r; [exact R|].
    match goal with |- step _ _ _ ?s _ =>
      apply (step_defer (main_post q) (main_body demo_handlers) main_quiescent s 1%nat (mk_work (pt w) (wlan_sdio_interrupt bits (st w)) (verdict w))) end.
    + by simplify_map_eq.
    + exists true, (wlan_sdio_interrupt bits (st w)). split; [done|]. split; [by apply env_interrupt|done].
Qed.
Lemma body_entered q s0 bits :
  main_reachable demo_handlers q s0 (in_body (false, mk_work PStart (wlan_sdio_interrupt bits s0) None)).
Proof.
  set (w := mk_work PStart (wlan_sdio_interrupt bits s0) None).
  eapply rtc_l; [apply (step_post _ _ _ _ 0%nat w); [done|]|].
  { exists true, (wlan_sdio_interrupt bits s0). split; [done|]. split; [by apply env_interrupt|done]. }
  eapply rtc_l; [apply (step_enter _ _ _ _ 0%nat); by simplify_map_eq|]. cbn. rewrite insert_insert_eq. apply rtc_refl.
Qed.

Lemma body_left q s0 A w w' : main_reachable demo_handlers q s0 (in_body (false, w)) → run_phase A w = Some (true, w') →
  main_reachable demo_handlers q s0 (mk_sys (mk_flags false false false) ∅ w' false).
Proof.
  intros R E. eapply rtc_r; [eapply rtc_r; [exact R|]|].
  - apply (step_body _ _ _ _ 0%nat true w'); [by simplify_map_eq|]. by apply (run_phase_body A).
  - cbn. rewrite insert_insert_eq.
    match goal with |- step ?p ?b ?q ?s _ => pose proof (step_leave p b q s 0%nat) as L end.
    cbn in L. rewrite delete_insert_eq, delete_empty in L. apply L. by simplify_map_eq.
Qed.

(** The card asks to sleep, the driver confirms, the card says it sleeps; then the
    commands that wait make the driver wake it. *)
Definition demo_sleep_confirmed : cmd_body := mk_body (Z.lor HostCmd_CMD_802_11_PS_MODE_ENH HostCmd_RET_BIT) 20 0 0 1.
Definition demo_event : answers := demo_answers (UploadEvent EVENT_PS_SLEEP).
Definition demo_response : answers := demo_answers (UploadCmd demo_sleep_confirmed).
Definition demo_sleep : list (answers + Z) :=
  replicate 8 (inl demo_event) ++ inr 0x40 :: replicate 5 (inl demo_response).
Definition demo_begin : bool * main_work := (false, mk_work PStart (wlan_sdio_interrupt 0x40 (demo_state false false)) None).
Definition demo_waking : bool * main_work := default demo_begin (script demo_sleep demo_begin).
Lemma demo_waking_run : script demo_sleep demo_begin = Some demo_waking.
Proof. vm_compute. reflexivity. Qed.
Lemma demo_waking_reachable q : main_reachable demo_handlers q (demo_state false false) (in_body demo_waking).
Proof. exact (script_reachable q _ demo_sleep demo_begin demo_waking (body_entered q _ 0x40) demo_waking_run). Qed.

(** It leaves: nothing to do until the card wakes up. *)
Definition demo_leaving : bool * main_work := default demo_begin (script (replicate 9 (inl demo_response)) demo_waking).
Definition demo_left : main_work := snd (default (true, snd demo_begin) (run_phase demo_response (snd demo_leaving))).
Definition demo_end : sys := mk_sys (mk_flags false false false) ∅ demo_left false.
Lemma demo_end_reachable q : main_reachable demo_handlers q (demo_state false false) demo_end.
Proof.
  apply (body_left q _ demo_response (snd demo_leaving)); [|vm_compute; reflexivity].
  apply (script_reachable q _ (replicate 9 (inl demo_response)) demo_waking); [apply demo_waking_reachable|].
  vm_compute. reflexivity.
Qed.

Lemma main_process_consistent_witness : let m := st (work (in_body demo_waking)) in
  inv [] (ad m) ∧ (ps m = PS_STATE_SLEEP ∨ ps m = PS_STATE_SLEEP_CFM → curr_cmd (ad m) = None) ∧
  Forall good_act (acts m) ∧ (∀ A, is_Some (phase demo_handlers A (pt (work (in_body demo_waking))) m)) ∧
  ∀ t1 t2, inside (pcs (in_body demo_waking)) t1 → inside (pcs (in_body demo_waking)) t2 → t1 = t2.
Proof. exact (main_process_consistent demo_handlers _ _ demo_fresh (demo_waking_reachable false)). Defined.
Lemma main_process_leaves_idle_witness : let m := st (work demo_end) in
  more (fl demo_end) = false ∧ fst (enter (fl demo_end)) = true ∧
  (verdict (work demo_end) = Some StopIdle →
    received m = false ∧
    (ps m ≠ PS_STATE_AWAKE ∨ tx_lock_flag m = true ∨ (no_data m = true ∧ no_cmd m = true) ∨
     true = false ∧ pm_wakeup_fw_try m = true)).
Proof. exact (main_process_leaves_idle demo_handlers true _ _ demo_fresh (demo_end_reachable true) eq_refl eq_refl). Defined.
Lemma demo_left_idle : verdict demo_left = Some StopIdle.
Proof. vm_compute. reflexivity. Qed.
Lemma wakeup_stays_supervised_witness : ps (st (work (in_body demo_waking))) = PS_STATE_SLEEP ∧
  (wakeup_fw_timer_is_set (st (work (in_body demo_waking))) = true ∨ pm_wakeup_flag (st (work (in_body demo_waking))) = true ∨
   ActDump ∈ acts (st (work (in_body demo_waking)))).
Proof.
  apply (wakeup_stays_supervised demo_handlers _ _ demo_fresh (demo_waking_reachable true)). vm_compute. reflexivity.
Defined.

Lemma demo_running : running (demo_state true true).
Proof. constructor; [split; by vm_compute|done|split_and!; by vm_compute|done|by vm_compute]. Qed.
Lemma demo_asleep_head : head_ready (set_ps_state PS_STATE_AWAKE (ad (demo_state true true))) 0 [1%nat] (mk_body 0x16 20 0 0 1).
Proof. split_and!; [by vm_compute..|]. split; by vm_compute. Qed.
Lemma sleeping_command_is_sent_witness : ∃ s1 s2,
  passes demo_handlers demo_event (PStart, demo_state true true) (PGate, s1) ∧
  phase demo_handlers demo_event PGate s1 = Some (Stop StopIdle s1) ∧
  ad s1 = ad (demo_state true true) ∧ acts s1 = acts (demo_state true true) ++ [ActWakeup] ∧
  wakeup_fw_timer_is_set s1 = true ∧ pm_wakeup_fw_try s1 = true ∧
  passes demo_handlers demo_event (PStart, wlan_sdio_interrupt 0x80 s1) (PBypass, s2) ∧
  cmd_sent s2 = true ∧ curr_cmd (ad s2) = Some 0%nat ∧ cmd_pending_q (ad s2) = [1%nat] ∧
  sends (ad s2) = sends (ad (demo_state true true)) ++ [(0%nat, 0x16, 20 + header_len (ad (demo_state true true)))].
Proof.
  apply (sleeping_command_is_sent demo_handlers demo_event demo_event 0x80 (demo_state true true) 0 [1%nat] (mk_body 0x16 20 0 0 1));
    [exact demo_running|exact demo_inv|reflexivity|exact demo_asleep_head|reflexivity..|discriminate|reflexivity|reflexivity|reflexivity].
Defined.
Lemma wakeup_race_blocks_witness : ∃ s1 v,
  passes demo_handlers demo_event (PStart, demo_state true true) (PWindow, s1) ∧
  passes demo_handlers demo_event (PWindow, wlan_sdio_interrupt 0x80 s1) (PGate, v) ∧
  phase demo_handlers demo_event PGate v = Some (Stop StopIdle v) ∧
  ps v = PS_STATE_AWAKE ∧ pm_wakeup_fw_try v = true ∧ cmd_sent v = false ∧
  head_ready (ad v) 0 [1%nat] (mk_body 0x16 20 0 0 1) ∧
  let v' := wlan_wakeup_card_timeout_func v in
  passes demo_handlers demo_event (PStart, v') (PGate, v') ∧ phase demo_handlers demo_event PGate v' = Some (Stop StopIdle v').
Proof.
  apply (wakeup_race_blocks demo_handlers demo_event demo_event demo_event 0x80 (demo_state true true) 0 [1%nat] (mk_body 0x16 20 0 0 1));
    [exact demo_running|reflexivity|exact demo_asleep_head|reflexivity..|discriminate|reflexivity|reflexivity].
Defined.
