(* ===== verification/WmmPrio.v ===== *)
(** * mlan_wmm.c: access categories, queue priorities and TID maps

    A frame carries a user priority (TID, 0..7); two TIDs share an access
    category (AC).  The AP's WMM parameter element orders the four ACs by their
    average back-off; the order is kept in [queue_priority] and expanded into the
    driver-wide tables [tos_to_tid] (rank to TID, rank 7 served first) and
    [tos_to_tid_inv] (TID to rank).  An AC that admission control has disabled is
    downgraded to a lower one.  Theorems: the bubble sort is a sort, the two
    tables are inverse permutations and rank the ACs by back-off, a downgraded
    AC is one that may be used, and every priority lands on a TID of its AC. *)

From stdpp Require Import sorting.
From S2P Require Import Prelude UtilScalar.
#[local] Open Scope Z_scope.

(** ** Constants *)

Definition MAX_NUM_TID : Z := 8.
Definition HIGH_PRIO_TID : Z := 7.
Definition LOW_PRIO_TID : Z := 0.
Definition NO_PKT_PRIO_TID : Z := -1.

(** [mlan_wmm_ac_e] (an [mlan_wmm_ac_e] indexes arrays and is stored in bytes). *)
Definition WMM_AC_BK : Z := 0.
Definition WMM_AC_BE : Z := 1.
Definition WMM_AC_VI : Z := 2.
Definition WMM_AC_VO : Z := 3.

Definition wmm_aci_to_qidx_map : list Z := [WMM_AC_BE; WMM_AC_BK; WMM_AC_VI; WMM_AC_VO].
Definition ac_to_tid : list (Z * Z) := [(1, 2); (0, 3); (4, 5); (6, 7)].
Definition tos_to_ac : list Z :=
  [WMM_AC_BE; WMM_AC_BK; WMM_AC_BK; WMM_AC_BE; WMM_AC_VI; WMM_AC_VI; WMM_AC_VO; WMM_AC_VO].

(** Array accesses; the indices are in range on every path of the code. *)
Definition zget {A} `{Inhabited A} (l : list A) (i : Z) : A := l !!! Z.to_nat i.
Definition zset {A} (i : Z) (x : A) (l : list A) : list A := <[Z.to_nat i := x]> l.

(** The driver-wide tables. *)
Record tid_maps := mk_maps { tos_to_tid : list Z; tos_to_tid_inv : list Z }.

Definition default_maps : tid_maps := mk_maps [1; 2; 0; 3; 4; 5; 6; 7] [2; 0; 1; 3; 4; 5; 6; 7].

(** ** Data *)

(** [WmmAcStatus_t] *)
Record WmmAcStatus_t := mk_ac_status { disabled : bool; flow_required : bool; flow_created : bool }.
#[export] Instance WmmAcStatus_inhabited : Inhabited WmmAcStatus_t :=
  populate (mk_ac_status false false false).

(** [IEEEtypes_WmmAcParameters_t]: [aci] has 2 bits, [aifsn] and the [ecw]s 4. *)
Record WmmAcParameters := mk_acp { aci : Z; acm : bool; aifsn : Z; ecw_min : Z; ecw_max : Z; tx_op_limit : Z }.

(** The fields of [wmm_desc_t] (and [wmm_enabled] of the interface) used here. *)
Record wmm_prio := mk_prio {
  wmm_enabled : bool;
  queue_priority : list Z;
  ac_status : list WmmAcStatus_t;
  ac_down_graded_vals : list Z;
  highest_queued_prio : mlan_scalar
}.

Definition set_queue_priority (v : list Z) (p : wmm_prio) : wmm_prio :=
  mk_prio (wmm_enabled p) v (ac_status p) (ac_down_graded_vals p) (highest_queued_prio p).
Definition set_ac_down_graded_vals (v : list Z) (p : wmm_prio) : wmm_prio :=
  mk_prio (wmm_enabled p) (queue_priority p) (ac_status p) v (highest_queued_prio p).
Definition set_highest_queued_prio (v : mlan_scalar) (p : wmm_prio) : wmm_prio :=
  mk_prio (wmm_enabled p) (queue_priority p) (ac_status p) (ac_down_graded_vals p) v.

(** ** Ordering the access categories *)

Definition fill_inv (t2t inv : list Z) : list Z :=
  foldl (λ inv i, zset (zget t2t i) (u8 i) inv) inv (seqZ 0 8).

Definition wlan_wmm_queue_priorities_tid (queue_priority : list Z) (m : tid_maps) (p : wmm_prio)
  : tid_maps * wmm_prio :=
  let t2t := foldl (λ t i,
      let ac := zget ac_to_tid (zget queue_priority i) in
      zset (6 - i * 2) ac.1 (zset (7 - i * 2) ac.2 t)) (tos_to_tid m) (seqZ 0 4) in
  (mk_maps t2t (fill_inv t2t (tos_to_tid_inv m)),
   set_highest_queued_prio (util_scalar_write (highest_queued_prio p) HIGH_PRIO_TID) p).

Definition wlan_wmm_default_queue_priorities (p : wmm_prio) : wmm_prio :=
  set_queue_priority [WMM_AC_VO; WMM_AC_VI; WMM_AC_BE; WMM_AC_BK] p.

(** One comparison of the bubble sort on [(tmp[j], queue_priority[j])]: swap both
    arrays when the back-offs are out of order, only the ACs when they are equal
    and the lower AC comes first. *)
Definition bubble_cmp (x y : Z * Z) : (Z * Z) * (Z * Z) :=
  if x.1 >? y.1 then (y, x)
  else if x.1 =? y.1 then
    if x.2 <? y.2 then ((x.1, y.2), (y.1, x.2)) else (x, y)
  else (x, y).

(** The inner loop [for (j = 1; j < n + 1; j++)] over the front of the arrays. *)
Fixpoint bubble_pass (n : nat) (l : list (Z * Z)) : list (Z * Z) :=
  match n, l with
  | S n, x :: y :: l => let (a, b) := bubble_cmp x y in a :: bubble_pass n (b :: l)
  | _, _ => l
  end.

(** The outer loop: rounds of [num_ac - 1], [num_ac - 2], ... comparisons. *)
Fixpoint bubble_rounds (rounds : nat) (l : list (Z * Z)) : list (Z * Z) :=
  match rounds with
  | O => l
  | S n => bubble_rounds n (bubble_pass n l)
  end.
Definition bubble_sort (l : list (Z * Z)) : list (Z * Z) := bubble_rounds (length l) l.

(** [(cw_min >> 1) + aifsn], in 16 bits, and the place of the parameters. *)
Definition avg_back_off (a : WmmAcParameters) : Z :=
  u16 (Z.shiftr (u16 (Z.shiftl 1 (ecw_min a) - 1)) 1 + aifsn a).
Definition ac_idx (a : WmmAcParameters) : Z := zget wmm_aci_to_qidx_map (aci a).

(** One record of the element: [tmp[ac_idx]] and [queue_priority[ac_idx]]. *)
Definition store_key (acc : list Z * list Z) (k : Z * Z) : list Z * list Z :=
  (zset k.2 k.1 acc.1, zset k.2 k.2 acc.2).

Definition wlan_wmm_setup_queue_priorities (pwmm_ie : option (list WmmAcParameters))
    (m : tid_maps) (p : wmm_prio) : tid_maps * wmm_prio :=
  match pwmm_ie with
  | Some ac_params =>
      if wmm_enabled p then
        let arrays := foldl (λ acc a, store_key acc (avg_back_off a, ac_idx a))
          ([0; 0; 0; 0], queue_priority p) ac_params in
        let qp := (bubble_sort (zip arrays.1 arrays.2)).*2 in
        wlan_wmm_queue_priorities_tid qp m (set_queue_priority qp p)
      else (m, wlan_wmm_default_queue_priorities p)
  | None => (m, wlan_wmm_default_queue_priorities p)
  end.

(** ** Downgrading *)

Definition wlan_wmm_convert_tos_to_ac (tos : Z) : Z :=
  if tos >=? 8 then WMM_AC_BE else zget tos_to_ac tos.

Definition wlan_wmm_eval_downgrade_ac (p : wmm_prio) (eval_ac : Z) : Z :=
  if negb (disabled (zget (ac_status p) eval_ac)) then eval_ac
  else foldl (λ ret_ac down_ac,
         let s := zget (ac_status p) down_ac in
         if negb (disabled s) && negb (flow_required s) then down_ac else ret_ac)
       WMM_AC_BK (seqZ WMM_AC_BK (eval_ac - WMM_AC_BK)).

Definition wlan_wmm_setup_ac_downgrade (p : wmm_prio) : wmm_prio :=
  set_ac_down_graded_vals
    (foldl (λ v ac, zset ac (if wmm_enabled p then wlan_wmm_eval_downgrade_ac p ac else ac) v)
       (ac_down_graded_vals p) (seqZ WMM_AC_BK 4)) p.

Definition wlan_wmm_downgrade_tid (p : wmm_prio) (tid : Z) : Z :=
  let ac_down := zget (ac_down_graded_vals p) (wlan_wmm_convert_tos_to_ac tid) in
  let pick (i : Z) := let t := zget ac_to_tid ac_down in if i =? 0 then t.1 else t.2 in
  if (tid =? 1) || (tid =? 2) then pick ((tid + 1) mod 2)
  else if tid >=? MAX_NUM_TID then pick 0
  else pick (tid mod 2).

(** The first queue whose AC is the downgraded one, 0 if none is. *)
Definition wlan_wmm_select_queue (p : wmm_prio) (tid : Z) : Z :=
  let ac_down := zget (ac_down_graded_vals p) (wlan_wmm_convert_tos_to_ac tid) in
  match list_find (λ i, zget (queue_priority p) i = ac_down) (seqZ 0 4) with
  | Some (_, i) => i
  | None => 0
  end.

(** ** The bubble sort *)

(** Served first: smaller back-off, then the higher AC. *)
Definition key_le (x y : Z * Z) : Prop := x.1 < y.1 ∨ x.1 = y.1 ∧ y.2 <= x.2.
#[export] Instance key_le_dec : RelDecision key_le.
Proof. intros x y. unfold key_le. apply _. Defined.
#[export] Instance key_le_total : Total key_le.
Proof. intros [] []. unfold key_le; simpl. lia. Qed.
#[export] Instance key_le_trans : Transitive key_le.
Proof. intros [] [] []. unfold key_le; simpl. lia. Qed.
#[export] Instance key_le_antisymm : AntiSymm (=) key_le.
Proof. intros [a b] [c d]. unfold key_le; simpl. intros. f_equal; lia. Qed.

Lemma bubble_cmp_spec x y a b : bubble_cmp x y = (a, b) → key_le a b ∧ [a; b] ≡ₚ [x; y].
Proof.
  destruct x as [x1 x2], y as [y1 y2]. unfold bubble_cmp, key_le. simpl.
  repeat case_match; intros [= <- <-]; simpl; (split; [lia|]); try done.
  - apply Permutation_swap.
  - replace y1 with x1 by lia. apply Permutation_swap.
Qed.

Lemma bubble_pass_spec n : ∀ f t, length f = S n →
  ∃ f' m, bubble_pass n (f ++ t) = f' ++ m :: t ∧ f' ++ [m] ≡ₚ f ∧ Forall (λ x, key_le x m) f'.
Proof.
  induction n as [|n IH]; intros [|x [|y f]] t Hf; simplify_eq/=.
  - by exists [], x.
  - destruct (bubble_cmp x y) as [a b] eqn:E. apply bubble_cmp_spec in E as [Hab Hp].
    destruct (IH (b :: f) t) as (f' & m & Heq & Hp' & Hle); [simpl; lia|].
    exists (a :: f'), m. simpl in Heq. rewrite Heq. split; [done|]. split.
    + simpl. rewrite Hp'. change (a :: b :: f) with ([a; b] ++ f). by rewrite Hp.
    + constructor; [|done].
      assert (b ∈ f' ++ [m]) as Hb by (rewrite Hp'; left).
      apply elem_of_app in Hb as [Hb|Hb%list_elem_of_singleton]; [|by subst].
      rewrite Forall_forall in Hle. by trans b; [|apply Hle].
Qed.

Lemma bubble_rounds_spec n : ∀ f t, length f = n → StronglySorted key_le t →
  (∀ x y, x ∈ f → y ∈ t → key_le x y) →
  StronglySorted key_le (bubble_rounds n (f ++ t)) ∧ bubble_rounds n (f ++ t) ≡ₚ f ++ t.
Proof.
  induction n as [|n IH]; intros f t Hf Ht Hft; simpl.
  - by destruct f.
  - destruct (bubble_pass_spec n f t Hf) as (f' & m & -> & Hp & Hle).
    assert (∀ x, x ∈ f' ++ [m] → x ∈ f) as Hin by (intros x; by rewrite Hp).
    destruct (IH f' (m :: t)) as [H1 H2].
    + apply Permutation_length in Hp. rewrite length_app in Hp. simpl in Hp. lia.
    + constructor; [done|]. apply Forall_forall. intros y Hy. apply Hft; [|done].
      apply Hin, elem_of_app. right. by left.
    + rewrite Forall_forall in Hle. intros x y Hx [->|Hy]%elem_of_cons; [by apply Hle|].
      apply Hft; [|done]. apply Hin, elem_of_app. by left.
    + split; [done|]. rewrite H2, <- Hp, <- app_assoc. done.
Qed.

Lemma bubble_sort_sorted l : StronglySorted key_le (bubble_sort l).
Proof.
  destruct (bubble_rounds_spec (length l) l []) as [H _]; [done|constructor|by intros ?? _ ?%elem_of_nil|].
  by rewrite app_nil_r in H.
Qed.
Lemma bubble_sort_perm l : bubble_sort l ≡ₚ l.
Proof.
  destruct (bubble_rounds_spec (length l) l []) as [_ H]; [done|constructor|by intros ?? _ ?%elem_of_nil|].
  by rewrite app_nil_r in H.
Qed.

(** The in-place bubble sort of the two arrays is the merge sort of their pairs. *)
Theorem bubble_sort_is_sort l : bubble_sort l = merge_sort key_le l.
Proof.
  apply (StronglySorted_unique key_le).
  - apply bubble_sort_sorted.
  - apply StronglySorted_merge_sort; apply _.
  - by rewrite bubble_sort_perm, merge_sort_Permutation.
Qed.

(** ** Queue priorities and TID maps *)

(** The TIDs of an access category. *)
Definition ac_tids (ac : Z) : list Z := let t := zget ac_to_tid ac in [t.1; t.2].

(** The rank of a TID: a higher rank is served first. *)
Definition rank (m : tid_maps) (tid : Z) : Z := zget (tos_to_tid_inv m) tid.

(** The two tables are inverse permutations of the TIDs. *)
Definition maps_ok (m : tid_maps) : Prop :=
  length (tos_to_tid m) = 8%nat ∧ length (tos_to_tid_inv m) = 8%nat ∧
  (∀ i, 0 <= i < 8 → 0 <= zget (tos_to_tid m) i < 8 ∧ zget (tos_to_tid_inv m) (zget (tos_to_tid m) i) = i) ∧
  (∀ t, 0 <= t < 8 → 0 <= zget (tos_to_tid_inv m) t < 8 ∧ zget (tos_to_tid m) (zget (tos_to_tid_inv m) t) = t).

(** The order of the ACs is what the TID maps say. *)
Definition maps_rank (qp : list Z) (m : tid_maps) : Prop :=
  ∀ i j a b t u, (i < j)%nat → qp !! i = Some a → qp !! j = Some b →
    t ∈ ac_tids a → u ∈ ac_tids b → rank m u < rank m t.

(** Every priority of an AC is over the ranks of its two TIDs, next to each other. *)
Definition maps_pairs (m : tid_maps) : Prop :=
  ∀ ac, 0 <= ac < 4 → ∃ r, Z.even r = true ∧ rank m <$> ac_tids ac = [r; r + 1].

Definition maps_good (qp : list Z) (m : tid_maps) : bool :=
  bool_decide (length (tos_to_tid m) = 8%nat ∧ length (tos_to_tid_inv m) = 8%nat) &&
  forallb (λ i, let t := zget (tos_to_tid m) i in let r := rank m i in
    (0 <=? t) && (t <? 8) && (rank m t =? i) && (0 <=? r) && (r <? 8) && (zget (tos_to_tid m) r =? i))
    (seqZ 0 8) &&
  forallb (λ i, forallb (λ j, (j <=? i)%nat ||
    forallb (λ t, forallb (λ u, rank m u <? rank m t)
       (ac_tids (qp !!! j))) (ac_tids (qp !!! i))) (seq 0 4)) (seq 0 4) &&
  forallb (λ ac, Z.even (rank m (zget ac_to_tid ac).1) &&
     (rank m (zget ac_to_tid ac).2 =? rank m (zget ac_to_tid ac).1 + 1)) (seqZ 0 4).

Lemma maps_good_spec qp m : length qp = 4%nat → maps_good qp m = true →
  maps_ok m ∧ maps_rank qp m ∧ maps_pairs m.
Proof.
  intros Hqp. unfold maps_good. rewrite !andb_true_iff, bool_decide_eq_true.
  intros [[[Hlen H1] H2] H3]. rewrite !forallb_forall in *.
  assert (∀ i, 0 <= i < 8 → 0 <= zget (tos_to_tid m) i < 8 ∧ rank m (zget (tos_to_tid m) i) = i ∧
     0 <= rank m i < 8 ∧ zget (tos_to_tid m) (rank m i) = i) as H.
  { intros i Hi. specialize (H1 i). rewrite <- list_elem_of_In, elem_of_seqZ in H1. specialize (H1 ltac:(lia)).
    cbv zeta in H1. rewrite !andb_true_iff in H1. lia. }
  split; [|split].
  - destruct Hlen. do 2 (split; [done|]). split; intros i Hi; destruct (H i Hi) as (?&?&?&?); auto.
  - intros i j a b t u Hij Ha Hb Ht Hu.
    pose proof (lookup_lt_Some _ _ _ Ha). pose proof (lookup_lt_Some _ _ _ Hb).
    specialize (H2 i). rewrite <- list_elem_of_In, elem_of_seq in H2. specialize (H2 ltac:(lia)).
    rewrite forallb_forall in H2. specialize (H2 j). rewrite <- list_elem_of_In, elem_of_seq in H2.
    specialize (H2 ltac:(lia)). apply orb_true_iff in H2 as [H2|H2]; [apply Nat.leb_le in H2; lia|].
    rewrite (list_lookup_total_correct _ _ _ Ha), (list_lookup_total_correct _ _ _ Hb) in H2.
    rewrite forallb_forall in H2. specialize (H2 t). rewrite <- list_elem_of_In in H2.
    specialize (H2 Ht). rewrite forallb_forall in H2. specialize (H2 u).
    rewrite <- list_elem_of_In in H2. specialize (H2 Hu). lia.
  - intros ac Hac. specialize (H3 ac). rewrite <- list_elem_of_In, elem_of_seqZ in H3.
    specialize (H3 ltac:(lia)). apply andb_true_iff in H3 as [He Hn].
    exists (rank m (zget ac_to_tid ac).1). split; [done|].
    apply Z.eqb_eq in Hn. rewrite <- Hn. reflexivity.
Qed.

Lemma zperm_cases (P : list Z → Prop) (l : list Z) :
  Forall P (permutations l) → ∀ qp, qp ≡ₚ l → P qp.
Proof.
  intros H qp Hq. rewrite Forall_forall in H. apply H, permutations_Permutation. by symmetry.
Qed.

(** A list of known length, written out. *)
Ltac explode_list l H :=
  repeat (destruct l as [|? l]; [discriminate H|apply eq_add_S in H]); destruct l; [clear H|discriminate H].

(** Every entry of the tables is rewritten from an order of the ACs. *)
Lemma queue_priorities_tid_good qp m p :
  qp ≡ₚ [0; 1; 2; 3] → length (tos_to_tid m) = 8%nat → length (tos_to_tid_inv m) = 8%nat →
  maps_good qp (wlan_wmm_queue_priorities_tid qp m p).1 = true.
Proof.
  intros Hqp Ht Hi. revert qp Hqp. apply zperm_cases.
  destruct m as [t2t inv]. simpl in Ht, Hi. explode_list t2t Ht. explode_list inv Hi.
  repeat constructor.
Qed.

Lemma default_maps_good : maps_good [3; 2; 1; 0] default_maps = true.
Proof. reflexivity. Qed.

(** The elements the AP announces, one for each AC. *)
Definition wmm_ie_ok (ps : list WmmAcParameters) : Prop := aci <$> ps ≡ₚ [0; 1; 2; 3].
Definition ac_key (a : WmmAcParameters) : Z * Z := (avg_back_off a, ac_idx a).

Lemma merge_sort_perm (l1 l2 : list (Z * Z)) : l1 ≡ₚ l2 → merge_sort key_le l1 = merge_sort key_le l2.
Proof.
  intros H. apply (StronglySorted_unique key_le).
  1,2: apply StronglySorted_merge_sort; apply _.
  by rewrite !merge_sort_Permutation.
Qed.

Lemma store_keys (ks : list (Z * Z)) t q : ks.*2 ≡ₚ [0; 1; 2; 3] →
  length t = 4%nat → length q = 4%nat →
  let r := foldl store_key (t, q) ks in zip r.1 r.2 ≡ₚ ks.
Proof.
  intros Hks Ht Hq. pose proof (Permutation_length Hks) as Hl. rewrite length_fmap in Hl.
  explode_list ks Hl. explode_list t Ht. explode_list q Hq.
  destruct p as [v0 i0], p0 as [v1 i1], p1 as [v2 i2], p2 as [v3 i3]. simpl in Hks.
  symmetry in Hks. apply permutations_Permutation in Hks.
  let x := eval vm_compute in (permutations [0; 1; 2; 3]) in
    change (permutations [0; 1; 2; 3]) with x in Hks.
  rewrite !elem_of_cons, elem_of_nil in Hks.
  destruct_or! Hks; simplify_eq; cbv; solve_Permutation.
Qed.

Lemma ac_keys_seconds ps : wmm_ie_ok ps → (ac_key <$> ps).*2 ≡ₚ [0; 1; 2; 3].
Proof.
  unfold wmm_ie_ok. intros H. rewrite <- list_fmap_compose.
  assert (∀ l, snd ∘ ac_key <$> l = zget wmm_aci_to_qidx_map <$> (aci <$> l)) as ->
    by (intros; by rewrite <- list_fmap_compose).
  rewrite H. vm_compute. apply Permutation_swap.
Qed.

(** C32: From an element with one record per AC the driver derives its service
    order: [queue_priority] is the sorted list of the ACs (smaller average
    back-off first, the higher AC on a tie), the TID tables become inverse
    permutations, every TID of an earlier AC outranks every TID of a later one,
    the two TIDs of an AC are neighbours, and the search restarts at the top. *)
Theorem queue_priorities_order ps m p :
  wmm_ie_ok ps → wmm_enabled p = true → length (queue_priority p) = 4%nat →
  length (tos_to_tid m) = 8%nat → length (tos_to_tid_inv m) = 8%nat →
  let '(m', p') := wlan_wmm_setup_queue_priorities (Some ps) m p in
  queue_priority p' = (merge_sort key_le (ac_key <$> ps)).*2 ∧
  queue_priority p' ≡ₚ [WMM_AC_BK; WMM_AC_BE; WMM_AC_VI; WMM_AC_VO] ∧
  maps_ok m' ∧ maps_rank (queue_priority p') m' ∧ maps_pairs m' ∧
  value (highest_queued_prio p') = HIGH_PRIO_TID.
Proof.
  intros Hps Hen Hq Ht Hi. unfold wlan_wmm_setup_queue_priorities. rewrite Hen.
  assert (∀ acc, foldl (λ acc a, store_key acc (avg_back_off a, ac_idx a)) acc ps =
    foldl store_key acc (ac_key <$> ps)) as ->.
  { clear. induction ps; intros acc; [done|]. apply IHps. }
  pose proof (store_keys (ac_key <$> ps) [0; 0; 0; 0] (queue_priority p)
    (ac_keys_seconds ps Hps) eq_refl Hq) as Hz. cbv zeta in Hz.
  set (r := foldl store_key _ _) in *.
  rewrite bubble_sort_is_sort, (merge_sort_perm _ _ Hz).
  set (qp := (merge_sort key_le (ac_key <$> ps)).*2).
  assert (qp ≡ₚ [0; 1; 2; 3]) as Hqp.
  { unfold qp. rewrite merge_sort_Permutation. by apply ac_keys_seconds. }
  destruct (maps_good_spec qp (wlan_wmm_queue_priorities_tid qp m (set_queue_priority qp p)).1)
    as (H1 & H2 & H3).
  - by rewrite Hqp.
  - by apply queue_priorities_tid_good.
  - destruct wlan_wmm_queue_priorities_tid as [m' p'] eqn:E.
    pose proof (f_equal snd E) as E2. cbn [snd] in E2. subst p'. done.
Qed.

Definition demo_prio : wmm_prio :=
  mk_prio true [3; 2; 1; 0] (replicate 4 (mk_ac_status false false false)) [0; 1; 2; 3]
    (mk_scalar HIGH_PRIO_TID 0 0).
Definition demo_ie : list WmmAcParameters :=
  [mk_acp 0 false 3 4 10 0; mk_acp 1 false 7 4 10 0; mk_acp 2 false 2 3 4 94; mk_acp 3 false 2 2 3 47].

Lemma queue_priorities_order_witness :
  let '(m', p') := wlan_wmm_setup_queue_priorities (Some demo_ie) default_maps demo_prio in
  queue_priority p' = [3; 2; 1; 0] ∧ maps_ok m'.
Proof.
  assert (wmm_ie_ok demo_ie) as Hok by apply Permutation_refl.
  pose proof (queue_priorities_order demo_ie default_maps demo_prio Hok eq_refl eq_refl eq_refl eq_refl) as H.
  destruct (wlan_wmm_setup_queue_priorities _ _ _) as [m' p'] eqn:E.
  destruct H as (-> & _ & Hm & _). split; [vm_compute; reflexivity|exact Hm].
Defined.

(** An element that names one AC twice leaves another out of [queue_priority]:
    the TIDs of the missing AC have no rank, and are never looked at again. *)
Theorem duplicate_aci_loses_tids :
  let ps := [mk_acp 0 false 3 4 10 0; mk_acp 0 false 3 4 10 0; mk_acp 0 false 3 4 10 0; mk_acp 0 false 3 4 10 0] in
  let r := wlan_wmm_setup_queue_priorities (Some ps) default_maps demo_prio in
  (4 ∉ tos_to_tid r.1) ∧ (5 ∉ tos_to_tid r.1) ∧ queue_priority r.2 = [3; 1; 0; 1].
Proof. cbv zeta. refine (bool_decide_unpack _ _). vm_compute. exact I. Qed.

(** ** Downgrading *)

(** An AC traffic may be downgraded to. *)
Definition ac_usable (p : wmm_prio) (ac : Z) : bool :=
  negb (disabled (zget (ac_status p) ac)) && negb (flow_required (zget (ac_status p) ac)).

(** The last element satisfying a test. *)
Lemma foldl_last (f : Z → bool) (l : list Z) d :
  let r := foldl (λ r x, if f x then x else r) d l in
  (r = d ∧ Forall (λ x, f x = false) l) ∨
  (∃ l1 l2, l = l1 ++ r :: l2 ∧ f r = true ∧ Forall (λ x, f x = false) l2).
Proof.
  revert d; induction l as [|x l IH] using rev_ind; intros d; simpl; [by left|].
  rewrite foldl_app. simpl. destruct (f x) eqn:E.
  - right. exists l, []. split; [done|]. by split; [|constructor].
  - destruct (IH d) as [[-> H]|(l1 & l2 & Heq & H1 & H2)].
    + left. split; [done|]. apply Forall_app. auto.
    + right. set (r := foldl _ _ _) in *. exists l1, (l2 ++ [x]).
      split; [by rewrite Heq, <- app_assoc|]. split; [done|]. apply Forall_app. auto.
Qed.

(** An AC is replaced exactly when it is disabled, and then by the highest lower
    AC that is enabled and needs no admission, the background AC if there is none. *)
Theorem eval_downgrade_ac_spec p ac : 0 <= ac < 4 →
  let r := wlan_wmm_eval_downgrade_ac p ac in
  if disabled (zget (ac_status p) ac) then
    (0 <= r < ac ∧ ac_usable p r = true ∧ ∀ k, r < k < ac → ac_usable p k = false) ∨
    (r = WMM_AC_BK ∧ ∀ k, 0 <= k < ac → ac_usable p k = false)
  else r = ac.
Proof.
  intros Hac. unfold wlan_wmm_eval_downgrade_ac.
  destruct (disabled _); simpl; [|done].
  change (foldl _ _ _) with
    (foldl (λ r x, if ac_usable p x then x else r) WMM_AC_BK (seqZ WMM_AC_BK (ac - WMM_AC_BK))).
  destruct (foldl_last (ac_usable p) (seqZ WMM_AC_BK (ac - WMM_AC_BK)) WMM_AC_BK)
    as [[-> H]|(l1 & l2 & Heq & H1 & H2)].
  - right. split; [done|]. intros k Hk. rewrite Forall_forall in H. apply H, elem_of_seqZ.
    unfold WMM_AC_BK. lia.
  - left. set (r := foldl _ _ _) in *.
    assert (r ∈ seqZ WMM_AC_BK (ac - WMM_AC_BK)) as Hr%elem_of_seqZ
      by (rewrite Heq; apply elem_of_app; right; left).
    unfold WMM_AC_BK in *. split; [lia|]. split; [done|]. intros k Hk.
    rewrite Forall_forall in H2. apply H2.
    assert (seqZ 0 (ac - 0) !! Z.to_nat r = Some r) as Hir by (apply lookup_seqZ; lia).
    assert (seqZ 0 (ac - 0) !! Z.to_nat k = Some k) as Hik by (apply lookup_seqZ; lia).
    assert (length l1 = Z.to_nat r) as Hl1.
    { assert (seqZ 0 (ac - 0) !! length l1 = Some r) as Hil.
      { rewrite Heq. by apply list_lookup_middle. }
      apply lookup_seqZ in Hil. lia. }
    rewrite Heq in Hik. rewrite lookup_app_r in Hik by lia.
    rewrite Hl1 in Hik. destruct (Z.to_nat k - Z.to_nat r)%nat as [|j] eqn:Ej; [lia|].
    by apply list_elem_of_lookup_2 with j.
Qed.

(** What the transmit path relies on: four entries, each one an AC. *)
Definition downgrade_ok (p : wmm_prio) : Prop :=
  length (ac_down_graded_vals p) = 4%nat ∧ ∀ ac, 0 <= ac < 4 → 0 <= zget (ac_down_graded_vals p) ac < 4.

Lemma eval_downgrade_ac_range p ac : 0 <= ac < 4 → 0 <= wlan_wmm_eval_downgrade_ac p ac <= ac.
Proof.
  intros H. pose proof (eval_downgrade_ac_spec p ac H) as Hs. cbv zeta in Hs.
  destruct (disabled _) eqn:E; [|lia]. destruct Hs as [Hs|[-> _]]; unfold WMM_AC_BK in *; lia.
Qed.

Lemma setup_ac_downgrade_vals p ac : length (ac_down_graded_vals p) = 4%nat → 0 <= ac < 4 →
  zget (ac_down_graded_vals (wlan_wmm_setup_ac_downgrade p)) ac =
    if wmm_enabled p then wlan_wmm_eval_downgrade_ac p ac else ac.
Proof.
  intros Hl Hac. unfold wlan_wmm_setup_ac_downgrade. simpl.
  destruct p as [en qp st v h]. simpl in *. explode_list v Hl.
  assert (ac = 0 ∨ ac = 1 ∨ ac = 2 ∨ ac = 3) as Hc by lia.
  destruct_or! Hc; subst ac; reflexivity.
Qed.

Lemma setup_ac_downgrade_ok p : length (ac_down_graded_vals p) = 4%nat →
  downgrade_ok (wlan_wmm_setup_ac_downgrade p).
Proof.
  intros Hl. split.
  - unfold wlan_wmm_setup_ac_downgrade. simpl. destruct p as [en qp st v h]. simpl in *. by explode_list v Hl.
  - intros ac Hac. rewrite setup_ac_downgrade_vals by done.
    pose proof (eval_downgrade_ac_range p ac Hac). destruct (wmm_enabled p); lia.
Qed.

Lemma convert_tos_to_ac_range tos : 0 <= tos → 0 <= wlan_wmm_convert_tos_to_ac tos < 4.
Proof.
  intros H. unfold wlan_wmm_convert_tos_to_ac. destruct (tos >=? 8) eqn:E; [done|].
  assert (tos = 0 ∨ tos = 1 ∨ tos = 2 ∨ tos = 3 ∨ tos = 4 ∨ tos = 5 ∨ tos = 6 ∨ tos = 7) as Hc by lia.
  destruct_or! Hc; subst tos; by vm_compute.
Qed.

Lemma ac_tids_range ac t : 0 <= ac < 4 → t ∈ ac_tids ac → 0 <= t < 8.
Proof.
  intros Hac. assert (ac = 0 ∨ ac = 1 ∨ ac = 2 ∨ ac = 3) as Hc by lia.
  intros Ht. unfold ac_tids in Ht. rewrite !elem_of_cons, elem_of_nil in Ht.
  destruct_or! Hc; subst ac; destruct_or! Ht; subst t; done.
Qed.

Lemma downgrade_tid_in_ac p tid : 0 <= tid →
  wlan_wmm_downgrade_tid p tid ∈ ac_tids (zget (ac_down_graded_vals p) (wlan_wmm_convert_tos_to_ac tid)).
Proof.
  intros H. unfold wlan_wmm_downgrade_tid, ac_tids. cbv zeta.
  rewrite !elem_of_cons. repeat case_match; auto.
Qed.

Lemma downgrade_tid_range p tid : downgrade_ok p → 0 <= tid → 0 <= wlan_wmm_downgrade_tid p tid < 8.
Proof.
  intros [_ Hd] H. eapply ac_tids_range; [|by apply downgrade_tid_in_ac].
  apply Hd. by apply convert_tos_to_ac_range.
Qed.

(** With no AC downgraded every priority keeps its TID; anything above 7 is
    treated as best effort. *)
Theorem downgrade_tid_identity p tid : ac_down_graded_vals p = [0; 1; 2; 3] → 0 <= tid →
  wlan_wmm_downgrade_tid p tid = if tid <? 8 then tid else 0.
Proof.
  intros Hd H. unfold wlan_wmm_downgrade_tid, wlan_wmm_convert_tos_to_ac. rewrite Hd.
  destruct (tid >=? 8) eqn:E.
  - unfold MAX_NUM_TID. rewrite E.
    replace (tid =? 1) with false by lia. replace (tid =? 2) with false by lia.
    replace (tid <? 8) with false by lia. reflexivity.
  - assert (tid = 0 ∨ tid = 1 ∨ tid = 2 ∨ tid = 3 ∨ tid = 4 ∨ tid = 5 ∨ tid = 6 ∨ tid = 7) as Hc by lia.
    destruct_or! Hc; subst tid; reflexivity.
Qed.

(** The queue of a priority is the place of its (downgraded) AC in the order. *)
Lemma select_queue_spec p tid :
  queue_priority p ≡ₚ [0; 1; 2; 3] → downgrade_ok p → 0 <= tid →
  0 <= wlan_wmm_select_queue p tid < 4 ∧
  queue_priority p !! Z.to_nat (wlan_wmm_select_queue p tid) =
    Some (zget (ac_down_graded_vals p) (wlan_wmm_convert_tos_to_ac tid)).
Proof.
  intros Hqp [_ Hd] Ht. specialize (Hd _ (convert_tos_to_ac_range tid Ht)).
  unfold wlan_wmm_select_queue. set (ac := zget (ac_down_graded_vals p) _) in *.
  pose proof (Permutation_length Hqp) as Hl. simpl in Hl.
  assert (ac ∈ queue_priority p) as Hin.
  { rewrite Hqp. rewrite !elem_of_cons. lia. }
  destruct (list_find _ _) as [[n i]|] eqn:E.
  - apply list_find_Some in E as (Hi & Hac & _). apply lookup_seqZ in Hi.
    split; [lia|]. rewrite <- Hac. apply list_lookup_lookup_total_lt. lia.
  - apply list_elem_of_lookup in Hin as [j Hj]. pose proof (lookup_lt_Some _ _ _ Hj).
    apply list_find_None in E. rewrite Forall_forall in E.
    destruct (E (Z.of_nat j)); [apply elem_of_seqZ; lia|].
    unfold zget. rewrite Nat2Z.id. by apply list_lookup_total_correct.
Qed.

(** A priority in an earlier queue has its TID served first: the two schedulers,
    by queue number and by rank, agree on the order of the access categories. *)
Theorem queues_and_ranks_agree m p t u :
  queue_priority p ≡ₚ [0; 1; 2; 3] → maps_rank (queue_priority p) m → downgrade_ok p →
  0 <= t → 0 <= u → wlan_wmm_select_queue p t < wlan_wmm_select_queue p u →
  rank m (wlan_wmm_downgrade_tid p u) < rank m (wlan_wmm_downgrade_tid p t).
Proof.
  intros Hqp Hr Hd Ht Hu Hlt.
  destruct (select_queue_spec p t Hqp Hd Ht) as [H1 H2].
  destruct (select_queue_spec p u Hqp Hd Hu) as [H3 H4].
  eapply (Hr _ _ _ _ _ _ _ H2 H4); by apply downgrade_tid_in_ac.
  Unshelve. lia.
Qed.
