(* ===== verification/WmmTbl.v ===== *)
(** * mlan_wmm.c: the transmit queues of an interface

    Every interface has eight TIDs, each with a ring of RA lists (one per receiver)
    that hold packets, and counters over them: [total_pkts] per list,
    [pkts_queued] and [pkts_paused] per TID, [tx_pkts_queued] per interface.  This
    file models the operations on them: creating and deleting lists, queueing a
    packet, pausing a receiver, dropping, the TDLS moves, the disconnect, and the
    two halves (before and after the driver gives up the lock) of sending a
    packet.  The pointer to an RA list is its address; the allocator's answers
    are an argument.  An operation that would link a list twice into
    [pending_txq], or free one that is linked, has no result.  The scheduler for
    many clients ([mclient_tx_supported]) is off: [sta] is MNULL everywhere. *)

From S2P Require Import Prelude UtilScalar RxReorder RxTable Amsdu WmmPrio.
#[local] Open Scope Z_scope.

(** ** Data *)

(** [raListTbl]; [sta] is left out, as it is MNULL here. *)
Record raListTbl := mk_ralist {
  r_addr : Z;   (** the address of the structure *)
  ra : list Z;
  buf_head : list tx_mbuf;
  total_pkts : Z;   (** t_u16 *)
  packet_count : Z;   (** t_u16 *)
  ba_packet_threshold : Z;   (** t_u8 *)
  is_wmm_enabled : bool;
  max_amsdu : Z;
  ba_status : baStatus_e;
  del_ba_count : Z;
  amsdu_in_ampdu : bool;
  is_tdls_link : bool;
  tx_pause : bool;
  r_tid : Z;   (** tid *)
  r_queue : Z   (** queue *)
}.

Definition set_buf_head (x : list tx_mbuf) (r : raListTbl) : raListTbl :=
  mk_ralist (r_addr r) (ra r) x (total_pkts r) (packet_count r) (ba_packet_threshold r) (is_wmm_enabled r) (max_amsdu r) (ba_status r) (del_ba_count r) (amsdu_in_ampdu r) (is_tdls_link r) (tx_pause r) (r_tid r) (r_queue r).
Definition set_total_pkts (x : Z) (r : raListTbl) : raListTbl :=
  mk_ralist (r_addr r) (ra r) (buf_head r) x (packet_count r) (ba_packet_threshold r) (is_wmm_enabled r) (max_amsdu r) (ba_status r) (del_ba_count r) (amsdu_in_ampdu r) (is_tdls_link r) (tx_pause r) (r_tid r) (r_queue r).
Definition set_packet_count (x : Z) (r : raListTbl) : raListTbl :=
  mk_ralist (r_addr r) (ra r) (buf_head r) (total_pkts r) x (ba_packet_threshold r) (is_wmm_enabled r) (max_amsdu r) (ba_status r) (del_ba_count r) (amsdu_in_ampdu r) (is_tdls_link r) (tx_pause r) (r_tid r) (r_queue r).
Definition set_ba_status (x : baStatus_e) (r : raListTbl) : raListTbl :=
  mk_ralist (r_addr r) (ra r) (buf_head r) (total_pkts r) (packet_count r) (ba_packet_threshold r) (is_wmm_enabled r) (max_amsdu r) x (del_ba_count r) (amsdu_in_ampdu r) (is_tdls_link r) (tx_pause r) (r_tid r) (r_queue r).
Definition set_tx_pause (x : bool) (r : raListTbl) : raListTbl :=
  mk_ralist (r_addr r) (ra r) (buf_head r) (total_pkts r) (packet_count r) (ba_packet_threshold r) (is_wmm_enabled r) (max_amsdu r) (ba_status r) (del_ba_count r) (amsdu_in_ampdu r) (is_tdls_link r) x (r_tid r) (r_queue r).

(** [ra_list_curr]: MNULL, the list head itself, or an RA list. *)
Inductive ra_cursor := CurNull | CurHead | CurAt (addr : Z).

(** Entry [i] of the arrays [tid_tbl_ptr], [packets_out], [pkts_queued] and
    [pkts_paused] of [wmm_desc_t]. *)
Record wmm_tid := mk_tid {
  ra_list : list raListTbl;
  ra_list_curr : ra_cursor;
  packets_out : Z;   (** t_u32 *)
  pkts_queued : Z;   (** t_u32 *)
  pkts_paused : Z   (** t_u32 *)
}.

Definition set_ra_list (x : list raListTbl) (r : wmm_tid) : wmm_tid :=
  mk_tid x (ra_list_curr r) (packets_out r) (pkts_queued r) (pkts_paused r).
Definition set_ra_list_curr (x : ra_cursor) (r : wmm_tid) : wmm_tid :=
  mk_tid (ra_list r) x (packets_out r) (pkts_queued r) (pkts_paused r).
Definition set_packets_out (x : Z) (r : wmm_tid) : wmm_tid :=
  mk_tid (ra_list r) (ra_list_curr r) x (pkts_queued r) (pkts_paused r).
Definition set_pkts_queued (x : Z) (r : wmm_tid) : wmm_tid :=
  mk_tid (ra_list r) (ra_list_curr r) (packets_out r) x (pkts_paused r).
Definition set_pkts_paused (x : Z) (r : wmm_tid) : wmm_tid :=
  mk_tid (ra_list r) (ra_list_curr r) (packets_out r) (pkts_queued r) x.

(** [tdlsStatus_e] *)
Inductive tdlsStatus_e :=
| TDLS_NOT_SETUP | TDLS_SETUP_INPROGRESS | TDLS_SETUP_COMPLETE | TDLS_SETUP_FAILURE
| TDLS_TEAR_DOWN | TDLS_SWITCHING_CHANNEL | TDLS_IN_BASE_CHANNEL | TDLS_IN_OFF_CHANNEL.
#[export] Instance tdlsStatus_eq_dec : EqDecision tdlsStatus_e.
Proof. solve_decision. Defined.

(** The fields of a station entry the transmit queues read and count in. *)
Record sta_node := mk_sta {
  mac_addr : list Z; sta_is_wmm_enabled : bool; sta_is_11n_enabled : bool; sta_is_11ax_enabled : bool;
  sta_max_amsdu : Z; status : tdlsStatus_e; sta_tx_pause : bool; sta_tx_bytes : Z; sta_tx_packets : Z
}.

(** The fields of [mlan_private] the transmit queues use. *)
Record wmm_priv := mk_priv {
  bss_role : bss_role_t;
  bss_mode : mlan_bss_mode;
  bss_type : mlan_bss_type;
  media_connected : bool;
  port_ctrl_mode : bool;
  port_open : bool;
  priv_tx_pause : bool;   (** tx_pause *)
  is_11n_enabled : bool;
  is_11ax_enabled : bool;
  is_11ac_enabled : bool;
  ht_enabled : bool;   (** IS_11N_ENABLED(priv) *)
  priv_max_amsdu : Z;   (** max_amsdu *)
  sta_list : list sta_node;
  prio : wmm_prio;   (** AC status, queue priority, highest_queued_prio *)
  tids : list wmm_tid;   (** the per-TID arrays *)
  pending_txq : list (list Z);   (** addresses of RA lists, a list per queue *)
  tx_pkts_queued : mlan_scalar;
  tdls_pending_txq : list tx_mbuf;
  num_drop_pkts : Z;
  completed : list (tx_mbuf * mlan_status)   (** calls of wlan_write_data_complete, in order *)
}.

Definition set_sta_list (x : list sta_node) (r : wmm_priv) : wmm_priv :=
  mk_priv (bss_role r) (bss_mode r) (bss_type r) (media_connected r) (port_ctrl_mode r) (port_open r) (priv_tx_pause r) (is_11n_enabled r) (is_11ax_enabled r) (is_11ac_enabled r) (ht_enabled r) (priv_max_amsdu r) x (prio r) (tids r) (pending_txq r) (tx_pkts_queued r) (tdls_pending_txq r) (num_drop_pkts r) (completed r).
Definition set_prio (x : wmm_prio) (r : wmm_priv) : wmm_priv :=
  mk_priv (bss_role r) (bss_mode r) (bss_type r) (media_connected r) (port_ctrl_mode r) (port_open r) (priv_tx_pause r) (is_11n_enabled r) (is_11ax_enabled r) (is_11ac_enabled r) (ht_enabled r) (priv_max_amsdu r) (sta_list r) x (tids r) (pending_txq r) (tx_pkts_queued r) (tdls_pending_txq r) (num_drop_pkts r) (completed r).
Definition set_tids (x : list wmm_tid) (r : wmm_priv) : wmm_priv :=
  mk_priv (bss_role r) (bss_mode r) (bss_type r) (media_connected r) (port_ctrl_mode r) (port_open r) (priv_tx_pause r) (is_11n_enabled r) (is_11ax_enabled r) (is_11ac_enabled r) (ht_enabled r) (priv_max_amsdu r) (sta_list r) (prio r) x (pending_txq r) (tx_pkts_queued r) (tdls_pending_txq r) (num_drop_pkts r) (completed r).
Definition set_pending_txq (x : list (list Z)) (r : wmm_priv) : wmm_priv :=
  mk_priv (bss_role r) (bss_mode r) (bss_type r) (media_connected r) (port_ctrl_mode r) (port_open r) (priv_tx_pause r) (is_11n_enabled r) (is_11ax_enabled r) (is_11ac_enabled r) (ht_enabled r) (priv_max_amsdu r) (sta_list r) (prio r) (tids r) x (tx_pkts_queued r) (tdls_pending_txq r) (num_drop_pkts r) (completed r).
Definition set_tx_pkts_queued (x : mlan_scalar) (r : wmm_priv) : wmm_priv :=
  mk_priv (bss_role r) (bss_mode r) (bss_type r) (media_connected r) (port_ctrl_mode r) (port_open r) (priv_tx_pause r) (is_11n_enabled r) (is_11ax_enabled r) (is_11ac_enabled r) (ht_enabled r) (priv_max_amsdu r) (sta_list r) (prio r) (tids r) (pending_txq r) x (tdls_pending_txq r) (num_drop_pkts r) (completed r).
Definition set_tdls_pending_txq (x : list tx_mbuf) (r : wmm_priv) : wmm_priv :=
  mk_priv (bss_role r) (bss_mode r) (bss_type r) (media_connected r) (port_ctrl_mode r) (port_open r) (priv_tx_pause r) (is_11n_enabled r) (is_11ax_enabled r) (is_11ac_enabled r) (ht_enabled r) (priv_max_amsdu r) (sta_list r) (prio r) (tids r) (pending_txq r) (tx_pkts_queued r) x (num_drop_pkts r) (completed r).
Definition set_num_drop_pkts (x : Z) (r : wmm_priv) : wmm_priv :=
  mk_priv (bss_role r) (bss_mode r) (bss_type r) (media_connected r) (port_ctrl_mode r) (port_open r) (priv_tx_pause r) (is_11n_enabled r) (is_11ax_enabled r) (is_11ac_enabled r) (ht_enabled r) (priv_max_amsdu r) (sta_list r) (prio r) (tids r) (pending_txq r) (tx_pkts_queued r) (tdls_pending_txq r) x (completed r).
Definition set_completed (x : list (tx_mbuf * mlan_status)) (r : wmm_priv) : wmm_priv :=
  mk_priv (bss_role r) (bss_mode r) (bss_type r) (media_connected r) (port_ctrl_mode r) (port_open r) (priv_tx_pause r) (is_11n_enabled r) (is_11ax_enabled r) (is_11ac_enabled r) (ht_enabled r) (priv_max_amsdu r) (sta_list r) (prio r) (tids r) (pending_txq r) (tx_pkts_queued r) (tdls_pending_txq r) (num_drop_pkts r) x.

(** ** Small helpers *)

(** [util_scalar_increment]/[decrement] of [tx_pkts_queued], and [highest_queued_prio]. *)
Definition inc_tx_pkts (p : wmm_priv) : wmm_priv :=
  set_tx_pkts_queued (util_scalar_increment (tx_pkts_queued p)) p.
Definition dec_tx_pkts (p : wmm_priv) : wmm_priv :=
  set_tx_pkts_queued (util_scalar_decrement (tx_pkts_queued p)) p.
Definition hint (p : wmm_priv) : mlan_scalar := highest_queued_prio (prio p).
Definition set_hint (h : mlan_scalar) (p : wmm_priv) : wmm_priv :=
  set_prio (set_highest_queued_prio h (prio p)) p.

Definition wlan_write_data_complete (m : tx_mbuf) (st : mlan_status) (p : wmm_priv) : wmm_priv :=
  set_completed (completed p ++ [(m, st)]) p.

(** Updates through a pointer: entry [i] of the TID arrays, and the RA list at
    an address. *)
Definition upd_tid (i : nat) (f : wmm_tid → wmm_tid) (p : wmm_priv) : wmm_priv :=
  set_tids (alter f i (tids p)) p.
Definition upd_ralist (a : Z) (f : raListTbl → raListTbl) (t : wmm_tid) : wmm_tid :=
  set_ra_list ((λ r, if decide (r_addr r = a) then f r else r) <$> ra_list t) t.

Definition inc_queued (t : wmm_tid) : wmm_tid := set_pkts_queued (u32 (pkts_queued t + 1)) t.
Definition dec_queued (t : wmm_tid) : wmm_tid := set_pkts_queued (u32 (pkts_queued t - 1)) t.
Definition inc_paused (t : wmm_tid) : wmm_tid := set_pkts_paused (u32 (pkts_paused t + 1)) t.
Definition dec_paused (t : wmm_tid) : wmm_tid := set_pkts_paused (u32 (pkts_paused t - 1)) t.
Definition inc_total (r : raListTbl) : raListTbl := set_total_pkts (u16 (total_pkts r + 1)) r.
Definition dec_total (r : raListTbl) : raListTbl := set_total_pkts (u16 (total_pkts r - 1)) r.
Definition inc_count (r : raListTbl) : raListTbl := set_packet_count (u16 (packet_count r + 1)) r.
Definition dec_count (r : raListTbl) : raListTbl := set_packet_count (u16 (packet_count r - 1)) r.
Definition enq_tail (m : tx_mbuf) (r : raListTbl) : raListTbl := set_buf_head (buf_head r ++ [m]) r.
Definition enq_head (m : tx_mbuf) (r : raListTbl) : raListTbl := set_buf_head (m :: buf_head r) r.

Definition or_flag (bit : Z) (m : tx_mbuf) : tx_mbuf :=
  mk_txmbuf (tx_bytes m) (tx_priority m) (Z.lor (tx_flags m) bit) (tx_mac m).
Definition clear_flag (bit : Z) (m : tx_mbuf) : tx_mbuf :=
  mk_txmbuf (tx_bytes m) (tx_priority m) (Z.ldiff (tx_flags m) bit) (tx_mac m).

(** The receiver address of a packet: the first six bytes of the frame. *)
Definition tx_dest (m : tx_mbuf) : list Z := take 6 (tx_bytes m).

Definition wlan_get_station_entry (p : wmm_priv) (mac : list Z) : option sta_node :=
  snd <$> list_find (λ s, mac_addr s = mac) (sta_list p).
Definition wlan_get_tdls_link_status (p : wmm_priv) (mac : list Z) : tdlsStatus_e :=
  match wlan_get_station_entry p mac with Some s => status s | None => TDLS_NOT_SETUP end.
Definition wlan_is_tdls_link_setup (st : tdlsStatus_e) : bool :=
  match st with
  | TDLS_SWITCHING_CHANNEL | TDLS_IN_OFF_CHANNEL | TDLS_IN_BASE_CHANNEL | TDLS_SETUP_COMPLETE => true
  | _ => false
  end.
Definition wlan_is_tx_pause (p : wmm_priv) (mac : list Z) : bool :=
  match wlan_get_station_entry p mac with Some s => sta_tx_pause s | None => false end.
Definition get_station_max_amsdu_size (p : wmm_priv) (mac : list Z) : Z :=
  match wlan_get_station_entry p mac with Some s => sta_max_amsdu s | None => 0 end.
Definition is_station_wmm_enabled (p : wmm_priv) (mac : list Z) : bool :=
  match wlan_get_station_entry p mac with
  | Some s => sta_is_11n_enabled s || sta_is_11ax_enabled s | None => false
  end.
Definition queuing_ra_based (p : wmm_priv) : bool :=
  negb (bool_decide (bss_mode p = MLAN_BSS_MODE_INFRA) && bool_decide (bss_role p = MLAN_BSS_ROLE_STA)).
(** The low bit of the first byte: a group address. *)
Definition is_group (mac : list Z) : bool := Z.odd (zget mac 0).
Definition wlan_is_wmm_enabled (p : wmm_priv) (mac : list Z) : bool :=
  bool_decide (bss_role p = MLAN_BSS_ROLE_UAP) &&
  (negb (is_group mac) && (is_11n_enabled p || is_11ax_enabled p) && is_station_wmm_enabled p mac).

(** What an operation is told from outside: the driver-wide tables, the
    allocator's answers (an address each) and the clock. *)
Record wmm_env := mk_env {
  maps : tid_maps;
  ba_adapter : RxTable.mlan_adapter;   (** for [min_ba_threshold] *)
  blocks : list (option Z);
  clk_sec : Z;
  clk_usec : Z
}.
Definition random_ba_threshold (env : wmm_env) : Z :=
  wlan_get_random_ba_threshold (ba_adapter env) (clk_sec env) (clk_usec env).

(** A loop over the eight TIDs whose body may have no result. *)
Fixpoint for_tids {S} (f : nat → S → option S) (todo : list nat) (s : S) : option S :=
  match todo with
  | [] => Some s
  | i :: todo => s ← f i s; for_tids f todo s
  end.
Definition all_tids : list nat := seq 0 8.

(** ** RA lists *)

(** A new list: [moal_malloc] gives zeroed memory. *)
Definition wlan_wmm_allocate_ralist_node (addr : Z) (mac : list Z) : raListTbl :=
  mk_ralist addr mac [] 0 0 0 false 0 BA_STREAM_NOT_SETUP 0 false false false 0 0.

(** The RA list of a receiver on a TID: its place and itself. *)
Definition wlan_wmm_get_ralist_node (p : wmm_priv) (tid : nat) (mac : list Z) : option (nat * raListTbl) :=
  t ← tids p !! tid; list_find (λ r, ra r = mac) (ra_list t).

(** The fields [wlan_ralist_add] fills in for TID [i]. *)
Definition ralist_setup (p : wmm_priv) (env : wmm_env) (addr : Z) (mac : list Z) (i : nat) : raListTbl :=
  let '(wmm, amsdu, pause, tdls) :=
    if queuing_ra_based p then
      let w := wlan_is_wmm_enabled p mac in
      (w, if w then get_station_max_amsdu_size p mac else 0, wlan_is_tx_pause p mac, false)
    else if wlan_is_tdls_link_setup (wlan_get_tdls_link_status p mac) then
      let w := is_station_wmm_enabled p mac in
      (w, if w then get_station_max_amsdu_size p mac else 0, false, true)
    else (ht_enabled p, if ht_enabled p then priv_max_amsdu p else 0, false, false) in
  let r := wlan_wmm_allocate_ralist_node addr mac in
  mk_ralist addr (ra r) (buf_head r) (total_pkts r) 0 (if wmm then random_ba_threshold env else 0)
    wmm amsdu BA_STREAM_NOT_SETUP 0 false tdls pause (Z.of_nat i)
    (wlan_wmm_select_queue (prio p) (Z.of_nat i)).

(** The loop over the TIDs; it stops at the first failed allocation. *)
Fixpoint ralist_add_loop (env : wmm_env) (mac : list Z) (bs : list (option Z)) (todo : list nat)
    (p : wmm_priv) {struct todo} : wmm_priv :=
  match todo, bs with
  | i :: todo, Some addr :: bs =>
      ralist_add_loop env mac bs todo (upd_tid i (λ t,
        let t := set_ra_list (ra_list t ++ [ralist_setup p env addr mac i]) t in
        match ra_list_curr t with CurNull => set_ra_list_curr (CurAt addr) t | _ => t end) p)
  | _, _ => p
  end.
Definition wlan_ralist_add (env : wmm_env) (mac : list Z) (p : wmm_priv) : wmm_priv :=
  ralist_add_loop env mac (blocks env) all_tids p.

Definition bcast_addr : list Z := [0xff; 0xff; 0xff; 0xff; 0xff; 0xff].

(** The list of a receiver, created on demand; an access point does not create
    one for a station it does not know. *)
Definition wlan_wmm_get_queue_raptr (env : wmm_env) (tid : nat) (mac : list Z) (p : wmm_priv)
  : wmm_priv * option raListTbl :=
  match wlan_wmm_get_ralist_node p tid mac with
  | Some (_, r) => (p, Some r)
  | None =>
      if bool_decide (bss_role p = MLAN_BSS_ROLE_UAP) && bool_decide (mac ≠ bcast_addr)
         && bool_decide (wlan_get_station_entry p mac = None)
      then (p, None)
      else let p := wlan_ralist_add env mac p in
           (p, snd <$> wlan_wmm_get_ralist_node p tid mac)
  end.

(** ** Queueing a packet *)

Definition ralist_append (m : tx_mbuf) (r : raListTbl) : raListTbl :=
  inc_count (inc_total (enq_tail m r)).

Definition raise_hint (env : wmm_env) (tid : nat) (p : wmm_priv) : wmm_priv :=
  let r := rank (maps env) (Z.of_nat tid) in
  set_hint (util_scalar_conditional_write (hint p) MLAN_SCALAR_COND_LESS_THAN r r).2 p.

(** From [util_enqueue_list_tail] on. *)
Definition add_to_ralist (env : wmm_env) (m : tx_mbuf) (tid : nat) (r : raListTbl) (p : wmm_priv) : wmm_priv :=
  let p := upd_tid tid (λ t,
    let t := inc_queued (upd_ralist (r_addr r) (ralist_append m) t) in
    if tx_pause r then inc_paused t else t) p in
  if tx_pause r then p else raise_hint env tid (inc_tx_pkts p).

Definition count_station (mac : list Z) (len : Z) (p : wmm_priv) : wmm_priv :=
  match list_find (λ s, mac_addr s = mac) (sta_list p) with
  | Some (n, s) => set_sta_list (<[n :=
      mk_sta (mac_addr s) (sta_is_wmm_enabled s) (sta_is_11n_enabled s) (sta_is_11ax_enabled s)
        (sta_max_amsdu s) (status s) (sta_tx_pause s) (u32 (sta_tx_bytes s + len)) (u32 (sta_tx_packets s + 1))]>
      (sta_list p)) p
  | None => p
  end.

Definition downgraded (p : wmm_priv) (prio0 : Z) : nat := Z.to_nat (wlan_wmm_downgrade_tid (prio p) prio0).

Definition add_found (env : wmm_env) (m : tx_mbuf) (tid : nat) (found : wmm_priv * option raListTbl) : wmm_priv :=
  match found with
  | (p, Some r) => add_to_ralist env m tid r p
  | (p, None) => wlan_write_data_complete m MLAN_STATUS_FAILURE p
  end.

Definition wlan_wmm_add_buf_txqueue (env : wmm_env) (m : tx_mbuf) (p : wmm_priv) : wmm_priv :=
  if negb (media_connected p) then wlan_write_data_complete m MLAN_STATUS_FAILURE p
  else
    let tid_down := downgraded p (tx_priority m) in
    if negb (queuing_ra_based p) then
      let dst := tx_dest m in
      let st := wlan_get_tdls_link_status p dst in
      if wlan_is_tdls_link_setup st then
        add_found env (or_flag MLAN_BUF_FLAG_TDLS m) tid_down (wlan_wmm_get_queue_raptr env tid_down dst p)
      else if decide (st = TDLS_SETUP_INPROGRESS) then
        set_tdls_pending_txq (tdls_pending_txq p ++ [m]) p
      else add_found env m tid_down (p, t ← tids p !! tid_down; head (ra_list t))
    else
      let dst := if flag_set (tx_flags m) MLAN_BUF_FLAG_EASYMESH then tx_mac m else tx_dest m in
      let '(dst, p, tid_down) :=
        if is_group dst then (bcast_addr, p, tid_down)
        else if decide (bss_type p = MLAN_BSS_TYPE_UAP) then
          match wlan_get_station_entry p dst with
          | Some s =>
              (dst, count_station dst (Z.of_nat (length (tx_bytes m))) p,
               if negb (sta_is_wmm_enabled s) && negb (is_11ac_enabled p) then downgraded p 0xff else tid_down)
          | None => (dst, p, tid_down)
          end
        else (dst, p, tid_down) in
      add_found env m tid_down (wlan_wmm_get_queue_raptr env tid_down dst p).

(** ** Pausing a receiver *)

Definition txq_linked (a : Z) (q : list (list Z)) : bool := bool_decide (a ∈ concat q).
Definition txq_unlink (a : Z) (q : list (list Z)) : list (list Z) := filter (λ b, b ≠ a) <$> q.

Definition wlan_ralist_remove_from_pending_txq (a : Z) (p : wmm_priv) : wmm_priv :=
  set_pending_txq (txq_unlink a (pending_txq p)) p.
(** No result when the entry is linked already: the ring would be corrupted. *)
Definition wlan_ralist_add_to_pending_txq (a : Z) (tid : nat) (p : wmm_priv) : option wmm_priv :=
  if txq_linked a (pending_txq p) then None
  else Some (set_pending_txq (alter (cons a)
    (Z.to_nat (wlan_wmm_select_queue (prio p) (Z.of_nat tid))) (pending_txq p)) p).

(** [pkts_paused[i]] after lists with [n] packets were paused or resumed. *)
Definition move_paused (pause : bool) (n : Z) (t : wmm_tid) : wmm_tid :=
  set_pkts_paused (if pause then u32 (pkts_paused t + n) else u32 (pkts_paused t - n)) t.

(** The end of both functions: move the count, search from the top again. *)
Definition move_tx_pkts (pause : bool) (pkt_cnt : Z) (p : wmm_priv) : wmm_priv :=
  if pkt_cnt =? 0 then p
  else
    let v := u32 (value (tx_pkts_queued p)) in
    let v := s32 (if pause then u32 (v - pkt_cnt) else u32 (v + pkt_cnt)) in
    set_hint (util_scalar_write (hint p) HIGH_PRIO_TID)
      (set_tx_pkts_queued (util_scalar_write (tx_pkts_queued p) v) p).

Definition pause_tid (mac : list Z) (pause : bool) (i : nat) (s : wmm_priv * Z) : option (wmm_priv * Z) :=
  let '(p, pkt_cnt) := s in
  match wlan_wmm_get_ralist_node p i mac with
  | None => Some s
  | Some (_, r) =>
      if eqb (tx_pause r) pause then Some s
      else
        let pkt_cnt := u32 (pkt_cnt + total_pkts r) in
        let p := upd_tid i (λ t, move_paused pause (total_pkts r)
                                   (upd_ralist (r_addr r) (set_tx_pause pause) t)) p in
        p ← (if pause then Some (wlan_ralist_remove_from_pending_txq (r_addr r) p)
             else wlan_ralist_add_to_pending_txq (r_addr r) i p);
        Some (p, pkt_cnt)
  end.

(** The return value is a [t_u16]. *)
Definition wlan_update_ralist_tx_pause (mac : list Z) (pause : bool) (p : wmm_priv) : option (wmm_priv * Z) :=
  '(p, pkt_cnt) ← for_tids (pause_tid mac pause) all_tids (p, 0);
  Some (move_tx_pkts pause pkt_cnt p, u16 pkt_cnt).

(** The walk over the RA lists of one TID. *)
Definition non_tdls_visit (mac : list Z) (pause : bool) (s : wmm_tid * Z) (r : raListTbl) : wmm_tid * Z :=
  if bool_decide (ra r ≠ mac) && negb (eqb (tx_pause r) pause)
  then (move_paused pause (total_pkts r) (upd_ralist (r_addr r) (set_tx_pause pause) s.1),
        u32 (s.2 + total_pkts r))
  else s.
Definition non_tdls_tid (mac : list Z) (pause : bool) (s : wmm_priv * Z) (i : nat) : wmm_priv * Z :=
  match tids s.1 !! i with
  | None => s
  | Some t => let r := foldl (non_tdls_visit mac pause) (t, s.2) (ra_list t) in
              (set_tids (<[i := r.1]> (tids s.1)) s.1, r.2)
  end.
Definition wlan_update_non_tdls_ralist (mac : list Z) (pause : bool) (p : wmm_priv) : wmm_priv :=
  let s := foldl (non_tdls_tid mac pause) (p, 0) all_tids in
  move_tx_pkts pause s.2 s.1.

(** ** Removing lists and packets *)

Definition complete_all (ms : list tx_mbuf) (st : mlan_status) (p : wmm_priv) : wmm_priv :=
  foldl (λ p m, wlan_write_data_complete m st p) p ms.
Definition wlan_wmm_del_pkts_in_ralist_node (r : raListTbl) (p : wmm_priv) : wmm_priv :=
  complete_all (buf_head r) MLAN_STATUS_FAILURE p.
Definition wlan_wmm_del_pkts_in_ralist (t : wmm_tid) (p : wmm_priv) : wmm_priv :=
  foldl (λ p r, wlan_wmm_del_pkts_in_ralist_node r p) p (ra_list t).

Definition wlan_wmm_cleanup_queues (p : wmm_priv) : wmm_priv :=
  let p := foldl (λ p t, wlan_wmm_del_pkts_in_ralist t p) p (tids p) in
  let p := set_tids ((λ t, set_pkts_paused 0 (set_pkts_queued 0
             (set_ra_list (set_buf_head [] <$> ra_list t) t))) <$> tids p) p in
  set_hint (util_scalar_write (hint p) HIGH_PRIO_TID)
    (set_tx_pkts_queued (util_scalar_write (tx_pkts_queued p) 0) p).

Definition wlan_wmm_delete_all_ralist (p : wmm_priv) : wmm_priv :=
  let addrs := concat ((λ t, r_addr <$> ra_list t) <$> tids p) in
  let p := foldl (λ p a, set_pending_txq (txq_unlink a (pending_txq p)) p) p addrs in
  set_tids ((λ t, set_ra_list_curr CurNull (set_ra_list [] t)) <$> tids p) p.

Definition wlan_cleanup_tdls_txq (p : wmm_priv) : wmm_priv :=
  set_tdls_pending_txq [] (complete_all (tdls_pending_txq p) MLAN_STATUS_FAILURE p).

(** The transmit queues' part of [wlan_clean_txrx]: the tables get their default
    values back. *)
Definition wlan_clean_txrx (m : tid_maps) (p : wmm_priv) : tid_maps * wmm_priv :=
  let p := if decide (bss_role p = MLAN_BSS_ROLE_STA) then wlan_cleanup_tdls_txq p else p in
  let p := wlan_wmm_delete_all_ralist (wlan_wmm_cleanup_queues p) in
  let t2t := foldr (λ ac l, ac.1 :: ac.2 :: l) [] ac_to_tid in
  (mk_maps t2t (fill_inv t2t (tos_to_tid_inv m)), set_num_drop_pkts 0 p).

Definition drop_ralist (a : Z) (next : ra_cursor) (t : wmm_tid) : wmm_tid :=
  let t := set_ra_list (filter (λ r, r_addr r ≠ a) (ra_list t)) t in
  match ra_list_curr t with
  | CurAt b => if decide (b = a) then set_ra_list_curr next t else t
  | _ => t
  end.

Definition delete_peer_tid (mac : list Z) (s : wmm_priv * Z) (i : nat) : wmm_priv * Z :=
  let '(p, pkt_cnt) := s in
  match wlan_wmm_get_ralist_node p i mac with
  | None => s
  | Some (_, r) =>
      let n := total_pkts r in
      let p := upd_tid i (λ t,
        let t := set_pkts_queued (u32 (pkts_queued t - n)) t in
        if tx_pause r then set_pkts_paused (u32 (pkts_paused t - n)) t else t) p in
      let p := wlan_wmm_del_pkts_in_ralist_node r p in
      let p := wlan_ralist_remove_from_pending_txq (r_addr r) p in
      (upd_tid i (drop_ralist (r_addr r) CurHead) p,
       if tx_pause r then pkt_cnt else u32 (pkt_cnt + n))
  end.
Definition wlan_wmm_delete_peer_ralist (mac : list Z) (p : wmm_priv) : wmm_priv :=
  let s := foldl (delete_peer_tid mac) (p, 0) all_tids in
  move_tx_pkts true s.2 s.1.

(** A list from which a packet is dropped. *)
Definition droppable (r : raListTbl) : bool :=
  negb (total_pkts r =? 0) && (tx_pause r || (total_pkts r >? RX_LOW_THRESHOLD))
  && match buf_head r with [] => false | _ => true end.
Definition wlan_del_tx_pkts_in_ralist (i : nat) (p : wmm_priv) : option wmm_priv :=
  t ← tids p !! i;
  '(_, r) ← list_find (λ r, droppable r = true) (ra_list t);
  m ← head (buf_head r);
  let p := wlan_write_data_complete m MLAN_STATUS_FAILURE p in
  let p := set_num_drop_pkts (u32 (num_drop_pkts p + 1)) p in
  let p := upd_tid i (λ t,
    let t := dec_queued (upd_ralist (r_addr r) (λ r, dec_total (set_buf_head (tail (buf_head r)) r)) t) in
    if tx_pause r then dec_paused t else t) p in
  Some (if tx_pause r then p else dec_tx_pkts p).

(** The loop from the static index [i] on, at most [n] TIDs. *)
Fixpoint drop_loop (n : nat) (i : nat) (p : wmm_priv) : nat * wmm_priv :=
  match n with
  | O => (i, p)
  | S n =>
      let i := if decide (i = 8%nat) then O else i in
      match wlan_del_tx_pkts_in_ralist i p with
      | Some p => (S i, p)
      | None => drop_loop n (S i) p
      end
  end.
Definition wlan_drop_tx_pkts (i : nat) (p : wmm_priv) : nat * wmm_priv := drop_loop 8 i p.

(** ** Direct links (TDLS) *)

(** The first packet for a receiver, and the rest of the queue. *)
Fixpoint take_packet (mac : list Z) (l : list tx_mbuf) : option (tx_mbuf * list tx_mbuf) :=
  match l with
  | [] => None
  | m :: l => if decide (tx_dest m = mac) then Some (m, l)
              else '(x, l) ← take_packet mac l; Some (x, m :: l)
  end.

(** The loop over one list ([n] bounds the packets in it). *)
Fixpoint hold_loop (mac : list Z) (n : nat) (i : nat) (a : Z) (buf : list tx_mbuf) (p : wmm_priv) : wmm_priv :=
  match n, take_packet mac buf with
  | S n, Some (m, buf) =>
      let p := upd_tid i (λ t, dec_queued
        (upd_ralist a (λ r, dec_count (dec_total (set_buf_head buf r))) t)) p in
      let p := dec_tx_pkts p in
      hold_loop mac n i a buf (set_tdls_pending_txq (tdls_pending_txq p ++ [m]) p)
  | _, _ => p
  end.
Definition hold_tid (mac : list Z) (p : wmm_priv) (i : nat) : wmm_priv :=
  match tids p !! i with
  | Some t => match ra_list t with
              | r :: _ => hold_loop mac (length (buf_head r)) i (r_addr r) (buf_head r) p
              | [] => p
              end
  | None => p
  end.
Definition wlan_hold_tdls_packets (mac : list Z) (p : wmm_priv) : wmm_priv :=
  foldl (hold_tid mac) p all_tids.

(** Moves the packets of the peer's lists to the first list of the TID and frees
    the lists.  No result when the list is itself the first one (the loop that
    moves the packets does not end) or is freed while linked. *)
Definition delete_tdls_tid (mac : list Z) (i : nat) (p : wmm_priv) : option wmm_priv :=
  match wlan_wmm_get_ralist_node p i mac with
  | None => Some p
  | Some (O, _) => None
  | Some (S _, r) =>
      t ← tids p !! i;
      ap ← head (ra_list t);
      if txq_linked (r_addr r) (pending_txq p) then None else
      let t := upd_ralist (r_addr ap) (λ ap, foldl (λ ap m, ralist_append m ap) ap (buf_head r)) t in
      Some (set_tids (<[i := drop_ralist (r_addr r) (CurAt (r_addr ap)) t]> (tids p)) p)
  end.
Definition wlan_wmm_delete_tdls_ralist (mac : list Z) (p : wmm_priv) : option wmm_priv :=
  for_tids (delete_tdls_tid mac) all_tids p.

Definition set_blocks (b : list (option Z)) (env : wmm_env) : wmm_env :=
  mk_env (maps env) (ba_adapter env) b (clk_sec env) (clk_usec env).

(** One packet taken from [tdls_pending_txq] back into an RA list. *)
Definition restore_packet (env : wmm_env) (mac : list Z) (st : tdlsStatus_e) (m : tx_mbuf) (p : wmm_priv) : wmm_priv :=
  let tid_down := downgraded p (tx_priority m) in
  let '(m, (p, found)) :=
    if decide (st = TDLS_SETUP_COMPLETE)
    then (or_flag MLAN_BUF_FLAG_TDLS m, wlan_wmm_get_queue_raptr env tid_down mac p)
    else (clear_flag MLAN_BUF_FLAG_TDLS m, (p, t ← tids p !! tid_down; head (ra_list t))) in
  match found with
  | None => wlan_write_data_complete m MLAN_STATUS_FAILURE p
  | Some r =>
      let p := upd_tid tid_down (λ t, inc_queued (upd_ralist (r_addr r) (ralist_append m) t)) p in
      raise_hint env tid_down (inc_tx_pkts p)
  end.
(** [bss] holds the allocator's answers for each packet in turn. *)
Fixpoint restore_loop (env : wmm_env) (mac : list Z) (st : tdlsStatus_e) (bss : list (list (option Z)))
    (n : nat) (p : wmm_priv) : wmm_priv :=
  match n, take_packet mac (tdls_pending_txq p) with
  | S n, Some (m, q) =>
      let p := restore_packet (set_blocks (default [] (head bss)) env) mac st m (set_tdls_pending_txq q p) in
      restore_loop env mac st (tail bss) n p
  | _, _ => p
  end.
Definition wlan_restore_tdls_packets (env : wmm_env) (mac : list Z) (st : tdlsStatus_e)
    (bss : list (list (option Z))) (p : wmm_priv) : option wmm_priv :=
  let p := restore_loop env mac st bss (length (tdls_pending_txq p)) p in
  if decide (st = TDLS_SETUP_COMPLETE) then Some p else wlan_wmm_delete_tdls_ralist mac p.

(** ** A new peer address for existing lists *)

Definition ralist_renew (p : wmm_priv) (env : wmm_env) (new_ra : list Z) (r : raListTbl) : raListTbl :=
  let '(w, amsdu) :=
    if queuing_ra_based p then
      let w := wlan_is_wmm_enabled p new_ra in
      (w, if w then get_station_max_amsdu_size p new_ra else max_amsdu r)
    else (ht_enabled p, if ht_enabled p then priv_max_amsdu p else max_amsdu r) in
  mk_ralist (r_addr r) new_ra (buf_head r) (total_pkts r) 0 (random_ba_threshold env) w amsdu
    BA_STREAM_NOT_SETUP (del_ba_count r) false (is_tdls_link r) false (r_tid r) (r_queue r).
Definition update_tid (env : wmm_env) (old_ra new_ra : list Z) (s : wmm_priv * Z) (i : nat) : wmm_priv * Z :=
  match wlan_wmm_get_ralist_node s.1 i old_ra with
  | None => s
  | Some (_, r) => (upd_tid i (upd_ralist (r_addr r) (ralist_renew s.1 env new_ra)) s.1, s.2 + 1)
  end.
(** The number of lists updated. *)
Definition wlan_ralist_update (env : wmm_env) (old_ra new_ra : list Z) (p : wmm_priv) : wmm_priv * Z :=
  foldl (update_tid env old_ra new_ra) (p, 0) all_tids.

(** ** Sending one packet *)

Definition find_ralist (a : Z) (t : wmm_tid) : option raListTbl :=
  snd <$> list_find (λ r, r_addr r = a) (ra_list t).
Definition wlan_is_ralist_valid (p : wmm_priv) (a : Z) (i : nat) : bool :=
  match tids p !! i with
  | Some t => bool_decide (is_Some (find_ralist a t))
  | None => false
  end.

(** [util_dequeue_list] of the buffers of list [a]: the packet, the next one. *)
Definition dequeue_ralist (p : wmm_priv) (a : Z) (i : nat) : option (tx_mbuf * list tx_mbuf) :=
  t ← tids p !! i;
  r ← find_ralist a t;
  match buf_head r with [] => None | m :: q => Some (m, q) end.

Definition next_pkt_len (txpd_size : Z) (q : list tx_mbuf) : Z :=
  match q with m :: _ => Z.of_nat (length (tx_bytes m)) + txpd_size | [] => 0 end.

(** [wlan_send_single_packet] up to the release of the lock: the packet and the
    length of the next one are the arguments of [wlan_process_tx].  The budgets
    are those of [sta], which is MNULL. *)
Definition send_single_begin (txpd_size : Z) (a : Z) (i : nat) (p : wmm_priv) : option (wmm_priv * tx_mbuf * Z) :=
  '(m, q) ← dequeue_ralist p a i;
  let p := dec_tx_pkts (upd_tid i (λ t, dec_queued
             (upd_ralist a (λ r, dec_total (set_buf_head q r)) t)) p) in
  Some (p, m, next_pkt_len txpd_size q).

Definition mark_sent (a : Z) (t : wmm_tid) : wmm_tid :=
  set_ra_list_curr (CurAt a) (set_packets_out (u32 (packets_out t + 1)) t).

(** The rest of it, after [wlan_process_tx] returned [st] (the interface's place
    in its priority table moves on when the packet went out). *)
Definition send_single_end (a : Z) (i : nat) (m : tx_mbuf) (st : mlan_status) (p : wmm_priv) : wmm_priv :=
  if decide (st = MLAN_STATUS_RESOURCE) then
    if wlan_is_ralist_valid p a i then
      inc_tx_pkts (upd_tid i (λ t, inc_queued
        (upd_ralist a (λ r, inc_total (enq_head (or_flag MLAN_BUF_FLAG_REQUEUED_PKT m) r)) t)) p)
    else wlan_write_data_complete m MLAN_STATUS_FAILURE p
  else if wlan_is_ralist_valid p a i then upd_tid i (mark_sent a) p
  else p.

Definition wlan_is_ptr_processed (p : wmm_priv) (a : Z) (i : nat) : bool :=
  match dequeue_ralist p a i with
  | Some (m, _) => flag_set (tx_flags m) MLAN_BUF_FLAG_REQUEUED_PKT
  | None => false
  end.

(** [wlan_send_processed_packet] up to [host_to_card]: the counters keep counting
    the packet. *)
Definition send_processed_begin (txpd_size : Z) (a : Z) (i : nat) (p : wmm_priv) : option (wmm_priv * tx_mbuf * Z) :=
  '(m, q) ← dequeue_ralist p a i;
  Some (upd_tid i (upd_ralist a (set_buf_head q)) p, m, next_pkt_len txpd_size q).

Definition send_processed_end (a : Z) (i : nat) (m : tx_mbuf) (st : mlan_status) (p : wmm_priv) : wmm_priv :=
  match st with
  | MLAN_STATUS_RESOURCE =>
      if wlan_is_ralist_valid p a i
      then upd_tid i (upd_ralist a (enq_head (or_flag MLAN_BUF_FLAG_REQUEUED_PKT m))) p
      else wlan_write_data_complete m MLAN_STATUS_FAILURE p
  | _ =>
      let p := match st with
               | MLAN_STATUS_FAILURE => wlan_write_data_complete m MLAN_STATUS_FAILURE p
               | MLAN_STATUS_SUCCESS => wlan_write_data_complete m MLAN_STATUS_SUCCESS p
               | _ => p
               end in
      let p := if wlan_is_ralist_valid p a i
               then upd_tid i (λ t, upd_ralist a dec_total (mark_sent a t)) p else p in
      dec_tx_pkts (upd_tid i dec_queued p)
  end.
