(* ===== verification/WmmInv.v ===== *)
(** * Transmit queues: what the counters count

    [wmm_wf] says that the counters of an interface are the sums they stand for,
    exactly and without wrap-around: [total_pkts] the packets of a list,
    [pkts_queued] and [pkts_paused] those of a TID, [tx_pkts_queued] those of the
    interface that may be sent; that a current list is a list of its TID; and that
    [pending_txq] holds each list at most once and only lists that exist.  A
    packet between the two halves of [wlan_send_processed_packet] is still
    counted; [pa] is the list it came from.  Every operation preserves [wmm_wf]. *)

From S2P Require Import Prelude UtilScalar RxReorder RxTable Amsdu WmmPrio WmmTbl.
#[local] Open Scope Z_scope.

(** ** The sums *)

Definition in_air (pa : option Z) (r : raListTbl) : Z := if decide (pa = Some (r_addr r)) then 1 else 0.
(** The packets a list answers for, and those of them that are paused. *)
Definition held (pa : option Z) (r : raListTbl) : Z := Z.of_nat (length (buf_head r)) + in_air pa r.
Definition held_paused (pa : option Z) (r : raListTbl) : Z := if tx_pause r then held pa r else 0.
Definition t_held (pa : option Z) (t : wmm_tid) : Z := zsum (held pa) (ra_list t).
Definition t_paused (pa : option Z) (t : wmm_tid) : Z := zsum (held_paused pa) (ra_list t).
Definition t_avail (pa : option Z) (t : wmm_tid) : Z := t_held pa t - t_paused pa t.
Definition p_held (pa : option Z) (p : wmm_priv) : Z := zsum (t_held pa) (tids p).

#[global] Arguments held : simpl never.
#[global] Arguments t_held : simpl never.
#[global] Arguments t_avail : simpl never.
#[global] Arguments p_held : simpl never.

Definition addrs (t : wmm_tid) : list Z := r_addr <$> ra_list t.
Definition all_addrs (p : wmm_priv) : list Z := concat (addrs <$> tids p).

Definition cur_ok (t : wmm_tid) : Prop :=
  match ra_list_curr t with
  | CurNull => ra_list t = []
  | CurHead => True
  | CurAt a => a ∈ addrs t
  end.

Record tid_ok (pa : option Z) (t : wmm_tid) : Prop := {
  tk_total : Forall (λ r, total_pkts r = held pa r) (ra_list t);
  tk_queued : pkts_queued t = t_held pa t;
  tk_paused : pkts_paused t = t_paused pa t;
  tk_cur : cur_ok t
}.

(** The most packets the driver holds: the lists count them in 16 bits. *)
Definition WMM_CAP : Z := 65535.

Record wmm_wf (pa : option Z) (p : wmm_priv) : Prop := {
  wf_len : length (tids p) = 8%nat;
  wf_tids : Forall (tid_ok pa) (tids p);
  wf_addrs : NoDup (all_addrs p);
  wf_tx : value (tx_pkts_queued p) = zsum (t_avail pa) (tids p);
  wf_room : p_held pa p <= WMM_CAP;
  wf_down : downgrade_ok (prio p);
  wf_txq_len : length (pending_txq p) = 4%nat;
  wf_txq_nodup : NoDup (concat (pending_txq p));
  wf_txq : ∀ a, a ∈ concat (pending_txq p) → a ∈ all_addrs p
}.

Lemma in_air_range pa r : 0 <= in_air pa r <= 1.
Proof. unfold in_air. case_decide; lia. Qed.
Lemma held_nonneg pa r : 0 <= held pa r.
Proof. unfold held. pose proof (in_air_range pa r). lia. Qed.
Lemma held_paused_le pa r : 0 <= held_paused pa r <= held pa r.
Proof. unfold held_paused. pose proof (held_nonneg pa r). destruct (tx_pause r); lia. Qed.
Lemma t_held_nonneg pa t : 0 <= t_held pa t.
Proof. apply zsum_nonneg. apply held_nonneg. Qed.
Lemma zsum_le {A} (f g : A → Z) (l : list A) : (∀ x, f x <= g x) → zsum f l <= zsum g l.
Proof. intros H. induction l as [|x l IH]; simpl; [lia|]. specialize (H x). lia. Qed.
Lemma zsum_elem {A} (f : A → Z) (l : list A) x : (∀ x, 0 <= f x) → x ∈ l → f x <= zsum f l.
Proof.
  intros Hf. induction 1 as [x l|x y l Hx IH]; simpl.
  - pose proof (zsum_nonneg f l Hf). lia.
  - specialize (Hf y). lia.
Qed.
Lemma zsum_sub {A} (f g : A → Z) (l : list A) : zsum (λ x, f x - g x) l = zsum f l - zsum g l.
Proof. induction l as [|x l IH]; simpl; lia. Qed.
Lemma zsum_ext {A} (f g : A → Z) (l : list A) : (∀ x, x ∈ l → f x = g x) → zsum f l = zsum g l.
Proof.
  induction l as [|x l IH]; intros H; simpl; [done|].
  rewrite (H x) by left. rewrite IH; [done|]. intros y Hy. apply H. by right.
Qed.
Lemma t_paused_bounds pa t : 0 <= t_paused pa t <= t_held pa t.
Proof.
  split; [apply zsum_nonneg|apply zsum_le]; intros r; apply held_paused_le.
Qed.
Lemma t_avail_bounds pa t : 0 <= t_avail pa t <= t_held pa t.
Proof. unfold t_avail. pose proof (t_paused_bounds pa t). lia. Qed.

(** The bounds that keep the counters from wrapping. *)
Lemma p_held_tid pa p i t : tids p !! i = Some t → t_held pa t <= p_held pa p.
Proof. intros H. apply zsum_elem; [apply t_held_nonneg|]. by eapply list_elem_of_lookup_2. Qed.
Lemma held_tid pa t r : r ∈ ra_list t → held pa r <= t_held pa t.
Proof. apply zsum_elem, held_nonneg. Qed.
Lemma tx_bounds pa p : wmm_wf pa p → 0 <= value (tx_pkts_queued p) <= p_held pa p.
Proof.
  intros Hw. rewrite (wf_tx _ _ Hw). split.
  - apply zsum_nonneg. intros t. apply t_avail_bounds.
  - apply zsum_le. intros t. apply t_avail_bounds.
Qed.

(** ** One list changes *)

Lemma upd_ralist_notin a f (l : list raListTbl) : a ∉ (r_addr <$> l) →
  (λ r, if decide (r_addr r = a) then f r else r) <$> l = l.
Proof.
  induction l as [|r l IH]; [done|]. rewrite fmap_cons, not_elem_of_cons. intros [Hr Hl].
  cbn. rewrite decide_False by congruence. f_equal. by apply IH.
Qed.

Lemma upd_ralist_split a f (l : list raListTbl) r : NoDup (r_addr <$> l) → r ∈ l → r_addr r = a →
  ∃ l1 l2, l = l1 ++ r :: l2 ∧ (λ r, if decide (r_addr r = a) then f r else r) <$> l = l1 ++ f r :: l2.
Proof.
  intros Hnd Hr Ha. apply list_elem_of_split in Hr as (l1 & l2 & ->). exists l1, l2. split; [done|].
  rewrite fmap_app, fmap_cons in Hnd. apply NoDup_app in Hnd as (_ & Hd & Hnd).
  apply NoDup_cons in Hnd as [Hn _].
  rewrite fmap_app, fmap_cons, decide_True by done. rewrite !upd_ralist_notin; [done|congruence|].
  intros H. apply (Hd a H). rewrite Ha. left.
Qed.

Lemma zsum_upd (g : raListTbl → Z) a f t r : NoDup (addrs t) → r ∈ ra_list t → r_addr r = a →
  zsum g (ra_list (upd_ralist a f t)) = zsum g (ra_list t) - g r + g (f r).
Proof.
  intros Hnd Hr Ha. destruct (upd_ralist_split a f (ra_list t) r Hnd Hr Ha) as (l1 & l2 & E & E').
  cbn [ra_list upd_ralist set_ra_list]. rewrite E', E, !zsum_app. simpl. lia.
Qed.

Lemma addrs_upd a f t : (∀ r, r_addr (f r) = r_addr r) → addrs (upd_ralist a f t) = addrs t.
Proof.
  intros H. unfold addrs. cbn [ra_list upd_ralist set_ra_list].
  rewrite <- list_fmap_compose. apply list_fmap_ext. intros i r _. simpl. case_decide; auto.
Qed.

Lemma elem_upd a f t r : NoDup (addrs t) → r ∈ ra_list t → r_addr r = a →
  f r ∈ ra_list (upd_ralist a f t).
Proof.
  intros Hnd Hr Ha. cbn [ra_list upd_ralist set_ra_list]. apply list_elem_of_fmap.
  exists r. by rewrite decide_True.
Qed.

(** The counters follow when one list changes from [r] to [f r]. *)
Lemma tid_ok_upd pa t a f r po q z : tid_ok pa t → NoDup (addrs t) → r ∈ ra_list t → r_addr r = a →
  (∀ r, r_addr (f r) = r_addr r) → total_pkts (f r) = held pa (f r) →
  q = pkts_queued t - held pa r + held pa (f r) →
  z = pkts_paused t - held_paused pa r + held_paused pa (f r) →
  tid_ok pa (mk_tid (ra_list (upd_ralist a f t)) (ra_list_curr t) po q z) ∧
  t_held pa (mk_tid (ra_list (upd_ralist a f t)) (ra_list_curr t) po q z) =
    t_held pa t - held pa r + held pa (f r) ∧
  t_avail pa (mk_tid (ra_list (upd_ralist a f t)) (ra_list_curr t) po q z) =
    t_avail pa t - (held pa r - held_paused pa r) + (held pa (f r) - held_paused pa (f r)).
Proof.
  intros [Ht Hq Hz Hc] Hnd Hr Ha Hf Htot -> ->.
  assert (∀ g, zsum g (ra_list (upd_ralist a f t)) = zsum g (ra_list t) - g r + g (f r)) as Hs
    by (intros g; by apply zsum_upd).
  split; [constructor|split].
  - simpl ra_list. rewrite Forall_forall in Ht |- *. intros x Hx.
    apply list_elem_of_fmap in Hx as (y & -> & Hy). case_decide as E; [|by apply Ht].
    assert (y = r) as ->; [|done].
    apply list_elem_of_lookup in Hy as [i Hi]. apply list_elem_of_lookup in Hr as [j Hj].
    assert (i = j) as ->; [|congruence].
    eapply (NoDup_lookup (addrs t)); [done|unfold addrs; rewrite list_lookup_fmap, Hi; cbn; by rewrite E|].
    unfold addrs. rewrite list_lookup_fmap, Hj. cbn. by rewrite Ha.
  - unfold t_held in *. cbn [ra_list pkts_queued]. rewrite Hs. lia.
  - unfold t_paused in *. cbn [ra_list pkts_paused]. rewrite Hs. lia.
  - unfold cur_ok in *. cbn [ra_list_curr].
    pose proof (addrs_upd a f t Hf) as Haddr. unfold addrs in Haddr |- *. cbn [ra_list] in *.
    destruct (ra_list_curr t); [|done|].
    + rewrite Hc in Hr. by apply elem_of_nil in Hr.
    + rewrite Haddr. done.
  - unfold t_held. cbn [ra_list]. apply Hs.
  - unfold t_avail, t_held, t_paused. cbn [ra_list]. rewrite !Hs. lia.
Qed.

(** ** One TID changes *)

Lemma upd_tid_insert p i f t : tids p !! i = Some t → upd_tid i f p = set_tids (<[i := f t]> (tids p)) p.
Proof.
  intros H. unfold upd_tid. f_equal. apply list_eq. intros j.
  destruct (decide (j = i)) as [->|Hne].
  - rewrite list_lookup_alter_eq, H, list_lookup_insert_eq; [done|]. by eapply lookup_lt_Some.
  - by rewrite list_lookup_alter_ne, list_lookup_insert_ne by done.
Qed.

Lemma addrs_NoDup p i t : NoDup (all_addrs p) → tids p !! i = Some t → NoDup (addrs t).
Proof.
  unfold all_addrs. intros H Hi. apply list_elem_of_split_length in Hi as (l1 & l2 & E & _).
  rewrite E, fmap_app, fmap_cons, concat_app in H. simpl in H.
  apply NoDup_app in H as (_ & _ & H). by apply NoDup_app in H as (H & _).
Qed.

Lemma concat_insert_same {A B} (g : A → list B) l i x y : l !! i = Some x → g y = g x →
  concat (g <$> <[i := y]> l) = concat (g <$> l).
Proof.
  intros Hi Hg. rewrite list_fmap_insert, Hg, list_insert_id; [done|].
  by rewrite list_lookup_fmap, Hi.
Qed.

(** TID [i] becomes [t'], with the same lists, and the count of the interface
    becomes [v]. *)
Lemma wf_upd pa p i t t' v : wmm_wf pa p → tids p !! i = Some t → tid_ok pa t' → addrs t' = addrs t →
  v = value (tx_pkts_queued p) - t_avail pa t + t_avail pa t' →
  p_held pa p - t_held pa t + t_held pa t' <= WMM_CAP →
  wmm_wf pa (set_tx_pkts_queued (util_scalar_write (tx_pkts_queued p) v) (set_tids (<[i := t']> (tids p)) p)).
Proof.
  intros Hw Hi Ht' Ha Hv Hroom. destruct Hw. constructor; try done; cbn [tids set_tids set_tx_pkts_queued].
  - by rewrite length_insert.
  - by apply Forall_insert.
  - unfold all_addrs. cbn [tids set_tids set_tx_pkts_queued]. by rewrite (concat_insert_same addrs _ i t).
  - cbn. rewrite (zsum_insert _ _ _ _ _ Hi). lia.
  - unfold p_held in *. cbn [tids set_tids set_tx_pkts_queued]. by rewrite (zsum_insert _ _ _ _ _ Hi).
  - intros a Hin. unfold all_addrs. cbn [tids set_tids set_tx_pkts_queued].
    rewrite (concat_insert_same addrs _ i t) by done. by apply wf_txq0.
Qed.

(** ** Fields the counters do not depend on *)

Ltac same_counts := let H := fresh in intros H; destruct H; by constructor.
Lemma wf_hint pa h p : wmm_wf pa p → wmm_wf pa (set_hint h p).
Proof. same_counts. Qed.
Lemma wf_complete pa m st p : wmm_wf pa p → wmm_wf pa (wlan_write_data_complete m st p).
Proof. same_counts. Qed.
Lemma wf_drops pa n p : wmm_wf pa p → wmm_wf pa (set_num_drop_pkts n p).
Proof. same_counts. Qed.
Lemma wf_tdlsq pa q p : wmm_wf pa p → wmm_wf pa (set_tdls_pending_txq q p).
Proof. same_counts. Qed.
Lemma wf_stas pa s p : wmm_wf pa p → wmm_wf pa (set_sta_list s p).
Proof. same_counts. Qed.
Lemma wf_complete_all pa ms st p : wmm_wf pa p → wmm_wf pa (complete_all ms st p).
Proof. revert p. induction ms as [|m ms IH]; intros p H; [done|]. by apply IH, wf_complete. Qed.
#[export] Hint Resolve wf_hint wf_complete wf_drops wf_tdlsq wf_stas wf_complete_all : driver.

Lemma complete_all_fields ms st p :
  let p' := complete_all ms st p in
  tids p' = tids p ∧ pending_txq p' = pending_txq p ∧ prio p' = prio p ∧
  tx_pkts_queued p' = tx_pkts_queued p ∧ tdls_pending_txq p' = tdls_pending_txq p ∧
  completed p' = completed p ++ ((λ m, (m, st)) <$> ms).
Proof.
  revert p. induction ms as [|m ms IH]; intros p; [cbn; by rewrite app_nil_r|].
  cbn [complete_all foldl]. destruct (IH (wlan_write_data_complete m st p)) as (H1&H2&H3&H4&H5&H6).
  unfold complete_all in *. rewrite H1, H2, H3, H4, H5, H6. cbn. by rewrite <- app_assoc.
Qed.

(** ** Adding a packet *)

Lemma held_append pa m r : held pa (ralist_append m r) = held pa r + 1.
Proof.
  unfold held, in_air. cbn [buf_head r_addr ralist_append inc_count inc_total enq_tail set_buf_head
    set_total_pkts set_packet_count]. rewrite length_app. simpl. lia.
Qed.

Section ops.
Context (pa : option Z).

(** Widths: 16, 32 and 31 bits are enough below the cap. *)
Lemma cap_u16 x : 0 <= x <= WMM_CAP → u16 x = x.
Proof. unfold WMM_CAP. intros. apply u_wrap_small. lia. Qed.
Lemma cap_u32 x : 0 <= x <= WMM_CAP → u32 x = x.
Proof. unfold WMM_CAP. intros. apply u_wrap_small. lia. Qed.
Lemma cap_s32 x : 0 <= x <= WMM_CAP → s32 x = x.
Proof. unfold WMM_CAP. intros. apply s_wrap_small; lia. Qed.

(** The counters of a list, its TID and the interface, within bounds. *)
Lemma wf_at p i t r : wmm_wf pa p → tids p !! i = Some t → r ∈ ra_list t →
  NoDup (addrs t) ∧ tid_ok pa t ∧ total_pkts r = held pa r ∧ pkts_queued t = t_held pa t ∧
  pkts_paused t = t_paused pa t ∧
  0 <= held_paused pa r <= held pa r ∧ held pa r <= t_held pa t ∧ held_paused pa r <= t_paused pa t ∧
  held pa r - held_paused pa r <= t_avail pa t ∧
  t_paused pa t <= t_held pa t <= p_held pa p ∧ p_held pa p <= WMM_CAP ∧
  t_avail pa t <= value (tx_pkts_queued p) <= p_held pa p ∧ t_avail pa t = t_held pa t - t_paused pa t.
Proof.
  intros Hw Hi Hr. pose proof (addrs_NoDup p i t (wf_addrs _ _ Hw) Hi) as Hnd.
  assert (tid_ok pa t) as Ht by (eapply Forall_lookup_1; [apply (wf_tids _ _ Hw)|done]).
  split; [done|]. split; [done|]. destruct Ht as [Htot Hq Hz Hc].
  rewrite Forall_forall in Htot. split; [by apply Htot|]. split; [done|]. split; [done|].
  split; [apply held_paused_le|]. split; [by apply held_tid|].
  split. { apply (zsum_elem (held_paused pa)); [|done]. intros x. apply held_paused_le. }
  split. { unfold t_avail, t_held, t_paused. rewrite <- zsum_sub.
    apply (zsum_elem (λ x, held pa x - held_paused pa x)); [|done].
    intros x. pose proof (held_paused_le pa x). lia. }
  split; [split; [apply t_paused_bounds|by eapply p_held_tid]|]. split; [apply (wf_room _ _ Hw)|].
  split; [|done]. split; [|apply (tx_bounds _ _ Hw)].
  rewrite (wf_tx _ _ Hw). apply (zsum_elem (t_avail pa)); [intros x; apply t_avail_bounds|].
  by eapply list_elem_of_lookup_2.
Qed.

(** The pattern of every operation on one list: its record changes by [f], the
    counters of the TID become [q] and [z], that of the interface [v]. *)
Lemma wf_upd_list p i t r f q z v po :
  wmm_wf pa p → tids p !! i = Some t → r ∈ ra_list t →
  (∀ r, r_addr (f r) = r_addr r) → total_pkts (f r) = held pa (f r) →
  q = pkts_queued t - held pa r + held pa (f r) →
  z = pkts_paused t - held_paused pa r + held_paused pa (f r) →
  v = value (tx_pkts_queued p) - (held pa r - held_paused pa r) + (held pa (f r) - held_paused pa (f r)) →
  p_held pa p - held pa r + held pa (f r) <= WMM_CAP →
  wmm_wf pa (set_tx_pkts_queued (util_scalar_write (tx_pkts_queued p) v)
    (set_tids (<[i := mk_tid (ra_list (upd_ralist (r_addr r) f t)) (ra_list_curr t) po q z]> (tids p)) p)).
Proof.
  intros Hw Hi Hr Hf Ht Hq Hz Hv Hroom.
  destruct (wf_at p i t r Hw Hi Hr) as (Hnd & Hok & Hb).
  destruct (tid_ok_upd pa t (r_addr r) f r po q z) as (H1 & H2 & H3); try done.
  eapply wf_upd; [done|done|done|by apply addrs_upd|lia|lia].
Qed.

Lemma add_to_ralist_wf env m i t r p : wmm_wf pa p → tids p !! i = Some t → r ∈ ra_list t →
  p_held pa p < WMM_CAP → wmm_wf pa (add_to_ralist env m i r p).
Proof.
  intros Hw Hi Hr Hroom. destruct (wf_at p i t r Hw Hi Hr) as (_ & _ & Htot & Hq & Hz & Hb).
  unfold add_to_ralist. rewrite (upd_tid_insert _ _ _ t) by done.
  pose proof (held_append pa m r) as Ha.
  assert (total_pkts (ralist_append m r) = held pa (ralist_append m r)) as Htot'.
  { rewrite Ha, <- Htot. apply cap_u16. lia. }
  destruct (tx_pause r) eqn:Ep.
  - assert (held_paused pa r = held pa r ∧ held_paused pa (ralist_append m r) = held pa r + 1) as [Hp Hp'].
    { unfold held_paused. change (tx_pause (ralist_append m r)) with (tx_pause r). by rewrite Ep. }
    pose proof (wf_upd_list p i t r (ralist_append m) (u32 (pkts_queued t + 1)) (u32 (pkts_paused t + 1))
      (value (tx_pkts_queued p)) (packets_out t) Hw Hi Hr (λ _, eq_refl) Htot') as H.
    rewrite !cap_u32 in H by lia. unfold inc_queued, inc_paused. cbn. rewrite !cap_u32 by lia.
    destruct H as [????????]; [lia..|]. by constructor.
  - assert (held_paused pa r = 0 ∧ held_paused pa (ralist_append m r) = 0) as [Hp Hp'].
    { unfold held_paused. change (tx_pause (ralist_append m r)) with (tx_pause r). by rewrite Ep. }
    pose proof (wf_upd_list p i t r (ralist_append m) (u32 (pkts_queued t + 1)) (pkts_paused t)
      (s32 (value (tx_pkts_queued p) + 1)) (packets_out t) Hw Hi Hr (λ _, eq_refl) Htot') as H.
    apply wf_hint. rewrite cap_u32, cap_s32 in H by lia.
    unfold inc_queued, inc_tx_pkts, util_scalar_increment. cbn. rewrite cap_u32, cap_s32 by lia.
    destruct H as [????????]; [lia..|]. by constructor.
Qed.

(** ** New lists *)

Lemma wf_eq p p' : tids p' = tids p → value (tx_pkts_queued p') = value (tx_pkts_queued p) →
  ac_down_graded_vals (prio p') = ac_down_graded_vals (prio p) → pending_txq p' = pending_txq p →
  wmm_wf pa p → wmm_wf pa p'.
Proof.
  intros H1 H2 H3 H4 Hw. destruct Hw. constructor; try congruence;
    unfold all_addrs, p_held, downgrade_ok in *; rewrite ?H1, ?H2, ?H3, ?H4; done.
Qed.

(** The allocator's answers: distinct, and not the address of a list in use. *)
Definition fresh_blocks (bs : list (option Z)) (p : wmm_priv) : Prop :=
  NoDup (omap id bs) ∧ ∀ a, Some a ∈ bs → (a ∉ all_addrs p) ∧ pa ≠ Some a.

Lemma concat_insert_app {A} (ls : list (list A)) i l k : ls !! i = Some l →
  concat (<[i := l ++ k]> ls) ≡ₚ k ++ concat ls.
Proof.
  intros H. apply list_elem_of_split_length in H as (l1 & l2 & -> & ->).
  rewrite insert_app_r_alt, Nat.sub_diag by done. simpl. rewrite !concat_app. simpl. solve_Permutation.
Qed.

Lemma held_new (r : raListTbl) : buf_head r = [] → pa ≠ Some (r_addr r) → held pa r = 0.
Proof. intros Hb Hp. unfold held, in_air. rewrite Hb, decide_False by done. done. Qed.

Lemma ralist_setup_fields p env a mac i :
  let r := ralist_setup p env a mac i in r_addr r = a ∧ ra r = mac ∧ buf_head r = [] ∧ total_pkts r = 0.
Proof. unfold ralist_setup. repeat case_match; done. Qed.

Definition append_list (r : raListTbl) (t : wmm_tid) : wmm_tid :=
  let t := set_ra_list (ra_list t ++ [r]) t in
  match ra_list_curr t with CurNull => set_ra_list_curr (CurAt (r_addr r)) t | _ => t end.

Lemma append_list_fields r t :
  let t' := append_list r t in
  ra_list t' = ra_list t ++ [r] ∧ pkts_queued t' = pkts_queued t ∧ pkts_paused t' = pkts_paused t.
Proof. unfold append_list. cbn. by destruct (ra_list_curr t). Qed.

Lemma append_list_wf p i t r : wmm_wf pa p → tids p !! i = Some t → r_addr r ∉ all_addrs p →
  held pa r = 0 → total_pkts r = 0 →
  wmm_wf pa (set_tids (<[i := append_list r t]> (tids p)) p) ∧
  all_addrs (set_tids (<[i := append_list r t]> (tids p)) p) ≡ₚ r_addr r :: all_addrs p ∧
  p_held pa (set_tids (<[i := append_list r t]> (tids p)) p) = p_held pa p.
Proof.
  intros Hw Hi Hnew Hh Htot.
  destruct (append_list_fields r t) as (Hl & Hq & Hz).
  assert (held_paused pa r = 0) as Hhp by (pose proof (held_paused_le pa r); lia).
  assert (t_held pa (append_list r t) = t_held pa t) as E1
    by (unfold t_held; rewrite Hl, zsum_app; simpl; lia).
  assert (t_paused pa (append_list r t) = t_paused pa t) as E2
    by (unfold t_paused; rewrite Hl, zsum_app; simpl; lia).
  assert (t_avail pa (append_list r t) = t_avail pa t) as E3 by (unfold t_avail; lia).
  assert (all_addrs (set_tids (<[i := append_list r t]> (tids p)) p) ≡ₚ r_addr r :: all_addrs p) as Hperm.
  { unfold all_addrs. cbn [tids set_tids]. rewrite list_fmap_insert. unfold addrs at 1. rewrite Hl, fmap_app.
    apply (concat_insert_app _ i (addrs t) [r_addr r]). by rewrite list_lookup_fmap, Hi. }
  destruct Hw. split; [constructor|split]; try done; cbn [tids set_tids].
  - by rewrite length_insert.
  - apply Forall_insert; [done|].
    assert (tid_ok pa t) as [Ht1 Ht2 Ht3 Ht4] by by eapply Forall_lookup_1.
    constructor; [|congruence|congruence|].
    + rewrite Hl. apply Forall_app. split; [done|]. constructor; [lia|done].
    + unfold cur_ok, append_list in *. cbn [ra_list_curr set_ra_list].
      unfold addrs in *. destruct (ra_list_curr t) eqn:Ec; cbn; rewrite ?Ec; [|done|].
      * rewrite fmap_app. apply elem_of_app. right. by left.
      * rewrite fmap_app. apply elem_of_app. by left.
  - rewrite Hperm. by constructor.
  - cbn. rewrite (zsum_insert _ _ _ _ _ Hi). lia.
  - unfold p_held in *. cbn [tids set_tids]. rewrite (zsum_insert _ _ _ _ _ Hi). lia.
  - intros b Hb. rewrite Hperm. right. by apply wf_txq0.
  - unfold p_held. cbn [tids set_tids]. rewrite (zsum_insert _ _ _ _ _ Hi). lia.
Qed.

Lemma ralist_add_loop_wf env mac : ∀ todo bs p, wmm_wf pa p → fresh_blocks bs p →
  Forall (λ i, (i < 8)%nat) todo →
  let p' := ralist_add_loop env mac bs todo p in
  wmm_wf pa p' ∧ p_held pa p' = p_held pa p ∧ tx_pkts_queued p' = tx_pkts_queued p.
Proof.
  induction todo as [|i todo IH]; intros bs p Hw Hf Hall; cbv zeta; [done|].
  destruct bs as [|[a|] bs]; [done| |done]. cbn [ralist_add_loop].
  apply Forall_cons in Hall as [Hi Hall]. destruct Hf as [Hnd Hf].
  destruct (lookup_lt_is_Some_2 (tids p) i) as [t Ht]; [by rewrite (wf_len _ _ Hw)|].
  destruct (ralist_setup_fields p env a mac i) as (Ha & _ & Hb & Htot).
  set (r := ralist_setup p env a mac i) in *.
  assert (upd_tid i _ p = set_tids (<[i := append_list r t]> (tids p)) p) as ->.
  { rewrite (upd_tid_insert _ _ _ t) by done. unfold append_list. by rewrite Ha. }
  destruct (Hf a) as [Hfa Hfp]; [by left|].
  destruct (append_list_wf p i t r Hw Ht) as (Hw' & Hperm & Hheld); [by rewrite Ha|by apply held_new; rewrite ?Ha|done|].
  destruct (IH bs _ Hw') as (H1 & H2 & H3); [|done|].
  - cbn in Hnd. apply NoDup_cons in Hnd as [Hna Hnd]. split; [done|].
    intros b Hbs. destruct (Hf b) as [Hfb Hpb]; [by right|]. split; [|done].
    rewrite Hperm, Ha, not_elem_of_cons. split; [|done]. intros ->. apply Hna.
    apply list_elem_of_omap. by exists (Some a).
  - split; [done|]. split; [lia|]. by rewrite H3.
Qed.

Lemma get_ralist_node_Some p i mac n r : wlan_wmm_get_ralist_node p i mac = Some (n, r) →
  ∃ t, tids p !! i = Some t ∧ ra_list t !! n = Some r ∧ r ∈ ra_list t ∧ ra r = mac.
Proof.
  unfold wlan_wmm_get_ralist_node. intros (t & Ht & Hf)%bind_Some.
  apply list_find_Some in Hf as (Hn & Hr & _). exists t. split_and!; try done.
  by eapply list_elem_of_lookup_2.
Qed.

(** A lookup leads to a list of the TID, and adds only empty lists. *)
Lemma get_queue_raptr_wf env i mac p p' o : wmm_wf pa p → fresh_blocks (blocks env) p →
  wlan_wmm_get_queue_raptr env i mac p = (p', o) →
  wmm_wf pa p' ∧ p_held pa p' = p_held pa p ∧ tx_pkts_queued p' = tx_pkts_queued p ∧
  (∀ r, o = Some r → ∃ t, tids p' !! i = Some t ∧ r ∈ ra_list t).
Proof.
  intros Hw Hf. unfold wlan_wmm_get_queue_raptr.
  destruct (wlan_wmm_get_ralist_node p i mac) as [[n r]|] eqn:E.
  - intros [= <- <-]. split_and!; try done. intros r' [= <-].
    apply get_ralist_node_Some in E as (t & Ht & _ & Hr & _). eauto.
  - case_match; [intros [= <- <-]; done|].
    destruct (ralist_add_loop_wf env mac all_tids (blocks env) p Hw Hf) as (H1 & H2 & H3).
    { repeat constructor; lia. }
    intros [= <- <-]. split_and!; try done. intros r' Hr'.
    apply fmap_Some in Hr' as ([n r] & E' & ->).
    apply get_ralist_node_Some in E' as (t & Ht & _ & Hr & _). eauto.
Qed.

Lemma head_tid_elem (p : wmm_priv) i r : (t ← tids p !! i; head (ra_list t)) = Some r →
  ∃ t, tids p !! i = Some t ∧ r ∈ ra_list t.
Proof.
  intros (t & Ht & Hh)%bind_Some. exists t. split; [done|].
  destruct (ra_list t); [done|]. injection Hh as ->. left.
Qed.

Lemma add_found_wf env m i p o : wmm_wf pa p → p_held pa p < WMM_CAP →
  (∀ r, o = Some r → ∃ t, tids p !! i = Some t ∧ r ∈ ra_list t) →
  wmm_wf pa (add_found env m i (p, o)).
Proof.
  intros Hw Hroom Ho. destruct o as [r|]; cbn [add_found]; [|by apply wf_complete].
  destruct (Ho r eq_refl) as (t & Ht & Hr). by eapply add_to_ralist_wf.
Qed.

Lemma count_station_wf mac n p : wmm_wf pa p → wmm_wf pa (count_station mac n p).
Proof. unfold count_station. case_match; [|done]. destruct p0. apply wf_stas. Qed.
Lemma count_station_fields mac n p :
  tids (count_station mac n p) = tids p ∧ all_addrs (count_station mac n p) = all_addrs p.
Proof. unfold count_station, all_addrs. repeat case_match; done. Qed.

Lemma add_buf_wf env m p : wmm_wf pa p → fresh_blocks (blocks env) p → p_held pa p < WMM_CAP →
  wmm_wf pa (wlan_wmm_add_buf_txqueue env m p).
Proof.
  intros Hw Hf Hroom. unfold wlan_wmm_add_buf_txqueue.
  assert (∀ i mac m p, wmm_wf pa p → fresh_blocks (blocks env) p → p_held pa p < WMM_CAP →
    wmm_wf pa (add_found env m i (wlan_wmm_get_queue_raptr env i mac p))) as Hget.
  { clear. intros i mac m p Hw Hf Hroom. destruct (wlan_wmm_get_queue_raptr env i mac p) as [p' o] eqn:E.
    destruct (get_queue_raptr_wf env i mac p p' o Hw Hf E) as (H1 & H2 & H3 & H4).
    apply add_found_wf; [done|lia|done]. }
  destruct (negb (media_connected p)); [by apply wf_complete|].
  destruct (negb (queuing_ra_based p)).
  - destruct (wlan_is_tdls_link_setup _); [by apply Hget|]. case_decide; [by apply wf_tdlsq|].
    apply add_found_wf; [done|done|]. apply head_tid_elem.
  - set (dst := if flag_set _ _ then _ else _).
    destruct (is_group dst); [by apply Hget|].
    destruct (decide (bss_type p = MLAN_BSS_TYPE_UAP)); [|by apply Hget].
    destruct (wlan_get_station_entry p dst); [|by apply Hget].
    destruct (count_station_fields dst (Z.of_nat (length (tx_bytes m))) p) as [E1 E2].
    apply Hget; [by apply count_station_wf| |unfold p_held in *; by rewrite E1].
    unfold fresh_blocks in *. by rewrite E2.
Qed.

(** ** Pausing and resuming *)

(** The interface after [cnt] packets changed sides, before its own count follows. *)
Definition shifted (pause : bool) (p : wmm_priv) (cnt : Z) : wmm_priv :=
  set_tx_pkts_queued (util_scalar_write (tx_pkts_queued p)
    (if pause then value (tx_pkts_queued p) - cnt else value (tx_pkts_queued p) + cnt)) p.

Definition mid_pause (pause : bool) (v : Z) (p : wmm_priv) (cnt : Z) : Prop :=
  wmm_wf pa (shifted pause p cnt) ∧ value (tx_pkts_queued p) = v ∧ 0 <= cnt.

Lemma mid_pause_start pause p : wmm_wf pa p → mid_pause pause (value (tx_pkts_queued p)) p 0.
Proof.
  intros Hw. split; [|done]. apply (wf_eq p); try done. unfold shifted.
  destruct pause; cbn; lia.
Qed.

Lemma mid_pause_end pause v p cnt : 0 <= v <= WMM_CAP → mid_pause pause v p cnt →
  wmm_wf pa (move_tx_pkts pause cnt p).
Proof.
  intros Hv (Hw & <- & Hc). pose proof (tx_bounds _ _ Hw) as Hb.
  pose proof (wf_room _ _ Hw) as Hroom. unfold shifted in Hb. cbn in Hb.
  change (p_held pa (shifted pause p cnt)) with (p_held pa p) in *.
  change (p_held pa (set_tx_pkts_queued _ p)) with (p_held pa p) in Hb.
  unfold move_tx_pkts. destruct (cnt =? 0) eqn:E.
  - apply (wf_eq (shifted pause p cnt)); try done. unfold shifted. destruct pause; cbn; lia.
  - apply wf_hint. rewrite (cap_u32 (value _)) by done.
    apply (wf_eq (shifted pause p cnt)); try done. cbn.
    destruct pause; cbn in Hb |- *; rewrite cap_u32, cap_s32 by lia; done.
Qed.

(** One list changes sides. *)
Lemma mid_pause_list pause v p cnt i t r : mid_pause pause v p cnt → 0 <= v <= WMM_CAP →
  tids p !! i = Some t → r ∈ ra_list t → tx_pause r = negb pause →
  mid_pause pause v (set_tids (<[i := move_paused pause (total_pkts r)
      (upd_ralist (r_addr r) (set_tx_pause pause) t)]> (tids p)) p) (cnt + total_pkts r) ∧
  u32 (cnt + total_pkts r) = cnt + total_pkts r.
Proof.
  intros (Hw & Ev & Hc) Hv Hi Hr Hp.
  destruct (wf_at _ i t r Hw Hi Hr) as (_ & _ & Htot & Hq & Hz & Hb).
  assert (held pa (set_tx_pause pause r) = held pa r) as Eh by done.
  assert (held_paused pa r = (if pause then 0 else held pa r) ∧
    held_paused pa (set_tx_pause pause r) = if pause then held pa r else 0) as [Ep Ep'].
  { unfold held_paused. rewrite Hp, Eh. cbn. by destruct pause. }
  pose proof (wf_upd_list (shifted pause p cnt) i t r (set_tx_pause pause) (pkts_queued t)
    (if pause then u32 (pkts_paused t + total_pkts r) else u32 (pkts_paused t - total_pkts r))
    (if pause then v - (cnt + total_pkts r) else v + (cnt + total_pkts r)) (packets_out t) Hw Hi Hr
    (λ _, eq_refl) Htot) as H.
  cbn in H. rewrite Ev in H.
  change (p_held pa (shifted pause p cnt)) with (p_held pa p) in *. unfold shifted in Hb. cbn in Hb. rewrite Ev in Hb.
  change (p_held pa (set_tx_pkts_queued ?x p)) with (p_held pa p) in Hb.
  assert (wmm_wf pa (shifted pause (set_tids (<[i := move_paused pause (total_pkts r)
      (upd_ralist (r_addr r) (set_tx_pause pause) t)]> (tids p)) p) (cnt + total_pkts r))) as Hw'.
  { eapply wf_eq; [..|apply H]; try done; try (rewrite Eh; lia).
    - unfold shifted. cbn. rewrite Ev. done.
    - rewrite Htot. destruct pause; simpl in *; rewrite cap_u32; lia.
    - destruct pause; simpl in *; lia. }
  split; [split; [done|split; [done|lia]]|].
  pose proof (tx_bounds _ _ Hw') as Hb'. pose proof (wf_room _ _ Hw') as Hroom'. unfold shifted in Hb'.
  cbn in Hb'. rewrite Ev in Hb'. apply cap_u32.
  change (p_held pa (set_tx_pkts_queued ?x ?q)) with (p_held pa q) in Hb'.
  unfold shifted in Hroom'. change (p_held pa (set_tx_pkts_queued ?x ?q)) with (p_held pa q) in Hroom'.
  destruct pause; lia.
Qed.

(** [pending_txq]. *)
Lemma concat_unlink a q : concat (txq_unlink a q) = filter (λ b, b ≠ a) (concat q).
Proof.
  induction q as [|l q IH]; [done|]. cbn [txq_unlink fmap list_fmap concat].
  rewrite filter_app. f_equal. apply IH.
Qed.
Lemma unlink_wf a p : wmm_wf pa p → wmm_wf pa (set_pending_txq (txq_unlink a (pending_txq p)) p).
Proof.
  intros Hw. destruct Hw. constructor; try done; cbn [pending_txq set_pending_txq].
  - unfold txq_unlink. by rewrite length_fmap.
  - rewrite concat_unlink. by apply NoDup_filter.
  - intros b. rewrite concat_unlink, list_elem_of_filter. intros [_ Hb]. by apply wf_txq0.
Qed.

Lemma select_queue_range p tid : 0 <= wlan_wmm_select_queue p tid < 4.
Proof.
  unfold wlan_wmm_select_queue. case_match; [|done]. destruct p0 as [n i].
  apply list_find_Some in H as (H & _). apply lookup_seqZ in H. lia.
Qed.

Lemma concat_alter_cons {A} (q : list (list A)) i a : (i < length q)%nat →
  concat (alter (cons a) i q) ≡ₚ a :: concat q.
Proof.
  revert i. induction q as [|l q IH]; intros [|i] Hi; simpl in *; [lia|lia|done|].
  fold (alter (cons a) i q). change (list_alter (cons a) i q) with (alter (cons a) i q).
  rewrite IH by lia. solve_Permutation.
Qed.

Lemma relink_wf a i p p' : wmm_wf pa p → a ∈ all_addrs p →
  wlan_ralist_add_to_pending_txq a i p = Some p' → wmm_wf pa p'.
Proof.
  intros Hw Ha. unfold wlan_ralist_add_to_pending_txq, txq_linked.
  case_bool_decide as Hl; [done|]. intros [= <-].
  pose proof (select_queue_range (prio p) (Z.of_nat i)) as Hs.
  destruct Hw. constructor; try done; cbn [pending_txq set_pending_txq].
  - by rewrite length_alter.
  - rewrite concat_alter_cons by lia. by constructor.
  - intros b. rewrite concat_alter_cons by lia. intros [->|Hb]%elem_of_cons; [done|].
    by apply wf_txq0.
Qed.

Lemma elem_of_concat {A} (x : A) (ls : list (list A)) : x ∈ concat ls ↔ ∃ l, x ∈ l ∧ l ∈ ls.
Proof.
  rewrite <- list_elem_of_join. assert (concat ls = mjoin ls) as ->; [|done].
  induction ls as [|l ls IH]; [done|]. cbn. by rewrite IH.
Qed.

Lemma elem_all_addrs p i t r : tids p !! i = Some t → r ∈ ra_list t → r_addr r ∈ all_addrs p.
Proof.
  intros Ht Hr. unfold all_addrs. apply elem_of_concat. exists (addrs t). split.
  - by apply list_elem_of_fmap_2.
  - apply list_elem_of_fmap. exists t. split; [done|]. by eapply list_elem_of_lookup_2.
Qed.

Lemma pause_tid_wf mac pause v i p cnt p' cnt' : mid_pause pause v p cnt → 0 <= v <= WMM_CAP →
  pause_tid mac pause i (p, cnt) = Some (p', cnt') → mid_pause pause v p' cnt'.
Proof.
  intros Hm Hv. unfold pause_tid.
  destruct (wlan_wmm_get_ralist_node p i mac) as [[n r]|] eqn:E; [|intros [= <- <-]; done].
  apply get_ralist_node_Some in E as (t & Ht & _ & Hr & _).
  destruct (eqb (tx_pause r) pause) eqn:Ep; [intros [= <- <-]; done|].
  assert (tx_pause r = negb pause) as Hp by (destruct (tx_pause r), pause; done).
  destruct (mid_pause_list pause v p cnt i t r Hm Hv Ht Hr Hp) as [Hm' Hcnt].
  rewrite (upd_tid_insert _ _ _ t) by done. rewrite Hcnt.
  set (p1 := set_tids _ p) in *. destruct Hm' as (Hw & Ev & Hc).
  assert (r_addr r ∈ all_addrs (shifted pause p1 (cnt + total_pkts r))) as Ha.
  { destruct (wf_at _ i t r (proj1 Hm) Ht Hr) as (Hnd & _).
    eapply (elem_all_addrs _ i _ (set_tx_pause pause r)).
    - unfold shifted, p1. cbn. apply list_lookup_insert_eq. by eapply lookup_lt_Some.
    - cbn. apply list_elem_of_fmap. exists r. by rewrite decide_True. }
  destruct pause.
  - intros [= <- <-]. split; [|done]. by apply (unlink_wf (r_addr r)) in Hw.
  - destruct (wlan_ralist_add_to_pending_txq (r_addr r) i p1) as [p2|] eqn:E2; [|done].
    intros [= <- <-].
    assert (wlan_ralist_add_to_pending_txq (r_addr r) i (shifted false p1 (cnt + total_pkts r)) =
      Some (shifted false p2 (cnt + total_pkts r))) as E3.
    { unfold wlan_ralist_add_to_pending_txq in *. cbn [pending_txq shifted set_tx_pkts_queued] in *.
      destruct (txq_linked _ _); [done|]. by injection E2 as <-. }
    split; [by eapply relink_wf|]. split; [|done].
    unfold wlan_ralist_add_to_pending_txq in E2. destruct (txq_linked _ _); [done|].
    by injection E2 as <-.
Qed.

Lemma for_tids_inv {S} (P : S → Prop) (f : nat → S → option S) todo s s' :
  (∀ i s s', i ∈ todo → P s → f i s = Some s' → P s') → P s → for_tids f todo s = Some s' → P s'.
Proof.
  revert s. induction todo as [|i todo IH]; intros s Hf Hs; [by intros [= <-]|].
  cbn. intros (s1 & H1 & H2)%bind_Some. eapply IH; [|by eapply Hf; [left|..]|done].
  intros j ???. apply Hf. by right.
Qed.

Lemma update_tx_pause_wf mac pause p p' n : wmm_wf pa p →
  wlan_update_ralist_tx_pause mac pause p = Some (p', n) → wmm_wf pa p'.
Proof.
  intros Hw. unfold wlan_update_ralist_tx_pause. intros ([p1 cnt] & H & [= <- <-])%bind_Some.
  assert (0 <= value (tx_pkts_queued p) <= WMM_CAP) as Hv
    by (pose proof (tx_bounds _ _ Hw); pose proof (wf_room _ _ Hw); lia).
  eapply mid_pause_end; [apply Hv|].
  revert H. apply (for_tids_inv (λ s, mid_pause pause (value (tx_pkts_queued p)) s.1 s.2)
    _ _ (p, 0) (p1, cnt)); [|by apply mid_pause_start].
  intros i [q c] [q' c'] _ Hm. by apply pause_tid_wf.
Qed.

Lemma non_tdls_list_wf mac pause v i : ∀ rest t p cnt, mid_pause pause v p cnt → 0 <= v <= WMM_CAP →
  tids p !! i = Some t → NoDup (r_addr <$> rest) → (∀ r, r ∈ rest → r ∈ ra_list t) →
  let s := foldl (non_tdls_visit mac pause) (t, cnt) rest in
  mid_pause pause v (set_tids (<[i := s.1]> (tids p)) p) s.2.
Proof.
  induction rest as [|r rest IH]; intros t p cnt Hm Hv Hi Hnd Hin; cbn [foldl]; cbv zeta.
  - destruct Hm as (Hw & Ev & Hc). split; [|done]. eapply wf_eq; [..|apply Hw]; try done.
    cbn. by apply list_insert_id.
  - cbn in Hnd. apply NoDup_cons in Hnd as [Hr Hnd].
    unfold non_tdls_visit at 2 4. cbn [fst snd].
    destruct (bool_decide _ && _) eqn:E; [|apply IH; auto; intros x Hx; apply Hin; by right].
    apply andb_true_iff in E as [_ Ep].
    assert (tx_pause r = negb pause) as Hp by (destruct (tx_pause r), pause; done).
    destruct (mid_pause_list pause v p cnt i t r Hm Hv Hi (Hin r ltac:(left)) Hp) as [Hm' ->].
    set (t' := move_paused pause (total_pkts r) (upd_ralist (r_addr r) (set_tx_pause pause) t)) in *.
    specialize (IH t' (set_tids (<[i := t']> (tids p)) p) (cnt + total_pkts r) Hm' Hv).
    cbv zeta in IH. destruct (foldl _ _ rest) as [t'' c'']. cbn [fst snd tids set_tids] in IH |- *.
    rewrite list_insert_insert_eq in IH. apply IH; [|done|].
    + apply list_lookup_insert_eq. by eapply lookup_lt_Some.
    + intros x Hx. cbn. apply list_elem_of_fmap. exists x. split.
      * rewrite decide_False; [done|]. intros Hxr. apply Hr. rewrite <- Hxr. by apply list_elem_of_fmap_2.
      * apply Hin. by right.
Qed.

Lemma foldl_inv {S A} (P : S → Prop) (f : S → A → S) l s :
  (∀ s a, P s → P (f s a)) → P s → P (foldl f s l).
Proof. revert s. induction l as [|a l IH]; intros s Hf Hs; [done|]. apply IH; auto. Qed.

Lemma update_non_tdls_wf mac pause p : wmm_wf pa p → wmm_wf pa (wlan_update_non_tdls_ralist mac pause p).
Proof.
  intros Hw. unfold wlan_update_non_tdls_ralist.
  assert (0 <= value (tx_pkts_queued p) <= WMM_CAP) as Hv
    by (pose proof (tx_bounds _ _ Hw); pose proof (wf_room _ _ Hw); lia).
  eapply mid_pause_end; [apply Hv|].
  apply (foldl_inv (λ s, mid_pause pause (value (tx_pkts_queued p)) s.1 s.2)); [|by apply mid_pause_start].
  intros [q cnt] i Hm. unfold non_tdls_tid. cbn [fst snd] in *.
  destruct (tids q !! i) as [t|] eqn:Hi; [|done]. cbv zeta.
  apply non_tdls_list_wf; try done. eapply (addrs_NoDup (shifted pause q cnt)); [|done].
  apply (wf_addrs _ _ (proj1 Hm)).
Qed.

(** ** Removing a list *)

Lemma filter_split (l : list raListTbl) r : NoDup (r_addr <$> l) → r ∈ l →
  ∃ l1 l2, l = l1 ++ r :: l2 ∧ filter (λ x, r_addr x ≠ r_addr r) l = l1 ++ l2.
Proof.
  intros Hnd Hr. apply list_elem_of_split in Hr as (l1 & l2 & ->). exists l1, l2. split; [done|].
  rewrite fmap_app, fmap_cons in Hnd. apply NoDup_app in Hnd as (_ & Hd & Hnd).
  apply NoDup_cons in Hnd as [Hn _].
  rewrite filter_app, filter_cons_False by tauto. rewrite !filter_id; [done|..];
    apply Forall_forall; intros x Hx E.
  - apply Hn. rewrite <- E. by apply list_elem_of_fmap_2.
  - apply (Hd (r_addr r)); [|left]. rewrite <- E. by apply list_elem_of_fmap_2.
Qed.

Definition next_ok (a : Z) (next : ra_cursor) (t : wmm_tid) : Prop :=
  next = CurHead ∨ ∃ b, next = CurAt b ∧ b ∈ addrs t ∧ b ≠ a.

Lemma drop_ralist_fields a next t :
  let t' := drop_ralist a next t in
  ra_list t' = filter (λ x, r_addr x ≠ a) (ra_list t) ∧ pkts_queued t' = pkts_queued t ∧
  pkts_paused t' = pkts_paused t.
Proof. unfold drop_ralist. cbn. repeat case_match; done. Qed.

Lemma addrs_filter a (l : list raListTbl) b : b ≠ a → b ∈ (r_addr <$> l) →
  b ∈ (r_addr <$> filter (λ x, r_addr x ≠ a) l).
Proof.
  intros Hne. rewrite !list_elem_of_fmap. intros (x & -> & Hx). exists x. split; [done|].
  by apply list_elem_of_filter.
Qed.

Lemma drop_ralist_cur a next t : cur_ok t → next_ok a next t → cur_ok (drop_ralist a next t).
Proof.
  unfold cur_ok, drop_ralist, addrs. cbn. intros Hc Hn.
  destruct (ra_list_curr t) as [| |b] eqn:E; cbn; rewrite ?E.
  - by rewrite Hc.
  - done.
  - case_decide as Eb; cbn; rewrite ?E.
    + destruct Hn as [->|(c & -> & Hcin & Hne)]; [done|]. by apply addrs_filter.
    + by apply addrs_filter.
Qed.

Lemma remove_addrs (p : wmm_priv) i t t' a : tids p !! i = Some t →
  addrs t' = filter (λ b, b ≠ a) (addrs t) →
  sublist (concat (addrs <$> <[i := t']> (tids p))) (all_addrs p) ∧
  ∀ b, b ≠ a → b ∈ all_addrs p → b ∈ concat (addrs <$> <[i := t']> (tids p)).
Proof.
  intros Hi Ht'. unfold all_addrs.
  apply list_elem_of_split_length in Hi as (l1 & l2 & E & ->). rewrite E.
  rewrite insert_app_r_alt, Nat.sub_diag by done. cbn [insert list_insert].
  rewrite !fmap_app, !fmap_cons, !concat_app, Ht'. cbn [concat]. split.
  - apply sublist_app; [done|]. apply sublist_app; [apply sublist_filter|done].
  - intros b Hb. rewrite !elem_of_app, list_elem_of_filter. tauto.
Qed.

Lemma addrs_drop a next t : addrs (drop_ralist a next t) = filter (λ b, b ≠ a) (addrs t).
Proof.
  unfold addrs. destruct (drop_ralist_fields a next t) as (-> & _).
  induction (ra_list t) as [|r l IH]; [done|]. cbn [fmap list_fmap].
  destruct (decide (r_addr r = a)) as [E|Hne].
  - rewrite !filter_cons_False by tauto. apply IH.
  - rewrite !filter_cons_True by done. cbn. f_equal. apply IH.
Qed.

Lemma wf_remove p i t r next q z v : wmm_wf pa p → tids p !! i = Some t → r ∈ ra_list t →
  (r_addr r ∉ concat (pending_txq p)) → next_ok (r_addr r) next t →
  q = pkts_queued t - held pa r → z = pkts_paused t - held_paused pa r →
  v = value (tx_pkts_queued p) - (held pa r - held_paused pa r) →
  wmm_wf pa (set_tx_pkts_queued (util_scalar_write (tx_pkts_queued p) v)
    (set_tids (<[i := set_pkts_paused z (set_pkts_queued q (drop_ralist (r_addr r) next t))]> (tids p)) p)).
Proof.
  intros Hw Hi Hr Hun Hn Hq Hz Hv.
  destruct (wf_at p i t r Hw Hi Hr) as (Hnd & Hok & _ & _ & _ & Hb).
  set (t' := set_pkts_paused z (set_pkts_queued q (drop_ralist (r_addr r) next t))).
  assert (ra_list t' = filter (λ x, r_addr x ≠ r_addr r) (ra_list t)) as El
    by apply (drop_ralist_fields (r_addr r) next t).
  destruct (filter_split (ra_list t) r Hnd Hr) as (l1 & l2 & E1 & E2).
  assert (∀ g, zsum g (ra_list t') = zsum g (ra_list t) - g r) as Hs.
  { intros g. rewrite El, E2, E1, !zsum_app. simpl. lia. }
  assert (t_held pa t' = t_held pa t - held pa r) as Hh by apply Hs.
  assert (t_paused pa t' = t_paused pa t - held_paused pa r) as Hp by apply Hs.
  assert (t_avail pa t' = t_avail pa t - (held pa r - held_paused pa r)) as Ha by (unfold t_avail; lia).
  destruct Hok as [Ht1 Ht2 Ht3 Ht4].
  assert (addrs t' = filter (λ b, b ≠ r_addr r) (addrs t)) as Haddr by apply (addrs_drop (r_addr r) next t).
  destruct (remove_addrs p i t t' (r_addr r) Hi Haddr) as [Hsub Hin].
  destruct Hw. constructor; try done; cbn [tids set_tids set_tx_pkts_queued].
  - by rewrite length_insert.
  - apply Forall_insert; [done|]. constructor.
    + rewrite El, E2. rewrite E1 in Ht1. apply Forall_app in Ht1 as [? [? ?]%Forall_cons]. by apply Forall_app.
    + change (pkts_queued t') with q. lia.
    + change (pkts_paused t') with z. lia.
    + by apply (drop_ralist_cur (r_addr r) next t).
  - apply (sublist_NoDup _ (all_addrs p)); [done|exact Hsub].
  - cbn. rewrite (zsum_insert _ _ _ _ _ Hi). lia.
  - unfold p_held in *. cbn [tids set_tids set_tx_pkts_queued]. rewrite (zsum_insert _ _ _ _ _ Hi).
    pose proof (held_nonneg pa r). lia.
  - intros b Hbq. apply Hin; [|by apply wf_txq0]. intros ->. by apply Hun.
Qed.

Lemma drop_queued a n q t : drop_ralist a n (set_pkts_queued q t) = set_pkts_queued q (drop_ralist a n t).
Proof. unfold drop_ralist. cbn. repeat case_match; done. Qed.
Lemma drop_paused a n z t : drop_ralist a n (set_pkts_paused z t) = set_pkts_paused z (drop_ralist a n t).
Proof. unfold drop_ralist. cbn. repeat case_match; done. Qed.

Lemma delete_peer_tid_wf mac v s i : mid_pause true v s.1 s.2 → 0 <= v <= WMM_CAP →
  mid_pause true v (delete_peer_tid mac s i).1 (delete_peer_tid mac s i).2.
Proof.
  destruct s as [p cnt]. intros Hm Hv. unfold delete_peer_tid.
  destruct (wlan_wmm_get_ralist_node p i mac) as [[n r]|] eqn:E; [|done].
  apply get_ralist_node_Some in E as (t & Ht & _ & Hr & _). cbn [fst snd] in *.
  destruct Hm as (Hw & Ev & Hc).
  destruct (wf_at _ i t r Hw Ht Hr) as (_ & _ & Htot & Hq & Hz & Hb).
  rewrite (upd_tid_insert p i _ t) by done.
  set (t1 := if tx_pause r then _ else _).
  set (p1 := set_tids (<[i := t1]> (tids p)) p).
  unfold wlan_wmm_del_pkts_in_ralist_node.
  destruct (complete_all_fields (buf_head r) MLAN_STATUS_FAILURE p1) as (C1 & C2 & C3 & C4 & _).
  set (p2 := complete_all _ _ p1) in *. unfold wlan_ralist_remove_from_pending_txq.
  assert (tids p2 !! i = Some t1) as Hi2.
  { rewrite C1. apply list_lookup_insert_eq. by eapply lookup_lt_Some. }
  rewrite (upd_tid_insert _ i _ t1) by done. cbn [tids set_pending_txq].
  rewrite C1. unfold p1 at 1. cbn [tids set_tids]. rewrite list_insert_insert_eq, C2.
  set (p3 := shifted true (set_pending_txq (txq_unlink (r_addr r) (pending_txq p)) p) cnt).
  assert (wmm_wf pa p3) as Hw3 by apply (unlink_wf (r_addr r) _ Hw).
  set (cnt' := if tx_pause r then cnt else u32 (cnt + total_pkts r)).
  assert (0 <= v - cnt) as Hvc by (pose proof (tx_bounds _ _ Hw) as Hb'; unfold shifted in Hb'; cbn in Hb'; lia).
  pose proof (tx_bounds _ _ Hw) as Hb'. unfold shifted in Hb', Hb. cbn in Hb', Hb. rewrite Ev in Hb', Hb.
  assert (cnt' = cnt + (held pa r - held_paused pa r)) as Hcnt.
  { unfold cnt', held_paused in *. destruct (tx_pause r); [lia|]. rewrite Htot, cap_u32; lia. }
  pose proof (wf_remove p3 i t r CurHead (u32 (pkts_queued t - total_pkts r))
    (if tx_pause r then u32 (pkts_paused t - total_pkts r) else pkts_paused t) (v - cnt') Hw3 Ht Hr) as H.
  split; [|split; [cbn; unfold p1 in C4; by rewrite C4|unfold held_paused in *; destruct (tx_pause r); lia]].
  eapply wf_eq; [..|apply H].
  - cbn. f_equal. unfold t1. destruct (tx_pause r); cbn [tx_pause]; rewrite ?drop_paused, drop_queued; [done|].
    unfold drop_ralist. cbn. repeat case_match; done.
  - cbn. rewrite C4. cbn. by rewrite Ev.
  - cbn. by rewrite C3.
  - done.
  - cbn. rewrite concat_unlink, list_elem_of_filter. tauto.
  - by left.
  - rewrite Htot, cap_u32; lia.
  - unfold held_paused. destruct (tx_pause r) eqn:Ep; [|lia]. rewrite Htot, cap_u32; [lia|].
    unfold held_paused in Hb. rewrite Ep in Hb. lia.
  - cbn. lia.
Qed.

Lemma delete_peer_wf mac p : wmm_wf pa p → wmm_wf pa (wlan_wmm_delete_peer_ralist mac p).
Proof.
  intros Hw. unfold wlan_wmm_delete_peer_ralist.
  assert (0 <= value (tx_pkts_queued p) <= WMM_CAP) as Hv
    by (pose proof (tx_bounds _ _ Hw); pose proof (wf_room _ _ Hw); lia).
  eapply mid_pause_end; [apply Hv|].
  apply (foldl_inv (λ s, mid_pause true (value (tx_pkts_queued p)) s.1 s.2)); [|by apply mid_pause_start].
  intros s i Hs. by apply delete_peer_tid_wf.
Qed.

(** ** One packet in or out *)

Lemma held_buf r r' : r_addr r' = r_addr r →
  held pa r' = held pa r - Z.of_nat (length (buf_head r)) + Z.of_nat (length (buf_head r')).
Proof. intros E. unfold held, in_air. rewrite E. lia. Qed.

(** A packet leaves list [r]: [f] takes it out of the buffer and counts down. *)
Lemma pop_wf p i t r f : wmm_wf pa p → tids p !! i = Some t → r ∈ ra_list t →
  (∀ r, r_addr (f r) = r_addr r) → tx_pause (f r) = tx_pause r →
  length (buf_head r) = S (length (buf_head (f r))) → total_pkts (f r) = u16 (total_pkts r - 1) →
  let t' := dec_queued (upd_ralist (r_addr r) f t) in
  wmm_wf pa (if tx_pause r then set_tids (<[i := dec_paused t']> (tids p)) p
             else dec_tx_pkts (set_tids (<[i := t']> (tids p)) p)).
Proof.
  intros Hw Hi Hr Hfa Hfp Hfb Hft. cbv zeta.
  destruct (wf_at p i t r Hw Hi Hr) as (_ & _ & Htot & Hq & Hz & Hbd).
  pose proof (held_buf r (f r) (Hfa r)) as Hh.
  assert (1 <= held pa r) as H1 by (unfold held; pose proof (in_air_range pa r); lia).
  assert (total_pkts (f r) = held pa (f r)) as Hft' by (rewrite Hft, Htot, cap_u16; lia).
  assert (held_paused pa r = (if tx_pause r then held pa r else 0) ∧
          held_paused pa (f r) = if tx_pause r then held pa (f r) else 0) as [Ep Ep'].
  { unfold held_paused. by rewrite Hfp. }
  pose proof (wf_upd_list p i t r f (u32 (pkts_queued t - 1))
    (if tx_pause r then u32 (pkts_paused t - 1) else pkts_paused t)
    (if tx_pause r then value (tx_pkts_queued p) else s32 (value (tx_pkts_queued p) - 1))
    (packets_out t) Hw Hi Hr Hfa Hft') as H.
  destruct (tx_pause r); eapply wf_eq; try apply H; try done; cbn;
    rewrite ?cap_u32, ?cap_s32 by lia; lia.
Qed.

(** A packet joins list [r], which is not paused. *)
Lemma push_wf p i t r f : wmm_wf pa p → tids p !! i = Some t → r ∈ ra_list t → tx_pause r = false →
  (∀ r, r_addr (f r) = r_addr r) → tx_pause (f r) = false →
  length (buf_head (f r)) = S (length (buf_head r)) → total_pkts (f r) = u16 (total_pkts r + 1) →
  p_held pa p < WMM_CAP →
  wmm_wf pa (inc_tx_pkts (set_tids (<[i := inc_queued (upd_ralist (r_addr r) f t)]> (tids p)) p)).
Proof.
  intros Hw Hi Hr Hp Hfa Hfp Hfb Hft Hroom.
  destruct (wf_at p i t r Hw Hi Hr) as (_ & _ & Htot & Hq & Hz & Hbd).
  pose proof (held_buf r (f r) (Hfa r)) as Hh. rewrite Hfb in Hh.
  assert (total_pkts (f r) = held pa (f r)) as Hft' by (rewrite Hft, Htot, cap_u16; lia).
  assert (held_paused pa r = 0 ∧ held_paused pa (f r) = 0) as [Ep Ep']
    by (unfold held_paused; by rewrite Hp, Hfp).
  pose proof (wf_upd_list p i t r f (u32 (pkts_queued t + 1)) (pkts_paused t)
    (s32 (value (tx_pkts_queued p) + 1)) (packets_out t) Hw Hi Hr Hfa Hft') as H.
  eapply wf_eq; try apply H; try done; cbn; rewrite ?cap_u32, ?cap_s32 by lia; lia.
Qed.

Lemma del_tx_pkts_wf i p p' : wmm_wf pa p → wlan_del_tx_pkts_in_ralist i p = Some p' → wmm_wf pa p'.
Proof.
  intros Hw. unfold wlan_del_tx_pkts_in_ralist.
  intros (t & Ht & ([n r] & Hf & (m & Hm & [= <-])%bind_Some)%bind_Some)%bind_Some.
  apply list_find_Some in Hf as (Hn & _ & _). apply list_elem_of_lookup_2 in Hn.
  destruct (buf_head r) as [|m' q] eqn:Eb; [done|].
  rewrite (upd_tid_insert _ i _ t) by done.
  pose proof (pop_wf p i t r (λ r, dec_total (set_buf_head (tail (buf_head r)) r)) Hw Ht Hn
    (λ _, eq_refl) eq_refl) as H. cbn [buf_head dec_total set_buf_head set_total_pkts] in H.
  rewrite Eb in H. specialize (H eq_refl eq_refl). cbv zeta in H.
  destruct (tx_pause r); (eapply wf_eq; [..|exact H]); done.
Qed.

Lemma drop_loop_wf n i p : wmm_wf pa p → wmm_wf pa (drop_loop n i p).2.
Proof.
  revert i. induction n as [|n IH]; intros i Hw; [done|]. cbn [drop_loop]. cbv zeta.
  destruct (wlan_del_tx_pkts_in_ralist _ p) eqn:E; [|by apply IH].
  by eapply del_tx_pkts_wf.
Qed.

Lemma drop_tx_pkts_wf i p : wmm_wf pa p → wmm_wf pa (wlan_drop_tx_pkts i p).2.
Proof. apply drop_loop_wf. Qed.

(** ** Disconnecting *)

Lemma del_pkts_fields (ts : list wmm_tid) p :
  let p' := foldl (λ p t, wlan_wmm_del_pkts_in_ralist t p) p ts in
  tids p' = tids p ∧ pending_txq p' = pending_txq p ∧ prio p' = prio p ∧
  tx_pkts_queued p' = tx_pkts_queued p ∧ tdls_pending_txq p' = tdls_pending_txq p ∧
  completed p' = completed p ++ ((λ m, (m, MLAN_STATUS_FAILURE)) <$> concat ((λ t, concat (buf_head <$> ra_list t)) <$> ts)).
Proof.
  revert p. induction ts as [|t ts IH]; intros p; [cbn; by rewrite app_nil_r|]. cbn [foldl].
  assert (∀ (l : list raListTbl) p, let p' := foldl (λ p r, wlan_wmm_del_pkts_in_ralist_node r p) p l in
    tids p' = tids p ∧ pending_txq p' = pending_txq p ∧ prio p' = prio p ∧
    tx_pkts_queued p' = tx_pkts_queued p ∧ tdls_pending_txq p' = tdls_pending_txq p ∧
    completed p' = completed p ++ ((λ m, (m, MLAN_STATUS_FAILURE)) <$> concat (buf_head <$> l))) as Hl.
  { clear. induction l as [|r l IH]; intros p; [cbn; by rewrite app_nil_r|]. cbn [foldl].
    destruct (IH (wlan_wmm_del_pkts_in_ralist_node r p)) as (H1&H2&H3&H4&H5&H6).
    destruct (complete_all_fields (buf_head r) MLAN_STATUS_FAILURE p) as (C1&C2&C3&C4&C5&C6).
    unfold wlan_wmm_del_pkts_in_ralist_node in *. rewrite H1, H2, H3, H4, H5, H6, C1, C2, C3, C4, C5, C6.
    cbn. by rewrite fmap_app, app_assoc. }
  destruct (IH (wlan_wmm_del_pkts_in_ralist t p)) as (H1&H2&H3&H4&H5&H6).
  destruct (Hl (ra_list t) p) as (C1&C2&C3&C4&C5&C6).
  unfold wlan_wmm_del_pkts_in_ralist in *. rewrite H1, H2, H3, H4, H5, H6, C1, C2, C3, C4, C5, C6.
  cbn. by rewrite fmap_app, app_assoc.
Qed.

Lemma unlink_all_fields as_ p :
  let p' := foldl (λ p a, set_pending_txq (txq_unlink a (pending_txq p)) p) p as_ in
  tids p' = tids p ∧ prio p' = prio p ∧ tx_pkts_queued p' = tx_pkts_queued p ∧
  tdls_pending_txq p' = tdls_pending_txq p ∧ completed p' = completed p ∧
  length (pending_txq p') = length (pending_txq p) ∧
  concat (pending_txq p') = filter (λ b, b ∉ as_) (concat (pending_txq p)).
Proof.
  revert p. induction as_ as [|a l IH]; intros p.
  - cbn. split_and!; try done. rewrite filter_id; [done|]. apply Forall_forall. intros ???%elem_of_nil. done.
  - cbn [foldl]. destruct (IH (set_pending_txq (txq_unlink a (pending_txq p)) p)) as (H1&H2&H3&H4&H5&H6&H7).
    rewrite H1, H2, H3, H4, H5, H6, H7. cbn [tids prio tx_pkts_queued tdls_pending_txq completed pending_txq set_pending_txq].
    split_and!; try done; [unfold txq_unlink; by rewrite length_fmap|].
    rewrite concat_unlink, list_filter_filter. apply list_filter_iff. intros b.
    rewrite not_elem_of_cons. tauto.
Qed.

Definition empty_tid (t : wmm_tid) : wmm_tid := mk_tid [] CurNull (packets_out t) 0 0.

Lemma clean_txrx_fields m p : let p' := (wlan_clean_txrx m p).2 in
  tids p' = empty_tid <$> tids p ∧ value (tx_pkts_queued p') = 0 ∧
  ac_down_graded_vals (prio p') = ac_down_graded_vals (prio p) ∧
  length (pending_txq p') = length (pending_txq p) ∧
  concat (pending_txq p') = filter (λ b, b ∉ all_addrs p) (concat (pending_txq p)).
Proof.
  unfold wlan_clean_txrx. cbn [snd].
  set (p0 := if decide _ then _ else _).
  assert (tids p0 = tids p ∧ pending_txq p0 = pending_txq p ∧ prio p0 = prio p) as (E1 & E2 & E3).
  { unfold p0, wlan_cleanup_tdls_txq. case_decide; [|done]. cbn.
    by destruct (complete_all_fields (tdls_pending_txq p) MLAN_STATUS_FAILURE p) as (->&->&->&_). }
  destruct (del_pkts_fields (tids p0) p0) as (D1 & D2 & D3 & _).
  unfold wlan_wmm_delete_all_ralist.
  set (p1 := wlan_wmm_cleanup_queues p0).
  assert (tids p1 = (λ t, set_pkts_paused 0 (set_pkts_queued 0
             (set_ra_list (set_buf_head [] <$> ra_list t) t))) <$> tids p) as F1.
  { unfold p1, wlan_wmm_cleanup_queues. cbn. by rewrite D1, E1. }
  assert (concat ((λ t, r_addr <$> ra_list t) <$> tids p1) = all_addrs p) as ->.
  { rewrite F1, <- list_fmap_compose. unfold all_addrs, addrs. f_equal. apply list_fmap_ext.
    intros j t _. cbn. rewrite <- list_fmap_compose. done. }
  destruct (unlink_all_fields (all_addrs p) p1) as (U1&U2&U3&_&_&U4&U5).
  cbn [tids pending_txq prio tx_pkts_queued set_num_drop_pkts set_tids].
  rewrite U1, U2, U3, U4, U5, F1. unfold p1, wlan_wmm_cleanup_queues. cbn. rewrite D2, D3, E2, E3.
  split_and!; try done. by rewrite <- list_fmap_compose.
Qed.

Lemma zsum_fmap {A B} (f : B → Z) (g : A → B) l : zsum f (g <$> l) = zsum (f ∘ g) l.
Proof. induction l as [|x l IH]; [done|]. cbn. by rewrite IH. Qed.

Lemma clean_txrx_wf m p : wmm_wf pa p → wmm_wf pa (wlan_clean_txrx m p).2.
Proof.
  intros Hw. destruct (clean_txrx_fields m p) as (F1 & F2 & F3 & F4 & F5).
  set (p' := (wlan_clean_txrx m p).2) in *. destruct Hw.
  assert (all_addrs p' = []) as Ea.
  { unfold all_addrs. rewrite F1, <- list_fmap_compose. clear. induction (tids p); [done|]. apply IHl. }
  assert (∀ g : wmm_tid → Z, (∀ t, g (empty_tid t) = 0) → zsum g (tids p') = 0) as Hz.
  { intros g Hg. rewrite F1, zsum_fmap. apply zsum_zero. apply Forall_forall. intros t _. apply Hg. }
  assert (concat (pending_txq p') = []) as Eq.
  { rewrite F5. destruct (filter _ _) as [|b l] eqn:E; [done|].
    assert (b ∈ filter (λ b, b ∉ all_addrs p) (concat (pending_txq p))) as Hb by (rewrite E; left).
    apply list_elem_of_filter in Hb as [H1 H2]. destruct H1. by apply wf_txq0. }
  constructor.
  - by rewrite F1, length_fmap.
  - rewrite F1. apply Forall_fmap, Forall_forall. intros t _. by constructor.
  - rewrite Ea. constructor.
  - rewrite F2, Hz; [done|]. by intros.
  - unfold p_held. rewrite Hz; [unfold WMM_CAP; lia|by intros].
  - unfold downgrade_ok in *. by rewrite F3.
  - by rewrite F4.
  - rewrite Eq. constructor.
  - rewrite Eq. by intros ? ?%elem_of_nil.
Qed.

(** ** Sending *)

Lemma find_ralist_elem a t r : find_ralist a t = Some r → r ∈ ra_list t ∧ r_addr r = a.
Proof.
  unfold find_ralist. intros ([n x] & H & ->)%fmap_Some.
  apply list_find_Some in H as (H & Ha & _). split; [by eapply list_elem_of_lookup_2|done].
Qed.

Lemma dequeue_ralist_Some p a i m q : dequeue_ralist p a i = Some (m, q) →
  ∃ t r, tids p !! i = Some t ∧ find_ralist a t = Some r ∧ r ∈ ra_list t ∧ r_addr r = a ∧ buf_head r = m :: q.
Proof.
  unfold dequeue_ralist. intros (t & Ht & (r & Hr & Hm)%bind_Some)%bind_Some.
  destruct (find_ralist_elem a t r Hr) as [H1 H2]. exists t, r.
  destruct (buf_head r) as [|m' q']; [done|]. injection Hm as -> ->. done.
Qed.

Lemma is_ralist_valid_spec p a i : wlan_is_ralist_valid p a i = true ↔
  ∃ t r, tids p !! i = Some t ∧ r ∈ ra_list t ∧ r_addr r = a.
Proof.
  unfold wlan_is_ralist_valid. split.
  - destruct (tids p !! i) as [t|] eqn:Ht; [|done]. rewrite bool_decide_eq_true. intros [r Hr].
    apply find_ralist_elem in Hr as [H1 H2]. eauto.
  - intros (t & r & Ht & Hr & Ha). rewrite Ht. apply bool_decide_eq_true.
    unfold find_ralist. destruct (list_find_elem_of (λ r, r_addr r = a) (ra_list t) r) as [x Hx]; [done..|].
    rewrite Hx. cbn. eauto.
Qed.

(** The list at an address, if there is one, is not paused. *)
Definition unpaused_at (p : wmm_priv) (a : Z) (i : nat) : Prop :=
  ∀ t r, tids p !! i = Some t → r ∈ ra_list t → r_addr r = a → tx_pause r = false.

Lemma send_single_begin_wf txpd a i p p' m n : wmm_wf pa p → unpaused_at p a i →
  send_single_begin txpd a i p = Some (p', m, n) →
  wmm_wf pa p' ∧ p_held pa p' = p_held pa p - 1.
Proof.
  intros Hw Hun. unfold send_single_begin.
  intros ([m' q] & Hd & [= <- <- <-])%bind_Some.
  apply dequeue_ralist_Some in Hd as (t & r & Ht & _ & Hr & <- & Eb).
  specialize (Hun t r Ht Hr eq_refl). rewrite (upd_tid_insert _ i _ t) by done.
  pose proof (pop_wf p i t r (λ r, dec_total (set_buf_head q r)) Hw Ht Hr
    (λ _, eq_refl) eq_refl ltac:(by rewrite Eb) eq_refl) as H. cbv zeta in H. rewrite Hun in H.
  split; [exact H|].
  unfold p_held. cbn [tids set_tids dec_tx_pkts set_tx_pkts_queued].
  rewrite (zsum_insert _ _ _ _ _ Ht). unfold t_held at 3. cbn [ra_list dec_queued set_pkts_queued].
  rewrite (zsum_upd (held pa) (r_addr r) _ t r); [|by eapply addrs_NoDup, Ht; apply (wf_addrs _ _ Hw)|done|done].
  unfold t_held. rewrite (held_buf r (dec_total (set_buf_head q r))) by done. cbn [buf_head dec_total set_total_pkts set_buf_head].
  rewrite Eb. cbn [length]. lia.
Qed.

Lemma mark_sent_wf p a i t : wmm_wf pa p → tids p !! i = Some t → a ∈ addrs t →
  wmm_wf pa (set_tids (<[i := mark_sent a t]> (tids p)) p).
Proof.
  intros Hw Hi Ha.
  assert (tid_ok pa t) as [H1 H2 H3 H4] by (eapply Forall_lookup_1; [apply (wf_tids _ _ Hw)|done]).
  pose proof (wf_upd pa p i t (mark_sent a t) (value (tx_pkts_queued p)) Hw Hi) as H.
  eapply wf_eq; try apply H; try done.
  - change (t_avail pa (mark_sent a t)) with (t_avail pa t). lia.
  - change (t_held pa (mark_sent a t)) with (t_held pa t). pose proof (wf_room _ _ Hw). lia.
Qed.

Lemma send_single_end_wf a i m st p : wmm_wf pa p → unpaused_at p a i → p_held pa p < WMM_CAP →
  wmm_wf pa (send_single_end a i m st p).
Proof.
  intros Hw Hun Hroom. unfold send_single_end.
  destruct (wlan_is_ralist_valid p a i) eqn:E.
  - apply is_ralist_valid_spec in E as (t & r & Ht & Hr & <-). specialize (Hun t r Ht Hr eq_refl).
    rewrite !(upd_tid_insert _ i _ t) by done. case_decide.
    + by apply push_wf.
    + apply mark_sent_wf; [done|done|]. by apply list_elem_of_fmap_2.
  - case_decide; [by apply wf_complete|done].
Qed.

(** ** Direct links *)

(** The first list of every TID is not paused. *)
Definition heads_unpaused (p : wmm_priv) : Prop :=
  ∀ i t r, tids p !! i = Some t → head (ra_list t) = Some r → tx_pause r = false.

Lemma head_elem {A} (l : list A) x : head l = Some x → x ∈ l.
Proof. destruct l; [done|]. intros [= ->]. left. Qed.

Lemma take_packet_length mac buf m buf' : take_packet mac buf = Some (m, buf') →
  length buf = S (length buf').
Proof.
  revert buf'. induction buf as [|x buf IH]; intros buf'; [done|]. cbn [take_packet]. case_decide.
  - by intros [= <- <-].
  - intros ([y l] & Hy & [= <- <-])%bind_Some. cbn. f_equal. by apply IH.
Qed.

Lemma hold_loop_wf mac n i a : ∀ buf p, wmm_wf pa p →
  (∃ t r, tids p !! i = Some t ∧ r ∈ ra_list t ∧ r_addr r = a ∧ buf_head r = buf ∧ tx_pause r = false) →
  wmm_wf pa (hold_loop mac n i a buf p).
Proof.
  induction n as [|n IH]; intros buf p Hw (t & r & Ht & Hr & <- & Hb & Hp); [done|]. cbn [hold_loop].
  destruct (take_packet mac buf) as [[m buf']|] eqn:E; [|done].
  apply take_packet_length in E. rewrite (upd_tid_insert _ i _ t) by done.
  set (f := λ r, dec_count (dec_total (set_buf_head buf' r))).
  pose proof (pop_wf p i t r f Hw Ht Hr (λ _, eq_refl) eq_refl ltac:(by rewrite Hb, E) eq_refl) as H.
  rewrite Hp in H. apply IH; [by apply (wf_tdlsq pa _ _ H)|].
  exists (dec_queued (upd_ralist (r_addr r) f t)), (f r). split; [|split; [|done]].
  - cbn. apply list_lookup_insert_eq. by eapply lookup_lt_Some.
  - cbn. apply list_elem_of_fmap. exists r. by rewrite decide_True.
Qed.

Lemma hold_tid_keeps mac n i a : ∀ buf p j, j ≠ i → tids (hold_loop mac n i a buf p) !! j = tids p !! j.
Proof.
  induction n as [|n IH]; intros buf p j Hj; [done|]. cbn [hold_loop].
  destruct (take_packet mac buf) as [[m buf']|]; [|done].
  rewrite IH by done. cbn. by apply list_lookup_alter_ne.
Qed.

Lemma hold_tids_wf mac : ∀ todo p, wmm_wf pa p → NoDup todo →
  (∀ i t r, i ∈ todo → tids p !! i = Some t → head (ra_list t) = Some r → tx_pause r = false) →
  wmm_wf pa (foldl (hold_tid mac) p todo).
Proof.
  induction todo as [|i todo IH]; intros p Hw Hnd Hun; [done|]. apply NoDup_cons in Hnd as [Hi Hnd].
  cbn [foldl]. unfold hold_tid at 2.
  assert (∀ j t r, j ∈ todo → tids p !! j = Some t → head (ra_list t) = Some r → tx_pause r = false) as Hun'
    by (intros j t r Hj; apply Hun; by right).
  destruct (tids p !! i) as [t|] eqn:Ht; [|by apply IH].
  destruct (ra_list t) as [|r l] eqn:El; [by apply IH|].
  apply IH; [|done|].
  - apply hold_loop_wf; [done|]. exists t, r. split_and!; try done; [rewrite El; left|].
    eapply Hun; [left|done|by rewrite El].
  - intros j t' r' Hj. rewrite hold_tid_keeps; [by apply Hun'|]. by intros ->.
Qed.

Lemma hold_tdls_wf mac p : wmm_wf pa p → heads_unpaused p → wmm_wf pa (wlan_hold_tdls_packets mac p).
Proof.
  intros Hw Hun. apply hold_tids_wf; [done|apply NoDup_seq|].
  intros i t r _. apply Hun.
Qed.

(** The lists of a receiver, on any TID, are not paused. *)
Definition peer_unpaused (mac : list Z) (p : wmm_priv) : Prop :=
  ∀ i t r, tids p !! i = Some t → r ∈ ra_list t → ra r = mac → tx_pause r = false.

(** Both at once, kept by operations that only change buffers and counters and
    append lists that are not paused. *)
Definition unpaused_targets (mac : list Z) (p : wmm_priv) : Prop :=
  ∀ i t r, tids p !! i = Some t → (r ∈ ra_list t ∧ ra r = mac) ∨ head (ra_list t) = Some r → tx_pause r = false.

Lemma ralist_setup_unpaused p env a mac i : queuing_ra_based p = false →
  tx_pause (ralist_setup p env a mac i) = false.
Proof. intros H. unfold ralist_setup. rewrite H. by destruct (wlan_is_tdls_link_setup _). Qed.

Lemma ralist_add_loop_targets env mac0 mac : ∀ todo bs p, queuing_ra_based p = false →
  unpaused_targets mac0 p →
  let p' := ralist_add_loop env mac bs todo p in
  unpaused_targets mac0 p' ∧ queuing_ra_based p' = false ∧ tdls_pending_txq p' = tdls_pending_txq p ∧
  (∀ a, a ∈ all_addrs p' → a ∈ all_addrs p ∨ a ∈ omap id bs).
Proof.
  induction todo as [|i todo IH]; intros bs p Hq Hu; cbv zeta; [by auto|].
  destruct bs as [|[a|] bs]; [by auto| |by cbn; auto]. cbn [ralist_add_loop].
  set (r := ralist_setup p env a mac i).
  set (p1 := upd_tid i _ p).
  destruct (ralist_setup_fields p env a mac i) as (Ha & _).
  assert (p1 = match tids p !! i with Some t => set_tids (<[i := append_list r t]> (tids p)) p | None => p1 end) as E.
  { destruct (tids p !! i) as [t|] eqn:Ht; [|done]. unfold p1. rewrite (upd_tid_insert _ _ _ t) by done.
    unfold append_list, r. by rewrite Ha. }
  assert (unpaused_targets mac0 p1 ∧ (∀ b, b ∈ all_addrs p1 → b ∈ all_addrs p ∨ b = a)) as [Hu1 Ha1].
  { destruct (tids p !! i) as [t|] eqn:Ht.
    - rewrite E. split.
      + intros j t' x Hj Hx. cbn in Hj. apply list_lookup_insert_Some in Hj as [(<- & <- & _)| [_ Hj] ]; [ |by eapply Hu].
        destruct (append_list_fields r t) as (El & _). rewrite El in Hx.
        assert (tx_pause r = false) as Hr by by apply ralist_setup_unpaused.
        destruct Hx as [ [Hx Hm]|Hx]; [apply elem_of_app in Hx as [Hx|Hx%list_elem_of_singleton]|].
        * eapply Hu; [done|]. by left.
        * by rewrite Hx.
        * destruct (ra_list t) eqn:Elt; cbn in Hx; [by injection Hx as <-|].
          eapply Hu; [done|]. right. by rewrite Elt.
      + intros b. unfold all_addrs. cbn [tids set_tids]. rewrite list_fmap_insert.
        destruct (append_list_fields r t) as (El & _). unfold addrs at 1. rewrite El, fmap_app.
        rewrite (concat_insert_app _ i (addrs t) [r_addr r]) by by rewrite list_lookup_fmap, Ht.
        unfold r. rewrite Ha. intros [->|Hb]%elem_of_cons; auto.
    - assert (tids p1 = tids p) as Et.
      { unfold p1, upd_tid. cbn. apply list_eq. intros j. destruct (decide (j = i)) as [->|Hne].
        - by rewrite list_lookup_alter_eq, Ht.
        - by rewrite list_lookup_alter_ne. }
      unfold unpaused_targets, all_addrs. rewrite Et. auto. }
  destruct (IH bs p1 Hq Hu1) as (H1 & H2 & H3 & H4). split; [done|]. split; [done|]. split; [done|].
  intros b Hb. destruct (H4 b Hb) as [Hb1|Hb1].
  - destruct (Ha1 b Hb1) as [Hb2| -> ]; [by left|]. right. cbn. left.
  - right. cbn. by right.
Qed.

Lemma get_queue_raptr_targets env i mac p p' o : queuing_ra_based p = false → unpaused_targets mac p →
  wlan_wmm_get_queue_raptr env i mac p = (p', o) →
  unpaused_targets mac p' ∧ queuing_ra_based p' = false ∧ tdls_pending_txq p' = tdls_pending_txq p ∧
  (∀ a, a ∈ all_addrs p' → a ∈ all_addrs p ∨ a ∈ omap id (blocks env)) ∧
  (∀ r, o = Some r → tx_pause r = false).
Proof.
  intros Hq Hu. unfold wlan_wmm_get_queue_raptr.
  destruct (wlan_wmm_get_ralist_node p i mac) as [[n r]|] eqn:E.
  - intros [= <- <-]. split_and!; try done; [by auto|]. intros r' [= <-].
    apply get_ralist_node_Some in E as (t & Ht & _ & Hr & Hm). eapply Hu; [done|]. by left.
  - case_match; [intros [= <- <-]; split_and!; try done; by auto|].
    destruct (ralist_add_loop_targets env mac mac all_tids (blocks env) p Hq Hu) as (H1 & H2 & H3 & H4).
    intros [= <- <-]. split_and!; try done. intros r' Hr'.
    apply fmap_Some in Hr' as ([n r] & E' & ->).
    apply get_ralist_node_Some in E' as (t & Ht & _ & Hr & Hm). eapply H1; [done|]. by left.
Qed.

(** A packet put into a list keeps the flags and addresses of all lists. *)
Lemma upd_targets mac p i t a f tt : tids p !! i = Some t →
  (∀ r, tx_pause (f r) = tx_pause r ∧ ra (f r) = ra r) → unpaused_targets mac p →
  ra_list tt = ra_list (upd_ralist a f t) → unpaused_targets mac (set_tids (<[i := tt]> (tids p)) p).
Proof.
  intros Hi Hf Hu Ett j t' x Hj Hx. cbn in Hj.
  apply list_lookup_insert_Some in Hj as [(<- & <- & _)| [_ Hj] ]; [ |by eapply Hu].
  rewrite Ett in Hx. cbn in Hx. destruct Hx as [[Hx Hm]|Hx].
  - apply list_elem_of_fmap in Hx as (y & -> & Hy).
    assert (tx_pause y = false) as Hpy.
    { eapply Hu; [done|]. left. split; [done|]. case_decide; [|done]. rewrite <- Hm. symmetry. apply Hf. }
    case_decide; [|done]. rewrite <- Hpy. apply Hf.
  - destruct (ra_list t) as [|y l] eqn:El; [done|]. cbn in Hx. injection Hx as <-.
    assert (tx_pause y = false) as Hpy by (eapply Hu; [done|]; right; by rewrite El).
    case_decide; [|done]. rewrite <- Hpy. apply Hf.
Qed.

Definition restore_ok (mac : list Z) (bs : list (option Z)) (p : wmm_priv) : Prop :=
  queuing_ra_based p = false ∧ unpaused_targets mac p ∧ fresh_blocks bs p.

Lemma restore_packet_wf env mac st m p : wmm_wf pa p → restore_ok mac (blocks env) p → p_held pa p < WMM_CAP →
  let p' := restore_packet env mac st m p in
  wmm_wf pa p' ∧ p_held pa p' <= p_held pa p + 1 ∧ queuing_ra_based p' = false ∧ unpaused_targets mac p' ∧
  tdls_pending_txq p' = tdls_pending_txq p ∧
  (∀ a, a ∈ all_addrs p' → a ∈ all_addrs p ∨ a ∈ omap id (blocks env)).
Proof.
  intros Hw (Hq & Hu & Hf) Hroom. unfold restore_packet. set (i := downgraded p (tx_priority m)).
  clearbody i. assert (∀ m p1 o, wmm_wf pa p1 → p_held pa p1 = p_held pa p → queuing_ra_based p1 = false →
    unpaused_targets mac p1 → tdls_pending_txq p1 = tdls_pending_txq p →
    (∀ a, a ∈ all_addrs p1 → a ∈ all_addrs p ∨ a ∈ omap id (blocks env)) →
    (∀ r, o = Some r → (∃ t, tids p1 !! i = Some t ∧ r ∈ ra_list t) ∧ tx_pause r = false) →
    let p' := match o with
      | None => wlan_write_data_complete m MLAN_STATUS_FAILURE p1
      | Some r => raise_hint env i (inc_tx_pkts (upd_tid i (λ t, inc_queued (upd_ralist (r_addr r) (ralist_append m) t)) p1))
      end in
    wmm_wf pa p' ∧ p_held pa p' <= p_held pa p + 1 ∧ queuing_ra_based p' = false ∧ unpaused_targets mac p' ∧
    tdls_pending_txq p' = tdls_pending_txq p ∧
    (∀ a, a ∈ all_addrs p' → a ∈ all_addrs p ∨ a ∈ omap id (blocks env))) as Hput.
  { clear m. intros m p1 [r|] Hw1 Hh1 Hq1 Hu1 Ht1 Ha1 Ho; cbv zeta.
    2:{ split; [by apply wf_complete|]. split; [|done].
        change (p_held pa (wlan_write_data_complete _ _ p1)) with (p_held pa p1). lia. }
    destruct (Ho r eq_refl) as [(t & Ht & Hr) Hp]. rewrite (upd_tid_insert _ i _ t) by done.
    set (tt := inc_queued (upd_ralist (r_addr r) (ralist_append m) t)).
    set (p2 := set_tids (<[i := tt]> (tids p1)) p1).
    assert (p_held pa p2 = p_held pa p1 + 1) as Hh2.
    { unfold p_held, p2. cbn [tids set_tids]. rewrite (zsum_insert _ _ _ _ _ Ht). unfold t_held at 3.
      change (ra_list tt) with (ra_list (upd_ralist (r_addr r) (ralist_append m) t)).
      rewrite (zsum_upd (held pa) (r_addr r) _ t r); [|by eapply addrs_NoDup, Ht; apply (wf_addrs _ _ Hw1)|done|done].
      unfold t_held. rewrite held_append. lia. }
    assert (all_addrs p2 = all_addrs p1) as Ea2.
    { unfold all_addrs, p2. cbn [tids set_tids]. apply (concat_insert_same addrs _ i t); [done|]. by apply addrs_upd. }
    split. { apply wf_hint. apply push_wf; try done; [|lia]. cbn. rewrite length_app. cbn. lia. }
    change (p_held pa (raise_hint env i (inc_tx_pkts p2))) with (p_held pa p2). split; [lia|].
    split; [done|]. split. { by apply (upd_targets mac p1 i t (r_addr r) (ralist_append m) tt). }
    split; [done|]. change (all_addrs (raise_hint env i (inc_tx_pkts p2))) with (all_addrs p2). by rewrite Ea2. }
  case_decide.
  - destruct (wlan_wmm_get_queue_raptr env i mac p) as [p1 o] eqn:E.
    destruct (get_queue_raptr_wf env i mac p p1 o Hw Hf E) as (H1 & H2 & H3 & H4).
    destruct (get_queue_raptr_targets env i mac p p1 o Hq Hu E) as (G1 & G2 & G3 & G4 & G5).
    apply Hput; auto.
  - apply Hput; auto. intros r Hr. split; [by apply head_tid_elem|].
    apply bind_Some in Hr as (t & Ht & Hh). eapply Hu; [done|]. by right.
Qed.

Lemma restore_loop_wf env mac st : ∀ n bss p, wmm_wf pa p → queuing_ra_based p = false →
  unpaused_targets mac p → fresh_blocks (concat bss) p →
  p_held pa p + Z.of_nat (length (tdls_pending_txq p)) <= WMM_CAP →
  let p' := restore_loop env mac st bss n p in wmm_wf pa p' ∧ unpaused_targets mac p'.
Proof.
  induction n as [|n IH]; intros bss p Hw Hq Hu Hf Hroom; [done|]. cbn [restore_loop]. cbv zeta.
  destruct (take_packet mac (tdls_pending_txq p)) as [[m q]|] eqn:E; [|done].
  apply take_packet_length in E. rewrite E in Hroom.
  set (env' := set_blocks (default [] (head bss)) env).
  assert (concat bss = blocks env' ++ concat (tail bss)) as Ec by (by destruct bss).
  assert (fresh_blocks (blocks env') p ∧ fresh_blocks (concat (tail bss)) p ∧
          ∀ a, a ∈ omap id (blocks env') → a ∉ omap id (concat (tail bss))) as (Hf1 & Hf2 & Hdis).
  { destruct Hf as [Hnd Hin]. rewrite Ec, omap_app in Hnd. apply NoDup_app in Hnd as (N1 & N2 & N3).
    split; [|split; [|done]]; (split; [done|]); intros a Ha; apply Hin; rewrite Ec; apply elem_of_app; auto. }
  destruct (restore_packet_wf env' mac st m (set_tdls_pending_txq q p)) as (H1 & H2 & H3 & H4 & H5 & H6);
    [by apply wf_tdlsq|done|change (p_held pa (set_tdls_pending_txq q p)) with (p_held pa p); lia|].
  change (p_held pa (set_tdls_pending_txq q p)) with (p_held pa p) in *.
  change (all_addrs (set_tdls_pending_txq q p)) with (all_addrs p) in *.
  cbn [tdls_pending_txq set_tdls_pending_txq] in *.
  set (p' := restore_packet _ _ _ _ _) in *. clearbody p'.
  apply IH; [done|done|done| |rewrite H5; lia].
  destruct Hf2 as [N2 Hin2]. split; [done|]. intros a Ha. destruct (Hin2 a Ha) as [Hna Hpa].
  split; [|done]. intros [Hb|Hb]%H6; [done|].
  apply (Hdis a Hb). apply list_elem_of_omap. by exists (Some a).
Qed.

Definition append_packets (ms : list tx_mbuf) (r : raListTbl) : raListTbl :=
  foldl (λ ap m, ralist_append m ap) r ms.
Lemma append_packets_spec ms : ∀ r,
  let r' := append_packets ms r in
  r_addr r' = r_addr r ∧ tx_pause r' = tx_pause r ∧ ra r' = ra r ∧ buf_head r' = buf_head r ++ ms ∧
  (0 <= total_pkts r → total_pkts r + Z.of_nat (length ms) <= WMM_CAP →
   total_pkts r' = total_pkts r + Z.of_nat (length ms)).
Proof.
  induction ms as [|m ms IH]; intros r.
  - cbn. rewrite app_nil_r. split_and!; try done. intros; lia.
  - unfold append_packets. cbn [foldl]. destruct (IH (ralist_append m r)) as (H1&H2&H3&H4&H5).
    unfold append_packets in *. rewrite H1, H2, H3, H4. cbn [length]. split_and!; try done.
    + cbn. by rewrite <- app_assoc.
    + intros Hn Hc. change (total_pkts (ralist_append m r)) with (u16 (total_pkts r + 1)) in H5.
      rewrite cap_u16 in H5 by lia. rewrite H5; lia.
Qed.

Lemma drop_ralist_upd a n b f t : (∀ r, r_addr (f r) = r_addr r) →
  drop_ralist a n (upd_ralist b f t) = upd_ralist b f (drop_ralist a n t).
Proof.
  intros Hf. assert (∀ l : list raListTbl,
    filter (λ r, r_addr r ≠ a) ((λ r, if decide (r_addr r = b) then f r else r) <$> l) =
    (λ r, if decide (r_addr r = b) then f r else r) <$> filter (λ r, r_addr r ≠ a) l) as E.
  { induction l as [|r l IH]; [done|]. cbn [fmap list_fmap].
    assert (r_addr (if decide (r_addr r = b) then f r else r) = r_addr r) as Er by (case_decide; auto).
    destruct (decide (r_addr r = a)) as [Ea|Ea].
    - rewrite !filter_cons_False by (rewrite ?Er; tauto). apply IH.
    - rewrite !filter_cons_True by (by rewrite ?Er). cbn [fmap list_fmap]. f_equal. apply IH. }
  unfold drop_ralist, upd_ralist. cbn. rewrite E. repeat case_match; done.
Qed.

Lemma delete_tdls_tid_wf mac i p p' : wmm_wf pa p → unpaused_targets mac p →
  (∀ j t r, tids p !! j = Some t → r ∈ ra_list t → ra r = mac → pa ≠ Some (r_addr r)) →
  delete_tdls_tid mac i p = Some p' →
  wmm_wf pa p' ∧ unpaused_targets mac p' ∧
  (∀ j t r, tids p' !! j = Some t → r ∈ ra_list t → ra r = mac → pa ≠ Some (r_addr r)).
Proof.
  intros Hw Hu Hpa. unfold delete_tdls_tid.
  destruct (wlan_wmm_get_ralist_node p i mac) as [[[|n] r]|] eqn:E; [done| |by intros [= <-]].
  apply get_ralist_node_Some in E as (t & Ht & Hn & Hr & Hm). rewrite Ht. cbn [mbind option_bind].
  destruct (ra_list t) as [|ap l] eqn:El; [done|]. cbn [head mbind option_bind].
  unfold txq_linked. case_bool_decide as Hl; [done|]. intros [= <-].
  destruct (append_packets_spec (buf_head r) ap) as (A1 & A2 & A3 & A4 & A5).
  assert (tx_pause r = false) as Hpr by (eapply Hu; [done|]; left; by rewrite El).
  assert (tx_pause ap = false) as Hpap by (eapply Hu; [done|]; right; by rewrite El).
  rewrite <- El in Hr.
  destruct (wf_at p i t r Hw Ht Hr) as (Hnd & Hok & Htot & Hq & Hz & Hbd).
  assert (r_addr ap ≠ r_addr r) as Hne.
  { intros Eq. assert (addrs t !! 0%nat = Some (r_addr r)) as L0 by (unfold addrs; rewrite El; cbn; by rewrite Eq).
    assert (addrs t !! S n = Some (r_addr r)) as L1 by (unfold addrs; by rewrite list_lookup_fmap, El, Hn).
    by pose proof (NoDup_lookup _ _ _ _ Hnd L0 L1). }
  assert (held pa r = Z.of_nat (length (buf_head r))) as Ehr.
  { unfold held, in_air. rewrite decide_False; [lia|]. eapply Hpa; done. }
  assert (∀ x, r_addr (append_packets (buf_head r) x) = r_addr x) as Hfa by (intros x; apply append_packets_spec).
  change (λ ap0, foldl (λ ap1 m, ralist_append m ap1) ap0 (buf_head r)) with (append_packets (buf_head r)).
  rewrite drop_ralist_upd by done.
  (* without the list, then with its packets in the first one *)
  assert (ap ∈ ra_list t) as Hap by (rewrite El; left).
  pose proof (wf_remove p i t r (CurAt (r_addr ap)) (pkts_queued t - held pa r) (pkts_paused t)
    (value (tx_pkts_queued p) - held pa r) Hw Ht Hr Hl) as Hrem.
  assert (held_paused pa r = 0) as Ehp by (unfold held_paused; by rewrite Hpr).
  set (t1 := set_pkts_paused _ (set_pkts_queued _ (drop_ralist (r_addr r) (CurAt (r_addr ap)) t))) in Hrem.
  set (p1 := set_tx_pkts_queued _ _) in Hrem.
  assert (wmm_wf pa p1) as Hw1.
  { apply Hrem; try lia. right. exists (r_addr ap). split; [done|]. split; [|done]. by apply list_elem_of_fmap_2. }
  assert (tids p1 !! i = Some t1) as Ht1 by (apply list_lookup_insert_eq; by eapply lookup_lt_Some).
  assert (ap ∈ ra_list t1) as Hap1.
  { change (ra_list t1) with (ra_list (drop_ralist (r_addr r) (CurAt (r_addr ap)) t)).
    destruct (drop_ralist_fields (r_addr r) (CurAt (r_addr ap)) t) as (-> & _). by apply list_elem_of_filter. }
  destruct (wf_at p1 i t1 ap Hw1 Ht1 Hap1) as (Hnd1 & _ & Htot1 & Hq1 & _ & Hbd1).
  pose proof (held_buf ap (append_packets (buf_head r) ap) A1) as Eh'. rewrite A4, length_app in Eh'.
  assert (p_held pa p1 = p_held pa p - held pa r) as Ep1.
  { unfold p_held, p1. cbn [tids set_tids set_tx_pkts_queued]. rewrite (zsum_insert _ _ _ _ _ Ht).
    unfold t_held at 3. change (ra_list t1) with (ra_list (drop_ralist (r_addr r) (CurAt (r_addr ap)) t)).
    destruct (drop_ralist_fields (r_addr r) (CurAt (r_addr ap)) t) as (-> & _).
    destruct (filter_split (ra_list t) r Hnd Hr) as (l1 & l2 & E1 & ->). unfold t_held at 2. rewrite E1, !zsum_app.
    cbn [zsum]. lia. }
  assert (0 <= total_pkts ap) by (rewrite Htot1; apply held_nonneg).
  assert (held_paused pa ap = 0 ∧ held_paused pa (append_packets (buf_head r) ap) = 0) as [Ea1 Ea2]
    by (unfold held_paused; by rewrite A2, Hpap).
  pose proof (wf_upd_list p1 i t1 ap (append_packets (buf_head r)) (pkts_queued t) (pkts_paused t)
    (value (tx_pkts_queued p)) (packets_out (drop_ralist (r_addr r) (CurAt (r_addr ap)) t)) Hw1 Ht1 Hap1 Hfa) as Hadd.
  set (t' := upd_ralist (r_addr ap) _ _).
  assert (wmm_wf pa (set_tids (<[i := t']> (tids p)) p)) as Hw'.
  { eapply wf_eq; [..|apply Hadd]; try done.
    - cbn. rewrite list_insert_insert_eq. f_equal. unfold t'.
      destruct (drop_ralist_fields (r_addr r) (CurAt (r_addr ap)) t) as (Ed & Eq & Ez).
      unfold upd_ralist, set_ra_list. cbn. by rewrite Eq, Ez.
    - rewrite A5; lia.
    - cbn. lia.
    - cbn. lia.
    - cbn. lia.
    - lia. }
  assert (∀ x, x ∈ ra_list t' → ∃ y, y ∈ ra_list t ∧ ra x = ra y ∧ tx_pause x = tx_pause y ∧ r_addr x = r_addr y) as Hback.
  { intros x Hx. cbn in Hx. apply list_elem_of_fmap in Hx as (y & -> & Hy).
    destruct (drop_ralist_fields (r_addr r) (CurAt (r_addr ap)) t) as (Ed & _). rewrite Ed in Hy.
    apply list_elem_of_filter in Hy as [_ Hy]. exists y. split; [done|].
    case_decide; [|done]. destruct (append_packets_spec (buf_head r) y) as (B1&B2&B3&_). done. }
  split; [done|]. split.
  - intros j tj x Hj Hx. cbn in Hj. apply list_lookup_insert_Some in Hj as [(<- & <- & _)| [_ Hj] ]; [|by eapply Hu].
    destruct Hx as [ [Hx Hxm]|Hx].
    + destruct (Hback x Hx) as (y & Hy & Ey1 & Ey2 & _). rewrite Ey2. eapply Hu; [done|]. left. by rewrite <- Ey1.
    + cbn in Hx. destruct (drop_ralist_fields (r_addr r) (CurAt (r_addr ap)) t) as (Ed & _).
      rewrite Ed, El in Hx. rewrite filter_cons_True in Hx by done. cbn in Hx.
      rewrite decide_True in Hx by done. injection Hx as <-. by rewrite A2.
  - intros j tj x Hj Hx Hxm. cbn in Hj.
    apply list_lookup_insert_Some in Hj as [(<- & <- & _)| [_ Hj] ]; [|by eapply Hpa].
    destruct (Hback x Hx) as (y & Hy & Ey1 & _ & Ey3). rewrite Ey3. eapply Hpa; [done|done|]. by rewrite <- Ey1.
Qed.

Lemma delete_tdls_wf mac p p' : wmm_wf pa p → unpaused_targets mac p →
  (∀ j t r, tids p !! j = Some t → r ∈ ra_list t → ra r = mac → pa ≠ Some (r_addr r)) →
  wlan_wmm_delete_tdls_ralist mac p = Some p' → wmm_wf pa p'.
Proof.
  intros Hw Hu Hpa H.
  apply (for_tids_inv (λ p, wmm_wf pa p ∧ unpaused_targets mac p ∧
    ∀ j t r, tids p !! j = Some t → r ∈ ra_list t → ra r = mac → pa ≠ Some (r_addr r))) in H;
    [tauto| |done].
  intros i s s' _ (H1 & H2 & H3). by apply delete_tdls_tid_wf.
Qed.

(** Giving existing lists a new peer address, none of them paused. *)
Lemma ralist_renew_fields p env mac r :
  let r' := ralist_renew p env mac r in
  r_addr r' = r_addr r ∧ buf_head r' = buf_head r ∧ total_pkts r' = total_pkts r ∧ tx_pause r' = false ∧ ra r' = mac.
Proof. unfold ralist_renew. destruct (queuing_ra_based p); done. Qed.

Lemma update_tid_wf env old_ra new_ra s i : wmm_wf pa s.1 →
  (∀ t r, tids s.1 !! i = Some t → r ∈ ra_list t → ra r = old_ra → tx_pause r = false) →
  wmm_wf pa (update_tid env old_ra new_ra s i).1.
Proof.
  intros Hw Hu. unfold update_tid.
  destruct (wlan_wmm_get_ralist_node s.1 i old_ra) as [[n r]|] eqn:E; [|done].
  apply get_ralist_node_Some in E as (t & Ht & _ & Hr & Hm). cbn [fst].
  set (f := ralist_renew s.1 env new_ra).
  assert (∀ x, r_addr (f x) = r_addr x) as Hfa by (intros x; apply ralist_renew_fields).
  destruct (ralist_renew_fields s.1 env new_ra r) as (F1 & F2 & F3 & F4 & _).
  rewrite (upd_tid_insert _ i _ t) by done. specialize (Hu t r Ht Hr Hm).
  destruct (wf_at s.1 i t r Hw Ht Hr) as (_ & _ & Htot & Hq & Hz & Hbd).
  pose proof (held_buf r (f r) (Hfa r)) as Hh. unfold f in Hh at 2. rewrite F2 in Hh.
  assert (held_paused pa r = 0 ∧ held_paused pa (f r) = 0) as [Ea1 Ea2]
    by (unfold held_paused, f; by rewrite F4, Hu).
  assert (total_pkts (f r) = held pa (f r)) as Ht' by (unfold f; rewrite F3; fold f; lia).
  pose proof (wf_upd_list s.1 i t r f (pkts_queued t) (pkts_paused t)
    (value (tx_pkts_queued s.1)) (packets_out t) Hw Ht Hr Hfa Ht') as H.
  eapply wf_eq; [..|apply H]; try done; lia.
Qed.

Lemma update_tid_keeps env old_ra new_ra s i j : j ≠ i →
  tids (update_tid env old_ra new_ra s i).1 !! j = tids s.1 !! j.
Proof.
  intros Hj. unfold update_tid. destruct (wlan_wmm_get_ralist_node _ _ _) as [[n r]|]; [|done].
  cbn. by apply list_lookup_alter_ne.
Qed.

Lemma ralist_update_wf env old_ra new_ra p : wmm_wf pa p → peer_unpaused old_ra p →
  wmm_wf pa (wlan_ralist_update env old_ra new_ra p).1.
Proof.
  intros Hw Hu. unfold wlan_ralist_update.
  assert (∀ todo s, wmm_wf pa s.1 → NoDup todo →
    (∀ i t r, i ∈ todo → tids s.1 !! i = Some t → r ∈ ra_list t → ra r = old_ra → tx_pause r = false) →
    wmm_wf pa (foldl (update_tid env old_ra new_ra) s todo).1) as Hgen.
  { clear. induction todo as [|i todo IH]; intros s Hw Hnd Hu; [done|].
    apply NoDup_cons in Hnd as [Hi Hnd]. cbn [foldl]. apply IH; [|done|].
    - apply update_tid_wf; [done|]. intros t r. apply Hu. left.
    - intros j t r Hj. rewrite update_tid_keeps by (by intros ->). apply Hu. by right. }
  apply Hgen; [done|apply NoDup_seq|]. intros i t r _. apply Hu.
Qed.

Lemma setup_ac_downgrade_wf p : wmm_wf pa p →
  wmm_wf pa (set_prio (wlan_wmm_setup_ac_downgrade (prio p)) p).
Proof.
  intros Hw. destruct Hw. constructor; try done. apply setup_ac_downgrade_ok. apply wf_down0.
Qed.
Lemma setup_queue_priorities_wf ie m p : wmm_wf pa p →
  wmm_wf pa (set_prio (wlan_wmm_setup_queue_priorities ie m (prio p)).2 p).
Proof.
  apply wf_eq; try done. cbn. unfold wlan_wmm_setup_queue_priorities. by repeat case_match.
Qed.
End ops.

Lemma restore_tdls_wf env mac st bss p p' : wmm_wf None p → queuing_ra_based p = false →
  unpaused_targets mac p → fresh_blocks None (concat bss) p →
  p_held None p + Z.of_nat (length (tdls_pending_txq p)) <= WMM_CAP →
  wlan_restore_tdls_packets env mac st bss p = Some p' → wmm_wf None p'.
Proof.
  intros Hw Hq Hu Hf Hroom. unfold wlan_restore_tdls_packets. cbv zeta.
  destruct (restore_loop_wf None env mac st (length (tdls_pending_txq p)) bss p Hw Hq Hu Hf Hroom) as [H1 H2].
  case_decide; [by intros [= <-]|]. by apply delete_tdls_wf.
Qed.

(** ** A processed packet in the air *)

(** Every list changes by [F], which keeps what it answers for. *)
Lemma wf_relabel pa pa' (F : raListTbl → raListTbl) p p' : wmm_wf pa p →
  tids p' = (λ t, set_ra_list (F <$> ra_list t) t) <$> tids p →
  (∀ t r, t ∈ tids p → r ∈ ra_list t → held pa' (F r) = held pa r ∧ total_pkts (F r) = total_pkts r ∧
     r_addr (F r) = r_addr r ∧ tx_pause (F r) = tx_pause r) →
  value (tx_pkts_queued p') = value (tx_pkts_queued p) →
  ac_down_graded_vals (prio p') = ac_down_graded_vals (prio p) → pending_txq p' = pending_txq p →
  wmm_wf pa' p'.
Proof.
  intros Hw Et HF H1 H2 H3.
  set (G := λ t, set_ra_list (F <$> ra_list t) t) in Et.
  assert (∀ t, t ∈ tids p → t_held pa' (G t) = t_held pa t ∧ t_paused pa' (G t) = t_paused pa t ∧
    addrs (G t) = addrs t) as HG.
  { intros t Ht. unfold t_held, t_paused, addrs, G. cbn [ra_list set_ra_list]. rewrite !zsum_fmap. split_and!.
    - apply zsum_ext. intros r Hr. by apply (HF t).
    - apply zsum_ext. intros r Hr. cbn. destruct (HF t r Ht Hr) as (E1 & _ & _ & E4).
      unfold held_paused. by rewrite E1, E4.
    - rewrite <- list_fmap_compose. apply list_fmap_ext. intros i r Hr. cbn.
      eapply (HF t); [done|]. by eapply list_elem_of_lookup_2. }
  assert (all_addrs p' = all_addrs p) as Ea.
  { unfold all_addrs. rewrite Et, <- list_fmap_compose. f_equal. apply list_fmap_ext.
    intros i t Ht. apply HG. by eapply list_elem_of_lookup_2. }
  destruct Hw. constructor; try done.
  - by rewrite Et, length_fmap.
  - rewrite Et. apply Forall_fmap. apply Forall_forall. intros t Ht.
    rewrite Forall_forall in wf_tids0. destruct (wf_tids0 t Ht) as [K1 K2 K3 K4].
    destruct (HG t Ht) as (G1 & G2 & G3). constructor.
    + cbn. apply Forall_fmap, Forall_forall. intros r Hr. destruct (HF t r Ht Hr) as (E1 & E2 & _).
      cbn. rewrite E1, E2. rewrite Forall_forall in K1. by apply K1.
    + cbn in *. congruence.
    + cbn in *. congruence.
    + unfold cur_ok in *. rewrite G3. cbn. destruct (ra_list_curr t); [|done|done]. by rewrite K4.
  - by rewrite Ea.
  - rewrite H1, wf_tx0, Et, zsum_fmap. apply zsum_ext. intros t Ht. cbn.
    destruct (HG t Ht) as (G1 & G2 & _). unfold t_avail. by rewrite G1, G2.
  - unfold p_held in *. rewrite Et, zsum_fmap. rewrite (zsum_ext _ (t_held pa)); [done|].
    intros t Ht. by apply HG.
  - unfold downgrade_ok in *. by rewrite H2.
  - by rewrite H3.
  - by rewrite H3.
  - intros a. rewrite H3, Ea. apply wf_txq0.
Qed.

Lemma addr_unique p i j t t' r r' : NoDup (all_addrs p) → tids p !! i = Some t → tids p !! j = Some t' →
  r ∈ ra_list t → r' ∈ ra_list t' → r_addr r = r_addr r' → i = j ∧ r = r'.
Proof.
  intros Hnd Hi Hj Hr Hr' Ha.
  assert (i = j) as ->.
  { destruct (decide (i = j)) as [|Hne]; [done|]. exfalso.
    assert (∀ i j t t' r r', (i < j)%nat → tids p !! i = Some t → tids p !! j = Some t' →
      r ∈ ra_list t → r' ∈ ra_list t' → r_addr r = r_addr r' → False) as Hlt.
    { clear -Hnd. intros i j t t' r r' Hij Hi Hj Hr Hr' Ha. unfold all_addrs in Hnd.
      apply list_elem_of_split_length in Hi as (l1 & l2 & E & ->). rewrite E in *.
      rewrite fmap_app, fmap_cons, concat_app in Hnd. cbn [concat] in Hnd.
      apply NoDup_app in Hnd as (_ & _ & Hnd). apply NoDup_app in Hnd as (_ & Hd & _).
      apply (Hd (r_addr r)).
      - by apply list_elem_of_fmap_2.
      - apply elem_of_concat. exists (addrs t'). rewrite Ha. split; [by apply list_elem_of_fmap_2|].
        apply list_elem_of_fmap_2. rewrite lookup_app_r in Hj by lia.
        destruct (j - length l1)%nat eqn:Ej; [lia|]. by eapply list_elem_of_lookup_2. }
    destruct (Nat.lt_total i j) as [H|[H|H]]; [|done|];
      [eapply (Hlt i j); eauto|eapply (Hlt j i); eauto]. }
  split; [done|]. assert (t = t') as -> by congruence.
  apply list_elem_of_lookup in Hr as [m Hm]. apply list_elem_of_lookup in Hr' as [n Hn].
  assert (m = n) as ->; [|congruence].
  eapply (NoDup_lookup (addrs t')); [by eapply addrs_NoDup|unfold addrs; by rewrite list_lookup_fmap, Hm|].
  unfold addrs. rewrite list_lookup_fmap, Hn. cbn. by rewrite Ha.
Qed.

(** Updating the list at an address, wherever it is. *)
Lemma upd_ralist_everywhere p i t r f : NoDup (all_addrs p) → tids p !! i = Some t → r ∈ ra_list t →
  <[i := upd_ralist (r_addr r) f t]> (tids p) = upd_ralist (r_addr r) f <$> tids p.
Proof.
  intros Hnd Hi Hr. apply list_eq. intros j. rewrite list_lookup_fmap.
  destruct (decide (i = j)) as [<-|Hne].
  - rewrite list_lookup_insert_eq, Hi by by eapply lookup_lt_Some. done.
  - rewrite list_lookup_insert_ne by done. destruct (tids p !! j) as [t'|] eqn:Hj; [|done]. cbn. f_equal.
    unfold upd_ralist. rewrite upd_ralist_notin; [by destruct t'|].
    intros Hin. apply list_elem_of_fmap in Hin as (r' & E & Hr').
    by destruct (addr_unique p i j t t' r r' Hnd Hi Hj Hr Hr' E).
Qed.

(** A change at one address that moves a packet between the buffer and the air. *)
Lemma wf_air pa pa' p i t r f : wmm_wf pa p → tids p !! i = Some t → r ∈ ra_list t →
  (∀ x, r_addr (f x) = r_addr x ∧ total_pkts (f x) = total_pkts x ∧ tx_pause (f x) = tx_pause x) →
  held pa' (f r) = held pa r →
  (∀ x, r_addr x ≠ r_addr r → held pa' x = held pa x) →
  wmm_wf pa' (upd_tid i (upd_ralist (r_addr r) f) p).
Proof.
  intros Hw Hi Hr Hf Hh Ho. rewrite (upd_tid_insert _ i _ t) by done.
  rewrite (upd_ralist_everywhere p i t r f (wf_addrs _ _ Hw) Hi Hr).
  apply (wf_relabel pa pa' (λ x, if decide (r_addr x = r_addr r) then f x else x) p); try done.
  intros t' x Ht' Hx. apply list_elem_of_lookup in Ht' as [j Hj]. destruct (Hf x) as (F1 & F2 & F3).
  case_decide as E; [|by rewrite Ho].
  destruct (addr_unique p j i t' t x r (wf_addrs _ _ Hw) Hj Hi Hx Hr E) as [-> ->]. done.
Qed.

Lemma held_none r : held None r = Z.of_nat (length (buf_head r)).
Proof. unfold held, in_air. rewrite decide_False by done. lia. Qed.
Lemma held_here a r : r_addr r = a → held (Some a) r = Z.of_nat (length (buf_head r)) + 1.
Proof. intros <-. unfold held, in_air. rewrite decide_True by done. lia. Qed.
Lemma held_there a r : r_addr r ≠ a → held (Some a) r = Z.of_nat (length (buf_head r)).
Proof. intros H. unfold held, in_air. rewrite decide_False by congruence. lia. Qed.

Lemma send_processed_begin_wf txpd a i p p' m n : wmm_wf None p →
  send_processed_begin txpd a i p = Some (p', m, n) → wmm_wf (Some a) p'.
Proof.
  intros Hw. unfold send_processed_begin. intros ([m' q] & Hd & [= <- <- <-])%bind_Some.
  apply dequeue_ralist_Some in Hd as (t & r & Ht & _ & Hr & <- & Eb).
  apply (wf_air None (Some (r_addr r)) p i t r); try done.
  - rewrite held_none, held_here by done. cbn. rewrite Eb. cbn [length]. lia.
  - intros x Hx. by rewrite held_none, held_there.
Qed.

(** The list a processed packet came from is on its TID, if it still exists. *)
Definition only_at (p : wmm_priv) (a : Z) (i : nat) : Prop :=
  ∀ j t r, tids p !! j = Some t → r ∈ ra_list t → r_addr r = a → j = i.

Lemma send_processed_back_wf a i m p : wmm_wf (Some a) p → only_at p a i →
  wmm_wf None (send_processed_end a i m MLAN_STATUS_RESOURCE p).
Proof.
  intros Hw Ho. cbn [send_processed_end]. destruct (wlan_is_ralist_valid p a i) eqn:E.
  - apply is_ralist_valid_spec in E as (t & r & Ht & Hr & <-).
    apply (wf_air (Some (r_addr r)) None p i t r); try done.
    + rewrite held_none, held_here by done. cbn [buf_head enq_head set_buf_head length]. lia.
    + intros x Hx. by rewrite held_none, held_there.
  - apply wf_complete. apply (wf_relabel (Some a) None id p); try done.
    + symmetry. etransitivity; [|apply list_fmap_id]. apply list_fmap_ext. intros j t _.
      destruct t. unfold set_ra_list. cbn. by rewrite list_fmap_id.
    + intros t r Ht Hr. split; [|done]. cbn. rewrite held_none, held_there; [done|].
      intros Ha. apply list_elem_of_lookup in Ht as [j Hj]. rewrite (Ho j t r Hj Hr Ha) in Hj.
      assert (wlan_is_ralist_valid p a i = true); [|congruence].
      apply is_ralist_valid_spec. eauto.
Qed.

Lemma send_processed_out_wf a i m st p : wmm_wf (Some a) p → st ≠ MLAN_STATUS_RESOURCE →
  wlan_is_ralist_valid p a i = true → unpaused_at p a i → wmm_wf None (send_processed_end a i m st p).
Proof.
  intros Hw Hst Hv Hun. pose proof Hv as Hv'.
  apply is_ralist_valid_spec in Hv' as (t & r & Ht & Hr & <-). specialize (Hun t r Ht Hr eq_refl).
  set (a := r_addr r) in *.
  (* as if the packet had come back *)
  assert (wmm_wf None (upd_tid i (upd_ralist a (enq_head m)) p)) as H1.
  { apply (wf_air (Some a) None p i t r); try done.
    - rewrite held_none, held_here by done. cbn [buf_head enq_head set_buf_head length]. lia.
    - intros x Hx. by rewrite held_none, held_there. }
  rewrite (upd_tid_insert _ i _ t) in H1 by done.
  set (t1 := upd_ralist a (enq_head m) t) in H1. set (p1 := set_tids _ p) in H1.
  assert (tids p1 !! i = Some t1) as Ht1 by (apply list_lookup_insert_eq; by eapply lookup_lt_Some).
  assert (enq_head m r ∈ ra_list t1) as Hr1.
  { cbn. apply list_elem_of_fmap. exists r. by rewrite decide_True. }
  set (f := λ r, dec_total (set_buf_head (tail (buf_head r)) r)).
  pose proof (pop_wf None p1 i t1 (enq_head m r) f H1 Ht1 Hr1 (λ _, eq_refl) eq_refl eq_refl eq_refl) as H2.
  cbv zeta in H2. change (tx_pause (enq_head m r)) with (tx_pause r) in H2. rewrite Hun in H2.
  change (r_addr (enq_head m r)) with a in H2.
  set (t2 := dec_queued (upd_ralist a f t1)) in H2. set (p2 := dec_tx_pkts _) in H2.
  assert (tids p2 !! i = Some t2) as Ht2 by (apply list_lookup_insert_eq; by eapply lookup_lt_Some).
  assert (a ∈ addrs t2) as Ha2.
  { change (addrs t2) with (addrs (upd_ralist a f t1)). unfold t1. rewrite !addrs_upd by done.
    exact (list_elem_of_fmap_2 r_addr (ra_list t) r Hr). }
  pose proof (mark_sent_wf None p2 a i t2 H2 Ht2 Ha2) as H3.
  assert (ra_list (upd_ralist a f t1) = ra_list (upd_ralist a dec_total t)) as El.
  { unfold t1. cbn. rewrite <- list_fmap_compose. apply list_fmap_ext. intros k x _. cbn.
    destruct (decide (r_addr x = a)) as [E|E].
    - cbn. rewrite decide_True by done. by destruct x.
    - by rewrite decide_False. }
  assert (send_processed_end a i m st p = dec_tx_pkts (upd_tid i dec_queued
    (upd_tid i (λ t, upd_ralist a dec_total (mark_sent a t))
      (match st with MLAN_STATUS_FAILURE => wlan_write_data_complete m MLAN_STATUS_FAILURE p
       | MLAN_STATUS_SUCCESS => wlan_write_data_complete m MLAN_STATUS_SUCCESS p | _ => p end)))) as ->.
  { assert (∀ st', wlan_is_ralist_valid (wlan_write_data_complete m st' p) a i = true) as Hvc by done.
    destruct st; try (by destruct Hst); cbn [send_processed_end]; rewrite ?Hvc, ?Hv; done. }
  set (p0 := match st with MLAN_STATUS_FAILURE => _ | _ => _ end).
  assert (tids p0 = tids p ∧ tx_pkts_queued p0 = tx_pkts_queued p ∧ prio p0 = prio p ∧ pending_txq p0 = pending_txq p)
    as (Z1 & Z2 & Z3 & Z4) by (unfold p0; by destruct st).
  rewrite (upd_tid_insert p0 i _ t) by by rewrite Z1.
  erewrite upd_tid_insert; [|cbn; rewrite Z1; apply list_lookup_insert_eq; by eapply lookup_lt_Some].
  eapply wf_eq; [..|exact H3].
  - cbn. rewrite Z1, !list_insert_insert_eq. f_equal. unfold t2.
    unfold mark_sent, dec_queued, set_pkts_queued, set_ra_list_curr, set_packets_out. cbn in El |- *. by rewrite El.
  - cbn. by rewrite Z2.
  - cbn. by rewrite Z3.
  - cbn. done.
Qed.
