(* ===== verification/WmmFlow.v ===== *)
(** * Transmit queues: no packet is lost

    What an interface answers for are the packets in its RA lists, those held back
    for a direct link, and those it has completed.  Every operation of WmmTbl keeps
    this collection (a packet is known by its bytes and its priority): it only
    moves packets, except that queueing brings one in and the two halves of a send
    take one out and may bring it back. *)

From S2P Require Import Prelude UtilScalar RxReorder RxTable Amsdu WmmPrio WmmTbl WmmInv.
#[local] Open Scope Z_scope.

Definition pkt_key (m : tx_mbuf) : list Z * Z := (tx_bytes m, tx_priority m).

Definition t_pkts (t : wmm_tid) : list tx_mbuf := concat (buf_head <$> ra_list t).
Definition queued (p : wmm_priv) : list tx_mbuf := concat (t_pkts <$> tids p).
Definition live (p : wmm_priv) : list (list Z * Z) := pkt_key <$> (queued p ++ tdls_pending_txq p).
Definition pkts (p : wmm_priv) : list (list Z * Z) := live p ++ (pkt_key <$> (completed p).*1).

(** ** Moving packets between lists *)

Lemma concat_insert_perm {A} (ls : list (list A)) i l l' : ls !! i = Some l →
  concat (<[i := l']> ls) ++ l ≡ₚ concat ls ++ l'.
Proof.
  intros H. apply list_elem_of_split_length in H as (l1 & l2 & -> & ->).
  rewrite insert_app_r_alt, Nat.sub_diag by done. cbn [insert list_insert].
  rewrite !concat_app. cbn [concat]. solve_Permutation.
Qed.

Lemma t_pkts_upd a f t r : NoDup (addrs t) → r ∈ ra_list t → r_addr r = a →
  t_pkts (upd_ralist a f t) ++ buf_head r ≡ₚ t_pkts t ++ buf_head (f r).
Proof.
  intros Hnd Hr Ha. destruct (upd_ralist_split a f (ra_list t) r Hnd Hr Ha) as (l1 & l2 & E & E').
  unfold t_pkts. cbn [ra_list upd_ralist set_ra_list]. rewrite E', E, !fmap_app, !fmap_cons, !concat_app.
  cbn [concat]. solve_Permutation.
Qed.

(** TID [i] becomes [t'], in which only the list [r] changed, to [f r]. *)
Lemma queued_upd p i t t' r f : NoDup (all_addrs p) → tids p !! i = Some t → r ∈ ra_list t →
  ra_list t' = ra_list (upd_ralist (r_addr r) f t) →
  queued (set_tids (<[i := t']> (tids p)) p) ++ buf_head r ≡ₚ queued p ++ buf_head (f r).
Proof.
  intros Hnd Hi Hr E. unfold queued. cbn [tids set_tids]. rewrite list_fmap_insert.
  pose proof (concat_insert_perm (t_pkts <$> tids p) i (t_pkts t) (t_pkts t')) as H1.
  rewrite list_lookup_fmap, Hi in H1. specialize (H1 eq_refl).
  pose proof (t_pkts_upd (r_addr r) f t r (addrs_NoDup p i t Hnd Hi) Hr eq_refl) as H2.
  assert (t_pkts t' = t_pkts (upd_ralist (r_addr r) f t)) as E' by (unfold t_pkts; by rewrite E).
  apply (Permutation_app_inv_r (t_pkts t)). rewrite <- !app_assoc, (Permutation_app_comm (buf_head r)).
  rewrite app_assoc, H1, E', <- app_assoc, H2. rewrite (Permutation_app_comm (buf_head (f r))). solve_Permutation.
Qed.

Lemma queued_same p i t t' r f : NoDup (all_addrs p) → tids p !! i = Some t → r ∈ ra_list t →
  ra_list t' = ra_list (upd_ralist (r_addr r) f t) → buf_head (f r) = buf_head r →
  queued (set_tids (<[i := t']> (tids p)) p) ≡ₚ queued p.
Proof.
  intros Hnd Hi Hr E Eb. pose proof (queued_upd p i t t' r f Hnd Hi Hr E) as H. rewrite Eb in H.
  by apply Permutation_app_inv_r in H.
Qed.
Lemma queued_push p i t t' r f m : NoDup (all_addrs p) → tids p !! i = Some t → r ∈ ra_list t →
  ra_list t' = ra_list (upd_ralist (r_addr r) f t) → buf_head (f r) ≡ₚ m :: buf_head r →
  queued (set_tids (<[i := t']> (tids p)) p) ≡ₚ m :: queued p.
Proof.
  intros Hnd Hi Hr E Eb. pose proof (queued_upd p i t t' r f Hnd Hi Hr E) as H. rewrite Eb in H.
  apply (Permutation_app_inv_r (buf_head r)). rewrite H. solve_Permutation.
Qed.
Lemma queued_pop p i t t' r f m : NoDup (all_addrs p) → tids p !! i = Some t → r ∈ ra_list t →
  ra_list t' = ra_list (upd_ralist (r_addr r) f t) → buf_head r ≡ₚ m :: buf_head (f r) →
  queued p ≡ₚ m :: queued (set_tids (<[i := t']> (tids p)) p).
Proof.
  intros Hnd Hi Hr E Eb. pose proof (queued_upd p i t t' r f Hnd Hi Hr E) as H. rewrite Eb in H.
  apply (Permutation_app_inv_r (buf_head (f r))). rewrite <- H. solve_Permutation.
Qed.

(** The collection, from its three parts. *)
Lemma pkts_eq p p' : queued p' ≡ₚ queued p → tdls_pending_txq p' = tdls_pending_txq p →
  completed p' = completed p → pkts p' ≡ₚ pkts p.
Proof. intros H1 H2 H3. unfold pkts, live. by rewrite H1, H2, H3. Qed.

Lemma pkts_complete m st p : pkts (wlan_write_data_complete m st p) ≡ₚ pkt_key m :: pkts p.
Proof.
  unfold pkts, live. cbn [completed wlan_write_data_complete set_completed].
  change (queued (set_completed ?x ?p)) with (queued p).
  change (tdls_pending_txq (set_completed ?x ?p)) with (tdls_pending_txq p).
  rewrite !fmap_app. cbn. solve_Permutation.
Qed.
Lemma pkts_complete_all ms st p : pkts (complete_all ms st p) ≡ₚ (pkt_key <$> ms) ++ pkts p.
Proof.
  revert p. induction ms as [|m ms IH]; intros p; [done|]. cbn [complete_all foldl].
  unfold complete_all in IH. rewrite IH, pkts_complete. cbn. solve_Permutation.
Qed.
Lemma pkts_hold m p : pkts (set_tdls_pending_txq (tdls_pending_txq p ++ [m]) p) ≡ₚ pkt_key m :: pkts p.
Proof.
  unfold pkts, live. cbn [tdls_pending_txq set_tdls_pending_txq completed].
  change (queued (set_tdls_pending_txq ?x ?p)) with (queued p).
  rewrite !fmap_app. cbn. solve_Permutation.
Qed.
Lemma pkts_push p p' m : queued p' ≡ₚ m :: queued p → tdls_pending_txq p' = tdls_pending_txq p →
  completed p' = completed p → pkts p' ≡ₚ pkt_key m :: pkts p.
Proof. intros H1 H2 H3. unfold pkts, live. by rewrite H1, H2, H3. Qed.

(** ** The operations *)

Section conserve.
Context (pa : option Z).

Lemma append_list_pkts p i t r : tids p !! i = Some t → buf_head r = [] →
  pkts (set_tids (<[i := append_list r t]> (tids p)) p) ≡ₚ pkts p.
Proof.
  intros Hi Hb. apply pkts_eq; try done. unfold queued. cbn [tids set_tids]. rewrite list_fmap_insert.
  assert (t_pkts (append_list r t) = t_pkts t) as ->.
  { unfold t_pkts. destruct (append_list_fields r t) as (-> & _).
    rewrite fmap_app, concat_app. cbn. by rewrite Hb, !app_nil_r. }
  rewrite list_insert_id; [done|]. by rewrite list_lookup_fmap, Hi.
Qed.

Lemma ralist_add_loop_pkts env mac : ∀ todo bs p, wmm_wf pa p → fresh_blocks pa bs p →
  Forall (λ i, (i < 8)%nat) todo → pkts (ralist_add_loop env mac bs todo p) ≡ₚ pkts p.
Proof.
  induction todo as [|i todo IH]; intros bs p Hw Hf Hall; [done|].
  destruct bs as [|[a|] bs]; [done| |done]. cbn [ralist_add_loop].
  pose proof (ralist_add_loop_wf pa env mac [i] [Some a] p Hw) as Hone. cbn [ralist_add_loop] in Hone.
  apply Forall_cons in Hall as [Hi Hall]. destruct Hf as [Hnd Hf].
  destruct (lookup_lt_is_Some_2 (tids p) i) as [t Ht]; [by rewrite (wf_len _ _ Hw)|].
  destruct (ralist_setup_fields p env a mac i) as (Ha & _ & Hb & Htot).
  set (r := ralist_setup p env a mac i) in *.
  assert (upd_tid i _ p = set_tids (<[i := append_list r t]> (tids p)) p) as ->.
  { rewrite (upd_tid_insert _ _ _ t) by done. unfold append_list. by rewrite Ha. }
  destruct (Hf a) as [Hfa Hfp]; [by left|].
  destruct (append_list_wf pa p i t r Hw Ht) as (Hw' & Hperm & Hheld); [by rewrite Ha|by apply held_new; rewrite ?Ha|done|].
  rewrite IH; [by apply append_list_pkts|done| |done].
  cbn in Hnd. apply NoDup_cons in Hnd as [Hna Hnd]. split; [done|].
  intros b Hbs. destruct (Hf b) as [Hfb Hpb]; [by right|]. split; [|done].
  rewrite Hperm, Ha, not_elem_of_cons. split; [|done]. intros ->. apply Hna.
  apply list_elem_of_omap. by exists (Some a).
Qed.

Lemma get_queue_raptr_pkts env i mac p p' o : wmm_wf pa p → fresh_blocks pa (blocks env) p →
  wlan_wmm_get_queue_raptr env i mac p = (p', o) → pkts p' ≡ₚ pkts p.
Proof.
  intros Hw Hf. unfold wlan_wmm_get_queue_raptr.
  destruct (wlan_wmm_get_ralist_node p i mac) as [[n r]|]; [by intros [= <- <-]|].
  case_match; intros [= <- <-]; [done|].
  apply ralist_add_loop_pkts; [done|done|]. repeat constructor; lia.
Qed.

Lemma add_to_ralist_pkts env m i t r p : wmm_wf pa p → tids p !! i = Some t → r ∈ ra_list t →
  pkts (add_to_ralist env m i r p) ≡ₚ pkt_key m :: pkts p.
Proof.
  intros Hw Hi Hr. unfold add_to_ralist. rewrite (upd_tid_insert _ _ _ t) by done.
  match goal with |- context [<[i := ?x]> (tids p)] => set (t' := x) end.
  assert (queued (set_tids (<[i := t']> (tids p)) p) ≡ₚ m :: queued p) as Hq.
  { apply (queued_push p i t t' r (ralist_append m)); try done; [apply (wf_addrs _ _ Hw)| |].
    - unfold t'. by destruct (tx_pause r).
    - cbn. rewrite Permutation_app_comm. done. }
  destruct (tx_pause r); by apply pkts_push.
Qed.

Lemma add_found_pkts env m i p o : wmm_wf pa p →
  (∀ r, o = Some r → ∃ t, tids p !! i = Some t ∧ r ∈ ra_list t) →
  pkts (add_found env m i (p, o)) ≡ₚ pkt_key m :: pkts p.
Proof.
  intros Hw Ho. destruct o as [r|]; cbn [add_found]; [|by apply pkts_complete].
  destruct (Ho r eq_refl) as (t & Ht & Hr). by eapply add_to_ralist_pkts.
Qed.

Lemma count_station_pkts mac n p : pkts (count_station mac n p) = pkts p.
Proof. unfold count_station. repeat case_match; done. Qed.

Lemma add_buf_pkts env m p : wmm_wf pa p → fresh_blocks pa (blocks env) p →
  pkts (wlan_wmm_add_buf_txqueue env m p) ≡ₚ pkt_key m :: pkts p.
Proof.
  intros Hw Hf. unfold wlan_wmm_add_buf_txqueue.
  assert (∀ i mac m' p, pkt_key m' = pkt_key m → wmm_wf pa p → fresh_blocks pa (blocks env) p →
    pkts (add_found env m' i (wlan_wmm_get_queue_raptr env i mac p)) ≡ₚ pkt_key m :: pkts p) as Hget.
  { clear. intros i mac m' p Hk Hw Hf. destruct (wlan_wmm_get_queue_raptr env i mac p) as [p' o] eqn:E.
    destruct (get_queue_raptr_wf pa env i mac p p' o Hw Hf E) as (H1 & _ & _ & H4).
    rewrite add_found_pkts, Hk by done. constructor. by eapply get_queue_raptr_pkts. }
  destruct (negb (media_connected p)); [apply pkts_complete|].
  destruct (negb (queuing_ra_based p)).
  - destruct (wlan_is_tdls_link_setup _); [by apply Hget|]. case_decide; [apply pkts_hold|].
    apply add_found_pkts; [done|]. apply head_tid_elem.
  - set (dst := if flag_set _ _ then _ else _).
    destruct (is_group dst); [by apply Hget|].
    destruct (decide (bss_type p = MLAN_BSS_TYPE_UAP)); [|by apply Hget].
    destruct (wlan_get_station_entry p dst); [|by apply Hget].
    destruct (count_station_fields dst (Z.of_nat (length (tx_bytes m))) p) as [E1 E2].
    rewrite Hget; [by rewrite count_station_pkts|done|by apply count_station_wf|].
    unfold fresh_blocks in *. by rewrite E2.
Qed.

Lemma pause_tid_pkts mac pause i p cnt p' cnt' : NoDup (all_addrs p) →
  pause_tid mac pause i (p, cnt) = Some (p', cnt') → pkts p' ≡ₚ pkts p.
Proof.
  intros Hnd. unfold pause_tid.
  destruct (wlan_wmm_get_ralist_node p i mac) as [[n r]|] eqn:E; [|by intros [= <- <-]].
  apply get_ralist_node_Some in E as (t & Ht & _ & Hr & _).
  destruct (eqb (tx_pause r) pause); [by intros [= <- <-]|].
  rewrite (upd_tid_insert _ _ _ t) by done. set (t' := move_paused _ _ _).
  assert (pkts (set_tids (<[i := t']> (tids p)) p) ≡ₚ pkts p) as Hp.
  { apply pkts_eq; try done. by apply (queued_same p i t t' r (set_tx_pause pause)). }
  destruct pause.
  - by intros [= <- <-].
  - unfold wlan_ralist_add_to_pending_txq. destruct (txq_linked _ _); [done|]. by intros [= <- <-].
Qed.

Lemma move_tx_pkts_pkts pause n p : pkts (move_tx_pkts pause n p) = pkts p.
Proof. unfold move_tx_pkts. by case_match. Qed.

Lemma wf_value_bounds p : wmm_wf pa p → 0 <= value (tx_pkts_queued p) <= WMM_CAP.
Proof. intros Hw. pose proof (tx_bounds _ _ Hw). pose proof (wf_room _ _ Hw). lia. Qed.

Lemma update_tx_pause_pkts mac pause p p' n : wmm_wf pa p →
  wlan_update_ralist_tx_pause mac pause p = Some (p', n) → pkts p' ≡ₚ pkts p.
Proof.
  intros Hw. unfold wlan_update_ralist_tx_pause. intros ([p1 cnt] & H & [= <- <-])%bind_Some.
  rewrite move_tx_pkts_pkts. revert H.
  enough (for_tids (pause_tid mac pause) all_tids (p, 0) = Some (p1, cnt) →
    mid_pause pa pause (value (tx_pkts_queued p)) (p1, cnt).1 (p1, cnt).2 ∧ pkts (p1, cnt).1 ≡ₚ pkts p) as Hen
    by (intros H; apply Hen in H; tauto).
  apply (for_tids_inv (λ s, mid_pause pa pause (value (tx_pkts_queued p)) s.1 s.2 ∧ pkts s.1 ≡ₚ pkts p)).
  - intros i [q c] [q' c'] _ [Hm Hp] Hs. cbn [fst snd] in *. split.
    + eapply pause_tid_wf; [done| |done]. by apply wf_value_bounds.
    + rewrite <- Hp. eapply pause_tid_pkts; [|done]. apply (wf_addrs _ _ (proj1 Hm)).
  - split; [by apply mid_pause_start|done].
Qed.

Lemma non_tdls_list_pkts mac pause i : ∀ rest t p cnt, NoDup (all_addrs p) →
  tids p !! i = Some t → NoDup (r_addr <$> rest) → (∀ r, r ∈ rest → r ∈ ra_list t) →
  let s := foldl (non_tdls_visit mac pause) (t, cnt) rest in
  queued (set_tids (<[i := s.1]> (tids p)) p) ≡ₚ queued p.
Proof.
  induction rest as [|r rest IH]; intros t p cnt Hall Hi Hnd Hin; cbn [foldl]; cbv zeta.
  - cbn [fst]. rewrite list_insert_id by done. done.
  - cbn in Hnd. apply NoDup_cons in Hnd as [Hr Hnd].
    unfold non_tdls_visit at 2. cbn [fst snd].
    destruct (bool_decide _ && _) eqn:E; [|apply IH; auto; intros x Hx; apply Hin; by right].
    set (t' := move_paused pause (total_pkts r) (upd_ralist (r_addr r) (set_tx_pause pause) t)) in *.
    set (p1 := set_tids (<[i := t']> (tids p)) p).
    assert (addrs t' = addrs t) as Ea by by apply (addrs_upd (r_addr r) (set_tx_pause pause) t).
    specialize (IH t' p1 (u32 (cnt + total_pkts r))).
    cbv zeta in IH. destruct (foldl _ _ rest) as [t'' c'']. cbn [fst snd tids set_tids p1] in IH |- *.
    rewrite list_insert_insert_eq in IH. rewrite IH; [| | |done|].
    + apply (queued_same p i t t' r (set_tx_pause pause)); try done. apply Hin. left.
    + unfold all_addrs, p1. cbn [tids set_tids]. by rewrite (concat_insert_same addrs _ i t).
    + unfold p1. apply list_lookup_insert_eq. by eapply lookup_lt_Some.
    + intros x Hx. cbn. apply list_elem_of_fmap. exists x. split.
      * rewrite decide_False; [done|]. intros Hxr. apply Hr. rewrite <- Hxr. by apply list_elem_of_fmap_2.
      * apply Hin. by right.
Qed.

Lemma update_non_tdls_pkts mac pause p : wmm_wf pa p → pkts (wlan_update_non_tdls_ralist mac pause p) ≡ₚ pkts p.
Proof.
  intros Hw. unfold wlan_update_non_tdls_ralist. rewrite move_tx_pkts_pkts.
  apply (foldl_inv (λ s, mid_pause pa pause (value (tx_pkts_queued p)) s.1 s.2 ∧ pkts s.1 ≡ₚ pkts p)).
  2:{ split; [by apply mid_pause_start|done]. }
  intros [q cnt] i [Hm Hp]. unfold non_tdls_tid. cbn [fst snd] in *.
  destruct (tids q !! i) as [t|] eqn:Hi; [|done]. cbv zeta.
  assert (NoDup (all_addrs q)) as Hnd by apply (wf_addrs _ _ (proj1 Hm)).
  split.
  - apply non_tdls_list_wf; try done; [by apply wf_value_bounds|]. by eapply addrs_NoDup.
  - rewrite <- Hp. apply pkts_eq; try done. cbn [fst]. apply non_tdls_list_pkts; try done. by eapply addrs_NoDup.
Qed.

Lemma fst_pairs {A B} (b : B) (l : list A) : ((λ m, (m, b)) <$> l).*1 = l.
Proof. induction l as [|x l IH]; [done|]. cbn. by rewrite IH. Qed.

Lemma clean_txrx_pkts m p : bss_role p = MLAN_BSS_ROLE_STA ∨ tdls_pending_txq p = [] →
  pkts (wlan_clean_txrx m p).2 ≡ₚ pkts p.
Proof.
  intros Hrole. unfold wlan_clean_txrx. cbn [snd].
  change (pkts (set_num_drop_pkts 0 ?q)) with (pkts q).
  set (p0 := if decide _ then _ else _).
  assert (pkts p0 ≡ₚ pkts p ∧ tdls_pending_txq p0 = []) as [E0 Eq0].
  { unfold p0, wlan_cleanup_tdls_txq. case_decide as Hd; [|destruct Hrole; done].
    split; [|done]. pose proof (pkts_complete_all (tdls_pending_txq p) MLAN_STATUS_FAILURE p) as H.
    destruct (complete_all_fields (tdls_pending_txq p) MLAN_STATUS_FAILURE p) as (C1&_&_&_&C5&C6).
    set (q := complete_all _ _ _) in *.
    unfold pkts, live in *. cbn [tdls_pending_txq completed set_tdls_pending_txq].
    change (queued (set_tdls_pending_txq [] q)) with (queued q).
    rewrite C5 in H. rewrite app_nil_r, !fmap_app in *.
    apply (Permutation_app_inv_l (pkt_key <$> tdls_pending_txq p)). rewrite <- H. solve_Permutation. }
  rewrite <- E0. clear E0. unfold wlan_wmm_cleanup_queues, wlan_wmm_delete_all_ralist.
  destruct (del_pkts_fields (tids p0) p0) as (D1 & D2 & D3 & D4 & D5 & D6).
  set (p1 := foldl _ p0 (tids p0)) in *.
  match goal with |- context [foldl ?f ?q ?as_] => destruct (unlink_all_fields as_ q) as (U1&U2&U3&U4&U5&_) end.
  set (p2 := foldl _ _ (concat _)) in *.
  unfold pkts, live. cbn [tdls_pending_txq completed set_tids].
  assert (queued (set_tids ((λ t, set_ra_list_curr CurNull (set_ra_list [] t)) <$> tids p2) p2) = []) as ->.
  { unfold queued. cbn [tids set_tids]. rewrite <- list_fmap_compose. clear. by induction (tids p2). }
  rewrite U4, U5. cbn [tdls_pending_txq completed set_hint set_prio set_tx_pkts_queued set_tids].
  rewrite D5, D6, Eq0, !app_nil_r. cbn [fmap list_fmap app].
  rewrite !fmap_app, fst_pairs.
  assert (concat ((λ t, concat (buf_head <$> ra_list t)) <$> tids p0) = queued p0) as -> by done.
  solve_Permutation.
Qed.

Lemma drop_pkts_list (p : wmm_priv) i t t' r a next : NoDup (all_addrs p) → tids p !! i = Some t → r ∈ ra_list t →
  r_addr r = a → ra_list t' = ra_list (drop_ralist a next t) →
  queued p ≡ₚ buf_head r ++ queued (set_tids (<[i := t']> (tids p)) p).
Proof.
  intros Hnd Hi Hr <- E. unfold queued. cbn [tids set_tids]. rewrite list_fmap_insert.
  pose proof (concat_insert_perm (t_pkts <$> tids p) i (t_pkts t) (t_pkts t')) as H1.
  rewrite list_lookup_fmap, Hi in H1. specialize (H1 eq_refl).
  destruct (filter_split (ra_list t) r (addrs_NoDup p i t Hnd Hi) Hr) as (l1 & l2 & E1 & E2).
  assert (t_pkts t ≡ₚ buf_head r ++ t_pkts t') as H2.
  { unfold t_pkts. rewrite E. destruct (drop_ralist_fields (r_addr r) next t) as (-> & _).
    rewrite E2, E1, !fmap_app, !fmap_cons, !concat_app. cbn [concat]. solve_Permutation. }
  apply (Permutation_app_inv_r (t_pkts t')). rewrite <- H1, H2. solve_Permutation.
Qed.

Lemma delete_peer_tid_pkts mac s i : NoDup (all_addrs s.1) →
  pkts (delete_peer_tid mac s i).1 ≡ₚ pkts s.1.
Proof.
  destruct s as [p cnt]. cbn [fst]. intros Hnd. unfold delete_peer_tid.
  destruct (wlan_wmm_get_ralist_node p i mac) as [[n r]|] eqn:E; [|done].
  apply get_ralist_node_Some in E as (t & Ht & _ & Hr & _). cbn [fst].
  rewrite (upd_tid_insert p i _ t) by done.
  set (t1 := if tx_pause r then _ else _).
  set (p1 := set_tids (<[i := t1]> (tids p)) p).
  unfold wlan_wmm_del_pkts_in_ralist_node.
  destruct (complete_all_fields (buf_head r) MLAN_STATUS_FAILURE p1) as (C1 & _ & _ & _ & C5 & C6).
  set (p2 := complete_all _ _ p1) in *. unfold wlan_ralist_remove_from_pending_txq.
  assert (tids p2 !! i = Some t1) as Hi2.
  { rewrite C1. apply list_lookup_insert_eq. by eapply lookup_lt_Some. }
  rewrite (upd_tid_insert _ i _ t1) by done. cbn [tids set_pending_txq].
  rewrite C1. unfold p1 at 1. cbn [tids set_tids]. rewrite list_insert_insert_eq.
  pose proof (drop_pkts_list p i t (drop_ralist (r_addr r) CurHead t1) r (r_addr r) CurHead Hnd Ht Hr eq_refl) as Hq.
  unfold pkts, live. cbn [tdls_pending_txq completed set_tids set_pending_txq]. rewrite C5, C6.
  match goal with |- context [queued ?q ++ tdls_pending_txq p1] =>
    change (queued q) with (queued (set_tids (<[i := drop_ralist (r_addr r) CurHead t1]> (tids p)) p)) end.
  change (tdls_pending_txq p1) with (tdls_pending_txq p). change (completed p1) with (completed p).
  rewrite Hq.
  - rewrite !fmap_app, fst_pairs. solve_Permutation.
  - destruct (drop_ralist_fields (r_addr r) CurHead t) as (-> & _).
    destruct (drop_ralist_fields (r_addr r) CurHead t1) as (-> & _). unfold t1. by destruct (tx_pause r).
Qed.

Lemma delete_peer_pkts mac p : wmm_wf pa p → pkts (wlan_wmm_delete_peer_ralist mac p) ≡ₚ pkts p.
Proof.
  intros Hw. unfold wlan_wmm_delete_peer_ralist. rewrite move_tx_pkts_pkts.
  apply (foldl_inv (λ s, mid_pause pa true (value (tx_pkts_queued p)) s.1 s.2 ∧ pkts s.1 ≡ₚ pkts p)).
  2:{ split; [by apply mid_pause_start|done]. }
  intros s i [Hm Hp]. split.
  - apply delete_peer_tid_wf; [done|]. by apply wf_value_bounds.
  - rewrite <- Hp. apply delete_peer_tid_pkts. apply (wf_addrs _ _ (proj1 Hm)).
Qed.

Lemma del_tx_pkts_pkts i p p' : NoDup (all_addrs p) → wlan_del_tx_pkts_in_ralist i p = Some p' → pkts p' ≡ₚ pkts p.
Proof.
  intros Hnd. unfold wlan_del_tx_pkts_in_ralist.
  intros (t & Ht & ([n r] & Hf & (m & Hm & [= <-])%bind_Some)%bind_Some)%bind_Some.
  apply list_find_Some in Hf as (Hn & _ & _). apply list_elem_of_lookup_2 in Hn.
  destruct (buf_head r) as [|m' q] eqn:Eb; [done|]. injection Hm as ->.
  rewrite (upd_tid_insert _ i _ t) by done.
  set (p0 := set_num_drop_pkts _ (wlan_write_data_complete m MLAN_STATUS_FAILURE p)).
  match goal with |- context [<[i := ?x]> (tids p0)] => set (t' := x) end.
  assert (queued p ≡ₚ m :: queued (set_tids (<[i := t']> (tids p0)) p0)) as Hq.
  { apply (queued_pop p i t t' r (λ r, dec_total (set_buf_head (tail (buf_head r)) r)) m); try done.
    - unfold t'. by destruct (tx_pause r).
    - cbn. by rewrite Eb. }
  assert (pkts (set_tids (<[i := t']> (tids p0)) p0) ≡ₚ pkts p) as H.
  { unfold pkts, live. rewrite Hq. unfold p0. cbn [tdls_pending_txq completed set_tids set_num_drop_pkts
      wlan_write_data_complete set_completed]. rewrite !fmap_app. cbn. solve_Permutation. }
  by destruct (tx_pause r).
Qed.

Lemma drop_tx_pkts_pkts i p : NoDup (all_addrs p) → pkts (wlan_drop_tx_pkts i p).2 ≡ₚ pkts p.
Proof.
  unfold wlan_drop_tx_pkts. intros Hnd. generalize 8%nat as n. intros n. revert i.
  induction n as [|n IH]; intros i; [done|]. cbn [drop_loop]. cbv zeta.
  destruct (wlan_del_tx_pkts_in_ralist _ p) eqn:E; [|by apply IH]. by eapply del_tx_pkts_pkts.
Qed.

Lemma take_packet_perm mac buf m buf' : take_packet mac buf = Some (m, buf') → buf ≡ₚ m :: buf'.
Proof.
  revert buf'. induction buf as [|x buf IH]; intros buf'; [done|]. cbn [take_packet]. case_decide.
  - by intros [= <- <-].
  - intros ([y l] & Hy & [= <- <-])%bind_Some. rewrite (IH l) by done. apply Permutation_swap.
Qed.

Lemma hold_loop_pkts mac n i a : ∀ buf p, NoDup (all_addrs p) →
  (∃ t r, tids p !! i = Some t ∧ r ∈ ra_list t ∧ r_addr r = a ∧ buf_head r = buf) →
  pkts (hold_loop mac n i a buf p) ≡ₚ pkts p ∧ all_addrs (hold_loop mac n i a buf p) = all_addrs p.
Proof.
  induction n as [|n IH]; intros buf p Hnd (t & r & Ht & Hr & <- & Hb); [done|]. cbn [hold_loop].
  destruct (take_packet mac buf) as [[m buf']|] eqn:E; [|done].
  apply take_packet_perm in E. rewrite (upd_tid_insert _ i _ t) by done.
  set (f := λ r, dec_count (dec_total (set_buf_head buf' r))).
  set (t' := dec_queued _). set (p1 := set_tids (<[i := t']> (tids p)) p).
  assert (queued p ≡ₚ m :: queued p1) as Hq.
  { apply (queued_pop p i t t' r f m); try done. by rewrite Hb. }
  assert (all_addrs p1 = all_addrs p) as Ea.
  { unfold all_addrs, p1. cbn [tids set_tids]. apply (concat_insert_same addrs _ i t); [done|].
    by apply (addrs_upd (r_addr r) f t). }
  set (p2 := set_tdls_pending_txq _ _).
  assert (pkts p2 ≡ₚ pkts p) as Hp.
  { unfold pkts, live. rewrite Hq. change (queued p2) with (queued p1).
    change (completed p2) with (completed p). change (tdls_pending_txq p2) with (tdls_pending_txq p ++ [m]).
    rewrite !fmap_app. cbn. solve_Permutation. }
  destruct (IH buf' p2) as [H1 H2].
  - change (all_addrs p2) with (all_addrs p1). by rewrite Ea.
  - exists t', (f r). split; [|split; [|done]].
    + apply list_lookup_insert_eq. by eapply lookup_lt_Some.
    + apply list_elem_of_fmap. exists r. by rewrite decide_True.
  - rewrite H1, H2. split; [done|]. change (all_addrs p2) with (all_addrs p1). done.
Qed.

Lemma hold_tdls_pkts mac p : NoDup (all_addrs p) → pkts (wlan_hold_tdls_packets mac p) ≡ₚ pkts p.
Proof.
  intros Hnd. unfold wlan_hold_tdls_packets.
  apply (foldl_inv (λ q, NoDup (all_addrs q) ∧ pkts q ≡ₚ pkts p)); [|done].
  intros q i [Hnq Hq]. unfold hold_tid.
  destruct (tids q !! i) as [t|] eqn:Ht; [|done]. destruct (ra_list t) as [|r l] eqn:El; [done|].
  destruct (hold_loop_pkts mac (length (buf_head r)) i (r_addr r) (buf_head r) q Hnq) as [H1 H2].
  - exists t, r. rewrite El. split_and!; try done. left.
  - by rewrite H1, H2.
Qed.

Lemma delete_tdls_tid_pkts mac i p p' : NoDup (all_addrs p) → delete_tdls_tid mac i p = Some p' →
  pkts p' ≡ₚ pkts p ∧ NoDup (all_addrs p').
Proof.
  intros Hnd. unfold delete_tdls_tid.
  destruct (wlan_wmm_get_ralist_node p i mac) as [[[|n] r]|] eqn:E; [done| |by intros [= <-]].
  apply get_ralist_node_Some in E as (t & Ht & Hn & Hr & Hm). rewrite Ht. cbn [mbind option_bind].
  destruct (ra_list t) as [|ap l] eqn:El; [done|]. cbn [head mbind option_bind].
  unfold txq_linked. case_bool_decide as Hl; [done|]. intros [= <-].
  change (λ ap0, foldl (λ ap1 m, ralist_append m ap1) ap0 (buf_head r)) with (append_packets (buf_head r)).
  rewrite <- El in Hr. assert (ap ∈ ra_list t) as Hap by (rewrite El; left).
  pose proof (addrs_NoDup p i t Hnd Ht) as Hndt.
  assert (r_addr ap ≠ r_addr r) as Hne.
  { intros Eq. assert (addrs t !! 0%nat = Some (r_addr r)) as L0 by (unfold addrs; rewrite El; cbn; by rewrite Eq).
    assert (addrs t !! S n = Some (r_addr r)) as L1 by (unfold addrs; by rewrite list_lookup_fmap, El, Hn).
    by pose proof (NoDup_lookup _ _ _ _ Hndt L0 L1). }
  assert (∀ x, r_addr (append_packets (buf_head r) x) = r_addr x) as Hfa by (intros x; apply append_packets_spec).
  rewrite drop_ralist_upd by done. set (t1 := drop_ralist (r_addr r) (CurAt (r_addr ap)) t).
  set (t' := upd_ralist (r_addr ap) _ t1).
  set (p1 := set_tids (<[i := t1]> (tids p)) p).
  assert (NoDup (all_addrs p1)) as Hnd1.
  { destruct (remove_addrs p i t t1 (r_addr r) Ht) as [Hsub _]; [apply addrs_drop|].
    apply (sublist_NoDup _ (all_addrs p)); [done|exact Hsub]. }
  assert (tids p1 !! i = Some t1) as Ht1 by (apply list_lookup_insert_eq; by eapply lookup_lt_Some).
  assert (ap ∈ ra_list t1) as Hap1.
  { destruct (drop_ralist_fields (r_addr r) (CurAt (r_addr ap)) t) as (Ed & _). unfold t1. rewrite Ed.
    by apply list_elem_of_filter. }
  pose proof (drop_pkts_list p i t t1 r (r_addr r) (CurAt (r_addr ap)) Hnd Ht Hr eq_refl eq_refl) as Q1.
  pose proof (queued_upd p1 i t1 t' ap (append_packets (buf_head r)) Hnd1 Ht1 Hap1 eq_refl) as Q2.
  destruct (append_packets_spec (buf_head r) ap) as (_ & _ & _ & A4 & _). rewrite A4 in Q2.
  assert (set_tids (<[i := t']> (tids p1)) p1 = set_tids (<[i := t']> (tids p)) p) as E1.
  { unfold p1, set_tids. cbn. by rewrite list_insert_insert_eq. }
  rewrite E1 in Q2. split.
  - apply pkts_eq; [|done|done]. rewrite Q1. fold p1.
    apply (Permutation_app_inv_r (buf_head ap)). rewrite Q2. solve_Permutation.
  - rewrite <- E1. unfold all_addrs. cbn [tids set_tids]. rewrite (concat_insert_same addrs _ i t1); [done|done|].
    by apply addrs_upd.
Qed.

Lemma restore_packet_pkts env mac st m p : wmm_wf pa p → fresh_blocks pa (blocks env) p →
  pkts (restore_packet env mac st m p) ≡ₚ pkt_key m :: pkts p.
Proof.
  intros Hw Hf. unfold restore_packet. set (i := downgraded p (tx_priority m)). clearbody i.
  assert (∀ m' p1 o, pkt_key m' = pkt_key m → wmm_wf pa p1 → pkts p1 ≡ₚ pkts p →
    (∀ r, o = Some r → ∃ t, tids p1 !! i = Some t ∧ r ∈ ra_list t) →
    pkts (match o with
      | None => wlan_write_data_complete m' MLAN_STATUS_FAILURE p1
      | Some r => raise_hint env i (inc_tx_pkts (upd_tid i (λ t, inc_queued (upd_ralist (r_addr r) (ralist_append m') t)) p1))
      end) ≡ₚ pkt_key m :: pkts p) as Hput.
  { intros m' p1 [r|] Hk Hw1 Hp1 Ho; [|by rewrite pkts_complete, Hp1, Hk].
    destruct (Ho r eq_refl) as (t & Ht & Hr). rewrite (upd_tid_insert _ i _ t) by done.
    rewrite <- Hp1, <- Hk. apply pkts_push; try done.
    apply (queued_push p1 i t _ r (ralist_append m')); try done; [apply (wf_addrs _ _ Hw1)|].
    cbn. by rewrite Permutation_app_comm. }
  case_decide.
  - destruct (wlan_wmm_get_queue_raptr env i mac p) as [p1 o] eqn:E.
    destruct (get_queue_raptr_wf pa env i mac p p1 o Hw Hf E) as (H1 & _ & _ & H4).
    apply Hput; [done|done| |done]. by eapply get_queue_raptr_pkts.
  - apply Hput; [done|done|done|]. apply head_tid_elem.
Qed.

Lemma pkts_take mac m q p : take_packet mac (tdls_pending_txq p) = Some (m, q) →
  pkts p ≡ₚ pkt_key m :: pkts (set_tdls_pending_txq q p).
Proof.
  intros H%take_packet_perm. unfold pkts, live. rewrite H.
  change (queued (set_tdls_pending_txq q p)) with (queued p).
  change (tdls_pending_txq (set_tdls_pending_txq q p)) with q. rewrite !fmap_app. cbn. solve_Permutation.
Qed.

Lemma restore_loop_pkts env mac st : ∀ n bss p, wmm_wf pa p → queuing_ra_based p = false →
  unpaused_targets mac p → fresh_blocks pa (concat bss) p →
  p_held pa p + Z.of_nat (length (tdls_pending_txq p)) <= WMM_CAP →
  pkts (restore_loop env mac st bss n p) ≡ₚ pkts p.
Proof.
  induction n as [|n IH]; intros bss p Hw Hq Hu Hf Hroom; [done|]. cbn [restore_loop]. cbv zeta.
  destruct (take_packet mac (tdls_pending_txq p)) as [[m q]|] eqn:E; [|done].
  rewrite (pkts_take mac m q p E). apply take_packet_length in E. rewrite E in Hroom.
  set (env' := set_blocks (default [] (head bss)) env).
  assert (concat bss = blocks env' ++ concat (tail bss)) as Ec by (by destruct bss).
  assert (fresh_blocks pa (blocks env') p ∧ fresh_blocks pa (concat (tail bss)) p ∧
          ∀ a, a ∈ omap id (blocks env') → a ∉ omap id (concat (tail bss))) as (Hf1 & Hf2 & Hdis).
  { destruct Hf as [Hnd Hin]. rewrite Ec, omap_app in Hnd. apply NoDup_app in Hnd as (N1 & N2 & N3).
    split; [|split; [|done]]; (split; [done|]); intros a Ha; apply Hin; rewrite Ec; apply elem_of_app; auto. }
  set (p0 := set_tdls_pending_txq q p).
  assert (wmm_wf pa p0) as Hw0 by by apply wf_tdlsq.
  destruct (restore_packet_wf pa env' mac st m p0) as (H1 & H2 & H3 & H4 & H5 & H6);
    [done|done|change (p_held pa p0) with (p_held pa p); lia|].
  change (p_held pa p0) with (p_held pa p) in *. change (all_addrs p0) with (all_addrs p) in *.
  change (tdls_pending_txq p0) with q in *.
  rewrite IH; [by apply restore_packet_pkts|done|done|done| |rewrite H5; lia].
  destruct Hf2 as [N2 Hin2]. split; [done|]. intros a Ha. destruct (Hin2 a Ha) as [Hna Hpa].
  split; [|done]. intros [Hb|Hb]%H6; [done|].
  apply (Hdis a Hb). apply list_elem_of_omap. by exists (Some a).
Qed.

Lemma restore_tdls_pkts env mac st bss p p' : wmm_wf pa p → queuing_ra_based p = false →
  unpaused_targets mac p → fresh_blocks pa (concat bss) p →
  p_held pa p + Z.of_nat (length (tdls_pending_txq p)) <= WMM_CAP →
  wlan_restore_tdls_packets env mac st bss p = Some p' → pkts p' ≡ₚ pkts p.
Proof.
  intros Hw Hq Hu Hf Hroom. unfold wlan_restore_tdls_packets. cbv zeta.
  rewrite <- (restore_loop_pkts env mac st (length (tdls_pending_txq p)) bss p Hw Hq Hu Hf Hroom).
  destruct (restore_loop_wf pa env mac st (length (tdls_pending_txq p)) bss p Hw Hq Hu Hf Hroom) as [H1 _].
  set (q := restore_loop _ _ _ _ _ _) in *. case_decide; [by intros [= <-]|].
  unfold wlan_wmm_delete_tdls_ralist.
  enough (for_tids (delete_tdls_tid mac) all_tids q = Some p' → pkts p' ≡ₚ pkts q ∧ NoDup (all_addrs p'))
    by tauto.
  apply (for_tids_inv (λ s, pkts s ≡ₚ pkts q ∧ NoDup (all_addrs s))); [|split; [done|apply (wf_addrs _ _ H1)]].
  intros i s s' _ [Hp Hnd] Hs. rewrite <- Hp. by apply (delete_tdls_tid_pkts mac i).
Qed.

Lemma ralist_update_pkts env old_ra new_ra p : NoDup (all_addrs p) →
  pkts (wlan_ralist_update env old_ra new_ra p).1 ≡ₚ pkts p.
Proof.
  intros Hnd. unfold wlan_ralist_update.
  apply (foldl_inv (λ s, NoDup (all_addrs s.1) ∧ pkts s.1 ≡ₚ pkts p)); [|done].
  intros s i [Hn Hp]. unfold update_tid.
  destruct (wlan_wmm_get_ralist_node s.1 i old_ra) as [[n r]|] eqn:E; [|done].
  apply get_ralist_node_Some in E as (t & Ht & _ & Hr & _). cbn [fst].
  set (f := ralist_renew s.1 env new_ra).
  assert (∀ x, r_addr (f x) = r_addr x) as Hfa by (intros x; apply ralist_renew_fields).
  rewrite (upd_tid_insert _ i _ t) by done. split.
  - unfold all_addrs. cbn [tids set_tids]. rewrite (concat_insert_same addrs _ i t); [done|done|].
    by apply addrs_upd.
  - rewrite <- Hp. apply pkts_eq; try done.
    apply (queued_same s.1 i t _ r f); try done. apply ralist_renew_fields.
Qed.

(** ** The two halves of a send *)

Lemma dequeue_pkts p a i m q t r f t' : NoDup (all_addrs p) → dequeue_ralist p a i = Some (m, q) →
  tids p !! i = Some t → r ∈ ra_list t → r_addr r = a →
  (∀ x, buf_head (f x) = q) → ra_list t' = ra_list (upd_ralist a f t) →
  queued p ≡ₚ m :: queued (set_tids (<[i := t']> (tids p)) p).
Proof.
  intros Hnd Hd Ht Hr <- Hf E. apply dequeue_ralist_Some in Hd as (t0 & r0 & Ht0 & _ & Hr0 & Ha & Eb).
  assert (t0 = t) as -> by congruence.
  destruct (addr_unique p i i t t r0 r Hnd Ht Ht Hr0 Hr Ha) as [_ ->].
  apply (queued_pop p i t t' r f m); try done. by rewrite Eb, Hf.
Qed.

Lemma begin_pkts txpd a i p p' m n : NoDup (all_addrs p) →
  send_single_begin txpd a i p = Some (p', m, n) ∨ send_processed_begin txpd a i p = Some (p', m, n) →
  pkts p ≡ₚ pkt_key m :: pkts p'.
Proof.
  intros Hnd.
  assert (∀ p p', queued p ≡ₚ m :: queued p' → tdls_pending_txq p' = tdls_pending_txq p →
    completed p' = completed p → pkts p ≡ₚ pkt_key m :: pkts p') as Hk.
  { intros q q' H1 H2 H3. unfold pkts, live. by rewrite H1, H2, H3. }
  intros [Hb|Hb]; apply bind_Some in Hb as ([m' q] & Hd & [= <- <- <-]);
    pose proof Hd as (t & r & Ht & _ & Hr & Ha & Eb)%dequeue_ralist_Some;
    rewrite (upd_tid_insert _ i _ t) by done; (apply Hk; [|done|done]).
  - by apply (dequeue_pkts p a i m' q t r (λ r, dec_total (set_buf_head q r)) _ Hnd Hd).
  - by apply (dequeue_pkts p a i m' q t r (set_buf_head q) _ Hnd Hd).
Qed.

(** The packet comes back to the interface, completed or queued, or is handed on. *)
Definition single_kept (st : mlan_status) : bool := bool_decide (st = MLAN_STATUS_RESOURCE).
Definition processed_kept (st : mlan_status) : bool := bool_decide (st ≠ MLAN_STATUS_PENDING).

Lemma back_pkts p a i t r f t' m : NoDup (all_addrs p) → tids p !! i = Some t → r ∈ ra_list t → r_addr r = a →
  (∀ x, pkt_key <$> buf_head (f x) = pkt_key m :: (pkt_key <$> buf_head x)) → ra_list t' = ra_list (upd_ralist a f t) →
  pkts (set_tids (<[i := t']> (tids p)) p) ≡ₚ pkt_key m :: pkts p.
Proof.
  intros Hnd Ht Hr <- Hf E. pose proof (queued_upd p i t t' r f Hnd Ht Hr E) as H.
  apply (fmap_Permutation pkt_key) in H. rewrite !fmap_app, Hf in H.
  assert (pkt_key <$> queued (set_tids (<[i := t']> (tids p)) p) ≡ₚ pkt_key m :: (pkt_key <$> queued p)) as H'.
  { apply (Permutation_app_inv_r (pkt_key <$> buf_head r)). rewrite H. solve_Permutation. }
  unfold pkts, live. rewrite !fmap_app, H'. done.
Qed.

Lemma send_single_end_pkts a i m st p : NoDup (all_addrs p) →
  pkts (send_single_end a i m st p) ≡ₚ (if single_kept st then [pkt_key m] else []) ++ pkts p.
Proof.
  intros Hnd. unfold send_single_end, single_kept.
  destruct (wlan_is_ralist_valid p a i) eqn:E.
  - apply is_ralist_valid_spec in E as (t & r & Ht & Hr & <-).
    rewrite !(upd_tid_insert _ i _ t) by done. case_decide.
    + rewrite bool_decide_true by done. cbn [app].
      by apply (back_pkts p (r_addr r) i t r
        (λ r, inc_total (enq_head (or_flag MLAN_BUF_FLAG_REQUEUED_PKT m) r))).
    + rewrite bool_decide_false by done. cbn [app]. apply pkts_eq; try done. unfold queued. cbn [tids set_tids].
      rewrite list_fmap_insert, list_insert_id; [done|]. by rewrite list_lookup_fmap, Ht.
  - case_decide; [rewrite bool_decide_true by done; apply pkts_complete|by rewrite bool_decide_false].
Qed.

Lemma upd_pkts_same f i p : (∀ t, pkt_key <$> t_pkts (f t) = pkt_key <$> t_pkts t) → pkts (upd_tid i f p) ≡ₚ pkts p.
Proof.
  intros Hf. unfold pkts, live, upd_tid. cbn [tdls_pending_txq completed set_tids].
  rewrite !fmap_app. do 2 (apply Permutation_app; [|done]). unfold queued. cbn [tids set_tids].
  assert (∀ l i, pkt_key <$> concat (t_pkts <$> alter f i l) = pkt_key <$> concat (t_pkts <$> l)) as E;
    [|by rewrite E].
  clear -Hf. induction l as [|t l IH]; intros [|i]; [done|done| |]; cbn; rewrite !fmap_app.
  - by rewrite Hf.
  - f_equal. apply IH.
Qed.

Lemma send_processed_end_pkts a i m st p : NoDup (all_addrs p) →
  pkts (send_processed_end a i m st p) ≡ₚ (if processed_kept st then [pkt_key m] else []) ++ pkts p.
Proof.
  intros Hnd. unfold send_processed_end, processed_kept.
  assert (∀ p', pkts (dec_tx_pkts (upd_tid i dec_queued
     (if wlan_is_ralist_valid p' a i then upd_tid i (λ t, upd_ralist a dec_total (mark_sent a t)) p' else p'))) ≡ₚ pkts p') as Hout.
  { intros p'. change (pkts (dec_tx_pkts ?q)) with (pkts q). rewrite upd_pkts_same by done.
    destruct (wlan_is_ralist_valid p' a i); [|done]. apply upd_pkts_same.
    intros t. unfold t_pkts. do 2 f_equal. cbn. rewrite <- list_fmap_compose. apply list_fmap_ext.
    intros j r _. cbn. by case_decide. }
  destruct st; cbv zeta; rewrite ?Hout.
  - rewrite bool_decide_true by done. apply pkts_complete.
  - rewrite bool_decide_true by done. apply pkts_complete.
  - rewrite bool_decide_false; [done|]. by intros [].
  - rewrite bool_decide_true by done. cbn [app]. destruct (wlan_is_ralist_valid p a i) eqn:E; [|apply pkts_complete].
    apply is_ralist_valid_spec in E as (t & r & Ht & Hr & <-).
    rewrite (upd_tid_insert _ i _ t) by done.
    by apply (back_pkts p (r_addr r) i t r (enq_head (or_flag MLAN_BUF_FLAG_REQUEUED_PKT m))).
Qed.
End conserve.

(** ** Lists stay on their TID *)

(** Every list of [p'] is a list of [p] on the same TID, or has one of the new
    addresses. *)
Definition tids_sub (bs : list Z) (p p' : wmm_priv) : Prop :=
  ∀ j t', tids p' !! j = Some t' →
    ∃ t, tids p !! j = Some t ∧ ∀ b, b ∈ addrs t' → b ∈ addrs t ∨ b ∈ bs.

Lemma sub_refl bs p : tids_sub bs p p.
Proof. intros j t Ht. exists t. auto. Qed.
Lemma sub_eq bs p p' q : tids p' = tids p → tids_sub bs q p → tids_sub bs q p'.
Proof. unfold tids_sub. intros ->. done. Qed.
Lemma sub_same bs p p' : tids p' = tids p → tids_sub bs p p'.
Proof. intros E. apply (sub_eq bs p); [done|apply sub_refl]. Qed.
Lemma sub_weaken bs bs' p p' : (∀ b, b ∈ bs → b ∈ bs') → tids_sub bs p p' → tids_sub bs' p p'.
Proof. intros H Hs j t' Ht'. destruct (Hs j t' Ht') as (t & Ht & Hb). exists t. split; [done|]. intros b Hin. destruct (Hb b Hin); auto. Qed.
Lemma sub_trans bs p p' p'' : tids_sub bs p p' → tids_sub bs p' p'' → tids_sub bs p p''.
Proof.
  intros H1 H2 j t'' Ht''. destruct (H2 j t'' Ht'') as (t' & Ht' & Hb').
  destruct (H1 j t' Ht') as (t & Ht & Hb). exists t. split; [done|].
  intros b Hin. destruct (Hb' b Hin) as [Hin'|]; auto.
Qed.
Lemma sub_upd bs p i f : (∀ t b, tids p !! i = Some t → b ∈ addrs (f t) → b ∈ addrs t ∨ b ∈ bs) →
  tids_sub bs p (upd_tid i f p).
Proof.
  intros Hf j t' Ht'. unfold upd_tid in Ht'. cbn in Ht'.
  destruct (decide (j = i)) as [->|Hne].
  - rewrite list_lookup_alter_eq in Ht'. apply fmap_Some in Ht' as (t & Ht & ->). exists t. split; [done|]. intros b. by apply Hf.
  - rewrite list_lookup_alter_ne in Ht' by done. exists t'. auto.
Qed.
Lemma sub_upd_list bs p i a f g : (∀ r, r_addr (f r) = r_addr r) → (∀ t, ra_list (g t) = ra_list (upd_ralist a f t)) →
  tids_sub bs p (upd_tid i g p).
Proof.
  intros Hf Hg. apply sub_upd. intros t b _ Hb. left.
  rewrite <- (addrs_upd a f t) by done. unfold addrs in *. by rewrite Hg in Hb.
Qed.

Lemma ralist_add_loop_sub env mac : ∀ todo bs p, tids_sub (omap id bs) p (ralist_add_loop env mac bs todo p).
Proof.
  induction todo as [|i todo IH]; intros bs p; [apply sub_refl|].
  destruct bs as [|[a|] bs]; [apply sub_refl| |apply sub_refl]. cbn [ralist_add_loop].
  eapply sub_trans; [|eapply sub_weaken; [|apply IH]; intros b Hb; cbn; by right].
  apply sub_upd. intros t b _ Hb.
  destruct (append_list_fields (ralist_setup p env a mac i) t) as (El & _).
  destruct (ralist_setup_fields p env a mac i) as (Ha & _).
  assert (b ∈ r_addr <$> (ra_list t ++ [ralist_setup p env a mac i])) as Hb'.
  { rewrite <- El. unfold append_list. rewrite Ha. exact Hb. }
  rewrite fmap_app in Hb'. apply elem_of_app in Hb' as [Hb'|Hb']; [by left|].
  right. cbn in *. apply list_elem_of_singleton in Hb' as ->. rewrite Ha. left.
Qed.
Lemma get_queue_raptr_sub env i mac p : tids_sub (omap id (blocks env)) p (wlan_wmm_get_queue_raptr env i mac p).1.
Proof.
  unfold wlan_wmm_get_queue_raptr. destruct (wlan_wmm_get_ralist_node p i mac) as [[n r]|]; [apply sub_refl|].
  case_match; [apply sub_refl|]. apply ralist_add_loop_sub.
Qed.
Lemma add_to_ralist_sub bs env m i r p : tids_sub bs p (add_to_ralist env m i r p).
Proof.
  unfold add_to_ralist. set (q := upd_tid i _ p).
  assert (tids_sub bs p q) as H.
  { apply (sub_upd_list bs p i (r_addr r) (ralist_append m)); [done|]. intros t. by destruct (tx_pause r). }
  by destruct (tx_pause r).
Qed.
Lemma add_found_sub bs env m i p o q : tids_sub bs q p → tids_sub bs q (add_found env m i (p, o)).
Proof.
  intros H. destruct o as [r|]; [|done]. eapply sub_trans; [done|]. apply add_to_ralist_sub.
Qed.
Lemma add_buf_sub env m p : tids_sub (omap id (blocks env)) p (wlan_wmm_add_buf_txqueue env m p).
Proof.
  unfold wlan_wmm_add_buf_txqueue.
  assert (∀ i mac m p q, tids q = tids p → tids_sub (omap id (blocks env)) p
    (add_found env m i (wlan_wmm_get_queue_raptr env i mac q))) as Hget.
  { clear. intros i mac m p q E. destruct (wlan_wmm_get_queue_raptr env i mac q) as [p' o] eqn:E'.
    apply add_found_sub. pose proof (get_queue_raptr_sub env i mac q) as H. rewrite E' in H.
    intros j t' Ht'. destruct (H j t' Ht') as (t & Ht & Hb). exists t. by rewrite <- E. }
  destruct (negb (media_connected p)); [by apply sub_same|].
  destruct (negb (queuing_ra_based p)).
  - destruct (wlan_is_tdls_link_setup _); [by apply Hget|]. case_decide; [by apply sub_same|].
    apply add_found_sub, sub_refl.
  - set (dst := if flag_set _ _ then _ else _).
    destruct (is_group dst); [by apply Hget|].
    destruct (decide (bss_type p = MLAN_BSS_TYPE_UAP)); [|by apply Hget].
    destruct (wlan_get_station_entry p dst); [|by apply Hget].
    apply Hget. apply count_station_fields.
Qed.

Lemma pause_sub mac pause p p' n : wlan_update_ralist_tx_pause mac pause p = Some (p', n) → tids_sub [] p p'.
Proof.
  unfold wlan_update_ralist_tx_pause. intros ([p1 cnt] & H & [= <- <-])%bind_Some.
  assert (tids_sub [] p (p1, cnt).1) as Hs.
  { revert H. apply (for_tids_inv (λ s, tids_sub [] p s.1)); [|apply sub_refl].
    intros i [q c] [q' c'] _ Hq. unfold pause_tid. cbn [fst] in *.
    destruct (wlan_wmm_get_ralist_node q i mac) as [[k r]|]; [|by intros [= <- <-]].
    destruct (eqb _ _); [by intros [= <- <-]|]. set (q1 := upd_tid i _ q).
    assert (tids_sub [] p q1) as Hq1.
    { eapply sub_trans; [done|]. by apply (sub_upd_list [] q i (r_addr r) (set_tx_pause pause)). }
    destruct pause; [by intros [= <- <-]|].
    unfold wlan_ralist_add_to_pending_txq. destruct (txq_linked _ _); [done|]. by intros [= <- <-]. }
  unfold move_tx_pkts. by case_match.
Qed.

Lemma non_tdls_sub mac pause p : tids_sub [] p (wlan_update_non_tdls_ralist mac pause p).
Proof.
  unfold wlan_update_non_tdls_ralist. set (s := foldl _ _ _).
  assert (tids_sub [] p s.1) as Hs.
  { apply (foldl_inv (λ s, tids_sub [] p s.1)); [|apply sub_refl].
    intros [q c] i Hq. unfold non_tdls_tid. cbn [fst snd] in *.
    destruct (tids q !! i) as [t|] eqn:Ht; [|done]. cbv zeta. cbn [fst].
    eapply sub_trans; [done|]. set (g := foldl _ _ _).
    assert (addrs g.1 = addrs t) as Ea.
    { apply (foldl_inv (λ s, addrs s.1 = addrs t)); [|done]. intros [t1 c1] r E1. unfold non_tdls_visit.
      case_match; [|done]. cbn [fst] in *. rewrite <- E1.
      by apply (addrs_upd (r_addr r) (set_tx_pause pause) t1). }
    intros j t' Ht'. cbn in Ht'. apply list_lookup_insert_Some in Ht' as [(<- & <- & _)| [_ Ht'] ].
    - exists t. rewrite Ea. auto.
    - exists t'. auto. }
  unfold move_tx_pkts. by case_match.
Qed.

Lemma drop_ralist_sub a next t b : b ∈ addrs (drop_ralist a next t) → b ∈ addrs t.
Proof. rewrite addrs_drop, list_elem_of_filter. tauto. Qed.

Lemma delete_peer_sub mac p : tids_sub [] p (wlan_wmm_delete_peer_ralist mac p).
Proof.
  unfold wlan_wmm_delete_peer_ralist. set (s := foldl _ _ _).
  assert (tids_sub [] p s.1) as Hs.
  { apply (foldl_inv (λ s, tids_sub [] p s.1)); [|apply sub_refl].
    intros [q c] i Hq. unfold delete_peer_tid. cbn [fst] in *.
    destruct (wlan_wmm_get_ralist_node q i mac) as [[k r]|]; [|done]. cbn [fst].
    set (q1 := upd_tid i _ q).
    assert (tids_sub [] p q1) as H1.
    { eapply sub_trans; [done|]. apply sub_upd. intros t b _ Hb. left. by destruct (tx_pause r). }
    set (q2 := wlan_ralist_remove_from_pending_txq _ _).
    assert (tids_sub [] p q2) as H2.
    { eapply sub_eq; [|exact H1].
      destruct (complete_all_fields (buf_head r) MLAN_STATUS_FAILURE q1) as (C1 & _). exact C1. }
    eapply sub_trans; [done|]. apply sub_upd. intros t b _ Hb. left. by eapply drop_ralist_sub. }
  unfold move_tx_pkts. by case_match.
Qed.

Lemma clean_txrx_sub m p : tids_sub [] p (wlan_clean_txrx m p).2.
Proof.
  intros j t' Ht'. destruct (clean_txrx_fields m p) as (E & _). rewrite E in Ht'.
  rewrite list_lookup_fmap in Ht'. apply fmap_Some in Ht' as (t & Ht & ->).
  exists t. split; [done|]. cbn. intros b Hb. by apply elem_of_nil in Hb.
Qed.

Lemma drop_tx_pkts_sub i p : tids_sub [] p (wlan_drop_tx_pkts i p).2.
Proof.
  unfold wlan_drop_tx_pkts. generalize 8%nat as n. intros n. revert i.
  induction n as [|n IH]; intros i; [apply sub_refl|]. cbn [drop_loop]. cbv zeta.
  destruct (wlan_del_tx_pkts_in_ralist _ p) as [p'|] eqn:E; [|apply IH].
  unfold wlan_del_tx_pkts_in_ralist in E.
  apply bind_Some in E as (t & Ht & ([k r] & Hf & (m & Hm & [= <-])%bind_Some)%bind_Some).
  set (q := upd_tid _ _ _).
  assert (tids_sub [] p q) as Hs.
  { apply (sub_trans _ _ (set_num_drop_pkts (u32 (num_drop_pkts p + 1))
      (wlan_write_data_complete m MLAN_STATUS_FAILURE p))); [by apply sub_same|].
    eapply (sub_upd_list [] _ _ (r_addr r) (λ r, dec_total (set_buf_head (tail (buf_head r)) r))); [done|].
    intros t0. by destruct (tx_pause r). }
  by destruct (tx_pause r).
Qed.

Lemma hold_tdls_sub mac p : tids_sub [] p (wlan_hold_tdls_packets mac p).
Proof.
  unfold wlan_hold_tdls_packets. apply (foldl_inv (λ q, tids_sub [] p q)); [|apply sub_refl].
  intros q i Hq. unfold hold_tid. destruct (tids q !! i) as [t|]; [|done].
  destruct (ra_list t) as [|r l]; [done|]. eapply sub_trans; [done|].
  assert (∀ n buf q, tids_sub [] q (hold_loop mac n i (r_addr r) buf q)) as Hl; [|apply Hl].
  clear. induction n as [|n IH]; intros buf q; [apply sub_refl|]. cbn [hold_loop].
  destruct (take_packet mac buf) as [[m buf']|]; [|apply sub_refl].
  eapply sub_trans; [|apply IH].
  eapply sub_eq; [|apply (sub_upd_list [] q i (r_addr r) (λ r, dec_count (dec_total (set_buf_head buf' r))))]; done.
Qed.

Lemma restore_sub env mac st bss p p' : wlan_restore_tdls_packets env mac st bss p = Some p' →
  tids_sub (omap id (concat bss)) p p'.
Proof.
  unfold wlan_restore_tdls_packets. cbv zeta. generalize (length (tdls_pending_txq p)) as n. intros n.
  assert (∀ n bss p, tids_sub (omap id (concat bss)) p (restore_loop env mac st bss n p)) as Hl.
  { clear. induction n as [|n IH]; intros bss p; [apply sub_refl|]. cbn [restore_loop]. cbv zeta.
    destruct (take_packet _ _) as [[m q]|]; [|apply sub_refl].
    assert (concat bss = default [] (head bss) ++ concat (tail bss)) as Ec by (by destruct bss).
    eapply sub_trans; [|eapply sub_weaken; [|apply IH]; intros b Hb; rewrite Ec, omap_app; apply elem_of_app; by right].
    set (env' := set_blocks _ _). set (p0 := set_tdls_pending_txq q p).
    eapply (sub_weaken (omap id (blocks env'))).
    { intros b Hb. rewrite Ec, omap_app. apply elem_of_app. by left. }
    assert (∀ m i q o, tids_sub (omap id (blocks env')) p q → tids_sub (omap id (blocks env')) p
      (match o with None => wlan_write_data_complete m MLAN_STATUS_FAILURE q
       | Some r => raise_hint env' i (inc_tx_pkts (upd_tid i (λ t, inc_queued (upd_ralist (r_addr r) (ralist_append m) t)) q)) end)) as Hput.
    { intros m' i q' [r|] Hq; [|done]. eapply sub_trans; [done|].
      eapply sub_eq; [|apply (sub_upd_list _ q' i (r_addr r) (ralist_append m'))]; done. }
    unfold restore_packet. case_decide.
    - destruct (wlan_wmm_get_queue_raptr _ _ _ _) as [p1 o] eqn:E. apply Hput.
      pose proof (get_queue_raptr_sub env' (downgraded p0 (tx_priority m)) mac p0) as Hsub. rewrite E in Hsub. exact Hsub.
    - apply Hput. by apply sub_same. }
  specialize (Hl n bss p). set (q := restore_loop _ _ _ _ _ _) in *. clearbody q.
  case_decide; [by intros [= <-]|]. unfold wlan_wmm_delete_tdls_ralist.
  apply (for_tids_inv (λ q, tids_sub (omap id (concat bss)) p q)); [|done].
  intros i s s' _ Hs. unfold delete_tdls_tid.
  destruct (wlan_wmm_get_ralist_node s i mac) as [[[|k] r]|]; [done| |by intros [= <-]].
  intros (t & Ht & (ap & Hap & Hres)%bind_Some)%bind_Some. destruct (txq_linked _ _); [done|]. injection Hres as <-.
  eapply sub_trans; [done|]. intros j t' Ht'. cbn in Ht'.
  apply list_lookup_insert_Some in Ht' as [(<- & <- & _)| [_ Ht'] ]; [|by exists t'; auto].
  exists t. split; [done|]. intros b Hb%drop_ralist_sub. left.
  rewrite addrs_upd in Hb; [done|]. intros x. apply append_packets_spec.
Qed.

Lemma ralist_update_sub env old_ra new_ra p : tids_sub [] p (wlan_ralist_update env old_ra new_ra p).1.
Proof.
  unfold wlan_ralist_update. apply (foldl_inv (λ s, tids_sub [] p s.1)); [|apply sub_refl].
  intros s i Hs. unfold update_tid. destruct (wlan_wmm_get_ralist_node _ _ _) as [[k r]|]; [|done].
  cbn [fst]. eapply sub_trans; [done|].
  apply (sub_upd_list [] s.1 i (r_addr r) (ralist_renew s.1 env new_ra)); [|done].
  intros x. apply ralist_renew_fields.
Qed.
