(* ===== verification/WmmRun.v ===== *)
(** * Transmit queues: any interleaving

    The operations of WmmTbl as the steps of an interface, in any order: the main
    process sends in two steps (the lock is free between them), while other threads
    queue, pause, delete, drop and reconfigure.  [queues_accounted] is the
    invariant of every state they can reach, under the callers' conditions
    [op_ok]; the last theorems show that each condition is needed. *)

From S2P Require Import Prelude UtilScalar RxReorder RxTable Amsdu WmmPrio WmmTbl WmmInv WmmFlow.
#[local] Open Scope Z_scope.

(** The packet between the two halves of a send. *)
Record flight := mk_flight { f_processed : bool; f_addr : Z; f_tid : nat; f_pkt : tx_mbuf }.

(** An interface, the packet in the air, the static index of [wlan_drop_tx_pkts],
    the packets the bus has taken over and (for the proofs) those ever accepted. *)
Record wmm_state := mk_wmm {
  w_priv : wmm_priv; w_air : option flight; w_drop : nat;
  w_handed : list tx_mbuf; w_accepted : list tx_mbuf
}.
Definition on_priv (f : wmm_priv → wmm_priv) (s : wmm_state) : wmm_state :=
  mk_wmm (f (w_priv s)) (w_air s) (w_drop s) (w_handed s) (w_accepted s).
Definition set_priv (p : wmm_priv) (s : wmm_state) : wmm_state := on_priv (λ _, p) s.

Inductive wmm_op :=
| RalistAdd (env : wmm_env) (mac : list Z)
| AddBuf (env : wmm_env) (m : tx_mbuf)
| PauseRa (mac : list Z) (pause : bool)
| PauseNonTdls (mac : list Z) (pause : bool)
| DeletePeer (mac : list Z)
| CleanTxRx (m : tid_maps)
| DropTxPkts
| HoldTdls (mac : list Z)
| RestoreTdls (env : wmm_env) (mac : list Z) (st : tdlsStatus_e) (bss : list (list (option Z)))
| RalistUpdate (env : wmm_env) (old_ra new_ra : list Z)
| AcDowngrade
| QueuePriorities (ie : option (list WmmAcParameters)) (m : tid_maps)
| SendBegin (txpd_size : Z) (a : Z) (i : nat)
| SendEnd (st : mlan_status).

(** The second half, by the kind of packet; whether the interface keeps it. *)
Definition send_end (fl : flight) (st : mlan_status) (p : wmm_priv) : wmm_priv :=
  (if f_processed fl then send_processed_end else send_single_end) (f_addr fl) (f_tid fl) (f_pkt fl) st p.
Definition kept (fl : flight) (st : mlan_status) : bool :=
  (if f_processed fl then processed_kept else single_kept) st.

Definition wmm_exec (op : wmm_op) (s : wmm_state) : option wmm_state :=
  match op with
  | RalistAdd env mac => Some (on_priv (wlan_ralist_add env mac) s)
  | AddBuf env m =>
      Some (mk_wmm (wlan_wmm_add_buf_txqueue env m (w_priv s)) (w_air s) (w_drop s) (w_handed s) (w_accepted s ++ [m]))
  | PauseRa mac pause =>
      '(p, _) ← wlan_update_ralist_tx_pause mac pause (w_priv s); Some (set_priv p s)
  | PauseNonTdls mac pause => Some (on_priv (wlan_update_non_tdls_ralist mac pause) s)
  | DeletePeer mac => Some (on_priv (wlan_wmm_delete_peer_ralist mac) s)
  | CleanTxRx m => Some (on_priv (λ p, (wlan_clean_txrx m p).2) s)
  | DropTxPkts =>
      let '(i, p) := wlan_drop_tx_pkts (w_drop s) (w_priv s) in
      Some (mk_wmm p (w_air s) i (w_handed s) (w_accepted s))
  | HoldTdls mac => Some (on_priv (wlan_hold_tdls_packets mac) s)
  | RestoreTdls env mac st bss =>
      p ← wlan_restore_tdls_packets env mac st bss (w_priv s); Some (set_priv p s)
  | RalistUpdate env old_ra new_ra => Some (on_priv (λ p, (wlan_ralist_update env old_ra new_ra p).1) s)
  | AcDowngrade => Some (on_priv (λ p, set_prio (wlan_wmm_setup_ac_downgrade (prio p)) p) s)
  | QueuePriorities ie m =>
      Some (on_priv (λ p, set_prio (wlan_wmm_setup_queue_priorities ie m (prio p)).2 p) s)
  | SendBegin txpd a i =>
      match w_air s with
      | Some _ => None
      | None =>
          let processed := wlan_is_ptr_processed (w_priv s) a i in
          '(p, m, _) ← (if processed then send_processed_begin else send_single_begin) txpd a i (w_priv s);
          Some (mk_wmm p (Some (mk_flight processed a i m)) (w_drop s) (w_handed s) (w_accepted s))
      end
  | SendEnd st =>
      fl ← w_air s;
      Some (mk_wmm (send_end fl st (w_priv s)) None (w_drop s)
        (if kept fl st then w_handed s else w_handed s ++ [f_pkt fl]) (w_accepted s))
  end.

(** The list whose count still includes the packet in the air. *)
Definition air_pa (o : option flight) : option Z :=
  match o with Some fl => if f_processed fl then Some (f_addr fl) else None | None => None end.

(** What the callers see to: room for 16-bit counts, new addresses from the
    allocator, the conditions of the TDLS calls and of the end of a send. *)
Definition op_ok (op : wmm_op) (s : wmm_state) : Prop :=
  let p := w_priv s in let pa := air_pa (w_air s) in
  match op with
  | RalistAdd env _ => fresh_blocks pa (blocks env) p
  | AddBuf env _ => fresh_blocks pa (blocks env) p ∧ p_held pa p < WMM_CAP
  | CleanTxRx _ => bss_role p = MLAN_BSS_ROLE_STA ∨ tdls_pending_txq p = []
  | HoldTdls _ => heads_unpaused p
  | RestoreTdls _ mac _ bss =>
      pa = None ∧ queuing_ra_based p = false ∧ unpaused_targets mac p ∧ fresh_blocks None (concat bss) p ∧
      p_held None p + Z.of_nat (length (tdls_pending_txq p)) <= WMM_CAP
  | RalistUpdate _ old_ra _ => peer_unpaused old_ra p
  | SendBegin _ a i => unpaused_at p a i
  | SendEnd st =>
      match w_air s with
      | Some (mk_flight false a i _) => st = MLAN_STATUS_RESOURCE → unpaused_at p a i ∧ p_held None p < WMM_CAP
      | Some (mk_flight true a i _) =>
          st ≠ MLAN_STATUS_RESOURCE → wlan_is_ralist_valid p a i = true ∧ unpaused_at p a i
      | None => True
      end
  | _ => True
  end.

Definition air_keys (o : option flight) : list (list Z * Z) :=
  match o with Some fl => [pkt_key (f_pkt fl)] | None => [] end.

Record wmm_inv (s : wmm_state) : Prop := {
  wi_wf : wmm_wf (air_pa (w_air s)) (w_priv s);
  wi_only : ∀ fl, w_air s = Some fl → f_processed fl = true → only_at (w_priv s) (f_addr fl) (f_tid fl);
  wi_pkts : pkts (w_priv s) ++ air_keys (w_air s) ++ (pkt_key <$> w_handed s) ≡ₚ pkt_key <$> w_accepted s
}.

(** New lists never take the address of the list of the packet in the air. *)
Lemma only_sub bs p' s : (∀ fl, w_air s = Some fl → f_processed fl = true → only_at (w_priv s) (f_addr fl) (f_tid fl)) →
  fresh_blocks (air_pa (w_air s)) bs (w_priv s) → tids_sub (omap id bs) (w_priv s) p' →
  ∀ fl, w_air s = Some fl → f_processed fl = true → only_at p' (f_addr fl) (f_tid fl).
Proof.
  intros H2 [_ Hf] Hs fl Hfl Hpr j t r Hj Hr Ha. destruct (Hs j t Hj) as (t0 & Ht0 & Hb).
  destruct (Hb (r_addr r)) as [Hin|Hin]; [by apply list_elem_of_fmap_2| |].
  - apply list_elem_of_fmap in Hin as (r0 & E & Hr0). eapply (H2 fl Hfl Hpr j t0 r0); [done|done|congruence].
  - exfalso. apply list_elem_of_omap in Hin as ([x|] & Hx & Ex); [|done]. cbn in Ex. injection Ex as ->.
    destruct (Hf _ Hx) as [_ Hne]. apply Hne. unfold air_pa. by rewrite Hfl, Hpr, Ha.
Qed.
Lemma fresh_nil pa p : fresh_blocks pa [] p.
Proof. split; [constructor|]. by intros a Ha%elem_of_nil. Qed.

(** An operation that leaves the packet in the air alone. *)
Lemma inv_on_priv p' s : wmm_inv s → wmm_wf (air_pa (w_air s)) p' → pkts p' ≡ₚ pkts (w_priv s) →
  tids_sub [] (w_priv s) p' → wmm_inv (set_priv p' s).
Proof.
  intros [H1 H2 H3] Hw Hp Hs. constructor; [done| |by cbn; rewrite Hp].
  apply (only_sub [] p' s); [done|apply fresh_nil|done].
Qed.

Lemma inv_add env m s : wmm_inv s → op_ok (AddBuf env m) s →
  wmm_inv (mk_wmm (wlan_wmm_add_buf_txqueue env m (w_priv s)) (w_air s) (w_drop s) (w_handed s) (w_accepted s ++ [m])).
Proof.
  intros [H1 H2 H3] [Hf Hroom]. constructor; cbn [w_priv w_air w_handed w_accepted].
  - by apply add_buf_wf.
  - apply (only_sub (blocks env) _ s); [done|done|apply add_buf_sub].
  - rewrite (add_buf_pkts (air_pa (w_air s))) by done. rewrite fmap_app, <- H3. cbn. solve_Permutation.
Qed.

Lemma inv_ralist_add env mac s : wmm_inv s → op_ok (RalistAdd env mac) s →
  wmm_inv (set_priv (wlan_ralist_add env mac (w_priv s)) s).
Proof.
  intros [H1 H2 H3] Hf. cbn [op_ok] in Hf.
  assert (Forall (λ i, (i < 8)%nat) all_tids) as Hall by (repeat constructor; lia).
  constructor; cbn [w_priv set_priv on_priv w_air w_handed w_accepted]; unfold wlan_ralist_add.
  - by apply ralist_add_loop_wf.
  - apply (only_sub (blocks env) _ s); [done|done|apply ralist_add_loop_sub].
  - by rewrite (ralist_add_loop_pkts (air_pa (w_air s))).
Qed.

Lemma inv_begin txpd a i s s' : wmm_inv s → op_ok (SendBegin txpd a i) s →
  wmm_exec (SendBegin txpd a i) s = Some s' → wmm_inv s'.
Proof.
  intros [H1 H2 H3] Hok. cbn [wmm_exec]. destruct (w_air s) as [fl|] eqn:Ea; [done|].
  intros ([[p' m] n] & Hb & [= <-])%bind_Some.
  assert (pkts (w_priv s) ≡ₚ pkt_key m :: pkts p') as Hp.
  { eapply begin_pkts; [apply (wf_addrs _ _ H1)|]. destruct (wlan_is_ptr_processed _ _ _); eauto. }
  cbn in H1, Hok. constructor; cbn.
  - unfold air_pa. cbn. destruct (wlan_is_ptr_processed (w_priv s) a i).
    + by eapply send_processed_begin_wf.
    + eapply send_single_begin_wf; done.
  - intros fl [= <-] Hpr. cbn in *. rewrite Hpr in Hb.
    apply bind_Some in Hb as ([m' q] & Hd & [= <- <- <-]).
    apply dequeue_ralist_Some in Hd as (t & r & Ht & _ & Hr & <- & Eb).
    intros j t' r' Hj Hr' Ha. rewrite (upd_tid_insert _ i _ t) in Hj by done. cbn in Hj.
    apply list_lookup_insert_Some in Hj as [(<- & _ & _)| [_ Hj] ]; [done|].
    by destruct (addr_unique (w_priv s) j i t' t r' r (wf_addrs _ _ H1) Hj Ht Hr' Hr Ha).
  - rewrite <- H3, Hp. cbn. solve_Permutation.
Qed.

Lemma inv_end st s s' : wmm_inv s → op_ok (SendEnd st) s → wmm_exec (SendEnd st) s = Some s' → wmm_inv s'.
Proof.
  intros [H1 H2 H3] Hok. cbn [wmm_exec]. intros (fl & Ea & [= <-])%bind_Some.
  unfold op_ok in Hok. rewrite Ea in *. destruct fl as [pr a i m]. cbn in H1, H3.
  assert (NoDup (all_addrs (w_priv s))) as Hnd by apply (wf_addrs _ _ H1).
  constructor; [|done|].
  - cbn. unfold send_end. destruct pr; cbn.
    + destruct (decide (st = MLAN_STATUS_RESOURCE)) as [->|Hne].
      * apply send_processed_back_wf; [done|]. by apply (H2 (mk_flight true a i m)).
      * destruct (Hok Hne). by apply send_processed_out_wf.
    + destruct (decide (st = MLAN_STATUS_RESOURCE)) as [->|Hne].
      * destruct (Hok eq_refl). by apply send_single_end_wf.
      * unfold send_single_end. rewrite decide_False by done.
        destruct (wlan_is_ralist_valid (w_priv s) a i) eqn:E; [|done].
        apply is_ralist_valid_spec in E as (t & r & Ht & Hr & <-). rewrite (upd_tid_insert _ i _ t) by done.
        apply mark_sent_wf; [done|done|]. by apply list_elem_of_fmap_2.
  - cbn. unfold send_end, kept. cbn. rewrite <- H3. destruct pr.
    + rewrite send_processed_end_pkts by done. destruct (processed_kept st); rewrite ?fmap_app; cbn; solve_Permutation.
    + rewrite send_single_end_pkts by done. destruct (single_kept st); rewrite ?fmap_app; cbn; solve_Permutation.
Qed.

Lemma inv_restore env mac st bss s s' : wmm_inv s → op_ok (RestoreTdls env mac st bss) s →
  wmm_exec (RestoreTdls env mac st bss) s = Some s' → wmm_inv s'.
Proof.
  intros [H1 H2 H3] (Hpa & Hq & Hu & Hf & Hroom). cbn [wmm_exec]. intros (p' & Hp' & [= <-])%bind_Some.
  constructor; cbn.
  - rewrite Hpa in *. by eapply restore_tdls_wf.
  - intros fl Hfl Hpr. unfold air_pa in Hpa. by rewrite Hfl, Hpr in Hpa.
  - rewrite Hpa in H1. by rewrite (restore_tdls_pkts None env mac st bss _ _ H1 Hq Hu Hf Hroom Hp').
Qed.

(** Every operation keeps the invariant. *)
Lemma wmm_exec_inv op s s' : wmm_inv s → op_ok op s → wmm_exec op s = Some s' → wmm_inv s'.
Proof.
  intros Hi Hok He. pose proof Hi as [H1 H2 H3].
  assert (NoDup (all_addrs (w_priv s))) as Hnd by apply (wf_addrs _ _ H1).
  destruct op.
  - cbn [wmm_exec] in He; apply (inj Some) in He; subst s'. by apply inv_ralist_add.
  - cbn [wmm_exec] in He; apply (inj Some) in He; subst s'. by apply inv_add.
  - apply bind_Some in He as ([p' n] & Hp & [= <-]). apply inv_on_priv; [done|..].
    + by eapply update_tx_pause_wf. + by eapply update_tx_pause_pkts. + by eapply pause_sub.
  - cbn [wmm_exec] in He; apply (inj Some) in He; subst s'. apply (inv_on_priv (wlan_update_non_tdls_ralist mac pause (w_priv s))); [done|..].
    + by apply update_non_tdls_wf. + by eapply update_non_tdls_pkts. + apply non_tdls_sub.
  - cbn [wmm_exec] in He; apply (inj Some) in He; subst s'. apply (inv_on_priv (wlan_wmm_delete_peer_ralist mac (w_priv s))); [done|..].
    + by apply delete_peer_wf. + by eapply delete_peer_pkts. + apply delete_peer_sub.
  - cbn [wmm_exec] in He; apply (inj Some) in He; subst s'. apply (inv_on_priv (wlan_clean_txrx m (w_priv s)).2); [done|..].
    + by apply clean_txrx_wf. + by apply clean_txrx_pkts. + apply clean_txrx_sub.
  - cbn [wmm_exec] in He. pose proof (drop_tx_pkts_wf _ (w_drop s) _ H1) as D1.
    pose proof (drop_tx_pkts_pkts (w_drop s) _ Hnd) as D2. pose proof (drop_tx_pkts_sub (w_drop s) (w_priv s)) as D3.
    destruct (wlan_drop_tx_pkts (w_drop s) (w_priv s)) as [i p']. cbn [wmm_exec] in He; apply (inj Some) in He; subst s'.
    by destruct (inv_on_priv p' s Hi D1 D2 D3).
  - cbn [wmm_exec] in He; apply (inj Some) in He; subst s'. apply (inv_on_priv (wlan_hold_tdls_packets mac (w_priv s))); [done|..].
    + by apply hold_tdls_wf. + by apply hold_tdls_pkts. + apply hold_tdls_sub.
  - exact (inv_restore _ _ _ _ _ _ Hi Hok He).
  - cbn [wmm_exec] in He; apply (inj Some) in He; subst s'. apply (inv_on_priv (wlan_ralist_update env old_ra new_ra (w_priv s)).1); [done|..].
    + by apply ralist_update_wf. + by apply ralist_update_pkts. + apply ralist_update_sub.
  - cbn [wmm_exec] in He; apply (inj Some) in He; subst s'. apply (inv_on_priv (set_prio (wlan_wmm_setup_ac_downgrade (prio (w_priv s))) (w_priv s))); [done|..].
    + by apply setup_ac_downgrade_wf. + done. + by apply sub_same.
  - cbn [wmm_exec] in He; apply (inj Some) in He; subst s'. apply (inv_on_priv (set_prio (wlan_wmm_setup_queue_priorities ie m (prio (w_priv s))).2 (w_priv s))); [done|..].
    + by apply setup_queue_priorities_wf. + done. + by apply sub_same.
  - exact (inv_begin _ _ _ _ _ Hi Hok He).
  - exact (inv_end _ _ _ Hi Hok He).
Qed.

(** ** Reachable states *)

(** An interface with no RA lists and nothing queued, as [wlan_init_priv] leaves
    it. *)
Record wmm_fresh (p : wmm_priv) : Prop := {
  fr_tids : tids p = replicate 8 (mk_tid [] CurNull 0 0 0);
  fr_tx : value (tx_pkts_queued p) = 0;
  fr_down : downgrade_ok (prio p);
  fr_txq : pending_txq p = [[]; []; []; []];
  fr_tdls : tdls_pending_txq p = [];
  fr_done : completed p = []
}.

Inductive wmm_reach : wmm_state → Prop :=
| reach_fresh p i : wmm_fresh p → wmm_reach (mk_wmm p None i [] [])
| reach_step op s s' : wmm_reach s → op_ok op s → wmm_exec op s = Some s' → wmm_reach s'.

Lemma fresh_inv p i : wmm_fresh p → wmm_inv (mk_wmm p None i [] []).
Proof.
  intros [H1 H2 H3 H4 H5 H6]. constructor; cbn.
  - constructor; try done.
    + by rewrite H1.
    + rewrite H1. apply Forall_replicate. by constructor.
    + unfold all_addrs. rewrite H1. constructor.
    + by rewrite H1, H2.
    + unfold p_held. rewrite H1. by vm_compute.
    + by rewrite H4.
    + rewrite H4. constructor.
    + rewrite H4. intros a Ha. by apply elem_of_nil in Ha.
  - done.
  - unfold pkts, live, queued. by rewrite H1, H5, H6.
Qed.

Lemma reach_inv s : wmm_reach s → wmm_inv s.
Proof. induction 1; [by apply fresh_inv|by eapply wmm_exec_inv]. Qed.

(** A list the scheduler may take from. *)
Definition ready (r : raListTbl) : bool :=
  negb (tx_pause r) && match buf_head r with [] => false | _ => true end.

Lemma ready_held r :
  0 <= held None r - held_paused None r ∧ (held None r - held_paused None r = 0 ↔ ready r = false).
Proof.
  pose proof (held_paused_le None r). split; [lia|]. unfold held_paused, ready. rewrite held_none.
  destruct (tx_pause r), (buf_head r); cbn; split; try done; lia.
Qed.

Lemma avail_zero p : wmm_wf None p →
  (value (tx_pkts_queued p) = 0 ↔ ∀ i t r, tids p !! i = Some t → r ∈ ra_list t → ready r = false).
Proof.
  intros Hw. rewrite (wf_tx _ _ Hw). unfold t_avail, t_held, t_paused. pose proof ready_held as Hr.
  assert (∀ t, 0 <= zsum (held None) (ra_list t) - zsum (held_paused None) (ra_list t)) as Ht.
  { intros t. rewrite <- zsum_sub. apply zsum_nonneg. intros r. apply Hr. }
  split.
  - intros Hz i t r Hi Hin. apply Hr.
    pose proof (zsum_elem (λ t, zsum (held None) (ra_list t) - zsum (held_paused None) (ra_list t)) (tids p) t Ht
      ltac:(by eapply list_elem_of_lookup_2)) as H1. cbn in H1. rewrite <- zsum_sub in H1.
    pose proof (zsum_elem (λ r, held None r - held_paused None r) (ra_list t) r (λ r, proj1 (Hr r)) Hin) as H2.
    cbn in H2. pose proof (proj1 (Hr r)). lia.
  - intros Hn. apply zsum_zero, Forall_forall. intros t Hin. rewrite <- zsum_sub.
    apply zsum_zero, Forall_forall. intros r Hr'. apply Hr.
    apply list_elem_of_lookup in Hin as [i Hi]. by eapply Hn.
Qed.

(** C9: The transmit queues are accounted for.  The states meant are those that
    queueing, the two halves of a send, pausing, dropping, deleting, direct-link moves
    and reconfiguration reach in any order in which each finds what [op_ok] asks: the
    list of the packet in the air exists and is not paused when its send ends badly
    and the packet returns to it, or when it goes on in two steps; a peer that is
    reassociated has no paused list; direct-link packets are taken from lists that are
    not paused, and put back with nothing in the air, per receiver, to lists that are
    not paused; a new list has a new address; an access point that cleans up holds no
    direct-link packets; and the counters have room (65535).  The code does not ensure
    the first four ([deauth_during_send_underflows], [pause_during_send_drifts],
    [reassociation_strands_packets], [tdls_hold_underflows] reach states without them
    and break the counters).  In every state meant the counters of an interface are
    exactly the sums of the packets its lists answer for, nothing wraps, [pending_txq]
    and the current lists name lists that exist; every packet accepted is in exactly one
    place (queued, held for a direct link, in the air, completed or handed to the bus);
    and with no packet in the air [tx_pkts_queued] is zero exactly when no list that may
    send has a packet. *)
Theorem queues_accounted s : wmm_reach s →
  wmm_wf (air_pa (w_air s)) (w_priv s) ∧
  pkts (w_priv s) ++ air_keys (w_air s) ++ (pkt_key <$> w_handed s) ≡ₚ pkt_key <$> w_accepted s ∧
  (w_air s = None →
   (value (tx_pkts_queued (w_priv s)) = 0 ↔
    ∀ i t r, tids (w_priv s) !! i = Some t → r ∈ ra_list t → ready r = false)).
Proof.
  intros Hr. destruct (reach_inv s Hr) as [H1 _ H3]. split; [done|]. split; [done|].
  intros Ha. apply avail_zero. by rewrite Ha in H1.
Qed.

(** ** A run *)

Definition demo_ba : RxTable.mlan_adapter :=
  RxTable.mk_adapter (mk_cfg 100 50) false 0 16 false false 0.
Definition demo_mac : list Z := [2; 0; 0; 0; 0; 1].
Definition demo_pkt (k : Z) (pr : Z) : tx_mbuf := mk_txmbuf (demo_mac ++ [2; 0; 0; 0; 0; 9; 8; 0; k]) pr 0 [].
(** Addresses for the eight lists of one receiver. *)
Definition demo_env (base : Z) : wmm_env :=
  mk_env default_maps demo_ba ((λ i, Some (base + i)) <$> seqZ 0 8) 0 0.
Definition demo_priv : wmm_priv :=
  mk_priv MLAN_BSS_ROLE_UAP MLAN_BSS_MODE_INFRA MLAN_BSS_TYPE_UAP true false true false true false true false 0
    [mk_sta demo_mac true true false 3839 TDLS_NOT_SETUP false 0 0]
    (mk_prio true [3; 2; 1; 0] (replicate 4 (mk_ac_status false false false)) [0; 1; 2; 3] (mk_scalar 7 0 0))
    (replicate 8 (mk_tid [] CurNull 0 0 0)) [[]; []; []; []] (mk_scalar 0 0 0) [] 0 [].
Definition demo_start : wmm_state := mk_wmm demo_priv None 0 [] [].

Fixpoint wmm_run (ops : list wmm_op) (s : wmm_state) : option wmm_state :=
  match ops with [] => Some s | op :: ops => s ← wmm_exec op s; wmm_run ops s end.

Lemma fresh_dec pa bs p :
  bool_decide (NoDup (omap id bs)) &&
  forallb (λ o, match o with
    | Some a => negb (bool_decide (a ∈ all_addrs p)) && negb (bool_decide (pa = Some a)) | None => true end) bs = true →
  fresh_blocks pa bs p.
Proof.
  rewrite andb_true_iff, bool_decide_eq_true, forallb_forall. intros [H1 H2]. split; [done|].
  intros a Ha. specialize (H2 (Some a)). rewrite <- list_elem_of_In in H2. specialize (H2 Ha). cbn in H2.
  rewrite andb_true_iff, !negb_true_iff, !bool_decide_eq_false in H2. done.
Qed.
Lemma unpaused_dec p a i :
  match tids p !! i with
  | Some t => forallb (λ r, negb (bool_decide (r_addr r = a)) || negb (tx_pause r)) (ra_list t) | None => true end = true →
  unpaused_at p a i.
Proof.
  intros H t r Ht Hr Ha. rewrite Ht, forallb_forall in H. specialize (H r).
  rewrite <- list_elem_of_In in H. specialize (H Hr). rewrite bool_decide_true in H by done. cbn in H.
  by apply negb_true_iff.
Qed.

Definition next_state (op : wmm_op) (s : wmm_state) : wmm_state := default s (wmm_exec op s).
Definition demo_1 : wmm_state := Eval vm_compute in next_state (AddBuf (demo_env 100) (demo_pkt 1 5)) demo_start.
Definition demo_2 : wmm_state := Eval vm_compute in next_state (AddBuf (demo_env 200) (demo_pkt 2 5)) demo_1.
Definition demo_3 : wmm_state := Eval vm_compute in next_state (PauseRa demo_mac true) demo_2.
Definition demo_4 : wmm_state := Eval vm_compute in next_state (PauseRa demo_mac false) demo_3.
Definition demo_5 : wmm_state := Eval vm_compute in next_state (SendBegin 0 105 5) demo_4.
Definition demo_6 : wmm_state := Eval vm_compute in next_state (SendEnd MLAN_STATUS_RESOURCE) demo_5.
Definition demo_7 : wmm_state := Eval vm_compute in next_state (SendBegin 0 105 5) demo_6.
Definition demo_8 : wmm_state := Eval vm_compute in next_state (SendEnd MLAN_STATUS_SUCCESS) demo_7.

Lemma demo_reach_0 : wmm_reach demo_start.
Proof.
  apply reach_fresh. constructor; try done. split; [done|].
  intros ac Hac. assert (ac = 0 ∨ ac = 1 ∨ ac = 2 ∨ ac = 3) as Hc by lia. by destruct_or! Hc; subst ac.
Qed.

Lemma demo_reach_5 : wmm_reach demo_5.
Proof.
  apply (reach_step (SendBegin 0 105 5) demo_4); [|by apply unpaused_dec|vm_compute; reflexivity].
  apply (reach_step (PauseRa demo_mac false) demo_3); [|done|vm_compute; reflexivity].
  apply (reach_step (PauseRa demo_mac true) demo_2); [|done|vm_compute; reflexivity].
  apply (reach_step (AddBuf (demo_env 200) (demo_pkt 2 5)) demo_1);
    [|split; [by apply fresh_dec|by vm_compute]|vm_compute; reflexivity].
  apply (reach_step (AddBuf (demo_env 100) (demo_pkt 1 5)) demo_start);
    [|split; [by apply fresh_dec|by vm_compute]|vm_compute; reflexivity].
  exact demo_reach_0.
Qed.

Lemma demo_reach_8 : wmm_reach demo_8.
Proof.
  apply (reach_step (SendEnd MLAN_STATUS_SUCCESS) demo_7);
    [|intros _; split; [vm_compute; reflexivity|by apply unpaused_dec]|vm_compute; reflexivity].
  apply (reach_step (SendBegin 0 105 5) demo_6); [|by apply unpaused_dec|vm_compute; reflexivity].
  apply (reach_step (SendEnd MLAN_STATUS_RESOURCE) demo_5);
    [apply demo_reach_5|intros _; split; [by apply unpaused_dec|by vm_compute]|vm_compute; reflexivity].
Qed.

(** Two packets queued, the receiver paused and resumed, the first packet refused
    by a busy bus and then sent. *)
Lemma queues_accounted_witness : wmm_wf None (w_priv demo_8) ∧ value (tx_pkts_queued (w_priv demo_8)) = 1 ∧
  (completed (w_priv demo_8)).*2 = [MLAN_STATUS_SUCCESS].
Proof.
  split; [exact (proj1 (queues_accounted demo_8 demo_reach_8))|]. split; vm_compute; reflexivity.
Defined.

(** ** Where a condition fails *)

Definition counters (s : wmm_state) : Z * list (Z * Z) :=
  (value (tx_pkts_queued (w_priv s)), (λ t, (pkts_queued t, pkts_paused t)) <$> tids (w_priv s)).

(** A station is deauthenticated by a user's ioctl while the main process hands a
    requeued packet of it to the bus: the counters are decremented although the
    deletion had already taken the packet out of them.  [tx_pkts_queued] is -1
    with every list gone, so the interface never counts as empty again. *)
Theorem deauth_during_send_underflows :
  counters <$> wmm_run [AddBuf (demo_env 100) (demo_pkt 1 5); SendBegin 0 105 5; SendEnd MLAN_STATUS_RESOURCE;
    SendBegin 0 105 5; DeletePeer demo_mac; SendEnd MLAN_STATUS_SUCCESS] demo_start =
  Some (-1, [(0, 0); (0, 0); (0, 0); (0, 0); (0, 0); (2 ^ 32 - 1, 0); (0, 0); (0, 0)]).
Proof. vm_compute. reflexivity. Qed.

(** A receiver paused while its packet is on the bus, which refuses it: the packet
    returns to a paused list but counts as one that may be sent; resuming the
    receiver counts it twice. *)
Theorem pause_during_send_drifts :
  counters <$> wmm_run [AddBuf (demo_env 100) (demo_pkt 1 5); SendBegin 0 105 5; PauseRa demo_mac true;
    SendEnd MLAN_STATUS_RESOURCE; PauseRa demo_mac false] demo_start =
  Some (2, [(0, 0); (0, 0); (0, 0); (0, 0); (0, 0); (1, 2 ^ 32 - 1); (0, 0); (0, 0)]).
Proof. vm_compute. reflexivity. Qed.

(** Reassociating while the list of the access point is paused clears its pause
    flag but leaves the counts: the packet waits in a list that may send, and the
    interface counts as empty. *)
Definition ap_mac : list Z := [4; 0; 0; 0; 0; 7].
Definition demo_sta (peers : list sta_node) : wmm_state :=
  mk_wmm (mk_priv MLAN_BSS_ROLE_STA MLAN_BSS_MODE_INFRA MLAN_BSS_TYPE_STA true false true false true false true true 3839
    peers (prio demo_priv) (tids demo_priv) (pending_txq demo_priv) (mk_scalar 0 0 0) [] 0 []) None 0 [] [].

Theorem reassociation_strands_packets :
  ∃ s, wmm_run [RalistAdd (demo_env 100) ap_mac; AddBuf (demo_env 0) (demo_pkt 1 5); PauseRa ap_mac true;
    RalistUpdate (demo_env 0) ap_mac [4; 0; 0; 0; 0; 8]] (demo_sta []) = Some s ∧
  value (tx_pkts_queued (w_priv s)) = 0 ∧
  ∃ t r, tids (w_priv s) !! 5%nat = Some t ∧ ra_list t = [r] ∧ ready r = true.
Proof. eexists. split; [vm_compute; reflexivity|]. split; [reflexivity|]. do 2 eexists. split_and!; reflexivity. Qed.

(** Holding back packets for a direct link while the access point is paused takes
    them out of [tx_pkts_queued], which did not count them. *)
Theorem tdls_hold_underflows :
  counters <$> wmm_run [RalistAdd (demo_env 100) ap_mac; AddBuf (demo_env 0) (demo_pkt 1 5); PauseRa ap_mac true;
    HoldTdls demo_mac] (demo_sta []) =
  Some (-1, [(0, 0); (0, 0); (0, 0); (0, 0); (0, 0); (0, 1); (0, 0); (0, 0)]).
Proof. vm_compute. reflexivity. Qed.

Definition tdls_peer : sta_node := mk_sta demo_mac true true false 3839 TDLS_SETUP_COMPLETE false 0 0.

(** The lists of a direct link that was paused and resumed are linked in
    [pending_txq]; tearing the link down frees them without unlinking them. *)
Theorem tdls_teardown_frees_linked_list :
  let ops := [RalistAdd (demo_env 100) ap_mac; AddBuf (demo_env 200) (demo_pkt 1 5); PauseRa demo_mac true;
              PauseRa demo_mac false] in
  ∃ s, wmm_run ops (demo_sta [tdls_peer]) = Some s ∧ concat (pending_txq (w_priv s)) ≠ [] ∧
  wmm_exec (RestoreTdls (demo_env 0) demo_mac TDLS_TEAR_DOWN []) s = None.
Proof. eexists. split; [vm_compute; reflexivity|]. split; [done|vm_compute; reflexivity]. Qed.

(** [wlan_update_non_tdls_ralist] pauses the access point's lists without
    unlinking them; the next resume links them into [pending_txq] a second time. *)
Theorem channel_switch_resume_links_twice :
  let ops := [RalistAdd (demo_env 100) ap_mac; PauseRa ap_mac true; PauseRa ap_mac false; PauseNonTdls demo_mac true] in
  ∃ s, wmm_run ops (demo_sta [tdls_peer]) = Some s ∧ wmm_exec (PauseRa ap_mac false) s = None.
Proof. eexists. split; [vm_compute; reflexivity|]. vm_compute. reflexivity. Qed.

