(* ===== verification/WmmPick.v ===== *)
(** * mlan_wmm.c: which packet goes next

    [wlan_wmm_get_highest_priolist_ptr] walks the BSS tables from the highest
    priority, the interfaces of a table in a ring, the TIDs of an interface by
    rank from [highest_queued_prio] down, and the RA lists of a TID in a ring
    behind the one served last.  A ring is a list and a position; the position
    after the last one is the list head.  [None] is an access through a pointer
    that is null or dangling.  (On USB cards a busy port skips an interface too;
    other cards have no such test.) *)

From S2P Require Import Prelude UtilScalar RxReorder RxTable Amsdu WmmPrio WmmTbl WmmInv WmmFlow WmmRun.
#[local] Open Scope Z_scope.

(** ** The RA lists of a TID *)

(** The next list after the one at position [i] of [n], past the head. *)
Definition ring_next (n i : nat) : nat := if decide (S i = n) then 0%nat else S i.

(** The do-while loop over a ring, from [ptr] until it is back at [head]. *)
Fixpoint ring_walk {A} (ok : A → bool) (l : list A) (fuel : nat) (head ptr : nat) : option A :=
  match fuel with
  | O => None
  | S fuel =>
      match l !! ptr with
      | None => None
      | Some x =>
          if ok x then Some x
          else let ptr := ring_next (length l) ptr in
               if decide (ptr = head) then None else ring_walk ok l fuel head ptr
      end
  end.

(** The first list to look at: behind [ra_list_curr]. *)
Definition ring_start (t : wmm_tid) : option nat :=
  match ra_list_curr t with
  | CurNull => None
  | CurHead => Some 0%nat
  | CurAt a => '(i, _) ← list_find (λ r, r_addr r = a) (ra_list t); Some (ring_next (length (ra_list t)) i)
  end.

Definition pick_ralist (t : wmm_tid) : option (option raListTbl) :=
  match ra_list t with
  | [] => Some None
  | l => s ← ring_start t; Some (ring_walk ready l (length l) s s)
  end.

(** ** The TIDs of an interface *)

(** The loop over the ranks below [n]: rank, TID and list. *)
Fixpoint pick_rank (m : tid_maps) (p : wmm_priv) (n : nat) : option (option (Z * nat * raListTbl)) :=
  match n with
  | O => Some None
  | S n =>
      let tid := Z.to_nat (zget (tos_to_tid m) (Z.of_nat n)) in
      t ← tids p !! tid;
      o ← pick_ralist t;
      match o with
      | Some r => Some (Some (Z.of_nat n, tid, r))
      | None => pick_rank m p n
      end
  end.

Definition next_prio (i : Z) : Z :=
  let n := if Z.odd i then i - 1 else i + 1 in if n <? 1 then 0 else n.

(** The hint after a list of rank [i] was found: the other TID of the AC if it has
    packets to send, otherwise at most [i]. *)
Definition hint_found (m : tid_maps) (p : wmm_priv) (i : Z) : option wmm_priv :=
  let n := next_prio i in
  t ← tids p !! Z.to_nat (Z.min (zget (tos_to_tid m) n) MAX_NUM_TID);
  Some (if negb (pkts_queued t =? 0) && (pkts_queued t >? pkts_paused t)
        then set_hint (util_scalar_write (hint p) n) p
        else set_hint (util_scalar_conditional_write (hint p) MLAN_SCALAR_COND_GREATER_THAN i i).2 p).

(** The hint after a whole round without a list. *)
Definition hint_none (p : wmm_priv) : wmm_priv :=
  set_hint (util_scalar_write (hint p)
    (if negb (value (tx_pkts_queued p) =? 0) then HIGH_PRIO_TID else NO_PKT_PRIO_TID)) p.

Definition pick_priv (m : tid_maps) (p : wmm_priv) : option (wmm_priv * option (nat * raListTbl)) :=
  o ← pick_rank m p (Z.to_nat (value (hint p) + 1));
  match o with
  | Some (i, tid, r) => p ← hint_found m p i; Some (p, Some (tid, r))
  | None => Some (hint_none p, None)
  end.

(** ** The interfaces *)

(** [mlan_bssprio_tbl]: the ring of the interfaces of a priority (their numbers)
    and [bssprio_cur], a position. *)
Record bss_tbl := mk_bss { bss_nodes : list nat; bssprio_cur : nat }.
Record wmm_adapter := mk_wadapter { privs : list wmm_priv; a_maps : tid_maps; bssprio_tbl : list bss_tbl }.

Definition set_privs (x : list wmm_priv) (ad : wmm_adapter) : wmm_adapter :=
  mk_wadapter x (a_maps ad) (bssprio_tbl ad).
Definition set_cur (j c : nat) (ad : wmm_adapter) : wmm_adapter :=
  mk_wadapter (privs ad) (a_maps ad) (alter (λ b, mk_bss (bss_nodes b) c) j (bssprio_tbl ad)).

(** Data of the interface is held back as a whole. *)
Definition priv_blocked (p : wmm_priv) : bool :=
  (port_ctrl_mode p && negb (port_open p)) || priv_tx_pause p.

Definition pick_bss (ad : wmm_adapter) (b : nat) : option (wmm_adapter * option (nat * nat * raListTbl)) :=
  p ← privs ad !! b;
  if priv_blocked p then Some (ad, None)
  else
    '((p, o) : wmm_priv * option (nat * raListTbl)) ← pick_priv (a_maps ad) p;
    Some (set_privs (<[b := p]> (privs ad)) ad,
          match o with Some (tid, r) => Some (b, tid, r) | None => None end).

(** The do-while loop over the interfaces of table [j]. *)
Fixpoint bss_walk (j : nat) (nodes : list nat) (fuel : nat) (head ptr : nat) (ad : wmm_adapter)
  : option (wmm_adapter * option (nat * nat * raListTbl)) :=
  match fuel with
  | O => None
  | S fuel =>
      b ← nodes !! ptr;
      '(ad, o) ← pick_bss ad b;
      match o with
      | Some res => Some (ad, Some res)
      | None =>
          let ptr := ring_next (length nodes) ptr in
          let ad := set_cur j ptr ad in
          if decide (ptr = head) then Some (ad, None) else bss_walk j nodes fuel head ptr ad
      end
  end.

(** The tables from [n - 1] down. *)
Fixpoint tbl_walk (n : nat) (ad : wmm_adapter) : option (wmm_adapter * option (nat * nat * raListTbl)) :=
  match n with
  | O => Some (ad, None)
  | S j =>
      b ← bssprio_tbl ad !! j;
      match bss_nodes b with
      | [] => tbl_walk j ad
      | nodes =>
          let head := if decide (bssprio_cur b = length nodes) then 0%nat else bssprio_cur b in
          '(ad, o) ← bss_walk j nodes (length nodes) head head (set_cur j head ad);
          match o with
          | Some res => Some (ad, Some res)
          | None => tbl_walk j ad
          end
      end
  end.
Definition wlan_wmm_get_highest_priolist_ptr (ad : wmm_adapter)
  : option (wmm_adapter * option (nat * nat * raListTbl)) := tbl_walk (length (bssprio_tbl ad)) ad.

(** [wlan_advance_bss_on_pkt_push]: [bssprio_cur->pnext], which may be the head. *)
Definition wlan_advance_bss_on_pkt_push (j : nat) (ad : wmm_adapter) : wmm_adapter :=
  match bssprio_tbl ad !! j with
  | Some b => set_cur j (if decide (bssprio_cur b = length (bss_nodes b)) then 0%nat else S (bssprio_cur b)) ad
  | None => ad
  end.

Definition wlan_wmm_lists_empty (ad : wmm_adapter) : bool :=
  forallb (λ p, priv_blocked p || (value (tx_pkts_queued p) =? 0)) (privs ad).

(** ** Rings *)

(** The list in the order the loop visits it from position [s]. *)
Definition rotate {A} (s : nat) (l : list A) : list A := drop s l ++ take s l.

Lemma rotate_perm {A} s (l : list A) : rotate s l ≡ₚ l.
Proof. unfold rotate. by rewrite Permutation_app_comm, take_drop. Qed.
Lemma rotate_length {A} s (l : list A) : length (rotate s l) = length l.
Proof. apply Permutation_length, rotate_perm. Qed.

(** Position [k] of the walk. *)
Definition ring_pos (n s k : nat) : nat := if decide (s + k < n)%nat then (s + k)%nat else (s + k - n)%nat.

Lemma rotate_lookup {A} s (l : list A) k : (s < length l)%nat → (k < length l)%nat →
  rotate s l !! k = l !! ring_pos (length l) s k.
Proof.
  intros Hs Hk. unfold rotate, ring_pos. case_decide.
  - rewrite lookup_app_l by (rewrite length_drop; lia). by rewrite lookup_drop.
  - rewrite lookup_app_r by (rewrite length_drop; lia). rewrite length_drop, lookup_take_lt by lia. f_equal. lia.
Qed.

Lemma ring_next_pos n s k : (s < n)%nat → (k < n)%nat →
  ring_next n (ring_pos n s k) = ring_pos n s (S k) ∧ (ring_pos n s (S k) = s ↔ S k = n).
Proof. intros Hs Hk. unfold ring_next, ring_pos. repeat case_decide; lia. Qed.

Lemma ring_pos_0 n s : (s < n)%nat → ring_pos n s 0 = s.
Proof. unfold ring_pos. case_decide; lia. Qed.

(** The loop finds the first element, in that order, that will do. *)
Lemma ring_walk_find {A} (ok : A → bool) (l : list A) s : (s < length l)%nat →
  ring_walk ok l (length l) s s = List.find ok (rotate s l).
Proof.
  intros Hs.
  assert (∀ r k, (k + r = length l)%nat → (0 < r)%nat →
    ring_walk ok l r s (ring_pos (length l) s k) = List.find ok (drop k (rotate s l))) as H.
  { induction r as [|r IH]; intros k Hk Hr; [lia|]. cbn [ring_walk].
    destruct (lookup_lt_is_Some_2 (rotate s l) k) as [x Hx]; [rewrite rotate_length; lia|].
    rewrite (drop_S _ _ _ Hx). rewrite rotate_lookup in Hx by lia. rewrite Hx. cbn [List.find].
    destruct (ok x); [done|]. destruct (ring_next_pos (length l) s k) as [-> Hend]; [lia|lia|].
    cbv zeta. case_decide as E.
    - rewrite drop_ge; [done|]. rewrite rotate_length. apply Hend in E. lia.
    - apply IH; [lia|]. destruct r; [|lia]. destruct E. apply Hend. lia. }
  specialize (H (length l) 0%nat). rewrite drop_0 in H. rewrite <- H by lia.
  by rewrite ring_pos_0.
Qed.

Lemma find_some_none {A} (ok : A → bool) (l : list A) :
  (List.find ok l = None ↔ ∀ x, x ∈ l → ok x = false) ∧
  (∀ x, List.find ok l = Some x → x ∈ l ∧ ok x = true).
Proof.
  induction l as [|y l [IH1 IH2]]; cbn; [split; [split; [by intros _ x Hx%elem_of_nil|done]|done]|].
  destruct (ok y) eqn:E.
  - split; [split; [done|intros H; specialize (H y ltac:(left)); congruence]|].
    intros x [= <-]. split; [left|done].
  - split.
    + rewrite IH1. split; [intros H x [->|Hx]%elem_of_cons; auto|intros H x Hx; apply H; by right].
    + intros x Hx. destruct (IH2 x Hx). split; [by right|done].
Qed.

(** The list that is looked at after position [s] of the previous one. *)
Lemma ring_start_some t : cur_ok t → ra_list t ≠ [] →
  ∃ s, ring_start t = Some s ∧ (s < length (ra_list t))%nat.
Proof.
  intros Hc Hne. unfold ring_start, cur_ok in *. assert (0 < length (ra_list t))%nat as Hl.
  { destruct (ra_list t); [done|cbn; lia]. }
  destruct (ra_list_curr t) as [| |a]; [done|eauto|].
  apply list_elem_of_fmap in Hc as (r & -> & Hr).
  destruct (list_find_elem_of (λ x, r_addr x = r_addr r) (ra_list t) r) as [[i x] Hx]; [done..|].
  rewrite Hx. cbn. eexists. split; [done|]. apply list_find_Some in Hx as (Hx & _).
  apply lookup_lt_Some in Hx. unfold ring_next. case_decide; lia.
Qed.

(** The search through the RA lists of a TID has a result and finds a list
    with a packet that may go, if there is one. *)
Lemma pick_ralist_spec t : cur_ok t →
  ∃ o, pick_ralist t = Some o ∧ (o = None ↔ ∀ r, r ∈ ra_list t → ready r = false) ∧
    (∀ r, o = Some r → r ∈ ra_list t ∧ ready r = true).
Proof.
  intros Hc. unfold pick_ralist. destruct (ra_list t) as [|r0 l] eqn:El.
  - exists None. split; [done|]. split; [split; [by intros _ r Hr%elem_of_nil|done]|done].
  - destruct (ring_start_some t Hc) as (s & -> & Hs); [by rewrite El|]. rewrite El in Hs.
    eexists. split; [reflexivity|]. rewrite ring_walk_find by done.
    destruct (find_some_none ready (rotate s (r0 :: l))) as [H1 H2]. split.
    + rewrite H1. split; intros H r Hr; apply H; [by rewrite rotate_perm|by rewrite rotate_perm in Hr].
    + intros r Hr. destruct (H2 r Hr) as [Hin Hok]. by rewrite rotate_perm in Hin.
Qed.

(** ** The TIDs of an interface *)

(** The TID of a rank, and whether it has a list with a packet that may go. *)
Definition rank_tid (m : tid_maps) (k : nat) : nat := Z.to_nat (zget (tos_to_tid m) (Z.of_nat k)).
Definition may_send (m : tid_maps) (p : wmm_priv) (k : nat) : Prop :=
  ∃ t r, tids p !! rank_tid m k = Some t ∧ r ∈ ra_list t ∧ ready r = true.

(** The hint is not under a rank that may send, except for the second TID of an
    access category whose first one may send too. *)
Definition hint_ok (m : tid_maps) (p : wmm_priv) : Prop :=
  -1 <= value (hint p) <= 7 ∧
  ∀ k, (k < 8)%nat → may_send m p k → Z.of_nat k <= value (hint p) ∨
    ∃ j, value (hint p) = Z.of_nat j ∧ Nat.even j = true ∧ k = S j ∧ may_send m p j.

Lemma rank_tid_lt m k : maps_ok m → (k < 8)%nat → (rank_tid m k < 8)%nat.
Proof. intros (_ & _ & H & _) Hk. unfold rank_tid. destruct (H (Z.of_nat k)); lia. Qed.

(** The counters tell whether a TID may send. *)
Lemma tid_avail t : tid_ok None t →
  (pkts_queued t > pkts_paused t ↔ ∃ r, r ∈ ra_list t ∧ ready r = true) ∧ 0 <= pkts_paused t.
Proof.
  intros Ht. rewrite (tk_queued _ _ Ht), (tk_paused _ _ Ht). unfold t_held, t_paused.
  pose proof ready_held as Hr.
  pose proof (zsum_sub (held None) (held_paused None) (ra_list t)) as Hs. split; [split|].
  - intros H. destruct (decide (Exists (λ r, ready r = true) (ra_list t))) as [(r & ? & ?)%Exists_exists|Hn]; [by exists r|].
    exfalso. enough (zsum (λ r, held None r - held_paused None r) (ra_list t) = 0) by lia.
    apply zsum_zero, Forall_forall. intros r Hin. apply Hr. destruct (ready r) eqn:E; [|done].
    destruct Hn. apply Exists_exists. by exists r.
  - intros (r & Hin & Hok). 
    pose proof (zsum_elem (λ r, held None r - held_paused None r) (ra_list t) r (λ r, proj1 (Hr r)) Hin) as H2.
    cbn beta in H2. pose proof (Hr r) as [H0 H1]. rewrite Hok in H1.
    assert (held None r - held_paused None r ≠ 0) by (intros E; by apply H1 in E). lia.
  - apply (t_paused_bounds None t).
Qed.

(** The search below rank [n] finds the highest rank that may send. *)
Lemma pick_rank_spec m p n : wmm_wf None p → maps_ok m → (n <= 8)%nat →
  ∃ o, pick_rank m p n = Some o ∧
    match o with
    | None => ∀ k, (k < n)%nat → ¬ may_send m p k
    | Some (i, tid, r) => ∃ j t, i = Z.of_nat j ∧ (j < n)%nat ∧ tid = rank_tid m j ∧
        tids p !! tid = Some t ∧ r ∈ ra_list t ∧ ready r = true ∧
        ∀ k, (j < k < n)%nat → ¬ may_send m p k
    end.
Proof.
  intros Hw Hm. induction n as [|n IH]; intros Hn; [exists None; split; [done|lia]|].
  cbn [pick_rank]. cbv zeta. change (Z.to_nat (zget (tos_to_tid m) (Z.of_nat n))) with (rank_tid m n).
  destruct (lookup_lt_is_Some_2 (tids p) (rank_tid m n)) as [t Ht].
  { rewrite (wf_len _ _ Hw). by apply rank_tid_lt. }
  rewrite Ht. cbn [mbind option_bind].
  pose proof (wf_tids _ _ Hw) as Ha. rewrite Forall_lookup in Ha. specialize (Ha _ _ Ht).
  destruct (pick_ralist_spec t (tk_cur _ _ Ha)) as ([r|] & -> & Hnone & Hsome); cbn [mbind option_bind].
  - eexists. split; [reflexivity|]. exists n, t. destruct (Hsome r eq_refl). repeat split; auto; lia.
  - destruct IH as (o & -> & Ho); [lia|]. exists o. split; [done|].
    assert (¬ may_send m p n) as Hno.
    { intros (t' & r & Ht' & Hr & Hok). rewrite Ht in Ht'. injection Ht' as <-.
      by rewrite (proj1 Hnone eq_refl r Hr) in Hok. }
    destruct o as [[[i tid] r]|].
    + destruct Ho as (j & t' & -> & Hj & -> & H1 & H2 & H3 & H4). exists j, t'. split; [done|]. split; [lia|]. do 4 (split; [done|]).
      intros k Hk. destruct (decide (k = n)) as [->|]; [done|]. apply H4. lia.
    + intros k Hk. destruct (decide (k = n)) as [->|]; [done|]. apply Ho. lia.
Qed.

(** The other TID of the access category. *)
Definition partner (j : nat) : nat := if Nat.even j then S j else pred j.
Lemma odd_of_nat j : Z.odd (Z.of_nat j) = negb (Nat.even j).
Proof.
  induction j as [|j IH]; [done|].
  by rewrite Nat2Z.inj_succ, Z.odd_succ, <- Z.negb_odd, IH, negb_involutive, Nat.even_succ, Nat.negb_odd.
Qed.
Lemma next_prio_partner j : next_prio (Z.of_nat j) = Z.of_nat (partner j).
Proof.
  unfold next_prio, partner. rewrite odd_of_nat.
  destruct (Nat.even j) eqn:E; cbn [negb]; cbv zeta; case_match eqn:Hc; try lia.
Qed.
Lemma partner_lt j : (j < 8)%nat → (partner j < 8)%nat.
Proof.
  intros Hj. unfold partner. destruct (Nat.even j) eqn:E; [|lia].
  apply Nat.even_spec in E as [c ->]. lia.
Qed.

Lemma hint_found_spec m p j : wmm_wf None p → maps_ok m → (j < 8)%nat →
  ∃ h, hint_found m p (Z.of_nat j) = Some (set_hint h p) ∧
    (may_send m p (partner j) ∧ value h = Z.of_nat (partner j) ∨
     ¬ may_send m p (partner j) ∧ value h = Z.min (value (hint p)) (Z.of_nat j)).
Proof.
  intros Hw Hm Hj. unfold hint_found. cbv zeta. rewrite next_prio_partner.
  pose proof (partner_lt j Hj) as Hp. pose proof (rank_tid_lt m _ Hm Hp) as Hlt.
  destruct Hm as (_ & _ & Hm & _). destruct (Hm (Z.of_nat (partner j)) ltac:(lia)) as [Hr _].
  unfold MAX_NUM_TID. rewrite Z.min_l by lia. fold (rank_tid m (partner j)).
  destruct (lookup_lt_is_Some_2 (tids p) (rank_tid m (partner j))) as [t Ht]; [by rewrite (wf_len _ _ Hw)|].
  rewrite Ht. cbn [mbind option_bind].
  pose proof (wf_tids _ _ Hw) as Ha. rewrite Forall_lookup in Ha.
  destruct (tid_avail t (Ha _ _ Ht)) as [Hav Hpos].
  assert (may_send m p (partner j) ↔ pkts_queued t > pkts_paused t) as Hms.
  { rewrite Hav. split; [intros (t' & r & Ht' & ?)|intros (r & ?); by exists t, r].
    rewrite Ht in Ht'. injection Ht' as <-. by exists r. }
  destruct (negb (pkts_queued t =? 0) && (pkts_queued t >? pkts_paused t)) eqn:E.
  - eexists. split; [reflexivity|]. left. split; [apply Hms; lia|done].
  - eexists. split; [reflexivity|]. right. split; [rewrite Hms; lia|].
    cbn. destruct (value (hint p) >? Z.of_nat j) eqn:Ec; cbn; lia.
Qed.

(** Highest rank first, up to the turn of the other TID of its access category. *)
Definition first_rank (m : tid_maps) (p : wmm_priv) (tid : nat) (r : raListTbl) : Prop :=
  ∃ j t, (j < 8)%nat ∧ tid = rank_tid m j ∧ tids p !! tid = Some t ∧ r ∈ ra_list t ∧ ready r = true ∧
    ∀ k, (k < 8)%nat → may_send m p k → (k <= j)%nat ∨ Nat.even j = true ∧ k = S j.

Lemma may_send_hint m h p k : may_send m (set_hint h p) k ↔ may_send m p k.
Proof. done. Qed.

(** A round without a list leaves a good hint, whatever the hint was. *)
Lemma hint_none_ok m p : wmm_wf None p → maps_ok m → hint_ok m (hint_none p).
Proof.
  intros Hw Hm. pose proof (avail_zero p Hw) as Hz. unfold hint_none, hint_ok.
  destruct (value (tx_pkts_queued p) =? 0) eqn:E; cbn.
  - split; [unfold NO_PKT_PRIO_TID; lia|]. intros k _ (t & r & Ht & Hr & Hok). apply Z.eqb_eq in E.
    by rewrite (proj1 Hz E _ _ _ Ht Hr) in Hok.
  - split; [unfold HIGH_PRIO_TID; lia|]. intros k Hk _. left. unfold HIGH_PRIO_TID. lia.
Qed.

Lemma pick_priv_spec m p : wmm_wf None p → maps_ok m → -1 <= value (hint p) <= 7 →
  ∃ h o, pick_priv m p = Some (set_hint h p, o) ∧ -1 <= value h <= 7 ∧
    (∀ tid r, o = Some (tid, r) → ∃ t, tids p !! tid = Some t ∧ r ∈ ra_list t ∧ ready r = true) ∧
    (o = None → hint_ok m (set_hint h p)) ∧
    (hint_ok m p → hint_ok m (set_hint h p) ∧
      match o with
      | None => ∀ k, (k < 8)%nat → ¬ may_send m p k
      | Some (tid, r) => first_rank m p tid r
      end).
Proof.
  intros Hw Hm Hh. unfold pick_priv.
  destruct (pick_rank_spec m p (Z.to_nat (value (hint p) + 1)) Hw Hm) as (o & -> & Ho); [lia|].
  cbn [mbind option_bind]. destruct o as [[[i tid] r]|].
  - destruct Ho as (j & t & -> & Hj & -> & Ht & Hr & Hok & Hno).
    destruct (hint_found_spec m p j Hw Hm) as (h & -> & Hcase); [lia|]. cbn [mbind option_bind].
    assert (value h <= 7) as H7.
    { destruct Hcase as [[_ ->]|[_ ->]]; [|lia]. pose proof (partner_lt j). lia. }
    exists h, (Some (rank_tid m j, r)). split; [done|]. split; [destruct Hcase; lia|].
    split; [intros ?? [= <- <-]; eauto|]. split; [done|]. intros [_ Hhint].
    assert (∀ k, (k < 8)%nat → may_send m p k → (k <= j)%nat ∨ Nat.even j = true ∧ k = S j) as Hord.
    { intros k Hk Hs. destruct (decide (k <= j)%nat); [by left|]. destruct (Hhint k Hk Hs) as [Hle|(j' & Ej & He & -> & Hs')].
      - destruct (Hno k); [lia|done].
      - destruct (decide (j' = j)) as [->|]; [by right|]. destruct (Hno j'); [lia|done]. }
    split; [|exists j, t; split; [lia|done]].
    unfold hint_ok. change (hint (set_hint h p)) with h. split; [destruct Hcase; lia|]. intros k Hk Hs. change (may_send m p k) in Hs.
    unfold partner in Hcase. destruct (Hord k Hk Hs) as [Hle|[He ->]].
    + destruct (Nat.even j) eqn:Ee; [destruct Hcase as [[_ ->]|[_ ->]]; left; lia|].
      destruct Hcase as [[Hp Hv]|[_ ->]]; [|left; lia]. destruct (decide (k = j)) as [->|]; [|left; lia].
      destruct j as [|j]; [left; lia|]. right. exists j. cbn in Hv, Hp.
      rewrite Nat.even_succ, <- Nat.negb_even in Ee. destruct (Nat.even j) eqn:Ev; [done|done].
    + rewrite He in Hcase. destruct Hcase as [[_ ->]|[Hn _]]; [left; lia|done].
  - exists (if negb (value (tx_pkts_queued p) =? 0) then util_scalar_write (hint p) HIGH_PRIO_TID
            else util_scalar_write (hint p) NO_PKT_PRIO_TID), None.
    pose proof (hint_none_ok m p Hw Hm) as Hok. unfold hint_none in *.
    destruct (value (tx_pkts_queued p) =? 0) eqn:E; cbn [negb] in *.
    all: split; [done|]; split; [cbn; unfold HIGH_PRIO_TID, NO_PKT_PRIO_TID; lia|].
    all: split; [done|]; split; [done|]; intros [_ Hhint]; split; [done|].
    all: intros k Hk Hs; destruct (Hhint k Hk Hs) as [Hle|(j' & Ej & He & -> & Hs')]; [|apply (Ho j'); [lia|done]].
    all: apply (Ho k); [lia|done].
Qed.

(** ** The interfaces *)

(** Interfaces that differ in their hints only. *)
Definition same_queues (p p' : wmm_priv) : Prop := ∃ h, p' = set_hint h p.
#[export] Instance same_queues_pre : PreOrder same_queues.
Proof.
  split; [intros p; exists (hint p); by destruct p as [????????????? [] ??????]|].
  intros p ? ? [h ->] [h' ->]. by exists h'.
Qed.

Record ad_same (ad ad' : wmm_adapter) : Prop := {
  as_maps : a_maps ad' = a_maps ad;
  as_privs : Forall2 same_queues (privs ad) (privs ad');
  as_nodes : bss_nodes <$> bssprio_tbl ad' = bss_nodes <$> bssprio_tbl ad
}.
#[export] Instance ad_same_pre : PreOrder ad_same.
Proof.
  split; [intros ad; by constructor|]. intros ad1 ad2 ad3 [H1 H2 H3] [H4 H5 H6].
  constructor; [congruence| |congruence]. by etrans.
Qed.

(** Every interface is well formed, and the tables name interfaces. *)
Record ad_ok (ad : wmm_adapter) : Prop := {
  ad_maps : maps_ok (a_maps ad);
  ad_privs : ∀ b p, privs ad !! b = Some p → wmm_wf None p ∧ -1 <= value (hint p) <= 7;
  ad_tbl : ∀ j t, bssprio_tbl ad !! j = Some t →
    (bssprio_cur t <= length (bss_nodes t))%nat ∧ ∀ b, b ∈ bss_nodes t → (b < length (privs ad))%nat
}.

(** An interface that is held back or has nothing that may go; one whose hint is
    right or does not matter. *)
Definition idle (ad : wmm_adapter) (b : nat) : Prop :=
  ∀ p, privs ad !! b = Some p → priv_blocked p = true ∨ ∀ k, (k < 8)%nat → ¬ may_send (a_maps ad) p k.
Definition good_hint (ad : wmm_adapter) (b : nat) : Prop :=
  ∀ p, privs ad !! b = Some p → priv_blocked p = true ∨ hint_ok (a_maps ad) p.

(** What was found: a list with a packet that may go, of an interface that is not
    held back; the first one in rank order if the hint is right. *)
Definition found (ad : wmm_adapter) (res : nat * nat * raListTbl) : Prop :=
  let '(b, tid, r) := res in
  ∃ p t, privs ad !! b = Some p ∧ priv_blocked p = false ∧
    tids p !! tid = Some t ∧ r ∈ ra_list t ∧ ready r = true ∧
    (good_hint ad b → first_rank (a_maps ad) p tid r).

Lemma same_idle ad ad' b : ad_same ad ad' → idle ad' b ↔ idle ad b.
Proof.
  intros [Hm Hp _]. unfold idle. rewrite Hm.
  split; intros Hi p Hb.
  - destruct (Forall2_lookup_l _ _ _ _ _ Hp Hb) as (p' & Hb' & h & ->). exact (Hi _ Hb').
  - destruct (Forall2_lookup_r _ _ _ _ _ Hp Hb) as (p' & Hb' & h & ->). exact (Hi _ Hb').
Qed.
Lemma same_found ad ad' res : ad_same ad ad' → (∀ b, good_hint ad b → good_hint ad' b) →
  found ad' res → found ad res.
Proof.
  intros [Hm Hp _] Hg. destruct res as [[b tid] r]. intros (p & t & Hb & H1 & H2 & H3 & H4 & H5).
  destruct (Forall2_lookup_r _ _ _ _ _ Hp Hb) as (p' & Hb' & h & ->). exists p', t.
  repeat (split; [done|]). intros Hgood. rewrite <- Hm. exact (H5 (Hg _ Hgood)).
Qed.

Lemma ad_ok_cur ad j c t : ad_ok ad → bssprio_tbl ad !! j = Some t → (c <= length (bss_nodes t))%nat →
  ad_ok (set_cur j c ad) ∧ ad_same ad (set_cur j c ad) ∧
  bssprio_tbl (set_cur j c ad) !! j = Some (mk_bss (bss_nodes t) c).
Proof.
  intros [H1 H2 H3] Hj Hc. split; [|split].
  - constructor; [done|done|]. intros j' t' Ht'. cbn in Ht'. destruct (decide (j' = j)) as [->|].
    + rewrite list_lookup_alter_eq, Hj in Ht'. injection Ht' as <-. cbn. split; [done|].
      by apply (H3 j t).
    + rewrite list_lookup_alter_ne in Ht' by done. by apply (H3 j').
  - constructor; [done|done|]. cbn. apply list_eq. intros i. rewrite !list_lookup_fmap.
    destruct (decide (i = j)) as [->|]; [rewrite list_lookup_alter_eq|rewrite list_lookup_alter_ne by done]; [|done].
    by rewrite Hj.
  - cbn. rewrite list_lookup_alter_eq, Hj. done.
Qed.

Lemma pick_bss_spec ad b : ad_ok ad → (b < length (privs ad))%nat →
  ∃ ad' o, pick_bss ad b = Some (ad', o) ∧ ad_ok ad' ∧ ad_same ad ad' ∧ bssprio_tbl ad' = bssprio_tbl ad ∧
    (∀ b', good_hint ad b' → good_hint ad' b') ∧
    match o with
    | None => good_hint ad' b ∧ (good_hint ad b → idle ad b)
    | Some res => res.1.1 = b ∧ found ad res
    end.
Proof.
  intros Hok Hb. pose proof Hok as [Hm Hp Ht].
  destruct (lookup_lt_is_Some_2 _ _ Hb) as [p Ep]. unfold pick_bss. rewrite Ep. cbn [mbind option_bind].
  destruct (priv_blocked p) eqn:Eb.
  { exists ad, None. split; [done|]. do 4 (split; [done|]).
    split; [|intros _]; intros p' Hp'; rewrite Ep in Hp'; injection Hp' as <-; by left. }
  destruct (Hp _ _ Ep) as [Hw Hh]. destruct (pick_priv_spec (a_maps ad) p Hw Hm Hh)
    as (h & o & -> & Hh' & Hf & Hnone & Hgood). cbn [mbind option_bind].
  eexists _, _. split; [reflexivity|]. split; [|split; [|split; [done|split]]].
  - constructor; [done| |].
    + intros b' p'. cbn. intros [(<- & <- & _)|[_ Hb']]%list_lookup_insert_Some; [|by apply (Hp b')].
      split; [by apply wf_hint|done].
    + intros j t Hj. cbn. rewrite length_insert. by apply (Ht j).
  - constructor; [done| |done]. cbn. rewrite <- (list_insert_id (privs ad) b p Ep) at 1.
    apply Forall2_insert; [done|]. by exists h.
  - intros b' Hg p'. cbn. intros [(<- & <- & _)|[Hne Hb']]%list_lookup_insert_Some; [|by apply Hg].
    destruct (Hg _ Ep) as [?|Hp']; [left; done|right]. by apply Hgood.
  - destruct o as [[tid r]|].
    + split; [done|]. destruct (Hf tid r eq_refl) as (t & H1 & H2 & H3). exists p, t.
      repeat (split; [done|]). intros Hg. destruct (Hg _ Ep) as [?|Hp']; [congruence|]. by apply Hgood.
    + split.
      * intros p'. cbn. rewrite list_lookup_insert_eq by done. intros [= <-]. right. by apply Hnone.
      * intros Hg p' Hp'. rewrite Ep in Hp'. injection Hp' as <-. right.
        destruct (Hg _ Ep) as [?|Hh1]; [congruence|]. by apply Hgood.
Qed.

(** What a walk over the interfaces [bs] keeps and tells: everything is idle (and
    their hints are right from now on), or the first one that is not was found. *)
Definition walked (ad ad' : wmm_adapter) (bs : list nat) (o : option (nat * nat * raListTbl)) : Prop :=
  ad_ok ad' ∧ ad_same ad ad' ∧ (∀ b, good_hint ad b → good_hint ad' b) ∧
  match o with
  | None => ∀ b, b ∈ bs → good_hint ad' b ∧ (good_hint ad b → idle ad b)
  | Some res => found ad res ∧
      ∃ pre post, bs = pre ++ res.1.1 :: post ∧ ∀ b, b ∈ pre → good_hint ad b → idle ad b
  end.

Lemma walked_cons ad ad1 ad2 b bs o : ad_same ad ad1 →
  (∀ b, good_hint ad b → good_hint ad1 b) → good_hint ad1 b → (good_hint ad b → idle ad b) →
  walked ad1 ad2 bs o → walked ad ad2 (b :: bs) o.
Proof.
  intros Hs Hg Hb Hi (H1 & H2 & H3 & H4). split; [done|]. split; [by etrans|]. split; [auto|].
  destruct o as [res|].
  - destruct H4 as (Hf & pre & post & -> & Hpre). split; [by eapply same_found|].
    exists (b :: pre), post. split; [done|]. intros x [->|Hx]%elem_of_cons Hgx; [auto|].
    rewrite <- (same_idle ad ad1) by done. auto.
  - intros x [->|Hx]%elem_of_cons; [auto|]. destruct (H4 x Hx) as [Ha Hc]. split; [done|].
    intros Hgx. rewrite <- (same_idle ad ad1) by done. auto.
Qed.
Lemma walked_nil ad : ad_ok ad → walked ad ad [] None.
Proof. intros H. repeat (split; [done|]). by intros b Hb%elem_of_nil. Qed.
Lemma walked_cur ad ad1 ad2 bs o : ad_same ad ad1 → privs ad1 = privs ad →
  walked ad1 ad2 bs o → walked ad ad2 bs o.
Proof.
  intros Hs Hp (H1 & H2 & H3 & H4). pose proof (as_maps _ _ Hs) as Hm.
  assert (∀ b, good_hint ad b → good_hint ad1 b) as Hg by (intros b; unfold good_hint; by rewrite Hp, Hm).
  split; [done|]. split; [by etrans|]. split; [auto|]. destruct o as [res|].
  - destruct H4 as (Hf & pre & post & -> & Hpre). split; [by eapply same_found|].
    exists pre, post. split; [done|]. intros x Hx Hgx. rewrite <- (same_idle ad ad1) by done. auto.
  - intros x Hx. destruct (H4 x Hx) as [Ha Hc]. split; [done|].
    intros Hgx. rewrite <- (same_idle ad ad1) by done. auto.
Qed.

(** [bssprio_cur] is left at the interface that was found. *)
Definition cur_at (ad : wmm_adapter) (j b : nat) : Prop :=
  ∃ t, bssprio_tbl ad !! j = Some t ∧ bss_nodes t !! bssprio_cur t = Some b.

Lemma bss_walk_spec j nodes head : ∀ r k ad, (k + r = length nodes)%nat → (0 < r)%nat →
  (head < length nodes)%nat → ad_ok ad →
  bssprio_tbl ad !! j = Some (mk_bss nodes (ring_pos (length nodes) head k)) →
  ∃ ad' o, bss_walk j nodes r head (ring_pos (length nodes) head k) ad = Some (ad', o) ∧
    walked ad ad' (drop k (rotate head nodes)) o ∧
    match o with Some res => cur_at ad' j res.1.1 | None => True end.
Proof.
  induction r as [|r IH]; intros k ad Hk Hr Hh Hok Hj; [lia|]. cbn [bss_walk].
  destruct (lookup_lt_is_Some_2 (rotate head nodes) k) as [b Hb]; [rewrite rotate_length; lia|].
  rewrite (drop_S _ _ _ Hb). rewrite rotate_lookup in Hb by lia. rewrite Hb. cbn [mbind option_bind].
  assert (b < length (privs ad))%nat as Hlt.
  { apply (ad_tbl _ Hok _ _ Hj). cbn. by eapply list_elem_of_lookup_2. }
  destruct (pick_bss_spec ad b Hok Hlt) as (ad1 & o1 & -> & Hok1 & Hs1 & Ht1 & Hg1 & H1).
  cbn [mbind option_bind]. destruct o1 as [res|].
  { destruct H1 as [Hres Hf]. eexists _, _. split; [reflexivity|]. split.
    - do 3 (split; [done|]). split; [done|]. exists [], (drop (S k) (rotate head nodes)).
      rewrite Hres. split; [done|]. by intros x Hx%elem_of_nil.
    - exists (mk_bss nodes (ring_pos (length nodes) head k)). rewrite Ht1, Hres. done. }
  destruct H1 as [Hgb Hib].
  destruct (ring_next_pos (length nodes) head k) as [-> Hend]; [lia|lia|]. cbv zeta.
  assert (ring_pos (length nodes) head (S k) <= length nodes)%nat as Hle.
  { unfold ring_pos. case_decide; lia. }
  rewrite <- Ht1 in Hj. destruct (ad_ok_cur ad1 j _ _ Hok1 Hj Hle) as (Hok2 & Hs2 & Hj2). cbn in Hj2.
  case_decide as E.
  - eexists _, _. split; [reflexivity|]. split; [|done]. rewrite drop_ge by (rewrite rotate_length; apply Hend in E; lia).
    eapply walked_cons; [exact Hs1|done|done|done|]. eapply walked_cur; [exact Hs2|done|]. by apply walked_nil.
  - assert (S k ≠ length nodes) as Hne by (intros He; apply E, Hend, He).
    destruct (IH (S k) (set_cur j (ring_pos (length nodes) head (S k)) ad1)) as (ad' & o & -> & Hw & Hc);
      [lia|lia|done|done|done|]. exists ad', o. split; [done|]. split; [|done].
    eapply walked_cons; [exact Hs1|done|done|done|]. by eapply walked_cur.
Qed.

(** ** All tables *)

(** The interfaces in the order the call looks at them. *)
Definition tbl_order (t : bss_tbl) : list nat :=
  rotate (if decide (bssprio_cur t = length (bss_nodes t)) then 0%nat else bssprio_cur t) (bss_nodes t).
Fixpoint order (n : nat) (ts : list bss_tbl) : list nat :=
  match n with
  | O => []
  | S j => match ts !! j with Some t => tbl_order t ++ order j ts | None => [] end
  end.
Definition bss_order (ad : wmm_adapter) : list nat := order (length (bssprio_tbl ad)) (bssprio_tbl ad).

Lemma walked_app ad ad1 ad2 bs1 bs2 o : walked ad ad1 bs1 None → walked ad1 ad2 bs2 o →
  walked ad ad2 (bs1 ++ bs2) o.
Proof.
  intros (H1 & H2 & H3 & H4) (H5 & H6 & H7 & H8). split; [done|]. split; [by etrans|]. split; [auto|].
  destruct o as [res|].
  - destruct H8 as (Hf & pre & post & -> & Hpre). split; [by eapply same_found|].
    exists (bs1 ++ pre), post. split; [by rewrite <- app_assoc|]. intros x [Hx|Hx]%elem_of_app Hg; [by apply H4|].
    rewrite <- (same_idle ad ad1) by done. auto.
  - intros x [Hx|Hx]%elem_of_app.
    + destruct (H4 x Hx). auto.
    + destruct (H8 x Hx) as [Ha Hc]. split; [done|]. intros Hg. rewrite <- (same_idle ad ad1) by done. auto.
Qed.
Lemma walked_more ad ad1 bs1 bs2 res : walked ad ad1 bs1 (Some res) → walked ad ad1 (bs1 ++ bs2) (Some res).
Proof.
  intros (H1 & H2 & H3 & Hf & pre & post & -> & Hpre). do 3 (split; [done|]). split; [done|].
  exists pre, (post ++ bs2). by rewrite <- app_assoc.
Qed.

Lemma pick_bss_tbl ad b ad' o : pick_bss ad b = Some (ad', o) → bssprio_tbl ad' = bssprio_tbl ad.
Proof.
  unfold pick_bss. intros (p & _ & H)%bind_Some. destruct (priv_blocked p); [by injection H as <- <-|].
  by apply bind_Some in H as ([p' o'] & _ & [= <- <-]).
Qed.
Lemma bss_walk_others j nodes head i : i ≠ j → ∀ r ptr ad ad' o,
  bss_walk j nodes r head ptr ad = Some (ad', o) → bssprio_tbl ad' !! i = bssprio_tbl ad !! i.
Proof.
  intros Hi. induction r as [|r IH]; intros ptr ad ad' o; [done|]. cbn [bss_walk].
  intros (b & _ & H)%bind_Some. apply bind_Some in H as ([ad1 o1] & Hp & H). apply pick_bss_tbl in Hp.
  destruct o1 as [res|]; [injection H as <- <-; by rewrite Hp|]. cbv zeta in H.
  assert (∀ c, bssprio_tbl (set_cur j c ad1) !! i = bssprio_tbl ad !! i) as Hc.
  { intros c. cbn. by rewrite list_lookup_alter_ne, Hp. }
  case_decide; [injection H as <- <-; apply Hc|]. by rewrite (IH _ _ _ _ H).
Qed.

Lemma tbl_walk_spec (ts : list bss_tbl) n : ∀ ad, (n <= length ts)%nat → ad_ok ad →
  (∀ i, (i < n)%nat → bssprio_tbl ad !! i = ts !! i) →
  ∃ ad' o, tbl_walk n ad = Some (ad', o) ∧ walked ad ad' (order n ts) o ∧
    match o with
    | Some res => ∃ j, (j < n)%nat ∧ cur_at ad' j res.1.1
    | None => True
    end.
Proof.
  induction n as [|n IH]; intros ad Hn Hok Hts; cbn [tbl_walk order].
  { exists ad, None. split; [done|]. split; [by apply walked_nil|done]. }
  destruct (lookup_lt_is_Some_2 ts n) as [t Ht]; [lia|]. pose proof (Hts n ltac:(lia)) as Hj. rewrite Ht in *.
  rewrite Hj. cbn [mbind option_bind].
  assert (∀ ad1, ad_ok ad1 → (∀ i, i ≠ n → bssprio_tbl ad1 !! i = bssprio_tbl ad !! i) →
    walked ad ad1 (tbl_order t) None →
    ∃ ad' o, tbl_walk n ad1 = Some (ad', o) ∧ walked ad ad' (tbl_order t ++ order n ts) o ∧
      match o with Some res => ∃ j, (j < S n)%nat ∧ cur_at ad' j res.1.1 | None => True end) as Hrest.
  { intros ad1 Hok1 Hne Hw1. destruct (IH ad1) as (ad' & o & -> & Hw & Hc); [lia|done| |].
    { intros i Hi. rewrite Hne by lia. apply Hts. lia. }
    exists ad', o. split; [done|]. split; [by eapply walked_app|].
    destruct o; [|done]. destruct Hc as (j & ? & ?). exists j. split; [lia|done]. }
  destruct (bss_nodes t) as [|b0 nodes] eqn:En.
  { apply Hrest; [done|done|]. unfold tbl_order. rewrite En. unfold rotate.
    rewrite drop_nil, take_nil. by apply walked_nil. }
  rewrite <- En. cbv zeta. destruct (ad_tbl _ Hok _ _ Hj) as [Hcur _].
  set (head := if decide (bssprio_cur t = length (bss_nodes t)) then 0%nat else bssprio_cur t).
  assert (0 < length (bss_nodes t))%nat as Hl by (rewrite En; cbn; lia).
  assert (head < length (bss_nodes t))%nat as Hh by (subst head; case_decide; lia).
  destruct (ad_ok_cur ad n head t Hok Hj) as (Hok0 & Hs0 & Hj0); [lia|].
  destruct (bss_walk_spec n (bss_nodes t) head (length (bss_nodes t)) 0 (set_cur n head ad))
    as (ad1 & o & He & Hw & Hc); [lia|done|done|done|by rewrite ring_pos_0|].
  rewrite ring_pos_0 in He by done. rewrite He. cbn [mbind option_bind]. rewrite drop_0 in Hw.
  assert (walked ad ad1 (tbl_order t) o) as Hw' by (by eapply walked_cur).
  destruct o as [res|].
  - eexists _, _. split; [reflexivity|]. split; [by apply walked_more|]. exists n. split; [lia|done].
  - apply Hrest; [by destruct Hw| |done]. intros i Hi. rewrite (bss_walk_others _ _ _ i Hi _ _ _ _ _ He).
    cbn. by apply list_lookup_alter_ne.
Qed.

Lemma elem_order ts n b : (n <= length ts)%nat →
  b ∈ order n ts ↔ ∃ j t, (j < n)%nat ∧ ts !! j = Some t ∧ b ∈ bss_nodes t.
Proof.
  induction n as [|n IH]; intros Hn; cbn [order].
  - split; [by intros ?%elem_of_nil|intros (j & t & ? & _); lia].
  - destruct (lookup_lt_is_Some_2 ts n) as [t Ht]; [lia|]. rewrite Ht, elem_of_app, IH by lia.
    unfold tbl_order at 1. rewrite rotate_perm. split.
    + intros [Hb|(j & t' & ? & ? & ?)]; [exists n, t; auto|exists j, t'; auto].
    + intros (j & t' & Hj & Hl & Hb). destruct (decide (j = n)) as [->|].
      * rewrite Ht in Hl. injection Hl as <-. by left.
      * right. exists j, t'. split; [lia|done].
Qed.


Lemma lists_empty_idle ad : ad_ok ad →
  wlan_wmm_lists_empty ad = true ↔ ∀ b, idle ad b.
Proof.
  intros Hok. unfold wlan_wmm_lists_empty. rewrite forallb_forall. split.
  - intros H b p Hb. specialize (H p ltac:(apply list_elem_of_In; by eapply list_elem_of_lookup_2)).
    apply orb_true_iff in H as [?|Hz%Z.eqb_eq]; [by left|right].
    intros k _ (t & r & Ht & Hr & Hrd). destruct (ad_privs _ Hok _ _ Hb) as [Hw _].
    by rewrite (proj1 (avail_zero p Hw) Hz _ _ _ Ht Hr) in Hrd.
  - intros H p (b & Hb)%list_elem_of_In%list_elem_of_lookup. apply orb_true_iff.
    destruct (H b p Hb) as [?|Hno]; [by left|right]. destruct (ad_privs _ Hok _ _ Hb) as [Hw _].
    apply Z.eqb_eq, (avail_zero p Hw). intros i t r Hi Hr. destruct (ready r) eqn:E; [|done]. exfalso.
    assert (i < 8)%nat as Hlt by (rewrite <- (wf_len _ _ Hw); by eapply lookup_lt_Some).
    destruct (ad_maps _ Hok) as (_ & _ & _ & Hinv). destruct (Hinv (Z.of_nat i) ltac:(lia)) as [Hr1 Hr2].
    apply (Hno (Z.to_nat (rank (a_maps ad) (Z.of_nat i)))); [unfold rank; lia|].
    exists t, r. unfold rank_tid, rank. rewrite Z2Nat.id, Hr2, Nat2Z.id by lia. done.
Qed.

(** C26: Whatever the hints are, as long as [wlan_wmm_lists_empty] says that there is
    something to send, one of two calls of the scheduler in a row returns a list, if
    every interface is in a table, the counters of every interface are right, no
    packet is in the air and hints and ring positions are in range ([ad_ok]).  With
    counters that have underflowed ([deauth_during_send_underflows]) there may be
    nothing to find for ever. *)
Theorem pick_within_two ad : ad_ok ad → wlan_wmm_lists_empty ad = false →
  (∀ b, (b < length (privs ad))%nat → b ∈ bss_order ad) →
  ∃ ad1 o1 ad2 o2, wlan_wmm_get_highest_priolist_ptr ad = Some (ad1, o1) ∧
    wlan_wmm_get_highest_priolist_ptr ad1 = Some (ad2, o2) ∧
    ((∃ res, o1 = Some res ∧ found ad res) ∨ ∃ res, o2 = Some res ∧ found ad1 res).
Proof.
  intros Hok He Hall.
  destruct (tbl_walk_spec (bssprio_tbl ad) (length (bssprio_tbl ad)) ad)
    as (ad1 & o1 & E1 & (Hok1 & Hs1 & _ & H4) & _); [done..|].
  destruct (tbl_walk_spec (bssprio_tbl ad1) (length (bssprio_tbl ad1)) ad1)
    as (ad2 & o2 & E2 & (_ & _ & _ & H5) & _); [done..|].
  exists ad1, o1, ad2, o2. do 2 (split; [done|]). destruct o1 as [res|]; [left; exists res; by destruct H4|].
  destruct o2 as [res|]; [right; exists res; by destruct H5|]. exfalso.
  assert (wlan_wmm_lists_empty ad = true) as Ht; [|congruence].
  apply lists_empty_idle; [done|]. intros b p Hb. pose proof (lookup_lt_Some _ _ _ Hb) as Hlt.
  destruct (H4 b (Hall b Hlt)) as [Hg _]. apply (proj1 (same_idle ad ad1 b Hs1)); [|done].
  apply H5; [|done]. pose proof (Hall b Hlt) as Hin. unfold bss_order in Hin. rewrite elem_order in * by done.
  destruct Hin as (j & t & Hj & Ht & Hbt). pose proof (as_nodes _ _ Hs1) as Hn.
  assert ((bss_nodes <$> bssprio_tbl ad1) !! j = Some (bss_nodes t)) as Hn1.
  { rewrite Hn, list_lookup_fmap, Ht. done. }
  rewrite list_lookup_fmap in Hn1. destruct (bssprio_tbl ad1 !! j) as [t1|] eqn:Et; [|done].
  cbn in Hn1. injection Hn1 as Hn1. exists j, t1. split; [by apply lookup_lt_Some in Et|]. by rewrite Hn1.
Qed.

(** ** Round robin *)

(** The list a search of the TID ends at. *)
Definition turn (t : wmm_tid) : option Z := o ← pick_ralist t; r_addr <$> o.

Lemma find_first {A} (ok : A → bool) (l : list A) d y : l !! d = Some y → ok y = true →
  ∃ e x, (e <= d)%nat ∧ l !! e = Some x ∧ List.find ok l = Some x.
Proof.
  revert d. induction l as [|x l IH]; intros [|d] Hd Hy; simplify_eq/=.
  - exists 0%nat, y. by rewrite Hy.
  - destruct (ok x) eqn:E; [exists 0%nat, x; split; [lia|done]|].
    destruct (IH d Hd Hy) as (e & x' & ? & ? & ?). exists (S e), x'. split; [lia|done].
Qed.

(** The steps from the start of the search to position [i]. *)
Definition dist (n s i : nat) : nat := if decide (s <= i)%nat then (i - s)%nat else (i + n - s)%nat.

Lemma dist_pos n s i : (s < n)%nat → (i < n)%nat → (dist n s i < n)%nat ∧ ring_pos n s (dist n s i) = i.
Proof. intros Hs Hi. unfold dist, ring_pos. repeat case_decide; lia. Qed.
Lemma dist_next n s i e : (s < n)%nat → (i < n)%nat → (e < dist n s i)%nat →
  (ring_next n (ring_pos n s e) < n)%nat ∧ (dist n (ring_next n (ring_pos n s e)) i < dist n s i)%nat.
Proof.
  intros Hs Hi He. pose proof (dist_pos n s i Hs Hi) as [Hd _].
  destruct (ring_next_pos n s e) as [-> _]; [lia|lia|].
  revert He Hd. unfold dist, ring_pos. repeat case_decide; lia.
Qed.

Lemma ring_start_at t q b : NoDup (addrs t) → addrs t !! q = Some b → ra_list_curr t = CurAt b →
  ring_start t = Some (ring_next (length (addrs t)) q).
Proof.
  intros Hnd Hq Hc. unfold ring_start. rewrite Hc. unfold addrs in Hq. rewrite list_lookup_fmap in Hq.
  destruct (ra_list t !! q) as [x|] eqn:Ex; [|done]. cbn in Hq. injection Hq as Hb.
  destruct (list_find_elem_of (λ r, r_addr r = b) (ra_list t) x) as [[i y] Hy];
    [by eapply list_elem_of_lookup_2|done|]. rewrite Hy. cbn [mbind option_bind].
  apply list_find_Some in Hy as (Hi & Hby & _). unfold addrs. rewrite length_fmap. do 2 f_equal.
  apply (NoDup_lookup (addrs t) i q b Hnd).
  - unfold addrs. by rewrite list_lookup_fmap, Hi, <- Hby.
  - unfold addrs. by rewrite list_lookup_fmap, Ex, <- Hb.
Qed.

(** A search takes the list at position [i] or one on the way to it. *)
Lemma turn_step t s i r : ring_start t = Some s → (s < length (addrs t))%nat →
  ra_list t !! i = Some r → ready r = true →
  ∃ e b, (e <= dist (length (addrs t)) s i)%nat ∧
    addrs t !! ring_pos (length (addrs t)) s e = Some b ∧ turn t = Some b.
Proof.
  intros Hs Hlt Hi Hr. unfold addrs in *. rewrite length_fmap in *.
  pose proof (lookup_lt_Some _ _ _ Hi) as Hil. destruct (dist_pos _ _ _ Hlt Hil) as [Hd Hp].
  destruct (find_first ready (rotate s (ra_list t)) (dist (length (ra_list t)) s i) r) as (e & x & He & Hx & Hf).
  { by rewrite rotate_lookup, Hp. } { done. }
  exists e, (r_addr x). split; [done|]. rewrite rotate_lookup in Hx by lia.
  split; [by rewrite list_lookup_fmap, Hx|]. unfold turn, pick_ralist.
  destruct (ra_list t) as [|r0 l] eqn:El; [done|]. rewrite Hs. cbn [mbind option_bind].
  by rewrite ring_walk_find, Hf.
Qed.

Lemma round_robin_in (ads : list Z) (a : Z) i : NoDup ads → ads !! i = Some a → ∀ d (ts : list wmm_tid) t0 s,
  (∀ k t, ts !! k = Some t → addrs t = ads ∧ ∃ r, ra_list t !! i = Some r ∧ ready r = true) →
  (∀ k t t', ts !! k = Some t → ts !! S k = Some t' → ∃ b, turn t = Some b ∧ ra_list_curr t' = CurAt b) →
  ts !! 0%nat = Some t0 → ring_start t0 = Some s → (s < length ads)%nat →
  (dist (length ads) s i <= d)%nat → (d < length ts)%nat →
  ∃ k t, (k <= d)%nat ∧ ts !! k = Some t ∧ turn t = Some a.
Proof.
  intros Hnd Hi. induction d as [d IH] using lt_wf_ind. intros ts t0 s Hst Hnx H0 Hs Hlt Hd Hlen.
  pose proof (lookup_lt_Some _ _ _ Hi) as Hil. destruct (Hst 0%nat t0 H0) as (Ha & r & Hr & Hrd).
  destruct (turn_step t0 s i r Hs) as (e & b & He & Hb & Ht); [by rewrite Ha|done|done|]. rewrite Ha in He, Hb.
  destruct (decide (e = dist (length ads) s i)) as [->|Hne].
  { exists 0%nat, t0. split; [lia|]. split; [done|].
    destruct (dist_pos _ _ _ Hlt Hil) as [_ Hp]. rewrite Hp, Hi in Hb. congruence. }
  destruct (dist_next (length ads) s i e Hlt Hil) as [Hn1 Hn2]; [lia|].
  destruct ts as [|t00 ts]; [done|]. cbn in H0. injection H0 as ->.
  destruct ts as [|t1 ts]; [cbn in Hlen; lia|].
  destruct (Hnx 0%nat t0 t1 eq_refl eq_refl) as (b' & Hb' & Hc). rewrite Ht in Hb'. injection Hb' as <-.
  destruct (Hst 1%nat t1 eq_refl) as (Ha1 & _).
  destruct (IH (pred d)) with (ts := t1 :: ts) (t0 := t1) (s := ring_next (length ads) (ring_pos (length ads) s e))
    as (k & t & Hk & Hl & Hta); [lia| | |done| |done|lia|cbn in *; lia|].
  - intros k t Hk. exact (Hst (S k) t Hk).
  - intros k t t' Hk Hk'. exact (Hnx (S k) t t' Hk Hk').
  - rewrite <- Ha1. apply (ring_start_at t1 _ b); by rewrite ?Ha1.
  - exists (S k), t. split; [lia|done].
Qed.

(** Searches that find the cursor where the one before left it. *)
Lemma turns_in_ring (ads : list Z) (a : Z) (ts : list wmm_tid) :
  NoDup ads → (length ads <= length ts)%nat → a ∈ ads →
  (∀ k t, ts !! k = Some t → addrs t = ads ∧ cur_ok t ∧
     ∃ r, r ∈ ra_list t ∧ r_addr r = a ∧ ready r = true) →
  (∀ k t t', ts !! k = Some t → ts !! S k = Some t' → ∃ b, turn t = Some b ∧ ra_list_curr t' = CurAt b) →
  ∃ k t, (k < length ads)%nat ∧ ts !! k = Some t ∧ turn t = Some a.
Proof.
  intros Hnd Hlen [i Hi]%list_elem_of_lookup Hst Hnx. pose proof (lookup_lt_Some _ _ _ Hi) as Hil.
  assert (∀ k t, ts !! k = Some t → addrs t = ads ∧ ∃ r, ra_list t !! i = Some r ∧ ready r = true) as Hst'.
  { intros k t Hk. destruct (Hst k t Hk) as (Ha & _ & r & Hr & Hra & Hrd). split; [done|].
    apply list_elem_of_lookup in Hr as [j Hj]. exists r. split; [|done].
    replace i with j; [done|]. apply (NoDup_lookup ads j i a Hnd); [|done].
    by rewrite <- Ha, <- Hra; unfold addrs; rewrite list_lookup_fmap, Hj. }
  destruct (lookup_lt_is_Some_2 ts 0) as [t0 H0]; [lia|]. destruct (Hst 0%nat t0 H0) as (Ha & Hc & r & Hr & _).
  destruct (ring_start_some t0 Hc) as (s & Hs & Hsl); [intros E; rewrite E in Hr; by apply elem_of_nil in Hr|].
  assert (length (ra_list t0) = length ads) as El by (rewrite <- Ha; unfold addrs; by rewrite length_fmap).
  rewrite El in Hsl. destruct (dist_pos _ _ _ Hsl Hil) as [Hd _].
  destruct (round_robin_in ads a i Hnd Hi (pred (length ads)) ts t0 s) as (k & t & Hk & Hl & Ht);
    [done|done|done|done|done|lia|lia|].
  exists k, t. split; [lia|done].
Qed.

(** The ring of TID [i]: its lists and the cursor. *)
Definition ring_of (i : nat) (s : wmm_state) : option (list Z * ra_cursor) :=
  (λ t, (addrs t, ra_list_curr t)) <$> tids (w_priv s) !! i.

(** Rounds of TID [i] from a state on, with the lists served: a search that finds
    a list, the first half of the send for it, anything that keeps the ring and the
    packet on the bus, the second half, by which the packet is gone, and again
    anything that keeps the ring.  At every search list [a] has a packet that may
    go. *)
Inductive rounds (i : nat) (a : Z) : list Z → wmm_state → Prop :=
| rounds_nil s : rounds i a [] s
| rounds_serve txpd st t r l s s1 s2 s3 s4 :
    tids (w_priv s) !! i = Some t → pick_ralist t = Some (Some r) →
    (∃ x, x ∈ ra_list t ∧ r_addr x = a ∧ ready x = true) →
    wmm_exec (SendBegin txpd (r_addr r) i) s = Some s1 →
    ring_of i s2 = ring_of i s1 → w_air s2 = w_air s1 →
    st ≠ MLAN_STATUS_RESOURCE → wmm_exec (SendEnd st) s2 = Some s3 →
    ring_of i s4 = ring_of i s3 → rounds i a l s4 → rounds i a (r_addr r :: l) s.

Lemma ring_of_Some i s ads c : ring_of i s = Some (ads, c) →
  ∃ t, tids (w_priv s) !! i = Some t ∧ addrs t = ads ∧ ra_list_curr t = c.
Proof. unfold ring_of. intros (t & Ht & [= -> ->])%fmap_Some. eauto. Qed.
Lemma ring_upd i f p t : tids p !! i = Some t →
  tids (upd_tid i f p) !! i = Some (f t).
Proof. intros Ht. unfold upd_tid. cbn. by rewrite list_lookup_alter_eq, Ht. Qed.

(** The first half of a send moves neither lists nor cursor. *)
Lemma begin_ring txpd b i s s1 : wmm_exec (SendBegin txpd b i) s = Some s1 →
  ring_of i s1 = ring_of i s ∧ ∃ pr m, w_air s1 = Some (mk_flight pr b i m).
Proof.
  cbn [wmm_exec]. destruct (w_air s); [done|].
  intros ([[p m] n] & Hb & [= <-])%bind_Some. cbn. split; [|eauto]. unfold ring_of. cbn [w_priv].
  destruct (wlan_is_ptr_processed (w_priv s) b i); apply bind_Some in Hb as ([m' q] & Hd & [= <- <- <-]);
    apply dequeue_ralist_Some in Hd as (t & r & Ht & _); rewrite Ht; cbn [tids dec_tx_pkts set_tids set_tx_pkts_queued].
  - rewrite (ring_upd _ _ _ t) by done. cbn. by rewrite <- (addrs_upd b (set_buf_head q) t).
  - change (tids (dec_tx_pkts ?x)) with (tids x). rewrite (ring_upd _ _ _ t) by done.
    cbn. by rewrite <- (addrs_upd b (λ r, dec_total (set_buf_head q r)) t).
Qed.

(** The second half leaves the cursor at the list the packet came from. *)
Lemma end_ring st b i pr m s s1 ads c : w_air s = Some (mk_flight pr b i m) → ring_of i s = Some (ads, c) →
  b ∈ ads → st ≠ MLAN_STATUS_RESOURCE → wmm_exec (SendEnd st) s = Some s1 → ring_of i s1 = Some (ads, CurAt b).
Proof.
  intros Ha Hr Hb Hst. apply ring_of_Some in Hr as (t & Ht & Hads & _). cbn [wmm_exec]. rewrite Ha. cbn [mbind option_bind].
  intros [= <-]. unfold ring_of, send_end. cbn [w_priv f_processed f_addr f_tid f_pkt].
  assert (∀ p, tids p = tids (w_priv s) → wlan_is_ralist_valid p b i = true) as Hv.
  { intros p Hp. apply is_ralist_valid_spec. rewrite <- Hads in Hb.
    apply list_elem_of_fmap in Hb as (r & -> & Hr). exists t, r. by rewrite Hp. }
  destruct pr.
  - unfold send_processed_end.
    assert (∀ p, tids p = tids (w_priv s) →
      (λ t, (addrs t, ra_list_curr t)) <$> tids (dec_tx_pkts (upd_tid i dec_queued
        (upd_tid i (λ t, upd_ralist b dec_total (mark_sent b t)) p))) !! i = Some (ads, CurAt b)) as H.
    { intros p Hp. change (tids (dec_tx_pkts ?x)) with (tids x).
      rewrite (ring_upd _ _ _ (upd_ralist b dec_total (mark_sent b t))); [|by rewrite (ring_upd _ _ _ t) by by rewrite Hp].
      cbn. rewrite <- Hads, <- (addrs_upd b dec_total t) by done. done. }
    destruct st; try done; cbv zeta; rewrite Hv by done; by apply H.
  - unfold send_single_end. rewrite decide_False, Hv by done. rewrite (ring_upd _ _ _ t) by done. cbn. by rewrite <- Hads.
Qed.

Lemma ring_walk_elem {A} (ok : A → bool) (l : list A) n h k x : ring_walk ok l n h k = Some x → x ∈ l.
Proof.
  revert k. induction n as [|n IH]; intros k; cbn [ring_walk]; [done|]. destruct (l !! k) as [y|] eqn:E; [|done].
  destruct (ok y); [intros [= <-]; by eapply list_elem_of_lookup_2|]. cbv zeta. case_decide; [done|apply IH].
Qed.

(** The searches of the rounds, in turn. *)
Lemma rounds_turns i a l s ads c : rounds i a l s → ring_of i s = Some (ads, c) →
  ∃ ts, turn <$> ts = Some <$> l ∧ (∀ t, ts !! 0%nat = Some t → ra_list_curr t = c) ∧
    (∀ k t, ts !! k = Some t → addrs t = ads ∧ ∃ r, r ∈ ra_list t ∧ r_addr r = a ∧ ready r = true) ∧
    (∀ k t t', ts !! k = Some t → ts !! S k = Some t' → ∃ b, b ∈ ads ∧ turn t = Some b ∧ ra_list_curr t' = CurAt b).
Proof.
  intros Hrun. revert c. induction Hrun as [s|txpd st t r l s s1 s2 s3 s4 Ht Hp Ha Hb H12 Hair Hst He H34 _ IH]; intros c Hc.
  { exists []. by split_and!. }
  apply begin_ring in Hb as (H1 & pr & m & Hair1). apply ring_of_Some in Hc as (t' & Ht' & Hads & Hcur).
  rewrite Ht in Ht'. injection Ht' as <-.
  assert (r_addr r ∈ ads) as Hin.
  { rewrite <- Hads. apply list_elem_of_fmap_2. unfold pick_ralist in Hp. destruct (ra_list t) as [|r0 rs] eqn:El; [done|].
    apply bind_Some in Hp as (q & _ & Hq%(inj Some)). exact (ring_walk_elem _ _ _ _ _ _ Hq). }
  assert (ring_of i s2 = Some (ads, c)) as H2 by (rewrite H12, H1; unfold ring_of; rewrite Ht; cbn; congruence).
  assert (ring_of i s4 = Some (ads, CurAt (r_addr r))) as H4
    by (rewrite H34; by eapply (end_ring st (r_addr r) i pr m s2); [rewrite Hair|..]).
  destruct (IH _ H4) as (ts & Hts & Hc0 & Hst' & Hnx). exists (t :: ts).
  assert (turn t = Some (r_addr r)) as Htu by (unfold turn; by rewrite Hp).
  split; [cbn; by rewrite Hts, Htu|]. split; [by intros ? [= <-]|]. split.
  - intros [|k] t1; [intros [= <-]; done|apply Hst'].
  - intros [|k] t1 t2; [|apply Hnx]. intros [= <-] Hk. exists (r_addr r). split_and!; [done..|by apply Hc0].
Qed.

(** C29: Round robin: from any state the transmit queues can reach, while the RA lists
    of a TID stay the same and one of them has a packet that may go at every search,
    that list is served within as many sends of that TID as there are lists, whatever
    the other lists hold and whatever else happens between and during the sends.  A
    send is the search of the TID, the two halves of the transmission of the packet
    found, one packet at a time, which the bus took or refused for good; it moves the
    cursor. *)
Theorem round_robin (i : nat) (a : Z) (s : wmm_state) (t : wmm_tid) (l : list Z) :
  wmm_reach s → tids (w_priv s) !! i = Some t → a ∈ addrs t →
  rounds i a l s → (length (addrs t) <= length l)%nat → a ∈ take (length (addrs t)) l.
Proof.
  intros Hr Ht Ha Hrun Hlen. destruct (reach_inv s Hr) as [Hw _ _].
  pose proof (addrs_NoDup _ i t (wf_addrs _ _ Hw) Ht) as Hnd.
  assert (cur_ok t) as Hc by (eapply (tk_cur _ t), Forall_lookup_1; [apply (wf_tids _ _ Hw)|done]).
  destruct (rounds_turns i a l s (addrs t) (ra_list_curr t) Hrun) as (ts & Hts & H0 & Hst & Hnx);
    [by unfold ring_of; rewrite Ht|].
  assert (length ts = length l) as Hl by (apply (f_equal length) in Hts; by rewrite !length_fmap in Hts).
  destruct (turns_in_ring (addrs t) a ts) as (k & t' & Hk & Hk' & Htu); [done|lia|done| | |].
  - intros k t' Hk. destruct (Hst k t' Hk) as [Hads Hx]. split; [done|]. split; [|done]. destruct k as [|k].
    + unfold cur_ok in *. rewrite (H0 t' Hk). destruct (ra_list_curr t); [|done|by rewrite Hads].
      exfalso. unfold addrs in Ha. rewrite Hc in Ha. by apply elem_of_nil in Ha.
    + destruct (lookup_lt_is_Some_2 ts k) as [t0 Hk0]; [apply lookup_lt_Some in Hk; lia|].
      destruct (Hnx k t0 t' Hk0 Hk) as (b & Hb & _ & Hcb). unfold cur_ok. by rewrite Hcb, Hads.
  - intros k t1 t2 H1 H2. destruct (Hnx k t1 t2 H1 H2) as (b & _ & ? & ?). by exists b.
  - apply (f_equal (lookup k)) in Hts. rewrite !list_lookup_fmap, Hk' in Hts. cbn in Hts. rewrite Htu in Hts.
    destruct (l !! k) as [y|] eqn:Ey; [|done]. injection Hts as <-.
    apply (list_elem_of_lookup_2 _ k). by rewrite lookup_take_lt.
Qed.

(** ** Queueing keeps the hint *)

Definition may_send_tid (p : wmm_priv) (i : nat) : Prop :=
  ∃ t r, tids p !! i = Some t ∧ r ∈ ra_list t ∧ ready r = true.

(** Nothing that may be sent is new. *)
Definition calm (p p' : wmm_priv) : Prop :=
  hint p' = hint p ∧ ∀ i, may_send_tid p' i ↔ may_send_tid p i.
#[export] Instance calm_trans : Transitive calm.
Proof. intros p1 p2 p3 [H1 H2] [H3 H4]. split; [congruence|]. intros i. by rewrite H4. Qed.
Lemma calm_hint_ok m p p' : calm p p' → hint_ok m p → hint_ok m p'.
Proof.
  intros [Hh Hm] [H1 H2]. unfold hint_ok. rewrite Hh. split; [done|]. intros k Hk Hs.
  destruct (H2 k Hk) as [?|(j & ? & ? & ? & ?)]; [by apply Hm|by left|right]. exists j.
  do 3 (split; [done|]). by apply Hm.
Qed.
Lemma calm_same p p' : tids p' = tids p → prio p' = prio p → calm p p'.
Proof. intros H1 H2. unfold calm, hint, may_send_tid. by rewrite H1, H2. Qed.

Lemma append_list_calm p i t r : tids p !! i = Some t → buf_head r = [] →
  calm p (set_tids (<[i := append_list r t]> (tids p)) p).
Proof.
  intros Hi Hr. split; [done|]. intros j. unfold may_send_tid. cbn [tids set_tids].
  destruct (append_list_fields r t) as (Hl & _). split.
  - intros (t' & r' & [(<- & <- & _)|[_ Hj]]%list_lookup_insert_Some & Hr' & Hok); [|by exists t', r'].
    rewrite Hl in Hr'. apply elem_of_app in Hr' as [Hr'| ->%list_elem_of_singleton]; [by exists t, r'|].
    unfold ready in Hok. rewrite Hr in Hok. by rewrite andb_false_r in Hok.
  - intros (t' & r' & Hj & Hr' & Hok). destruct (decide (i = j)) as [<-|].
    + rewrite Hi in Hj. injection Hj as <-. exists (append_list r t), r'.
      rewrite list_lookup_insert_eq by by eapply lookup_lt_Some.
      rewrite Hl. split; [done|]. split; [|done]. apply elem_of_app. by left.
    + exists t', r'. by rewrite list_lookup_insert_ne.
Qed.

Lemma ralist_add_loop_calm env mac : ∀ todo bs p, length (tids p) = 8%nat →
  Forall (λ i, (i < 8)%nat) todo → calm p (ralist_add_loop env mac bs todo p).
Proof.
  induction todo as [|i todo IH]; intros bs p Hl Hall; [by apply calm_same|].
  destruct bs as [|[a|] bs]; [by apply calm_same| |by apply calm_same]. cbn [ralist_add_loop].
  apply Forall_cons in Hall as [Hi Hall].
  destruct (lookup_lt_is_Some_2 (tids p) i) as [t Ht]; [by rewrite Hl|].
  destruct (ralist_setup_fields p env a mac i) as (Ha & _ & Hb & _).
  set (r := ralist_setup p env a mac i) in *.
  assert (upd_tid i _ p = set_tids (<[i := append_list r t]> (tids p)) p) as ->.
  { rewrite (upd_tid_insert _ _ _ t) by done. unfold append_list. by rewrite Ha. }
  etrans; [by apply (append_list_calm p i t r)|]. apply IH; [|done]. cbn. by rewrite length_insert.
Qed.

Lemma get_queue_raptr_calm env i mac p p' o : length (tids p) = 8%nat →
  wlan_wmm_get_queue_raptr env i mac p = (p', o) → calm p p'.
Proof.
  intros Hl. unfold wlan_wmm_get_queue_raptr. destruct (wlan_wmm_get_ralist_node p i mac) as [[n r]|].
  { intros [= <- <-]. by apply calm_same. }
  case_match; intros He; injection He as <- <-; [by apply calm_same|].
  apply ralist_add_loop_calm; [done|]. repeat constructor; lia.
Qed.

Lemma add_to_ralist_hint env m i t r p : wmm_wf None p → maps_ok (maps env) → tids p !! i = Some t →
  r ∈ ra_list t → hint_ok (maps env) p → hint_ok (maps env) (add_to_ralist env m i r p).
Proof.
  intros Hw Hm Hi Hr [Hh Hk]. pose proof (lookup_lt_Some _ _ _ Hi) as Hlt. rewrite (wf_len _ _ Hw) in Hlt.
  pose proof (addrs_NoDup p i t (wf_addrs _ _ Hw) Hi) as Hnd.
  destruct Hm as (_ & _ & Hm1 & Hm2). destruct (Hm2 (Z.of_nat i) ltac:(lia)) as [Hrk Hinv]. fold (rank (maps env) (Z.of_nat i)) in *.
  assert (∃ t1, tids (add_to_ralist env m i r p) = <[i := t1]> (tids p) ∧
    ra_list t1 = ra_list (upd_ralist (r_addr r) (ralist_append m) t)) as (t1 & Et & El).
  { unfold add_to_ralist. rewrite (upd_tid_insert _ _ _ t) by done. destruct (tx_pause r); by eexists. }
  assert (∀ j, may_send_tid (add_to_ralist env m i r p) j → may_send_tid p j ∨ j = i ∧ tx_pause r = false) as Hnew.
  { intros j (t' & r' & Hj & Hr' & Hok). rewrite Et in Hj.
    apply list_lookup_insert_Some in Hj as [(<- & <- & _)| [_ Hj] ]; [|left; by exists t', r'].
    rewrite El in Hr'. cbn in Hr'. apply list_elem_of_fmap in Hr' as (r0 & -> & Hr0).
    case_decide as Ea; [|left; by exists t, r0]. right. split; [done|].
    assert (r0 = r) as -> by (by destruct (addr_unique p i i t t r0 r (wf_addrs _ _ Hw) Hi Hi Hr0 Hr Ea)). unfold ready in Hok. cbn in Hok.
    by destruct (tx_pause r). }
  assert (∀ j, may_send_tid p j → may_send_tid (add_to_ralist env m i r p) j) as Hold.
  { intros j (t' & r' & Hj & Hr' & Hok). destruct (decide (i = j)) as [<-|].
    - rewrite Hi in Hj. injection Hj as <-.
      exists t1, (if decide (r_addr r' = r_addr r) then ralist_append m r' else r'). rewrite Et.
      split; [by apply list_lookup_insert_eq, (lookup_lt_Some _ _ t)|]. split.
      + rewrite El. cbn. apply list_elem_of_fmap. by exists r'.
      + case_decide; [|done]. unfold ready in *. cbn. destruct (tx_pause r'); [done|]. by destruct (buf_head r').
    - exists t', r'. by rewrite Et, list_lookup_insert_ne. }
  assert (value (hint (add_to_ralist env m i r p)) =
    if tx_pause r then value (hint p) else Z.max (value (hint p)) (rank (maps env) (Z.of_nat i))) as Ehint.
  { unfold add_to_ralist. destruct (tx_pause r); [done|]. unfold raise_hint. cbn. unfold hint. cbn.
    case_match eqn:E; cbn; lia. }
  unfold hint_ok. rewrite Ehint. split; [destruct (tx_pause r); lia|]. intros k Hk8 Hs.
  destruct (Hnew _ Hs) as [Hs'|[Eq Ep]].
  - destruct (Hk k Hk8 Hs') as [Hle|(j & Ej & He & -> & Hj)]; [left; destruct (tx_pause r); lia|].
    apply Hold in Hj. destruct (tx_pause r); [right; by exists j|].
    destruct (decide (rank (maps env) (Z.of_nat i) <= value (hint p))); [|left; lia].
    right. exists j. split; [lia|done].
  - rewrite Ep. left. unfold rank_tid in Eq. destruct (Hm1 (Z.of_nat k) ltac:(lia)) as [Hb Hb2].
    rewrite <- Eq, Z2Nat.id by lia. unfold rank. rewrite Hb2. lia.
Qed.

(** Queueing a packet, whatever becomes of it, keeps the hint of the interface
    good: the next search starts high enough to see it. *)
Theorem add_keeps_hint env m p : wmm_wf None p → maps_ok (maps env) → fresh_blocks None (blocks env) p →
  hint_ok (maps env) p → hint_ok (maps env) (wlan_wmm_add_buf_txqueue env m p).
Proof.
  intros Hw Hm Hf Hh.
  assert (∀ i o p, wmm_wf None p → hint_ok (maps env) p →
    (∀ r, o = Some r → ∃ t, tids p !! i = Some t ∧ r ∈ ra_list t) →
    ∀ m, hint_ok (maps env) (add_found env m i (p, o))) as Hadd.
  { clear -Hm. intros i o p Hw Hh Ho m. destruct o as [r|]; cbn [add_found]; [|done].
    destruct (Ho r eq_refl) as (t & Ht & Hr). by eapply add_to_ralist_hint. }
  assert (∀ i mac p, wmm_wf None p → fresh_blocks None (blocks env) p → hint_ok (maps env) p →
    ∀ m, hint_ok (maps env) (add_found env m i (wlan_wmm_get_queue_raptr env i mac p))) as Hget.
  { intros i mac q Hwq Hfq Hhq m'. destruct (wlan_wmm_get_queue_raptr env i mac q) as [p' o] eqn:E.
    destruct (get_queue_raptr_wf None env i mac q p' o Hwq Hfq E) as (H1 & _ & _ & H4).
    apply Hadd; [done| |done]. eapply calm_hint_ok; [|exact Hhq].
    eapply get_queue_raptr_calm; [apply (wf_len _ _ Hwq)|done]. }
  unfold wlan_wmm_add_buf_txqueue. destruct (negb (media_connected p)); [done|].
  destruct (negb (queuing_ra_based p)).
  - destruct (wlan_is_tdls_link_setup _); [by apply Hget|]. case_decide; [done|].
    apply Hadd; [done|done|]. apply head_tid_elem.
  - set (dst := if flag_set _ _ then _ else _). destruct (is_group dst); [by apply Hget|].
    destruct (decide (bss_type p = MLAN_BSS_TYPE_UAP)); [|by apply Hget].
    destruct (wlan_get_station_entry p dst); [|by apply Hget].
    destruct (count_station_fields dst (Z.of_nat (length (tx_bytes m))) p) as [E1 E2].
    apply Hget; [by apply count_station_wf| |].
    + unfold fresh_blocks in *. by rewrite E2.
    + eapply calm_hint_ok; [|exact Hh]. apply calm_same; [done|]. unfold count_station. by repeat case_match.
Qed.

(** ** A run *)

Lemma hint_top_ok m p : value (hint p) = 7 → hint_ok m p.
Proof. intros H. unfold hint_ok. rewrite H. split; [lia|]. intros k Hk _. left. lia. Qed.
Lemma default_maps_ok : maps_ok default_maps.
Proof. by destruct (maps_good_spec [3; 2; 1; 0] _ eq_refl default_maps_good). Qed.

(** Two interfaces of one priority: one with nothing queued, one with a packet. *)
Definition demo_ad : wmm_adapter :=
  mk_wadapter [demo_priv; w_priv demo_8] default_maps [mk_bss [] 0; mk_bss [0; 1]%nat 2].

Lemma demo_privs b p : privs demo_ad !! b = Some p → wmm_wf None p ∧ value (hint p) = 7.
Proof.
  destruct b as [|[|]]; cbn; [intros [= <-]|intros [= <-]|done]; (split; [|reflexivity]).
  - apply (wi_wf _ (reach_inv demo_start demo_reach_0)).
  - apply (wi_wf _ (reach_inv demo_8 demo_reach_8)).
Qed.
Lemma demo_ad_ok : ad_ok demo_ad.
Proof.
  constructor; [exact default_maps_ok| |].
  - intros b p Hb. destruct (demo_privs b p Hb) as [Hw ->]. split; [done|lia].
  - intros j t. destruct j as [|[|]]; cbn; [intros [= <-]|intros [= <-]|done]; cbn; (split; [lia|]).
    + by intros b Hb%elem_of_nil.
    + intros b Hb. repeat (apply elem_of_cons in Hb as [->|Hb]; [lia|]). by apply elem_of_nil in Hb.
Qed.


Lemma pick_within_two_witness : ∃ ad1 o1 ad2 o2, wlan_wmm_get_highest_priolist_ptr demo_ad = Some (ad1, o1) ∧
  wlan_wmm_get_highest_priolist_ptr ad1 = Some (ad2, o2) ∧
  ((∃ res, o1 = Some res ∧ found demo_ad res) ∨ ∃ res, o2 = Some res ∧ found ad1 res).
Proof.
  apply (pick_within_two demo_ad demo_ad_ok); [vm_compute; reflexivity|].
  intros b Hb. cbn in Hb. destruct b as [|[|b]]; [left|right; left|lia].
Defined.

(** Two receivers with a packet each and one of them with a second: the lists are
    served in turn. *)
Definition demo_mac2 : list Z := [2; 0; 0; 0; 0; 2].
Definition demo_pkt2 : tx_mbuf := mk_txmbuf (demo_mac2 ++ [2; 0; 0; 0; 0; 9; 8; 0; 7]) 5 0 [].
Definition demo_r1 : wmm_state := Eval vm_compute in next_state (RalistAdd (demo_env 300) demo_mac2) demo_2.
Definition demo_r2 : wmm_state := Eval vm_compute in next_state (AddBuf (demo_env 400) demo_pkt2) demo_r1.
Definition demo_r3 : wmm_state := Eval vm_compute in next_state (SendBegin 0 305 5) demo_r2.
Definition demo_r4 : wmm_state := Eval vm_compute in next_state (SendEnd MLAN_STATUS_PENDING) demo_r3.
Definition demo_r5 : wmm_state := Eval vm_compute in next_state (SendBegin 0 105 5) demo_r4.
Definition demo_r6 : wmm_state := Eval vm_compute in next_state (SendEnd MLAN_STATUS_SUCCESS) demo_r5.
Lemma demo_reach_r2 : wmm_reach demo_r2.
Proof.
  apply (reach_step (AddBuf (demo_env 400) demo_pkt2) demo_r1);
    [|split; [by apply fresh_dec|by vm_compute]|vm_compute; reflexivity].
  apply (reach_step (RalistAdd (demo_env 300) demo_mac2) demo_2); [|by apply fresh_dec|vm_compute; reflexivity].
  apply (reach_step (AddBuf (demo_env 200) (demo_pkt 2 5)) demo_1);
    [|split; [by apply fresh_dec|by vm_compute]|vm_compute; reflexivity].
  apply (reach_step (AddBuf (demo_env 100) (demo_pkt 1 5)) demo_start);
    [|split; [by apply fresh_dec|by vm_compute]|vm_compute; reflexivity].
  exact demo_reach_0.
Qed.
Definition demo_tid (s : wmm_state) : wmm_tid := default (mk_tid [] CurNull 0 0 0) (tids (w_priv s) !! 5%nat).
Definition demo_picked (s : wmm_state) : raListTbl :=
  default (wlan_wmm_allocate_ralist_node 0 demo_mac) (mjoin (pick_ralist (demo_tid s))).
Lemma demo_rounds : rounds 5 105 [305; 105] demo_r2.
Proof.
  apply (rounds_serve 5 105 0 MLAN_STATUS_PENDING (demo_tid demo_r2) (demo_picked demo_r2) [105]
    demo_r2 demo_r3 demo_r3 demo_r4 demo_r4); [vm_compute; reflexivity..| |vm_compute; reflexivity|done|done|done|
    vm_compute; reflexivity|done|].
  { eexists. split; [left|]. vm_compute. split; reflexivity. }
  apply (rounds_serve 5 105 0 MLAN_STATUS_SUCCESS (demo_tid demo_r4) (demo_picked demo_r4) []
    demo_r4 demo_r5 demo_r5 demo_r6 demo_r6); [vm_compute; reflexivity..| |vm_compute; reflexivity|done|done|done|
    vm_compute; reflexivity|done|constructor].
  eexists. split; [left|]. vm_compute. split; reflexivity.
Qed.

Lemma round_robin_witness : ∃ t, tids (w_priv demo_r2) !! 5%nat = Some t ∧ addrs t = [105; 305] ∧
  105 ∈ take (length (addrs t)) [305; 105].
Proof.
  eexists. split; [vm_compute; reflexivity|]. split; [reflexivity|].
  eapply (round_robin 5 105 demo_r2 _ [305; 105] demo_reach_r2);
    [vm_compute; reflexivity|left|exact demo_rounds|vm_compute; lia].
Defined.

Lemma add_keeps_hint_witness : hint_ok default_maps (wlan_wmm_add_buf_txqueue (demo_env 100) (demo_pkt 1 5) demo_priv).
Proof.
  apply (add_keeps_hint (demo_env 100) (demo_pkt 1 5) demo_priv).
  - exact (wi_wf _ (reach_inv demo_start demo_reach_0)).
  - exact default_maps_ok.
  - by apply fresh_dec.
  - by apply hint_top_ok.
Defined.
