(* ===== verification/WmmCont.v ===== *)
(** * mlan_wmm.c: contention between the transmit queues

    With many clients the driver itself decides which access category sends next,
    the way stations share the air: every queue waits its AIFS and a random
    backoff, the queue whose time is up first wins, queues that finish together
    collide.  The time is not spent but computed.  Theorems: a round has a winner
    exactly if a queue has something to send, it is the first of those with the
    least time left, nothing wraps, and winner, losers and colliders draw or keep
    what the code says, number by number of the generator. *)

From S2P Require Import Prelude WmmPrio.
#[local] Open Scope Z_scope.

(** ** Data *)

Record mlan_wmm_param := mk_param { ecwmin : Z; ecwmax : Z; p_aifsn : Z }.
Record mlan_wmm_contention := mk_cont {
  param : mlan_wmm_param;
  ecw : Z;   (** t_u8 *)
  move_cw_on_lost : bool;
  remaining_aifs : Z;   (** t_u16 *)
  remaining_backoff : Z   (** t_u16 *)
}.

Definition set_ecw (x : Z) (c : mlan_wmm_contention) : mlan_wmm_contention :=
  mk_cont (param c) x (move_cw_on_lost c) (remaining_aifs c) (remaining_backoff c).
Definition set_aifs (x : Z) (c : mlan_wmm_contention) : mlan_wmm_contention :=
  mk_cont (param c) (ecw c) (move_cw_on_lost c) x (remaining_backoff c).
Definition set_backoff (x : Z) (c : mlan_wmm_contention) : mlan_wmm_contention :=
  mk_cont (param c) (ecw c) (move_cw_on_lost c) (remaining_aifs c) x.

(** ** Operations *)

(** The static [state]; the value returned is the new state. *)
Definition wmm_get_random_num (state : Z) : Z :=
  let state := Z.lxor state (u32 (Z.shiftl state 13)) in
  let state := Z.lxor state (Z.shiftr state 17) in
  Z.lxor state (u32 (Z.shiftl state 5)).

Definition wlan_wmm_txq_contention_reset_aifs (c : mlan_wmm_contention) : mlan_wmm_contention :=
  set_aifs (u16 (p_aifsn (param c) * 9 + 16)) c.

(** Each takes and returns the random state. *)
Definition wlan_wmm_txq_contention_reset_backoff (c : mlan_wmm_contention) (rnd : Z)
  : mlan_wmm_contention * Z :=
  let mask := u32 (u32 (Z.shiftl 1 (ecw c)) - 1) in
  let rnd := wmm_get_random_num rnd in
  (set_backoff (u16 (u32 (Z.land rnd mask * 9))) c, rnd).

Definition wlan_wmm_txq_get_remaining_time (c : mlan_wmm_contention) : Z :=
  remaining_aifs c + remaining_backoff c.

Definition wlan_wmm_txq_count_donw (c : mlan_wmm_contention) (duration : Z) : mlan_wmm_contention * bool :=
  let '(c, duration) :=
    if remaining_aifs c >? 0 then
      let del := Z.min (remaining_aifs c) duration in
      (set_aifs (u16 (remaining_aifs c - del)) c, u32 (duration - del))
    else (c, duration) in
  let c := if remaining_aifs c =? 0 then set_backoff (u16 (remaining_backoff c - duration)) c else c in
  (c, (remaining_backoff c =? 0) && (remaining_aifs c =? 0)).

Definition wlan_wmm_txq_win (c : mlan_wmm_contention) (rnd : Z) : mlan_wmm_contention * Z :=
  wlan_wmm_txq_contention_reset_backoff
    (wlan_wmm_txq_contention_reset_aifs (set_ecw (ecwmin (param c)) c)) rnd.

Definition wlan_wmm_txq_lost (c : mlan_wmm_contention) (rnd : Z) : mlan_wmm_contention * Z :=
  let c := wlan_wmm_txq_contention_reset_aifs c in
  if move_cw_on_lost c
  then wlan_wmm_txq_contention_reset_backoff (set_ecw (u8 (Z.min (ecw c + 1) (ecwmax (param c)))) c) rnd
  else (c, rnd).

Definition wlan_wmm_txq_collision (c : mlan_wmm_contention) (rnd : Z) : mlan_wmm_contention * Z :=
  wlan_wmm_txq_contention_reset_backoff
    (wlan_wmm_txq_contention_reset_aifs (set_ecw (u8 (Z.min (ecw c + 1) (ecwmax (param c)))) c)) rnd.

Definition wlan_wmm_txq_contention_setup (move : bool) (p : WmmAcParameters) (rnd : Z)
  : mlan_wmm_contention * Z :=
  let c := mk_cont (mk_param (ecw_min p) (ecw_max p) (aifsn p)) (ecw_min p) move 0 0 in
  wlan_wmm_txq_contention_reset_backoff (wlan_wmm_txq_contention_reset_aifs c) rnd.

(** The first loop: the least time of the queues [pend] marks, from [INT_MAX]. *)
Definition least_time (pend : list bool) (conts : list mlan_wmm_contention) : Z :=
  foldl (λ t (x : bool * mlan_wmm_contention),
    if x.1 then Z.min t (wlan_wmm_txq_get_remaining_time x.2) else t) 2147483647 (zip pend conts).

(** The body of the second loop for an active queue [q]; [won] is [has_winner] with
    [winner_queue]. *)
Definition contend_one (d q : Z) (c : mlan_wmm_contention) (rnd : Z) (won : option Z)
  : mlan_wmm_contention * Z * option Z :=
  let '(c, winner) := wlan_wmm_txq_count_donw c d in
  if winner : bool then
    match won with
    | None => (wlan_wmm_txq_win c rnd, Some q)
    | Some w => (wlan_wmm_txq_collision c rnd, Some w)
    end
  else (wlan_wmm_txq_lost c rnd, won).

(** The second loop, from queue [q] on. *)
Fixpoint contend (d q : Z) (l : list (bool * mlan_wmm_contention)) (rnd : Z) (won : option Z)
  : list mlan_wmm_contention * Z * option Z :=
  match l with
  | [] => ([], rnd, won)
  | (active, c) :: l =>
      let '(c, rnd, won) := if active : bool then contend_one d q c rnd won else (c, rnd, won) in
      let '(cs, rnd, won) := contend d (q + 1) l rnd won in
      (c :: cs, rnd, won)
  end.

(** [pend]: whether [pending_txq] of each queue has an entry.  The winner is -1 if
    none has. *)
Definition wlan_wmm_contention_get_winner (pend : list bool) (conts : list mlan_wmm_contention) (rnd : Z)
  : list mlan_wmm_contention * Z * Z :=
  let '(cs, rnd, won) := contend (least_time pend conts) 0 (zip pend conts) rnd None in
  (cs, rnd, default (-1) won).

Definition AC_BE : Z := 0.
Definition AC_BK : Z := 1.
Definition AC_VI : Z := 2.
Definition AC_VO : Z := 3.
Definition wmm_ac_to_aci_map : list Z := [AC_BK; AC_BE; AC_VI; AC_VO].

#[export] Instance WmmAcParameters_inhabited : Inhabited WmmAcParameters :=
  populate (mk_acp 0 false 0 0 0 0).

(** The queues in the order of [queue_priority]. *)
Fixpoint contention_init_loop (qp : list Z) (ac_params : list WmmAcParameters) (rnd : Z)
  : list mlan_wmm_contention * Z :=
  match qp with
  | [] => ([], rnd)
  | ac :: qp =>
      let aci := zget wmm_ac_to_aci_map ac in
      let '(c, rnd) := wlan_wmm_txq_contention_setup (aci =? AC_BK) (zget ac_params aci) rnd in
      let '(cs, rnd) := contention_init_loop qp ac_params rnd in
      (c :: cs, rnd)
  end.
Definition wlan_wmm_contention_init (ac_params : option (list WmmAcParameters)) (p : wmm_prio)
    (conts : list mlan_wmm_contention) (rnd : Z) : list mlan_wmm_contention * Z :=
  match ac_params with
  | None => (conts, rnd)
  | Some ps => contention_init_loop (queue_priority p) ps rnd
  end.

(** ** The random numbers *)

Lemma lxor_range a b n : 0 <= a < 2 ^ n → 0 <= b < 2 ^ n → 0 <= Z.lxor a b < 2 ^ n.
Proof.
  intros Ha Hb. assert (0 <= Z.lxor a b) as H0 by (apply Z.lxor_nonneg; lia). split; [done|].
  destruct (decide (Z.lxor a b = 0)) as [->|]; [lia|].
  assert (∀ x, 0 <= x < 2 ^ n → x = 0 ∨ Z.log2 x < n) as Hl.
  { intros x Hx. destruct (decide (x = 0)); [by left|right]. apply Z.log2_lt_pow2; lia. }
  assert (0 < n).
  { destruct (decide (0 < n)); [done|]. exfalso. assert (2 ^ n <= 2 ^ 0) by (apply Z.pow_le_mono_r; lia).
    assert (a = 0) by lia. assert (b = 0) by lia. subst. done. }
  apply Z.log2_lt_pow2; [lia|]. eapply Z.le_lt_trans; [apply Z.log2_lxor; lia|].
  apply Z.max_lub_lt; [destruct (Hl a Ha) as [->|]|destruct (Hl b Hb) as [->|]]; cbn; lia.
Qed.

Lemma xor_shl_pos x k : 0 < x < 2 ^ 32 → 0 < k →
  0 < Z.lxor x (u32 (Z.shiftl x k)) < 2 ^ 32.
Proof.
  intros Hx Hk. pose proof (u_wrap_range 32 (Z.shiftl x k)) as Hu.
  destruct (lxor_range x (u32 (Z.shiftl x k)) 32) as [H0 H1]; [lia|by apply Hu|].
  split; [|done]. destruct (decide (Z.lxor x (u32 (Z.shiftl x k)) = 0)) as [E%Z.lxor_eq|]; [|lia]. exfalso.
  assert (∀ n, Z.testbit x (Z.of_nat n) = false) as Hz.
  { intros n. induction n as [n IH] using lt_wf_ind. rewrite E. unfold u_wrap.
    destruct (decide (Z.of_nat n < 32)); [|by rewrite Z.mod_pow2_bits_high by lia].
    rewrite Z.mod_pow2_bits_low, Z.shiftl_spec by lia.
    destruct (decide (Z.of_nat n < k)); [by rewrite Z.testbit_neg_r by lia|].
    replace (Z.of_nat n - k) with (Z.of_nat (Z.to_nat (Z.of_nat n - k))) by lia. apply IH. lia. }
  assert (x = 0); [|lia]. apply Z.bits_inj_0. intros n. destruct (decide (n < 0)); [by apply Z.testbit_neg_r|].
  rewrite <- (Z2Nat.id n) by lia. apply Hz.
Qed.

Lemma xor_shr_pos x k : 0 < x < 2 ^ 32 → 0 < k → 0 < Z.lxor x (Z.shiftr x k) < 2 ^ 32.
Proof.
  intros Hx Hk. rewrite Z.shiftr_div_pow2 by lia.
  assert (1 < 2 ^ k) as H2 by (apply Z.pow_gt_1; lia).
  assert (0 <= x / 2 ^ k < x) as Hd by (split; [apply Z.div_pos; lia|apply Z.div_lt; lia]).
  assert (Z.lxor x (x / 2 ^ k) ≠ 0) as Hne by (intros E%Z.lxor_eq; lia).
  destruct (lxor_range x (x / 2 ^ k) 32); lia.
Qed.

(** The generator stays within 32 bits and never reaches 0, where it would stay. *)
Lemma random_num_pos s : 0 < s < 2 ^ 32 → 0 < wmm_get_random_num s < 2 ^ 32.
Proof.
  intros Hs. unfold wmm_get_random_num. apply xor_shl_pos; [|lia]. apply xor_shr_pos; [|lia].
  by apply xor_shl_pos.
Qed.

(** ** One queue *)

Record cont_ok (c : mlan_wmm_contention) : Prop := {
  co_min : 0 <= ecwmin (param c) <= 15;
  co_max : 0 <= ecwmax (param c) <= 15;
  co_aifsn : 0 <= p_aifsn (param c) <= 15;
  co_ecw : 0 <= ecw c <= 15;
  co_aifs : 0 <= remaining_aifs c <= 151;
  co_back : 0 <= remaining_backoff c < 2 ^ 16
}.

Definition full_aifs (c : mlan_wmm_contention) : Z := p_aifsn (param c) * 9 + 16.
Abbreviation rem_time := wlan_wmm_txq_get_remaining_time.

(** A backoff drawn from the contention window (cut to 16 bits). *)
Definition drawn (c : mlan_wmm_contention) : Prop :=
  ∃ k, 0 <= k < 2 ^ ecw c ∧ remaining_backoff c = u16 (k * 9).
(** The backoff that random number [r] gives in the contention window (cut to 16 bits). *)
Definition backoff_of (r : Z) (c : mlan_wmm_contention) : Z := u16 (r mod 2 ^ ecw c * 9).
(** The queues that draw a new backoff: those whose time is over and, of the others,
    those told to grow their window when they lose. *)
Definition redraws (d : Z) (c : mlan_wmm_contention) : bool := (rem_time c =? d) || move_cw_on_lost c.
(** What a round of [d] microseconds makes of a queue that has something to send; [r]
    is the next random number. *)
Definition after_round (d : Z) (wins : bool) (r : Z) (c c' : mlan_wmm_contention) : Prop :=
  param c' = param c ∧ move_cw_on_lost c' = move_cw_on_lost c ∧ remaining_aifs c' = full_aifs c ∧
  ecw c' = (if (rem_time c =? d) && wins then ecwmin (param c)
            else if redraws d c then Z.min (ecw c + 1) (ecwmax (param c)) else ecw c) ∧
  remaining_backoff c' = (if redraws d c then backoff_of r c'
                          else remaining_backoff c - Z.max 0 (d - remaining_aifs c)).

(** The draws of the first queues of a round, and the random number after [k] draws. *)
Definition draws (d : Z) (l : list (bool * mlan_wmm_contention)) : nat :=
  length (filter (λ x, x.1 && redraws d x.2 = true) l).
Definition random_at (k : nat) (rnd : Z) : Z := Nat.iter k wmm_get_random_num rnd.

Lemma reset_backoff_spec c rnd : 0 <= ecw c <= 15 → 0 < rnd < 2 ^ 32 →
  let '(c', rnd') := wlan_wmm_txq_contention_reset_backoff c rnd in
  rnd' = wmm_get_random_num rnd ∧ 0 < rnd' < 2 ^ 32 ∧ drawn c' ∧ remaining_backoff c' = backoff_of rnd' c' ∧
  c' = set_backoff (remaining_backoff c') c.
Proof.
  intros He Hr. cbn. pose proof (random_num_pos rnd Hr) as Hp. split; [done|]. split; [done|].
  assert (1 <= 2 ^ ecw c <= 2 ^ 15) as Hb.
  { split; [apply (Z.pow_le_mono_r 2 0); lia|apply Z.pow_le_mono_r; lia]. }
  assert (u32 (u32 (Z.shiftl 1 (ecw c)) - 1) = Z.ones (ecw c)) as ->.
  { rewrite Z.shiftl_mul_pow2, Z.mul_1_l, Z.ones_equiv by lia. by rewrite !u_wrap_small by (rewrite ?u_wrap_small; lia). }
  rewrite Z.land_ones by lia. pose proof (Z.mod_pos_bound (wmm_get_random_num rnd) (2 ^ ecw c)) as Hm.
  unfold backoff_of. cbn. rewrite (u_wrap_small 32) by lia. split; [|done].
  eexists. split; [apply Hm; lia|done].
Qed.

Lemma drawn_range c : drawn c → 0 <= remaining_backoff c < 2 ^ 16.
Proof. intros (k & _ & ->). by apply u_wrap_range. Qed.

Lemma full_aifs_u16 c : cont_ok c → u16 (p_aifsn (param c) * 9 + 16) = full_aifs c ∧ 16 <= full_aifs c <= 151.
Proof. intros H. pose proof (co_aifsn _ H). unfold full_aifs. split; [apply u_wrap_small; lia|lia]. Qed.

Lemma backoff_of_range r c : 0 <= backoff_of r c < 2 ^ 16.
Proof. by apply u_wrap_range. Qed.
Lemma after_round_ok d w r c c' : cont_ok c → after_round d w r c c' → 0 <= d <= rem_time c → cont_ok c'.
Proof.
  intros Hc (Hp & Hm & Ha & He' & Hb') Hd. pose proof (full_aifs_u16 c Hc) as [_ Hf]. destruct Hc.
  unfold rem_time in *.
  assert (0 <= ecw c' <= 15) as He by (rewrite He'; repeat case_match; lia).
  assert (0 <= remaining_backoff c' < 2 ^ 16) as Hb by (rewrite Hb'; case_match; [apply backoff_of_range|lia]).
  constructor; rewrite ?Hp; try done. lia.
Qed.

(** Counting down takes the time from the AIFS first; it ends at zero. *)
Lemma count_donw_spec c d : cont_ok c → 0 <= d <= rem_time c →
  wlan_wmm_txq_count_donw c d =
    (set_backoff (remaining_backoff c - Z.max 0 (d - remaining_aifs c))
       (set_aifs (Z.max 0 (remaining_aifs c - d)) c), rem_time c =? d).
Proof.
  intros Hc Hd. pose proof (co_aifs _ Hc). pose proof (co_back _ Hc). unfold rem_time in *.
  unfold wlan_wmm_txq_count_donw. destruct c as [p e m aifs back]. cbn in *.
  destruct (aifs >? 0) eqn:E; cbn.
  - rewrite (u_wrap_small 16), (u_wrap_small 32) by lia.
    destruct (aifs - Z.min aifs d =? 0) eqn:E2; cbn; rewrite ?E2; unfold set_backoff, set_aifs; cbn.
    + rewrite (u_wrap_small 16) by lia. f_equal; [f_equal; lia|]. rewrite andb_true_r.
      apply eq_true_iff_eq. rewrite !Z.eqb_eq. lia.
    + f_equal; [f_equal; lia|]. rewrite andb_false_r. symmetry. lia.
  - destruct (aifs =? 0) eqn:E2; [|lia]. cbn. rewrite E2. unfold set_backoff, set_aifs; cbn.
    rewrite (u_wrap_small 16) by lia. f_equal; [f_equal; lia|]. rewrite andb_true_r.
    apply eq_true_iff_eq. rewrite !Z.eqb_eq. lia.
Qed.

Lemma redraw_spec e c rnd : 0 <= e <= 15 → 0 < rnd < 2 ^ 32 →
  let '(c', rnd') := wlan_wmm_txq_contention_reset_backoff (wlan_wmm_txq_contention_reset_aifs (set_ecw e c)) rnd in
  rnd' = wmm_get_random_num rnd ∧ 0 < rnd' < 2 ^ 32 ∧ remaining_backoff c' = backoff_of rnd' c' ∧
  ecw c' = e ∧ param c' = param c ∧ move_cw_on_lost c' = move_cw_on_lost c ∧ remaining_aifs c' = u16 (p_aifsn (param c) * 9 + 16).
Proof.
  intros He Hr. pose proof (reset_backoff_spec (wlan_wmm_txq_contention_reset_aifs (set_ecw e c)) rnd He Hr) as H.
  destruct (wlan_wmm_txq_contention_reset_backoff _ _) as [c' r']. destruct H as (H1 & H2 & _ & H3 & H4).
  do 3 (split; [done|]). by rewrite H4.
Qed.

Lemma contend_one_spec d q c rnd won : cont_ok c → 0 <= d <= rem_time c → 0 < rnd < 2 ^ 32 →
  let '(c', rnd', won') := contend_one d q c rnd won in
  0 < rnd' < 2 ^ 32 ∧ rnd' = random_at (if redraws d c then 1 else 0) rnd ∧
  won' = match won with Some w => Some w | None => if rem_time c =? d then Some q else None end ∧
  after_round d (bool_decide (won = None)) (wmm_get_random_num rnd) c c'.
Proof.
  intros Hc Hd Hr. unfold contend_one. rewrite count_donw_spec by done. cbv beta iota zeta.
  set (c1 := set_backoff _ _). pose proof (full_aifs_u16 c Hc) as [Hf _].
  assert (0 <= Z.min (ecw c + 1) (ecwmax (param c)) <= 15) as Hcw by (destruct Hc; lia).
  assert (u8 (Z.min (ecw c + 1) (ecwmax (param c))) = Z.min (ecw c + 1) (ecwmax (param c))) as Hu
    by (apply u_wrap_small; lia).
  pose proof (redraw_spec _ c1 rnd Hcw Hr) as Hmore. pose proof (redraw_spec _ c1 rnd (co_min _ Hc) Hr) as Hmin.
  unfold after_round, redraws. destruct (rem_time c =? d) eqn:E; cbn [orb andb].
  - destruct won as [w|].
    + unfold wlan_wmm_txq_collision. change (ecw c1) with (ecw c). change (param c1) with (param c). rewrite Hu.
      destruct (wlan_wmm_txq_contention_reset_backoff _ _) as [c2 r2].
      destruct Hmore as (-> & ? & ? & ? & ? & ? & ->). rewrite bool_decide_false by done. done.
    + unfold wlan_wmm_txq_win. change (param c1) with (param c). clear Hmore.
      destruct (wlan_wmm_txq_contention_reset_backoff _ _) as [c2 r2].
      destruct Hmin as (-> & ? & ? & ? & ? & ? & ->). rewrite bool_decide_true by done. done.
  - unfold wlan_wmm_txq_lost. change (move_cw_on_lost (wlan_wmm_txq_contention_reset_aifs c1)) with (move_cw_on_lost c).
    assert (won = match won with Some w => Some w | None => None end) as Hwon by (by destruct won).
    destruct (move_cw_on_lost c) eqn:Em.
    + change (set_ecw ?e (wlan_wmm_txq_contention_reset_aifs c1)) with (wlan_wmm_txq_contention_reset_aifs (set_ecw e c1)).
      change (ecw (wlan_wmm_txq_contention_reset_aifs c1)) with (ecw c).
      change (param (wlan_wmm_txq_contention_reset_aifs c1)) with (param c). rewrite Hu.
      destruct (wlan_wmm_txq_contention_reset_backoff _ _) as [c2 r2].
      destruct Hmore as (-> & ? & ? & ? & ? & -> & ->). done.
    + do 3 (split; [done|]). cbn. by rewrite Hf.
Qed.

(** ** A round *)

(** The first queue, from [q] on, that has something to send and whose time is [d]. *)
Fixpoint first_done (d q : Z) (l : list (bool * mlan_wmm_contention)) : option Z :=
  match l with
  | [] => None
  | (active, c) :: l => if active && (rem_time c =? d) then Some q else first_done d (q + 1) l
  end.

Lemma first_done_ge d l : ∀ q w, first_done d q l = Some w → q <= w.
Proof.
  induction l as [|[a c] l IH]; intros q w; cbn; [done|].
  destruct (a && _); [intros [= <-]; lia|]. intros H%IH. lia.
Qed.

Lemma draws_cons d (a : bool) c l :
  draws d ((a, c) :: l) = ((if a && redraws d c then 1 else 0) + draws d l)%nat.
Proof. unfold draws. rewrite filter_cons. cbn [fst snd]. by destruct (a && redraws d c). Qed.
Lemma random_at_add n m rnd : random_at (n + m) rnd = random_at m (random_at n rnd).
Proof. unfold random_at. rewrite Nat.add_comm. apply Nat.iter_add. Qed.
Lemma random_at_S n rnd : random_at (S n) rnd = wmm_get_random_num (random_at n rnd).
Proof. done. Qed.

(** Who wins matters to the queues whose time is over only. *)
Lemma after_round_wins d w w' r c c' : (rem_time c = d → w = w') → after_round d w r c c' → after_round d w' r c c'.
Proof.
  unfold after_round. destruct (Z.eqb_spec (rem_time c) d) as [E|E]; cbn [andb]; [|done].
  intros Hw. by rewrite Hw.
Qed.

Lemma contend_spec d l : ∀ q rnd won, 0 < rnd < 2 ^ 32 →
  Forall (λ x, x.1 = true → cont_ok x.2 ∧ 0 <= d <= rem_time x.2) l →
  let '(cs, rnd', won') := contend d q l rnd won in
  0 < rnd' < 2 ^ 32 ∧ rnd' = random_at (draws d l) rnd ∧
  won' = match won with Some w => Some w | None => first_done d q l end ∧
  length cs = length l ∧
  ∀ j a c, l !! j = Some (a, c) → ∃ c', cs !! j = Some c' ∧
    if a : bool then after_round d (bool_decide (won = None ∧ won' = Some (q + Z.of_nat j)))
      (random_at (S (draws d (take j l))) rnd) c c' else c' = c.
Proof.
  induction l as [|[a c] l IH]; intros q rnd won Hr Hl; cbn [contend first_done]; [by destruct won|].
  apply Forall_cons in Hl as [Hx Hl].
  assert (∃ c1 rnd1 won1, (if a then contend_one d q c rnd won else (c, rnd, won)) = (c1, rnd1, won1) ∧
    0 < rnd1 < 2 ^ 32 ∧ rnd1 = random_at (if a && redraws d c then 1 else 0) rnd ∧
    won1 = match won with Some w => Some w | None => if a && (rem_time c =? d) then Some q else None end ∧
    (if a then after_round d (bool_decide (won = None)) (wmm_get_random_num rnd) c c1 else c1 = c))
    as (c1 & rnd1 & won1 & -> & Hr1 & Hrd1 & Hw1 & Ha1).
  { destruct a; [|exists c, rnd, won; do 3 (split; [done|]); by destruct won].
    destruct (Hx eq_refl) as [Hc Hd]. pose proof (contend_one_spec d q c rnd won Hc Hd Hr) as H1. cbn [fst snd] in *.
    destruct (contend_one d q c rnd won) as [[c1 rnd1] won1]. by exists c1, rnd1, won1. }
  pose proof (IH (q + 1) rnd1 won1 Hr1 Hl) as H2. destruct (contend d (q + 1) l rnd1 won1) as [[cs rnd2] won2].
  destruct H2 as (Hr2 & Hrd2 & Hw2 & Hlen & Hj). split; [done|].
  split; [by rewrite draws_cons, random_at_add, <- Hrd1|].
  assert (won2 = match won with Some w => Some w | None =>
    if a && (rem_time c =? d) then Some q else first_done d (q + 1) l end) as Hw.
  { rewrite Hw2, Hw1. destruct won; [done|]. by destruct (a && (rem_time c =? d)). }
  split; [done|]. split; [cbn; lia|]. intros [|j] a' c'; cbn [lookup list_lookup].
  - intros [= <- <-]. exists c1. split; [done|]. destruct a; [|done]. revert Ha1. apply after_round_wins.
    intros E%Z.eqb_eq. cbn [andb] in *. rewrite E in Hw, Hw1. apply bool_decide_ext.
    split; [|by intros [? _]]. intros ->. split; [done|]. rewrite Hw. f_equal. lia.
  - intros Hj'. destruct (Hj j a' c' Hj') as (c2 & Hc2 & Ha2). exists c2. split; [done|].
    destruct a'; [|done]. cbn [take]. rewrite draws_cons, <- Nat.add_succ_r, random_at_add, <- Hrd1.
    revert Ha2. apply after_round_wins. intros _. apply bool_decide_ext. rewrite Hw1.
    replace (q + 1 + Z.of_nat j) with (q + Z.of_nat (S j)) by lia.
    destruct won; [done|]. destruct (a && (rem_time c =? d)); [|done].
    rewrite Hw. split; [by intros [? _]|]. intros [_ [= Hq]]. lia.
Qed.

Lemma least_time_spec (l : list (bool * mlan_wmm_contention)) : ∀ t,
  let d := foldl (λ t (x : bool * mlan_wmm_contention), if x.1 then Z.min t (rem_time x.2) else t) t l in
  d <= t ∧ (∀ x, x ∈ l → x.1 = true → d <= rem_time x.2) ∧
  (d = t ∨ ∃ x, x ∈ l ∧ x.1 = true ∧ d = rem_time x.2).
Proof.
  induction l as [|[a c] l IH]; intros t; cbv zeta; cbn [foldl fst snd].
  { split; [lia|]. split; [by intros x Hx%elem_of_nil|by left]. }
  destruct (IH (if a then Z.min t (rem_time c) else t)) as (H1 & H2 & H3). cbv zeta in *.
  split; [destruct a; lia|]. split.
  - intros x [->|Hx]%elem_of_cons Ha; [cbn in *; subst a; lia|by apply H2].
  - destruct H3 as [H3|(x & Hx & Ha & Hd)]; [|right; exists x; split; [by right|done]].
    destruct a; [|by left]. destruct (Z.min_spec t (rem_time c)) as [[_ E]|[_ E]]; rewrite E in H3 |- *; [by left|].
    right. exists (true, c). split; [left|done].
Qed.

Lemma first_done_spec d l : ∀ q,
  match first_done d q l with
  | None => ∀ j a c, l !! j = Some (a, c) → a = true → rem_time c ≠ d
  | Some w => ∃ j c, w = q + Z.of_nat j ∧ l !! j = Some (true, c) ∧ rem_time c = d ∧
      ∀ i c', (i < j)%nat → l !! i = Some (true, c') → rem_time c' ≠ d
  end.
Proof.
  induction l as [|[a c] l IH]; intros q; cbn; [by intros j a c Hj|].
  destruct (a && (rem_time c =? d)) eqn:E.
  - apply andb_true_iff in E as [-> E%Z.eqb_eq]. exists 0%nat, c. split; [lia|]. split; [done|]. split; [done|]. lia.
  - specialize (IH (q + 1)). destruct (first_done d (q + 1) l) as [w|].
    + destruct IH as (j & c' & -> & Hj & Hd & Hmin). exists (S j), c'. split; [lia|]. split; [done|]. split; [done|].
      intros [|i] c2 Hi; cbn; [|apply Hmin; lia]. intros [= -> ->]. cbn in E. by apply Z.eqb_neq.
    + intros [|j] a' c'; cbn; [intros [= -> ->] ->; cbn in E; by apply Z.eqb_neq|apply IH].
Qed.

Lemma zip_pair {A B} (l : list A) (k : list B) q a b :
  zip l k !! q = Some (a, b) ↔ l !! q = Some a ∧ k !! q = Some b.
Proof. rewrite lookup_zip_with_Some. split; [intros (x & y & [= -> ->] & ? & ?); done|intros [? ?]; eauto]. Qed.

(** The time that passes is no more than any active queue has left. *)
Lemma least_time_bounds pend conts : Forall cont_ok conts →
  let d := least_time pend conts in
  (∀ q c, pend !! q = Some true → conts !! q = Some c → cont_ok c ∧ 0 <= d <= rem_time c) ∧
  ∀ q, pend !! q = Some true → (q < length conts)%nat →
    ∃ j cj, pend !! j = Some true ∧ conts !! j = Some cj ∧ rem_time cj = d.
Proof.
  intros Hok. cbv zeta. unfold least_time.
  destruct (least_time_spec (zip pend conts) 2147483647) as (_ & H2 & H3). cbv zeta in H2, H3.
  set (d := foldl _ _ _) in *. rewrite Forall_lookup in Hok.
  assert (∀ q c, conts !! q = Some c → 0 <= rem_time c < 2 ^ 17) as Hrem.
  { intros q c Hc. destruct (Hok q c Hc). unfold rem_time. lia. }
  assert (∀ q c, pend !! q = Some true → conts !! q = Some c → d <= rem_time c) as Hle.
  { intros q c Hp Hc. apply (H2 (true, c)); [|done]. apply (list_elem_of_lookup_2 _ q). by apply zip_pair. }
  split.
  - intros q c Hp Hc. split; [by eapply Hok|]. split; [|by eapply Hle].
    destruct H3 as [->|((a & c') & Hx & _ & ->)]; [lia|].
    apply list_elem_of_lookup in Hx as [i [_ Hi]%zip_pair]. by eapply Hrem.
  - intros q Hp Hq. destruct H3 as [E|((a & cm) & Hx & Ha & E)].
    + destruct (lookup_lt_is_Some_2 conts q Hq) as [c Hc]. pose proof (Hle q c Hp Hc). pose proof (Hrem q c Hc). lia.
    + apply list_elem_of_lookup in Hx as [i [Hi1 Hi2]%zip_pair]. cbn in Ha, E. subst a. by exists i, cm.
Qed.

Lemma contention_facts pend conts rnd : length pend = length conts → Forall cont_ok conts → 0 < rnd < 2 ^ 32 →
  let d := least_time pend conts in
  let '(cs, rnd', won) := contend d 0 (zip pend conts) rnd None in
  0 < rnd' < 2 ^ 32 ∧ rnd' = random_at (draws d (zip pend conts)) rnd ∧ length cs = length conts ∧
  match won with
  | None => ∀ q, pend !! q ≠ Some true
  | Some w => ∃ j cj, w = Z.of_nat j ∧ pend !! j = Some true ∧ conts !! j = Some cj ∧ rem_time cj = d ∧
      ∀ q c, pend !! q = Some true → conts !! q = Some c → d <= rem_time c ∧ (d = rem_time c → (j <= q)%nat)
  end ∧
  ∀ q a c, pend !! q = Some a → conts !! q = Some c → ∃ c', cs !! q = Some c' ∧ cont_ok c' ∧
    if a : bool then after_round d (bool_decide (won = Some (Z.of_nat q)))
      (random_at (S (draws d (take q (zip pend conts)))) rnd) c c' else c' = c.
Proof.
  intros Hlen Hok Hr. cbv zeta. destruct (least_time_bounds pend conts Hok) as [Hb He]. set (d := least_time pend conts) in *.
  pose proof (contend_spec d (zip pend conts) 0 rnd None Hr) as Hc.
  pose proof (first_done_spec d (zip pend conts) 0) as Hf.
  destruct (contend d 0 (zip pend conts) rnd None) as [[cs rnd'] won]. destruct Hc as (Hr' & Hrd & Hw & Hcl & Hcs).
  { apply Forall_lookup. intros q [a c] [Hp Hq]%zip_pair Ha. cbn in *. subst a. by eapply Hb. }
  rewrite length_zip_with, Nat.min_r in Hcl by lia. rewrite <- Hw in Hf. do 3 (split; [done|]). split.
  - destruct won as [w|].
    + destruct Hf as (j & cj & -> & [Hj1 Hj2]%zip_pair & Hd & Hmin). exists j, cj. do 4 (split; [done|]).
      intros q c Hp Hq. destruct (Hb q c Hp Hq) as [_ Hle]. split; [lia|]. intros E.
      destruct (decide (j <= q)%nat); [done|]. exfalso. apply (Hmin q c); [lia| |lia]. by apply zip_pair.
    + intros q Hq. destruct (He q Hq) as (j & cj & Hj1 & Hj2 & Hd); [apply lookup_lt_Some in Hq; lia|].
      apply (Hf j true cj); [by apply zip_pair|done|done].
  - intros q a c Hp Hq. destruct (Hcs q a c) as (c' & Hc' & Ha); [by apply zip_pair|]. exists c'. split; [done|].
    assert (cont_ok c) as Hcok by (rewrite Forall_lookup in Hok; by eapply Hok).
    destruct a; [|by subst]. split; [eapply after_round_ok; [done|done|by eapply Hb]|].
    revert Ha. apply after_round_wins. intros _. apply bool_decide_ext.
    rewrite Z.add_0_l. split; [by intros [_ ?]|done].
Qed.

(** What the callers of a round rely on. *)
Lemma winner_facts pend conts rnd : length pend = length conts → Forall cont_ok conts → 0 < rnd < 2 ^ 32 →
  let '(cs, rnd', w) := wlan_wmm_contention_get_winner pend conts rnd in
  0 < rnd' < 2 ^ 32 ∧ length cs = length conts ∧ Forall cont_ok cs ∧
  (w = -1 ∧ (∀ q, pend !! q ≠ Some true) ∨ ∃ j, w = Z.of_nat j ∧ pend !! j = Some true).
Proof.
  intros Hlen Hok Hr. unfold wlan_wmm_contention_get_winner. pose proof (contention_facts pend conts rnd Hlen Hok Hr) as H.
  cbv zeta in H. destruct (contend _ 0 (zip pend conts) rnd None) as [[cs rnd'] won].
  destruct H as (Hr' & _ & Hcl & Hw & Hq). split; [done|]. split; [done|]. split.
  - apply Forall_lookup. intros q c' Hc'. pose proof (lookup_lt_Some _ _ _ Hc') as Hlt.
    destruct (lookup_lt_is_Some_2 conts q) as [c Hc]; [lia|]. destruct (lookup_lt_is_Some_2 pend q) as [a Ha]; [lia|].
    destruct (Hq q a c Ha Hc) as (c2 & Hc2 & Hok2 & _). congruence.
  - destruct won as [w|]; [right|by left]. destruct Hw as (j & cj & -> & Hj & _). by exists j.
Qed.

(** C24: A round of the contention: there is no winner exactly if no queue has
    something to send; otherwise the winner is the first of the queues with the
    least time left, and every queue that has something to send has waited exactly
    that time, without wrapping below zero, and starts its AIFS anew.  The winner
    draws from the smallest window, a queue that collided, and one that lost and was
    told to, doubles its window up to the largest and draws from it; the draws are
    the successive numbers of the generator, in the order of the queues.  Each other
    queue keeps its window and the backoff it did not use, the rest is untouched. *)
Theorem contention_round (pend : list bool) (conts : list mlan_wmm_contention) (rnd : Z) :
  length pend = length conts → Forall cont_ok conts → 0 < rnd < 2 ^ 32 →
  let '(cs, rnd', w) := wlan_wmm_contention_get_winner pend conts rnd in
  0 < rnd' < 2 ^ 32 ∧ length cs = length conts ∧ Forall cont_ok cs ∧
  (w = -1 ↔ ∀ q, pend !! q ≠ Some true) ∧
  (∀ q, pend !! q = Some false → cs !! q = conts !! q) ∧
  ∀ q c, pend !! q = Some true → conts !! q = Some c →
    ∃ j cj c', w = Z.of_nat j ∧ pend !! j = Some true ∧ conts !! j = Some cj ∧
      rem_time cj <= rem_time c ∧ (rem_time cj = rem_time c → (j <= q)%nat) ∧
      rnd' = random_at (draws (rem_time cj) (zip pend conts)) rnd ∧
      cs !! q = Some c' ∧
      after_round (rem_time cj) (bool_decide (j = q))
        (random_at (S (draws (rem_time cj) (take q (zip pend conts)))) rnd) c c'.
Proof.
  intros Hlen Hok Hr. unfold wlan_wmm_contention_get_winner. pose proof (contention_facts pend conts rnd Hlen Hok Hr) as H.
  cbv zeta in H. destruct (contend _ 0 (zip pend conts) rnd None) as [[cs rnd'] won].
  destruct H as (Hr' & Hrd & Hcl & Hw & Hq). split; [done|]. split; [done|].
  assert (∀ q, (q < length conts)%nat → ∃ a c, pend !! q = Some a ∧ conts !! q = Some c) as Hall.
  { intros q Hlt. destruct (lookup_lt_is_Some_2 conts q Hlt) as [c Hc].
    destruct (lookup_lt_is_Some_2 pend q) as [a Ha]; [lia|]. eauto. }
  split; [|split; [|split]].
  - apply Forall_lookup. intros q c' Hc'. destruct (Hall q) as (a & c & Ha & Hc); [apply lookup_lt_Some in Hc'; lia|].
    destruct (Hq q a c Ha Hc) as (c2 & Hc2 & Hok2 & _). congruence.
  - destruct won as [w|]; cbn; [|done]. destruct Hw as (j & cj & -> & Hj & _). split; [lia|]. intros H. by apply H in Hj.
  - intros q Hp. destruct (Hall q) as (a & c & Ha & Hc); [apply lookup_lt_Some in Hp; lia|].
    destruct (Hq q a c Ha Hc) as (c2 & Hc2 & _ & Hr2). rewrite Hp in Ha. injection Ha as <-. congruence.
  - intros q c Hp Hc. destruct won as [w|]; [|by destruct (Hw q)].
    destruct Hw as (j & cj & -> & Hj1 & Hj2 & Hd & Hmin). destruct (Hmin q c Hp Hc) as [Hle Hfirst].
    destruct (Hq q true c Hp Hc) as (c' & Hc' & _ & Ha). exists j, cj, c'. rewrite Hd.
    do 7 (split; [done|]). revert Ha. apply after_round_wins. intros _. apply bool_decide_ext.
    split; [intros [= E]; lia|by intros ->].
Qed.

(** Four queues, two of them with something to send and the same time left. *)
Definition demo_conts : list mlan_wmm_contention :=
  let c e x := mk_cont (mk_param 2 3 2) e false 34 x in
  [c 2 18; c 3 9; c 4 27; mk_cont (mk_param 4 10 7) 5 true 79 45].
Definition demo_pend : list bool := [true; false; true; true].
Lemma contention_round_witness :
  (wlan_wmm_contention_get_winner demo_pend demo_conts 2463534242).2 = 0 ∧
  let '(cs, rnd', w) := wlan_wmm_contention_get_winner demo_pend demo_conts 2463534242 in
  0 < rnd' < 2 ^ 32 ∧ length cs = length demo_conts ∧ Forall cont_ok cs ∧
  (w = -1 ↔ ∀ q, demo_pend !! q ≠ Some true) ∧
  (∀ q, demo_pend !! q = Some false → cs !! q = demo_conts !! q) ∧
  ∀ q c, demo_pend !! q = Some true → demo_conts !! q = Some c →
    ∃ j cj c', w = Z.of_nat j ∧ demo_pend !! j = Some true ∧ demo_conts !! j = Some cj ∧
      rem_time cj <= rem_time c ∧ (rem_time cj = rem_time c → (j <= q)%nat) ∧
      rnd' = random_at (draws (rem_time cj) (zip demo_pend demo_conts)) 2463534242 ∧
      cs !! q = Some c' ∧
      after_round (rem_time cj) (bool_decide (j = q))
        (random_at (S (draws (rem_time cj) (take q (zip demo_pend demo_conts)))) 2463534242) c c'.
Proof.
  split; [vm_compute; reflexivity|].
  apply contention_round; [reflexivity|repeat constructor; cbn; lia|lia].
Defined.

(** ** Setting up *)

(** The parameters of an association response give good queues, whatever the
    parameters are: 4-bit fields. *)
Lemma contention_init_ok (ps : list WmmAcParameters) (p : wmm_prio) conts rnd :
  (∀ a, a ∈ ps → 0 <= aifsn a < 16 ∧ 0 <= ecw_min a < 16 ∧ 0 <= ecw_max a < 16) → 0 < rnd < 2 ^ 32 →
  let '(cs, rnd') := wlan_wmm_contention_init (Some ps) p conts rnd in
  length cs = length (queue_priority p) ∧ Forall cont_ok cs ∧ 0 < rnd' < 2 ^ 32.
Proof.
  intros Hps. cbn [wlan_wmm_contention_init]. revert rnd. induction (queue_priority p) as [|ac qp IH]; intros rnd Hr; [done|].
  cbn [contention_init_loop]. cbv zeta. set (a := zget ps _). assert (0 <= aifsn a < 16 ∧ 0 <= ecw_min a < 16 ∧ 0 <= ecw_max a < 16) as (H1 & H2 & H3).
  { unfold a, zget. rewrite list_lookup_total_alt. destruct (ps !! _) as [x|] eqn:E; [apply Hps; by eapply list_elem_of_lookup_2|cbn; lia]. }
  unfold wlan_wmm_txq_contention_setup. cbv zeta.
  pose proof (reset_backoff_spec (wlan_wmm_txq_contention_reset_aifs (mk_cont (mk_param (ecw_min a) (ecw_max a) (aifsn a))
    (ecw_min a) (zget wmm_ac_to_aci_map ac =? AC_BK) 0 0)) rnd ltac:(cbn; lia) Hr) as H.
  destruct (wlan_wmm_txq_contention_reset_backoff _ rnd) as [c r1]. destruct H as (_ & Hr1 & Hd & _ & Hc).
  specialize (IH r1 Hr1). destruct (contention_init_loop qp ps r1) as [cs r2]. destruct IH as (IH1 & IH2 & IH3).
  split; [cbn; lia|]. split; [|done]. constructor; [|done]. apply drawn_range in Hd. rewrite Hc in Hd |- *.
  constructor; cbn in Hd |- *; try lia. all: rewrite u_wrap_small; lia.
Qed.

(** A window of more than 12 bits, which the parameters may name, draws a backoff
    that does not fit: 19811 slots of 9 us are stored as 47227 us. *)
Lemma wide_window_truncated : Z.land (wmm_get_random_num 2463534242) (2 ^ 15 - 1) = 19811 ∧
  remaining_backoff (wlan_wmm_txq_contention_reset_backoff (mk_cont (mk_param 15 15 2) 15 false 0 0) 2463534242).1 = 47227.
Proof. vm_compute. split; reflexivity. Qed.
