(* ===== verification/WmmMc.v ===== *)
(** * mlan_wmm.c: scheduling many clients

    With [mclient_tx_supported] every receiver has a [wmm_sta_table] with a budget
    of bytes and of MPDUs for each TID.  RA lists with packets are linked in
    [pending_txq], one ring per queue; the queues contend (WmmCont), the head of
    the winner is served while its budgets last, then it goes to the tail and is
    refilled.  An interface and a list stay selected until the budgets run out.
    This file models the budgets and the choice of the next list; the pointer to a
    station table is its address, MNULL is its absence from [ralist_sta], and
    [None] is an access through a null or dangling pointer or, for the loops, the
    end of the fuel. *)

From S2P Require Import Prelude UtilScalar RxReorder RxTable Amsdu WmmPrio WmmTbl WmmInv WmmFlow WmmRun WmmPick WmmCont.
#[local] Open Scope Z_scope.

(** ** Data *)

(** [budget] of [wmm_sta_table]. *)
Record sta_budget := mk_budget {
  time_budget_init_us : Z;   (** t_u16 *)
  mpdu_with_amsdu_pps_cap : Z;
  mpdu_no_amsdu_pps_cap : Z;
  byte_budget_init : Z;   (** t_u32, as the following *)
  mpdu_with_amsdu_budget_init : Z;
  mpdu_no_amsdu_budget_init : Z;
  phy_rate_kbps : Z;
  queue_packets : Z;
  bytes : list Z;   (** t_s32, a value for each TID *)
  mpdus : list Z
}.
Record wmm_sta_table := mk_sta_table { st_ra : list Z; ps_sleep : bool; budget : sta_budget }.

Definition set_bytes_mpdus (tid : Z) (b n : Z) (s : wmm_sta_table) : wmm_sta_table :=
  let g := budget s in
  mk_sta_table (st_ra s) (ps_sleep s)
    (mk_budget (time_budget_init_us g) (mpdu_with_amsdu_pps_cap g) (mpdu_no_amsdu_pps_cap g)
       (byte_budget_init g) (mpdu_with_amsdu_budget_init g) (mpdu_no_amsdu_budget_init g)
       (phy_rate_kbps g) (queue_packets g) (zset tid b (bytes g)) (zset tid n (mpdus g))).
Definition set_rate (init rate : Z) (s : wmm_sta_table) : wmm_sta_table :=
  let g := budget s in
  mk_sta_table (st_ra s) (ps_sleep s)
    (mk_budget (time_budget_init_us g) (mpdu_with_amsdu_pps_cap g) (mpdu_no_amsdu_pps_cap g)
       init (mpdu_with_amsdu_budget_init g) (mpdu_no_amsdu_budget_init g) rate (queue_packets g) (bytes g) (mpdus g)).
Definition set_queue_packets (n : Z) (s : wmm_sta_table) : wmm_sta_table :=
  let g := budget s in
  mk_sta_table (st_ra s) (ps_sleep s)
    (mk_budget (time_budget_init_us g) (mpdu_with_amsdu_pps_cap g) (mpdu_no_amsdu_pps_cap g)
       (byte_budget_init g) (mpdu_with_amsdu_budget_init g) (mpdu_no_amsdu_budget_init g)
       (phy_rate_kbps g) n (bytes g) (mpdus g)).

(** An interface: its queues, the station tables by address, [ra_list->sta], the
    contention of its queues, the list being served. *)
Record mc_priv := mk_mc {
  base : wmm_priv;
  stas : gmap Z wmm_sta_table;
  ralist_sta : gmap Z Z;
  txq_contention : list mlan_wmm_contention;
  selected_ra_list : option Z
}.
Definition set_base (x : wmm_priv) (m : mc_priv) : mc_priv :=
  mk_mc x (stas m) (ralist_sta m) (txq_contention m) (selected_ra_list m).
Definition set_stas (x : gmap Z wmm_sta_table) (m : mc_priv) : mc_priv :=
  mk_mc (base m) x (ralist_sta m) (txq_contention m) (selected_ra_list m).
Definition set_cont (x : list mlan_wmm_contention) (m : mc_priv) : mc_priv :=
  mk_mc (base m) (stas m) (ralist_sta m) x (selected_ra_list m).
Definition set_selected (x : option Z) (m : mc_priv) : mc_priv :=
  mk_mc (base m) (stas m) (ralist_sta m) (txq_contention m) x.
Definition mc_pending (m : mc_priv) : list (list Z) := pending_txq (base m).
Definition set_pending (q : list (list Z)) (m : mc_priv) : mc_priv :=
  set_base (set_pending_txq q (base m)) m.

(** The list at an address, the station table it points to. *)
Definition ralist_at (m : mc_priv) (a : Z) : option raListTbl :=
  snd <$> list_find (λ r, r_addr r = a) (concat (ra_list <$> tids (base m))).
Definition sta_at (m : mc_priv) (a : Z) : option (Z * wmm_sta_table) :=
  s ← ralist_sta m !! a; t ← stas m !! s; Some (s, t).

(** ** Budgets *)

Definition MV_ETH_FRAME_LEN : Z := 1514.

Definition wlan_wmm_get_byte_budget (time_budget_us phy_rate : Z) : Z :=
  let byte_budget := (phy_rate * time_budget_us) / (8 * 1000) in
  if byte_budget >? INT_MAX then INT_MAX
  else if byte_budget <? MV_ETH_FRAME_LEN then MV_ETH_FRAME_LEN else byte_budget.

(** [tx_budget] and the two packet rates come from the module parameters and the
    firmware. *)
Definition wlan_wmm_allocate_sta_table (tx_budget with_pps no_pps : Z) (mac : list Z) : wmm_sta_table :=
  let default_rate := 200 * 1000 in
  let b := wlan_wmm_get_byte_budget tx_budget default_rate in
  let w := u32 ((with_pps * tx_budget) / 1000000) in
  let n := u32 ((no_pps * tx_budget) / 1000000) in
  mk_sta_table mac false
    (mk_budget tx_budget with_pps no_pps b w n default_rate 1024 (replicate 8 (s32 b)) (replicate 8 (s32 w))).

Definition wlan_wmm_refill_budget (current_value init_value : Z) : Z :=
  if current_value >? 0 then s32 init_value else s32 (current_value + init_value).

Definition mpdu_budget_init (r : raListTbl) (s : wmm_sta_table) : Z :=
  if amsdu_in_ampdu r then mpdu_with_amsdu_budget_init (budget s) else mpdu_no_amsdu_budget_init (budget s).

(** [wlan_wmm_consume_byte_budget], [wlan_wmm_consume_mpdu_budget] on the station
    table of a list, if it has one. *)
Definition wlan_wmm_consume_byte_budget (r : raListTbl) (data_len : Z) (s : wmm_sta_table) : wmm_sta_table :=
  let data_len := if decide (ba_status r = BA_STREAM_SETUP_COMPLETE) then data_len else u32 (data_len * 2) in
  set_bytes_mpdus (r_tid r) (s32 (zget (bytes (budget s)) (r_tid r) - data_len)) (zget (mpdus (budget s)) (r_tid r)) s.
Definition wlan_wmm_consume_mpdu_budget (r : raListTbl) (s : wmm_sta_table) : wmm_sta_table :=
  set_bytes_mpdus (r_tid r) (zget (bytes (budget s)) (r_tid r)) (s32 (zget (mpdus (budget s)) (r_tid r) - 1)) s.

(** ** The next list of an interface *)

Definition unlink_pending (a : Z) (m : mc_priv) : mc_priv := set_pending (txq_unlink a (mc_pending m)) m.
Definition link_pending_tail (a q : Z) (m : mc_priv) : mc_priv :=
  set_pending (alter (λ l, l ++ [a]) (Z.to_nat q) (mc_pending m)) m.
Definition upd_sta (s : Z) (f : wmm_sta_table → wmm_sta_table) (m : mc_priv) : mc_priv :=
  set_stas (alter f s (stas m)) m.

Definition out_of_budget (r : raListTbl) (s : wmm_sta_table) : bool :=
  (zget (bytes (budget s)) (r_tid r) <=? 0) || (zget (mpdus (budget s)) (r_tid r) <=? 0).
Definition refill (r : raListTbl) (s : wmm_sta_table) : wmm_sta_table :=
  set_bytes_mpdus (r_tid r)
    (wlan_wmm_refill_budget (zget (bytes (budget s)) (r_tid r)) (byte_budget_init (budget s)))
    (wlan_wmm_refill_budget (zget (mpdus (budget s)) (r_tid r)) (mpdu_budget_init r s)) s.
(** The values an emptied list starts with again. *)
Definition renew (r : raListTbl) (s : wmm_sta_table) : wmm_sta_table :=
  set_bytes_mpdus (r_tid r) (s32 (byte_budget_init (budget s))) (s32 (mpdu_budget_init r s)) s.

Definition wlan_wmm_process_ra_list_quoats (r : raListTbl) (m : mc_priv) : option (mc_priv * bool) :=
  '(sa, s) ← sta_at m (r_addr r);
  if out_of_budget r s then
    let m := link_pending_tail (r_addr r) (r_queue r) (unlink_pending (r_addr r) m) in
    Some (set_selected None (upd_sta sa (refill r) m), false)
  else Some (set_selected (Some (r_addr r)) m, true).

Definition has_data (r : raListTbl) : bool :=
  negb (total_pkts r =? 0) && match buf_head r with [] => false | _ => true end.

(** One turn of the inner loop, for the head [a] of the winning queue. *)
Definition serve_head (a : Z) (m : mc_priv) : option (mc_priv * option raListTbl) :=
  r ← ralist_at m a;
  if has_data r then
    '((m, ready) : mc_priv * bool) ← wlan_wmm_process_ra_list_quoats r m;
    Some (m, if ready then Some r else None)
  else
    '(sa, _) ← sta_at m a;
    Some (unlink_pending a (upd_sta sa (renew r) m), None).

Definition wlan_wmm_get_next_ac (m : mc_priv) (rnd : Z) : mc_priv * Z * Z :=
  let '(cs, rnd, w) := wlan_wmm_contention_get_winner
    ((λ q, match q with [] => false | _ => true end) <$> mc_pending m) (txq_contention m) rnd in
  (set_cont cs m, rnd, w).

(** Both loops: serve queue [ac] while it has entries, then contend again. *)
Fixpoint ra_list_loop (fuel : nat) (ac : nat) (m : mc_priv) (rnd : Z)
  : option (mc_priv * Z * option raListTbl) :=
  match fuel with
  | O => None
  | S fuel =>
      match mc_pending m !! ac with
      | Some (a :: _) =>
          '((m, o) : mc_priv * option raListTbl) ← serve_head a m;
          match o with
          | Some r => Some (m, rnd, Some r)
          | None => ra_list_loop fuel ac m rnd
          end
      | _ =>
          let '(m, rnd, w) := wlan_wmm_get_next_ac m rnd in
          if w <? 0 then Some (m, rnd, None) else ra_list_loop fuel (Z.to_nat w) m rnd
      end
  end.
Definition wlan_wmm_get_next_ra_list (fuel : nat) (m : mc_priv) (rnd : Z) : option (mc_priv * Z * option raListTbl) :=
  let '(m, rnd, w) := wlan_wmm_get_next_ac m rnd in
  if w <? 0 then Some (m, rnd, None) else ra_list_loop fuel (Z.to_nat w) m rnd.

(** ** The next interface *)

(** [mclient] state of the adapter: the interfaces, the TID tables, the rings of
    interfaces by priority, [selected_mlan_bss] and the random state. *)
Record mc_adapter := mk_mc_adapter {
  mc_privs : list mc_priv;
  mc_maps : tid_maps;
  mc_tbl : list bss_tbl;
  selected_mlan_bss : option nat;
  rnd_state : Z
}.
Definition set_mc_priv (b : nat) (m : mc_priv) (ad : mc_adapter) : mc_adapter :=
  mk_mc_adapter (<[b := m]> (mc_privs ad)) (mc_maps ad) (mc_tbl ad) (selected_mlan_bss ad) (rnd_state ad).
Definition set_rnd (x : Z) (ad : mc_adapter) : mc_adapter :=
  mk_mc_adapter (mc_privs ad) (mc_maps ad) (mc_tbl ad) (selected_mlan_bss ad) x.
Definition set_selected_bss (x : option nat) (ad : mc_adapter) : mc_adapter :=
  mk_mc_adapter (mc_privs ad) (mc_maps ad) (mc_tbl ad) x (rnd_state ad).
Definition set_mc_cur (j c : nat) (ad : mc_adapter) : mc_adapter :=
  mk_mc_adapter (mc_privs ad) (mc_maps ad) (alter (λ b, mk_bss (bss_nodes b) c) j (mc_tbl ad))
    (selected_mlan_bss ad) (rnd_state ad).

Definition wlan_wmm_is_bss_ready_for_tx (m : mc_priv) : bool := negb (priv_blocked (base m)).
Definition any_pending (m : mc_priv) : bool := existsb (λ q, match q with [] => false | _ => true end) (mc_pending m).

(** [pnext] in a ring of [n] nodes and its head, which is position [n]. *)
Definition head_next (n i : nat) : nat := if decide (i = n) then 0%nat else S i.

(** The do-while loop over the ring of table [j] from [bss]. *)
Fixpoint mlan_walk (j : nat) (nodes : list nat) (fuel : nat) (stop_point bss : nat) (ad : mc_adapter)
  : option (mc_adapter * option nat) :=
  match fuel with
  | O => None
  | S fuel =>
      let ad := set_mc_cur j bss ad in
      let next := head_next (length nodes) bss in
      let next_bss := if decide (next = stop_point) then Some (ad, None)
                      else mlan_walk j nodes fuel stop_point next ad in
      if decide (bss = length nodes) then next_bss
      else
        b ← nodes !! bss;
        m ← mc_privs ad !! b;
        if wlan_wmm_is_bss_ready_for_tx m && any_pending m
        then Some (set_mc_cur j next ad, Some b)
        else next_bss
  end.
Definition wlan_wmm_get_next_mlan (j : nat) (ad : mc_adapter) : option (mc_adapter * option nat) :=
  t ← mc_tbl ad !! j;
  mlan_walk j (bss_nodes t) (S (length (bss_nodes t))) (bssprio_cur t) (bssprio_cur t) ad.

(** The tables below [n], from the highest, until an interface is found. *)
Fixpoint next_bss_loop (n : nat) (ad : mc_adapter) : option (mc_adapter * option nat) :=
  match n with
  | O => Some (ad, None)
  | S j =>
      t ← mc_tbl ad !! j;
      match bss_nodes t with
      | [] => next_bss_loop j ad
      | _ =>
          '((ad, o) : mc_adapter * option nat) ← wlan_wmm_get_next_mlan j ad;
          match o with Some b => Some (ad, Some b) | None => next_bss_loop j ad end
      end
  end.
Definition wlan_wmm_get_next_bss (ad : mc_adapter) : option (mc_adapter * option nat) :=
  next_bss_loop (length (mc_tbl ad)) ad.

(** ** The next list *)

(** The scheduler for one client, on the same interfaces and rings. *)
Definition highest_priolist (ad : mc_adapter) : option (mc_adapter * option (nat * nat * raListTbl)) :=
  '((w, o) : wmm_adapter * option (nat * nat * raListTbl)) ←
    wlan_wmm_get_highest_priolist_ptr (mk_wadapter (base <$> mc_privs ad) (mc_maps ad) (mc_tbl ad));
  Some (mk_mc_adapter (zip_with set_base (privs w) (mc_privs ad)) (mc_maps ad) (bssprio_tbl w)
          (selected_mlan_bss ad) (rnd_state ad), o).

(** What one turn of the loop does for interface [b]: the interface and the list it
    found, or nothing. *)
Definition serve_bss (fuel : nat) (b : nat) (ad : mc_adapter) : option (mc_adapter * option raListTbl) :=
  m ← mc_privs ad !! b;
  sel ← match selected_ra_list m with
        | None => Some None
        | Some a => r ← ralist_at m a; Some (if total_pkts r =? 0 then None else Some r)
        end;
  match sel with
  | None =>
      '((m, rnd, o) : mc_priv * Z * option raListTbl) ← wlan_wmm_get_next_ra_list fuel m (rnd_state ad);
      Some (set_rnd rnd (set_mc_priv b m ad), o)
  | Some r =>
      '((m, ready) : mc_priv * bool) ← wlan_wmm_process_ra_list_quoats r m;
      Some (if ready then (set_mc_priv b m ad, Some r)
            else (set_selected_bss None (set_mc_priv b m ad), None))
  end.

(** The for loop; [fuel] bounds its turns and the loops of each turn. *)
Fixpoint bss_loop (fuel : nat) (mlan : option nat) (ad : mc_adapter)
  : option (mc_adapter * option (nat * raListTbl)) :=
  match mlan with
  | None => Some (ad, None)
  | Some b =>
      match fuel with
      | O => None
      | S fuel' =>
          '((ad, o) : mc_adapter * option raListTbl) ← serve_bss fuel b ad;
          match o with
          | Some r => Some (set_selected_bss (Some b) ad, Some (b, r))
          | None =>
              '((ad, mlan) : mc_adapter * option nat) ← wlan_wmm_get_next_bss ad;
              bss_loop fuel' mlan ad
          end
      end
  end.

(** [wlan_wmm_get_next_priolist_ptr] with [mclient_tx_supported]: interface, TID and
    list. *)
Definition wlan_wmm_get_next_priolist_ptr (fuel : nat) (ad : mc_adapter)
  : option (mc_adapter * option (nat * nat * raListTbl)) :=
  '((ad, mlan) : mc_adapter * option nat) ←
    match selected_mlan_bss ad with
    | Some b => Some (ad, Some b)
    | None => wlan_wmm_get_next_bss ad
    end;
  '((ad, o) : mc_adapter * option (nat * raListTbl)) ← bss_loop fuel mlan ad;
  match o with
  | Some (b, r) => Some (ad, Some (b, Z.to_nat (r_tid r), r))
  | None => highest_priolist (set_selected_bss None ad)
  end.

(** ** Well-formed interfaces *)

(** Budgets that a refill makes positive sooner or later. *)
Record budget_ok (s : wmm_sta_table) : Prop := {
  bo_bytes : 0 < byte_budget_init (budget s) <= INT_MAX;
  bo_with : 0 < mpdu_with_amsdu_budget_init (budget s) <= INT_MAX;
  bo_no : 0 < mpdu_no_amsdu_budget_init (budget s) <= INT_MAX;
  bo_len : length (bytes (budget s)) = 8%nat ∧ length (mpdus (budget s)) = 8%nat;
  bo_range : Forall (λ x, - 2 ^ 31 <= x < 2 ^ 31) (bytes (budget s)) ∧
             Forall (λ x, - 2 ^ 31 <= x < 2 ^ 31) (mpdus (budget s))
}.

Record mc_ok (m : mc_priv) : Prop := {
  mo_wf : wmm_wf None (base m);
  mo_cont : length (txq_contention m) = 4%nat ∧ Forall cont_ok (txq_contention m);
  mo_lists : ∀ a r, a ∈ concat (mc_pending m) → ralist_at m a = Some r →
    0 <= r_tid r < 8 ∧ 0 <= r_queue r < 4 ∧ is_Some (sta_at m a);
  mo_stas : map_Forall (λ _, budget_ok) (stas m);
  mo_sel : ∀ a, selected_ra_list m = Some a → ∃ r, ralist_at m a = Some r ∧
    (total_pkts r ≠ 0 → a ∈ concat (mc_pending m))
}.

(** The same queues but for [pending_txq], and the same pointers. *)
Definition keeps (m m' : mc_priv) : Prop :=
  base m' = set_pending_txq (mc_pending m') (base m) ∧ ralist_sta m' = ralist_sta m.
#[export] Instance keeps_pre : PreOrder keeps.
Proof.
  split; [intros m; split; [unfold mc_pending; by destruct (base m)|done]|]. intros m1 m2 m3 [H1 H2] [H3 H4].
  split; [etrans; [exact H3|by rewrite H1]|congruence].
Qed.

Lemma ralist_at_Some m a r : ralist_at m a = Some r → r_addr r = a ∧ ∃ i t, tids (base m) !! i = Some t ∧ r ∈ ra_list t.
Proof.
  unfold ralist_at. intros ([j r'] & Hf & ->)%fmap_Some. apply list_find_Some in Hf as (Hj & Ha & _).
  split; [done|]. cbn. assert (r' ∈ concat (ra_list <$> tids (base m))) as Hin by by eapply list_elem_of_lookup_2.
  apply elem_of_concat in Hin as (l & Hl & Hin). apply list_elem_of_fmap in Hin as (t & -> & Ht).
  apply list_elem_of_lookup in Ht as [i Hi]. eauto.
Qed.
Lemma ralist_at_linked m a : wmm_wf None (base m) → a ∈ concat (mc_pending m) → is_Some (ralist_at m a).
Proof.
  intros Hw Ha. apply (wf_txq _ _ Hw) in Ha. unfold all_addrs in Ha. apply elem_of_concat in Ha as (l & Hl & Hin).
  apply list_elem_of_fmap in Hin as (t & -> & Ht). apply list_elem_of_fmap in Hl as (r & -> & Hr).
  unfold ralist_at. destruct (list_find_elem_of (λ x, r_addr x = r_addr r) (concat (ra_list <$> tids (base m))) r) as [x ->];
    [|done|by eexists]. apply elem_of_concat. exists (ra_list t). split; [done|]. by apply list_elem_of_fmap_2.
Qed.
Lemma ralist_at_keeps m m' a : keeps m m' → ralist_at m' a = ralist_at m a.
Proof. intros [H _]. unfold ralist_at. by rewrite H. Qed.

(** With no packet in the air a list without data has the count zero. *)
Lemma no_data_zero m a r : wmm_wf None (base m) → ralist_at m a = Some r → has_data r = (negb (total_pkts r =? 0)).
Proof.
  intros Hw (_ & i & t & Ht & Hr)%ralist_at_Some. pose proof (wf_tids _ _ Hw) as Hok.
  rewrite Forall_lookup in Hok. pose proof (tk_total _ _ (Hok _ _ Ht)) as Htot. rewrite Forall_forall in Htot.
  specialize (Htot r Hr). rewrite held_none in Htot. unfold has_data. destruct (buf_head r); [|by rewrite andb_true_r].
  cbn in Htot. rewrite Htot. done.
Qed.

(** ** Refilling *)

(** The refills until a budget is positive. *)
Definition rounds_of (x init : Z) : nat := if x >? 0 then 0%nat else Z.to_nat ((- x) / init + 1).

Lemma rounds_refill x init init' : 0 < init → 0 < init' → - 2 ^ 31 <= x < 2 ^ 31 → init <= INT_MAX →
  (rounds_of (wlan_wmm_refill_budget x init) init' <= rounds_of x init')%nat ∧
  - 2 ^ 31 <= wlan_wmm_refill_budget x init < 2 ^ 31.
Proof.
  unfold INT_MAX. intros Hi Hi' Hx Hm. unfold wlan_wmm_refill_budget, rounds_of. destruct (x >? 0) eqn:E.
  - rewrite s_wrap_small by lia. destruct (init >? 0) eqn:E2; lia.
  - rewrite s_wrap_small by lia. split; [|lia]. destruct (x + init >? 0) eqn:E2; [lia|].
    apply Z2Nat.inj_le; [pose proof (Z.div_pos (- (x + init)) init'); lia|pose proof (Z.div_pos (- x) init'); lia|].
    pose proof (Z.div_le_mono (- (x + init)) (- x) init'). lia.
Qed.
Lemma rounds_refill_lt x init : 0 < init → - 2 ^ 31 <= x <= 0 → init <= INT_MAX →
  (rounds_of (wlan_wmm_refill_budget x init) init < rounds_of x init)%nat.
Proof.
  unfold INT_MAX. intros Hi Hx Hm. unfold wlan_wmm_refill_budget, rounds_of. destruct (x >? 0) eqn:E; [lia|].
  rewrite s_wrap_small by lia. pose proof (Z.div_pos (- x) init).
  destruct (x + init >? 0) eqn:E2; [lia|].
  replace (- (x + init)) with (- x + (-1) * init) by lia. rewrite Z.div_add by lia. lia.
Qed.

(** ** One turn of the loop *)

(** The refills a linked list needs, and what is left to do: a turn for each
    linked list and each refill. *)
Definition rounds (m : mc_priv) (a : Z) : nat :=
  match ralist_at m a, sta_at m a with
  | Some r, Some (_, s) =>
      Nat.max (rounds_of (zget (bytes (budget s)) (r_tid r)) (byte_budget_init (budget s)))
              (rounds_of (zget (mpdus (budget s)) (r_tid r)) (mpdu_budget_init r s))
  | _, _ => 0%nat
  end.
Definition work (m : mc_priv) : nat := sum_list_with (λ a, S (rounds m a)) (concat (mc_pending m)).

Lemma zget_zset l i j (x : Z) : length l = 8%nat → 0 <= i < 8 → 0 <= j < 8 →
  zget (zset i x l) j = if decide (i = j) then x else zget l j.
Proof.
  intros Hl Hi Hj. unfold zget, zset. rewrite !list_lookup_total_alt. case_decide as E.
  - subst j. by rewrite list_lookup_insert_eq by lia.
  - rewrite list_lookup_insert_ne by lia. done.
Qed.
Lemma zget_range l (P : Z → Prop) i : length l = 8%nat → Forall P l → 0 <= i < 8 → P (zget l i).
Proof.
  intros Hl Hp Hi. destruct (lookup_lt_is_Some_2 l (Z.to_nat i)) as [x Hx]; [lia|].
  unfold zget. rewrite (list_lookup_total_correct _ _ _ Hx). by eapply Forall_lookup_1.
Qed.
Lemma mpdu_init_range r s : budget_ok s → 0 < mpdu_budget_init r s <= INT_MAX.
Proof. intros []. unfold mpdu_budget_init. by destruct (amsdu_in_ampdu r). Qed.

(** New budgets for the slot of list [r] that no list needs more refills for. *)
Definition eased (r : raListTbl) (b n : Z) (s : wmm_sta_table) : Prop :=
  - 2 ^ 31 <= b < 2 ^ 31 ∧ - 2 ^ 31 <= n < 2 ^ 31 ∧
  ∀ init, 0 < init → (rounds_of b init <= rounds_of (zget (bytes (budget s)) (r_tid r)) init)%nat ∧
                     (rounds_of n init <= rounds_of (zget (mpdus (budget s)) (r_tid r)) init)%nat.

Lemma budget_ok_upd r b n s : budget_ok s → eased r b n s → budget_ok (set_bytes_mpdus (r_tid r) b n s).
Proof.
  intros [H1 H2 H3 [H4 H4'] [H5 H6]] (Hb & Hn & _). constructor; cbn; try done.
  - unfold zset. by rewrite !length_insert.
  - unfold zset. split; by apply Forall_insert.
Qed.
Lemma refill_eased r s : budget_ok s → 0 <= r_tid r < 8 → ∃ b n, refill r s = set_bytes_mpdus (r_tid r) b n s ∧ eased r b n s.
Proof.
  intros Hs Hr. do 2 eexists. split; [reflexivity|]. pose proof (mpdu_init_range r s Hs) as Hm.
  destruct Hs as [H1 H2 H3 [H4 H4'] [H5 H6]].
  pose proof (zget_range _ _ _ H4 H5 Hr) as Hx. pose proof (zget_range _ _ _ H4' H6 Hr) as Hy. cbv beta in Hx, Hy.
  destruct (rounds_refill _ (byte_budget_init (budget s)) 1 ltac:(lia) ltac:(lia) Hx) as [_ Hx']; [lia|].
  destruct (rounds_refill _ (mpdu_budget_init r s) 1 ltac:(lia) ltac:(lia) Hy) as [_ Hy']; [lia|].
  split; [done|]. split; [done|]. intros init Hi. split; apply rounds_refill; lia.
Qed.
Lemma renew_eased r s : budget_ok s → ∃ b n, renew r s = set_bytes_mpdus (r_tid r) b n s ∧ eased r b n s.
Proof.
  intros Hs. do 2 eexists. split; [reflexivity|]. pose proof (mpdu_init_range r s Hs) as Hm.
  destruct Hs as [H1 _ _ _ _]. unfold INT_MAX in *. rewrite !s_wrap_small by lia. split; [lia|]. split; [lia|].
  intros init Hi. unfold rounds_of. destruct (byte_budget_init _ >? 0) eqn:E1; [|lia].
  destruct (mpdu_budget_init r s >? 0) eqn:E2; lia.
Qed.

Lemma sta_at_upd m sa f a s : stas m !! sa = Some s → sta_at (upd_sta sa f m) a =
  match ralist_sta m !! a with
  | Some sb => if decide (sa = sb) then Some (sa, f s) else sta_at m a
  | None => None
  end.
Proof.
  intros Hs. unfold sta_at, upd_sta. cbn. destruct (ralist_sta m !! a) as [sb|] eqn:E; [|done].
  cbn [mbind option_bind]. case_decide as E2; [subst; by rewrite lookup_alter_eq, Hs|by rewrite lookup_alter_ne].
Qed.

(** Easing a slot makes no list need more. *)
Lemma rounds_upd m sa s r b n a : mc_ok m → stas m !! sa = Some s → eased r b n s → 0 <= r_tid r < 8 →
  (∀ r', ralist_at m a = Some r' → 0 <= r_tid r' < 8) →
  (rounds (upd_sta sa (set_bytes_mpdus (r_tid r) b n) m) a <= rounds m a)%nat.
Proof.
  intros Hok Hs (_ & _ & He) Hr Hr'. unfold rounds. change (ralist_at (upd_sta _ _ m) a) with (ralist_at m a).
  destruct (ralist_at m a) as [r'|] eqn:Er; [|done]. specialize (Hr' r' eq_refl).
  rewrite (sta_at_upd m sa _ a s Hs). unfold sta_at. destruct (ralist_sta m !! a) as [sb|] eqn:Eb; [|done].
  cbn [mbind option_bind]. case_decide as E; [subst sb; rewrite Hs; cbn [mbind option_bind]|done].
  pose proof (mo_stas _ Hok sa s Hs) as Hb. cbv beta in Hb. pose proof (mpdu_init_range r' s Hb) as Hm.
  change (mpdu_budget_init r' (set_bytes_mpdus (r_tid r) b n s)) with (mpdu_budget_init r' s).
  cbn [budget set_bytes_mpdus bytes mpdus byte_budget_init]. destruct Hb as [H1 _ _ [H4 H4'] _].
  rewrite !zget_zset by done. destruct (decide (r_tid r = r_tid r')) as [Et|]; [rewrite <- Et|done].
  destruct (He (byte_budget_init (budget s))) as [He1 _]; [lia|].
  destruct (He (mpdu_budget_init r' s)) as [_ He2]; [lia|]. lia.
Qed.

(** The slot of the served list itself needs less. *)
Lemma rounds_refill_own m r sa s : mc_ok m → ralist_at m (r_addr r) = Some r → sta_at m (r_addr r) = Some (sa, s) →
  0 <= r_tid r < 8 → out_of_budget r s = true →
  (rounds (upd_sta sa (refill r) m) (r_addr r) < rounds m (r_addr r))%nat.
Proof.
  intros Hok Hr Hs Ht Ho. unfold rounds. change (ralist_at (upd_sta _ _ m) ?a) with (ralist_at m a). rewrite Hr, Hs.
  unfold sta_at in Hs. apply bind_Some in Hs as (sb & Hsb & Hs). apply bind_Some in Hs as (s' & Hs & [= -> ->]).
  rewrite (sta_at_upd m sa _ _ s Hs), Hsb, decide_True by done.
  pose proof (mo_stas _ Hok sa s Hs) as Hb. cbv beta in Hb. pose proof (mpdu_init_range r s Hb) as Hm.
  destruct Hb as [H1 _ _ [H4 H4'] [H5 H6]].
  change (mpdu_budget_init r (refill r s)) with (mpdu_budget_init r s).
  change (byte_budget_init (budget (refill r s))) with (byte_budget_init (budget s)).
  unfold refill. cbn [budget set_bytes_mpdus bytes mpdus]. rewrite !zget_zset, !decide_True by done.
  pose proof (zget_range _ _ _ H4 H5 Ht) as Hx. pose proof (zget_range _ _ _ H4' H6 Ht) as Hy. cbv beta in Hx, Hy.
  set (x := zget (bytes (budget s)) (r_tid r)) in *. set (y := zget (mpdus (budget s)) (r_tid r)) in *.
  assert (∀ z init, - 2 ^ 31 <= z < 2 ^ 31 → 0 < init <= INT_MAX →
    (z <= 0 → (rounds_of (wlan_wmm_refill_budget z init) init < rounds_of z init)%nat) ∧
    (0 < z → rounds_of (wlan_wmm_refill_budget z init) init = 0%nat)) as H.
  { intros z init Hz Hi. split; [intros; apply rounds_refill_lt; lia|]. intros Hp. unfold INT_MAX in Hi.
    unfold wlan_wmm_refill_budget, rounds_of. destruct (z >? 0) eqn:E; [|lia]. rewrite s_wrap_small by lia.
    destruct (init >? 0) eqn:E2; lia. }
  destruct (H x (byte_budget_init (budget s)) Hx H1) as [X1 X2].
  destruct (H y (mpdu_budget_init r s) Hy Hm) as [Y1 Y2].
  apply orb_true_iff in Ho as [Ho|Ho]; fold x in Ho || fold y in Ho; destruct (decide (x <= 0)), (decide (y <= 0)); lia.
Qed.

Lemma mc_ok_upd_sta m sa s r b n : mc_ok m → stas m !! sa = Some s → eased r b n s →
  mc_ok (upd_sta sa (set_bytes_mpdus (r_tid r) b n) m).
Proof.
  intros Hok Hs He. destruct Hok as [H1 H2 H3 H4 H5]. constructor; try done.
  - intros a r' Ha Hr'. destruct (H3 a r' Ha Hr') as (Hx & Hy & [[sb sx] Hsx]). do 2 (split; [done|]).
    rewrite (sta_at_upd m sa _ a s Hs). unfold sta_at in Hsx. apply bind_Some in Hsx as (sc & Hsc & Hsx).
    rewrite Hsc. case_decide; [by eexists|]. unfold sta_at. rewrite Hsc. cbn. apply bind_Some in Hsx as (? & -> & ?). by eexists.
  - intros i s' Hi. cbn in Hi. apply lookup_alter_Some in Hi as [(<- & s0 & Hs0 & ->)| [_ Hi] ]; [|by apply (H4 i)].
    apply budget_ok_upd; [by apply (H4 sa)|]. congruence.
Qed.

Lemma mc_ok_pending q sel m : mc_ok m → length q = 4%nat → NoDup (concat q) →
  (∀ a, a ∈ concat q → a ∈ concat (mc_pending m)) →
  (∀ a, sel = Some a → ∃ r, ralist_at m a = Some r ∧ (total_pkts r ≠ 0 → a ∈ concat q)) →
  mc_ok (set_selected sel (set_pending q m)) ∧ keeps m (set_selected sel (set_pending q m)).
Proof.
  intros [H1 H2 H3 H4 H5] Hl Hnd Hsub Hsel. split; [constructor|done]; try done.
  - destruct H1. constructor; try done. cbn. intros a Ha. by apply wf_txq, Hsub.
  - intros a r Ha Hr. apply (H3 a r); [|done]. by apply Hsub.
Qed.

Lemma filter_out_perm (l : list Z) a : NoDup l → a ∈ l → l ≡ₚ a :: filter (λ b, b ≠ a) l.
Proof.
  intros Hnd Ha. apply NoDup_Permutation; [done| |].
  - constructor; [by rewrite list_elem_of_filter; intros [? _]|by apply NoDup_filter].
  - intros x. rewrite elem_of_cons, list_elem_of_filter. split; [|by intros [->|[_ ?]]].
    intros Hx. destruct (decide (x = a)); [by left|by right].
Qed.
Lemma sum_list_with_le {A} (f g : A → nat) l : (∀ x, x ∈ l → (f x <= g x)%nat) →
  (sum_list_with f l <= sum_list_with g l)%nat.
Proof.
  induction l as [|x l IH]; intros H; [done|]. cbn. pose proof (H x ltac:(left)).
  assert (∀ y, y ∈ l → (f y <= g y)%nat) as Hl by (intros y Hy; apply H; by right). specialize (IH Hl). lia.
Qed.

Lemma concat_alter_snoc {A} (q : list (list A)) i a : (i < length q)%nat →
  concat (alter (λ l, l ++ [a]) i q) ≡ₚ a :: concat q.
Proof.
  revert i. induction q as [|l q IH]; intros [|i] Hi; cbn in *; [lia|lia| |].
  - rewrite <- app_assoc. cbn. by rewrite <- Permutation_middle.
  - change (list_alter (λ l, l ++ [a]) i q) with (alter (λ l, l ++ [a]) i q).
    rewrite IH by lia. by rewrite <- Permutation_middle.
Qed.

(** One turn of the inner loop: the head is returned with budgets left, or there
    is less to do; only lists without data are unlinked. *)
Definition served (m m' : mc_priv) (o : option raListTbl) : Prop :=
  mc_ok m' ∧ keeps m m' ∧ (∀ b, b ∈ concat (mc_pending m') → b ∈ concat (mc_pending m)) ∧
  (∀ b r, b ∈ concat (mc_pending m) → ralist_at m b = Some r → has_data r = true → b ∈ concat (mc_pending m')) ∧
  match o with
  | Some r => has_data r = true ∧ r_addr r ∈ concat (mc_pending m) ∧ ralist_at m (r_addr r) = Some r ∧
      selected_ra_list m' = Some (r_addr r) ∧
      ∃ sa s, sta_at m' (r_addr r) = Some (sa, s) ∧ out_of_budget r s = false
  | None => (work m' < work m)%nat
  end.

Lemma unlink_perm m a : mc_ok m → a ∈ concat (mc_pending m) →
  concat (mc_pending m) ≡ₚ a :: concat (txq_unlink a (mc_pending m)) ∧ NoDup (concat (txq_unlink a (mc_pending m))) ∧
  length (txq_unlink a (mc_pending m)) = 4%nat.
Proof.
  intros Hok Ha. pose proof (wf_txq_nodup _ _ (mo_wf _ Hok)) as Hnd. rewrite concat_unlink. split; [by apply filter_out_perm|].
  split; [by apply NoDup_filter|]. unfold txq_unlink. rewrite length_fmap. apply (wf_txq_len _ _ (mo_wf _ Hok)).
Qed.

Lemma tid_of_linked m a : mc_ok m → a ∈ concat (mc_pending m) → ∀ r, ralist_at m a = Some r → 0 <= r_tid r < 8.
Proof. intros Hok Ha r Hr. by apply (mo_lists _ Hok a r). Qed.

Lemma work_upd_sta m sa s r b n : mc_ok m → stas m !! sa = Some s → eased r b n s → 0 <= r_tid r < 8 →
  ∀ l, (∀ a, a ∈ l → a ∈ concat (mc_pending m)) →
  (sum_list_with (λ a, S (rounds (upd_sta sa (set_bytes_mpdus (r_tid r) b n) m) a)) l <=
   sum_list_with (λ a, S (rounds m a)) l)%nat.
Proof.
  intros Hok Hs He Hr l Hl. apply sum_list_with_le. intros a Ha. apply le_n_S.
  apply (rounds_upd m sa s); try done. apply tid_of_linked; auto.
Qed.

Lemma sta_at_Some m a sa s : sta_at m a = Some (sa, s) → ralist_sta m !! a = Some sa ∧ stas m !! sa = Some s.
Proof. unfold sta_at. intros (sb & Hsb & Hs)%bind_Some. apply bind_Some in Hs as (s' & Hs & [= -> ->]). done. Qed.

Lemma quoats_spec r m : mc_ok m → ralist_at m (r_addr r) = Some r → r_addr r ∈ concat (mc_pending m) → has_data r = true →
  ∃ m' b, wlan_wmm_process_ra_list_quoats r m = Some (m', b) ∧ served m m' (if b : bool then Some r else None).
Proof.
  intros Hok Hr Ha Hd. destruct (mo_lists _ Hok _ _ Ha Hr) as (Ht & Hq & [[sa s] Hsa]).
  destruct (sta_at_Some _ _ _ _ Hsa) as [Hp Hs].
  unfold wlan_wmm_process_ra_list_quoats. rewrite Hsa. cbn [mbind option_bind].
  destruct (out_of_budget r s) eqn:Ho.
  - eexists _, false. split; [reflexivity|].
    destruct (refill_eased r s (mo_stas _ Hok _ _ Hs) Ht) as (b & n & Eb & He).
    destruct (unlink_perm m _ Hok Ha) as (Hperm & Hnd & Hlen).
    set (q := txq_unlink (r_addr r) (mc_pending m)) in *.
    pose proof (mc_ok_upd_sta m sa s r b n Hok Hs He) as Hok1.
    assert (concat (alter (λ l, l ++ [r_addr r]) (Z.to_nat (r_queue r)) q) ≡ₚ concat (mc_pending m)) as Hq2.
    { rewrite concat_alter_snoc by lia. by rewrite Hperm. }
    assert (upd_sta sa (refill r) m = upd_sta sa (set_bytes_mpdus (r_tid r) b n) m) as Eu.
    { unfold upd_sta. f_equal. apply map_eq. intros i. destruct (decide (i = sa)) as [->|]; [|by rewrite !lookup_alter_ne].
      by rewrite !lookup_alter_eq, Hs; cbn; rewrite Eb. }
    destruct (mc_ok_pending (alter (λ l, l ++ [r_addr r]) (Z.to_nat (r_queue r)) q) None _ Hok1) as [Hok2 Hk2].
    { by rewrite length_alter. } { rewrite Hq2. apply (wf_txq_nodup _ _ (mo_wf _ Hok)). }
    { intros a. by rewrite Hq2. } { done. }
    change (set_selected None (upd_sta sa (refill r) (link_pending_tail (r_addr r) (r_queue r) (unlink_pending (r_addr r) m))))
      with (set_selected None (set_pending (alter (λ l, l ++ [r_addr r]) (Z.to_nat (r_queue r)) q) (upd_sta sa (refill r) m))).
    pose proof (rounds_refill_own m r sa s Hok Hr Hsa Ht Ho) as Hlt. rewrite Eu in *.
    split; [done|]. split; [by split|]. split; [intros b'; cbn; by rewrite Hq2|].
    split; [intros b' r' Hb' _ _; cbn; by rewrite Hq2|].
    unfold work. cbn [mc_pending set_selected set_pending set_base base set_pending_txq pending_txq].
    change (rounds (set_selected None (set_pending ?q ?m))) with (rounds m). rewrite Hq2, Hperm. cbn [sum_list_with].
    pose proof (work_upd_sta m sa s r b n Hok Hs He Ht (concat q)) as Hle.
    assert (∀ a, a ∈ concat q → a ∈ concat (mc_pending m)) as Hsub by (intros a Hin; rewrite Hperm; by right).
    specialize (Hle Hsub). lia.
  - eexists _, true. split; [reflexivity|].
    destruct (mc_ok_pending (mc_pending m) (Some (r_addr r)) m Hok) as [Hok2 Hk2].
    { apply (wf_txq_len _ _ (mo_wf _ Hok)). } { apply (wf_txq_nodup _ _ (mo_wf _ Hok)). } { done. }
    { intros a [= <-]. by exists r. }
    assert (set_pending (mc_pending m) m = m) as E.
    { unfold set_pending, mc_pending, set_base. destruct m as [p ????]. cbn. by destruct p. }
    rewrite E in *. split; [done|]. split; [done|]. split; [done|]. split; [done|]. do 4 (split; [done|]). by exists sa, s.
Qed.

Lemma serve_head_spec a m : mc_ok m → a ∈ concat (mc_pending m) →
  ∃ m' o, serve_head a m = Some (m', o) ∧ served m m' o.
Proof.
  intros Hok Ha. destruct (ralist_at_linked m a (mo_wf _ Hok) Ha) as [r Hr].
  destruct (ralist_at_Some _ _ _ Hr) as [<- _]. unfold serve_head. rewrite Hr. cbn [mbind option_bind].
  destruct (has_data r) eqn:Hd.
  - destruct (quoats_spec r m Hok Hr Ha Hd) as (m' & b & -> & Hs). cbn [mbind option_bind].
    eexists _, _. split; [reflexivity|]. by destruct b.
  - destruct (mo_lists _ Hok _ _ Ha Hr) as (Ht & Hq & [[sa s] Hsa]). destruct (sta_at_Some _ _ _ _ Hsa) as [Hp Hs].
    rewrite Hsa. cbn [mbind option_bind]. eexists _, _. split; [reflexivity|].
    destruct (renew_eased r s (mo_stas _ Hok _ _ Hs)) as (b & n & Eb & He).
    destruct (unlink_perm m _ Hok Ha) as (Hperm & Hnd & Hlen).
    pose proof (mc_ok_upd_sta m sa s r b n Hok Hs He) as Hok1.
    assert (upd_sta sa (renew r) m = upd_sta sa (set_bytes_mpdus (r_tid r) b n) m) as ->.
    { unfold upd_sta. f_equal. apply map_eq. intros i. destruct (decide (i = sa)) as [->|]; [|by rewrite !lookup_alter_ne].
      by rewrite !lookup_alter_eq, Hs; cbn; rewrite Eb. }
    set (m1 := upd_sta _ _ m) in *. change (unlink_pending (r_addr r) m1) with
      (set_selected (selected_ra_list m1) (set_pending (txq_unlink (r_addr r) (mc_pending m)) m1)).
    set (q := txq_unlink (r_addr r) (mc_pending m)) in *.
    assert (∀ x, x ∈ concat q → x ∈ concat (mc_pending m)) as Hsub by (intros x Hin; rewrite Hperm; by right).
    assert (∀ x r', x ∈ concat (mc_pending m) → ralist_at m x = Some r' → has_data r' = true → x ∈ concat q) as Hkeep.
    { intros x r' Hx Hr' Hd'. rewrite Hperm in Hx. apply elem_of_cons in Hx as [->|Hx]; [|done].
      rewrite Hr in Hr'. injection Hr' as <-. congruence. }
    destruct (mc_ok_pending q (selected_ra_list m1) m1 Hok1) as [Hok2 Hk2]; [done|done|done| |].
    { intros x Hx. destruct (mo_sel _ Hok x Hx) as (r' & Hr' & Hin). exists r'. split; [done|]. intros Htot.
      apply (Hkeep x r'); [by apply Hin|done|]. rewrite (no_data_zero m x r') by (done || apply Hok). lia. }
    split; [done|]. split; [done|]. split; [done|]. split; [done|].
    unfold work. cbn [mc_pending set_selected set_pending set_base base set_pending_txq pending_txq].
    change (rounds (set_selected _ (set_pending q m1))) with (rounds m1). rewrite Hperm. cbn [sum_list_with].
    pose proof (work_upd_sta m sa s r b n Hok Hs He Ht (concat q) Hsub) as Hle. subst m1. lia.
Qed.

(** ** The loops *)

Definition settled (m m' : mc_priv) : Prop :=
  mc_ok m' ∧ keeps m m' ∧ (∀ b, b ∈ concat (mc_pending m') → b ∈ concat (mc_pending m)) ∧
  ∀ b r, b ∈ concat (mc_pending m) → ralist_at m b = Some r → has_data r = true → b ∈ concat (mc_pending m').
(** The list to send from: it has a packet and both budgets, and is selected. *)
Definition chosen (m m' : mc_priv) (r : raListTbl) : Prop :=
  has_data r = true ∧ r_addr r ∈ concat (mc_pending m) ∧ ralist_at m (r_addr r) = Some r ∧
  selected_ra_list m' = Some (r_addr r) ∧
  ∃ sa s, sta_at m' (r_addr r) = Some (sa, s) ∧ out_of_budget r s = false.

Lemma served_settled m m' o : served m m' o ↔
  settled m m' ∧ match o with Some r => chosen m m' r | None => (work m' < work m)%nat end.
Proof. unfold served, settled, chosen. destruct o; tauto. Qed.
Lemma settled_trans m1 m2 m3 : settled m1 m2 → settled m2 m3 → settled m1 m3.
Proof.
  intros (H1 & H2 & H3 & H4) (H5 & H6 & H7 & H8). split; [done|]. split; [by etrans|]. split; [auto|].
  intros b r Hb Hr Hd. apply (H8 b r); [by eapply H4| |done]. by rewrite (ralist_at_keeps m1 m2).
Qed.
Lemma chosen_trans m1 m2 m3 r : settled m1 m2 → chosen m2 m3 r → chosen m1 m3 r.
Proof.
  intros (H1 & H2 & H3 & H4) (H5 & H6 & H7 & H8). split; [done|]. split; [auto|].
  split; [by rewrite <- (ralist_at_keeps m1 m2)|done].
Qed.
Lemma settled_cont cs m : mc_ok m → length cs = 4%nat → Forall cont_ok cs → settled m (set_cont cs m).
Proof.
  intros [H1 H2 H3 H4 H5] Hl Hc. split; [by constructor|]. split; [|done]. split; [|done].
  unfold mc_pending. cbn. by destruct (base m).
Qed.

Lemma next_ac_spec m rnd : mc_ok m → 0 < rnd < 2 ^ 32 →
  let '(m', rnd', w) := wlan_wmm_get_next_ac m rnd in
  settled m m' ∧ 0 < rnd' < 2 ^ 32 ∧ work m' = work m ∧ mc_pending m' = mc_pending m ∧
  (w = -1 ∧ concat (mc_pending m) = [] ∨ ∃ j a l, w = Z.of_nat j ∧ mc_pending m !! j = Some (a :: l)).
Proof.
  intros Hok Hr. unfold wlan_wmm_get_next_ac. destruct (mo_cont _ Hok) as [Hl Hc].
  set (pend := _ <$> mc_pending m). assert (length pend = length (txq_contention m)) as Hlen.
  { unfold pend. rewrite length_fmap, Hl. apply (wf_txq_len _ _ (mo_wf _ Hok)). }
  pose proof (winner_facts pend (txq_contention m) rnd Hlen Hc Hr) as H.
  destruct (wlan_wmm_contention_get_winner pend (txq_contention m) rnd) as [[cs rnd'] w].
  destruct H as (Hr' & Hcl & Hcs & Hw). split; [apply settled_cont; [done|congruence|done]|].
  do 3 (split; [done|]). destruct Hw as [[-> Hno]|(j & -> & Hj)].
  - left. split; [done|]. destruct (concat (mc_pending m)) as [|a l] eqn:E; [done|].
    assert (a ∈ concat (mc_pending m)) as (q & Hq & Hin)%elem_of_concat by (rewrite E; left).
    apply list_elem_of_lookup in Hin as [i Hi]. exfalso. apply (Hno i). unfold pend. rewrite list_lookup_fmap, Hi.
    cbn. destruct q; [by apply elem_of_nil in Hq|done].
  - right. unfold pend in Hj. rewrite list_lookup_fmap in Hj. destruct (mc_pending m !! j) as [[|a l]|] eqn:E; [done| |done].
    by exists j, a, l.
Qed.

(** The outcome of the loops. *)
Definition found_list (m m' : mc_priv) (o : option raListTbl) : Prop :=
  settled m m' ∧ match o with Some r => chosen m m' r | None => concat (mc_pending m') = [] end.

Lemma found_list_trans m1 m2 m3 o : settled m1 m2 → found_list m2 m3 o → found_list m1 m3 o.
Proof.
  intros H [H1 H2]. split; [by eapply settled_trans|]. destruct o; [by eapply chosen_trans|done].
Qed.

Lemma ra_list_loop_spec : ∀ fuel ac m rnd, mc_ok m → 0 < rnd < 2 ^ 32 →
  (2 * work m + (match mc_pending m !! ac with Some (_ :: _) => 1 | _ => 2 end) <= fuel)%nat →
  ∃ m' rnd' o, ra_list_loop fuel ac m rnd = Some (m', rnd', o) ∧ 0 < rnd' < 2 ^ 32 ∧ found_list m m' o.
Proof.
  induction fuel as [|fuel IH]; intros ac m rnd Hok Hr Hf; [destruct (mc_pending m !! ac) as [[|]|]; lia|].
  cbn [ra_list_loop].
  assert (∀ w m1, settled m m1 → work m1 = work m → (2 * work m + 2 <= S fuel)%nat → mc_pending m1 = mc_pending m →
    ∀ rnd1, 0 < rnd1 < 2 ^ 32 → (w = -1 ∧ concat (mc_pending m) = [] ∨ ∃ j a l, w = Z.of_nat j ∧ mc_pending m !! j = Some (a :: l)) →
    ∃ m' rnd' o, (if w <? 0 then Some (m1, rnd1, None) else ra_list_loop fuel (Z.to_nat w) m1 rnd1) = Some (m', rnd', o) ∧
      0 < rnd' < 2 ^ 32 ∧ found_list m m' o) as Hcont.
  { intros w m1 Hs Hw Hf2 Hp rnd1 Hr1 [[-> He]|(j & a & l & -> & Hj)].
    - exists m1, rnd1, None. split; [done|]. split; [done|]. split; [done|]. by rewrite Hp.
    - rewrite (proj2 (Z.ltb_ge (Z.of_nat j) 0)) by lia. rewrite Nat2Z.id.
      destruct (IH j m1 rnd1) as (m' & rnd' & o & -> & Hr2 & Hfd); [apply Hs|done|rewrite Hp, Hj; lia|].
      exists m', rnd', o. split; [done|]. split; [done|]. by eapply found_list_trans. }
  pose proof (next_ac_spec m rnd Hok Hr) as Hn. destruct (wlan_wmm_get_next_ac m rnd) as [[m1 rnd1] w].
  destruct Hn as (Hs & Hr1 & Hw & Hp & Hc).
  destruct (mc_pending m !! ac) as [[|a l]|] eqn:E; [by eapply Hcont| |by eapply Hcont].
  assert (a ∈ concat (mc_pending m)) as Ha.
  { apply elem_of_concat. exists (a :: l). split; [left|by eapply list_elem_of_lookup_2]. }
  destruct (serve_head_spec a m Hok Ha) as (m2 & o & -> & [Hs2 Ho]%served_settled). cbn [mbind option_bind].
  destruct o as [r|]; [exists m2, rnd, (Some r); by split|].
  destruct (IH ac m2 rnd) as (m' & rnd' & o & -> & Hr2 & Hfd); [apply Hs2|done|destruct (mc_pending m2 !! ac) as [[|]|]; lia|].
  exists m', rnd', o. split; [done|]. split; [done|]. by eapply found_list_trans.
Qed.

Lemma next_ra_list_facts fuel m rnd : mc_ok m → 0 < rnd < 2 ^ 32 → (2 * work m + 1 <= fuel)%nat →
  ∃ m' rnd' o, wlan_wmm_get_next_ra_list fuel m rnd = Some (m', rnd', o) ∧ 0 < rnd' < 2 ^ 32 ∧ found_list m m' o.
Proof.
  intros Hok Hr Hf. unfold wlan_wmm_get_next_ra_list.
  pose proof (next_ac_spec m rnd Hok Hr) as Hn. destruct (wlan_wmm_get_next_ac m rnd) as [[m1 rnd1] w].
  destruct Hn as (Hs & Hr1 & Hw & Hp & [[-> He]|(j & a & l & -> & Hj)]).
  - exists m1, rnd1, None. split; [done|]. split; [done|]. split; [done|]. by rewrite Hp.
  - rewrite (proj2 (Z.ltb_ge (Z.of_nat j) 0)) by lia. rewrite Nat2Z.id.
    destruct (ra_list_loop_spec fuel j m1 rnd1) as (m' & rnd' & o & -> & Hr2 & Hfd); [apply Hs|done|rewrite Hp, Hj; lia|].
    exists m', rnd', o. split; [done|]. split; [done|]. by eapply found_list_trans.
Qed.

(** On an interface whose initial budgets are positive the search for the next
    list ends (two turns for each linked list and each refill it needs are enough
    fuel).  It finds a list that has a packet and both budgets left, or has
    unlinked everything; and it finds one whenever a linked list has a packet.
    Only empty lists are unlinked, and the queues themselves stay as they are. *)
Theorem next_ra_list_terminates m rnd fuel : mc_ok m → 0 < rnd < 2 ^ 32 → (2 * work m + 1 <= fuel)%nat →
  ∃ m' rnd' o, wlan_wmm_get_next_ra_list fuel m rnd = Some (m', rnd', o) ∧
    settled m m' ∧
    (o = None ↔ ∀ a r, a ∈ concat (mc_pending m) → ralist_at m a = Some r → has_data r = false) ∧
    (o = None → concat (mc_pending m') = []) ∧
    ∀ r, o = Some r → chosen m m' r.
Proof.
  intros Hok Hr Hf.
  destruct (next_ra_list_facts fuel m rnd Hok Hr Hf) as (m' & rnd' & o & -> & _ & Hs & Ho).
  exists m', rnd', o. split; [done|]. split; [done|]. destruct Hs as (H1 & H2 & H3 & H4).
  split; [|destruct o as [r|]; [split; [done|by intros ? [= <-]]|done]]. split.
  - intros -> a r Ha Hra. destruct (has_data r) eqn:Hd; [|done]. pose proof (H4 a r Ha Hra Hd) as Hin.
    rewrite Ho in Hin. by apply elem_of_nil in Hin.
  - intros Hno. destruct o as [r|]; [|done]. destruct Ho as (Hd & Ha & Hra & _). by rewrite (Hno _ _ Ha Hra) in Hd.
Qed.

(** ** The next interface *)

Record mc_ad_ok (ad : mc_adapter) : Prop := {
  ma_maps : maps_ok (mc_maps ad);
  ma_privs : ∀ b m, mc_privs ad !! b = Some m → mc_ok m ∧ -1 <= value (hint (base m)) <= 7;
  ma_tbl : ∀ j t, mc_tbl ad !! j = Some t →
    (bssprio_cur t <= length (bss_nodes t))%nat ∧ ∀ b, b ∈ bss_nodes t → (b < length (mc_privs ad))%nat;
  ma_sel : ∀ b, selected_mlan_bss ad = Some b → (b < length (mc_privs ad))%nat;
  ma_rnd : 0 < rnd_state ad < 2 ^ 32
}.

(** Only ring positions change. *)
Record ring_moved (ad ad' : mc_adapter) : Prop := {
  rm_ok : mc_ad_ok ad';
  rm_privs : mc_privs ad' = mc_privs ad;
  rm_maps : mc_maps ad' = mc_maps ad;
  rm_nodes : bss_nodes <$> mc_tbl ad' = bss_nodes <$> mc_tbl ad;
  rm_sel : selected_mlan_bss ad' = selected_mlan_bss ad;
  rm_rnd : rnd_state ad' = rnd_state ad
}.
Lemma ring_moved_refl ad : mc_ad_ok ad → ring_moved ad ad.
Proof. by constructor. Qed.
#[export] Instance ring_moved_trans : Transitive ring_moved.
Proof. intros ad1 ad2 ad3 [? ? ? ? ? ?] [? ? ? ? ? ?]. constructor; [done|congruence..]. Qed.

Lemma set_mc_cur_moved ad j t c : mc_ad_ok ad → mc_tbl ad !! j = Some t → (c <= length (bss_nodes t))%nat →
  ring_moved ad (set_mc_cur j c ad) ∧ mc_tbl (set_mc_cur j c ad) !! j = Some (mk_bss (bss_nodes t) c).
Proof.
  intros [H1 H2 H3 H4 H5] Hj Hc. split; [constructor; try done|].
  - constructor; try done. intros j' t' Ht'. cbn in Ht'. destruct (decide (j' = j)) as [->|].
    + rewrite list_lookup_alter_eq, Hj in Ht'. injection Ht' as <-. cbn. split; [done|]. by apply (H3 j t).
    + rewrite list_lookup_alter_ne in Ht' by done. by apply (H3 j').
  - cbn. apply list_eq. intros i. rewrite !list_lookup_fmap.
    destruct (decide (i = j)) as [->|]; [rewrite list_lookup_alter_eq|rewrite list_lookup_alter_ne by done]; [|done].
    by rewrite Hj.
  - cbn. by rewrite list_lookup_alter_eq, Hj.
Qed.

Lemma ring_moved_sym ad ad' : mc_ad_ok ad → ring_moved ad ad' → ring_moved ad' ad.
Proof. intros Hok []. by constructor. Qed.

(** An interface that may send and has a linked list. *)
Definition eligible (ad : mc_adapter) (b : nat) : Prop :=
  ∃ m, mc_privs ad !! b = Some m ∧ wlan_wmm_is_bss_ready_for_tx m && any_pending m = true.

Lemma eligible_moved ad ad' b : ring_moved ad ad' → eligible ad' b ↔ eligible ad b.
Proof. intros H. unfold eligible. by rewrite (rm_privs _ _ H). Qed.

Lemma head_ring_next n i : head_next n i = ring_next (S n) i.
Proof. unfold head_next, ring_next. repeat case_decide; lia. Qed.

Lemma mlan_walk_spec j nodes stop : (stop <= length nodes)%nat → ∀ r k ad t, (k + r = S (length nodes))%nat → (0 < r)%nat →
  mc_ad_ok ad → mc_tbl ad !! j = Some t → bss_nodes t = nodes →
  ∃ ad' o, mlan_walk j nodes r stop (ring_pos (S (length nodes)) stop k) ad = Some (ad', o) ∧ ring_moved ad ad' ∧
    match o with
    | Some b => b ∈ nodes ∧ eligible ad b
    | None => ∀ i b, (k <= i <= length nodes)%nat → nodes !! ring_pos (S (length nodes)) stop i = Some b → ¬ eligible ad b
    end.
Proof.
  intros Hstop. induction r as [|r IH]; intros k ad t Hk Hr Hok Hj Hn; [lia|]. cbn [mlan_walk].
  set (n := length nodes) in *. set (p := ring_pos (S n) stop k).
  assert (p <= n)%nat as Hp by (unfold p, ring_pos; case_decide; lia).
  destruct (set_mc_cur_moved ad j t p Hok Hj) as [Hm Hj1]; [by rewrite Hn|]. set (ad1 := set_mc_cur j p ad) in *.
  rewrite head_ring_next. destruct (ring_next_pos (S n) stop k) as [E Hend]; [lia|lia|]. fold p in E. rewrite E. cbv zeta.
  assert (¬ (∃ b, nodes !! p = Some b ∧ eligible ad b) →
    ∃ ad' o, (if decide (ring_pos (S n) stop (S k) = stop) then Some (ad1, None)
              else mlan_walk j nodes r stop (ring_pos (S n) stop (S k)) ad1) = Some (ad', o) ∧ ring_moved ad ad' ∧
      match o with
      | Some b => b ∈ nodes ∧ eligible ad b
      | None => ∀ i b, (k <= i <= n)%nat → nodes !! ring_pos (S n) stop i = Some b → ¬ eligible ad b
      end) as Hnext.
  { intros Hno. case_decide as Ed.
    - exists ad1, None. split; [done|]. split; [done|]. apply Hend in Ed. intros i b Hi Hb He.
      replace i with k in Hb by lia. apply Hno. eauto.
    - destruct (IH (S k) ad1 (mk_bss (bss_nodes t) p)) as (ad' & o & -> & Hm2 & Ho); [lia|destruct r; [|lia]|apply Hm|done|done|].
      { exfalso. apply Ed, Hend. lia. }
      exists ad', o. split; [done|]. split; [by etrans|]. destruct o as [b|].
      + by rewrite <- (eligible_moved ad ad1).
      + intros i b Hi Hb He. destruct (decide (i = k)) as [->|]; [apply Hno; eauto|].
        apply (Ho i b); [lia|done|]. by apply (eligible_moved ad ad1). }
  destruct (decide (p = n)) as [Ep|Ep].
  { apply Hnext. intros (b & Hb & _). apply lookup_lt_Some in Hb. fold n in Hb. lia. }
  destruct (lookup_lt_is_Some_2 nodes p) as [b Hb]; [fold n; lia|]. rewrite Hb. cbn [mbind option_bind].
  assert (b < length (mc_privs ad))%nat as Hlt.
  { apply (ma_tbl _ Hok j t Hj). rewrite Hn. by eapply list_elem_of_lookup_2. }
  destruct (lookup_lt_is_Some_2 _ _ Hlt) as [m Em]. change (mc_privs ad1) with (mc_privs ad). rewrite Em. cbn [mbind option_bind].
  destruct (wlan_wmm_is_bss_ready_for_tx m && any_pending m) eqn:Ee.
  - destruct (set_mc_cur_moved ad1 j _ (ring_pos (S n) stop (S k)) (rm_ok _ _ Hm) Hj1) as [Hm2 _].
    { cbn [bss_nodes]. rewrite Hn. fold n. clear -Hk Hstop Hr. unfold ring_pos. case_decide; lia. }
    eexists _, _. split; [reflexivity|]. split; [by etrans|]. split; [by eapply list_elem_of_lookup_2|by exists m].
  - apply Hnext. intros (b' & Hb' & m' & Em' & He'). rewrite Hb in Hb'. injection Hb' as <-. congruence.
Qed.

Lemma next_bss_loop_spec n : ∀ ad, (n <= length (mc_tbl ad))%nat → mc_ad_ok ad →
  ∃ ad' o, next_bss_loop n ad = Some (ad', o) ∧ ring_moved ad ad' ∧
    match o with
    | Some b => (∃ j t, mc_tbl ad !! j = Some t ∧ b ∈ bss_nodes t) ∧ eligible ad b
    | None => ∀ j t b, (j < n)%nat → mc_tbl ad !! j = Some t → b ∈ bss_nodes t → ¬ eligible ad b
    end.
Proof.
  induction n as [|n IH]; intros ad Hn Hok; cbn [next_bss_loop].
  { exists ad, None. split; [done|]. split; [by apply ring_moved_refl|]. lia. }
  destruct (lookup_lt_is_Some_2 (mc_tbl ad) n) as [t Ht]; [lia|]. rewrite Ht. cbn [mbind option_bind].
  assert (∀ ad1, ring_moved ad ad1 → (∀ b, b ∈ bss_nodes t → ¬ eligible ad b) →
    ∃ ad' o, next_bss_loop n ad1 = Some (ad', o) ∧ ring_moved ad ad' ∧
    match o with
    | Some b => (∃ j t, mc_tbl ad !! j = Some t ∧ b ∈ bss_nodes t) ∧ eligible ad b
    | None => ∀ j t b, (j < S n)%nat → mc_tbl ad !! j = Some t → b ∈ bss_nodes t → ¬ eligible ad b
    end) as Hrest.
  { intros ad1 Hm Hno. pose proof (rm_nodes _ _ Hm) as Hnodes.
    destruct (IH ad1) as (ad' & o & -> & Hm2 & Ho); [|apply Hm|].
    { pose proof (f_equal length Hnodes) as Hl. rewrite !length_fmap in Hl. lia. }
    exists ad', o. split; [done|]. split; [by etrans|]. destruct o as [b|].
    - destruct Ho as [(j & t1 & Hj & Hb) He]. split; [|by rewrite <- (eligible_moved ad ad1)].
      pose proof (f_equal (.!! j) Hnodes) as Hx. cbn in Hx. rewrite !list_lookup_fmap, Hj in Hx. cbn in Hx.
      destruct (mc_tbl ad !! j) as [t0|] eqn:E0; [|done]. injection Hx as Hx. exists j, t0. by rewrite <- Hx.
    - intros j t1 b Hj Ht1 Hb. destruct (decide (j = n)) as [->|].
      + rewrite Ht in Ht1. injection Ht1 as <-. by apply Hno.
      + pose proof (f_equal (.!! j) Hnodes) as Hx. cbn in Hx. rewrite !list_lookup_fmap, Ht1 in Hx. cbn in Hx.
        destruct (mc_tbl ad1 !! j) as [t2|] eqn:E2; [|done]. injection Hx as Hx.
        rewrite <- (eligible_moved ad ad1) by done. apply (Ho j t2); [lia|done|]. by rewrite Hx. }
  destruct (bss_nodes t) as [|b0 l] eqn:En; [apply Hrest; [by apply ring_moved_refl|by intros b Hb%elem_of_nil]|].
  unfold wlan_wmm_get_next_mlan. rewrite Ht. cbn [mbind option_bind]. rewrite En.
  destruct (ma_tbl _ Hok n t Ht) as [Hcur _]. rewrite En in Hcur.
  destruct (mlan_walk_spec n (b0 :: l) (bssprio_cur t) Hcur (S (length (b0 :: l))) 0 ad t) as (ad' & o & He & Hm & Ho); [lia|lia|done..|].
  rewrite ring_pos_0 in He by lia. rewrite He. cbn [mbind option_bind]. destruct o as [b|].
  - exists ad', (Some b). split; [done|]. split; [done|]. destruct Ho as [Hb He']. split; [|done].
    exists n, t. by rewrite En.
  - apply Hrest; [done|]. intros b Hb. apply list_elem_of_lookup in Hb as [p Hp]. pose proof (lookup_lt_Some _ _ _ Hp) as Hlt.
    destruct (dist_pos (S (length (b0 :: l))) (bssprio_cur t) p) as [Hd Hpos]; [lia|lia|].
    apply (Ho (dist (S (length (b0 :: l))) (bssprio_cur t) p) b); [lia|]. by rewrite Hpos.
Qed.

(** ** The scheduler *)

Definition total_work (ad : mc_adapter) : nat := sum_list_with work (mc_privs ad).

(** Budgets are refilled, emptied lists unlinked, rings turned. *)
Record ad_settled (ad ad' : mc_adapter) : Prop := {
  as_ok : mc_ad_ok ad';
  as_mc : Forall2 settled (mc_privs ad) (mc_privs ad');
  as_tids : mc_maps ad' = mc_maps ad;
  as_ring : bss_nodes <$> mc_tbl ad' = bss_nodes <$> mc_tbl ad
}.
Lemma settled_refl m : mc_ok m → settled m m.
Proof. intros H. by split. Qed.
Lemma ad_settled_refl ad : mc_ad_ok ad → ad_settled ad ad.
Proof.
  intros H. constructor; try done. apply Forall2_lookup. intros b. destruct (mc_privs ad !! b) eqn:E; constructor.
  by apply settled_refl, (ma_privs _ H b).
Qed.
#[export] Instance ad_settled_trans : Transitive ad_settled.
Proof.
  intros ad1 ad2 ad3 [H1 H2 H3 H4] [H5 H6 H7 H8]. constructor; [done| |congruence..].
  eapply Forall2_trans; [|done..]. by intros ???; apply settled_trans.
Qed.
Lemma ring_moved_settled ad ad' : mc_ad_ok ad → ring_moved ad ad' → ad_settled ad ad' ∧ total_work ad' = total_work ad.
Proof.
  intros Hok [H1 H2 H3 H4 H5 H6]. split; [|unfold total_work; congruence]. constructor; [done| |done..].
  rewrite H2. by apply ad_settled_refl.
Qed.

Lemma sum_list_with_insert {A} (f : A → nat) l i x y : l !! i = Some x →
  (sum_list_with f (<[i := y]> l) + f x = sum_list_with f l + f y)%nat.
Proof.
  revert i. induction l as [|z l IH]; intros [|i] Hi; [done|done| |].
  - injection Hi as ->. cbn. lia.
  - specialize (IH i Hi). change (sum_list_with f (<[S i := y]> (z :: l))) with (f z + sum_list_with f (<[i := y]> l))%nat.
    change (sum_list_with f (z :: l)) with (f z + sum_list_with f l)%nat. lia.
Qed.

(** One interface settles; the random state moves; the interface stays selected or
    not. *)
Lemma set_mc_priv_settled ad b m m' rnd sel : mc_ad_ok ad → mc_privs ad !! b = Some m → settled m m' →
  0 < rnd < 2 ^ 32 → (∀ c, sel = Some c → (c < length (mc_privs ad))%nat) →
  ad_settled ad (set_selected_bss sel (set_rnd rnd (set_mc_priv b m' ad))).
Proof.
  intros [H1 H2 H3 H4 H5] Hb Hs Hr Hsel. constructor; try done.
  - constructor; try done; cbn.
    + intros i x Hx. destruct (decide (i = b)) as [->|].
      * rewrite list_lookup_insert_eq in Hx by by eapply lookup_lt_Some. injection Hx as <-.
        destruct (H2 b m Hb) as [_ Hh]. destruct Hs as (Hok & [Hk _] & _). split; [done|]. by rewrite Hk.
      * rewrite list_lookup_insert_ne in Hx by done. by apply (H2 i).
    + intros j t Ht. rewrite length_insert. by apply (H3 j).
    + intros c Hc. rewrite length_insert. by apply Hsel.
  - cbn. apply Forall2_lookup. intros i. destruct (decide (i = b)) as [->|].
    + rewrite list_lookup_insert_eq by by eapply lookup_lt_Some. rewrite Hb. by constructor.
    + rewrite list_lookup_insert_ne by done. destruct (mc_privs ad !! i) eqn:E; constructor.
      by apply settled_refl, (H2 i).
Qed.
Lemma total_work_set ad b m m' rnd sel : mc_privs ad !! b = Some m →
  (total_work (set_selected_bss sel (set_rnd rnd (set_mc_priv b m' ad))) + work m = total_work ad + work m')%nat.
Proof. intros Hb. unfold total_work. cbn. by apply sum_list_with_insert. Qed.

Lemma work_nil m : concat (mc_pending m) = [] → work m = 0%nat.
Proof. unfold work. by intros ->. Qed.

Lemma sel_list_facts ad b m : mc_ad_ok ad → mc_privs ad !! b = Some m →
  ∃ sel, (match selected_ra_list m with
          | None => Some None
          | Some a => r ← ralist_at m a; Some (if total_pkts r =? 0 then None else Some r)
          end) = Some sel ∧
    ∀ r, sel = Some r → ralist_at m (r_addr r) = Some r ∧ r_addr r ∈ concat (mc_pending m) ∧ has_data r = true.
Proof.
  intros Hok Hb. destruct (ma_privs _ Hok b m Hb) as [Hm _]. destruct (selected_ra_list m) as [a|] eqn:E; [|by eexists].
  destruct (mo_sel _ Hm a E) as (r & Hr & Hin). rewrite Hr. cbn [mbind option_bind]. eexists. split; [reflexivity|].
  destruct (ralist_at_Some _ _ _ Hr) as [<- _]. intros r' Hr'. destruct (total_pkts r =? 0) eqn:Et; [done|].
  injection Hr' as <-. split; [done|]. split; [apply Hin; lia|].
  by rewrite (no_data_zero m (r_addr r) r), Et by (done || apply Hm).
Qed.

Lemma serve_bss_spec fuel b ad m : mc_ad_ok ad → mc_privs ad !! b = Some m → (2 * work m + 1 <= fuel)%nat →
  ∃ ad' o, serve_bss fuel b ad = Some (ad', o) ∧ ad_settled ad ad' ∧
    match o with
    | Some r => ∃ m', mc_privs ad' !! b = Some m' ∧ chosen m m' r
    | None => (total_work ad' < total_work ad)%nat ∨ work m = 0%nat ∧ total_work ad' = total_work ad
    end.
Proof.
  intros Hok Hb Hf. unfold serve_bss. rewrite Hb. cbn [mbind option_bind].
  destruct (sel_list_facts ad b m Hok Hb) as (sel & -> & Hsel). cbn [mbind option_bind].
  destruct (ma_privs _ Hok b m Hb) as [Hm _].
  assert (∀ m', (<[b := m']> (mc_privs ad)) !! b = Some m') as Hset.
  { intros m'. apply list_lookup_insert_eq. by eapply lookup_lt_Some. }
  destruct sel as [r|].
  - destruct (Hsel r eq_refl) as (Hr & Ha & Hd). destruct (quoats_spec r m Hm Hr Ha Hd) as (m' & k & -> & [Hs Ho]%served_settled).
    cbn [mbind option_bind]. destruct k; (eexists _, _; split; [reflexivity|]).
    + split; [|exists m'; split; [apply Hset|exact Ho]].
      apply (set_mc_priv_settled ad b m m' (rnd_state ad) (selected_mlan_bss ad)); try done; [apply (ma_rnd _ Hok)|apply (ma_sel _ Hok)].
    + split; [|left].
      * apply (set_mc_priv_settled ad b m m' (rnd_state ad) None); try done. apply (ma_rnd _ Hok).
      * pose proof (total_work_set ad b m m' (rnd_state ad) None Hb) as Hw.
        change (total_work (set_selected_bss None (set_mc_priv b m' ad)) + work m = total_work ad + work m')%nat in Hw. lia.
  - destruct (next_ra_list_facts fuel m (rnd_state ad) Hm (ma_rnd _ Hok) Hf) as (m' & rnd' & o & -> & Hr & Hs & Ho).
    cbn [mbind option_bind]. eexists _, _. split; [reflexivity|]. split.
    + apply (set_mc_priv_settled ad b m m' rnd' (selected_mlan_bss ad)); try done. apply (ma_sel _ Hok).
    + destruct o as [r|]; [exists m'; split; [apply Hset|exact Ho]|]. apply work_nil in Ho.
      pose proof (total_work_set ad b m m' rnd' (selected_mlan_bss ad) Hb) as Hw.
      change (total_work (set_rnd rnd' (set_mc_priv b m' ad)) + work m = total_work ad + work m')%nat in Hw.
      destruct (decide (work m = 0%nat)); [right|left]; lia.
Qed.

(** No interface that may send has a linked list with a packet. *)
Definition none_linked (ad : mc_adapter) : Prop :=
  ∀ j t b m a r, mc_tbl ad !! j = Some t → b ∈ bss_nodes t → mc_privs ad !! b = Some m →
    wlan_wmm_is_bss_ready_for_tx m = true → a ∈ concat (mc_pending m) → ralist_at m a = Some r → has_data r = false.

(** The list found by the loop for interface [b], and where it leaves the state. *)
Definition bss_found (ad ad' : mc_adapter) (b : nat) (r : raListTbl) : Prop :=
  ∃ m m', mc_privs ad !! b = Some m ∧ mc_privs ad' !! b = Some m' ∧ chosen m m' r ∧
    selected_mlan_bss ad' = Some b.

Lemma ad_settled_lookup ad ad' b m : ad_settled ad ad' → mc_privs ad !! b = Some m →
  ∃ m', mc_privs ad' !! b = Some m' ∧ settled m m'.
Proof. intros H Hb. by eapply Forall2_lookup_l; [apply (as_mc _ _ H)|]. Qed.
Lemma settled_ready m m' : settled m m' → wlan_wmm_is_bss_ready_for_tx m' = wlan_wmm_is_bss_ready_for_tx m.
Proof. intros (_ & [H _] & _). unfold wlan_wmm_is_bss_ready_for_tx. by rewrite H. Qed.

Lemma any_pending_false m : any_pending m = false → concat (mc_pending m) = [].
Proof.
  unfold any_pending. induction (mc_pending m) as [|q l IH]; [done|]. cbn. destruct q; [|done]. by intros; apply IH.
Qed.

Lemma ring_at ad ad' j t : ad_settled ad ad' → mc_tbl ad !! j = Some t →
  ∃ t', mc_tbl ad' !! j = Some t' ∧ bss_nodes t' = bss_nodes t.
Proof.
  intros H Hj. pose proof (f_equal (.!! j) (as_ring _ _ H)) as Hx. cbn in Hx. rewrite !list_lookup_fmap, Hj in Hx.
  destruct (mc_tbl ad' !! j) as [t'|]; [|done]. injection Hx as Hx. by exists t'.
Qed.

Lemma none_linked_settled ad ad' : ad_settled ad ad' → none_linked ad' → none_linked ad.
Proof.
  intros Hs Hn j t b m a r Hj Hb Hm Hr Ha Hra. destruct (has_data r) eqn:Hd; [|done].
  destruct (ring_at _ _ _ _ Hs Hj) as (t' & Hj' & Ht). destruct (ad_settled_lookup _ _ _ _ Hs Hm) as (m' & Hm' & Hset).
  pose proof Hset as (_ & Hk & _ & Hkeep).
  rewrite <- Hd. apply (Hn j t' b m' a r); [done|by rewrite Ht|done| | |by rewrite (ralist_at_keeps m m')].
  - by rewrite (settled_ready m m').
  - by apply (Hkeep a r).
Qed.
Lemma not_eligible_none ad : (∀ j t b, mc_tbl ad !! j = Some t → b ∈ bss_nodes t → ¬ eligible ad b) → none_linked ad.
Proof.
  intros H j t b m a r Hj Hb Hm Hr Ha _. exfalso. apply (H j t b Hj Hb). exists m. split; [done|]. rewrite Hr. cbn.
  destruct (any_pending m) eqn:E; [done|]. rewrite (any_pending_false _ E) in Ha. by apply elem_of_nil in Ha.
Qed.
Lemma eligible_work ad b : eligible ad b → ∃ m, mc_privs ad !! b = Some m ∧ wlan_wmm_is_bss_ready_for_tx m = true ∧ work m ≠ 0%nat.
Proof.
  intros (m & Hm & [Hr Hp]%andb_true_iff). exists m. do 2 (split; [done|]). unfold work.
  unfold any_pending in Hp. apply existsb_exists in Hp as (q & Hq & Hne). apply list_elem_of_In in Hq.
  destruct q as [|a q]; [done|]. destruct (concat (mc_pending m)) as [|x l] eqn:E; [|cbn; lia].
  assert (a ∈ concat (mc_pending m)) as Ha by (apply elem_of_concat; exists (a :: q); split; [left|done]).
  rewrite E in Ha. by apply elem_of_nil in Ha.
Qed.

Lemma get_next_bss_spec ad : mc_ad_ok ad →
  ∃ ad' o, wlan_wmm_get_next_bss ad = Some (ad', o) ∧ ring_moved ad ad' ∧
    match o with Some b => eligible ad b | None => none_linked ad end.
Proof.
  intros Hok. destruct (next_bss_loop_spec (length (mc_tbl ad)) ad) as (ad' & o & He & Hm & Ho); [done..|].
  exists ad', o. do 2 (split; [done|]). destruct o as [b|]; [by destruct Ho|]. apply not_eligible_none.
  intros j t b Hj. apply (Ho j t b); [by eapply lookup_lt_Some|done].
Qed.

Lemma select_settled ad b m : mc_ad_ok ad → mc_privs ad !! b = Some m → ad_settled ad (set_selected_bss (Some b) ad).
Proof.
  intros Hok Hb. destruct (ad_settled_refl ad Hok) as [[H1 H2 H3 H4 H5] H6 H7 H8]. constructor; try done. constructor; try done.
  cbn. intros c [= <-]. by eapply lookup_lt_Some.
Qed.

Lemma bss_found_settled ad1 ad2 ad3 b r : ad_settled ad1 ad2 → bss_found ad2 ad3 b r → bss_found ad1 ad3 b r.
Proof.
  intros Hs (m & m' & Hm & Hm' & Hc & Hsel).
  destruct (Forall2_lookup_r _ _ _ _ _ (as_mc _ _ Hs) Hm) as (m0 & Hm0 & Hset).
  exists m0, m'. do 2 (split; [done|]). split; [by eapply chosen_trans|done].
Qed.

Lemma bss_loop_spec fuel : ∀ mlan ad, mc_ad_ok ad →
  (∀ b, mlan = Some b → ∃ m, mc_privs ad !! b = Some m ∧ (2 * total_work ad + (if decide (work m = 0) then 2 else 1) <= fuel)%nat) →
  (mlan = None → none_linked ad) →
  ∃ ad' o, bss_loop fuel mlan ad = Some (ad', o) ∧ ad_settled ad ad' ∧
    match o with
    | Some (b, r) => bss_found ad ad' b r ∧
        (mlan = Some b ∨ ∃ m, mc_privs ad !! b = Some m ∧ wlan_wmm_is_bss_ready_for_tx m = true)
    | None => none_linked ad
    end.
Proof.
  induction fuel as [|fuel IH]; intros [b|] ad Hok Hf Hno; cbn [bss_loop];
    try (exists ad, None; split; [done|]; split; [by apply ad_settled_refl|by apply Hno]).
  { destruct (Hf b eq_refl) as (m & _ & Hx). case_decide; lia. }
  destruct (Hf b eq_refl) as (m & Hb & Hx).
  destruct (serve_bss_spec (S fuel) b ad m Hok Hb) as (ad1 & o & -> & Hs1 & Ho).
  { pose proof (sum_list_with_insert work (mc_privs ad) b m m Hb) as Hw. unfold total_work in Hx.
    assert (work m <= sum_list_with work (mc_privs ad))%nat as Hle; [|case_decide; lia].
    clear -Hb. revert b Hb. induction (mc_privs ad) as [|y l IH]; intros [|b] Hb; [done|done|injection Hb as ->; cbn; lia|].
    specialize (IH b Hb). change (sum_list_with work (y :: l)) with (work y + sum_list_with work l)%nat. lia. }
  cbn [mbind option_bind]. destruct o as [r|].
  { destruct Ho as (m' & Hm' & Hc). eexists _, _. split; [reflexivity|].
    split; [etrans; [exact Hs1|]; by eapply select_settled; [apply Hs1|]|]. split; [|by left]. by exists m, m'. }
  destruct (get_next_bss_spec ad1 (as_ok _ _ Hs1)) as (ad2 & mlan & -> & Hm2 & Hn2). cbn [mbind option_bind].
  destruct (ring_moved_settled _ _ (as_ok _ _ Hs1) Hm2) as [Hs2 Hw2].
  destruct (IH mlan ad2) as (ad3 & o & -> & Hs3 & Ho3); [apply Hs2| | |].
  - intros c ->. destruct (eligible_work _ _ Hn2) as (mc & Hmc & _ & Hne). rewrite (rm_privs _ _ Hm2).
    exists mc. split; [done|]. rewrite decide_False by done. rewrite Hw2. case_decide; lia.
  - intros ->. eapply none_linked_settled; [|exact Hn2].
    apply ring_moved_settled; [apply Hs2|apply ring_moved_sym; [apply Hs1|done]].
  - exists ad3, o. split; [done|]. split; [by do 2 (etrans; [done|])|]. destruct o as [[c r]|].
    + destruct Ho3 as [Hfd Hr]. split; [by do 2 (eapply bss_found_settled; [done|])|]. right.
      destruct Hr as [->|Hr].
      * destruct (eligible_work _ _ Hn2) as (mc & Hmc & Hrd & _).
        destruct (Forall2_lookup_r _ _ _ _ _ (as_mc _ _ Hs1) Hmc) as (m0 & Hm0 & Hset).
        exists m0. split; [done|]. by rewrite <- (settled_ready m0 mc).
      * destruct Hr as (mc & Hmc & Hrd). rewrite (rm_privs _ _ Hm2) in Hmc.
        destruct (Forall2_lookup_r _ _ _ _ _ (as_mc _ _ Hs1) Hmc) as (m0 & Hm0 & Hset).
        exists m0. split; [done|]. by rewrite <- (settled_ready m0 mc).
    + do 2 (eapply none_linked_settled; [done|]). done.
Qed.

(** ** The whole choice *)

(** The state as the scheduler for one client sees it. *)
Definition view (ad : mc_adapter) : wmm_adapter := mk_wadapter (base <$> mc_privs ad) (mc_maps ad) (mc_tbl ad).

Lemma view_ok ad : mc_ad_ok ad → ad_ok (view ad).
Proof.
  intros [H1 H2 H3 _ _]. constructor; [done| |].
  - intros b p Hb. cbn in Hb. rewrite list_lookup_fmap in Hb. apply fmap_Some in Hb as (m & Hm & ->).
    destruct (H2 b m Hm) as [Hok Hh]. split; [apply Hok|done].
  - intros j t Ht. cbn. rewrite length_fmap. by apply (H3 j).
Qed.

Lemma view_lookup ad ad' b p' : ad_settled ad ad' → privs (view ad') !! b = Some p' →
  ∃ p q, privs (view ad) !! b = Some p ∧ p' = set_pending_txq q p.
Proof.
  intros Hs Hb. cbn in *. rewrite list_lookup_fmap in *. apply fmap_Some in Hb as (m' & Hm' & ->).
  destruct (Forall2_lookup_r _ _ _ _ _ (as_mc _ _ Hs) Hm') as (m & Hm & (_ & [Hk _] & _)).
  rewrite Hm. by eexists _, _.
Qed.
Lemma view_lookup_l ad ad' b p : ad_settled ad ad' → privs (view ad) !! b = Some p →
  ∃ q, privs (view ad') !! b = Some (set_pending_txq q p).
Proof.
  intros Hs Hb. cbn in *. rewrite list_lookup_fmap in *. apply fmap_Some in Hb as (m & Hm & ->).
  destruct (ad_settled_lookup _ _ _ _ Hs Hm) as (m' & Hm' & (_ & [Hk _] & _)). rewrite Hm'. eexists. cbn. by rewrite Hk.
Qed.
Lemma view_good ad ad' b : ad_settled ad ad' → good_hint (view ad) b → good_hint (view ad') b.
Proof.
  intros Hs Hg p' Hb. destruct (view_lookup _ _ _ _ Hs Hb) as (p & q & Hp & ->).
  destruct (Hg p Hp) as [?|Hh]; [by left|right]. cbn [view a_maps] in *. rewrite (as_tids _ _ Hs). exact Hh.
Qed.
Lemma view_found ad ad' res : ad_settled ad ad' → found (view ad') res → found (view ad) res.
Proof.
  intros Hs. destruct res as [[b tid] r]. intros (p' & t & Hb & H1 & H2 & H3 & H4 & H5).
  destruct (view_lookup _ _ _ _ Hs Hb) as (p & q & Hp & ->). exists p, t. repeat (split; [done|]).
  intros Hg. specialize (H5 (view_good _ _ _ Hs Hg)). cbn [view a_maps] in *. rewrite (as_tids _ _ Hs) in H5. exact H5.
Qed.
Lemma view_idle ad ad' b : ad_settled ad ad' → idle (view ad') b → idle (view ad) b.
Proof.
  intros Hs Hi p Hb. destruct (view_lookup_l _ _ _ _ Hs Hb) as [q Hq]. destruct (Hi _ Hq) as [?|Hn]; [by left|right].
  cbn [view a_maps] in *. rewrite (as_tids _ _ Hs) in Hn. exact Hn.
Qed.

(** What the scheduler for one client finds after the loop has given up. *)
Lemma highest_priolist_spec ad ad1 : ad_settled ad ad1 → 
  ∃ ad' o, highest_priolist ad1 = Some (ad', o) ∧ selected_mlan_bss ad' = selected_mlan_bss ad1 ∧
    match o with
    | Some res => found (view ad) res
    | None => ∀ j t b, mc_tbl ad !! j = Some t → b ∈ bss_nodes t → good_hint (view ad) b → idle (view ad) b
    end.
Proof.
  intros Hs. pose proof (view_ok _ (as_ok _ _ Hs)) as Hok.
  destruct (tbl_walk_spec (bssprio_tbl (view ad1)) (length (bssprio_tbl (view ad1))) (view ad1))
    as (w & o & He & (_ & _ & _ & Ho) & _); [done..|].
  unfold highest_priolist. change (mk_wadapter _ _ _) with (view ad1). unfold wlan_wmm_get_highest_priolist_ptr.
  rewrite He. cbn [mbind option_bind]. eexists _, o. split; [reflexivity|]. split; [done|].
  destruct o as [res|]; [apply (view_found _ _ _ Hs); by destruct Ho|].
  intros j t b Hj Hb Hg. apply (view_idle _ _ _ Hs). destruct (ring_at _ _ _ _ Hs Hj) as (t' & Hj' & Ht).
  apply Ho; [|by apply (view_good ad)]. apply elem_order; [done|]. exists j, t'. rewrite Ht.
  split; [by apply lookup_lt_Some in Hj'|done].
Qed.

(** The interface the loop starts with. *)
Lemma first_bss_spec ad : mc_ad_ok ad →
  ∃ ad1 mlan, (match selected_mlan_bss ad with Some b => Some (ad, Some b) | None => wlan_wmm_get_next_bss ad end)
      = Some (ad1, mlan) ∧ ad_settled ad ad1 ∧ mc_privs ad1 = mc_privs ad ∧
    (∀ b, mlan = Some b → selected_mlan_bss ad = Some b ∨
       ∃ m, mc_privs ad !! b = Some m ∧ wlan_wmm_is_bss_ready_for_tx m = true) ∧
    (mlan = None → none_linked ad1).
Proof.
  intros Hok. destruct (selected_mlan_bss ad) as [b|] eqn:E.
  - exists ad, (Some b). split; [done|]. split; [by apply ad_settled_refl|]. split; [done|].
    split; [by intros c [= ->]; left|done].
  - destruct (get_next_bss_spec ad Hok) as (ad1 & o & He & Hm & Ho). exists ad1, o. split; [done|].
    split; [by apply ring_moved_settled|]. split; [by apply Hm|]. split.
    + intros b ->. right. destruct (eligible_work _ _ Ho) as (m & Hm1 & Hr & _). by exists m.
    + intros ->. eapply none_linked_settled; [|exact Ho].
      apply ring_moved_settled; [apply Hm|by apply ring_moved_sym].
Qed.

(** C14: With many clients, whose byte and MPDU budgets all start above zero, the choice of
    the next packet ends, and ends well: it is a list linked in the queues of an
    interface with a packet and both budgets left, and both stay selected; or no
    interface that may send has such a list, nothing is selected, and the answer is
    that of the scheduler for one client on the unchanged queues.  The queues are in
    order ([mc_ad_ok]): counters right with no packet in the air, every linked list has
    a client, the tables and the selected interface and list name existing ones, the
    random state is not zero.  The code can create a client with an MPDU budget of
    zero, and then the choice never ends ([next_ra_list_starves]).  Two turns for each
    linked list and each refill are enough fuel; an interface that was selected before
    is not asked whether it may send. *)
Theorem next_priolist_found fuel ad : mc_ad_ok ad → (2 * total_work ad + 2 <= fuel)%nat →
  ∃ ad' o, wlan_wmm_get_next_priolist_ptr fuel ad = Some (ad', o) ∧
    ((∃ b r, o = Some (b, Z.to_nat (r_tid r), r) ∧ ad_settled ad ad' ∧ bss_found ad ad' b r ∧
        (selected_mlan_bss ad = Some b ∨
         ∃ m, mc_privs ad !! b = Some m ∧ wlan_wmm_is_bss_ready_for_tx m = true)) ∨
     (none_linked ad ∧ selected_mlan_bss ad' = None ∧
      match o with
      | Some res => found (view ad) res
      | None => ∀ j t b, mc_tbl ad !! j = Some t → b ∈ bss_nodes t → good_hint (view ad) b → idle (view ad) b
      end)).
Proof.
  intros Hok Hf. unfold wlan_wmm_get_next_priolist_ptr.
  destruct (first_bss_spec ad Hok) as (ad1 & mlan & -> & Hs1 & Hp1 & Hsel & Hno).
  cbn [mbind option_bind].
  destruct (bss_loop_spec fuel mlan ad1) as (ad2 & o & -> & Hs2 & Ho); [apply Hs1| |done|].
  { intros b ->. assert (∃ m, mc_privs ad !! b = Some m) as [m Hm].
    { destruct (Hsel b eq_refl) as [Hb|(m & Hm & _)]; [apply lookup_lt_is_Some_2, (ma_sel _ Hok b Hb)|by exists m]. }
    exists m. rewrite Hp1. split; [done|]. unfold total_work in *. rewrite Hp1. case_decide; lia. }
  cbn [mbind option_bind]. pose proof (ad_settled_trans _ _ _ Hs1 Hs2) as Hs.
  destruct o as [[b r]|].
  - destruct Ho as [Hfd Hr]. eexists _, _. split; [reflexivity|]. left. exists b, r. split; [done|]. split; [done|].
    split; [exact (bss_found_settled _ _ _ _ _ Hs1 Hfd)|]. destruct Hr as [->|Hr]; [by apply Hsel|right]. by rewrite <- Hp1.
  - assert (ad_settled ad (set_selected_bss None ad2)) as Hs3.
    { destruct Hs as [[? ? ? ? ?] ? ? ?]. constructor; [by constructor|done..]. }
    destruct (highest_priolist_spec ad _ Hs3) as (ad' & o & -> & Hn & Hres).
    eexists _, _. split; [reflexivity|]. right. split; [exact (none_linked_settled _ _ Hs1 Ho)|]. by split.
Qed.

(** One receiver with eight linked lists, of which one has a packet and has used
    more than its bytes. *)
Definition demo_sta : wmm_sta_table := set_bytes_mpdus 5 (-60000) 12 (wlan_wmm_allocate_sta_table 2000 6000 5000 demo_mac).
Definition demo_mc : mc_priv :=
  mk_mc (w_priv demo_8) {[ 200 := demo_sta ]} (list_to_map ((λ a, (a, 200)) <$> seqZ 100 8)) demo_conts None.
Definition demo_mc_ad : mc_adapter :=
  mk_mc_adapter [demo_mc] default_maps [mk_bss [0%nat] 1] None 2463534242.

Lemma demo_mc_ok : mc_ok demo_mc.
Proof.
  constructor.
  - exact (wi_wf _ (reach_inv demo_8 demo_reach_8)).
  - split; [reflexivity|]. repeat constructor; cbn; lia.
  - assert (Forall (λ a, match ralist_at demo_mc a with
      | Some r => bool_decide (0 <= r_tid r < 8 ∧ 0 <= r_queue r < 4 ∧ is_Some (sta_at demo_mc a)) = true
      | None => True end) (concat (mc_pending demo_mc))) as H.
    { repeat constructor. }
    rewrite Forall_forall in H. intros a r Ha Hr. specialize (H a Ha). rewrite Hr in H. by apply bool_decide_eq_true in H.
  - apply map_Forall_singleton. constructor; (refine (bool_decide_unpack _ _); vm_compute; exact I).
  - done.
Qed.

Lemma next_ra_list_terminates_witness :
  ∃ m' rnd' r, wlan_wmm_get_next_ra_list 21 demo_mc 2463534242 = Some (m', rnd', Some r) ∧
    r_addr r = 105 ∧ chosen demo_mc m' r.
Proof.
  destruct (next_ra_list_terminates demo_mc 2463534242 21 demo_mc_ok) as (m' & rnd' & o & He & _ & _ & _ & Ho);
    [lia|vm_compute; lia|].
  destruct o as [r|]; [|vm_compute in He; discriminate He].
  exists m', rnd', r. split; [exact He|]. split; [|by apply Ho]. clear Ho. vm_compute in He. by injection He as _ _ <-.
Defined.

Lemma demo_mc_ad_ok : mc_ad_ok demo_mc_ad.
Proof.
  constructor; [exact default_maps_ok| | |done|cbn; lia].
  - intros [|b] m; [|done]. intros [= <-]. split; [exact demo_mc_ok|]. vm_compute. split; discriminate.
  - intros [|j] t; [|done]. intros [= <-]. cbn. split; [lia|]. intros b Hb.
    apply list_elem_of_singleton in Hb as ->. lia.
Qed.

Lemma next_priolist_found_witness :
  ∃ ad' r, wlan_wmm_get_next_priolist_ptr 22 demo_mc_ad = Some (ad', Some (0%nat, 5%nat, r)) ∧
    bss_found demo_mc_ad ad' 0 r.
Proof.
  destruct (next_priolist_found 22 demo_mc_ad demo_mc_ad_ok) as (ad' & o & He & Ho); [vm_compute; lia|].
  destruct Ho as [(b & r & -> & _ & Hf & _)|(Hn & _)].
  - exists ad', r. assert (((λ x : mc_adapter * option (nat * nat * raListTbl), fst <$> x.2) <$> wlan_wmm_get_next_priolist_ptr 22 demo_mc_ad) = Some (Some (0%nat, 5%nat))) as E
      by (vm_compute; reflexivity).
    rewrite He in E. cbn [fmap option_fmap option_map fst snd] in E. injection E as -> Ht. rewrite Ht in He. by split.
  - exfalso. destruct (ralist_at demo_mc 105) as [r|] eqn:E; [|vm_compute in E; discriminate E].
    assert (105 ∈ concat (mc_pending demo_mc)) as Ha by (refine (bool_decide_unpack _ _); vm_compute; exact I).
    pose proof (Hn 0%nat (mk_bss [0%nat] 1) 0%nat demo_mc 105 r eq_refl ltac:(left) eq_refl eq_refl Ha E) as Hd.
    vm_compute in E. injection E as <-. discriminate Hd.
Defined.

(** ** Budgets that no refill makes positive *)

(** The firmware gave no packet rate, or one under [1000000 / tx_budget]. *)
Definition starved_sta : wmm_sta_table :=
  set_bytes_mpdus 5 50000 0 (wlan_wmm_allocate_sta_table 2000 6000 0 demo_mac).
Definition starved_mc : mc_priv :=
  mk_mc (set_pending_txq [[]; [105]; []; []] (w_priv demo_8)) {[ 200 := starved_sta ]}
    (list_to_map ((λ a, (a, 200)) <$> seqZ 100 8)) demo_conts None.

(** A station whose MPDU budget starts at zero keeps the scheduler in its loop for
    ever (with the list lock held): the budget is refilled with zero, the list goes
    to the tail of its queue, and is the head again. *)
Lemma next_ra_list_starves fuel : wlan_wmm_get_next_ra_list fuel starved_mc 2463534242 = None.
Proof.
  unfold wlan_wmm_get_next_ra_list. destruct (wlan_wmm_get_next_ac starved_mc 2463534242) as [[m rnd] w] eqn:E.
  vm_compute in E. injection E as Em _ <-. cbn [Z.ltb Z.compare]. change (Z.to_nat 1) with 1%nat. 
  assert (serve_head 105 m = Some (m, None)) as Hs by (subst m; vm_compute; reflexivity).
  assert (mc_pending m !! 1%nat = Some [105]) as Hp by (by subst m). clear Em.
  induction fuel as [|fuel IH]; [done|]. cbn [ra_list_loop]. rewrite Hp, Hs. exact IH.
Qed.

(** ** An interface that may not send *)

(** [demo_mc], held back as a whole by the firmware. *)
Definition held_mc : mc_priv :=
  set_base (let p := w_priv demo_8 in
    mk_priv (bss_role p) (bss_mode p) (bss_type p) (media_connected p) (port_ctrl_mode p) (port_open p) true
      (is_11n_enabled p) (is_11ax_enabled p) (is_11ac_enabled p) (ht_enabled p) (priv_max_amsdu p) (sta_list p) (prio p)
      (tids p) (pending_txq p) (tx_pkts_queued p) (tdls_pending_txq p) (num_drop_pkts p) (completed p)) demo_mc.
Definition held_ad (sel : option nat) : mc_adapter :=
  mk_mc_adapter [held_mc] default_maps [mk_bss [0%nat] 1] sel 2463534242.

(** It has nothing to send, unless it was selected before it was held back: then
    its list is served all the same. *)
Lemma selected_not_asked :
  wlan_wmm_is_bss_ready_for_tx held_mc = false ∧
  (snd <$> wlan_wmm_get_next_priolist_ptr 22 (held_ad None)) = Some None ∧
  ∃ ad' r, wlan_wmm_get_next_priolist_ptr 22 (held_ad (Some 0%nat)) = Some (ad', Some (0%nat, 5%nat, r)).
Proof.
  split; [reflexivity|]. split; [vm_compute; reflexivity|]. eexists _, _. vm_compute. reflexivity.
Qed.
