(* ===== verification/WmmSta.v ===== *)
(** * mlan_wmm.c, mlan_cmdevt.c: what the driver knows of its clients

    Budgets follow the rate a client receives at: about once a second the driver
    asks the firmware for the rates of the clients that had packets, turns the
    answer into kbit/s and that into bytes per turn.  Five times a second it
    divides the packets it may hold among the active clients.  A station table is
    named by its address; [None] is an access through a dangling pointer or a
    division by zero. *)

From S2P Require Import Prelude UtilScalar RxReorder RxTable Amsdu WmmPrio WmmTbl WmmInv WmmFlow WmmRun WmmPick WmmCont WmmMc.
#[local] Open Scope Z_scope.

(** ** Rates *)

(** [ieee_mbit_rate]: megabits times 1000; the products are exact. *)
Definition he_80_3p2_gi_mcS_to_rate : list Z :=
  [30600; 61300; 91900; 122500; 183800; 245000; 275600; 306300; 367500; 408300; 459400; 510400].
Definition vht_80_lgi_mcs_to_rate : list Z :=
  [29300; 58500; 87800; 117000; 175500; 234000; 263300; 292500; 351000; 390000].
Definition ht_20_lgi_mcs_to_rate : list Z :=
  [6500; 13000; 19500; 26000; 39000; 52000; 58500; 65000; 13000; 26000; 39000; 52000; 78000; 104000; 117000; 130000].
Definition legacy_rate_idx_to_rate : list Z :=
  [1000; 2000; 5500; 11000; 22000; 6000; 9000; 12000; 18000; 24000; 36000; 48000; 54000; 72000].

(** [rate * m / d] on [t_u32]. *)
Definition scale (m d rate : Z) : Z := u32 (rate * m) / d.

Definition wlam_wmm_get_he_rate (bw gi nss mcs : Z) : Z :=
  match he_80_3p2_gi_mcS_to_rate !! Z.to_nat mcs with
  | None => 0
  | Some rate =>
      let rate := if (gi =? 0) || (gi =? 1) then scale 1059 1000 (scale 1112 1000 rate)
                  else if gi =? 2 then scale 1112 1000 rate else rate in
      let rate := if bw =? 0 then scale 1000 2090 rate / 2
                  else if bw =? 1 then scale 1000 2090 rate
                  else if bw =? 3 then u32 (rate * 2) else rate in
      u32 (rate * nss)
  end.

Definition wlam_wmm_get_vht_rate (bw sgi nss mcs : Z) : Z :=
  match vht_80_lgi_mcs_to_rate !! Z.to_nat mcs with
  | None => 0
  | Some rate =>
      let rate := if sgi =? 0 then rate else scale 1111 1000 rate in
      let rate := if bw =? 0 then scale 1000 2077 (scale 1000 2166 rate)
                  else if bw =? 1 then scale 1000 2166 rate
                  else if bw =? 3 then u32 (rate * 2) else rate in
      u32 (rate * nss)
  end.

Definition wlam_wmm_get_ht_rate (bw sgi mcs : Z) : Z :=
  match ht_20_lgi_mcs_to_rate !! Z.to_nat mcs with
  | None => 0
  | Some rate =>
      let rate := if sgi =? 0 then rate else scale 1111 1000 rate in
      if bw =? 1 then scale 2077 1000 rate else rate
  end.

Definition wlam_wmm_get_legacy_rate (rate_idx : Z) : Z := default 0 (legacy_rate_idx_to_rate !! Z.to_nat rate_idx).

(** Three bytes from the firmware. *)
Record HostCmd_TX_RATE_QUERY := mk_rate_query { tx_rate : Z; tx_rate_info : Z; ext_tx_rate_info : Z }.

(** The first part of [wlan_wmm_adjust_sta_tx_budget]. *)
Definition phy_rate_of (rate : HostCmd_TX_RATE_QUERY) : Z :=
  let nss := u8 (Z.shiftr (tx_rate rate) 4 + 1) in
  let mcs := Z.land (tx_rate rate) 15 in
  let ppdu_format := Z.land (tx_rate_info rate) 3 in
  let ppdu_bw := Z.land (Z.shiftr (tx_rate_info rate) 2) 3 in
  let gi := Z.lor (Z.land (Z.shiftr (tx_rate_info rate) 4) 1) (Z.land (Z.shiftr (tx_rate_info rate) 6) 2) in
  if ppdu_format =? 3 then wlam_wmm_get_he_rate ppdu_bw gi nss mcs
  else if ppdu_format =? 2 then wlam_wmm_get_vht_rate ppdu_bw gi nss mcs
  else if ppdu_format =? 1 then wlam_wmm_get_ht_rate ppdu_bw gi (tx_rate rate)
  else wlam_wmm_get_legacy_rate (tx_rate rate).

(** The comparison with the old rate is for a message, but divides by it. *)
Definition wlan_wmm_adjust_sta_tx_budget (rate : HostCmd_TX_RATE_QUERY) (s : wmm_sta_table) : option wmm_sta_table :=
  let phy_rate := phy_rate_of rate in
  if phy_rate >? 0 then
    let old := phy_rate_kbps (budget s) in
    if (old / phy_rate <? 2) && (old =? 0) then None
    else Some (set_rate (wlan_wmm_get_byte_budget (time_budget_init_us (budget s)) phy_rate) phy_rate s)
  else Some s.

(** ** The clients of an interface *)

(** [all_stas], [pending_stas] and [active_stas.list] are lists of addresses. *)
Record sta_sched := mk_sched {
  sta_tbl : gmap Z wmm_sta_table;
  all_stas : list Z;
  pending_stas : list Z;
  active_list : list Z;
  n_stas : Z;   (** t_u32 *)
  next_update : Z;   (** t_u64 *)
  next_rate_update : Z;   (** t_u64 *)
  is_rate_update_pending : bool;
  rate_requests : list (list (list Z))   (** calls of wlan_misc_get_sta_rate, in order *)
}.
Definition set_sta_tbl (x : gmap Z wmm_sta_table) (s : sta_sched) : sta_sched :=
  mk_sched x (all_stas s) (pending_stas s) (active_list s) (n_stas s) (next_update s) (next_rate_update s)
    (is_rate_update_pending s) (rate_requests s).
Definition set_pending_stas (x : list Z) (s : sta_sched) : sta_sched :=
  mk_sched (sta_tbl s) (all_stas s) x (active_list s) (n_stas s) (next_update s) (next_rate_update s)
    (is_rate_update_pending s) (rate_requests s).
Definition set_active (l : list Z) (n next : Z) (s : sta_sched) : sta_sched :=
  mk_sched (sta_tbl s) (all_stas s) (pending_stas s) l n next (next_rate_update s)
    (is_rate_update_pending s) (rate_requests s).
Definition set_rate_update (next : Z) (pending : bool) (reqs : list (list (list Z))) (s : sta_sched) : sta_sched :=
  mk_sched (sta_tbl s) (all_stas s) (pending_stas s) (active_list s) (n_stas s) (next_update s) next pending reqs.
Definition upd_table (a : Z) (t : wmm_sta_table) (s : sta_sched) : sta_sched := set_sta_tbl (<[a := t]> (sta_tbl s)) s.

(** With [mclient_tx_supported]. *)
Fixpoint find_sta (tbl : gmap Z wmm_sta_table) (ra_addr : list Z) (l : list Z) : option (option Z) :=
  match l with
  | [] => Some None
  | a :: l => t ← tbl !! a; if bool_decide (st_ra t = ra_addr) then Some (Some a) else find_sta tbl ra_addr l
  end.
Definition wlan_wmm_get_sta (ra_addr : list Z) (s : sta_sched) : option (option Z) :=
  find_sta (sta_tbl s) ra_addr (all_stas s).

(** ** Rate updates *)

Definition wlan_wmm_update_sta_tx_rate (mac : list Z) (rate : HostCmd_TX_RATE_QUERY) (s : sta_sched) : option sta_sched :=
  o ← wlan_wmm_get_sta mac s;
  match o with
  | None => Some s
  | Some a =>
      t ← sta_tbl s !! a;
      t ← wlan_wmm_adjust_sta_tx_budget rate t;
      Some (upd_table a t (set_rate_update (next_rate_update s) false (rate_requests s) s))
  end.

Definition MAX_STA_IN_TX_RATE_REQ : nat := 32.

(** An entry of the response takes nine bytes; [size] is what is left of it. *)
Definition rate_entry := (list Z * HostCmd_TX_RATE_QUERY)%type.
Fixpoint ret_loop (entries : list rate_entry) (size : Z) (s : sta_sched) : option sta_sched :=
  match entries with
  | [] => Some s
  | (mac, rate) :: entries =>
      if 9 <=? size then s ← wlan_wmm_update_sta_tx_rate mac rate s; ret_loop entries (size - 9) s else Some s
  end.
(** [entries] are the 32 of the response's structure, [resp_size] its size field. *)
Definition wlan_ret_sta_tx_rate (entries : list rate_entry) (resp_size : Z) (s : sta_sched) : option sta_sched :=
  ret_loop (take MAX_STA_IN_TX_RATE_REQ entries) (resp_size - 8) s.

Definition is_bmcast (t : wmm_sta_table) : bool := negb (Z.land (st_ra t !!! 0%nat) 1 =? 0).

(** Takes clients off [pending] until [room] are found: those, and the rest. *)
Fixpoint pick_pending (tbl : gmap Z wmm_sta_table) (room : nat) (pending : list Z) : option (list (list Z) * list Z) :=
  match room, pending with
  | O, _ | _, [] => Some ([], pending)
  | S room', a :: rest =>
      t ← tbl !! a;
      if is_bmcast t then pick_pending tbl room rest
      else '((l, more) : list (list Z) * list Z) ← pick_pending tbl room' rest; Some (st_ra t :: l, more)
  end.
Definition wlan_wmm_update_sta_txrate_info (time_now : Z) (s : sta_sched) : option sta_sched :=
  if util_is_time_before time_now (next_rate_update s) || is_rate_update_pending s then Some s
  else
    '((macs, more) : list (list Z) * list Z) ← pick_pending (sta_tbl s) MAX_STA_IN_TX_RATE_REQ (pending_stas s);
    Some (set_rate_update (u64 (time_now + 1000000000)) (match macs with [] => false | _ => true end)
            (match macs with [] => rate_requests s | _ => rate_requests s ++ [macs] end) (set_pending_stas more s)).

(** ** Shares of the queue *)

Definition wlan_wmm_record_sta_tx (total_pkts : Z) (a : Z) (s : sta_sched) : option sta_sched :=
  t ← sta_tbl s !! a;
  Some (if negb (is_bmcast t) && (4 <? total_pkts) && negb (bool_decide (a ∈ active_list s))
        then set_active (active_list s ++ [a]) (u32 (n_stas s + 1)) (next_update s) s else s).

Fixpoint capacity (tbl : gmap Z wmm_sta_table) (l : list Z) : option Z :=
  match l with
  | [] => Some 0
  | a :: l => t ← tbl !! a; c ← capacity tbl l; Some (byte_budget_init (budget t) + c)
  end.

(** [moal_do_div] has a 32-bit divisor. *)
Definition sta_share (limit total : Z) (t : wmm_sta_table) : option Z :=
  let base := u32 total in
  if base =? 0 then None
  else
    let max_pkts_by_airtime := wlan_wmm_get_byte_budget 200000 (phy_rate_kbps (budget t)) / MV_ETH_FRAME_LEN in
    let share := u32 (u64 (limit * byte_budget_init (budget t)) / base) in
    Some (Z.min (Z.min (Z.max share 128) (u32 (limit * 7) / 8)) max_pkts_by_airtime).
Fixpoint share_loop (limit total : Z) (l : list Z) (tbl : gmap Z wmm_sta_table) : option (gmap Z wmm_sta_table) :=
  match l with
  | [] => Some tbl
  | a :: l =>
      t ← tbl !! a;
      n ← sta_share limit total t;
      share_loop limit total l (<[a := set_queue_packets n t]> tbl)
  end.

(** [limit] is [max_tx_pending]. *)
Definition wlan_wmm_update_queue_packets_budget (limit time_now : Z) (s : sta_sched) : option sta_sched :=
  if util_is_time_before time_now (next_update s) then Some s
  else
    let s := set_active (active_list s) 0 (u64 (time_now + 200000000)) s in
    c ← capacity (sta_tbl s) (active_list s);
    let total := u64 c in
    if total =? 0 then Some s
    else
      tbl ← share_loop limit total (active_list s) (sta_tbl s);
      Some (set_active [] (n_stas s) (next_update s) (set_sta_tbl tbl s)).

(** ** The packet's way in, and power save *)

(** What [wlan_wmm_add_buf_txqueue] does for the client [a] of list [r]: before the
    packet is queued (the packet is dropped on [false]), and after it. *)
Definition add_buf_admit (limit time_now : Z) (tcp : bool) (r : raListTbl) (o : option Z) (s : sta_sched)
  : option (sta_sched * bool) :=
  s ← match o with Some a => wlan_wmm_record_sta_tx (total_pkts r) a s | None => Some s end;
  s ← wlan_wmm_update_queue_packets_budget limit time_now s;
  match o with
  | None => Some (s, true)
  | Some a => t ← sta_tbl s !! a; Some (s, (total_pkts r <=? queue_packets (budget t)) || tcp)
  end.
Definition add_buf_pending (time_now : Z) (r : raListTbl) (o : option Z) (s : sta_sched) : option sta_sched :=
  match o with
  | None => Some s
  | Some a =>
      wlan_wmm_update_sta_txrate_info time_now
        (if negb (tx_pause r) && negb (bool_decide (a ∈ pending_stas s)) then set_pending_stas (pending_stas s ++ [a]) s else s)
  end.

Definition set_ps_sleep (x : bool) (t : wmm_sta_table) : wmm_sta_table := mk_sta_table (st_ra t) x (budget t).
(** The first part of [wlan_update_sta_ps_state]: on [true] the lists of the client
    resume ([wlan_update_ralist_tx_pause mac false]). *)
Definition wlan_update_sta_ps_state (mac : list Z) (sleep : bool) (s : sta_sched) : option (sta_sched * bool) :=
  o ← wlan_wmm_get_sta mac s;
  match o with
  | None => Some (s, false)
  | Some a => t ← sta_tbl s !! a; Some (upd_table a (set_ps_sleep sleep t) s, negb sleep)
  end.

(** ** Rates *)

(** Check of a property of all small tuples. *)
Definition below (n : nat) (P : Z → bool) : bool := forallb (λ k, P (Z.of_nat k)) (seq 0 n).
Lemma below_spec n P x : below n P = true → 0 <= x < Z.of_nat n → P x = true.
Proof.
  intros H Hx. unfold below in H. rewrite forallb_forall in H.
  specialize (H (Z.to_nat x)). rewrite Z2Nat.id in H by lia. apply H, list_elem_of_In, elem_of_seq. lia.
Qed.

(** The data rate the standard gives: data subcarriers, bits per subcarrier after
    coding (in sixths) and spatial streams over the symbol time (in 0.1 us), as a
    numerator and a denominator in kbit/s. *)
Definition coded_bits_6 (mcs : Z) : Z := default 0 ([3; 6; 9; 12; 18; 24; 27; 30; 36; 40; 45; 50] !! Z.to_nat mcs).
Definition ideal_rate (n_sd nss mcs symbol : Z) : Z * Z := (n_sd * coded_bits_6 mcs * nss * 10000, 6 * symbol).
Definition ideal_he (bw gi nss mcs : Z) : Z * Z :=
  ideal_rate (zget [234; 468; 980; 1960] bw) nss mcs (zget [136; 136; 144; 160] gi).
Definition ideal_vht (bw gi nss mcs : Z) : Z * Z :=
  ideal_rate (zget [52; 108; 234; 468] bw) nss mcs (if gi =? 0 then 40 else 36).
Definition ideal_ht (bw gi mcs : Z) : Z * Z :=
  ideal_rate (if bw =? 1 then 108 else 52) (mcs / 8 + 1) (mcs mod 8) (if gi =? 0 then 40 else 36).

(** Within one percent. *)
Definition close (rate : Z) (ideal : Z * Z) : Prop := 100 * Z.abs (rate * ideal.2 - ideal.1) <= ideal.1.
#[export] Instance close_dec rate ideal : Decision (close rate ideal) := Z_le_dec _ _.

(** Closeness, range and positivity, or no rate outside the table. *)
Definition good_rate (rate : Z) (ideal : Z * Z) (valid : bool) : Prop :=
  if valid then 0 < rate <= 1202100 ∧ close rate ideal else rate = 0.
#[export] Instance good_rate_dec rate ideal valid : Decision (good_rate rate ideal valid).
Proof. unfold good_rate. destruct valid; apply _. Defined.

(** A check on the three parameters covers them all. *)
Lemma below_3 (P : Z → Z → Z → Prop) `{∀ x y z, Decision (P x y z)} a b c :
  below a (λ x, below b (λ y, below c (λ z, bool_decide (P x y z)))) = true →
  ∀ x y z, 0 <= x < Z.of_nat a → 0 <= y < Z.of_nat b → 0 <= z < Z.of_nat c → P x y z.
Proof.
  intros Hc x y z Hx Hy Hz. apply (below_spec a _ x) in Hc; [|done]. apply (below_spec b _ y) in Hc; [|done].
  apply (below_spec c _ z) in Hc; [|done]. by apply bool_decide_eq_true in Hc.
Qed.

Lemma he_good_1 bw gi mcs : 0 <= bw < 4 → 0 <= gi < 4 → 0 <= mcs < 16 →
  good_rate (wlam_wmm_get_he_rate bw gi 1 mcs) (ideal_he bw gi 1 mcs) (mcs <? 12).
Proof. revert bw gi mcs. apply (below_3 (λ bw gi mcs, good_rate _ _ _) 4 4 16). vm_compute. reflexivity. Qed.
Lemma vht_good_1 bw gi mcs : 0 <= bw < 4 → 0 <= gi < 4 → 0 <= mcs < 16 →
  good_rate (wlam_wmm_get_vht_rate bw gi 1 mcs) (ideal_vht bw gi 1 mcs) (mcs <? 10).
Proof. revert bw gi mcs. apply (below_3 (λ bw gi mcs, good_rate _ _ _) 4 4 16). vm_compute. reflexivity. Qed.
Lemma ht_good bw gi mcs : 0 <= bw < 4 → 0 <= gi < 4 → 0 <= mcs < 256 →
  good_rate (wlam_wmm_get_ht_rate bw gi mcs) (ideal_ht bw gi mcs) (mcs <? 16).
Proof. revert bw gi mcs. apply (below_3 (λ bw gi mcs, good_rate _ _ _) 4 4 256). vm_compute. reflexivity. Qed.

(** Streams multiply the rate. *)
Lemma u32_streams x nss : u32 (u32 (x * 1) * nss) = u32 (x * nss).
Proof. unfold u_wrap. rewrite Z.mul_1_r. apply Z.mul_mod_idemp_l. lia. Qed.
Lemma he_streams bw gi nss mcs : wlam_wmm_get_he_rate bw gi nss mcs = u32 (wlam_wmm_get_he_rate bw gi 1 mcs * nss).
Proof. unfold wlam_wmm_get_he_rate. destruct (_ !! Z.to_nat mcs); [|done]. cbv zeta. by rewrite u32_streams. Qed.
Lemma vht_streams bw gi nss mcs : wlam_wmm_get_vht_rate bw gi nss mcs = u32 (wlam_wmm_get_vht_rate bw gi 1 mcs * nss).
Proof. unfold wlam_wmm_get_vht_rate. destruct (_ !! Z.to_nat mcs); [|done]. cbv zeta. by rewrite u32_streams. Qed.

Lemma good_streams r n_sd mcs symbol valid nss : good_rate r (ideal_rate n_sd 1 mcs symbol) valid → 1 <= nss <= 16 →
  (if valid : bool then 0 < u32 (r * nss) <= 19233600 ∧ close (u32 (r * nss)) (ideal_rate n_sd nss mcs symbol)
   else u32 (r * nss) = 0).
Proof.
  intros Hg Hn. destruct valid; cbn in Hg; [|subst r; by rewrite Z.mul_0_l]. destruct Hg as [Hr Hc].
  rewrite u_wrap_small by nia. split; [nia|]. unfold close, ideal_rate in *. cbn [fst snd] in *.
  set (k := n_sd * coded_bits_6 mcs) in *.
  replace (r * nss * (6 * symbol) - k * nss * 10000) with ((r * (6 * symbol) - k * 1 * 10000) * nss) by ring.
  rewrite Z.abs_mul, (Z.abs_eq nss) by lia. nia.
Qed.

(** The fields of the three bytes. *)
Definition q_nss (q : HostCmd_TX_RATE_QUERY) : Z := u8 (Z.shiftr (tx_rate q) 4 + 1).
Definition q_mcs (q : HostCmd_TX_RATE_QUERY) : Z := Z.land (tx_rate q) 15.
Definition q_format (q : HostCmd_TX_RATE_QUERY) : Z := Z.land (tx_rate_info q) 3.
Definition q_bw (q : HostCmd_TX_RATE_QUERY) : Z := Z.land (Z.shiftr (tx_rate_info q) 2) 3.
Definition q_gi (q : HostCmd_TX_RATE_QUERY) : Z :=
  Z.lor (Z.land (Z.shiftr (tx_rate_info q) 4) 1) (Z.land (Z.shiftr (tx_rate_info q) 6) 2).
Definition query_ok (q : HostCmd_TX_RATE_QUERY) : Prop := 0 <= tx_rate q < 256 ∧ 0 <= tx_rate_info q < 256.

Lemma below_1 (P : Z → Prop) `{∀ x, Decision (P x)} n : below n (λ x, bool_decide (P x)) = true →
  ∀ x, 0 <= x < Z.of_nat n → P x.
Proof. intros Hc x Hx. apply (below_spec n _ x) in Hc; [|done]. by apply bool_decide_eq_true in Hc. Qed.

Lemma query_fields q : query_ok q →
  1 <= q_nss q <= 16 ∧ 0 <= q_mcs q < 16 ∧ 0 <= q_format q < 4 ∧ 0 <= q_bw q < 4 ∧ 0 <= q_gi q < 4.
Proof.
  destruct q as [r i e]. intros [Hr Hi]. cbn in Hr, Hi. unfold q_nss, q_mcs, q_format, q_bw, q_gi. cbn [tx_rate tx_rate_info].
  assert (∀ x, 0 <= x < 256 → 1 <= u8 (Z.shiftr x 4 + 1) <= 16 ∧ 0 <= Z.land x 15 < 16) as H1.
  { apply (below_1 _ 256). vm_compute. reflexivity. }
  assert (∀ x, 0 <= x < 256 → 0 <= Z.land x 3 < 4 ∧ 0 <= Z.land (Z.shiftr x 2) 3 < 4 ∧
    0 <= Z.lor (Z.land (Z.shiftr x 4) 1) (Z.land (Z.shiftr x 6) 2) < 4) as H2.
  { apply (below_1 _ 256). vm_compute. reflexivity. }
  destruct (H1 r Hr) as [? ?]. by destruct (H2 i Hi) as (? & ? & ?).
Qed.

(** The rate of a transmission over the whole bandwidth without DCM, where the
    driver's tables have one. *)
Definition ideal_of (q : HostCmd_TX_RATE_QUERY) : option (Z * Z) :=
  if q_format q =? 3 then if q_mcs q <? 12 then Some (ideal_he (q_bw q) (q_gi q) (q_nss q) (q_mcs q)) else None
  else if q_format q =? 2 then if q_mcs q <? 10 then Some (ideal_vht (q_bw q) (q_gi q) (q_nss q) (q_mcs q)) else None
  else if q_format q =? 1 then if tx_rate q <? 16 then Some (ideal_ht (q_bw q) (q_gi q) (tx_rate q)) else None
  else (λ r, (r, 1)) <$> legacy_rate_idx_to_rate !! Z.to_nat (tx_rate q).

Lemma legacy_good idx r : legacy_rate_idx_to_rate !! Z.to_nat idx = Some r → 0 < r <= 72000.
Proof.
  intros H%list_elem_of_lookup_2. revert r H. apply Forall_forall. by repeat constructor.
Qed.

Lemma phy_rate_facts q : query_ok q →
  match ideal_of q with
  | Some i => 0 < phy_rate_of q <= 19233600 ∧ close (phy_rate_of q) i
  | None => phy_rate_of q = 0
  end.
Proof.
  intros Hq. destruct (query_fields q Hq) as (Hn & Hm & Hf & Hb & Hg). unfold ideal_of, phy_rate_of.
  fold (q_nss q) (q_mcs q) (q_format q) (q_bw q) (q_gi q). cbv zeta.
  destruct (q_format q =? 3).
  { rewrite he_streams. pose proof (good_streams _ _ _ _ _ _ (he_good_1 _ _ _ Hb Hg Hm) Hn) as H.
    by destruct (q_mcs q <? 12). }
  destruct (q_format q =? 2).
  { rewrite vht_streams. pose proof (good_streams _ _ _ _ _ _ (vht_good_1 _ _ _ Hb Hg Hm) Hn) as H.
    by destruct (q_mcs q <? 10). }
  destruct (q_format q =? 1).
  { pose proof (ht_good _ _ _ Hb Hg (proj1 Hq)) as H. destruct (tx_rate q <? 16); [|done]. cbn in H. destruct H. split; [lia|done]. }
  unfold wlam_wmm_get_legacy_rate. destruct (_ !! Z.to_nat (tx_rate q)) as [r|] eqn:E; [|done]. cbn.
  apply legacy_good in E. split; [lia|]. unfold close. cbn [fst snd]. replace (r * 1 - r) with 0 by ring. lia.
Qed.

(** The standard's rate for a transmission over the whole bandwidth, with equal
    modulation of its streams; dual carrier modulation (bit 0 of the third byte, HE
    only) sends every bit twice.  The rates of 802.11b and g in units of 500 kbit/s,
    as an element of supported rates gives them. *)
Definition q_dcm (q : HostCmd_TX_RATE_QUERY) : bool := Z.testbit (ext_tx_rate_info q) 0.
Definition supported_rates : list Z := [2; 4; 11; 22; 44; 12; 18; 24; 36; 48; 72; 96; 108; 144].
Definition standard_rate (q : HostCmd_TX_RATE_QUERY) : option (Z * Z) :=
  if q_format q =? 3 then
    if q_mcs q <? 12 then
      let '(n, d) := ideal_he (q_bw q) (q_gi q) (q_nss q) (q_mcs q) in Some (n, if q_dcm q then 2 * d else d)
    else None
  else if q_format q =? 2 then if q_mcs q <? 10 then Some (ideal_vht (q_bw q) (q_gi q) (q_nss q) (q_mcs q)) else None
  else if q_format q =? 1 then if tx_rate q <? 32 then Some (ideal_ht (q_bw q) (q_gi q) (tx_rate q)) else None
  else (λ k, (k * 500, 1)) <$> supported_rates !! Z.to_nat (tx_rate q).




(** The same with dual carrier modulation, MCS 4: the standard's rate is half of what
    the driver takes. *)
Example dcm_ignored : standard_rate (mk_rate_query 0x14 11 1) = Some (980 * 18 * 2 * 10000, 2 * 816) ∧
  phy_rate_of (mk_rate_query 0x14 11 1) = phy_rate_of (mk_rate_query 0x14 11 0) ∧
  phy_rate_of (mk_rate_query 0x14 11 1) = 432886.
Proof. vm_compute. done. Qed.

(** ** Well-formed tables *)

Record sta_ok (t : wmm_sta_table) : Prop := {
  so_budget : budget_ok t;
  so_min : MV_ETH_FRAME_LEN <= byte_budget_init (budget t);
  so_time : 0 <= time_budget_init_us (budget t) < 2 ^ 16;
  so_rate : 0 < phy_rate_kbps (budget t) < 2 ^ 32
}.
Record sched_ok (s : sta_sched) : Prop := {
  sk_tbl : map_Forall (λ _, sta_ok) (sta_tbl s);
  sk_all : ∀ a, a ∈ all_stas s → is_Some (sta_tbl s !! a);
  sk_pending : NoDup (pending_stas s) ∧ ∀ a, a ∈ pending_stas s → a ∈ all_stas s;
  sk_active : NoDup (active_list s) ∧ ∀ a, a ∈ active_list s → a ∈ all_stas s
}.

Lemma byte_budget_range time rate : MV_ETH_FRAME_LEN <= wlan_wmm_get_byte_budget time rate <= INT_MAX.
Proof.
  unfold wlan_wmm_get_byte_budget, MV_ETH_FRAME_LEN, INT_MAX.
  set (b := rate * time / (8 * 1000)). destruct (b >? _) eqn:E1; [lia|]. destruct (b <? _) eqn:E2; lia.
Qed.

(** A new table is good if the firmware allows a packet in the time budget. *)
Lemma allocate_sta_ok tx_budget with_pps no_pps mac : 0 < tx_budget < 2 ^ 16 →
  1000000 <= with_pps * tx_budget → 1000000 <= no_pps * tx_budget →
  with_pps < 2 ^ 32 → no_pps < 2 ^ 32 →
  sta_ok (wlan_wmm_allocate_sta_table tx_budget with_pps no_pps mac).
Proof.
  intros Ht H1 H2 H3 H4. unfold wlan_wmm_allocate_sta_table. cbv zeta.
  assert (∀ p, 1000000 <= p * tx_budget → p < 2 ^ 32 → 0 < u32 (p * tx_budget / 1000000) <= INT_MAX) as Hp.
  { intros p Hlo Hhi. pose proof (Z.div_le_lower_bound (p * tx_budget) 1000000 1).
    pose proof (Z.div_le_upper_bound (p * tx_budget) 1000000 281500000). unfold INT_MAX. rewrite u_wrap_small; nia. }
  pose proof (byte_budget_range tx_budget (200 * 1000)) as Hb. unfold MV_ETH_FRAME_LEN in Hb.
  destruct (Hp with_pps H1 H3) as [Hw1 Hw2], (Hp no_pps H2 H4) as [Hn1 Hn2].
  constructor; cbn [budget time_budget_init_us phy_rate_kbps byte_budget_init]; unfold MV_ETH_FRAME_LEN; try lia.
  constructor; cbn [budget byte_budget_init mpdu_with_amsdu_budget_init mpdu_no_amsdu_budget_init bytes mpdus]; try lia.
  - by rewrite !length_replicate.
  - unfold INT_MAX in *. rewrite !s_wrap_small by lia. split; apply Forall_replicate; lia.
Qed.

Lemma set_rate_ok rate t : sta_ok t → 0 < rate < 2 ^ 32 →
  sta_ok (set_rate (wlan_wmm_get_byte_budget (time_budget_init_us (budget t)) rate) rate t).
Proof.
  intros [[H1 H2 H3 H4 H5] H6 H7 H8] Hr. pose proof (byte_budget_range (time_budget_init_us (budget t)) rate) as Hb.
  constructor; [constructor| | |]; try done; cbn; try lia. unfold MV_ETH_FRAME_LEN in Hb. lia.
Qed.

Lemma adjust_spec q t : query_ok q → sta_ok t → ∃ t', wlan_wmm_adjust_sta_tx_budget q t = Some t' ∧ sta_ok t' ∧ st_ra t' = st_ra t ∧
  (phy_rate_of q ≠ 0 → phy_rate_kbps (budget t') = phy_rate_of q ∧
     byte_budget_init (budget t') = wlan_wmm_get_byte_budget (time_budget_init_us (budget t)) (phy_rate_of q)) ∧
  (phy_rate_of q = 0 → t' = t).
Proof.
  intros Hq Ht. pose proof (phy_rate_facts q Hq) as Hf. unfold wlan_wmm_adjust_sta_tx_budget. cbv zeta.
  destruct (phy_rate_of q >? 0) eqn:E.
  - pose proof (so_rate _ Ht) as Hr. destruct (phy_rate_kbps (budget t) =? 0) eqn:E2; [lia|]. rewrite andb_false_r.
    eexists. split; [done|]. split; [apply set_rate_ok; [done|destruct (ideal_of q) as [[]|]; lia]|]. split; [done|]. split; [done|lia].
  - exists t. do 3 (split; [done|]). split; [|done]. destruct (ideal_of q) as [[]|]; lia.
Qed.

(** The first station of the list with the address. *)
Lemma get_sta_spec mac s : sched_ok s → ∃ o, wlan_wmm_get_sta mac s = Some o ∧
  match o with
  | Some a => a ∈ all_stas s ∧ ∃ t, sta_tbl s !! a = Some t ∧ st_ra t = mac
  | None => ∀ a t, a ∈ all_stas s → sta_tbl s !! a = Some t → st_ra t ≠ mac
  end.
Proof.
  intros Hok. unfold wlan_wmm_get_sta. pose proof (sk_all _ Hok) as Hall. induction (all_stas s) as [|a l IH]; cbn [find_sta].
  - exists None. split; [done|]. by intros a t ?%elem_of_nil.
  - destruct (Hall a) as [t Ht]; [left|]. rewrite Ht. cbn [mbind option_bind]. case_bool_decide as Hm.
    + exists (Some a). split; [done|]. split; [left|eauto].
    + destruct IH as (o & -> & Ho); [intros b Hb; apply Hall; by right|]. exists o. split; [done|]. destruct o as [b|].
      * destruct Ho as [Hb He]. split; [by right|done].
      * intros b t' [->|Hb]%elem_of_cons Ht'; [congruence|by eapply Ho].
Qed.

Lemma upd_table_ok a t t' s : sched_ok s → sta_tbl s !! a = Some t → sta_ok t' → sched_ok (upd_table a t' s).
Proof.
  intros [H1 H2 H3 H4] Ha Ht. constructor; try done; cbn.
  - by apply map_Forall_insert_2.
  - intros b Hb. destruct (decide (a = b)) as [->|]; [by rewrite lookup_insert_eq|]. rewrite lookup_insert_ne by done. by apply H2.
Qed.

(** ** The answer to a rate query *)

Lemma ret_loop_take entries : ∀ size s, size < 9 * (1 + Z.of_nat (length entries)) →
  ret_loop entries size s = ret_loop (take (Z.to_nat (size / 9)) entries) (9 * Z.of_nat (length entries)) s.
Proof.
  induction entries as [|[mac q] l IH]; intros size s Hs; [by destruct (Z.to_nat (size / 9))|].
  cbn [ret_loop length]. destruct (9 <=? size) eqn:E.
  - assert (Z.to_nat (size / 9) = S (Z.to_nat ((size - 9) / 9))) as ->.
    { replace (size - 9) with (size + (-1) * 9) by lia. rewrite Z.div_add by lia. pose proof (Z.div_le_lower_bound size 9 1). lia. }
    cbn [take ret_loop]. rewrite (proj2 (Z.leb_le _ _)) by lia.
    destruct (wlan_wmm_update_sta_tx_rate mac q s) as [s1|]; [|done]. cbn [mbind option_bind].
    rewrite IH by (cbn in Hs; lia). f_equal. lia.
  - assert (Z.to_nat (size / 9) = 0%nat) as ->; [|done]. pose proof (Z.div_lt_upper_bound size 9 1). lia.
Qed.

(** A table after an answer: as it was, or with the rate of an entry that names its
    station. *)
Definition rated (entries : list rate_entry) (t t' : wmm_sta_table) : Prop :=
  t' = t ∨ ∃ mac q, (mac, q) ∈ entries ∧ mac = st_ra t ∧ phy_rate_of q ≠ 0 ∧
    t' = set_rate (wlan_wmm_get_byte_budget (time_budget_init_us (budget t)) (phy_rate_of q)) (phy_rate_of q) t.

Definition names (s : sta_sched) (mac : list Z) : Prop := ∃ a t, a ∈ all_stas s ∧ sta_tbl s !! a = Some t ∧ st_ra t = mac.

Lemma rated_trans es1 es2 t1 t2 t3 : rated es1 t1 t2 → rated es2 t2 t3 → rated (es1 ++ es2) t1 t3.
Proof.
  intros [->|(m1 & q1 & H1 & H2 & H3 & ->)].
  - intros [->|(m & q & H1 & H2 & H3 & ->)]; [by left|right]. exists m, q. rewrite elem_of_app. auto.
  - intros [->|(m & q & H4 & H5 & H6 & ->)]; right.
    + exists m1, q1. rewrite elem_of_app. auto.
    + exists m, q. rewrite elem_of_app. split; [auto|]. done.
Qed.

(** The tables are the same but for rates; the lists are the same. *)
Record answered (entries : list rate_entry) (s s' : sta_sched) : Prop := {
  an_ok : sched_ok s';
  an_lists : all_stas s' = all_stas s ∧ pending_stas s' = pending_stas s ∧ active_list s' = active_list s;
  an_reqs : rate_requests s' = rate_requests s ∧ next_rate_update s' = next_rate_update s;
  an_tbl : ∀ a t, sta_tbl s !! a = Some t → ∃ t', sta_tbl s' !! a = Some t' ∧ rated entries t t';
  an_pending : is_rate_update_pending s' = true ↔
    is_rate_update_pending s = true ∧ ∀ mac q, (mac, q) ∈ entries → ¬ names s mac
}.

Lemma rated_ra entries t t' : rated entries t t' → st_ra t' = st_ra t.
Proof. by intros [->|(? & ? & _ & _ & _ & ->)]. Qed.
Lemma answered_names entries s s' mac : sched_ok s → answered entries s s' → names s' mac ↔ names s mac.
Proof.
  intros Hok [H1 (H2 & _) _ H4 _]. unfold names. rewrite H2. split; intros (a & t & Ha & Ht & <-).
  - destruct (sk_all _ Hok a Ha) as [t0 Ht0]. destruct (H4 a t0 Ht0) as (t' & Ht' & Hr).
    exists a, t0. do 2 (split; [done|]). rewrite Ht' in Ht. injection Ht as <-. symmetry. by eapply rated_ra.
  - destruct (H4 a t Ht) as (t' & Ht' & Hr). exists a, t'. do 2 (split; [done|]). by eapply rated_ra.
Qed.

Lemma update_sta_tx_rate_spec mac q s : sched_ok s → query_ok q →
  ∃ s', wlan_wmm_update_sta_tx_rate mac q s = Some s' ∧ answered [(mac, q)] s s'.
Proof.
  intros Hok Hq. unfold wlan_wmm_update_sta_tx_rate. destruct (get_sta_spec mac s Hok) as (o & -> & Ho). cbn [mbind option_bind].
  destruct o as [a|].
  - destruct Ho as (Ha & t & Ht & Hm). rewrite Ht. cbn [mbind option_bind].
    destruct (adjust_spec q t Hq (sk_tbl _ Hok a t Ht)) as (t' & He & Hok' & Hra & Hr1 & Hr2).
    assert (rated [(mac, q)] t t') as Hrated.
    { destruct (decide (phy_rate_of q = 0)) as [Hz|Hz]; [left; by apply Hr2|right]. exists mac, q.
      split; [left|]. split; [done|]. split; [done|]. unfold wlan_wmm_adjust_sta_tx_budget in He. cbv zeta in He.
      destruct (phy_rate_of q >? 0) eqn:E; [|pose proof (phy_rate_facts q Hq); destruct (ideal_of q) as [[]|]; lia].
      case_match; [done|]. by injection He as <-. }
    rewrite He. cbn [mbind option_bind]. eexists. split; [reflexivity|]. constructor; try done.
    + apply (upd_table_ok a t); try done. by destruct Hok.
    + intros b tb Hb. cbn. destruct (decide (a = b)) as [->|].
      * rewrite lookup_insert_eq. exists t'. split; [done|]. congruence.
      * rewrite lookup_insert_ne by done. exists tb. split; [done|by left].
    + cbn. split; [done|]. intros [_ Hno]. exfalso. apply (Hno mac q); [left|]. by exists a, t.
  - exists s. split; [done|]. constructor; try done; [intros a t Ha; exists t; split; [done|by left]|].
    split; [|by intros [??]]. intros Hp. split; [done|]. intros m q' Hin (a & t & Ha & Ht & Hm).
    apply list_elem_of_singleton in Hin. injection Hin as -> ->. by apply (Ho a t).
Qed.

Lemma answered_app es1 es2 s1 s2 s3 : sched_ok s1 → answered es1 s1 s2 → answered es2 s2 s3 → answered (es1 ++ es2) s1 s3.
Proof.
  intros Hok A1 A2. pose proof (λ mac, answered_names _ _ _ mac Hok A1) as Hn.
  destruct A1 as [H1 (H2 & H3 & H4) [H5 H6] H7 H8], A2 as [G1 (G2 & G3 & G4) [G5 G6] G7 G8]. constructor; [done|..].
  - split; [congruence|]. split; congruence.
  - split; congruence.
  - intros a t Ha. destruct (H7 a t Ha) as (t2 & Ha2 & R1). destruct (G7 a t2 Ha2) as (t3 & Ha3 & R2).
    exists t3. split; [done|]. by eapply rated_trans.
  - rewrite G8, H8. setoid_rewrite Hn. setoid_rewrite elem_of_app. split.
    + intros [[? Ha] Hb]. split; [done|]. intros m q [?|?]; eauto.
    + intros [? Ha]. split; [split; [done|]|]; intros m q Hin; eapply Ha; eauto.
Qed.

Lemma ret_loop_spec entries : ∀ size s, sched_ok s → Forall (λ e, query_ok e.2) entries → 9 * Z.of_nat (length entries) <= size →
  ∃ s', ret_loop entries size s = Some s' ∧ answered entries s s'.
Proof.
  induction entries as [|[mac q] l IH]; intros size s Hok Hq Hs.
  - exists s. split; [done|]. constructor; try done; [intros a t Ha; exists t; split; [done|by left]|].
    split; [|by intros [??]]. intros Hp. split; [done|]. by intros ?? ?%elem_of_nil.
  - apply Forall_cons in Hq as [Hq1 Hq]. cbn [ret_loop length] in *. rewrite (proj2 (Z.leb_le _ _)) by lia.
    destruct (update_sta_tx_rate_spec mac q s Hok Hq1) as (s1 & -> & A1). cbn [mbind option_bind].
    destruct (IH (size - 9) s1) as (s2 & -> & A2); [apply A1|done|lia|]. exists s2. split; [done|].
    by apply (answered_app [(mac, q)] l s s1 s2).
Qed.

Lemma rate_answer_facts (entries : list rate_entry) (resp_size : Z) (s : sta_sched) :
  sched_ok s → Forall (λ e, query_ok e.2) entries → length entries = MAX_STA_IN_TX_RATE_REQ →
  let used := take (Z.to_nat ((resp_size - 8) / 9)) entries in
  ∃ s', wlan_ret_sta_tx_rate entries resp_size s = Some s' ∧ answered used s s'.
Proof.
  intros Hok Hq Hl used. unfold wlan_ret_sta_tx_rate. rewrite take_ge by lia.
  destruct (decide (resp_size - 8 < 9 * (1 + Z.of_nat (length entries)))) as [Hs|Hs].
  - rewrite ret_loop_take by done. fold used. apply ret_loop_spec; [done|by apply Forall_take|].
    unfold used. rewrite length_take. apply Z.mul_le_mono_nonneg_l, Nat2Z.inj_le, Nat.le_min_r. done.
  - assert (used = entries) as ->.
    { apply take_ge. assert (Z.of_nat (length entries) <= (resp_size - 8) / 9) as Hd by (apply Z.div_le_lower_bound; lia).
      apply Nat2Z.inj_le. rewrite Z2Nat.id; [exact Hd|]. etrans; [|exact Hd]. lia. }
    apply ret_loop_spec; [done|done|]. clear -Hs. unfold rate_entry in *. lia.
Qed.

(** C30: The answer to a rate query is taken up whatever bytes it holds and whatever
    its size field says: its whole entries, 32 at most, are used; only rates and
    byte budgets of stations named by them change, to what an entry that names the
    station and has a known rate says; the budgets stay ones the scheduler can
    refill; and another query is possible exactly if an entry named a station that
    is still known. *)
Theorem rate_answer (entries : list rate_entry) (resp_size : Z) (s : sta_sched) :
  sched_ok s → Forall (λ e, query_ok e.2) entries → length entries = MAX_STA_IN_TX_RATE_REQ →
  let used := take (Z.to_nat ((resp_size - 8) / 9)) entries in
  ∃ s', wlan_ret_sta_tx_rate entries resp_size s = Some s' ∧ answered used s s'.
Proof. apply rate_answer_facts. Qed.

(** ** Asking for rates *)

Definition unicast_ra (tbl : gmap Z wmm_sta_table) (a : Z) : option (list Z) :=
  t ← tbl !! a; if is_bmcast t then None else Some (st_ra t).

Lemma pick_pending_spec tbl : ∀ pending room, (∀ a, a ∈ pending → is_Some (tbl !! a)) →
  ∃ picked more, pick_pending tbl room pending = Some (omap (unicast_ra tbl) picked, more) ∧ pending = picked ++ more ∧
    (length (omap (unicast_ra tbl) picked) <= room)%nat ∧
    (more = [] ∨ length (omap (unicast_ra tbl) picked) = room).
Proof.
  induction pending as [|a rest IH]; intros [|room] Hall.
  1-2: exists [], []; cbn; by auto with lia.
  { exists [], (a :: rest). cbn. by auto. }
  cbn [pick_pending]. destruct (Hall a) as [t Ht]; [left|]. rewrite Ht. cbn [mbind option_bind].
  assert (∀ b, b ∈ rest → is_Some (tbl !! b)) as Hrest by (intros b Hb; apply Hall; by right).
  destruct (is_bmcast t) eqn:Eb.
  - destruct (IH (S room) Hrest) as (picked & more & -> & -> & Hl & Hm). exists (a :: picked), more.
    assert (omap (unicast_ra tbl) (a :: picked) = omap (unicast_ra tbl) picked) as ->.
    { cbn. unfold unicast_ra at 1. by rewrite Ht; cbn; rewrite Eb. }
    by auto.
  - destruct (IH room Hrest) as (picked & more & -> & -> & Hl & Hm). exists (a :: picked), more.
    assert (omap (unicast_ra tbl) (a :: picked) = st_ra t :: omap (unicast_ra tbl) picked) as ->.
    { cbn. unfold unicast_ra at 1. by rewrite Ht; cbn; rewrite Eb. }
    split; [done|]. split; [done|]. cbn [length]. split; [lia|]. destruct Hm; [by left|right; lia].
Qed.

(** A rate query goes out only when none is under way and a second has passed;
    it then names, in order, the stations at the head of the list of those that had
    packets, 32 at most and no group address, takes them off the list, and marks
    itself as under way exactly if it names someone. *)
Theorem rate_request (time_now : Z) (s : sta_sched) : sched_ok s →
  ∃ s', wlan_wmm_update_sta_txrate_info time_now s = Some s' ∧ sched_ok s' ∧
    if util_is_time_before time_now (next_rate_update s) || is_rate_update_pending s then s' = s
    else ∃ picked more macs, pending_stas s = picked ++ more ∧ macs = omap (unicast_ra (sta_tbl s)) picked ∧
      pending_stas s' = more ∧ (length macs <= 32)%nat ∧ (more = [] ∨ length macs = 32%nat) ∧
      next_rate_update s' = u64 (time_now + 1000000000) ∧
      is_rate_update_pending s' = bool_decide (macs ≠ []) ∧
      rate_requests s' = rate_requests s ++ (if decide (macs = []) then [] else [macs]).
Proof.
  intros Hok. unfold wlan_wmm_update_sta_txrate_info. destruct (_ || _); [by exists s|].
  destruct (pick_pending_spec (sta_tbl s) (pending_stas s) MAX_STA_IN_TX_RATE_REQ) as (picked & more & -> & He & Hl & Hm).
  { intros a Ha. apply (sk_all _ Hok). by apply (sk_pending _ Hok). }
  cbn [mbind option_bind]. eexists. split; [reflexivity|]. split.
  - destruct Hok as [H1 H2 [H3 H4] H5]. rewrite He in H3, H4. constructor; try done. split.
    + by apply NoDup_app in H3 as (_ & _ & H3).
    + intros a Ha. apply H4, elem_of_app. by right.
  - exists picked, more, (omap (unicast_ra (sta_tbl s)) picked). do 5 (split; [done|]). split; [done|].
    destruct (omap _ picked); cbn; [by rewrite app_nil_r|done].
Qed.

(** The stations a query named are gone when the answer comes (or no answer comes at
    all): no further query is ever sent. *)
Lemma rate_updates_stop entries resp_size s : sched_ok s → Forall (λ e, query_ok e.2) entries →
  length entries = MAX_STA_IN_TX_RATE_REQ → is_rate_update_pending s = true →
  (∀ mac q, (mac, q) ∈ take (Z.to_nat ((resp_size - 8) / 9)) entries → ¬ names s mac) →
  ∃ s', wlan_ret_sta_tx_rate entries resp_size s = Some s' ∧ rate_requests s' = rate_requests s ∧
    ∀ time_now, wlan_wmm_update_sta_txrate_info time_now s' = Some s'.
Proof.
  intros Hok Hq Hl Hp Hno. destruct (rate_answer_facts entries resp_size s Hok Hq Hl) as (s' & He & [_ _ [Hr _] _ Hpend]).
  exists s'. do 2 (split; [done|]). intros now. unfold wlan_wmm_update_sta_txrate_info.
  assert (is_rate_update_pending s' = true) as -> by (by apply Hpend). by rewrite orb_true_r.
Qed.

(** ** Dividing the queue *)

Definition cap_of (tbl : gmap Z wmm_sta_table) (a : Z) : Z :=
  match tbl !! a with Some t => byte_budget_init (budget t) | None => 0 end.
Definition queue_of (tbl : gmap Z wmm_sta_table) (a : Z) : Z :=
  match tbl !! a with Some t => queue_packets (budget t) | None => 0 end.

Lemma capacity_spec tbl l : (∀ a, a ∈ l → is_Some (tbl !! a)) → capacity tbl l = Some (zsum (cap_of tbl) l).
Proof.
  induction l as [|a l IH]; intros Hall; [done|]. cbn [capacity zsum]. destruct (Hall a) as [t Ht]; [left|].
  unfold cap_of at 1. rewrite Ht, IH by (intros b Hb; apply Hall; by right). done.
Qed.

(** The share of a station, and the three limits on it. *)
Lemma sta_share_spec limit total t : sta_ok t → 0 <= limit → limit * 7 < 2 ^ 32 → byte_budget_init (budget t) <= total → total < 2 ^ 32 →
  ∃ n, sta_share limit total t = Some n ∧ 0 <= n <= limit * 7 / 8 ∧
    n <= wlan_wmm_get_byte_budget 200000 (phy_rate_kbps (budget t)) / MV_ETH_FRAME_LEN ∧
    n <= Z.max (limit * byte_budget_init (budget t) / total) 128.
Proof.
  intros [Hb Hmin _ _] Hl Hl7 Hc Ht. pose proof (bo_bytes _ Hb) as Hbi. unfold INT_MAX, MV_ETH_FRAME_LEN in *.
  unfold sta_share. rewrite (u_wrap_small 32 total) by lia. cbv zeta.
  destruct (total =? 0) eqn:E; [lia|]. eexists. split; [reflexivity|].
  set (c := byte_budget_init (budget t)) in *. rewrite (u_wrap_small 64 (limit * c)) by nia.
  assert (0 <= limit * c / total <= limit) as Hq.
  { split; [apply Z.div_pos; nia|]. apply Z.div_le_upper_bound; [lia|]. nia. }
  rewrite (u_wrap_small 32 (limit * c / total)) by lia. rewrite (u_wrap_small 32 (limit * 7)) by lia.
  pose proof (byte_budget_range 200000 (phy_rate_kbps (budget t))) as Hr. unfold MV_ETH_FRAME_LEN in *.
  pose proof (Z.div_pos (wlan_wmm_get_byte_budget 200000 (phy_rate_kbps (budget t))) 1514).
  pose proof (Z.div_pos (limit * 7) 8). lia.
Qed.

Lemma share_loop_spec limit total l : ∀ tbl, NoDup l → (∀ a, a ∈ l → is_Some (tbl !! a)) →
  (∀ a t, a ∈ l → tbl !! a = Some t → is_Some (sta_share limit total t)) →
  ∃ tbl', share_loop limit total l tbl = Some tbl' ∧
    (∀ a, a ∉ l → tbl' !! a = tbl !! a) ∧
    ∀ a t, a ∈ l → tbl !! a = Some t → ∃ n, sta_share limit total t = Some n ∧ tbl' !! a = Some (set_queue_packets n t).
Proof.
  induction l as [|a l IH]; intros tbl Hnd Hall Hsh.
  { exists tbl. split; [done|]. split; [done|]. by intros a t ?%elem_of_nil. }
  apply NoDup_cons in Hnd as [Ha Hnd]. cbn [share_loop]. destruct (Hall a) as [t Ht]; [left|]. destruct (Hsh a t ltac:(left) Ht) as [n Hn].
  rewrite Ht. cbn [mbind option_bind]. rewrite Hn. cbn [mbind option_bind].
  assert (∀ b, b ∈ l → <[a := set_queue_packets n t]> tbl !! b = tbl !! b) as Hne.
  { intros b Hb. apply lookup_insert_ne. by intros ->. }
  destruct (IH (<[a := set_queue_packets n t]> tbl) Hnd) as (tbl' & -> & H1 & H2).
  - intros b Hb. rewrite Hne by done. apply Hall. by right.
  - intros b tb Hb. rewrite Hne by done. apply Hsh. by right.
  - exists tbl'. split; [done|]. split.
    + intros b Hb. rewrite H1 by (intros ?; apply Hb; by right). apply lookup_insert_ne. intros ->. apply Hb. left.
    + intros b tb [->|Hb]%elem_of_cons Htb.
      * rewrite Ht in Htb. injection Htb as <-. exists n. split; [done|]. rewrite H1 by done. apply lookup_insert_eq.
      * apply H2; [done|]. by rewrite Hne.
Qed.

(** Whole parts of a proportional division. *)
Lemma zsum_div_le {A} (f : A → Z) l limit total : 0 < total → 0 <= limit → (∀ x, x ∈ l → 0 <= f x) →
  zsum (λ x, limit * f x / total) l * total <= limit * zsum f l.
Proof.
  intros Ht Hl. induction l as [|x l IH]; intros Hf; cbn [zsum]; [lia|].
  assert (∀ y, y ∈ l → 0 <= f y) as Hfl by (intros y Hy; apply Hf; by right). specialize (IH Hfl).
  pose proof (Z.mul_div_le (limit * f x) total Ht). nia.
Qed.
Lemma zsum_le_elem {A} (f g : A → Z) l : (∀ x, x ∈ l → f x <= g x) → zsum f l <= zsum g l.
Proof.
  induction l as [|x l IH]; intros H; cbn [zsum]; [lia|].
  pose proof (H x ltac:(left)). assert (zsum f l <= zsum g l) by (apply IH; intros; apply H; by right). lia.
Qed.
Lemma zsum_max_le {A} (f : A → Z) l k : (∀ x, x ∈ l → 0 <= f x) → 0 <= k →
  zsum (λ x, Z.max (f x) k) l <= zsum f l + k * Z.of_nat (length l).
Proof.
  induction l as [|x l IH]; intros H Hk; cbn [zsum length]; [lia|].
  pose proof (H x ltac:(left)). assert (zsum (λ x, Z.max (f x) k) l <= zsum f l + k * Z.of_nat (length l))
    by (apply IH; [intros; apply H; by right|done]). lia.
Qed.
Lemma zsum_elem_le {A} (f : A → Z) l x : (∀ x, x ∈ l → 0 <= f x) → x ∈ l → f x <= zsum f l.
Proof.
  induction l as [|y l IH]; intros H; [by intros ?%elem_of_nil|]. intros [->|Hx]%elem_of_cons; cbn [zsum].
  - assert (0 <= zsum f l); [|lia]. clear IH. induction l as [|z l IH]; cbn [zsum]; [lia|].
    pose proof (H z ltac:(right; left)). assert (0 <= zsum f l); [|lia]. apply IH. intros w [->|Hw]%elem_of_cons; apply H; [left|].
    right. by right.
  - pose proof (H y ltac:(left)). assert (f x <= zsum f l); [|lia]. apply IH; [|done]. intros; apply H; by right.
Qed.

Lemma set_queue_packets_ok n t : sta_ok t → sta_ok (set_queue_packets n t).
Proof. intros [[H1 H2 H3 H4 H5] H6 H7 H8]. constructor; [constructor| | |]; done. Qed.

Lemma share_tbl_ok limit total (l : list Z) (tbl tbl' : gmap Z wmm_sta_table) : map_Forall (λ _, sta_ok) tbl →
  (∀ a, a ∉ l → tbl' !! a = tbl !! a) →
  (∀ a t, a ∈ l → tbl !! a = Some t → ∃ n, sta_share limit total t = Some n ∧ tbl' !! a = Some (set_queue_packets n t)) →
  (∀ a, a ∈ l → is_Some (tbl !! a)) →
  map_Forall (λ _, sta_ok) tbl' ∧ ∀ a, is_Some (tbl !! a) → is_Some (tbl' !! a).
Proof.
  intros Hok H1 H2 Hall. split.
  - intros a t Ht. destruct (decide (a ∈ l)) as [Hin|Hin]; [|rewrite H1 in Ht by done; by apply (Hok a)].
    destruct (Hall a Hin) as [t0 Ht0]. destruct (H2 a t0 Hin Ht0) as (n & _ & Hn). rewrite Hn in Ht. injection Ht as <-.
    apply set_queue_packets_ok, (Hok a t0 Ht0).
  - intros a [t Ht]. destruct (decide (a ∈ l)) as [Hin|Hin]; [|rewrite H1; by eauto].
    destruct (H2 a t Hin Ht) as (n & _ & ->). by eexists.
Qed.

Lemma active_caps s : sched_ok s → let cap := cap_of (sta_tbl s) in let total := zsum cap (active_list s) in
  (∀ a, a ∈ active_list s → ∃ t, sta_tbl s !! a = Some t) ∧
  (∀ a, a ∈ active_list s → 0 < cap a <= total) ∧ (active_list s ≠ [] → 0 < total).
Proof.
  intros Hok cap total. destruct (sk_active _ Hok) as [_ Hact].
  assert (∀ a, a ∈ active_list s → ∃ t, sta_tbl s !! a = Some t) as Hall by (intros a Ha; apply (sk_all _ Hok), Hact, Ha).
  assert (∀ a, a ∈ active_list s → 0 < cap a) as Hpos.
  { intros a Ha. destruct (Hall a Ha) as [t Ht]. unfold cap, cap_of. rewrite Ht. apply (bo_bytes _ (so_budget _ (sk_tbl _ Hok a t Ht))). }
  assert (∀ a, a ∈ active_list s → cap a <= total) as Hle.
  { intros a. apply zsum_elem_le. intros x Hx. pose proof (Hpos x Hx). lia. }
  split; [done|]. split; [by auto|]. unfold total in *. destruct (active_list s) as [|a l]; [done|]. intros _.
  pose proof (Hpos a ltac:(left)). pose proof (Hle a ltac:(left)). lia.
Qed.

(** Together the shares are at most the limit and the guaranteed packets. *)
Lemma shares_sum limit (cap q : Z → Z) (l : list Z) : 0 <= limit → 0 < zsum cap l → (∀ a, a ∈ l → 0 < cap a) →
  (∀ a, a ∈ l → q a <= Z.max (limit * cap a / zsum cap l) 128) →
  zsum q l <= limit + 128 * Z.of_nat (length l).
Proof.
  intros Hl Ht Hpos Hq. etrans; [apply (zsum_le_elem _ _ l Hq)|]. etrans; [apply zsum_max_le; [|lia]|].
  { intros a Ha. apply Z.div_pos; [|done]. pose proof (Hpos a Ha). nia. }
  pose proof (zsum_div_le cap l limit (zsum cap l) Ht Hl) as Hd.
  assert (∀ x, x ∈ l → 0 <= cap x) as Hnn by (intros x Hx; pose proof (Hpos x Hx); lia). specialize (Hd Hnn). nia.
Qed.

(** C33: Five times a second the packets the driver may hold are divided among the
    stations that were active: each gets at most seven eighths of them and at most
    what its rate sends in 200 ms, and together they get at most the limit, but for
    the 128 packets that everyone may have; the others keep what they had, and
    the record of active stations starts again. *)
Theorem queue_shares (limit time_now : Z) (s : sta_sched) : sched_ok s → 0 <= limit → limit * 7 < 2 ^ 32 →
  active_list s ≠ [] → zsum (cap_of (sta_tbl s)) (active_list s) < 2 ^ 32 →
  util_is_time_before time_now (next_update s) = false →
  ∃ s', wlan_wmm_update_queue_packets_budget limit time_now s = Some s' ∧ sched_ok s' ∧ active_list s' = [] ∧ n_stas s' = 0 ∧
    (∀ a, a ∉ active_list s → sta_tbl s' !! a = sta_tbl s !! a) ∧
    (∀ a t, a ∈ active_list s → sta_tbl s !! a = Some t → ∃ n, sta_tbl s' !! a = Some (set_queue_packets n t) ∧
       0 <= n <= limit * 7 / 8 ∧ n <= wlan_wmm_get_byte_budget 200000 (phy_rate_kbps (budget t)) / MV_ETH_FRAME_LEN) ∧
    zsum (queue_of (sta_tbl s')) (active_list s) <= limit + 128 * Z.of_nat (length (active_list s)).
Proof.
  intros Hok Hl0 Hl7 Hne Hcap Htime. unfold wlan_wmm_update_queue_packets_budget. rewrite Htime. cbn [sta_tbl active_list set_active].
  destruct (active_caps s Hok) as (Hall & Hpos & Ht0). specialize (Ht0 Hne).
  rewrite capacity_spec by exact Hall. cbn [mbind option_bind]. set (total := zsum (cap_of (sta_tbl s)) (active_list s)) in *.
  rewrite (u_wrap_small 64 total) by lia. destruct (total =? 0) eqn:E; [lia|].
  assert (∀ a t, a ∈ active_list s → sta_tbl s !! a = Some t → ∃ n, sta_share limit total t = Some n ∧ 0 <= n <= limit * 7 / 8 ∧
    n <= wlan_wmm_get_byte_budget 200000 (phy_rate_kbps (budget t)) / MV_ETH_FRAME_LEN ∧
    n <= Z.max (limit * cap_of (sta_tbl s) a / total) 128) as Hshare.
  { intros a t Ha Hta. pose proof (Hpos a Ha) as Hc. unfold cap_of in *. rewrite Hta in *.
    apply sta_share_spec; try done; [apply (sk_tbl _ Hok a t Hta)|lia]. }
  destruct (share_loop_spec limit total (active_list s) (sta_tbl s) (proj1 (sk_active _ Hok))) as (tbl' & -> & H1 & H2); [exact Hall| |].
  { intros a t Ha Hta. destruct (Hshare a t Ha Hta) as (n & -> & _). by eexists. }
  cbn [mbind option_bind]. destruct (share_tbl_ok _ _ _ _ _ (sk_tbl _ Hok) H1 H2 Hall) as [Hok' Hsome].
  eexists. split; [reflexivity|]. split; [|split; [done|split; [done|split; [exact H1|split]]]].
  - destruct Hok. constructor; cbn; try done; [auto|]. split; [constructor|]. by intros a ?%elem_of_nil.
  - intros a t Ha Hta. destruct (H2 a t Ha Hta) as (n & Hn & Hn'). destruct (Hshare a t Ha Hta) as (n' & Hn2 & Hb1 & Hb2 & _).
    rewrite Hn in Hn2. injection Hn2 as <-. exists n. by split.
  - apply (shares_sum limit (cap_of (sta_tbl s))); [done|done|by intros; apply Hpos|].
    intros a Ha. destruct (Hall a Ha) as [t Hta]. destruct (H2 a t Ha Hta) as (n & Hn & Hn').
    destruct (Hshare a t Ha Hta) as (n' & Hn2 & _ & _ & Hb). unfold queue_of. cbn. rewrite Hn'. cbn. fold total. congruence.
Qed.

(** ** An example *)

(** Three stations, one of them a group address; two were active. *)
Definition demo_sta_2 : wmm_sta_table := wlan_wmm_allocate_sta_table 2600 6000 5000 [2; 0; 0; 0; 0; 2].
Definition demo_sta_3 : wmm_sta_table := wlan_wmm_allocate_sta_table 2600 6000 5000 [255; 255; 255; 255; 255; 255].
Definition demo_sched : sta_sched :=
  mk_sched {[ 201 := wlan_wmm_allocate_sta_table 2600 6000 5000 demo_mac; 202 := demo_sta_2; 203 := demo_sta_3 ]}
    [201; 202; 203] [203; 202] [201; 202] 2 1000 1000 false [].

Lemma demo_sched_ok : sched_ok demo_sched.
Proof.
  assert (∀ mac, sta_ok (wlan_wmm_allocate_sta_table 2600 6000 5000 mac)) as H by (intros mac; apply allocate_sta_ok; lia).
  constructor; cbn [sta_tbl all_stas pending_stas active_list demo_sched].
  - apply map_Forall_insert_2; [exact (H _)|]. apply map_Forall_insert_2; [exact (H _)|].
    apply map_Forall_singleton. exact (H _).
  - intros a Ha. repeat (apply elem_of_cons in Ha as [->|Ha]; [vm_compute; by eexists|]). by apply elem_of_nil in Ha.
  - split; [by apply (bool_decide_unpack _)|]. intros a. rewrite !elem_of_cons. tauto.
  - split; [by apply (bool_decide_unpack _)|]. intros a. rewrite !elem_of_cons. tauto.
Qed.

Lemma rate_request_witness : ∃ s', wlan_wmm_update_sta_txrate_info 2000 demo_sched = Some s' ∧
  rate_requests s' = [[[2; 0; 0; 0; 0; 2]]] ∧ is_rate_update_pending s' = true.
Proof.
  destruct (rate_request 2000 demo_sched demo_sched_ok) as (s' & He & _). exists s'. split; [exact He|].
  vm_compute in He. injection He as <-. split; reflexivity.
Defined.

Definition demo_answer : list rate_entry :=
  ([2; 0; 0; 0; 0; 2], mk_rate_query 27 11 0) :: replicate 31 ([0; 0; 0; 0; 0; 0], mk_rate_query 0 0 0).
Lemma rate_answer_witness : ∃ s', wlan_ret_sta_tx_rate demo_answer 17 demo_sched = Some s' ∧
  answered [([2; 0; 0; 0; 0; 2], mk_rate_query 27 11 0)] demo_sched s' ∧
  (phy_rate_kbps ∘ budget) <$> sta_tbl s' !! 202 = Some 1202100.
Proof.
  assert (Forall (λ e, query_ok e.2) demo_answer) as Hq.
  { apply Forall_cons. split; [|apply Forall_replicate]; split; cbn; lia. }
  destruct (rate_answer demo_answer 17 demo_sched demo_sched_ok Hq eq_refl) as (s' & He & Ha).
  exists s'. split; [exact He|]. split; [exact Ha|]. vm_compute in He. injection He as <-. reflexivity.
Defined.

Lemma queue_shares_witness : ∃ s', wlan_wmm_update_queue_packets_budget 8192 2000 demo_sched = Some s' ∧
  zsum (queue_of (sta_tbl s')) [201; 202] <= 8192 + 256 ∧ queue_of (sta_tbl s') 201 = 3302.
Proof.
  destruct (queue_shares 8192 2000 demo_sched demo_sched_ok) as (s' & He & _ & _ & _ & _ & _ & H);
    [lia|lia|discriminate|vm_compute; reflexivity|vm_compute; reflexivity|].
  exists s'. split; [exact He|]. split; [exact H|]. vm_compute in He. injection He as <-. reflexivity.
Defined.
