(* ===== verification/TxBa.v ===== *)
(** * mlan_11n.c, mlan_11n.h, mlan_wmm.c: block-ack streams for transmission

    A receiver and TID that had packets enough get a block-ack stream: an ADDBA
    command and an entry in [tx_ba_stream_tbl_ptr], completed or removed by the
    response; with all streams in use one of lower priority is torn down (DELBA)
    first and the new entry waits for that.  This file models the table with its
    pointers, the commands sent and their responses, and how
    [wlan_dequeue_tx_packet] decides what to do with a packet.  A pointer is an
    address; [None] is a read through a dangling pointer or outside an array.
    [wlan_prepare_cmd] takes a command or, without a free command node or with the
    card gone, refuses it: its results are given with each operation ([prep]); what
    becomes of a command in the queue is the matter of CmdQueue. *)

From S2P Require Import Prelude UtilScalar RxReorder RxTable Amsdu WmmPrio WmmTbl WmmInv WmmFlow WmmRun.
#[local] Open Scope Z_scope.

(** ** Data *)

(** [_TxBAStreamTbl], with its address. *)
Record tx_stream := mk_stream {
  e_addr : Z; e_tid : Z; e_ra : list Z; e_status : baStatus_e; e_amsdu : bool
}.
Definition set_e_status (x : baStatus_e) (e : tx_stream) : tx_stream :=
  mk_stream (e_addr e) (e_tid e) (e_ra e) x (e_amsdu e).
Definition set_e_amsdu (x : bool) (e : tx_stream) : tx_stream :=
  mk_stream (e_addr e) (e_tid e) (e_ra e) (e_status e) x.

(** [tx_aggr_t], a [t_u8] each. *)
Record tx_aggr_t := mk_aggr { ampdu_user : Z; ampdu_ap : Z; aggr_amsdu : Z }.
Definition set_ampdu_ap (x : Z) (g : tx_aggr_t) : tx_aggr_t := mk_aggr (ampdu_user g) x (aggr_amsdu g).
Definition BA_STREAM_NOT_ALLOWED : Z := 255.

(** The fields of [add_ba_param_t] for transmission. *)
Record add_ba_param_t := mk_addba { tx_win_size : Z; ba_timeout : Z; tx_amsdu : bool }.

(** Commands given to [wlan_prepare_cmd]. *)
Inductive ba_cmd :=
| CmdAddba (block_ack_param_set block_ack_tmo dialog_token : Z) (peer : list Z)
| CmdDelba (del_ba_param_set : Z) (peer : list Z).

(** [streams] is the list [tx_ba_stream_tbl_ptr]; [ampdu_sta] the array of the
    station entries, by address; [dialog_tok] the static of [wlan_send_addba].
    [prep]: the results of the coming calls of [wlan_prepare_cmd], success beyond
    them; [cmds] and [refused] the commands it took and those it did not. *)
Record ba_priv := mk_ba {
  wmm : wmm_priv;
  streams : list tx_stream;
  aggr_prio_tbl : list tx_aggr_t;
  add_ba_param : add_ba_param_t;
  ampdu_sta : list (list Z * list Z);
  dialog_tok : Z;
  cmds : list ba_cmd;
  prep : list bool;
  refused : list ba_cmd
}.
Definition set_wmm (x : wmm_priv) (b : ba_priv) : ba_priv :=
  mk_ba x (streams b) (aggr_prio_tbl b) (add_ba_param b) (ampdu_sta b) (dialog_tok b) (cmds b) (prep b) (refused b).
Definition set_streams (x : list tx_stream) (b : ba_priv) : ba_priv :=
  mk_ba (wmm b) x (aggr_prio_tbl b) (add_ba_param b) (ampdu_sta b) (dialog_tok b) (cmds b) (prep b) (refused b).
Definition set_aggr (x : list tx_aggr_t) (b : ba_priv) : ba_priv :=
  mk_ba (wmm b) (streams b) x (add_ba_param b) (ampdu_sta b) (dialog_tok b) (cmds b) (prep b) (refused b).
Definition set_ampdu_sta (x : list (list Z * list Z)) (b : ba_priv) : ba_priv :=
  mk_ba (wmm b) (streams b) (aggr_prio_tbl b) (add_ba_param b) x (dialog_tok b) (cmds b) (prep b) (refused b).
Definition set_tok (x : Z) (b : ba_priv) : ba_priv :=
  mk_ba (wmm b) (streams b) (aggr_prio_tbl b) (add_ba_param b) (ampdu_sta b) x (cmds b) (prep b) (refused b).
Definition set_prep (x : list bool) (b : ba_priv) : ba_priv :=
  mk_ba (wmm b) (streams b) (aggr_prio_tbl b) (add_ba_param b) (ampdu_sta b) (dialog_tok b) (cmds b) x (refused b).

(** What [wlan_prepare_cmd] means here: the next result, and where the command is. *)
Definition issue (c : ba_cmd) (b : ba_priv) : ba_priv * mlan_status :=
  match prep b with
  | false :: l =>
      (mk_ba (wmm b) (streams b) (aggr_prio_tbl b) (add_ba_param b) (ampdu_sta b) (dialog_tok b) (cmds b) l
         (refused b ++ [c]), MLAN_STATUS_FAILURE)
  | l =>
      (mk_ba (wmm b) (streams b) (aggr_prio_tbl b) (add_ba_param b) (ampdu_sta b) (dialog_tok b) (cmds b ++ [c])
         (tail l) (refused b), MLAN_STATUS_SUCCESS)
  end.

(** ** The table *)

Definition is_stream (tid : Z) (ra : list Z) (e : tx_stream) : Prop := e_ra e = ra ∧ e_tid e = tid.
#[export] Instance is_stream_dec tid ra e : Decision (is_stream tid ra e).
Proof. unfold is_stream. apply _. Defined.

Definition wlan_11n_get_txbastream_tbl (tid : Z) (ra : list Z) (b : ba_priv) : option tx_stream :=
  snd <$> list_find (is_stream tid ra) (streams b).
Definition wlan_11n_get_txbastream_status (st : baStatus_e) (b : ba_priv) : option tx_stream :=
  snd <$> list_find (λ e, e_status e = st) (streams b).

Definition upd_stream (a : Z) (f : tx_stream → tx_stream) (b : ba_priv) : ba_priv :=
  set_streams ((λ e, if decide (e_addr e = a) then f e else e) <$> streams b) b.
Definition wlan_11n_set_txbastream_status (tid : Z) (ra : list Z) (st : baStatus_e) (b : ba_priv) : ba_priv :=
  match wlan_11n_get_txbastream_tbl tid ra b with
  | Some e => upd_stream (e_addr e) (set_e_status st) b
  | None => b
  end.

Definition wlan_is_txbastreamptr_valid (a : Z) (b : ba_priv) : bool := bool_decide (a ∈ e_addr <$> streams b).
Definition wlan_11n_delete_txbastream_tbl_entry (a : Z) (b : ba_priv) : ba_priv :=
  if wlan_is_txbastreamptr_valid a b then set_streams (filter (λ e, e_addr e ≠ a) (streams b)) b else b.

Definition wlan_11n_deleteall_txbastream_tbl (b : ba_priv) : ba_priv :=
  set_aggr ((λ g, set_ampdu_ap (ampdu_user g) g) <$> aggr_prio_tbl b) (set_streams [] b).

Definition wlan_11n_cleanup_txbastream_tbl (ra : list Z) (b : ba_priv) : ba_priv :=
  foldl (λ b i, match wlan_11n_get_txbastream_tbl (Z.of_nat i) ra b with
                | Some e => wlan_11n_delete_txbastream_tbl_entry (e_addr e) b
                | None => b
                end) b all_tids.

(** The RA list of a receiver for the downgraded TID. *)
Definition ba_tid_down (tid : Z) (b : ba_priv) : nat := Z.to_nat (wlan_wmm_downgrade_tid (prio (wmm b)) tid).
Definition ba_ralist (tid : Z) (mac : list Z) (b : ba_priv) : option raListTbl :=
  snd <$> wlan_wmm_get_ralist_node (wmm b) (ba_tid_down tid b) mac.
Definition upd_ba_ralist (tid : Z) (mac : list Z) (f : raListTbl → raListTbl) (b : ba_priv) : ba_priv :=
  match ba_ralist tid mac b with
  | Some r => set_wmm (upd_tid (ba_tid_down tid b) (upd_ralist (r_addr r) f) (wmm b)) b
  | None => b
  end.

(** [amsdu_in_ampdu], [ba_status]; the counters that delay the next set-up. *)
Definition set_ra_ba (amsdu : bool) (st : baStatus_e) (r : raListTbl) : raListTbl :=
  mk_ralist (r_addr r) (ra r) (buf_head r) (total_pkts r) (packet_count r) (ba_packet_threshold r) (is_wmm_enabled r)
    (max_amsdu r) st (del_ba_count r) amsdu (is_tdls_link r) (tx_pause r) (r_tid r) (r_queue r).
Definition set_ra_counts (pkts threshold del : Z) (r : raListTbl) : raListTbl :=
  mk_ralist (r_addr r) (ra r) (buf_head r) (total_pkts r) pkts threshold (is_wmm_enabled r)
    (max_amsdu r) (ba_status r) del (amsdu_in_ampdu r) (is_tdls_link r) (tx_pause r) (r_tid r) (r_queue r).

(** [alloc]: the address of the zeroed entry. *)
Definition wlan_11n_create_txbastream_tbl (ra : list Z) (tid : Z) (st : baStatus_e) (alloc : option Z) (b : ba_priv) : ba_priv :=
  match alloc with
  | None => b
  | Some a =>
      let b := upd_ba_ralist tid ra (set_ra_ba false st) b in
      set_streams (streams b ++ [mk_stream a tid ra st false]) b
  end.

(** ** Commands *)

Definition amsdu_allowed (g : tx_aggr_t) : bool := negb (aggr_amsdu g =? BA_STREAM_NOT_ALLOWED).

(** [aggr_prio_tbl] is read only when A-MSDU is on. *)
Definition wlan_send_addba (tid : Z) (peer : list Z) (b : ba_priv) : option (ba_priv * mlan_status) :=
  let p := add_ba_param b in
  let set := u16 (Z.lor (Z.lor (Z.shiftl tid BLOCKACKPARAM_TID_POS) (u32 (Z.shiftl (tx_win_size p) BLOCKACKPARAM_WINSIZE_POS))) 2) in
  set ← if tx_amsdu p
        then g ← aggr_prio_tbl b !! Z.to_nat tid;
             Some (if amsdu_allowed g then Z.lor set BLOCKACKPARAM_AMSDU_SUPP_MASK else set)
        else Some set;
  let tok := u8 (dialog_tok b + 1) in
  let tok := if tok =? 0 then 1 else tok in
  Some (issue (CmdAddba set (u16 (ba_timeout p)) tok peer) (set_tok tok b)).

Definition wlan_send_delba (tid : Z) (peer : list Z) (initiator : bool) (b : ba_priv) : ba_priv * mlan_status :=
  let set := u16 (Z.shiftl tid DELBA_TID_POS) in
  let set := if initiator then Z.lor set (Z.shiftl 1 DELBA_INITIATOR_POS)
             else Z.land set (u16 (Z.lnot (Z.shiftl 1 DELBA_INITIATOR_POS))) in
  let '(b, ret) := issue (CmdDelba set peer) b in
  (b, if decide (ret = MLAN_STATUS_SUCCESS) then MLAN_STATUS_PENDING else ret).
(** The callers that look at the table only take no notice of the result. *)
Definition send_addba (tid : Z) (peer : list Z) (b : ba_priv) : option ba_priv := fst <$> wlan_send_addba tid peer b.
Definition send_delba (tid : Z) (peer : list Z) (initiator : bool) (b : ba_priv) : ba_priv :=
  (wlan_send_delba tid peer initiator b).1.

(** ** Setting a stream up *)

Definition wlan_get_bastream_limit (mclient : bool) (tx_ba_stream_limit hw_streams : Z) : Z :=
  if mclient then tx_ba_stream_limit else hw_streams.
Definition MLAN_MAX_TX_BASTREAM_DEFAULT : Z := 2.
(** [tables]: the lengths of the tables of all interfaces. *)
Definition wlan_is_bastream_avail (tables : list Z) (limit : Z) : bool :=
  u32 (zsum id tables) <? (if limit =? 0 then MLAN_MAX_TX_BASTREAM_DEFAULT else limit).

(** The scan of [wlan_find_stream_to_delete]: the best TID value so far, and the
    stream. *)
Fixpoint find_lower (aggr : list tx_aggr_t) (l : list tx_stream) (tid : Z) (best : option tx_stream)
  : option (option tx_stream) :=
  match l with
  | [] => Some best
  | e :: l =>
      if decide (e_status e = BA_STREAM_SETUP_COMPLETE) then
        g ← aggr !! Z.to_nat (e_tid e);
        if ampdu_user g <? tid then find_lower aggr l (ampdu_user g) (Some e) else find_lower aggr l tid best
      else find_lower aggr l tid best
  end.
Definition wlan_find_stream_to_delete (ptr_tid : Z) (b : ba_priv) : option (option tx_stream) :=
  match streams b with
  | [] => Some None
  | l => g ← aggr_prio_tbl b !! Z.to_nat ptr_tid; find_lower (aggr_prio_tbl b) l (ampdu_user g) None
  end.

(** The branch of [wlan_dequeue_tx_packet] that sets up a stream for list [r]. *)
Definition setup_stream (tid : Z) (mac : list Z) (avail : bool) (alloc : option Z) (b : ba_priv) : option ba_priv :=
  if avail then
    match wlan_11n_get_txbastream_tbl tid mac b with
    | Some _ => Some b
    | None => send_addba tid mac (wlan_11n_create_txbastream_tbl mac tid BA_STREAM_SETUP_SENT_ADDBA alloc b)
    end
  else
    v ← wlan_find_stream_to_delete tid b;
    match v with
    | None => Some b
    | Some v =>
        match wlan_11n_get_txbastream_tbl tid mac b with
        | Some _ => Some b
        | None =>
            let b := wlan_11n_create_txbastream_tbl mac tid BA_STREAM_SETUP_INPROGRESS alloc b in
            let b := wlan_11n_set_txbastream_status (e_tid v) (e_ra v) BA_STREAM_SENT_DELBA b in
            Some (send_delba (e_tid v) (e_ra v) true b)
        end
    end.

(** ** Responses and events *)

(** The address a caller passes by pointer: the bytes of a message, or those in an
    entry of the table. *)
Inductive mac_ptr := MacOf (mac : list Z) | RaOf (addr : Z).
Definition read_mac (p : mac_ptr) (b : ba_priv) : option (list Z) :=
  match p with
  | MacOf mac => Some mac
  | RaOf a => (λ x : nat * tx_stream, e_ra x.2) <$> list_find (λ e, e_addr e = a) (streams b)
  end.

(** What [mlan_11n_delete_bastream_tbl] does to the RA list. *)
Definition unset_ralist (received : bool) (reason threshold : Z) (r : raListTbl) : raListTbl :=
  set_ra_counts 0 (u8 (MIN_BA_SETUP_PACKET_REQIRED + threshold))
    (if received then (if reason =? REASON_CODE_STA_TIMEOUT then 0 else u8 (del_ba_count r + 1)) else del_ba_count r)
    (set_ra_ba false BA_STREAM_NOT_SETUP r).

(** [mlan_11n_delete_bastream_tbl] where it ends a transmit stream; [threshold] is
    the random part. *)
Definition delete_tx_stream (tid : Z) (peer : mac_ptr) (received : bool) (reason threshold : Z) (b : ba_priv) : option ba_priv :=
  mac ← read_mac peer b;
  match wlan_11n_get_txbastream_tbl tid mac b with
  | None => Some b
  | Some e =>
      let b := wlan_11n_delete_txbastream_tbl_entry (e_addr e) b in
      mac ← read_mac peer b;
      Some (upd_ba_ralist tid mac (unset_ralist received reason threshold) b)
  end.

Definition delba_tid (set : Z) : Z := Z.shiftr set DELBA_TID_POS.
Definition delba_initiator (set : Z) : bool := Z.testbit set DELBA_INITIATOR_POS.

(** [wlan_11n_delete_bastream], for a DELBA that ends a transmit stream; a DELBA
    of the initiator ends a receive stream (RxTable). *)
Definition wlan_11n_delete_bastream (set reason : Z) (peer : list Z) (threshold : Z) (b : ba_priv) : option ba_priv :=
  if delba_initiator set then Some b else delete_tx_stream (delba_tid set) (MacOf peer) true reason threshold b.

Definition wlan_ret_11n_delba (set : Z) (ok : bool) (peer : list Z) (threshold : Z) (b : ba_priv) : option ba_priv :=
  let tid := delba_tid set in
  if ok then
    b ← if delba_initiator set then delete_tx_stream tid (MacOf peer) false 0 threshold b else Some b;
    match wlan_11n_get_txbastream_status BA_STREAM_SETUP_INPROGRESS b with
    | None => Some b
    | Some e => send_addba (e_tid e) (e_ra e) (upd_stream (e_addr e) (set_e_status BA_STREAM_SETUP_SENT_ADDBA) b)
    end
  else if delba_initiator set then
    let b := wlan_11n_set_txbastream_status tid peer BA_STREAM_SETUP_COMPLETE b in
    match wlan_11n_get_txbastream_status BA_STREAM_SETUP_INPROGRESS b with
    | None => Some b
    | Some e => delete_tx_stream (e_tid e) (RaOf (e_addr e)) false 0 threshold b
    end
  else Some b.

Definition disable_station_ampdu (tid : Z) (mac : list Z) (b : ba_priv) : option ba_priv :=
  match list_find (λ s : list Z * list Z, s.1 = mac) (ampdu_sta b) with
  | None => Some b
  | Some (i, s) =>
      if decide (Z.to_nat tid < length s.2)%nat
      then Some (set_ampdu_sta (<[i := (s.1, zset tid BA_STREAM_NOT_ALLOWED s.2)]> (ampdu_sta b)) b) else None
  end.

Definition BA_RESULT_TIMEOUT : Z := 2.

Definition wlan_ret_11n_addba_req (set status result : Z) (peer : list Z) (threshold : Z) (b : ba_priv) : option ba_priv :=
  let tid := param_tid set in
  let r := ba_ralist tid peer b in
  if status =? BA_RESULT_SUCCESS then
    match wlan_11n_get_txbastream_tbl tid peer b with
    | None => Some b
    | Some e =>
        amsdu ← if negb (Z.land set BLOCKACKPARAM_AMSDU_SUPP_MASK =? 0) && tx_amsdu (add_ba_param b)
                then amsdu_allowed <$> aggr_prio_tbl b !! Z.to_nat tid else Some false;
        let b := upd_stream (e_addr e) (λ e, set_e_amsdu amsdu (set_e_status BA_STREAM_SETUP_COMPLETE e)) b in
        Some (upd_ba_ralist tid peer (set_ra_ba amsdu BA_STREAM_SETUP_COMPLETE) b)
    end
  else
    let b := upd_ba_ralist tid peer (set_ra_ba false BA_STREAM_NOT_SETUP) b in
    b ← delete_tx_stream tid (MacOf peer) false 0 threshold b;
    if negb (result =? BA_RESULT_TIMEOUT) then
      b ← if bool_decide (bss_role (wmm b) = MLAN_BSS_ROLE_UAP) then disable_station_ampdu tid peer b else Some b;
      b ← match r with
          | Some r => if is_tdls_link r then disable_station_ampdu tid peer b else Some b
          | None => Some b
          end;
      _ ← aggr_prio_tbl b !! Z.to_nat tid;
      Some (set_aggr (alter (set_ampdu_ap BA_STREAM_NOT_ALLOWED) (Z.to_nat tid) (aggr_prio_tbl b)) b)
    else Some (upd_ba_ralist tid peer (λ r, set_ra_counts 0 threshold (del_ba_count r) r) b).

(** ** Requests from above *)

(** [wlan_11n_update_addba_request]: the parameters have changed. *)
Definition readdba (b : option ba_priv) (e : tx_stream) : option ba_priv :=
  b ← b; send_addba (e_tid e) (e_ra e) (upd_stream (e_addr e) (set_e_status BA_STREAM_SETUP_SENT_ADDBA) b).
Definition wlan_11n_update_addba_request (b : ba_priv) : option ba_priv := foldl readdba (Some b) (streams b).

Definition redelba (b : ba_priv) (e : tx_stream) : ba_priv :=
  send_delba (e_tid e) (e_ra e) true (upd_stream (e_addr e) (set_e_status BA_STREAM_SENT_DELBA) b).
Definition wlan_11n_send_delba_to_peer (ra : list Z) (b : ba_priv) : ba_priv :=
  foldl redelba b (filter (λ e, e_ra e = ra) (streams b)).

(** The first complete stream of a TID. *)
Definition wlan_send_delba_txbastream_tbl (tid : Z) (b : ba_priv) : ba_priv :=
  match list_find (λ e, e_status e = BA_STREAM_SETUP_COMPLETE ∧ e_tid e = tid) (streams b) with
  | Some (_, e) => redelba b e
  | None => b
  end.

(** ** What to do with a packet *)

(** The settings the decision reads. *)
Record agg_cfg := mk_agg {
  tdls_on : bool;   (** adapter->tdls_status is not TDLS_NOT_SETUP *)
  txaggrctrl : bool;
  is_data_rate_auto : bool;
  bitmap_rates : list Z;
  wapi_enabled : bool;
  wapi_key_on : bool;
  sta_wapi_key : list Z → bool;   (** wapi_key_on of a station *)
  amsdu_disable : bool;
  remain_on_channel : bool;
  wps_session : bool;
  tx_buf_size : Z
}.

Definition is_station_ampdu_allowed (g : agg_cfg) (b : ba_priv) (r : raListTbl) (tid : Z) : option bool :=
  match list_find (λ s : list Z * list Z, s.1 = ra r) (ampdu_sta b) with
  | None => Some false
  | Some (_, s) =>
      if bool_decide (bss_role (wmm b) = MLAN_BSS_ROLE_UAP) && wapi_enabled g && negb (sta_wapi_key g (ra r)) then Some false
      else x ← s.2 !! Z.to_nat tid; Some (negb (x =? BA_STREAM_NOT_ALLOWED))
  end.

Definition IS_BG_RATE (g : agg_cfg) : bool := negb (zget (bitmap_rates g) 0 =? 0) || negb (zget (bitmap_rates g) 1 =? 0).

Definition wlan_is_ampdu_allowed (g : agg_cfg) (b : ba_priv) (r : raListTbl) (tid : Z) : option bool :=
  if is_tdls_link r then is_station_ampdu_allowed g b r tid
  else if tdls_on g && negb (txaggrctrl g) then Some false
  else if negb (is_data_rate_auto g) && IS_BG_RATE g then Some false
  else if bool_decide (bss_role (wmm b) = MLAN_BSS_ROLE_UAP) then is_station_ampdu_allowed g b r tid
  else if wapi_enabled g && negb (wapi_key_on g) then Some false
  else x ← aggr_prio_tbl b !! Z.to_nat tid; Some (negb (ampdu_ap x =? BA_STREAM_NOT_ALLOWED)).

Definition wlan_is_amsdu_allowed (g : agg_cfg) (b : ba_priv) (r : raListTbl) (tid : Z) : option bool :=
  if amsdu_disable g || (max_amsdu r =? 0) then Some false
  else if bool_decide (bss_role (wmm b) = MLAN_BSS_ROLE_UAP)
          && bool_decide (is_Some (list_find (λ s : list Z * list Z, s.1 = ra r) (ampdu_sta b)))
          && wapi_enabled g && negb (sta_wapi_key g (ra r)) then Some false
  else
    x ← aggr_prio_tbl b !! Z.to_nat tid;
    if is_tdls_link r then Some (amsdu_allowed x)
    else Some (amsdu_allowed x &&
               (is_data_rate_auto g || negb (negb (Z.land (zget (bitmap_rates g) 2) 3 =? 0) || IS_BG_RATE g))).

Definition BA_RSSI_HIGH_THRESHOLD : Z := -70.
Definition DEL_BA_THRESHOLD : Z := 10.
(** [rssi] is snr - nf of the station for a direct link, of the interface else; a
    station that is not known has none. *)
Definition wlan_update_del_ba_count (rssi : option Z) (r : raListTbl) : raListTbl :=
  match rssi with
  | Some x => if s_wrap 8 x >? BA_RSSI_HIGH_THRESHOLD then set_ra_counts (packet_count r) (ba_packet_threshold r) 0 r else r
  | None => r
  end.

(** [total_size] is an [int]. *)
Fixpoint num_pkts (max_buf_size : Z) (l : list tx_mbuf) (total_size : Z) : Z :=
  match l with
  | [] => 0
  | m :: l =>
      let total := s32 (total_size + Z.of_nat (length (tx_bytes m))) in
      if total <? max_buf_size then 1 + num_pkts max_buf_size l total else 0
  end.
Definition wlan_num_pkts_in_txq (r : raListTbl) (max_buf_size : Z) : Z := num_pkts max_buf_size (buf_head r) 0.
Definition MIN_NUM_AMSDU : Z := 2.

Inductive tx_choice := SendProcessed | SendSingle | SendAmsdu.

(** [wlan_dequeue_tx_packet] from the list [r] it was given (as it is after
    [wlan_update_del_ba_count]) to the send: what is sent, and the state after the
    set-up of a stream.  [processed]: the head was refused by the bus before. *)
Definition dequeue_choice (g : agg_cfg) (tid : Z) (r : raListTbl) (processed avail : bool) (alloc : option Z) (b : ba_priv)
  : option (ba_priv * tx_choice) :=
  if processed then Some (b, SendProcessed)
  else
    let busy := negb (bool_decide (ba_status r = BA_STREAM_NOT_SETUP)) in
    let many := MIN_NUM_AMSDU <=? wlan_num_pkts_in_txq r (tx_buf_size g) in
    if negb (is_wmm_enabled r) || remain_on_channel g || (busy || (DEL_BA_THRESHOLD <=? del_ba_count r)) || wps_session g then
      if is_wmm_enabled r && busy && amsdu_in_ampdu r then
        ok ← wlan_is_amsdu_allowed g b r tid; Some (b, if ok && many then SendAmsdu else SendSingle)
      else Some (b, SendSingle)
    else
      ok ← wlan_is_ampdu_allowed g b r tid;
      b ← if ok && (ba_packet_threshold r <? packet_count r) then setup_stream tid (ra r) avail alloc b else Some b;
      ok ← wlan_is_amsdu_allowed g b r tid;
      Some (b, if ok && many then SendAmsdu else SendSingle).

(** ** Well-formed tables *)

Definition stream_key (e : tx_stream) : list Z * Z := (e_ra e, e_tid e).
Record ba_ok (b : ba_priv) : Prop := {
  bk_keys : NoDup (stream_key <$> streams b);
  bk_addrs : NoDup (e_addr <$> streams b);
  bk_entry : ∀ e, e ∈ streams b → e_status e ≠ BA_STREAM_NOT_SETUP ∧ 0 <= e_tid e < 8;
  bk_aggr : length (aggr_prio_tbl b) = 8%nat;
  bk_sta : ∀ s, s ∈ ampdu_sta b → length s.2 = 8%nat
}.

Definition waiting (b : ba_priv) : nat := length (filter (λ e, e_status e = BA_STREAM_SETUP_INPROGRESS) (streams b)).
Definition is_own_delba (c : ba_cmd) : Prop :=
  match c with CmdDelba set _ => delba_initiator set = true | CmdAddba _ _ _ _ => False end.
#[export] Instance is_own_delba_dec c : Decision (is_own_delba c).
Proof. destruct c; apply _. Defined.
Definition own_delbas (l : list ba_cmd) : nat := length (filter is_own_delba l).
Definition cmd_ok (c : ba_cmd) : Prop := match c with CmdAddba set _ _ _ => 0 <= param_tid set < 8 | CmdDelba _ _ => True end.

(** What an operation does: the table stays well-formed, commands [new] are taken or
    refused, and at most [k] more streams wait for a DELBA. *)
Record eff (k : nat) (b b' : ba_priv) (new : list ba_cmd) : Prop := {
  ef_ok : ba_ok b';
  ef_cmds : ∃ acc bad, cmds b' = cmds b ++ acc ∧ refused b' = refused b ++ bad ∧ acc ++ bad ≡ₚ new;
  ef_new : Forall cmd_ok new;
  ef_wait : (waiting b' <= waiting b + k)%nat
}.
Lemma eff_refl b : ba_ok b → eff 0 b b [].
Proof. intros H. constructor; [done| |done|lia]. exists [], []. by rewrite !app_nil_r. Qed.
Lemma eff_trans k1 k2 b1 b2 b3 n1 n2 : eff k1 b1 b2 n1 → eff k2 b2 b3 n2 → eff (k1 + k2) b1 b3 (n1 ++ n2).
Proof.
  intros [H1 (a1 & r1 & E1 & F1 & P1) H3 H4] [H5 (a2 & r2 & E2 & F2 & P2) H7 H8].
  constructor; [done| |by apply Forall_app|lia]. exists (a1 ++ a2), (r1 ++ r2).
  split; [by rewrite E2, E1, app_assoc|]. split; [by rewrite F2, F1, app_assoc|]. rewrite <- P1, <- P2. solve_Permutation.
Qed.
Lemma eff_trans_0 b1 b2 b3 new : eff 0 b1 b2 [] → eff 0 b2 b3 new → eff 0 b1 b3 new.
Proof. intros H1 H2. apply (eff_trans 0 0 _ _ _ [] new H1 H2). Qed.

(** The table changed in place, the rest but for RA lists and settings as it was. *)
Lemma eff_streams k b b' : ba_ok b → cmds b' = cmds b → refused b' = refused b → length (aggr_prio_tbl b') = 8%nat →
  (∀ s, s ∈ ampdu_sta b' → length s.2 = 8%nat) →
  NoDup (stream_key <$> streams b') → NoDup (e_addr <$> streams b') →
  (∀ e, e ∈ streams b' → e_status e ≠ BA_STREAM_NOT_SETUP ∧ 0 <= e_tid e < 8) →
  (waiting b' <= waiting b + k)%nat → eff k b b' [].
Proof. intros. constructor; [by constructor| |done|done]. exists [], []. by rewrite !app_nil_r. Qed.

Lemma eff_ralist tid mac f b : ba_ok b → eff 0 b (upd_ba_ralist tid mac f b) [].
Proof.
  intros Hok. unfold upd_ba_ralist. destruct (ba_ralist tid mac b); [|by apply eff_refl].
  destruct Hok. by apply eff_streams; [|done..|unfold waiting; cbn; lia].
Qed.

Definition keeps_key (f : tx_stream → tx_stream) : Prop :=
  ∀ e, stream_key (f e) = stream_key e ∧ e_addr (f e) = e_addr e.

Lemma upd_stream_map {A} (g : tx_stream → A) a f (l : list tx_stream) : (∀ e, g (f e) = g e) →
  g <$> ((λ e, if decide (e_addr e = a) then f e else e) <$> l) = g <$> l.
Proof. intros H. rewrite <- list_fmap_compose. apply list_fmap_ext. intros i e _. cbn. case_decide; auto. Qed.

Lemma filter_map_le {A} (P : A → Prop) `{∀ x, Decision (P x)} (f : A → A) (l : list A) : (∀ x, P (f x) → P x) →
  (length (filter P (f <$> l)) <= length (filter P l))%nat.
Proof.
  intros Hf. induction l as [|x l IH]; [done|]. cbn [fmap list_fmap]. rewrite !filter_cons.
  destruct (decide (P (f x))) as [Hx|Hx]; destruct (decide (P x)) as [Hy|Hy]; cbn; [lia|by apply Hf in Hx|lia|lia].
Qed.

Lemma filter_filter_le {A} (P Q : A → Prop) `{∀ x, Decision (P x)} `{∀ x, Decision (Q x)} (l : list A) :
  (length (filter P (filter Q l)) <= length (filter P l))%nat.
Proof.
  induction l as [|x l IH]; [done|]. rewrite (filter_cons Q). case_decide; rewrite !filter_cons; case_decide; cbn; lia.
Qed.

Lemma eff_upd_stream a f b : ba_ok b → keeps_key f →
  (∀ e, e_status (f e) ≠ BA_STREAM_NOT_SETUP ∧ e_status (f e) ≠ BA_STREAM_SETUP_INPROGRESS) → eff 0 b (upd_stream a f b) [].
Proof.
  intros Hok Hk Hs. destruct Hok as [H1 H2 H3 H4 H5]. apply eff_streams; try done; cbn [upd_stream set_streams streams].
  - rewrite upd_stream_map; [done|apply Hk].
  - rewrite upd_stream_map; [done|apply Hk].
  - intros e (e0 & -> & He0)%list_elem_of_fmap. destruct (H3 e0 He0) as [Hst Ht]. case_decide; [|done].
    split; [apply Hs|]. destruct (Hk e0) as [He _]. unfold stream_key in He. by injection He as _ ->.
  - rewrite Nat.add_0_r. unfold waiting. cbn. apply filter_map_le. intros e. case_decide; [|done]. intros Hw.
    by destruct (Hs e) as [_ []].
Qed.

Lemma eff_delete a b : ba_ok b → eff 0 b (wlan_11n_delete_txbastream_tbl_entry a b) [].
Proof.
  intros Hok. unfold wlan_11n_delete_txbastream_tbl_entry. destruct (wlan_is_txbastreamptr_valid a b); [|by apply eff_refl].
  destruct Hok as [H1 H2 H3 H4 H5]. apply eff_streams; try done; cbn [set_streams streams].
  - eapply sublist_NoDup; [exact H1|]. apply fmap_sublist, sublist_filter.
  - eapply sublist_NoDup; [exact H2|]. apply fmap_sublist, sublist_filter.
  - intros e [_ He]%list_elem_of_filter. by apply H3.
  - rewrite Nat.add_0_r. unfold waiting. cbn. apply filter_filter_le.
Qed.

(** ** The parameter words *)

Lemma addba_tid tid win bit : 0 <= tid < 16 → 0 <= win → (bit = 0 ∨ bit = 1) →
  param_tid (Z.lor (u16 (Z.lor (Z.lor (Z.shiftl tid 2) (u32 (Z.shiftl win 6))) 2)) bit) = tid.
Proof.
  intros Ht Hw Hb. unfold param_tid, BLOCKACKPARAM_TID_MASK, BLOCKACKPARAM_TID_POS. apply Z.bits_inj'. intros n Hn.
  rewrite Z.shiftr_spec, Z.land_spec, Z.lor_spec by lia.
  destruct (decide (n < 4)) as [Hs|Hs].
  - unfold u_wrap. rewrite (Z.mod_pow2_bits_low _ 16) by lia. rewrite !Z.lor_spec, Z.shiftl_spec by lia.
    rewrite (Z.mod_pow2_bits_low _ 32) by lia. rewrite (Z.shiftl_spec_low win) by lia.
    replace (n + 2 - 2) with n by lia.
    assert (n = 0 ∨ n = 1 ∨ n = 2 ∨ n = 3) as Hn4 by lia.
    destruct_or! Hn4; subst n; destruct Hb as [-> | ->]; cbn; by rewrite ?orb_false_r, ?andb_true_r.
  - assert (Z.testbit 0x3C (n + 2) = false) as ->.
    { apply Z.bits_above_log2; [lia|]. change (Z.log2 0x3C) with 5. lia. }
    rewrite andb_false_r. symmetry. destruct (decide (tid = 0)) as [->|]; [apply Z.bits_0|].
    apply Z.bits_above_log2; [lia|]. assert (Z.log2 tid < 4); [apply Z.log2_lt_pow2|]; lia.
Qed.

Lemma delba_params tid init : 0 <= tid < 16 →
  let set := if init : bool then Z.lor (u16 (Z.shiftl tid DELBA_TID_POS)) (Z.shiftl 1 DELBA_INITIATOR_POS)
             else Z.land (u16 (Z.shiftl tid DELBA_TID_POS)) (u16 (Z.lnot (Z.shiftl 1 DELBA_INITIATOR_POS))) in
  delba_tid set = tid ∧ delba_initiator set = init.
Proof.
  intros Ht. assert (∀ t, 0 <= t < 16 → let l := Z.lor (u16 (Z.shiftl t DELBA_TID_POS)) (Z.shiftl 1 DELBA_INITIATOR_POS) in
    let a := Z.land (u16 (Z.shiftl t DELBA_TID_POS)) (u16 (Z.lnot (Z.shiftl 1 DELBA_INITIATOR_POS))) in
    delba_tid l = t ∧ delba_initiator l = true ∧ delba_tid a = t ∧ delba_initiator a = false) as H.
  { intros t Htt. assert (t ∈ seqZ 0 16) as Hin by (apply elem_of_seqZ; lia). clear Htt. revert t Hin. apply Forall_forall.
    repeat constructor. }
  specialize (H tid Ht). cbv zeta in *. destruct init; tauto.
Qed.

(** ** What the operations do *)

Lemma issue_fields c b : let b' := (issue c b).1 in
  wmm b' = wmm b ∧ streams b' = streams b ∧ aggr_prio_tbl b' = aggr_prio_tbl b ∧ add_ba_param b' = add_ba_param b ∧
  ampdu_sta b' = ampdu_sta b.
Proof. unfold issue. destruct (prep b) as [|[] l]; done. Qed.
Lemma eff_issue c b : ba_ok b → cmd_ok c → eff 0 b (issue c b).1 [c].
Proof.
  intros [] Hc. destruct (issue_fields c b) as (_ & E1 & E2 & _ & E3). constructor; [by constructor; rewrite ?E1, ?E2, ?E3| | |].
  - unfold issue. destruct (prep b) as [|[] l]; [exists [c], []|exists [c], []|exists [], [c]]; cbn; by rewrite ?app_nil_r.
  - by apply Forall_singleton.
  - unfold waiting. rewrite E1. lia.
Qed.
Lemma waiting_streams b b' : streams b' = streams b → waiting b' = waiting b.
Proof. unfold waiting. by intros ->. Qed.

Lemma aggr_at tid b : ba_ok b → 0 <= tid < 8 → ∃ g, aggr_prio_tbl b !! Z.to_nat tid = Some g.
Proof. intros Hok Ht. apply lookup_lt_is_Some_2. rewrite (bk_aggr _ Hok). lia. Qed.

Lemma eff_send_addba tid peer b : ba_ok b → 0 <= tid < 8 → 0 <= tx_win_size (add_ba_param b) →
  ∃ b' set tmo tok, send_addba tid peer b = Some b' ∧ streams b' = streams b ∧ add_ba_param b' = add_ba_param b ∧
    param_tid set = tid ∧ eff 0 b b' [CmdAddba set tmo tok peer].
Proof.
  intros Hok Ht Hw. unfold send_addba, wlan_send_addba.
  set (set0 := u16 (Z.lor (Z.lor _ _) 2)).
  assert (∃ s, (if tx_amsdu (add_ba_param b)
     then g ← aggr_prio_tbl b !! Z.to_nat tid; Some (if amsdu_allowed g then Z.lor set0 BLOCKACKPARAM_AMSDU_SUPP_MASK else set0)
     else Some set0) = Some s ∧ param_tid s = tid) as (s & -> & Hs).
  { assert (∀ bit, bit = 0 ∨ bit = 1 → param_tid (Z.lor set0 bit) = tid) as H by (intros bit; apply addba_tid; lia).
    pose proof (H 0 ltac:(auto)) as H0. rewrite Z.lor_0_r in H0. specialize (H 1 ltac:(auto)).
    destruct (tx_amsdu _); [|by eauto]. destruct (aggr_at tid b Hok Ht) as [g ->]. cbn. destruct (amsdu_allowed g); eauto. }
  cbn [mbind option_bind fmap option_fmap option_map]. do 4 eexists. split; [reflexivity|].
  set (tok := if _ =? 0 then 1 else _). set (c := CmdAddba _ _ _ _).
  destruct (issue_fields c (set_tok tok b)) as (_ & E1 & _ & E2 & _). split; [exact E1|]. split; [exact E2|]. split; [done|].
  assert (eff 0 b (set_tok tok b) []) as H0.
  { destruct Hok. apply eff_streams; try done. unfold waiting. cbn. lia. }
  apply (eff_trans_0 _ _ _ _ H0), eff_issue; [apply H0|cbn; lia].
Qed.

Lemma eff_send_delba tid peer init b : ba_ok b → 0 <= tid < 16 →
  ∃ set, delba_tid set = tid ∧ delba_initiator set = init ∧ streams (send_delba tid peer init b) = streams b ∧
    add_ba_param (send_delba tid peer init b) = add_ba_param b ∧ eff 0 b (send_delba tid peer init b) [CmdDelba set peer].
Proof.
  intros Hok Ht. destruct (delba_params tid init Ht) as [H1 H2].
  unfold send_delba, wlan_send_delba. set (set := if init then _ else _) in *. exists set. split; [exact H1|]. split; [exact H2|].
  destruct (issue_fields (CmdDelba set peer) b) as (_ & E1 & _ & E2 & _). pose proof (eff_issue (CmdDelba set peer) b Hok I) as H.
  destruct (issue (CmdDelba set peer) b) as [b' ret]. done.
Qed.

Lemma get_stream_Some tid ra b e : wlan_11n_get_txbastream_tbl tid ra b = Some e →
  e ∈ streams b ∧ e_ra e = ra ∧ e_tid e = tid.
Proof.
  unfold wlan_11n_get_txbastream_tbl. intros ([i x] & (Hi & [H1 H2] & _)%list_find_Some & ->)%fmap_Some.
  split; [by eapply list_elem_of_lookup_2|done].
Qed.
Lemma get_stream_None tid ra b : wlan_11n_get_txbastream_tbl tid ra b = None → (ra, tid) ∉ stream_key <$> streams b.
Proof.
  unfold wlan_11n_get_txbastream_tbl. rewrite fmap_None, list_find_None, Forall_forall. intros H.
  intros (e & He & Hin)%list_elem_of_fmap. apply (H e Hin). unfold stream_key in He. injection He as -> ->. done.
Qed.

Lemma streams_upd_ralist tid mac f b : streams (upd_ba_ralist tid mac f b) = streams b.
Proof. unfold upd_ba_ralist. by destruct (ba_ralist tid mac b). Qed.
Lemma win_upd_ralist tid mac f b : add_ba_param (upd_ba_ralist tid mac f b) = add_ba_param b.
Proof. unfold upd_ba_ralist. by destruct (ba_ralist tid mac b). Qed.

(** A fresh address. *)
Definition alloc_ok (alloc : option Z) (b : ba_priv) : Prop := ∀ a, alloc = Some a → a ∉ e_addr <$> streams b.

Lemma eff_create ra tid st alloc b : ba_ok b → 0 <= tid < 8 → st ≠ BA_STREAM_NOT_SETUP → alloc_ok alloc b →
  wlan_11n_get_txbastream_tbl tid ra b = None →
  eff (if decide (st = BA_STREAM_SETUP_INPROGRESS) then 1 else 0) b (wlan_11n_create_txbastream_tbl ra tid st alloc b) [].
Proof.
  intros Hok Ht Hst Ha Hno. unfold wlan_11n_create_txbastream_tbl. destruct alloc as [a|].
  2: { case_decide; [|by apply eff_refl]. destruct (eff_refl b Hok). constructor; try done. lia. }
  cbv zeta. pose proof (eff_ralist tid ra (set_ra_ba false st) b Hok) as He. pose proof (streams_upd_ralist tid ra (set_ra_ba false st) b) as Es.
  set (b1 := upd_ba_ralist tid ra (set_ra_ba false st) b) in *.
  apply (eff_trans 0 _ b b1 _ [] [] He). destruct (ef_ok _ _ _ _ He) as [H1 H2 H3 H4 H5].
  apply eff_streams; try done; cbn [set_streams streams]; rewrite ?Es in *.
  - rewrite fmap_app. apply NoDup_app. split; [done|]. split; [|apply NoDup_singleton].
    intros k Hk Hk2%list_elem_of_singleton. subst k. by apply (get_stream_None _ _ _ Hno).
  - rewrite fmap_app. apply NoDup_app. split; [done|]. split; [|apply NoDup_singleton].
    intros k Hk Hk2%list_elem_of_singleton. subst k. by apply (Ha a).
  - intros e [He0|He0]%elem_of_app; [by apply H3|]. apply list_elem_of_singleton in He0 as ->. cbn. split; [done|lia].
  - unfold waiting. cbn. rewrite Es, filter_app, length_app, filter_cons. cbn. case_decide; cbn; lia.
Qed.

Lemma keeps_status st : keeps_key (set_e_status st).
Proof. done. Qed.

Lemma eff_set_status tid ra st b : ba_ok b → st ≠ BA_STREAM_NOT_SETUP → st ≠ BA_STREAM_SETUP_INPROGRESS →
  eff 0 b (wlan_11n_set_txbastream_status tid ra st b) [].
Proof.
  intros Hok H1 H2. unfold wlan_11n_set_txbastream_status.
  destruct (wlan_11n_get_txbastream_tbl tid ra b); [by apply eff_upd_stream|by apply eff_refl].
Qed.

Lemma win_set_status tid ra st b : add_ba_param (wlan_11n_set_txbastream_status tid ra st b) = add_ba_param b.
Proof. unfold wlan_11n_set_txbastream_status. by destruct (wlan_11n_get_txbastream_tbl tid ra b). Qed.

(** The stream to give up: complete, of the lowest priority under [tid]. *)
Definition user_prio (aggr : list tx_aggr_t) (e : tx_stream) : Z :=
  match aggr !! Z.to_nat (e_tid e) with Some g => ampdu_user g | None => 0 end.

Lemma find_lower_spec aggr l : ∀ tid best, (∀ e, e ∈ l → is_Some (aggr !! Z.to_nat (e_tid e))) →
  ∃ o, find_lower aggr l tid best = Some o ∧
    (o = best ∧ (∀ e, e ∈ l → e_status e = BA_STREAM_SETUP_COMPLETE → tid <= user_prio aggr e) ∨
     ∃ v, o = Some v ∧ v ∈ l ∧ e_status v = BA_STREAM_SETUP_COMPLETE ∧ user_prio aggr v < tid ∧
       ∀ e, e ∈ l → e_status e = BA_STREAM_SETUP_COMPLETE → user_prio aggr v <= user_prio aggr e).
Proof.
  induction l as [|e l IH]; intros tid best Hl; cbn [find_lower].
  { exists best. split; [done|]. left. split; [done|]. by intros e ?%elem_of_nil. }
  assert (∀ e', e' ∈ l → is_Some (aggr !! Z.to_nat (e_tid e'))) as Hl' by (intros e' He'; apply Hl; by right).
  case_decide as Hc.
  - destruct (Hl e) as [g Hg]; [left|]. assert (user_prio aggr e = ampdu_user g) as Hu by (unfold user_prio; by rewrite Hg).
    rewrite Hg. cbn [mbind option_bind]. destruct (ampdu_user g <? tid) eqn:E.
    + destruct (IH (ampdu_user g) (Some e) Hl') as (o & -> & [[-> Hno]|(v & -> & Hv & Hvc & Hlt & Hmin)]).
      * exists (Some e). split; [done|]. right. exists e. split; [done|]. split; [left|]. split; [done|]. split; [lia|].
        intros e' [->|He']%elem_of_cons Hc'; [lia|]. rewrite Hu. by apply Hno.
      * exists (Some v). split; [done|]. right. exists v. split; [done|]. split; [by right|]. split; [done|]. split; [lia|].
        intros e' [->|He']%elem_of_cons Hc'; [lia|by apply Hmin].
    + destruct (IH tid best Hl') as (o & -> & [[-> Hno]|(v & -> & Hv & Hvc & Hlt & Hmin)]).
      * exists best. split; [done|]. left. split; [done|]. intros e' [->|He']%elem_of_cons Hc'; [lia|by apply Hno].
      * exists (Some v). split; [done|]. right. exists v. split; [done|]. split; [by right|]. split; [done|]. split; [done|].
        intros e' [->|He']%elem_of_cons Hc'; [lia|by apply Hmin].
  - destruct (IH tid best Hl') as (o & -> & [[-> Hno]|(v & -> & Hv & Hvc & Hlt & Hmin)]).
    + exists best. split; [done|]. left. split; [done|]. intros e' [->|He']%elem_of_cons Hc'; [done|by apply Hno].
    + exists (Some v). split; [done|]. right. exists v. split; [done|]. split; [by right|]. split; [done|]. split; [done|].
      intros e' [->|He']%elem_of_cons Hc'; [done|by apply Hmin].
Qed.

Lemma find_stream_facts tid b : ba_ok b → 0 <= tid < 8 →
  ∃ o, wlan_find_stream_to_delete tid b = Some o ∧ ∀ v, o = Some v → v ∈ streams b.
Proof.
  intros Hok Ht. unfold wlan_find_stream_to_delete. destruct (aggr_at tid b Hok Ht) as [g Hg].
  assert (∀ e, e ∈ streams b → is_Some (aggr_prio_tbl b !! Z.to_nat (e_tid e))) as Hall.
  { intros e He. destruct (aggr_at (e_tid e) b Hok) as [? ->]; [by apply (bk_entry _ Hok)|by eexists]. }
  destruct (streams b) as [|e l] eqn:E; [by exists None|]. rewrite Hg. cbn [mbind option_bind].
  destruct (find_lower_spec (aggr_prio_tbl b) (e :: l) (ampdu_user g) None Hall) as (o & -> & Ho). exists o. split; [done|].
  intros v ->. destruct Ho as [[Hv _]|(v' & Hv' & Hin & _)]; [done|]. by injection Hv' as ->.
Qed.

(** ** The operations as an interleaving *)

Lemma setup_eff tid mac avail alloc b : ba_ok b → 0 <= tid < 8 → 0 <= tx_win_size (add_ba_param b) → alloc_ok alloc b →
  ∃ b' new, setup_stream tid mac avail alloc b = Some b' ∧ eff (own_delbas new) b b' new.
Proof.
  intros Hok Ht Hw Ha. unfold setup_stream.
  destruct avail; [|destruct (find_stream_facts tid b Hok Ht) as (v & -> & Hv); cbn [mbind option_bind]; destruct v as [v|];
    [|exists b, []; split; [done|by apply eff_refl]]]; destruct (wlan_11n_get_txbastream_tbl tid mac b) eqn:E;
    try (exists b, []; split; [done|by apply eff_refl]).
  - pose proof (eff_create mac tid BA_STREAM_SETUP_SENT_ADDBA alloc b Hok Ht ltac:(done) Ha E) as H1. rewrite decide_False in H1 by done.
    set (b1 := wlan_11n_create_txbastream_tbl _ _ _ _ b) in *.
    assert (add_ba_param b1 = add_ba_param b) as Hp.
    { subst b1. unfold wlan_11n_create_txbastream_tbl. destruct alloc; [|done]. apply win_upd_ralist. }
    destruct (eff_send_addba tid mac b1) as (b2 & set & tmo & tok & -> & _ & _ & _ & H2); [apply H1|done|by rewrite Hp|].
    exists b2, [CmdAddba set tmo tok mac]. split; [done|]. apply (eff_trans_0 _ _ _ _ H1 H2).
  - pose proof (eff_create mac tid BA_STREAM_SETUP_INPROGRESS alloc b Hok Ht ltac:(done) Ha E) as H1. rewrite decide_True in H1 by done.
    set (b1 := wlan_11n_create_txbastream_tbl _ _ _ _ b) in *.
    pose proof (eff_set_status (e_tid v) (e_ra v) BA_STREAM_SENT_DELBA b1 (ef_ok _ _ _ _ H1) ltac:(done) ltac:(done)) as H2.
    assert (0 <= e_tid v < 8) as Hvt by (apply (bk_entry _ Hok), Hv; done).
    destruct (eff_send_delba (e_tid v) (e_ra v) true _ (ef_ok _ _ _ _ H2)) as (set & _ & Hi & _ & _ & H3); [lia|].
    eexists _, [CmdDelba set (e_ra v)]. split; [reflexivity|].
    pose proof (eff_trans _ _ _ _ _ _ _ (eff_trans _ _ _ _ _ _ _ H1 H2) H3) as H. 
    unfold own_delbas. rewrite filter_cons, decide_True by done. exact H.
Qed.

Lemma win_delete a b : add_ba_param (wlan_11n_delete_txbastream_tbl_entry a b) = add_ba_param b.
Proof. unfold wlan_11n_delete_txbastream_tbl_entry. by destruct (wlan_is_txbastreamptr_valid a b). Qed.

Lemma delete_tx_eff tid mac received reason threshold b : ba_ok b →
  ∃ b', delete_tx_stream tid (MacOf mac) received reason threshold b = Some b' ∧ eff 0 b b' [] ∧ add_ba_param b' = add_ba_param b.
Proof.
  intros Hok. unfold delete_tx_stream. cbn [read_mac mbind option_bind].
  destruct (wlan_11n_get_txbastream_tbl tid mac b) as [e|]; [|exists b; split; [done|]; split; [by apply eff_refl|done]].
  eexists. split; [reflexivity|]. pose proof (eff_delete (e_addr e) b Hok) as H1. split.
  - apply (eff_trans_0 _ _ _ _ H1). apply eff_ralist, (ef_ok _ _ _ _ H1).
  - by rewrite win_upd_ralist, win_delete.
Qed.

(** [pend]: the commands given to the command queue and not answered yet. *)
Record ba_state := mk_bs { bp : ba_priv; pend : list ba_cmd }.
(** The commands an operation adds go to the queue. *)
Definition run (rest : list ba_cmd) (b : ba_priv) (o : option ba_priv) : option ba_state :=
  b' ← o; Some (mk_bs b' (rest ++ drop (length (cmds b)) (cmds b'))).

(** [wlan_11n_ba_stream_timeout], where the stream is the initiator's or not. *)
Definition ba_stream_timeout (tid : Z) (peer : list Z) (originator : bool) (b : ba_priv) : ba_priv :=
  if originator && negb (bool_decide (is_Some (wlan_11n_get_txbastream_tbl tid peer b))) then b
  else send_delba tid peer originator b.

Inductive ba_op :=
| Setup (tid : Z) (mac : list Z) (avail : bool) (alloc : option Z)
| PeerDelba (set reason : Z) (peer : list Z) (threshold : Z)
| Cleanup (ra : list Z)
| DeleteAll
| Readdba
| DelbaPeer (ra : list Z)
| DelbaTid (tid : Z)
| BaTimeout (tid : Z) (peer : list Z) (originator : bool)
| AnsDelba (i : nat) (ok : bool) (threshold : Z)
| AnsAddba (i : nat) (set status result threshold : Z).

Definition ba_do (op : ba_op) (s : ba_state) : option ba_state :=
  let b := bp s in
  match op with
  | Setup tid mac avail alloc => run (pend s) b (setup_stream tid mac avail alloc b)
  | PeerDelba set reason peer threshold => run (pend s) b (wlan_11n_delete_bastream set reason peer threshold b)
  | Cleanup ra => run (pend s) b (Some (wlan_11n_cleanup_txbastream_tbl ra b))
  | DeleteAll => run (pend s) b (Some (wlan_11n_deleteall_txbastream_tbl b))
  | Readdba => run (pend s) b (wlan_11n_update_addba_request b)
  | DelbaPeer ra => run (pend s) b (Some (wlan_11n_send_delba_to_peer ra b))
  | DelbaTid tid => run (pend s) b (Some (wlan_send_delba_txbastream_tbl tid b))
  | BaTimeout tid peer orig => run (pend s) b (Some (ba_stream_timeout tid peer orig b))
  | AnsDelba i ok threshold =>
      match pend s !! i with
      | Some (CmdDelba set peer) => run (delete i (pend s)) b (wlan_ret_11n_delba set ok peer threshold b)
      | _ => None
      end
  | AnsAddba i set status result threshold =>
      match pend s !! i with
      | Some (CmdAddba _ _ _ peer) => run (delete i (pend s)) b (wlan_ret_11n_addba_req set status result peer threshold b)
      | _ => None
      end
  end.

(** An operation during which [wlan_prepare_cmd] answers as [l] says. *)
Definition with_prep (l : list bool) (s : ba_state) : ba_state := mk_bs (set_prep l (bp s)) (pend s).
Definition ba_exec (l : list bool) (op : ba_op) (s : ba_state) : option ba_state := ba_do op (with_prep l s).

(** An answer belongs to its command; an ADDBA response names the command's TID. *)
Definition ba_op_ok (op : ba_op) (s : ba_state) : Prop :=
  match op with
  | Setup tid _ _ alloc => 0 <= tid < 8 ∧ alloc_ok alloc (bp s)
  | BaTimeout tid _ _ => 0 <= tid < 16
  | AnsDelba i _ _ => ∃ set peer, pend s !! i = Some (CmdDelba set peer)
  | AnsAddba i set _ _ _ => ∃ set0 tmo tok peer, pend s !! i = Some (CmdAddba set0 tmo tok peer) ∧ param_tid set = param_tid set0
  | _ => True
  end.

Record ba_inv (s : ba_state) : Prop := {
  bi_ok : ba_ok (bp s);
  bi_win : 0 <= tx_win_size (add_ba_param (bp s));
  bi_pend : Forall cmd_ok (pend s);
  bi_wait : (waiting (bp s) <= own_delbas (pend s) + own_delbas (refused (bp s)))%nat
}.
Inductive ba_reach : ba_state → Prop :=
| ba_start b : ba_ok b → 0 <= tx_win_size (add_ba_param b) → streams b = [] → cmds b = [] → refused b = [] →
    ba_reach (mk_bs b [])
| ba_next l op s s' : ba_reach s → ba_op_ok op s → ba_exec l op s = Some s' → ba_reach s'.

Lemma own_delbas_app l1 l2 : own_delbas (l1 ++ l2) = (own_delbas l1 + own_delbas l2)%nat.
Proof. unfold own_delbas. by rewrite filter_app, length_app. Qed.
Lemma own_delbas_delete i l c : l !! i = Some c →
  own_delbas l = (own_delbas (delete i l) + if decide (is_own_delba c) then 1 else 0)%nat.
Proof.
  intros Hi. assert (own_delbas l = own_delbas (c :: delete i l)) as ->.
  { unfold own_delbas. apply Permutation_length. f_equiv. by apply delete_Permutation. }
  unfold own_delbas. rewrite filter_cons. case_decide; cbn; lia.
Qed.

(** A step that leaves the streams that wait for a DELBA accounted for. *)
Lemma ba_run_inv k rest b o new s : bp s = b → ba_inv s → Forall cmd_ok rest →
  (∃ b', o = Some b' ∧ eff k b b' new ∧ add_ba_param b' = add_ba_param b ∧
     (waiting b' <= own_delbas rest + own_delbas (refused b) + own_delbas new)%nat) →
  ∃ s', run rest b o = Some s' ∧ ba_inv s'.
Proof.
  intros <- Hi Hrest (b' & -> & [H1 (acc & bad & H2 & H5 & Hp) H3 H4] & Hw & Hwait). eexists. split; [reflexivity|].
  rewrite <- Hp in H3. apply Forall_app in H3 as [H3 _].
  assert (own_delbas new = own_delbas acc + own_delbas bad)%nat as Hn.
  { rewrite <- own_delbas_app. unfold own_delbas. by rewrite Hp. }
  rewrite H2, drop_app_length. constructor; cbn [bp pend]; [done|rewrite Hw; apply Hi|by apply Forall_app|].
  rewrite H5, !own_delbas_app. lia.
Qed.
Lemma ba_run_inv_0 b o new s : bp s = b → ba_inv s →
  (∃ b', o = Some b' ∧ eff 0 b b' new ∧ add_ba_param b' = add_ba_param b) →
  ∃ s', run (pend s) b o = Some s' ∧ ba_inv s'.
Proof.
  intros E Hi (b' & -> & He & Hp). eapply ba_run_inv; [done|done|apply Hi|]. exists b'. split; [done|]. split; [exact He|].
  split; [done|]. pose proof (ef_wait _ _ _ _ He). pose proof (bi_wait _ Hi). subst b. lia.
Qed.

Lemma filter_map_lt {A} (P : A → Prop) `{∀ x, Decision (P x)} (f : A → A) (l : list A) x : (∀ y, P (f y) → P y) →
  x ∈ l → P x → ¬ P (f x) → (length (filter P (f <$> l)) < length (filter P l))%nat.
Proof.
  intros Hf Hx Hp Hn. induction l as [|y l IH]; [by apply elem_of_nil in Hx|].
  cbn [fmap list_fmap]. rewrite !filter_cons. apply elem_of_cons in Hx as [->|Hx].
  - rewrite decide_False, decide_True by done. cbn. pose proof (filter_map_le P f l Hf). lia.
  - specialize (IH Hx). destruct (decide (P (f y))) as [Hy|Hy]; destruct (decide (P y)) as [Hz|Hz]; cbn; [lia|by apply Hf in Hy|lia|lia].
Qed.

(** The first stream that waits, if any does. *)
Lemma get_status_waiting b : match wlan_11n_get_txbastream_status BA_STREAM_SETUP_INPROGRESS b with
  | None => waiting b = 0%nat
  | Some e => e ∈ streams b ∧ e_status e = BA_STREAM_SETUP_INPROGRESS ∧
      (waiting (upd_stream (e_addr e) (set_e_status BA_STREAM_SETUP_SENT_ADDBA) b) < waiting b)%nat
  end.
Proof.
  unfold wlan_11n_get_txbastream_status. destruct (list_find _ (streams b)) as [[i e]|] eqn:E; cbn.
  - apply list_find_Some in E as (Hi & Hs & _). apply list_elem_of_lookup_2 in Hi. do 2 (split; [done|]).
    unfold waiting. cbn. apply (filter_map_lt _ _ _ e); [|done|done|by rewrite decide_True].
    intros y. case_decide; [|done]. by cbn.
  - apply list_find_None in E. unfold waiting. rewrite Forall_forall in E.
    destruct (filter _ (streams b)) as [|x l] eqn:Ef; [done|]. exfalso.
    assert (x ∈ filter (λ e, e_status e = BA_STREAM_SETUP_INPROGRESS) (streams b)) as Hx by (rewrite Ef; left).
    apply list_elem_of_filter in Hx as [Hx Hin]. by apply (E x).
Qed.

(** ** Every step *)

Lemma readdba_eff l : ∀ b, ba_ok b → 0 <= tx_win_size (add_ba_param b) → (∀ e, e ∈ l → 0 <= e_tid e < 8) →
  ∃ b' new, foldl readdba (Some b) l = Some b' ∧ eff 0 b b' new ∧ add_ba_param b' = add_ba_param b.
Proof.
  induction l as [|e l IH]; intros b Hok Hw Ht; [exists b, []; split; [done|]; split; [by apply eff_refl|done]|].
  cbn [foldl]. unfold readdba at 2. cbn [mbind option_bind].
  pose proof (eff_upd_stream (e_addr e) (set_e_status BA_STREAM_SETUP_SENT_ADDBA) b Hok (keeps_status _) ltac:(done)) as H1.
  destruct (eff_send_addba (e_tid e) (e_ra e) _ (ef_ok _ _ _ _ H1)) as (b2 & set & tmo & tok & -> & _ & E2 & _ & H2); [apply Ht; left|done|].
  pose proof (eff_trans_0 _ _ _ _ H1 H2) as H.
  destruct (IH b2) as (b' & new & -> & H3 & Hp); [apply H2|by rewrite E2|intros; apply Ht; by right|].
  exists b', ([CmdAddba set tmo tok (e_ra e)] ++ new). split; [done|].
  split; [apply (eff_trans 0 0 _ _ _ _ _ H H3)|]. by rewrite Hp, E2.
Qed.

Lemma redelba_eff l : ∀ b, ba_ok b → (∀ e, e ∈ l → 0 <= e_tid e < 8) →
  ∃ new, eff 0 b (foldl redelba b l) new ∧ add_ba_param (foldl redelba b l) = add_ba_param b.
Proof.
  induction l as [|e l IH]; intros b Hok Ht; [exists []; split; [by apply eff_refl|done]|]. cbn [foldl]. unfold redelba at 2 4.
  pose proof (eff_upd_stream (e_addr e) (set_e_status BA_STREAM_SENT_DELBA) b Hok (keeps_status _) ltac:(done)) as H1.
  assert (0 <= e_tid e < 8) as Hte by (apply Ht; left).
  destruct (eff_send_delba (e_tid e) (e_ra e) true _ (ef_ok _ _ _ _ H1)) as (set & _ & _ & _ & P2 & H2); [lia|].
  pose proof (eff_trans_0 _ _ _ _ H1 H2) as H.
  destruct (IH _ (ef_ok _ _ _ _ H)) as (new & H3 & Hp); [intros; apply Ht; by right|].
  eexists. split; [apply (eff_trans 0 0 _ _ _ _ _ H H3)|]. by rewrite Hp, P2.
Qed.

Lemma cleanup_eff ra b : ba_ok b → eff 0 b (wlan_11n_cleanup_txbastream_tbl ra b) [] ∧
  add_ba_param (wlan_11n_cleanup_txbastream_tbl ra b) = add_ba_param b.
Proof.
  unfold wlan_11n_cleanup_txbastream_tbl. revert b. induction all_tids as [|i l IH]; intros b Hok; [by split; [apply eff_refl|]|].
  cbn [foldl]. destruct (wlan_11n_get_txbastream_tbl (Z.of_nat i) ra b) as [e|]; [|by apply IH].
  pose proof (eff_delete (e_addr e) b Hok) as H1. destruct (IH _ (ef_ok _ _ _ _ H1)) as [H2 Hp].
  split; [apply (eff_trans_0 _ _ _ _ H1 H2)|by rewrite Hp, win_delete].
Qed.

Lemma deleteall_eff b : ba_ok b → eff 0 b (wlan_11n_deleteall_txbastream_tbl b) [].
Proof.
  intros [H1 H2 H3 H4 H5]. apply eff_streams; try done; cbn; [by rewrite length_fmap|constructor|constructor| |unfold waiting; cbn; lia].
  by intros e ?%elem_of_nil.
Qed.

Lemma win_send_addba tid peer b b' : send_addba tid peer b = Some b' → add_ba_param b' = add_ba_param b.
Proof.
  unfold send_addba, wlan_send_addba. intros (r & (x & _ & H)%bind_Some & ->)%fmap_Some.
  apply (inj Some) in H. subst r. exact (proj1 (proj2 (proj2 (proj2 (issue_fields _ (set_tok _ b)))))).
Qed.
Lemma win_send_delba tid peer init b : add_ba_param (send_delba tid peer init b) = add_ba_param b.
Proof.
  unfold send_delba, wlan_send_delba. set (c := CmdDelba _ _). destruct (issue_fields c b) as (_ & _ & _ & E & _).
  by destruct (issue c b).
Qed.

Lemma setup_win tid mac avail alloc b b' : setup_stream tid mac avail alloc b = Some b' → add_ba_param b' = add_ba_param b.
Proof.
  assert (∀ st, add_ba_param (wlan_11n_create_txbastream_tbl mac tid st alloc b) = add_ba_param b) as Hc.
  { intros st. unfold wlan_11n_create_txbastream_tbl. destruct alloc; [|done]. apply win_upd_ralist. }
  unfold setup_stream. destruct avail.
  - destruct (wlan_11n_get_txbastream_tbl tid mac b); [by intros [= <-]|].
    intros ->%win_send_addba. apply Hc.
  - intros (v & _ & H)%bind_Some. destruct v as [v|]; [|by injection H as <-].
    destruct (wlan_11n_get_txbastream_tbl tid mac b); injection H as <-; [done|]. by rewrite win_send_delba, win_set_status, Hc.
Qed.

Lemma key_inj b e e' : ba_ok b → e ∈ streams b → e' ∈ streams b → stream_key e = stream_key e' → e = e'.
Proof.
  intros Hok [i Hi]%list_elem_of_lookup [j Hj]%list_elem_of_lookup Hk.
  assert (i = j) as ->; [|congruence]. apply (NoDup_lookup _ _ _ (stream_key e) (bk_keys _ Hok)).
  - by rewrite list_lookup_fmap, Hi.
  - rewrite list_lookup_fmap, Hj. cbn. by rewrite Hk.
Qed.

(** Deleting a stream by the address in its own entry reads the entry after it was
    freed. *)
Lemma delete_own_entry b e received reason threshold : ba_ok b → e ∈ streams b →
  delete_tx_stream (e_tid e) (RaOf (e_addr e)) received reason threshold b = None.
Proof.
  intros Hok He. unfold delete_tx_stream. destruct (read_mac (RaOf (e_addr e)) b) as [mac|] eqn:Em; [|done]. cbn [mbind option_bind].
  assert (mac = e_ra e) as ->.
  { cbn in Em. apply fmap_Some in Em as ([i x] & (Hi & Ha & _)%list_find_Some & ->). cbn in *.
    apply list_elem_of_lookup in He as [j Hj]. assert (i = j) as ->; [|congruence].
    apply (NoDup_lookup _ _ _ (e_addr e) (bk_addrs _ Hok)); rewrite list_lookup_fmap; [rewrite Hi; cbn; by rewrite Ha|by rewrite Hj]. }
  destruct (wlan_11n_get_txbastream_tbl (e_tid e) (e_ra e) b) as [e'|] eqn:Eg.
  - apply get_stream_Some in Eg as (Hin & H1 & H2).
    assert (e' = e) as -> by (apply (key_inj b); [done|done|done|]; unfold stream_key; by rewrite H1, H2).
    assert (read_mac (RaOf (e_addr e)) (wlan_11n_delete_txbastream_tbl_entry (e_addr e) b) = None) as ->; [|done].
    cbn. unfold wlan_11n_delete_txbastream_tbl_entry, wlan_is_txbastreamptr_valid.
    rewrite bool_decide_true by by apply list_elem_of_fmap_2. cbn. rewrite fmap_None. apply list_find_None, Forall_forall.
    by intros x [Hx _]%list_elem_of_filter.
  - exfalso. apply get_stream_None in Eg. apply Eg. by apply (list_elem_of_fmap_2 stream_key _ e).
Qed.

(** The answer to a DELBA: the first stream that waits goes on, unless the answer
    is a failure. *)
Definition freed_read (op : ba_op) (s : ba_state) : Prop :=
  ∃ i threshold set peer, op = AnsDelba i false threshold ∧ pend s !! i = Some (CmdDelba set peer) ∧ delba_initiator set = true ∧
    waiting (wlan_11n_set_txbastream_status (delba_tid set) peer BA_STREAM_SETUP_COMPLETE (bp s)) ≠ 0%nat.

Lemma ret_delba_ok set peer threshold b : ba_ok b → 0 <= tx_win_size (add_ba_param b) →
  ∃ b' new, wlan_ret_11n_delba set true peer threshold b = Some b' ∧ eff 0 b b' new ∧ add_ba_param b' = add_ba_param b ∧
    (waiting b' <= pred (waiting b))%nat.
Proof.
  intros Hok Hw. unfold wlan_ret_11n_delba.
  assert (∃ b1, (if delba_initiator set then delete_tx_stream (delba_tid set) (MacOf peer) false 0 threshold b else Some b) = Some b1 ∧
    eff 0 b b1 [] ∧ add_ba_param b1 = add_ba_param b) as (b1 & -> & H1 & Hp1).
  { destruct (delba_initiator set); [by apply delete_tx_eff|]. exists b. split; [done|]. split; [by apply eff_refl|done]. }
  cbn [mbind option_bind]. pose proof (get_status_waiting b1) as Hs. pose proof (ef_wait _ _ _ _ H1) as Hle.
  destruct (wlan_11n_get_txbastream_status _ b1) as [e|].
  - destruct Hs as (Hin & Hst & Hlt).
    pose proof (eff_upd_stream (e_addr e) (set_e_status BA_STREAM_SETUP_SENT_ADDBA) b1 (ef_ok _ _ _ _ H1) (keeps_status _) ltac:(done)) as H2.
    destruct (eff_send_addba (e_tid e) (e_ra e) _ (ef_ok _ _ _ _ H2)) as (b2 & st & tmo & tok & -> & E1 & E2 & _ & H3);
      [by apply (bk_entry _ (ef_ok _ _ _ _ H1))|cbn; by rewrite Hp1|].
    exists b2, [CmdAddba st tmo tok (e_ra e)]. split; [done|].
    split; [apply (eff_trans_0 _ _ _ _ H1), (eff_trans_0 _ _ _ _ H2 H3)|]. split; [by rewrite E2|].
    rewrite (waiting_streams _ _ E1). lia.
  - exists b1, []. split; [done|]. split; [done|]. split; [done|]. lia.
Qed.

Lemma ret_delba_fail set peer threshold b : ba_ok b →
  (∃ b', wlan_ret_11n_delba set false peer threshold b = Some b' ∧ eff 0 b b' [] ∧ add_ba_param b' = add_ba_param b ∧
     (delba_initiator set = true → waiting b' = 0%nat)) ∨
  (wlan_ret_11n_delba set false peer threshold b = None ∧ delba_initiator set = true ∧
     waiting (wlan_11n_set_txbastream_status (delba_tid set) peer BA_STREAM_SETUP_COMPLETE b) ≠ 0%nat).
Proof.
  intros Hok. unfold wlan_ret_11n_delba. destruct (delba_initiator set).
  - pose proof (eff_set_status (delba_tid set) peer BA_STREAM_SETUP_COMPLETE b Hok ltac:(done) ltac:(done)) as H1.
    set (b1 := wlan_11n_set_txbastream_status _ _ _ b) in *. cbv zeta. pose proof (get_status_waiting b1) as Hs.
    destruct (wlan_11n_get_txbastream_status _ b1) as [e|].
    + right. destruct Hs as (Hin & Hst & Hlt). split; [by apply delete_own_entry; [apply H1|]|]. split; [done|lia].
    + left. exists b1. split; [done|]. split; [done|]. split; [apply win_set_status|done].
  - left. exists b. split; [done|]. split; [by apply eff_refl|]. done.
Qed.

Lemma disable_eff tid mac b : ba_ok b → 0 <= tid < 8 →
  ∃ b', disable_station_ampdu tid mac b = Some b' ∧ eff 0 b b' [] ∧ add_ba_param b' = add_ba_param b.
Proof.
  intros Hok Ht. unfold disable_station_ampdu. destruct (list_find _ (ampdu_sta b)) as [[i s]|] eqn:E.
  - apply list_find_Some in E as (Hi & _). pose proof (bk_sta _ Hok s ltac:(by eapply list_elem_of_lookup_2)) as Hl.
    rewrite decide_True by lia. eexists. split; [reflexivity|]. split; [|done]. destruct Hok as [H1 H2 H3 H4 H5].
    apply eff_streams; try done; cbn; [|unfold waiting; cbn; lia]. intros x [j Hj]%list_elem_of_lookup.
    destruct (decide (i = j)) as [->|].
    + rewrite list_lookup_insert_eq in Hj by by eapply lookup_lt_Some. injection Hj as <-. cbn. unfold zset. by rewrite length_insert.
    + rewrite list_lookup_insert_ne in Hj by done. apply H5. by eapply list_elem_of_lookup_2.
  - exists b. split; [done|]. split; [by apply eff_refl|done].
Qed.

Lemma set_ap_eff f tid b : ba_ok b → eff 0 b (set_aggr (alter f tid (aggr_prio_tbl b)) b) [].
Proof. intros [H1 H2 H3 H4 H5]. apply eff_streams; try done; cbn; [by rewrite length_alter|unfold waiting; cbn; lia]. Qed.

Lemma ret_addba_eff set status result peer threshold b : ba_ok b → 0 <= param_tid set < 8 →
  ∃ b', wlan_ret_11n_addba_req set status result peer threshold b = Some b' ∧ eff 0 b b' [] ∧ add_ba_param b' = add_ba_param b.
Proof.
  intros Hok Ht. unfold wlan_ret_11n_addba_req. destruct (status =? BA_RESULT_SUCCESS).
  - destruct (wlan_11n_get_txbastream_tbl _ _ b) as [e|]; [|exists b; split; [done|]; split; [by apply eff_refl|done]].
    destruct (aggr_at _ b Hok Ht) as [g Hg]. rewrite Hg.
    assert (∃ a, (if negb (Z.land set BLOCKACKPARAM_AMSDU_SUPP_MASK =? 0) && tx_amsdu (add_ba_param b)
      then amsdu_allowed <$> Some g else Some false) = Some a) as [a ->] by (destruct (_ && _); by eexists).
    cbn [mbind option_bind]. eexists. split; [reflexivity|]. split; [|by rewrite win_upd_ralist].
    pose proof (eff_upd_stream (e_addr e) (λ e, set_e_amsdu a (set_e_status BA_STREAM_SETUP_COMPLETE e)) b Hok ltac:(done) ltac:(done)) as H1.
    apply (eff_trans_0 _ _ _ _ H1). apply eff_ralist, (ef_ok _ _ _ _ H1).
  - pose proof (eff_ralist (param_tid set) peer (set_ra_ba false BA_STREAM_NOT_SETUP) b Hok) as H1. cbv zeta.
    pose proof (win_upd_ralist (param_tid set) peer (set_ra_ba false BA_STREAM_NOT_SETUP) b) as P1.
    set (b1 := upd_ba_ralist _ _ _ b) in *.
    destruct (delete_tx_eff (param_tid set) peer false 0 threshold b1 (ef_ok _ _ _ _ H1)) as (b2 & -> & H2 & P2). cbn [mbind option_bind].
    pose proof (eff_trans_0 _ _ _ _ H1 H2) as H12. destruct (negb (result =? BA_RESULT_TIMEOUT)).
    2: { eexists. split; [reflexivity|]. split; [|rewrite win_upd_ralist; congruence].
         apply (eff_trans_0 _ _ _ _ H12). apply eff_ralist, (ef_ok _ _ _ _ H12). }
    assert (∀ (c : bool) b0, ba_ok b0 → ∃ b3, (if c then disable_station_ampdu (param_tid set) peer b0 else Some b0) = Some b3 ∧
      eff 0 b0 b3 [] ∧ add_ba_param b3 = add_ba_param b0) as Hd.
    { intros [] b0 Hb0; [by apply disable_eff|]. exists b0. split; [done|]. split; [by apply eff_refl|done]. }
    destruct (Hd (bool_decide (bss_role (wmm b2) = MLAN_BSS_ROLE_UAP)) b2 (ef_ok _ _ _ _ H12)) as (b3 & -> & H3 & P3). cbn [mbind option_bind].
    pose proof (eff_trans_0 _ _ _ _ H12 H3) as H13.
    assert (∃ b4, match ba_ralist (param_tid set) peer b with
      | Some r => if is_tdls_link r then disable_station_ampdu (param_tid set) peer b3 else Some b3
      | None => Some b3 end = Some b4 ∧ eff 0 b3 b4 [] ∧ add_ba_param b4 = add_ba_param b3) as (b4 & -> & H4 & P4).
    { destruct (ba_ralist _ _ b) as [r|]; [apply (Hd (is_tdls_link r)), H13|apply (Hd false), H13]. }
    pose proof (eff_trans_0 _ _ _ _ H13 H4) as H14. cbn [mbind option_bind].
    destruct (aggr_at _ b4 (ef_ok _ _ _ _ H14) Ht) as [g ->]. cbn [mbind option_bind]. eexists. split; [reflexivity|].
    split; [|cbn; congruence]. apply (eff_trans_0 _ _ _ _ H14). apply set_ap_eff, (ef_ok _ _ _ _ H14).
Qed.

Lemma upd_streams_param a f b : add_ba_param (upd_stream a f b) = add_ba_param b.
Proof. done. Qed.

Lemma ba_step op s : ba_inv s → ba_op_ok op s →
  (∃ s', ba_do op s = Some s' ∧ ba_inv s') ∨ (ba_do op s = None ∧ freed_read op s).
Proof.
  intros Hi Hop. pose proof (bi_ok _ Hi) as Hok. pose proof (bi_win _ Hi) as Hw.
  destruct op as [tid mac avail alloc|set reason peer threshold|ra| | |ra|tid|tid peer orig|i ok threshold|i set status result threshold];
    cbn [ba_do ba_op_ok] in *.
  1-8: left.
  - destruct Hop as [Ht Ha]. destruct (setup_eff tid mac avail alloc (bp s) Hok Ht Hw Ha) as (b' & new & E & He).
    eapply ba_run_inv; [done|done|apply Hi|]. exists b'. split; [done|]. split; [exact He|]. split; [by eapply setup_win|].
    pose proof (ef_wait _ _ _ _ He). pose proof (bi_wait _ Hi). lia.
  - eapply (ba_run_inv_0 _ _ []); [done|done|]. unfold wlan_11n_delete_bastream. destruct (delba_initiator set).
    + eexists. split; [reflexivity|]. split; [by apply eff_refl|done].
    + by apply delete_tx_eff.
  - eapply (ba_run_inv_0 _ _ []); [done|done|]. eexists. split; [reflexivity|]. by apply cleanup_eff.
  - eapply (ba_run_inv_0 _ _ []); [done|done|]. eexists. split; [reflexivity|]. split; [by apply deleteall_eff|done].
  - destruct (readdba_eff (streams (bp s)) (bp s) Hok Hw) as (b' & new & E & He); [intros e Hin; by apply (bk_entry _ Hok)|].
    eapply ba_run_inv_0; [done|done|]. by exists b'.
  - destruct (redelba_eff (filter (λ e, e_ra e = ra) (streams (bp s))) (bp s) Hok) as (new & He).
    { intros e [_ Hin]%list_elem_of_filter. by apply (bk_entry _ Hok). }
    eapply ba_run_inv_0; [done|done|]. by eexists.
  - unfold wlan_send_delba_txbastream_tbl. destruct (list_find _ (streams (bp s))) as [[i e]|] eqn:E.
    + apply list_find_Some in E as (Hin & _). apply list_elem_of_lookup_2 in Hin.
      destruct (redelba_eff [e] (bp s) Hok) as (new & He).
      { intros x Hx%list_elem_of_singleton. subst x. by apply (bk_entry _ Hok). }
      eapply ba_run_inv_0; [done|done|]. by eexists.
    + eapply (ba_run_inv_0 _ _ []); [done|done|]. eexists. split; [reflexivity|]. split; [by apply eff_refl|done].
  - unfold ba_stream_timeout. case_match.
    + eapply (ba_run_inv_0 _ _ []); [done|done|]. eexists. split; [reflexivity|]. split; [by apply eff_refl|done].
    + destruct (eff_send_delba tid peer orig (bp s) Hok) as (set & _ & _ & _ & P & He); [lia|].
      eapply ba_run_inv_0; [done|done|]. eexists. split; [reflexivity|]. by split.
  - destruct Hop as (set & peer & Hp). rewrite Hp. pose proof (own_delbas_delete _ _ _ Hp) as Hd. cbn [is_own_delba] in Hd.
    assert (Forall cmd_ok (delete i (pend s))) as Hrest by (apply Forall_delete, Hi).
    pose proof (bi_wait _ Hi) as Hwt. destruct ok.
    + left. destruct (ret_delba_ok set peer threshold (bp s) Hok Hw) as (b' & new & E & He & P & Hle).
      eapply ba_run_inv; [done|done|done|]. exists b'. split; [done|]. split; [exact He|]. split; [done|].
      destruct (decide (delba_initiator set = true)); lia.
    + destruct (ret_delba_fail set peer threshold (bp s) Hok) as [(b' & E & He & P & Hz)|(E & Hd1 & Hd2)].
      * left. eapply ba_run_inv; [done|done|done|]. exists b'. split; [done|]. split; [exact He|]. split; [done|].
        pose proof (ef_wait _ _ _ _ He). destruct (decide (delba_initiator set = true)) as [Hd1|]; [rewrite Hz by done|]; lia.
      * right. unfold run. rewrite E. split; [done|]. by exists i, threshold, set, peer.
  - destruct Hop as (set0 & tmo & tok & peer & Hp & Hset). rewrite Hp. left.
    pose proof (own_delbas_delete _ _ _ Hp) as Hd. cbn [is_own_delba] in Hd.
    assert (0 <= param_tid set < 8) as Ht.
    { rewrite Hset. exact (Forall_lookup_1 _ _ _ _ (bi_pend _ Hi) Hp). }
    destruct (ret_addba_eff set status result peer threshold (bp s) Hok Ht) as (b' & E & He & P).
    eapply ba_run_inv; [done|done|apply Forall_delete, Hi|]. exists b'. split; [done|]. split; [exact He|]. split; [done|].
    pose proof (ef_wait _ _ _ _ He). pose proof (bi_wait _ Hi). rewrite decide_False in Hd by auto. lia.
Qed.

(** The results of [wlan_prepare_cmd] are not part of the state. *)
Lemma prep_inv l s : ba_inv s → ba_inv (with_prep l s).
Proof. by intros [[] ? ? ?]. Qed.
Lemma prep_op_ok l op s : ba_op_ok op s → ba_op_ok op (with_prep l s).
Proof. by destruct op. Qed.
Lemma prep_freed_read l op s : freed_read op (with_prep l s) → freed_read op s.
Proof.
  intros (i & threshold & set & peer & H1 & H2 & H3 & H4). exists i, threshold, set, peer. do 3 (split; [done|]).
  rewrite (waiting_streams (wlan_11n_set_txbastream_status (delba_tid set) peer BA_STREAM_SETUP_COMPLETE (bp s))) in H4; [done|].
  unfold wlan_11n_set_txbastream_status. change (wlan_11n_get_txbastream_tbl ?t ?p (bp (with_prep l s))) with
    (wlan_11n_get_txbastream_tbl t p (bp s)). by destruct (wlan_11n_get_txbastream_tbl _ _ (bp s)).
Qed.

Lemma ba_reach_inv s : ba_reach s → ba_inv s.
Proof.
  induction 1 as [b Hok Hw Hs Hc Hrf|l op s s' Hr IH Hop He].
  - constructor; [done|done|constructor|]. cbn. unfold waiting. rewrite Hs. cbn. lia.
  - destruct (ba_step op _ (prep_inv l s IH) (prep_op_ok l op s Hop)) as [(s1 & E & H1)|[E _]]; unfold ba_exec in He; congruence.
Qed.

(** C11: In every state that packets, answers of the firmware in any order, DELBAs of
    peers, time-outs, disconnects and reconfiguration can bring about, with
    [wlan_prepare_cmd] refusing any of the commands, a receiver and TID has one
    transmit stream at most and every stream is being set up, complete or being torn
    down; there are no more streams that wait for another one to be torn down than
    DELBAs still to be answered and DELBAs that were refused, so as long as none was
    refused no stream waits for nothing; and every operation has a result, except the
    failed answer to a DELBA while a stream waits, which reads an entry after freeing
    it.  An answer to an ADDBA names the TID of its command, an entry gets an address
    of its own, and the window is not negative. *)
Theorem streams_accounted s : ba_reach s →
  (NoDup (stream_key <$> streams (bp s)) ∧
   (∀ e, e ∈ streams (bp s) → e_status e ≠ BA_STREAM_NOT_SETUP ∧ 0 <= e_tid e < 8) ∧
   (waiting (bp s) <= own_delbas (pend s) + own_delbas (refused (bp s)))%nat) ∧
  ∀ l op, ba_op_ok op s → is_Some (ba_exec l op s) ∨ freed_read op s.
Proof.
  intros Hr. pose proof (ba_reach_inv s Hr) as Hi. split.
  - destruct Hi as [[H1 H2 H3 H4 H5] _ _ Hw]. by split; [|split].
  - intros l op Hop. unfold ba_exec.
    destruct (ba_step op _ (prep_inv l s Hi) (prep_op_ok l op s Hop)) as [(s' & -> & _)|[_ H]];
      [left; by eexists|right; by eapply prep_freed_read].
Qed.

(** When all streams are in use, the one to give way is a complete stream of
    lower user priority than the new one's, and none of the complete ones has a lower
    priority; there is none exactly if no complete stream has a lower priority. *)
Theorem lowest_stream_gives_way (tid : Z) (b : ba_priv) : ba_ok b → 0 <= tid < 8 →
  ∃ g o, aggr_prio_tbl b !! Z.to_nat tid = Some g ∧ wlan_find_stream_to_delete tid b = Some o ∧
    match o with
    | Some v => v ∈ streams b ∧ e_status v = BA_STREAM_SETUP_COMPLETE ∧ user_prio (aggr_prio_tbl b) v < ampdu_user g ∧
        ∀ e, e ∈ streams b → e_status e = BA_STREAM_SETUP_COMPLETE →
          user_prio (aggr_prio_tbl b) v <= user_prio (aggr_prio_tbl b) e
    | None => ∀ e, e ∈ streams b → e_status e = BA_STREAM_SETUP_COMPLETE →
          ampdu_user g <= user_prio (aggr_prio_tbl b) e
    end.
Proof.
  intros Hok Ht. destruct (aggr_at tid b Hok Ht) as [g Hg]. unfold wlan_find_stream_to_delete.
  assert (∀ e, e ∈ streams b → is_Some (aggr_prio_tbl b !! Z.to_nat (e_tid e))) as Hall.
  { intros e He. destruct (aggr_at (e_tid e) b Hok) as [? ->]; [by apply (bk_entry _ Hok)|by eexists]. }
  destruct (find_lower_spec (aggr_prio_tbl b) (streams b) (ampdu_user g) None Hall) as (o & Ho & Hspec).
  exists g, o. split; [done|]. split.
  - destruct (streams b) as [|e l]; [by rewrite <- Ho|]. by rewrite Hg.
  - destruct Hspec as [[-> Hno]|(v & -> & H)]; [done|exact H].
Qed.

(** ** The answer to an ADDBA *)

Lemma disable_find tid mac b b' : disable_station_ampdu tid mac b = Some b' → 0 <= tid < 8 →
  wmm b' = wmm b ∧ aggr_prio_tbl b' = aggr_prio_tbl b ∧
  match list_find (λ s : list Z * list Z, s.1 = mac) (ampdu_sta b') with
  | Some (_, s) => s.2 !! Z.to_nat tid = Some BA_STREAM_NOT_ALLOWED
  | None => True
  end.
Proof.
  unfold disable_station_ampdu. intros H Ht. destruct (list_find _ (ampdu_sta b)) as [[i s]|] eqn:E.
  - case_decide as Hl; [|done]. injection H as <-. do 2 (split; [done|]). cbn.
    assert (list_find (λ s : list Z * list Z, s.1 = mac) (<[i:=(s.1, zset tid BA_STREAM_NOT_ALLOWED s.2)]> (ampdu_sta b)) =
      Some (i, (s.1, zset tid BA_STREAM_NOT_ALLOWED s.2))) as ->.
    { apply list_find_Some in E as (Hi & Hm & Hbefore). apply list_find_Some. split; [|split; [done|]].
      - apply list_lookup_insert_eq. by eapply lookup_lt_Some.
      - intros j y Hj Hlt. rewrite list_lookup_insert_ne in Hj by lia. by eapply Hbefore. }
    cbn. unfold zset. apply list_lookup_insert_eq. lia.
  - injection H as <-. do 2 (split; [done|]). by rewrite E.
Qed.

Lemma ampdu_off_no_setup g tid r processed avail alloc b b' c : wlan_is_ampdu_allowed g b r tid = Some false →
  dequeue_choice g tid r processed avail alloc b = Some (b', c) → b' = b.
Proof.
  intros Ha. unfold dequeue_choice. destruct processed; [by intros [= <- _]|]. case_match.
  - case_match; [|by intros [= <- _]]. intros (ok & _ & H2)%bind_Some. by injection H2 as <- _.
  - rewrite Ha. cbn [mbind option_bind andb]. intros (ok & _ & H2)%bind_Some. by injection H2 as <- _.
Qed.

Lemma role_upd_ralist tid mac f b : bss_role (wmm (upd_ba_ralist tid mac f b)) = bss_role (wmm b).
Proof. unfold upd_ba_ralist. by destruct (ba_ralist tid mac b). Qed.
Lemma role_delete a b : bss_role (wmm (wlan_11n_delete_txbastream_tbl_entry a b)) = bss_role (wmm b).
Proof. unfold wlan_11n_delete_txbastream_tbl_entry. by destruct (wlan_is_txbastreamptr_valid a b). Qed.
Lemma role_delete_tx tid p rc rs th b b' : delete_tx_stream tid p rc rs th b = Some b' → bss_role (wmm b') = bss_role (wmm b).
Proof.
  unfold delete_tx_stream. intros (mac & _ & H)%bind_Some. destruct (wlan_11n_get_txbastream_tbl tid mac b) as [e|]; [|by injection H as <-].
  apply bind_Some in H as (mac2 & _ & H). injection H as <-. by rewrite role_upd_ralist, role_delete.
Qed.
Lemma disable_streams tid mac b b' : disable_station_ampdu tid mac b = Some b' → streams b' = streams b.
Proof. unfold disable_station_ampdu. destruct (list_find _ _) as [[i s]|]; [case_decide; [|done]|]; by intros [= <-]. Qed.

Lemma get_stream_streams tid ra b b' : streams b' = streams b →
  wlan_11n_get_txbastream_tbl tid ra b' = wlan_11n_get_txbastream_tbl tid ra b.
Proof. intros E. unfold wlan_11n_get_txbastream_tbl. by rewrite E. Qed.

Lemma delete_tx_gone tid mac rc rs th b b' : ba_ok b → delete_tx_stream tid (MacOf mac) rc rs th b = Some b' →
  wlan_11n_get_txbastream_tbl tid mac b' = None.
Proof.
  intros Hok. unfold delete_tx_stream. cbn [read_mac mbind option_bind].
  destruct (wlan_11n_get_txbastream_tbl tid mac b) as [e|] eqn:E; [|by intros [= <-]]. intros [= <-].
  rewrite (get_stream_streams _ _ (wlan_11n_delete_txbastream_tbl_entry (e_addr e) b)) by apply streams_upd_ralist.
  apply get_stream_Some in E as (Hin & Hra & Ht). unfold wlan_11n_delete_txbastream_tbl_entry, wlan_is_txbastreamptr_valid.
  rewrite bool_decide_true by by apply list_elem_of_fmap_2. unfold wlan_11n_get_txbastream_tbl. cbn.
  apply fmap_None, list_find_None, Forall_forall. intros x [Hx Hxin]%list_elem_of_filter [H1 H2]. apply Hx.
  f_equal. apply (key_inj b); [done|done|done|]. unfold stream_key. congruence.
Qed.

Lemma amsdu_total g b r tid : ba_ok b → 0 <= tid < 8 → ∃ x, wlan_is_amsdu_allowed g b r tid = Some x.
Proof.
  intros Hok Ht. unfold wlan_is_amsdu_allowed. destruct (aggr_at tid b Hok Ht) as [a ->]. cbn [mbind option_bind].
  repeat case_match; eauto.
Qed.

Lemma dequeue_no_setup g tid r processed avail alloc b : ba_ok b → 0 <= tid < 8 → wlan_is_ampdu_allowed g b r tid = Some false →
  ∃ c, dequeue_choice g tid r processed avail alloc b = Some (b, c).
Proof.
  intros Hok Ht Ha. unfold dequeue_choice. rewrite Ha. cbn [mbind option_bind andb].
  destruct (amsdu_total g b r tid Hok Ht) as [x ->]. cbn [mbind option_bind]. repeat case_match; eauto.
Qed.

(** What a refusal leaves: no stream, and the TID not allowed. *)
Lemma refused_state set status result peer threshold b b' : ba_ok b → 0 <= param_tid set < 8 →
  status ≠ BA_RESULT_SUCCESS → result ≠ BA_RESULT_TIMEOUT →
  wlan_ret_11n_addba_req set status result peer threshold b = Some b' →
  wlan_11n_get_txbastream_tbl (param_tid set) peer b' = None ∧ bss_role (wmm b') = bss_role (wmm b) ∧
  (∃ x, aggr_prio_tbl b' !! Z.to_nat (param_tid set) = Some x ∧ ampdu_ap x = BA_STREAM_NOT_ALLOWED) ∧
  (bss_role (wmm b) = MLAN_BSS_ROLE_UAP ∨ from_option is_tdls_link false (ba_ralist (param_tid set) peer b) = true →
   match list_find (λ s : list Z * list Z, s.1 = peer) (ampdu_sta b') with
     | Some (_, s) => s.2 !! Z.to_nat (param_tid set) = Some BA_STREAM_NOT_ALLOWED | None => True end).
Proof.
  intros Hok Ht Hst Hres. unfold wlan_ret_11n_addba_req. rewrite (proj2 (Z.eqb_neq _ _) Hst), (proj2 (Z.eqb_neq _ _) Hres).
  cbv zeta. cbn [negb]. set (tid := param_tid set) in *.
  pose proof (eff_ralist tid peer (set_ra_ba false BA_STREAM_NOT_SETUP) b Hok) as H1.
  intros (b2 & E2 & H)%bind_Some. pose proof (delete_tx_gone _ _ _ _ _ _ _ (ef_ok _ _ _ _ H1) E2) as Hgone.
  apply role_delete_tx in E2. rewrite role_upd_ralist in E2. apply bind_Some in H as (b3 & E3 & H). apply bind_Some in H as (b4 & E4 & H).
  apply bind_Some in H as (x & Hx & H). injection H as <-.
  assert (∀ (c : bool) b0 b1, (if c then disable_station_ampdu tid peer b0 else Some b0) = Some b1 →
    streams b1 = streams b0 ∧ wmm b1 = wmm b0 ∧
    (c = true → match list_find (λ s : list Z * list Z, s.1 = peer) (ampdu_sta b1) with
     | Some (_, s) => s.2 !! Z.to_nat tid = Some BA_STREAM_NOT_ALLOWED | None => True end) ∧
    (c = false → b1 = b0)) as Hd.
  { intros [] b0 b1 E; [|by injection E as <-]. destruct (disable_find _ _ _ _ E Ht) as (Hw & _ & Hf).
    split; [by eapply disable_streams|]. by split. }
  destruct (Hd _ _ _ E3) as (S3 & W3 & F3 & _).
  set (c := from_option is_tdls_link false (ba_ralist tid peer b)) in *.
  assert ((if c then disable_station_ampdu tid peer b3 else Some b3) = Some b4) as E4'.
  { subst c. by destruct (ba_ralist tid peer b). }
  destruct (Hd _ _ _ E4') as (S4 & W4 & F4 & K4). split; [|split; [|split]].
  - rewrite (get_stream_streams _ _ b2); [done|]. cbn. congruence.
  - cbn. by rewrite W4, W3, E2.
  - cbn. rewrite list_lookup_alter_eq, Hx. by eexists.
  - intros Hu. cbn [ampdu_sta set_aggr]. destruct c eqn:Ec; [by apply F4|]. rewrite (K4 eq_refl). apply F3.
    rewrite bool_decide_eq_true, E2. by destruct Hu.
Qed.

(** C25: A peer that refuses a stream is not asked again: after a failed answer to an
    ADDBA (other than a time-out) the stream is gone, and the driver only sends the
    packets for that TID and sets up nothing.  On a station that holds for every packet
    that does not go over a direct link, whoever it is for; on an access point for the
    packets to that peer; over a direct link for those to that peer, if the peer had a
    direct link when it refused. *)
Theorem refused_not_retried (set status result : Z) (peer : list Z) (threshold : Z) (b : ba_priv) :
  ba_ok b → 0 <= param_tid set < 8 → status ≠ BA_RESULT_SUCCESS → result ≠ BA_RESULT_TIMEOUT →
  ∃ b', wlan_ret_11n_addba_req set status result peer threshold b = Some b' ∧
    wlan_11n_get_txbastream_tbl (param_tid set) peer b' = None ∧
    ∀ g r processed avail alloc,
      (if is_tdls_link r
       then ra r = peer ∧ from_option is_tdls_link false (ba_ralist (param_tid set) peer b) = true
       else bss_role (wmm b) = MLAN_BSS_ROLE_UAP → ra r = peer) →
      ∃ c, dequeue_choice g (param_tid set) r processed avail alloc b' = Some (b', c).
Proof.
  intros Hok Ht Hst Hres. destruct (ret_addba_eff set status result peer threshold b Hok Ht) as (b' & E & He & _).
  destruct (refused_state _ _ _ _ _ _ _ Hok Ht Hst Hres E) as (Hgone & Hrole & (x & Hx & Hap) & Hsta).
  exists b'. do 2 (split; [done|]). intros g r processed avail alloc Hra.
  apply dequeue_no_setup; [apply He|done|]. unfold wlan_is_ampdu_allowed.
  assert (ra r = peer → bss_role (wmm b) = MLAN_BSS_ROLE_UAP ∨
    from_option is_tdls_link false (ba_ralist (param_tid set) peer b) = true →
    is_station_ampdu_allowed g b' r (param_tid set) = Some false) as Hoff.
  { intros Hr Hu. unfold is_station_ampdu_allowed. rewrite Hr. specialize (Hsta Hu).
    destruct (list_find _ (ampdu_sta b')) as [[i s]|]; [|done]. rewrite Hsta. by destruct (_ && negb (sta_wapi_key g peer)). }
  destruct (is_tdls_link r); [apply Hoff; [apply Hra|right; apply Hra]|].
  destruct (tdls_on g && negb (txaggrctrl g)); [done|]. destruct (negb (is_data_rate_auto g) && IS_BG_RATE g); [done|].
  rewrite Hrole. case_bool_decide as Hu; [apply Hoff; [by apply Hra|by left]|].
  destruct (wapi_enabled g && negb (wapi_key_on g)); [done|]. rewrite Hx. cbn. by rewrite Hap.
Qed.

(** ** The words a peer reads *)

Definition param_win (set : Z) : Z := Z.shiftr (Z.land set BLOCKACKPARAM_WINSIZE_MASK) BLOCKACKPARAM_WINSIZE_POS.
Definition param_amsdu (set : Z) : bool := negb (Z.land set BLOCKACKPARAM_AMSDU_SUPP_MASK =? 0).

Lemma addba_win tid win bit : 0 <= tid < 16 → 0 <= win < 1024 → (bit = 0 ∨ bit = 1) →
  param_win (Z.lor (u16 (Z.lor (Z.lor (Z.shiftl tid 2) (u32 (Z.shiftl win 6))) 2)) bit) = win.
Proof.
  intros Ht Hw Hb. unfold param_win. change BLOCKACKPARAM_WINSIZE_MASK with (Z.shiftl (Z.ones 10) 6).
  change BLOCKACKPARAM_WINSIZE_POS with 6. unfold u_wrap.
  assert (0 <= Z.shiftl win 6 < 2 ^ 16) by (rewrite Z.shiftl_mul_pow2 by lia; lia).
  rewrite (Z.mod_small (Z.shiftl win 6)) by lia. rewrite <- !(Z.land_ones _ 16) by lia.
  rewrite Z.shiftr_land, !Z.shiftr_lor, Z.shiftr_land, !Z.shiftr_lor, (Z.shiftr_shiftl_r tid) by lia.
  rewrite !Z.shiftr_shiftl_l, Z.sub_diag, !Z.shiftl_0_r by lia.
  assert (Z.shiftr tid (6 - 2) = 0) as -> by (rewrite Z.shiftr_div_pow2 by lia; by apply Z.div_small).
  assert (Z.shiftr bit 6 = 0) as -> by (by destruct Hb as [-> | ->]).
  change (Z.shiftr 2 6) with 0. rewrite Z.lor_0_l, !Z.lor_0_r. change (Z.shiftr (Z.ones 16) 6) with (Z.ones 10).
  rewrite !Z.land_ones by lia. by rewrite !(Z.mod_small win) by lia.
Qed.

Lemma addba_amsdu tid win bit : 0 <= win → (bit = 0 ∨ bit = 1) →
  param_amsdu (Z.lor (u16 (Z.lor (Z.lor (Z.shiftl tid 2) (u32 (Z.shiftl win 6))) 2)) bit) = negb (bit =? 0).
Proof.
  intros Hw Hb. unfold param_amsdu. change BLOCKACKPARAM_AMSDU_SUPP_MASK with (Z.ones 1).
  rewrite Z.land_lor_distr_l. unfold u_wrap. rewrite <- !(Z.land_ones _ 16), <- Z.land_assoc by lia.
  change (Z.land (Z.ones 16) (Z.ones 1)) with (Z.ones 1).
  assert (Z.land (Z.lor (Z.lor (Z.shiftl tid 2) (Z.shiftl win 6 mod 2 ^ 32)) 2) (Z.ones 1) = 0) as ->.
  { apply Z.bits_inj'. intros n Hn. rewrite Z.land_spec, !Z.lor_spec, Z.bits_0, Z.testbit_ones_nonneg by lia.
    destruct (decide (n = 0)) as [->|]; [|rewrite (proj2 (Z.ltb_ge n 1)) by lia; apply andb_false_r].
    rewrite Z.mod_pow2_bits_low, !Z.shiftl_spec_low by lia. done. }
  destruct Hb as [-> | ->]; done.
Qed.

(** A peer reads from an ADDBA request the TID and the window it was made for and,
    as leave to aggregate, that A-MSDU is on and not forbidden for the TID; and from a
    DELBA the TID and which side opened the stream (when [wlan_prepare_cmd] takes the
    command). *)
Theorem block_ack_words (tid : Z) (peer : list Z) (initiator : bool) (b : ba_priv) :
  ba_ok b → 0 <= tid < 8 → 0 <= tx_win_size (add_ba_param b) < 1024 → prep b = [] →
  (∃ b' set tok, wlan_send_addba tid peer b = Some (b', MLAN_STATUS_SUCCESS) ∧
     cmds b' = cmds b ++ [CmdAddba set (u16 (ba_timeout (add_ba_param b))) tok peer] ∧
     param_tid set = tid ∧ param_win set = tx_win_size (add_ba_param b) ∧ 1 <= tok < 256 ∧
     ∃ g, aggr_prio_tbl b !! Z.to_nat tid = Some g ∧
       param_amsdu set = tx_amsdu (add_ba_param b) && amsdu_allowed g) ∧
  ∃ b' set, wlan_send_delba tid peer initiator b = (b', MLAN_STATUS_PENDING) ∧ cmds b' = cmds b ++ [CmdDelba set peer] ∧
    delba_tid set = tid ∧ delba_initiator set = initiator.
Proof.
  intros Hok Ht Hw Hprep. split.
  - unfold wlan_send_addba. destruct (aggr_at tid b Hok Ht) as [g Hg]. rewrite Hg.
    set (set0 := u16 (Z.lor (Z.lor _ _) 2)). set (p := add_ba_param b) in *.
    assert (∃ bit, (bit = 0 ∨ bit = 1) ∧ negb (bit =? 0) = tx_amsdu p && amsdu_allowed g ∧
      (if tx_amsdu p then g ← Some g; Some (if amsdu_allowed g then Z.lor set0 BLOCKACKPARAM_AMSDU_SUPP_MASK else set0)
       else Some set0) = Some (Z.lor set0 bit)) as (bit & Hb & Hneg & ->).
    { destruct (tx_amsdu p) eqn:Ea; cbn [mbind option_bind]; [destruct (amsdu_allowed g) eqn:Eg|].
      - exists 1. by auto.
      - exists 0. rewrite Z.lor_0_r. by auto.
      - exists 0. rewrite Z.lor_0_r. by auto. }
    cbn [mbind option_bind]. unfold issue. cbn [prep set_tok]. rewrite Hprep.
    do 3 eexists. split; [reflexivity|]. split; [reflexivity|].
    split; [apply addba_tid; lia|]. split; [apply addba_win; [lia|done|done]|]. split.
    + pose proof (u_wrap_range 8 (dialog_tok b + 1)). case_match; lia.
    + exists g. split; [done|]. rewrite <- Hneg. apply addba_amsdu; [lia|done].
  - destruct (delba_params tid initiator) as [H1 H2]; [lia|].
    unfold wlan_send_delba, issue. rewrite Hprep. do 2 eexists. split; [reflexivity|]. split; [reflexivity|]. by split.
Qed.

(** ** Examples *)

(** An interface with lists to one peer. *)
Definition demo_prios : list tx_aggr_t := (λ u, mk_aggr u u u) <$> [2; 0; 1; 3; 4; 5; 6; 7].
Definition demo_ba : ba_priv :=
  mk_ba (w_priv demo_8) [] demo_prios (mk_addba 64 0 true) [(demo_mac, replicate 8 0)] 0 [] [] [].

Lemma demo_ba_ok : ba_ok demo_ba.
Proof.
  constructor; cbn [streams demo_ba].
  - constructor.
  - constructor.
  - by intros e ?%elem_of_nil.
  - reflexivity.
  - by intros s ->%list_elem_of_singleton.
Qed.

Fixpoint ba_run (ops : list ba_op) (s : ba_state) : option ba_state :=
  match ops with [] => Some s | op :: ops => s ← ba_exec [] op s; ba_run ops s end.

(** TID 1 set up and complete; then TID 7 asks, with no stream free. *)
Definition give_way : list ba_op :=
  [Setup 1 demo_mac true (Some 500); AnsAddba 0 4103 0 0 16; Setup 7 demo_mac false (Some 501)].

Definition shape (s : ba_state) : list (Z * baStatus_e) * list ba_cmd :=
  ((λ e, (e_tid e, e_status e)) <$> streams (bp s), pend s).

(** One operation of a run: allowed, and where it leads. *)
Lemma demo_next s op : ba_reach s → ba_op_ok op s → is_Some (ba_exec [] op s) →
  ∃ s', ba_exec [] op s = Some s' ∧ ba_reach s'.
Proof. intros Hr Hop [s' E]. exists s'. split; [done|]. by eapply ba_next. Qed.

Lemma give_way_reach : ∃ s, ba_run give_way (mk_bs demo_ba []) = Some s ∧ ba_reach s.
Proof.
  assert (ba_reach (mk_bs demo_ba [])) as H0 by (apply ba_start; [apply demo_ba_ok|cbn; lia|done..]).
  unfold give_way. cbn [ba_run].
  destruct (demo_next (mk_bs demo_ba []) (Setup 1 demo_mac true (Some 500)) H0) as (s1 & E1 & H1);
    [split; [lia|by intros a [= <-] ?%elem_of_nil]|vm_compute; by eexists|]. rewrite E1. cbn [mbind option_bind].
  destruct (demo_next s1 (AnsAddba 0 4103 0 0 16) H1) as (s2 & E2 & H2);
    [vm_compute in E1; injection E1 as <-; do 4 eexists; by split|vm_compute in E1; injection E1 as <-; vm_compute; by eexists|].
  rewrite E2. cbn [mbind option_bind].
  destruct (demo_next s2 (Setup 7 demo_mac false (Some 501)) H2) as (s3 & E3 & H3);
    [|vm_compute in E1; injection E1 as <-; vm_compute in E2; injection E2 as <-; vm_compute; by eexists|].
  - split; [lia|]. vm_compute in E1. injection E1 as <-. vm_compute in E2. injection E2 as <-.
    intros a [= <-]. by intros ?%list_elem_of_singleton.
  - exists s3. rewrite E3. by split.
Qed.

(** A run the driver can take: TID 1 has a stream, TID 7 asks for one, TID 1 is to give
    way to it, and the firmware answers the DELBA with a failure.  The entry of TID 7
    is then deleted by an address that lies in that entry, and read after the entry
    was freed. *)
Theorem failed_delba_reads_freed : ∃ s, ba_reach s ∧
  shape s = ([(1, BA_STREAM_SENT_DELBA); (7, BA_STREAM_SETUP_INPROGRESS)], [CmdDelba 6144 demo_mac]) ∧
  ba_op_ok (AnsDelba 0 false 16) s ∧ ba_exec [] (AnsDelba 0 false 16) s = None.
Proof.
  destruct give_way_reach as (s & E & Hr). exists s. split; [done|]. vm_compute in E. injection E as <-.
  split; [reflexivity|]. split; [by do 2 eexists|reflexivity].
Qed.

Lemma streams_accounted_witness : ∃ s, ba_run give_way (mk_bs demo_ba []) = Some s ∧
  (waiting (bp s) = 1)%nat ∧ refused (bp s) = [] ∧
  (waiting (bp s) <= own_delbas (pend s) + own_delbas (refused (bp s)))%nat.
Proof.
  destruct give_way_reach as (s & E & Hr). exists s. split; [exact E|].
  split; [vm_compute in E; injection E as <-; reflexivity|]. split; [vm_compute in E; injection E as <-; reflexivity|].
  apply (streams_accounted s Hr).
Defined.

(** A run the driver can take: as before, but the DELBA for TID 1 finds no command
    node and [wlan_dequeue_tx_packet] does not look at the result.  TID 1 counts as
    being torn down and TID 7 waits for it, with nothing under way that would end
    either. *)
Theorem refused_delba_strands_streams : ∃ s, ba_reach s ∧
  shape s = ([(1, BA_STREAM_SENT_DELBA); (7, BA_STREAM_SETUP_INPROGRESS)], []).
Proof.
  assert (ba_reach (mk_bs demo_ba [])) as H0 by (apply ba_start; [apply demo_ba_ok|cbn; lia|done..]).
  destruct (demo_next (mk_bs demo_ba []) (Setup 1 demo_mac true (Some 500)) H0) as (s1 & E1 & H1);
    [split; [lia|by intros a [= <-] ?%elem_of_nil]|vm_compute; by eexists|].
  destruct (demo_next s1 (AnsAddba 0 4103 0 0 16) H1) as (s2 & E2 & H2);
    [vm_compute in E1; injection E1 as <-; do 4 eexists; by split|vm_compute in E1; injection E1 as <-; vm_compute; by eexists|].
  vm_compute in E1. injection E1 as <-. vm_compute in E2. injection E2 as <-.
  eexists. split.
  - refine (ba_next [false] (Setup 7 demo_mac false (Some 501)) _ _ H2 _ _); [|vm_compute; reflexivity].
    split; [lia|]. intros a [= <-]. by intros ?%list_elem_of_singleton.
  - reflexivity.
Qed.

Definition demo_streams : ba_priv :=
  set_streams [mk_stream 500 1 demo_mac BA_STREAM_SETUP_COMPLETE false; mk_stream 501 0 demo_mac BA_STREAM_SETUP_COMPLETE false;
    mk_stream 502 2 demo_mac BA_STREAM_SENT_DELBA false] demo_ba.
Lemma demo_streams_ok : ba_ok demo_streams.
Proof.
  constructor; cbn [streams demo_streams set_streams].
  - by apply (bool_decide_unpack _).
  - by apply (bool_decide_unpack _).
  - intros e He. repeat (apply elem_of_cons in He as [->|He]; [cbn; split; [done|lia]|]). by apply elem_of_nil in He.
  - reflexivity.
  - by intros s ->%list_elem_of_singleton.
Qed.

Lemma lowest_stream_gives_way_witness : ∃ v, wlan_find_stream_to_delete 7 demo_streams = Some (Some v) ∧ e_tid v = 1 ∧
  ∀ e, e ∈ streams demo_streams → e_status e = BA_STREAM_SETUP_COMPLETE →
    user_prio demo_prios v <= user_prio demo_prios e.
Proof.
  destruct (lowest_stream_gives_way 7 demo_streams demo_streams_ok) as (g & o & _ & Ho & H); [lia|].
  destruct o as [v|]; [|vm_compute in Ho; discriminate Ho]. exists v. split; [exact Ho|]. split; [|apply H].
  clear H. vm_compute in Ho. by injection Ho as <-.
Defined.

Definition demo_agg : agg_cfg :=
  mk_agg false true true (replicate 18 0) false false (λ _, false) false false false 4096.
Definition demo_list : raListTbl :=
  mk_ralist 101 demo_mac [] 0 20 16 true 0 BA_STREAM_NOT_SETUP 0 false false false 1 0.

(** Before the refusal the list gets a stream, after it none. *)
Lemma refused_not_retried_witness :
  ∃ b', wlan_ret_11n_addba_req 4103 1 1 demo_mac 16 demo_streams = Some b' ∧
    (∃ b1 c, dequeue_choice demo_agg 1 demo_list false true (Some 510) demo_ba = Some (b1, c) ∧ length (streams b1) = 1%nat) ∧
    ∃ c, dequeue_choice demo_agg 1 demo_list false true (Some 510) b' = Some (b', c).
Proof.
  destruct (refused_not_retried 4103 1 1 demo_mac 16 demo_streams demo_streams_ok) as (b' & E & _ & H);
    [vm_compute; split; congruence|discriminate|discriminate|].
  exists b'. split; [exact E|]. split; [do 2 eexists; split; [vm_compute; reflexivity|reflexivity]|].
  apply (H demo_agg demo_list false true (Some 510)). intros _. reflexivity.
Defined.

Lemma block_ack_words_witness : ∃ b' set tok, wlan_send_addba 5 demo_mac demo_ba = Some (b', MLAN_STATUS_SUCCESS) ∧
  cmds b' = [CmdAddba set 0 tok demo_mac] ∧ param_tid set = 5 ∧ param_win set = 64 ∧ param_amsdu set = true.
Proof.
  destruct (block_ack_words 5 demo_mac true demo_ba demo_ba_ok) as [(b' & set & tok & E & Hc & Ht & Hw & _ & g & Hg & Ha) _];
    [lia|cbn; lia|done|].
  exists b', set, tok. split; [exact E|]. split; [exact Hc|]. split; [exact Ht|]. split; [exact Hw|].
  rewrite Ha. vm_compute in Hg. injection Hg as <-. reflexivity.
Defined.
