(* ===== verification/SdioTx.v ===== *)
(** * mlan_sdio.c, mlan_sdio.h: sending to an SDIO card

    A card has up to 32 ports, each a packet buffer; a bitmap says which may be
    written, and packets go to the ports in turn.  Several packets are collected
    and written with one transfer (CMD53) whose address names their ports: through
    a bounce buffer or, with scatter-gather, buffer by buffer.  Older cards (not
    [new_mode]) have 16 ports, of which port 0 takes commands.  [None] is an access
    outside an array or a buffer.  [ok] says which attempts of a transfer succeed. *)

From S2P Require Import Prelude UtilScalar.
#[local] Open Scope Z_scope.

(** ** Constants and data *)

Definition MLAN_SDIO_BLOCK_SIZE : Z := 256.
Definition SDIO_MPA_ADDR_BASE : Z := 0x1000.
Definition CTRL_PORT : Z := 0.
Definition CTRL_PORT_MASK : Z := 1.
Definition CMD_PORT_SLCT : Z := 0x8000.
Definition SDIO_INTF_HEADER_LEN : Z := 4.
Definition MAX_WRITE_IOMEM_RETRY : nat := 2.
Definition SDIO_MP_AGGR_DEF_PKT_LIMIT_MAX : nat := 16.
Definition SDIO_MP_DBG_NUM : nat := 10.
Definition MLAN_TYPE_DATA : Z := 0.
Definition MLAN_TYPE_CMD : Z := 1.
Definition MLAN_TYPE_VDLL : Z := 4.
Definition MRVDRV_SIZE_OF_CMD_BUFFER : Z := 3072.

(** What [wlan_get_sdio_device] fixes for a card. *)
Record sdio_cfg := mk_cfg {
  max_ports : Z; new_mode : bool; start_rd_port : Z; start_wr_port : Z;
  reg_data_port_mask : Z; mp_aggr_pkt_limit : nat; ioport : Z
}.

(** A buffer: the memory from its data offset on, and [data_len]. *)
Record mbuf := mk_mbuf { m_id : Z; m_mem : list Z; m_len : Z }.
Definition payload (m : mbuf) : option (list Z) :=
  if decide (m_len m <= Z.of_nat (length (m_mem m))) then Some (take (Z.to_nat (m_len m)) (m_mem m)) else None.
Definition le16 (l : list Z) : option Z := lo ← l !! 0%nat; hi ← l !! 1%nat; Some (lo + 256 * hi).

(** A transfer: its address, its bytes, the results of its attempts. *)
Record cmd53 := mk_cmd53 { c_addr : Z; c_data : list Z; c_tries : list bool }.

(** The counters and traces kept for debugging; their arrays are indexed by the
    packet count and a rotating index.  [last_mp]: write bitmap, port, length and
    next port of the last writes; [mpa_buf] one block for each packet of them. *)
Record mp_dbg := mk_dbg {
  mpa_sent_last_pkt : Z;
  mpa_sent_no_ports : Z;
  mpa_tx_count : list Z;
  mp_update : list Z;
  mp_invalid_update : Z;
  last_mp : list (Z * Z * Z * Z);
  last_mp_wr_info : list Z;
  last_mp_index : nat;
  mpa_buf : option (list (list Z))
}.
Definition set_mpa_sent_last_pkt (x : Z) (r : mp_dbg) : mp_dbg :=
  mk_dbg x (mpa_sent_no_ports r) (mpa_tx_count r) (mp_update r) (mp_invalid_update r) (last_mp r) (last_mp_wr_info r) (last_mp_index r) (mpa_buf r).
Definition set_mpa_sent_no_ports (x : Z) (r : mp_dbg) : mp_dbg :=
  mk_dbg (mpa_sent_last_pkt r) x (mpa_tx_count r) (mp_update r) (mp_invalid_update r) (last_mp r) (last_mp_wr_info r) (last_mp_index r) (mpa_buf r).
Definition set_mpa_tx_count (x : list Z) (r : mp_dbg) : mp_dbg :=
  mk_dbg (mpa_sent_last_pkt r) (mpa_sent_no_ports r) x (mp_update r) (mp_invalid_update r) (last_mp r) (last_mp_wr_info r) (last_mp_index r) (mpa_buf r).
Definition set_mp_update (x : list Z) (r : mp_dbg) : mp_dbg :=
  mk_dbg (mpa_sent_last_pkt r) (mpa_sent_no_ports r) (mpa_tx_count r) x (mp_invalid_update r) (last_mp r) (last_mp_wr_info r) (last_mp_index r) (mpa_buf r).
Definition set_mp_invalid_update (x : Z) (r : mp_dbg) : mp_dbg :=
  mk_dbg (mpa_sent_last_pkt r) (mpa_sent_no_ports r) (mpa_tx_count r) (mp_update r) x (last_mp r) (last_mp_wr_info r) (last_mp_index r) (mpa_buf r).
Definition set_last_mp (x : list (Z * Z * Z * Z)) (r : mp_dbg) : mp_dbg :=
  mk_dbg (mpa_sent_last_pkt r) (mpa_sent_no_ports r) (mpa_tx_count r) (mp_update r) (mp_invalid_update r) x (last_mp_wr_info r) (last_mp_index r) (mpa_buf r).
Definition set_last_mp_wr_info (x : list Z) (r : mp_dbg) : mp_dbg :=
  mk_dbg (mpa_sent_last_pkt r) (mpa_sent_no_ports r) (mpa_tx_count r) (mp_update r) (mp_invalid_update r) (last_mp r) x (last_mp_index r) (mpa_buf r).
Definition set_last_mp_index (x : nat) (r : mp_dbg) : mp_dbg :=
  mk_dbg (mpa_sent_last_pkt r) (mpa_sent_no_ports r) (mpa_tx_count r) (mp_update r) (mp_invalid_update r) (last_mp r) (last_mp_wr_info r) x (mpa_buf r).
Definition set_mpa_buf (x : option (list (list Z))) (r : mp_dbg) : mp_dbg :=
  mk_dbg (mpa_sent_last_pkt r) (mpa_sent_no_ports r) (mpa_tx_count r) (mp_update r) (mp_invalid_update r) (last_mp r) (last_mp_wr_info r) (last_mp_index r) x.

(** [_sdio_mpa_tx]; [tx_buf] is the bounce buffer, absent when packets are
    handed to the bus one by one (scatter-gather). *)
Record sdio_mpa_tx := mk_tx {
  tx_buf : option (list Z);
  tx_buf_len : Z;
  tx_pkt_cnt : nat;
  tx_ports : Z;
  tx_start_port : Z;
  tx_enabled : bool;
  tx_buf_size : Z;
  tx_aggr_limit : Z;
  mp_wr_info : list Z;
  tx_mbufs : list (option mbuf)
}.
Definition set_tx_buf (x : option (list Z)) (r : sdio_mpa_tx) : sdio_mpa_tx :=
  mk_tx x (tx_buf_len r) (tx_pkt_cnt r) (tx_ports r) (tx_start_port r) (tx_enabled r) (tx_buf_size r) (tx_aggr_limit r) (mp_wr_info r) (tx_mbufs r).
Definition set_tx_buf_len (x : Z) (r : sdio_mpa_tx) : sdio_mpa_tx :=
  mk_tx (tx_buf r) x (tx_pkt_cnt r) (tx_ports r) (tx_start_port r) (tx_enabled r) (tx_buf_size r) (tx_aggr_limit r) (mp_wr_info r) (tx_mbufs r).
Definition set_tx_pkt_cnt (x : nat) (r : sdio_mpa_tx) : sdio_mpa_tx :=
  mk_tx (tx_buf r) (tx_buf_len r) x (tx_ports r) (tx_start_port r) (tx_enabled r) (tx_buf_size r) (tx_aggr_limit r) (mp_wr_info r) (tx_mbufs r).
Definition set_tx_ports (x : Z) (r : sdio_mpa_tx) : sdio_mpa_tx :=
  mk_tx (tx_buf r) (tx_buf_len r) (tx_pkt_cnt r) x (tx_start_port r) (tx_enabled r) (tx_buf_size r) (tx_aggr_limit r) (mp_wr_info r) (tx_mbufs r).
Definition set_tx_start_port (x : Z) (r : sdio_mpa_tx) : sdio_mpa_tx :=
  mk_tx (tx_buf r) (tx_buf_len r) (tx_pkt_cnt r) (tx_ports r) x (tx_enabled r) (tx_buf_size r) (tx_aggr_limit r) (mp_wr_info r) (tx_mbufs r).
Definition set_tx_enabled (x : bool) (r : sdio_mpa_tx) : sdio_mpa_tx :=
  mk_tx (tx_buf r) (tx_buf_len r) (tx_pkt_cnt r) (tx_ports r) (tx_start_port r) x (tx_buf_size r) (tx_aggr_limit r) (mp_wr_info r) (tx_mbufs r).
Definition set_tx_buf_size (x : Z) (r : sdio_mpa_tx) : sdio_mpa_tx :=
  mk_tx (tx_buf r) (tx_buf_len r) (tx_pkt_cnt r) (tx_ports r) (tx_start_port r) (tx_enabled r) x (tx_aggr_limit r) (mp_wr_info r) (tx_mbufs r).
Definition set_tx_aggr_limit (x : Z) (r : sdio_mpa_tx) : sdio_mpa_tx :=
  mk_tx (tx_buf r) (tx_buf_len r) (tx_pkt_cnt r) (tx_ports r) (tx_start_port r) (tx_enabled r) (tx_buf_size r) x (mp_wr_info r) (tx_mbufs r).
Definition set_mp_wr_info (x : list Z) (r : sdio_mpa_tx) : sdio_mpa_tx :=
  mk_tx (tx_buf r) (tx_buf_len r) (tx_pkt_cnt r) (tx_ports r) (tx_start_port r) (tx_enabled r) (tx_buf_size r) (tx_aggr_limit r) x (tx_mbufs r).
Definition set_tx_mbufs (x : list (option mbuf)) (r : sdio_mpa_tx) : sdio_mpa_tx :=
  mk_tx (tx_buf r) (tx_buf_len r) (tx_pkt_cnt r) (tx_ports r) (tx_start_port r) (tx_enabled r) (tx_buf_size r) (tx_aggr_limit r) (mp_wr_info r) x.

(** The transmit side of [_mlan_sdio_card], with the flags of the adapter, the
    transfers done and the packets completed. *)
Record sdio_card := mk_card {
  mp_wr_bitmap : Z;
  mp_end_port : Z;
  mp_data_port_mask : Z;
  curr_wr_port : Z;
  data_sent : bool;
  cmd_sent : bool;
  mpa_tx : sdio_mpa_tx;
  dbg : mp_dbg;
  writes : list cmd53;
  completed : list (mbuf * mlan_status)
}.
Definition set_mp_wr_bitmap (x : Z) (r : sdio_card) : sdio_card :=
  mk_card x (mp_end_port r) (mp_data_port_mask r) (curr_wr_port r) (data_sent r) (cmd_sent r) (mpa_tx r) (dbg r) (writes r) (completed r).
Definition set_mp_end_port (x : Z) (r : sdio_card) : sdio_card :=
  mk_card (mp_wr_bitmap r) x (mp_data_port_mask r) (curr_wr_port r) (data_sent r) (cmd_sent r) (mpa_tx r) (dbg r) (writes r) (completed r).
Definition set_mp_data_port_mask (x : Z) (r : sdio_card) : sdio_card :=
  mk_card (mp_wr_bitmap r) (mp_end_port r) x (curr_wr_port r) (data_sent r) (cmd_sent r) (mpa_tx r) (dbg r) (writes r) (completed r).
Definition set_curr_wr_port (x : Z) (r : sdio_card) : sdio_card :=
  mk_card (mp_wr_bitmap r) (mp_end_port r) (mp_data_port_mask r) x (data_sent r) (cmd_sent r) (mpa_tx r) (dbg r) (writes r) (completed r).
Definition set_data_sent (x : bool) (r : sdio_card) : sdio_card :=
  mk_card (mp_wr_bitmap r) (mp_end_port r) (mp_data_port_mask r) (curr_wr_port r) x (cmd_sent r) (mpa_tx r) (dbg r) (writes r) (completed r).
Definition set_cmd_sent (x : bool) (r : sdio_card) : sdio_card :=
  mk_card (mp_wr_bitmap r) (mp_end_port r) (mp_data_port_mask r) (curr_wr_port r) (data_sent r) x (mpa_tx r) (dbg r) (writes r) (completed r).
Definition set_mpa_tx (x : sdio_mpa_tx) (r : sdio_card) : sdio_card :=
  mk_card (mp_wr_bitmap r) (mp_end_port r) (mp_data_port_mask r) (curr_wr_port r) (data_sent r) (cmd_sent r) x (dbg r) (writes r) (completed r).
Definition set_dbg (x : mp_dbg) (r : sdio_card) : sdio_card :=
  mk_card (mp_wr_bitmap r) (mp_end_port r) (mp_data_port_mask r) (curr_wr_port r) (data_sent r) (cmd_sent r) (mpa_tx r) x (writes r) (completed r).
Definition set_writes (x : list cmd53) (r : sdio_card) : sdio_card :=
  mk_card (mp_wr_bitmap r) (mp_end_port r) (mp_data_port_mask r) (curr_wr_port r) (data_sent r) (cmd_sent r) (mpa_tx r) (dbg r) x (completed r).
Definition set_completed (x : list (mbuf * mlan_status)) (r : sdio_card) : sdio_card :=
  mk_card (mp_wr_bitmap r) (mp_end_port r) (mp_data_port_mask r) (curr_wr_port r) (data_sent r) (cmd_sent r) (mpa_tx r) (dbg r) (writes r) x.

Definition on_tx (f : sdio_mpa_tx → sdio_mpa_tx) (s : sdio_card) : sdio_card := set_mpa_tx (f (mpa_tx s)) s.
Definition on_dbg (f : mp_dbg → mp_dbg) (s : sdio_card) : sdio_card := set_dbg (f (dbg s)) s.

(** Writing an element or a stretch of an array. *)
Definition put {A} (i : nat) (x : A) (l : list A) : option (list A) :=
  if decide (i < length l)%nat then Some (<[i := x]> l) else None.
Definition splice {A} (i : nat) (k l : list A) : option (list A) :=
  if decide (i + length k <= length l)%nat then Some (take i l ++ k ++ drop (i + length k) l) else None.
Definition bit (x p : Z) : bool := Z.testbit x p.

(** ** Transfers *)

(** The loop of [wlan_write_data_sync]; a failed attempt is followed by a write of
    [HOST_TERM_CMD53]. *)
Fixpoint write_tries (fuel i : nat) (ok : nat → bool) : list bool * mlan_status :=
  match fuel with
  | O => ([], MLAN_STATUS_FAILURE)
  | S fuel =>
      if ok i then ([true], MLAN_STATUS_SUCCESS)
      else if (MAX_WRITE_IOMEM_RETRY <? S i)%nat then ([false], MLAN_STATUS_FAILURE)
      else let '(l, st) := write_tries fuel (S i) ok in (false :: l, st)
  end.
Definition wlan_write_data_sync (addr : Z) (data : list Z) (ok : nat → bool) (s : sdio_card) : sdio_card * mlan_status :=
  let '(l, st) := write_tries (S MAX_WRITE_IOMEM_RETRY) 0 ok in (set_writes (writes s ++ [mk_cmd53 addr data l]) s, st).

Definition port_free (s : sdio_card) : bool := bit (mp_wr_bitmap s) (curr_wr_port s).
Definition clear_bit (p x : Z) : Z := Z.land x (u32 (Z.lnot (Z.shiftl 1 p))).

Definition wlan_get_wr_port_data (c : sdio_cfg) (s : sdio_card) : sdio_card * mlan_status * Z :=
  if Z.land (mp_wr_bitmap s) (mp_data_port_mask s) =? 0 then (set_data_sent true s, MLAN_STATUS_RESOURCE, 0)
  else if port_free s then
    let port := curr_wr_port s in
    let next := if port + 1 =? mp_end_port s then start_wr_port c else u8 (port + 1) in
    let s := set_curr_wr_port next (set_mp_wr_bitmap (clear_bit port (mp_wr_bitmap s)) s) in
    (s, if negb (new_mode c) && (port =? CTRL_PORT) then MLAN_STATUS_FAILURE else MLAN_STATUS_SUCCESS, port)
  else (set_data_sent true s, MLAN_STATUS_RESOURCE, 0).

(** ** Aggregation *)

Definition has_room (s : sdio_card) (len : Z) : bool := u32 (tx_buf_len (mpa_tx s) + len) <=? tx_buf_size (mpa_tx s).
Definition in_progress (s : sdio_card) : bool := (0 <? tx_pkt_cnt (mpa_tx s))%nat.
Definition pkt_limit_reached (s : sdio_card) : bool := Z.of_nat (tx_pkt_cnt (mpa_tx s)) =? tx_aggr_limit (mpa_tx s).
Definition port_limit_reached (c : sdio_cfg) (s : sdio_card) : bool :=
  (curr_wr_port s <? tx_start_port (mpa_tx s)) &&
  (Z.of_nat (mp_aggr_pkt_limit c) <=? max_ports c - tx_start_port (mpa_tx s) + curr_wr_port s).

(** The bit of [ports] for a packet, [start] being the port of the first. *)
Definition port_bit (c : sdio_cfg) (end_port start port : Z) (cnt : nat) : Z :=
  if new_mode c then port
  else if start <=? port then Z.of_nat cnt else Z.of_nat cnt + 1 + (max_ports c - end_port).

(** [MP_TX_AGGR_BUF_PUT], [MP_TX_AGGR_BUF_PUT_SG] and those for older cards. *)
Definition tx_put (c : sdio_cfg) (m : mbuf) (port : Z) (s : sdio_card) : option sdio_card :=
  let t := mpa_tx s in
  buf ← match tx_buf t with
        | Some b => d ← payload m; b ← splice (Z.to_nat (tx_buf_len t)) d b; Some (Some b)
        | None => Some None
        end;
  hdr ← le16 (m_mem m);
  info ← put (tx_pkt_cnt t) hdr (mp_wr_info t);
  mbufs ← match tx_buf t with Some _ => Some (tx_mbufs t) | None => put (tx_pkt_cnt t) (Some m) (tx_mbufs t) end;
  let start := if (tx_pkt_cnt t =? 0)%nat then port else tx_start_port t in
  let b := port_bit c (mp_end_port s) start port (tx_pkt_cnt t) in
  Some (set_mpa_tx (mk_tx buf (u32 (tx_buf_len t + m_len m)) (S (tx_pkt_cnt t)) (Z.lor (tx_ports t) (u32 (Z.shiftl 1 b))) start
    (tx_enabled t) (tx_buf_size t) (tx_aggr_limit t) info mbufs) s).

Definition MP_TX_AGGR_BUF_RESET (t : sdio_mpa_tx) : sdio_mpa_tx :=
  mk_tx (tx_buf t) 0 0 0 0 (tx_enabled t) (tx_buf_size t) (tx_aggr_limit t) (replicate SDIO_MP_AGGR_DEF_PKT_LIMIT_MAX 0) (tx_mbufs t).

(** The traces after a transfer. *)
Definition trace (c : sdio_cfg) (addr len : Z) (info : list Z) (cnt : nat) (s : sdio_card) : option sdio_card :=
  let d := dbg s in
  count ← (n ← mpa_tx_count d !! (cnt - 1)%nat; put (cnt - 1) (u32 (n + 1)) (mpa_tx_count d));
  last ← put (last_mp_index d) (mp_wr_bitmap s, addr, len, curr_wr_port s) (last_mp d);
  linfo ← splice (last_mp_index d * mp_aggr_pkt_limit c) info (last_mp_wr_info d);
  let i := S (last_mp_index d) in
  Some (set_dbg (mk_dbg (mpa_sent_last_pkt d) (mpa_sent_no_ports d) count (mp_update d) (mp_invalid_update d) last linfo
    (if (SDIO_MP_DBG_NUM <=? i)%nat then 0%nat else i) (mpa_buf d)) s).
Definition no_ports (s : sdio_card) : sdio_card := on_dbg (λ d, set_mpa_sent_no_ports (u32 (mpa_sent_no_ports d + 1)) d) s.
(** A block of the packet kept in [mpa_buf]. *)
Definition keep_block (c : sdio_cfg) (cnt : nat) (m : mbuf) (s : sdio_card) : option sdio_card :=
  match mpa_buf (dbg s) with
  | None => Some s
  | Some b =>
      if decide (MLAN_SDIO_BLOCK_SIZE <= Z.of_nat (length (m_mem m))) then
        b ← put (last_mp_index (dbg s) * mp_aggr_pkt_limit c + cnt) (take (Z.to_nat MLAN_SDIO_BLOCK_SIZE) (m_mem m)) b;
        Some (on_dbg (set_mpa_buf (Some b)) s)
      else None
  end.

(** The bytes a transfer of the aggregate carries: the moal layer writes linked
    buffers one after the other. *)
Definition aggr_mbufs (t : sdio_mpa_tx) : option (list mbuf) := mapM id (take (tx_pkt_cnt t) (tx_mbufs t)).
Definition aggr_data (t : sdio_mpa_tx) : option (list Z) :=
  match tx_buf t with
  | Some b => if decide (tx_buf_len t <= Z.of_nat (length b)) then Some (take (Z.to_nat (tx_buf_len t)) b) else None
  | None => ms ← aggr_mbufs t; l ← mapM payload ms; Some (concat l)
  end.
Definition aggr_addr (c : sdio_cfg) (t : sdio_mpa_tx) : option Z :=
  if (tx_pkt_cnt t =? 1)%nat then Some (u32 (ioport c + tx_start_port t))
  else
    ports ← if new_mode c then n ← bitcount (tx_ports t); Some (u32 (Z.shiftl (u32 (n - 1)) 8))
            else Some (u32 (Z.shiftl (tx_ports t) 4));
    Some (u32 (Z.lor (Z.lor (ioport c) SDIO_MPA_ADDR_BASE) ports + tx_start_port t)).

(** The packets of a scatter-gather transfer, completed whatever became of it. *)
Definition sg_done (t : sdio_mpa_tx) : option (list (mbuf * mlan_status)) :=
  match tx_buf t with
  | Some _ => Some []
  | None => map (λ m, (m, MLAN_STATUS_SUCCESS)) <$> aggr_mbufs t
  end.

Definition wlan_send_mp_aggr_buf (c : sdio_cfg) (ok : nat → bool) (s : sdio_card) : option (sdio_card * mlan_status) :=
  let t := mpa_tx s in
  if (tx_pkt_cnt t =? 0)%nat then Some (s, MLAN_STATUS_SUCCESS)
  else
    addr ← aggr_addr c t;
    data ← aggr_data t;
    let '(s, ret) := wlan_write_data_sync addr data ok s in
    done ← sg_done t;
    let s := set_completed (completed s ++ done) s in
    let s := if negb (port_free s) && (tx_pkt_cnt t <? mp_aggr_pkt_limit c)%nat then no_ports s else s in
    s ← trace c addr (tx_buf_len t) (take (mp_aggr_pkt_limit c) (mp_wr_info t)) (tx_pkt_cnt t) s;
    Some (on_tx MP_TX_AGGR_BUF_RESET s, ret).

(** What [wlan_host_to_card_mp_aggr] decides: send the aggregate, send the packet
    alone, add it before or after the aggregate is sent. *)
Record tx_plan := mk_plan { send_aggr : bool; send_cur : bool; precopy : bool; postcopy : bool }.
Definition plan (s : sdio_card) (len next_pkt_len : Z) : tx_plan :=
  if negb (next_pkt_len =? 0) then
    if in_progress s then
      if has_room s len then mk_plan (negb (port_free s) || negb (has_room s (u32 (len + next_pkt_len)))) false true false
      else mk_plan true (negb (port_free s)) false (port_free s)
    else if has_room s len && port_free s then mk_plan false false true false
    else mk_plan false true false false
  else if in_progress s then mk_plan true (negb (has_room s len)) (has_room s len) false
  else mk_plan false true false false.

(** The packet alone. *)
Definition tx_single (c : sdio_cfg) (m : mbuf) (port : Z) (ok : nat → bool) (s : sdio_card) : option (sdio_card * mlan_status) :=
  if 2 ^ 32 <=? ioport c + port then Some (s, MLAN_STATUS_FAILURE)
  else
    data ← payload m;
    let '(s, ret) := wlan_write_data_sync (ioport c + port) data ok s in
    let s := if negb (port_free s) then no_ports s else s in
    hdr ← le16 (m_mem m);
    s ← keep_block c 0 m s;
    s ← trace c (ioport c + port) (m_len m) (hdr :: replicate (mp_aggr_pkt_limit c - 1) 0) 1 s;
    Some (s, ret).

Definition wlan_host_to_card_mp_aggr (c : sdio_cfg) (m : mbuf) (port next_pkt_len : Z) (ok_aggr ok_cur : nat → bool) (s : sdio_card)
  : option (sdio_card * mlan_status) :=
  if negb (tx_enabled (mpa_tx s)) then tx_single c m port ok_cur s
  else
    let p := plan s (m_len m) next_pkt_len in
    let s := if next_pkt_len =? 0 then on_dbg (λ d, set_mpa_sent_last_pkt (u32 (mpa_sent_last_pkt d + 1)) d) s else s in
    let sg := bool_decide (tx_buf (mpa_tx s) = None) in
    '(s, aggr) ← (if precopy p then
        s ← keep_block c (tx_pkt_cnt (mpa_tx s)) m s;
        s ← tx_put c m port s;
        Some (s, send_aggr p || (pkt_limit_reached s || (negb (new_mode c) && port_limit_reached c s)))
      else Some (s, send_aggr p));
    '(s, ret) ← (if aggr : bool then wlan_send_mp_aggr_buf c ok_aggr s else Some (s, MLAN_STATUS_SUCCESS));
    '(s, ret) ← (if send_cur p then tx_single c m port ok_cur s else Some (s, ret));
    s ← (if postcopy p then s ← keep_block c (tx_pkt_cnt (mpa_tx s)) m s; tx_put c m port s else Some s);
    Some (s, if sg && (precopy p || postcopy p) then MLAN_STATUS_PENDING else ret).

(** ** The send operation of the bus *)

(** [m_len] rounded up to blocks. *)
Definition blocks (len : Z) : Z := u32 (u32 (len + MLAN_SDIO_BLOCK_SIZE - 1) / MLAN_SDIO_BLOCK_SIZE * MLAN_SDIO_BLOCK_SIZE).
(** The header: length and type, little endian. *)
Definition put_header (type : Z) (m : mbuf) : option mbuf :=
  if decide (4 <= length (m_mem m))%nat then
    let n := u16 (m_len m) in
    Some (mk_mbuf (m_id m) ([n mod 256; n / 256; type mod 256; type / 256] ++ drop 4 (m_mem m)) (m_len m))
  else None.
Definition set_m_len (x : Z) (m : mbuf) : mbuf := mk_mbuf (m_id m) (m_mem m) x.

(** Sending a packet ([type] MLAN_TYPE_DATA). *)
Definition send_data (c : sdio_cfg) (m : mbuf) (next_pkt_len : Z) (ok_aggr ok_cur : nat → bool) (s : sdio_card)
  : option (sdio_card * mlan_status) :=
  m ← put_header MLAN_TYPE_DATA m;
  let '(s, ret, port) := wlan_get_wr_port_data c s in
  if negb (bool_decide (ret = MLAN_STATUS_SUCCESS)) then Some (s, ret)
  else
    '(s, ret) ← wlan_host_to_card_mp_aggr c (set_m_len (blocks (m_len m)) m) port next_pkt_len ok_aggr ok_cur s;
    Some (set_data_sent (if decide (ret = MLAN_STATUS_FAILURE) then false else negb (port_free s)) s, ret).

(** Sending a command. *)
Definition send_cmd (c : sdio_cfg) (m : mbuf) (ok : nat → bool) (s : sdio_card) : option (sdio_card * mlan_status) :=
  m ← put_header MLAN_TYPE_CMD m;
  let s := set_cmd_sent true s in
  let s := if new_mode c then s else set_mp_wr_bitmap (clear_bit CTRL_PORT (mp_wr_bitmap s)) s in
  data ← payload (set_m_len (blocks (m_len m)) m);
  let addr := if new_mode c then Z.lor (ioport c) CMD_PORT_SLCT else u32 (ioport c + CTRL_PORT) in
  let '(s, ret) := wlan_write_data_sync addr data ok s in
  Some (if decide (ret = MLAN_STATUS_FAILURE) then set_cmd_sent false s else s, ret).
Definition wlan_sdio_host_to_card (c : sdio_cfg) (type : Z) (m : mbuf) (next_pkt_len : Z) (ok_aggr ok_cur : nat → bool) (s : sdio_card)
  : option (sdio_card * mlan_status) :=
  if type =? MLAN_TYPE_DATA then send_data c m next_pkt_len ok_aggr ok_cur s else send_cmd c m ok_cur s.

Definition wlan_sdio_send_vdll (c : sdio_cfg) (m : mbuf) (ok : nat → bool) (s : sdio_card) : option (sdio_card * mlan_status) :=
  m ← put_header MLAN_TYPE_VDLL m;
  let m := set_m_len (blocks (m_len m)) m in
  if MRVDRV_SIZE_OF_CMD_BUFFER <? m_len m then Some (s, MLAN_STATUS_FAILURE)
  else data ← payload m; Some (wlan_write_data_sync (Z.lor (ioport c) CMD_PORT_SLCT) data ok (set_cmd_sent true s)).
Definition wlan_sdio_host_to_card_ext (c : sdio_cfg) (type : Z) (m : mbuf) (next_pkt_len : Z) (ok_aggr ok_cur : nat → bool) (s : sdio_card)
  : option (sdio_card * mlan_status) :=
  if type =? MLAN_TYPE_VDLL then wlan_sdio_send_vdll c m ok_cur s
  else
    '(s, ret) ← wlan_sdio_host_to_card c type m next_pkt_len ok_aggr ok_cur s;
    Some (if (type =? MLAN_TYPE_DATA) && bool_decide (ret = MLAN_STATUS_FAILURE) then set_data_sent false s else s, ret).

(** ** What the card and the user change *)

(** The download interrupt in [wlan_process_sdio_int_status]; [bitmap] is what the
    registers hold.  [mp_update] counts how many ports were offered. *)
Definition bump_update (n : nat) (l : list Z) : option (list Z) :=
  if (n =? 0)%nat then Some l
  else
    x ← l !! (n - 1)%nat;
    let x := u32 (x + 1) in
    Some (if x =? 0xffffffff then replicate (length l) 0 else <[(n - 1)%nat := x]> l).
Definition dnld_interrupt (bitmap : Z) (s : sdio_card) : option sdio_card :=
  let s := if negb (Z.land (mp_wr_bitmap s) (mp_data_port_mask s) =? 0)
           then on_dbg (λ d, set_mp_invalid_update (u32 (mp_invalid_update d + 1)) d) s else s in
  let s := set_mp_wr_bitmap bitmap s in
  n ← bitcount (Z.land bitmap (mp_data_port_mask s));
  u ← bump_update (Z.to_nat n) (mp_update (dbg s));
  let s := on_dbg (set_mp_update u) s in
  Some (if data_sent s && port_free s then set_data_sent false s else s).

(** On every interrupt, for a card whose port 0 takes commands: a command was taken
    if the registers show that port free. *)
Definition cmd_port_free (c : sdio_cfg) (bitmap : Z) (s : sdio_card) : sdio_card :=
  if negb (new_mode c) && cmd_sent s then
    let s := set_mp_wr_bitmap (Z.lor (mp_wr_bitmap s) (Z.land (Z.land bitmap 0xff) CTRL_PORT_MASK)) s in
    if negb (Z.land (mp_wr_bitmap s) CTRL_PORT_MASK =? 0) then set_cmd_sent false s else s
  else s.

(** The ports from [mp_end_port] on are masked out: the loop over [ctr]. *)
Fixpoint mask_ports (n : nat) (max mask : Z) : Z :=
  match n with O => mask | S n => clear_bit (max - Z.of_nat (S n)) (mask_ports n max mask) end.
(** [HostCmd_CMD_RECONFIGURE_TX_BUFF] answered. *)
Definition reconfigure_tx_buff (c : sdio_cfg) (end_port : Z) (s : sdio_card) : sdio_card :=
  let s := set_mp_end_port end_port s in
  let s := set_mp_data_port_mask (mask_ports (Z.to_nat (max_ports c - end_port)) (max_ports c) (reg_data_port_mask c)) s in
  let s := set_curr_wr_port (start_wr_port c) s in
  on_tx (set_tx_aggr_limit (Z.min (Z.of_nat (mp_aggr_pkt_limit c)) (Z.shiftr end_port 1))) s.

(** The transmit part of the ioctl [wlan_misc_ioctl_sdio_mpa_ctrl] that sets the limits. *)
Definition mpa_ctrl (tx_enable : bool) (tx_max_ports : Z) (s : sdio_card) : sdio_card :=
  let s := if 0 <? tx_max_ports then on_tx (set_tx_aggr_limit tx_max_ports) s else s in
  on_tx (set_tx_enabled tx_enable) s.

(** ** The ports of an aggregate *)

(** The [i]-th port from [start] on, in a ring of the ports from [w] to below [e]. *)
Definition port_at (w e start i : Z) : Z := if start + i <? e then start + i else start + i - (e - w).
(** Its bit in the port bitmap: the port, or on older cards its distance from the
    first port in the ring of all ports. *)
Definition pbit (c : sdio_cfg) (e start i : Z) : Z :=
  let p := port_at (start_wr_port c) e start i in if new_mode c then p else (p - start) mod max_ports c.
Definition bits_of (l : list Z) : Z := foldr (λ b x, Z.lor x (Z.shiftl 1 b)) 0 l.

(** The ports an address names to the card, [e] being the end of its ring. *)
Definition addr_ports (c : sdio_cfg) (e addr : Z) : list Z :=
  let a := Z.land addr (Z.ones 16) in
  if bit a 12 then
    if new_mode c then port_at (start_wr_port c) e (Z.land a (Z.ones 8)) <$> seqZ 0 (Z.shiftr (Z.land a (Z.ones 12)) 8 + 1)
    else (λ j, (Z.land a (Z.ones 4) + j) mod max_ports c) <$> filter (λ j, bit a (4 + j) = true) (seqZ 0 8)
  else [a].
(** The packets of a transfer, each as long as its header says. *)
Fixpoint cut_data (ports : list Z) (data : list Z) : option (list (Z * list Z)) :=
  match ports with
  | [] => if decide (data = []) then Some [] else None
  | p :: ports =>
      n ← le16 data;
      let n := Z.to_nat (blocks n) in
      if decide (n <= length data)%nat then l ← cut_data ports (drop n data); Some ((p, take n data) :: l) else None
  end.
(** What a transfer carries: the ports its address names, each with the packet for it. *)
Definition addressed (c : sdio_cfg) (e : Z) (w : cmd53) : option (list (Z * list Z)) := cut_data (addr_ports c e (c_addr w)) (c_data w).
(** The attempts: up to the first that succeeds, at most one and [MAX_WRITE_IOMEM_RETRY] more. *)
Definition tried (w : cmd53) : Prop :=
  (∃ k, (k <= MAX_WRITE_IOMEM_RETRY)%nat ∧ c_tries w = replicate k false ++ [true]) ∨ c_tries w = replicate (S MAX_WRITE_IOMEM_RETRY) false.

Section ring.
Context (w e start : Z) (Hs : w <= start < e).

Lemma port_at_range i : 0 <= i <= e - w → w <= port_at w e start i < e.
Proof. unfold port_at. intros. destruct (Z.ltb_spec (start + i) e); lia. Qed.
Lemma port_at_next i : 0 <= i < e - w →
  port_at w e start (i + 1) = if port_at w e start i + 1 =? e then w else port_at w e start i + 1.
Proof.
  unfold port_at. intros. destruct (Z.ltb_spec (start + (i + 1)) e), (Z.ltb_spec (start + i) e);
    destruct (Z.eqb_spec (start + i + 1) e); destruct (Z.eqb_spec (start + i - (e - w) + 1) e); lia.
Qed.
Lemma port_at_inj i j : 0 <= i < e - w → 0 <= j < e - w → port_at w e start i = port_at w e start j → i = j.
Proof. unfold port_at. intros. destruct (Z.ltb_spec (start + i) e), (Z.ltb_spec (start + j) e); lia. Qed.
End ring.
Lemma port_at_0 w e start : start < e → port_at w e start 0 = start.
Proof. unfold port_at. intros. destruct (Z.ltb_spec (start + 0) e); lia. Qed.

Lemma bits_of_spec l n : Forall (λ b, 0 <= b) l → 0 <= n → Z.testbit (bits_of l) n = bool_decide (n ∈ l).
Proof.
  intros Hl Hn. induction Hl as [|b l Hb Hl IH]; cbn [bits_of foldr]; [by rewrite Z.bits_0|].
  change (foldr _ 0 l) with (bits_of l). rewrite Z.lor_spec, IH.
  assert (Z.testbit (Z.shiftl 1 b) n = bool_decide (n = b)) as ->.
  { rewrite Z.shiftl_1_l, Z.pow2_bits_eqb by lia. destruct (Z.eqb_spec b n); symmetry; [by apply bool_decide_eq_true|by apply bool_decide_eq_false; intros ->]. }
  rewrite <- bool_decide_or. apply bool_decide_ext. rewrite elem_of_cons. tauto.
Qed.
Lemma bits_of_snoc l b : bits_of (l ++ [b]) = Z.lor (bits_of l) (Z.shiftl 1 b).
Proof.
  induction l as [|x l IH]; [done|]. cbn. change (foldr _ 0 ?l) with (bits_of l). rewrite IH, <- !Z.lor_assoc. f_equal. apply Z.lor_comm.
Qed.
Lemma bits_of_range n l : 0 <= n → Forall (λ b, 0 <= b < n) l → 0 <= bits_of l < 2 ^ n.
Proof.
  intros Hn Hl. assert (Forall (λ b, 0 <= b) l) as H0 by (eapply Forall_impl; [exact Hl|cbn; lia]).
  assert (0 <= bits_of l).
  { clear Hl. induction H0 as [|b l Hb Hl IH]; cbn; [lia|]. apply Z.lor_nonneg. split; [done|]. apply Z.shiftl_nonneg. lia. }
  split; [done|]. destruct (decide (bits_of l = 0)) as [->|]; [by apply Z.pow_pos_nonneg|].
  apply Z.log2_lt_pow2; [lia|]. destruct (decide (Z.log2 (bits_of l) < n)) as [|Hge]; [done|]. exfalso.
  assert (Z.testbit (bits_of l) (Z.log2 (bits_of l)) = true) as Hb by (apply Z.bit_log2; lia).
  rewrite bits_of_spec in Hb by (done || apply Z.log2_nonneg). apply bool_decide_eq_true in Hb.
  rewrite Forall_forall in Hl. specialize (Hl _ Hb). lia.
Qed.

(** Counting the bits counts the packets. *)
Lemma popcount_filter k x : 0 <= x → popcount k x = Z.of_nat (length (filter (λ j, Z.testbit x (Z.of_nat j) = true) (seq 0 k))).
Proof.
  revert x. induction k as [|k IH]; intros x Hx; [done|]. cbn [popcount seq]. rewrite IH by by apply Z.div2_nonneg.
  rewrite filter_cons. cbn [Z.of_nat]. rewrite Z.bit0_odd.
  assert (filter (λ j, Z.testbit x (Z.of_nat j) = true) (seq 1 k) = S <$> filter (λ j, Z.testbit (Z.div2 x) (Z.of_nat j) = true) (seq 0 k)) as ->.
  { rewrite <- fmap_S_seq. generalize (seq 0 k) as l. induction l as [|j l IHl]; [done|]. cbn [fmap list_fmap]. rewrite !filter_cons.
    assert (Z.testbit x (Z.of_nat (S j)) = Z.testbit (Z.div2 x) (Z.of_nat j)) as ->.
    { rewrite Z.div2_spec, Z.shiftr_spec by lia. f_equal. lia. }
    case_decide; cbn [fmap list_fmap]; by rewrite <- IHl. }
  case_decide as Ho; cbn [length]; rewrite length_fmap; [rewrite Ho|apply not_true_is_false in Ho; rewrite Ho]; cbn [Z.b2z]; lia.
Qed.
Lemma popcount_bits l : NoDup l → Forall (λ b, 0 <= b < 32) l → popcount 32 (bits_of l) = Z.of_nat (length l).
Proof.
  intros Hnd Hl. rewrite popcount_filter by by apply (bits_of_range 32). f_equal.
  assert (filter (λ j, Z.testbit (bits_of l) (Z.of_nat j) = true) (seq 0 32) ≡ₚ Z.to_nat <$> l) as ->; [|by rewrite length_fmap].
  assert (Forall (λ b, 0 <= b) l) as H0 by (eapply Forall_impl; [exact Hl|cbn; lia]). rewrite Forall_forall in Hl.
  apply NoDup_Permutation; [apply NoDup_filter, NoDup_seq| |].
  - apply NoDup_fmap_2_strong; [|done]. intros x y Hx Hy. specialize (Hl _ Hx) as H1. specialize (Hl _ Hy) as H2. lia.
  - intros j. rewrite list_elem_of_filter, list_elem_of_fmap, elem_of_seq, bits_of_spec, bool_decide_eq_true by (done || lia).
    split; [intros [H _]; exists (Z.of_nat j); split; [lia|done]|]. intros (b & -> & Hb). specialize (Hl _ Hb).
    rewrite Z2Nat.id by lia. split; [done|lia].
Qed.

(** ** What the card makes of an address *)

(** The cards the driver knows. *)
Record cfg_ok (c : sdio_cfg) : Prop := {
  co_mode : new_mode c = true ∧ max_ports c = 32 ∧ start_wr_port c = 0 ∧ mp_aggr_pkt_limit c = 16%nat ∨
            new_mode c = false ∧ max_ports c = 16 ∧ start_wr_port c = 1 ∧ mp_aggr_pkt_limit c = 8%nat;
  co_ioport : 0 <= ioport c < 2 ^ 31 ∧ Z.land (ioport c) (Z.ones 16) = 0
}.

Lemma ioport_shape c : cfg_ok c → ∃ k, 0 <= k < 2 ^ 15 ∧ ioport c = Z.shiftl k 16.
Proof.
  intros [_ [Hr H]]. exists (ioport c / 2 ^ 16). rewrite Z.land_ones in H by lia.
  rewrite Z.shiftl_mul_pow2 by lia. split; [split; [apply Z.div_pos; lia|apply Z.div_lt_upper_bound; lia]|].
  pose proof (Z.div_mod (ioport c) (2 ^ 16) ltac:(lia)). lia.
Qed.
Lemma small_bits_high n x j : 0 <= x < 2 ^ n → n <= j → Z.testbit x j = false.
Proof.
  intros Hx Hj. destruct (decide (x = 0)) as [->|]; [apply Z.bits_0|]. apply Z.bits_above_log2; [lia|].
  assert (Z.log2 x < n) by (apply Z.log2_lt_pow2; lia). lia.
Qed.
Lemma shiftl_disjoint k n x : 0 <= x < 2 ^ n → Z.land (Z.shiftl k n) x = 0.
Proof.
  intros Hx. apply Z.bits_inj'. intros j Hj. rewrite Z.land_spec, Z.bits_0. destruct (decide (j < n)) as [|].
  - rewrite Z.shiftl_spec_low by lia. done.
  - rewrite (small_bits_high n x) by lia. apply andb_false_r.
Qed.
Lemma list_filter_iff' {A} (P Q : A → Prop) `{∀ x, Decision (P x)} `{∀ x, Decision (Q x)} (l : list A) :
  (∀ x, x ∈ l → P x ↔ Q x) → filter P l = filter Q l.
Proof.
  induction l as [|x l IH]; intros Hl; [done|]. rewrite !filter_cons, IH by (intros; apply Hl; by right).
  pose proof (Hl x ltac:(left)). repeat case_decide; tauto.
Qed.
(** Below the 16 bits the I/O port leaves free, an address is what was added. *)
Lemma ioport_low c x : cfg_ok c → 0 <= x < 2 ^ 16 → Z.land (ioport c + x) (Z.ones 16) = x.
Proof.
  intros Hc Hx. destruct (ioport_shape c Hc) as (k & Hk & ->). rewrite Z.land_ones, Z.shiftl_mul_pow2 by lia.
  rewrite Z.add_comm, Z.mod_add by lia. by apply Z.mod_small.
Qed.
Lemma ioport_lor c x : cfg_ok c → 0 <= x < 2 ^ 16 → Z.lor (ioport c) x = ioport c + x.
Proof.
  intros Hc Hx. destruct (ioport_shape c Hc) as (k & Hk & ->). symmetry. apply Z.add_nocarry_lor. by apply shiftl_disjoint.
Qed.

(** The address of an aggregate, below the I/O port. *)
Lemma aggr_low c x start : cfg_ok c → 0 <= x < 2 ^ 12 → 0 <= start < 32 →
  u32 (Z.lor (Z.lor (ioport c) SDIO_MPA_ADDR_BASE) x + start) = ioport c + (0x1000 + x + start).
Proof.
  intros Hc Hx Hs. rewrite <- Z.lor_assoc. pose proof (co_ioport c Hc) as [Hio _].
  assert (Z.lor SDIO_MPA_ADDR_BASE x = 0x1000 + x) as ->.
  { symmetry. apply Z.add_nocarry_lor. change SDIO_MPA_ADDR_BASE with (Z.shiftl 1 12). by apply shiftl_disjoint. }
  rewrite ioport_lor by (done || lia). rewrite u_wrap_small; lia.
Qed.

(** New cards: the count and the first port. *)
Lemma addr_ports_new c e n start : cfg_ok c → new_mode c = true → 1 <= n <= 16 → 0 <= start < 32 →
  addr_ports c e (ioport c + (0x1000 + Z.shiftl (n - 1) 8 + start)) = port_at (start_wr_port c) e start <$> seqZ 0 n.
Proof.
  intros Hc Hm Hn Hs. unfold addr_ports. cbv zeta. rewrite ioport_low; [|done|rewrite Z.shiftl_mul_pow2 by lia; lia]. rewrite Hm.
  assert (Forall (λ n, Forall (λ s, bit (0x1000 + Z.shiftl (n - 1) 8 + s) 12 = true ∧
    Z.land (0x1000 + Z.shiftl (n - 1) 8 + s) (Z.ones 8) = s ∧
    Z.shiftr (Z.land (0x1000 + Z.shiftl (n - 1) 8 + s) (Z.ones 12)) 8 + 1 = n) (seqZ 0 32)) (seqZ 1 16)) as H.
  { refine (bool_decide_unpack _ _). vm_compute. exact I. }
  rewrite Forall_forall in H. specialize (H n). rewrite elem_of_seqZ, Forall_forall in H. specialize (H ltac:(lia) start).
  rewrite elem_of_seqZ in H. destruct (H ltac:(lia)) as (-> & -> & ->). done.
Qed.

(** Older cards: the bitmap of the distances from the first port. *)
Lemma addr_ports_old c e b start : cfg_ok c → new_mode c = false → 0 <= b < 256 → 0 <= start < 16 →
  addr_ports c e (ioport c + (0x1000 + Z.shiftl b 4 + start)) =
  (λ j, (start + j) mod max_ports c) <$> filter (λ j, Z.testbit b j = true) (seqZ 0 8).
Proof.
  intros Hc Hm Hb Hs. unfold addr_ports. cbv zeta. rewrite ioport_low; [|done|rewrite Z.shiftl_mul_pow2 by lia; lia]. rewrite Hm.
  assert (Z.shiftl b 4 = 16 * b) as Eb by (rewrite Z.shiftl_mul_pow2 by lia; lia).
  assert (0x1000 + Z.shiftl b 4 + start = Z.lor (Z.shiftl (256 + b) 4) start) as ->.
  { rewrite <- Z.add_nocarry_lor by by apply shiftl_disjoint. rewrite !Z.shiftl_mul_pow2 by lia. lia. }
  assert (∀ j, 0 <= j → Z.testbit (Z.lor (Z.shiftl (256 + b) 4) start) (4 + j) = Z.testbit (256 + b) j) as Hbit.
  { intros j Hj. rewrite Z.lor_spec, Z.shiftl_spec by lia. rewrite (small_bits_high 4 start) by lia.
    rewrite orb_false_r. f_equal. lia. }
  assert (bit (Z.lor (Z.shiftl (256 + b) 4) start) 12 = true) as ->.
  { unfold bit. change (Z.testbit (Z.lor (Z.shiftl (256 + b) 4) start) (4 + 8) = true). rewrite (Hbit 8) by lia.
    rewrite Z.testbit_true by lia. change (2 ^ 8) with 256. replace (256 + b) with (b + 1 * 256) by lia.
    rewrite Z.div_add, Z.div_small by lia. done. }
  rewrite Z.land_lor_distr_l, Z.land_ones, Z.shiftl_mul_pow2 by lia.
  rewrite Z.mod_mul, Z.lor_0_l, Z.land_ones, (Z.mod_small start) by lia. f_equal.
  apply list_filter_iff'. intros j Hj%elem_of_seqZ. unfold bit. rewrite <- Z.shiftl_mul_pow2, Hbit by lia.
  assert (Z.testbit (256 + b) j = Z.testbit b j) as ->; [|done].
  replace (256 + b) with (b + 1 * 2 ^ 8) by lia. rewrite <- (Z.mod_pow2_bits_low _ 8) by lia. rewrite Z.mod_add by lia.
  by rewrite Z.mod_pow2_bits_low by lia.
Qed.

(** ** The address of an aggregate *)

Definition agg_ports (c : sdio_cfg) (e start n : Z) : list Z := port_at (start_wr_port c) e start <$> seqZ 0 n.
Definition agg_bits (c : sdio_cfg) (e start n : Z) : list Z := pbit c e start <$> seqZ 0 n.

(** The end of the ring of write ports. *)
Definition end_ok (c : sdio_cfg) (e : Z) : Prop := start_wr_port c < e <= max_ports c.
(** At most one turn of the ring, and on older cards all bits in the address. *)
Definition span_ok (c : sdio_cfg) (e start n : Z) : Prop :=
  n <= e - start_wr_port c ∧ (new_mode c = false → ∀ i, 0 <= i < n → pbit c e start i < 8).

(** Older cards, by evaluation for every ring end, first port and count. *)
Definition old_check (e start n : Z) : bool :=
  let bs := (λ i, (port_at 1 e start i - start) mod 16) <$> seqZ 0 n in
  let b := bits_of bs in
  negb (forallb (λ x, x <? 8) bs) ||
  (bool_decide ((λ j, (start + j) mod 16) <$> filter (λ j, Z.testbit b j = true) (seqZ 0 8) = port_at 1 e start <$> seqZ 0 n) &&
   (0 <=? b) && (b <? 256)).
Lemma old_checked e start n : 1 < e <= 16 → 1 <= start < e → 0 <= n <= e - 1 → old_check e start n = true.
Proof.
  intros He Hs Hn.
  assert (Forall (λ e, Forall (λ s, Forall (λ n, e - 1 < n ∨ old_check e s n = true) (seqZ 0 16)) (seqZ 1 (e - 1))) (seqZ 2 15)) as H.
  { refine (bool_decide_unpack _ _). vm_compute. exact I. }
  rewrite Forall_forall in H. specialize (H e). rewrite elem_of_seqZ, Forall_forall in H. specialize (H ltac:(lia) start).
  rewrite elem_of_seqZ, Forall_forall in H. specialize (H ltac:(lia) n). rewrite elem_of_seqZ in H.
  destruct (H ltac:(lia)); [lia|done].
Qed.

Section address.
Context (c : sdio_cfg) (Hc : cfg_ok c) (e : Z) (He : end_ok c e).

Lemma agg_ports_range start n : start_wr_port c <= start < e → n <= e - start_wr_port c →
  Forall (λ p, 0 <= p < 32) (agg_ports c e start n).
Proof.
  intros Hs Hn. apply Forall_forall. intros p (i & -> & Hi%elem_of_seqZ)%list_elem_of_fmap.
  pose proof (port_at_range (start_wr_port c) e start Hs i ltac:(lia)). unfold end_ok in He. destruct (co_mode c Hc); lia.
Qed.
Lemma agg_ports_NoDup start n : start_wr_port c <= start < e → n <= e - start_wr_port c → NoDup (agg_ports c e start n).
Proof.
  intros Hs Hn. unfold agg_ports. apply NoDup_fmap_2_strong; [|apply NoDup_seqZ]. intros i j Hi%elem_of_seqZ Hj%elem_of_seqZ Heq.
  apply (port_at_inj (start_wr_port c) e start) in Heq; lia.
Qed.
Lemma agg_bits_new start n : new_mode c = true → agg_bits c e start n = agg_ports c e start n.
Proof. intros Hm. unfold agg_bits, agg_ports. apply list_fmap_ext. intros. unfold pbit. by rewrite Hm. Qed.

Lemma old_decode start n : new_mode c = false → start_wr_port c <= start < e → 0 <= n → span_ok c e start n →
  0 <= bits_of (agg_bits c e start n) < 256 ∧
  (λ j, (start + j) mod max_ports c) <$> filter (λ j, Z.testbit (bits_of (agg_bits c e start n)) j = true) (seqZ 0 8) = agg_ports c e start n.
Proof.
  intros Hm Hs Hn [Hn2 Hb]. destruct (co_mode c Hc) as [[? _]|(_ & Hmax & Hw & _)]; [congruence|]. unfold end_ok in He.
  rewrite Hw, Hmax in *. assert (agg_bits c e start n = (λ i, (port_at 1 e start i - start) mod 16) <$> seqZ 0 n) as Eb.
  { unfold agg_bits. apply list_fmap_ext. intros i x _. unfold pbit. by rewrite Hm, Hw, Hmax. }
  pose proof (old_checked e start n ltac:(lia) ltac:(lia) ltac:(lia)) as Hck. unfold old_check in Hck. cbv zeta in Hck.
  rewrite <- Eb in Hck. apply orb_true_iff in Hck as [Hck|Hck].
  - exfalso. apply negb_true_iff in Hck. apply not_true_iff_false in Hck. apply Hck. apply forallb_forall. intros x Hx.
    apply list_elem_of_In, list_elem_of_fmap in Hx as (i & -> & Hi%elem_of_seqZ). specialize (Hb Hm i ltac:(lia)). lia.
  - apply andb_true_iff in Hck as [[Hck H1]%andb_true_iff H2]. apply bool_decide_eq_true in Hck.
    split; [lia|]. rewrite Hck. unfold agg_ports. by rewrite Hw.
Qed.

(** The address of a transfer names the ports of its packets, in their order. *)
Lemma aggr_addr_ports t start : (1 <= tx_pkt_cnt t <= 16)%nat → start_wr_port c <= start < e → tx_start_port t = start →
  tx_ports t = bits_of (agg_bits c e start (Z.of_nat (tx_pkt_cnt t))) → span_ok c e start (Z.of_nat (tx_pkt_cnt t)) →
  ∃ addr, aggr_addr c t = Some addr ∧ addr_ports c e addr = agg_ports c e start (Z.of_nat (tx_pkt_cnt t)) ∧
    ioport c + start_wr_port c <= addr < ioport c + 0x8000.
Proof.
  intros Hn Hs Est Eb Hsp. unfold aggr_addr. pose proof (co_ioport c Hc) as [Hio _]. unfold end_ok in He.
  assert (max_ports c <= 32 ∧ 0 <= start_wr_port c) as [Hmax Hw0] by (destruct (co_mode c Hc); lia).
  case_match eqn:E1.
  { apply Nat.eqb_eq in E1. rewrite E1, Est. rewrite u_wrap_small by lia. eexists. split; [done|].
    unfold addr_ports. cbv zeta. rewrite ioport_low by (done || lia).
    assert (bit start 12 = false) as -> by (apply (small_bits_high 12); lia).
    split; [|lia]. unfold agg_ports. change (seqZ 0 (Z.of_nat 1)) with [0]. cbn [fmap list_fmap]. by rewrite port_at_0 by lia. }
  apply Nat.eqb_neq in E1. rewrite Est, Eb. destruct (new_mode c) eqn:Em.
  - rewrite agg_bits_new by done. destruct Hsp as [Hsp _].
    pose proof (agg_ports_range start _ Hs Hsp) as Hr. pose proof (agg_ports_NoDup start _ Hs Hsp) as Hnd.
    pose proof (bits_of_range 32 _ ltac:(lia) Hr) as Hb. rewrite bitcount_correct by done. cbn [mbind option_bind].
    rewrite popcount_bits by done. unfold agg_ports at 1. rewrite length_fmap, length_seqZ, Nat2Z.id.
    set (n := Z.of_nat (tx_pkt_cnt t)) in *. assert (2 <= n <= 16) as Hn2 by lia.
    assert (Z.shiftl (n - 1) 8 = 256 * (n - 1)) as E8 by (rewrite Z.shiftl_mul_pow2 by lia; lia).
    rewrite (u_wrap_small 32 (n - 1)), (u_wrap_small 32 (Z.shiftl (n - 1) 8)) by lia.
    eexists. split; [reflexivity|]. rewrite aggr_low by (done || lia). split; [|lia]. by rewrite addr_ports_new by (done || lia).
  - destruct (old_decode start (Z.of_nat (tx_pkt_cnt t)) Em Hs ltac:(lia) Hsp) as [Hb Hd]. cbn [mbind option_bind].
    set (b := bits_of _) in *. assert (Z.shiftl b 4 = 16 * b) as E4 by (rewrite Z.shiftl_mul_pow2 by lia; lia).
    rewrite (u_wrap_small 32 (Z.shiftl b 4)) by lia. eexists. split; [reflexivity|].
    assert (start < 16) by (destruct (co_mode c Hc) as [[? _]|(_ & ? & _)]; [congruence|lia]).
    rewrite aggr_low by (done || lia). split; [|lia]. rewrite addr_ports_old by (done || lia). exact Hd.
Qed.
End address.

(** ** The aggregate and what it stands for *)

(** A packet with its header, padded. *)
Definition cut_ok (d : list Z) : Prop := ∃ h, le16 d = Some h ∧ blocks h = Z.of_nat (length d) ∧ d ≠ [].
Lemma le16_app d k h : le16 d = Some h → le16 (d ++ k) = Some h.
Proof. destruct d as [|a [|b d]]; by intros H. Qed.
Lemma cut_data_concat (agg : list (Z * list Z)) : Forall (λ x, cut_ok x.2) agg → cut_data agg.*1 (concat agg.*2) = Some agg.
Proof.
  induction 1 as [|[p d] agg (h & Hh & Hb & Hd) Hall IH]; [done|]. cbn [fmap list_fmap fst snd concat cut_data].
  cbn in Hh, Hb. change (concat (map snd agg)) with (concat agg.*2). rewrite (le16_app _ _ _ Hh). cbn [mbind option_bind].
  rewrite Hb, Nat2Z.id, length_app, decide_True by lia. rewrite drop_app_length, take_app_length.
  change (map fst agg) with agg.*1. by rewrite IH.
Qed.

(** The packets [agg], collected from the buffers [ms], of card [s]. *)
Record agg_rep (c : sdio_cfg) (s : sdio_card) (agg : list (Z * list Z)) (ms : list mbuf) : Prop := {
  ag_cnt : tx_pkt_cnt (mpa_tx s) = length agg;
  ag_ms : Forall2 (λ m a, payload m = Some a.2) ms agg;
  ag_cut : Forall (λ a, cut_ok a.2) agg;
  ag_len : tx_buf_len (mpa_tx s) = Z.of_nat (length (concat agg.*2));
  ag_room : tx_buf_len (mpa_tx s) <= tx_buf_size (mpa_tx s) < 2 ^ 31;
  ag_data : match tx_buf (mpa_tx s) with
    | Some b => Z.of_nat (length b) = tx_buf_size (mpa_tx s) ∧ take (length (concat agg.*2)) b = concat agg.*2
    | None => take (length agg) (tx_mbufs (mpa_tx s)) = Some <$> ms
    end;
  ag_start : agg ≠ [] → start_wr_port c <= tx_start_port (mpa_tx s) < mp_end_port s;
  ag_ports : agg.*1 = agg_ports c (mp_end_port s) (tx_start_port (mpa_tx s)) (Z.of_nat (length agg));
  ag_bits : tx_ports (mpa_tx s) = bits_of (agg_bits c (mp_end_port s) (tx_start_port (mpa_tx s)) (Z.of_nat (length agg)));
  ag_span : span_ok c (mp_end_port s) (tx_start_port (mpa_tx s)) (Z.of_nat (length agg));
  ag_info : length (mp_wr_info (mpa_tx s)) = SDIO_MP_AGGR_DEF_PKT_LIMIT_MAX;
  ag_arr : length (tx_mbufs (mpa_tx s)) = SDIO_MP_AGGR_DEF_PKT_LIMIT_MAX
}.

(** The port whose turn it is. *)
Definition in_turn (c : sdio_cfg) (s : sdio_card) (agg : list (Z * list Z)) (p : Z) : Prop :=
  start_wr_port c <= p < mp_end_port s ∧
  (agg ≠ [] → p = port_at (start_wr_port c) (mp_end_port s) (tx_start_port (mpa_tx s)) (Z.of_nat (length agg))).
(** The first port once [p] is added. *)
Definition start_with (s : sdio_card) (agg : list (Z * list Z)) (p : Z) : Z :=
  match agg with [] => p | _ => tx_start_port (mpa_tx s) end.

Lemma seqZ_snoc n : 0 <= n → seqZ 0 (n + 1) = seqZ 0 n ++ [n].
Proof. intros H. rewrite (seqZ_app 0 n 1) by lia. done. Qed.

Lemma port_bit_turn c s agg p : cfg_ok c → end_ok c (mp_end_port s) → agg ≠ [] → in_turn c s agg p →
  start_wr_port c <= tx_start_port (mpa_tx s) < mp_end_port s → Z.of_nat (length agg) < mp_end_port s - start_wr_port c →
  port_bit c (mp_end_port s) (tx_start_port (mpa_tx s)) p (length agg) =
  pbit c (mp_end_port s) (tx_start_port (mpa_tx s)) (Z.of_nat (length agg)).
Proof.
  intros Hc He Hne [_ Hp] Hs Hn. rewrite (Hp Hne). unfold port_bit, pbit. destruct (new_mode c) eqn:Em; [done|].
  destruct (co_mode c Hc) as [[? _]|(_ & Hmax & Hw & _)]; [congruence|]. unfold end_ok in He. unfold port_at. rewrite Hmax, Hw in *.
  set (n := Z.of_nat (length agg)) in *. set (st := tx_start_port (mpa_tx s)) in *. set (e := mp_end_port s) in *.
  assert (0 <= n) by lia. destruct (Z.ltb_spec (st + n) e).
  - rewrite (proj2 (Z.leb_le st (st + n))) by lia. rewrite Z.mod_small; lia.
  - rewrite (proj2 (Z.leb_gt st _)) by lia. apply (Z.mod_unique_pos _ _ (-1)); lia.
Qed.

(** What an operation on the aggregate leaves alone. *)
Record tx_frame (s s' : sdio_card) : Prop := {
  fr_bitmap : mp_wr_bitmap s' = mp_wr_bitmap s;
  fr_end : mp_end_port s' = mp_end_port s;
  fr_mask : mp_data_port_mask s' = mp_data_port_mask s;
  fr_curr : curr_wr_port s' = curr_wr_port s;
  fr_sent : data_sent s' = data_sent s ∧ cmd_sent s' = cmd_sent s;
  fr_set : tx_enabled (mpa_tx s') = tx_enabled (mpa_tx s) ∧ tx_buf_size (mpa_tx s') = tx_buf_size (mpa_tx s) ∧
    tx_aggr_limit (mpa_tx s') = tx_aggr_limit (mpa_tx s);
  fr_sg : tx_buf (mpa_tx s') = None ↔ tx_buf (mpa_tx s) = None
}.
Lemma tx_frame_refl s : tx_frame s s.
Proof. by constructor. Qed.
Lemma tx_frame_trans s1 s2 s3 : tx_frame s1 s2 → tx_frame s2 s3 → tx_frame s1 s3.
Proof.
  intros [? ? ? ? [? ?] (? & ? & ?) ?] [? ? ? ? [? ?] (? & ? & ?) ?].
  constructor; [congruence..|split; congruence|split_and!; congruence|by etransitivity].
Qed.

Lemma splice_take {A} (k l : list A) n : (n + length k <= length l)%nat →
  ∃ l', splice n k l = Some l' ∧ length l' = length l ∧ take (n + length k) l' = take n l ++ k.
Proof.
  intros H. unfold splice. rewrite decide_True by done. eexists. split; [done|]. split.
  - rewrite !length_app, length_take, length_drop. lia.
  - rewrite app_assoc, take_app_length'; [done|]. rewrite length_app, length_take. lia.
Qed.
Lemma put_take {A} (x : A) l n : (n < length l)%nat →
  ∃ l', put n x l = Some l' ∧ length l' = length l ∧ take (S n) l' = take n l ++ [x].
Proof.
  intros H. unfold put. rewrite decide_True by done. eexists. split; [done|]. split; [apply length_insert|].
  rewrite (take_S_r _ _ x) by by apply list_lookup_insert_eq. by rewrite take_insert_ge by lia.
Qed.

(** The span of one packet more. *)
Definition span_next (c : sdio_cfg) (s : sdio_card) (agg : list (Z * list Z)) (p : Z) : Prop :=
  span_ok c (mp_end_port s) (start_with s agg p) (Z.of_nat (length agg) + 1).

Lemma payload_length m d : payload m = Some d → 0 <= m_len m → Z.of_nat (length d) = m_len m.
Proof. unfold payload. case_decide; [|done]. intros [= <-] Hp. rewrite length_take. lia. Qed.
Lemma payload_le16 m d h : payload m = Some d → le16 d = Some h → le16 (m_mem m) = Some h.
Proof.
  unfold payload. case_decide as Hl; [|done]. intros [= <-] Hh. rewrite <- (take_drop (Z.to_nat (m_len m)) (m_mem m)).
  by apply le16_app.
Qed.

Lemma start_with_ports c s agg p : agg_rep c s agg [] ∨ True → in_turn c s agg p → end_ok c (mp_end_port s) →
  Z.of_nat (length agg) < mp_end_port s - start_wr_port c →
  agg.*1 = agg_ports c (mp_end_port s) (tx_start_port (mpa_tx s)) (Z.of_nat (length agg)) →
  agg.*1 ++ [p] = agg_ports c (mp_end_port s) (start_with s agg p) (Z.of_nat (length agg) + 1).
Proof.
  intros _ [Hr Hp] He Hn Hports. unfold agg_ports in *. destruct agg as [|a agg].
  - cbn [length start_with fmap list_fmap app]. change (Z.of_nat 0 + 1) with 1. change (seqZ 0 1) with [0]. cbn [fmap list_fmap].
    by rewrite port_at_0 by lia.
  - rewrite seqZ_snoc, fmap_app by lia. rewrite Hports. cbn [start_with fmap list_fmap]. by rewrite <- Hp.
Qed.

Lemma pbit_range c e start i : cfg_ok c → end_ok c e → start_wr_port c <= start < e → 0 <= i <= e - start_wr_port c →
  0 <= pbit c e start i < 32.
Proof.
  intros Hc He Hs Hi. pose proof (port_at_range (start_wr_port c) e start Hs i Hi). unfold end_ok in He. unfold pbit.
  destruct (new_mode c); destruct (co_mode c Hc) as [(_ & Hm & Hw & _)|(_ & Hm & Hw & _)]; rewrite ?Hm, ?Hw in *; try lia;
    pose proof (Z.mod_pos_bound (port_at 0 e start i - start) 32 ltac:(lia));
    pose proof (Z.mod_pos_bound (port_at 1 e start i - start) 16 ltac:(lia)); lia.
Qed.
Lemma next_bit c s agg p : cfg_ok c → end_ok c (mp_end_port s) → in_turn c s agg p →
  (agg ≠ [] → start_wr_port c <= tx_start_port (mpa_tx s) < mp_end_port s) →
  Z.of_nat (length agg) < mp_end_port s - start_wr_port c →
  u32 (Z.shiftl 1 (port_bit c (mp_end_port s) (start_with s agg p) p (length agg))) =
  Z.shiftl 1 (pbit c (mp_end_port s) (start_with s agg p) (Z.of_nat (length agg))).
Proof.
  intros Hc He Hp Hs Hn. assert (start_wr_port c <= start_with s agg p < mp_end_port s) as Hst.
  { unfold start_with. destruct agg; [apply Hp|by apply Hs]. }
  pose proof (pbit_range c (mp_end_port s) _ (Z.of_nat (length agg)) Hc He Hst ltac:(lia)) as Hr.
  assert (port_bit c (mp_end_port s) (start_with s agg p) p (length agg) =
    pbit c (mp_end_port s) (start_with s agg p) (Z.of_nat (length agg))) as ->.
  { destruct agg as [|a agg].
    - cbn [start_with length] in *. unfold port_bit, pbit. change (Z.of_nat 0) with 0. rewrite port_at_0 by lia.
      destruct (new_mode c); [done|]. rewrite Z.leb_refl, Z.sub_diag. by rewrite Zmod_0_l.
    - by apply port_bit_turn; [..|apply Hs|]. }
  apply u_wrap_small. rewrite Z.shiftl_1_l. split; [apply Z.pow_nonneg; lia|apply Z.pow_lt_mono_r; lia].
Qed.

Lemma tx_put_spec c s agg ms m p d : cfg_ok c → end_ok c (mp_end_port s) → agg_rep c s agg ms → payload m = Some d → cut_ok d →
  0 <= m_len m → in_turn c s agg p → tx_buf_len (mpa_tx s) + m_len m <= tx_buf_size (mpa_tx s) → (length agg < 16)%nat →
  span_next c s agg p →
  ∃ t, tx_put c m p s = Some (set_mpa_tx t s) ∧ agg_rep c (set_mpa_tx t s) (agg ++ [(p, d)]) (ms ++ [m]) ∧ tx_frame s (set_mpa_tx t s) ∧
    tx_start_port t = start_with s agg p.
Proof.
  intros Hc He Hr Hd Hcut Hml Hp Hroom Hn Hspan. destruct Hr as [Hcnt Hms Hcuts Hlen Hsz Hdata Hstart Hports Hbits Hsp Hinfo Harr].
  set (t := mpa_tx s) in *. pose proof (payload_length m d Hd Hml) as Hdl. destruct Hcut as (h & Hh & Hcut).
  assert (length (concat agg.*2) = Z.to_nat (tx_buf_len t)) as Hl by lia.
  assert (∃ buf mbufs, (match tx_buf t with
      | Some b => d ← payload m; b ← splice (Z.to_nat (tx_buf_len t)) d b; Some (Some b) | None => Some None end) = Some buf ∧
    (match tx_buf t with Some _ => Some (tx_mbufs t) | None => put (tx_pkt_cnt t) (Some m) (tx_mbufs t) end) = Some mbufs ∧
    length mbufs = 16%nat ∧ (buf = None ↔ tx_buf t = None) ∧
    match buf with
    | Some b => Z.of_nat (length b) = tx_buf_size t ∧ take (length (concat (agg ++ [(p, d)]).*2)) b = concat (agg ++ [(p, d)]).*2
    | None => take (length (agg ++ [(p, d)])) mbufs = Some <$> (ms ++ [m])
    end) as (buf & mbufs & Ebuf & Embufs & Hmb & Hbn & Hdata').
  { destruct (tx_buf t) as [b|] eqn:Eb.
    - destruct Hdata as [Hbl Htk]. destruct (splice_take d b (Z.to_nat (tx_buf_len t))) as (b' & Es & Hbl' & Ht); [lia|].
      rewrite Hd. cbn [mbind option_bind]. rewrite Es. cbn [mbind option_bind]. do 2 eexists. split; [done|]. split; [done|].
      split; [done|]. split; [done|]. rewrite fmap_app, concat_app. cbn [fmap list_fmap snd concat]. rewrite app_nil_r, length_app, Hl.
      split; [lia|]. rewrite Ht. f_equal. by rewrite <- Hl.
    - destruct (put_take (Some m) (tx_mbufs t) (tx_pkt_cnt t)) as (l' & Ep & Hl' & Ht); [by rewrite Harr, Hcnt|].
      rewrite Ep. do 2 eexists. split; [done|]. split; [done|]. split; [by rewrite Hl'|]. split; [done|].
      rewrite length_app, Nat.add_1_r, <- Hcnt, Ht, fmap_app. by rewrite Hcnt, Hdata. }
  destruct (put_take h (mp_wr_info t) (tx_pkt_cnt t)) as (info & Einfo & Hinf & _); [by rewrite Hinfo, Hcnt|].
  unfold tx_put. fold t. rewrite Ebuf. cbn [mbind option_bind]. rewrite (payload_le16 _ _ _ Hd Hh). cbn [mbind option_bind].
  rewrite Einfo. cbn [mbind option_bind]. rewrite Embufs. cbn [mbind option_bind]. eexists. split; [reflexivity|].
  assert ((if (tx_pkt_cnt t =? 0)%nat then p else tx_start_port t) = start_with s agg p) as Est.
  { rewrite Hcnt. by destruct agg. }
  split; [|split; [by constructor|exact Est]].
  assert (Z.of_nat (length agg) < mp_end_port s - start_wr_port c) as Hring by (destruct Hspan; lia).
  constructor; cbn [set_mpa_tx mpa_tx tx_pkt_cnt tx_buf_len tx_buf tx_buf_size tx_mbufs tx_start_port tx_ports mp_wr_info mp_end_port].
  - rewrite length_app. cbn. lia.
  - apply Forall2_app; [done|by constructor].
  - apply Forall_app. split; [done|]. constructor; [by exists h|constructor].
  - rewrite fmap_app, concat_app, length_app. cbn [fmap list_fmap snd concat]. rewrite app_nil_r, u_wrap_small by lia. lia.
  - rewrite u_wrap_small by lia. lia.
  - exact Hdata'.
  - intros _. rewrite Est. unfold start_with. destruct agg; [apply Hp|by apply Hstart].
  - rewrite Est, fmap_app. cbn [fmap list_fmap fst]. rewrite length_app, Nat2Z.inj_add. cbn [length].
    by apply start_with_ports; [right|..].
  - rewrite Est, length_app, Nat2Z.inj_add. cbn [length]. change (Z.of_nat 1) with 1. unfold agg_bits.
    rewrite seqZ_snoc, fmap_app by lia. cbn [fmap list_fmap]. rewrite bits_of_snoc. f_equal.
    + rewrite Hbits. unfold start_with. by destruct agg.
    + by rewrite Hcnt, (next_bit c s agg p).
  - rewrite Est, length_app, Nat2Z.inj_add. exact Hspan.
  - by rewrite Hinf.
  - exact Hmb.
Qed.

(** ** Transfers *)

Record dbg_ok (c : sdio_cfg) (d : mp_dbg) : Prop := {
  db_count : length (mpa_tx_count d) = SDIO_MP_AGGR_DEF_PKT_LIMIT_MAX;
  db_update : length (mp_update d) = (2 * SDIO_MP_AGGR_DEF_PKT_LIMIT_MAX)%nat;
  db_last : length (last_mp d) = SDIO_MP_DBG_NUM;
  db_info : length (last_mp_wr_info d) = (SDIO_MP_DBG_NUM * SDIO_MP_AGGR_DEF_PKT_LIMIT_MAX)%nat;
  db_index : (last_mp_index d < SDIO_MP_DBG_NUM)%nat;
  db_buf : ∀ b, mpa_buf d = Some b → length b = (SDIO_MP_DBG_NUM * mp_aggr_pkt_limit c)%nat
}.
Lemma limit_range c : cfg_ok c → (1 <= mp_aggr_pkt_limit c <= 16)%nat.
Proof. intros Hc. destruct (co_mode c Hc); lia. Qed.

Lemma trace_spec c addr len info cnt s : cfg_ok c → dbg_ok c (dbg s) → (1 <= cnt <= 16)%nat → length info = mp_aggr_pkt_limit c →
  ∃ d, trace c addr len info cnt s = Some (set_dbg d s) ∧ dbg_ok c d.
Proof.
  intros Hc [H1 H2 H3 H4 H5 H6] Hcnt Hinfo. pose proof (limit_range c Hc) as Hlim. unfold trace.
  unfold SDIO_MP_AGGR_DEF_PKT_LIMIT_MAX, SDIO_MP_DBG_NUM in *.
  destruct (lookup_lt_is_Some_2 (mpa_tx_count (dbg s)) (cnt - 1)) as [x ->]; [lia|]. cbn [mbind option_bind].
  destruct (put_take (u32 (x + 1)) (mpa_tx_count (dbg s)) (cnt - 1)) as (l1 & -> & L1 & _); [lia|]. cbn [mbind option_bind].
  destruct (put_take (mp_wr_bitmap s, addr, len, curr_wr_port s) (last_mp (dbg s)) (last_mp_index (dbg s))) as (l2 & -> & L2 & _); [lia|].
  cbn [mbind option_bind].
  destruct (splice_take info (last_mp_wr_info (dbg s)) (last_mp_index (dbg s) * mp_aggr_pkt_limit c)) as (l3 & -> & L3 & _).
  { pose proof (Nat.mul_le_mono (last_mp_index (dbg s)) 9 (mp_aggr_pkt_limit c) 16 ltac:(lia) ltac:(lia)). lia. }
  cbn [mbind option_bind]. eexists. split; [reflexivity|]. constructor; unfold SDIO_MP_AGGR_DEF_PKT_LIMIT_MAX, SDIO_MP_DBG_NUM; try (cbn [mpa_tx_count mp_update last_mp last_mp_wr_info mpa_buf]; congruence).
  2: exact H6. cbn [last_mp_index]. case_match eqn:E; [lia|]. apply Nat.leb_gt in E. exact E.
Qed.
Lemma keep_block_spec c cnt m s : dbg_ok c (dbg s) → (cnt < mp_aggr_pkt_limit c)%nat →
  MLAN_SDIO_BLOCK_SIZE <= Z.of_nat (length (m_mem m)) → ∃ d, keep_block c cnt m s = Some (set_dbg d s) ∧ dbg_ok c d.
Proof.
  intros [H1 H2 H3 H4 H5 H6] Hcnt Hm. unfold keep_block. destruct (mpa_buf (dbg s)) as [b|] eqn:Eb.
  - rewrite decide_True by done. specialize (H6 b eq_refl).
    destruct (put_take (take (Z.to_nat MLAN_SDIO_BLOCK_SIZE) (m_mem m)) b (last_mp_index (dbg s) * mp_aggr_pkt_limit c + cnt)) as (l & -> & L & _).
    { rewrite H6. unfold SDIO_MP_DBG_NUM in *.
      pose proof (Nat.mul_le_mono_r (last_mp_index (dbg s)) 9 (mp_aggr_pkt_limit c) ltac:(lia)). lia. }
    cbn [mbind option_bind]. eexists. split; [reflexivity|]. constructor; cbn; try done. intros b' [= <-]. by rewrite L.
  - exists (dbg s). split; [by destruct s|]. constructor; try done. by rewrite Eb.
Qed.
Lemma no_ports_spec c s : dbg_ok c (dbg s) → ∃ d, no_ports s = set_dbg d s ∧ dbg_ok c d.
Proof. intros []. eexists. split; [reflexivity|]. by constructor. Qed.

(** Only the traces differ. *)
Lemma agg_rep_dbg c s d agg ms : agg_rep c s agg ms → agg_rep c (set_dbg d s) agg ms.
Proof. intros []. by constructor. Qed.
Lemma set_dbg_set_dbg d d' s : set_dbg d (set_dbg d' s) = set_dbg d s.
Proof. done. Qed.

Lemma write_sync addr data ok s : ∃ w st, wlan_write_data_sync addr data ok s = (set_writes (writes s ++ [w]) s, st) ∧
  c_addr w = addr ∧ c_data w = data ∧ (st = MLAN_STATUS_SUCCESS ∨ st = MLAN_STATUS_FAILURE) ∧ tried w.
Proof.
  unfold wlan_write_data_sync. destruct (write_tries (S MAX_WRITE_IOMEM_RETRY) 0 ok) as [l st] eqn:E.
  do 2 eexists. split; [reflexivity|]. do 2 (split; [done|]). cbn [c_tries].
  cbn in E. destruct (ok 0%nat) eqn:E0.
  { injection E as <- <-. split; [auto|]. left. exists 0%nat. split; [lia|done]. }
  destruct (ok 1%nat).
  { injection E as <- <-. split; [auto|]. left. exists 1%nat. split; [unfold MAX_WRITE_IOMEM_RETRY; lia|done]. }
  destruct (ok 2%nat); injection E as <- <-; (split; [auto|]); [left|by right].
  exists 2%nat. split; [unfold MAX_WRITE_IOMEM_RETRY; lia|done].
Qed.

(** The state after a transfer: [w] is done, [done] completed, the rest but for the
    traces and the aggregate as it was. *)
Record transferred (c : sdio_cfg) (s s' : sdio_card) (w : list cmd53) (l : list (mbuf * mlan_status)) : Prop := {
  tr_writes : writes s' = writes s ++ w;
  tr_done : completed s' = completed s ++ l;
  tr_dbg : dbg_ok c (dbg s');
  tr_frame : tx_frame s s'
}.
Lemma transferred_trans c s1 s2 s3 w1 w2 l1 l2 :
  transferred c s1 s2 w1 l1 → transferred c s2 s3 w2 l2 → transferred c s1 s3 (w1 ++ w2) (l1 ++ l2).
Proof.
  intros [H1 H2 _ H3] [H4 H5 H6 H7]. constructor; [by rewrite H4, H1, app_assoc|by rewrite H5, H2, app_assoc|done|].
  by eapply tx_frame_trans.
Qed.

(** A transfer that carries these packets; and a list of them. *)
Definition carries (c : sdio_cfg) (e : Z) (w : cmd53) (l : list (Z * list Z)) : Prop := addressed c e w = Some l ∧ tried w.
Definition brings (c : sdio_cfg) (e : Z) (w : list cmd53) (l : list (Z * list Z)) : Prop :=
  ∃ ls, Forall2 (carries c e) w ls ∧ concat ls = l.
Lemma brings_nil c e : brings c e [] [].
Proof. by exists []. Qed.
Lemma brings_one c e w l : carries c e w l → brings c e [w] l.
Proof. intros H. exists [l]. split; [by constructor|]. cbn. by rewrite app_nil_r. Qed.
Lemma brings_app c e w1 w2 l1 l2 : brings c e w1 l1 → brings c e w2 l2 → brings c e (w1 ++ w2) (l1 ++ l2).
Proof. intros (x & Hx & <-) (y & Hy & <-). exists (x ++ y). split; [by apply Forall2_app|apply concat_app]. Qed.


Definition empty_tx (s : sdio_card) : Prop := tx_pkt_cnt (mpa_tx s) = 0%nat.

(** With scatter-gather the buffers are completed, and only then. *)
Definition done_list (s : sdio_card) (ms : list mbuf) : list (mbuf * mlan_status) :=
  match tx_buf (mpa_tx s) with Some _ => [] | None => (λ m, (m, MLAN_STATUS_SUCCESS)) <$> ms end.

Lemma aggr_data_spec c s agg ms : agg_rep c s agg ms →
  aggr_data (mpa_tx s) = Some (concat agg.*2) ∧
  sg_done (mpa_tx s) = Some (done_list s ms).
Proof.
  intros [Hcnt Hms _ Hlen Hsz Hdata _ _ _ _ _ _]. unfold aggr_data, sg_done, aggr_mbufs, done_list. destruct (tx_buf (mpa_tx s)) as [b|].
  - destruct Hdata as [Hb Ht]. rewrite decide_True by lia. split; [|done]. rewrite Hlen, Nat2Z.id. by rewrite Ht.
  - rewrite Hcnt, Hdata. assert (mapM id (Some <$> ms) = Some ms) as ->.
    { apply mapM_Some. apply Forall2_fmap_l. by apply Forall_Forall2_diag, Forall_true. }
    cbn [mbind option_bind]. split; [|done]. assert (mapM payload ms = Some agg.*2) as ->; [|done].
    apply mapM_Some. apply Forall2_fmap_r. eapply Forall2_impl; [exact Hms|]. by intros.
Qed.

Lemma agg_rep_reset c s agg ms : agg_rep c s agg ms → end_ok c (mp_end_port s) → agg_rep c (on_tx MP_TX_AGGR_BUF_RESET s) [] [].
Proof.
  intros Hr He. unfold end_ok in He. destruct Hr as [Hcnt Hms Hcuts Hlen Hsz Hdata Hstart Hports Hbits Hsp Hinfo Harr]. constructor;
    cbn [on_tx set_mpa_tx mpa_tx MP_TX_AGGR_BUF_RESET tx_pkt_cnt tx_buf_len tx_buf tx_buf_size tx_mbufs tx_start_port tx_ports mp_wr_info mp_end_port]; try done.
  - cbn. lia.
  - destruct (tx_buf (mpa_tx s)) as [b|]; [|done]. split; [apply Hdata|done].
  - split; [cbn; lia|]. cbn. intros; lia.
Qed.

Lemma send_spec c s agg ms ok : cfg_ok c → end_ok c (mp_end_port s) → agg_rep c s agg ms → dbg_ok c (dbg s) →
  agg ≠ [] → (length agg <= mp_aggr_pkt_limit c)%nat →
  ∃ s' ret w, wlan_send_mp_aggr_buf c ok s = Some (s', ret) ∧ (ret = MLAN_STATUS_SUCCESS ∨ ret = MLAN_STATUS_FAILURE) ∧
    transferred c s s' [w] (done_list s ms) ∧ carries c (mp_end_port s) w agg ∧
    ioport c + start_wr_port c <= c_addr w < ioport c + 0x8000 ∧ agg_rep c s' [] [].
Proof.
  intros Hc He Hr Hdb Hne Hlim. pose proof (limit_range c Hc) as Hl16. pose proof (aggr_data_spec c s agg ms Hr) as [Ed Esg].
  pose proof Hr as [Hcnt Hms Hcuts Hlen Hsz Hdata Hstart Hports Hbits Hsp Hinfo Harr].
  assert (1 <= length agg)%nat as H1 by (destruct agg; [done|cbn; lia]).
  unfold wlan_send_mp_aggr_buf. rewrite Hcnt. assert ((length agg =? 0)%nat = false) as -> by (apply Nat.eqb_neq; lia).
  destruct (aggr_addr_ports c Hc (mp_end_port s) He (mpa_tx s) (tx_start_port (mpa_tx s))) as (addr & -> & Haddr & Hrange);
    [lia|by apply Hstart|done|by rewrite Hcnt|by rewrite Hcnt|]. cbn [mbind option_bind]. rewrite Ed. cbn [mbind option_bind].
  destruct (write_sync addr (concat agg.*2) ok s) as (w & st & Ew & Ha & Hd & Hst & Htries). rewrite Ew. cbn [mbind option_bind].
  rewrite Esg. cbn [mbind option_bind]. set (s1 := set_completed _ _).
  assert (∃ d1, (if negb (port_free s1) && (length agg <? mp_aggr_pkt_limit c)%nat then no_ports s1 else s1) = set_dbg d1 s1 ∧ dbg_ok c d1) as (d1 & -> & Hd1).
  { destruct (_ && _); [by apply no_ports_spec|]. exists (dbg s). split; [by subst s1|done]. }
  destruct (trace_spec c addr (tx_buf_len (mpa_tx s)) (take (mp_aggr_pkt_limit c) (mp_wr_info (mpa_tx s))) (length agg) (set_dbg d1 s1)) as (d2 & -> & Hd2);
    [done|done|lia|rewrite length_take, Hinfo; unfold SDIO_MP_AGGR_DEF_PKT_LIMIT_MAX; lia|]. cbn [mbind option_bind]. rewrite set_dbg_set_dbg.
  do 3 eexists. split; [reflexivity|]. split; [exact Hst|]. split; [|split; [|split; [by rewrite Ha|]]].
  - constructor; [done|done|exact Hd2|by constructor].
  - split; [|exact Htries]. unfold addressed. rewrite Ha, Hd, Haddr, Hcnt, <- Hports. by apply cut_data_concat.
  - apply (agg_rep_reset c (set_dbg d2 s1) agg ms); [|done]. apply agg_rep_dbg. by constructor.
Qed.

(** A single packet. *)
Lemma single_spec c s m d port ok : cfg_ok c → end_ok c (mp_end_port s) → dbg_ok c (dbg s) → payload m = Some d → cut_ok d → 0 <= m_len m →
  MLAN_SDIO_BLOCK_SIZE <= m_len m → start_wr_port c <= port < mp_end_port s →
  ∃ s' ret w, tx_single c m port ok s = Some (s', ret) ∧ (ret = MLAN_STATUS_SUCCESS ∨ ret = MLAN_STATUS_FAILURE) ∧
    transferred c s s' [w] [] ∧ carries c (mp_end_port s) w [(port, d)] ∧ c_addr w = ioport c + port ∧ mpa_tx s' = mpa_tx s.
Proof.
  intros Hc He Hdb Hd Hcut Hm Hblk Hp. pose proof (limit_range c Hc) as Hl16. pose proof (co_ioport c Hc) as [Hio _]. unfold end_ok in He.
  assert (0 <= port < 32) as Hp32 by (destruct (co_mode c Hc); lia).
  unfold tx_single. rewrite (proj2 (Z.leb_gt (2 ^ 32) _)) by lia. rewrite Hd. cbn [mbind option_bind].
  destruct (write_sync (ioport c + port) d ok s) as (w & st & -> & Ha & Hw & Hst & Htries). set (s1 := set_writes _ _).
  assert (∃ d1, (if negb (port_free s1) then no_ports s1 else s1) = set_dbg d1 s1 ∧ dbg_ok c d1) as (d1 & -> & Hd1).
  { destruct (negb _); [by apply no_ports_spec|]. exists (dbg s). split; [by subst s1|done]. }
  pose proof Hcut as (h & Hh & Hb & Hne). rewrite (payload_le16 _ _ _ Hd Hh). cbn [mbind option_bind].
  assert (MLAN_SDIO_BLOCK_SIZE <= Z.of_nat (length (m_mem m))) as Hmem by (unfold payload in Hd; case_decide; [lia|done]).
  destruct (keep_block_spec c 0 m (set_dbg d1 s1)) as (d2 & -> & Hd2); [done|lia|done|]. cbn [mbind option_bind]. rewrite set_dbg_set_dbg.
  destruct (trace_spec c (ioport c + port) (m_len m) (h :: replicate (mp_aggr_pkt_limit c - 1) 0) 1 (set_dbg d2 s1)) as (d3 & -> & Hd3);
    [done|done|lia|cbn; rewrite length_replicate; lia|]. cbn [mbind option_bind]. rewrite set_dbg_set_dbg.
  do 3 eexists. split; [reflexivity|]. split; [exact Hst|]. split; [|split; [|by split]].
  - constructor; [done|by rewrite app_nil_r|exact Hd3|by constructor].
  - split; [|exact Htries]. unfold addressed, addr_ports. rewrite Ha, Hw. cbv zeta. rewrite ioport_low by (done || lia).
    assert (bit port 12 = false) as -> by (apply (small_bits_high 12); lia).
    pose proof (cut_data_concat [(port, d)]) as Hcd. cbn [fmap list_fmap fst snd concat] in Hcd. rewrite app_nil_r in Hcd. apply Hcd. by constructor.
Qed.

(** ** Collecting *)

Definition next_port (c : sdio_cfg) (s : sdio_card) (p : Z) : Z := if p + 1 =? mp_end_port s then start_wr_port c else p + 1.

(** The card at rest, [p] the port whose turn it is. *)
Record tx_ok (c : sdio_cfg) (s : sdio_card) (agg : list (Z * list Z)) (ms : list mbuf) (p : Z) : Prop := {
  to_rep : agg_rep c s agg ms;
  to_dbg : dbg_ok c (dbg s);
  to_end : end_ok c (mp_end_port s) ∧ (new_mode c = false → 10 < mp_end_port s);
  to_lim : 1 <= tx_aggr_limit (mpa_tx s) <= Z.of_nat (mp_aggr_pkt_limit c) ∧ tx_aggr_limit (mpa_tx s) <= mp_end_port s - start_wr_port c;
  to_cnt : Z.of_nat (length agg) < tx_aggr_limit (mpa_tx s);
  to_next : new_mode c = false → agg ≠ [] → pbit c (mp_end_port s) (tx_start_port (mpa_tx s)) (Z.of_nat (length agg)) < 8;
  to_turn : in_turn c s agg p;
  to_on : tx_enabled (mpa_tx s) = false → agg = []
}.

Lemma tx_ok_span c s agg ms p : cfg_ok c → tx_ok c s agg ms p → span_next c s agg p.
Proof.
  intros Hc [Hr _ [He _] [_ Hl2] Hcnt Hnext [Hp _] _]. split; [lia|]. intros Hm i Hi. unfold start_with. destruct agg as [|a agg].
  - cbn in Hi. assert (i = 0) as -> by lia. unfold pbit. rewrite Hm, port_at_0, Z.sub_diag, Zmod_0_l by lia. lia.
  - destruct (decide (i = Z.of_nat (length (a :: agg)))) as [->|]; [by apply Hnext|]. destruct (ag_span _ _ _ _ Hr) as [_ Hall]. apply Hall; [done|lia].
Qed.

(** The packet joins the aggregate. *)
Lemma collect_spec c s agg ms m d p : cfg_ok c → tx_ok c s agg ms p → curr_wr_port s = next_port c s p → payload m = Some d → cut_ok d →
  MLAN_SDIO_BLOCK_SIZE <= m_len m → tx_buf_len (mpa_tx s) + m_len m <= tx_buf_size (mpa_tx s) →
  ∃ d1 s1, keep_block c (tx_pkt_cnt (mpa_tx s)) m s = Some (set_dbg d1 s) ∧ tx_put c m p (set_dbg d1 s) = Some s1 ∧
    agg_rep c s1 (agg ++ [(p, d)]) (ms ++ [m]) ∧ transferred c s s1 [] [] ∧ in_turn c s1 (agg ++ [(p, d)]) (curr_wr_port s1) ∧
    tx_start_port (mpa_tx s1) = start_with s agg p.
Proof.
  intros Hc Hok Hcurr Hd Hcut Hblk Hroom. pose proof Hok as [Hr Hdb [He _] [Hl1 Hl2] Hcnt Hnext Hp _]. pose proof (limit_range c Hc) as Hl16.
  assert (MLAN_SDIO_BLOCK_SIZE <= Z.of_nat (length (m_mem m))) as Hmem by (unfold payload in Hd; case_decide; [lia|done]).
  unfold MLAN_SDIO_BLOCK_SIZE in Hblk.
  destruct (keep_block_spec c (tx_pkt_cnt (mpa_tx s)) m s) as (d1 & -> & Hd1); [done|rewrite (ag_cnt _ _ _ _ Hr); lia|done|].
  destruct (tx_put_spec c (set_dbg d1 s) agg ms m p d) as (t & E & Hr' & Hf & Hst); [done|done|by apply agg_rep_dbg|done|done|lia|exact Hp|exact Hroom|lia|
    by apply (tx_ok_span c s agg ms p)|].
  exists d1. eexists. split; [done|]. split; [exact E|]. split; [exact Hr'|]. split; [|split; [|exact Hst]].
  - constructor; [by rewrite app_nil_r|by rewrite app_nil_r|done|]. by apply (tx_frame_trans _ (set_dbg d1 s)); [constructor|].
  - change (curr_wr_port (set_mpa_tx t (set_dbg d1 s))) with (curr_wr_port s). unfold in_turn.
    change (mp_end_port (set_mpa_tx t (set_dbg d1 s))) with (mp_end_port s).
    change (tx_start_port (mpa_tx (set_mpa_tx t (set_dbg d1 s)))) with (tx_start_port t).
    rewrite Hcurr, Hst. unfold end_ok in He. destruct Hp as [Hp1 Hp2]. split.
    + unfold next_port. case_match eqn:E1; lia.
    + intros _. rewrite length_app, Nat2Z.inj_add. cbn [length]. change (Z.of_nat 1) with 1.
      change (start_with (set_dbg d1 s) agg p) with (start_with s agg p).
      assert (start_wr_port c <= start_with s agg p < mp_end_port s) as Hs.
      { unfold start_with. destruct agg; [lia|by apply (ag_start _ _ _ _ Hr)]. }
      rewrite port_at_next by lia. unfold next_port.
      assert (port_at (start_wr_port c) (mp_end_port s) (start_with s agg p) (Z.of_nat (length agg)) = p) as ->; [|done].
      unfold start_with. destruct agg; [apply port_at_0; lia|]. symmetry. by apply Hp2.
Qed.

(** The limit on the ports keeps the next bit in the address. *)
Lemma port_limit_next c s agg : cfg_ok c → end_ok c (mp_end_port s) → agg ≠ [] → new_mode c = false →
  start_wr_port c <= tx_start_port (mpa_tx s) < mp_end_port s →
  Z.of_nat (length agg) < 8 → in_turn c s agg (curr_wr_port s) → port_limit_reached c s = false →
  pbit c (mp_end_port s) (tx_start_port (mpa_tx s)) (Z.of_nat (length agg)) < 8.
Proof.
  intros Hc He Hne Hm Hs Hn [Hr1 Hp] Hlim. destruct (co_mode c Hc) as [[? _]|(_ & Hmax & Hw & Hl)]; [congruence|]. unfold end_ok in He.
  unfold pbit. rewrite Hm. rewrite <- (Hp Hne). unfold port_limit_reached in Hlim.
  rewrite Hmax, Hl, Hw in *. specialize (Hp Hne). unfold port_at in Hp. apply andb_false_iff in Hlim.
  set (st := tx_start_port (mpa_tx s)) in *. set (cu := curr_wr_port s) in *. set (e := mp_end_port s) in *.
  destruct (Z.ltb_spec cu st).
  - destruct Hlim as [?|Hlim]; [done|]. apply Z.leb_gt in Hlim.
    assert ((cu - st) mod 16 = 16 - st + cu) as ->; [|lia]. symmetry. apply (Z.mod_unique_pos _ _ (-1)); lia.
  - rewrite Z.mod_small by lia. destruct (Z.ltb_spec (st + Z.of_nat (length agg)) e); lia.
Qed.

(** ** [wlan_host_to_card_mp_aggr] *)

(** What an operation makes of the packet: [l] goes to the card, [agg'] waits. *)
Definition is_data (c : sdio_cfg) (w : cmd53) : Prop := ioport c + start_wr_port c <= c_addr w < ioport c + 0x8000.
Record tx_outcome (c : sdio_cfg) (s s' : sdio_card) (ret : mlan_status) (agg agg' x : list (Z * list Z)) (ms ms' : list mbuf) (m : mbuf)
  (next : Z) (ws : list cmd53) (done : list (mbuf * mlan_status)) : Prop := {
  oc_tr : transferred c s s' ws done;
  oc_card : ∃ l, brings c (mp_end_port s) ws l ∧ l ++ agg' = agg ++ x;
  oc_data : Forall (is_data c) ws;
  oc_ok : tx_ok c s' agg' ms' (curr_wr_port s');
  oc_free : agg' ≠ [] → port_free s' = true ∧ next ≠ 0;
  oc_ret : ret = MLAN_STATUS_SUCCESS ∨ ret = MLAN_STATUS_FAILURE ∨ ret = MLAN_STATUS_PENDING;
  oc_done : match tx_buf (mpa_tx s) with
    | None => done.*1 ++ ms' = ms ++ (if decide (ret = MLAN_STATUS_PENDING) then [m] else []) ∧ Forall (λ x, x.2 = MLAN_STATUS_SUCCESS) done
    | Some _ => done = [] ∧ ret ≠ MLAN_STATUS_PENDING
    end
}.

Lemma tx_ok_collected c s s1 agg ms m p x : cfg_ok c → tx_ok c s agg ms p → transferred c s s1 [] [] →
  agg_rep c s1 (agg ++ [x]) (ms ++ [m]) → in_turn c s1 (agg ++ [x]) (curr_wr_port s1) → tx_enabled (mpa_tx s) = true →
  pkt_limit_reached s1 = false →
  (new_mode c = false → pbit c (mp_end_port s1) (tx_start_port (mpa_tx s1)) (Z.of_nat (length (agg ++ [x]))) < 8) →
  tx_ok c s1 (agg ++ [x]) (ms ++ [m]) (curr_wr_port s1).
Proof.
  intros Hc Hok Htr Hr Ht Hon Hl1 Hl2. pose proof (tr_frame _ _ _ _ _ Htr) as [_ Fe _ _ _ (Fon & _ & Fl) _]. pose proof (limit_range c Hc).
  destruct Hok as [Hr0 Hdb He Hlim Hcnt Hnext _ _].
  assert (Z.of_nat (length (agg ++ [x])) < tx_aggr_limit (mpa_tx s1)) as Hcnt1.
  { unfold pkt_limit_reached in Hl1. rewrite (ag_cnt _ _ _ _ Hr) in Hl1. apply Z.eqb_neq in Hl1. rewrite Fl in *.
    rewrite length_app in *. cbn [length] in *. lia. }
  constructor; rewrite ?Fe, ?Fl; try done.
  - apply Htr.
  - by rewrite <- Fl.
  - intros Hm _. rewrite <- Fe. by apply Hl2.
  - rewrite Fon. congruence.
Qed.

Lemma tx_ok_emptied c s s1 agg ms p ws l : tx_ok c s agg ms p → curr_wr_port s = next_port c s p → transferred c s s1 ws l →
  agg_rep c s1 [] [] → tx_ok c s1 [] [] (curr_wr_port s1).
Proof.
  intros Hok Hcurr Htr Hr. pose proof (tr_frame _ _ _ _ _ Htr) as [_ Fe _ Fc _ (Fon & _ & Fl) _]. destruct Hok as [Hr0 Hdb He Hlim Hcnt Hnext [Hp _] _].
  constructor; rewrite ?Fe, ?Fl; try done; [apply Htr|cbn; lia|]. split; [|done]. rewrite Fe, Fc, Hcurr. destruct He as [He _]. unfold end_ok in He.
  unfold next_port. case_match eqn:E; lia.
Qed.

Lemma transferred_refl c s : dbg_ok c (dbg s) → transferred c s s [] [].
Proof. constructor; [by rewrite app_nil_r|by rewrite app_nil_r|done|apply tx_frame_refl]. Qed.

Lemma done_list_fst s ms : tx_buf (mpa_tx s) = None → (done_list s ms).*1 = ms ∧ Forall (λ x, x.2 = MLAN_STATUS_SUCCESS) (done_list s ms).
Proof.
  unfold done_list. intros ->. split; [rewrite <- list_fmap_compose; apply list_fmap_id|]. apply Forall_fmap, Forall_true. done.
Qed.
Lemma done_list_buf s ms b : tx_buf (mpa_tx s) = Some b → done_list s ms = [].
Proof. unfold done_list. by intros ->. Qed.

(** The packet alone, nothing collected. *)
Lemma single_outcome c s m d p next ok : cfg_ok c → tx_ok c s [] [] p → curr_wr_port s = next_port c s p → payload m = Some d → cut_ok d →
  MLAN_SDIO_BLOCK_SIZE <= m_len m →
  ∃ s' ret w, tx_single c m p ok s = Some (s', ret) ∧ tx_outcome c s s' ret [] [] [(p, d)] [] [] m next [w] [].
Proof.
  intros Hc Hok Hcurr Hd Hcut Hblk. pose proof (to_turn _ _ _ _ _ Hok) as [Hp _]. pose proof (to_end _ _ _ _ _ Hok) as [He _].
  pose proof (co_ioport c Hc) as [Hio _]. unfold MLAN_SDIO_BLOCK_SIZE in Hblk.
  destruct (single_spec c s m d p ok) as (s' & ret & w & E & Hret & Htr & Hrec & Ha & Htx); [done|done|apply Hok|done|done|lia|exact Hblk|done|].
  exists s', ret, w. split; [done|].
  assert (agg_rep c s' [] []) as Hr.
  { pose proof (tr_frame _ _ _ _ _ Htr) as F. destruct (to_rep _ _ _ _ _ Hok). constructor; rewrite ?Htx, ?(fr_end _ _ F); done. }
  constructor; try done.
  - exists [(p, d)]. split; [by apply brings_one|done].
  - constructor; [|constructor]. unfold is_data. rewrite Ha. unfold end_ok in He. destruct (co_mode c Hc); lia.
  - eapply tx_ok_emptied; done.
  - destruct Hret; auto.
  - destruct (tx_buf (mpa_tx s)); (split; [|by destruct Hret as [-> | ->]]); [done|]. rewrite decide_False by by destruct Hret as [-> | ->]. done.
Qed.

Lemma plan_shape s len next :
  (∃ f, plan s len next = mk_plan f false true false ∧ has_room s len = true ∧ (f = false → next ≠ 0 ∧ port_free s = true)) ∨
  (plan s len next = mk_plan true true false false ∧ in_progress s = true) ∨
  (plan s len next = mk_plan true false false true ∧ in_progress s = true ∧ port_free s = true ∧ next ≠ 0) ∨
  (plan s len next = mk_plan false true false false ∧ in_progress s = false).
Proof.
  unfold plan. destruct (Z.eqb_spec next 0); cbn [negb]; destruct (in_progress s) eqn:Ei; [| | |].
  - destruct (has_room s len) eqn:Er; cbn [negb]; [left; exists true; by split_and!|]. by right; left.
  - by do 3 right.
  - destruct (has_room s len) eqn:Er.
    + left. eexists. split; [reflexivity|]. split; [done|]. intros [H _]%orb_false_iff. split; [done|]. by apply negb_false_iff.
    + destruct (port_free s) eqn:Ef; cbn [negb]; [right; right; left|right; left]; by split_and!.
  - destruct (has_room s len && port_free s) eqn:Er; [|by do 3 right]. apply andb_true_iff in Er as [H1 H2].
    left. exists false. by split_and!.
Qed.

Lemma has_room_spec c s agg ms len : agg_rep c s agg ms → 0 <= len <= tx_buf_size (mpa_tx s) → has_room s len = true →
  tx_buf_len (mpa_tx s) + len <= tx_buf_size (mpa_tx s).
Proof.
  intros Hr Hlen. unfold has_room. pose proof (ag_room _ _ _ _ Hr). pose proof (ag_len _ _ _ _ Hr).
  rewrite u_wrap_small by lia. intros H1%Z.leb_le. done.
Qed.
Lemma in_progress_spec c s agg ms : agg_rep c s agg ms → in_progress s = true ↔ agg ≠ [].
Proof. intros Hr. unfold in_progress. rewrite Nat.ltb_lt, (ag_cnt _ _ _ _ Hr). destruct agg; cbn; split; (lia || done). Qed.

(** The aggregate goes out with the packet in it. *)
Lemma outcome_flush c s s1 agg ms m p x next ok : cfg_ok c → tx_ok c s agg ms p → curr_wr_port s = next_port c s p →
  transferred c s s1 [] [] → agg_rep c s1 (agg ++ [x]) (ms ++ [m]) →
  ∃ s' ret ws done, wlan_send_mp_aggr_buf c ok s1 = Some (s', ret) ∧
    tx_outcome c s s' (if bool_decide (tx_buf (mpa_tx s) = None) && (true || false) then MLAN_STATUS_PENDING else ret) agg [] [x] ms [] m next ws done.
Proof.
  intros Hc Hok Hcurr Htr Hr. pose proof (tr_frame _ _ _ _ _ Htr) as [_ Fe _ Fc _ _ Fb]. pose proof (to_end _ _ _ _ _ Hok) as [He _].
  pose proof (to_lim _ _ _ _ _ Hok). pose proof (to_cnt _ _ _ _ _ Hok).
  destruct (send_spec c s1 (agg ++ [x]) (ms ++ [m]) ok) as (s' & ret & w & E & Hret & Htr2 & Hrec & Ha & Hr2);
    [done|by rewrite Fe|done|apply Htr|by destruct agg|rewrite length_app; cbn; lia|].
  pose proof (transferred_trans _ _ _ _ _ _ _ _ Htr Htr2) as Ht. cbn [app] in Ht.
  exists s', ret, [w], (done_list s1 (ms ++ [m])). split; [done|]. constructor; try done.
  - exists (agg ++ [x]). rewrite Fe in Hrec. split; [by apply brings_one|by rewrite app_nil_r].
  - by constructor.
  - by eapply tx_ok_emptied.
  - case_match; [auto|destruct Hret; auto].
  - destruct (tx_buf (mpa_tx s)) as [b|] eqn:Eb.
    + rewrite bool_decide_false by done. cbn [andb]. destruct (tx_buf (mpa_tx s1)) as [b1|] eqn:E1; [|discriminate (proj1 Fb eq_refl)].
      split; [by eapply done_list_buf|by destruct Hret as [-> | ->]].
    + rewrite bool_decide_true by done. cbn [andb orb]. rewrite decide_True, app_nil_r by done. apply done_list_fst. by apply Fb.
Qed.

(** The aggregate goes out, the packet follows alone. *)
Lemma outcome_alone c s agg ms m d p next ok1 ok2 : cfg_ok c → tx_ok c s agg ms p → curr_wr_port s = next_port c s p →
  payload m = Some d → cut_ok d → MLAN_SDIO_BLOCK_SIZE <= m_len m → agg ≠ [] →
  ∃ s1 ret1 s' ret ws done, wlan_send_mp_aggr_buf c ok1 s = Some (s1, ret1) ∧ tx_single c m p ok2 s1 = Some (s', ret) ∧
    tx_outcome c s s' ret agg [] [(p, d)] ms [] m next ws done.
Proof.
  intros Hc Hok Hcurr Hd Hcut Hblk Hne. pose proof (to_end _ _ _ _ _ Hok) as [He _].
  pose proof (to_lim _ _ _ _ _ Hok). pose proof (to_cnt _ _ _ _ _ Hok).
  destruct (send_spec c s agg ms ok1) as (s1 & ret1 & w1 & E1 & Hret1 & Htr1 & Hrec1 & Ha1 & Hr1); [done|done|apply Hok|apply Hok|done|lia|].
  pose proof (tr_frame _ _ _ _ _ Htr1) as [_ Fe _ Fc _ _ Fb].
  assert (tx_ok c s1 [] [] p) as Hok1.
  { pose proof (tx_ok_emptied c s s1 agg ms p _ _ Hok Hcurr Htr1 Hr1) as [? ? ? ? ? ? _ ?]. constructor; try done.
    split; [|done]. rewrite Fe. apply (to_turn _ _ _ _ _ Hok). }
  destruct (single_outcome c s1 m d p next ok2) as (s' & ret & w & E & [Ht (l & Hl & Hl2) Hda Hok' Hfree Hret Hdone]);
    [done|done|rewrite Fc, Hcurr; unfold next_port; by rewrite Fe|done|done|done|].
  exists s1, ret1, s', ret, ([w1] ++ [w]), (done_list s ms ++ []). do 2 (split; [done|]). constructor; try done.
  - by eapply transferred_trans.
  - exists (agg ++ l). rewrite Fe in Hl. split; [by apply brings_app; [apply brings_one|]|]. rewrite <- Hl2 at 1. by rewrite <- app_assoc, Hl2.
  - by constructor.
  - rewrite app_nil_r. destruct (tx_buf (mpa_tx s)) as [b|] eqn:Eb.
    + destruct (tx_buf (mpa_tx s1)) as [b1|] eqn:E2; [|discriminate (proj1 Fb eq_refl)]. split; [by eapply done_list_buf|apply Hdone].
    + destruct (tx_buf (mpa_tx s1)) as [b1|] eqn:E2; [discriminate (proj2 Fb eq_refl)|]. destruct Hdone as [H1 _].
      rewrite app_nil_r. cbn in H1. rewrite <- H1, app_nil_r. by apply done_list_fst.
Qed.

(** The aggregate goes out, the packet starts the next one. *)
Lemma outcome_post c s agg ms m d p next ok : cfg_ok c → tx_ok c s agg ms p → curr_wr_port s = next_port c s p →
  payload m = Some d → cut_ok d → MLAN_SDIO_BLOCK_SIZE <= m_len m <= tx_buf_size (mpa_tx s) → agg ≠ [] → port_free s = true → next ≠ 0 →
  ∃ s1 ret1 d1 s' ws done, wlan_send_mp_aggr_buf c ok s = Some (s1, ret1) ∧
    keep_block c (tx_pkt_cnt (mpa_tx s1)) m s1 = Some (set_dbg d1 s1) ∧ tx_put c m p (set_dbg d1 s1) = Some s' ∧
    tx_outcome c s s' (if bool_decide (tx_buf (mpa_tx s) = None) && (false || true) then MLAN_STATUS_PENDING else ret1)
      agg [(p, d)] [(p, d)] ms [m] m next ws done.
Proof.
  intros Hc Hok Hcurr Hd Hcut Hblk Hne Hfree Hnext. pose proof (to_end _ _ _ _ _ Hok) as [He He10].
  pose proof (to_lim _ _ _ _ _ Hok). pose proof (to_cnt _ _ _ _ _ Hok) as Hcnt. pose proof (limit_range c Hc).
  destruct (send_spec c s agg ms ok) as (s1 & ret1 & w1 & E1 & Hret1 & Htr1 & Hrec1 & Ha1 & Hr1); [done|done|apply Hok|apply Hok|done|lia|].
  pose proof (tr_frame _ _ _ _ _ Htr1) as [Fbm Fe _ Fc _ (Fon & Fs & Fl) Fb].
  assert (tx_ok c s1 [] [] p) as Hok1.
  { pose proof (tx_ok_emptied c s s1 agg ms p _ _ Hok Hcurr Htr1 Hr1) as [? ? ? ? ? ? _ ?]. constructor; try done.
    split; [|done]. rewrite Fe. apply (to_turn _ _ _ _ _ Hok). }
  destruct (collect_spec c s1 [] [] m d p) as (d1 & s' & Ek & Ep & Hr & Htr & Ht & Hst); try done; [|lia|..].
  { rewrite Fc, Hcurr. unfold next_port. by rewrite Fe. }
  { rewrite (ag_len _ _ _ _ Hr1), Fs. cbn. lia. }
  pose proof (transferred_trans _ _ _ _ _ _ _ _ Htr1 Htr) as Ht2. rewrite !app_nil_r in Ht2.
  pose proof (tr_frame _ _ _ _ _ Htr) as [Gbm Ge _ Gc _ (Gon & _ & Gl) _].
  exists s1, ret1, d1, s', [w1], (done_list s ms). do 3 (split; [done|]). constructor; try done.
  - exists agg. split; [by apply brings_one|done].
  - by constructor.
  - assert (tx_enabled (mpa_tx s) = true) as Hon.
    { destruct (tx_enabled (mpa_tx s)) eqn:Eon; [done|]. by apply (to_on _ _ _ _ _ Hok) in Eon. }
    apply (tx_ok_collected c s1 s' [] [] m p (p, d)); try done; [by rewrite Fon| |].
    + unfold pkt_limit_reached. rewrite (ag_cnt _ _ _ _ Hr), Gl, Fl. apply Z.eqb_neq. cbn. destruct agg; [done|]. cbn in Hcnt. lia.
    + intros Hm. rewrite Ge, Fe, Hst. cbn [start_with length app]. change (Z.of_nat 1) with 1. specialize (He10 Hm).
      destruct (co_mode c Hc) as [[? _]|(_ & Hmax & Hw & _)]; [congruence|]. unfold end_ok in He. unfold pbit, port_at. rewrite Hm, Hmax, Hw in *.
      destruct (to_turn _ _ _ _ _ Hok) as [Hp _]. rewrite Hw in Hp. destruct (Z.ltb_spec (p + 1) (mp_end_port s)).
      * rewrite Z.mod_small; lia.
      * assert ((p + 1 - (mp_end_port s - 1) - p) mod 16 = 18 - mp_end_port s) as ->; [|lia].
        symmetry. apply (Z.mod_unique_pos _ _ (-1)); lia.
  - intros _. split; [|done]. unfold port_free in *. by rewrite Gbm, Gc, Fbm, Fc.
  - case_match; [auto|destruct Hret1; auto].
  - destruct (tx_buf (mpa_tx s)) as [b|] eqn:Eb.
    + rewrite bool_decide_false by done. cbn [andb]. split; [by eapply done_list_buf|by destruct Hret1 as [-> | ->]].
    + rewrite bool_decide_true by done. cbn [andb orb]. rewrite decide_True by done. destruct (done_list_fst s ms Eb) as [-> ?]. by split.
Qed.

Lemma outcome_dbg c s s' d ret agg agg' x ms ms' m next ws done : dbg_ok c d →
  tx_outcome c (set_dbg d s) s' ret agg agg' x ms ms' m next ws done → tx_outcome c s s' ret agg agg' x ms ms' m next ws done.
Proof.
  intros Hd [Htr Hl Hda Hok Hf Hr Hdn]. constructor; try done. destruct Htr as [H1 H2 H3 H4]. constructor; try done.
  by apply (tx_frame_trans _ (set_dbg d s)); [constructor|].
Qed.
Lemma tx_ok_dbg c s d agg ms p : dbg_ok c d → tx_ok c s agg ms p → tx_ok c (set_dbg d s) agg ms p.
Proof. intros Hd []. constructor; try done. by apply agg_rep_dbg. Qed.

(** The packet joins the aggregate, which goes out if it is full. *)
Lemma outcome_pre c s agg ms m d p next ok f : cfg_ok c → tx_ok c s agg ms p → curr_wr_port s = next_port c s p →
  payload m = Some d → cut_ok d → MLAN_SDIO_BLOCK_SIZE <= m_len m → tx_buf_len (mpa_tx s) + m_len m <= tx_buf_size (mpa_tx s) →
  tx_enabled (mpa_tx s) = true → (f = false → next ≠ 0 ∧ port_free s = true) →
  ∃ d1 s1 s' ret agg' ms' ws done, keep_block c (tx_pkt_cnt (mpa_tx s)) m s = Some (set_dbg d1 s) ∧ tx_put c m p (set_dbg d1 s) = Some s1 ∧
    (if f || (pkt_limit_reached s1 || (negb (new_mode c) && port_limit_reached c s1)) then wlan_send_mp_aggr_buf c ok s1
     else Some (s1, MLAN_STATUS_SUCCESS)) = Some (s', ret) ∧
    tx_outcome c s s' (if bool_decide (tx_buf (mpa_tx s) = None) && (true || false) then MLAN_STATUS_PENDING else ret)
      agg agg' [(p, d)] ms ms' m next ws done.
Proof.
  intros Hc Hok Hcurr Hd Hcut Hblk Hroom Hon Hf. pose proof (to_end _ _ _ _ _ Hok) as [He He10].
  destruct (collect_spec c s agg ms m d p) as (d1 & s1 & Ek & Ep & Hr & Htr & Ht & Hst); try done.
  pose proof (tr_frame _ _ _ _ _ Htr) as [Gbm Ge _ Gc _ (Gon & _ & Gl) _].
  destruct (f || (pkt_limit_reached s1 || (negb (new_mode c) && port_limit_reached c s1))) eqn:Ef.
  - destruct (outcome_flush c s s1 agg ms m p (p, d) next ok) as (s' & ret & ws & dn & E & Ho); try done.
    exists d1, s1, s', ret, [], [], ws, dn. rewrite Ef. by do 3 (split; [done|]).
  - exists d1, s1, s1, MLAN_STATUS_SUCCESS, (agg ++ [(p, d)]), (ms ++ [m]), [], []. rewrite Ef. do 3 (split; [done|]).
    apply orb_false_iff in Ef as [-> [Hl1 Hl2]%orb_false_iff]. destruct (Hf eq_refl) as [Hn Hfree]. constructor; try done.
    + exists []. split; [apply brings_nil|done].
    + apply (tx_ok_collected c s s1 agg ms m p (p, d)); try done. intros Hm. rewrite Hm in Hl2. cbn in Hl2.
      apply (port_limit_next c s1); try done; [by rewrite Ge|by destruct agg|apply (ag_start _ _ _ _ Hr); by destruct agg|].
      pose proof (to_lim _ _ _ _ _ Hok). pose proof (to_cnt _ _ _ _ _ Hok). unfold pkt_limit_reached in Hl1.
      rewrite (ag_cnt _ _ _ _ Hr), Gl in Hl1. apply Z.eqb_neq in Hl1. rewrite length_app in *. cbn [length] in *.
      destruct (co_mode c Hc) as [[? _]|(_ & _ & _ & Hl8)]; [congruence|]. lia.
    + intros _. split; [|done]. unfold port_free in *. by rewrite Gbm, Gc.
    + case_match; auto.
    + destruct (tx_buf (mpa_tx s)) eqn:Eb; [rewrite bool_decide_false by done; by split|]. rewrite bool_decide_true by done. cbn [andb orb].
      by rewrite decide_True.
Qed.

Lemma agg_rep_nil c s ms : agg_rep c s [] ms → ms = [].
Proof. intros Hr. pose proof (ag_ms _ _ _ _ Hr) as H. by apply Forall2_nil_inv_r in H. Qed.

Lemma mp_aggr_spec c s agg ms m d p next ok1 ok2 : cfg_ok c → tx_ok c s agg ms p → curr_wr_port s = next_port c s p →
  payload m = Some d → cut_ok d → MLAN_SDIO_BLOCK_SIZE <= m_len m <= tx_buf_size (mpa_tx s) →
  ∃ s' ret agg' ms' ws done, wlan_host_to_card_mp_aggr c m p next ok1 ok2 s = Some (s', ret) ∧
    tx_outcome c s s' ret agg agg' [(p, d)] ms ms' m next ws done.
Proof.
  intros Hc Hok Hcurr Hd Hcut Hblk. unfold wlan_host_to_card_mp_aggr. destruct (tx_enabled (mpa_tx s)) eqn:Eon; cbn [negb].
  2: { pose proof (to_on _ _ _ _ _ Hok Eon) as ->.
       assert (ms = []) as -> by (by apply (agg_rep_nil c s), Hok).
       destruct (single_outcome c s m d p next ok2) as (s' & ret & w & E & Ho); try done; [lia|].
       exists s', ret, [], [], [w], []. by split. }
  cbv zeta. pose proof (to_dbg _ _ _ _ _ Hok) as Hdb.
  assert (∃ d0, dbg_ok c d0 ∧ (if next =? 0 then on_dbg (λ d, set_mpa_sent_last_pkt (u32 (mpa_sent_last_pkt d + 1)) d) s else s) = set_dbg d0 s) as (d0 & Hd0 & ->).
  { destruct (next =? 0); [eexists; split; [|reflexivity]; by destruct Hdb|]. exists (dbg s). split; [done|by destruct s]. }
  pose proof (tx_ok_dbg c s d0 agg ms p Hd0 Hok) as Hok0. set (s0 := set_dbg d0 s) in *.
  assert (∃ s' ret agg' ms' ws done, (let p' := plan s (m_len m) next in
    '(s, aggr) ← (if precopy p' then
        s ← keep_block c (tx_pkt_cnt (mpa_tx s0)) m s0; s ← tx_put c m p s;
        Some (s, send_aggr p' || (pkt_limit_reached s || (negb (new_mode c) && port_limit_reached c s)))
      else Some (s0, send_aggr p'));
    '(s, ret) ← (if aggr : bool then wlan_send_mp_aggr_buf c ok1 s else Some (s, MLAN_STATUS_SUCCESS));
    '(s, ret) ← (if send_cur p' then tx_single c m p ok2 s else Some (s, ret));
    s ← (if postcopy p' then s ← keep_block c (tx_pkt_cnt (mpa_tx s)) m s; tx_put c m p s else Some s);
    Some (s, if bool_decide (tx_buf (mpa_tx s0) = None) && (precopy p' || postcopy p') then MLAN_STATUS_PENDING else ret)) = Some (s', ret) ∧
    tx_outcome c s0 s' ret agg agg' [(p, d)] ms ms' m next ws done) as (s' & ret & agg' & ms' & ws & dn & E & Ho).
  2: { exists s', ret, agg', ms', ws, dn. split; [exact E|]. by apply (outcome_dbg c s s' d0). }
  change (plan s (m_len m) next) with (plan s0 (m_len m) next). cbv zeta.
  pose proof (in_progress_spec c s0 agg ms (to_rep _ _ _ _ _ Hok0)) as Hip.
  destruct (plan_shape s0 (m_len m) next) as [(f & -> & Hroom & Hf)|[[-> H]|[(-> & H & Hf & Hn)|[-> H]]]]; cbn [precopy send_aggr send_cur postcopy].
  - apply (has_room_spec c s0 agg ms) in Hroom; [|apply Hok0|change (tx_buf_size (mpa_tx s0)) with (tx_buf_size (mpa_tx s)); unfold MLAN_SDIO_BLOCK_SIZE in *; lia].
    destruct (outcome_pre c s0 agg ms m d p next ok1 f) as (d1 & s1 & s' & ret & agg' & ms' & ws & dn & Ek & Ep & Es & Ho); try done; [lia|].
    rewrite Ek. cbn [mbind option_bind]. rewrite Ep. cbn [mbind option_bind]. rewrite Es. cbn [mbind option_bind].
    do 6 eexists. split; [reflexivity|exact Ho].
  - destruct (outcome_alone c s0 agg ms m d p next ok1 ok2) as (s1 & ret1 & s' & ret & ws & dn & E1 & E2 & Ho); try done; [lia|by apply Hip|].
    cbn [mbind option_bind]. rewrite E1. cbn [mbind option_bind]. rewrite E2. cbn [mbind option_bind orb]. rewrite andb_false_r.
    do 6 eexists. split; [reflexivity|exact Ho].
  - destruct (outcome_post c s0 agg ms m d p next ok1) as (s1 & ret1 & d1 & s' & ws & dn & E1 & Ek & Ep & Ho); try done; [by apply Hip|].
    cbn [mbind option_bind]. rewrite E1. cbn [mbind option_bind]. rewrite Ek. cbn [mbind option_bind]. rewrite Ep. cbn [mbind option_bind].
    do 6 eexists. split; [reflexivity|exact Ho].
  - assert (agg = []) as -> by (destruct agg; [done|]; by rewrite (proj2 Hip) in H).
    assert (ms = []) as -> by (by apply (agg_rep_nil c s), Hok).
    destruct (single_outcome c s0 m d p next ok2) as (s' & ret & w & E & Ho); try done; [lia|].
    cbn [mbind option_bind]. rewrite E. cbn [mbind option_bind orb]. rewrite andb_false_r. do 6 eexists. split; [reflexivity|exact Ho].
Qed.

(** ** The send operation *)

(** A packet the upper layers hand down: room for the header and for the padding. *)
Record pkt_ok (s : sdio_card) (m : mbuf) : Prop := {
  pk_len : 1 <= m_len m < 2 ^ 16;
  pk_mem : blocks (m_len m) <= Z.of_nat (length (m_mem m));
  pk_fits : blocks (m_len m) <= tx_buf_size (mpa_tx s)
}.
Lemma blocks_spec len : 0 <= len < 2 ^ 16 → len <= blocks len < len + 256 ∧ blocks len mod 256 = 0.
Proof.
  intros H. unfold blocks, MLAN_SDIO_BLOCK_SIZE. rewrite (u_wrap_small 32 (len + 256 - 1)) by lia.
  pose proof (Z.div_mod (len + 256 - 1) 256 ltac:(lia)). pose proof (Z.mod_pos_bound (len + 256 - 1) 256 ltac:(lia)).
  rewrite u_wrap_small by lia. split; [lia|]. by rewrite Z.mod_mul by lia.
Qed.

(** The bytes of the packet as they go to the card. *)
Definition sealed (m : mbuf) : list Z :=
  [u16 (m_len m) mod 256; u16 (m_len m) / 256; 0; 0] ++ take (Z.to_nat (blocks (m_len m)) - 4) (drop 4 (m_mem m)).
Lemma sealed_spec s m : pkt_ok s m → ∃ m', put_header MLAN_TYPE_DATA m = Some m' ∧ m_len m' = m_len m ∧
  payload (set_m_len (blocks (m_len m')) m') = Some (sealed m) ∧ cut_ok (sealed m) ∧ MLAN_SDIO_BLOCK_SIZE <= blocks (m_len m).
Proof.
  intros [H1 H2 H3]. destruct (blocks_spec (m_len m) ltac:(lia)) as [Hb1 Hb2].
  assert (256 <= blocks (m_len m)) as Hb by (pose proof (Z.div_mod (blocks (m_len m)) 256 ltac:(lia)); lia).
  unfold put_header. rewrite decide_True by lia. eexists. split; [reflexivity|]. split; [done|].
  assert (length (sealed m) = Z.to_nat (blocks (m_len m))) as Hlen.
  { unfold sealed. rewrite length_app, length_take, length_drop. cbn [length]. lia. }
  assert (take (Z.to_nat (blocks (m_len m)))
    ([u16 (m_len m) mod 256; u16 (m_len m) / 256; MLAN_TYPE_DATA mod 256; MLAN_TYPE_DATA / 256] ++ drop 4 (m_mem m)) = sealed m) as Htake.
  { unfold sealed. rewrite (take_app_ge _ (drop 4 (m_mem m))) by (cbn [length]; lia). done. }
  split; [|split; [|done]].
  - unfold payload. cbn [set_m_len m_len m_mem]. rewrite decide_True; [by rewrite Htake|]. rewrite length_app, length_drop. cbn [length]. lia.
  - exists (u16 (m_len m)). split; [|split; [rewrite Hlen, u_wrap_small by lia; lia|done]].
    unfold le16, sealed. cbn. f_equal. pose proof (Z.div_mod (u16 (m_len m)) 256 ltac:(lia)). lia.
Qed.

(** At rest: nothing waits unless there is a port for the next packet. *)
Record tx_rest (c : sdio_cfg) (s : sdio_card) (agg : list (Z * list Z)) (ms : list mbuf) : Prop := {
  tr_ok : tx_ok c s agg ms (curr_wr_port s);
  tr_free : agg ≠ [] → port_free s = true ∧ data_sent s = false;
  tr_mask : ∀ p, start_wr_port c <= p < mp_end_port s → bit (mp_data_port_mask s) p = true
}.

Lemma get_wr_port c s agg ms : cfg_ok c → tx_rest c s agg ms →
  (port_free s = false ∧ wlan_get_wr_port_data c s = (set_data_sent true s, MLAN_STATUS_RESOURCE, 0)) ∨
  (port_free s = true ∧ ∃ s1, wlan_get_wr_port_data c s = (s1, MLAN_STATUS_SUCCESS, curr_wr_port s) ∧
    tx_ok c s1 agg ms (curr_wr_port s) ∧ curr_wr_port s1 = next_port c s1 (curr_wr_port s) ∧
    mpa_tx s1 = mpa_tx s ∧ mp_end_port s1 = mp_end_port s ∧ mp_data_port_mask s1 = mp_data_port_mask s ∧ writes s1 = writes s ∧ completed s1 = completed s).
Proof.
  intros Hc [Hok Hfree Hmask]. destruct (to_turn _ _ _ _ _ Hok) as [Hp _]. destruct (to_end _ _ _ _ _ Hok) as [He _]. unfold end_ok in He.
  assert (0 <= start_wr_port c ∧ max_ports c <= 32 ∧ (new_mode c = false → 1 <= start_wr_port c)) as (Hw & Hmax & Hw1).
  { destruct (co_mode c Hc) as [(H1 & H2 & H3 & _)|(H1 & H2 & H3 & _)]; rewrite H2, H3, H1; split_and!; (done || lia). }
  unfold wlan_get_wr_port_data. destruct (port_free s) eqn:Ef.
  - right. split; [done|]. destruct (Z.eqb_spec (Z.land (mp_wr_bitmap s) (mp_data_port_mask s)) 0) as [H0|_].
    { exfalso. assert (Z.testbit (Z.land (mp_wr_bitmap s) (mp_data_port_mask s)) (curr_wr_port s) = true) as Hb; [|by rewrite H0, Z.bits_0 in Hb].
      rewrite Z.land_spec. apply andb_true_iff. split; [exact Ef|by apply Hmask]. }
    assert (negb (new_mode c) && (curr_wr_port s =? CTRL_PORT) = false) as ->.
    { apply andb_false_iff. destruct (new_mode c); [by left|right]. specialize (Hw1 eq_refl). apply Z.eqb_neq. unfold CTRL_PORT. lia. }
    eexists. split; [reflexivity|]. split; [|by split_and!; [unfold next_port; cbn; rewrite u_wrap_small by lia|..]].
    destruct Hok as [Hr ? ? ? ? ? ? ?]. constructor; try done. by destruct Hr.
  - left. split; [done|]. by destruct (_ =? 0).
Qed.

Lemma send_data_spec c s agg ms m next ok1 ok2 : cfg_ok c → tx_rest c s agg ms → pkt_ok s m →
  (port_free s = false ∧ send_data c m next ok1 ok2 s = Some (set_data_sent true s, MLAN_STATUS_RESOURCE)) ∨
  (port_free s = true ∧ ∃ s1 s2 ret agg' ms' m' ws done, let s' := set_data_sent (if decide (ret = MLAN_STATUS_FAILURE) then false else negb (port_free s2)) s2 in
    send_data c m next ok1 ok2 s = Some (s', ret) ∧ ret ≠ MLAN_STATUS_RESOURCE ∧
    tx_outcome c s1 s2 ret agg agg' [(curr_wr_port s, sealed m)] ms ms' m' next ws done ∧ tx_rest c s' agg' ms' ∧ m_id m' = m_id m ∧
    mpa_tx s1 = mpa_tx s ∧ mp_end_port s1 = mp_end_port s ∧ writes s1 = writes s ∧ completed s1 = completed s).
Proof.
  intros Hc Hrest Hpk. destruct (sealed_spec s m Hpk) as (m' & Em & Hl & Hpay & Hcut & Hblk). unfold send_data. rewrite Em. cbn [mbind option_bind].
  destruct (get_wr_port c s agg ms Hc Hrest) as [[Hf ->]|(Hf & s1 & -> & Hok1 & Hcurr & Htx & He & Hmk & Hw & Hco)]; [by left|right].
  split; [done|]. rewrite bool_decide_true by done. cbn [negb]. rewrite Hl in *.
  destruct (mp_aggr_spec c s1 agg ms (set_m_len (blocks (m_len m)) m') (sealed m) (curr_wr_port s) next ok1 ok2)
    as (s2 & ret & agg' & ms' & ws & dn & E & Ho); try done.
  { rewrite Htx. split; [exact Hblk|apply Hpk]. }
  rewrite E. cbn [mbind option_bind]. exists s1, s2, ret, agg', ms', (set_m_len (blocks (m_len m)) m'), ws, dn. cbv zeta.
  split; [done|]. split; [by destruct (oc_ret _ _ _ _ _ _ _ _ _ _ _ _ _ Ho) as [-> |[-> | ->]]|]. split; [done|].
  split; [|split_and!; try done; unfold put_header in Em; case_decide; [by injection Em as <-|done]].
  pose proof (oc_free _ _ _ _ _ _ _ _ _ _ _ _ _ Ho) as Hfree. pose proof (tr_frame _ _ _ _ _ (oc_tr _ _ _ _ _ _ _ _ _ _ _ _ _ Ho)) as F.
  constructor.
  - destruct (oc_ok _ _ _ _ _ _ _ _ _ _ _ _ _ Ho) as [Hr ? ? ? ? ? ? ?]. constructor; try done. by destruct Hr.
  - intros Hne. destruct (Hfree Hne) as [Hpf _]. cbn [data_sent set_data_sent]. split; [exact Hpf|]. case_decide; [done|]. by rewrite Hpf.
  - cbn [mp_end_port mp_data_port_mask set_data_sent]. rewrite (fr_end _ _ F), (fr_mask _ _ F), He, Hmk. apply Hrest.
Qed.

(** ** Any sequence of operations *)

Inductive tx_op :=
| TxData (m : mbuf) (next_pkt_len : Z) (ok_aggr ok_cur : nat → bool)
| TxCmd (m : mbuf) (ok : nat → bool)
| TxVdll (m : mbuf) (ok : nat → bool)
| TxFlush (ok : nat → bool)
| TxDnld (bitmap : Z)
| TxIntr (bitmap : Z).

(** The card; the packets taken, with their ports; those to be completed later. *)
Record tx_run := mk_run { r_card : sdio_card; r_taken : list (Z * list Z); r_later : list Z }.
Definition tx_exec (c : sdio_cfg) (op : tx_op) (r : tx_run) : option tx_run :=
  let s := r_card r in
  match op with
  | TxData m next ok1 ok2 =>
      '(s', ret) ← wlan_sdio_host_to_card_ext c MLAN_TYPE_DATA m next ok1 ok2 s;
      Some (mk_run s' (if decide (ret = MLAN_STATUS_RESOURCE) then r_taken r else r_taken r ++ [(curr_wr_port s, sealed m)])
        (if decide (ret = MLAN_STATUS_PENDING) then r_later r ++ [m_id m] else r_later r))
  | TxCmd m ok => '(s', _) ← wlan_sdio_host_to_card_ext c MLAN_TYPE_CMD m 0 ok ok s; Some (mk_run s' (r_taken r) (r_later r))
  | TxVdll m ok => '(s', _) ← wlan_sdio_host_to_card_ext c MLAN_TYPE_VDLL m 0 ok ok s; Some (mk_run s' (r_taken r) (r_later r))
  | TxFlush ok => '(s', _) ← wlan_send_mp_aggr_buf c ok s; Some (mk_run s' (r_taken r) (r_later r))
  | TxDnld bitmap => s' ← dnld_interrupt bitmap s; Some (mk_run s' (r_taken r) (r_later r))
  | TxIntr bitmap => Some (mk_run (cmd_port_free c bitmap s) (r_taken r) (r_later r))
  end.

(** The buffers have room for the padding; the card does not take back the port
    whose turn it is. *)
Definition tx_op_ok (op : tx_op) (s : sdio_card) : Prop :=
  match op with
  | TxData m _ _ _ => pkt_ok s m
  | TxCmd m _ | TxVdll m _ => 1 <= m_len m < 2 ^ 16 ∧ blocks (m_len m) <= Z.of_nat (length (m_mem m))
  | TxFlush _ | TxIntr _ => True
  | TxDnld bitmap => 0 <= bitmap < 2 ^ 32 ∧ (port_free s = true → bit bitmap (curr_wr_port s) = true)
  end.

Definition tx_start (c : sdio_cfg) (s : sdio_card) : Prop := tx_rest c s [] [] ∧ writes s = [] ∧ completed s = [].
Inductive tx_reach (c : sdio_cfg) : tx_run → Prop :=
| tx_reach_start s : tx_start c s → tx_reach c (mk_run s [] [])
| tx_reach_step op r r' : tx_reach c r → tx_op_ok op (r_card r) → tx_exec c op r = Some r' → tx_reach c r'.

#[export] Instance is_data_dec c w : Decision (is_data c w).
Proof. unfold is_data. apply _. Defined.
Definition data_writes (c : sdio_cfg) (s : sdio_card) : list cmd53 := filter (is_data c) (writes s).

Record tx_inv (c : sdio_cfg) (r : tx_run) (agg : list (Z * list Z)) (ms : list mbuf) : Prop := {
  ti_rest : tx_rest c (r_card r) agg ms;
  ti_fifo : ∃ l, brings c (mp_end_port (r_card r)) (data_writes c (r_card r)) l ∧ l ++ agg = r_taken r;
  ti_done : match tx_buf (mpa_tx (r_card r)) with
    | None => (m_id <$> (completed (r_card r)).*1) ++ (m_id <$> ms) = r_later r ∧ Forall (λ x, x.2 = MLAN_STATUS_SUCCESS) (completed (r_card r))
    | Some _ => completed (r_card r) = [] ∧ r_later r = []
    end
}.

Lemma tx_ok_same c s s' agg ms p : tx_ok c s agg ms p → mpa_tx s' = mpa_tx s → mp_end_port s' = mp_end_port s → dbg_ok c (dbg s') →
  tx_ok c s' agg ms p.
Proof.
  intros [Hr ? ? ? ? ? Ht ?] Htx He Hd. constructor; rewrite ?Htx, ?He; try done.
  - destruct Hr. constructor; rewrite ?Htx, ?He; done.
  - unfold in_turn. by rewrite He, Htx.
Qed.
Lemma tx_rest_same c s s' agg ms : tx_rest c s agg ms → mpa_tx s' = mpa_tx s → mp_end_port s' = mp_end_port s → dbg_ok c (dbg s') →
  curr_wr_port s' = curr_wr_port s → mp_data_port_mask s' = mp_data_port_mask s →
  (agg ≠ [] → port_free s = true → data_sent s = false → port_free s' = true ∧ data_sent s' = false) → tx_rest c s' agg ms.
Proof.
  intros [Hok Hf Hm] Htx He Hd Hc Hk Hfr. constructor; [rewrite Hc; by eapply tx_ok_same| |by rewrite He, Hk].
  intros Hne. destruct (Hf Hne). by apply Hfr.
Qed.

(** A transfer that is no packet. *)
Lemma step_other c r agg ms s' w : tx_inv c r agg ms → ¬ is_data c w → tx_rest c s' agg ms → mp_end_port s' = mp_end_port (r_card r) →
  writes s' = writes (r_card r) ++ [w] → completed s' = completed (r_card r) → mpa_tx s' = mpa_tx (r_card r) →
  tx_inv c (mk_run s' (r_taken r) (r_later r)) agg ms.
Proof.
  intros [_ Hfi Hdn] Hw Hr He Hws Hco Htx. constructor; cbn [r_card r_taken r_later]; [done| |by rewrite Htx, Hco].
  unfold data_writes. by rewrite Hws, filter_app, filter_cons_False, app_nil_r, He.
Qed.

Lemma header_payload ty m : 1 <= m_len m < 2 ^ 16 → blocks (m_len m) <= Z.of_nat (length (m_mem m)) →
  ∃ m' d, put_header ty m = Some m' ∧ m_len m' = m_len m ∧ payload (set_m_len (blocks (m_len m')) m') = Some d.
Proof.
  intros H1 H2. destruct (blocks_spec (m_len m) ltac:(lia)) as [Hb1 Hb2].
  assert (256 <= blocks (m_len m)) as Hb by (pose proof (Z.div_mod (blocks (m_len m)) 256 ltac:(lia)); lia).
  unfold put_header. rewrite decide_True by lia. do 2 eexists. split; [reflexivity|]. split; [done|].
  unfold payload. cbn [set_m_len m_len m_mem]. rewrite decide_True; [reflexivity|]. rewrite length_app, length_drop. cbn [length]. lia.
Qed.

Lemma cmd_addr_not_data c : cfg_ok c →
  (if new_mode c then Z.lor (ioport c) CMD_PORT_SLCT else u32 (ioport c + CTRL_PORT)) < ioport c + start_wr_port c ∨
  ioport c + 0x8000 <= (if new_mode c then Z.lor (ioport c) CMD_PORT_SLCT else u32 (ioport c + CTRL_PORT)).
Proof.
  intros Hc. pose proof (co_ioport c Hc) as [Hio _]. unfold CTRL_PORT, CMD_PORT_SLCT.
  destruct (co_mode c Hc) as [(-> & _ & -> & _)|(-> & _ & -> & _)]; [right; rewrite ioport_lor by (done || lia); lia|left].
  rewrite u_wrap_small by lia. lia.
Qed.

Lemma clear_other_bit x p q : 0 <= p < 32 → 0 <= q < 32 → p ≠ q → bit (clear_bit p x) q = bit x q.
Proof.
  intros Hp Hq Hne. unfold bit, clear_bit. rewrite Z.land_spec. unfold u_wrap. rewrite Z.mod_pow2_bits_low, Z.lnot_spec, Z.shiftl_1_l, Z.pow2_bits_eqb by lia.
  rewrite (proj2 (Z.eqb_neq p q)) by done. apply andb_true_r.
Qed.

Lemma step_cmd c r agg ms m ok : cfg_ok c → tx_inv c r agg ms → 1 <= m_len m < 2 ^ 16 → blocks (m_len m) <= Z.of_nat (length (m_mem m)) →
  ∃ s' ret, wlan_sdio_host_to_card_ext c MLAN_TYPE_CMD m 0 ok ok (r_card r) = Some (s', ret) ∧ tx_inv c (mk_run s' (r_taken r) (r_later r)) agg ms.
Proof.
  intros Hc Hi H1 H2. unfold wlan_sdio_host_to_card_ext, wlan_sdio_host_to_card. cbn [Z.eqb MLAN_TYPE_CMD MLAN_TYPE_VDLL MLAN_TYPE_DATA Pos.eqb].
  unfold send_cmd. destruct (header_payload MLAN_TYPE_CMD m H1 H2) as (m' & d & -> & Hl & Hd). cbn [mbind option_bind]. rewrite Hd. cbn [mbind option_bind].
  set (addr := if new_mode c then _ else _). set (s1 := if new_mode c then _ else _).
  destruct (write_sync addr d ok s1) as (w & st & -> & Ha & _ & _). cbn [mbind option_bind andb].
  do 2 eexists. split; [reflexivity|]. pose proof (ti_rest _ _ _ _ Hi) as Hr. pose proof (to_dbg _ _ _ _ _ (tr_ok _ _ _ _ Hr)) as Hdb.
  assert (mpa_tx s1 = mpa_tx (r_card r) ∧ mp_end_port s1 = mp_end_port (r_card r) ∧ dbg s1 = dbg (r_card r) ∧ curr_wr_port s1 = curr_wr_port (r_card r) ∧
    mp_data_port_mask s1 = mp_data_port_mask (r_card r) ∧ data_sent s1 = data_sent (r_card r) ∧ writes s1 = writes (r_card r) ∧
    completed s1 = completed (r_card r)) as (T1 & T2 & T3 & T4 & T5 & T6 & T7 & T8) by (subst s1; by destruct (new_mode c)).
  apply (step_other c r agg ms _ w); try done.
  - unfold is_data. rewrite Ha. destruct (cmd_addr_not_data c Hc); subst addr; lia.
  - apply (tx_rest_same c (r_card r)); try done; try (by case_decide). { by case_decide; cbn; rewrite T3. }
    intros Hne Hf Hs. split; [|by case_decide; cbn; rewrite T6].
    assert (port_free s1 = true) as Hf1; [|by case_decide].
    subst s1. destruct (new_mode c) eqn:Em; [done|].
    pose proof (tr_ok _ _ _ _ Hr) as Hok. destruct (to_turn _ _ _ _ _ Hok) as [Hp _]. destruct (to_end _ _ _ _ _ Hok) as [He _]. unfold end_ok in He.
    destruct (co_mode c Hc) as [[? _]|(_ & Hmax & Hw & _)]; [congruence|]. unfold port_free in *.
    cbn [mp_wr_bitmap curr_wr_port set_mp_wr_bitmap set_cmd_sent]. rewrite clear_other_bit; [exact Hf|unfold CTRL_PORT; lia..].
  - by case_decide.
  - case_decide; cbn; by rewrite T7.
  - by case_decide.
  - by case_decide.
Qed.

Lemma step_vdll c r agg ms m ok : cfg_ok c → tx_inv c r agg ms → 1 <= m_len m < 2 ^ 16 → blocks (m_len m) <= Z.of_nat (length (m_mem m)) →
  ∃ s' ret, wlan_sdio_host_to_card_ext c MLAN_TYPE_VDLL m 0 ok ok (r_card r) = Some (s', ret) ∧ tx_inv c (mk_run s' (r_taken r) (r_later r)) agg ms.
Proof.
  intros Hc Hi H1 H2. unfold wlan_sdio_host_to_card_ext. cbn [Z.eqb MLAN_TYPE_VDLL Pos.eqb].
  unfold wlan_sdio_send_vdll. destruct (header_payload MLAN_TYPE_VDLL m H1 H2) as (m' & d & -> & Hl & Hd). cbn [mbind option_bind]. cbv zeta.
  case_match; [do 2 eexists; split; [reflexivity|]; by destruct r|]. rewrite Hd. cbn [mbind option_bind].
  pose proof (ti_rest _ _ _ _ Hi) as Hr. pose proof (to_dbg _ _ _ _ _ (tr_ok _ _ _ _ Hr)) as Hdb. pose proof (co_ioport c Hc) as [Hio _].
  destruct (write_sync (Z.lor (ioport c) CMD_PORT_SLCT) d ok (set_cmd_sent true (r_card r))) as (w & st & -> & Ha & _ & _).
  do 2 eexists. split; [reflexivity|]. apply (step_other c r agg ms _ w); try done.
  - unfold is_data. rewrite Ha, ioport_lor by (done || unfold CMD_PORT_SLCT; lia). unfold CMD_PORT_SLCT. lia.
  - by apply (tx_rest_same c (r_card r)).
Qed.

Lemma step_dnld c r agg ms bitmap : cfg_ok c → tx_inv c r agg ms → 0 <= bitmap < 2 ^ 32 →
  (port_free (r_card r) = true → bit bitmap (curr_wr_port (r_card r)) = true) →
  ∃ s', dnld_interrupt bitmap (r_card r) = Some s' ∧ tx_inv c (mk_run s' (r_taken r) (r_later r)) agg ms.
Proof.
  intros Hc Hi Hb Hp. pose proof (ti_rest _ _ _ _ Hi) as Hr. pose proof (to_dbg _ _ _ _ _ (tr_ok _ _ _ _ Hr)) as Hdb.
  unfold dnld_interrupt. set (s := r_card r) in *.
  assert (∃ d0, dbg_ok c d0 ∧ (if negb (Z.land (mp_wr_bitmap s) (mp_data_port_mask s) =? 0)
    then on_dbg (λ d, set_mp_invalid_update (u32 (mp_invalid_update d + 1)) d) s else s) = set_dbg d0 s) as (d0 & Hd0 & ->).
  { destruct (negb _); [eexists; split; [|reflexivity]; by destruct Hdb|]. exists (dbg s). split; [done|by destruct s]. }
  set (b := Z.land bitmap (mp_data_port_mask (set_mp_wr_bitmap bitmap (set_dbg d0 s)))).
  assert (0 <= b < 2 ^ 32) as Hbr.
  { assert (b = Z.land b (Z.ones 32)) as ->; [|rewrite Z.land_ones by lia; apply Z.mod_pos_bound; lia]. subst b.
    rewrite <- Z.land_assoc, (Z.land_comm _ (Z.ones 32)), Z.land_assoc. f_equal. rewrite Z.land_ones, Z.mod_small by lia. done. }
  rewrite bitcount_correct by done. cbn [mbind option_bind]. pose proof (popcount_bounds 32 b) as Hpc.
  assert (∃ u, bump_update (Z.to_nat (popcount 32 b)) (mp_update (dbg (set_mp_wr_bitmap bitmap (set_dbg d0 s)))) = Some u ∧ length u = 32%nat) as (u & -> & Hu).
  { cbn [dbg set_mp_wr_bitmap set_dbg]. pose proof (db_update _ _ Hd0) as Hl. unfold SDIO_MP_AGGR_DEF_PKT_LIMIT_MAX in Hl. unfold bump_update.
    case_match eqn:E; [eexists; by split|]. apply Nat.eqb_neq in E.
    destruct (lookup_lt_is_Some_2 (mp_update d0) (Z.to_nat (popcount 32 b) - 1)) as [x ->]; [lia|]. cbn [mbind option_bind].
    case_match; (eexists; split; [reflexivity|]); [by rewrite length_replicate|by rewrite length_insert]. }
  cbn [mbind option_bind]. eexists. split; [reflexivity|].
  assert (dbg_ok c (set_mp_update u d0)) as Hd1 by (destruct Hd0; by constructor).
  set (s1 := on_dbg _ _). assert (tx_rest c s1 agg ms ∧ (port_free s1 = true → True)) as [Hr1 _].
  { split; [|done]. apply (tx_rest_same c s); try done. intros _ Hf Hs. split; [by apply Hp|exact Hs]. }
  destruct Hi as [_ Hfi Hdn]. destruct (data_sent s1 && port_free s1); [|by constructor].
  constructor; try done. cbn [r_card]. by apply (tx_rest_same c s1).
Qed.

Lemma step_intr c r agg ms bitmap : cfg_ok c → tx_inv c r agg ms → tx_inv c (mk_run (cmd_port_free c bitmap (r_card r)) (r_taken r) (r_later r)) agg ms.
Proof.
  intros Hc Hi. pose proof (ti_rest _ _ _ _ Hi) as Hr. pose proof (tr_ok _ _ _ _ Hr) as Hok. set (s := r_card r) in *.
  unfold cmd_port_free. destruct (negb (new_mode c) && cmd_sent s) eqn:E; [|by destruct r]. apply andb_true_iff in E as [Em%negb_true_iff _].
  cbv zeta. set (s1 := set_mp_wr_bitmap _ s). assert (tx_rest c s1 agg ms) as Hr1.
  { apply (tx_rest_same c s); try done; [apply Hok|]. intros _ Hf Hs. split; [|exact Hs].
    destruct (to_turn _ _ _ _ _ Hok) as [Hp _]. destruct (co_mode c Hc) as [[? _]|(_ & _ & Hw & _)]; [congruence|].
    unfold port_free, bit, s1 in *. cbn [mp_wr_bitmap curr_wr_port set_mp_wr_bitmap]. by rewrite Z.lor_spec, Hf. }
  destruct Hi as [_ Hfi Hdn]. destruct (negb _); [|by constructor].
  constructor; try done. cbn [r_card]. apply (tx_rest_same c s1); try done. apply Hok.
Qed.

Lemma step_flush c r agg ms ok : cfg_ok c → tx_inv c r agg ms →
  ∃ s' ret ms', wlan_send_mp_aggr_buf c ok (r_card r) = Some (s', ret) ∧ tx_inv c (mk_run s' (r_taken r) (r_later r)) [] ms'.
Proof.
  intros Hc Hi. pose proof (ti_rest _ _ _ _ Hi) as Hr. pose proof (tr_ok _ _ _ _ Hr) as Hok. set (s := r_card r) in *.
  pose proof (to_lim _ _ _ _ _ Hok). pose proof (to_cnt _ _ _ _ _ Hok). destruct (decide (agg = [])) as [->|Hne].
  { exists s, MLAN_STATUS_SUCCESS, ms. split; [|by destruct r]. unfold wlan_send_mp_aggr_buf. by rewrite (ag_cnt _ _ _ _ (to_rep _ _ _ _ _ Hok)). }
  destruct (send_spec c s agg ms ok) as (s' & ret & w & E & Hret & Htr & Hrec & Ha & Hr2); [done|apply (to_end _ _ _ _ _ Hok)|apply Hok|apply Hok|done|lia|].
  exists s', ret, []. split; [done|]. pose proof (tr_frame _ _ _ _ _ Htr) as [Fb Fe Fm Fc [Fs _] (Fon & _ & Fl) Fsg].
  destruct Hi as [_ (l & Hl & Hl2) Hdn]. constructor; cbn [r_card r_taken r_later].
  - constructor; [|done|by rewrite Fe, Fm; apply Hr]. destruct Hok as [_ _ He Hlim _ _ [Hp _] _].
    constructor; rewrite ?Fe, ?Fl, ?Fc; try done; [apply Htr|cbn; lia|]. split; [|done]. by rewrite Fe.
  - exists (l ++ agg). rewrite app_nil_r. split; [|done]. unfold data_writes. rewrite (tr_writes _ _ _ _ _ Htr), filter_app, Fe.
    apply brings_app; [done|]. rewrite filter_cons_True by exact Ha. by apply brings_one.
  - fold s in Hdn. rewrite (tr_done _ _ _ _ _ Htr). destruct (tx_buf (mpa_tx s)) as [b|] eqn:Eb.
    + destruct (tx_buf (mpa_tx s')) eqn:E1; [|discriminate (proj1 Fsg eq_refl)]. destruct Hdn as [-> ->]. split; [|done]. by eapply done_list_buf.
    + rewrite (proj2 Fsg eq_refl). destruct Hdn as [<- Hall]. destruct (done_list_fst s ms Eb) as [Hf Hs].
      rewrite fmap_app, fmap_app, Hf, app_nil_r. split; [done|by apply Forall_app].
Qed.

Lemma step_data c r agg ms m next ok1 ok2 : cfg_ok c → tx_inv c r agg ms → pkt_ok (r_card r) m →
  ∃ r' agg' ms', tx_exec c (TxData m next ok1 ok2) r = Some r' ∧ tx_inv c r' agg' ms' ∧ (port_free (r_card r) = true → next = 0 → agg' = []).
Proof.
  intros Hc Hi Hpk. pose proof (ti_rest _ _ _ _ Hi) as Hr. cbn [tx_exec]. unfold wlan_sdio_host_to_card_ext, wlan_sdio_host_to_card.
  cbn [Z.eqb MLAN_TYPE_VDLL MLAN_TYPE_DATA]. set (s := r_card r) in *.
  destruct (send_data_spec c s agg ms m next ok1 ok2 Hc Hr Hpk) as [[Hf ->]|(Hf & s1 & s2 & ret & agg' & ms' & m' & ws & dn & E & Hret & Ho & Hr' & Hid & E1 & E2 & E3 & E4)].
  { cbn [mbind option_bind andb]. exists (mk_run (set_data_sent true s) (r_taken r) (r_later r)), agg, ms. split; [done|].
    split; [|by rewrite Hf]. destruct Hi as [_ Hfi Hdn]. constructor; try done. cbn [r_card]. apply (tx_rest_same c s); try done.
    - apply (to_dbg _ _ _ _ _ (tr_ok _ _ _ _ Hr)).
    - by rewrite Hf. }
  cbv zeta in E, Hr'. rewrite E. cbn [mbind option_bind andb]. rewrite (decide_False (P := ret = MLAN_STATUS_RESOURCE)) by done.
  set (s' := set_data_sent _ s2) in *. do 3 eexists. split; [reflexivity|].
  assert ((if bool_decide (ret = MLAN_STATUS_FAILURE) then set_data_sent false s' else s') = s') as ->.
  { subst s'. case_bool_decide; [by rewrite decide_True|done]. }
  split; [|intros _ H0; destruct agg' as [|a l]; [done|]; by destruct (oc_free _ _ _ _ _ _ _ _ _ _ _ _ _ Ho) as [_ []]].
  destruct Ho as [Htr (l0 & Hl0 & Hl02) Hda Hok2 Hfr Hret2 Hdone]. pose proof (tr_frame _ _ _ _ _ Htr) as F.
  destruct Hi as [_ (l & Hl & Hl2) Hdn]. fold s in Hl, Hdn. constructor; cbn [r_card r_taken r_later]; [exact Hr'| |].
  - exists (l ++ l0). split; [|by rewrite <- app_assoc, Hl02, app_assoc, Hl2].
    change (mp_end_port s') with (mp_end_port s2). unfold data_writes. change (writes s') with (writes s2).
    rewrite (tr_writes _ _ _ _ _ Htr), E3, filter_app, (fr_end _ _ F), E2. apply brings_app; [done|].
    rewrite filter_id by done. by rewrite <- E2.
  - change (tx_buf (mpa_tx s')) with (tx_buf (mpa_tx s2)). change (completed s') with (completed s2).
    rewrite (tr_done _ _ _ _ _ Htr), E4. pose proof (fr_sg _ _ F) as Fs. rewrite E1 in Fs, Hdone. destruct (tx_buf (mpa_tx s)) as [b|].
    + destruct (tx_buf (mpa_tx s2)); [|discriminate (proj1 Fs eq_refl)]. destruct Hdn as [-> ->]. destruct Hdone as [-> Hne].
      by rewrite decide_False.
    + rewrite (proj2 Fs eq_refl). destruct Hdn as [<- Hall]. destruct Hdone as [Hd Hs].
      rewrite !fmap_app, <- app_assoc, <- fmap_app, Hd. split; [|by apply Forall_app]. case_decide; [|by rewrite app_nil_r].
      rewrite fmap_app. cbn [fmap list_fmap]. by rewrite Hid, app_assoc.
Qed.

Lemma tx_step c op r agg ms : cfg_ok c → tx_inv c r agg ms → tx_op_ok op (r_card r) → ∃ r' agg' ms', tx_exec c op r = Some r' ∧ tx_inv c r' agg' ms'.
Proof.
  intros Hc Hi Hop. destruct op as [m next ok1 ok2|m ok|m ok|ok|bitmap|bitmap]; cbn [tx_op_ok] in Hop.
  - destruct (step_data c r agg ms m next ok1 ok2 Hc Hi Hop) as (r' & agg' & ms' & E & Hi' & _). by exists r', agg', ms'.
  - destruct (step_cmd c r agg ms m ok Hc Hi) as (s' & ret & E & Hi'); [apply Hop..|]. cbn [tx_exec]. rewrite E. by do 3 eexists.
  - destruct (step_vdll c r agg ms m ok Hc Hi) as (s' & ret & E & Hi'); [apply Hop..|]. cbn [tx_exec]. rewrite E. by do 3 eexists.
  - destruct (step_flush c r agg ms ok Hc Hi) as (s' & ret & ms' & E & Hi'). cbn [tx_exec]. rewrite E. by do 3 eexists.
  - destruct (step_dnld c r agg ms bitmap Hc Hi) as (s' & E & Hi'); [apply Hop..|]. cbn [tx_exec]. rewrite E. by do 3 eexists.
  - do 3 eexists. split; [reflexivity|]. by apply step_intr.
Qed.

Lemma tx_reach_inv c r : cfg_ok c → tx_reach c r → ∃ agg ms, tx_inv c r agg ms.
Proof.
  intros Hc. induction 1 as [s (Hr & Hw & Hco)|op r r' _ (agg & ms & Hi) Hop E].
  - exists [], []. constructor; cbn [r_card r_taken r_later]; [done| |].
    + exists []. split; [|done]. unfold data_writes. rewrite Hw. apply brings_nil.
    + rewrite Hco. by destruct (tx_buf (mpa_tx s)).
  - destruct (tx_step c op r agg ms Hc Hi Hop) as (r2 & agg' & ms' & E2 & Hi'). assert (r' = r2) as -> by congruence. by exists agg', ms'.
Qed.


(** C23: Packets do not get stuck in the aggregate for want of a port: if some wait,
    the next port is free and the driver may send, the next packet is taken, and if
    it is announced as the last one nothing waits after it. *)
Theorem aggregate_never_blocked (c : sdio_cfg) (r : tx_run) : cfg_ok c → tx_reach c r → in_progress (r_card r) = true →
  port_free (r_card r) = true ∧ data_sent (r_card r) = false ∧
  ∀ m ok1 ok2, pkt_ok (r_card r) m → ∃ r', tx_exec c (TxData m 0 ok1 ok2) r = Some r' ∧
    r_taken r' = r_taken r ++ [(curr_wr_port (r_card r), sealed m)] ∧ in_progress (r_card r') = false.
Proof.
  intros Hc Hr Hp. destruct (tx_reach_inv c r Hc Hr) as (agg & ms & Hi). pose proof (ti_rest _ _ _ _ Hi) as Hrest.
  pose proof (in_progress_spec c (r_card r) agg ms (to_rep _ _ _ _ _ (tr_ok _ _ _ _ Hrest))) as Hip.
  destruct (tr_free _ _ _ _ Hrest (proj1 Hip Hp)) as [Hf Hs]. do 2 (split; [done|]). intros m ok1 ok2 Hpk.
  destruct (step_data c r agg ms m 0 ok1 ok2 Hc Hi Hpk) as (r' & agg' & ms' & E & Hi' & Hempty). exists r'. split; [done|].
  rewrite (Hempty Hf eq_refl) in Hi'. split.
  - cbn [tx_exec] in E. unfold wlan_sdio_host_to_card_ext, wlan_sdio_host_to_card in E. cbn [Z.eqb MLAN_TYPE_VDLL MLAN_TYPE_DATA] in E.
    destruct (send_data_spec c (r_card r) agg ms m 0 ok1 ok2 Hc Hrest Hpk) as [[Hf2 _]|(_ & s1 & s2 & ret & ? & ? & ? & ? & ? & E2 & Hret & _)]; [congruence|].
    cbv zeta in E2. rewrite E2 in E. cbn [mbind option_bind] in E. rewrite (decide_False (P := ret = MLAN_STATUS_RESOURCE)) in E by done. by injection E as <-.
  - destruct (in_progress (r_card r')) eqn:E2; [|done].
    by apply (in_progress_spec c _ _ _ (to_rep _ _ _ _ _ (tr_ok _ _ _ _ (ti_rest _ _ _ _ Hi')))) in E2.
Qed.

(** C31: With scatter-gather a packet is completed by the driver exactly if its send
    returned [MLAN_STATUS_PENDING]: once, in order, when its transfer is over, while
    the others are left to the caller; without, the driver completes none. *)
Theorem pending_completed_once (c : sdio_cfg) (r : tx_run) : cfg_ok c → tx_reach c r →
  match tx_buf (mpa_tx (r_card r)) with
  | None => ∃ waiting, (m_id <$> (completed (r_card r)).*1) ++ waiting = r_later r ∧ length waiting = tx_pkt_cnt (mpa_tx (r_card r))
  | Some _ => completed (r_card r) = [] ∧ r_later r = []
  end.
Proof.
  intros Hc Hr. destruct (tx_reach_inv c r Hc Hr) as (agg & ms & Hi). pose proof (tr_ok _ _ _ _ (ti_rest _ _ _ _ Hi)) as Hok.
  pose proof (ti_done _ _ _ _ Hi) as Hd. destruct (tx_buf _); [done|]. exists (m_id <$> ms). split; [apply Hd|].
  rewrite length_fmap, (ag_cnt _ _ _ _ (to_rep _ _ _ _ _ Hok)). eapply Forall2_length, ag_ms, Hok.
Qed.

(** ** A run, and what leaves these bounds *)

Definition demo_cfg : sdio_cfg := mk_cfg 32 true 0 0 0xffffffff 16 0x10000.
Definition old_cfg : sdio_cfg := mk_cfg 16 false 0 1 0xfffe 8 0x10000.
Definition demo_dbg : mp_dbg := mk_dbg 0 0 (replicate 16 0) (replicate 32 0) 0 (replicate 10 (0, 0, 0, 0)) (replicate 160 0) 0 None.
Definition demo_tx (buf : option (list Z)) (size limit : Z) : sdio_mpa_tx :=
  mk_tx buf 0 0 0 0 true size limit (replicate 16 0) (replicate 16 None).
Definition demo_card (c : sdio_cfg) (t : sdio_mpa_tx) : sdio_card :=
  mk_card 0xffffffff (max_ports c) (reg_data_port_mask c) (start_wr_port c) false false t demo_dbg [] [].
Definition demo_pkt (id len : Z) : mbuf := mk_mbuf id (replicate 512 7) len.
Definition works (b : bool) : nat → bool := λ _, b.
Definition demo_start : sdio_card := demo_card demo_cfg (demo_tx None 65280 16).

Lemma demo_cfg_ok : cfg_ok demo_cfg.
Proof. constructor; [by left|by vm_compute]. Defined.
Lemma demo_start_ok : tx_start demo_cfg demo_start.
Proof.
  split; [|done]. constructor; [|done|].
  - constructor; try done.
    constructor; try done. cbn. unfold SDIO_MP_DBG_NUM. lia.
  - intros p Hp. unfold bit. change (mp_data_port_mask demo_start) with (Z.ones 32). apply Z.ones_spec_low. exact Hp.
Qed.
Lemma demo_pkt_ok s id len : 1 <= len <= 512 → tx_buf_size (mpa_tx s) = 65280 → pkt_ok s (demo_pkt id len).
Proof.
  intros Hl Hs. destruct (blocks_spec len ltac:(lia)) as [Hb Hm]. assert (blocks len <= 512) by (pose proof (Z.div_mod (blocks len) 256 ltac:(lia)); lia).
  constructor; cbn [m_len m_mem demo_pkt]; [lia|rewrite length_replicate; lia|lia].
Qed.

Definition demo_step (op : tx_op) (r : tx_run) : tx_run := default r (tx_exec demo_cfg op r).
(** Two packets announced with a next one wait; a third one is the last. *)
Definition demo_op1 : tx_op := TxData (demo_pkt 1 300) 100 (works true) (works true).
Definition demo_op2 : tx_op := TxData (demo_pkt 2 200) 100 (works true) (works true).
Definition demo_op3 : tx_op := TxData (demo_pkt 3 90) 0 (works false) (works true).
Definition demo_run1 : tx_run := demo_step demo_op1 (mk_run demo_start [] []).
Definition demo_run2 : tx_run := demo_step demo_op2 demo_run1.
Definition demo_run3 : tx_run := demo_step demo_op3 demo_run2.
Lemma demo_step_reach op r : tx_reach demo_cfg r → tx_op_ok op (r_card r) → tx_reach demo_cfg (demo_step op r).
Proof.
  intros Hr Hop. unfold demo_step. destruct (tx_exec demo_cfg op r) eqn:E; [|done]. by apply (tx_reach_step demo_cfg op r).
Qed.
Lemma demo_size : tx_buf_size (mpa_tx (r_card demo_run1)) = 65280 ∧ tx_buf_size (mpa_tx (r_card demo_run2)) = 65280.
Proof. split; vm_compute; reflexivity. Qed.
Lemma demo_reach2 : tx_reach demo_cfg demo_run2.
Proof.
  apply demo_step_reach; [apply demo_step_reach; [apply tx_reach_start, demo_start_ok|]|].
  - apply (demo_pkt_ok _ 1 300); [lia|done].
  - apply (demo_pkt_ok _ 2 200); [lia|apply demo_size].
Qed.

Lemma aggregate_never_blocked_witness : in_progress (r_card demo_run2) = true ∧ port_free (r_card demo_run2) = true ∧
  ∃ r', tx_exec demo_cfg demo_op3 demo_run2 = Some r' ∧ in_progress (r_card r') = false.
Proof.
  split; [vm_compute; reflexivity|].
  destruct (aggregate_never_blocked demo_cfg demo_run2 demo_cfg_ok demo_reach2) as (H1 & _ & H2); [vm_compute; reflexivity|].
  split; [exact H1|]. destruct (H2 (demo_pkt 3 90) (works false) (works true)) as (r' & E & _ & H); [apply demo_pkt_ok; [lia|apply demo_size]|].
  exists r'. by split.
Defined.
Lemma pending_completed_once_witness : r_later demo_run2 = [1; 2] ∧ ∃ waiting,
  (m_id <$> (completed (r_card demo_run2)).*1) ++ waiting = [1; 2] ∧ length waiting = 2%nat.
Proof. split; [vm_compute; reflexivity|]. exact (pending_completed_once demo_cfg demo_run2 demo_cfg_ok demo_reach2). Defined.

(** *** Findings *)

(** With scatter-gather a transfer that fails at every attempt is reported like one
    that succeeds: the send returns [MLAN_STATUS_PENDING] and its packets are
    completed with [MLAN_STATUS_SUCCESS]. *)
Lemma sg_failure_reported_as_success : r_later demo_run3 = [1; 2; 3] ∧
  (λ x, (m_id x.1, x.2)) <$> completed (r_card demo_run3) = [(1, MLAN_STATUS_SUCCESS); (2, MLAN_STATUS_SUCCESS); (3, MLAN_STATUS_SUCCESS)] ∧
  c_tries <$> writes (r_card demo_run3) = [[false; false; false]].
Proof. split; [|split]; vm_compute; reflexivity. Qed.

(** The packets one by one on another card, announced with [next]. *)
Fixpoint demo_sends (c : sdio_cfg) (ps : list (Z * Z * Z)) (r : tx_run) : option tx_run :=
  match ps with
  | [] => Some r
  | (id, len, next) :: ps => r ← tx_exec c (TxData (demo_pkt id len) next (works true) (works true)) r; demo_sends c ps r
  end.

(** With the bounce buffer the failure of an aggregate is the result of the send of
    the packet that completes it; the packets that waited were reported sent before. *)
Lemma buffered_packets_lost :
  (r ← demo_sends demo_cfg [(1, 300, 100)] (mk_run (demo_card demo_cfg (demo_tx (Some (replicate 1024 0)) 1024 16)) [] []);
   '(s', ret) ← wlan_sdio_host_to_card_ext demo_cfg MLAN_TYPE_DATA (demo_pkt 2 300) 100 (works false) (works true) (r_card r);
   Some (length (r_taken r), tx_pkt_cnt (mpa_tx (r_card r)), ret, length (writes s'), tx_pkt_cnt (mpa_tx s')))
  = Some (1, 1, MLAN_STATUS_FAILURE, 1, 0)%nat.
Proof. vm_compute. reflexivity. Qed.

(** A packet that does not fit even the empty buffer is added to it once the
    aggregate before it is sent: a buffer of one block, packets of one and two blocks. *)
Lemma postcopy_overruns_buffer :
  (r ← demo_sends demo_cfg [(1, 100, 400)] (mk_run (demo_card demo_cfg (demo_tx (Some (replicate 256 0)) 256 16)) [] []);
   Some (demo_sends demo_cfg [(2, 400, 100)] r)) = Some None.
Proof. vm_compute. reflexivity. Qed.

(** The limit lowered while packets wait is stepped over (the test is for equality);
    the seventeenth packet leaves the arrays. *)
Definition demo_waiting (n : nat) : list (Z * Z * Z) := replicate n (1, 100, 100).
Definition demo_change (f : sdio_card → sdio_card) (r : tx_run) : tx_run := mk_run (f (r_card r)) (r_taken r) (r_later r).
Lemma lowered_limit_overruns_arrays :
  (r ← demo_sends demo_cfg (demo_waiting 3) (mk_run demo_start [] []);
   r' ← demo_sends demo_cfg (demo_waiting 13) (demo_change (mpa_ctrl true 2) r);
   Some (tx_pkt_cnt (mpa_tx (r_card r')), demo_sends demo_cfg (demo_waiting 1) r')) = Some (16%nat, None).
Proof. vm_compute. reflexivity. Qed.

(** Aggregation switched off while packets wait on ports 0 and 1: the next packet is
    written, to port 2, before them. *)
Lemma disabled_overtakes :
  (r ← demo_sends demo_cfg (demo_waiting 2) (mk_run demo_start [] []);
   r' ← demo_sends demo_cfg [(9, 90, 0)] (demo_change (mpa_ctrl false 0) r);
   Some (tx_pkt_cnt (mpa_tx (r_card r')), c_addr <$> writes (r_card r'))) = Some (2%nat, [0x10002]).
Proof. vm_compute. reflexivity. Qed.

(** The answer that sets the end of the ring starts the ring again although a packet
    waits: the packet taken next for port 0 goes out to port 2. *)
Lemma reconfigured_ring_renames_ports :
  (r ← demo_sends demo_cfg [(1, 100, 0); (2, 100, 100)] (mk_run demo_start [] []);
   r' ← demo_sends demo_cfg [(3, 100, 0)] (demo_change (λ s, reconfigure_tx_buff demo_cfg 32 (set_mp_wr_bitmap 0xffffffff s)) r);
   Some ((r_taken r').*1, addr_ports demo_cfg 32 <$> (c_addr <$> writes (r_card r')))) = Some ([0; 1; 0], [[0]; [1; 2]]).
Proof. vm_compute. reflexivity. Qed.

(** An older card whose ring ends at 10.  A packet added after the aggregate was sent
    is not tested for the port limit; from the last port the bit of the next one leaves
    the eight bits of the address field and is lost in [SDIO_MPA_ADDR_BASE], so the
    address names one port for two packets. *)
Definition demo_old : sdio_card :=
  set_curr_wr_port 8 (set_mp_end_port 10 (demo_card old_cfg (demo_tx (Some (replicate 512 0)) 512 5))).
Lemma old_ring_end_leaves_address :
  (r ← demo_sends old_cfg [(1, 300, 100); (2, 100, 100); (3, 100, 100)] (mk_run demo_old [] []);
   Some ((r_taken r).*1, c_addr <$> writes (r_card r), addr_ports old_cfg 10 <$> (c_addr <$> writes (r_card r)), addressed old_cfg 10 <$> drop 1 (writes (r_card r))))
  = Some ([8; 9; 1], [0x10008; 0x11019], [[8]; [9]], [None]).
Proof. vm_compute. reflexivity. Qed.
