(* ===== verification/SdioRx.v ===== *)
(** * mlan_sdio.c, mlan_sdio.h: receiving from an SDIO card

    A card reports by an interrupt which of its ports hold a packet; lengths are in
    registers, a port each.  The driver reads ports in turn and collects ports so
    that one transfer reads several packets, into a bounce buffer or, with
    scatter-gather, into the packets' own buffers.  A packet goes to the receive
    queue or to its handler; a packet of type [SPA_DATA] holds several packets in
    blocks.  [None] is an access outside an array or a buffer. *)

From S2P Require Import Prelude UtilScalar CmdQueue SdioTx.
#[local] Open Scope Z_scope.

(** ** Constants and data *)

Definition MLAN_TYPE_EVENT : Z := 3.
Definition MLAN_TYPE_SPA_DATA : Z := 10.
Definition OFFSET_OF_BLOCK_NUMBER : nat := 15.
Definition OFFSET_OF_SDIO_HEADER : nat := 28.
Definition MLAN_EVENT_HEADER_LEN : Z := 8.
Definition MAX_EVENT_SIZE : Z := 3072.
Definition ALLOC_BUF_SIZE : Z := 4096.

(** A buffer: its memory from the first data offset on, how far [data_offset] has
    moved since, [data_len], and whether it is marked as [MLAN_BUF_TYPE_SPA_DATA]. *)
Record rbuf := mk_rbuf { b_id : Z; b_mem : list Z; b_off : nat; b_len : Z; b_spa : bool }.
(** What the buffer shows; [None] if that is more than its memory. *)
Definition shown (b : rbuf) : option (list Z) :=
  if decide (Z.of_nat (b_off b) + b_len b <= Z.of_nat (length (b_mem b))) then Some (take (Z.to_nat (b_len b)) (drop (b_off b) (b_mem b))) else None.
Definition le32 (l : list Z) : option Z := lo ← le16 l; hi ← le16 (drop 2 l); Some (lo + 65536 * hi).

(** What the card, the allocator and the callees decide: the outcome of the attempts
    of a transfer from an address, whether a buffer is got, what
    [wlan_process_sleep_confirm_resp] makes of a response, the length registers. *)
Record rx_env := mk_env {
  io : Z → Z → nat → option (list Z);
  alloc : Z → bool;
  confirm : list Z → Z → PS_STATE;
  rd_len : Z → Z;
  cmd_rd_len : Z
}.

(** [_sdio_mpa_rx]; [rx_bounce] is the bounce buffer, absent with scatter-gather. *)
Record sdio_mpa_rx := mk_rx {
  rx_bounce : option (list Z);
  rx_buf_len : Z;
  rx_pkt_cnt : nat;
  rx_ports : Z;
  rx_start_port : Z;
  rx_mbufs : list (option rbuf);
  rx_lens : list Z;
  rx_enabled : bool;
  rx_buf_size : Z;
  rx_aggr_limit : Z
}.
Definition set_rx_bounce (x : option (list Z)) (r : sdio_mpa_rx) : sdio_mpa_rx :=
  mk_rx x (rx_buf_len r) (rx_pkt_cnt r) (rx_ports r) (rx_start_port r) (rx_mbufs r) (rx_lens r) (rx_enabled r) (rx_buf_size r) (rx_aggr_limit r).
Definition set_rx_buf_len (x : Z) (r : sdio_mpa_rx) : sdio_mpa_rx :=
  mk_rx (rx_bounce r) x (rx_pkt_cnt r) (rx_ports r) (rx_start_port r) (rx_mbufs r) (rx_lens r) (rx_enabled r) (rx_buf_size r) (rx_aggr_limit r).
Definition set_rx_pkt_cnt (x : nat) (r : sdio_mpa_rx) : sdio_mpa_rx :=
  mk_rx (rx_bounce r) (rx_buf_len r) x (rx_ports r) (rx_start_port r) (rx_mbufs r) (rx_lens r) (rx_enabled r) (rx_buf_size r) (rx_aggr_limit r).
Definition set_rx_ports (x : Z) (r : sdio_mpa_rx) : sdio_mpa_rx :=
  mk_rx (rx_bounce r) (rx_buf_len r) (rx_pkt_cnt r) x (rx_start_port r) (rx_mbufs r) (rx_lens r) (rx_enabled r) (rx_buf_size r) (rx_aggr_limit r).
Definition set_rx_start_port (x : Z) (r : sdio_mpa_rx) : sdio_mpa_rx :=
  mk_rx (rx_bounce r) (rx_buf_len r) (rx_pkt_cnt r) (rx_ports r) x (rx_mbufs r) (rx_lens r) (rx_enabled r) (rx_buf_size r) (rx_aggr_limit r).
Definition set_rx_mbufs (x : list (option rbuf)) (r : sdio_mpa_rx) : sdio_mpa_rx :=
  mk_rx (rx_bounce r) (rx_buf_len r) (rx_pkt_cnt r) (rx_ports r) (rx_start_port r) x (rx_lens r) (rx_enabled r) (rx_buf_size r) (rx_aggr_limit r).
Definition set_rx_lens (x : list Z) (r : sdio_mpa_rx) : sdio_mpa_rx :=
  mk_rx (rx_bounce r) (rx_buf_len r) (rx_pkt_cnt r) (rx_ports r) (rx_start_port r) (rx_mbufs r) x (rx_enabled r) (rx_buf_size r) (rx_aggr_limit r).
Definition set_rx_enabled (x : bool) (r : sdio_mpa_rx) : sdio_mpa_rx :=
  mk_rx (rx_bounce r) (rx_buf_len r) (rx_pkt_cnt r) (rx_ports r) (rx_start_port r) (rx_mbufs r) (rx_lens r) x (rx_buf_size r) (rx_aggr_limit r).
Definition set_rx_buf_size (x : Z) (r : sdio_mpa_rx) : sdio_mpa_rx :=
  mk_rx (rx_bounce r) (rx_buf_len r) (rx_pkt_cnt r) (rx_ports r) (rx_start_port r) (rx_mbufs r) (rx_lens r) (rx_enabled r) x (rx_aggr_limit r).
Definition set_rx_aggr_limit (x : Z) (r : sdio_mpa_rx) : sdio_mpa_rx :=
  mk_rx (rx_bounce r) (rx_buf_len r) (rx_pkt_cnt r) (rx_ports r) (rx_start_port r) (rx_mbufs r) (rx_lens r) (rx_enabled r) (rx_buf_size r) x.

(** The receive side of [_mlan_sdio_card] and [_mlan_adapter].  [curr_cmd]: a command
    waits for its response, which goes to [respbuf]; [handled]: the packets given to
    [wlan_handle_rx_packet]; [freed]: the buffers given back; [next_id] numbers them.
    [rx_drop]: a test mode drops packets at the queue. *)
Record sdio_rx := mk_srx {
  mp_rd_bitmap : Z;
  curr_rd_port : Z;
  rd_end_port : Z;
  mpa_rx : sdio_mpa_rx;
  mpa_rx_count : list Z;
  rx_buf : list Z;
  sdio_rx_block_size : Z;
  upld_len : Z;
  rx_work_flag : bool;
  rx_drop : bool;
  rx_data_queue : list rbuf;
  rx_pkts_queued : Z;
  data_received : bool;
  num_pkt_dropped : Z;
  cmd_sent : bool;
  vdll_len : Z;
  curr_cmd : bool;
  respbuf : option rbuf;
  cmd_resp_received : bool;
  upld_buf : list Z;
  event_cause : Z;
  event_body : list Z;
  event_received : bool;
  event_buf : option rbuf;
  ps : PS_STATE;
  handled : list rbuf;
  freed : list Z;
  next_id : Z
}.
Definition set_mp_rd_bitmap (x : Z) (r : sdio_rx) : sdio_rx :=
  mk_srx x (curr_rd_port r) (rd_end_port r) (mpa_rx r) (mpa_rx_count r) (rx_buf r) (sdio_rx_block_size r) (upld_len r) (rx_work_flag r) (rx_drop r) (rx_data_queue r) (rx_pkts_queued r) (data_received r) (num_pkt_dropped r) (cmd_sent r) (vdll_len r) (curr_cmd r) (respbuf r) (cmd_resp_received r) (upld_buf r) (event_cause r) (event_body r) (event_received r) (event_buf r) (ps r) (handled r) (freed r) (next_id r).
Definition set_curr_rd_port (x : Z) (r : sdio_rx) : sdio_rx :=
  mk_srx (mp_rd_bitmap r) x (rd_end_port r) (mpa_rx r) (mpa_rx_count r) (rx_buf r) (sdio_rx_block_size r) (upld_len r) (rx_work_flag r) (rx_drop r) (rx_data_queue r) (rx_pkts_queued r) (data_received r) (num_pkt_dropped r) (cmd_sent r) (vdll_len r) (curr_cmd r) (respbuf r) (cmd_resp_received r) (upld_buf r) (event_cause r) (event_body r) (event_received r) (event_buf r) (ps r) (handled r) (freed r) (next_id r).
Definition set_rd_end_port (x : Z) (r : sdio_rx) : sdio_rx :=
  mk_srx (mp_rd_bitmap r) (curr_rd_port r) x (mpa_rx r) (mpa_rx_count r) (rx_buf r) (sdio_rx_block_size r) (upld_len r) (rx_work_flag r) (rx_drop r) (rx_data_queue r) (rx_pkts_queued r) (data_received r) (num_pkt_dropped r) (cmd_sent r) (vdll_len r) (curr_cmd r) (respbuf r) (cmd_resp_received r) (upld_buf r) (event_cause r) (event_body r) (event_received r) (event_buf r) (ps r) (handled r) (freed r) (next_id r).
Definition set_mpa_rx (x : sdio_mpa_rx) (r : sdio_rx) : sdio_rx :=
  mk_srx (mp_rd_bitmap r) (curr_rd_port r) (rd_end_port r) x (mpa_rx_count r) (rx_buf r) (sdio_rx_block_size r) (upld_len r) (rx_work_flag r) (rx_drop r) (rx_data_queue r) (rx_pkts_queued r) (data_received r) (num_pkt_dropped r) (cmd_sent r) (vdll_len r) (curr_cmd r) (respbuf r) (cmd_resp_received r) (upld_buf r) (event_cause r) (event_body r) (event_received r) (event_buf r) (ps r) (handled r) (freed r) (next_id r).
Definition set_mpa_rx_count (x : list Z) (r : sdio_rx) : sdio_rx :=
  mk_srx (mp_rd_bitmap r) (curr_rd_port r) (rd_end_port r) (mpa_rx r) x (rx_buf r) (sdio_rx_block_size r) (upld_len r) (rx_work_flag r) (rx_drop r) (rx_data_queue r) (rx_pkts_queued r) (data_received r) (num_pkt_dropped r) (cmd_sent r) (vdll_len r) (curr_cmd r) (respbuf r) (cmd_resp_received r) (upld_buf r) (event_cause r) (event_body r) (event_received r) (event_buf r) (ps r) (handled r) (freed r) (next_id r).
Definition set_rx_buf (x : list Z) (r : sdio_rx) : sdio_rx :=
  mk_srx (mp_rd_bitmap r) (curr_rd_port r) (rd_end_port r) (mpa_rx r) (mpa_rx_count r) x (sdio_rx_block_size r) (upld_len r) (rx_work_flag r) (rx_drop r) (rx_data_queue r) (rx_pkts_queued r) (data_received r) (num_pkt_dropped r) (cmd_sent r) (vdll_len r) (curr_cmd r) (respbuf r) (cmd_resp_received r) (upld_buf r) (event_cause r) (event_body r) (event_received r) (event_buf r) (ps r) (handled r) (freed r) (next_id r).
Definition set_sdio_rx_block_size (x : Z) (r : sdio_rx) : sdio_rx :=
  mk_srx (mp_rd_bitmap r) (curr_rd_port r) (rd_end_port r) (mpa_rx r) (mpa_rx_count r) (rx_buf r) x (upld_len r) (rx_work_flag r) (rx_drop r) (rx_data_queue r) (rx_pkts_queued r) (data_received r) (num_pkt_dropped r) (cmd_sent r) (vdll_len r) (curr_cmd r) (respbuf r) (cmd_resp_received r) (upld_buf r) (event_cause r) (event_body r) (event_received r) (event_buf r) (ps r) (handled r) (freed r) (next_id r).
Definition set_upld_len (x : Z) (r : sdio_rx) : sdio_rx :=
  mk_srx (mp_rd_bitmap r) (curr_rd_port r) (rd_end_port r) (mpa_rx r) (mpa_rx_count r) (rx_buf r) (sdio_rx_block_size r) x (rx_work_flag r) (rx_drop r) (rx_data_queue r) (rx_pkts_queued r) (data_received r) (num_pkt_dropped r) (cmd_sent r) (vdll_len r) (curr_cmd r) (respbuf r) (cmd_resp_received r) (upld_buf r) (event_cause r) (event_body r) (event_received r) (event_buf r) (ps r) (handled r) (freed r) (next_id r).
Definition set_rx_work_flag (x : bool) (r : sdio_rx) : sdio_rx :=
  mk_srx (mp_rd_bitmap r) (curr_rd_port r) (rd_end_port r) (mpa_rx r) (mpa_rx_count r) (rx_buf r) (sdio_rx_block_size r) (upld_len r) x (rx_drop r) (rx_data_queue r) (rx_pkts_queued r) (data_received r) (num_pkt_dropped r) (cmd_sent r) (vdll_len r) (curr_cmd r) (respbuf r) (cmd_resp_received r) (upld_buf r) (event_cause r) (event_body r) (event_received r) (event_buf r) (ps r) (handled r) (freed r) (next_id r).
Definition set_rx_drop (x : bool) (r : sdio_rx) : sdio_rx :=
  mk_srx (mp_rd_bitmap r) (curr_rd_port r) (rd_end_port r) (mpa_rx r) (mpa_rx_count r) (rx_buf r) (sdio_rx_block_size r) (upld_len r) (rx_work_flag r) x (rx_data_queue r) (rx_pkts_queued r) (data_received r) (num_pkt_dropped r) (cmd_sent r) (vdll_len r) (curr_cmd r) (respbuf r) (cmd_resp_received r) (upld_buf r) (event_cause r) (event_body r) (event_received r) (event_buf r) (ps r) (handled r) (freed r) (next_id r).
Definition set_rx_data_queue (x : list rbuf) (r : sdio_rx) : sdio_rx :=
  mk_srx (mp_rd_bitmap r) (curr_rd_port r) (rd_end_port r) (mpa_rx r) (mpa_rx_count r) (rx_buf r) (sdio_rx_block_size r) (upld_len r) (rx_work_flag r) (rx_drop r) x (rx_pkts_queued r) (data_received r) (num_pkt_dropped r) (cmd_sent r) (vdll_len r) (curr_cmd r) (respbuf r) (cmd_resp_received r) (upld_buf r) (event_cause r) (event_body r) (event_received r) (event_buf r) (ps r) (handled r) (freed r) (next_id r).
Definition set_rx_pkts_queued (x : Z) (r : sdio_rx) : sdio_rx :=
  mk_srx (mp_rd_bitmap r) (curr_rd_port r) (rd_end_port r) (mpa_rx r) (mpa_rx_count r) (rx_buf r) (sdio_rx_block_size r) (upld_len r) (rx_work_flag r) (rx_drop r) (rx_data_queue r) x (data_received r) (num_pkt_dropped r) (cmd_sent r) (vdll_len r) (curr_cmd r) (respbuf r) (cmd_resp_received r) (upld_buf r) (event_cause r) (event_body r) (event_received r) (event_buf r) (ps r) (handled r) (freed r) (next_id r).
Definition set_data_received (x : bool) (r : sdio_rx) : sdio_rx :=
  mk_srx (mp_rd_bitmap r) (curr_rd_port r) (rd_end_port r) (mpa_rx r) (mpa_rx_count r) (rx_buf r) (sdio_rx_block_size r) (upld_len r) (rx_work_flag r) (rx_drop r) (rx_data_queue r) (rx_pkts_queued r) x (num_pkt_dropped r) (cmd_sent r) (vdll_len r) (curr_cmd r) (respbuf r) (cmd_resp_received r) (upld_buf r) (event_cause r) (event_body r) (event_received r) (event_buf r) (ps r) (handled r) (freed r) (next_id r).
Definition set_num_pkt_dropped (x : Z) (r : sdio_rx) : sdio_rx :=
  mk_srx (mp_rd_bitmap r) (curr_rd_port r) (rd_end_port r) (mpa_rx r) (mpa_rx_count r) (rx_buf r) (sdio_rx_block_size r) (upld_len r) (rx_work_flag r) (rx_drop r) (rx_data_queue r) (rx_pkts_queued r) (data_received r) x (cmd_sent r) (vdll_len r) (curr_cmd r) (respbuf r) (cmd_resp_received r) (upld_buf r) (event_cause r) (event_body r) (event_received r) (event_buf r) (ps r) (handled r) (freed r) (next_id r).
Definition set_cmd_sent (x : bool) (r : sdio_rx) : sdio_rx :=
  mk_srx (mp_rd_bitmap r) (curr_rd_port r) (rd_end_port r) (mpa_rx r) (mpa_rx_count r) (rx_buf r) (sdio_rx_block_size r) (upld_len r) (rx_work_flag r) (rx_drop r) (rx_data_queue r) (rx_pkts_queued r) (data_received r) (num_pkt_dropped r) x (vdll_len r) (curr_cmd r) (respbuf r) (cmd_resp_received r) (upld_buf r) (event_cause r) (event_body r) (event_received r) (event_buf r) (ps r) (handled r) (freed r) (next_id r).
Definition set_vdll_len (x : Z) (r : sdio_rx) : sdio_rx :=
  mk_srx (mp_rd_bitmap r) (curr_rd_port r) (rd_end_port r) (mpa_rx r) (mpa_rx_count r) (rx_buf r) (sdio_rx_block_size r) (upld_len r) (rx_work_flag r) (rx_drop r) (rx_data_queue r) (rx_pkts_queued r) (data_received r) (num_pkt_dropped r) (cmd_sent r) x (curr_cmd r) (respbuf r) (cmd_resp_received r) (upld_buf r) (event_cause r) (event_body r) (event_received r) (event_buf r) (ps r) (handled r) (freed r) (next_id r).
Definition set_curr_cmd (x : bool) (r : sdio_rx) : sdio_rx :=
  mk_srx (mp_rd_bitmap r) (curr_rd_port r) (rd_end_port r) (mpa_rx r) (mpa_rx_count r) (rx_buf r) (sdio_rx_block_size r) (upld_len r) (rx_work_flag r) (rx_drop r) (rx_data_queue r) (rx_pkts_queued r) (data_received r) (num_pkt_dropped r) (cmd_sent r) (vdll_len r) x (respbuf r) (cmd_resp_received r) (upld_buf r) (event_cause r) (event_body r) (event_received r) (event_buf r) (ps r) (handled r) (freed r) (next_id r).
Definition set_respbuf (x : option rbuf) (r : sdio_rx) : sdio_rx :=
  mk_srx (mp_rd_bitmap r) (curr_rd_port r) (rd_end_port r) (mpa_rx r) (mpa_rx_count r) (rx_buf r) (sdio_rx_block_size r) (upld_len r) (rx_work_flag r) (rx_drop r) (rx_data_queue r) (rx_pkts_queued r) (data_received r) (num_pkt_dropped r) (cmd_sent r) (vdll_len r) (curr_cmd r) x (cmd_resp_received r) (upld_buf r) (event_cause r) (event_body r) (event_received r) (event_buf r) (ps r) (handled r) (freed r) (next_id r).
Definition set_cmd_resp_received (x : bool) (r : sdio_rx) : sdio_rx :=
  mk_srx (mp_rd_bitmap r) (curr_rd_port r) (rd_end_port r) (mpa_rx r) (mpa_rx_count r) (rx_buf r) (sdio_rx_block_size r) (upld_len r) (rx_work_flag r) (rx_drop r) (rx_data_queue r) (rx_pkts_queued r) (data_received r) (num_pkt_dropped r) (cmd_sent r) (vdll_len r) (curr_cmd r) (respbuf r) x (upld_buf r) (event_cause r) (event_body r) (event_received r) (event_buf r) (ps r) (handled r) (freed r) (next_id r).
Definition set_upld_buf (x : list Z) (r : sdio_rx) : sdio_rx :=
  mk_srx (mp_rd_bitmap r) (curr_rd_port r) (rd_end_port r) (mpa_rx r) (mpa_rx_count r) (rx_buf r) (sdio_rx_block_size r) (upld_len r) (rx_work_flag r) (rx_drop r) (rx_data_queue r) (rx_pkts_queued r) (data_received r) (num_pkt_dropped r) (cmd_sent r) (vdll_len r) (curr_cmd r) (respbuf r) (cmd_resp_received r) x (event_cause r) (event_body r) (event_received r) (event_buf r) (ps r) (handled r) (freed r) (next_id r).
Definition set_event_cause (x : Z) (r : sdio_rx) : sdio_rx :=
  mk_srx (mp_rd_bitmap r) (curr_rd_port r) (rd_end_port r) (mpa_rx r) (mpa_rx_count r) (rx_buf r) (sdio_rx_block_size r) (upld_len r) (rx_work_flag r) (rx_drop r) (rx_data_queue r) (rx_pkts_queued r) (data_received r) (num_pkt_dropped r) (cmd_sent r) (vdll_len r) (curr_cmd r) (respbuf r) (cmd_resp_received r) (upld_buf r) x (event_body r) (event_received r) (event_buf r) (ps r) (handled r) (freed r) (next_id r).
Definition set_event_body (x : list Z) (r : sdio_rx) : sdio_rx :=
  mk_srx (mp_rd_bitmap r) (curr_rd_port r) (rd_end_port r) (mpa_rx r) (mpa_rx_count r) (rx_buf r) (sdio_rx_block_size r) (upld_len r) (rx_work_flag r) (rx_drop r) (rx_data_queue r) (rx_pkts_queued r) (data_received r) (num_pkt_dropped r) (cmd_sent r) (vdll_len r) (curr_cmd r) (respbuf r) (cmd_resp_received r) (upld_buf r) (event_cause r) x (event_received r) (event_buf r) (ps r) (handled r) (freed r) (next_id r).
Definition set_event_received (x : bool) (r : sdio_rx) : sdio_rx :=
  mk_srx (mp_rd_bitmap r) (curr_rd_port r) (rd_end_port r) (mpa_rx r) (mpa_rx_count r) (rx_buf r) (sdio_rx_block_size r) (upld_len r) (rx_work_flag r) (rx_drop r) (rx_data_queue r) (rx_pkts_queued r) (data_received r) (num_pkt_dropped r) (cmd_sent r) (vdll_len r) (curr_cmd r) (respbuf r) (cmd_resp_received r) (upld_buf r) (event_cause r) (event_body r) x (event_buf r) (ps r) (handled r) (freed r) (next_id r).
Definition set_event_buf (x : option rbuf) (r : sdio_rx) : sdio_rx :=
  mk_srx (mp_rd_bitmap r) (curr_rd_port r) (rd_end_port r) (mpa_rx r) (mpa_rx_count r) (rx_buf r) (sdio_rx_block_size r) (upld_len r) (rx_work_flag r) (rx_drop r) (rx_data_queue r) (rx_pkts_queued r) (data_received r) (num_pkt_dropped r) (cmd_sent r) (vdll_len r) (curr_cmd r) (respbuf r) (cmd_resp_received r) (upld_buf r) (event_cause r) (event_body r) (event_received r) x (ps r) (handled r) (freed r) (next_id r).
Definition set_ps (x : PS_STATE) (r : sdio_rx) : sdio_rx :=
  mk_srx (mp_rd_bitmap r) (curr_rd_port r) (rd_end_port r) (mpa_rx r) (mpa_rx_count r) (rx_buf r) (sdio_rx_block_size r) (upld_len r) (rx_work_flag r) (rx_drop r) (rx_data_queue r) (rx_pkts_queued r) (data_received r) (num_pkt_dropped r) (cmd_sent r) (vdll_len r) (curr_cmd r) (respbuf r) (cmd_resp_received r) (upld_buf r) (event_cause r) (event_body r) (event_received r) (event_buf r) x (handled r) (freed r) (next_id r).
Definition set_handled (x : list rbuf) (r : sdio_rx) : sdio_rx :=
  mk_srx (mp_rd_bitmap r) (curr_rd_port r) (rd_end_port r) (mpa_rx r) (mpa_rx_count r) (rx_buf r) (sdio_rx_block_size r) (upld_len r) (rx_work_flag r) (rx_drop r) (rx_data_queue r) (rx_pkts_queued r) (data_received r) (num_pkt_dropped r) (cmd_sent r) (vdll_len r) (curr_cmd r) (respbuf r) (cmd_resp_received r) (upld_buf r) (event_cause r) (event_body r) (event_received r) (event_buf r) (ps r) x (freed r) (next_id r).
Definition set_freed (x : list Z) (r : sdio_rx) : sdio_rx :=
  mk_srx (mp_rd_bitmap r) (curr_rd_port r) (rd_end_port r) (mpa_rx r) (mpa_rx_count r) (rx_buf r) (sdio_rx_block_size r) (upld_len r) (rx_work_flag r) (rx_drop r) (rx_data_queue r) (rx_pkts_queued r) (data_received r) (num_pkt_dropped r) (cmd_sent r) (vdll_len r) (curr_cmd r) (respbuf r) (cmd_resp_received r) (upld_buf r) (event_cause r) (event_body r) (event_received r) (event_buf r) (ps r) (handled r) x (next_id r).
Definition set_next_id (x : Z) (r : sdio_rx) : sdio_rx :=
  mk_srx (mp_rd_bitmap r) (curr_rd_port r) (rd_end_port r) (mpa_rx r) (mpa_rx_count r) (rx_buf r) (sdio_rx_block_size r) (upld_len r) (rx_work_flag r) (rx_drop r) (rx_data_queue r) (rx_pkts_queued r) (data_received r) (num_pkt_dropped r) (cmd_sent r) (vdll_len r) (curr_cmd r) (respbuf r) (cmd_resp_received r) (upld_buf r) (event_cause r) (event_body r) (event_received r) (event_buf r) (ps r) (handled r) (freed r) x.

Definition on_rx (f : sdio_mpa_rx → sdio_mpa_rx) (s : sdio_rx) : sdio_rx := set_mpa_rx (f (mpa_rx s)) s.

(** ** Reading from a port *)

(** The loop over attempts; each failure but the last is followed by a write of
    [HOST_TERM_CMD53]. *)
Fixpoint read_tries (fuel i : nat) (f : nat → option (list Z)) : option (list Z) :=
  match fuel with
  | O => None
  | S fuel =>
      match f i with
      | Some d => Some d
      | None => if (MAX_WRITE_IOMEM_RETRY <? S i)%nat then None else read_tries fuel (S i) f
      end
  end.
Definition read_card (e : rx_env) (addr len : Z) : option (list Z) := read_tries (S MAX_WRITE_IOMEM_RETRY) 0 (io e addr len).

(** Bytes put at the buffer's data offset. *)
Definition fill (d : list Z) (b : rbuf) : option rbuf :=
  m ← splice (b_off b) d (b_mem b); Some (mk_rbuf (b_id b) m (b_off b) (b_len b) (b_spa b)).

(** The result: the length in the header if it was read, the buffer, and the type if
    the transfer succeeded. *)
Definition wlan_sdio_card_to_host (e : rx_env) (b : rbuf) (npayload addr : Z) : option (option Z * rbuf * option Z) :=
  match read_card e addr (b_len b) with
  | None => Some (None, b, None)
  | Some d =>
      b ← fill d b;
      nb ← le16 (drop (b_off b) (b_mem b));
      type ← le16 (drop (b_off b + 2) (b_mem b));
      Some (Some nb, b, if npayload <? nb then None else Some type)
  end.
Definition note_len (nb : option Z) (s : sdio_rx) : sdio_rx := match nb with Some n => set_upld_len n s | None => s end.

(** ** Buffers *)

Definition wlan_free_mlan_buffer (b : rbuf) (s : sdio_rx) : sdio_rx := set_freed (freed s ++ [b_id b]) s.
(** [len] is rounded up to blocks. *)
Definition wlan_alloc_mlan_buffer (e : rx_env) (len : Z) (s : sdio_rx) : option rbuf * sdio_rx :=
  let n := next_id s in
  let s := set_next_id (n + 1) s in
  if alloc e n then (Some (mk_rbuf n (replicate (Z.to_nat (blocks len)) 0) 0 (blocks len) false), s) else (None, s).
Definition wlan_handle_rx_packet (b : rbuf) (s : sdio_rx) : sdio_rx := set_handled (handled s ++ [b]) s.
Definition enqueue_rx (b : rbuf) (s : sdio_rx) : sdio_rx :=
  set_rx_pkts_queued (u16 (rx_pkts_queued s + 1)) (set_rx_data_queue (rx_data_queue s ++ [b]) s).

(** ** Several packets in one *)

(** The loop of [wlan_decode_spa_buffer]; [stale] is what [mbuf_deaggr] holds from
    the packet before. *)
Fixpoint spa_loop (fuel : nat) (e : rx_env) (data : list Z) (total : Z) (stale : option rbuf) (s : sdio_rx) : option sdio_rx :=
  match fuel with
  | O => None
  | S fuel =>
      if total <? Z.of_nat OFFSET_OF_SDIO_HEADER + SDIO_INTF_HEADER_LEN then Some s
      else
        block_num ← data !! OFFSET_OF_BLOCK_NUMBER;
        let block_size := u16 (sdio_rx_block_size s * block_num) in
        if total <? block_size then Some s
        else
          pkt_len ← le16 (drop OFFSET_OF_SDIO_HEADER data);
          if block_size <? pkt_len + Z.of_nat OFFSET_OF_SDIO_HEADER then Some s
          else
            let '(m, s) := if SDIO_INTF_HEADER_LEN <? pkt_len then wlan_alloc_mlan_buffer e (pkt_len - SDIO_INTF_HEADER_LEN) s else (stale, s) in
            match m with
            | None => Some s
            | Some m =>
                let n := u32 (pkt_len - SDIO_INTF_HEADER_LEN) in
                let src := drop (OFFSET_OF_SDIO_HEADER + 4) data in
                if decide (n <= Z.of_nat (length src)) then
                  m ← fill (take (Z.to_nat n) src) m;
                  let m := mk_rbuf (b_id m) (b_mem m) (b_off m) n false in
                  let s := wlan_handle_rx_packet m s in
                  let total := total - block_size in
                  if total <? sdio_rx_block_size s then Some s else spa_loop fuel e (drop (Z.to_nat block_size) data) total (Some m) s
                else None
            end
  end.
Definition wlan_decode_spa_buffer (e : rx_env) (buf : list Z) (len : Z) (s : sdio_rx) : option sdio_rx :=
  let total := s32 len in
  if total <? sdio_rx_block_size s then Some s else spa_loop (S (Z.to_nat total)) e buf total None s.
Definition wlan_sdio_deaggr_rx_pkt (e : rx_env) (b : rbuf) (s : sdio_rx) : option sdio_rx :=
  if b_spa b then s ← wlan_decode_spa_buffer e (drop (b_off b) (b_mem b)) (b_len b) s; Some (wlan_free_mlan_buffer b s)
  else Some (wlan_handle_rx_packet b s).

(** ** A packet read *)

(** The header taken off, [data_len] set. *)
Definition strip (len : Z) (b : rbuf) : rbuf := mk_rbuf (b_id b) (b_mem b) (b_off b + 4) (u32 (len - SDIO_INTF_HEADER_LEN)) (b_spa b).

Definition decode_spa (e : rx_env) (b : rbuf) (s : sdio_rx) : option sdio_rx :=
  let b := mk_rbuf (b_id b) (b_mem b) (b_off b) (upld_len s) (b_spa b) in
  s ← (if rx_work_flag s then Some (enqueue_rx (mk_rbuf (b_id b) (b_mem b) (b_off b) (b_len b) true) s)
       else s ← wlan_decode_spa_buffer e (drop (b_off b) (b_mem b)) (b_len b) s; Some (wlan_free_mlan_buffer b s));
  Some (set_data_received true s).
Definition decode_data (b : rbuf) (s : sdio_rx) : sdio_rx :=
  if b_len b <? upld_len s then wlan_free_mlan_buffer b s
  else
    let b := strip (upld_len s) b in
    let s := if rx_work_flag s then if rx_drop s then wlan_free_mlan_buffer b s else enqueue_rx b s
             else wlan_handle_rx_packet b s in
    set_data_received true s.
(** [memcpy_ext]: [n] bytes, or as many as the destination holds. *)
Definition copy_to (dst src : list Z) (n size : Z) : option (list Z) :=
  let n := Z.min n size in
  if decide (n <= Z.of_nat (length src)) then splice 0 (take (Z.to_nat n) src) dst else None.
Definition decode_cmd (e : rx_env) (b : rbuf) (s : sdio_rx) : option sdio_rx :=
  let s := if cmd_sent s && (vdll_len s =? 0) then set_cmd_sent false s else s in
  let body := drop (b_off b + 4) (b_mem b) in
  if negb (curr_cmd s) then
    let s := if bool_decide (ps s = PS_STATE_SLEEP_CFM) then set_ps (confirm e body (u32 (upld_len s - SDIO_INTF_HEADER_LEN))) s else s in
    let s := set_upld_len (u32 (upld_len s - SDIO_INTF_HEADER_LEN)) s in
    c ← copy_to (upld_buf s) body (u32 (upld_len s - SDIO_INTF_HEADER_LEN)) MRVDRV_SIZE_OF_CMD_BUFFER;
    Some (wlan_free_mlan_buffer b (set_upld_buf c s))
  else
    let b := strip (upld_len s) b in
    Some (set_respbuf (Some b) (set_upld_len (u32 (upld_len s - SDIO_INTF_HEADER_LEN)) (set_cmd_resp_received true s))).
Definition decode_event (b : rbuf) (s : sdio_rx) : option sdio_rx :=
  cause ← le32 (drop (b_off b + 4) (b_mem b));
  let s := set_event_cause cause s in
  let n := u32 (upld_len s - MLAN_EVENT_HEADER_LEN) in
  body ← (if (MLAN_EVENT_HEADER_LEN <? upld_len s) && (n <? MAX_EVENT_SIZE)
          then copy_to (event_body s) (drop (b_off b + 8) (b_mem b)) n MAX_EVENT_SIZE else Some (event_body s));
  Some (set_event_buf (Some (strip (upld_len s) b)) (set_event_received true (set_event_body body s))).
Definition wlan_decode_rx_packet (e : rx_env) (b : rbuf) (upld_typ : Z) (s : sdio_rx) : option sdio_rx :=
  if upld_typ =? MLAN_TYPE_SPA_DATA then decode_spa e b s
  else if upld_typ =? MLAN_TYPE_DATA then Some (decode_data b s)
  else if upld_typ =? MLAN_TYPE_CMD then decode_cmd e b s
  else if upld_typ =? MLAN_TYPE_EVENT then decode_event b s
  else Some (wlan_free_mlan_buffer b s).

(** ** Ports *)

Definition take_port (p : Z) (s : sdio_rx) : sdio_rx := set_mp_rd_bitmap (clear_bit p (mp_rd_bitmap s)) s.
Definition wlan_get_rd_port (c : sdio_cfg) (s : sdio_rx) : option (Z * sdio_rx) :=
  let mask := if new_mode c then reg_data_port_mask c else Z.lor CTRL_PORT_MASK (reg_data_port_mask c) in
  if Z.land (mp_rd_bitmap s) mask =? 0 then None
  else if negb (new_mode c) && negb (Z.land (mp_rd_bitmap s) CTRL_PORT_MASK =? 0) then Some (CTRL_PORT, take_port 0 s)
  else if bit (mp_rd_bitmap s) (curr_rd_port s) then
    let p := curr_rd_port s in
    let n := u8 (p + 1) in
    Some (p, set_curr_rd_port (if n =? max_ports c then start_rd_port c else n) (take_port p s))
  else None.

(** ** Aggregation *)

Definition rx_in_progress (s : sdio_rx) : bool := (0 <? rx_pkt_cnt (mpa_rx s))%nat.
Definition rx_has_room (s : sdio_rx) (len : Z) : bool := u32 (rx_buf_len (mpa_rx s) + len) <=? rx_buf_size (mpa_rx s).
Definition rx_pkt_limit_reached (s : sdio_rx) : bool := Z.of_nat (rx_pkt_cnt (mpa_rx s)) =? rx_aggr_limit (mpa_rx s).
Definition rx_port_limit_reached (c : sdio_cfg) (s : sdio_rx) : bool :=
  let curr := curr_rd_port s in let start := rx_start_port (mpa_rx s) in let half := Z.shiftr (rd_end_port s) 1 in
  ((curr <? start) && (half <=? max_ports c - start + curr)) || (half <=? curr - start).
Definition rx_port_limit_reached_old (c : sdio_cfg) (s : sdio_rx) : bool :=
  let curr := curr_rd_port s in let start := rx_start_port (mpa_rx s) in
  (curr <? start) && (Z.of_nat (mp_aggr_pkt_limit c) <=? max_ports c - start + curr).

(** [MP_RX_AGGR_SETUP] and that for older cards. *)
Definition rx_port_bit (c : sdio_cfg) (start port : Z) (cnt : nat) : Z :=
  if new_mode c then port else if start <=? port then Z.of_nat cnt else Z.of_nat cnt + 1.
Definition rx_put (c : sdio_cfg) (b : rbuf) (port rx_len : Z) (s : sdio_rx) : option sdio_rx :=
  let t := mpa_rx s in
  let start := if (rx_pkt_cnt t =? 0)%nat then port else rx_start_port t in
  mbufs ← put (rx_pkt_cnt t) (Some b) (rx_mbufs t);
  lens ← put (rx_pkt_cnt t) rx_len (rx_lens t);
  Some (set_mpa_rx (mk_rx (rx_bounce t) (u32 (rx_buf_len t + rx_len)) (S (rx_pkt_cnt t))
    (Z.lor (rx_ports t) (u32 (Z.shiftl 1 (rx_port_bit c start port (rx_pkt_cnt t))))) start mbufs lens
    (rx_enabled t) (rx_buf_size t) (rx_aggr_limit t)) s).
Definition MP_RX_AGGR_BUF_RESET (t : sdio_mpa_rx) : sdio_mpa_rx :=
  mk_rx (rx_bounce t) 0 0 0 0 (rx_mbufs t) (rx_lens t) (rx_enabled t) (rx_buf_size t) (rx_aggr_limit t).
Definition bump_count (i : nat) (s : sdio_rx) : option sdio_rx :=
  n ← mpa_rx_count s !! i; l ← put i (u32 (n + 1)) (mpa_rx_count s); Some (set_mpa_rx_count l s).
Definition data_type (type : Z) : bool := (type =? MLAN_TYPE_DATA) || (type =? MLAN_TYPE_SPA_DATA).

Definition wlan_receive_single_packet (c : sdio_cfg) (e : rx_env) (s : sdio_rx) : option (sdio_rx * mlan_status) :=
  b ← (ob ← rx_mbufs (mpa_rx s) !! 0%nat; ob);
  len ← rx_lens (mpa_rx s) !! 0%nat;
  '(nb, b, type) ← wlan_sdio_card_to_host e b (u16 len) (u32 (ioport c + u8 (rx_start_port (mpa_rx s))));
  let s := note_len nb s in
  '(s, ret) ← match type with
              | Some type =>
                  if data_type type then s ← bump_count 0 s; s ← wlan_decode_rx_packet e b type s; Some (s, MLAN_STATUS_SUCCESS)
                  else Some (wlan_free_mlan_buffer b s, MLAN_STATUS_FAILURE)
              | None => Some (wlan_free_mlan_buffer b s, MLAN_STATUS_FAILURE)
              end;
  Some (on_rx MP_RX_AGGR_BUF_RESET s, ret).

(** The address of a transfer of several packets. *)
Definition rx_addr (c : sdio_cfg) (t : sdio_mpa_rx) : option Z :=
  ports ← if new_mode c then n ← bitcount (rx_ports t); Some (u32 (Z.shiftl (u32 (n - 1)) 8))
          else Some (u32 (Z.shiftl (rx_ports t) 4));
  Some (u32 (Z.lor (Z.lor (ioport c) SDIO_MPA_ADDR_BASE) ports + rx_start_port t)).
Definition rx_packets (t : sdio_mpa_rx) : option (list (rbuf * Z)) :=
  bs ← mapM id (take (rx_pkt_cnt t) (rx_mbufs t));
  let l := zip bs (take (rx_pkt_cnt t) (rx_lens t)) in
  if decide (length l = rx_pkt_cnt t) then Some l else None.

(** Scatter-gather: the bytes go to the buffers one after the other; no length is
    compared with the buffer's. *)
Fixpoint scatter (l : list (rbuf * Z)) (d : list Z) : option (list rbuf) :=
  match l with
  | [] => Some []
  | (b, len) :: l =>
      let n := Z.to_nat len in
      if decide (n <= length d)%nat then
        b ← fill (take n d) (mk_rbuf (b_id b) (b_mem b) (b_off b) len (b_spa b)); bs ← scatter l (drop n d); Some (b :: bs)
      else None
  end.
Fixpoint decode_scattered (e : rx_env) (l : list rbuf) (s : sdio_rx) : option sdio_rx :=
  match l with
  | [] => Some s
  | b :: l =>
      len ← le16 (drop (b_off b) (b_mem b));
      type ← le16 (drop (b_off b + 2) (b_mem b));
      s ← wlan_decode_rx_packet e b type (set_upld_len len s);
      decode_scattered e l s
  end.
(** The bounce buffer, from [curr_ptr] on. *)
Fixpoint decode_bounced (e : rx_env) (l : list (rbuf * Z)) (curr : list Z) (s : sdio_rx) : option sdio_rx :=
  match l with
  | [] => Some s
  | (b, max) :: l =>
      len ← le16 curr;
      type ← le16 (drop 2 curr);
      s ← (if data_type type && (len <=? max) then
             if decide (len <= Z.of_nat (length curr)) then
               b ← fill (take (Z.to_nat len) curr) b; wlan_decode_rx_packet e b type (set_upld_len len s)
             else None
           else Some (wlan_free_mlan_buffer b s));
      decode_bounced e l (drop (Z.to_nat max) curr) s
  end.
Definition wlan_receive_mp_aggr_buf (c : sdio_cfg) (e : rx_env) (s : sdio_rx) : option (sdio_rx * mlan_status) :=
  let t := mpa_rx s in
  if (rx_pkt_cnt t =? 1)%nat then wlan_receive_single_packet c e s
  else
    l ← rx_packets t;
    addr ← rx_addr c t;
    match read_card e addr (rx_buf_len t) with
    | None => Some (s, MLAN_STATUS_FAILURE)
    | Some d =>
        s ← match rx_bounce t with
            | None => bs ← scatter l d; decode_scattered e bs s
            | Some m =>
                m ← splice 0 d m;
                decode_bounced e l m (on_rx (set_rx_bounce (Some m)) s)
            end;
        s ← bump_count (rx_pkt_cnt t - 1) s;
        Some (on_rx MP_RX_AGGR_BUF_RESET s, MLAN_STATUS_SUCCESS)
    end.

(** What [wlan_sdio_card_to_host_mp_aggr] decides: read the aggregate, read the packet
    alone, add it before or after the aggregate is read. *)
Record rx_plan := mk_rplan { do_rx_aggr : bool; do_rx_cur : bool; aggr_cur : bool; post_aggr_cur : bool }.
Definition more_pending (c : sdio_cfg) (s : sdio_rx) : bool :=
  negb (Z.land (mp_rd_bitmap s) (if new_mode c then reg_data_port_mask c else u32 (Z.lnot CTRL_PORT_MASK)) =? 0).
Definition plan_rx (c : sdio_cfg) (s : sdio_rx) (port rx_len : Z) : rx_plan :=
  if (negb (new_mode c) && (port =? CTRL_PORT)) || negb (rx_enabled (mpa_rx s)) then mk_rplan false true false false
  else if more_pending c s then
    if rx_in_progress s && negb (rx_has_room s rx_len) then mk_rplan true false false true else mk_rplan false false true false
  else if rx_in_progress s then mk_rplan true (negb (rx_has_room s rx_len)) (rx_has_room s rx_len) false
  else mk_rplan false true false false.

(** The packet alone: whether its type fits the port. *)
Definition type_ok (c : sdio_cfg) (port type : Z) : bool :=
  if negb (new_mode c) && (port =? CTRL_PORT) then (type =? MLAN_TYPE_EVENT) || (type =? MLAN_TYPE_CMD) else data_type type.
Definition rx_single (c : sdio_cfg) (e : rx_env) (b : rbuf) (port rx_len : Z) (s : sdio_rx) : option (sdio_rx * rbuf * mlan_status) :=
  '(nb, b, type) ← wlan_sdio_card_to_host e b rx_len (u32 (ioport c + port));
  let s := note_len nb s in
  match type with
  | Some type =>
      if type_ok c port type then
        s ← (if new_mode c || negb (port =? CTRL_PORT) then bump_count 0 s else Some s);
        s ← wlan_decode_rx_packet e b type s;
        Some (s, b, MLAN_STATUS_SUCCESS)
      else Some (s, b, MLAN_STATUS_FAILURE)
  | None => Some (s, b, MLAN_STATUS_FAILURE)
  end.
(** The cleanup of a failure: [cur] is the packet alone, if it was to be read. *)
Definition rx_failed (cur : option rbuf) (s : sdio_rx) : option (sdio_rx * mlan_status) :=
  s ← (if rx_in_progress s then
         l ← rx_packets (mpa_rx s);
         Some (on_rx MP_RX_AGGR_BUF_RESET (foldl (λ s b, wlan_free_mlan_buffer b s) s l.*1))
       else Some s);
  Some (match cur with Some b => wlan_free_mlan_buffer b s | None => s end, MLAN_STATUS_FAILURE).
Definition failed (ret : mlan_status) : bool := bool_decide (ret = MLAN_STATUS_FAILURE).
Definition wlan_sdio_card_to_host_mp_aggr (c : sdio_cfg) (e : rx_env) (b : rbuf) (port rx_len : Z) (s : sdio_rx)
  : option (sdio_rx * mlan_status) :=
  let p := plan_rx c s port rx_len in
  '(s, aggr) ← (if aggr_cur p then
      s ← rx_put c b port rx_len s;
      Some (s, do_rx_aggr p || (rx_pkt_limit_reached s || (if new_mode c then rx_port_limit_reached c s else rx_port_limit_reached_old c s)))
    else Some (s, do_rx_aggr p));
  '(s, ret) ← (if aggr : bool then wlan_receive_mp_aggr_buf c e s else Some (s, MLAN_STATUS_SUCCESS));
  if failed ret then rx_failed (if do_rx_cur p then Some b else None) s
  else if do_rx_cur p then
    '(s, b, ret) ← rx_single c e b port rx_len s;
    if failed ret then rx_failed (Some b) s else Some (s, ret)
  else
    s ← (if post_aggr_cur p then rx_put c b port rx_len s else Some s);
    Some (s, ret).

(** ** The interrupt *)

(** The packet is read, and kept only if it holds several, when no buffer is got. *)
Definition wlan_sdio_card_to_host_recovery (c : sdio_cfg) (e : rx_env) (port rx_len : Z) (s : sdio_rx) : option (sdio_rx * mlan_status) :=
  if negb (new_mode c) then Some (s, MLAN_STATUS_FAILURE)
  else
    s ← (if rx_in_progress s then '(s, _) ← wlan_receive_mp_aggr_buf c e s; Some s else Some s);
    '(nb, b, type) ← wlan_sdio_card_to_host e (mk_rbuf (-1) (rx_buf s) 0 rx_len false) rx_len (u32 (ioport c + port));
    let s := note_len nb (set_rx_buf (b_mem b) s) in
    match default MLAN_TYPE_DATA type with
    | 0 => Some (set_num_pkt_dropped (u32 (num_pkt_dropped s + 1)) s, MLAN_STATUS_SUCCESS)
    | type =>
        if type =? MLAN_TYPE_SPA_DATA then
          s ← wlan_decode_spa_buffer e (rx_buf s) (upld_len s) s;
          Some (set_data_received true s, MLAN_STATUS_SUCCESS)
        else Some (s, MLAN_STATUS_FAILURE)
    end.

Definition valid_len (len max : Z) : bool := negb ((len <=? SDIO_INTF_HEADER_LEN) || (max <? blocks len)).
(** One turn of the loop over the ports; [None] in the second place: go on. *)
Definition upload_one (c : sdio_cfg) (e : rx_env) (port : Z) (s : sdio_rx) : option (sdio_rx * option mlan_status) :=
  let len := rd_len e port in
  if negb (valid_len len (rx_buf_size (mpa_rx s))) then Some (s, Some MLAN_STATUS_FAILURE)
  else
    let rx_len := u16 (blocks len) in
    match wlan_alloc_mlan_buffer e rx_len s with
    | (None, s) =>
        '(s, ret) ← wlan_sdio_card_to_host_recovery c e port rx_len s;
        Some (s, if bool_decide (ret = MLAN_STATUS_SUCCESS) then None else Some MLAN_STATUS_FAILURE)
    | (Some b, s) =>
        '(s, ret) ← wlan_sdio_card_to_host_mp_aggr c e b port rx_len s;
        Some (s, if bool_decide (ret = MLAN_STATUS_SUCCESS) then None else Some MLAN_STATUS_FAILURE)
    end.
Fixpoint upload_loop (fuel : nat) (c : sdio_cfg) (e : rx_env) (s : sdio_rx) : option (sdio_rx * mlan_status) :=
  match fuel with
  | O => None
  | S fuel =>
      match wlan_get_rd_port c s with
      | None => Some (s, MLAN_STATUS_SUCCESS)
      | Some (port, s) =>
          '(s, r) ← upload_one c e port s;
          match r with Some ret => Some (s, ret) | None => upload_loop fuel c e s end
      end
  end.
(** The flag for received data is taken back if the card confirmed its sleep meanwhile. *)
Definition sleep_confirmed (old : PS_STATE) (s : sdio_rx) : sdio_rx :=
  if bool_decide (old = PS_STATE_SLEEP_CFM) && bool_decide (ps s = PS_STATE_SLEEP) then set_data_received false s else s.
(** [UP_LD_HOST_INT_STATUS]; [bitmap] is what the registers hold, [old] the power state
    when the function began. *)
Definition upload_interrupt (c : sdio_cfg) (e : rx_env) (old : PS_STATE) (bitmap : Z) (s : sdio_rx) : option (sdio_rx * mlan_status) :=
  '(s', ret) ← upload_loop 64 c e (set_mp_rd_bitmap bitmap s);
  Some (if failed ret then (s', ret) else (sleep_confirmed old s', ret)).

(** [UP_LD_CMD_PORT_HOST_INT_STATUS]: the command port of newer cards. *)
Definition cmd_interrupt (c : sdio_cfg) (e : rx_env) (s : sdio_rx) : option (sdio_rx * mlan_status) :=
  if negb (valid_len (cmd_rd_len e) ALLOC_BUF_SIZE) then Some (s, MLAN_STATUS_FAILURE)
  else
    let rx_len := u16 (blocks (cmd_rd_len e)) in
    match wlan_alloc_mlan_buffer e rx_len s with
    | (None, s) => Some (s, MLAN_STATUS_FAILURE)
    | (Some b, s1) =>
        '(nb, b, type) ← wlan_sdio_card_to_host e b rx_len (Z.lor (ioport c) CMD_PORT_SLCT);
        let s1 := note_len nb s1 in
        match type with
        | None => Some (wlan_free_mlan_buffer b s1, MLAN_STATUS_FAILURE)
        | Some type => s2 ← wlan_decode_rx_packet e b type s1; Some (sleep_confirmed (ps s) s2, MLAN_STATUS_SUCCESS)
        end
    end.

(** ** What the card holds and what is handed up *)

(** The packet behind the header. *)
Definition packet_body (d : list Z) : option (list Z) := h ← le16 d; Some (take (Z.to_nat (h - SDIO_INTF_HEADER_LEN)) (drop 4 d)).
(** Packets handed up: queued for the receive process or given to the handler. *)
Definition handed_up (s : sdio_rx) : list rbuf := if rx_work_flag s then rx_data_queue s else handled s.

(** Port [p] holds the data packet [d], padded to blocks; its length is in the register. *)
Record port_holds (e : rx_env) (max p : Z) (d : list Z) : Prop := {
  ph_reg : SDIO_INTF_HEADER_LEN < rd_len e p < 2 ^ 16;
  ph_len : Z.of_nat (length d) = blocks (rd_len e p);
  ph_max : blocks (rd_len e p) <= max;
  ph_head : ∃ h, le16 d = Some h ∧ SDIO_INTF_HEADER_LEN <= h <= Z.of_nat (length d);
  ph_type : le16 (drop 2 d) = Some MLAN_TYPE_DATA
}.
(** A transfer gives, at the third attempt or before, what the ports named by its
    address hold. *)
Definition card_gives (c : sdio_cfg) (e : rx_env) (pk : Z → list Z) : Prop := ∀ addr,
  let d := concat (pk <$> addr_ports c (max_ports c) addr) in
  ∃ i, (i <= MAX_WRITE_IOMEM_RETRY)%nat ∧ io e addr (Z.of_nat (length d)) i = Some d ∧ ∀ j, (j < i)%nat → io e addr (Z.of_nat (length d)) j = None.

Record rx_cfg_ok (c : sdio_cfg) : Prop := {
  rc_cfg : cfg_ok c;
  rc_start : start_rd_port c = start_wr_port c;
  rc_mask : ∀ p, start_wr_port c <= p < max_ports c → bit (reg_data_port_mask c) p = true
}.

Lemma read_tries_spec (f : nat → option (list Z)) d i k : (i + k <= MAX_WRITE_IOMEM_RETRY)%nat → f (i + k)%nat = Some d →
  (∀ j, (i <= j < i + k)%nat → f j = None) → ∀ fuel, (k < fuel)%nat → read_tries fuel i f = Some d.
Proof.
  revert i. induction k as [|k IH]; intros i Hk Hd Hn [|fuel] Hf; try lia; cbn [read_tries].
  - rewrite Nat.add_0_r in Hd. by rewrite Hd.
  - rewrite Hn by lia. rewrite (proj2 (Nat.ltb_ge _ _)) by lia. apply IH; [lia|by rewrite Nat.add_succ_comm|intros; apply Hn; lia|lia].
Qed.
Lemma card_gives_read c e pk addr n : card_gives c e pk → n = Z.of_nat (length (concat (pk <$> addr_ports c (max_ports c) addr))) →
  read_card e addr n = Some (concat (pk <$> addr_ports c (max_ports c) addr)).
Proof.
  intros H ->. destruct (H addr) as (i & Hi & Hd & Hn). unfold read_card.
  apply (read_tries_spec _ _ 0 i); [done|done|intros; apply Hn; lia|unfold MAX_WRITE_IOMEM_RETRY in *; lia].
Qed.

(** ** The aggregate *)

(** The receive side seen as the transmit side: the ring of all ports. *)
Definition rx_view (c : sdio_cfg) (s : sdio_rx) : sdio_card :=
  let t := mpa_rx s in
  mk_card 0 (max_ports c) 0 (curr_rd_port s) false false
    (mk_tx None (rx_buf_len t) (rx_pkt_cnt t) (rx_ports t) (rx_start_port t) true (rx_buf_size t) (rx_aggr_limit t) [] [])
    (mk_dbg 0 0 [] [] 0 [] [] 0 None) [] [].

Definition empty_for (b : rbuf) (n : nat) : Prop :=
  b_off b = 0%nat ∧ length (b_mem b) = n ∧ b_len b = Z.of_nat n ∧ b_spa b = false.

(** The ports of [agg], with what they hold, are to be read into the buffers [bs]. *)
Record rx_rep (c : sdio_cfg) (e : rx_env) (pk : Z → list Z) (s : sdio_rx) (agg : list (Z * list Z)) (bs : list rbuf) : Prop := {
  rr_cnt : rx_pkt_cnt (mpa_rx s) = length agg;
  rr_bufs : Forall2 (λ b a, empty_for b (length a.2)) bs agg;
  rr_mbufs : take (length agg) (rx_mbufs (mpa_rx s)) = Some <$> bs;
  rr_lens : take (length agg) (rx_lens (mpa_rx s)) = (λ a, Z.of_nat (length a.2)) <$> agg;
  rr_held : Forall (λ a, a.2 = pk a.1 ∧ port_holds e (rx_buf_size (mpa_rx s)) a.1 a.2) agg;
  rr_len : rx_buf_len (mpa_rx s) = Z.of_nat (length (concat agg.*2));
  rr_room : rx_buf_len (mpa_rx s) <= rx_buf_size (mpa_rx s) <= 65535;
  rr_bounce : ∀ m, rx_bounce (mpa_rx s) = Some m → Z.of_nat (length m) = rx_buf_size (mpa_rx s);
  rr_start : agg ≠ [] → start_wr_port c <= rx_start_port (mpa_rx s) < max_ports c;
  rr_ports : agg.*1 = agg_ports c (max_ports c) (rx_start_port (mpa_rx s)) (Z.of_nat (length agg));
  rr_bits : rx_ports (mpa_rx s) = bits_of (agg_bits c (max_ports c) (rx_start_port (mpa_rx s)) (Z.of_nat (length agg)));
  rr_span : span_ok c (max_ports c) (rx_start_port (mpa_rx s)) (Z.of_nat (length agg));
  rr_arr : length (rx_mbufs (mpa_rx s)) = 16%nat ∧ length (rx_lens (mpa_rx s)) = 16%nat ∧ length (mpa_rx_count s) = 16%nat
}.

(** What an operation on the aggregate leaves alone. *)
Record rx_frame (s s' : sdio_rx) : Prop := {
  xf_bitmap : mp_rd_bitmap s' = mp_rd_bitmap s;
  xf_curr : curr_rd_port s' = curr_rd_port s;
  xf_end : rd_end_port s' = rd_end_port s;
  xf_work : rx_work_flag s' = rx_work_flag s ∧ rx_drop s' = rx_drop s;
  xf_set : rx_enabled (mpa_rx s') = rx_enabled (mpa_rx s) ∧ rx_buf_size (mpa_rx s') = rx_buf_size (mpa_rx s) ∧
    rx_aggr_limit (mpa_rx s') = rx_aggr_limit (mpa_rx s);
  xf_next : next_id s' = next_id s
}.
Lemma rx_frame_refl s : rx_frame s s.
Proof. by constructor. Qed.
Lemma rx_frame_trans s1 s2 s3 : rx_frame s1 s2 → rx_frame s2 s3 → rx_frame s1 s3.
Proof. intros [] []. constructor; intuition congruence. Qed.

Lemma ring_end c : cfg_ok c → end_ok c (max_ports c) ∧ max_ports c <= 32.
Proof. intros Hc. unfold end_ok. destruct (co_mode c Hc); lia. Qed.

Lemma rx_put_spec c e pk s agg bs b p d : cfg_ok c → rx_rep c e pk s agg bs → empty_for b (length d) →
  d = pk p → port_holds e (rx_buf_size (mpa_rx s)) p d → in_turn c (rx_view c s) agg p →
  rx_buf_len (mpa_rx s) + Z.of_nat (length d) <= rx_buf_size (mpa_rx s) → (length agg < 16)%nat → span_next c (rx_view c s) agg p →
  ∃ t, rx_put c b p (Z.of_nat (length d)) s = Some (set_mpa_rx t s) ∧ rx_rep c e pk (set_mpa_rx t s) (agg ++ [(p, d)]) (bs ++ [b]) ∧
    rx_frame s (set_mpa_rx t s) ∧ rx_start_port t = start_with (rx_view c s) agg p.
Proof.
  intros Hc Hr Hb Hd Hh Hp Hroom Hn Hspan. destruct Hr as [Hcnt Hbufs Hmb Hln Hheld Hlen Hsz Hbounce Hstart Hports Hbits Hsp (Ha1 & Ha2 & Ha3)].
  destruct (ring_end c Hc) as [He Hm32]. set (t := mpa_rx s) in *.
  destruct (put_take (Some b) (rx_mbufs t) (rx_pkt_cnt t)) as (mb & Emb & Hmbl & Hmbt); [by rewrite Ha1, Hcnt|].
  destruct (put_take (Z.of_nat (length d)) (rx_lens t) (rx_pkt_cnt t)) as (ln & Eln & Hlnl & Hlnt); [by rewrite Ha2, Hcnt|].
  unfold rx_put. fold t. rewrite Emb. cbn [mbind option_bind]. rewrite Eln. cbn [mbind option_bind]. eexists. split; [reflexivity|].
  assert ((if (rx_pkt_cnt t =? 0)%nat then p else rx_start_port t) = start_with (rx_view c s) agg p) as Est.
  { rewrite Hcnt. by destruct agg. }
  split; [|split; [by constructor|exact Est]].
  assert (Z.of_nat (length agg) < max_ports c - start_wr_port c) as Hring by (destruct Hspan as [Hspan _]; cbn [mp_end_port rx_view] in Hspan; lia).
  constructor; cbn [set_mpa_rx mpa_rx rx_pkt_cnt rx_mbufs rx_lens rx_buf_len rx_buf_size rx_bounce rx_start_port rx_ports mpa_rx_count]; rewrite ?Est.
  - rewrite length_app. cbn. lia.
  - apply Forall2_app; [done|by constructor].
  - rewrite length_app, Nat.add_1_r, <- Hcnt, Hmbt, fmap_app, Hcnt, Hmb. done.
  - rewrite length_app, Nat.add_1_r, <- Hcnt, Hlnt, fmap_app, Hcnt, Hln. done.
  - apply Forall_app. split; [done|]. by constructor.
  - rewrite fmap_app, concat_app, length_app. cbn [fmap list_fmap snd concat]. rewrite app_nil_r, u_wrap_small by lia. lia.
  - rewrite u_wrap_small by lia. lia.
  - exact Hbounce.
  - intros _. unfold start_with. destruct agg; [apply Hp|by apply Hstart].
  - rewrite fmap_app. cbn [fmap list_fmap fst]. rewrite length_app, Nat2Z.inj_add. cbn [length].
    by apply (start_with_ports c (rx_view c s)); [right|..].
  - rewrite length_app, Nat2Z.inj_add. cbn [length]. change (Z.of_nat 1) with 1. unfold agg_bits.
    rewrite seqZ_snoc, fmap_app by lia. cbn [fmap list_fmap]. rewrite bits_of_snoc. f_equal.
    + rewrite Hbits. unfold start_with. by destruct agg.
    + pose proof (next_bit c (rx_view c s) agg p Hc He Hp Hstart Hring) as Hnb. cbn [mp_end_port rx_view] in Hnb. rewrite Hcnt, <- Hnb.
      do 2 f_equal. unfold rx_port_bit, port_bit. rewrite Z.sub_diag, Z.add_0_r. done.
  - rewrite length_app, Nat2Z.inj_add. exact Hspan.
  - by rewrite Hmbl, Hlnl.
Qed.

(** ** Handing packets up *)

(** Operations that hand up the packets [ds] and keep the rest of the aggregate's settings. *)
Record gave (s s' : sdio_rx) (ds : list (list Z)) : Prop := {
  gv_frame : rx_frame s s';
  gv_bodies : shown <$> handed_up s' = (shown <$> handed_up s) ++ (packet_body <$> ds)
}.
Lemma gave_trans s1 s2 s3 d1 d2 : gave s1 s2 d1 → gave s2 s3 d2 → gave s1 s3 (d1 ++ d2).
Proof.
  intros [F1 B1] [F2 B2]. constructor; [by eapply rx_frame_trans|]. by rewrite B2, B1, fmap_app, app_assoc.
Qed.
Lemma gave_nil s s' : rx_frame s s' → handed_up s' = handed_up s → gave s s' [].
Proof. intros F H. constructor; [done|]. by rewrite H, app_nil_r. Qed.
(** The aggregate itself untouched. *)
Definition same_agg (s s' : sdio_rx) : Prop := mpa_rx s' = mpa_rx s ∧ mpa_rx_count s' = mpa_rx_count s.

Lemma le16_take d h n : le16 d = Some h → (2 <= n)%nat → le16 (take n d) = Some h.
Proof. destruct d as [|a [|b d]]; try done. by destruct n as [|[|n]]; try lia. Qed.

(** The packet [d] in the first bytes of a buffer. *)
Lemma shown_strip b d h : b_off b = 0%nat → le16 d = Some h → SDIO_INTF_HEADER_LEN <= h <= Z.of_nat (length d) → h < 2 ^ 32 →
  take (Z.to_nat h) (b_mem b) = take (Z.to_nat h) d → shown (strip h b) = packet_body d.
Proof.
  unfold SDIO_INTF_HEADER_LEN. intros Ho Hh H4 H32 Ht. unfold shown, strip, packet_body, SDIO_INTF_HEADER_LEN. cbn [b_off b_len b_mem]. rewrite Ho, Hh.
  cbn [mbind option_bind Nat.add]. rewrite u_wrap_small by lia. assert (Z.to_nat h <= length (b_mem b))%nat as Hm.
  { apply (f_equal length) in Ht. rewrite !length_take in Ht. lia. }
  rewrite decide_True by lia. f_equal. rewrite !take_drop_commute. replace (4 + Z.to_nat (h - 4))%nat with (Z.to_nat h) by lia. by rewrite Ht.
Qed.
Lemma decode_data_spec b s d h : rx_drop s = false → b_off b = 0%nat → le16 d = Some h → SDIO_INTF_HEADER_LEN <= h <= Z.of_nat (length d) →
  h <= b_len b → upld_len s = h → h < 2 ^ 32 → take (Z.to_nat h) (b_mem b) = take (Z.to_nat h) d →
  gave s (decode_data b s) [d] ∧ same_agg s (decode_data b s).
Proof.
  unfold SDIO_INTF_HEADER_LEN. intros Hdr Ho Hh H4 Hlen Hu H32 Ht. unfold decode_data. rewrite Hu, Hdr, (proj2 (Z.ltb_ge _ _)) by done.
  pose proof (shown_strip b d h Ho Hh H4 H32 Ht) as Hs.
  destruct (rx_work_flag s) eqn:Ew; (split; [|done]); constructor; try (by constructor);
    unfold handed_up, enqueue_rx, wlan_handle_rx_packet;
    cbn [set_data_received set_rx_pkts_queued set_rx_data_queue set_handled rx_work_flag rx_data_queue handled];
    rewrite Ew, fmap_app; cbn [fmap list_fmap]; by rewrite Hs.
Qed.
Lemma decode_packet_spec e b s d h : rx_drop s = false → b_off b = 0%nat → le16 d = Some h → SDIO_INTF_HEADER_LEN <= h <= Z.of_nat (length d) →
  h <= b_len b → h < 2 ^ 32 → take (Z.to_nat h) (b_mem b) = take (Z.to_nat h) d →
  ∃ s', wlan_decode_rx_packet e b MLAN_TYPE_DATA (set_upld_len h s) = Some s' ∧ gave s s' [d] ∧ same_agg s s'.
Proof.
  intros Hdr Ho Hh H4 Hlen H32 Ht.
  destruct (decode_data_spec b (set_upld_len h s) d h) as [Hg Hs]; try done.
  exists (decode_data b (set_upld_len h s)). split; [done|]. split; [|done].
  change [d] with ([] ++ [d]). eapply gave_trans; [|exact Hg]. by apply gave_nil; [constructor|].
Qed.

Lemma splice_0 {A} (d m : list A) : (length d <= length m)%nat → splice 0 d m = Some (d ++ drop (length d) m).
Proof. intros H. unfold splice. by rewrite decide_True by (cbn; lia). Qed.
Lemma fill_exact b d : empty_for b (length d) → fill d b = Some (mk_rbuf (b_id b) d 0 (Z.of_nat (length d)) false).
Proof.
  intros (Ho & Hm & Hl & Hs). unfold fill. rewrite Ho, splice_0 by lia. cbn [mbind option_bind].
  rewrite drop_ge by lia. by rewrite app_nil_r, Hl, Hs.
Qed.

Lemma port_addr c p : cfg_ok c → 0 <= p < 32 → u32 (ioport c + p) = ioport c + p ∧ addr_ports c (max_ports c) (ioport c + p) = [p].
Proof.
  intros Hc Hp. pose proof (co_ioport c Hc) as [Hio _]. split; [apply u_wrap_small; lia|].
  unfold addr_ports. cbv zeta. rewrite ioport_low by (done || lia). assert (bit p 12 = false) as -> by (apply (small_bits_high 12); lia). done.
Qed.

(** One packet read from its port. *)
Lemma read_one c e pk b p d max : cfg_ok c → card_gives c e pk → d = pk p → port_holds e max p d → 0 <= p < 32 → empty_for b (length d) →
  ∃ h, le16 d = Some h ∧ SDIO_INTF_HEADER_LEN <= h <= Z.of_nat (length d) ∧
    wlan_sdio_card_to_host e b (Z.of_nat (length d)) (u32 (ioport c + p)) =
      Some (Some h, mk_rbuf (b_id b) d 0 (Z.of_nat (length d)) false, Some MLAN_TYPE_DATA).
Proof.
  intros Hc Hg Hd Hh Hp Hb. destruct (ph_head _ _ _ _ Hh) as (h & Hle & H4). exists h. do 2 (split; [done|]).
  destruct (port_addr c p Hc Hp) as [-> Hports]. unfold wlan_sdio_card_to_host. pose proof Hb as (Ho & Hm & Hl & Hs). rewrite Hl.
  pose proof (card_gives_read c e pk (ioport c + p) (Z.of_nat (length d)) Hg) as Hr. rewrite Hports in Hr. cbn [fmap list_fmap concat] in Hr.
  rewrite app_nil_r, <- Hd in Hr. rewrite (Hr eq_refl), fill_exact by done. cbn [mbind option_bind b_off b_mem Nat.add].
  change (drop 0 d) with d. rewrite Hle. cbn [mbind option_bind]. rewrite (ph_type _ _ _ _ Hh). cbn [mbind option_bind].
  by rewrite (proj2 (Z.ltb_ge _ _)) by lia.
Qed.

Lemma bump_count_spec i s : length (mpa_rx_count s) = 16%nat → (i < 16)%nat →
  ∃ l, bump_count i s = Some (set_mpa_rx_count l s) ∧ length l = 16%nat.
Proof.
  intros Hl Hi. unfold bump_count. destruct (lookup_lt_is_Some_2 (mpa_rx_count s) i) as [x ->]; [lia|]. cbn [mbind option_bind].
  unfold put. rewrite decide_True by lia. cbn [mbind option_bind]. eexists. split; [done|]. by rewrite length_insert.
Qed.

(** After the aggregate is read nothing waits. *)
Lemma rx_rep_reset c e pk s s' agg bs : cfg_ok c → rx_rep c e pk s agg bs → rx_frame s s' →
  (∀ m, rx_bounce (mpa_rx s') = Some m → Z.of_nat (length m) = rx_buf_size (mpa_rx s')) →
  length (rx_mbufs (mpa_rx s')) = 16%nat ∧ length (rx_lens (mpa_rx s')) = 16%nat ∧ length (mpa_rx_count s') = 16%nat →
  rx_rep c e pk (on_rx MP_RX_AGGR_BUF_RESET s') [] [].
Proof.
  intros Hc Hr F Hb Ha. pose proof (rr_room _ _ _ _ _ _ Hr). pose proof (rr_len _ _ _ _ _ _ Hr). destruct (ring_end c Hc) as [He _]. unfold end_ok in He.
  destruct (xf_set _ _ F) as (_ & Hs & _).
  constructor; try done; cbn [on_rx set_mpa_rx mpa_rx MP_RX_AGGR_BUF_RESET rx_buf_len rx_buf_size length]; try done; try lia.
  split; lia.
Qed.

(** ** Reading the aggregate *)

Lemma mapM_id_Some {A} (l : list A) : mapM id (Some <$> l) = Some l.
Proof. induction l as [|a l IH]; [done|]. cbn. cbn in IH. by rewrite IH. Qed.
Definition lens_of (agg : list (Z * list Z)) : list Z := (λ a, Z.of_nat (length a.2)) <$> agg.
Definition filled (bs : list rbuf) (agg : list (Z * list Z)) : list rbuf :=
  zip_with (λ b a, mk_rbuf (b_id b) a.2 0 (Z.of_nat (length a.2)) false) bs agg.

Lemma rx_packets_spec c e pk s agg bs : rx_rep c e pk s agg bs → rx_packets (mpa_rx s) = Some (zip bs (lens_of agg)).
Proof.
  intros Hr. unfold rx_packets. rewrite (rr_cnt _ _ _ _ _ _ Hr), (rr_mbufs _ _ _ _ _ _ Hr), (rr_lens _ _ _ _ _ _ Hr), mapM_id_Some.
  cbn [mbind option_bind]. pose proof (Forall2_length _ _ _ (rr_bufs _ _ _ _ _ _ Hr)). fold (lens_of agg).
  rewrite decide_True; [done|]. rewrite length_zip. unfold lens_of. rewrite length_fmap. lia.
Qed.

Lemma scatter_spec bs agg : Forall2 (λ b (a : Z * list Z), empty_for b (length a.2)) bs agg →
  scatter (zip bs (lens_of agg)) (concat agg.*2) = Some (filled bs agg).
Proof.
  induction 1 as [|b a bs agg Hb Hall IH]; [done|]. cbn [lens_of fmap list_fmap zip zip_with scatter filled concat].
  change (concat (map snd agg)) with (concat agg.*2). rewrite Nat2Z.id, length_app, decide_True by lia.
  rewrite take_app_length, drop_app_length. pose proof Hb as (Ho & Hm & Hl & Hs).
  rewrite (fill_exact (mk_rbuf (b_id b) (b_mem b) (b_off b) (Z.of_nat (length a.2)) (b_spa b)) a.2) by by repeat split.
  cbn [mbind option_bind]. fold (lens_of agg). change (zip_with pair bs (lens_of agg)) with (zip bs (lens_of agg)). by rewrite IH.
Qed.

Lemma holds_head e max p d : port_holds e max p d → max <= 65535 →
  ∃ h, le16 d = Some h ∧ SDIO_INTF_HEADER_LEN <= h <= Z.of_nat (length d) ∧ h < 2 ^ 32 ∧ (4 <= length d)%nat.
Proof.
  intros H Hm. destruct (ph_head _ _ _ _ H) as (h & Hh & H4). exists h. pose proof (ph_len _ _ _ _ H). pose proof (ph_max _ _ _ _ H).
  unfold SDIO_INTF_HEADER_LEN in *. split; [done|]. lia.
Qed.
Lemma decode_scattered_spec e max (pk : Z → list Z) bs agg s : max <= 65535 → length bs = length agg →
  Forall (λ a, a.2 = pk a.1 ∧ port_holds e max a.1 a.2) agg → rx_drop s = false →
  ∃ s', decode_scattered e (filled bs agg) s = Some s' ∧ gave s s' agg.*2 ∧ same_agg s s'.
Proof.
  intros Hm Hl Hall. revert bs s Hl. induction Hall as [|a agg [_ Hh] Hall IH]; intros [|b bs] s Hl Hdr; try done.
  { exists s. split; [done|]. split; [by apply gave_nil; [apply rx_frame_refl|]|done]. }
  destruct (holds_head _ _ _ _ Hh Hm) as (h & Hle & H4 & H32 & _). cbn [filled zip_with decode_scattered b_off b_mem].
  change (drop 0 a.2) with a.2. rewrite Hle. cbn [mbind option_bind Nat.add]. rewrite (ph_type _ _ _ _ Hh). cbn [mbind option_bind].
  destruct (decode_packet_spec e (mk_rbuf (b_id b) a.2 0 (Z.of_nat (length a.2)) false) s a.2 h) as (s1 & -> & Hg & Hs1 & Hs2); try done; [cbn; lia|].
  cbn [mbind option_bind]. destruct (IH bs s1) as (s2 & E2 & Hg2 & Hs3 & Hs4); [by injection Hl|by rewrite (proj2 (xf_work _ _ (gv_frame _ _ _ Hg)))|].
  exists s2. split; [exact E2|]. split; [|by split; etrans].
  cbn [fmap list_fmap]. change (a.2 :: agg.*2) with ([a.2] ++ agg.*2). by eapply gave_trans.
Qed.
Lemma decode_bounced_spec e max (pk : Z → list Z) bs agg rest s : max <= 65535 → Forall2 (λ b (a : Z * list Z), empty_for b (length a.2)) bs agg →
  Forall (λ a, a.2 = pk a.1 ∧ port_holds e max a.1 a.2) agg → rx_drop s = false →
  ∃ s', decode_bounced e (zip bs (lens_of agg)) (concat agg.*2 ++ rest) s = Some s' ∧ gave s s' agg.*2 ∧ same_agg s s'.
Proof.
  intros Hm Hbs Hall. revert s. induction Hbs as [|b a bs agg Hb Hbs IH]; intros s Hdr.
  { exists s. split; [done|]. split; [by apply gave_nil; [apply rx_frame_refl|]|done]. }
  inversion Hall as [|? ? [_ Hh] Hall']; subst. destruct (holds_head _ _ _ _ Hh Hm) as (h & Hle & H4 & H32 & Hd4).
  cbn [lens_of fmap list_fmap zip zip_with decode_bounced concat]. change (concat (map snd agg)) with (concat agg.*2). rewrite <- app_assoc.
  rewrite (le16_app _ _ _ Hle). cbn [mbind option_bind]. rewrite (drop_app_le a.2 _ 2) by lia. rewrite (le16_app _ _ _ (ph_type _ _ _ _ Hh)).
  cbn [mbind option_bind]. rewrite (proj2 (Z.leb_le h _)) by lia. cbn [data_type Z.eqb MLAN_TYPE_DATA orb andb].
  rewrite decide_True by (rewrite length_app; lia). rewrite (take_app_le a.2) by lia.
  pose proof Hb as (Ho & Hmem & Hl & Hs). unfold fill. rewrite Ho, splice_0 by (rewrite length_take; lia). cbn [mbind option_bind].
  edestruct (decode_packet_spec e (mk_rbuf (b_id b) (take (Z.to_nat h) a.2 ++ drop (length (take (Z.to_nat h) a.2)) (b_mem b)) 0 (b_len b) (b_spa b)) s a.2 h)
    as (s1 & E1 & Hg & Hs1 & Hs2); try done; [cbn; lia| |].
  { cbn [b_mem]. rewrite take_app_le by (rewrite length_take; unfold SDIO_INTF_HEADER_LEN in *; lia). by rewrite take_take, Nat.min_id. }
  change (Z.eqb 0 0) with true in E1. rewrite E1. cbn [mbind option_bind]. rewrite Nat2Z.id, drop_app_length.
  fold (lens_of agg). change (zip_with pair bs (lens_of agg)) with (zip bs (lens_of agg)).
  destruct (IH Hall' s1) as (s2 & E2 & Hg2 & Hs3 & Hs4); [by rewrite (proj2 (xf_work _ _ (gv_frame _ _ _ Hg)))|].
  exists s2. split; [exact E2|]. split; [|by split; etrans].
  change (a.2 :: agg.*2) with ([a.2] ++ agg.*2). by eapply gave_trans.
Qed.

Lemma agg_data c e pk s agg bs : rx_rep c e pk s agg bs → agg.*2 = pk <$> agg.*1.
Proof.
  intros Hr. pose proof (rr_held _ _ _ _ _ _ Hr) as H. clear Hr. induction H as [|a agg [Ha _] H IH]; [done|]. cbn [fmap list_fmap] in *. congruence.
Qed.

Lemma receive_single_spec c e pk s p d bs : cfg_ok c → card_gives c e pk → rx_drop s = false → rx_rep c e pk s [(p, d)] bs →
  ∃ s', wlan_receive_single_packet c e s = Some (s', MLAN_STATUS_SUCCESS) ∧ gave s s' [d] ∧ rx_rep c e pk s' [] [].
Proof.
  intros Hc Hg Hdr Hr. pose proof Hr as [Hcnt Hbufs Hmb Hln Hheld Hlen Hsz Hbounce Hstart Hports Hbits Hsp (Ha1 & Ha2 & Ha3)].
  destruct (ring_end c Hc) as [He Hm32]. unfold end_ok in He. specialize (Hstart ltac:(done)).
  inversion Hbufs as [|b ? bs' ? Hb Hnil]; subst. inversion Hnil; subst. cbn [length] in *.
  assert (p = rx_start_port (mpa_rx s)) as ->.
  { unfold agg_ports in Hports. change (seqZ 0 (Z.of_nat 1)) with [0] in Hports. cbn [fmap list_fmap fst] in Hports. rewrite port_at_0 in Hports by lia. congruence. }
  inversion Hheld as [|? ? [Hd Hh] _]; subst. cbn [fst snd] in *. set (p := rx_start_port (mpa_rx s)) in *.
  assert (0 <= p < 32) as Hp by (destruct (co_mode c Hc); lia).
  destruct (read_one c e pk b p d _ Hc Hg Hd Hh Hp Hb) as (h & Hle & H4 & Hread).
  destruct (holds_head _ _ _ _ Hh ltac:(lia)) as (h' & Hle' & _ & H32 & _). assert (h' = h) as -> by congruence.
  unfold wlan_receive_single_packet. destruct (rx_mbufs (mpa_rx s)) as [|ob mb] eqn:Emb; [done|]. injection Hmb as ->.
  destruct (rx_lens (mpa_rx s)) as [|n ln] eqn:Eln; [done|]. injection Hln as ->. change ((Some b :: mb) !! 0%nat) with (Some (Some b)).
  change ((Z.of_nat (length d) :: ln) !! 0%nat) with (Some (Z.of_nat (length d))). cbn [mbind option_bind]. fold p.
  pose proof (ph_len _ _ _ _ Hh). pose proof (ph_max _ _ _ _ Hh).
  rewrite (u_wrap_small 16), (u_wrap_small 8 p) by lia. rewrite Hread. cbn [mbind option_bind note_len data_type Z.eqb MLAN_TYPE_DATA orb].
  destruct (bump_count_spec 0 (set_upld_len h s) Ha3 ltac:(lia)) as (l & -> & Hl16). cbn [mbind option_bind].
  destruct (decode_packet_spec e (mk_rbuf (b_id b) d 0 (Z.of_nat (length d)) false) (set_mpa_rx_count l s) d h) as (s1 & E1 & Hg1 & Hs1 & Hs2); try done; [cbn; lia|].
  change (set_mpa_rx_count l (set_upld_len h s)) with (set_upld_len h (set_mpa_rx_count l s)). change 0 with MLAN_TYPE_DATA in E1 |- *.
  rewrite E1. cbn [mbind option_bind]. exists (on_rx MP_RX_AGGR_BUF_RESET s1). split; [done|].
  assert (rx_frame s s1) as F. { apply (rx_frame_trans _ (set_mpa_rx_count l s)); [by constructor|apply Hg1]. }
  split.
  - change [d] with ([] ++ [d] ++ []). eapply gave_trans; [|eapply gave_trans; [exact Hg1|]]; by apply gave_nil; [constructor|].
  - apply (rx_rep_reset c e pk s s1 [(p, d)] [b]); try done; rewrite Hs1, ?Hs2; cbn [set_mpa_rx_count mpa_rx mpa_rx_count]; [done|by rewrite Emb, Eln].
Qed.

Lemma receive_spec c e pk s agg bs : cfg_ok c → card_gives c e pk → rx_drop s = false → rx_rep c e pk s agg bs → agg ≠ [] → (length agg <= 16)%nat →
  ∃ s', wlan_receive_mp_aggr_buf c e s = Some (s', MLAN_STATUS_SUCCESS) ∧ gave s s' agg.*2 ∧ rx_rep c e pk s' [] [].
Proof.
  intros Hc Hg Hdr Hr Hne Hn. unfold wlan_receive_mp_aggr_buf. rewrite (rr_cnt _ _ _ _ _ _ Hr).
  destruct (length agg =? 1)%nat eqn:E1.
  { apply Nat.eqb_eq in E1. destruct agg as [|[p d] [|]]; try done. by apply (receive_single_spec c e pk s p d bs). }
  apply Nat.eqb_neq in E1. assert (1 <= length agg)%nat by (destruct agg; [done|cbn; lia]).
  rewrite (rx_packets_spec c e pk s agg bs Hr). cbn [mbind option_bind]. destruct (ring_end c Hc) as [He _].
  destruct (aggr_addr_ports c Hc (max_ports c) He (mpa_tx (rx_view c s)) (rx_start_port (mpa_rx s))) as (addr & Ea & Hports & _);
    [cbn; rewrite (rr_cnt _ _ _ _ _ _ Hr); lia|by apply Hr|done|cbn; rewrite (rr_cnt _ _ _ _ _ _ Hr); apply Hr|cbn; rewrite (rr_cnt _ _ _ _ _ _ Hr); apply Hr|].
  assert (rx_addr c (mpa_rx s) = Some addr) as ->.
  { unfold aggr_addr in Ea. cbn [mpa_tx rx_view tx_pkt_cnt tx_ports tx_start_port] in Ea. rewrite (rr_cnt _ _ _ _ _ _ Hr) in Ea.
    by rewrite (proj2 (Nat.eqb_neq _ _) E1) in Ea. }
  cbn [mbind option_bind]. cbn [mpa_tx rx_view tx_pkt_cnt] in Hports. rewrite (rr_cnt _ _ _ _ _ _ Hr), <- (rr_ports _ _ _ _ _ _ Hr) in Hports.
  pose proof (card_gives_read c e pk addr (rx_buf_len (mpa_rx s)) Hg) as Hread. rewrite Hports, <- (agg_data c e pk s agg bs Hr) in Hread.
  rewrite (Hread (rr_len _ _ _ _ _ _ Hr)). clear Hread. pose proof (rr_room _ _ _ _ _ _ Hr) as Hroom. pose proof (rr_len _ _ _ _ _ _ Hr) as Hlen.
  assert (∃ s1, match rx_bounce (mpa_rx s) with
      | None => bs0 ← scatter (zip bs (lens_of agg)) (concat agg.*2); decode_scattered e bs0 s
      | Some m => m ← splice 0 (concat agg.*2) m; decode_bounced e (zip bs (lens_of agg)) m (on_rx (set_rx_bounce (Some m)) s)
      end = Some s1 ∧ gave s s1 agg.*2 ∧ mpa_rx_count s1 = mpa_rx_count s ∧
      (∃ m, mpa_rx s1 = set_rx_bounce m (mpa_rx s) ∧ ∀ l, m = Some l → Z.of_nat (length l) = rx_buf_size (mpa_rx s))) as (s1 & -> & Hgv & Hcn & m & Hm & Hml).
  { destruct (rx_bounce (mpa_rx s)) as [m|] eqn:Eb.
    - pose proof (rr_bounce _ _ _ _ _ _ Hr m Eb) as Hml. rewrite splice_0 by lia. cbn [mbind option_bind].
      set (m' := concat agg.*2 ++ _). destruct (decode_bounced_spec e (rx_buf_size (mpa_rx s)) pk bs agg (drop (length (concat agg.*2)) m) (on_rx (set_rx_bounce (Some m')) s))
        as (s1 & E & Hgv & Hs1 & Hs2); [lia|apply Hr|apply Hr|done|]. exists s1. split; [exact E|]. split.
      { change agg.*2 with ([] ++ agg.*2). eapply gave_trans; [|exact Hgv]. by apply gave_nil; [constructor|]. }
      split; [by rewrite Hs2|]. exists (Some m'). split; [by rewrite Hs1|]. intros l [= <-]. unfold m'. rewrite length_app, length_drop. lia.
    - rewrite (scatter_spec bs agg) by apply Hr. cbn [mbind option_bind].
      destruct (decode_scattered_spec e (rx_buf_size (mpa_rx s)) pk bs agg s) as (s1 & E & Hgv & Hs1 & Hs2);
        [lia|apply (Forall2_length _ _ _ (rr_bufs _ _ _ _ _ _ Hr))|apply Hr|done|].
      exists s1. split; [exact E|]. split; [done|]. split; [done|]. exists None. split; [|done]. rewrite Hs1. destruct (mpa_rx s). cbn in Eb. by subst. }
  cbn [mbind option_bind]. destruct (bump_count_spec (length agg - 1) s1) as (l & -> & Hl); [rewrite Hcn; apply Hr|lia|]. cbn [mbind option_bind].
  eexists. split; [reflexivity|]. assert (rx_frame s (set_mpa_rx_count l s1)) as F.
  { apply (rx_frame_trans _ s1); [apply Hgv|by constructor]. }
  split.
  - rewrite <- (app_nil_r agg.*2). eapply gave_trans; [exact Hgv|]. by apply gave_nil; [constructor|].
  - apply (rx_rep_reset c e pk s _ agg bs); try done; cbn [set_mpa_rx_count mpa_rx mpa_rx_count]; rewrite Hm.
    + intros l' E'. cbn in E'. by apply Hml.
    + cbn. split; [apply Hr|]. split; [apply Hr|exact Hl].
Qed.

(** ** One packet *)

(** The receive side at rest, [p] the port whose turn it is. *)
Record rx_ok (c : sdio_cfg) (e : rx_env) (pk : Z → list Z) (s : sdio_rx) (agg : list (Z * list Z)) (bs : list rbuf) (p : Z) : Prop := {
  ro_rep : rx_rep c e pk s agg bs;
  ro_lim : 1 <= rx_aggr_limit (mpa_rx s) <= Z.of_nat (mp_aggr_pkt_limit c);
  ro_cnt : Z.of_nat (length agg) < rx_aggr_limit (mpa_rx s);
  ro_next : new_mode c = false → agg ≠ [] → pbit c (max_ports c) (rx_start_port (mpa_rx s)) (Z.of_nat (length agg)) < 8;
  ro_turn : in_turn c (rx_view c s) agg p;
  ro_on : rx_enabled (mpa_rx s) = false → agg = [];
  ro_drop : rx_drop s = false
}.
Lemma rx_ok_span c e pk s agg bs p : cfg_ok c → rx_ok c e pk s agg bs p → span_next c (rx_view c s) agg p.
Proof.
  intros Hc [Hr Hlim Hcnt Hnext [Hp _] _ _]. destruct (ring_end c Hc) as [He _]. unfold end_ok in He.
  unfold span_next. cbn [mp_end_port rx_view] in *. split; [destruct (co_mode c Hc); lia|]. intros Hm i Hi.
  unfold start_with. destruct agg as [|a agg].
  - cbn in Hi. assert (i = 0) as -> by lia. unfold pbit. rewrite Hm, port_at_0, Z.sub_diag, Zmod_0_l by lia. lia.
  - cbn [mpa_tx rx_view tx_start_port].
    destruct (decide (i = Z.of_nat (length (a :: agg)))) as [->|]; [by apply Hnext|]. destruct (rr_span _ _ _ _ _ _ Hr) as [_ Hall]. apply Hall; [done|lia].
Qed.
Definition next_rd_port (c : sdio_cfg) (p : Z) : Z := if p + 1 =? max_ports c then start_wr_port c else p + 1.

(** Turn passes from the port just taken to the next. *)
Lemma turn_next c s s1 agg p d : cfg_ok c → in_turn c (rx_view c s) agg p → Z.of_nat (length agg) < 16 → Z.of_nat (length agg) < max_ports c - start_wr_port c →
  (agg ≠ [] → start_wr_port c <= rx_start_port (mpa_rx s) < max_ports c) → rx_start_port (mpa_rx s1) = start_with (rx_view c s) agg p →
  in_turn c (rx_view c s1) (agg ++ [(p, d)]) (next_rd_port c p).
Proof.
  intros Hc [Hp1 Hp2] H16 Hn Hst Hs1. cbn [mp_end_port mpa_tx rx_view tx_start_port] in *. split; cbn [mp_end_port rx_view].
  - unfold next_rd_port. destruct (ring_end c Hc) as [He _]. unfold end_ok in He. case_match eqn:E1; lia.
  - intros _. cbn [mpa_tx rx_view tx_start_port]. rewrite length_app, Nat2Z.inj_add, Hs1. cbn [length]. change (Z.of_nat 1) with 1.
    assert (start_wr_port c <= start_with (rx_view c s) agg p < max_ports c) as Hs. { unfold start_with. destruct agg; [lia|by apply Hst]. }
    rewrite port_at_next by lia. unfold next_rd_port.
    assert (port_at (start_wr_port c) (max_ports c) (start_with (rx_view c s) agg p) (Z.of_nat (length agg)) = p) as ->; [|done].
    unfold start_with. destruct agg; [apply port_at_0; lia|]. symmetry. by apply Hp2.
Qed.

Lemma rx_has_room_spec c e pk s agg bs d max p : rx_rep c e pk s agg bs → port_holds e max p d → max <= 65535 →
  rx_has_room s (Z.of_nat (length d)) = bool_decide (rx_buf_len (mpa_rx s) + Z.of_nat (length d) <= rx_buf_size (mpa_rx s)).
Proof.
  intros Hr Hh Hm. pose proof (rr_room _ _ _ _ _ _ Hr). pose proof (rr_len _ _ _ _ _ _ Hr). pose proof (ph_len _ _ _ _ Hh). pose proof (ph_max _ _ _ _ Hh).
  unfold rx_has_room. rewrite u_wrap_small by lia. case_bool_decide; lia.
Qed.
Lemma rx_in_progress_spec c e pk s agg bs : rx_rep c e pk s agg bs → rx_in_progress s = true ↔ agg ≠ [].
Proof.
  intros Hr. unfold rx_in_progress. rewrite (rr_cnt _ _ _ _ _ _ Hr), Nat.ltb_lt. destruct agg; cbn; split; intros; try done; try lia.
Qed.
(** The bitmap of the ports still to be read. *)
Lemma more_pending_spec c s rest : rx_cfg_ok c → mp_rd_bitmap s = bits_of rest →
  Forall (λ p, start_wr_port c <= p < max_ports c) rest → more_pending c s = negb (bool_decide (rest = [])).
Proof.
  intros Hc Hb Hall. unfold more_pending. rewrite Hb. f_equal. pose proof (rc_cfg c Hc) as Hcc.
  assert (0 <= start_wr_port c ∧ max_ports c <= 32) as [Hw0 Hm] by (destruct (co_mode c Hcc); lia).
  destruct rest as [|p rest]; [by rewrite Z.land_0_l|]. case_bool_decide; [done|]. apply Z.eqb_neq. intros H0.
  inversion Hall as [|? ? Hp Hall']; subst. assert (Z.testbit (Z.land (bits_of (p :: rest)) (if new_mode c then reg_data_port_mask c else u32 (Z.lnot CTRL_PORT_MASK))) p = true) as Hbit.
  { rewrite Z.land_spec, bits_of_spec by (lia || (eapply Forall_impl; [exact Hall|cbn; lia])). rewrite bool_decide_eq_true_2 by set_solver. cbn [andb].
    pose proof (rc_mask c Hc p Hp) as Hmk. unfold bit in Hmk. destruct (new_mode c) eqn:Em; [done|].
    destruct (co_mode c Hcc) as [[? _]|(_ & Hmax & Hw & _)]; [congruence|]. unfold u_wrap, CTRL_PORT_MASK.
    rewrite Z.mod_pow2_bits_low, Z.lnot_spec by lia. by rewrite (small_bits_high 1 1 p) by lia. }
  rewrite H0, Z.bits_0 in Hbit. done.
Qed.

(** What one call makes of the packet: [D] is handed up, [agg'] waits. *)
Record rx_outcome (c : sdio_cfg) (e : rx_env) (pk : Z → list Z) (s s' : sdio_rx) (agg agg' : list (Z * list Z)) (bs' : list rbuf) (d : list Z) : Prop := {
  xo_gave : ∃ ds, gave s s' ds ∧ ds ++ agg'.*2 = agg.*2 ++ [d];
  xo_ok : rx_ok c e pk s' agg' bs' (curr_rd_port s')
}.
Section packet.
Context (c : sdio_cfg) (e : rx_env) (pk : Z → list Z) (Hc : rx_cfg_ok c) (Hg : card_gives c e pk).
Context (s : sdio_rx) (agg : list (Z * list Z)) (bs : list rbuf) (p : Z) (d : list Z) (b : rbuf).
Context (Hok : rx_ok c e pk s agg bs p) (Hcurr : curr_rd_port s = next_rd_port c p).
Context (Hb : empty_for b (length d)) (Hd : d = pk p) (Hh : port_holds e (rx_buf_size (mpa_rx s)) p d).

Local Lemma p_range : start_wr_port c <= p < max_ports c ∧ 0 <= p < 32.
Proof. destruct (ro_turn _ _ _ _ _ _ _ Hok) as [Hp _]. cbn [mp_end_port rx_view] in Hp. destruct (co_mode c (rc_cfg c Hc)); lia. Qed.
Local Lemma agg_small : Z.of_nat (length agg) < 16 ∧ Z.of_nat (length agg) < max_ports c - start_wr_port c.
Proof. pose proof (ro_cnt _ _ _ _ _ _ _ Hok). pose proof (ro_lim _ _ _ _ _ _ _ Hok). destruct (co_mode c (rc_cfg c Hc)); lia. Qed.

Lemma rx_collect : rx_buf_len (mpa_rx s) + Z.of_nat (length d) <= rx_buf_size (mpa_rx s) →
  ∃ s1, rx_put c b p (Z.of_nat (length d)) s = Some s1 ∧ rx_rep c e pk s1 (agg ++ [(p, d)]) (bs ++ [b]) ∧ gave s s1 [] ∧
    in_turn c (rx_view c s1) (agg ++ [(p, d)]) (curr_rd_port s1) ∧ rx_start_port (mpa_rx s1) = start_with (rx_view c s) agg p.
Proof.
  intros Hroom. destruct agg_small as [H16 Hring]. pose proof (ro_rep _ _ _ _ _ _ _ Hok) as Hr.
  destruct (rx_put_spec c e pk s agg bs b p d (rc_cfg c Hc) Hr Hb Hd Hh (ro_turn _ _ _ _ _ _ _ Hok) Hroom ltac:(lia))
    as (t & E & Hr1 & F & Hst); [by apply (rx_ok_span c e pk s agg bs p (rc_cfg c Hc))|].
  exists (set_mpa_rx t s). split; [exact E|]. split; [done|]. split; [by apply gave_nil|]. split; [|done].
  change (curr_rd_port (set_mpa_rx t s)) with (curr_rd_port s). rewrite Hcurr.
  apply (turn_next c s); try done; [apply Hc|apply Hok|apply Hr].
Qed.

(** A state with nothing waiting is at rest. *)
Lemma rx_ok_empty s' ds : gave s s' ds → rx_rep c e pk s' [] [] → rx_ok c e pk s' [] [] (curr_rd_port s').
Proof.
  intros [F _] Hr. pose proof (xf_set _ _ F) as (Fe & Fs & Fl). pose proof (ro_lim _ _ _ _ _ _ _ Hok). destruct p_range as [Hp _].
  constructor; try done; rewrite ?Fl; [done|cbn; lia| |].
  - split; [|done]. cbn [mp_end_port rx_view]. rewrite (xf_curr _ _ F), Hcurr. unfold next_rd_port. case_match eqn:E; destruct (co_mode c (rc_cfg c Hc)); lia.
  - rewrite (proj2 (xf_work _ _ F)). apply Hok.
Qed.
Lemma rx_ok_collected s1 : rx_rep c e pk s1 (agg ++ [(p, d)]) (bs ++ [b]) → gave s s1 [] →
  in_turn c (rx_view c s1) (agg ++ [(p, d)]) (curr_rd_port s1) → rx_enabled (mpa_rx s) = true →
  rx_pkt_limit_reached s1 = false → (new_mode c = false → rx_port_limit_reached_old c s1 = false) →
  rx_ok c e pk s1 (agg ++ [(p, d)]) (bs ++ [b]) (curr_rd_port s1).
Proof.
  intros Hr [F _] Ht Hon Hl1 Hl2. pose proof (xf_set _ _ F) as (Fe & Fs & Fl). pose proof (ro_lim _ _ _ _ _ _ _ Hok) as Hlim. pose proof (ro_cnt _ _ _ _ _ _ _ Hok) as Hcnt.
  unfold rx_pkt_limit_reached in Hl1. rewrite (rr_cnt _ _ _ _ _ _ Hr), Fl in Hl1. apply Z.eqb_neq in Hl1.
  assert (Z.of_nat (length (agg ++ [(p, d)])) < rx_aggr_limit (mpa_rx s)) as Hcnt1 by (rewrite length_app in *; cbn [length] in *; lia).
  destruct (ring_end c (rc_cfg c Hc)) as [He _].
  constructor; try done; rewrite ?Fl; [done|done| |congruence|by rewrite (proj2 (xf_work _ _ F)); apply Hok].
  intros Hm Hne. apply (port_limit_next c (rx_view c s1)); try done; [apply Hc|by apply (rr_start _ _ _ _ _ _ Hr)| |by apply Hl2].
  destruct (co_mode c (rc_cfg c Hc)) as [[? _]|(_ & _ & _ & Hl8)]; [congruence|]. lia.
Qed.

(** The packet is read alone. *)
Lemma rx_single_spec : agg = [] → ∃ s' b', rx_single c e b p (Z.of_nat (length d)) s = Some (s', b', MLAN_STATUS_SUCCESS) ∧ gave s s' [d] ∧ rx_rep c e pk s' [] [].
Proof using Hok Hb Hd Hh Hg Hc.
  intros Hnil. destruct p_range as [Hp1 Hp2]. pose proof (ro_rep _ _ _ _ _ _ _ Hok) as Hr. pose proof (rr_room _ _ _ _ _ _ Hr) as Hroom.
  destruct (read_one c e pk b p d _ (rc_cfg c Hc) Hg Hd Hh Hp2 Hb) as (h & Hle & H4 & Hread).
  destruct (holds_head _ _ _ _ Hh ltac:(lia)) as (h' & Hle' & _ & H32 & _). assert (h' = h) as -> by congruence.
  unfold rx_single. rewrite Hread. cbn [mbind option_bind note_len].
  assert (negb (new_mode c) && (p =? CTRL_PORT) = false) as Hctl.
  { unfold CTRL_PORT. destruct (co_mode c (rc_cfg c Hc)) as [[-> _]|(-> & _ & Hw & _)]; [done|]. cbn. lia. }
  unfold type_ok. rewrite Hctl. cbn [data_type Z.eqb MLAN_TYPE_DATA orb].
  assert (new_mode c || negb (p =? CTRL_PORT) = true) as ->. { destruct (new_mode c), (p =? CTRL_PORT); done. }
  destruct (bump_count_spec 0 (set_upld_len h s)) as (l & -> & Hl16); [apply Hr|lia|]. cbn [mbind option_bind].
  destruct (decode_packet_spec e (mk_rbuf (b_id b) d 0 (Z.of_nat (length d)) false) (set_mpa_rx_count l s) d h) as (s1 & E1 & Hg1 & Hs1 & Hs2); try done; [apply Hok|cbn; lia|].
  change (set_mpa_rx_count l (set_upld_len h s)) with (set_upld_len h (set_mpa_rx_count l s)). change 0 with MLAN_TYPE_DATA in E1 |- *.
  rewrite E1. cbn [mbind option_bind]. do 2 eexists. split; [reflexivity|].
  assert (rx_frame s s1) as F. { apply (rx_frame_trans _ (set_mpa_rx_count l s)); [by constructor|apply Hg1]. }
  split.
  - change [d] with ([] ++ [d]). eapply gave_trans; [|exact Hg1]. by apply gave_nil; [constructor|].
  - rewrite Hnil in Hr. assert (bs = []) as Hbs. { pose proof (rr_bufs _ _ _ _ _ _ Hr) as H. by inversion H. }
    destruct Hr as [H1 H2 H3 H4' H5 H6 H7 H8 H9 H10 H11 H12 (Ha1 & Ha2 & Ha3)].
    constructor; rewrite ?Hs1, ?Hs2; cbn [set_mpa_rx_count mpa_rx mpa_rx_count]; try done.
Qed.
End packet.

Section packet_step.
Context (c : sdio_cfg) (e : rx_env) (pk : Z → list Z) (Hc : rx_cfg_ok c) (Hg : card_gives c e pk).
Context (s : sdio_rx) (agg : list (Z * list Z)) (bs : list rbuf) (p : Z) (d : list Z) (b : rbuf).
Context (Hok : rx_ok c e pk s agg bs p) (Hcurr : curr_rd_port s = next_rd_port c p).
Context (Hb : empty_for b (length d)) (Hd : d = pk p) (Hh : port_holds e (rx_buf_size (mpa_rx s)) p d).

(** Alone, nothing waiting. *)
Lemma outcome_single : agg = [] → ∃ s', ('(s, b, ret) ← rx_single c e b p (Z.of_nat (length d)) s;
    if failed ret then rx_failed (Some b) s else Some (s, ret)) = Some (s', MLAN_STATUS_SUCCESS) ∧ rx_outcome c e pk s s' agg [] [] d.
Proof using Hok Hcurr Hb Hd Hh Hg Hc.
  intros Hnil. destruct (rx_single_spec c e pk Hc Hg s agg bs p d b Hok Hb Hd Hh Hnil) as (s' & b' & -> & Hgv & Hr). cbn [mbind option_bind].
  exists s'. split; [done|]. constructor.
  - exists [d]. split; [done|]. by rewrite Hnil.
  - by apply (rx_ok_empty c e pk Hc s agg bs p Hok Hcurr s' [d]).
Qed.

(** Added to the aggregate, which is read if [flush] or if a limit is reached. *)
Definition rx_limits (s1 : sdio_rx) : bool :=
  rx_pkt_limit_reached s1 || (if new_mode c then rx_port_limit_reached c s1 else rx_port_limit_reached_old c s1).
Lemma outcome_collect (flush : bool) : rx_enabled (mpa_rx s) = true → rx_buf_len (mpa_rx s) + Z.of_nat (length d) <= rx_buf_size (mpa_rx s) →
  ∃ s1 s', rx_put c b p (Z.of_nat (length d)) s = Some s1 ∧
    (if flush || rx_limits s1 then wlan_receive_mp_aggr_buf c e s1 else Some (s1, MLAN_STATUS_SUCCESS)) = Some (s', MLAN_STATUS_SUCCESS) ∧
    ∃ agg' bs', rx_outcome c e pk s s' agg agg' bs' d ∧ (flush = true → agg' = []).
Proof using Hok Hcurr Hb Hd Hh Hg Hc.
  intros Hon Hroom. destruct (rx_collect c e pk Hc s agg bs p d b Hok Hcurr Hb Hd Hh Hroom) as (s1 & -> & Hr1 & Hgv & Ht & Hst).
  assert (rx_drop s1 = false) as Hdr by (rewrite (proj2 (xf_work _ _ (gv_frame _ _ _ Hgv))); apply Hok).
  assert (length (agg ++ [(p, d)]) <= 16)%nat as H16.
  { rewrite length_app. cbn. pose proof (ro_cnt _ _ _ _ _ _ _ Hok). pose proof (ro_lim _ _ _ _ _ _ _ Hok). destruct (co_mode c (rc_cfg c Hc)); lia. }
  destruct (flush || rx_limits s1) eqn:Ef.
  - destruct (receive_spec c e pk s1 _ _ (rc_cfg c Hc) Hg Hdr Hr1) as (s2 & E2 & Hgv2 & Hr2); [by destruct agg|done|].
    exists s1, s2. split; [done|]. rewrite Ef. split; [done|]. exists [], []. split; [|done].
    assert (gave s s2 (agg ++ [(p, d)]).*2) as Hgs by (change ((agg ++ [(p, d)]).*2) with ([] ++ (agg ++ [(p, d)]).*2); by eapply gave_trans).
    constructor; [eexists; split; [exact Hgs|by rewrite app_nil_r, fmap_app]|].
    by apply (rx_ok_empty c e pk Hc s agg bs p Hok Hcurr s2 _ Hgs).
  - exists s1, s1. split; [done|]. rewrite Ef. split; [done|]. apply orb_false_iff in Ef as [-> [Hl1 Hl2]%orb_false_iff].
    exists (agg ++ [(p, d)]), (bs ++ [b]). split; [|done]. constructor; [exists []; split; [done|by rewrite fmap_app]|].
    apply (rx_ok_collected c e pk Hc s agg bs p d b Hok); try done. intros Hm. by rewrite Hm in Hl2.
Qed.

(** Added after the aggregate was read for want of room. *)
Lemma outcome_post_rx : agg ≠ [] → ∃ s1 s', wlan_receive_mp_aggr_buf c e s = Some (s1, MLAN_STATUS_SUCCESS) ∧
  rx_put c b p (Z.of_nat (length d)) s1 = Some s' ∧ rx_outcome c e pk s s' agg [(p, d)] [b] d.
Proof using Hok Hcurr Hb Hd Hh Hg Hc.
  intros Hne. pose proof (ro_cnt _ _ _ _ _ _ _ Hok) as Hcnt. pose proof (ro_lim _ _ _ _ _ _ _ Hok) as Hlim.
  assert (length agg <= 16)%nat as H16 by (destruct (co_mode c (rc_cfg c Hc)); lia).
  destruct (receive_spec c e pk s agg bs (rc_cfg c Hc) Hg (ro_drop _ _ _ _ _ _ _ Hok) (ro_rep _ _ _ _ _ _ _ Hok) Hne H16) as (s1 & E1 & Hgv & Hr1).
  pose proof (gv_frame _ _ _ Hgv) as F. pose proof (xf_set _ _ F) as (Fe & Fs & Fl).
  assert (rx_ok c e pk s1 [] [] p) as Hok1.
  { constructor; try done; rewrite ?Fl; [done|cbn; lia|split; [apply (ro_turn _ _ _ _ _ _ _ Hok)|done]|].
    rewrite (proj2 (xf_work _ _ F)). apply Hok. }
  pose proof (rr_room _ _ _ _ _ _ Hr1). pose proof (rr_len _ _ _ _ _ _ Hr1) as Hl0. cbn in Hl0. pose proof (ph_len _ _ _ _ Hh). pose proof (ph_max _ _ _ _ Hh).
  rewrite <- Fs in Hh. destruct (rx_collect c e pk Hc s1 [] [] p d b Hok1) as (s2 & E2 & Hr2 & Hgv2 & Ht2 & Hst2); try done;
    [by rewrite (xf_curr _ _ F)|lia|].
  exists s1, s2. split; [done|]. split; [done|]. pose proof (gave_trans _ _ _ _ _ Hgv Hgv2) as Hg2. rewrite app_nil_r in Hg2.
  pose proof (gv_frame _ _ _ Hg2) as F2. pose proof (xf_set _ _ F2) as (F2e & F2s & F2l).
  constructor; [exists agg.*2; split; [done|done]|]. constructor; try done; rewrite ?F2l; [done|cbn| | |].
  - destruct agg; [done|]. cbn [length] in *. lia.
  - intros Hm _. rewrite Hst2. cbn [start_with length]. destruct (co_mode c (rc_cfg c Hc)) as [[? _]|(_ & Hmax & Hw & _)]; [congruence|].
    destruct (ro_turn _ _ _ _ _ _ _ Hok) as [Hp _]. cbn [mp_end_port rx_view] in Hp. unfold pbit. rewrite Hm, Hmax, Hw in *. unfold port_at.
    change (Z.of_nat 1) with 1. destruct (Z.ltb_spec (p + 1) 16); [rewrite Z.mod_small; lia|].
    assert (p = 15) as -> by lia. done.
  - intros Hoff. rewrite F2e in Hoff. by rewrite (ro_on _ _ _ _ _ _ _ Hok Hoff) in Hne.
  - rewrite (proj2 (xf_work _ _ F2)). apply Hok.
Qed.

Lemma card_to_host_mp_aggr_spec rest : mp_rd_bitmap s = bits_of rest → Forall (λ p, start_wr_port c <= p < max_ports c) rest →
  ∃ s' agg' bs', wlan_sdio_card_to_host_mp_aggr c e b p (Z.of_nat (length d)) s = Some (s', MLAN_STATUS_SUCCESS) ∧
    rx_outcome c e pk s s' agg agg' bs' d ∧ (rest = [] → agg' = []).
Proof using Hok Hcurr Hb Hd Hh Hg Hc.
  intros Hbm Hrest. pose proof (ro_rep _ _ _ _ _ _ _ Hok) as Hr. pose proof (rr_room _ _ _ _ _ _ Hr) as Hroom.
  assert (negb (new_mode c) && (p =? CTRL_PORT) = false) as Hctl.
  { destruct (ro_turn _ _ _ _ _ _ _ Hok) as [Hp _]. cbn [mp_end_port rx_view] in Hp. unfold CTRL_PORT. destruct (co_mode c (rc_cfg c Hc)) as [[-> _]|(-> & _ & Hw & _)]; [done|]. cbn. lia. }
  unfold wlan_sdio_card_to_host_mp_aggr, plan_rx. rewrite Hctl, (more_pending_spec c s rest Hc Hbm Hrest).
  rewrite (rx_has_room_spec c e pk s agg bs d _ p Hr Hh) by lia. pose proof (rx_in_progress_spec c e pk s agg bs Hr) as Hip.
  destruct (rx_enabled (mpa_rx s)) eqn:Hon; cbn [orb negb].
  2: { destruct (outcome_single (ro_on _ _ _ _ _ _ _ Hok Hon)) as (s' & E & Ho). cbn [aggr_cur do_rx_aggr do_rx_cur mbind option_bind failed].
    exists s', [], []. by split. }
  destruct (decide (rest = [])) as [Hne|Hne]; [rewrite (bool_decide_eq_true_2 (rest = [])) by done|rewrite (bool_decide_eq_false_2 (rest = [])) by done]; cbn [negb].
  - destruct (rx_in_progress s) eqn:Ep.
    2: { assert (agg = []) as Hnil by (destruct (decide (agg = [])) as [|Hne0]; [done|discriminate (proj2 Hip Hne0)]).
      destruct (outcome_single Hnil) as (s' & E & Ho). exists s', [], []. by split. }
    case_bool_decide as Hfit; cbn [negb aggr_cur do_rx_aggr do_rx_cur post_aggr_cur].
    + destruct (outcome_collect true Hon Hfit) as (s1 & s' & -> & E & agg' & bs' & Ho & Hnil). cbn [mbind option_bind orb] in *. rewrite E.
      cbn [mbind option_bind]. exists s', agg', bs'. split; [done|]. split; [done|]. intros _. by apply Hnil.
    + pose proof (ro_cnt _ _ _ _ _ _ _ Hok) as Hcnt. pose proof (ro_lim _ _ _ _ _ _ _ Hok) as Hlim.
      assert (length agg <= 16)%nat as H16 by (destruct (co_mode c (rc_cfg c Hc)); lia). cbn [mbind option_bind].
      destruct (receive_spec c e pk s agg bs (rc_cfg c Hc) Hg (ro_drop _ _ _ _ _ _ _ Hok) Hr (proj1 Hip eq_refl) H16) as (s1 & -> & Hgv & Hr1).
      cbn [mbind option_bind]. pose proof (gv_frame _ _ _ Hgv) as F. pose proof (xf_set _ _ F) as (Fe & Fs & Fl).
      assert (rx_ok c e pk s1 [] [] p) as Hok1.
      { constructor; try done; rewrite ?Fl; [done|cbn; lia|split; [apply (ro_turn _ _ _ _ _ _ _ Hok)|done]|].
        rewrite (proj2 (xf_work _ _ F)). apply Hok. }
      assert (port_holds e (rx_buf_size (mpa_rx s1)) p d) as Hh1 by by rewrite Fs.
      destruct (rx_single_spec c e pk Hc Hg s1 [] [] p d b Hok1 Hb Hd Hh1 eq_refl) as (s2 & b2 & -> & Hgv2 & Hr2).
      cbn [mbind option_bind]. exists s2, [], []. split; [done|]. pose proof (gave_trans _ _ _ _ _ Hgv Hgv2) as Hg2. split; [|done].
      constructor; [eexists; split; [exact Hg2|by rewrite app_nil_r]|]. by apply (rx_ok_empty c e pk Hc s agg bs p Hok Hcurr s2 _ Hg2).
  - destruct (rx_in_progress s && negb (bool_decide (rx_buf_len (mpa_rx s) + Z.of_nat (length d) <= rx_buf_size (mpa_rx s)))) eqn:Ep;
      cbn [negb aggr_cur do_rx_aggr do_rx_cur post_aggr_cur].
    + apply andb_true_iff in Ep as [Ep _]. cbn [mbind option_bind]. destruct (outcome_post_rx (proj1 Hip Ep)) as (s1 & s' & -> & E & Ho). cbn [mbind option_bind failed].
      cbn [mbind option_bind]. rewrite E. cbn [mbind option_bind]. exists s', [(p, d)], [b]. by split.
    + assert (rx_buf_len (mpa_rx s) + Z.of_nat (length d) <= rx_buf_size (mpa_rx s)) as Hfit.
      { apply andb_false_iff in Ep as [Ep|Ep%negb_false_iff%bool_decide_eq_true]; [|done].
        assert (agg = []) as Hnil. { destruct (decide (agg = [])) as [|Hne0]; [done|]. rewrite (proj2 Hip Hne0) in Ep. done. }
        pose proof (rr_len _ _ _ _ _ _ Hr) as Hl. rewrite Hnil in Hl. cbn in Hl. pose proof (ph_len _ _ _ _ Hh). pose proof (ph_max _ _ _ _ Hh). lia. }
      destruct (outcome_collect false Hon Hfit) as (s1 & s' & -> & E & agg' & bs' & Ho & _). cbn [mbind option_bind orb] in *.
      unfold rx_limits in E. rewrite E. cbn [mbind option_bind]. exists s', agg', bs'. split; [done|]. split; [done|]. by intros.
Qed.
End packet_step.

(** ** The loop over the ports *)

Lemma agg_ports_cons c e st n : start_wr_port c <= st < e → 0 <= n → n + 1 <= e - start_wr_port c →
  agg_ports c e st (n + 1) = st :: agg_ports c e (if st + 1 =? e then start_wr_port c else st + 1) n.
Proof.
  intros Hs Hn Hr. unfold agg_ports. rewrite seqZ_cons by lia. cbn [fmap list_fmap]. rewrite port_at_0 by lia. f_equal.
  replace (Z.pred (n + 1)) with n by lia. change (Z.succ 0) with (0 + 1). rewrite (Z.add_comm 0 1), <- fmap_add_seqZ, <- list_fmap_compose.
  apply list_fmap_ext. intros i x Hx. apply list_elem_of_lookup_2, elem_of_seqZ in Hx. cbn. unfold port_at.
  destruct (Z.eqb_spec (st + 1) e); destruct (Z.ltb_spec (st + (1 + x)) e); repeat case_match; lia.
Qed.
Lemma port_at_succ c e st n : start_wr_port c <= st < e → 0 <= n → n + 1 <= e - start_wr_port c →
  port_at (start_wr_port c) e st (n + 1) = port_at (start_wr_port c) e (if st + 1 =? e then start_wr_port c else st + 1) n.
Proof.
  intros Hs Hn Hr. unfold port_at. destruct (Z.eqb_spec (st + 1) e); destruct (Z.ltb_spec (st + (n + 1)) e); repeat case_match; lia.
Qed.

Lemma clear_bit_first p rest : 0 <= p < 32 → NoDup (p :: rest) → Forall (λ p, 0 <= p < 32) rest → clear_bit p (bits_of (p :: rest)) = bits_of rest.
Proof.
  intros Hp [Hni _]%NoDup_cons Hall. assert (Forall (λ b, 0 <= b) rest) as H0 by (eapply Forall_impl; [exact Hall|cbn; lia]).
  apply Z.bits_inj'. intros n Hn. rewrite (bits_of_spec rest) by done. destruct (decide (n < 32)) as [H32|H32].
  - destruct (decide (n = p)) as [->|Hne].
    + rewrite (bool_decide_eq_false_2 (p ∈ rest)) by done. unfold clear_bit. rewrite Z.land_spec. unfold u_wrap.
      rewrite Z.mod_pow2_bits_low, Z.lnot_spec, Z.shiftl_1_l, Z.pow2_bits_eqb, Z.eqb_refl by lia. apply andb_false_r.
    + change (Z.testbit (clear_bit p (bits_of (p :: rest))) n) with (bit (clear_bit p (bits_of (p :: rest))) n).
      rewrite (clear_other_bit _ p n) by lia. unfold bit. rewrite (bits_of_spec (p :: rest) n) by (done || (constructor; [lia|done])). apply bool_decide_ext. set_solver.
  - rewrite bool_decide_eq_false_2. { unfold clear_bit. rewrite Z.land_spec. unfold u_wrap. rewrite (Z.mod_pow2_bits_high _ 32 n) by lia. apply andb_false_r. }
    intros Hin. rewrite Forall_forall in Hall. specialize (Hall n Hin). lia.
Qed.
Lemma get_rd_port_spec c s p rest : rx_cfg_ok c → mp_rd_bitmap s = bits_of (p :: rest) → curr_rd_port s = p → NoDup (p :: rest) →
  Forall (λ p, start_wr_port c <= p < max_ports c) (p :: rest) →
  wlan_get_rd_port c s = Some (p, set_curr_rd_port (next_rd_port c p) (set_mp_rd_bitmap (bits_of rest) s)).
Proof.
  intros Hc Hbm Hcu Hnd Hall. pose proof (rc_cfg c Hc) as Hcc. destruct (ring_end c Hcc) as [He H32]. unfold end_ok in He.
  assert (0 <= start_wr_port c) as Hw by (destruct (co_mode c Hcc); lia). pose proof (Forall_inv Hall) as Hp. cbn in Hp.
  assert (Forall (λ p, 0 <= p < 32) (p :: rest)) as H0 by (eapply Forall_impl; [exact Hall|cbn; lia]).
  assert (Forall (λ p, 0 <= p) (p :: rest)) as H00 by (eapply Forall_impl; [exact Hall|cbn; lia]).
  assert (bit (bits_of (p :: rest)) p = true) as Hbp.
  { unfold bit. rewrite (bits_of_spec _ _ H00) by lia. apply bool_decide_eq_true. set_solver. }
  unfold wlan_get_rd_port. rewrite Hbm, Hcu, Hbp.
  assert (Z.land (bits_of (p :: rest)) (if new_mode c then reg_data_port_mask c else Z.lor CTRL_PORT_MASK (reg_data_port_mask c)) =? 0 = false) as ->.
  { apply Z.eqb_neq. intros Hz. apply (f_equal (λ x, Z.testbit x p)) in Hz. rewrite Z.land_spec, Z.bits_0 in Hz. unfold bit in Hbp. rewrite Hbp in Hz.
    pose proof (rc_mask c Hc p Hp) as Hmk. unfold bit in Hmk. destruct (new_mode c); [by rewrite Hmk in Hz|]. by rewrite Z.lor_spec, Hmk, orb_true_r in Hz. }
  assert (negb (new_mode c) && negb (Z.land (bits_of (p :: rest)) CTRL_PORT_MASK =? 0) = false) as ->.
  { destruct (co_mode c Hcc) as [[-> _]|(-> & _ & Hw1 & _)]; [done|]. cbn [negb andb]. apply negb_false_iff, Z.eqb_eq. apply Z.bits_inj'. intros n Hn.
    rewrite Z.bits_0, Z.land_spec. unfold CTRL_PORT_MASK. destruct (decide (n = 0)) as [->|]; [|by rewrite (small_bits_high 1 1 n), andb_false_r by lia].
    rewrite (bits_of_spec _ _ H00) by lia. rewrite bool_decide_eq_false_2; [done|]. intros Hin. rewrite Forall_forall in Hall. specialize (Hall 0 Hin). lia. }
  cbv zeta. rewrite u_wrap_small by lia. rewrite (rc_start c Hc). unfold take_port. rewrite Hbm, clear_bit_first; [done|lia|done|by inversion H0].
Qed.

Lemma blocks_idem n : 0 <= n < 2 ^ 16 → blocks (blocks n) = blocks n.
Proof.
  intros Hn. destruct (blocks_spec n Hn) as [Hb Hm]. unfold blocks at 1, MLAN_SDIO_BLOCK_SIZE. rewrite (u_wrap_small 32 (blocks n + 256 - 1)) by lia.
  pose proof (Z.div_mod (blocks n) 256 ltac:(lia)) as Hdm. rewrite Hm in Hdm. set (q := blocks n / 256) in *.
  replace (blocks n + 256 - 1) with (255 + q * 256) by lia. rewrite Z.div_add by lia. change (255 / 256) with 0. rewrite u_wrap_small; lia.
Qed.
Lemma rx_ok_same c e pk s s' agg bs p : rx_ok c e pk s agg bs p → mpa_rx s' = mpa_rx s → mpa_rx_count s' = mpa_rx_count s → rx_drop s' = rx_drop s →
  rx_ok c e pk s' agg bs p.
Proof.
  intros [Hr H1 H2 H3 H4 H5 H6] Em En Ed. destruct Hr as [R1 R2 R3 R4 R5 R6 R7 R8 R9 R10 R11 R12 R13]. unfold in_turn in H4. cbn [rx_view mp_end_port mpa_tx tx_start_port] in H4.
  constructor; rewrite ?Em, ?Ed; try done; [|unfold in_turn; cbn [rx_view mp_end_port mpa_tx tx_start_port]; by rewrite Em]. constructor; rewrite ?Em, ?En; done.
Qed.

Section loop.
Context (c : sdio_cfg) (e : rx_env) (pk : Z → list Z) (Hc : rx_cfg_ok c) (Hg : card_gives c e pk) (Halloc : ∀ k, alloc e k = true).

Lemma upload_one_spec s agg bs p rest : rx_ok c e pk s agg bs p → curr_rd_port s = next_rd_port c p → mp_rd_bitmap s = bits_of rest →
  Forall (λ p, start_wr_port c <= p < max_ports c) rest → port_holds e (rx_buf_size (mpa_rx s)) p (pk p) →
  ∃ s' agg' bs', upload_one c e p s = Some (s', None) ∧ rx_outcome c e pk (set_next_id (next_id s + 1) s) s' agg agg' bs' (pk p) ∧ (rest = [] → agg' = []).
Proof using Hc Hg Halloc.
  intros Hok Hcu Hbm Hrest Hh. pose proof (rr_room _ _ _ _ _ _ (ro_rep _ _ _ _ _ _ _ Hok)) as Hroom.
  pose proof (ph_reg _ _ _ _ Hh) as Hreg. pose proof (ph_len _ _ _ _ Hh) as Hlen. pose proof (ph_max _ _ _ _ Hh) as Hmax. unfold SDIO_INTF_HEADER_LEN in Hreg.
  unfold upload_one. assert (valid_len (rd_len e p) (rx_buf_size (mpa_rx s)) = true) as ->.
  { unfold valid_len, SDIO_INTF_HEADER_LEN. rewrite (proj2 (Z.leb_gt _ _)), (proj2 (Z.ltb_ge _ _)) by lia. done. }
  cbn [negb]. cbv zeta. rewrite (u_wrap_small 16) by lia. unfold wlan_alloc_mlan_buffer. rewrite Halloc.
  set (s1 := set_next_id (next_id s + 1) s). set (b := mk_rbuf _ _ _ _ _).
  assert (empty_for b (length (pk p))) as Hb.
  { subst b. unfold empty_for. cbn [b_off b_mem b_len b_spa]. rewrite blocks_idem by lia. rewrite length_replicate. repeat split; lia. }
  destruct (card_to_host_mp_aggr_spec c e pk Hc Hg s1 agg bs p (pk p) b) with (rest := rest) as (s' & agg' & bs' & E & Ho & Hnil); try done.
  { by apply (rx_ok_same c e pk s). }
  rewrite <- Hlen. rewrite E. cbn [mbind option_bind]. exists s', agg', bs'. by split.
Qed.

Lemma upload_loop_spec (n : nat) s agg bs fuel : rx_ok c e pk s agg bs (curr_rd_port s) → Z.of_nat n <= max_ports c - start_wr_port c → (n < fuel)%nat →
  mp_rd_bitmap s = bits_of (agg_ports c (max_ports c) (curr_rd_port s) (Z.of_nat n)) → (n = 0%nat → agg = []) →
  Forall (λ p, port_holds e (rx_buf_size (mpa_rx s)) p (pk p)) (agg_ports c (max_ports c) (curr_rd_port s) (Z.of_nat n)) →
  ∃ s', upload_loop fuel c e s = Some (s', MLAN_STATUS_SUCCESS) ∧ rx_ok c e pk s' [] [] (curr_rd_port s') ∧
    shown <$> handed_up s' = (shown <$> handed_up s) ++ (packet_body <$> agg.*2 ++ (pk <$> agg_ports c (max_ports c) (curr_rd_port s) (Z.of_nat n))) ∧
    mp_rd_bitmap s' = 0 ∧ curr_rd_port s' = port_at (start_wr_port c) (max_ports c) (curr_rd_port s) (Z.of_nat n) ∧ next_id s' = next_id s + Z.of_nat n.
Proof using Hc Hg Halloc.
  destruct (ring_end c (rc_cfg c Hc)) as [He H32]. unfold end_ok in He. assert (0 <= start_wr_port c) as Hw by (destruct (co_mode c (rc_cfg c Hc)); lia).
  revert s agg bs fuel. induction n as [|n IH]; intros s agg bs fuel Hok Hn Hf Hbm Hnil Hall; (destruct fuel as [|fuel]; [lia|]); cbn [upload_loop].
  { pose proof (Hnil eq_refl) as ->. change (Z.of_nat 0) with 0 in *. cbn in Hbm.
    assert (wlan_get_rd_port c s = None) as -> by (unfold wlan_get_rd_port; by rewrite Hbm, Z.land_0_l).
    exists s. split; [done|]. assert (bs = []) as ->. { pose proof (rr_bufs _ _ _ _ _ _ (ro_rep _ _ _ _ _ _ _ Hok)) as H. by inversion H. }
    split; [done|]. split; [by cbn; rewrite app_nil_r|]. split; [done|].
    destruct (ro_turn _ _ _ _ _ _ _ Hok) as [Hp _]. cbn [rx_view mp_end_port] in Hp. rewrite port_at_0 by lia. lia. }
  destruct (ro_turn _ _ _ _ _ _ _ Hok) as [Hp _]. cbn [rx_view mp_end_port] in Hp. set (p := curr_rd_port s) in *.
  replace (Z.of_nat (S n)) with (Z.of_nat n + 1) in * by lia. pose proof (agg_ports_NoDup c (max_ports c) p (Z.of_nat n + 1) Hp Hn) as Hnd.
  rewrite (agg_ports_cons c (max_ports c) p (Z.of_nat n)) in * by lia. fold (next_rd_port c p) in *. set (rest := agg_ports c (max_ports c) (next_rd_port c p) (Z.of_nat n)) in *.
  assert (start_wr_port c <= next_rd_port c p < max_ports c) as Hnp by (unfold next_rd_port; case_match eqn:Ep; lia).
  assert (Forall (λ p, start_wr_port c <= p < max_ports c) rest) as Hrest.
  { apply Forall_forall. intros x (i & -> & Hi%elem_of_seqZ)%list_elem_of_fmap. apply port_at_range; lia. }
  rewrite (get_rd_port_spec c s p rest) by (done || by constructor). set (s1 := set_curr_rd_port _ _).
  destruct (upload_one_spec s1 agg bs p rest) as (s2 & agg' & bs' & -> & [(ds & [F Hgv] & Hds) Hok2] & Hlast); [by apply (rx_ok_same c e pk s)|done|done|done|by inversion Hall|].
  cbn [mbind option_bind]. pose proof (xf_curr _ _ F) as Fc. pose proof (xf_bitmap _ _ F) as Fb. pose proof (xf_set _ _ F) as (_ & Fs & _). pose proof (xf_next _ _ F) as Fn.
  cbn [set_next_id curr_rd_port mp_rd_bitmap mpa_rx next_id s1 set_curr_rd_port set_mp_rd_bitmap] in Fc, Fb, Fs, Fn.
  destruct (IH s2 agg' bs' fuel Hok2) as (s3 & E3 & Hok3 & Hgv3 & Hbm3 & Hcu3 & Hn3); try rewrite Fc; try rewrite Fb; try rewrite Fs; [lia|lia|done| |by inversion Hall|].
  { intros ->. by apply Hlast. }
  exists s3. split; [exact E3|]. split; [done|]. split; [|split; [done|split]].
  - rewrite Hgv3, Hgv, Fc. fold rest. rewrite <- app_assoc. f_equal. rewrite <- fmap_app. f_equal. rewrite app_assoc, Hds, <- app_assoc. done.
  - rewrite Hcu3, Fc. symmetry. apply port_at_succ; lia.
  - rewrite Hn3, Fn. lia.
Qed.
End loop.

(** Nothing waits, the aggregate's arrays have their sizes. *)
Record rx_ready (c : sdio_cfg) (s : sdio_rx) : Prop := {
  rd_none : rx_pkt_cnt (mpa_rx s) = 0%nat ∧ rx_buf_len (mpa_rx s) = 0 ∧ rx_ports (mpa_rx s) = 0;
  rd_turn : start_wr_port c <= curr_rd_port s < max_ports c;
  rd_size : 0 <= rx_buf_size (mpa_rx s) <= 65535;
  rd_bounce : ∀ m, rx_bounce (mpa_rx s) = Some m → Z.of_nat (length m) = rx_buf_size (mpa_rx s);
  rd_lim : 1 <= rx_aggr_limit (mpa_rx s) <= Z.of_nat (mp_aggr_pkt_limit c);
  rd_arr : length (rx_mbufs (mpa_rx s)) = 16%nat ∧ length (rx_lens (mpa_rx s)) = 16%nat ∧ length (mpa_rx_count s) = 16%nat;
  rd_drop : rx_drop s = false
}.
Lemma rx_ready_ok c e pk s : cfg_ok c → rx_ready c s ↔ rx_ok c e pk s [] [] (curr_rd_port s).
Proof.
  intros Hc. destruct (ring_end c Hc) as [He _]. unfold end_ok in He. split.
  - intros [(H1 & H2 & H3) Ht Hs Hb Hl Ha Hd]. constructor; try done; [|cbn; lia]. constructor; try done; rewrite ?H2; [lia|]. split; cbn; lia.
  - intros [Hr Hl Hcnt Hn [Hp _] Hon Hd]. pose proof (rr_room _ _ _ _ _ _ Hr). pose proof (rr_len _ _ _ _ _ _ Hr) as Hl0. cbn in Hl0.
    constructor; try done; [|lia|apply Hr|apply Hr]. split; [apply Hr|]. split; [done|]. by rewrite (rr_bits _ _ _ _ _ _ Hr).
Qed.

(** ** Several packets in one *)

(** Blocks with a packet: their number at byte 15, the packet with its length from
    byte 28 on, [x] behind its header. *)
Record spa_entry (bs : Z) (data x : list Z) : Prop := {
  se_num : ∃ k, data !! OFFSET_OF_BLOCK_NUMBER = Some k ∧ Z.of_nat (length data) = bs * k;
  se_len : 1 <= Z.of_nat (length x) ∧ Z.of_nat OFFSET_OF_SDIO_HEADER + SDIO_INTF_HEADER_LEN + Z.of_nat (length x) <= Z.of_nat (length data) < 2 ^ 16;
  se_head : le16 (drop OFFSET_OF_SDIO_HEADER data) = Some (Z.of_nat (length x) + SDIO_INTF_HEADER_LEN);
  se_body : take (length x) (drop (OFFSET_OF_SDIO_HEADER + 4) data) = x
}.
(** Nothing but the packets handed to the handler changes. *)
Definition spa_gave (s s' : sdio_rx) (xs : list (list Z)) : Prop :=
  shown <$> handled s' = (shown <$> handled s) ++ (Some <$> xs) ∧ sdio_rx_block_size s' = sdio_rx_block_size s.

Lemma spa_loop_spec e (rest : list Z) (es : list (list Z * list Z)) : (∀ k, alloc e k = true) → ∀ fuel s stale, 0 < sdio_rx_block_size s → Forall (λ x, spa_entry (sdio_rx_block_size s) x.1 x.2) es → es ≠ [] →
  Z.of_nat (length rest) < sdio_rx_block_size s → (length es < fuel)%nat →
  ∃ s', spa_loop fuel e (concat es.*1 ++ rest) (Z.of_nat (length (concat es.*1 ++ rest))) stale s = Some s' ∧ spa_gave s s' es.*2.
Proof.
  intros Hal. induction es as [|[d x] es IH]; intros fuel s stale Hbs Hall Hne Hrest Hf; [done|]. destruct fuel as [|fuel]; [cbn in Hf; lia|].
  inversion Hall as [|? ? Hent Hall']; subst. cbn [fst snd] in Hent. destruct Hent as [(k & Hk & Hlen) [Hx1 Hx2] Hh Hbody].
  unfold OFFSET_OF_SDIO_HEADER, SDIO_INTF_HEADER_LEN in *. cbn [fmap list_fmap fst snd concat spa_loop]. change (map fst es) with es.*1. rewrite <- app_assoc.
  set (tl := concat es.*1 ++ rest). rewrite length_app. rewrite (proj2 (Z.ltb_ge _ _)) by (unfold OFFSET_OF_SDIO_HEADER, SDIO_INTF_HEADER_LEN; lia).
  rewrite (lookup_app_l_Some d tl _ k Hk). cbn [mbind option_bind]. cbv zeta. rewrite u_wrap_small by lia. rewrite <- Hlen, (proj2 (Z.ltb_ge _ _)) by lia.
  unfold OFFSET_OF_SDIO_HEADER, SDIO_INTF_HEADER_LEN. rewrite (drop_app_le d tl 28), (le16_app _ _ _ Hh) by lia. cbn [mbind option_bind].
  rewrite (proj2 (Z.ltb_ge (Z.of_nat (length d)) _)), (proj2 (Z.ltb_lt 4 _)) by lia. unfold wlan_alloc_mlan_buffer. rewrite Hal. cbv beta iota zeta.
  replace (Z.of_nat (length x) + 4 - 4) with (Z.of_nat (length x)) by lia. rewrite u_wrap_small by lia.
  change (28 + 4)%nat with 32%nat in *. rewrite (drop_app_le d tl 32) by lia. rewrite decide_True by (rewrite length_app, length_drop; lia).
  rewrite (Nat2Z.id (length x)), (Nat2Z.id (length d)). rewrite (take_app_le (drop 32 d)), Hbody by (rewrite length_drop; lia).
  destruct (blocks_spec (Z.of_nat (length x)) ltac:(lia)) as [Hb _]. unfold fill. cbn [b_off b_mem b_id b_len b_spa].
  rewrite splice_0 by (rewrite length_replicate; lia). cbn [mbind option_bind b_id b_mem b_off].
  set (m := mk_rbuf _ _ _ _ _). set (s1 := wlan_handle_rx_packet m _).
  assert (spa_gave s s1 [x]) as [Hg1 Hs1].
  { split; [|done]. unfold s1, wlan_handle_rx_packet. cbn [handled set_handled set_next_id]. rewrite fmap_app. f_equal. cbn [fmap list_fmap]. f_equal.
    unfold shown, m. cbn [b_off b_len b_mem]. change (Z.of_nat 0) with 0. rewrite decide_True by (rewrite length_app; lia). by rewrite Nat2Z.id, drop_0, take_app_length. }
  replace (Z.of_nat (length d + length tl) - Z.of_nat (length d)) with (Z.of_nat (length tl)) by lia. rewrite drop_app_length, Hs1.
  destruct es as [|[d' x'] es].
  - cbn [fmap list_fmap concat app] in tl. subst tl. rewrite (proj2 (Z.ltb_lt _ _)) by done. exists s1. split; [done|]. by split.
  - assert (Z.of_nat (length tl) <? sdio_rx_block_size s = false) as ->.
    { apply Z.ltb_ge. inversion Hall' as [|? ? [(k' & _ & Hl') [_ H2'] _ _] _]; subst. cbn [fst snd] in *. unfold tl. cbn [fmap list_fmap fst concat].
      rewrite !length_app. unfold OFFSET_OF_SDIO_HEADER, SDIO_INTF_HEADER_LEN in *. assert (1 <= k') by nia. nia. }
    rewrite <- Hs1 in Hbs, Hall', Hrest. destruct (IH fuel s1 (Some m) Hbs Hall' ltac:(done) Hrest) as (s2 & E2 & Hg2 & Hs2); [cbn in Hf |- *; lia|].
    exists s2. split; [exact E2|]. split; [|congruence]. rewrite Hg2, Hg1, <- app_assoc. done.
Qed.

Lemma cmd_sent_cleared x : vdll_len x = 0 → cmd_sent (if cmd_sent x && (vdll_len x =? 0) then set_cmd_sent false x else x) = false.
Proof. intros ->. rewrite Z.eqb_refl, andb_true_r. by destruct (cmd_sent x) eqn:E. Qed.
Lemma sleep_confirmed_same old s : let s' := sleep_confirmed old s in respbuf s' = respbuf s ∧ cmd_resp_received s' = cmd_resp_received s ∧
  upld_len s' = upld_len s ∧ cmd_sent s' = cmd_sent s ∧ freed s' = freed s ∧ event_buf s' = event_buf s ∧ event_received s' = event_received s ∧
  event_cause s' = event_cause s ∧ event_body s' = event_body s.
Proof. unfold sleep_confirmed. by case_match. Qed.

(** A response or an event from the command port reaches the command that waits, or
    the event handler, as the bytes behind its header; of an event the cause and,
    up to the room for it, the body are kept as well. *)
Theorem cmd_port_delivers (c : sdio_cfg) (e : rx_env) (s : sdio_rx) (d : list Z) (h type : Z) :
  valid_len (cmd_rd_len e) ALLOC_BUF_SIZE = true → alloc e (next_id s) = true → 0 <= cmd_rd_len e < 2 ^ 16 →
  read_card e (Z.lor (ioport c) CMD_PORT_SLCT) (blocks (cmd_rd_len e)) = Some d → Z.of_nat (length d) = blocks (cmd_rd_len e) →
  le16 d = Some h → SDIO_INTF_HEADER_LEN <= h <= Z.of_nat (length d) → le16 (drop 2 d) = Some type → length (event_body s) = 3072%nat →
  type = MLAN_TYPE_CMD ∧ curr_cmd s = true ∨ type = MLAN_TYPE_EVENT →
  ∃ s' b, cmd_interrupt c e s = Some (s', MLAN_STATUS_SUCCESS) ∧ shown b = packet_body d ∧ freed s' = freed s ∧
    (if type =? MLAN_TYPE_CMD then respbuf s' = Some b ∧ cmd_resp_received s' = true ∧ upld_len s' = h - SDIO_INTF_HEADER_LEN ∧ (vdll_len s = 0 → cmd_sent s' = false)
     else event_buf s' = Some b ∧ event_received s' = true ∧ le32 (drop 4 d) = Some (event_cause s') ∧
       (MLAN_EVENT_HEADER_LEN < h < MLAN_EVENT_HEADER_LEN + MAX_EVENT_SIZE → let n := Z.to_nat (h - MLAN_EVENT_HEADER_LEN) in take n (event_body s') = take n (drop 8 d))).
Proof.
  intros Hv Hal H0 Hrd Hd Hh H4 Ht Heb Htype. unfold cmd_interrupt. rewrite Hv. cbn [negb]. cbv zeta.
  unfold valid_len, SDIO_INTF_HEADER_LEN, ALLOC_BUF_SIZE in Hv. apply negb_true_iff, orb_false_iff in Hv as [Hv1%Z.leb_gt Hv2%Z.ltb_ge].
  destruct (blocks_spec (cmd_rd_len e) H0) as [Hb1 Hb2]. assert (256 <= blocks (cmd_rd_len e)) as H256 by (pose proof (Z.div_mod (blocks (cmd_rd_len e)) 256 ltac:(lia)); lia).
  rewrite (u_wrap_small 16) by lia. unfold wlan_alloc_mlan_buffer. rewrite Hal, blocks_idem by done. set (b := mk_rbuf _ _ _ _ _). set (s1 := set_next_id _ s).
  assert (empty_for b (length d)) as Hb. { unfold b, empty_for. cbn [b_off b_mem b_len b_spa]. rewrite length_replicate. repeat split; lia. }
  unfold wlan_sdio_card_to_host. change (b_len b) with (blocks (cmd_rd_len e)). rewrite Hrd, (fill_exact b d Hb). cbn [mbind option_bind b_off b_mem Nat.add].
  change (drop 0 d) with d. rewrite Hh. cbn [mbind option_bind]. rewrite Ht. cbn [mbind option_bind note_len]. rewrite (proj2 (Z.ltb_ge _ h)) by lia.
  set (fb := mk_rbuf _ _ _ _ _). assert (shown (strip h fb) = packet_body d) as Hs by (apply shown_strip; done || lia). unfold SDIO_INTF_HEADER_LEN in H4.
  destruct Htype as [[-> Hcc]| ->].
  - change (wlan_decode_rx_packet e fb MLAN_TYPE_CMD) with (decode_cmd e fb). unfold decode_cmd.
    assert (∀ x : sdio_rx, curr_cmd (if cmd_sent x && (vdll_len x =? 0) then set_cmd_sent false x else x) = curr_cmd x) as Hcx by (intros; by case_match).
    rewrite Hcx. cbn [set_upld_len s1 set_next_id curr_cmd]. rewrite Hcc. cbn [negb mbind option_bind]. eexists _, (strip h fb). split; [reflexivity|].
    match goal with |- context [sleep_confirmed ?o ?x] => destruct (sleep_confirmed_same o x) as (-> & -> & -> & -> & -> & _) end. split; [|split].
    + exact Hs.
    + by case_match.
    + change (MLAN_TYPE_CMD =? MLAN_TYPE_CMD) with true. cbv iota. split; [by case_match|]. split; [done|]. split.
      * case_match; cbn [set_respbuf set_upld_len set_cmd_sent upld_len]; unfold SDIO_INTF_HEADER_LEN; apply u_wrap_small; lia.
      * intros Hz. apply (cmd_sent_cleared (set_upld_len h s1) Hz).
  - change (wlan_decode_rx_packet e fb MLAN_TYPE_EVENT) with (decode_event fb). unfold decode_event. cbn [b_off b_mem fb Nat.add].
    assert (∃ cause, le32 (drop 4 d) = Some cause) as [cause Ecause].
    { unfold le32, le16. rewrite !lookup_drop. destruct (lookup_lt_is_Some_2 d 4) as [x0 ?]; [lia|]. destruct (lookup_lt_is_Some_2 d 5) as [x1 ?]; [lia|].
      destruct (lookup_lt_is_Some_2 d 6) as [x2 ?]; [lia|]. destruct (lookup_lt_is_Some_2 d 7) as [x3 ?]; [lia|]. cbn [Nat.add]. simplify_option_eq. by eexists. }
    rewrite Ecause. cbn [mbind option_bind set_event_cause upld_len set_upld_len event_body s1 set_next_id].
    set (body := if _ && _ then copy_to _ _ _ _ else _). assert (∃ l, body = Some l ∧ (MLAN_EVENT_HEADER_LEN < h < MLAN_EVENT_HEADER_LEN + MAX_EVENT_SIZE →
      take (Z.to_nat (h - MLAN_EVENT_HEADER_LEN)) l = take (Z.to_nat (h - MLAN_EVENT_HEADER_LEN)) (drop 8 d))) as (l & -> & Hl).
    { subst body. unfold MLAN_EVENT_HEADER_LEN, MAX_EVENT_SIZE. destruct (Z.ltb_spec 8 h); [|exists (event_body s); split; [done|lia]].
      rewrite (u_wrap_small 32 (h - 8)) by lia. destruct (Z.ltb_spec (h - 8) 3072); [|exists (event_body s); split; [done|lia]]. cbn [andb].
      unfold copy_to. rewrite Z.min_l, decide_True by (rewrite ?length_drop; lia). rewrite splice_0 by (rewrite length_take, length_drop; lia).
      eexists. split; [reflexivity|]. intros _. rewrite take_app_le by (rewrite length_take, length_drop; lia). by rewrite take_take, Nat.min_id. }
    cbn [mbind option_bind]. eexists _, (strip h fb). split; [reflexivity|].
    match goal with |- context [sleep_confirmed ?o ?x] => destruct (sleep_confirmed_same o x) as (_ & _ & _ & _ & -> & -> & -> & -> & ->) end.
    split; [exact Hs|]. split; [done|]. by repeat split.
Qed.
(** C7: In turn ports hold data packets, the interrupt reports them, and a transfer
    gives within its attempts what the ports its address names hold: then every
    packet is read once, from its own port, through whatever aggregates and
    in whatever mode, and is handed up, in the order of the ports, as the bytes
    behind its header; nothing is left waiting and the next port is in turn. *)
Theorem uploads_delivered_in_order (c : sdio_cfg) (e : rx_env) (pk : Z → list Z) (old : PS_STATE) (s : sdio_rx) (n : Z) :
  rx_cfg_ok c → card_gives c e pk → (∀ k, alloc e k = true) → rx_ready c s → 0 <= n <= max_ports c - start_wr_port c →
  let ports := port_at (start_wr_port c) (max_ports c) (curr_rd_port s) <$> seqZ 0 n in
  Forall (λ p, port_holds e (rx_buf_size (mpa_rx s)) p (pk p)) ports →
  ∃ s', upload_interrupt c e old (bits_of ports) s = Some (s', MLAN_STATUS_SUCCESS) ∧
    shown <$> handed_up s' = (shown <$> handed_up s) ++ (packet_body <$> (pk <$> ports)) ∧
    mp_rd_bitmap s' = 0 ∧ curr_rd_port s' = port_at (start_wr_port c) (max_ports c) (curr_rd_port s) n ∧ rx_ready c s'.
Proof.
  intros Hc Hg Hal Hs Hn ports Hall. change ports with (agg_ports c (max_ports c) (curr_rd_port s) n) in *. clear ports.
  pose proof (rc_cfg c Hc) as Hcc. apply (rx_ready_ok c e pk s Hcc) in Hs. assert (max_ports c <= 32) by (destruct (co_mode c Hcc); lia).
  assert (0 <= start_wr_port c) by (destruct (co_mode c Hcc); lia). rewrite <- (Z2Nat.id n) in * by lia.
  destruct (upload_loop_spec c e pk Hc Hg Hal (Z.to_nat n) (set_mp_rd_bitmap (bits_of (agg_ports c (max_ports c) (curr_rd_port s) (Z.of_nat (Z.to_nat n)))) s) [] [] 64)
    as (s' & E & Hok & Hgv & Hbm & Hcu & _); try done; [by apply (rx_ok_same c e pk s)|lia|lia|].
  unfold upload_interrupt. rewrite E. cbn [mbind option_bind]. change (failed MLAN_STATUS_SUCCESS) with false. cbv iota.
  exists (sleep_confirmed old s'). split; [done|]. unfold sleep_confirmed. case_match; (split; [exact Hgv|]; split; [done|]; split; [done|]);
    apply (rx_ready_ok c e pk _ Hcc); [by apply (rx_ok_same c e pk s')|done].
Qed.

(** C37: The packets packed into the blocks of one upload are handed to the handler
    in their order, whole; a remainder shorter than a block is ignored. *)
Theorem spa_packets_delivered (e : rx_env) (s : sdio_rx) (es : list (list Z * list Z)) (rest : list Z) :
  (∀ k, alloc e k = true) → 0 < sdio_rx_block_size s → es ≠ [] → Forall (λ x, spa_entry (sdio_rx_block_size s) x.1 x.2) es →
  Z.of_nat (length rest) < sdio_rx_block_size s → Z.of_nat (length (concat es.*1 ++ rest)) < 2 ^ 31 →
  ∃ s', wlan_decode_spa_buffer e (concat es.*1 ++ rest) (Z.of_nat (length (concat es.*1 ++ rest))) s = Some s' ∧
    shown <$> handled s' = (shown <$> handled s) ++ (Some <$> es.*2).
Proof.
  intros Hal Hbs Hne Hall Hrest H31. unfold wlan_decode_spa_buffer. rewrite s_wrap_small by lia.
  assert (length es <= length (concat es.*1 ++ rest))%nat as Hlen.
  { clear Hne H31. rewrite length_app. induction Hall as [|x es Hx Hall IH]; [cbn; lia|]. destruct Hx as [_ [H1 H2] _ _].
    unfold OFFSET_OF_SDIO_HEADER, SDIO_INTF_HEADER_LEN in *. cbn [fmap list_fmap concat length]. change (map fst es) with es.*1. rewrite length_app. lia. }
  assert (sdio_rx_block_size s <= Z.of_nat (length (concat es.*1 ++ rest))) as Hge.
  { destruct es as [|x es]; [done|]. inversion Hall as [|? ? [(k & _ & Hl) [_ H2] _ _] _]; subst. cbn [fmap list_fmap concat].
    unfold OFFSET_OF_SDIO_HEADER, SDIO_INTF_HEADER_LEN in *. rewrite !length_app. assert (1 <= k) by nia. nia. }
  rewrite (proj2 (Z.ltb_ge _ _)) by done. destruct (spa_loop_spec e rest es Hal (S (Z.to_nat (Z.of_nat (length (concat es.*1 ++ rest))))) s None) as (s' & E & Hg & _); try done; [lia|].
  by exists s'.
Qed.

(** ** A run *)

Definition demo_rxcfg : sdio_cfg := mk_cfg 32 true 0 0 0xffffffff 16 0x10000.
(** The packet of a port: 20 bytes with the header, from a block. *)
Definition demo_held (p : Z) : list Z := [20; 0; 0; 0] ++ replicate 252 p.
Definition demo_env : rx_env :=
  mk_env (λ addr len i, if (i =? 0)%nat then None else Some (concat (demo_held <$> addr_ports demo_rxcfg 32 addr)))
    (λ _, true) (λ _ _, PS_STATE_SLEEP) (λ _, 200) 0.
Definition demo_agg (bounce : option (list Z)) (size limit : Z) : sdio_mpa_rx :=
  mk_rx bounce 0 0 0 0 (replicate 16 None) (replicate 16 0) true size limit.
Definition demo_rx (t : sdio_mpa_rx) (curr : Z) : sdio_rx :=
  mk_srx 0 curr 32 t (replicate 16 0) (replicate 4096 0) 64 0 true false [] 0 false 0 false 0 false None false (replicate 3072 0)
    0 (replicate 3072 0) false None PS_STATE_AWAKE [] [] 0.
Definition demo_idle : sdio_rx := demo_rx (demo_agg None 1024 16) 30.

Lemma demo_rxcfg_ok : rx_cfg_ok demo_rxcfg.
Proof.
  constructor; [|done|].
  - constructor; [by left|by vm_compute].
  - intros p Hp. unfold bit. change (reg_data_port_mask demo_rxcfg) with (Z.ones 32). apply Z.ones_spec_low. exact Hp.
Defined.
Lemma demo_gives : card_gives demo_rxcfg demo_env demo_held.
Proof.
  intros addr. exists 1%nat. split; [unfold MAX_WRITE_IOMEM_RETRY; lia|]. split; [done|]. intros j Hj. by assert (j = 0)%nat as -> by lia.
Defined.
Lemma demo_holds p : port_holds demo_env 1024 p (demo_held p).
Proof.
  constructor; [done|by vm_compute|by vm_compute| |done]. exists 20. split; [done|]. split; [done|]. unfold demo_held. rewrite length_app, length_replicate. done.
Defined.
Lemma demo_idle_ready : rx_ready demo_rxcfg demo_idle.
Proof. by constructor. Defined.

Lemma uploads_delivered_in_order_witness : ∃ s',
  upload_interrupt demo_rxcfg demo_env PS_STATE_AWAKE (bits_of [30; 31; 0]) demo_idle = Some (s', MLAN_STATUS_SUCCESS) ∧
  shown <$> handed_up s' = (λ p, Some (replicate 16 p)) <$> [30; 31; 0] ∧ curr_rd_port s' = 1.
Proof.
  destruct (uploads_delivered_in_order demo_rxcfg demo_env demo_held PS_STATE_AWAKE demo_idle 3 demo_rxcfg_ok demo_gives (λ _, eq_refl) demo_idle_ready)
    as (s' & E & Hg & _ & Hcu & _); [done|by repeat constructor; apply demo_holds|].
  exists s'. split; [exact E|]. split; [exact Hg|exact Hcu].
Defined.

(** Two packets of four and five bytes, each in a block of 64. *)
Definition demo_block (len : Z) (x : list Z) : list Z := replicate 15 0 ++ [1] ++ replicate 12 0 ++ [len; 0; 0; 0] ++ x ++ replicate (32 - length x) 0.
Lemma spa_packets_delivered_witness : ∃ s',
  wlan_decode_spa_buffer demo_env (demo_block 8 [1; 2; 3; 4] ++ demo_block 9 [5; 6; 7; 8; 9] ++ [0; 0]) 130 demo_idle = Some s' ∧
  shown <$> handled s' = [Some [1; 2; 3; 4]; Some [5; 6; 7; 8; 9]].
Proof.
  destruct (spa_packets_delivered demo_env demo_idle [(demo_block 8 [1; 2; 3; 4], [1; 2; 3; 4]); (demo_block 9 [5; 6; 7; 8; 9], [5; 6; 7; 8; 9])] [0; 0])
    as (s' & E & Hg); [done|done|done| |done|done|by exists s'].
  repeat constructor; try done; try (by exists 1); cbn; lia.
Defined.

(** One packet, whatever is read. *)
Definition data_block (h type : Z) (n : nat) : list Z := [h mod 256; h / 256; type; 0] ++ replicate (n - 4) 7.
Definition fixed_env (d : list Z) (len : Z) : rx_env := mk_env (λ _ n _, if decide (Z.of_nat (length d) = n) then Some d else None) (λ _, true) (λ _ _, PS_STATE_SLEEP) (λ _, len) len.
Lemma cmd_port_delivers_witness : ∃ s' b, cmd_interrupt demo_rxcfg (fixed_env (data_block 20 MLAN_TYPE_EVENT 256) 20) demo_idle = Some (s', MLAN_STATUS_SUCCESS) ∧
  shown b = Some (replicate 16 7) ∧ event_buf s' = Some b.
Proof.
  destruct (cmd_port_delivers demo_rxcfg (fixed_env (data_block 20 MLAN_TYPE_EVENT 256) 20) demo_idle (data_block 20 MLAN_TYPE_EVENT 256) 20 MLAN_TYPE_EVENT)
    as (s' & b & E & Hs & _ & He & _); try done; [by right|]. exists s', b. by repeat split.
Defined.
