(* ===== verification/SdioRxSafe.v ===== *)
(** * mlan_sdio.c: receiving from an SDIO card, whatever it answers

    SdioRx shows what happens when the card keeps to its part.  Here it may not: any
    bytes, lengths, bitmaps and failures.  The buffers are followed through the
    interrupt, and concrete runs show what the code does not guard against. *)

From S2P Require Import Prelude UtilScalar CmdQueue SdioTx SdioRx.
#[local] Open Scope Z_scope.

(** ** Whatever the card answers *)

(** The bus gives as many bytes as asked for. *)
Definition card_bytes (e : rx_env) : Prop := ∀ addr len i d, io e addr len i = Some d →
  Z.of_nat (length d) = len ∧ Forall (λ x, 0 <= x < 256) d.
(** A buffer shows its own memory, or its [data_len] has wrapped. *)
Definition within (b : rbuf) : Prop := Z.of_nat (b_off b) + b_len b <= Z.of_nat (length (b_mem b)) ∨ 2 ^ 32 - SDIO_INTF_HEADER_LEN <= b_len b.

(** Buffers [bs] of [ls] bytes wait, in a bounce buffer's mode. *)
Record rx_wf (s : sdio_rx) (bs : list rbuf) (ls : list nat) : Prop := {
  wf_cnt : rx_pkt_cnt (mpa_rx s) = length bs;
  wf_bufs : Forall2 empty_for bs ls;
  wf_mbufs : take (length bs) (rx_mbufs (mpa_rx s)) = Some <$> bs;
  wf_lens : take (length bs) (rx_lens (mpa_rx s)) = Z.of_nat <$> ls;
  wf_min : Forall (λ n, 4 <= n)%nat ls;
  wf_len : rx_buf_len (mpa_rx s) = Z.of_nat (sum_list ls);
  wf_room : rx_buf_len (mpa_rx s) <= rx_buf_size (mpa_rx s) <= 65535;
  wf_bounce : ∃ m, rx_bounce (mpa_rx s) = Some m ∧ Z.of_nat (length m) = rx_buf_size (mpa_rx s);
  wf_bits : 0 <= rx_ports (mpa_rx s) < 2 ^ 32;
  wf_some : (length bs <= 16)%nat;
  wf_arr : length (rx_mbufs (mpa_rx s)) = 16%nat ∧ length (rx_lens (mpa_rx s)) = 16%nat ∧ length (mpa_rx_count s) = 16%nat;
  wf_work : rx_work_flag s = true
}.
(** The buffers [xs] went to the queue or back to the allocator. *)
Record took (s s' : sdio_rx) (xs : list Z) : Prop := {
  tk_ids : (b_id <$> rx_data_queue s') ++ freed s' ≡ₚ (b_id <$> rx_data_queue s) ++ freed s ++ xs;
  tk_in : Forall within (rx_data_queue s) → Forall within (rx_data_queue s');
  tk_work : rx_work_flag s' = rx_work_flag s;
  tk_next : next_id s' = next_id s;
  tk_set : rx_buf_size (mpa_rx s') = rx_buf_size (mpa_rx s) ∧ rx_aggr_limit (mpa_rx s') = rx_aggr_limit (mpa_rx s);
  tk_ring : mp_rd_bitmap s' = mp_rd_bitmap s ∧ curr_rd_port s' = curr_rd_port s
}.
Lemma took_trans s1 s2 s3 x y : took s1 s2 x → took s2 s3 y → took s1 s3 (x ++ y).
Proof.
  intros [I1 W1 K1 N1 [S1 L1] [B1 C1]] [I2 W2 K2 N2 [S2 L2] [B2 C2]]. constructor; try congruence; [|auto|split; congruence|split; congruence].
  rewrite I2, app_assoc, I1. by rewrite <- !app_assoc.
Qed.
Lemma took_nil s s' : rx_data_queue s' = rx_data_queue s → freed s' = freed s → rx_work_flag s' = rx_work_flag s → next_id s' = next_id s →
  rx_buf_size (mpa_rx s') = rx_buf_size (mpa_rx s) → rx_aggr_limit (mpa_rx s') = rx_aggr_limit (mpa_rx s) → mp_rd_bitmap s' = mp_rd_bitmap s → curr_rd_port s' = curr_rd_port s → took s s' [].
Proof. intros Hq Hf Hw Hn Hs Hl Hb Hc. constructor; try done; rewrite Hq; [|done]. by rewrite Hf, app_nil_r. Qed.
Lemma took_free s b : took s (wlan_free_mlan_buffer b s) [b_id b].
Proof. by constructor; try done. Qed.

Lemma le16_bytes (d : list Z) : (2 <= length d)%nat → Forall (λ x, 0 <= x < 256) d → ∃ h, le16 d = Some h ∧ 0 <= h < 65536.
Proof.
  destruct d as [|a [|b d]]; cbn [length]; try lia. intros _ H. inversion H as [|? ? Ha H']; subst. inversion H' as [|? ? Hb _]; subst.
  eexists. split; [reflexivity|]. lia.
Qed.
Lemma decode_took e b s h ty : rx_work_flag s = true → data_type ty = true → b_off b = 0%nat → 0 <= h <= Z.of_nat (length (b_mem b)) → h < 65536 →
  ∃ s', wlan_decode_rx_packet e b ty (set_upld_len h s) = Some s' ∧ took s s' [b_id b] ∧ same_agg s s'.
Proof.
  intros Hw Hty Ho Hh H16. unfold wlan_decode_rx_packet. unfold data_type in Hty. destruct (ty =? MLAN_TYPE_SPA_DATA) eqn:E1.
  - unfold decode_spa. cbn [rx_work_flag set_upld_len upld_len]. rewrite Hw. cbn [mbind option_bind]. eexists. split; [reflexivity|]. split; [|done].
    constructor; try done; cbn [enqueue_rx set_data_received set_rx_pkts_queued set_rx_data_queue set_upld_len rx_data_queue freed].
    + rewrite fmap_app. cbn [fmap list_fmap b_id]. rewrite <- app_assoc. f_equiv. apply Permutation_app_comm.
    + intros Hin. apply Forall_app. split; [done|]. constructor; [|done]. left. cbn [b_off b_len b_mem]. rewrite Ho. lia.
  - rewrite orb_false_r in Hty. rewrite Hty. eexists. split; [reflexivity|]. split; [|unfold decode_data; repeat case_match; done].
    unfold decode_data. cbn [upld_len set_upld_len]. destruct (Z.ltb_spec (b_len b) h).
    { change [b_id b] with ([] ++ [b_id b]). eapply took_trans; [|apply took_free]. by apply took_nil. }
    cbn [rx_work_flag set_upld_len]. rewrite Hw. destruct (rx_drop _).
    { change [b_id b] with ([] ++ [b_id b] ++ []). eapply took_trans; [|eapply took_trans; [apply took_free|]]; by apply took_nil. }
    constructor; try done; cbn [enqueue_rx set_data_received set_rx_pkts_queued set_rx_data_queue set_upld_len rx_data_queue freed].
    + rewrite fmap_app. cbn [fmap list_fmap b_id strip]. rewrite <- app_assoc. f_equiv. apply Permutation_app_comm.
    + intros Hin. apply Forall_app. split; [done|]. constructor; [|done]. unfold within, strip. cbn [b_off b_len b_mem]. rewrite Ho.
      unfold SDIO_INTF_HEADER_LEN. destruct (Z.le_gt_cases 4 h); [left; rewrite u_wrap_small by lia; lia|right].
      unfold u_wrap. rewrite <- (Z.mod_unique_pos (h - 4) (2 ^ 32) (-1) (h - 4 + 2 ^ 32)); lia.
Qed.

Lemma read_card_bytes e addr len d : card_bytes e → read_card e addr len = Some d → Z.of_nat (length d) = len ∧ Forall (λ x, 0 <= x < 256) d.
Proof.
  intros Hb. unfold read_card. generalize (S MAX_WRITE_IOMEM_RETRY) as fuel, 0%nat as i.
  induction fuel as [|fuel IH]; intros i; cbn [read_tries]; [done|]. destruct (io e addr len i) eqn:E; [|case_match; [done|apply IH]].
  intros [= <-]. by apply (Hb addr len i).
Qed.
Lemma card_to_host_safe e b n addr : card_bytes e → empty_for b n → (4 <= n)%nat → ∃ nb b' ty,
  wlan_sdio_card_to_host e b (Z.of_nat n) addr = Some (nb, b', ty) ∧ b_id b' = b_id b ∧
  (∀ t, ty = Some t → ∃ h, nb = Some h ∧ 0 <= h <= Z.of_nat n ∧ h < 65536 ∧ b_off b' = 0%nat ∧ length (b_mem b') = n).
Proof.
  intros Hcb Hb Hn. unfold wlan_sdio_card_to_host. pose proof Hb as (Ho & Hm & Hl & Hs). rewrite Hl.
  destruct (read_card e addr (Z.of_nat n)) as [d|] eqn:E; [|by exists None, b, None].
  destruct (read_card_bytes e addr _ d Hcb E) as [Hd Hby]. assert (length d = n) as Hdn by lia. rewrite <- Hdn in Hb. rewrite (fill_exact b d Hb). cbn [mbind option_bind b_off b_mem].
  destruct (le16_bytes d) as (h & Hh & H16); [lia|done|]. change (drop 0 d) with d. rewrite Hh. cbn [mbind option_bind Nat.add].
  destruct (le16_bytes (drop 2 d)) as (t & Ht & _); [rewrite length_drop; lia|by apply Forall_drop|]. rewrite Ht. cbn [mbind option_bind].
  do 3 eexists. split; [reflexivity|]. split; [done|]. intros t'. destruct (Z.ltb_spec (Z.of_nat n) h); [done|]. intros _. exists h. cbn [b_off b_mem]. repeat split; lia || done.
Qed.

Section safe.
Context (c : sdio_cfg) (e : rx_env) (Hc : cfg_ok c) (Hnew : new_mode c = true) (Hcb : card_bytes e).

Lemma rx_packets_wf s bs ls : rx_wf s bs ls → rx_packets (mpa_rx s) = Some (zip bs (Z.of_nat <$> ls)).
Proof.
  intros Hr. unfold rx_packets. rewrite (wf_cnt _ _ _ Hr), (wf_mbufs _ _ _ Hr), (wf_lens _ _ _ Hr), mapM_id_Some. cbn [mbind option_bind].
  pose proof (Forall2_length _ _ _ (wf_bufs _ _ _ Hr)). rewrite decide_True; [done|]. rewrite length_zip, length_fmap. lia.
Qed.
Lemma wf_reset s s' xs bs ls : rx_wf s bs ls → took s s' xs → rx_lens (mpa_rx s') = rx_lens (mpa_rx s) → rx_mbufs (mpa_rx s') = rx_mbufs (mpa_rx s) →
  length (mpa_rx_count s') = 16%nat → (∃ m, rx_bounce (mpa_rx s') = Some m ∧ Z.of_nat (length m) = rx_buf_size (mpa_rx s')) →
  rx_wf (on_rx MP_RX_AGGR_BUF_RESET s') [] [] ∧ took s (on_rx MP_RX_AGGR_BUF_RESET s') xs.
Proof.
  intros Hr Ht El Em Ec Hb. destruct (tk_set _ _ _ Ht) as [Es _]. pose proof (wf_room _ _ _ Hr). pose proof (wf_len _ _ _ Hr). split.
  - constructor; try done; cbn [on_rx set_mpa_rx mpa_rx MP_RX_AGGR_BUF_RESET rx_buf_len rx_buf_size rx_mbufs rx_lens mpa_rx_count rx_work_flag length]; try lia.
    + by rewrite El, Em, Ec; destruct (wf_arr _ _ _ Hr) as (? & ? & _).
    + rewrite (tk_work _ _ _ Ht). apply Hr.
  - rewrite <- (app_nil_r xs). eapply took_trans; [exact Ht|]. by apply took_nil.
Qed.

Lemma decode_bounced_safe bs ls curr s : Forall2 empty_for bs ls → Forall (λ n, 4 <= n)%nat ls → (sum_list ls <= length curr)%nat →
  Forall (λ x, 0 <= x < 256) (take (sum_list ls) curr) → rx_work_flag s = true →
  ∃ s', decode_bounced e (zip bs (Z.of_nat <$> ls)) curr s = Some s' ∧ took s s' (b_id <$> bs) ∧ same_agg s s'.
Proof.
  intros Hbs. revert curr s. induction Hbs as [|b n bs ls Hb Hbs IH]; intros curr s Hmin Hlen Hby Hw.
  { exists s. split; [done|]. split; [by apply took_nil|done]. }
  inversion Hmin as [|? ? Hn Hmin']; subst. cbn [fmap list_fmap zip zip_with decode_bounced] in *. change (sum_list (n :: ls)) with (n + sum_list ls)%nat in *.
  rewrite <- take_take_drop, Forall_app in Hby. destruct Hby as [Hby1 Hby2]. rewrite <- (take_drop n curr).
  set (d := take n curr) in *. set (tl := drop n curr) in *. assert (length d = n) as Hdl by (unfold d; rewrite length_take; lia).
  assert (length tl = length curr - n)%nat as Htl by (unfold tl; apply length_drop).
  destruct (le16_bytes d) as (h & Hh & H16); [lia|done|]. rewrite (le16_app _ tl _ Hh). cbn [mbind option_bind].
  destruct (le16_bytes (drop 2 d)) as (ty & Ht & _); [rewrite length_drop; lia|by apply Forall_drop|].
  rewrite (drop_app_le d tl 2), (le16_app _ tl _ Ht) by lia. cbn [mbind option_bind].
  assert (∃ s1, (if data_type ty && (h <=? Z.of_nat n) then
      if decide (h <= Z.of_nat (length (d ++ tl))) then b0 ← fill (take (Z.to_nat h) (d ++ tl)) b; wlan_decode_rx_packet e b0 ty (set_upld_len h s) else None
    else Some (wlan_free_mlan_buffer b s)) = Some s1 ∧ took s s1 [b_id b] ∧ same_agg s s1) as (s1 & -> & Ht1 & Hs1 & Hs2).
  { destruct (data_type ty && (h <=? Z.of_nat n)) eqn:Eok; [|eexists; split; [reflexivity|]; split; [apply took_free|done]].
    apply andb_true_iff in Eok as [Hty Hle%Z.leb_le]. rewrite decide_True by (rewrite length_app; lia). rewrite take_app_le by lia.
    pose proof Hb as (Ho & Hm & Hl & Hsp). unfold fill. rewrite Ho, splice_0 by (rewrite length_take; lia). cbn [mbind option_bind].
    apply (decode_took e (mk_rbuf _ _ _ _ _)); [done|done|done| |lia]. cbn [b_mem]. rewrite length_app, length_drop, length_take. lia. }
  cbn [mbind option_bind]. rewrite Nat2Z.id. rewrite (drop_app_length' d tl n) by done.
  destruct (IH tl s1 Hmin' ltac:(lia) Hby2) as (s2 & E2 & Ht2 & Hs3 & Hs4); [by rewrite (tk_work _ _ _ Ht1)|].
  exists s2. split; [exact E2|]. split; [|by split; etrans]. change (b_id b :: (b_id <$> bs)) with ([b_id b] ++ (b_id <$> bs)). by eapply took_trans.
Qed.

Lemma receive_safe s bs ls : rx_wf s bs ls → bs ≠ [] → ∃ s' ret, wlan_receive_mp_aggr_buf c e s = Some (s', ret) ∧
  (rx_wf s' [] [] ∧ took s s' (b_id <$> bs) ∧ (ret = MLAN_STATUS_SUCCESS ∨ ret = MLAN_STATUS_FAILURE) ∨ s' = s ∧ ret = MLAN_STATUS_FAILURE).
Proof using Hcb Hnew.
  intros Hr Hne. unfold wlan_receive_mp_aggr_buf. rewrite (wf_cnt _ _ _ Hr). pose proof (wf_some _ _ _ Hr) as H16. destruct (wf_arr _ _ _ Hr) as (Ha1 & Ha2 & Ha3).
  pose proof (wf_room _ _ _ Hr) as Hroom. pose proof (wf_len _ _ _ Hr) as Hlen. pose proof (Forall2_length _ _ _ (wf_bufs _ _ _ Hr)) as Hll.
  destruct (length bs =? 1)%nat eqn:E1.
  - apply Nat.eqb_eq in E1. destruct bs as [|b [|]]; try done. destruct ls as [|n [|]]; try done.
    pose proof (wf_mbufs _ _ _ Hr) as Hmb. pose proof (wf_lens _ _ _ Hr) as Hln. pose proof (Forall_inv (wf_min _ _ _ Hr)) as Hn4.
    pose proof (wf_bufs _ _ _ Hr) as Hbs. inversion Hbs as [|? ? ? ? Hb _]; subst. cbn [length sum_list] in *.
    unfold wlan_receive_single_packet. destruct (rx_mbufs (mpa_rx s)) as [|ob mb] eqn:Emb; [done|]. injection Hmb as ->.
    destruct (rx_lens (mpa_rx s)) as [|n0 ln] eqn:Eln; [done|]. injection Hln as ->. change ((Some b :: mb) !! 0%nat) with (Some (Some b)).
    change ((Z.of_nat n :: ln) !! 0%nat) with (Some (Z.of_nat n)). cbn [mbind option_bind]. cbn in Hn4. rewrite (u_wrap_small 16) by (cbn in Hlen; lia).
    destruct (card_to_host_safe e b n (u32 (ioport c + u8 (rx_start_port (mpa_rx s)))) Hcb Hb Hn4) as (nb & b' & ty & -> & Hid & Hty). cbn [mbind option_bind].
    assert (∀ s1 ret, took s s1 [b_id b] → mpa_rx s1 = mpa_rx s → length (mpa_rx_count s1) = 16%nat → (ret = MLAN_STATUS_SUCCESS ∨ ret = MLAN_STATUS_FAILURE) → ∃ s' ret',
      Some (on_rx MP_RX_AGGR_BUF_RESET s1, ret) = Some (s', ret') ∧ (rx_wf s' [] [] ∧ took s s' [b_id b] ∧ (ret' = MLAN_STATUS_SUCCESS ∨ ret' = MLAN_STATUS_FAILURE) ∨ s' = s ∧ ret' = MLAN_STATUS_FAILURE)) as Hfin.
    { intros s1 ret Ht Em Ec Hret. do 2 eexists. split; [reflexivity|]. left. destruct (wf_reset s s1 [b_id b] [b] [n] Hr Ht) as [Hw Ht']; rewrite ?Em; try done. by apply Hr. }
    assert (took s (wlan_free_mlan_buffer b' (note_len nb s)) [b_id b]) as Hfree.
    { rewrite <- Hid. change [b_id b'] with ([] ++ [b_id b']). eapply took_trans; [|apply took_free]. destruct nb; by apply took_nil. }
    assert (mpa_rx (note_len nb s) = mpa_rx s ∧ mpa_rx_count (note_len nb s) = mpa_rx_count s) as [En1 En2] by by destruct nb.
    destruct ty as [ty|]; [|cbn [mbind option_bind]; apply Hfin; [done|by rewrite <- En1|by rewrite <- En2 in Ha3|by right]].
    destruct (data_type ty) eqn:Edt; [|cbn [mbind option_bind]; apply Hfin; [done|by rewrite <- En1|by rewrite <- En2 in Ha3|by right]].
    destruct (Hty ty eq_refl) as (h & -> & Hh & H65 & Ho & Hm). cbn [note_len].
    destruct (bump_count_spec 0 (set_upld_len h s)) as (l & -> & Hl16); [done|lia|]. cbn [mbind option_bind].
    destruct (decode_took e b' (set_mpa_rx_count l s) h ty) as (s1 & E & Ht & Hs1 & Hs2); try done; [apply Hr|lia|].
    change (set_mpa_rx_count l (set_upld_len h s)) with (set_upld_len h (set_mpa_rx_count l s)). rewrite E. cbn [mbind option_bind].
    apply Hfin; [|by rewrite Hs1|by rewrite Hs2|by left]. rewrite <- Hid. change [b_id b'] with ([] ++ [b_id b']). eapply took_trans; [|exact Ht]. by apply took_nil.
  - rewrite (rx_packets_wf s bs ls Hr). cbn [mbind option_bind]. unfold rx_addr. rewrite Hnew, bitcount_correct by apply Hr. cbn [mbind option_bind].
    destruct (read_card e _ (rx_buf_len (mpa_rx s))) as [d|] eqn:Ed; [|do 2 eexists; split; [reflexivity|by right]].
    destruct (read_card_bytes e _ _ d Hcb Ed) as [Hd Hby]. destruct (wf_bounce _ _ _ Hr) as (m & Em & Hm). rewrite Em, splice_0 by lia. cbn [mbind option_bind].
    set (m' := d ++ drop (length d) m). assert (length d = sum_list ls) as Hdl by lia.
    destruct (decode_bounced_safe bs ls m' (on_rx (set_rx_bounce (Some m')) s)) as (s1 & -> & Ht & Hs1 & Hs2); [apply Hr|apply Hr|unfold m'; rewrite length_app; lia| |apply Hr|].
    { unfold m'. rewrite take_app_le, take_ge by lia. exact Hby. }
    cbn [mbind option_bind]. destruct (bump_count_spec (length bs - 1) s1) as (l & -> & Hl16); [by rewrite Hs2|lia|]. cbn [mbind option_bind].
    do 2 eexists. split; [reflexivity|]. left. assert (took s (set_mpa_rx_count l s1) (b_id <$> bs)) as Ht2.
    { rewrite <- (app_nil_l (b_id <$> bs)). eapply took_trans; [|rewrite <- (app_nil_r (b_id <$> bs)); eapply took_trans; [exact Ht|]]; by apply took_nil. }
    destruct (wf_reset s (set_mpa_rx_count l s1) _ bs ls Hr Ht2) as [Hw Ht3]; try done; cbn [set_mpa_rx_count mpa_rx mpa_rx_count]; rewrite ?Hs1; try done.
    + exists m'. split; [done|]. cbn. unfold m'. rewrite length_app, length_drop. lia.
    + split; [done|]. split; [done|by left].
Qed.

Lemma rx_failed_safe s bs ls (cur : option rbuf) : rx_wf s bs ls → ∃ s', rx_failed cur s = Some (s', MLAN_STATUS_FAILURE) ∧ rx_wf s' [] [] ∧
  took s s' ((b_id <$> bs) ++ match cur with Some b => [b_id b] | None => [] end).
Proof.
  intros Hr. unfold rx_failed. assert (∃ s1, (if rx_in_progress s then l ← rx_packets (mpa_rx s);
      Some (on_rx MP_RX_AGGR_BUF_RESET (foldl (λ s b, wlan_free_mlan_buffer b s) s l.*1)) else Some s) = Some s1 ∧ rx_wf s1 [] [] ∧ took s s1 (b_id <$> bs)) as (s1 & -> & Hw1 & Ht1).
  { unfold rx_in_progress. rewrite (wf_cnt _ _ _ Hr). pose proof (Forall2_length _ _ _ (wf_bufs _ _ _ Hr)) as Hll. destruct bs as [|b bs].
    { destruct ls; [|done]. exists s. split; [done|]. split; [done|]. by apply took_nil. }
    cbn [length Nat.ltb Nat.leb]. rewrite (rx_packets_wf s _ _ Hr). cbn [mbind option_bind]. rewrite fst_zip by (rewrite length_fmap; lia).
    eexists. split; [reflexivity|]. assert (∀ l s0, took s0 (foldl (λ s b, wlan_free_mlan_buffer b s) s0 l) (b_id <$> l) ∧
      same_agg s0 (foldl (λ s b, wlan_free_mlan_buffer b s) s0 l)) as Hfold.
    { induction l as [|x l IH]; intros s0; cbn [foldl]; [split; [by apply took_nil|done]|]. destruct (IH (wlan_free_mlan_buffer x s0)) as [Ht [H1 H2]].
      split; [|by split]. change (b_id <$> x :: l) with ([b_id x] ++ (b_id <$> l)). eapply took_trans; [apply took_free|exact Ht]. }
    destruct (Hfold (b :: bs) s) as [Ht [H1 H2]]. apply (wf_reset s _ _ _ _ Hr Ht); rewrite ?H1, ?H2; try done; apply Hr. }
  cbn [mbind option_bind]. eexists. split; [reflexivity|]. destruct cur as [b|].
  - split; [by destruct Hw1; constructor|]. eapply took_trans; [exact Ht1|apply took_free].
  - split; [done|]. by rewrite app_nil_r.
Qed.
End safe.

Section safe_packet.
Context (c : sdio_cfg) (e : rx_env) (Hc : cfg_ok c) (Hnew : new_mode c = true) (Hcb : card_bytes e).

(** Where the waiting buffers and the new one are after a call; at most one is lost,
    in a failing call. *)
Record kept (s s' : sdio_rx) (ret : mlan_status) (ids : list Z) : Prop := {
  kp_at : ∃ bs ls xs lost, rx_wf s' bs ls ∧ Z.of_nat (length bs) < rx_aggr_limit (mpa_rx s') ∧ took s s' xs ∧ ids ≡ₚ xs ++ (b_id <$> bs) ++ lost ∧
    (ret = MLAN_STATUS_SUCCESS ∧ lost = [] ∨ ret = MLAN_STATUS_FAILURE ∧ (length lost <= 1)%nat)
}.
Lemma wf_note s bs ls nb : rx_wf s bs ls → rx_wf (note_len nb s) bs ls ∧ took s (note_len nb s) [].
Proof. intros []. destruct nb; (split; [by constructor|by apply took_nil]). Qed.
Lemma wf_count s bs ls : rx_wf s bs ls → ∃ s1, bump_count 0 s = Some s1 ∧ rx_wf s1 bs ls ∧ took s s1 [].
Proof.
  intros Hr. destruct (wf_arr _ _ _ Hr) as (? & ? & H3). destruct (bump_count_spec 0 s H3 ltac:(lia)) as (l & -> & Hl). eexists. split; [reflexivity|].
  split; [by destruct Hr; constructor|by apply took_nil].
Qed.
Lemma wf_same s s' bs ls xs : rx_wf s bs ls → same_agg s s' → took s s' xs → rx_wf s' bs ls.
Proof. intros [] [Em Ec] Ht. constructor; rewrite ?Em, ?Ec; try done. by rewrite (tk_work _ _ _ Ht). Qed.

Lemma receive_kept s bs ls : rx_wf s bs ls → bs ≠ [] → ∃ s' ret bs' ls' xs, wlan_receive_mp_aggr_buf c e s = Some (s', ret) ∧ rx_wf s' bs' ls' ∧ took s s' xs ∧
  b_id <$> bs = xs ++ (b_id <$> bs') ∧ (ret = MLAN_STATUS_SUCCESS ∧ bs' = [] ∨ ret = MLAN_STATUS_FAILURE).
Proof using Hcb Hnew.
  intros Hr Hne. destruct (receive_safe c e Hnew Hcb s bs ls Hr Hne) as (s' & ret & -> & [(Hw & Ht & Hret)|[-> ->]]).
  - exists s', ret, [], [], (b_id <$> bs). do 3 (split; [done|]). split; [by rewrite app_nil_r|]. destruct Hret as [Hret|Hret]; rewrite Hret; [by left|by right].
  - exists s, MLAN_STATUS_FAILURE, bs, ls, []. do 2 (split; [done|]). split; [by apply took_nil|]. split; [done|by right].
Qed.
Lemma rx_put_safe s bs ls b n p : rx_wf s bs ls → empty_for b n → (4 <= n)%nat → (length bs < 16)%nat →
  rx_buf_len (mpa_rx s) + Z.of_nat n <= rx_buf_size (mpa_rx s) →
  ∃ s1, rx_put c b p (Z.of_nat n) s = Some s1 ∧ rx_wf s1 (bs ++ [b]) (ls ++ [n]) ∧ took s s1 [].
Proof.
  intros Hr Hb Hn H16 Hroom. destruct (wf_arr _ _ _ Hr) as (Ha1 & Ha2 & Ha3). pose proof (wf_len _ _ _ Hr) as Hlen. pose proof (wf_room _ _ _ Hr) as Hrm.
  pose proof (Forall2_length _ _ _ (wf_bufs _ _ _ Hr)) as Hll. pose proof (wf_cnt _ _ _ Hr) as Hcnt.
  destruct (put_take (Some b) (rx_mbufs (mpa_rx s)) (length bs)) as (mb & Emb & Hmbl & Hmbt); [lia|].
  destruct (put_take (Z.of_nat n) (rx_lens (mpa_rx s)) (length bs)) as (ln & Eln & Hlnl & Hlnt); [lia|].
  unfold rx_put. rewrite Hcnt, Emb. cbn [mbind option_bind]. rewrite Eln. cbn [mbind option_bind]. eexists. split; [reflexivity|].
  split; [|by apply took_nil]. assert (length (bs ++ [b]) = S (length bs)) as Hbl by (rewrite length_app; cbn; lia).
  constructor; cbn [set_mpa_rx mpa_rx rx_pkt_cnt rx_mbufs rx_lens rx_buf_len rx_buf_size rx_bounce rx_ports mpa_rx_count rx_work_flag]; try apply Hr.
  - by rewrite Hbl.
  - apply Forall2_app; [apply Hr|by constructor].
  - by rewrite Hbl, Hmbt, fmap_app, (wf_mbufs _ _ _ Hr).
  - by rewrite Hbl, Hlnt, fmap_app, (wf_lens _ _ _ Hr).
  - apply Forall_app. split; [apply Hr|by constructor].
  - rewrite u_wrap_small by lia. rewrite sum_list_with_app in *. cbn. lia.
  - rewrite u_wrap_small by lia. lia.
  - pose proof (wf_bits _ _ _ Hr) as Hbt. match goal with |- context [u32 ?x] => pose proof (u_wrap_range 32 x ltac:(lia)) as Hu; set (y := u32 x) in * end.
    assert (Z.lor (rx_ports (mpa_rx s)) y = Z.land (Z.lor (rx_ports (mpa_rx s)) y) (Z.ones 32)) as ->.
    { rewrite Z.land_lor_distr_l, !Z.land_ones, !Z.mod_small by lia. done. }
    rewrite Z.land_ones by lia. apply Z.mod_pos_bound. lia.
  - lia.
  - by rewrite Hmbl, Hlnl.
Qed.

(** The packet alone: read and handed on, or still in the caller's hands. *)
Lemma rx_single_safe s bs ls b n p : rx_wf s bs ls → empty_for b n → (4 <= n)%nat →
  ∃ s' b' ret, rx_single c e b p (Z.of_nat n) s = Some (s', b', ret) ∧ rx_wf s' bs ls ∧ b_id b' = b_id b ∧
    (ret = MLAN_STATUS_SUCCESS ∧ took s s' [b_id b] ∨ ret = MLAN_STATUS_FAILURE ∧ took s s' []).
Proof using Hcb Hnew.
  intros Hr Hb Hn. unfold rx_single. destruct (card_to_host_safe e b n (u32 (ioport c + p)) Hcb Hb Hn) as (nb & b' & ty & -> & Hid & Hty).
  cbn [mbind option_bind]. destruct (wf_note s bs ls nb Hr) as [Hr1 Ht1].
  destruct ty as [ty|]; [|do 3 eexists; split; [reflexivity|]; split; [done|]; split; [done|by right]].
  unfold type_ok. rewrite Hnew. cbn [negb andb orb]. destruct (data_type ty) eqn:Edt; [|do 3 eexists; split; [reflexivity|]; split; [done|]; split; [done|by right]].
  destruct (Hty ty eq_refl) as (h & -> & Hh & H65 & Ho & Hm). cbn [note_len] in *. destruct (wf_count _ bs ls Hr) as (s2 & E2 & Hr2 & Ht2).
  assert (bump_count 0 (set_upld_len h s) = Some (set_upld_len h s2)) as ->.
  { unfold bump_count in E2 |- *. cbn [set_upld_len mpa_rx_count]. destruct (mpa_rx_count s !! 0%nat); [|done]. cbn [mbind option_bind] in *.
    destruct (put _ _ _); [|done]. cbn [mbind option_bind] in *. by injection E2 as <-. }
  cbn [mbind option_bind]. destruct (decode_took e b' s2 h ty) as (s3 & -> & Ht3 & Hs3); try done; [apply Hr2|lia|]. cbn [mbind option_bind].
  do 3 eexists. split; [reflexivity|]. split; [by apply (wf_same s2 s3 bs ls [b_id b'])|]. split; [done|left]. split; [done|].
  rewrite <- Hid. change [b_id b'] with ([] ++ [b_id b']). by eapply took_trans.
Qed.

Lemma single_kept s0 s bs ls b n p xs : rx_wf s bs ls → took s0 s xs → Z.of_nat (length bs) < rx_aggr_limit (mpa_rx s) → empty_for b n → (4 <= n)%nat →
  ∃ s' ret, ('(s, b, ret) ← rx_single c e b p (Z.of_nat n) s; if failed ret then rx_failed (Some b) s else Some (s, ret)) = Some (s', ret) ∧
    kept s0 s' ret (xs ++ (b_id <$> bs) ++ [b_id b]).
Proof using Hcb Hnew.
  intros Hr Ht0 Hlim Hb Hn. destruct (rx_single_safe s bs ls b n p Hr Hb Hn) as (s1 & b1 & ret & -> & Hr1 & Hid & [[-> Ht]|[-> Ht]]); cbn [mbind option_bind].
  - do 2 eexists. split; [reflexivity|]. destruct (tk_set _ _ _ Ht) as [_ El]. constructor. exists bs, ls, (xs ++ [b_id b]), []. rewrite El.
    do 2 (split; [done|]). split; [by eapply took_trans|]. split; [|by left]. rewrite app_nil_r, <- app_assoc. f_equiv. apply Permutation_app_comm.
  - destruct (rx_failed_safe s1 bs ls (Some b1) Hr1) as (s2 & E2 & Hr2 & Ht2). change (failed MLAN_STATUS_FAILURE) with true. cbv iota. rewrite E2.
    do 2 eexists. split; [reflexivity|]. pose proof (took_trans _ _ _ _ _ Ht0 (took_trans _ _ _ _ _ Ht Ht2)) as Ht3. destruct (tk_set _ _ _ (took_trans _ _ _ _ _ Ht Ht2)) as [_ El].
    constructor. exists [], [], (xs ++ [] ++ (b_id <$> bs) ++ [b_id b1]), []. split; [exact Hr2|]. rewrite El. split; [cbn; lia|]. split; [exact Ht3|]. split; [|right; split; [done|cbn; lia]].
    cbn [fmap list_fmap app]. by rewrite app_nil_r, Hid.
Qed.
(** A failed read of the aggregate: what waited is given back, and with it [cur]. *)
Lemma failed_kept s0 s bs ls (cur : option rbuf) b xs : rx_wf s bs ls → took s0 s xs → 1 <= rx_aggr_limit (mpa_rx s) → (∀ b', cur = Some b' → b' = b) →
  ∃ s', rx_failed cur s = Some (s', MLAN_STATUS_FAILURE) ∧ kept s0 s' MLAN_STATUS_FAILURE (xs ++ (b_id <$> bs) ++ [b_id b]).
Proof.
  intros Hr Ht0 Hlim Hcur. destruct (rx_failed_safe s bs ls cur Hr) as (s' & -> & Hr' & Ht'). exists s'. split; [done|]. destruct (tk_set _ _ _ Ht') as [_ El].
  constructor. destruct cur as [b'|].
  - rewrite (Hcur b' eq_refl) in Ht'. exists [], [], (xs ++ (b_id <$> bs) ++ [b_id b]), []. rewrite El. split; [done|]. split; [cbn; lia|].
    split; [by eapply took_trans|]. split; [by rewrite app_nil_r|right; split; [done|cbn; lia]].
  - rewrite app_nil_r in Ht'. exists [], [], (xs ++ (b_id <$> bs)), [b_id b]. rewrite El. split; [done|]. split; [cbn; lia|]. split; [by eapply took_trans|].
    split; [by rewrite <- app_assoc|]. right. split; [done|cbn; lia].
Qed.
End safe_packet.

Section safe_upload.
Context (c : sdio_cfg) (e : rx_env) (Hc : cfg_ok c) (Hnew : new_mode c = true) (Hcb : card_bytes e).

Lemma collect_kept s bs ls b n p flush : rx_wf s bs ls → Z.of_nat (length bs) < rx_aggr_limit (mpa_rx s) <= 16 → empty_for b n → (4 <= n)%nat →
  rx_buf_len (mpa_rx s) + Z.of_nat n <= rx_buf_size (mpa_rx s) →
  ∃ s1, rx_put c b p (Z.of_nat n) s = Some s1 ∧ let aggr := flush || (rx_pkt_limit_reached s1 || rx_port_limit_reached c s1) in
  ∃ s2 ret, (if aggr then wlan_receive_mp_aggr_buf c e s1 else Some (s1, MLAN_STATUS_SUCCESS)) = Some (s2, ret) ∧
    (if failed ret then ∃ s', rx_failed None s2 = Some (s', MLAN_STATUS_FAILURE) ∧ kept s s' MLAN_STATUS_FAILURE ((b_id <$> bs) ++ [b_id b])
     else ret = MLAN_STATUS_SUCCESS ∧ kept s s2 ret ((b_id <$> bs) ++ [b_id b])).
Proof using Hcb Hnew.
  intros Hr Hlim Hb Hn Hroom. destruct (rx_put_safe c s bs ls b n p Hr Hb Hn ltac:(lia) Hroom) as (s1 & -> & Hr1 & Ht1). exists s1. split; [done|].
  destruct (tk_set _ _ _ Ht1) as [_ El]. cbv zeta. destruct (flush || _) eqn:Ef.
  - destruct (receive_kept c e Hnew Hcb s1 _ _ Hr1) as (s2 & ret & bs' & ls' & xs & -> & Hr2 & Ht2 & Hids & Hret); [by destruct bs|].
    pose proof (took_trans _ _ _ _ _ Ht1 Ht2) as Ht. destruct (tk_set _ _ _ Ht) as [_ El2]. cbn [app] in Ht. rewrite fmap_app in Hids. cbn [fmap list_fmap] in Hids.
    exists s2, ret. split; [done|]. destruct Hret as [[-> ->]| ->].
    + change (failed MLAN_STATUS_SUCCESS) with false. split; [done|]. constructor. exists [], ls', xs, []. split; [done|]. rewrite El2. split; [cbn; lia|].
      split; [done|]. split; [|by left]. rewrite Hids. cbn. by rewrite !app_nil_r.
    + change (failed MLAN_STATUS_FAILURE) with true. destruct (rx_failed_safe s2 bs' ls' None Hr2) as (s3 & E3 & Hr3 & Ht3). exists s3. split; [done|].
      pose proof (took_trans _ _ _ _ _ Ht Ht3) as Ht4. destruct (tk_set _ _ _ Ht4) as [_ El4]. constructor. exists [], [], (xs ++ (b_id <$> bs') ++ []), []. split; [done|]. rewrite El4.
      split; [cbn; lia|]. split; [done|]. split; [|right; split; [done|cbn; lia]]. by rewrite !app_nil_r, Hids.
  - exists s1, MLAN_STATUS_SUCCESS. split; [done|]. change (failed MLAN_STATUS_SUCCESS) with false. split; [done|]. constructor. exists (bs ++ [b]), (ls ++ [n]), [], [].
    apply orb_false_iff in Ef as [_ [Hl _]%orb_false_iff]. unfold rx_pkt_limit_reached in Hl. apply Z.eqb_neq in Hl. rewrite (wf_cnt _ _ _ Hr1), El in Hl. rewrite El.
    split; [done|]. split; [rewrite length_app in *; cbn in *; lia|]. split; [done|]. split; [|by left]. by rewrite app_nil_r, fmap_app.
Qed.

Lemma mp_aggr_kept s bs ls b n p : rx_wf s bs ls → Z.of_nat (length bs) < rx_aggr_limit (mpa_rx s) <= 16 → empty_for b n → (4 <= n)%nat →
  Z.of_nat n <= rx_buf_size (mpa_rx s) →
  ∃ s' ret, wlan_sdio_card_to_host_mp_aggr c e b p (Z.of_nat n) s = Some (s', ret) ∧ kept s s' ret ((b_id <$> bs) ++ [b_id b]).
Proof using Hcb Hnew.
  intros Hr Hlim Hb Hn Hsize. pose proof (wf_room _ _ _ Hr) as Hroom. pose proof (wf_len _ _ _ Hr) as Hlen.
  assert (rx_has_room s (Z.of_nat n) = bool_decide (rx_buf_len (mpa_rx s) + Z.of_nat n <= rx_buf_size (mpa_rx s))) as Hhr.
  { unfold rx_has_room. rewrite u_wrap_small by lia. case_bool_decide; lia. }
  assert (∀ x, rx_in_progress s = x → if x then bs ≠ [] else bs = []) as Hip.
  { intros x <-. unfold rx_in_progress. rewrite (wf_cnt _ _ _ Hr). by destruct bs. }
  destruct (single_kept c e Hnew Hcb s s bs ls b n p [] Hr) as (ss & sret & Es & Hs); [by apply took_nil|lia|done|done|]. cbn [app] in Hs.
  unfold wlan_sdio_card_to_host_mp_aggr, plan_rx. rewrite Hnew. cbn [negb andb orb]. rewrite Hhr.
  destruct (rx_enabled (mpa_rx s)); cbn [negb]; [|exists ss, sret; by split].
  assert (∀ f, bool_decide (rx_buf_len (mpa_rx s) + Z.of_nat n <= rx_buf_size (mpa_rx s)) = true → ∃ s' ret,
    ('(s, aggr) ← (s1 ← rx_put c b p (Z.of_nat n) s; Some (s1, f || (rx_pkt_limit_reached s1 || rx_port_limit_reached c s1)));
     '(s, ret) ← (if aggr : bool then wlan_receive_mp_aggr_buf c e s else Some (s, MLAN_STATUS_SUCCESS));
     if failed ret then rx_failed None s else s ← Some s; Some (s, ret)) = Some (s', ret) ∧ kept s s' ret ((b_id <$> bs) ++ [b_id b])) as Hcol.
  { intros f Hfit%bool_decide_eq_true. destruct (collect_kept s bs ls b n p f Hr Hlim Hb Hn Hfit) as (s1 & -> & s2 & ret & E2 & Hk). cbn [mbind option_bind]. rewrite E2.
    cbn [mbind option_bind]. destruct (failed ret); [destruct Hk as (s' & -> & Hk); by exists s', MLAN_STATUS_FAILURE|]. exists s2, ret. split; [done|apply Hk]. }
  destruct (more_pending c s).
  - destruct (rx_in_progress s && _) eqn:Ep; cbn [aggr_cur do_rx_aggr do_rx_cur post_aggr_cur].
    2: { apply Hcol. apply andb_false_iff in Ep as [Ep|Ep%negb_false_iff]; [|done]. pose proof (Hip false Ep) as ->. apply bool_decide_eq_true.
      pose proof (wf_bufs _ _ _ Hr) as Hn0. inversion Hn0; subst. cbn in Hlen. lia. }
    apply andb_true_iff in Ep as [Ep _]. pose proof (Hip true Ep) as Hne. cbn [mbind option_bind].
    destruct (receive_kept c e Hnew Hcb s bs ls Hr Hne) as (s1 & ret & bs' & ls' & xs & -> & Hr1 & Ht1 & Hids & Hret). cbn [mbind option_bind].
    destruct (tk_set _ _ _ Ht1) as [Es1 El1]. destruct Hret as [[-> ->]| ->].
    + change (failed MLAN_STATUS_SUCCESS) with false. cbv iota. pose proof (Forall2_length _ _ _ (wf_bufs _ _ _ Hr1)) as Hl0. destruct ls'; [|done].
      pose proof (wf_len _ _ _ Hr1) as Hlen1. cbn in Hlen1. destruct (rx_put_safe c s1 [] [] b n p Hr1 Hb Hn ltac:(cbn; lia) ltac:(lia)) as (s2 & -> & Hr2 & Ht2).
      cbn [mbind option_bind]. do 2 eexists. split; [reflexivity|]. pose proof (took_trans _ _ _ _ _ Ht1 Ht2) as Ht. destruct (tk_set _ _ _ Ht) as [_ El2]. rewrite app_nil_r in Ht.
      constructor. exists [b], [n], xs, []. split; [exact Hr2|]. rewrite El2. split; [destruct bs; [done|cbn [length] in *; lia]|]. split; [done|]. split; [|by left].
      by rewrite Hids, app_nil_r, app_nil_r.
    + change (failed MLAN_STATUS_FAILURE) with true. cbv iota. destruct (failed_kept s s1 bs' ls' None b xs Hr1 Ht1) as (s' & -> & Hk); [lia|done|].
      exists s', MLAN_STATUS_FAILURE. split; [done|]. by rewrite Hids, <- app_assoc.
  - destruct (rx_in_progress s) eqn:Ep; [|exists ss, sret; by split]. pose proof (Hip true eq_refl) as Hne.
    destruct (bool_decide (rx_buf_len (mpa_rx s) + Z.of_nat n <= rx_buf_size (mpa_rx s))) eqn:Efit; cbn [negb aggr_cur do_rx_aggr do_rx_cur post_aggr_cur]; [by apply (Hcol true)|].
    cbn [mbind option_bind]. destruct (receive_kept c e Hnew Hcb s bs ls Hr Hne) as (s1 & ret & bs' & ls' & xs & -> & Hr1 & Ht1 & Hids & Hret). cbn [mbind option_bind].
    destruct (tk_set _ _ _ Ht1) as [Es1 El1]. rewrite Hids, <- app_assoc. destruct Hret as [[-> ->]| ->].
    + change (failed MLAN_STATUS_SUCCESS) with false. cbv iota. apply (single_kept c e Hnew Hcb s s1 [] ls' b n p xs Hr1 Ht1); try done. rewrite El1. cbn. lia.
    + change (failed MLAN_STATUS_FAILURE) with true. cbv iota. destruct (failed_kept s s1 bs' ls' (Some b) b xs Hr1 Ht1) as (s' & -> & Hk); [lia|by intros ? [= ->]|].
      exists s', MLAN_STATUS_FAILURE. by split.
Qed.
End safe_upload.

(** Where the buffers are: in the queue, given back, waiting in the aggregate. *)
Definition buffers (s : sdio_rx) : list Z :=
  (b_id <$> rx_data_queue s) ++ freed s ++ (b_id <$> omap id (take (rx_pkt_cnt (mpa_rx s)) (rx_mbufs (mpa_rx s)))).
(** At rest, buffers of sizes in order waiting, fewer than the limit. *)
Definition rx_rest (s : sdio_rx) : Prop :=
  (∃ bs ls, rx_wf s bs ls ∧ Z.of_nat (length bs) < rx_aggr_limit (mpa_rx s)) ∧ rx_aggr_limit (mpa_rx s) <= 16 ∧ 0 <= curr_rd_port s < 32.
Lemma buffers_wf s bs ls : rx_wf s bs ls → buffers s = (b_id <$> rx_data_queue s) ++ freed s ++ (b_id <$> bs).
Proof.
  intros Hr. unfold buffers. rewrite (wf_cnt _ _ _ Hr), (wf_mbufs _ _ _ Hr). do 2 f_equal. clear Hr. induction bs as [|b bs IH]; [done|]. cbn. cbn in IH. by rewrite IH.
Qed.

(** The ports still reported. *)
Definition ports_left (x : Z) : list Z := filter (λ j, Z.testbit x j = true) (seqZ 0 32).
Lemma ports_left_clear p x : 0 <= p < 32 → bit x p = true → (length (ports_left (clear_bit p x)) < length (ports_left x))%nat.
Proof.
  intros Hp Hb. assert (ports_left (clear_bit p x) = filter (λ j, j ≠ p) (ports_left x)) as ->.
  { unfold ports_left. rewrite list_filter_filter. apply list_filter_iff'. intros j Hj%elem_of_seqZ. destruct (decide (j = p)) as [->|Hne].
    - unfold clear_bit. rewrite Z.land_spec. unfold u_wrap. rewrite Z.mod_pow2_bits_low, Z.lnot_spec, Z.shiftl_1_l, Z.pow2_bits_eqb, Z.eqb_refl, andb_false_r by lia.
      split; [done|]. by intros [? _].
    - pose proof (clear_other_bit x p j Hp ltac:(lia) ltac:(done)) as Hc. unfold bit in Hc. rewrite Hc. split; [by split|by intros [_ ?]]. }
  apply (length_filter_lt _ _ p); [|by intros H; apply H]. unfold ports_left. apply list_elem_of_filter. split; [exact Hb|]. apply elem_of_seqZ. lia.
Qed.

(** After some of the loop: the ledger of [s0] with the buffers allocated since, but
    for [lost]. *)
Record ledger (s0 s : sdio_rx) (lost : list Z) : Prop := {
  lg_rest : rx_rest s;
  lg_ids : buffers s ++ lost ≡ₚ buffers s0 ++ seqZ (next_id s0) (next_id s - next_id s0);
  lg_next : next_id s0 <= next_id s;
  lg_in : Forall within (rx_data_queue s0) → Forall within (rx_data_queue s)
}.
Lemma ledger_refl s0 : rx_rest s0 → ledger s0 s0 [].
Proof. intros H. constructor; [done| |lia|done]. rewrite Z.sub_diag, app_nil_r. cbn. by rewrite app_nil_r. Qed.

Section safe_loop.
Context (c : sdio_cfg) (e : rx_env) (Hc : rx_cfg_ok c) (Hnew : new_mode c = true) (Hcb : card_bytes e).
Context (Halloc : ∀ k, alloc e k = true) (Hlen : ∀ p, 0 <= rd_len e p < 2 ^ 16).

Lemma rd_port_new s : 0 <= curr_rd_port s < 32 → wlan_get_rd_port c s = None ∨
  ∃ p, bit (mp_rd_bitmap s) p = true ∧ 0 <= p < 32 ∧ ∃ q, 0 <= q < 32 ∧ wlan_get_rd_port c s = Some (p, set_curr_rd_port q (take_port p s)).
Proof using Hc Hnew.
  intros Hcu. unfold wlan_get_rd_port. rewrite Hnew. cbn [negb andb]. case_match; [by left|]. destruct (bit _ _) eqn:Eb; [|by left]. right.
  exists (curr_rd_port s). split; [done|]. split; [done|]. cbv zeta. eexists. split; [|reflexivity]. rewrite (rc_start c Hc), u_wrap_small by lia.
  destruct (co_mode c (rc_cfg c Hc)) as [(_ & -> & -> & _)|[? _]]; [|congruence]. case_match eqn:Ez; lia.
Qed.
Lemma rest_step s p q : rx_rest s → 0 <= q < 32 → rx_rest (set_curr_rd_port q (take_port p s)) ∧ buffers (set_curr_rd_port q (take_port p s)) = buffers s.
Proof.
  intros [(bs & ls & Hr & Hl) [Hl2 _]] Hq. split; [|done]. split; [|split; [exact Hl2|exact Hq]]. exists bs, ls. split; [by destruct Hr; constructor|done].
Qed.

Lemma upload_one_safe s p : rx_rest s → ∃ s' r lost, upload_one c e p s = Some (s', r) ∧ ledger s s' lost ∧
  mp_rd_bitmap s' = mp_rd_bitmap s ∧ (r = None ∧ lost = [] ∨ r = Some MLAN_STATUS_FAILURE ∧ (length lost <= 1)%nat).
Proof using Hc Hnew Hcb Halloc Hlen.
  intros Hs. pose proof Hs as [(bs & ls & Hr & Hl) [Hl2 Hcu]]. unfold upload_one. destruct (valid_len _ _) eqn:Ev; cbn [negb].
  2: { exists s, (Some MLAN_STATUS_FAILURE), []. split; [done|]. split; [by apply ledger_refl|]. split; [done|right; split; [done|cbn; lia]]. }
  unfold valid_len, SDIO_INTF_HEADER_LEN in Ev. apply negb_true_iff, orb_false_iff in Ev as [Ev1%Z.leb_gt Ev2%Z.ltb_ge]. pose proof (wf_room _ _ _ Hr) as Hroom.
  destruct (blocks_spec (rd_len e p) (Hlen p)) as [Hb _]. cbv zeta. rewrite (u_wrap_small 16) by lia. unfold wlan_alloc_mlan_buffer. rewrite Halloc.
  set (s1 := set_next_id (next_id s + 1) s). set (b := mk_rbuf _ _ _ _ _). set (n := Z.to_nat (blocks (rd_len e p))).
  assert (empty_for b n) as Heb. { subst b n. unfold empty_for. cbn [b_off b_mem b_len b_spa]. rewrite blocks_idem by apply Hlen. rewrite length_replicate. repeat split; lia. }
  assert (rx_wf s1 bs ls) as Hr1 by (by destruct Hr; constructor).
  destruct (mp_aggr_kept c e Hnew Hcb s1 bs ls b n p Hr1) as (s' & ret & E & [(bs' & ls' & xs & lost & Hr' & Hl' & Ht & Hids & Hret)]); [done|done|lia|unfold n; cbn; lia|].
  replace (Z.of_nat n) with (blocks (rd_len e p)) in E by lia. rewrite E. cbn [mbind option_bind]. do 2 eexists. exists lost. split; [reflexivity|].
  pose proof (tk_next _ _ _ Ht) as Hn. cbn [s1 set_next_id next_id] in Hn. destruct (tk_set _ _ _ Ht) as [_ El]. destruct (tk_ring _ _ _ Ht) as [Eb Ec].
  cbn [s1 set_next_id mpa_rx mp_rd_bitmap curr_rd_port] in El, Eb, Ec. split; [|split; [done|]].
  - constructor; [|..|lia|exact (tk_in _ _ _ Ht)].
    + split; [by exists bs', ls'|]. rewrite El, Ec. done.
    + rewrite (buffers_wf s' bs' ls' Hr'), (buffers_wf s bs ls Hr), Hn. replace (next_id s + 1 - next_id s) with 1 by lia.
      rewrite (app_assoc (b_id <$> rx_data_queue s')), (tk_ids _ _ _ Ht). cbn [s1 set_next_id rx_data_queue freed]. rewrite <- !app_assoc, <- Hids. cbn.
      by rewrite Z.add_0_l || done.
  - destruct Hret as [[-> ->]|[-> H1]]; [left|right]; done.
Qed.

Lemma upload_loop_safe s0 fuel : ∀ s, ledger s0 s [] → (length (ports_left (mp_rd_bitmap s)) < fuel)%nat → ∃ s' ret lost, upload_loop fuel c e s = Some (s', ret) ∧
  ledger s0 s' lost ∧ (ret = MLAN_STATUS_SUCCESS ∧ lost = [] ∨ ret = MLAN_STATUS_FAILURE ∧ (length lost <= 1)%nat).
Proof using Hc Hnew Hcb Halloc Hlen.
  induction fuel as [|fuel IH]; intros s Hs Hf; [lia|]. cbn [upload_loop]. pose proof (lg_rest _ _ _ Hs) as Hrest.
  destruct (rd_port_new s) as [->|(p & Hbit & Hp & q & Hq & ->)]; [apply Hrest|exists s, MLAN_STATUS_SUCCESS, []; split; [done|]; split; [done|by left]|].
  destruct (rest_step s p q Hrest Hq) as [Hr1 Hb1]. set (s1 := set_curr_rd_port q (take_port p s)) in *.
  destruct (upload_one_safe s1 p Hr1) as (s2 & r & lost & -> & [Hr2 Hids Hn2 Hin2] & Hbm & Hret). cbn [mbind option_bind].
  assert (ledger s0 s2 lost) as Hl2.
  { destruct Hs as [_ Hids0 Hn0 Hin0]. change (next_id s1) with (next_id s) in *. constructor; [done| |lia|intros H; apply Hin2; by apply Hin0].
    rewrite Hids, Hb1. rewrite app_nil_r in Hids0. rewrite Hids0, <- app_assoc. f_equiv.
    replace (next_id s2 - next_id s0) with ((next_id s - next_id s0) + (next_id s2 - next_id s)) by lia. rewrite seqZ_app by lia.
    by replace (next_id s0 + (next_id s - next_id s0)) with (next_id s) by lia. }
  destruct Hret as [[-> ->]|[-> H1]]; [|exists s2, MLAN_STATUS_FAILURE, lost; split; [done|]; split; [done|by right]].
  apply IH; [done|]. rewrite Hbm. cbn [s1 set_curr_rd_port mp_rd_bitmap take_port set_mp_rd_bitmap]. pose proof (ports_left_clear p _ Hp Hbit). lia.
Qed.
End safe_loop.

(** C22: Whatever bytes a newer card answers with, whichever transfers fail and whatever
    lengths below 2^16 its registers name, reading into the bounce buffer: as long as
    every buffer asked for is got and packets are queued for the receive work
    ([rx_work_flag]), the interrupt is handled to its end without an access outside an
    array or a buffer, and every buffer got for it is afterwards in one place: queued
    (showing its own memory, unless a header gives a length below its own), given
    back, or waiting.  At most one is lost, and only when a transfer failed.  Without a
    buffer, and for packets in blocks that are decoded without the receive work, the
    code does leave its buffers ([recovery_overruns], [spa_stale_buffer]). *)
Theorem upload_safe (c : sdio_cfg) (e : rx_env) (old : PS_STATE) (bitmap : Z) (s : sdio_rx) : rx_cfg_ok c → new_mode c = true → card_bytes e →
  (∀ k, alloc e k = true) → (∀ p, 0 <= rd_len e p < 2 ^ 16) → rx_rest s →
  ∃ s' ret lost, upload_interrupt c e old bitmap s = Some (s', ret) ∧ rx_rest s' ∧
    buffers s' ++ lost ≡ₚ buffers s ++ seqZ (next_id s) (next_id s' - next_id s) ∧
    (Forall within (rx_data_queue s) → Forall within (rx_data_queue s')) ∧
    (ret = MLAN_STATUS_SUCCESS ∧ lost = [] ∨ ret = MLAN_STATUS_FAILURE ∧ (length lost <= 1)%nat).
Proof.
  intros Hc Hnew Hcb Hal Hlen Hs. unfold upload_interrupt.
  assert (ledger s (set_mp_rd_bitmap bitmap s) []) as Hl.
  { destruct (ledger_refl s Hs) as [Hr Hi Hn Hw]. constructor; [|exact Hi|exact Hn|exact Hw].
    destruct Hr as [(bs & ls & Hr & Hl) H]. split; [exists bs, ls; split; [by destruct Hr; constructor|done]|done]. }
  destruct (upload_loop_safe c e Hc Hnew Hcb Hal Hlen s 64 _ Hl) as (s' & ret & lost & -> & [Hr Hi _ Hw] & Hret).
  { pose proof (length_filter (λ j, Z.testbit bitmap j = true) (seqZ 0 32)) as H. rewrite length_seqZ in H.
    unfold ports_left. cbn [mp_rd_bitmap set_mp_rd_bitmap]. lia. }
  cbn [mbind option_bind]. exists (if failed ret then s' else sleep_confirmed old s'), ret, lost. split; [by destruct (failed ret)|].
  unfold sleep_confirmed. repeat case_match; (split; [|split; [exact Hi|by split]]); try done.
  destruct Hr as [(bs & ls & Hr & Hl2) H2]. split; [exists bs, ls; split; [by destruct Hr; constructor|done]|done].
Qed.


(** ** A run, and what goes wrong *)

Definition stray_env : rx_env :=
  mk_env (λ addr len i, if 0 <=? len then Some (replicate (Z.to_nat len) 3) else None) (λ _, true) (λ _ _, PS_STATE_SLEEP) (λ p, (100 * p) mod 65536) 0.
Definition stray_rx : sdio_rx := demo_rx (demo_agg (Some (replicate 1024 0)) 1024 4) 1.
Lemma stray_rest : rx_rest stray_rx.
Proof.
  split; [|done]. exists [], []. split; [|done]. constructor; try done; try (cbn; lia). exists (replicate 1024 0). by rewrite length_replicate.
Defined.
Lemma stray_bytes : card_bytes stray_env.
Proof.
  intros addr len i d. cbn [io stray_env]. destruct (Z.leb_spec 0 len); [|done]. intros [= <-]. rewrite length_replicate. split; [lia|]. by apply Forall_replicate.
Defined.
Lemma upload_safe_witness : ∃ s' ret lost, upload_interrupt demo_rxcfg stray_env PS_STATE_AWAKE 0x7e stray_rx = Some (s', ret) ∧
  buffers s' ++ lost ≡ₚ seqZ 0 (next_id s') ∧ (length lost <= 1)%nat.
Proof.
  destruct (upload_safe demo_rxcfg stray_env PS_STATE_AWAKE 0x7e stray_rx demo_rxcfg_ok eq_refl stray_bytes (λ _, eq_refl))
    as (s' & ret & lost & E & _ & Hi & _ & Hret); [intros p; apply Z.mod_pos_bound; lia|apply stray_rest|].
  exists s', ret, lost. split; [exact E|]. split; [|destruct Hret as [[_ ->]|[_ H]]; [cbn; lia|exact H]].
  rewrite Hi. change (next_id stray_rx) with 0. by rewrite Z.sub_0_r.
Defined.

(** *** Findings *)

Definition deaf_env (len : Z) : rx_env := mk_env (λ _ _ _, None) (λ _, false) (λ _ _, PS_STATE_SLEEP) (λ _, len) len.

(** A packet without room in the aggregate is lost when reading the aggregate fails:
    it is in no list, and nobody gives it back. *)
Lemma failed_aggregate_leaks :
  (let s := demo_rx (demo_agg (Some (replicate 768 0)) 768 16) 0 in
   '(s, _) ← upload_interrupt demo_rxcfg (mk_env (λ _ _ _, None) (λ _, true) (λ _ _, PS_STATE_SLEEP) (λ _, 256) 0) PS_STATE_AWAKE 0x1f s;
   Some (next_id s, buffers s, rx_pkt_cnt (mpa_rx s))) = Some (4, [0; 1; 2], 0%nat).
Proof. vm_compute. reflexivity. Qed.

(** After a packet in blocks a length of four or less leaves [mbuf_deaggr] at the
    buffer already handed up, and nearly 2^32 bytes are copied into it. *)
Lemma spa_stale_buffer : wlan_decode_spa_buffer demo_env (demo_block 8 [1; 2; 3; 4] ++ demo_block 3 []) 128 demo_idle = None ∧
  (s ← wlan_decode_spa_buffer demo_env (demo_block 3 [] ++ demo_block 8 [1; 2; 3; 4]) 128 demo_idle; Some (handled s)) = Some [].
Proof. split; vm_compute; reflexivity. Qed.

(** When no buffer is got the packet is read into [rx_buf], of 4096 bytes unless
    packets come in blocks, while its length was compared with the aggregation buffer's. *)
Lemma recovery_overruns : valid_len 4200 65280 = true ∧
  wlan_sdio_card_to_host_recovery demo_rxcfg (fixed_env (replicate 4352 0) 4200) 0 (blocks 4200) (demo_rx (demo_agg None 65280 16) 1) = None.
Proof. split; vm_compute; reflexivity. Qed.

(** A read that fails there counts as a data packet dropped, with success. *)
Lemma recovery_hides_failure :
  ('(s, ret) ← wlan_sdio_card_to_host_recovery demo_rxcfg (deaf_env 100) 0 256 demo_idle; Some (num_pkt_dropped s, ret)) = Some (1, MLAN_STATUS_SUCCESS).
Proof. vm_compute. reflexivity. Qed.

(** A header with a length below its own gives a packet of nearly 2^32 bytes. *)
Lemma short_header_wraps :
  ('(s, ret) ← upload_interrupt demo_rxcfg (fixed_env (data_block 2 0 256) 200) PS_STATE_AWAKE 1 (demo_rx (demo_agg None 1024 16) 0);
   Some (ret, b_len <$> rx_data_queue s, shown <$> rx_data_queue s)) = Some (MLAN_STATUS_SUCCESS, [4294967294], [None]).
Proof. vm_compute. reflexivity. Qed.

(** With scatter-gather neither type nor length of a packet is tested: an event on a
    data port is taken, and read beyond its buffer. *)
Lemma scattered_event_overread :
  upload_interrupt demo_rxcfg (fixed_env (data_block 100 0 256 ++ data_block 1000 MLAN_TYPE_EVENT 256) 256) PS_STATE_AWAKE 3 (demo_rx (demo_agg None 1024 16) 0) = None.
Proof. vm_compute. reflexivity. Qed.

(** A response no command waits for is copied without its last four bytes, as the
    header is subtracted twice; with fewer than four bytes the copy goes beyond the
    buffer. *)
Lemma response_copied_short :
  ('(s, ret) ← cmd_interrupt demo_rxcfg (fixed_env (data_block 14 MLAN_TYPE_CMD 256) 14) demo_idle; Some (ret, upld_len s, take 12 (upld_buf s)))
    = Some (MLAN_STATUS_SUCCESS, 10, [7; 7; 7; 7; 7; 7; 0; 0; 0; 0; 0; 0]) ∧
  cmd_interrupt demo_rxcfg (fixed_env (data_block 6 MLAN_TYPE_CMD 256) 14) demo_idle = None.
Proof. split; vm_compute; reflexivity. Qed.

(** Ports 0, 1 and 3 reported, not 2: the packets of 0 and 1 wait unread until another
    interrupt reports port 2. *)
Lemma gap_leaves_packets_waiting :
  ('(s, ret) ← upload_interrupt demo_rxcfg demo_env PS_STATE_AWAKE 0xb (demo_rx (demo_agg None 1024 16) 0); Some (ret, rx_pkt_cnt (mpa_rx s), rx_data_queue s))
  = Some (MLAN_STATUS_SUCCESS, 2%nat, []).
Proof. vm_compute. reflexivity. Qed.
